(* ===== verification/_CoqProject ===== *)
-Q . S2P
Prelude.v
CMem.v
Util.v
Register.v
Sync.v
FrameSched.v
Endpoint.v
StageData.v
HostState.v
ChanRegs.v
DwhciCore.v
DwhciXfer.v
DwhciStage.v
DwhciControl.v
Scenarios.v
DwhciAsync.v
ConfigParser.v
CString.v
DeviceName.v
UsbBus.v
DwhciHost.v
UsbFunction.v
UsbString.v
UsbDevice.v
UsbDeviceProofs.v
UsbEnumerate.v
UsbFactory.v
MassDevice.v
MassConfig.v
MassScenario.v
UsbHub.v
KeyMap.v
InputDriver.v
EndpointPair.v
UsbMouse.v
UsbKeyboard.v
UsbMidi.v
GamepadReport.v
GamepadLayout.v
UsbGamepad.v
NetAdapter.v
Smsc951x.v
Lan7800.v
Library.v
LibraryProofs.v
KernelTimer.v
PropertyTags.v
CharGen.v
Screen.v
ScreenDraw.v
ScreenTerm.v
Terminal.v
Alloc.v
AllocProofs.v
Interrupt.v
Cache.v
Memory.v
EnvLib.v
Logger.v
