(* ===== verification/Prelude.v ===== *)
(** * A model of the USPi USB stack, and what is proved of it

    RustBerryPi links the C library USPi (src/ext/uspi) for its USB ports. This
    development models the library, from the registers of the host controller to
    the calls that an application makes, and proves it correct. A file name
    without a path is a file of src/ext/uspi/lib; the headers are in
    src/ext/uspi/include/uspi. The environment is src/ext/uspi/env/lib.

    ** How the program is put together

    An application calls uspilibrary.c. Initialising it enumerates the bus: the
    root port (dwhcirootport.c) makes a device object (usbdevice.c), which reads
    the device's descriptors (usbconfigparser.c, usbstring.c), takes an address
    and asks the factory (usbdevicefactory.c) for a class driver per interface:
    a hub (usbstandardhub.c), which enumerates what is behind it, a disk, a
    keyboard, a mouse, a gamepad, a MIDI instrument or a network adapter. Each
    is a function (usbfunction.c) with a Configure method; it enters itself in
    the name service (devicenameservice.c), where the library finds it.

    A class driver talks to its device through an endpoint (usbendpoint.c) and
    a request, the URB (usbrequest.c). The host controller driver
    (dwhcidevice.c) turns a request into stages, a control message into a setup,
    a data and a status stage. A stage is described by the stage data of a host
    channel (dwhcixferstagedata.c); the driver programs the channel's registers
    (dwhciregister.c) from it, and the controller's interrupts advance it,
    transaction by transaction. Transfers to slower devices behind a hub are
    split; three frame schedulers (dwhciframesched*.c) say in which frame a
    transaction may start and when a split is over. Disks and adapters wait for
    their requests; input devices submit a request with a completion routine,
    which the interrupt handler calls. Shared data is guarded by nested
    critical sections (synchronize.c).

    ** The files, and the code they model

    Ground:
    - [Prelude]: the state-and-fault monad [M], its total-correctness predicate
      [wp], record update, machine integers, bit fields, lists, tactics.
    - [CMem]: the C heap of util.c and string.c: blocks of bytes that may be
      indeterminate, pointers, malloc and free, C strings.
    - [Util]: util.c. [CString]: string.c, the class TString.
    - [Register]: dwhciregister.c; the history of bus events and the interface
      [HasMmio] through which every later file reaches the hardware.
    - [Sync]: synchronize.c for AArch64; the interface [HasCpu].

    Host controller driver:
    - [FrameSched]: the three frame schedulers (one Module each) and the
      virtual methods that select among them.
    - [Endpoint]: usbendpoint.c, usbrequest.c and the accessors of usbdevice.c;
      the interface [HasUsb] to the store of these objects.
    - [StageData]: dwhcixferstagedata.c.
    - [HostState]: the register map (dwhci.h), the driver object, and the
      world [W] that the driver runs in: history, processor, objects, driver
      object, and the interrupts and timers still to come.
    - [ChanRegs]: the values of a channel's registers, and decoding them.
    - [DwhciCore], [DwhciXfer]: dwhcidevice.c; set-up, root port and channel
      allocation in the first, channels, interrupts, stages and requests in the
      second. [DwhciStage], [DwhciControl] and [DwhciAsync] prove a stage, the
      waiting requests and the requests with a routine correct.
    - [Scenarios]: concrete runs of the driver.

    Devices:
    - [UsbBus]: the interface [Host] that the class drivers are proved against:
      control messages and transfers on a bus whose devices are any oracle.
      [DwhciHost] proves that the driver implements it.
    - [ConfigParser], [UsbString], [DeviceName], [UsbFunction]:
      usbconfigparser.c, usbstring.c, devicenameservice.c with macaddress.c,
      and usbfunction.c.
    - [UsbDevice], [UsbDeviceProofs], [UsbEnumerate], [UsbFactory]: usbdevice.c
      and usbdevicefactory.c. [UsbHub]: usbstandardhub.c and dwhcirootport.c,
      mutually recursive through enumeration, with the depth of the tree as
      fuel.

    Class drivers:
    - [MassDevice], [MassConfig], [MassScenario]: usbmassdevice.c.
    - [InputDriver]: what the input drivers share (endpoint search, requests,
      HID report requests). [KeyMap], [UsbKeyboard], [UsbMouse], [UsbMidi]:
      keymap.c, usbkeyboard.c, usbmouse.c, usbmidi.c.
    - [GamepadReport], [GamepadLayout], [UsbGamepad]: usbgamepad.c; the decoder
      of reports, the layout that a report descriptor describes, the driver.
    - [EndpointPair], [NetAdapter], [Smsc951x], [Lan7800]: smsc951x.c and
      lan7800.c, their common shape first.
    - [Library], [LibraryProofs]: uspilibrary.c.

    Environment:
    - [KernelTimer]: env/lib/timer.c with the bindings of uspibind.c.
    - [PropertyTags]: env/lib/bcmmailbox.c and bcmpropertytags.c, and the
      requests of uspibind.c.
    - [CharGen], [Screen]: env/lib/chargenerator.c with font.h, bcmframebuffer.c
      and screen.c. [ScreenDraw]: what painting, scrolling and erasing do to the
      pixels; [ScreenTerm]: every byte sequence is safe; [Terminal]: the abstract
      terminal and the encoding of its commands.
    - [Alloc], [AllocProofs]: env/lib/alloc.c with the critical sections of
      synchronize.c; its invariant and the programs that use it.
    - [Interrupt]: env/lib/interrupt.c. [Cache]: the maintenance of the caches
      in synchronize.c. [Memory]: env/lib/pagetable.c and memory.c, on top of
      the allocator and the caches. [EnvLib], [Logger]: env/lib/util.c and
      string.c, which repeat the library's, and logger.c.

    ** How code becomes definitions

    A function of the source is a definition of the same name in the monad [M]:
    it takes and returns the state explicitly and faults where the C program
    would fail an assertion ([AssertFailed]), access memory it must not
    ([MemFault]) or have undefined behaviour ([UndefBehaviour]). Long functions
    are cut at their blocks into definitions that the function composes in the
    source's order. Integers are [Z] with the conversions of C written out
    ([u8] to [u64], [s8] to [s64]). An object of the source is a record in a
    store indexed by its address, so aliasing is visible. Destructors of local
    objects that only clear a flag are left out; log messages have no effect in
    the model.

    Loops on data recurse on the data or carry fuel taken from it, which is
    proved enough ([str_functions_terminate], [ntoa_correct],
    [string_format_correct], [get_descriptor_correct], [decode_ends]); the
    loops of the class drivers over descriptors take the length of the
    configuration as fuel. Loops with a count in the source (the 999 polls of a
    disk that becomes ready, the retries of a command, the polls of an
    adapter's registers) have this count. Two kinds of loops have no bound in
    the source. Those that wait for the hardware take a bound on the polls
    ([spin], [poll_reg], the mailbox's [spin]); the theorems on them ask for
    the awaited answer within that many polls, whatever it is. The loop of the
    configuration parser takes fuel as an argument; [parser_hangs_or_ends]
    says exactly when no fuel is enough.

    The controller is a function from the history of bus events to the value a
    register read returns ([Hardware]). The theorems on transfers ask of it that
    it ends the transactions it is given ([ends_transactions] of [DwhciStage]),
    each with a status and a size of its own that may depend on all before it.
    The interrupts and timers that arrive are a list in the world ([w_env]). A device on the bus is an
    oracle for the history of requests; a theorem for every oracle holds for a
    device that misbehaves. Code outside the repository is a parameter: the
    firmware, the addresses of DMA buffers ([Layout]), handlers of the
    application, which are events of the history. The class drivers' view of a
    host ([UsbBus]) leaves open what a failed message does to the control
    endpoint. The theorems on class drivers that send messages need it
    back at SETUP and say so ([UsbHostRecovers]); the driver provides that only with controllers that
    refuse nothing but setup packets, see [driver_refines_host] and the findings.
    Requests with a routine are entered with the host's answer in a log of their
    own ([host_submitted] of [InputDriver]).

    ** What is proved

    - Memory and strings: the functions of util.c compute what their
      specification says, write nothing else and end; TString implements an
      abstract string, without leaks, and its formatter agrees with a reference
      formatter on lists where all numerals have at most eleven digits; numerals
      are the positional ones.
    - Bus objects: toggling the data PID packet by packet; well-formed
      endpoints from any descriptor; nested critical sections restore the
      interrupt mask; cache maintenance covers its range.
    - Frame schedulers: every split cycle ends within four complete-splits;
      start-splits avoid the microframes the hub cannot serve.
    - Stage data: what a new stage covers; an invariant that keeps every
      transaction inside the caller's buffer, preserved by completing one.
    - The driver: the channel allocator; bounded waiting for a register bit;
      the order of initialisation; the register values of a started channel;
      the control message and the bulk transfer from the call to the result, as
      the transactions the controller saw, with pid, direction and size, and what
      it answered to each; a request with a routine from submission
      over any number of polls, each with its timer and its transaction, to the
      call of its routine; the driver refines the interface of the class drivers.
    - Descriptors: the parser accepts exactly the well-formed configurations,
      searching one stays inside the buffer; a string is read by exactly the
      requests for it, and is what the device's last answer says.
    - Enumeration: a device that answers as the standard says is told exactly
      the dialog of an enumeration and ends with an address, its descriptors and exactly the functions that a recursion over
      its interfaces finds; the factory's choice by text is one by numbers; a
      device behind hubs is reached by split transfers exactly when needed.
    - Disks: a mass storage object is a block device with a position, whatever
      the device does; configuring one never faults.
    - Input: each report is told exactly as it should be and a request for the
      next one is always submitted to the host, once; letters typed reach the handler once, in order and in
      the right case; a gamepad's report is decoded as its descriptor's layout, which
      is computed apart by the tables of the HID specification; decoding ends.
    - Network: a frame that is sent is the one the chip reads, a frame that an
      honest chip sends is the one received; the registers of a configured chip.
    - The library: what initialising it finds, and its disks as block devices.
    - Environment: a timer fires, once, at its time, whatever the counter's
      wrapping; a request to the firmware gets the firmware's answer.
    - Screen: it shows what an abstract terminal of lines, columns and colours
      shows, pixel by pixel, after any sequence of encoded commands; whatever
      bytes are written, no access leaves the frame buffer.
    - Log: a message is formatted and appears on the screen, memory as before.
    - Allocator: blocks in use are aligned, inside the heap and apart.
    - Processor: an interrupt calls the handler of the first pending line that
      has one; maintaining a cache names each of its lines once; the page table
      maps every address to itself, with the type of memory its region needs, and
      is written and cleaned from the cache before the unit is switched on.
    - Defects: the theorems and notes under "findings" of the manifest; among
      them the control endpoint that a failed data stage leaves out of step,
      two inputs that break the configuration parser, and the formatter's array
      that 64-bit numbers overrun.

    ** What is not modelled

    - Memory of descriptor buffers, names and driver objects of the class
      drivers: they are values, their malloc and free are left out. Heap memory
      is modelled where the code is about it (util.c, string.c, and the
      allocator).
    - Isochronous transfers, which the code refuses, and asynchronous requests
      through split transfers as a whole exchange; their schedulers are proved
      alone.
    - The log: messages have no effect, [LogWrite] of uspibind.c hands them to
      the Rust kernel.
    - The key maps other than the British one, which are tables of the same
      shape that the build does not choose; the sample programs.
    - The rest of src/ext/uspi/env, the bare-metal environment of the samples:
      start-up, exceptions, debugging. (Of [CharGen] to [Logger] this kernel's
      build takes nothing, see env/lib/Makefile; the samples are linked with it.)
    - The Rust kernel, another program in another language. *)
From stdpp Require Export base gmap list numbers.
From Stdlib Require Export ZArith Lia Bool Btauto.
From coqutil Require Import Z.bitblast.

Open Scope Z_scope.

(** [lia] decides division and remainder by a constant. *)
Ltac Zify.zify_post_hook ::= Z.div_mod_to_equations.

(** Bit operations are reasoned about by their equations. *)
#[global] Arguments Z.testbit : simpl never.
#[global] Arguments Z.land : simpl never.
#[global] Arguments Z.lor : simpl never.
#[global] Arguments Z.shiftl : simpl never.
#[global] Arguments Z.shiftr : simpl never.

(** ** Results and the state/error monad *)

(** What a C function can do besides returning. [AssertFailed] is a call of
    [uspi_assertion_failed], [MemFault] an access outside a live object,
    [UndefBehaviour] any other undefined operation of C, and [OutOfFuel] a
    loop that did not leave within the fuel it was given. *)
Inductive fault := AssertFailed | MemFault | UndefBehaviour | OutOfFuel.

Inductive res (A : Type) :=
  | Ok (a : A)
  | Err (f : fault).
Arguments Ok {A} a.
Arguments Err {A} f.

(** [M S A]: code that works on an object of type [S] and returns an [A]. *)
Definition M (S A : Type) : Type := S → res (A * S).

#[export] Instance M_ret S : MRet (M S) := λ A a s, Ok (a, s).
#[export] Instance M_bind S : MBind (M S) := λ A B k m s,
  match m s with
  | Ok (a, s') => k a s'
  | Err f => Err f
  end.

Definition fail {S A} (f : fault) : M S A := λ _, Err f.
Definition get {S} : M S S := λ s, Ok (s, s).
Definition put {S} (s : S) : M S unit := λ _, Ok (tt, s).
Definition gets {S A} (f : S → A) : M S A := λ s, Ok (f s, s).
Definition modify {S} (f : S → S) : M S unit := λ s, Ok (tt, f s).

(** The macro [assert] of include/uspi/assert.h ([NDEBUG] is not defined). *)
Definition c_assert {S} (b : bool) : M S unit :=
  if b then mret tt else fail AssertFailed.

Definition when {S} (b : bool) (m : M S unit) : M S unit :=
  if b then m else mret tt.

(** [for (i = from; ...; i++)], [n] times. *)
Fixpoint for_up {S} (n : nat) (i : Z) (f : Z → M S unit) : M S unit :=
  match n with O => mret tt | Datatypes.S n => f i ;; for_up n (i + 1) f end.

(** Code on a part of the state: [g] finds the part ([None] when the pointer
    dangles), [p] puts it back. *)
Definition zoom {S T A} (g : S → option T) (p : T → S → S) (m : M T A) : M S A :=
  λ s, match g s with
       | Some t => match m t with
                   | Ok (a, t') => Ok (a, p t' s)
                   | Err f => Err f
                   end
       | None => Err MemFault
       end.

(** [wp m Q s]: run on [s], [m] returns without a fault and establishes [Q].
    It is a total-correctness predicate: no fault, enough fuel. *)
Definition wp {S A} (m : M S A) (Q : A → S → Prop) (s : S) : Prop :=
  match m s with
  | Ok (a, s') => Q a s'
  | Err _ => False
  end.

(** [wlp m Q s]: whenever [m] returns, [Q] holds (faults allowed). Used for
    invariants, next to a [wp] theorem for the absence of faults. *)
Definition wlp {S A} (m : M S A) (Q : A → S → Prop) (s : S) : Prop :=
  match m s with
  | Ok (a, s') => Q a s'
  | Err _ => True
  end.

(** [wpe m Q E s]: [m] returns and establishes [Q], or ends in a fault for which
    [E] holds. With [E f := f ≠ OutOfFuel] it states that [m] terminates. *)
Definition wpe {S A} (m : M S A) (Q : A → S → Prop) (E : fault → Prop) (s : S) : Prop :=
  match m s with
  | Ok (a, s') => Q a s'
  | Err f => E f
  end.

Section Wp.
Context {S : Type}.

Lemma wp_ret {A} (a : A) (Q : A → S → Prop) s : Q a s → wp (mret a) Q s.
Proof. done. Qed.

Lemma wp_bind {A B} (m : M S A) (k : A → M S B) Q s :
  wp m (λ a s', wp (k a) Q s') s → wp (m ≫= k) Q s.
Proof. unfold wp, mbind, M_bind. by destruct (m s) as [[a s']|]. Qed.

Lemma wp_bind_inv {A B} (m : M S A) (k : A → M S B) Q s :
  wp (m ≫= k) Q s → wp m (λ a s', wp (k a) Q s') s.
Proof. unfold wp, mbind, M_bind. by destruct (m s) as [[a s']|]. Qed.

Lemma wp_mono {A} (m : M S A) (P Q : A → S → Prop) s :
  wp m P s → (∀ a s', P a s' → Q a s') → wp m Q s.
Proof. unfold wp. destruct (m s) as [[a s']|]; eauto. Qed.

Lemma wp_and {A} (m : M S A) (P Q : A → S → Prop) s :
  wp m P s → wp m Q s → wp m (λ a s', P a s' ∧ Q a s') s.
Proof. unfold wp. destruct (m s) as [[a s']|]; eauto. Qed.

Lemma wp_get (Q : S → S → Prop) s : Q s s → wp get Q s.
Proof. done. Qed.

Lemma wp_put (Q : unit → S → Prop) s s' : Q tt s' → wp (put s') Q s.
Proof. done. Qed.

Lemma wp_gets {A} (f : S → A) (Q : A → S → Prop) s : Q (f s) s → wp (gets f) Q s.
Proof. done. Qed.

Lemma wp_modify (f : S → S) (Q : unit → S → Prop) s : Q tt (f s) → wp (modify f) Q s.
Proof. done. Qed.

Lemma wp_assert b (Q : unit → S → Prop) s : b = true → Q tt s → wp (c_assert b) Q s.
Proof. by intros ->. Qed.

Lemma wp_when b m (Q : unit → S → Prop) s :
  (b = true → wp m Q s) → (b = false → Q tt s) → wp (when b m) Q s.
Proof. destruct b; simpl; intros H1 H2; [by apply H1|by apply H2]. Qed.

Lemma wp_zoom {T A} (g : S → option T) p (m : M T A) Q s t :
  g s = Some t → wp m (λ a t', Q a (p t' s)) t → wp (zoom g p m) Q s.
Proof. unfold wp, zoom. intros ->. by destruct (m t) as [[a t']|]. Qed.

Lemma wp_Ok {A} (m : M S A) (Q : A → S → Prop) s a s' : m s = Ok (a, s') → Q a s' → wp m Q s.
Proof. unfold wp. by intros ->. Qed.

Lemma wp_run {A} (m : M S A) Q s :
  wp m Q s ↔ ∃ a s', m s = Ok (a, s') ∧ Q a s'.
Proof.
  unfold wp. destruct (m s) as [[a s']|]; split; [by eauto| |done|].
  - intros (?&?&?&?). by simplify_eq.
  - intros (?&?&?&?). by simplify_eq.
Qed.

Lemma wlp_bind {A B} (m : M S A) (k : A → M S B) Q s :
  wlp m (λ a s', wlp (k a) Q s') s → wlp (m ≫= k) Q s.
Proof. unfold wlp, mbind, M_bind. by destruct (m s) as [[a s']|]. Qed.

Lemma wlp_mono {A} (m : M S A) (P Q : A → S → Prop) s :
  wlp m P s → (∀ a s', P a s' → Q a s') → wlp m Q s.
Proof. unfold wlp. destruct (m s) as [[a s']|]; eauto. Qed.

Lemma wlp_ret {A} (a : A) (Q : A → S → Prop) s : Q a s → wlp (mret a) Q s.
Proof. done. Qed.

Lemma wlp_assert b (Q : unit → S → Prop) s : (b = true → Q tt s) → wlp (c_assert b) Q s.
Proof. destruct b; unfold wlp; simpl; auto. Qed.

Lemma wlp_zoom {T A} (g : S → option T) p (m : M T A) Q s :
  (∀ t, g s = Some t → wlp m (λ a t', Q a (p t' s)) t) → wlp (zoom g p m) Q s.
Proof.
  unfold wlp, zoom. destruct (g s) as [t|]; [|done]. intros H.
  specialize (H t eq_refl). by destruct (m t) as [[a t']|].
Qed.

Lemma wpe_wp {A} (m : M S A) Q E s : wp m Q s → wpe m Q E s.
Proof. unfold wp, wpe. by destruct (m s) as [[a s']|]. Qed.

(** What is known of every return is known of this one. *)
Lemma wp_told {A} (m : M S A) (P Q : A → S → Prop) s :
  wlp m P s → wp m (λ a s', P a s' → Q a s') s → wp m Q s.
Proof. unfold wp, wlp. destruct (m s) as [[a s']|]; auto. Qed.

Lemma wpe_ret {A} (a : A) (Q : A → S → Prop) E s : Q a s → wpe (mret a) Q E s.
Proof. done. Qed.

Lemma wpe_fail {A} f (Q : A → S → Prop) (E : fault → Prop) s : E f → wpe (fail f) Q E s.
Proof. done. Qed.

Lemma wpe_bind {A B} (m : M S A) (k : A → M S B) Q E s :
  wpe m (λ a s', wpe (k a) Q E s') E s → wpe (m ≫= k) Q E s.
Proof. unfold wpe, mbind, M_bind. by destruct (m s) as [[a s']|]. Qed.

Lemma wpe_mono {A} (m : M S A) (P Q : A → S → Prop) (E F : fault → Prop) s :
  wpe m P E s → (∀ a s', P a s' → Q a s') → (∀ f, E f → F f) → wpe m Q F s.
Proof. unfold wpe. destruct (m s) as [[a s']|]; eauto. Qed.

Lemma wpe_zoom {T A} (g : S → option T) p (m : M T A) Q E s t :
  g s = Some t → wpe m (λ a t', Q a (p t' s)) E t → wpe (zoom g p m) Q E s.
Proof. unfold wpe, zoom. intros ->. by destruct (m t) as [[a t']|]. Qed.

(** The monad laws, pointwise. *)
Lemma bind_ret_l {A B} (a : A) (k : A → M S B) s : (mret a ≫= k) s = k a s.
Proof. done. Qed.

Lemma bind_ok {A B} (m : M S A) (k : A → M S B) s a s' :
  m s = Ok (a, s') → (m ≫= k) s = k a s'.
Proof. unfold mbind, M_bind. by intros ->. Qed.

Lemma bind_err {A B} (m : M S A) (k : A → M S B) s f :
  m s = Err f → (m ≫= k) s = Err f.
Proof. unfold mbind, M_bind. by intros ->. Qed.

Lemma bind_Ok_inv {A B} (m : M S A) (k : A → M S B) s b s'' :
  (m ≫= k) s = Ok (b, s'') → ∃ a s', m s = Ok (a, s') ∧ k a s' = Ok (b, s'').
Proof. unfold mbind, M_bind. destruct (m s) as [[a s']|]; naive_solver. Qed.
End Wp.

(** The condition of an assertion, from the hypotheses. *)
Ltac solve_bool :=
  first [ done
        | apply negb_true_iff, Z.eqb_neq; first [done | lia]
        | apply negb_true_iff; assumption
        | apply Z.eqb_eq; first [done | lia]
        | apply Z.ltb_lt; lia
        | apply Z.leb_le; lia
        | apply bool_decide_eq_true_2; done ].

(** One symbolic step of [wp]; [wp_steps] repeats it. *)
Ltac wp_step :=
  lazymatch goal with
  | |- wp (mret _) _ _ => apply wp_ret
  | |- wp (_ ≫= _) _ _ => apply wp_bind
  | |- wp get _ _ => apply wp_get
  | |- wp (put _) _ _ => apply wp_put
  | |- wp (gets _) _ _ => apply wp_gets
  | |- wp (modify _) _ _ => apply wp_modify
  | |- wp (c_assert _) _ _ => apply wp_assert; [try solve_bool|]
  end.
Ltac wp_steps := repeat (wp_step; simpl).

(** ** Record update *)

(** [r <| f := v |>] is [r] with field [f] set to [v]. A record opts in with
    an [Eta] instance, its constructor applied to its own projections. *)
Class Eta (R : Type) := eta : R → R.
Class Upd {R T : Type} (proj : R → T) := upd : (T → T) → R → R.
Arguments upd {R T} proj {_} _ _.

Ltac build_upd proj :=
  lazymatch type of proj with
  | ?R → ?T =>
      let e := constr:(_ : Eta R) in
      let e := eval hnf in e in
      let e := eval pattern proj in e in
      lazymatch e with
      | ?g _ =>
          let b := constr:(λ (f : T → T), g (λ r, f (proj r))) in
          let b := eval cbv beta in b in
          exact b
      end
  end.
#[export] Hint Extern 1 (@Upd _ _ ?proj) => build_upd proj : typeclass_instances.

Declare Scope c_scope.
Delimit Scope c_scope with C.
Notation "r '<|' f ':=' v '|>'" := (upd f (λ _, v) r)
  (at level 1, left associativity, format "r  '<|' f  ':='  v '|>'").

(** ** Machine integers

    A w-bit value is a [Z]; the conversions below are C's. *)

Definition u8 (z : Z) : Z := z mod 256.
Definition u16 (z : Z) : Z := z mod 65536.
Definition u32 (z : Z) : Z := z mod 4294967296.
Definition u64 (z : Z) : Z := z mod 18446744073709551616.
Definition s8 (z : Z) : Z := (z + 128) mod 256 - 128.
Definition s32 (z : Z) : Z := (z + 2147483648) mod 4294967296 - 2147483648.
Definition s64 (z : Z) : Z :=
  (z + 9223372036854775808) mod 18446744073709551616 - 9223372036854775808.

(** [~z] converted to [u32]. *)
Definition not32 (z : Z) : Z := u32 (Z.lnot z).

(** The [int] (or flag word) [z] used as a truth value. *)
Definition truthy (z : Z) : bool := negb (z =? 0).

Definition is_u8 (z : Z) : Prop := 0 <= z < 256.
Definition is_u16 (z : Z) : Prop := 0 <= z < 65536.
Definition is_u32 (z : Z) : Prop := 0 <= z < 4294967296.
Definition is_u64 (z : Z) : Prop := 0 <= z < 18446744073709551616.

Create HintDb cint.
Create Rewrite HintDb cint.

Lemma u8_range z : is_u8 (u8 z). Proof. unfold is_u8, u8. lia. Qed.
Lemma u16_range z : is_u16 (u16 z). Proof. unfold is_u16, u16. lia. Qed.
Lemma u32_range z : is_u32 (u32 z). Proof. unfold is_u32, u32. lia. Qed.
Lemma u64_range z : is_u64 (u64 z). Proof. unfold is_u64, u64. lia. Qed.
Lemma u8_id z : is_u8 z → u8 z = z. Proof. unfold is_u8, u8. lia. Qed.
Lemma u16_id z : is_u16 z → u16 z = z. Proof. unfold is_u16, u16. lia. Qed.
Lemma u32_id z : is_u32 z → u32 z = z. Proof. unfold is_u32, u32. lia. Qed.
Lemma u64_id z : is_u64 z → u64 z = z. Proof. unfold is_u64, u64. lia. Qed.

#[export] Hint Resolve u8_range u16_range u32_range u64_range : cint.
#[export] Hint Rewrite u8_id u16_id u32_id u64_id using (solve [auto with cint]) : cint.

(** [cint] unfolds the conversions and leaves linear arithmetic to [lia]. *)
Ltac cint :=
  unfold is_u8, is_u16, is_u32, is_u64, u8, u16, u32, u64, s8, s32, s64 in *; lia.

(** ** Bit fields *)

(** [field lo n x]: the [n]-bit field of [x] at bit [lo]. *)
Definition field (lo n x : Z) : Z := Z.land (Z.shiftr x lo) (Z.ones n).

Lemma truthy_spec z : truthy z = true ↔ z ≠ 0.
Proof. unfold truthy. destruct (Z.eqb_spec z 0); naive_solver. Qed.

Lemma truthy_false z : truthy z = false ↔ z = 0.
Proof. unfold truthy. destruct (Z.eqb_spec z 0); naive_solver. Qed.

Lemma truthy_bit x i : 0 <= i → truthy (Z.land x (Z.shiftl 1 i)) = Z.testbit x i.
Proof.
  intros Hi. destruct (Z.testbit x i) eqn:E.
  - apply truthy_spec. intros H. apply (f_equal (λ z, Z.testbit z i)) in H.
    rewrite Z.land_spec, E, Z.bits_0, Z.shiftl_spec, Z.sub_diag in H by lia. done.
  - apply truthy_false. apply Z.bits_inj'. intros j Hj.
    rewrite Z.land_spec, Z.bits_0, Z.shiftl_spec by lia.
    destruct (decide (j = i)) as [->|Hne]; [by rewrite E|].
    replace (Z.testbit 1 (j - i)) with false; [by rewrite andb_false_r|].
    destruct (Z.ltb_spec j i); [by rewrite Z.testbit_neg_r by lia|].
    symmetry. apply Z.bits_above_log2; simpl; lia.
Qed.

Lemma u32_land_ones z : u32 z = Z.land z (Z.ones 32).
Proof. by rewrite Z.land_ones. Qed.

Lemma u32_testbit z i : 0 <= i → Z.testbit (u32 z) i = Z.testbit z i && (i <? 32).
Proof.
  intros. rewrite u32_land_ones, Z.land_spec. f_equal.
  destruct (Z.ltb_spec i 32); [apply Z.ones_spec_low|apply Z.ones_spec_high]; lia.
Qed.

Lemma land_u32 x y : is_u32 x → 0 <= y → is_u32 (Z.land x y).
Proof.
  unfold is_u32. intros Hx Hy. split; [apply Z.land_nonneg; lia|].
  destruct (decide (Z.land x y = 0)) as [->|]; [lia|].
  apply Z.log2_lt_pow2 with (b := 32); [assert (0 <= Z.land x y) by (apply Z.land_nonneg; lia); lia|].
  eapply Z.le_lt_trans; [apply Z.log2_land; lia|].
  destruct (decide (x = 0)) as [->|]; [by rewrite Z.land_0_l in *|].
  assert (Z.log2 x < 32) by (apply Z.log2_lt_pow2; lia). lia.
Qed.

Lemma lor_u32 x y : is_u32 x → is_u32 y → is_u32 (Z.lor x y).
Proof.
  unfold is_u32. intros Hx Hy. split; [apply Z.lor_nonneg; lia|].
  destruct (decide (Z.lor x y = 0)) as [->|]; [lia|].
  apply Z.log2_lt_pow2 with (b := 32); [assert (0 <= Z.lor x y) by (apply Z.lor_nonneg; lia); lia|].
  rewrite Z.log2_lor by lia.
  assert (∀ z, 0 <= z < 2 ^ 32 → Z.log2 z < 32) as Hl.
  { intros z Hz. destruct (decide (z = 0)) as [->|]; [done|].
    apply Z.log2_lt_pow2; lia. }
  apply Z.max_lub_lt; apply Hl; lia.
Qed.

Lemma not32_range z : is_u32 (not32 z).
Proof. apply u32_range. Qed.
#[export] Hint Resolve land_u32 lor_u32 not32_range : cint.

Lemma field_mod lo n x : 0 <= lo → 0 <= n → field lo n x = (x / 2 ^ lo) mod 2 ^ n.
Proof. intros. unfold field. by rewrite Z.land_ones, Z.shiftr_div_pow2 by lia. Qed.

(** ** Lists *)

(** [overwrite k new l]: [l] with [new] written over it from index [k]. *)
Definition overwrite {A} (k : nat) (new l : list A) : list A :=
  take k l ++ new ++ drop (k + length new) l.

Arguments overwrite : simpl never.

Lemma overwrite_length {A} k (new l : list A) :
  (k + length new <= length l)%nat → length (overwrite k new l) = length l.
Proof. unfold overwrite. intros. rewrite !length_app, length_take, length_drop. lia. Qed.

Lemma overwrite_nil {A} k (l : list A) : overwrite k [] l = l.
Proof. unfold overwrite. simpl. rewrite Nat.add_0_r. apply take_drop. Qed.

Lemma overwrite_cons {A} k x (new l : list A) :
  (k < length l)%nat → overwrite k (x :: new) l = overwrite (S k) new (<[k := x]> l).
Proof.
  intros Hk. unfold overwrite. simpl.
  rewrite drop_insert_lt by lia.
  rewrite (take_S_r _ _ x) by (apply list_lookup_insert_eq; lia).
  rewrite take_insert_ge by lia. rewrite <- app_assoc. simpl.
  by replace (k + S (length new))%nat with (S (k + length new)) by lia.
Qed.

Lemma overwrite_app {A} k (n1 n2 l : list A) :
  (k + length n1 + length n2 <= length l)%nat →
  overwrite (k + length n1) n2 (overwrite k n1 l) = overwrite k (n1 ++ n2) l.
Proof.
  revert k l. induction n1 as [|x n1 IH]; simpl; intros k l Hl.
  - by rewrite Nat.add_0_r, overwrite_nil.
  - rewrite !overwrite_cons by (simpl; lia).
    replace (k + S (length n1))%nat with (S k + length n1)%nat by lia.
    rewrite IH; [done|rewrite length_insert; lia].
Qed.

Lemma take_overwrite {A} k (new l : list A) :
  (k + length new <= length l)%nat → take (k + length new) (overwrite k new l) = take k l ++ new.
Proof.
  intros. unfold overwrite. rewrite app_assoc. apply take_app_length'.
  rewrite length_app, length_take. lia.
Qed.

Lemma lookup_overwrite_ne {A} k (new l : list A) i :
  (i < k ∨ k + length new <= i)%nat → (k + length new <= length l)%nat →
  overwrite k new l !! i = l !! i.
Proof.
  intros Hi Hl. unfold overwrite. destruct Hi as [Hi|Hi].
  - rewrite lookup_app_l by (rewrite length_take; lia). by rewrite lookup_take_lt.
  - rewrite lookup_app_r by (rewrite length_take; lia).
    rewrite lookup_app_r by (rewrite length_take; lia).
    rewrite lookup_drop, length_take. f_equal. lia.
Qed.

Lemma drop_cons_lookup {A} k (l r : list A) x : drop k l = x :: r → l !! k = Some x.
Proof. intros H. rewrite <- (Nat.add_0_r k), <- lookup_drop. by rewrite H. Qed.

Lemma drop_cons_drop {A} k (l r : list A) x : drop k l = x :: r → drop (k + 1) l = r.
Proof. intros H. by rewrite <- drop_drop, H. Qed.

Lemma take_drop_overwrite {A} k n (new l : list A) :
  (k + n + length new <= length l)%nat →
  take (n + length new) (drop k (overwrite (k + n) new l)) = take n (drop k l) ++ new.
Proof.
  intros Hl. unfold overwrite. rewrite drop_app_le by (rewrite length_take; lia).
  rewrite <- take_drop_commute, app_assoc. apply take_app_length'.
  rewrite length_app, length_take, length_drop. lia.
Qed.

(** ** Bit fields, continued *)

Lemma lor_disjoint a b k : 0 <= k → 0 <= a < 2 ^ k → Z.lor a (Z.shiftl b k) = a + b * 2 ^ k.
Proof.
  intros Hk Ha. rewrite <- Z.shiftl_mul_pow2, <- (Z.add_lor_land a) by lia.
  assert (Z.land a (Z.shiftl b k) = 0) as ->; [|lia].
  apply Z.bits_inj'. intros i Hi. rewrite Z.land_spec, Z.shiftl_spec, Z.bits_0 by lia.
  destruct (Z.ltb_spec i k).
  - by rewrite (Z.testbit_neg_r b), andb_false_r by lia.
  - destruct (decide (a = 0)) as [->|]; [by rewrite Z.bits_0|].
    rewrite (Z.bits_above_log2 a); [done|lia|].
    assert (Z.log2 a < k) by (apply Z.log2_lt_pow2; lia). lia.
Qed.

(** Masking a field in place and shifting it down reads the field. *)
Lemma land_shiftr_field lo n x :
  0 <= lo → 0 <= n →
  Z.shiftr (Z.land x (Z.shiftl (Z.ones n) lo)) lo = (x / 2 ^ lo) mod 2 ^ n.
Proof.
  intros. rewrite Z.shiftr_land, Z.shiftr_shiftl_l, Z.sub_diag, Z.shiftl_0_r by lia.
  by rewrite Z.land_ones, Z.shiftr_div_pow2 by lia.
Qed.

Lemma land_field lo n x :
  0 <= lo → 0 <= n →
  Z.land x (Z.shiftl (Z.ones n) lo) = ((x / 2 ^ lo) mod 2 ^ n) * 2 ^ lo.
Proof.
  intros. rewrite <- land_shiftr_field by lia.
  rewrite <- Z.shiftl_mul_pow2, <- Z.ldiff_ones_r by lia.
  apply Z.bits_inj'. intros i Hi.
  rewrite Z.ldiff_spec, !Z.land_spec, Z.shiftl_spec by lia.
  destruct (Z.ltb_spec i lo).
  - by rewrite (Z.testbit_neg_r (Z.ones n)), andb_false_r by lia.
  - by rewrite (Z.ones_spec_high lo), andb_true_r by lia.
Qed.

(** Rounding down to a multiple of a power of two. *)
Lemma land_align k n : 0 <= k <= 32 → is_u32 n → Z.land n (not32 (Z.ones k)) = n - n mod 2 ^ k.
Proof.
  intros Hk Hn. replace (n - n mod 2 ^ k) with (n / 2 ^ k * 2 ^ k) by (rewrite (Z.mod_eq n (2 ^ k)); lia).
  rewrite <- Z.shiftr_div_pow2, <- Z.shiftl_mul_pow2 by lia. apply Z.bits_inj'. intros i Hi.
  unfold not32. rewrite Z.land_spec, u32_testbit, Z.lnot_spec, Z.shiftl_spec by lia.
  destruct (Z.ltb_spec i k).
  - rewrite Z.ones_spec_low by lia. rewrite (Z.testbit_neg_r _ (i - k)) by lia. by rewrite andb_false_r.
  - rewrite Z.ones_spec_high, Z.shiftr_spec by lia. replace (i - k + k) with i by lia. cbn [negb andb].
    destruct (Z.ltb_spec i 32); [by rewrite andb_true_r|].
    assert (Z.testbit n i = false) as ->; [|done]. rewrite <- (u32_id n) by done.
    rewrite u32_testbit, (proj2 (Z.ltb_ge i 32)) by lia. by rewrite andb_false_r.
Qed.

(** Equality of bit expressions, bit by bit. *)
Ltac bits :=
  Z.bitblast;
  repeat match goal with
  | |- context [Z.testbit ?x ?i] => rewrite (Z.testbit_neg_r x i) by lia
  end;
  rewrite ?andb_false_r, ?orb_false_r; try btauto.

(** ** Fresh keys of a store, for [malloc] *)

Definition fresh_key {A} (m : gmap Z A) : Z := 1 + map_fold (λ p _ q, Z.max p q) 0 m.

Lemma fresh_key_spec {A} (m : gmap Z A) : 0 < fresh_key m ∧ m !! fresh_key m = None.
Proof.
  unfold fresh_key.
  assert (0 <= map_fold (λ p (_ : A) q, Z.max p q) 0 m ∧
    ∀ p r, m !! p = Some r → p <= map_fold (λ p _ q, Z.max p q) 0 m) as [H0 Hle].
  { apply (map_fold_weak_ind (λ r m, 0 <= r ∧ ∀ p x, m !! p = Some x → p <= r)).
    - split; [lia|]. intros p x Hp. by rewrite lookup_empty in Hp.
    - intros i x m' r Hi [Hr Hm]. split; [lia|]. intros p y Hp.
      apply lookup_insert_Some in Hp as [[-> _]|[_ Hp]]; [lia|]. specialize (Hm _ _ Hp). lia. }
  split; [lia|]. destruct (m !! _) as [r|] eqn:E; [|done]. apply Hle in E. lia.
Qed.
