(* ===== verification/CMem.v ===== *)
(** * The C memory seen by lib/util.c and lib/string.c

    Objects are blocks of bytes; a pointer is a block and an offset. A byte is
    [None] while it is indeterminate. Every access is checked: out of bounds,
    through a freed block, or of an indeterminate value used as a [char], is a
    [MemFault]. [malloc] and [free] are those declared in include/uspios.h. *)
From S2P Require Import Prelude.

Record ptr := Ptr { blk : nat; off : nat }.
#[export] Instance ptr_eq_dec : EqDecision ptr.
Proof. solve_decision. Defined.

(** [p + n] *)
Definition padd (p : ptr) (n : nat) : ptr := Ptr (blk p) (off p + n).

Record mem := Mem { blocks : gmap nat (list (option Z)); fresh : nat }.
#[global] Instance mem_eta : Eta mem := λ m, Mem (blocks m) (fresh m).

(** The byte at [p], if [p] is in bounds. *)
Definition cell (m : mem) (p : ptr) : option (option Z) :=
  match blocks m !! blk p with Some bs => bs !! off p | None => None end.

Definition upd_block (b : nat) (bs : list (option Z)) (m : mem) : mem :=
  m <| blocks := <[b := bs]> (blocks m) |>.

(** Reduces pointer arithmetic and nothing else. *)
Ltac psimpl := cbn [blk off padd] in *.

(** Copying a byte, which may be indeterminate. *)
Definition peek (p : ptr) : M mem (option Z) := λ m,
  match cell m p with Some c => Ok (c, m) | None => Err MemFault end.

Definition poke (p : ptr) (c : option Z) : M mem unit := λ m,
  match blocks m !! blk p with
  | Some bs => if (off p <? length bs)%nat
               then Ok (tt, upd_block (blk p) (<[off p := c]> bs) m)
               else Err MemFault
  | None => Err MemFault
  end.

(** Reading a [char] (as an unsigned byte) and writing one. *)
Definition load (p : ptr) : M mem Z :=
  c ← peek p;
  match c with Some b => mret b | None => fail MemFault end.

Definition store (p : ptr) (v : Z) : M mem unit := poke p (Some (u8 v)).

(** [void *malloc (unsigned nSize)]: the size is converted to [unsigned]. *)
Definition malloc (nSize : Z) : M mem ptr := λ m,
  Ok (Ptr (fresh m) 0,
      Mem (<[fresh m := replicate (Z.to_nat (u32 nSize)) None]> (blocks m)) (S (fresh m))).

Definition free (p : ptr) : M mem unit := λ m,
  match blocks m !! blk p with
  | Some _ => if (off p =? 0)%nat then Ok (tt, m <| blocks := delete (blk p) (blocks m) |>)
              else Err MemFault
  | None => Err MemFault
  end.

(** Fuel for a loop that advances a pointer into [p]'s block at each turn. *)
Definition fuel_at (p : ptr) : M mem nat :=
  gets (λ m, match blocks m !! blk p with Some bs => S (length bs) | None => 1%nat end).

(** Blocks are allocated below [fresh]. *)
Definition mem_wf (m : mem) : Prop := ∀ b, (fresh m <= b)%nat → blocks m !! b = None.

(** [cstr m p l]: a C string with the characters [l] at [p]. *)
Fixpoint cstr (m : mem) (p : ptr) (l : list Z) : Prop :=
  match l with
  | [] => cell m p = Some (Some 0)
  | c :: l' => cell m p = Some (Some c) ∧ 0 < c < 256 ∧ cstr m (padd p 1) l'
  end.

Abbreviation char_ok := (λ c : Z, 0 < c < 256).
(** The cells of the string [l] with its terminator. *)
Definition cells_of (l : list Z) : list (option Z) := map Some l ++ [Some 0].

Lemma padd_0 p : padd p 0 = p.
Proof. destruct p. unfold padd. simpl. by rewrite Nat.add_0_r. Qed.

Lemma padd_padd p a b : padd (padd p a) b = padd p (a + b).
Proof. unfold padd. simpl. by rewrite Nat.add_assoc. Qed.

Lemma cells_of_length l : length (cells_of l) = S (length l).
Proof. unfold cells_of. rewrite length_app, length_map. simpl. lia. Qed.

Lemma lookup_upd_block b bs m : blocks (upd_block b bs m) !! b = Some bs.
Proof. apply lookup_insert_eq. Qed.

Lemma lookup_upd_block_ne b b' bs m :
  b ≠ b' → blocks (upd_block b bs m) !! b' = blocks m !! b'.
Proof. intros. by apply lookup_insert_ne. Qed.

Lemma upd_block_twice b bs bs' m : upd_block b bs' (upd_block b bs m) = upd_block b bs' m.
Proof. unfold upd_block, upd. simpl. f_equal. apply insert_insert_eq. Qed.

Lemma upd_block_same b bs m : blocks m !! b = Some bs → upd_block b bs m = m.
Proof. intros. unfold upd_block, upd. destruct m; simpl in *. f_equal. by apply insert_id. Qed.

Lemma mem_wf_upd_block b bs m : mem_wf m → is_Some (blocks m !! b) → mem_wf (upd_block b bs m).
Proof.
  intros Hm [x Hb] b' Hb'. destruct (decide (b = b')) as [->|].
  - by rewrite (Hm b') in Hb.
  - rewrite lookup_upd_block_ne by done. by apply Hm.
Qed.

Lemma mem_wf_fresh m b bs : mem_wf m → blocks m !! b = Some bs → (b < fresh m)%nat.
Proof.
  intros Hm Hb. destruct (Nat.ltb_spec b (fresh m)); [done|].
  by rewrite (Hm b) in Hb by done.
Qed.

Section MemWp.
Implicit Types (m : mem).

Lemma wp_peek p m c (Q : option Z → mem → Prop) :
  cell m p = Some c → Q c m → wp (peek p) Q m.
Proof. unfold wp, peek. by intros ->. Qed.

Lemma wp_load p m b (Q : Z → mem → Prop) :
  cell m p = Some (Some b) → Q b m → wp (load p) Q m.
Proof. intros Hc HQ. unfold load. wp_step. eapply wp_peek; [done|]. simpl. by wp_step. Qed.

Lemma wp_poke p c m bs (Q : unit → mem → Prop) :
  blocks m !! blk p = Some bs → (off p < length bs)%nat →
  Q tt (upd_block (blk p) (<[off p := c]> bs) m) → wp (poke p c) Q m.
Proof.
  unfold wp, poke. intros -> Hl HQ.
  by rewrite (proj2 (Nat.ltb_lt _ _)) by done.
Qed.

Lemma wp_store p v m bs (Q : unit → mem → Prop) :
  blocks m !! blk p = Some bs → (off p < length bs)%nat →
  Q tt (upd_block (blk p) (<[off p := Some (u8 v)]> bs) m) → wp (store p v) Q m.
Proof. apply wp_poke. Qed.

Lemma wp_malloc n m (Q : ptr → mem → Prop) :
  Q (Ptr (fresh m) 0)
    (Mem (<[fresh m := replicate (Z.to_nat (u32 n)) None]> (blocks m)) (S (fresh m))) →
  wp (malloc n) Q m.
Proof. done. Qed.

Lemma wp_free p m bs (Q : unit → mem → Prop) :
  blocks m !! blk p = Some bs → off p = 0%nat →
  Q tt (m <| blocks := delete (blk p) (blocks m) |>) → wp (free p) Q m.
Proof. unfold wp, free. intros -> -> HQ. done. Qed.

Lemma wp_fuel_at p m bs (Q : nat → mem → Prop) :
  blocks m !! blk p = Some bs → Q (S (length bs)) m → wp (fuel_at p) Q m.
Proof. unfold wp, fuel_at, gets. by intros ->. Qed.

(** *** C strings *)

Lemma cell_lt m p c : cell m p = Some c →
  ∃ bs, blocks m !! blk p = Some bs ∧ (off p < length bs)%nat.
Proof.
  unfold cell. destruct (blocks m !! blk p) as [bs|]; [|done].
  intros H. exists bs. split; [done|]. by eapply lookup_lt_Some.
Qed.

Lemma cstr_bound m p l : cstr m p l →
  ∃ bs, blocks m !! blk p = Some bs ∧ (off p + length l < length bs)%nat.
Proof.
  revert p. induction l as [|c l IH]; simpl; intros p.
  - intros H%cell_lt. destruct H as (bs&?&?). exists bs. split; [done|lia].
  - intros (_&_&H). destruct (IH _ H) as (bs&Hb&Hl). simpl in *.
    exists bs. split; [done|lia].
Qed.

Lemma cstr_chars m p l : cstr m p l → Forall char_ok l.
Proof.
  revert p. induction l as [|c l IH]; simpl; intros p; [constructor|].
  intros (_&?&?). constructor; eauto.
Qed.

Lemma cstr_frame m m' p l :
  blocks m' !! blk p = blocks m !! blk p → cstr m p l → cstr m' p l.
Proof.
  intros Hb. assert (∀ o, cell m' (Ptr (blk p) o) = cell m (Ptr (blk p) o)) as Hc.
  { intros o. unfold cell. simpl. by rewrite Hb. }
  destruct p as [b o]. simpl in *. clear Hb. revert o.
  induction l as [|c l IH]; simpl; intros o; [by rewrite Hc|].
  rewrite Hc. intros (?&?&?). split_and!; [done|lia|lia|]. by apply IH.
Qed.

Lemma cstr_upd_block_ne m b bs p l :
  blk p ≠ b → cstr m p l → cstr (upd_block b bs m) p l.
Proof. intros. eapply cstr_frame; [|done]. by rewrite lookup_upd_block_ne. Qed.

Lemma cstr_of_cells m b bs k l :
  blocks m !! b = Some bs → Forall char_ok l →
  take (S (length l)) (drop k bs) = cells_of l → cstr m (Ptr b k) l.
Proof.
  intros Hb. revert k. induction l as [|c l IH]; intros k Hl Ht.
  - simpl in *. unfold cell. simpl. rewrite Hb.
    destruct (drop k bs) as [|x r] eqn:E; [done|].
    unfold cells_of in Ht. simpl in Ht. injection Ht as ->.
    by eapply drop_cons_lookup.
  - apply Forall_cons_1 in Hl as [Hc Hl].
    destruct (drop k bs) as [|x r] eqn:E; [done|].
    unfold cells_of in Ht. simpl in Ht. injection Ht as -> Ht.
    simpl. split_and!; [|lia|lia|].
    + unfold cell. simpl. rewrite Hb. by eapply drop_cons_lookup.
    + unfold padd. simpl. apply IH; [done|].
      by rewrite (drop_cons_drop _ _ _ _ E).
Qed.

(** Writing [l] and its terminator at [k] makes a C string there. *)
Lemma cstr_overwrite m b bs k l :
  Forall char_ok l → (k + S (length l) <= length bs)%nat →
  cstr (upd_block b (overwrite k (cells_of l) bs) m) (Ptr b k) l.
Proof.
  intros Hl Hk. eapply cstr_of_cells; [apply lookup_upd_block|done|].
  unfold overwrite. rewrite drop_app_length' by (rewrite length_take; lia).
  rewrite <- cells_of_length. apply take_app_length.
Qed.
End MemWp.

Lemma u8_char c : 0 < c < 256 → u8 c = c.
Proof. intros. apply u8_id. unfold is_u8. lia. Qed.
