(* ===== verification/Util.v ===== *)
(** * lib/util.c: memory, string and byte-order functions

    Each loop of the source is a [Fixpoint]. Loops counted by [nLength] or
    [nMaxLen] recurse on that count; loops that run to a terminator carry fuel
    taken from the length of the block they walk ([fuel_at]), which
    [str_functions_terminate] shows to be enough on every input. *)
From S2P Require Import Prelude CMem.

(** ** Definitions *)

Fixpoint memset_loop (p : ptr) (nValue : Z) (nLength : nat) : M mem unit :=
  match nLength with
  | O => mret tt
  | S n => store p nValue ;; memset_loop (padd p 1) nValue n
  end.

Definition uspi_memset (pBuffer : ptr) (nValue : Z) (nLength : nat) : M mem ptr :=
  memset_loop pBuffer nValue nLength ;; mret pBuffer.

Fixpoint memcpy_loop (pd ps : ptr) (nLength : nat) : M mem unit :=
  match nLength with
  | O => mret tt
  | S n => c ← peek ps; poke pd c ;; memcpy_loop (padd pd 1) (padd ps 1) n
  end.

Definition uspi_memcpy (pDest pSrc : ptr) (nLength : nat) : M mem ptr :=
  memcpy_loop pDest pSrc nLength ;; mret pDest.

Fixpoint uspi_memcmp (p1 p2 : ptr) (nLength : nat) : M mem Z :=
  match nLength with
  | O => mret 0
  | S n =>
      a ← load p1; b ← load p2;
      if b <? a then mret 1
      else if a <? b then mret (-1)
      else uspi_memcmp (padd p1 1) (padd p2 1) n
  end.

Fixpoint strlen_loop (fuel : nat) (pString : ptr) (nResult : Z) : M mem Z :=
  match fuel with
  | O => fail OutOfFuel
  | S f =>
      c ← load pString;
      if c =? 0 then mret nResult
      else strlen_loop f (padd pString 1) (u64 (nResult + 1))
  end.

Definition uspi_strlen (pString : ptr) : M mem Z :=
  f ← fuel_at pString; strlen_loop f pString 0.

(** [char] is signed ([-fsigned-char]). *)
Definition load_char (p : ptr) : M mem Z := c ← load p; mret (s8 c).

Fixpoint strcmp_loop (fuel : nat) (p1 p2 : ptr) : M mem Z :=
  match fuel with
  | O => fail OutOfFuel
  | S f =>
      a ← load_char p1; b ← load_char p2;
      if negb (a =? 0) && negb (b =? 0) then
        if b <? a then mret 1
        else if a <? b then mret (-1)
        else strcmp_loop f (padd p1 1) (padd p2 1)
      else
        if b <? a then mret 1
        else if a <? b then mret (-1)
        else mret 0
  end.

Definition uspi_strcmp (pString1 pString2 : ptr) : M mem Z :=
  f ← fuel_at pString1; strcmp_loop f pString1 pString2.

(** The copy loop shared by [strcpy] and [strcat]; returns the final [p]. *)
Fixpoint strcpy_loop (fuel : nat) (p pSrc : ptr) : M mem ptr :=
  match fuel with
  | O => fail OutOfFuel
  | S f =>
      c ← load pSrc;
      if c =? 0 then mret p
      else store p c ;; strcpy_loop f (padd p 1) (padd pSrc 1)
  end.

Definition uspi_strcpy (pDest pSrc : ptr) : M mem ptr :=
  f ← fuel_at pSrc;
  p ← strcpy_loop f pDest pSrc;
  store p 0 ;; mret pDest.

Fixpoint strncpy_loop (pDest pSrc : ptr) (nMaxLen : nat) : M mem (ptr * nat) :=
  match nMaxLen with
  | O => mret (pDest, O)
  | S n =>
      c ← load pSrc;
      if c =? 0 then mret (pDest, nMaxLen)
      else store pDest c ;; strncpy_loop (padd pDest 1) (padd pSrc 1) n
  end.

Definition uspi_strncpy (pDest pSrc : ptr) (nMaxLen : nat) : M mem ptr :=
  '(p, n) ← strncpy_loop pDest pSrc nMaxLen;
  when (negb (n =? 0)%nat) (store p 0) ;;
  mret pDest.

(** [while ( *p) p++;] *)
Fixpoint strend_loop (fuel : nat) (p : ptr) : M mem ptr :=
  match fuel with
  | O => fail OutOfFuel
  | S f => c ← load p; if c =? 0 then mret p else strend_loop f (padd p 1)
  end.

Definition uspi_strcat (pDest pSrc : ptr) : M mem ptr :=
  f ← fuel_at pDest;
  p ← strend_loop f pDest;
  f' ← fuel_at pSrc;
  p' ← strcpy_loop f' p pSrc;
  store p' 0 ;; mret pDest.

Definition uspi_char2int (chValue : Z) : Z :=
  if 127 <? chValue then Z.lor chValue (-256) else chValue.

Definition uspi_le2be16 (usValue : Z) : Z :=
  u16 (Z.lor (Z.shiftl (Z.land usValue 0x00FF) 8) (Z.shiftr (Z.land usValue 0xFF00) 8)).

Definition uspi_le2be32 (ulValue : Z) : Z :=
  u32 (Z.lor (Z.lor (Z.lor (Z.shiftl (Z.land ulValue 0x000000FF) 24)
                           (Z.shiftl (Z.land ulValue 0x0000FF00) 8))
                    (Z.shiftr (Z.land ulValue 0x00FF0000) 8))
             (Z.shiftr (Z.land ulValue 0xFF000000) 24)).

(** ** Specifications *)

(** The three-way comparison of the C functions, on values. *)
Definition cmp3 (a b : Z) : Z := if b <? a then 1 else if a <? b then -1 else 0.

(** Comparison of byte lists of one length, the reference for [memcmp]. *)
Fixpoint lex_cmp (l1 l2 : list Z) : Z :=
  match l1, l2 with
  | a :: l1', b :: l2' => if a =? b then lex_cmp l1' l2' else cmp3 a b
  | _, _ => 0
  end.

(** Comparison of strings as lists of signed characters, the reference for
    [strcmp]: the terminator counts as 0. *)
Fixpoint str_cmp (l1 l2 : list Z) : Z :=
  match l1, l2 with
  | [], [] => 0
  | [], b :: _ => cmp3 0 (s8 b)
  | a :: _, [] => cmp3 (s8 a) 0
  | a :: l1', b :: l2' => if a =? b then str_cmp l1' l2' else cmp3 (s8 a) (s8 b)
  end.

(** ** Shared lemmas *)

Lemma memset_loop_wp p v n m bs (Q : unit → mem → Prop) :
  blocks m !! blk p = Some bs → (off p + n <= length bs)%nat →
  Q tt (upd_block (blk p) (overwrite (off p) (replicate n (Some (u8 v))) bs) m) →
  wp (memset_loop p v n) Q m.
Proof.
  revert p m bs. induction n as [|n IH]; simpl; intros p m bs Hb Hl HQ.
  - wp_step. by rewrite overwrite_nil, upd_block_same in HQ.
  - wp_step. eapply wp_store; [done|lia|].
    eapply IH; psimpl; [apply lookup_upd_block|rewrite length_insert; lia|].
    rewrite upd_block_twice, Nat.add_1_r.
    by rewrite <- overwrite_cons by lia.
Qed.

Lemma strlen_loop_wp f p n m l (Q : Z → mem → Prop) :
  cstr m p l → (length l < f)%nat → 0 <= n → n + Z.of_nat (length l) < 18446744073709551616 →
  Q (n + Z.of_nat (length l)) m → wp (strlen_loop f p n) Q m.
Proof.
  revert p n f. induction l as [|c l IH]; intros p n [|f]; simpl; intros Hc Hf H0 Hn HQ; try lia.
  - wp_step. eapply wp_load; [done|]. simpl. wp_step. by rewrite Z.add_0_r in HQ.
  - destruct Hc as (Hc&Hr&Hs). wp_step. eapply wp_load; [done|].
    destruct (Z.eqb_spec c 0); [lia|].
    rewrite u64_id by (unfold is_u64; lia).
    eapply IH; [done|lia..|]. by replace (n + 1 + Z.of_nat (length l)) with (n + Z.of_nat (S (length l))) by lia.
Qed.

Lemma strend_loop_wp f p m l (Q : ptr → mem → Prop) :
  cstr m p l → (length l < f)%nat → Q (padd p (length l)) m → wp (strend_loop f p) Q m.
Proof.
  revert p f. induction l as [|c l IH]; intros p [|f]; simpl; intros Hc Hf HQ; try lia.
  - wp_step. eapply wp_load; [done|]. simpl. wp_step. by rewrite padd_0 in HQ.
  - destruct Hc as (Hc&Hr&Hs). wp_step. eapply wp_load; [done|].
    destruct (Z.eqb_spec c 0); [lia|]. eapply IH; [done|lia|]. by rewrite padd_padd.
Qed.

(** Copying a string between two blocks. *)
Lemma strcpy_loop_wp f p ps m l bs (Q : ptr → mem → Prop) :
  cstr m ps l → (length l < f)%nat → blk p ≠ blk ps →
  blocks m !! blk p = Some bs → (off p + length l < length bs)%nat →
  Q (padd p (length l)) (upd_block (blk p) (overwrite (off p) (map Some l) bs) m) →
  wp (strcpy_loop f p ps) Q m.
Proof.
  revert p ps f m bs.
  induction l as [|c l IH]; intros p ps [|f] m bs; simpl; intros Hc Hf Hne Hb Hl HQ; try lia.
  - wp_step. eapply wp_load; [done|]. simpl. wp_step.
    by rewrite padd_0, overwrite_nil, upd_block_same in HQ.
  - destruct Hc as (Hc&Hr&Hs). wp_step. eapply wp_load; [done|].
    destruct (Z.eqb_spec c 0); [lia|].
    wp_step. eapply wp_store; [done|lia|].
    eapply IH; psimpl; [|lia|done|apply lookup_upd_block|rewrite length_insert; lia|].
    + apply cstr_upd_block_ne; [by simpl|done].
    + rewrite upd_block_twice, Nat.add_1_r, padd_padd, u8_char by done.
      rewrite overwrite_cons in HQ by lia. done.
Qed.

Lemma strcpy_tail l k (bs : list (option Z)) :
  (k + length l < length bs)%nat →
  <[(k + length l)%nat := Some 0]> (overwrite k (map Some l) bs) = overwrite k (cells_of l) bs.
Proof.
  intros Hl. unfold cells_of.
  rewrite <- overwrite_app by (rewrite length_map; simpl; lia).
  rewrite length_map, (overwrite_cons (k + length l)), overwrite_nil; [done|].
  rewrite overwrite_length by (rewrite length_map; lia). done.
Qed.

Lemma uspi_strlen_wp p m l (Q : Z → mem → Prop) :
  cstr m p l → Z.of_nat (length l) < 18446744073709551616 →
  Q (Z.of_nat (length l)) m → wp (uspi_strlen p) Q m.
Proof.
  intros Hc Hl HQ. destruct (cstr_bound _ _ _ Hc) as (bs&Hb&Hlen).
  unfold uspi_strlen. wp_step. eapply wp_fuel_at; [done|].
  eapply strlen_loop_wp; [done|lia..|]. done.
Qed.

Lemma uspi_strcpy_wp pd ps m l bs (Q : ptr → mem → Prop) :
  cstr m ps l → blk pd ≠ blk ps →
  blocks m !! blk pd = Some bs → (off pd + length l < length bs)%nat →
  Q pd (upd_block (blk pd) (overwrite (off pd) (cells_of l) bs) m) →
  wp (uspi_strcpy pd ps) Q m.
Proof.
  intros Hc Hne Hb Hl HQ. destruct (cstr_bound _ _ _ Hc) as (bs'&Hb'&Hlen).
  unfold uspi_strcpy. wp_step. eapply wp_fuel_at; [done|].
  wp_step. eapply strcpy_loop_wp; [exact Hc|lia|exact Hne|exact Hb|exact Hl|].
  wp_step. eapply wp_store; [apply lookup_upd_block| |].
  - simpl. rewrite overwrite_length; rewrite ?length_map; lia.
  - wp_step. simpl. rewrite upd_block_twice, strcpy_tail by done. done.
Qed.

(** ** Properties *)

(** A result that is not [OutOfFuel]. *)
Definition in_fuel {A} (r : res A) : Prop := r ≠ Err OutOfFuel.

Lemma load_oob m p bs :
  blocks m !! blk p = Some bs → (length bs <= off p)%nat → load p m = Err MemFault.
Proof.
  intros Hb Hl. unfold load, peek, mbind, M_bind, cell. rewrite Hb.
  by rewrite lookup_ge_None_2.
Qed.

Lemma load_freed m p : blocks m !! blk p = None → load p m = Err MemFault.
Proof. intros Hb. unfold load, peek, mbind, M_bind, cell. by rewrite Hb. Qed.

(** What [load] can do: fault, or read a byte in bounds and keep the memory. *)
Lemma load_cases m p :
  load p m = Err MemFault ∨
  ∃ b bs, load p m = Ok (b, m) ∧ blocks m !! blk p = Some bs ∧ (off p < length bs)%nat.
Proof.
  unfold load, peek, mbind, M_bind. destruct (cell m p) as [c|] eqn:Hc; [|by left].
  destruct (cell_lt _ _ _ Hc) as (bs&Hb&Hl). destruct c as [b|]; [right|by left].
  exists b, bs. done.
Qed.

Lemma store_cases m p v :
  store p v m = Err MemFault ∨
  ∃ bs, store p v m = Ok (tt, upd_block (blk p) (<[off p := Some (u8 v)]> bs) m) ∧
        blocks m !! blk p = Some bs.
Proof.
  unfold store, poke. destruct (blocks m !! blk p) as [bs|]; [|by left].
  destruct (off p <? length bs)%nat; [right; by exists bs|by left].
Qed.

(** Length of [p]'s block, 0 when it is not live. *)
Definition blen (m : mem) (p : ptr) : nat :=
  match blocks m !! blk p with Some bs => length bs | None => 0 end.

Lemma blen_upd m p q bs bs' :
  blocks m !! blk q = Some bs → length bs' = length bs →
  blen (upd_block (blk q) bs' m) p = blen m p.
Proof.
  intros Hb Hl. unfold blen. destruct (decide (blk q = blk p)) as [E|].
  - rewrite <- E, lookup_upd_block, Hb. done.
  - by rewrite lookup_upd_block_ne.
Qed.

Lemma fuel_at_run p m : fuel_at p m = Ok (S (blen m p), m).
Proof. unfold fuel_at, gets, blen. by destruct (blocks m !! blk p). Qed.

Lemma strlen_loop_in_fuel f p n m :
  (0 < f)%nat → (blen m p < f + off p)%nat → in_fuel (strlen_loop f p n m).
Proof.
  revert p n. induction f as [|f IH]; intros p n H0 Hf; simpl; [lia|].
  destruct (load_cases m p) as [E|(b&bs&E&Hb&Hl)].
  - by rewrite (bind_err _ _ _ _ E).
  - rewrite (bind_ok _ _ _ _ _ E). destruct (b =? 0); [done|].
    unfold blen in *. rewrite Hb in *. apply IH; unfold blen; simpl; rewrite ?Hb; lia.
Qed.

Lemma strend_loop_in_fuel f p m :
  (0 < f)%nat → (blen m p < f + off p)%nat → in_fuel (strend_loop f p m).
Proof.
  revert p. induction f as [|f IH]; intros p H0 Hf; simpl; [lia|].
  destruct (load_cases m p) as [E|(b&bs&E&Hb&Hl)].
  - by rewrite (bind_err _ _ _ _ E).
  - rewrite (bind_ok _ _ _ _ _ E). destruct (b =? 0); [done|].
    unfold blen in *. rewrite Hb in *. apply IH; unfold blen; simpl; rewrite ?Hb; lia.
Qed.

Lemma strcmp_loop_in_fuel f p1 p2 m :
  (0 < f)%nat → (blen m p1 < f + off p1)%nat → in_fuel (strcmp_loop f p1 p2 m).
Proof.
  revert p1 p2. induction f as [|f IH]; intros p1 p2 H0 Hf; simpl; [lia|].
  unfold load_char.
  destruct (load_cases m p1) as [E|(b&bs&E&Hb&Hl)].
  { by rewrite (bind_err _ _ _ MemFault) by (by apply bind_err). }
  rewrite (bind_ok _ _ m (s8 b) m) by (by rewrite (bind_ok _ _ _ _ _ E)).
  destruct (load_cases m p2) as [E2|(b2&bs2&E2&_)].
  { by rewrite (bind_err _ _ _ MemFault) by (by apply bind_err). }
  rewrite (bind_ok _ _ m (s8 b2) m) by (by rewrite (bind_ok _ _ _ _ _ E2)).
  assert (in_fuel (strcmp_loop f (padd p1 1) (padd p2 1) m)).
  { unfold blen in *. rewrite Hb in *. apply IH; unfold blen; simpl; rewrite ?Hb; lia. }
  by repeat case_match.
Qed.

Lemma strcpy_loop_in_fuel f p ps m :
  (0 < f)%nat → (blen m ps < f + off ps)%nat → in_fuel (strcpy_loop f p ps m).
Proof.
  revert p ps m. induction f as [|f IH]; intros p ps m H0 Hf; simpl; [lia|].
  destruct (load_cases m ps) as [E|(b&bs&E&Hb&Hl)].
  { by rewrite (bind_err _ _ _ _ E). }
  rewrite (bind_ok _ _ _ _ _ E). destruct (b =? 0); [done|].
  destruct (store_cases m p b) as [E2|(bs2&E2&Hb2)].
  { by rewrite (bind_err _ _ _ _ E2). }
  rewrite (bind_ok _ _ _ _ _ E2).
  assert (length bs = blen m ps) as Hlen by (unfold blen; by rewrite Hb).
  assert (blen (upd_block (blk p) (<[off p:=Some (u8 b)]> bs2) m) ps = blen m ps)
    by (eapply blen_upd; [done|apply length_insert]).
  apply IH; [lia|]. change (off (padd ps 1)) with (off ps + 1)%nat.
  change (blen ?x (padd ps 1)) with (blen x ps). lia.
Qed.

Lemma in_fuel_bind {S A B} (m : M S A) (k : A → M S B) s :
  in_fuel (m s) → (∀ a s', m s = Ok (a, s') → in_fuel (k a s')) → in_fuel ((m ≫= k) s).
Proof.
  unfold in_fuel, mbind, M_bind. intros H1 H2. destruct (m s) as [[a s']|]; [by apply H2|congruence].
Qed.

Lemma store_in_fuel p v m : in_fuel (store p v m).
Proof. by destruct (store_cases m p v) as [->|(?&->&?)]. Qed.

(** The fuel each terminator loop takes is enough: on any memory and any
    pointers the four functions return or fault, they never run on. *)
Theorem str_functions_terminate m p q :
  in_fuel (uspi_strlen p m) ∧ in_fuel (uspi_strcmp p q m) ∧
  in_fuel (uspi_strcpy p q m) ∧ in_fuel (uspi_strcat p q m).
Proof.
  assert (∀ r m, blen m r < S (blen m r) + off r)%nat as Hf by lia.
  unfold uspi_strlen, uspi_strcmp, uspi_strcpy, uspi_strcat.
  split_and!; rewrite (bind_ok _ _ _ _ _ (fuel_at_run _ _)).
  - apply strlen_loop_in_fuel; auto with lia.
  - apply strcmp_loop_in_fuel; auto with lia.
  - apply in_fuel_bind; [apply strcpy_loop_in_fuel; auto with lia|]. intros p' m' _.
    apply in_fuel_bind; [apply store_in_fuel|done].
  - apply in_fuel_bind; [apply strend_loop_in_fuel; auto with lia|]. intros p' m' _.
    rewrite (bind_ok _ _ _ _ _ (fuel_at_run _ _)).
    apply in_fuel_bind; [apply strcpy_loop_in_fuel; auto with lia|]. intros p2 m2 _.
    apply in_fuel_bind; [apply store_in_fuel|done].
Qed.

Lemma s8_inj a b : 0 <= a < 256 → 0 <= b < 256 → s8 a = s8 b → a = b.
Proof. unfold s8. lia. Qed.

Lemma s8_zero a : 0 <= a < 256 → s8 a = 0 ↔ a = 0.
Proof. unfold s8. lia. Qed.

Lemma cmp3_zero a b : cmp3 a b = 0 ↔ a = b.
Proof. unfold cmp3. destruct (Z.ltb_spec b a); [lia|]. destruct (Z.ltb_spec a b); lia. Qed.

Lemma str_cmp_eq l1 l2 :
  Forall char_ok l1 → Forall char_ok l2 → str_cmp l1 l2 = 0 ↔ l1 = l2.
Proof.
  intros H1. revert l2. induction H1 as [|a l1 Ha H1 IH]; intros [|b l2] H2; simpl.
  - done.
  - apply Forall_cons_1 in H2 as [Hb _]. cbv beta in *. rewrite cmp3_zero. split; [|done].
    intros E. symmetry in E. rewrite s8_zero in E by lia. lia.
  - cbv beta in *. rewrite cmp3_zero, s8_zero by lia. split; [lia|done].
  - apply Forall_cons_1 in H2 as [Hb H2]. cbv beta in *.
    destruct (Z.eqb_spec a b) as [->|Hne].
    + rewrite IH by done. split; [by intros ->|congruence].
    + rewrite cmp3_zero. split; [|congruence].
      intros E. apply s8_inj in E; lia.
Qed.

Lemma wp_load_char p m b (Q : Z → mem → Prop) :
  cell m p = Some (Some b) → Q (s8 b) m → wp (load_char p) Q m.
Proof. intros Hc HQ. unfold load_char. wp_step. eapply wp_load; [done|]. by wp_step. Qed.

Lemma wp_cmp3 a b (m : mem) (Q : Z → mem → Prop) :
  Q (cmp3 a b) m →
  wp (if b <? a then mret 1 else if a <? b then mret (-1) else mret 0) Q m.
Proof. unfold cmp3. by repeat case_match. Qed.

Lemma strcmp_loop_wp f p q m l1 l2 (Q : Z → mem → Prop) :
  cstr m p l1 → cstr m q l2 → (length l1 < f)%nat →
  Q (str_cmp l1 l2) m → wp (strcmp_loop f p q) Q m.
Proof.
  revert p q l2 f. induction l1 as [|a l1 IH]; intros p q [|b l2] [|f] H1 H2 Hf HQ;
    simpl in Hf; try lia; simpl in H1, H2; simpl strcmp_loop.
  all: destruct_and?; wp_step; eapply wp_load_char; [done|];
    wp_step; eapply wp_load_char; [done|]; simpl in HQ.
  - done.
  - change (s8 0) with 0. rewrite andb_false_l. by apply wp_cmp3.
  - change (s8 0) with 0. rewrite andb_false_r. by apply wp_cmp3.
  - rewrite (proj2 (Z.eqb_neq (s8 a) 0)) by (rewrite s8_zero; lia).
    rewrite (proj2 (Z.eqb_neq (s8 b) 0)) by (rewrite s8_zero; lia). simpl.
    destruct (Z.eqb_spec a b) as [->|Hne].
    + rewrite !Z.ltb_irrefl. eapply IH; [done|done|lia|done].
    + assert (s8 a ≠ s8 b) by (intros E; apply s8_inj in E; lia).
      unfold cmp3 in HQ. destruct (Z.ltb_spec (s8 b) (s8 a)); [done|].
      destruct (Z.ltb_spec (s8 a) (s8 b)); [done|lia].
Qed.

Lemma uspi_strcmp_wp p q m l1 l2 (Q : Z → mem → Prop) :
  cstr m p l1 → cstr m q l2 → Q (str_cmp l1 l2) m → wp (uspi_strcmp p q) Q m.
Proof.
  intros H1 H2 HQ. destruct (cstr_bound _ _ _ H1) as (bs&Hb&Hl).
  unfold uspi_strcmp. wp_step. eapply wp_fuel_at; [done|].
  eapply strcmp_loop_wp; [done|done|lia|done].
Qed.

(** [strcmp] on two C strings compares them as lists of signed characters and
    leaves the memory alone; it returns 0 exactly on equal strings. *)
Theorem strcmp_correct m p q l1 l2 :
  cstr m p l1 → cstr m q l2 →
  wp (uspi_strcmp p q) (λ r m', r = str_cmp l1 l2 ∧ m' = m ∧ (r = 0 ↔ l1 = l2)) m.
Proof.
  intros H1 H2. eapply uspi_strcmp_wp; [done..|]. split_and!; [done..|].
  eauto using str_cmp_eq, cstr_chars.
Qed.

Lemma uspi_strcat_wp pd ps m l1 l2 bs (Q : ptr → mem → Prop) :
  cstr m pd l1 → cstr m ps l2 → blk pd ≠ blk ps →
  blocks m !! blk pd = Some bs → (off pd + length l1 + length l2 < length bs)%nat →
  Q pd (upd_block (blk pd) (overwrite (off pd + length l1) (cells_of l2) bs) m) →
  wp (uspi_strcat pd ps) Q m.
Proof.
  intros H1 H2 Hne Hb Hl HQ. destruct (cstr_bound _ _ _ H2) as (bs2&Hb2&Hl2).
  unfold uspi_strcat. wp_step. eapply wp_fuel_at; [done|].
  wp_step. eapply strend_loop_wp; [exact H1|lia|].
  wp_step. eapply wp_fuel_at; [done|].
  wp_step. eapply strcpy_loop_wp; [exact H2|lia|exact Hne|exact Hb|simpl; lia|].
  wp_step. eapply wp_store; [apply lookup_upd_block| |].
  - simpl. rewrite overwrite_length; rewrite ?length_map; lia.
  - wp_step. simpl. rewrite upd_block_twice, strcpy_tail by lia. done.
Qed.

Lemma cells_prefix m b bs k l :
  blocks m !! b = Some bs → cstr m (Ptr b k) l → take (length l) (drop k bs) = map Some l.
Proof.
  intros Hb. revert k. induction l as [|c l IH]; intros k; simpl; [done|].
  intros (Hc&_&Hs). unfold cell in Hc. simpl in Hc. rewrite Hb in Hc.
  unfold padd in Hs. simpl in Hs. rewrite (drop_S _ _ _ Hc). simpl. f_equal.
  replace (S k) with (k + 1)%nat by lia. by apply IH.
Qed.

(** [strcpy] and [strcat] build the copy and the concatenation in the
    destination, write nothing outside it, and return it. *)
Theorem strcpy_strcat_correct m pd ps l1 l2 bs :
  cstr m pd l1 → cstr m ps l2 → blk pd ≠ blk ps →
  blocks m !! blk pd = Some bs → (off pd + length l1 + length l2 < length bs)%nat →
  wp (uspi_strcpy pd ps)
     (λ r m', r = pd ∧ cstr m' pd l2 ∧ ∀ b, b ≠ blk pd → blocks m' !! b = blocks m !! b) m ∧
  wp (uspi_strcat pd ps)
     (λ r m', r = pd ∧ cstr m' pd (l1 ++ l2) ∧ ∀ b, b ≠ blk pd → blocks m' !! b = blocks m !! b) m.
Proof.
  intros H1 H2 Hne Hb Hl. assert (Forall char_ok l1 ∧ Forall char_ok l2) as [Hl1 Hl2]
    by eauto using cstr_chars. destruct pd as [b k]; simpl in *. split.
  - eapply uspi_strcpy_wp; [done|done|done|simpl; lia|]. simpl. split_and!; [done| |].
    + apply cstr_overwrite; [done|lia].
    + intros b' ?. by apply lookup_upd_block_ne.
  - eapply uspi_strcat_wp; [done..|]. simpl. split_and!; [done| |].
    + eapply cstr_of_cells; [apply lookup_upd_block|by apply Forall_app|].
      replace (S (length (l1 ++ l2))) with (length l1 + length (cells_of l2))%nat
        by (rewrite cells_of_length, length_app; lia).
      rewrite take_drop_overwrite by (rewrite cells_of_length; lia).
      rewrite (cells_prefix _ _ _ _ _ Hb H1). unfold cells_of.
      by rewrite map_app, app_assoc.
    + intros b' ?. by apply lookup_upd_block_ne.
Qed.

(** *** memset, memcpy, memcmp *)

Lemma memcpy_loop_wp pd ps n m bs src (Q : unit → mem → Prop) :
  blk pd ≠ blk ps → blocks m !! blk pd = Some bs → blocks m !! blk ps = Some src →
  (off pd + n <= length bs)%nat → (off ps + n <= length src)%nat →
  Q tt (upd_block (blk pd) (overwrite (off pd) (take n (drop (off ps) src)) bs) m) →
  wp (memcpy_loop pd ps n) Q m.
Proof.
  revert pd ps m bs. induction n as [|n IH]; intros pd ps m bs Hne Hb Hs Hld Hls HQ; simpl.
  - wp_step. by rewrite take_0, overwrite_nil, upd_block_same in HQ.
  - destruct (lookup_lt_is_Some_2 src (off ps)) as [c Hc]; [lia|].
    wp_step. eapply (wp_peek _ _ c); [unfold cell; by rewrite Hs|].
    wp_step. eapply wp_poke; [done|lia|].
    eapply IH; psimpl;
      [done|apply lookup_upd_block|by rewrite lookup_upd_block_ne|rewrite length_insert; lia|lia|].
    rewrite upd_block_twice, !Nat.add_1_r.
    rewrite (drop_S _ _ _ Hc) in HQ. simpl in HQ. by rewrite overwrite_cons in HQ by lia.
Qed.

(** The initialised bytes at [p]. *)
Definition bytes_at (m : mem) (p : ptr) (l : list Z) : Prop :=
  ∃ bs, blocks m !! blk p = Some bs ∧ take (length l) (drop (off p) bs) = map Some l.

Lemma bytes_at_cons m p a l : bytes_at m p (a :: l) →
  cell m p = Some (Some a) ∧ bytes_at m (padd p 1) l.
Proof.
  intros (bs&Hb&Ht). destruct (drop (off p) bs) as [|x r] eqn:E; [done|].
  simpl in Ht. injection Ht as -> Ht. split.
  - unfold cell. rewrite Hb. by eapply drop_cons_lookup.
  - exists bs. simpl. by rewrite (drop_cons_drop _ _ _ _ E).
Qed.

Lemma bytes_at_overwrite m b k l bs :
  (k + length l <= length bs)%nat →
  bytes_at (upd_block b (overwrite k (map Some l) bs) m) (Ptr b k) l.
Proof.
  intros Hl. eexists. split; [apply lookup_upd_block|]. simpl. unfold overwrite.
  rewrite drop_app_length' by (rewrite length_take; lia).
  by rewrite take_app_length' by (by rewrite length_map).
Qed.

(** [memcmp] returns the sign of the first differing unsigned byte. *)
Theorem memcmp_correct m p q l1 l2 :
  length l1 = length l2 → bytes_at m p l1 → bytes_at m q l2 →
  uspi_memcmp p q (length l1) m = Ok (lex_cmp l1 l2, m) ∧ (lex_cmp l1 l2 = 0 ↔ l1 = l2).
Proof.
  revert p q l2. induction l1 as [|a l1 IH]; intros p q [|b l2] Hl H1 H2; try done.
  apply bytes_at_cons in H1 as [Ha H1]. apply bytes_at_cons in H2 as [Hb H2].
  injection Hl as Hl. destruct (IH _ _ _ Hl H1 H2) as [E1 E2]. simpl.
  assert (∀ p c, cell m p = Some (Some c) → load p m = Ok (c, m)) as Hld.
  { intros r c Hc. unfold load, peek, mbind, M_bind. by rewrite Hc. }
  rewrite (bind_ok _ _ _ _ _ (Hld _ _ Ha)), (bind_ok _ _ _ _ _ (Hld _ _ Hb)).
  destruct (Z.eqb_spec a b) as [->|Hne].
  - rewrite Z.ltb_irrefl. split; [done|]. rewrite E2. split; [by intros ->|congruence].
  - rewrite cmp3_zero. unfold cmp3. split; [|split; congruence].
    destruct (Z.ltb_spec b a); [done|]. destruct (Z.ltb_spec a b); [done|lia].
Qed.

(** [memset] and [memcpy] write exactly the [n] bytes asked for: the value, or
    the source's bytes (indeterminate ones included), and change nothing else. *)
Theorem memset_memcpy_correct m pd ps v n bs src :
  blk pd ≠ blk ps → blocks m !! blk pd = Some bs → blocks m !! blk ps = Some src →
  (off pd + n <= length bs)%nat → (off ps + n <= length src)%nat →
  uspi_memset pd v n m =
    Ok (pd, upd_block (blk pd) (overwrite (off pd) (replicate n (Some (u8 v))) bs) m) ∧
  uspi_memcpy pd ps n m =
    Ok (pd, upd_block (blk pd) (overwrite (off pd) (take n (drop (off ps) src)) bs) m).
Proof.
  intros Hne Hb Hs Hl1 Hl2. unfold uspi_memset, uspi_memcpy. split.
  - assert (wp (memset_loop pd v n) (λ _ m',
      m' = upd_block (blk pd) (overwrite (off pd) (replicate n (Some (u8 v))) bs) m) m) as H
      by (by eapply memset_loop_wp).
    apply wp_run in H as ([]&m'&E&->). by rewrite (bind_ok _ _ _ _ _ E).
  - assert (wp (memcpy_loop pd ps n) (λ _ m', m' =
      upd_block (blk pd) (overwrite (off pd) (take n (drop (off ps) src)) bs) m) m) as H
      by (by eapply memcpy_loop_wp).
    apply wp_run in H as ([]&m'&E&->). by rewrite (bind_ok _ _ _ _ _ E).
Qed.

(** *** strncpy *)

(** [strncpy] copies at most [n] characters and writes the terminator only
    when it fits: a source of [n] or more characters is left unterminated. *)
Definition strncpy_cells (l : list Z) (n : nat) : list (option Z) :=
  take n (cells_of l).

Lemma strncpy_loop_wp pd ps n m bs l (Q : ptr * nat → mem → Prop) :
  cstr m ps l → blk pd ≠ blk ps → blocks m !! blk pd = Some bs →
  (off pd + min n (length l) <= length bs)%nat →
  Q (padd pd (min n (length l)), (n - length l)%nat)
    (upd_block (blk pd) (overwrite (off pd) (map Some (take n l)) bs) m) →
  wp (strncpy_loop pd ps n) Q m.
Proof.
  revert pd ps l m bs. induction n as [|n IH]; intros pd ps l m bs Hc Hne Hb Hl HQ.
  - simpl in *. wp_step. by rewrite overwrite_nil, upd_block_same, padd_0 in HQ.
  - destruct l as [|c l]; simpl in Hc, Hl, HQ; simpl strncpy_loop.
    + wp_step. eapply wp_load; [done|]. simpl. wp_step.
      by rewrite overwrite_nil, upd_block_same, padd_0 in HQ.
    + destruct Hc as (Hc&Hr&Hs). wp_step. eapply wp_load; [done|].
      destruct (Z.eqb_spec c 0); [lia|].
      wp_step. eapply wp_store; [done|lia|].
      eapply IH; psimpl; [by apply cstr_upd_block_ne|done|apply lookup_upd_block|
                         rewrite length_insert; lia|].
      rewrite upd_block_twice, padd_padd, Nat.add_1_r, u8_char by done.
      rewrite overwrite_cons in HQ by lia. done.
Qed.

(** [uspi_strncpy] writes the characters it copies, the terminator only when
    there is room for it, and nothing else. *)
Theorem strncpy_correct m pd ps n l bs :
  cstr m ps l → blk pd ≠ blk ps → blocks m !! blk pd = Some bs →
  (off pd + min n (S (length l)) <= length bs)%nat →
  wp (uspi_strncpy pd ps n) (λ r m', r = pd ∧
    m' = upd_block (blk pd) (overwrite (off pd) (strncpy_cells l n) bs) m) m.
Proof.
  intros Hc Hne Hb Hl. unfold uspi_strncpy, strncpy_cells, cells_of.
  wp_step. eapply strncpy_loop_wp; [done|done|done|lia|].
  wp_step. apply wp_when; intros Hn.
  - apply negb_true_iff, Nat.eqb_neq in Hn.
    eapply wp_store; [apply lookup_upd_block| |].
    { simpl. rewrite overwrite_length; rewrite ?length_map, ?length_take; lia. }
    wp_step. simpl. split; [done|]. rewrite upd_block_twice. f_equal.
    rewrite !take_ge by (rewrite ?length_app, ?length_map; simpl; lia).
    rewrite Nat.min_r by lia. apply strcpy_tail. lia.
  - apply negb_false_iff, Nat.eqb_eq in Hn. wp_step. split; [done|].
    rewrite take_app_le by (rewrite length_map; lia). by rewrite firstn_map.
Qed.

(** *** Byte order *)

Lemma lor4_rev a b c d : Z.lor (Z.lor (Z.lor a b) c) d = Z.lor (Z.lor (Z.lor d c) b) a.
Proof.
  rewrite (Z.lor_comm _ d), (Z.lor_comm (Z.lor a b) c), (Z.lor_comm a b).
  by rewrite !Z.lor_assoc.
Qed.

Lemma le2be32_sum x :
  uspi_le2be32 x = u32 ((x / 16777216) mod 256 + ((x / 65536) mod 256) * 256
                        + ((x / 256) mod 256) * 65536 + (x mod 256) * 16777216).
Proof.
  unfold uspi_le2be32. f_equal.
  change 0xFF000000 with (Z.shiftl (Z.ones 8) 24). rewrite land_shiftr_field by lia.
  change 0x00FF0000 with (Z.shiftl (Z.ones 8) 16).
  change 0x0000FF00 with (Z.shiftl (Z.ones 8) 8).
  change 0x000000FF with (Z.ones 8). rewrite Z.land_ones by lia.
  rewrite !land_field by lia.
  replace (Z.shiftr (x / 2 ^ 16 mod 2 ^ 8 * 2 ^ 16) 8) with (Z.shiftl (x / 65536 mod 256) 8)
    by (rewrite Z.shiftr_div_pow2, Z.shiftl_mul_pow2 by lia; lia).
  replace (Z.shiftl (x / 2 ^ 8 mod 2 ^ 8 * 2 ^ 8) 8) with (Z.shiftl (x / 256 mod 256) 16)
    by (rewrite !Z.shiftl_mul_pow2 by lia; lia).
  rewrite lor4_rev.
  rewrite (lor_disjoint _ _ 8), (lor_disjoint _ _ 16), (lor_disjoint _ _ 24) by lia. lia.
Qed.

(** Swapping the bytes of a 16- or 32-bit value is what both functions do, and
    it is its own inverse. *)
Theorem le2be_correct :
  (∀ a b, is_u8 a → is_u8 b → uspi_le2be16 (a + 256 * b) = b + 256 * a) ∧
  (∀ a b c d, is_u8 a → is_u8 b → is_u8 c → is_u8 d →
     uspi_le2be32 (a + 256 * b + 65536 * c + 16777216 * d) =
     d + 256 * c + 65536 * b + 16777216 * a) ∧
  (∀ x, is_u16 x → uspi_le2be16 (uspi_le2be16 x) = x) ∧
  (∀ x, is_u32 x → uspi_le2be32 (uspi_le2be32 x) = x).
Proof.
  assert (∀ a b, is_u8 a → is_u8 b → uspi_le2be16 (a + 256 * b) = b + 256 * a) as H16.
  { unfold is_u8. intros a b Ha Hb. unfold uspi_le2be16.
    change 0xFF00 with (Z.shiftl (Z.ones 8) 8). rewrite land_shiftr_field by lia.
    change 0x00FF with (Z.ones 8). rewrite Z.land_ones by lia.
    rewrite Z.lor_comm, lor_disjoint by lia. unfold u16. lia. }
  assert (∀ a b c d, is_u8 a → is_u8 b → is_u8 c → is_u8 d →
     uspi_le2be32 (a + 256 * b + 65536 * c + 16777216 * d) =
     d + 256 * c + 65536 * b + 16777216 * a) as H32.
  { unfold is_u8. intros a b c d Ha Hb Hc Hd. rewrite le2be32_sum. unfold u32. lia. }
  split_and!; [exact H16|exact H32| |].
  - intros x Hx. unfold is_u16 in Hx.
    replace x with (x mod 256 + 256 * (x / 256)) by lia.
    by rewrite !H16 by (unfold is_u8; lia).
  - intros x Hx. unfold is_u32 in Hx.
    replace x with (x mod 256 + 256 * (x / 256 mod 256) + 65536 * (x / 65536 mod 256)
                    + 16777216 * (x / 16777216)) by lia.
    by rewrite !H32 by (unfold is_u8; lia).
Qed.

(** ** Concrete inputs *)

Module UtilDemo.
(** "ab" at block 0, "abc" at block 1, eight indeterminate bytes at block 2,
    "x" with room behind it at block 3. *)
Definition m0 : mem := Mem
  (<[0%nat := cells_of [97; 98]]> (<[1%nat := cells_of [97; 98; 99]]>
    (<[2%nat := replicate 8 None]> {[3%nat := [Some 120; Some 0; None; None; None; None]]}))) 4.

Lemma ab : cstr m0 (Ptr 0 0) [97; 98].
Proof. repeat split; lia. Qed.
Lemma abc : cstr m0 (Ptr 1 0) [97; 98; 99].
Proof. repeat split; lia. Qed.
Lemma x : cstr m0 (Ptr 3 0) [120].
Proof. repeat split; lia. Qed.

Lemma strcmp_correct_witness :
  wp (uspi_strcmp (Ptr 0 0) (Ptr 1 0)) (λ r m', r = -1 ∧ m' = m0 ∧ (r = 0 ↔ [97; 98] = [97; 98; 99])) m0.
Proof. exact (strcmp_correct m0 (Ptr 0 0) (Ptr 1 0) _ _ ab abc). Defined.

Lemma strcpy_strcat_correct_witness :
  wp (uspi_strcat (Ptr 3 0) (Ptr 0 0))
     (λ r m', r = Ptr 3 0 ∧ cstr m' (Ptr 3 0) [120; 97; 98] ∧
        ∀ b, b ≠ 3%nat → blocks m' !! b = blocks m0 !! b) m0.
Proof.
  apply (strcpy_strcat_correct m0 (Ptr 3 0) (Ptr 0 0) [120] [97; 98]
           [Some 120; Some 0; None; None; None; None] x ab); [done|reflexivity|simpl; lia].
Defined.

Lemma memcmp_correct_witness :
  uspi_memcmp (Ptr 0 0) (Ptr 1 1) 2 m0 = Ok (-1, m0) ∧ (-1 = 0 ↔ [97; 98] = [98; 99]).
Proof.
  apply (memcmp_correct m0 (Ptr 0 0) (Ptr 1 1) [97; 98] [98; 99] eq_refl); eexists; split; reflexivity.
Defined.

Lemma memset_memcpy_correct_witness :
  uspi_memset (Ptr 2 1) 0x1AB 2 m0 =
    Ok (Ptr 2 1, upd_block 2 (overwrite 1 (replicate 2 (Some 0xAB)) (replicate 8 None)) m0) ∧
  uspi_memcpy (Ptr 2 1) (Ptr 1 0) 2 m0 =
    Ok (Ptr 2 1, upd_block 2 (overwrite 1 [Some 97; Some 98] (replicate 8 None)) m0).
Proof.
  apply (memset_memcpy_correct m0 (Ptr 2 1) (Ptr 1 0) 0x1AB 2 (replicate 8 None)
           (cells_of [97; 98; 99])); first [reflexivity | discriminate | simpl; lia].
Defined.

Lemma strncpy_correct_witness :
  wp (uspi_strncpy (Ptr 2 0) (Ptr 1 0) 2) (λ r m', r = Ptr 2 0 ∧
    m' = upd_block 2 (overwrite 0 [Some 97; Some 98] (replicate 8 None)) m0) m0.
Proof.
  apply (strncpy_correct m0 (Ptr 2 0) (Ptr 1 0) 2 [97; 98; 99] (replicate 8 None) abc);
    first [reflexivity | discriminate | simpl; lia].
Defined.
End UtilDemo.
