(* ===== verification/Register.v ===== *)
(** * lib/dwhciregister.c: buffered access to the controller's registers

    The controller is hardware: what it answers is a parameter of the model.
    The state of the code that drives it carries the history of its externally
    visible actions, newest first, and [hw_read h a] is the value register [a]
    holds after the history [h]. *)
From S2P Require Import Prelude.

(** ** The outside world *)

(** One externally visible action. The last three are calls
    of include/uspios.h. *)
Inductive event :=
  | EvRead (a v : Z)
  | EvWrite (a v : Z)
  | EvMsDelay (n : Z)
  | EvUsDelay (n : Z)
  | EvBarrier
  | EvCacheLine (a : Z)
  | EvConnectInterrupt (nIRQ : Z)
  | EvSetPowerState (nDeviceId : Z) (ok : bool)
  | EvStartTimer (nHzDelay nChannel : Z).

#[export] Instance event_eq_dec : EqDecision event.
Proof. solve_decision. Defined.

(** The hardware: a register's value after a history, and whether the
    firmware call [SetPowerStateOn] succeeds. *)
Class Hardware := {
  hw_read : list event → Z → Z;
  hw_power_on : list event → Z → bool
}.

(** States that carry a history. *)
Class HasMmio (St : Type) := {
  mmio_get : St → list event;
  mmio_put : list event → St → St
}.

(** The history is a component of the state. *)
Class MmioLaws (St : Type) `{HasMmio St} := {
  mmio_get_put h s : mmio_get (mmio_put h s) = h;
  mmio_put_put h h' s : mmio_put h (mmio_put h' s) = mmio_put h s;
  mmio_put_get s : mmio_put (mmio_get s) s = s
}.

(** A bare history is such a state. *)
#[export] Instance history_mmio : HasMmio (list event) :=
  {| mmio_get := λ h, h; mmio_put := λ h _, h |}.
#[export] Instance history_laws : MmioLaws (list event).
Proof. by split. Qed.

(** [record e s]: [s] after the action [e]. *)
Definition record {St} `{HasMmio St} (e : event) (s : St) : St := mmio_put (e :: mmio_get s) s.
Definition emit {St} `{HasMmio St} (e : event) : M St unit := modify (record e).

Lemma wp_emit {St} `{HasMmio St} e (Q : unit → St → Prop) s : Q tt (record e s) → wp (emit e) Q s.
Proof. done. Qed.

Definition MsDelay {St} `{HasMmio St} (n : Z) : M St unit := emit (EvMsDelay n).
Definition usDelay {St} `{HasMmio St} (n : Z) : M St unit := emit (EvUsDelay n).
Definition DataMemBarrier {St} `{HasMmio St} : M St unit := emit EvBarrier.

(** ** The register object *)

Record TDWHCIRegister := { m_bValid : bool; m_nAddress : Z; m_nBuffer : Z }.
#[global] Instance TDWHCIRegister_eta : Eta TDWHCIRegister := λ r,
  {| m_bValid := m_bValid r; m_nAddress := m_nAddress r; m_nBuffer := m_nBuffer r |}.

(** [m_nBuffer] is indeterminate here; no operation uses it before it is set. *)
Definition DWHCIRegister (nAddress : Z) : TDWHCIRegister :=
  {| m_bValid := false; m_nAddress := nAddress; m_nBuffer := 0 |}.

Definition DWHCIRegister2 (nAddress nValue : Z) : TDWHCIRegister :=
  {| m_bValid := true; m_nAddress := nAddress; m_nBuffer := u32 nValue |}.

Definition _DWHCIRegister (pThis : TDWHCIRegister) : TDWHCIRegister :=
  pThis <| m_bValid := false |>.

Section Register.
Context `{HW : Hardware} {St : Type} `{HM : HasMmio St}.

(** The value read is [m_nBuffer] of the result. *)
Definition DWHCIRegisterRead (pThis : TDWHCIRegister) : M St TDWHCIRegister :=
  h ← gets mmio_get;
  let v := u32 (hw_read h (m_nAddress pThis)) in
  emit (EvRead (m_nAddress pThis) v) ;;
  mret (pThis <| m_nBuffer := v |> <| m_bValid := true |>).

Definition DWHCIRegisterWrite (pThis : TDWHCIRegister) : M St unit :=
  c_assert (m_bValid pThis) ;;
  emit (EvWrite (m_nAddress pThis) (m_nBuffer pThis)).

Definition DWHCIRegisterGet (pThis : TDWHCIRegister) : M St Z :=
  c_assert (m_bValid pThis) ;;
  mret (m_nBuffer pThis).

Definition DWHCIRegisterSet (pThis : TDWHCIRegister) (nValue : Z) : TDWHCIRegister :=
  pThis <| m_nBuffer := u32 nValue |> <| m_bValid := true |>.

Definition DWHCIRegisterIsSet (pThis : TDWHCIRegister) (nMask : Z) : M St bool :=
  c_assert (m_bValid pThis) ;;
  mret (truthy (Z.land (m_nBuffer pThis) nMask)).

Definition DWHCIRegisterAnd (pThis : TDWHCIRegister) (nMask : Z) : M St TDWHCIRegister :=
  c_assert (m_bValid pThis) ;;
  mret (pThis <| m_nBuffer := Z.land (m_nBuffer pThis) (u32 nMask) |>).

Definition DWHCIRegisterOr (pThis : TDWHCIRegister) (nMask : Z) : M St TDWHCIRegister :=
  c_assert (m_bValid pThis) ;;
  mret (pThis <| m_nBuffer := Z.lor (m_nBuffer pThis) (u32 nMask) |>).

Definition DWHCIRegisterClearBit (pThis : TDWHCIRegister) (nBit : Z) : M St TDWHCIRegister :=
  c_assert (m_bValid pThis) ;;
  c_assert (nBit <? 32) ;;
  mret (pThis <| m_nBuffer := Z.land (m_nBuffer pThis) (not32 (Z.shiftl 1 nBit)) |>).

Definition DWHCIRegisterSetBit (pThis : TDWHCIRegister) (nBit : Z) : M St TDWHCIRegister :=
  c_assert (m_bValid pThis) ;;
  c_assert (nBit <? 32) ;;
  mret (pThis <| m_nBuffer := Z.lor (m_nBuffer pThis) (u32 (Z.shiftl 1 nBit)) |>).

Definition DWHCIRegisterClearAll (pThis : TDWHCIRegister) : TDWHCIRegister :=
  pThis <| m_nBuffer := 0 |> <| m_bValid := true |>.

Definition DWHCIRegisterSetAll (pThis : TDWHCIRegister) : TDWHCIRegister :=
  pThis <| m_nBuffer := u32 (-1) |> <| m_bValid := true |>.

(** *** Rules for symbolic execution *)

Lemma wp_RegRead r (Q : TDWHCIRegister → St → Prop) s :
  (let v := u32 (hw_read (mmio_get s) (m_nAddress r)) in
   Q {| m_bValid := true; m_nAddress := m_nAddress r; m_nBuffer := v |}
     (record (EvRead (m_nAddress r) v) s)) →
  wp (DWHCIRegisterRead r) Q s.
Proof. done. Qed.

Lemma wp_RegWrite r (Q : unit → St → Prop) s :
  m_bValid r = true → Q tt (record (EvWrite (m_nAddress r) (m_nBuffer r)) s) →
  wp (DWHCIRegisterWrite r) Q s.
Proof. intros Hv HQ. unfold DWHCIRegisterWrite. rewrite Hv. done. Qed.

Lemma wp_RegGet r (Q : Z → St → Prop) s :
  m_bValid r = true → Q (m_nBuffer r) s → wp (DWHCIRegisterGet r) Q s.
Proof. intros Hv HQ. unfold DWHCIRegisterGet. rewrite Hv. done. Qed.

Lemma wp_RegIsSet r mask (Q : bool → St → Prop) s :
  m_bValid r = true → Q (truthy (Z.land (m_nBuffer r) mask)) s →
  wp (DWHCIRegisterIsSet r mask) Q s.
Proof. intros Hv HQ. unfold DWHCIRegisterIsSet. rewrite Hv. done. Qed.

Lemma wp_RegAnd r mask (Q : TDWHCIRegister → St → Prop) s :
  m_bValid r = true →
  Q (r <| m_nBuffer := Z.land (m_nBuffer r) (u32 mask) |>) s →
  wp (DWHCIRegisterAnd r mask) Q s.
Proof. intros Hv HQ. unfold DWHCIRegisterAnd. rewrite Hv. done. Qed.

Lemma wp_RegOr r mask (Q : TDWHCIRegister → St → Prop) s :
  m_bValid r = true →
  Q (r <| m_nBuffer := Z.lor (m_nBuffer r) (u32 mask) |>) s →
  wp (DWHCIRegisterOr r mask) Q s.
Proof. intros Hv HQ. unfold DWHCIRegisterOr. rewrite Hv. done. Qed.
End Register.

(** One symbolic step through register code. *)
Ltac reg_step :=
  lazymatch goal with
  | |- wp (DWHCIRegisterRead _) _ _ => apply wp_RegRead; cbv zeta
  | |- wp (DWHCIRegisterWrite _) _ _ => apply wp_RegWrite; [done|]
  | |- wp (DWHCIRegisterGet _) _ _ => apply wp_RegGet; [done|]
  | |- wp (DWHCIRegisterIsSet _ _) _ _ => apply wp_RegIsSet; [done|]
  | |- wp (DWHCIRegisterAnd _ _) _ _ => apply wp_RegAnd; [done|]
  | |- wp (DWHCIRegisterOr _ _) _ _ => apply wp_RegOr; [done|]
  | |- wp (emit _) _ _ => apply wp_emit
  | |- wp (MsDelay _) _ _ => apply wp_emit
  | |- wp (usDelay _) _ _ => apply wp_emit
  | |- wp DataMemBarrier _ _ => apply wp_emit
  | |- _ => wp_step
  end.
Ltac reg_steps := repeat (reg_step; cbn [m_bValid m_nAddress m_nBuffer upd]).

(** A read, with the value abstracted. *)
Lemma wp_RegRead_any `{HW : Hardware} {St} `{HM : HasMmio St} r (Q : TDWHCIRegister → St → Prop) s :
  (∀ v, v = u32 (hw_read (mmio_get s) (m_nAddress r)) →
   Q {| m_bValid := true; m_nAddress := m_nAddress r; m_nBuffer := v |}
     (record (EvRead (m_nAddress r) v) s)) →
  wp (DWHCIRegisterRead r) Q s.
Proof. intros H. apply wp_RegRead, H. done. Qed.

(** Steps through a first read, whose value it calls [v], up to the second. *)
Ltac any_steps v Hv :=
  repeat (lazymatch goal with
  | |- wp (DWHCIRegisterRead _) _ _ => apply wp_RegRead_any; intros v Hv
  | |- wp _ _ _ => reg_step
  end; cbn [m_bValid m_nAddress m_nBuffer upd]).

(** The value a read-modify-write pair leaves: [And] with [~clear], [Or]. *)
Definition rmw (clear set v : Z) : Z := Z.lor (Z.land v (not32 clear)) (u32 set).

Lemma rmw_testbit clear set v i :
  0 <= i < 32 →
  Z.testbit (rmw clear set v) i =
  Z.testbit set i || (Z.testbit v i && negb (Z.testbit clear i)).
Proof.
  intros Hi. unfold rmw, not32. rewrite Z.lor_spec, Z.land_spec, !u32_testbit, Z.lnot_spec by lia.
  rewrite (proj2 (Z.ltb_lt i 32)) by lia. rewrite !andb_true_r. apply orb_comm.
Qed.

(** *** Composing and taking apart register values *)

(** [And (~mask)], and [Or (mask)] or [And (~mask)] by a condition. *)
Definition rmw_and (v mask : Z) : Z := Z.land v (u32 (not32 mask)).
Definition rmw_flag (b : bool) (v mask : Z) : Z :=
  if b then Z.lor v (u32 mask) else rmw_and v mask.

Lemma rmw_and_bit v m i : 0 <= i < 32 →
  Z.testbit (rmw_and v m) i = Z.testbit v i && negb (Z.testbit m i).
Proof.
  intros Hi. unfold rmw_and, not32. rewrite Z.land_spec, !u32_testbit, Z.lnot_spec by lia.
  rewrite (proj2 (Z.ltb_lt i 32)) by lia. by rewrite !andb_true_r.
Qed.

Lemma or_bit v x i : 0 <= i < 32 →
  Z.testbit (Z.lor v (u32 x)) i = Z.testbit v i || Z.testbit x i.
Proof.
  intros Hi. rewrite Z.lor_spec, u32_testbit by lia.
  rewrite (proj2 (Z.ltb_lt i 32)) by lia. by rewrite andb_true_r.
Qed.

Lemma rmw_flag_bit b v m i : 0 <= i < 32 →
  Z.testbit (rmw_flag b v m) i =
  if b then Z.testbit v i || Z.testbit m i else Z.testbit v i && negb (Z.testbit m i).
Proof. intros Hi. destruct b; simpl; [by apply or_bit|by apply rmw_and_bit]. Qed.

Lemma field_testbit lo n x i : 0 <= lo → 0 <= n → 0 <= i →
  Z.testbit (field lo n x) i = Z.testbit x (lo + i) && (i <? n).
Proof.
  intros. unfold field. rewrite Z.land_spec, Z.shiftr_spec by lia.
  rewrite (Z.add_comm i lo). f_equal.
  destruct (Z.ltb_spec i n); [apply Z.ones_spec_low|apply Z.ones_spec_high]; lia.
Qed.

(** Two values with the same bits there have the same field. *)
Lemma field_ext lo n x y : 0 <= lo → 0 <= n →
  (∀ i, lo <= i < lo + n → Z.testbit x i = Z.testbit y i) → field lo n x = field lo n y.
Proof.
  intros Hlo Hn H. apply Z.bits_inj'. intros i Hi. rewrite !field_testbit by lia.
  destruct (Z.ltb_spec i n); [|by rewrite !andb_false_r]. by rewrite H by lia.
Qed.

Lemma field_zero lo n x i : 0 <= lo → field lo n x = 0 → lo <= i < lo + n → Z.testbit x i = false.
Proof.
  intros Hlo H Hi. pose proof (field_testbit lo n x (i - lo) ltac:(lia) ltac:(lia) ltac:(lia)) as E.
  rewrite H, Z.bits_0 in E. replace (lo + (i - lo)) with i in E by lia.
  rewrite (proj2 (Z.ltb_lt _ _)), andb_true_r in E by lia. done.
Qed.

(** Operations on other bits leave a field alone. *)
Lemma field_or_other lo n v x : 0 <= lo → 0 <= n → lo + n <= 32 → field lo n x = 0 →
  field lo n (Z.lor v (u32 x)) = field lo n v.
Proof.
  intros. apply field_ext; [done..|]. intros i Hi. rewrite or_bit by lia.
  rewrite (field_zero lo n x i) by done. apply orb_false_r.
Qed.
Lemma field_and_other lo n v m : 0 <= lo → 0 <= n → lo + n <= 32 → field lo n m = 0 →
  field lo n (rmw_and v m) = field lo n v.
Proof.
  intros. apply field_ext; [done..|]. intros i Hi. rewrite rmw_and_bit by lia.
  rewrite (field_zero lo n m i) by done. apply andb_true_r.
Qed.
Lemma field_flag_other lo n b v m : 0 <= lo → 0 <= n → lo + n <= 32 → field lo n m = 0 →
  field lo n (rmw_flag b v m) = field lo n v.
Proof. intros. destruct b; simpl; [by apply field_or_other|by apply field_and_other]. Qed.

(** Clearing a field and or-ing a value into it sets it. *)
Lemma field_set lo n v m x : 0 <= lo → 0 <= n → lo + n <= 32 →
  m = Z.shiftl (Z.ones n) lo →
  field lo n (Z.lor (rmw_and v m) (u32 (Z.shiftl x lo))) = x mod 2 ^ n.
Proof.
  intros Hlo Hn Hs ->. rewrite <- Z.land_ones by lia.
  apply Z.bits_inj'. intros i Hi. rewrite field_testbit, Z.land_spec by lia.
  destruct (Z.ltb_spec i n).
  - rewrite or_bit, rmw_and_bit, !Z.shiftl_spec by lia.
    replace (lo + i - lo) with i by lia. rewrite Z.ones_spec_low by lia.
    by rewrite andb_false_r, !andb_true_r.
  - rewrite Z.ones_spec_high by lia. by rewrite !andb_false_r.
Qed.

(** A value shifted to a field elsewhere. *)
Lemma field_shiftl_other lo n x k w : 0 <= lo → 0 <= n → 0 <= k → 0 <= w → 0 <= x < 2 ^ w →
  lo + n <= k ∨ k + w <= lo → field lo n (Z.shiftl x k) = 0.
Proof.
  intros Hlo Hn Hk Hw Hx Hd. apply Z.bits_inj'. intros i Hi.
  rewrite field_testbit, Z.bits_0, Z.shiftl_spec by lia.
  destruct (Z.ltb_spec i n); [|apply andb_false_r].
  destruct Hd; [by rewrite Z.testbit_neg_r by lia|].
  destruct (decide (x = 0)) as [->|]; [by rewrite Z.bits_0|].
  rewrite Z.bits_above_log2; [done|lia|].
  assert (Z.log2 x < w) by (apply Z.log2_lt_pow2; lia). lia.
Qed.

(** A bit of a value shifted to a field elsewhere. *)
Lemma testbit_shiftl_other x k w i : 0 <= k → 0 <= w → 0 <= x < 2 ^ w →
  0 <= i → i < k ∨ k + w <= i → Z.testbit (Z.shiftl x k) i = false.
Proof.
  intros Hk Hw Hx Hi Hd. apply (field_zero i 1); [done| |lia].
  apply (field_shiftl_other i 1 x k w); lia.
Qed.

(** ** Busy waiting

    [while (!done (DWHCIRegisterRead (&r))) { }], which the source uses to wait
    for a frame. The source has no bound; [spin] bounds the model's polls and
    [poll_reg_ok] gives the result whenever the hardware gets there in time. *)
Section Poll.
Context `{HW : Hardware} {St : Type} `{HM : HasMmio St} `{!MmioLaws St}.

Fixpoint poll_reg (spin : nat) (r : TDWHCIRegister) (finished : Z → bool)
    : M St TDWHCIRegister :=
  match spin with
  | O => fail OutOfFuel
  | S n =>
      r ← DWHCIRegisterRead r;
      if finished (m_nBuffer r) then mret r else poll_reg n r finished
  end.

(** The history after [n] reads of register [a]. *)
Fixpoint reads (n : nat) (a : Z) (h : list event) : list event :=
  match n with
  | O => h
  | S n => reads n a (EvRead a (u32 (hw_read h a)) :: h)
  end.

(** The value the [n]-th next read of [a] returns. *)
Definition nth_read (n : nat) (a : Z) (h : list event) : Z := u32 (hw_read (reads n a h) a).

(** If one of the next [spin] reads satisfies the test, the loop stops at the
    first that does, having only read. *)
Lemma poll_reg_ok spin r finished k s :
  (k < spin)%nat → finished (nth_read k (m_nAddress r) (mmio_get s)) = true →
  (∀ j, (j < k)%nat → finished (nth_read j (m_nAddress r) (mmio_get s)) = false) →
  poll_reg spin r finished s =
  Ok ({| m_bValid := true; m_nAddress := m_nAddress r;
         m_nBuffer := nth_read k (m_nAddress r) (mmio_get s) |},
      mmio_put (reads (S k) (m_nAddress r) (mmio_get s)) s).
Proof.
  revert r k s. induction spin as [|n IH]; intros r k s Hk Hd Hj; [lia|].
  cbn [poll_reg]. unfold DWHCIRegisterRead.
  set (v := u32 (hw_read (mmio_get s) (m_nAddress r))).
  rewrite (bind_ok _ _ s {| m_bValid := true; m_nAddress := m_nAddress r; m_nBuffer := v |}
             (record (EvRead (m_nAddress r) v) s)) by done.
  cbn [m_nBuffer]. destruct k as [|k].
  - unfold nth_read in Hd. simpl in Hd. subst v. rewrite Hd. done.
  - pose proof (Hj 0%nat ltac:(lia)) as H0. unfold nth_read in H0. simpl in H0.
    subst v. rewrite H0. unfold record.
    rewrite (IH _ k); rewrite ?mmio_get_put; cbn [m_nAddress].
    + by rewrite mmio_put_put.
    + lia.
    + exact Hd.
    + intros j Hlt. apply (Hj (S j)). lia.
Qed.
End Poll.
