(* ===== verification/Sync.v ===== *)
(** * lib/synchronize.c: critical sections and cache maintenance

    The AARCH64 half of the file. The processor's interrupt mask is part of the
    state; a cache line cleaned and invalidated is a visible action. *)
From S2P Require Import Prelude Register.

(** The two static variables and the IRQ mask bit (bit 7) of DAIF. *)
Record Cpu := {
  s_nCriticalLevel : Z;
  s_bWereEnabled : bool;
  irq_masked : bool
}.
#[global] Instance Cpu_eta : Eta Cpu := λ c,
  {| s_nCriticalLevel := s_nCriticalLevel c; s_bWereEnabled := s_bWereEnabled c;
     irq_masked := irq_masked c |}.

(** States with a processor, next to the history. *)
Class HasCpu (St : Type) := {
  cpu_get : St → Cpu;
  cpu_put : Cpu → St → St
}.
Class CpuLaws (St : Type) `{HasMmio St, HasCpu St} := {
  cpu_get_put c s : cpu_get (cpu_put c s) = c;
  cpu_put_put c c' s : cpu_put c (cpu_put c' s) = cpu_put c s;
  cpu_put_get s : cpu_put (cpu_get s) s = s;
  cpu_get_mmio h s : cpu_get (mmio_put h s) = cpu_get s;
  mmio_get_cpu c s : mmio_get (cpu_put c s) = mmio_get s
}.

Section Sync.
Context {St : Type} `{HM : HasMmio St} `{HC : HasCpu St}.

Definition cpu_modify (f : Cpu → Cpu) : M St unit := modify (λ s, cpu_put (f (cpu_get s)) s).
Definition DisableInterrupts : M St unit := cpu_modify (λ c, c <| irq_masked := true |>).
Definition EnableInterrupts : M St unit := cpu_modify (λ c, c <| irq_masked := false |>).

Definition uspi_EnterCritical : M St unit :=
  c ← gets cpu_get;
  let masked := irq_masked c in
  DisableInterrupts ;;
  cpu_modify (λ c, c <| s_nCriticalLevel := u32 (s_nCriticalLevel c + 1) |>) ;;
  when (s_nCriticalLevel c =? 0)
    (cpu_modify (λ c, c <| s_bWereEnabled := negb masked |>)) ;;
  DataMemBarrier.

Definition uspi_LeaveCritical : M St unit :=
  DataMemBarrier ;;
  c ← gets cpu_get;
  c_assert (0 <? s_nCriticalLevel c) ;;
  cpu_modify (λ c, c <| s_nCriticalLevel := s_nCriticalLevel c - 1 |>) ;;
  when (s_nCriticalLevel c - 1 =? 0) (when (s_bWereEnabled c) EnableInterrupts).

Definition DATA_CACHE_LINE_LENGTH_MIN : Z := 64.

(** The body of the loop; [fuel] bounds the iterations. *)
Fixpoint cache_loop (fuel : nat) (nAddress nLength : Z) : M St unit :=
  match fuel with
  | O => fail OutOfFuel
  | S fuel =>
      emit (EvCacheLine nAddress) ;;
      if nLength <? DATA_CACHE_LINE_LENGTH_MIN then mret tt
      else cache_loop fuel (u64 (nAddress + DATA_CACHE_LINE_LENGTH_MIN))
                           (nLength - DATA_CACHE_LINE_LENGTH_MIN)
  end.

Definition uspi_CleanAndInvalidateDataCacheRange (nAddress nLength : Z) : M St unit :=
  let nLength := u64 (nLength + DATA_CACHE_LINE_LENGTH_MIN) in
  cache_loop (S (Z.to_nat (nLength / 64))) nAddress nLength.
End Sync.

(** ** Properties *)

(** The lines the loop visits, newest first. *)
Fixpoint cache_lines (n : nat) (a : Z) (h : list event) : list event :=
  match n with
  | O => h
  | S n => cache_lines n (a + 64) (EvCacheLine a :: h)
  end.

Lemma cache_lines_app n a h : cache_lines n a h = cache_lines n a [] ++ h.
Proof.
  revert a h. induction n as [|n IH]; intros a h; [done|]. simpl.
  rewrite IH, (IH _ [EvCacheLine a]). by rewrite <- app_assoc.
Qed.

(** What cache maintenance adds to the history. *)
Definition cache_event (e : event) : Prop := (∃ a, e = EvCacheLine a) ∨ e = EvBarrier.

Lemma cache_lines_events n a : Forall cache_event (cache_lines n a []).
Proof.
  revert a. induction n as [|n IH]; intros a; [constructor|]. simpl. rewrite cache_lines_app.
  apply Forall_app. split; [apply IH|]. constructor; [left; eauto|constructor].
Qed.

Lemma cache_lines_in n a h k :
  (k < n)%nat → EvCacheLine (a + 64 * Z.of_nat k) ∈ cache_lines n a h.
Proof.
  revert a h k. induction n as [|n IH]; intros a h k Hk; [lia|]. simpl.
  destruct k as [|k].
  - rewrite cache_lines_app. rewrite Z.add_0_r. set_solver.
  - replace (a + 64 * Z.of_nat (S k)) with (a + 64 + 64 * Z.of_nat k) by lia. apply IH. lia.
Qed.

(** One operation on the critical-section counter: enter or leave. *)
Inductive crit := Enter | Leave.

Section SyncProps.
Context {St : Type} `{HM : HasMmio St} `{HC : HasCpu St} `{!MmioLaws St} `{!CpuLaws St}.
Implicit Types s : St.

Lemma wp_EnterCritical (Q : unit → St → Prop) s :
  let c := cpu_get s in
  Q tt (record EvBarrier
         (cpu_put {| s_nCriticalLevel := u32 (s_nCriticalLevel c + 1);
                     s_bWereEnabled := if s_nCriticalLevel c =? 0 then negb (irq_masked c)
                                       else s_bWereEnabled c;
                     irq_masked := true |} s)) →
  wp uspi_EnterCritical Q s.
Proof.
  intros c HQ. unfold uspi_EnterCritical, DisableInterrupts, cpu_modify. wp_steps.
  rewrite cpu_get_put, cpu_put_put. apply wp_when; intros E; fold c in E; rewrite E in HQ.
  - apply wp_modify. rewrite cpu_get_put, cpu_put_put. exact HQ.
  - exact HQ.
Qed.

Lemma wp_LeaveCritical (Q : unit → St → Prop) s :
  let c := cpu_get s in
  0 < s_nCriticalLevel c →
  Q tt (cpu_put {| s_nCriticalLevel := s_nCriticalLevel c - 1;
                   s_bWereEnabled := s_bWereEnabled c;
                   irq_masked := irq_masked c &&
                     negb ((s_nCriticalLevel c =? 1) && s_bWereEnabled c) |}
          (record EvBarrier s)) →
  wp uspi_LeaveCritical Q s.
Proof.
  intros c Hc HQ. unfold uspi_LeaveCritical, EnableInterrupts, cpu_modify, record in *. wp_steps.
  apply wp_emit. unfold record. wp_steps; rewrite ?cpu_get_mmio.
  { apply Z.ltb_lt. exact Hc. }
  fold c.
  assert (∀ z, (z - 1 =? 0) = (z =? 1)) as -> by lia.
  apply wp_when; intros E1; rewrite E1 in HQ.
  - apply wp_when; intros E2; rewrite E2 in HQ; simpl in HQ.
    + apply wp_modify. rewrite cpu_get_put, cpu_put_put. unfold upd. simpl.
      rewrite E2. by rewrite andb_false_r in HQ.
    + unfold upd. simpl. rewrite E2. by rewrite andb_true_r in HQ.
  - simpl in HQ. by rewrite andb_true_r in HQ.
Qed.

Fixpoint crit_run (l : list crit) : M St unit :=
  match l with
  | [] => mret tt
  | Enter :: l => uspi_EnterCritical ;; crit_run l
  | Leave :: l => uspi_LeaveCritical ;; crit_run l
  end.

(** [l] never leaves more sections than it entered, starting [d] deep. *)
Fixpoint crit_depth (d : nat) (l : list crit) : option nat :=
  match l, d with
  | [], _ => Some d
  | Enter :: l, _ => crit_depth (S d) l
  | Leave :: l, S d => crit_depth d l
  | Leave :: _, O => None
  end.

(** Inside [d] sections, entered with the mask [m0]. *)
Definition crit_inv (m0 : bool) (d : nat) (c : Cpu) : Prop :=
  s_nCriticalLevel c = Z.of_nat d ∧
  irq_masked c = match d with O => m0 | S _ => true end ∧
  (d ≠ O → s_bWereEnabled c = negb m0).

Lemma crit_run_inv m0 l d d' s :
  crit_inv m0 d (cpu_get s) → crit_depth d l = Some d' →
  Z.of_nat d + Z.of_nat (length l) < 2 ^ 32 →
  wp (crit_run l) (λ _ s', crit_inv m0 d' (cpu_get s')) s.
Proof.
  revert d s. induction l as [|[] l IH]; intros d s Hinv Hd Hlen.
  - injection Hd as <-. by apply wp_ret.
  - simpl in Hd, Hlen. cbn [crit_run]. apply wp_bind, wp_EnterCritical. cbv zeta.
    eapply IH; [|exact Hd|lia]. unfold record. rewrite cpu_get_mmio, cpu_get_put.
    destruct Hinv as (H1 & H2 & H3). unfold crit_inv. simpl. split_and!; [|done|].
    + rewrite H1. cint.
    + intros _. destruct d; rewrite H1; simpl; [by rewrite H2|]. apply H3. done.
  - simpl in Hd, Hlen. destruct d as [|d]; [done|]. cbn [crit_run].
    destruct Hinv as (H1 & H2 & H3). apply wp_bind, wp_LeaveCritical; [lia|].
    eapply IH; [|exact Hd|lia]. rewrite cpu_get_put. unfold crit_inv. simpl.
    rewrite H1, H2, (H3 ltac:(done)). split_and!; [lia| |done].
    destruct d; [by destruct m0|]. by rewrite (proj2 (Z.eqb_neq _ 1)) by lia.
Qed.

(** Critical sections nest. Along any sequence of enter and leave calls that
    never leaves more than it entered, interrupts are masked whenever a
    section is open, and are back as they were when the last one closes. One
    leave too many is an assertion failure. *)
Theorem critical_sections_nest l s :
  s_nCriticalLevel (cpu_get s) = 0 → Z.of_nat (length l) < 2 ^ 32 →
  match crit_depth 0 l with
  | Some d =>
      wp (crit_run l) (λ _ s',
        s_nCriticalLevel (cpu_get s') = Z.of_nat d ∧
        irq_masked (cpu_get s') = (if decide (d = 0%nat) then irq_masked (cpu_get s) else true)) s
  | None => True
  end ∧
  uspi_LeaveCritical s = Err AssertFailed.
Proof.
  intros H0 Hlen. split.
  - destruct (crit_depth 0 l) as [d'|] eqn:E; [|done].
    eapply wp_mono; [apply (crit_run_inv (irq_masked (cpu_get s)) l 0 d'); [done|done|lia]|].
    intros _ s' (H1 & H2 & _). split; [done|]. rewrite H2. by destruct d'.
  - unfold uspi_LeaveCritical, DataMemBarrier, emit, modify, gets, record.
    unfold mbind, M_bind, c_assert. rewrite cpu_get_mmio, H0. done.
Qed.

Lemma cache_loop_ok n a len s :
  0 <= a → a + len + 64 < 2 ^ 64 → 0 <= len → (Z.to_nat (len / 64) < n)%nat →
  cache_loop n a len s =
  Ok (tt, mmio_put (cache_lines (S (Z.to_nat (len / 64))) a (mmio_get s)) s).
Proof.
  revert a len s. induction n as [|n IH]; intros a len s Ha Hb Hl Hn; [lia|].
  cbn [cache_loop]. unfold emit.
  rewrite (bind_ok _ _ s tt (record (EvCacheLine a) s)) by done.
  unfold DATA_CACHE_LINE_LENGTH_MIN. destruct (Z.ltb_spec len 64).
  - by replace (len / 64) with 0 by lia.
  - rewrite u64_id by (unfold is_u64; lia).
    rewrite IH by lia. unfold record. rewrite mmio_get_put, mmio_put_put.
    by replace (Z.to_nat (len / 64)) with (S (Z.to_nat ((len - 64) / 64))) by lia.
Qed.

(** Cleaning a range visits [n/64 + 2] lines from its first address on. *)
Lemma clean_range_ok a n s :
  0 <= a → 0 <= n → a + n + 128 < 2 ^ 64 →
  uspi_CleanAndInvalidateDataCacheRange a n s =
  Ok (tt, mmio_put (cache_lines (S (S (Z.to_nat (n / 64)))) a (mmio_get s)) s).
Proof.
  intros Ha Hn Hb. unfold uspi_CleanAndInvalidateDataCacheRange, DATA_CACHE_LINE_LENGTH_MIN.
  rewrite u64_id by (unfold is_u64; lia).
  rewrite cache_loop_ok by lia.
  by replace (Z.to_nat ((n + 64) / 64)) with (S (Z.to_nat (n / 64))) by lia.
Qed.

Lemma wp_clean_range a n (Q : unit → St → Prop) s :
  0 <= a → 0 <= n → a + n + 128 < 2 ^ 64 →
  (∀ new, Forall cache_event new → Q tt (mmio_put (new ++ mmio_get s) s)) →
  wp (uspi_CleanAndInvalidateDataCacheRange a n) Q s.
Proof.
  intros Ha Hn Hb HQ. apply wp_run. eexists _, _. split; [by apply clean_range_ok|].
  rewrite cache_lines_app. apply HQ, cache_lines_events.
Qed.

(** Every byte of the range is on a cache line the loop cleaned and
    invalidated, whatever the alignment of its start, and the loop ends. *)
Theorem cache_range_covered a n s :
  0 <= a → 0 <= n → a + n + 128 < 2 ^ 64 →
  wp (uspi_CleanAndInvalidateDataCacheRange a n) (λ _ s',
    ∃ new, mmio_get s' = new ++ mmio_get s ∧
      (∀ b, a <= b < a + n → ∃ x, EvCacheLine x ∈ new ∧ x / 64 = b / 64)) s.
Proof.
  intros Ha Hn Hb. apply wp_run. eexists _, _. split; [by apply clean_range_ok|].
  rewrite mmio_get_put. exists (cache_lines (S (S (Z.to_nat (n / 64)))) a []).
  split; [apply cache_lines_app|]. intros b Hab.
  exists (a + 64 * Z.of_nat (Z.to_nat (b / 64 - a / 64))).
  assert (a / 64 <= b / 64) by lia. split; [|rewrite Z2Nat.id by lia; lia].
  apply cache_lines_in. lia.
Qed.
End SyncProps.

(** ** Concrete inputs *)

Module SyncDemo.
(** A processor with interrupts enabled and its history. *)
Definition St : Type := Cpu * list event.
#[export] Instance st_mmio : HasMmio St :=
  {| mmio_get s := s.2; mmio_put h s := (s.1, h) |}.
#[export] Instance st_mmio_laws : MmioLaws St.
Proof. split; intros; repeat match goal with s : St |- _ => destruct s end; done. Qed.
#[export] Instance st_cpu : HasCpu St := {| cpu_get s := s.1; cpu_put c s := (c, s.2) |}.
#[export] Instance st_cpu_laws : CpuLaws St.
Proof. split; intros; repeat match goal with s : St |- _ => destruct s end; done. Qed.

Definition s0 : St := ({| s_nCriticalLevel := 0; s_bWereEnabled := false; irq_masked := false |}, []).

Lemma critical_sections_nest_witness :
  wp (crit_run [Enter; Enter; Leave]) (λ _ s', s_nCriticalLevel (cpu_get s') = 1 ∧
    irq_masked (cpu_get s') = true) s0 ∧
  uspi_LeaveCritical s0 = Err AssertFailed.
Proof. apply (critical_sections_nest [Enter; Enter; Leave] s0); [reflexivity|simpl; lia]. Defined.

Lemma cache_range_covered_witness :
  wp (uspi_CleanAndInvalidateDataCacheRange 0x1030 100) (λ _ s',
    ∃ new, mmio_get s' = new ++ mmio_get s0 ∧
      (∀ b, 0x1030 <= b < 0x1030 + 100 → ∃ x, EvCacheLine x ∈ new ∧ x / 64 = b / 64)) s0.
Proof. apply (cache_range_covered 0x1030 100 s0); lia. Defined.
End SyncDemo.
