(* ===== verification/FrameSched.v ===== *)
(** * The frame schedulers

    lib/dwhciframeschedper.c, lib/dwhciframeschednper.c and
    lib/dwhciframeschednsplit.c: the state machines that pace the start-split
    and complete-split transactions of a split transfer, and the union with
    the method table through which the host driver calls them. *)
From S2P Require Import Prelude Register.

(** ** Constants of include/uspi/dwhci.h and bcm2835.h *)

Definition ARM_USB_BASE : Z := 0x3F000000 + 0x980000.
Definition ARM_USB_CORE_BASE : Z := ARM_USB_BASE.
Definition ARM_USB_HOST_BASE : Z := ARM_USB_BASE + 0x400.
Definition DWHCI_HOST_FRM_NUM : Z := ARM_USB_HOST_BASE + 0x008.
Definition DWHCI_HOST_FRM_NUM_NUMBER (reg : Z) : Z := Z.land reg 0xFFFF.
Definition DWHCI_MAX_FRAME_NUMBER : Z := 0x3FFF.

Definition DWHCI_HOST_CHAN_INT_XFER_COMPLETE : Z := Z.shiftl 1 0.
Definition DWHCI_HOST_CHAN_INT_HALTED : Z := Z.shiftl 1 1.
Definition DWHCI_HOST_CHAN_INT_AHB_ERROR : Z := Z.shiftl 1 2.
Definition DWHCI_HOST_CHAN_INT_STALL : Z := Z.shiftl 1 3.
Definition DWHCI_HOST_CHAN_INT_NAK : Z := Z.shiftl 1 4.
Definition DWHCI_HOST_CHAN_INT_ACK : Z := Z.shiftl 1 5.
Definition DWHCI_HOST_CHAN_INT_NYET : Z := Z.shiftl 1 6.
Definition DWHCI_HOST_CHAN_INT_XACT_ERROR : Z := Z.shiftl 1 7.
Definition DWHCI_HOST_CHAN_INT_BABBLE_ERROR : Z := Z.shiftl 1 8.
Definition DWHCI_HOST_CHAN_INT_FRAME_OVERRUN : Z := Z.shiftl 1 9.
Definition DWHCI_HOST_CHAN_INT_DATA_TOGGLE_ERROR : Z := Z.shiftl 1 10.
Definition DWHCI_HOST_CHAN_INT_ERROR_MASK : Z :=
  Z.lor DWHCI_HOST_CHAN_INT_AHB_ERROR (Z.lor DWHCI_HOST_CHAN_INT_STALL
  (Z.lor DWHCI_HOST_CHAN_INT_XACT_ERROR (Z.lor DWHCI_HOST_CHAN_INT_BABBLE_ERROR
  (Z.lor DWHCI_HOST_CHAN_INT_FRAME_OVERRUN DWHCI_HOST_CHAN_INT_DATA_TOGGLE_ERROR)))).

(** [nStatus & mask] used as a condition. *)
Definition has (nStatus mask : Z) : bool := truthy (Z.land nStatus mask).

Definition uFRAME : Z := 125.

Inductive TFrameSchedulerState :=
  | StateStartSplit
  | StateStartSplitComplete
  | StateCompleteSplit
  | StateCompleteRetry
  | StateCompleteSplitComplete
  | StateCompleteSplitFailed
  | StateUnknown.
#[export] Instance TFrameSchedulerState_eq_dec : EqDecision TFrameSchedulerState.
Proof. solve_decision. Defined.

(** [pThis->m_nTries-- == 0]: the test and the counter afterwards. *)
Definition tries_dec (n : Z) : bool * Z := (n =? 0, u32 (n - 1)).

(** ** Split transactions of control and bulk transfers *)
Module NonPeriodic.
Record TDWHCIFrameSchedulerNonPeriodic := { m_nState : TFrameSchedulerState; m_nTries : Z }.
#[global] Instance nper_eta : Eta TDWHCIFrameSchedulerNonPeriodic := λ r,
  {| m_nState := m_nState r; m_nTries := m_nTries r |}.

(** [m_nTries] is indeterminate until [CompleteSplit] sets it. *)
Definition DWHCIFrameSchedulerNonPeriodic : TDWHCIFrameSchedulerNonPeriodic :=
  {| m_nState := StateUnknown; m_nTries := 0 |}.

Definition _DWHCIFrameSchedulerNonPeriodic (pThis : TDWHCIFrameSchedulerNonPeriodic) :=
  pThis <| m_nState := StateUnknown |>.

Definition StartSplit (pThis : TDWHCIFrameSchedulerNonPeriodic) :=
  pThis <| m_nState := StateStartSplit |>.

Section Ops.
Context {St : Type} `{HM : HasMmio St}.

Definition CompleteSplit (pThis : TDWHCIFrameSchedulerNonPeriodic)
    : M St (bool * TDWHCIFrameSchedulerNonPeriodic) :=
  match m_nState pThis with
  | StateStartSplitComplete =>
      mret (true, pThis <| m_nState := StateCompleteSplit |> <| m_nTries := 3 |>)
  | StateCompleteSplit | StateCompleteRetry =>
      usDelay (5 * uFRAME) ;; mret (true, pThis)
  | StateCompleteSplitComplete | StateCompleteSplitFailed => mret (false, pThis)
  | _ => fail AssertFailed
  end.

Definition TransactionComplete (pThis : TDWHCIFrameSchedulerNonPeriodic) (nStatus : Z)
    : M St TDWHCIFrameSchedulerNonPeriodic :=
  match m_nState pThis with
  | StateStartSplit =>
      c_assert (has nStatus DWHCI_HOST_CHAN_INT_ACK) ;;
      mret (pThis <| m_nState := StateStartSplitComplete |>)
  | StateCompleteSplit | StateCompleteRetry =>
      if has nStatus DWHCI_HOST_CHAN_INT_XFER_COMPLETE then
        mret (pThis <| m_nState := StateCompleteSplitComplete |>)
      else if has nStatus (Z.lor DWHCI_HOST_CHAN_INT_NYET DWHCI_HOST_CHAN_INT_ACK) then
        let '(zero, n) := tries_dec (m_nTries pThis) in
        let pThis := pThis <| m_nTries := n |> in
        if zero then mret (pThis <| m_nState := StateCompleteSplitFailed |>)
        else mret (pThis <| m_nState := StateCompleteRetry |>)
      else if has nStatus DWHCI_HOST_CHAN_INT_NAK then
        let '(zero, n) := tries_dec (m_nTries pThis) in
        let pThis := pThis <| m_nTries := n |> in
        if zero then
          usDelay (5 * uFRAME) ;;
          mret (pThis <| m_nState := StateCompleteSplitFailed |>)
        else mret (pThis <| m_nState := StateCompleteRetry |>)
      else fail AssertFailed
  | _ => fail AssertFailed
  end.

Definition WaitForFrame (pThis : TDWHCIFrameSchedulerNonPeriodic)
    : M St TDWHCIFrameSchedulerNonPeriodic := mret pThis.
Definition IsOddFrame (pThis : TDWHCIFrameSchedulerNonPeriodic) : bool := false.
End Ops.
End NonPeriodic.

(** ** Split transactions of interrupt transfers *)
Module Periodic.
Definition FRAME_UNSET : Z := 8.

Record TDWHCIFrameSchedulerPeriodic :=
  { m_nState : TFrameSchedulerState; m_nTries : Z; m_nNextFrame : Z }.
#[global] Instance per_eta : Eta TDWHCIFrameSchedulerPeriodic := λ r,
  {| m_nState := m_nState r; m_nTries := m_nTries r; m_nNextFrame := m_nNextFrame r |}.

Definition DWHCIFrameSchedulerPeriodic : TDWHCIFrameSchedulerPeriodic :=
  {| m_nState := StateUnknown; m_nTries := 0; m_nNextFrame := FRAME_UNSET |}.

Definition _DWHCIFrameSchedulerPeriodic (pThis : TDWHCIFrameSchedulerPeriodic) :=
  pThis <| m_nState := StateUnknown |>.

Definition StartSplit (pThis : TDWHCIFrameSchedulerPeriodic) :=
  pThis <| m_nState := StateStartSplit |> <| m_nNextFrame := FRAME_UNSET |>.

Definition IsOddFrame (pThis : TDWHCIFrameSchedulerPeriodic) : bool :=
  truthy (Z.land (m_nNextFrame pThis) 1).

Section Ops.
Context `{HW : Hardware} {St : Type} `{HM : HasMmio St}.

Definition CompleteSplit (pThis : TDWHCIFrameSchedulerPeriodic)
    : M St (bool * TDWHCIFrameSchedulerPeriodic) :=
  match m_nState pThis with
  | StateStartSplitComplete =>
      mret (true, pThis <| m_nState := StateCompleteSplit |>
                        <| m_nTries := if m_nNextFrame pThis =? 5 then 2 else 3 |>
                        <| m_nNextFrame := Z.land (m_nNextFrame pThis + 2) 7 |>)
  | StateCompleteRetry =>
      mret (true, pThis <| m_nNextFrame := Z.land (m_nNextFrame pThis + 1) 7 |>)
  | StateCompleteSplitComplete | StateCompleteSplitFailed => mret (false, pThis)
  | _ => fail AssertFailed
  end.

Definition TransactionComplete (pThis : TDWHCIFrameSchedulerPeriodic) (nStatus : Z)
    : M St TDWHCIFrameSchedulerPeriodic :=
  match m_nState pThis with
  | StateStartSplit =>
      c_assert (has nStatus DWHCI_HOST_CHAN_INT_ACK) ;;
      mret (pThis <| m_nState := StateStartSplitComplete |>)
  | StateCompleteSplit | StateCompleteRetry =>
      if has nStatus DWHCI_HOST_CHAN_INT_XFER_COMPLETE then
        mret (pThis <| m_nState := StateCompleteSplitComplete |>)
      else if has nStatus (Z.lor DWHCI_HOST_CHAN_INT_NYET DWHCI_HOST_CHAN_INT_ACK) then
        let '(zero, n) := tries_dec (m_nTries pThis) in
        let pThis := pThis <| m_nTries := n |> in
        if zero then
          let pThis := pThis <| m_nState := StateCompleteSplitFailed |> in
          usDelay (8 * uFRAME) ;; mret pThis
        else mret (pThis <| m_nState := StateCompleteRetry |>)
      else if has nStatus DWHCI_HOST_CHAN_INT_NAK then
        usDelay (5 * uFRAME) ;;
        mret (pThis <| m_nState := StateCompleteSplitFailed |>)
      else fail AssertFailed
  | _ => fail AssertFailed
  end.

Definition WaitForFrame (spin : nat) (pThis : TDWHCIFrameSchedulerPeriodic)
    : M St TDWHCIFrameSchedulerPeriodic :=
  let FrameNumber := DWHCIRegister DWHCI_HOST_FRM_NUM in
  '(pThis, FrameNumber) ←
    (if m_nNextFrame pThis =? FRAME_UNSET then
       FrameNumber ← DWHCIRegisterRead FrameNumber;
       let n := Z.land (DWHCI_HOST_FRM_NUM_NUMBER (m_nBuffer FrameNumber) + 1) 7 in
       let n := if n =? 6 then n + 1 else n in
       mret (pThis <| m_nNextFrame := n |>, FrameNumber)
     else mret (pThis, FrameNumber));
  FrameNumber ← poll_reg spin FrameNumber
    (λ v, Z.land (DWHCI_HOST_FRM_NUM_NUMBER v) 7 =? m_nNextFrame pThis);
  mret pThis.
End Ops.
End Periodic.

(** ** Full- and low-speed transfers without a hub in between *)
Module NoSplit.
Definition FRAME_UNSET : Z := DWHCI_MAX_FRAME_NUMBER + 1.

Record TDWHCIFrameSchedulerNoSplit := { m_bIsPeriodic : bool; m_nNextFrame : Z }.
#[global] Instance nsplit_eta : Eta TDWHCIFrameSchedulerNoSplit := λ r,
  {| m_bIsPeriodic := m_bIsPeriodic r; m_nNextFrame := m_nNextFrame r |}.

Definition DWHCIFrameSchedulerNoSplit (bIsPeriodic : bool) : TDWHCIFrameSchedulerNoSplit :=
  {| m_bIsPeriodic := bIsPeriodic; m_nNextFrame := FRAME_UNSET |}.

Definition IsOddFrame (pThis : TDWHCIFrameSchedulerNoSplit) : bool :=
  truthy (Z.land (m_nNextFrame pThis) 1).

Section Ops.
Context `{HW : Hardware} {St : Type} `{HM : HasMmio St}.

Definition StartSplit (pThis : TDWHCIFrameSchedulerNoSplit)
    : M St TDWHCIFrameSchedulerNoSplit := fail AssertFailed.
Definition CompleteSplit (pThis : TDWHCIFrameSchedulerNoSplit)
    : M St (bool * TDWHCIFrameSchedulerNoSplit) := fail AssertFailed.
Definition TransactionComplete (pThis : TDWHCIFrameSchedulerNoSplit) (nStatus : Z)
    : M St TDWHCIFrameSchedulerNoSplit := fail AssertFailed.

Definition WaitForFrame (spin : nat) (pThis : TDWHCIFrameSchedulerNoSplit)
    : M St TDWHCIFrameSchedulerNoSplit :=
  FrameNumber ← DWHCIRegisterRead (DWHCIRegister DWHCI_HOST_FRM_NUM);
  let pThis := pThis <| m_nNextFrame :=
    Z.land (DWHCI_HOST_FRM_NUM_NUMBER (m_nBuffer FrameNumber) + 1) DWHCI_MAX_FRAME_NUMBER |> in
  (if negb (m_bIsPeriodic pThis) then
     poll_reg spin FrameNumber
       (λ v, Z.land (DWHCI_HOST_FRM_NUM_NUMBER v) DWHCI_MAX_FRAME_NUMBER =? m_nNextFrame pThis) ;;
     mret tt
   else mret tt) ;;
  mret pThis.
End Ops.
End NoSplit.

(** ** The union [m_FrameScheduler] and its method table *)

Inductive TDWHCIFrameScheduler :=
  | FSPeriodic (s : Periodic.TDWHCIFrameSchedulerPeriodic)
  | FSNonPeriodic (s : NonPeriodic.TDWHCIFrameSchedulerNonPeriodic)
  | FSNoSplit (s : NoSplit.TDWHCIFrameSchedulerNoSplit).

Section Methods.
Context `{HW : Hardware} {St : Type} `{HM : HasMmio St}.

Definition _DWHCIFrameScheduler (p : TDWHCIFrameScheduler) : TDWHCIFrameScheduler :=
  match p with
  | FSPeriodic s => FSPeriodic (Periodic._DWHCIFrameSchedulerPeriodic s)
  | FSNonPeriodic s => FSNonPeriodic (NonPeriodic._DWHCIFrameSchedulerNonPeriodic s)
  | FSNoSplit s => p
  end.

Definition StartSplit (p : TDWHCIFrameScheduler) : M St TDWHCIFrameScheduler :=
  match p with
  | FSPeriodic s => mret (FSPeriodic (Periodic.StartSplit s))
  | FSNonPeriodic s => mret (FSNonPeriodic (NonPeriodic.StartSplit s))
  | FSNoSplit s => s ← NoSplit.StartSplit s; mret (FSNoSplit s)
  end.

Definition CompleteSplit (p : TDWHCIFrameScheduler) : M St (bool * TDWHCIFrameScheduler) :=
  match p with
  | FSPeriodic s => '(b, s) ← Periodic.CompleteSplit s; mret (b, FSPeriodic s)
  | FSNonPeriodic s => '(b, s) ← NonPeriodic.CompleteSplit s; mret (b, FSNonPeriodic s)
  | FSNoSplit s => '(b, s) ← NoSplit.CompleteSplit s; mret (b, FSNoSplit s)
  end.

Definition TransactionComplete (p : TDWHCIFrameScheduler) (nStatus : Z)
    : M St TDWHCIFrameScheduler :=
  match p with
  | FSPeriodic s => s ← Periodic.TransactionComplete s nStatus; mret (FSPeriodic s)
  | FSNonPeriodic s => s ← NonPeriodic.TransactionComplete s nStatus; mret (FSNonPeriodic s)
  | FSNoSplit s => s ← NoSplit.TransactionComplete s nStatus; mret (FSNoSplit s)
  end.

Definition WaitForFrame (spin : nat) (p : TDWHCIFrameScheduler) : M St TDWHCIFrameScheduler :=
  match p with
  | FSPeriodic s => s ← Periodic.WaitForFrame spin s; mret (FSPeriodic s)
  | FSNonPeriodic s => s ← NonPeriodic.WaitForFrame s; mret (FSNonPeriodic s)
  | FSNoSplit s => s ← NoSplit.WaitForFrame spin s; mret (FSNoSplit s)
  end.

Definition IsOddFrame (p : TDWHCIFrameScheduler) : bool :=
  match p with
  | FSPeriodic s => Periodic.IsOddFrame s
  | FSNonPeriodic s => NonPeriodic.IsOddFrame s
  | FSNoSplit s => NoSplit.IsOddFrame s
  end.
End Methods.

(** ** Properties *)

(** A status word the controller reports for a complete-split that did not
    fail: at least one of the four bits is set. *)
Definition answered (nStatus : Z) : bool :=
  has nStatus DWHCI_HOST_CHAN_INT_XFER_COMPLETE ||
  has nStatus (Z.lor DWHCI_HOST_CHAN_INT_NYET DWHCI_HOST_CHAN_INT_ACK) ||
  has nStatus DWHCI_HOST_CHAN_INT_NAK.

Definition fs_state (p : TDWHCIFrameScheduler) : TFrameSchedulerState :=
  match p with
  | FSPeriodic s => Periodic.m_nState s
  | FSNonPeriodic s => NonPeriodic.m_nState s
  | FSNoSplit _ => StateUnknown
  end.

Definition fs_tries (p : TDWHCIFrameScheduler) : Z :=
  match p with
  | FSPeriodic s => Periodic.m_nTries s
  | FSNonPeriodic s => NonPeriodic.m_nTries s
  | FSNoSplit _ => 0
  end.

Definition fs_finished (p : TDWHCIFrameScheduler) : Prop :=
  fs_state p = StateCompleteSplitComplete ∨ fs_state p = StateCompleteSplitFailed.

(** The value [CompleteSplit] gives [m_nTries] at the start of a cycle. *)
Definition extra_tries (p : TDWHCIFrameScheduler) : nat :=
  match p with
  | FSPeriodic q => if Periodic.m_nNextFrame q =? 5 then 2%nat else 3%nat
  | _ => 3%nat
  end.

Section Rounds.
Context `{HW : Hardware} {St : Type} `{HM : HasMmio St}.

(** What DWHCIDeviceChannelInterruptHandler does with the scheduler of one
    split cycle: as long as [CompleteSplit] says so, one more complete-split
    transaction, whose status the list gives. Returns their number. *)
Fixpoint split_rounds (p : TDWHCIFrameScheduler) (sts : list Z)
    : M St (nat * TDWHCIFrameScheduler) :=
  '(more, p) ← CompleteSplit p;
  if more : bool then
    match sts with
    | [] => fail OutOfFuel
    | st :: sts =>
        p ← TransactionComplete p st;
        '(n, p) ← split_rounds p sts;
        mret (S n, p)
    end
  else mret (0%nat, p).

Lemma split_rounds_finished p sts s :
  fs_finished p → wp (split_rounds p sts) (λ r _, r = (0%nat, p)) s.
Proof.
  intros Hf. destruct sts, p as [[st t f]|[st t]|]; unfold fs_finished in Hf; simpl in Hf.
  all: destruct Hf; simplify_eq; done.
Qed.

(** What one complete-split transaction does to a scheduler that waits for
    it with [k] tries left. *)
Lemma round_step p k st s :
  0 <= k <= 3 → answered st = true → fs_tries p = k →
  fs_state p = StateCompleteSplit ∨ fs_state p = StateCompleteRetry →
  wp (TransactionComplete p st)
     (λ p' _, fs_finished p' ∨ 0 < k ∧ fs_state p' = StateCompleteRetry ∧ fs_tries p' = k - 1) s.
Proof.
  intros Hk Ha Ht Hs. unfold answered in Ha.
  assert (∀ b n, tries_dec k = (b, n) → b = true ∨ 0 < k ∧ b = false ∧ n = k - 1) as Hd.
  { unfold tries_dec, u32. intros b n [= <- <-]. destruct (Z.eqb_spec k 0); [by left|right; lia]. }
  destruct p as [q|q|q]; simpl in Hs; [| |by destruct Hs]; simpl in Ht; subst k; simpl.
  - unfold Periodic.TransactionComplete.
    assert (match Periodic.m_nState q with StateCompleteSplit | StateCompleteRetry => True | _ => False end)
      as Hst by by destruct Hs as [-> | ->].
    destruct (Periodic.m_nState q); try done.
    all: destruct (has st DWHCI_HOST_CHAN_INT_XFER_COMPLETE); [left; by left|].
    all: destruct (has st (Z.lor _ _)); simpl in Ha.
    all: try (rewrite Ha; left; by right).
    all: destruct (tries_dec _) as [b n] eqn:E; destruct (Hd _ _ eq_refl) as [->|(?&->&->)].
    all: first [by left; right | by right].
  - unfold NonPeriodic.TransactionComplete.
    assert (match NonPeriodic.m_nState q with StateCompleteSplit | StateCompleteRetry => True | _ => False end)
      as Hst by by destruct Hs as [-> | ->].
    destruct (NonPeriodic.m_nState q); try done.
    all: destruct (has st DWHCI_HOST_CHAN_INT_XFER_COMPLETE); [left; by left|].
    all: destruct (has st (Z.lor _ _)); simpl in Ha; [|rewrite Ha].
    all: destruct (tries_dec _) as [b n] eqn:E; destruct (Hd _ _ eq_refl) as [->|(?&->&->)].
    all: first [by left; right | by right].
Qed.

Lemma complete_split_retry p s :
  fs_state p = StateCompleteRetry →
  wp (CompleteSplit p) (λ '(b, p') _, b = true ∧ fs_state p' = StateCompleteRetry ∧
                                      fs_tries p' = fs_tries p) s.
Proof. destruct p as [[st t f]|[st t]|]; simpl; intros; simplify_eq; done. Qed.

Lemma split_rounds_retry k p sts s :
  fs_state p = StateCompleteRetry → fs_tries p = Z.of_nat k → (k <= 3)%nat →
  Forall (λ st, answered st = true) sts → (k < length sts)%nat →
  wp (split_rounds p sts) (λ '(n, p') _, (1 <= n <= S k)%nat ∧ fs_finished p') s.
Proof.
  revert p sts s. induction k as [|k IH]; intros p [|st sts] s Hs Ht Hk Ha Hl;
    simpl in Hl; try lia; apply Forall_cons_1 in Ha as [Hst Ha]; cbn [split_rounds].
  all: apply wp_bind; eapply wp_mono; [by apply complete_split_retry|].
  all: intros [b p1] s1 (->&Hs1&Ht1); apply wp_bind; cbv beta iota;
    eapply wp_mono; [eapply round_step; [|exact Hst|exact Ht1|by right]; lia|].
  all: intros p2 s2 [Hf|(Hpos&Hs2&Ht2)]; [|try lia].
  1,2: apply wp_bind; eapply wp_mono; [by apply split_rounds_finished|];
    intros r s3 ->; split; [lia|done].
  apply wp_bind. eapply wp_mono; [eapply (IH p2 sts s2); [done|lia|lia|done|lia]|].
  intros [n p3] s3 (Hn&Hf). split; [lia|done].
Qed.

(** C9. A split cycle ends: once the start-split was acknowledged, at most four
    complete-split transactions follow, whatever the controller answers, and
    no assertion of the scheduler fails. Three at most follow a periodic
    start-split in microframe 5. *)
Theorem split_cycle_bounded p st0 sts s :
  (match p with FSNoSplit _ => False | _ => True end) →
  fs_state p = StateStartSplit → has st0 DWHCI_HOST_CHAN_INT_ACK = true →
  Forall (λ st, answered st = true) sts → (4 <= length sts)%nat →
  wp (p ← TransactionComplete p st0; split_rounds p sts)
     (λ '(n, p') _, (1 <= n <= S (extra_tries p))%nat ∧ fs_finished p') s.
Proof.
  intros Hp Hs H0 Ha Hl. destruct sts as [|st sts]; simpl in Hl; [lia|].
  apply Forall_cons_1 in Ha as [Hst Ha].
  set (bound := extra_tries p).
  assert (wp (p ← TransactionComplete p st0; CompleteSplit p)
    (λ '(b, p') _, b = true ∧ fs_state p' = StateCompleteSplit ∧ fs_tries p' = Z.of_nat bound) s) as H1.
  { destruct p as [[ps t f]|[ps t]|]; simpl in Hs; [| |done]; subst ps.
    - cbn -[has Z.eqb Z.land]. unfold Periodic.TransactionComplete. simpl.
      rewrite H0. cbn. split_and!; [done..|]. subst bound. cbn. by destruct (f =? 5).
    - cbn -[has]. unfold NonPeriodic.TransactionComplete. simpl. rewrite H0. done. }
  apply wp_bind_inv in H1. apply wp_bind. eapply wp_mono; [exact H1|].
  intros p1 s1 H2. cbn [split_rounds]. apply wp_bind. eapply wp_mono; [exact H2|].
  intros [b p2] s2 (->&Hs2&Ht2). cbv beta iota. apply wp_bind.
  assert (bound <= 3)%nat by (subst bound; unfold extra_tries; repeat case_match; lia).
  eapply wp_mono; [eapply round_step; [|exact Hst|exact Ht2|by left]; lia|].
  intros p3 s3 Hor. apply wp_bind.
  destruct Hor as [Hf|(Hpos&Hs3&Ht3)].
  - eapply wp_mono; [by apply split_rounds_finished|]. intros r s4 ->. split; [lia|done].
  - eapply wp_mono;
      [eapply (split_rounds_retry (bound - 1) p3 sts); [done|lia|lia|done|lia]|].
    intros [n p4] s4 (Hn&Hf). split; [lia|done].
Qed.
End Rounds.

(** ** Frame timing of periodic splits *)
Section Frames.
Context `{HW : Hardware} {St : Type} `{HM : HasMmio St} `{!MmioLaws St}.

(** The low bits of the frame counter that [WaitForFrame] compares. *)
Definition uframe (v : Z) : Z := Z.land (DWHCI_HOST_FRM_NUM_NUMBER v) 7.

(** The microframe chosen for a start-split: the one after the current,
    except that 6 is moved to 7. *)
Definition start_uframe (v : Z) : Z :=
  let n := Z.land (DWHCI_HOST_FRM_NUM_NUMBER v + 1) 7 in if n =? 6 then 7 else n.

Lemma land_7 x : Z.land x 7 = x mod 8.
Proof. apply (Z.land_ones x 3). lia. Qed.

Lemma start_uframe_range v : 0 <= start_uframe v < 8 ∧ start_uframe v ≠ 6.
Proof.
  unfold start_uframe. rewrite land_7. cbv zeta.
  destruct (Z.eqb_spec ((DWHCI_HOST_FRM_NUM_NUMBER v + 1) mod 8) 6); lia.
Qed.

(** Waiting for the frame of a start-split: the scheduler settles on a
    microframe other than 6 and returns at the first poll at which the
    controller's counter is in it; the transaction then carries that
    microframe's parity, and the complete-split two microframes later. *)
Theorem periodic_start_frame spin k q (s : St) :
  Periodic.m_nNextFrame q = Periodic.FRAME_UNSET →
  let f := start_uframe (nth_read 0 DWHCI_HOST_FRM_NUM (mmio_get s)) in
  (k < spin)%nat →
  uframe (nth_read (S k) DWHCI_HOST_FRM_NUM (mmio_get s)) = f →
  (∀ j, (j < k)%nat → uframe (nth_read (S j) DWHCI_HOST_FRM_NUM (mmio_get s)) ≠ f) →
  wp (Periodic.WaitForFrame spin q) (λ q' s',
    q' = q <| Periodic.m_nNextFrame := f |> ∧ f ≠ 6 ∧
    s' = mmio_put (reads (S (S k)) DWHCI_HOST_FRM_NUM (mmio_get s)) s ∧
    Periodic.IsOddFrame q' = Z.odd f ∧
    (Periodic.m_nState q' = StateStartSplitComplete →
     wp (Periodic.CompleteSplit q') (λ '(b, q2) _,
       b = true ∧ Periodic.m_nNextFrame q2 = (f + 2) mod 8) s')) s.
Proof.
  intros Hu f Hk Hhit Hmiss. destruct (start_uframe_range
    (nth_read 0 DWHCI_HOST_FRM_NUM (mmio_get s))) as [Hr H6].
  unfold Periodic.WaitForFrame. rewrite Hu. cbn [Periodic.FRAME_UNSET Z.eqb Pos.eqb].
  wp_step. wp_step. apply wp_RegRead. cbv zeta. cbn [m_nAddress m_nBuffer DWHCIRegister].
  apply wp_ret. cbv beta iota.
  replace (if Z.land _ 7 =? 6 then _ else _) with f.
  2: { subst f. unfold start_uframe, nth_read. cbn [reads]. cbv zeta.
       by destruct (Z.eqb_spec (Z.land (DWHCI_HOST_FRM_NUM_NUMBER
         (u32 (hw_read (mmio_get s) DWHCI_HOST_FRM_NUM)) + 1) 7) 6) as [->|]. }
  wp_step. set (s1 := record _ s).
  assert (mmio_get s1 = reads 1 DWHCI_HOST_FRM_NUM (mmio_get s)) as E1 by apply mmio_get_put.
  assert (∀ n, nth_read n DWHCI_HOST_FRM_NUM (mmio_get s1) =
               nth_read (S n) DWHCI_HOST_FRM_NUM (mmio_get s)) as En
    by (intros n; unfold nth_read; by rewrite E1).
  unfold wp at 1.
  rewrite (poll_reg_ok _ _ _ k); cbn [m_nAddress DWHCIRegister Periodic.m_nNextFrame upd].
  - wp_step. split_and!; [done|done| | |].
    + unfold s1, record. by rewrite mmio_put_put, mmio_get_put.
    + unfold Periodic.IsOddFrame. cbn. rewrite <- Z.bit0_odd. apply (truthy_bit f 0). lia.
    + intros Hs. unfold Periodic.CompleteSplit. rewrite Hs. apply wp_ret.
      split; [done|]. cbn. apply land_7.
  - done.
  - rewrite En. by apply Z.eqb_eq.
  - intros j Hj. rewrite En. apply Z.eqb_neq. by apply Hmiss.
Qed.
End Frames.

(** ** Concrete inputs *)

Module FrameDemo.
(** A controller whose frame counter advances with every action. *)
Definition ticking : Hardware :=
  {| hw_read h _ := 3 + Z.of_nat (length h); hw_power_on _ _ := true |}.

Definition started : TDWHCIFrameScheduler :=
  FSPeriodic (Periodic.StartSplit Periodic.DWHCIFrameSchedulerPeriodic).

Lemma split_cycle_bounded_witness :
  wp (p ← TransactionComplete started DWHCI_HOST_CHAN_INT_ACK; split_rounds p (replicate 4 DWHCI_HOST_CHAN_INT_NYET))
     (λ '(n, p') _, (1 <= n <= 4)%nat ∧ fs_finished p') ([] : list event).
Proof.
  apply (split_cycle_bounded started DWHCI_HOST_CHAN_INT_ACK (replicate 4 DWHCI_HOST_CHAN_INT_NYET) []).
  - exact I.
  - reflexivity.
  - reflexivity.
  - repeat constructor.
  - simpl. lia.
Defined.

Lemma periodic_start_frame_witness :
  wp (Periodic.WaitForFrame (HW := ticking) 1 (Periodic.StartSplit Periodic.DWHCIFrameSchedulerPeriodic))
    (λ q' s', Periodic.m_nNextFrame q' = 4 ∧ Periodic.IsOddFrame q' = false) ([] : list event).
Proof.
  eapply wp_mono; [apply (periodic_start_frame (HW := ticking) 1 0
    (Periodic.StartSplit Periodic.DWHCIFrameSchedulerPeriodic) [])|].
  - reflexivity.
  - lia.
  - reflexivity.
  - intros j Hj. lia.
  - intros q' s' (-> & _ & _ & E & _). split; [reflexivity|exact E].
Defined.
End FrameDemo.
