(* ===== verification/Endpoint.v ===== *)
(** * Endpoints, requests and devices

    lib/usbendpoint.c, lib/usbrequest.c and the accessors of lib/usbdevice.c
    the host driver uses, with the store of these objects: a pointer to one is
    its key, so a [TUSBRequest] and the driver's cached [m_pEndpoint] can name
    the same endpoint and see each other's updates. *)
From S2P Require Import Prelude.

(** ** include/uspi/usb.h *)

Inductive TUSBPID := USBPIDSetup | USBPIDData0 | USBPIDData1.
Inductive TUSBSpeed := USBSpeedLow | USBSpeedFull | USBSpeedHigh | USBSpeedUnknown.
Inductive TEndpointType :=
  EndpointTypeControl | EndpointTypeBulk | EndpointTypeInterrupt | EndpointTypeIsochronous.

#[export] Instance TUSBPID_eq_dec : EqDecision TUSBPID.
Proof. solve_decision. Defined.
#[export] Instance TUSBSpeed_eq_dec : EqDecision TUSBSpeed.
Proof. solve_decision. Defined.
#[export] Instance TEndpointType_eq_dec : EqDecision TEndpointType.
Proof. solve_decision. Defined.

Definition REQUEST_OUT : Z := 0.
Definition REQUEST_IN : Z := 0x80.
Definition REQUEST_TO_INTERFACE : Z := 1.
Definition SET_ADDRESS : Z := 5.
Definition GET_DESCRIPTOR : Z := 6.
Definition SET_CONFIGURATION : Z := 9.
Definition SET_INTERFACE : Z := 11.
Definition DESCRIPTOR_DEVICE : Z := 1.
Definition DESCRIPTOR_CONFIGURATION : Z := 2.
Definition DESCRIPTOR_STRING : Z := 3.
Definition DESCRIPTOR_INTERFACE : Z := 4.
Definition DESCRIPTOR_ENDPOINT : Z := 5.
Definition USB_DEFAULT_MAX_PACKET_SIZE : Z := 8.

Record TSetupData := {
  bmRequestType : Z; bRequest : Z; wValue : Z; wIndex : Z; wLength : Z
}.

Record TUSBEndpointDescriptor := {
  bLength : Z; bDescriptorType : Z; bEndpointAddress : Z;
  bmAttributes : Z; wMaxPacketSize : Z; bInterval : Z
}.
Definition sizeof_TUSBEndpointDescriptor : Z := 7.
Definition sizeof_TUSBAudioEndpointDescriptor : Z := 9.

(** ** The objects. A pointer is a key of the store; 0 is the null pointer. *)

(** The part of [TUSBDevice] the transfer code reads. *)
Record TUSBDevice := {
  m_ucAddress : Z;
  m_Speed : TUSBSpeed;
  m_pEndpoint0 : Z;
  m_bSplitTransfer : bool;
  m_ucHubAddress : Z;
  m_ucHubPortNumber : Z
}.
#[global] Instance TUSBDevice_eta : Eta TUSBDevice := λ d,
  {| m_ucAddress := m_ucAddress d; m_Speed := m_Speed d; m_pEndpoint0 := m_pEndpoint0 d;
     m_bSplitTransfer := m_bSplitTransfer d; m_ucHubAddress := m_ucHubAddress d;
     m_ucHubPortNumber := m_ucHubPortNumber d |}.

Record TUSBEndpoint := {
  m_pDevice : Z;
  m_ucNumber : Z;
  m_Type : TEndpointType;
  m_bDirectionIn : bool;
  m_nMaxPacketSize : Z;
  m_nInterval : Z;
  m_NextPID : TUSBPID
}.
#[global] Instance TUSBEndpoint_eta : Eta TUSBEndpoint := λ e,
  {| m_pDevice := m_pDevice e; m_ucNumber := m_ucNumber e; m_Type := m_Type e;
     m_bDirectionIn := m_bDirectionIn e; m_nMaxPacketSize := m_nMaxPacketSize e;
     m_nInterval := m_nInterval e; m_NextPID := m_NextPID e |}.

(** Completion routines: the driver's own, or one of a function driver. *)
Inductive TURBCompletionRoutine :=
  | NoRoutine
  | DWHCIDeviceCompletionRoutine_
  | ClientRoutine (id : Z).
#[export] Instance TURBCompletionRoutine_eq_dec : EqDecision TURBCompletionRoutine.
Proof. solve_decision. Defined.

(** [m_pBuffer] is an address; [m_pSetupData] the address and the contents of
    the setup packet ([None] for the null pointer). *)
Record TUSBRequest := {
  m_pEndpoint : Z;
  m_pSetupData : option (Z * TSetupData);
  m_pBuffer : Z;
  m_nBufLen : Z;
  m_bStatus : Z;
  m_nResultLen : Z;
  m_pCompletionRoutine : TURBCompletionRoutine;
  m_pCompletionParam : Z;
  m_pCompletionContext : Z
}.
#[global] Instance TUSBRequest_eta : Eta TUSBRequest := λ r,
  {| m_pEndpoint := m_pEndpoint r; m_pSetupData := m_pSetupData r; m_pBuffer := m_pBuffer r;
     m_nBufLen := m_nBufLen r; m_bStatus := m_bStatus r; m_nResultLen := m_nResultLen r;
     m_pCompletionRoutine := m_pCompletionRoutine r;
     m_pCompletionParam := m_pCompletionParam r; m_pCompletionContext := m_pCompletionContext r |}.

(** The store. *)
Record Usb := {
  devices : gmap Z TUSBDevice;
  endpoints : gmap Z TUSBEndpoint;
  urbs : gmap Z TUSBRequest
}.
#[global] Instance Usb_eta : Eta Usb := λ u,
  {| devices := devices u; endpoints := endpoints u; urbs := urbs u |}.

(** States that contain a store. *)
Class HasUsb (St : Type) := {
  usb_get : St → Usb;
  usb_put : Usb → St → St
}.
#[export] Instance Usb_self : HasUsb Usb := {| usb_get := λ u, u; usb_put := λ u _, u |}.

Definition upd_endpoint (p : Z) (e : TUSBEndpoint) (u : Usb) : Usb :=
  u <| endpoints := <[p := e]> (endpoints u) |>.
Definition upd_urb (p : Z) (r : TUSBRequest) (u : Usb) : Usb :=
  u <| urbs := <[p := r]> (urbs u) |>.

Section Store.
Context {St : Type} `{HU : HasUsb St}.

Definition deref {T} (o : option T) : M St T :=
  match o with Some t => mret t | None => fail MemFault end.
Definition device_at (p : Z) : M St TUSBDevice :=
  u ← gets usb_get; deref (devices u !! p).
Definition endpoint_at (p : Z) : M St TUSBEndpoint :=
  u ← gets usb_get; deref (endpoints u !! p).
Definition urb_at (p : Z) : M St TUSBRequest :=
  u ← gets usb_get; deref (urbs u !! p).
Definition endpoint_set (p : Z) (e : TUSBEndpoint) : M St unit :=
  modify (λ s, usb_put (upd_endpoint p e (usb_get s)) s).
Definition urb_set (p : Z) (r : TUSBRequest) : M St unit :=
  modify (λ s, usb_put (upd_urb p r (usb_get s)) s).

Lemma wp_device_at p d (Q : TUSBDevice → St → Prop) s :
  devices (usb_get s) !! p = Some d → Q d s → wp (device_at p) Q s.
Proof. intros H HQ. unfold wp, device_at, deref, gets, mbind, M_bind. by rewrite H. Qed.
Lemma wp_endpoint_at p e (Q : TUSBEndpoint → St → Prop) s :
  endpoints (usb_get s) !! p = Some e → Q e s → wp (endpoint_at p) Q s.
Proof. intros H HQ. unfold wp, endpoint_at, deref, gets, mbind, M_bind. by rewrite H. Qed.
Lemma wp_urb_at p r (Q : TUSBRequest → St → Prop) s :
  urbs (usb_get s) !! p = Some r → Q r s → wp (urb_at p) Q s.
Proof. intros H HQ. unfold wp, urb_at, deref, gets, mbind, M_bind. by rewrite H. Qed.
End Store.

(** ** lib/usbdevice.c, the accessors *)

Definition USBDeviceGetAddress (pThis : TUSBDevice) : Z := m_ucAddress pThis.
Definition USBDeviceGetSpeed (pThis : TUSBDevice) : TUSBSpeed := m_Speed pThis.
Definition USBDeviceIsSplit (pThis : TUSBDevice) : bool := m_bSplitTransfer pThis.
Definition USBDeviceGetHubAddress (pThis : TUSBDevice) : Z := m_ucHubAddress pThis.
Definition USBDeviceGetHubPortNumber (pThis : TUSBDevice) : Z := m_ucHubPortNumber pThis.

(** ** lib/usbendpoint.c *)
Section Endpoint.
Context {St : Type}.
Implicit Types (pThis : TUSBEndpoint).

(** The control endpoint 0 of a device. *)
Definition USBEndpoint (pDevice : Z) : M St TUSBEndpoint :=
  c_assert (negb (pDevice =? 0)) ;;
  mret {| m_pDevice := pDevice; m_ucNumber := 0; m_Type := EndpointTypeControl;
          m_bDirectionIn := false; m_nMaxPacketSize := USB_DEFAULT_MAX_PACKET_SIZE;
          m_nInterval := 1; m_NextPID := USBPIDSetup |}.

(** The polling interval of an interrupt endpoint in milliseconds. *)
Definition interrupt_interval (Speed : TUSBSpeed) (bInterval : Z) : Z :=
  let ucInterval := if bInterval <? 1 then 1 else bInterval in
  if negb (bool_decide (Speed = USBSpeedHigh)) then ucInterval
  else
    let ucInterval := if 16 <? ucInterval then 16 else ucInterval in
    let nValue := Z.shiftl 1 (ucInterval - 1) in
    let nInterval := nValue / 8 in
    if nInterval <? 1 then 1 else nInterval.

Definition USBEndpoint2 (pDevice : Z) (Speed : TUSBSpeed) (pDesc : TUSBEndpointDescriptor)
    : M St TUSBEndpoint :=
  c_assert (negb (pDevice =? 0)) ;;
  c_assert ((bLength pDesc =? sizeof_TUSBEndpointDescriptor)
            || (bLength pDesc =? sizeof_TUSBAudioEndpointDescriptor)) ;;
  c_assert (bDescriptorType pDesc =? DESCRIPTOR_ENDPOINT) ;;
  let attr := Z.land (bmAttributes pDesc) 0x03 in
  (** the [default:] of the switch is [assert (0)] *)
  Type_ ← (if attr =? 2 then mret EndpointTypeBulk
           else if attr =? 3 then mret EndpointTypeInterrupt
           else fail AssertFailed);
  mret {| m_pDevice := pDevice;
          m_ucNumber := Z.land (bEndpointAddress pDesc) 0x0F;
          m_Type := Type_;
          m_bDirectionIn := truthy (Z.land (bEndpointAddress pDesc) 0x80);
          m_nMaxPacketSize := wMaxPacketSize pDesc;
          m_nInterval := if bool_decide (Type_ = EndpointTypeInterrupt)
                         then interrupt_interval Speed (bInterval pDesc) else 1;
          m_NextPID := USBPIDData0 |}.

Definition USBEndpointCopy (pEndpoint : TUSBEndpoint) (pDevice : Z) : M St TUSBEndpoint :=
  c_assert (negb (pDevice =? 0)) ;;
  mret {| m_pDevice := pDevice;
          m_ucNumber := m_ucNumber pEndpoint;
          m_Type := m_Type pEndpoint;
          m_bDirectionIn := m_bDirectionIn pEndpoint;
          m_nMaxPacketSize := m_nMaxPacketSize pEndpoint;
          m_nInterval := m_nInterval pEndpoint;
          m_NextPID := m_NextPID pEndpoint |}.

Definition _USBEndpoint pThis : TUSBEndpoint := pThis <| m_pDevice := 0 |>.

Definition USBEndpointGetDevice pThis : M St Z :=
  c_assert (negb (m_pDevice pThis =? 0)) ;; mret (m_pDevice pThis).
Definition USBEndpointGetNumber pThis : Z := u8 (m_ucNumber pThis).
Definition USBEndpointGetType pThis : TEndpointType := m_Type pThis.
Definition USBEndpointIsDirectionIn pThis : bool := m_bDirectionIn pThis.
Definition USBEndpointSetMaxPacketSize pThis (nMaxPacketSize : Z) : TUSBEndpoint :=
  pThis <| m_nMaxPacketSize := u32 nMaxPacketSize |>.
Definition USBEndpointGetMaxPacketSize pThis : Z := m_nMaxPacketSize pThis.

Definition USBEndpointGetInterval pThis : M St Z :=
  c_assert (bool_decide (m_Type pThis = EndpointTypeInterrupt)) ;;
  mret (m_nInterval pThis).

Definition USBEndpointGetNextPID pThis (bStatusStage : bool) : M St TUSBPID :=
  if bStatusStage then
    c_assert (bool_decide (m_Type pThis = EndpointTypeControl)) ;; mret USBPIDData1
  else mret (m_NextPID pThis).

Definition USBEndpointSkipPID pThis (nPackets : Z) (bStatusStage : bool) : M St TUSBEndpoint :=
  c_assert (bool_decide (m_Type pThis = EndpointTypeControl)
            || bool_decide (m_Type pThis = EndpointTypeBulk)
            || bool_decide (m_Type pThis = EndpointTypeInterrupt)) ;;
  if negb bStatusStage then
    match m_NextPID pThis with
    | USBPIDSetup => mret (pThis <| m_NextPID := USBPIDData1 |>)
    | USBPIDData0 =>
        if truthy (Z.land nPackets 1) then mret (pThis <| m_NextPID := USBPIDData1 |>)
        else mret pThis
    | USBPIDData1 =>
        if truthy (Z.land nPackets 1) then mret (pThis <| m_NextPID := USBPIDData0 |>)
        else mret pThis
    end
  else
    c_assert (bool_decide (m_Type pThis = EndpointTypeControl)) ;;
    mret (pThis <| m_NextPID := USBPIDSetup |>).

Definition USBEndpointResetPID pThis : M St TUSBEndpoint :=
  c_assert (bool_decide (m_Type pThis = EndpointTypeBulk)) ;;
  mret (pThis <| m_NextPID := USBPIDData0 |>).
End Endpoint.

(** ** lib/usbrequest.c *)
Section Request.
Context {St : Type} `{HU : HasUsb St}.
Implicit Types (pThis : TUSBRequest).

Definition USBRequest (pEndpoint pBuffer nBufLen : Z) (pSetupData : option (Z * TSetupData))
    : M St TUSBRequest :=
  c_assert (negb (pEndpoint =? 0)) ;;
  c_assert (negb (pBuffer =? 0) || (nBufLen =? 0)) ;;
  mret {| m_pEndpoint := pEndpoint; m_pSetupData := pSetupData; m_pBuffer := pBuffer;
          m_nBufLen := nBufLen; m_bStatus := 0; m_nResultLen := 0;
          m_pCompletionRoutine := NoRoutine; m_pCompletionParam := 0;
          m_pCompletionContext := 0 |}.

Definition _USBRequest pThis : TUSBRequest :=
  pThis <| m_pEndpoint := 0 |> <| m_pSetupData := None |> <| m_pBuffer := 0 |>
        <| m_pCompletionRoutine := NoRoutine |>.

Definition USBRequestGetEndpoint pThis : M St Z :=
  c_assert (negb (m_pEndpoint pThis =? 0)) ;; mret (m_pEndpoint pThis).
Definition USBRequestSetStatus pThis (bStatus : Z) : TUSBRequest :=
  pThis <| m_bStatus := bStatus |>.
Definition USBRequestSetResultLen pThis (nLength : Z) : TUSBRequest :=
  pThis <| m_nResultLen := nLength |>.
Definition USBRequestGetStatus pThis : Z := m_bStatus pThis.

Definition USBRequestGetResultLength pThis : M St Z :=
  c_assert (truthy (m_bStatus pThis)) ;; mret (m_nResultLen pThis).

Definition USBRequestGetSetupData pThis : M St (Z * TSetupData) :=
  e ← endpoint_at (m_pEndpoint pThis);
  c_assert (bool_decide (USBEndpointGetType e = EndpointTypeControl)) ;;
  match m_pSetupData pThis with
  | Some d => mret d
  | None => fail AssertFailed
  end.

Definition USBRequestGetBuffer pThis : M St Z :=
  c_assert (negb (m_pBuffer pThis =? 0) || (m_nBufLen pThis =? 0)) ;;
  mret (m_pBuffer pThis).
Definition USBRequestGetBufLen pThis : Z := m_nBufLen pThis.

Definition USBRequestSetCompletionRoutine pThis (pRoutine : TURBCompletionRoutine)
    (pParam pContext : Z) : M St TUSBRequest :=
  let pThis := pThis <| m_pCompletionRoutine := pRoutine |>
                     <| m_pCompletionParam := pParam |>
                     <| m_pCompletionContext := pContext |> in
  c_assert (negb (bool_decide (m_pCompletionRoutine pThis = NoRoutine))) ;;
  mret pThis.
End Request.

(** ** Properties *)

(** [n] packets, one at a time. *)
Fixpoint skip_packets {St} (n : nat) (e : TUSBEndpoint) : M St TUSBEndpoint :=
  match n with
  | O => mret e
  | S n => e ← USBEndpointSkipPID e 1 false; skip_packets n e
  end.

Definition data_pid (p : TUSBPID) : Prop := p ≠ USBPIDSetup.

Lemma land_1_odd n : truthy (Z.land n 1) = Z.odd n.
Proof. rewrite <- Z.bit0_odd. apply (truthy_bit n 0). lia. Qed.

(** Skipping [n] packets at once, by the parity of [n], is skipping them one
    by one: the data toggle alternates, and nothing else of the endpoint
    changes. *)
Theorem skip_pid_packets {St} n e (s : St) :
  data_pid (m_NextPID e) → m_Type e ≠ EndpointTypeIsochronous →
  USBEndpointSkipPID e (Z.of_nat n) false s = skip_packets n e s ∧
  (∃ p, USBEndpointSkipPID e (Z.of_nat n) false s = Ok (e <| m_NextPID := p |>, s) ∧ data_pid p ∧
        (p = m_NextPID e ↔ Nat.even n = true)).
Proof.
  revert e. assert (∀ (x : TUSBEndpoint) k, m_Type x ≠ EndpointTypeIsochronous →
    data_pid (m_NextPID x) →
    USBEndpointSkipPID x k false s =
    Ok (x <| m_NextPID := if Z.odd k then match m_NextPID x with
                                          | USBPIDData0 => USBPIDData1 | _ => USBPIDData0 end
                          else m_NextPID x |>, s)) as Hone.
  { intros x k Ht Hp. unfold USBEndpointSkipPID. rewrite land_1_odd.
    destruct x as [d nb t di mp iv p]; destruct t; try done; destruct p; try done.
    all: by destruct (Z.odd k). }
  assert (∀ m, Z.odd (Z.of_nat m) = negb (Nat.even m)) as Hpar.
  { intros m. induction m as [|m IH]; [done|].
    rewrite Nat2Z.inj_succ, Z.odd_succ, <- Z.negb_odd, IH, Nat.even_succ, <- Nat.negb_even. done. }
  intros e Hp Ht. split.
  - revert e Hp Ht. induction n as [|n IH]; intros e Hp Ht.
    + rewrite Hone by done. simpl. by destruct e.
    + cbn [skip_packets]. rewrite (Hone e) by done.
      rewrite (bind_ok _ _ _ _ _ (Hone e 1 Ht Hp)). cbn [Z.odd].
      rewrite <- IH; [|by destruct e as [? ? ? ? ? ? []]|by destruct e].
      rewrite Hone; [|by destruct e|by destruct e as [? ? ? ? ? ? []]].
      rewrite !Hpar, Nat.even_succ, <- Nat.negb_even.
      by destruct e as [d nb t di mp iv []]; destruct (Nat.even n).
  - eexists. split; [apply Hone; done|]. rewrite Hpar.
    destruct (Nat.even n), (m_NextPID e); simpl; done.
Qed.

(** C40. What the constructor makes of a descriptor a device sent: a bulk or
    interrupt endpoint starting at DATA0, number at most 15, interval between
    1 and 4096 ms (at most 255 below high speed, 1 when not an interrupt
    endpoint). Every other transfer type stops in an assertion. *)
Theorem endpoint2_wf {St} pDevice Speed d (s : St) :
  pDevice ≠ 0 → bLength d = 7 ∨ bLength d = 9 → bDescriptorType d = DESCRIPTOR_ENDPOINT →
  is_u8 (bInterval d) →
  match Z.land (bmAttributes d) 3 with
  | 2 | 3 =>
    wp (USBEndpoint2 pDevice Speed d) (λ e _,
      m_Type e = (if Z.land (bmAttributes d) 3 =? 2 then EndpointTypeBulk else EndpointTypeInterrupt) ∧
      m_NextPID e = USBPIDData0 ∧ 0 <= m_ucNumber e <= 15 ∧
      m_bDirectionIn e = Z.testbit (bEndpointAddress d) 7 ∧
      1 <= m_nInterval e <= 4096 ∧
      (Speed ≠ USBSpeedHigh → m_nInterval e <= 255) ∧
      (m_Type e = EndpointTypeBulk → m_nInterval e = 1)) s
  | _ => USBEndpoint2 pDevice Speed d s = Err AssertFailed
  end.
Proof.
  intros Hd Hl Ht Hi. unfold USBEndpoint2. rewrite Ht, (proj2 (Z.eqb_neq pDevice 0)) by done.
  assert ((bLength d =? sizeof_TUSBEndpointDescriptor)
          || (bLength d =? sizeof_TUSBAudioEndpointDescriptor) = true) as ->
    by (destruct Hl as [-> | ->]; done).
  assert (0 <= Z.land (bEndpointAddress d) 15 <= 15) as Hn.
  { rewrite (Z.land_ones _ 4) by lia. lia. }
  assert (∀ v, is_u8 v → 1 <= interrupt_interval Speed v <= 4096 ∧
               (Speed ≠ USBSpeedHigh → interrupt_interval Speed v <= 255)) as Hiv.
  { unfold is_u8. intros v Hv. unfold interrupt_interval.
    destruct (Z.ltb_spec v 1) as [H1|H1]; cbv zeta.
    - case_bool_decide; simpl; [split; [lia|done]|lia].
    - case_bool_decide; simpl; [|lia]. split; [|done].
      rewrite Z.shiftl_1_l.
      assert (1 <= 2 ^ ((if 16 <? v then 16 else v) - 1) <= 32768).
      { change 32768 with (2 ^ 15). change 1 with (2 ^ 0) at 1.
        destruct (Z.ltb_spec 16 v); split; apply Z.pow_le_mono_r; lia. }
      destruct (Z.ltb_spec (2 ^ ((if 16 <? v then 16 else v) - 1) / 8) 1); lia. }
  destruct (Hiv _ Hi) as [Hr1 Hr2].
  assert (0 <= Z.land (bmAttributes d) 3 < 4) as Ha.
  { rewrite (Z.land_ones _ 2) by lia. lia. }
  destruct (Z.land (bmAttributes d) 3) as [|[[[]|[]|]|[[]|[]|]|]|]; try lia; try done.
  all: cbn -[interrupt_interval Z.land]; split_and!; try done; try lia; try naive_solver lia.
  all: apply (truthy_bit _ 7); lia.
Qed.

(** ** Concrete inputs *)

Module EndpointDemo.
Definition bulk : TUSBEndpoint :=
  {| m_pDevice := 1; m_ucNumber := 2; m_Type := EndpointTypeBulk; m_bDirectionIn := true;
     m_nMaxPacketSize := 512; m_nInterval := 1; m_NextPID := USBPIDData0 |}.

Lemma skip_pid_packets_witness :
  USBEndpointSkipPID bulk 3 false tt = skip_packets 3 bulk tt ∧
  (∃ p, USBEndpointSkipPID bulk 3 false tt = Ok (bulk <| m_NextPID := p |>, tt) ∧ data_pid p ∧
        (p = USBPIDData0 ↔ false = true)).
Proof. apply (skip_pid_packets 3 bulk tt); done. Defined.

(** An interrupt endpoint of a low-speed keyboard. *)
Definition desc : TUSBEndpointDescriptor :=
  {| bLength := 7; bDescriptorType := DESCRIPTOR_ENDPOINT; bEndpointAddress := 0x81;
     bmAttributes := 3; wMaxPacketSize := 8; bInterval := 10 |}.

Lemma endpoint2_wf_witness :
  wp (USBEndpoint2 1 USBSpeedLow desc) (λ e _, m_Type e = EndpointTypeInterrupt ∧
    m_NextPID e = USBPIDData0 ∧ 1 <= m_nInterval e <= 4096) tt.
Proof.
  pose proof (endpoint2_wf 1 USBSpeedLow desc tt ltac:(lia) ltac:(by left) eq_refl
                ltac:(unfold is_u8; simpl; lia)) as H.
  eapply wp_mono; [exact H|]. intros e s (H1 & H2 & _ & _ & H3 & _). split; [exact H1|split; [exact H2|exact H3]].
Defined.
End EndpointDemo.
