(* ===== verification/StageData.v ===== *)
(** * lib/dwhcixferstagedata.c: the bookkeeping of one transfer stage

    One object per host channel: it caches what a stage of a request needs,
    tells the channel how much to transfer next, and accounts for what each
    transaction moved. *)
From S2P Require Import Prelude Register FrameSched Endpoint.

(** ** More of include/uspi/dwhci.h *)

Definition DWHCI_HOST_CHAN_CHARACTER_EP_TYPE_CONTROL : Z := 0.
Definition DWHCI_HOST_CHAN_CHARACTER_EP_TYPE_BULK : Z := 2.
Definition DWHCI_HOST_CHAN_CHARACTER_EP_TYPE_INTERRUPT : Z := 3.
Definition DWHCI_HOST_CHAN_XFER_SIZ_PID_DATA0 : Z := 0.
Definition DWHCI_HOST_CHAN_XFER_SIZ_PID_DATA1 : Z := 2.
Definition DWHCI_HOST_CHAN_XFER_SIZ_PID_SETUP : Z := 3.
Definition DWHCI_HOST_CHAN_SPLIT_CTRL_ALL : Z := 3.
Definition sizeof_TSetupData : Z := 8.

(** The values kept in [m_nState] and [m_nSubState] (lib/dwhcidevice.c). *)
Inductive TStageState :=
  | StageStateNoSplitTransfer
  | StageStateStartSplit
  | StageStateCompleteSplit
  | StageStatePeriodicDelay
  | StageStateUnknown.
Inductive TStageSubState :=
  | StageSubStateWaitForChannelDisable
  | StageSubStateWaitForTransactionComplete
  | StageSubStateUnknown.
#[export] Instance TStageState_eq_dec : EqDecision TStageState.
Proof. solve_decision. Defined.

Record TDWHCITransferStageData := {
  m_nChannel : Z;
  m_pURB : Z;
  m_bIn : bool;
  m_bStatusStage : bool;
  m_bSplitTransaction : bool;
  m_bSplitComplete : bool;
  sd_pDevice : Z;                     (** [m_pDevice] *)
  sd_pEndpoint : Z;                   (** [m_pEndpoint] *)
  sd_Speed : TUSBSpeed;               (** [m_Speed] *)
  sd_nMaxPacketSize : Z;              (** [m_nMaxPacketSize] *)
  m_nTransferSize : Z;
  m_nPackets : Z;
  m_nBytesPerTransaction : Z;
  m_nPacketsPerTransaction : Z;
  m_nTotalBytesTransfered : Z;
  m_nState : TStageState;
  m_nSubState : TStageSubState;
  m_nTransactionStatus : Z;
  m_pBufferPointer : Z;
  m_bFrameSchedulerUsed : bool;
  m_FrameScheduler : TDWHCIFrameScheduler
}.
#[global] Instance TDWHCITransferStageData_eta : Eta TDWHCITransferStageData := λ r,
  {| m_nChannel := m_nChannel r; m_pURB := m_pURB r; m_bIn := m_bIn r;
     m_bStatusStage := m_bStatusStage r; m_bSplitTransaction := m_bSplitTransaction r;
     m_bSplitComplete := m_bSplitComplete r; sd_pDevice := sd_pDevice r;
     sd_pEndpoint := sd_pEndpoint r; sd_Speed := sd_Speed r;
     sd_nMaxPacketSize := sd_nMaxPacketSize r; m_nTransferSize := m_nTransferSize r;
     m_nPackets := m_nPackets r; m_nBytesPerTransaction := m_nBytesPerTransaction r;
     m_nPacketsPerTransaction := m_nPacketsPerTransaction r;
     m_nTotalBytesTransfered := m_nTotalBytesTransfered r; m_nState := m_nState r;
     m_nSubState := m_nSubState r; m_nTransactionStatus := m_nTransactionStatus r;
     m_pBufferPointer := m_pBufferPointer r; m_bFrameSchedulerUsed := m_bFrameSchedulerUsed r;
     m_FrameScheduler := m_FrameScheduler r |}.

(** Evaluate the updates and projections of a stage's record, innermost first. *)
Ltac sd_cbv :=
  cbv beta iota delta [upd m_nChannel m_pURB m_bIn m_bStatusStage m_bSplitTransaction
    m_bSplitComplete sd_pDevice sd_pEndpoint sd_Speed sd_nMaxPacketSize m_nTransferSize m_nPackets
    m_nBytesPerTransaction m_nPacketsPerTransaction m_nTotalBytesTransfered m_nState m_nSubState
    m_nTransactionStatus m_pBufferPointer m_bFrameSchedulerUsed m_FrameScheduler].
Tactic Notation "sd_cbv" "in" hyp(H) :=
  cbv beta iota delta [upd m_nChannel m_pURB m_bIn m_bStatusStage m_bSplitTransaction
    m_bSplitComplete sd_pDevice sd_pEndpoint sd_Speed sd_nMaxPacketSize m_nTransferSize m_nPackets
    m_nBytesPerTransaction m_nPacketsPerTransaction m_nTotalBytesTransfered m_nState m_nSubState
    m_nTransactionStatus m_pBufferPointer m_bFrameSchedulerUsed m_FrameScheduler] in H.

Ltac sd_cbn :=
  cbn [upd m_nChannel m_pURB m_bIn m_bStatusStage m_bSplitTransaction
    m_bSplitComplete sd_pDevice sd_pEndpoint sd_Speed sd_nMaxPacketSize m_nTransferSize m_nPackets
    m_nBytesPerTransaction m_nPacketsPerTransaction m_nTotalBytesTransfered m_nState m_nSubState
    m_nTransactionStatus m_pBufferPointer m_bFrameSchedulerUsed m_FrameScheduler].

(** Where the linker, the allocator and the stack put the DMA buffers that are
    part of driver objects: the [m_TempBuffer] of channel [n]'s stage data and
    the setup packet of a control message. Both are declared aligned to 4. *)
Class Layout := {
  temp_buffer : Z → Z;
  setup_buffer : Z
}.
Class LayoutLaws `{Layout} := {
  temp_buffer_nonnull n : temp_buffer n ≠ 0;
  temp_buffer_aligned n : Z.land (temp_buffer n) 3 = 0;
  setup_buffer_nonnull : setup_buffer ≠ 0;
  setup_buffer_aligned : Z.land setup_buffer 3 = 0
}.

(** C division of unsigned numbers: undefined for a zero divisor. *)
Definition udiv {St} (a b : Z) : M St Z :=
  if b =? 0 then fail UndefBehaviour else mret (a / b).

Section StageData.
Context `{LA : Layout} {St : Type} `{HU : HasUsb St}.
Implicit Types (pThis : TDWHCITransferStageData).

Definition DWHCITransferStageDataIsPeriodic pThis : M St bool :=
  e ← endpoint_at (sd_pEndpoint pThis);
  let Type_ := USBEndpointGetType e in
  mret (bool_decide (Type_ = EndpointTypeInterrupt)
        || bool_decide (Type_ = EndpointTypeIsochronous)).

(** The number of packets of the stage and the size of a transaction. *)
Definition stage_packets pThis : M St TDWHCITransferStageData :=
  n ← udiv (u32 (m_nTransferSize pThis + sd_nMaxPacketSize pThis - 1)) (sd_nMaxPacketSize pThis);
  let pThis := pThis <| m_nPackets := n |> in
  if m_bSplitTransaction pThis then
    mret (pThis <| m_nBytesPerTransaction :=
                     if sd_nMaxPacketSize pThis <? m_nTransferSize pThis
                     then sd_nMaxPacketSize pThis else m_nTransferSize pThis |>
                <| m_nPacketsPerTransaction := 1 |>)
  else
    mret (pThis <| m_nBytesPerTransaction := m_nTransferSize pThis |>
                <| m_nPacketsPerTransaction := m_nPackets pThis |>).

(** The data stage and the setup stage: what to transfer, in which units. *)
Definition stage_buffer pThis (urb : TUSBRequest) : M St TDWHCITransferStageData :=
  e ← endpoint_at (sd_pEndpoint pThis);
  pid ← USBEndpointGetNextPID e false;
  pThis ← (if bool_decide (pid = USBPIDSetup) then
             '(p, _) ← USBRequestGetSetupData urb;
             mret (pThis <| m_pBufferPointer := p |> <| m_nTransferSize := sizeof_TSetupData |>)
           else
             p ← USBRequestGetBuffer urb;
             mret (pThis <| m_pBufferPointer := p |>
                         <| m_nTransferSize := USBRequestGetBufLen urb |>));
  stage_packets pThis.

Definition stage_scheduler pThis (hub : Z) : M St TDWHCITransferStageData :=
  if m_bSplitTransaction pThis then
    per ← DWHCITransferStageDataIsPeriodic pThis;
    mret (pThis <| m_FrameScheduler :=
                     if per : bool then FSPeriodic Periodic.DWHCIFrameSchedulerPeriodic
                     else FSNonPeriodic NonPeriodic.DWHCIFrameSchedulerNonPeriodic |>
                <| m_bFrameSchedulerUsed := true |>)
  else if (hub =? 0) && negb (bool_decide (sd_Speed pThis = USBSpeedHigh)) then
    per ← DWHCITransferStageDataIsPeriodic pThis;
    mret (pThis <| m_FrameScheduler := FSNoSplit (NoSplit.DWHCIFrameSchedulerNoSplit per) |>
                <| m_bFrameSchedulerUsed := true |>)
  else mret pThis.

(** The constructor; [pThis] supplies the fields it leaves alone. *)
Definition DWHCITransferStageData pThis (nChannel pURB : Z) (bIn bStatusStage : bool)
    : M St TDWHCITransferStageData :=
  let pThis := pThis <| m_nChannel := nChannel |> <| m_pURB := pURB |> <| m_bIn := bIn |>
                     <| m_bStatusStage := bStatusStage |> <| m_bSplitComplete := false |>
                     <| m_nTotalBytesTransfered := 0 |>
                     <| m_nState := StageStateNoSplitTransfer |>
                     <| m_nSubState := StageSubStateWaitForChannelDisable |>
                     <| m_nTransactionStatus := 0 |> <| m_bFrameSchedulerUsed := false |> in
  c_assert (negb (pURB =? 0)) ;;
  urb ← urb_at pURB;
  pE ← USBRequestGetEndpoint urb;
  e ← endpoint_at pE;
  pD ← USBEndpointGetDevice e;
  d ← device_at pD;
  let pThis := pThis <| sd_pEndpoint := pE |> <| sd_pDevice := pD |>
                     <| sd_Speed := USBDeviceGetSpeed d |>
                     <| sd_nMaxPacketSize := USBEndpointGetMaxPacketSize e |> in
  let hub := USBDeviceGetHubAddress d in
  let pThis := pThis <| m_bSplitTransaction :=
                 negb (hub =? 0) && negb (bool_decide (sd_Speed pThis = USBSpeedHigh)) |> in
  pThis ← (if negb bStatusStage then stage_buffer pThis urb
           else mret (pThis <| m_pBufferPointer := temp_buffer nChannel |>
                            <| m_nTransferSize := 0 |> <| m_nBytesPerTransaction := 0 |>
                            <| m_nPackets := 1 |> <| m_nPacketsPerTransaction := 1 |>));
  c_assert (negb (m_pBufferPointer pThis =? 0)) ;;
  c_assert (Z.land (m_pBufferPointer pThis) 3 =? 0) ;;
  stage_scheduler pThis hub.

Definition _DWHCITransferStageData pThis : TDWHCITransferStageData :=
  let pThis := if m_bFrameSchedulerUsed pThis
               then pThis <| m_FrameScheduler := _DWHCIFrameScheduler (m_FrameScheduler pThis) |>
               else pThis in
  pThis <| m_pBufferPointer := 0 |> <| sd_pEndpoint := 0 |> <| sd_pDevice := 0 |>
        <| m_pURB := 0 |>.

Definition DWHCITransferStageDataTransactionComplete pThis (nStatus nPacketsLeft nBytesLeft : Z)
    : M St TDWHCITransferStageData :=
  let pThis := pThis <| m_nTransactionStatus := nStatus |> in
  if has nStatus (Z.lor DWHCI_HOST_CHAN_INT_ERROR_MASK
                 (Z.lor DWHCI_HOST_CHAN_INT_NAK DWHCI_HOST_CHAN_INT_NYET)) then mret pThis
  else
    let nPacketsTransfered := u32 (m_nPacketsPerTransaction pThis - nPacketsLeft) in
    let nBytesTransfered := u32 (m_nBytesPerTransaction pThis - nBytesLeft) in
    let nBytesTransfered :=
      if m_bSplitTransaction pThis && m_bSplitComplete pThis && (nBytesTransfered =? 0)
         && (0 <? m_nBytesPerTransaction pThis)
      then u32 (sd_nMaxPacketSize pThis * nPacketsTransfered) else nBytesTransfered in
    let pThis := pThis <| m_nTotalBytesTransfered :=
                            u32 (m_nTotalBytesTransfered pThis + nBytesTransfered) |>
                       <| m_pBufferPointer := m_pBufferPointer pThis + nBytesTransfered |> in
    (if negb (m_bSplitTransaction pThis) || m_bSplitComplete pThis then
       e ← endpoint_at (sd_pEndpoint pThis);
       e ← USBEndpointSkipPID e nPacketsTransfered (m_bStatusStage pThis);
       endpoint_set (sd_pEndpoint pThis) e
     else mret tt) ;;
    c_assert (nPacketsTransfered <=? m_nPackets pThis) ;;
    let pThis := pThis <| m_nPackets := m_nPackets pThis - nPacketsTransfered |> in
    if u32 (m_nTransferSize pThis - m_nTotalBytesTransfered pThis)
       <? m_nBytesPerTransaction pThis then
      c_assert (m_nTotalBytesTransfered pThis <=? m_nTransferSize pThis) ;;
      mret (pThis <| m_nBytesPerTransaction :=
                       u32 (m_nTransferSize pThis - m_nTotalBytesTransfered pThis) |>)
    else mret pThis.

Definition DWHCITransferStageDataSetSplitComplete pThis (bComplete : bool)
    : M St TDWHCITransferStageData :=
  c_assert (m_bSplitTransaction pThis) ;; mret (pThis <| m_bSplitComplete := bComplete |>).

Definition DWHCITransferStageDataSetState pThis (nState : TStageState) :=
  pThis <| m_nState := nState |>.
Definition DWHCITransferStageDataGetState pThis : TStageState := m_nState pThis.
Definition DWHCITransferStageDataSetSubState pThis (nSubState : TStageSubState) :=
  pThis <| m_nSubState := nSubState |>.
Definition DWHCITransferStageDataGetSubState pThis : TStageSubState := m_nSubState pThis.
Definition DWHCITransferStageDataBeginSplitCycle pThis : bool := true.
Definition DWHCITransferStageDataGetChannelNumber pThis : Z := m_nChannel pThis.

Definition DWHCITransferStageDataGetDeviceAddress pThis : M St Z :=
  d ← device_at (sd_pDevice pThis); mret (USBDeviceGetAddress d).

Definition DWHCITransferStageDataGetEndpointType pThis : M St Z :=
  e ← endpoint_at (sd_pEndpoint pThis);
  match USBEndpointGetType e with
  | EndpointTypeControl => mret DWHCI_HOST_CHAN_CHARACTER_EP_TYPE_CONTROL
  | EndpointTypeBulk => mret DWHCI_HOST_CHAN_CHARACTER_EP_TYPE_BULK
  | EndpointTypeInterrupt => mret DWHCI_HOST_CHAN_CHARACTER_EP_TYPE_INTERRUPT
  | EndpointTypeIsochronous => fail AssertFailed
  end.

Definition DWHCITransferStageDataGetEndpointNumber pThis : M St Z :=
  e ← endpoint_at (sd_pEndpoint pThis); mret (USBEndpointGetNumber e).
Definition DWHCITransferStageDataGetMaxPacketSize pThis : Z := sd_nMaxPacketSize pThis.
Definition DWHCITransferStageDataGetSpeed pThis : TUSBSpeed := sd_Speed pThis.

Definition DWHCITransferStageDataGetPID pThis : M St Z :=
  e ← endpoint_at (sd_pEndpoint pThis);
  pid ← USBEndpointGetNextPID e (m_bStatusStage pThis);
  mret (match pid with
        | USBPIDSetup => DWHCI_HOST_CHAN_XFER_SIZ_PID_SETUP
        | USBPIDData0 => DWHCI_HOST_CHAN_XFER_SIZ_PID_DATA0
        | USBPIDData1 => DWHCI_HOST_CHAN_XFER_SIZ_PID_DATA1
        end).

Definition DWHCITransferStageDataIsDirectionIn pThis : bool := m_bIn pThis.
Definition DWHCITransferStageDataIsStatusStage pThis : bool := m_bStatusStage pThis.

Definition DWHCITransferStageDataGetDMAAddress pThis : M St Z :=
  c_assert (negb (m_pBufferPointer pThis =? 0)) ;; mret (u32 (m_pBufferPointer pThis)).

Definition DWHCITransferStageDataGetBytesToTransfer pThis : Z := m_nBytesPerTransaction pThis.
Definition DWHCITransferStageDataGetPacketsToTransfer pThis : Z := m_nPacketsPerTransaction pThis.
Definition DWHCITransferStageDataIsSplit pThis : bool := m_bSplitTransaction pThis.

Definition DWHCITransferStageDataIsSplitComplete pThis : M St bool :=
  c_assert (m_bSplitTransaction pThis) ;; mret (m_bSplitComplete pThis).

Definition DWHCITransferStageDataGetHubAddress pThis : M St Z :=
  c_assert (m_bSplitTransaction pThis) ;;
  d ← device_at (sd_pDevice pThis); mret (USBDeviceGetHubAddress d).
Definition DWHCITransferStageDataGetHubPortAddress pThis : M St Z :=
  c_assert (m_bSplitTransaction pThis) ;;
  d ← device_at (sd_pDevice pThis); mret (USBDeviceGetHubPortNumber d).
Definition DWHCITransferStageDataGetSplitPosition pThis : Z := DWHCI_HOST_CHAN_SPLIT_CTRL_ALL.

Definition DWHCITransferStageDataGetStatusMask pThis : M St Z :=
  let nMask := Z.lor DWHCI_HOST_CHAN_INT_XFER_COMPLETE
              (Z.lor DWHCI_HOST_CHAN_INT_HALTED DWHCI_HOST_CHAN_INT_ERROR_MASK) in
  b ← (if m_bSplitTransaction pThis then mret true else DWHCITransferStageDataIsPeriodic pThis);
  mret (if b : bool then Z.lor nMask (Z.lor DWHCI_HOST_CHAN_INT_ACK
                    (Z.lor DWHCI_HOST_CHAN_INT_NAK DWHCI_HOST_CHAN_INT_NYET))
        else nMask).

Definition DWHCITransferStageDataGetTransactionStatus pThis : M St Z :=
  c_assert (negb (m_nTransactionStatus pThis =? 0)) ;; mret (m_nTransactionStatus pThis).

Definition DWHCITransferStageDataIsStageComplete pThis : bool := m_nPackets pThis =? 0.

Definition DWHCITransferStageDataGetResultLen pThis : Z :=
  if m_nTransferSize pThis <? m_nTotalBytesTransfered pThis then m_nTransferSize pThis
  else m_nTotalBytesTransfered pThis.

Definition DWHCITransferStageDataGetURB pThis : M St Z :=
  c_assert (negb (m_pURB pThis =? 0)) ;; mret (m_pURB pThis).

Definition DWHCITransferStageDataGetFrameScheduler pThis : option TDWHCIFrameScheduler :=
  if m_bFrameSchedulerUsed pThis then Some (m_FrameScheduler pThis) else None.
End StageData.

(** ** Properties *)

(** The objects a request points to, as the driver's callers set them up. *)
Record request_ok (u : Usb) (pURB : Z) (urb : TUSBRequest) (e : TUSBEndpoint) (d : TUSBDevice)
  : Prop := {
  ro_urb : urbs u !! pURB = Some urb;
  ro_urb_nonnull : pURB ≠ 0;
  ro_ep_nonnull : m_pEndpoint urb ≠ 0;
  ro_ep : endpoints u !! m_pEndpoint urb = Some e;
  ro_dev_nonnull : m_pDevice e ≠ 0;
  ro_dev : devices u !! m_pDevice e = Some d
}.

(** The address and size of what a setup or data stage transfers. *)
Definition stage_source (urb : TUSBRequest) (e : TUSBEndpoint) : Z * Z :=
  match m_NextPID e, m_pSetupData urb with
  | USBPIDSetup, Some (p, _) => (p, 8)
  | _, _ => (m_pBuffer urb, m_nBufLen urb)
  end.

(** A control endpoint sends a setup packet first; the others never do. *)
Definition pid_ok (urb : TUSBRequest) (e : TUSBEndpoint) : Prop :=
  m_NextPID e = USBPIDSetup → m_Type e = EndpointTypeControl ∧ is_Some (m_pSetupData urb).

Definition is_periodic (e : TUSBEndpoint) : bool :=
  bool_decide (m_Type e = EndpointTypeInterrupt) || bool_decide (m_Type e = EndpointTypeIsochronous).

Definition needs_split (d : TUSBDevice) : bool :=
  negb (m_ucHubAddress d =? 0) && negb (bool_decide (m_Speed d = USBSpeedHigh)).

(** The frame scheduler a stage gets: the two split schedulers behind a
    high-speed hub, the no-split one on a root port below high speed, none at
    high speed. *)
Definition scheduler_for (e : TUSBEndpoint) (d : TUSBDevice) : option TDWHCIFrameScheduler :=
  if needs_split d then
    Some (if is_periodic e then FSPeriodic Periodic.DWHCIFrameSchedulerPeriodic
          else FSNonPeriodic NonPeriodic.DWHCIFrameSchedulerNonPeriodic)
  else if (m_ucHubAddress d =? 0) && negb (bool_decide (m_Speed d = USBSpeedHigh)) then
    Some (FSNoSplit (NoSplit.DWHCIFrameSchedulerNoSplit (is_periodic e)))
  else None.

Definition aligned (p : Z) : Prop := p ≠ 0 ∧ Z.land p 3 = 0.

(** A step through code on the store. *)
Ltac usb_step :=
  lazymatch goal with
  | |- wp (device_at _) _ _ => eapply wp_device_at; [eassumption|]
  | |- wp (endpoint_at _) _ _ => eapply wp_endpoint_at; [eassumption|]
  | |- wp (urb_at _) _ _ => eapply wp_urb_at; [eassumption|]
  | |- wp (USBRequestGetEndpoint _) _ _ => unfold USBRequestGetEndpoint
  | |- wp (USBEndpointGetDevice _) _ _ => unfold USBEndpointGetDevice
  | |- _ => reg_step
  end.

Section StageProps.
Context `{LA : Layout} `{!LayoutLaws} {St : Type} `{HU : HasUsb St}.

Lemma wp_IsPeriodic sd e (Q : bool → St → Prop) s :
  endpoints (usb_get s) !! sd_pEndpoint sd = Some e → Q (is_periodic e) s →
  wp (DWHCITransferStageDataIsPeriodic sd) Q s.
Proof.
  intros He HQ. unfold DWHCITransferStageDataIsPeriodic.
  wp_step. eapply wp_endpoint_at; [done|]. by wp_step.
Qed.

Lemma wp_stage_scheduler sd e d (Q : TDWHCITransferStageData → St → Prop) s :
  endpoints (usb_get s) !! sd_pEndpoint sd = Some e →
  m_bSplitTransaction sd = needs_split d → sd_Speed sd = m_Speed d →
  m_bFrameSchedulerUsed sd = false →
  (∀ fs, DWHCITransferStageDataGetFrameScheduler
           (sd <| m_FrameScheduler := fs |>
               <| m_bFrameSchedulerUsed := bool_decide (is_Some (scheduler_for e d)) |>)
         = scheduler_for e d →
     Q (sd <| m_FrameScheduler := fs |>
           <| m_bFrameSchedulerUsed := bool_decide (is_Some (scheduler_for e d)) |>) s) →
  wp (stage_scheduler sd (m_ucHubAddress d)) Q s.
Proof.
  intros He Hsp Hspd Hu HQ. unfold stage_scheduler. rewrite Hsp, Hspd.
  unfold scheduler_for in HQ. destruct (needs_split d).
  { wp_step. eapply wp_IsPeriodic; [done|]. wp_step. apply HQ. by destruct (is_periodic e). }
  destruct ((m_ucHubAddress d =? 0) && _).
  { wp_step. eapply wp_IsPeriodic; [done|]. wp_step. apply HQ. done. }
  wp_step. specialize (HQ (m_FrameScheduler sd)).
  replace sd with (sd <| m_FrameScheduler := m_FrameScheduler sd |>
    <| m_bFrameSchedulerUsed := bool_decide (is_Some (@None TDWHCIFrameScheduler)) |>)
    by (destruct sd; simpl in *; by subst).
  apply HQ. done.
Qed.

Lemma ceil_div size m : 0 <= size → 0 < m →
  size <= (size + m - 1) / m * m < size + m.
Proof.
  intros Hs Hm. assert (0 <= (size + m - 1) mod m < m) as Hr by (apply Z.mod_pos_bound; lia).
  pose proof (Z.div_mod (size + m - 1) m ltac:(lia)) as E. revert E Hr.
  generalize ((size + m - 1) / m) as q, ((size + m - 1) mod m) as r. intros. nia.
Qed.

Lemma wp_stage_packets sd m p size (Q : TDWHCITransferStageData → St → Prop) s :
  sd_nMaxPacketSize sd = m → 0 <= size < 2 ^ 31 → 0 < m < 65536 →
  (∀ n, size <= n * m < size + m →
    Q (sd <| m_pBufferPointer := p |> <| m_nTransferSize := size |> <| m_nPackets := n |>
          <| m_nBytesPerTransaction := if m_bSplitTransaction sd then Z.min size m else size |>
          <| m_nPacketsPerTransaction := if m_bSplitTransaction sd then 1 else n |>) s) →
  wp (stage_packets (sd <| m_pBufferPointer := p |> <| m_nTransferSize := size |>)) Q s.
Proof.
  intros Hsm Hsz Hm HQ. unfold stage_packets, udiv.
  destruct sd. sd_cbv. sd_cbv in HQ. sd_cbv in Hsm. subst.
  rewrite (proj2 (Z.eqb_neq m 0)) by lia.
  rewrite u32_id by (unfold is_u32; lia). wp_step. wp_step.
  specialize (HQ _ (ceil_div size m ltac:(lia) ltac:(lia))).
  destruct m_bSplitTransaction0; wp_step; [|exact HQ].
  replace (if m <? size then m else size) with (Z.min size m)
    by (destruct (Z.ltb_spec m size); lia).
  exact HQ.
Qed.

Lemma wp_stage_buffer sd urb e p size (Q : TDWHCITransferStageData → St → Prop) s :
  endpoints (usb_get s) !! sd_pEndpoint sd = Some e →
  endpoints (usb_get s) !! m_pEndpoint urb = Some e →
  pid_ok urb e → stage_source urb e = (p, size) → p ≠ 0 → 0 <= size < 2 ^ 31 →
  sd_nMaxPacketSize sd = m_nMaxPacketSize e → 0 < m_nMaxPacketSize e < 65536 →
  (∀ n, size <= n * m_nMaxPacketSize e < size + m_nMaxPacketSize e →
    Q (sd <| m_pBufferPointer := p |> <| m_nTransferSize := size |> <| m_nPackets := n |>
          <| m_nBytesPerTransaction :=
               if m_bSplitTransaction sd then Z.min size (m_nMaxPacketSize e) else size |>
          <| m_nPacketsPerTransaction := if m_bSplitTransaction sd then 1 else n |>) s) →
  wp (stage_buffer sd urb) Q s.
Proof.
  intros He He' Hpid Hsrc Hpn Hsz Hsm Hm HQ. unfold stage_buffer.
  assert (wp (stage_packets (sd <| m_pBufferPointer := p |> <| m_nTransferSize := size |>)) Q s)
    as Htail by (eapply wp_stage_packets; eauto).
  wp_step. usb_step. wp_step. apply wp_ret. wp_step.
  unfold stage_source, pid_ok in *. case_bool_decide as Hset.
  - destruct (Hpid Hset) as [Hc [[sp sdat] Hsome]]. rewrite Hset, Hsome in Hsrc.
    injection Hsrc as -> <-. wp_step. unfold USBRequestGetSetupData.
    repeat usb_step. rewrite Hsome. repeat usb_step. exact Htail.
  - assert (m_pBuffer urb = p ∧ m_nBufLen urb = size) as [Hb Hl]
      by (destruct (m_NextPID e); try done; by injection Hsrc).
    wp_step. unfold USBRequestGetBuffer. rewrite Hb, Hl. repeat usb_step.
    { apply orb_true_intro. left. solve_bool. }
    unfold USBRequestGetBufLen. rewrite Hl. exact Htail.
Qed.

(** What holds of a stage between transactions: the DMA pointer is where the
    transferred bytes end, and the next transaction stays inside the
    [m_nTransferSize] bytes at [base]. Of a split stage, whose transactions
    are single packets, all but the last are full ones. *)
Record stage_inv (base : Z) (sd : TDWHCITransferStageData) : Prop := {
  si_size : 0 <= m_nTransferSize sd < 2 ^ 31;
  si_mps : 0 < sd_nMaxPacketSize sd < 65536;
  si_total : 0 <= m_nTotalBytesTransfered sd;
  si_ptr : m_pBufferPointer sd = base + m_nTotalBytesTransfered sd;
  si_bytes : 0 <= m_nBytesPerTransaction sd;
  si_packets : 0 <= m_nPackets sd;
  si_bound : 0 < m_nPackets sd →
    m_nTotalBytesTransfered sd + m_nBytesPerTransaction sd <= m_nTransferSize sd;
  si_split : m_bSplitTransaction sd = true → 0 < m_nPackets sd →
    m_nPacketsPerTransaction sd = 1 ∧
    m_nBytesPerTransaction sd =
      Z.min (sd_nMaxPacketSize sd) (m_nTransferSize sd - m_nTotalBytesTransfered sd) ∧
    (m_nPackets sd - 1) * sd_nMaxPacketSize sd <=
      m_nTransferSize sd - m_nTotalBytesTransfered sd
}.

(** The source and size of a stage; the status stage moves nothing. *)
Definition stage_range (nChannel : Z) (bStatusStage : bool) (urb : TUSBRequest)
    (e : TUSBEndpoint) : Z * Z :=
  if bStatusStage then (temp_buffer nChannel, 0) else stage_source urb e.

(** A stage that has just been set up, to move [size] bytes at [p]. *)
Record fresh_stage (sd : TDWHCITransferStageData) (nChannel pURB : Z) (bIn bStatusStage : bool)
    (urb : TUSBRequest) (e : TUSBEndpoint) (d : TUSBDevice) (p size : Z) : Prop := {
  fs_channel : m_nChannel sd = nChannel;
  fs_urb : m_pURB sd = pURB;
  fs_in : m_bIn sd = bIn;
  fs_status : m_bStatusStage sd = bStatusStage;
  fs_split : m_bSplitTransaction sd = needs_split d;
  fs_complete : m_bSplitComplete sd = false;
  fs_device : sd_pDevice sd = m_pDevice e;
  fs_endpoint : sd_pEndpoint sd = m_pEndpoint urb;
  fs_speed : sd_Speed sd = m_Speed d;
  fs_mps : sd_nMaxPacketSize sd = m_nMaxPacketSize e;
  fs_ptr : m_pBufferPointer sd = p;
  fs_size : m_nTransferSize sd = size;
  fs_total : m_nTotalBytesTransfered sd = 0;
  fs_packets : if bStatusStage then m_nPackets sd = 1
               else size <= m_nPackets sd * m_nMaxPacketSize e < size + m_nMaxPacketSize e;
  fs_bytes : m_nBytesPerTransaction sd =
    if needs_split d then Z.min size (m_nMaxPacketSize e) else size;
  fs_ppt : m_nPacketsPerTransaction sd = if needs_split d then 1 else m_nPackets sd
}.

Lemma wp_fresh_stage sd0 nChannel pURB bIn bStatus urb e d p size
    (Q : TDWHCITransferStageData → St → Prop) s :
  request_ok (usb_get s) pURB urb e d → pid_ok urb e →
  stage_range nChannel bStatus urb e = (p, size) →
  aligned p → 0 <= size < 2 ^ 31 → 0 < m_nMaxPacketSize e < 65536 →
  (∀ sd, fresh_stage sd nChannel pURB bIn bStatus urb e d p size →
     DWHCITransferStageDataGetFrameScheduler sd = scheduler_for e d → Q sd s) →
  wp (DWHCITransferStageData sd0 nChannel pURB bIn bStatus) Q s.
Proof.
  intros [Hurb Hp0 He0 He Hd0 Hd] Hpid Esrc [Hpn Hpa] Hsz Hm HQ. unfold DWHCITransferStageData.
  repeat usb_step. cbv zeta. destruct bStatus; simpl in Esrc.
  - injection Esrc as <- <-. cbn [negb]. repeat usb_step.
    apply wp_stage_scheduler with (e := e); [done..|].
    intros fs Hfs. apply HQ; [|done]. constructor; try done. simpl. by destruct (needs_split d); [rewrite Z.min_l by lia|].
    simpl. by destruct (needs_split d).
  - eapply wp_stage_buffer; [done..|]. intros n Hn. repeat usb_step.
    apply wp_stage_scheduler with (e := e); [done..|].
    intros fs Hfs. apply HQ; [|done]. by constructor.
Qed.

(** The invariant holds of a fresh stage that has something to move. *)
Lemma fresh_stage_inv sd nChannel pURB bIn bStatus urb e d p size :
  fresh_stage sd nChannel pURB bIn bStatus urb e d p size →
  0 <= size < 2 ^ 31 → 0 < m_nMaxPacketSize e < 65536 →
  (bStatus = true → size = 0) → (bStatus = false → 0 < size) →
  stage_inv p sd ∧ 0 < m_nPackets sd < 2 ^ 31 ∧
  m_nPacketsPerTransaction sd <= m_nPackets sd.
Proof.
  intros [] Hsz Hm Hs0 Hs1.
  assert (0 < m_nPackets sd < 2 ^ 31) as Hpk.
  { destruct bStatus; [lia|]. specialize (Hs1 eq_refl). nia. }
  split_and!; [|lia|lia|rewrite fs_ppt0; destruct (needs_split d); lia].
  constructor; try lia.
  - rewrite fs_bytes0. destruct (needs_split d); lia.
  - intros _. rewrite fs_bytes0. destruct (needs_split d); lia.
  - rewrite fs_split0. intros Hns _. rewrite Hns in *. split_and!; [done|lia|].
    destruct bStatus; [|lia]. rewrite Hs0 in * by done. lia.
Qed.

(** Setting up a stage: it covers exactly the setup packet, the buffer or, in
    the status stage, nothing, in the least number of packets of the
    endpoint's size, one packet at a time if the transfer is split and all at
    once if not, with the frame scheduler the device's place on the bus calls
    for. The request, endpoint and device are only read. *)
Theorem stage_data_init sd0 nChannel pURB bIn bStatus urb e d s :
  request_ok (usb_get s) pURB urb e d → pid_ok urb e →
  let '(p, size) := stage_range nChannel bStatus urb e in
  aligned p → 0 <= size < 2 ^ 31 → 0 < m_nMaxPacketSize e < 65536 →
  wp (DWHCITransferStageData sd0 nChannel pURB bIn bStatus) (λ sd s',
    s' = s ∧ m_nChannel sd = nChannel ∧ m_pURB sd = pURB ∧ m_bIn sd = bIn ∧
    m_bStatusStage sd = bStatus ∧ sd_pEndpoint sd = m_pEndpoint urb ∧
    m_pBufferPointer sd = p ∧ m_nTransferSize sd = size ∧ m_nTotalBytesTransfered sd = 0 ∧
    (if bStatus then m_nPackets sd = 1
     else size <= m_nPackets sd * m_nMaxPacketSize e < size + m_nMaxPacketSize e) ∧
    m_bSplitTransaction sd = needs_split d ∧
    m_nBytesPerTransaction sd =
      (if needs_split d then Z.min size (m_nMaxPacketSize e) else size) ∧
    m_nPacketsPerTransaction sd = (if needs_split d then 1 else m_nPackets sd) ∧
    DWHCITransferStageDataGetFrameScheduler sd = scheduler_for e d) s.
Proof.
  intros Hro Hpid. destruct (stage_range nChannel bStatus urb e) as [p size] eqn:E.
  intros Hal Hsz Hm. eapply wp_fresh_stage; [done..|]. intros sd [] ?. done.
Qed.

(** *** Accounting *)

(** The bytes a transaction is credited with: what the controller counted
    down, or, for a complete-split it did not count, a full packet per
    packet. *)
Definition credited sd (nPackets nBytesLeft : Z) : Z :=
  if m_bSplitTransaction sd && m_bSplitComplete sd
     && (m_nBytesPerTransaction sd - nBytesLeft =? 0) && (0 <? m_nBytesPerTransaction sd)
  then sd_nMaxPacketSize sd * nPackets else m_nBytesPerTransaction sd - nBytesLeft.

(** The endpoint after the packets of a transaction. *)
Definition pid_after sd (e : TUSBEndpoint) (nPackets : Z) : TUSBEndpoint :=
  if negb (m_bSplitTransaction sd) || m_bSplitComplete sd then
    match USBEndpointSkipPID e nPackets (m_bStatusStage sd) tt with
    | Ok (e', _) => e' | Err _ => e
    end
  else e.

Lemma skip_pid_state {S1 S2} e n b (s1 : S1) (s2 : S2) :
  match USBEndpointSkipPID e n b s1, USBEndpointSkipPID e n b s2 with
  | Ok (e1, s1'), Ok (e2, s2') => e1 = e2 ∧ s1' = s1
  | Err f1, Err f2 => f1 = f2
  | _, _ => False
  end.
Proof.
  unfold USBEndpointSkipPID, c_assert. destruct e as [d nb t di mp iv p]; destruct t, p, b; simpl.
  all: try destruct (truthy _); done.
Qed.

Lemma skip_pid_ok {S1} e n b (s : S1) :
  m_Type e ≠ EndpointTypeIsochronous → (b = true → m_Type e = EndpointTypeControl) →
  ∃ e', USBEndpointSkipPID e n b s = Ok (e', s).
Proof.
  intros Ht Hb. unfold USBEndpointSkipPID, c_assert.
  destruct e as [d nb t di mp iv p]; simpl in *.
  destruct b; [rewrite Hb by done; simpl; eauto|].
  destruct t; try done; destruct p; simpl; try destruct (truthy _); eauto.
Qed.

Lemma wp_skip_pid sd e n (Q : unit → St → Prop) s :
  endpoints (usb_get s) !! sd_pEndpoint sd = Some e →
  m_Type e ≠ EndpointTypeIsochronous →
  (m_bStatusStage sd = true → m_Type e = EndpointTypeControl) →
  (let s' := if negb (m_bSplitTransaction sd) || m_bSplitComplete sd
             then usb_put (upd_endpoint (sd_pEndpoint sd) (pid_after sd e n) (usb_get s)) s
             else s in Q tt s') →
  wp (if negb (m_bSplitTransaction sd) || m_bSplitComplete sd then
        e ← endpoint_at (sd_pEndpoint sd);
        e ← USBEndpointSkipPID e n (m_bStatusStage sd);
        endpoint_set (sd_pEndpoint sd) e
      else mret tt) Q s.
Proof.
  intros He Hiso Hst HQ. unfold pid_after in HQ.
  destruct (negb (m_bSplitTransaction sd) || m_bSplitComplete sd); [|by wp_step].
  wp_step. usb_step. wp_step.
  destruct (skip_pid_ok e n (m_bStatusStage sd) s Hiso Hst) as [e1 He1].
  pose proof (skip_pid_state e n (m_bStatusStage sd) s tt) as Heq. rewrite He1 in Heq.
  destruct (USBEndpointSkipPID e n (m_bStatusStage sd) tt) as [[e2 []]|]; [|done].
  destruct Heq as [<- _]. apply wp_run. exists e1, s. split; [done|]. exact HQ.
Qed.

(** What a transaction moved stays within the stage. *)
Lemma credited_bounds base sd pl bl :
  stage_inv base sd → 0 < m_nPackets sd → 0 <= pl <= m_nPacketsPerTransaction sd →
  m_nPacketsPerTransaction sd <= m_nPackets sd →
  0 <= bl <= m_nBytesPerTransaction sd →
  (m_bSplitTransaction sd = true → pl = 1 → bl = m_nBytesPerTransaction sd) →
  let n := m_nPacketsPerTransaction sd - pl in
  let c := credited sd n bl in
  0 <= c ∧ c <= m_nBytesPerTransaction sd + 65535 ∧
  (0 < m_nPackets sd - n → m_nTotalBytesTransfered sd + c <= m_nTransferSize sd) ∧
  (m_bSplitTransaction sd = true → 0 < m_nPackets sd - n →
     (m_nPackets sd - n - 1) * sd_nMaxPacketSize sd <=
     m_nTransferSize sd - (m_nTotalBytesTransfered sd + c)).
Proof.
  intros [Hsz Hmps Htot Hptr Hby Hpk Hbd Hsp] Hpos Hpl Hle Hbl Hlaw n c. subst n c. unfold credited.
  specialize (Hbd Hpos). destruct (m_bSplitTransaction sd); simpl; [|split_and!; intros; try lia; done].
  destruct (Hsp eq_refl Hpos) as (Hpp & Hb & Hm). rewrite Hpp in *. specialize (Hlaw eq_refl).
  destruct (m_bSplitComplete sd && (m_nBytesPerTransaction sd - bl =? 0)
            && (0 <? m_nBytesPerTransaction sd)) eqn:E.
  all: assert (pl = 0 ∨ pl = 1) as [-> | ->] by lia.
  all: split_and!; intros; try nia.
  all: assert (m_nBytesPerTransaction sd <= sd_nMaxPacketSize sd) by lia; nia.
Qed.

Lemma wp_TransactionComplete base sd nStatus pl bl e (Q : TDWHCITransferStageData → St → Prop) s :
  stage_inv base sd → 0 < m_nPackets sd →
  has nStatus (Z.lor DWHCI_HOST_CHAN_INT_ERROR_MASK
              (Z.lor DWHCI_HOST_CHAN_INT_NAK DWHCI_HOST_CHAN_INT_NYET)) = false →
  0 <= pl <= m_nPacketsPerTransaction sd → m_nPacketsPerTransaction sd <= m_nPackets sd →
  m_nPackets sd < 2 ^ 31 →
  0 <= bl <= m_nBytesPerTransaction sd →
  (m_bSplitTransaction sd = true → pl = 1 → bl = m_nBytesPerTransaction sd) →
  endpoints (usb_get s) !! sd_pEndpoint sd = Some e →
  m_Type e ≠ EndpointTypeIsochronous →
  (m_bStatusStage sd = true → m_Type e = EndpointTypeControl) →
  let n := m_nPacketsPerTransaction sd - pl in
  let c := credited sd n bl in
  (∀ b, let sd' := sd <| m_nTransactionStatus := nStatus |>
           <| m_nTotalBytesTransfered := m_nTotalBytesTransfered sd + c |>
           <| m_pBufferPointer := m_pBufferPointer sd + c |>
           <| m_nPackets := m_nPackets sd - n |> <| m_nBytesPerTransaction := b |> in
     stage_inv base sd' →
     Q sd' (if negb (m_bSplitTransaction sd) || m_bSplitComplete sd
            then usb_put (upd_endpoint (sd_pEndpoint sd) (pid_after sd e n) (usb_get s)) s
            else s)) →
  wp (DWHCITransferStageDataTransactionComplete sd nStatus pl bl) Q s.
Proof.
  intros Hinv Hpos Hok Hpl Hle Hp31 Hbl Hlaw He Hiso Hst n c HQ.
  pose proof (credited_bounds base sd pl bl Hinv Hpos Hpl Hle Hbl Hlaw) as (Hc0 & Hc1 & Hc2 & Hc3).
  fold n c in Hc0, Hc1, Hc2, Hc3. destruct Hinv as [Hsz Hmps Htot Hptr Hby Hpk Hbd Hsp].
  specialize (Hbd Hpos). unfold DWHCITransferStageDataTransactionComplete. rewrite Hok.
  assert (u32 (m_nPacketsPerTransaction sd - pl) = n) as Hn by (subst n; cint).
  assert (u32 (m_nBytesPerTransaction sd - bl) = m_nBytesPerTransaction sd - bl) as Hb by cint.
  assert ((if m_bSplitTransaction sd && m_bSplitComplete sd
             && (m_nBytesPerTransaction sd - bl =? 0) && (0 <? m_nBytesPerTransaction sd)
           then u32 (sd_nMaxPacketSize sd * n) else m_nBytesPerTransaction sd - bl) = c) as Hcr.
  { subst c. unfold credited in *. destruct (m_bSplitTransaction sd); simpl in *; [|done].
    destruct (_ && _ && _); [|done]. apply u32_id. unfold is_u32. lia. }
  sd_cbn. rewrite Hn, Hb, Hcr. cbv zeta. sd_cbn. clear Hcr. clearbody c.
  assert (u32 (m_nTotalBytesTransfered sd + c) = m_nTotalBytesTransfered sd + c) as -> by cint.
  wp_step. eapply (wp_skip_pid sd); [done..|]. cbv zeta.
  wp_step. apply wp_assert; [apply Z.leb_le; lia|]. cbv zeta. sd_cbn.
  destruct (Z.ltb_spec (u32 (m_nTransferSize sd - (m_nTotalBytesTransfered sd + c)))
              (m_nBytesPerTransaction sd)) as [Hlt|Hge].
  - assert (m_nTotalBytesTransfered sd + c <= m_nTransferSize sd) as Hle' by cint.
    rewrite u32_id in * by cint. wp_step. apply wp_assert; [by apply Z.leb_le|]. wp_step.
    apply HQ. constructor; sd_cbn; lia.
  - wp_step. specialize (HQ (m_nBytesPerTransaction sd)). apply HQ.
    constructor; sd_cbn; try lia.
    + intros Hp. specialize (Hc2 ltac:(lia)). cint.
    + intros Hs Hp. specialize (Hsp Hs Hpos). specialize (Hc2 ltac:(lia)).
      specialize (Hc3 Hs ltac:(lia)). rewrite u32_id in Hge by cint. split_and!; try lia.
Qed.

(** A failed or refused transaction only leaves its status. *)
Lemma wp_TransactionComplete_refused sd nStatus pl bl (Q : TDWHCITransferStageData → St → Prop) s :
  has nStatus (Z.lor DWHCI_HOST_CHAN_INT_ERROR_MASK
              (Z.lor DWHCI_HOST_CHAN_INT_NAK DWHCI_HOST_CHAN_INT_NYET)) = true →
  Q (sd <| m_nTransactionStatus := nStatus |>) s →
  wp (DWHCITransferStageDataTransactionComplete sd nStatus pl bl) Q s.
Proof.
  intros Href HQ. unfold DWHCITransferStageDataTransactionComplete. rewrite Href. by wp_step.
Qed.

(** C8. Completing a transaction: the stage is credited with what moved, the
    data toggle advances by the packets that moved, the DMA pointer and the
    transaction size never let the next transaction leave the buffer, and
    the length reported is never more than the buffer's. *)
Theorem transaction_complete base sd nStatus pl bl e s :
  stage_inv base sd → 0 < m_nPackets sd →
  has nStatus (Z.lor DWHCI_HOST_CHAN_INT_ERROR_MASK
              (Z.lor DWHCI_HOST_CHAN_INT_NAK DWHCI_HOST_CHAN_INT_NYET)) = false →
  0 <= pl <= m_nPacketsPerTransaction sd → m_nPacketsPerTransaction sd <= m_nPackets sd →
  m_nPackets sd < 2 ^ 31 →
  0 <= bl <= m_nBytesPerTransaction sd →
  (m_bSplitTransaction sd = true → pl = 1 → bl = m_nBytesPerTransaction sd) →
  endpoints (usb_get s) !! sd_pEndpoint sd = Some e →
  m_Type e ≠ EndpointTypeIsochronous →
  (m_bStatusStage sd = true → m_Type e = EndpointTypeControl) →
  let n := m_nPacketsPerTransaction sd - pl in
  wp (DWHCITransferStageDataTransactionComplete sd nStatus pl bl) (λ sd' s',
    stage_inv base sd' ∧ m_nTransactionStatus sd' = nStatus ∧
    m_nPackets sd' = m_nPackets sd - n ∧
    m_nTotalBytesTransfered sd' = m_nTotalBytesTransfered sd + credited sd n bl ∧
    0 <= DWHCITransferStageDataGetResultLen sd' <= m_nTransferSize sd ∧
    s' = (if negb (m_bSplitTransaction sd) || m_bSplitComplete sd
          then usb_put (upd_endpoint (sd_pEndpoint sd) (pid_after sd e n) (usb_get s)) s
          else s)) s.
Proof.
  intros Hinv Hpos Hok Hpl Hle Hp31 Hbl Hlaw He Hiso Hst n.
  pose proof (credited_bounds base sd pl bl Hinv Hpos Hpl Hle Hbl Hlaw) as (Hc0 & _).
  eapply wp_TransactionComplete; [done..|]. fold n in Hc0 |- *. cbv zeta. intros b Hinv'.
  split_and!; try done; unfold DWHCITransferStageDataGetResultLen; sd_cbn;
    destruct Hinv; destruct (Z.ltb_spec (m_nTransferSize sd)
      (m_nTotalBytesTransfered sd + credited sd n bl)); lia.
Qed.
End StageProps.

(** ** Concrete inputs

    A high-speed device at address 1 on the root port, with its control
    endpoint and a request for 150 bytes of a bulk endpoint. *)
Module StageDemo.
#[export] Instance layout : Layout :=
  {| temp_buffer := λ n, 0x100000 + 64 * Z.abs n; setup_buffer := 0x200000 |}.
#[export] Instance layout_laws : LayoutLaws.
Proof.
  split; simpl; try done; intros n; [lia|].
  rewrite (Z.land_ones _ 2) by lia. lia.
Qed.

Definition ep0 : TUSBEndpoint :=
  {| m_pDevice := 1; m_ucNumber := 0; m_Type := EndpointTypeControl; m_bDirectionIn := false;
     m_nMaxPacketSize := 64; m_nInterval := 1; m_NextPID := USBPIDSetup |}.
Definition bulk : TUSBEndpoint :=
  {| m_pDevice := 1; m_ucNumber := 2; m_Type := EndpointTypeBulk; m_bDirectionIn := true;
     m_nMaxPacketSize := 64; m_nInterval := 1; m_NextPID := USBPIDData0 |}.
Definition dev : TUSBDevice :=
  {| m_ucAddress := 1; m_Speed := USBSpeedHigh; m_pEndpoint0 := 2; m_bSplitTransfer := false;
     m_ucHubAddress := 0; m_ucHubPortNumber := 1 |}.
Definition request : TUSBRequest :=
  {| m_pEndpoint := 3; m_pSetupData := None; m_pBuffer := 0x300000; m_nBufLen := 150;
     m_bStatus := 0; m_nResultLen := 0; m_pCompletionRoutine := NoRoutine;
     m_pCompletionParam := 0; m_pCompletionContext := 0 |}.
Definition blank_stage : TDWHCITransferStageData :=
  Build_TDWHCITransferStageData 0 0 false false false false 0 0 USBSpeedLow 0 0 0 0 0 0
    StageStateUnknown StageSubStateUnknown 0 0 false
    (FSNonPeriodic NonPeriodic.DWHCIFrameSchedulerNonPeriodic).
(** The request's stage, before its transaction. *)
Definition bulk_stage : TDWHCITransferStageData :=
  Build_TDWHCITransferStageData 0 4 true false false false 1 3 USBSpeedHigh 64 150 3 150 3 0
    StageStateUnknown StageSubStateUnknown 0 0x300000 false
    (FSNonPeriodic NonPeriodic.DWHCIFrameSchedulerNonPeriodic).
Definition usb : Usb :=
  {| devices := {[ 1 := dev ]}; endpoints := <[2 := ep0]> {[ 3 := bulk ]}; urbs := {[ 4 := request ]} |}.

Lemma stage_data_init_witness :
  wp (DWHCITransferStageData blank_stage 0 4 true false) (λ sd s',
    s' = usb ∧ m_nTransferSize sd = 150 ∧ m_nBytesPerTransaction sd = 150 ∧
    150 <= m_nPackets sd * 64 < 150 + 64) usb.
Proof.
  eapply wp_mono; [apply (stage_data_init blank_stage 0 4 true false request bulk dev usb)|].
  - by constructor.
  - discriminate.
  - split; [discriminate|reflexivity].
  - simpl. lia.
  - simpl. lia.
  - intros sd s' (E & _ & _ & _ & _ & _ & _ & Hs & _ & Hp & _ & Hb & _).
    split; [exact E|split; [exact Hs|split; [exact Hb|exact Hp]]].
Defined.

(** The device answers with 100 bytes, in two packets. *)
Lemma transaction_complete_witness :
  wp (DWHCITransferStageDataTransactionComplete bulk_stage
        (Z.lor DWHCI_HOST_CHAN_INT_XFER_COMPLETE DWHCI_HOST_CHAN_INT_HALTED) 1 50) (λ sd' s',
    stage_inv 0x300000 sd' ∧ m_nPackets sd' = 1 ∧ m_nTotalBytesTransfered sd' = 100) usb.
Proof.
  eapply wp_mono; [apply (transaction_complete 0x300000 bulk_stage _ 1 50 bulk usb)|].
  - constructor; simpl; try lia; done.
  - simpl. lia.
  - reflexivity.
  - simpl. lia.
  - simpl. lia.
  - simpl. lia.
  - simpl. lia.
  - discriminate.
  - reflexivity.
  - discriminate.
  - discriminate.
  - intros sd' s' (H1 & _ & H2 & H3 & _). split; [exact H1|split; [exact H2|exact H3]].
Defined.
End StageDemo.
