(* ===== verification/HostState.v ===== *)
(** * The state the host controller driver works on

    include/uspi/dwhcidevice.h and the register map of include/uspi/dwhci.h:
    the device object with its channels' stage data, next to the history of
    register accesses, the processor's interrupt state, the objects requests
    point to, and the interrupts and timers still to arrive. *)
From S2P Require Import Prelude Register Sync FrameSched Endpoint StageData.

(** ** Registers (include/uspi/dwhci.h, bcm2835.h) *)

Definition DWHCI_MAX_CHANNELS : Z := 16.
Definition DWHCI_CORE_AHB_CFG : Z := ARM_USB_CORE_BASE + 0x008.
Definition DWHCI_CORE_AHB_CFG_GLOBALINT_MASK : Z := Z.shiftl 1 0.
Definition DWHCI_CORE_AHB_CFG_MAX_AXI_BURST__MASK : Z := Z.shiftl 3 1.
Definition DWHCI_CORE_AHB_CFG_WAIT_AXI_WRITES : Z := Z.shiftl 1 4.
Definition DWHCI_CORE_AHB_CFG_DMAENABLE : Z := Z.shiftl 1 5.
Definition DWHCI_CORE_USB_CFG : Z := ARM_USB_CORE_BASE + 0x00C.
Definition DWHCI_CORE_USB_CFG_PHYIF : Z := Z.shiftl 1 3.
Definition DWHCI_CORE_USB_CFG_ULPI_UTMI_SEL : Z := Z.shiftl 1 4.
Definition DWHCI_CORE_USB_CFG_SRP_CAPABLE : Z := Z.shiftl 1 8.
Definition DWHCI_CORE_USB_CFG_HNP_CAPABLE : Z := Z.shiftl 1 9.
Definition DWHCI_CORE_USB_CFG_ULPI_FSLS : Z := Z.shiftl 1 17.
Definition DWHCI_CORE_USB_CFG_ULPI_CLK_SUS_M : Z := Z.shiftl 1 19.
Definition DWHCI_CORE_USB_CFG_ULPI_EXT_VBUS_DRV : Z := Z.shiftl 1 20.
Definition DWHCI_CORE_USB_CFG_TERM_SEL_DL_PULSE : Z := Z.shiftl 1 22.
Definition DWHCI_CORE_RESET : Z := ARM_USB_CORE_BASE + 0x010.
Definition DWHCI_CORE_RESET_SOFT_RESET : Z := Z.shiftl 1 0.
Definition DWHCI_CORE_RESET_RX_FIFO_FLUSH : Z := Z.shiftl 1 4.
Definition DWHCI_CORE_RESET_TX_FIFO_FLUSH : Z := Z.shiftl 1 5.
Definition DWHCI_CORE_RESET_TX_FIFO_NUM__SHIFT : Z := 6.
Definition DWHCI_CORE_RESET_TX_FIFO_NUM__MASK : Z := Z.shiftl 0x1F 6.
Definition DWHCI_CORE_RESET_AHB_IDLE : Z := Z.shiftl 1 31.
Definition DWHCI_CORE_INT_STAT : Z := ARM_USB_CORE_BASE + 0x014.
Definition DWHCI_CORE_INT_STAT_HC_INTR : Z := Z.shiftl 1 25.
Definition DWHCI_CORE_INT_MASK : Z := ARM_USB_CORE_BASE + 0x018.
Definition DWHCI_CORE_INT_MASK_HC_INTR : Z := Z.shiftl 1 25.
Definition DWHCI_CORE_RX_FIFO_SIZ : Z := ARM_USB_CORE_BASE + 0x024.
Definition DWHCI_CORE_NPER_TX_FIFO_SIZ : Z := ARM_USB_CORE_BASE + 0x028.
Definition DWHCI_CORE_VENDOR_ID : Z := ARM_USB_CORE_BASE + 0x040.
Definition DWHCI_CORE_HW_CFG2 : Z := ARM_USB_CORE_BASE + 0x048.
Definition DWHCI_CORE_HW_CFG2_ARCHITECTURE (reg : Z) : Z := Z.land (Z.shiftr reg 3) 3.
Definition DWHCI_CORE_HW_CFG2_HS_PHY_TYPE (reg : Z) : Z := Z.land (Z.shiftr reg 6) 3.
Definition DWHCI_CORE_HW_CFG2_HS_PHY_TYPE_ULPI : Z := 2.
Definition DWHCI_CORE_HW_CFG2_FS_PHY_TYPE (reg : Z) : Z := Z.land (Z.shiftr reg 8) 3.
Definition DWHCI_CORE_HW_CFG2_FS_PHY_TYPE_DEDICATED : Z := 1.
Definition DWHCI_CORE_HW_CFG2_NUM_HOST_CHANNELS (reg : Z) : Z := Z.land (Z.shiftr reg 14) 0xF + 1.
Definition DWHCI_CORE_HOST_PER_TX_FIFO_SIZ : Z := ARM_USB_CORE_BASE + 0x100.

Definition DWHCI_HOST_CFG : Z := ARM_USB_HOST_BASE + 0x000.
Definition DWHCI_HOST_CFG_FSLS_PCLK_SEL__MASK : Z := Z.shiftl 3 0.
Definition DWHCI_HOST_CFG_FSLS_PCLK_SEL_30_60_MHZ : Z := 0.
Definition DWHCI_HOST_CFG_FSLS_PCLK_SEL_48_MHZ : Z := 1.
Definition DWHCI_HOST_ALLCHAN_INT : Z := ARM_USB_HOST_BASE + 0x014.
Definition DWHCI_HOST_ALLCHAN_INT_MASK : Z := ARM_USB_HOST_BASE + 0x018.
Definition DWHCI_HOST_PORT : Z := ARM_USB_HOST_BASE + 0x040.
Definition DWHCI_HOST_PORT_CONNECT : Z := Z.shiftl 1 0.
Definition DWHCI_HOST_PORT_CONNECT_CHANGED : Z := Z.shiftl 1 1.
Definition DWHCI_HOST_PORT_ENABLE : Z := Z.shiftl 1 2.
Definition DWHCI_HOST_PORT_ENABLE_CHANGED : Z := Z.shiftl 1 3.
Definition DWHCI_HOST_PORT_OVERCURRENT : Z := Z.shiftl 1 4.
Definition DWHCI_HOST_PORT_OVERCURRENT_CHANGED : Z := Z.shiftl 1 5.
Definition DWHCI_HOST_PORT_RESET : Z := Z.shiftl 1 8.
Definition DWHCI_HOST_PORT_POWER : Z := Z.shiftl 1 12.
Definition DWHCI_HOST_PORT_SPEED (reg : Z) : Z := Z.land (Z.shiftr reg 17) 3.
Definition DWHCI_HOST_PORT_SPEED_HIGH : Z := 0.
Definition DWHCI_HOST_PORT_SPEED_FULL : Z := 1.
Definition DWHCI_HOST_PORT_SPEED_LOW : Z := 2.
Definition DWHCI_HOST_PORT_DEFAULT_MASK : Z :=
  Z.lor DWHCI_HOST_PORT_CONNECT_CHANGED (Z.lor DWHCI_HOST_PORT_ENABLE
  (Z.lor DWHCI_HOST_PORT_ENABLE_CHANGED DWHCI_HOST_PORT_OVERCURRENT_CHANGED)).

Definition DWHCI_HOST_CHAN_CHARACTER (chan : Z) : Z := ARM_USB_HOST_BASE + 0x100 + chan * 0x20.
Definition DWHCI_HOST_CHAN_CHARACTER_MAX_PKT_SIZ__MASK : Z := 0x7FF.
Definition DWHCI_HOST_CHAN_CHARACTER_EP_NUMBER__SHIFT : Z := 11.
Definition DWHCI_HOST_CHAN_CHARACTER_EP_NUMBER__MASK : Z := Z.shiftl 0xF 11.
Definition DWHCI_HOST_CHAN_CHARACTER_EP_DIRECTION_IN : Z := Z.shiftl 1 15.
Definition DWHCI_HOST_CHAN_CHARACTER_LOW_SPEED_DEVICE : Z := Z.shiftl 1 17.
Definition DWHCI_HOST_CHAN_CHARACTER_EP_TYPE__SHIFT : Z := 18.
Definition DWHCI_HOST_CHAN_CHARACTER_EP_TYPE__MASK : Z := Z.shiftl 3 18.
Definition DWHCI_HOST_CHAN_CHARACTER_MULTI_CNT__SHIFT : Z := 20.
Definition DWHCI_HOST_CHAN_CHARACTER_MULTI_CNT__MASK : Z := Z.shiftl 3 20.
Definition DWHCI_HOST_CHAN_CHARACTER_DEVICE_ADDRESS__SHIFT : Z := 22.
Definition DWHCI_HOST_CHAN_CHARACTER_DEVICE_ADDRESS__MASK : Z := Z.shiftl 0x7F 22.
Definition DWHCI_HOST_CHAN_CHARACTER_PER_ODD_FRAME : Z := Z.shiftl 1 29.
Definition DWHCI_HOST_CHAN_CHARACTER_DISABLE : Z := Z.shiftl 1 30.
Definition DWHCI_HOST_CHAN_CHARACTER_ENABLE : Z := Z.shiftl 1 31.
Definition DWHCI_HOST_CHAN_SPLIT_CTRL (chan : Z) : Z := ARM_USB_HOST_BASE + 0x104 + chan * 0x20.
Definition DWHCI_HOST_CHAN_SPLIT_CTRL_HUB_ADDRESS__SHIFT : Z := 7.
Definition DWHCI_HOST_CHAN_SPLIT_CTRL_XACT_POS__SHIFT : Z := 14.
Definition DWHCI_HOST_CHAN_SPLIT_CTRL_COMPLETE_SPLIT : Z := Z.shiftl 1 16.
Definition DWHCI_HOST_CHAN_SPLIT_CTRL_SPLIT_ENABLE : Z := Z.shiftl 1 31.
Definition DWHCI_HOST_CHAN_INT (chan : Z) : Z := ARM_USB_HOST_BASE + 0x108 + chan * 0x20.
Definition DWHCI_HOST_CHAN_INT_MASK (chan : Z) : Z := ARM_USB_HOST_BASE + 0x10C + chan * 0x20.
Definition DWHCI_HOST_CHAN_XFER_SIZ (chan : Z) : Z := ARM_USB_HOST_BASE + 0x110 + chan * 0x20.
Definition DWHCI_HOST_CHAN_XFER_SIZ_BYTES__MASK : Z := 0x7FFFF.
Definition DWHCI_HOST_CHAN_XFER_SIZ_PACKETS__SHIFT : Z := 19.
Definition DWHCI_HOST_CHAN_XFER_SIZ_PACKETS__MASK : Z := Z.shiftl 0x3FF 19.
Definition DWHCI_HOST_CHAN_XFER_SIZ_PACKETS (reg : Z) : Z := Z.land (Z.shiftr reg 19) 0x3FF.
Definition DWHCI_HOST_CHAN_XFER_SIZ_PID__SHIFT : Z := 29.
Definition DWHCI_HOST_CHAN_XFER_SIZ_PID (reg : Z) : Z := Z.land (Z.shiftr reg 29) 3.
Definition DWHCI_HOST_CHAN_XFER_SIZ_PID_MDATA : Z := 3.
Definition DWHCI_HOST_CHAN_DMA_ADDR (chan : Z) : Z := ARM_USB_HOST_BASE + 0x114 + chan * 0x20.

Definition ARM_USB_POWER : Z := ARM_USB_BASE + 0xE00.
Definition BUS_ADDRESS (phys : Z) : Z := Z.lor (Z.land phys (not32 0xC0000000)) 0xC0000000.

(** lib/dwhcidevice.c *)
Definition ARM_IRQ_USB : Z := 9.
Definition DEVICE_ID_USB_HCD : Z := 3.
Definition DWC_CFG_HOST_RX_FIFO_SIZE : Z := 1024.
Definition DWC_CFG_HOST_NPER_TX_FIFO_SIZE : Z := 1024.
Definition DWC_CFG_HOST_PER_TX_FIFO_SIZE : Z := 1024.
Definition HZ : Z := 100.
Definition MSEC2HZ (msec : Z) : Z := msec * HZ / 1000.

(** ** The device object and the state *)

(** [m_StageData] is an array of [DWHCI_MAX_CHANNELS] elements; the root port
    is a component of its own. *)
Record TDWHCIDevice := {
  m_nChannels : Z;
  m_nChannelAllocated : Z;
  m_StageData : list TDWHCITransferStageData;
  m_bWaiting : bool
}.
#[global] Instance TDWHCIDevice_eta : Eta TDWHCIDevice := λ d,
  {| m_nChannels := m_nChannels d; m_nChannelAllocated := m_nChannelAllocated d;
     m_StageData := m_StageData d; m_bWaiting := m_bWaiting d |}.

(** What happens while the driver spins: the controller interrupts, or a timer
    started with [&m_StageData[n]] expires. *)
Inductive env_step :=
  | EnvInterrupt
  | EnvTimer (n : Z).

Record W := {
  w_trace : list event;
  w_cpu : Cpu;
  w_usb : Usb;
  w_host : TDWHCIDevice;
  w_env : list env_step
}.
#[global] Instance W_eta : Eta W := λ w,
  {| w_trace := w_trace w; w_cpu := w_cpu w; w_usb := w_usb w; w_host := w_host w;
     w_env := w_env w |}.

#[export] Instance W_mmio : HasMmio W :=
  {| mmio_get := w_trace; mmio_put := λ h w, w <| w_trace := h |> |}.
#[export] Instance W_mmio_laws : MmioLaws W.
Proof. split; try done. by intros []. Qed.
#[export] Instance W_usb : HasUsb W :=
  {| usb_get := w_usb; usb_put := λ u w, w <| w_usb := u |> |}.
#[export] Instance W_cpu : HasCpu W :=
  {| cpu_get := w_cpu; cpu_put := λ c w, w <| w_cpu := c |> |}.
#[export] Instance W_cpu_laws : CpuLaws W.
Proof. split; try done. by intros []. Qed.

Definition host_modify (f : TDWHCIDevice → TDWHCIDevice) : M W unit :=
  modify (λ w, w <| w_host := f (w_host w) |>).
Definition host_get {A} (f : TDWHCIDevice → A) : M W A := gets (λ w, f (w_host w)).

(** [pThis->m_StageData[n]]. *)
Definition stage_at (n : Z) : M W TDWHCITransferStageData :=
  l ← host_get m_StageData;
  if n <? 0 then fail MemFault else deref (l !! Z.to_nat n).
Definition stage_set (n : Z) (sd : TDWHCITransferStageData) : M W unit :=
  host_modify (λ d, d <| m_StageData := <[Z.to_nat n := sd]> (m_StageData d) |>).

Lemma wp_stage_at n sd (Q : TDWHCITransferStageData → W → Prop) w :
  0 <= n → m_StageData (w_host w) !! Z.to_nat n = Some sd → Q sd w → wp (stage_at n) Q w.
Proof.
  intros Hn Hsd HQ. unfold stage_at, host_get. wp_steps.
  rewrite (proj2 (Z.ltb_ge n 0)), Hsd by lia. exact HQ.
Qed.

Lemma wp_stage_set n sd (Q : unit → W → Prop) w :
  Q tt (w <| w_host := (w_host w) <| m_StageData := <[Z.to_nat n := sd]> (m_StageData (w_host w)) |> |>) →
  wp (stage_set n sd) Q w.
Proof. done. Qed.
