(* ===== verification/ChanRegs.v ===== *)
(** * The registers of a host channel

    The values [DWHCIDeviceStartChannel] of lib/dwhcidevice.c composes for the
    transfer size, split control and character registers, and the lemmas that
    read every field of them back. *)
From coqutil Require Import Z.bitblast.
From S2P Require Import Prelude Register FrameSched Endpoint StageData HostState.

(** The code of the pid the next transaction of a stage carries. *)
Definition pid_code (sd : TDWHCITransferStageData) (e : TUSBEndpoint) : Z :=
  match (if m_bStatusStage sd then USBPIDData1 else m_NextPID e) with
  | USBPIDSetup => 3 | USBPIDData0 => 0 | USBPIDData1 => 2
  end.
Definition type_code (e : TUSBEndpoint) : Z :=
  match m_Type e with
  | EndpointTypeControl => 0 | EndpointTypeBulk => 2 | EndpointTypeInterrupt => 3
  | EndpointTypeIsochronous => 1
  end.

(** The values written, as the code composes them. *)
Definition xfer_value (sd : TDWHCITransferStageData) (e : TUSBEndpoint) : Z :=
  Z.lor (Z.lor (Z.lor 0 (u32 (Z.land (m_nBytesPerTransaction sd) 0x7FFFF)))
               (u32 (Z.land (u32 (Z.shiftl (m_nPacketsPerTransaction sd) 19)) (Z.shiftl 0x3FF 19))))
        (u32 (Z.shiftl (pid_code sd e) 29)).
Definition split_value (sd : TDWHCITransferStageData) (d : TUSBDevice) : Z :=
  if m_bSplitTransaction sd then
    let v := Z.lor (Z.lor (Z.lor 0 (u32 (m_ucHubPortNumber d))) (u32 (Z.shiftl (m_ucHubAddress d) 7)))
                   (u32 (Z.shiftl 3 14)) in
    Z.lor (if m_bSplitComplete sd then Z.lor v (u32 (Z.shiftl 1 16)) else v) (u32 (Z.shiftl 1 31))
  else 0.

Definition character_value (v : Z) (sd : TDWHCITransferStageData) (e : TUSBEndpoint)
    (d : TUSBDevice) : Z :=
  let v := Z.lor (rmw_and v 0x7FF) (u32 (Z.land (sd_nMaxPacketSize sd) 0x7FF)) in
  let v := Z.lor (rmw_and v (Z.shiftl 3 20)) (u32 (Z.shiftl 1 20)) in
  let v := rmw_flag (m_bIn sd) v (Z.shiftl 1 15) in
  let v := rmw_flag (bool_decide (sd_Speed sd = USBSpeedLow)) v (Z.shiftl 1 17) in
  let v := Z.lor (rmw_and v (Z.shiftl 0x7F 22)) (u32 (Z.shiftl (m_ucAddress d) 22)) in
  let v := Z.lor (rmw_and v (Z.shiftl 3 18)) (u32 (Z.shiftl (type_code e) 18)) in
  Z.lor (rmw_and v (Z.shiftl 0xF 11)) (u32 (Z.shiftl (u8 (m_ucNumber e)) 11)).

(** *** Reading the registers back *)

(** Move a field past the operations on other bits. *)
Ltac field_other :=
  repeat first
  [ rewrite field_or_other;
      [|done|done|done
       |first [reflexivity
              | eapply field_shiftl_other; [done|done|done| |eassumption|lia]; done]]
  | rewrite field_and_other; [|done|done|done|reflexivity]
  | rewrite field_flag_other; [|done|done|done|reflexivity] ].

Lemma pid_code_range sd e : 0 <= pid_code sd e < 2 ^ 2.
Proof. unfold pid_code. destruct (m_bStatusStage sd); [lia|]. destruct (m_NextPID e); lia. Qed.
Lemma type_code_range e : 0 <= type_code e < 2 ^ 2.
Proof. unfold type_code. destruct (m_Type e); lia. Qed.

Lemma xfer_decode sd e :
  0 <= m_nPacketsPerTransaction sd →
  field 0 19 (xfer_value sd e) = m_nBytesPerTransaction sd mod 2 ^ 19 ∧
  DWHCI_HOST_CHAN_XFER_SIZ_PACKETS (xfer_value sd e) = m_nPacketsPerTransaction sd mod 2 ^ 10 ∧
  DWHCI_HOST_CHAN_XFER_SIZ_PID (xfer_value sd e) = pid_code sd e.
Proof.
  intros Hp. pose proof (pid_code_range sd e) as Hc.
  assert (pid_code sd e = pid_code sd e mod 2 ^ 2) as Hpid by (symmetry; by apply Z.mod_small).
  unfold DWHCI_HOST_CHAN_XFER_SIZ_PACKETS, DWHCI_HOST_CHAN_XFER_SIZ_PID.
  change (Z.land (Z.shiftr (xfer_value sd e) 19) 0x3FF) with (field 19 10 (xfer_value sd e)).
  change (Z.land (Z.shiftr (xfer_value sd e) 29) 3) with (field 29 2 (xfer_value sd e)).
  rewrite Hpid, <- !Z.land_ones by lia. clear Hpid. unfold xfer_value, field.
  generalize dependent (pid_code sd e). intros pid Hc.
  generalize (m_nBytesPerTransaction sd) as b. generalize dependent (m_nPacketsPerTransaction sd).
  intros p Hp b. rewrite !u32_land_ones. change 0x7FFFF with (Z.ones 19).
  change 0x3FF with (Z.ones 10). split_and!; bits.
Qed.

Section Character.
Context (v : Z) (sd : TDWHCITransferStageData) (e : TUSBEndpoint) (d : TUSBDevice).
Context (odd framed : bool).
Context (Haddr : 0 <= m_ucAddress d < 2 ^ 7) (Hnum : 0 <= m_ucNumber e < 2 ^ 4).

(** The character register when the channel is enabled. *)
Definition enabled_character : Z :=
  let c := character_value v sd e d in
  let c := if framed then rmw_flag odd c (Z.shiftl 1 29) else c in
  rmw_and (Z.lor c (u32 (Z.shiftl 1 31))) (Z.shiftl 1 30).

Lemma enabled_fields lo n : 0 <= lo → 0 <= n → lo + n <= 29 →
  field lo n enabled_character = field lo n (character_value v sd e d).
Proof.
  clear Haddr Hnum. intros. unfold enabled_character.
  rewrite field_and_other by (try lia; eapply (field_shiftl_other _ _ _ _ 1); lia).
  rewrite field_or_other by (try lia; eapply (field_shiftl_other _ _ _ _ 1); lia).
  destruct framed; [|done].
  apply field_flag_other; try lia. eapply (field_shiftl_other _ _ _ _ 1); lia.
Qed.

Lemma enabled_bits :
  Z.testbit enabled_character 31 = true ∧ Z.testbit enabled_character 30 = false.
Proof.
  clear Haddr Hnum. unfold enabled_character. rewrite !rmw_and_bit, !or_bit by lia.
  split; [|by rewrite andb_false_r]. by rewrite orb_true_r.
Qed.

Lemma enabled_bit i : 0 <= i < 29 →
  Z.testbit enabled_character i = Z.testbit (character_value v sd e d) i.
Proof.
  clear Haddr Hnum. intros Hi. assert (Hno : ∀ k, 29 <= k → Z.testbit (Z.shiftl 1 k) i = false).
  { intros k Hk. rewrite Z.shiftl_spec by lia. apply Z.testbit_neg_r. lia. }
  unfold enabled_character. rewrite rmw_and_bit, or_bit, !Hno by lia.
  rewrite orb_false_r, andb_true_r. destruct framed; [|done].
  rewrite rmw_flag_bit, Hno by lia. destruct odd; by rewrite ?orb_false_r, ?andb_true_r.
Qed.

Lemma character_fields :
  let c := character_value v sd e d in
  field 0 11 c = sd_nMaxPacketSize sd mod 2 ^ 11 ∧ field 11 4 c = m_ucNumber e ∧
  field 18 2 c = type_code e ∧ field 20 2 c = 1 ∧ field 22 7 c = m_ucAddress d.
Proof.
  cbv zeta. unfold character_value. rewrite u8_id by (unfold is_u8; lia).
  pose proof (type_code_range e) as Ht.
  change (u32 (Z.shiftl 1 20)) with (u32 (Z.shiftl (Z.land 1 (Z.ones 2)) 20)).
  split_and!; field_other.
  - rewrite <- (Z.shiftl_0_r (Z.land _ 0x7FF)), (field_set 0 11) by done.
    change 0x7FF with (Z.ones 11). rewrite Z.land_ones, Z.mod_mod by lia. done.
  - rewrite (field_set 11 4) by done. by apply Z.mod_small.
  - rewrite (field_set 18 2) by done. by apply Z.mod_small.
  - by rewrite (field_set 20 2) by done.
  - rewrite (field_set 22 7) by done. by apply Z.mod_small.
Qed.

Lemma character_flags :
  Z.testbit (character_value v sd e d) 15 = m_bIn sd ∧
  Z.testbit (character_value v sd e d) 17 = bool_decide (sd_Speed sd = USBSpeedLow).
Proof.
  unfold character_value. rewrite u8_id by (unfold is_u8; lia).
  pose proof (type_code_range e) as Ht.
  split; repeat first [rewrite or_bit by lia | rewrite rmw_and_bit by lia
                      | rewrite rmw_flag_bit by lia].
  all: rewrite (testbit_shiftl_other (m_ucNumber e) 11 4), (testbit_shiftl_other (type_code e) 18 2),
         (testbit_shiftl_other (m_ucAddress d) 22 7) by lia.
  all: repeat match goal with |- context [Z.testbit ?m ?i] =>
         let b := eval vm_compute in (Z.testbit m i) in
         lazymatch b with true => change (Z.testbit m i) with true
                        | false => change (Z.testbit m i) with false end end.
  all: rewrite ?orb_false_r, ?andb_true_r, ?orb_true_r, ?andb_false_r.
  all: by destruct (m_bIn sd), (bool_decide _); rewrite ?orb_true_r, ?andb_false_r.
Qed.
End Character.

Lemma split_decode sd d :
  0 <= m_ucHubAddress d < 2 ^ 7 → 0 <= m_ucHubPortNumber d < 2 ^ 7 → m_bSplitTransaction sd = true →
  let s := split_value sd d in
  field 0 7 s = m_ucHubPortNumber d ∧ field 7 7 s = m_ucHubAddress d ∧ field 14 2 s = 3 ∧
  Z.testbit s 16 = m_bSplitComplete sd ∧ Z.testbit s 31 = true.
Proof.
  intros Hh Hp Hs. cbv zeta. unfold split_value. rewrite Hs.
  assert (m_ucHubAddress d = Z.land (m_ucHubAddress d) (Z.ones 7)) as Eh
    by (rewrite Z.land_ones by lia; symmetry; by apply Z.mod_small).
  assert (m_ucHubPortNumber d = Z.land (m_ucHubPortNumber d) (Z.ones 7)) as Ep
    by (rewrite Z.land_ones by lia; symmetry; by apply Z.mod_small).
  generalize dependent (m_ucHubAddress d). intros h Hh Eh.
  generalize dependent (m_ucHubPortNumber d). intros p Hp Ep.
  rewrite Eh, Ep. clear Eh Ep. rewrite !u32_land_ones. unfold field.
  change 3 with (Z.ones 2). change 1 with (Z.ones 1).
  split_and!.
  1-3: destruct (m_bSplitComplete sd); bits.
  all: destruct (m_bSplitComplete sd); Z.bitblast_core.
Qed.
