(* ===== verification/DwhciCore.v ===== *)
(** * lib/dwhcidevice.c: controller setup, the root port, the channel allocator

    Everything of the host controller driver that does not touch a channel's
    stage data. The destructors of local register objects clear a flag of an
    object that is going out of scope and are left out. *)
From S2P Require Import Prelude Register Sync FrameSched Endpoint StageData HostState.

(** What the controller driver needs of lib/dwhcirootport.c. *)
Class RootPort := { DWHCIRootPortInitialize : M W bool }.

Section Core.
Context `{HW : Hardware}.

Definition DWHCIDevice (stages : list TDWHCITransferStageData) : TDWHCIDevice :=
  {| m_nChannels := 0; m_nChannelAllocated := 0; m_StageData := stages; m_bWaiting := false |}.

(** ** Polling *)

Fixpoint wait_loop (n : nat) (pRegister : TDWHCIRegister) (nMask : Z) (bWaitUntilSet : bool)
    : M W (bool * TDWHCIRegister) :=
  match n with
  | O => fail OutOfFuel
  | S n =>
      r ← DWHCIRegisterRead pRegister;
      if (if truthy (Z.land (m_nBuffer r) nMask) then negb bWaitUntilSet else bWaitUntilSet) then
        MsDelay 1 ;;
        match n with
        | O => mret (false, r)
        | S _ => wait_loop n r nMask bWaitUntilSet
        end
      else mret (true, r)
  end.

(** The result and [*pRegister] afterwards. *)
Definition DWHCIDeviceWaitForBit (pRegister : TDWHCIRegister) (nMask : Z)
    (bWaitUntilSet : bool) (nMsTimeout : Z) : M W (bool * TDWHCIRegister) :=
  c_assert (negb (nMask =? 0)) ;;
  c_assert (0 <? nMsTimeout) ;;
  wait_loop (Z.to_nat nMsTimeout) pRegister nMask bWaitUntilSet.

(** ** Initialisation *)

Definition DWHCIDeviceReset : M W bool :=
  let Reset := DWHCIRegister2 DWHCI_CORE_RESET 0 in
  '(ok, Reset) ← DWHCIDeviceWaitForBit Reset DWHCI_CORE_RESET_AHB_IDLE true 100;
  if negb ok then mret false
  else
    Reset ← DWHCIRegisterOr Reset DWHCI_CORE_RESET_SOFT_RESET;
    DWHCIRegisterWrite Reset ;;
    '(ok, Reset) ← DWHCIDeviceWaitForBit Reset DWHCI_CORE_RESET_SOFT_RESET false 10;
    if negb ok then mret false else MsDelay 100 ;; mret true.

Definition DWHCIDeviceEnableGlobalInterrupts : M W unit :=
  AHBConfig ← DWHCIRegisterRead (DWHCIRegister DWHCI_CORE_AHB_CFG);
  AHBConfig ← DWHCIRegisterOr AHBConfig DWHCI_CORE_AHB_CFG_GLOBALINT_MASK;
  DWHCIRegisterWrite AHBConfig.

Definition DWHCIDeviceEnableCommonInterrupts : M W unit :=
  DWHCIRegisterWrite (DWHCIRegisterSetAll (DWHCIRegister DWHCI_CORE_INT_STAT)).

Definition DWHCIDeviceEnableHostInterrupts : M W unit :=
  let IntMask := DWHCIRegister2 DWHCI_CORE_INT_MASK 0 in
  DWHCIRegisterWrite IntMask ;;
  DWHCIDeviceEnableCommonInterrupts ;;
  IntMask ← DWHCIRegisterRead IntMask;
  IntMask ← DWHCIRegisterOr IntMask DWHCI_CORE_INT_MASK_HC_INTR;
  DWHCIRegisterWrite IntMask.

Definition DWHCIDeviceEnableChannelInterrupt (nChannel : Z) : M W unit :=
  let r := DWHCIRegister DWHCI_HOST_ALLCHAN_INT_MASK in
  uspi_EnterCritical ;;
  r ← DWHCIRegisterRead r;
  r ← DWHCIRegisterOr r (Z.shiftl 1 nChannel);
  DWHCIRegisterWrite r ;;
  uspi_LeaveCritical.

Definition DWHCIDeviceDisableChannelInterrupt (nChannel : Z) : M W unit :=
  let r := DWHCIRegister DWHCI_HOST_ALLCHAN_INT_MASK in
  uspi_EnterCritical ;;
  r ← DWHCIRegisterRead r;
  r ← DWHCIRegisterAnd r (not32 (Z.shiftl 1 nChannel));
  DWHCIRegisterWrite r ;;
  uspi_LeaveCritical.

Definition DWHCIDeviceFlushTxFIFO (nFIFO : Z) : M W unit :=
  Reset ← DWHCIRegisterOr (DWHCIRegister2 DWHCI_CORE_RESET 0) DWHCI_CORE_RESET_TX_FIFO_FLUSH;
  Reset ← DWHCIRegisterAnd Reset (not32 DWHCI_CORE_RESET_TX_FIFO_NUM__MASK);
  Reset ← DWHCIRegisterOr Reset (Z.shiftl nFIFO DWHCI_CORE_RESET_TX_FIFO_NUM__SHIFT);
  DWHCIRegisterWrite Reset ;;
  '(ok, _) ← DWHCIDeviceWaitForBit Reset DWHCI_CORE_RESET_TX_FIFO_FLUSH false 10;
  when ok (usDelay 1).

Definition DWHCIDeviceFlushRxFIFO : M W unit :=
  Reset ← DWHCIRegisterOr (DWHCIRegister2 DWHCI_CORE_RESET 0) DWHCI_CORE_RESET_RX_FIFO_FLUSH;
  DWHCIRegisterWrite Reset ;;
  '(ok, _) ← DWHCIDeviceWaitForBit Reset DWHCI_CORE_RESET_RX_FIFO_FLUSH false 10;
  when ok (usDelay 1).

Definition DWHCIDeviceInitCore : M W bool :=
  USBConfig ← DWHCIRegisterRead (DWHCIRegister DWHCI_CORE_USB_CFG);
  USBConfig ← DWHCIRegisterAnd USBConfig (not32 DWHCI_CORE_USB_CFG_ULPI_EXT_VBUS_DRV);
  USBConfig ← DWHCIRegisterAnd USBConfig (not32 DWHCI_CORE_USB_CFG_TERM_SEL_DL_PULSE);
  DWHCIRegisterWrite USBConfig ;;
  ok ← DWHCIDeviceReset;
  if negb ok then mret false
  else
    USBConfig ← DWHCIRegisterRead USBConfig;
    USBConfig ← DWHCIRegisterAnd USBConfig (not32 DWHCI_CORE_USB_CFG_ULPI_UTMI_SEL);
    USBConfig ← DWHCIRegisterAnd USBConfig (not32 DWHCI_CORE_USB_CFG_PHYIF);
    DWHCIRegisterWrite USBConfig ;;
    HWConfig2 ← DWHCIRegisterRead (DWHCIRegister DWHCI_CORE_HW_CFG2);
    cfg2 ← DWHCIRegisterGet HWConfig2;
    c_assert (DWHCI_CORE_HW_CFG2_ARCHITECTURE cfg2 =? 2) ;;
    USBConfig ← DWHCIRegisterRead USBConfig;
    USBConfig ←
      (if (DWHCI_CORE_HW_CFG2_HS_PHY_TYPE cfg2 =? DWHCI_CORE_HW_CFG2_HS_PHY_TYPE_ULPI)
          && (DWHCI_CORE_HW_CFG2_FS_PHY_TYPE cfg2 =? DWHCI_CORE_HW_CFG2_FS_PHY_TYPE_DEDICATED)
       then
         r ← DWHCIRegisterOr USBConfig DWHCI_CORE_USB_CFG_ULPI_FSLS;
         DWHCIRegisterOr r DWHCI_CORE_USB_CFG_ULPI_CLK_SUS_M
       else
         r ← DWHCIRegisterAnd USBConfig (not32 DWHCI_CORE_USB_CFG_ULPI_FSLS);
         DWHCIRegisterAnd r (not32 DWHCI_CORE_USB_CFG_ULPI_CLK_SUS_M));
    DWHCIRegisterWrite USBConfig ;;
    n ← host_get m_nChannels;
    c_assert (n =? 0) ;;
    let n := DWHCI_CORE_HW_CFG2_NUM_HOST_CHANNELS cfg2 in
    host_modify (λ d, d <| m_nChannels := n |>) ;;
    c_assert ((4 <=? n) && (n <=? DWHCI_MAX_CHANNELS)) ;;
    AHBConfig ← DWHCIRegisterRead (DWHCIRegister DWHCI_CORE_AHB_CFG);
    AHBConfig ← DWHCIRegisterOr AHBConfig DWHCI_CORE_AHB_CFG_DMAENABLE;
    AHBConfig ← DWHCIRegisterOr AHBConfig DWHCI_CORE_AHB_CFG_WAIT_AXI_WRITES;
    AHBConfig ← DWHCIRegisterAnd AHBConfig (not32 DWHCI_CORE_AHB_CFG_MAX_AXI_BURST__MASK);
    DWHCIRegisterWrite AHBConfig ;;
    USBConfig ← DWHCIRegisterRead USBConfig;
    USBConfig ← DWHCIRegisterAnd USBConfig (not32 DWHCI_CORE_USB_CFG_HNP_CAPABLE);
    USBConfig ← DWHCIRegisterAnd USBConfig (not32 DWHCI_CORE_USB_CFG_SRP_CAPABLE);
    DWHCIRegisterWrite USBConfig ;;
    DWHCIDeviceEnableCommonInterrupts ;;
    mret true.

Definition DWHCIDeviceInitHost : M W bool :=
  DWHCIRegisterWrite (DWHCIRegister2 ARM_USB_POWER 0) ;;
  HostConfig ← DWHCIRegisterRead (DWHCIRegister DWHCI_HOST_CFG);
  HostConfig ← DWHCIRegisterAnd HostConfig (not32 DWHCI_HOST_CFG_FSLS_PCLK_SEL__MASK);
  HWConfig2 ← DWHCIRegisterRead (DWHCIRegister DWHCI_CORE_HW_CFG2);
  b ← (if (DWHCI_CORE_HW_CFG2_HS_PHY_TYPE (m_nBuffer HWConfig2)
             =? DWHCI_CORE_HW_CFG2_HS_PHY_TYPE_ULPI)
          && (DWHCI_CORE_HW_CFG2_FS_PHY_TYPE (m_nBuffer HWConfig2)
             =? DWHCI_CORE_HW_CFG2_FS_PHY_TYPE_DEDICATED)
       then
         USBConfig ← DWHCIRegisterRead (DWHCIRegister DWHCI_CORE_USB_CFG);
         mret (truthy (Z.land (m_nBuffer USBConfig) DWHCI_CORE_USB_CFG_ULPI_FSLS))
       else mret false);
  HostConfig ← DWHCIRegisterOr HostConfig
    (if b : bool then DWHCI_HOST_CFG_FSLS_PCLK_SEL_48_MHZ
     else DWHCI_HOST_CFG_FSLS_PCLK_SEL_30_60_MHZ);
  DWHCIRegisterWrite HostConfig ;;
  DWHCIRegisterWrite (DWHCIRegister2 DWHCI_CORE_RX_FIFO_SIZ DWC_CFG_HOST_RX_FIFO_SIZE) ;;
  r ← DWHCIRegisterOr (DWHCIRegister2 DWHCI_CORE_NPER_TX_FIFO_SIZ 0) DWC_CFG_HOST_RX_FIFO_SIZE;
  r ← DWHCIRegisterOr r (Z.shiftl DWC_CFG_HOST_NPER_TX_FIFO_SIZE 16);
  DWHCIRegisterWrite r ;;
  r ← DWHCIRegisterOr (DWHCIRegister2 DWHCI_CORE_HOST_PER_TX_FIFO_SIZ 0)
        (DWC_CFG_HOST_RX_FIFO_SIZE + DWC_CFG_HOST_NPER_TX_FIFO_SIZE);
  r ← DWHCIRegisterOr r (Z.shiftl DWC_CFG_HOST_PER_TX_FIFO_SIZE 16);
  DWHCIRegisterWrite r ;;
  DWHCIDeviceFlushTxFIFO 0x10 ;;
  DWHCIDeviceFlushRxFIFO ;;
  HostPort ← DWHCIRegisterRead (DWHCIRegister DWHCI_HOST_PORT);
  HostPort ← DWHCIRegisterAnd HostPort (not32 DWHCI_HOST_PORT_DEFAULT_MASK);
  v ← DWHCIRegisterGet HostPort;
  when (negb (truthy (Z.land v DWHCI_HOST_PORT_POWER)))
    (HostPort ← DWHCIRegisterOr HostPort DWHCI_HOST_PORT_POWER;
     DWHCIRegisterWrite HostPort) ;;
  DWHCIDeviceEnableHostInterrupts ;;
  mret true.

(** ** The root port *)

Definition DWHCIDeviceEnableRootPort : M W bool :=
  '(ok, HostPort) ← DWHCIDeviceWaitForBit (DWHCIRegister DWHCI_HOST_PORT)
                      DWHCI_HOST_PORT_CONNECT true 20;
  if negb ok then mret false
  else
    MsDelay 100 ;;
    HostPort ← DWHCIRegisterRead HostPort;
    HostPort ← DWHCIRegisterAnd HostPort (not32 DWHCI_HOST_PORT_DEFAULT_MASK);
    HostPort ← DWHCIRegisterOr HostPort DWHCI_HOST_PORT_RESET;
    DWHCIRegisterWrite HostPort ;;
    MsDelay 50 ;;
    HostPort ← DWHCIRegisterRead HostPort;
    HostPort ← DWHCIRegisterAnd HostPort (not32 DWHCI_HOST_PORT_DEFAULT_MASK);
    HostPort ← DWHCIRegisterAnd HostPort (not32 DWHCI_HOST_PORT_RESET);
    DWHCIRegisterWrite HostPort ;;
    MsDelay 20 ;;
    mret true.

Definition DWHCIDeviceGetPortSpeed : M W TUSBSpeed :=
  HostPort ← DWHCIRegisterRead (DWHCIRegister DWHCI_HOST_PORT);
  let sp := DWHCI_HOST_PORT_SPEED (m_nBuffer HostPort) in
  mret (if sp =? DWHCI_HOST_PORT_SPEED_HIGH then USBSpeedHigh
        else if sp =? DWHCI_HOST_PORT_SPEED_FULL then USBSpeedFull
        else if sp =? DWHCI_HOST_PORT_SPEED_LOW then USBSpeedLow
        else USBSpeedUnknown).

Definition DWHCIDeviceOvercurrentDetected : M W bool :=
  HostPort ← DWHCIRegisterRead (DWHCIRegister DWHCI_HOST_PORT);
  mret (truthy (Z.land (m_nBuffer HostPort) DWHCI_HOST_PORT_OVERCURRENT)).

Definition DWHCIDeviceDisableRootPort : M W unit :=
  HostPort ← DWHCIRegisterRead (DWHCIRegister DWHCI_HOST_PORT);
  HostPort ← DWHCIRegisterAnd HostPort (not32 DWHCI_HOST_PORT_POWER);
  DWHCIRegisterWrite HostPort.

(** ** Initialize *)

Definition SetPowerStateOn (nDeviceId : Z) : M W bool :=
  h ← gets mmio_get;
  let ok := hw_power_on h nDeviceId in
  emit (EvSetPowerState nDeviceId ok) ;; mret ok.

Definition DWHCIDeviceInitialize `{RP : RootPort} : M W bool :=
  DataMemBarrier ;;
  VendorId ← DWHCIRegisterRead (DWHCIRegister DWHCI_CORE_VENDOR_ID);
  if negb (m_nBuffer VendorId =? 0x4F54280A) then mret false
  else
    ok ← SetPowerStateOn DEVICE_ID_USB_HCD;
    if negb ok then mret false
    else
      AHBConfig ← DWHCIRegisterRead (DWHCIRegister DWHCI_CORE_AHB_CFG);
      AHBConfig ← DWHCIRegisterAnd AHBConfig (not32 DWHCI_CORE_AHB_CFG_GLOBALINT_MASK);
      DWHCIRegisterWrite AHBConfig ;;
      emit (EvConnectInterrupt ARM_IRQ_USB) ;;
      ok ← DWHCIDeviceInitCore;
      if negb ok then mret false
      else
        DWHCIDeviceEnableGlobalInterrupts ;;
        ok ← DWHCIDeviceInitHost;
        if negb ok then mret false
        else
          ok ← DWHCIDeviceEnableRootPort;
          if negb ok then mret true
          else
            ok ← DWHCIRootPortInitialize;
            if negb ok then mret true
            else DataMemBarrier ;; mret true.

(** ** The channel allocator *)

Fixpoint allocate_loop (rest : nat) (nChannel nChannelMask : Z) : M W Z :=
  match rest with
  | O => uspi_LeaveCritical ;; mret DWHCI_MAX_CHANNELS
  | S rest =>
      a ← host_get m_nChannelAllocated;
      if negb (truthy (Z.land a nChannelMask)) then
        host_modify (λ d, d <| m_nChannelAllocated := Z.lor a nChannelMask |>) ;;
        uspi_LeaveCritical ;;
        mret nChannel
      else allocate_loop rest (nChannel + 1) (u32 (Z.shiftl nChannelMask 1))
  end.

Definition DWHCIDeviceAllocateChannel : M W Z :=
  uspi_EnterCritical ;;
  n ← host_get m_nChannels;
  allocate_loop (Z.to_nat n) 0 1.

Definition DWHCIDeviceFreeChannel (nChannel : Z) : M W unit :=
  n ← host_get m_nChannels;
  c_assert (nChannel <? n) ;;
  let nChannelMask := u32 (Z.shiftl 1 nChannel) in
  uspi_EnterCritical ;;
  a ← host_get m_nChannelAllocated;
  c_assert (truthy (Z.land a nChannelMask)) ;;
  host_modify (λ d, d <| m_nChannelAllocated := Z.land a (not32 nChannelMask) |>) ;;
  uspi_LeaveCritical.
End Core.

(** ** Properties *)

Section WaitProps.
Context `{HW : Hardware}.

(** The history after [n] rounds of reading [a] and waiting 1 ms, and the
    value the read after them returns. *)
Fixpoint waits (n : nat) (a : Z) (h : list event) : list event :=
  match n with
  | O => h
  | S n => waits n a (EvMsDelay 1 :: EvRead a (u32 (hw_read h a)) :: h)
  end.
Definition wait_read (n : nat) (a : Z) (h : list event) : Z := u32 (hw_read (waits n a h) a).

Definition reached (mask : Z) (b : bool) (v : Z) : bool :=
  Bool.eqb (truthy (Z.land v mask)) b.

Definition wait_result (k : nat) (a : Z) (h : list event) : TDWHCIRegister :=
  {| m_bValid := true; m_nAddress := a; m_nBuffer := wait_read k a h |}.

Lemma wait_loop_spec n r mask b w :
  let a := m_nAddress r in let h := w_trace w in
  (∃ k, (k <= n)%nat ∧ reached mask b (wait_read k a h) = true ∧
     (∀ j, (j < k)%nat → reached mask b (wait_read j a h) = false) ∧
     wait_loop (S n) r mask b w =
     Ok ((true, wait_result k a h),
         mmio_put (EvRead a (wait_read k a h) :: waits k a h) w)) ∨
  ((∀ j, (j <= n)%nat → reached mask b (wait_read j a h) = false) ∧
   wait_loop (S n) r mask b w =
   Ok ((false, wait_result n a h), mmio_put (waits (S n) a h) w)).
Proof.
  cbv zeta. revert r w. induction n as [|n IH]; intros r w; set (a := m_nAddress r);
    destruct (reached mask b (u32 (hw_read (w_trace w) a))) eqn:E.
  1, 3: left; exists 0%nat; split_and!; [lia|exact E|lia|];
    simpl; unfold DWHCIRegisterRead, mbind, M_bind, gets, emit, modify; simpl;
    unfold reached in E; fold a; destruct (truthy _), b; done.
  - right. split; [intros j Hj; by replace j with 0%nat by lia|].
    simpl; unfold DWHCIRegisterRead, mbind, M_bind, gets, emit, modify; simpl.
    unfold reached in E; fold a; destruct (truthy _), b; done.
  - set (w1 := mmio_put (EvMsDelay 1 :: EvRead a (u32 (hw_read (w_trace w) a)) :: w_trace w) w).
    set (r1 := {| m_bValid := true; m_nAddress := a;
                  m_nBuffer := u32 (hw_read (w_trace w) a) |}).
    assert (wait_loop (S (S n)) r mask b w = wait_loop (S n) r1 mask b w1) as ->.
    { cbn [wait_loop]. unfold DWHCIRegisterRead, mbind, M_bind, gets, emit, modify. simpl.
      unfold reached in E. fold a. by destruct (truthy _), b. }
    destruct (IH r1 w1) as [(k & Hk & Hd & Hj & Hr) | [Hj Hr]].
    + left. exists (S k). split_and!; [lia|exact Hd| |exact Hr].
      intros [|j] Hlt; [exact E|]. apply (Hj j). lia.
    + right. split; [|exact Hr]. intros [|j] Hlt; [exact E|]. apply (Hj j). lia.
Qed.

(** Waiting for a register bit ends whatever the hardware does: with success
    at the first of at most [nMsTimeout] polls that finds it, 1 ms apart, and
    otherwise with failure after exactly [nMsTimeout] polls and delays. Only
    the history changes. *)
Theorem wait_for_bit_bounded r mask b timeout w :
  mask ≠ 0 → 0 < timeout →
  let a := m_nAddress r in let h := w_trace w in
  (∃ k, Z.of_nat k < timeout ∧ reached mask b (wait_read k a h) = true ∧
     (∀ j, (j < k)%nat → reached mask b (wait_read j a h) = false) ∧
     DWHCIDeviceWaitForBit r mask b timeout w =
     Ok ((true, wait_result k a h),
         mmio_put (EvRead a (wait_read k a h) :: waits k a h) w)) ∨
  ((∀ j, Z.of_nat j < timeout → reached mask b (wait_read j a h) = false) ∧
   ∃ r', DWHCIDeviceWaitForBit r mask b timeout w =
         Ok ((false, r'), mmio_put (waits (Z.to_nat timeout) a h) w)).
Proof.
  intros Hm Ht a h. unfold DWHCIDeviceWaitForBit, c_assert.
  rewrite (proj2 (Z.eqb_neq mask 0)), (proj2 (Z.ltb_lt 0 timeout)) by done.
  destruct (Z.to_nat timeout) as [|n] eqn:En; [lia|].
  destruct (wait_loop_spec n r mask b w) as [(k & Hk & Hd & Hj & Hr) | [Hj Hr]].
  - left. exists k. split_and!; [lia|done|done|exact Hr].
  - right. split; [intros j Hlt; apply Hj; lia|]. eexists. exact Hr.
Qed.
End WaitProps.

(** *** Critical sections of the driver *)

(** The interrupt state inside a section entered from [c], and after leaving it. *)
Definition crit_enter (c : Cpu) : Cpu :=
  {| s_nCriticalLevel := u32 (s_nCriticalLevel c + 1);
     s_bWereEnabled := if s_nCriticalLevel c =? 0 then negb (irq_masked c) else s_bWereEnabled c;
     irq_masked := true |}.
Definition crit_exit (c : Cpu) : Cpu :=
  {| s_nCriticalLevel := s_nCriticalLevel c;
     s_bWereEnabled := s_bWereEnabled (crit_enter c);
     irq_masked := irq_masked c |}.

(** A reachable interrupt state: inside a section, interrupts are masked. *)
Definition crit_ok (c : Cpu) : Prop :=
  0 <= s_nCriticalLevel c < 2 ^ 32 - 1 ∧ (s_nCriticalLevel c ≠ 0 → irq_masked c = true).

Lemma crit_exit_ok c : crit_ok c → crit_ok (crit_exit c).
Proof. done. Qed.

Lemma wp_W_enter (Q : unit → W → Prop) w :
  Q tt (w <| w_trace := EvBarrier :: w_trace w |> <| w_cpu := crit_enter (w_cpu w) |>) →
  wp uspi_EnterCritical Q w.
Proof. intros HQ. apply wp_EnterCritical. cbv zeta. exact HQ. Qed.

Lemma wp_W_leave c (Q : unit → W → Prop) w :
  crit_ok c → w_cpu w = crit_enter c →
  Q tt (w <| w_trace := EvBarrier :: w_trace w |> <| w_cpu := crit_exit c |>) →
  wp uspi_LeaveCritical Q w.
Proof.
  intros [Hl Hm] Hc HQ. apply wp_LeaveCritical; simpl; rewrite Hc; simpl.
  { rewrite u32_id; unfold is_u32; lia. }
  replace {| s_nCriticalLevel := _; s_bWereEnabled := _; irq_masked := _ |} with (crit_exit c);
    [exact HQ|].
  unfold crit_exit. simpl. rewrite u32_id by (unfold is_u32; lia).
  f_equal; [lia|]. destruct (Z.eqb_spec (s_nCriticalLevel c) 0) as [E|E].
  - rewrite E. simpl. by destruct (irq_masked c).
  - rewrite Hm by done. by rewrite (proj2 (Z.eqb_neq _ 1)) by lia.
Qed.

(** The state after a critical section that replaced the device object. *)
Definition after_crit (d : TDWHCIDevice) (w : W) : W :=
  {| w_trace := EvBarrier :: EvBarrier :: w_trace w; w_cpu := crit_exit (w_cpu w);
     w_usb := w_usb w; w_host := d; w_env := w_env w |}.

(** *** The channel allocator *)

Definition allocated (d : TDWHCIDevice) (n : Z) : bool := Z.testbit (m_nChannelAllocated d) n.

(** At most 16 channels, and no bit set beyond them. *)
Definition channels_wf (d : TDWHCIDevice) : Prop :=
  0 <= m_nChannels d <= 16 ∧ 0 <= m_nChannelAllocated d < 2 ^ m_nChannels d.

(** The lowest free channel from [n] on, of the next [k]. *)
Fixpoint lowest_free (d : TDWHCIDevice) (k : nat) (n : Z) : option Z :=
  match k with
  | O => None
  | S k => if allocated d n then lowest_free d k (n + 1) else Some n
  end.

Definition free_channel (d : TDWHCIDevice) : option Z :=
  lowest_free d (Z.to_nat (m_nChannels d)) 0.

Lemma lowest_free_spec d k n :
  match lowest_free d k n with
  | Some i => n <= i < n + Z.of_nat k ∧ allocated d i = false ∧
              (∀ j, n <= j < i → allocated d j = true)
  | None => ∀ j, n <= j < n + Z.of_nat k → allocated d j = true
  end.
Proof.
  revert n. induction k as [|k IH]; intros n; simpl; [lia|].
  destruct (allocated d n) eqn:E; [|split_and!; try lia; done].
  specialize (IH (n + 1)). destruct (lowest_free d k (n + 1)).
  - destruct IH as (H1 & H2 & H3). split_and!; [lia|lia|done|]. intros j Hj.
    destruct (decide (j = n)) as [->|]; [done|apply H3; lia].
  - intros j Hj. destruct (decide (j = n)) as [->|]; [done|apply IH; lia].
Qed.

(** It depends on the marks only. *)
Lemma free_channel_ext d d' :
  m_nChannels d = m_nChannels d' → m_nChannelAllocated d = m_nChannelAllocated d' →
  free_channel d = free_channel d'.
Proof.
  intros Hn Ha. unfold free_channel. rewrite Hn.
  generalize (Z.to_nat (m_nChannels d')), 0. induction n as [|k IH]; intros i; [done|].
  simpl. unfold allocated. rewrite Ha. by destruct (Z.testbit _ i).
Qed.

Lemma allocate_loop_spec k n c w d t (Q : Z → W → Prop) :
  crit_ok c → 0 <= n → n + Z.of_nat k < 32 →
  w = {| w_trace := t; w_cpu := crit_enter c; w_usb := w_usb w; w_host := d; w_env := w_env w |} →
  (let w' d' := {| w_trace := EvBarrier :: t; w_cpu := crit_exit c; w_usb := w_usb w;
                   w_host := d'; w_env := w_env w |} in
   match lowest_free d k n with
   | Some i => Q i (w' (d <| m_nChannelAllocated :=
                               Z.lor (m_nChannelAllocated d) (Z.shiftl 1 i) |>))
   | None => Q DWHCI_MAX_CHANNELS (w' d)
   end) →
  wp (allocate_loop k n (Z.shiftl 1 n)) Q w.
Proof.
  intros Hc. revert n. induction k as [|k IH]; intros n Hn Hk Hw HQ; rewrite Hw; cbv zeta in HQ.
  - cbn [allocate_loop]. apply wp_bind. apply (wp_W_leave c); [done|done|]. apply wp_ret. exact HQ.
  - cbn [allocate_loop lowest_free] in *. wp_step. unfold host_get. wp_steps.
    rewrite truthy_bit by lia. unfold allocated in HQ. destruct (Z.testbit _ n) eqn:E; simpl.
    + rewrite <- Hw. replace (u32 (Z.shiftl (Z.shiftl 1 n) 1)) with (Z.shiftl 1 (n + 1)).
      { apply IH; [lia|lia|done|exact HQ]. }
      rewrite Z.shiftl_shiftl by lia. symmetry. apply u32_id. unfold is_u32.
      rewrite Z.shiftl_1_l. change 4294967296 with (2 ^ 32). split; [lia|].
      apply Z.pow_lt_mono_r; lia.
    + unfold host_modify. wp_step. wp_step. wp_step. apply (wp_W_leave c); [done|done|].
      apply wp_ret. exact HQ.
Qed.

Lemma wp_AllocateChannel w (Q : Z → W → Prop) :
  crit_ok (w_cpu w) → channels_wf (w_host w) →
  match free_channel (w_host w) with
  | Some i => Q i (after_crit ((w_host w) <| m_nChannelAllocated :=
                     Z.lor (m_nChannelAllocated (w_host w)) (Z.shiftl 1 i) |>) w)
  | None => Q DWHCI_MAX_CHANNELS (after_crit (w_host w) w)
  end →
  wp DWHCIDeviceAllocateChannel Q w.
Proof.
  intros Hc Hwf HQ. unfold DWHCIDeviceAllocateChannel. apply wp_bind, wp_W_enter.
  unfold host_get. wp_step. wp_step. destruct Hwf as [Hn _].
  eapply (allocate_loop_spec _ 0 (w_cpu w)); [done|lia|simpl; lia|by destruct w|].
  cbv zeta. simpl. unfold free_channel in HQ. exact HQ.
Qed.

Lemma wp_FreeChannel n w (Q : unit → W → Prop) :
  crit_ok (w_cpu w) → channels_wf (w_host w) → 0 <= n < m_nChannels (w_host w) →
  allocated (w_host w) n = true →
  Q tt (after_crit ((w_host w) <| m_nChannelAllocated :=
          Z.land (m_nChannelAllocated (w_host w)) (not32 (Z.shiftl 1 n)) |>) w) →
  wp (DWHCIDeviceFreeChannel n) Q w.
Proof.
  intros Hc [Hwf _] Hn Ha HQ. unfold DWHCIDeviceFreeChannel, host_get.
  assert (u32 (Z.shiftl 1 n) = Z.shiftl 1 n) as Hu.
  { apply u32_id. unfold is_u32. rewrite Z.shiftl_1_l. change 4294967296 with (2 ^ 32).
    split; [lia|]. apply Z.pow_lt_mono_r; lia. }
  wp_step. wp_step. wp_step. apply wp_assert; [apply Z.ltb_lt; lia|]. cbv zeta. rewrite Hu.
  apply wp_bind, wp_W_enter. wp_step. wp_step. wp_step. apply wp_assert.
  { simpl. by rewrite truthy_bit by lia. }
  unfold host_modify. wp_step. wp_step.
  apply (wp_W_leave (w_cpu w)); [done|done|]. exact HQ.
Qed.

Lemma lor_bit_bound a n i : 0 <= i < n → 0 <= a < 2 ^ n → 0 <= Z.lor a (Z.shiftl 1 i) < 2 ^ n.
Proof.
  intros Hi Ha. assert (0 <= Z.lor a (Z.shiftl 1 i)) as H0.
  { apply Z.lor_nonneg. split; [lia|]. apply Z.shiftl_nonneg. lia. }
  split; [done|]. destruct (decide (Z.lor a (Z.shiftl 1 i) = 0)) as [->|]; [lia|].
  apply Z.log2_lt_pow2; [lia|]. rewrite Z.log2_lor; [|lia|apply Z.shiftl_nonneg; lia].
  rewrite Z.shiftl_1_l, Z.log2_pow2 by lia.
  destruct (decide (a = 0)) as [->|]; [simpl; lia|].
  assert (Z.log2 a < n) by (apply Z.log2_lt_pow2; lia). lia.
Qed.

(** Marking a free channel and unmarking it gives back the original marks. *)
Lemma mark_unmark al i nc :
  0 <= i < 32 → nc <= 32 → 0 <= al < 2 ^ nc → Z.testbit al i = false →
  Z.land (Z.lor al (Z.shiftl 1 i)) (not32 (Z.shiftl 1 i)) = al.
Proof.
  intros Hi Hnc Ha Hf. apply Z.bits_inj'. intros j Hj. unfold not32.
  rewrite Z.land_spec, Z.lor_spec, u32_testbit, Z.lnot_spec, Z.shiftl_1_l by lia.
  rewrite !Z.pow2_bits_eqb by lia.
  destruct (Z.eqb_spec i j) as [->|]; [by rewrite Hf, orb_true_r|]. simpl.
  rewrite orb_false_r. destruct (Z.ltb_spec j 32); [by rewrite andb_true_r|].
  rewrite andb_false_r. symmetry. destruct (decide (al = 0)) as [->|]; [apply Z.bits_0|].
  apply Z.bits_above_log2; [lia|]. assert (Z.log2 al < nc) by (apply Z.log2_lt_pow2; lia). lia.
Qed.

(** C10. Allocating a channel hands out the lowest free one and marks it; with none
    free the result is out of range and nothing is marked. A channel handed out
    was free and is the only one whose mark changes; freeing it again gives
    back the original marks. Interrupts are masked or not as before. *)
Theorem channel_allocator w :
  crit_ok (w_cpu w) → channels_wf (w_host w) →
  wp DWHCIDeviceAllocateChannel (λ n w',
    channels_wf (w_host w') ∧ irq_masked (w_cpu w') = irq_masked (w_cpu w) ∧ w_usb w' = w_usb w ∧
    (if n <? m_nChannels (w_host w) then
       0 <= n ∧ allocated (w_host w) n = false ∧
       (∀ j, 0 <= j < n → allocated (w_host w) j = true) ∧
       (∀ j, 0 <= j → allocated (w_host w') j = (j =? n) || allocated (w_host w) j) ∧
       wp (DWHCIDeviceFreeChannel n) (λ _ w'', w_host w'' = w_host w ∧ w_usb w'' = w_usb w) w'
     else
       n = DWHCI_MAX_CHANNELS ∧ w_host w' = w_host w ∧
       (∀ j, 0 <= j < m_nChannels (w_host w) → allocated (w_host w) j = true))) w.
Proof.
  intros Hc [Hn Ha]. apply wp_AllocateChannel; [done|done|].
  pose proof (lowest_free_spec (w_host w) (Z.to_nat (m_nChannels (w_host w))) 0) as Hs.
  unfold free_channel. destruct (lowest_free _ _ _) as [i|].
  - destruct Hs as (Hi & Hf & Hl). rewrite (proj2 (Z.ltb_lt i _)) by lia.
    assert (∀ j, 0 <= j → allocated ((w_host w) <| m_nChannelAllocated :=
        Z.lor (m_nChannelAllocated (w_host w)) (Z.shiftl 1 i) |>) j
        = (j =? i) || allocated (w_host w) j) as Hbit.
    { intros j Hj. unfold allocated. simpl. rewrite Z.lor_spec, orb_comm. f_equal.
      rewrite Z.shiftl_1_l, Z.pow2_bits_eqb by lia. by rewrite Z.eqb_sym. }
    assert (0 <= Z.lor (m_nChannelAllocated (w_host w)) (Z.shiftl 1 i)
              < 2 ^ m_nChannels (w_host w)) as Hbd by (apply lor_bit_bound; lia).
    split_and!; try done; [lia|].
    apply wp_FreeChannel; [done|done|simpl; lia|simpl; rewrite Hbit by lia; by rewrite Z.eqb_refl|].
    split; [|done]. simpl. unfold upd. destruct (w_host w) as [nc al st bw]; simpl in *. f_equal.
    apply (mark_unmark al i nc); [lia|lia|exact Ha|exact Hf].
  - rewrite (proj2 (Z.ltb_ge _ _)) by (unfold DWHCI_MAX_CHANNELS; lia).
    split_and!; try done. intros j Hj. apply Hs. lia.
Qed.

(** *** Initialisation *)

Section InitProps.
Context `{HW : Hardware}.

Definition poll_event (a : Z) (e : event) : Prop := (∃ v, e = EvRead a v) ∨ e = EvMsDelay 1.

Lemma waits_app n a h : ∃ new, waits n a h = new ++ h ∧ Forall (poll_event a) new.
Proof.
  revert h. induction n as [|n IH]; intros h; [by exists []|]. simpl.
  destruct (IH (EvMsDelay 1 :: EvRead a (u32 (hw_read h a)) :: h)) as (new & -> & HF).
  exists (new ++ [EvMsDelay 1; EvRead a (u32 (hw_read h a))]). rewrite <- app_assoc.
  split; [done|]. apply Forall_app. split; [done|]. constructor; [by right|]. constructor; [left; eauto|done].
Qed.

Lemma wp_WaitForBit r mask b timeout (Q : bool * TDWHCIRegister → W → Prop) w :
  mask ≠ 0 → 0 < timeout →
  (∀ ok v new, Forall (poll_event (m_nAddress r)) new →
     (ok = true → truthy (Z.land v mask) = b) →
     Q (ok, {| m_bValid := true; m_nAddress := m_nAddress r; m_nBuffer := v |})
       (w <| w_trace := new ++ w_trace w |>)) →
  wp (DWHCIDeviceWaitForBit r mask b timeout) Q w.
Proof.
  intros Hm Ht HQ. destruct (wait_loop_spec (pred (Z.to_nat timeout)) r mask b w) as
    [(k & Hk & Hd & Hj & Hr) | [Hj Hr]];
    replace (S (pred (Z.to_nat timeout))) with (Z.to_nat timeout) in Hr by lia;
    unfold DWHCIDeviceWaitForBit, c_assert;
    rewrite (proj2 (Z.eqb_neq mask 0)), (proj2 (Z.ltb_lt 0 timeout)) by done;
    apply wp_run; eexists _, _; (split; [exact Hr|]).
  - destruct (waits_app k (m_nAddress r) (w_trace w)) as (new & E & HF).
    rewrite E. apply (HQ true _ (EvRead (m_nAddress r) _ :: new)).
    + constructor; [left; eauto|done].
    + intros _. unfold reached in Hd. by destruct (truthy _), b.
  - destruct (waits_app (Z.to_nat timeout) (m_nAddress r) (w_trace w)) as (new & E & HF).
    rewrite E. by apply HQ.
Qed.

(** A write to the port register that leaves the write-1-to-clear bits (and
    the port enabled) alone. *)
Definition port_write_ok (v : Z) : Prop := Z.land v DWHCI_HOST_PORT_DEFAULT_MASK = 0.

Lemma port_mask_ok v : is_u32 v →
  port_write_ok (Z.land v (u32 (not32 DWHCI_HOST_PORT_DEFAULT_MASK))).
Proof.
  intros _. unfold port_write_ok. rewrite <- Z.land_assoc.
  replace (Z.land (u32 (not32 DWHCI_HOST_PORT_DEFAULT_MASK)) DWHCI_HOST_PORT_DEFAULT_MASK)
    with 0 by reflexivity. apply Z.land_0_r.
Qed.

Lemma port_or_ok v x : port_write_ok v → port_write_ok x → port_write_ok (Z.lor v x).
Proof. unfold port_write_ok. intros H1 H2. by rewrite Z.land_lor_distr_l, H1, H2. Qed.

Lemma port_and_ok v x : port_write_ok v → port_write_ok (Z.land v x).
Proof.
  unfold port_write_ok. intros H1.
  by rewrite <- Z.land_assoc, (Z.land_comm x), Z.land_assoc, H1, Z.land_0_l.
Qed.

(** Resetting the root port: without a connected device nothing is written;
    with one the reset bit is driven for 50 ms and released, 100 ms after the
    connection is seen and 20 ms before the port is used. Neither write
    touches a write-1-to-clear bit of the port register, so the driver does
    not disable the port it is enabling. *)
Theorem root_port_reset w :
  wp DWHCIDeviceEnableRootPort (λ ok w', ∃ polls,
    Forall (poll_event DWHCI_HOST_PORT) polls ∧ w' = w <| w_trace := w_trace w' |> ∧
    if ok : bool then ∃ r1 r2 v1 v2,
      w_trace w' = [EvMsDelay 20; EvWrite DWHCI_HOST_PORT v2; EvRead DWHCI_HOST_PORT r2;
                    EvMsDelay 50; EvWrite DWHCI_HOST_PORT v1; EvRead DWHCI_HOST_PORT r1;
                    EvMsDelay 100] ++ polls ++ w_trace w ∧
      port_write_ok v1 ∧ port_write_ok v2 ∧ Z.testbit v1 8 = true ∧ Z.testbit v2 8 = false
    else w_trace w' = polls ++ w_trace w) w.
Proof.
  unfold DWHCIDeviceEnableRootPort. wp_step. apply wp_WaitForBit; [done|done|].
  intros ok v polls Hpolls _. destruct ok; cbn [negb].
  - any_steps r1 Hr1. apply wp_RegRead_any. intros r2 Hr2. any_steps r3 Hr3. exists polls. split_and!; [done|done|]. eexists r1, r2, _, _.
    split; [reflexivity|]. refine (conj _ (conj _ (conj _ _))).
    + apply port_or_ok; [|done]. apply port_mask_ok. subst r1. apply u32_range.
    + apply port_and_ok, port_mask_ok. subst r2. apply u32_range.
    + rewrite Z.lor_spec. by apply orb_true_intro; right.
    + rewrite !Z.land_spec. by rewrite andb_false_r.
  - wp_step. exists polls. split_and!; done.
Qed.

(** What the driver assumes of the core: internal DMA and at least four host
    channels, as the BCM2835 data sheet's hardware configuration says. *)
Class CoreLaws := {
  core_architecture h : DWHCI_CORE_HW_CFG2_ARCHITECTURE (u32 (hw_read h DWHCI_CORE_HW_CFG2)) = 2;
  core_channels h : 4 <= DWHCI_CORE_HW_CFG2_NUM_HOST_CHANNELS (u32 (hw_read h DWHCI_CORE_HW_CFG2))
}.

Lemma num_channels_bound v : 1 <= DWHCI_CORE_HW_CFG2_NUM_HOST_CHANNELS v <= 16.
Proof. unfold DWHCI_CORE_HW_CFG2_NUM_HOST_CHANNELS. rewrite (Z.land_ones _ 4) by lia. lia. Qed.

(** [w'] is [w] with more history, and maybe another device object. *)
Definition traced (w w' : W) : Prop :=
  ∃ new, w_trace w' = new ++ w_trace w ∧
    w' = w <| w_trace := w_trace w' |> <| w_host := w_host w' |>.

Lemma traced_refl w : traced w w.
Proof. exists []. split; [done|]. by destruct w. Qed.
Lemma traced_trans w1 w2 w3 : traced w1 w2 → traced w2 w3 → traced w1 w3.
Proof.
  intros (n1 & E1 & F1) (n2 & E2 & F2). exists (n2 ++ n1). rewrite <- app_assoc, <- E1.
  split; [done|]. rewrite F2. rewrite F1. done.
Qed.
Lemma traced_record w w1 e : traced w w1 → traced w (record e w1).
Proof. intros H. eapply traced_trans; [done|]. by exists [e]. Qed.
Lemma traced_more w w1 new : traced w w1 → traced w (w1 <| w_trace := new ++ w_trace w1 |>).
Proof. intros H. eapply traced_trans; [done|]. by exists new. Qed.
Lemma traced_host w w1 d : traced w w1 → traced w (w1 <| w_host := d |>).
Proof. intros H. eapply traced_trans; [done|]. by exists []. Qed.

(** The same device object and more history. *)
Definition quiet (w w' : W) : Prop := traced w w' ∧ w_host w' = w_host w.
Lemma quiet_refl w : quiet w w.
Proof. split; [apply traced_refl|done]. Qed.

(** Close [traced] and [quiet] goals along the steps taken. *)
Ltac tr :=
  repeat lazymatch goal with
  | H : quiet _ _ |- _ => destruct H
  end;
  unfold quiet;
  repeat first
    [ assumption | split | apply traced_refl | apply traced_record | apply traced_more
    | apply traced_host
    | match goal with
      | H : traced ?w1 ?w2 |- traced _ ?w2 => apply (fun P => traced_trans _ _ _ P H); clear H
      end ];
  try (cbn [record mmio_put mmio_get W_mmio upd w_host w_trace] in *; congruence).

(** Facts on the device object along the steps taken. *)
Ltac host_eq :=
  repeat lazymatch goal with
  | H : quiet _ _ |- _ => destruct H as [_ H]
  end;
  cbn [record mmio_put mmio_get W_mmio upd w_host w_trace m_nChannels] in *; congruence.

Lemma wp_Reset (Q : bool → W → Prop) w :
  (∀ ok w', quiet w w' → Q ok w') → wp DWHCIDeviceReset Q w.
Proof.
  intros HQ. unfold DWHCIDeviceReset. wp_step. apply wp_WaitForBit; [done|done|].
  intros [] v n1 _ _; cbn [negb]; [|apply wp_ret, HQ; tr].
  wp_step. reg_step. cbn [upd m_bValid m_nAddress m_nBuffer]. wp_step. reg_step. wp_step.
  apply wp_WaitForBit; [done|done|]. intros [] v2 n2 _ _; cbn [negb].
  - repeat reg_step. apply HQ. tr.
  - apply wp_ret, HQ. tr.
Qed.

Lemma wp_FlushTx n (Q : unit → W → Prop) w :
  (∀ w', quiet w w' → Q tt w') → wp (DWHCIDeviceFlushTxFIFO n) Q w.
Proof.
  intros HQ. unfold DWHCIDeviceFlushTxFIFO. do 4 (wp_step; reg_step). wp_step.
  apply wp_WaitForBit; [done|done|]. intros [] v n1 _ _; cbn [when]; [reg_step|wp_step]; apply HQ; tr.
Qed.

Lemma wp_FlushRx (Q : unit → W → Prop) w :
  (∀ w', quiet w w' → Q tt w') → wp DWHCIDeviceFlushRxFIFO Q w.
Proof.
  intros HQ. unfold DWHCIDeviceFlushRxFIFO. do 2 (wp_step; reg_step). wp_step.
  apply wp_WaitForBit; [done|done|]. intros [] v n1 _ _; cbn [when]; [reg_step|wp_step]; apply HQ; tr.
Qed.

(** What is known of the hardware configuration read. *)
Definition cfg2_ok (v : Z) : Prop :=
  DWHCI_CORE_HW_CFG2_ARCHITECTURE v = 2 ∧
  4 <= DWHCI_CORE_HW_CFG2_NUM_HOST_CHANNELS v <= DWHCI_MAX_CHANNELS.

Lemma wp_RegRead_cfg2 `{!CoreLaws} (Q : TDWHCIRegister → W → Prop) w :
  (∀ v, cfg2_ok v →
   Q {| m_bValid := true; m_nAddress := DWHCI_CORE_HW_CFG2; m_nBuffer := v |}
     (record (EvRead DWHCI_CORE_HW_CFG2 v) w)) →
  wp (DWHCIRegisterRead (DWHCIRegister DWHCI_CORE_HW_CFG2)) Q w.
Proof.
  intros HQ. apply wp_RegRead, HQ. split; [apply core_architecture|].
  split; [apply core_channels|apply num_channels_bound].
Qed.

(** A step whose values and history are of no interest. *)
Ltac t_step :=
  lazymatch goal with
  | |- wp (DWHCIRegisterRead (DWHCIRegister DWHCI_CORE_HW_CFG2)) _ _ =>
      apply wp_RegRead_cfg2; intros ? ?
  | |- wp (DWHCIRegisterRead _) _ _ => apply wp_RegRead_any; intros ? _
  | |- wp DWHCIDeviceReset _ _ => apply wp_Reset; intros ? ? ?
  | |- wp (DWHCIDeviceFlushTxFIFO _) _ _ => apply wp_FlushTx; intros ? ?
  | |- wp DWHCIDeviceFlushRxFIFO _ _ => apply wp_FlushRx; intros ? ?
  | |- wp (host_get _) _ _ => apply wp_gets
  | |- wp (host_modify _) _ _ => apply wp_modify
  | |- wp (if ?b then _ else _) _ _ => destruct b
  | |- wp (when ?b _) _ _ => apply wp_when; intros _
  | |- wp (c_assert _) _ _ => apply wp_assert
  | |- wp _ _ _ => reg_step
  end; cbn [m_bValid m_nAddress m_nBuffer upd].

Lemma wp_InitCore `{!CoreLaws} (Q : bool → W → Prop) w :
  m_nChannels (w_host w) = 0 →
  (∀ w', quiet w w' → Q false w') →
  (∀ n w', 4 <= n <= 16 → traced w w' → w_host w' = (w_host w) <| m_nChannels := n |> →
     Q true w') →
  wp DWHCIDeviceInitCore Q w.
Proof.
  intros H0 HF HT. unfold DWHCIDeviceInitCore, DWHCIDeviceEnableCommonInterrupts.
  repeat t_step.
  all: repeat match goal with H : cfg2_ok _ |- _ => destruct H end.
  all: lazymatch goal with
  | HF : ∀ w, quiet _ w → _ |- ?Q false _ => apply HF; tr
  | HT : ∀ n w, _ → _ |- ?Q true _ => eapply HT; [eassumption|tr|host_eq]
  | |- (?a =? 2) = true => by apply Z.eqb_eq
  | |- (_ =? 0) = true => apply Z.eqb_eq; host_eq
  | |- _ && _ = true => apply andb_true_intro; split; apply Z.leb_le; tauto
  end.
Qed.

Lemma wp_EnableGlobal (Q : unit → W → Prop) w :
  (∀ w', quiet w w' → Q tt w') → wp DWHCIDeviceEnableGlobalInterrupts Q w.
Proof. intros HQ. unfold DWHCIDeviceEnableGlobalInterrupts. repeat t_step. apply HQ. tr. Qed.

Lemma wp_InitHost (Q : bool → W → Prop) w :
  (∀ w', quiet w w' → Q true w') → wp DWHCIDeviceInitHost Q w.
Proof.
  intros HQ.
  unfold DWHCIDeviceInitHost, DWHCIDeviceEnableHostInterrupts, DWHCIDeviceEnableCommonInterrupts.
  repeat lazymatch goal with
  | |- wp (DWHCIRegisterRead _) _ _ => apply wp_RegRead_any; intros ? _
  | |- _ => t_step
  end; cbn [m_bValid m_nAddress m_nBuffer upd].
  all: apply HQ; tr.
Qed.

Lemma wp_EnableRootPort (Q : bool → W → Prop) w :
  (∀ ok w', quiet w w' → Q ok w') → wp DWHCIDeviceEnableRootPort Q w.
Proof.
  intros HQ. unfold DWHCIDeviceEnableRootPort. wp_step. apply wp_WaitForBit; [done|done|].
  intros [] v polls _ _; cbn [negb]; repeat t_step; apply HQ; tr.
Qed.

(** What the root port promises the host driver: enumeration returns and
    leaves the number of channels alone. *)
Definition root_port_returns `{RP : RootPort} (w : W) : Prop :=
  wp DWHCIRootPortInitialize (λ _ w',
    (∃ new, w_trace w' = new ++ w_trace w) ∧ m_nChannels (w_host w') = m_nChannels (w_host w)) w.

(** C11. Bringing up the controller. A controller that is not the expected one, or
    does not power on, is not touched. Otherwise interrupts are switched off
    in the controller before the handler is connected, everything else comes
    after that, and success means that the channel count lies between 4 and
    16 (so that every channel has stage data). *)
Theorem initialize_order `{!CoreLaws} `{RP : RootPort} w :
  m_nChannels (w_host w) = 0 →
  (∀ w1, 4 <= m_nChannels (w_host w1) <= 16 → root_port_returns w1) →
  wp DWHCIDeviceInitialize (λ ok w', ∃ vid,
    if negb (vid =? 0x4F54280A) then
      ok = false ∧ w_host w' = w_host w ∧
      w_trace w' = [EvRead DWHCI_CORE_VENDOR_ID vid; EvBarrier] ++ w_trace w
    else ∃ power,
    if negb power then
      ok = false ∧ w_host w' = w_host w ∧
      w_trace w' = [EvSetPowerState DEVICE_ID_USB_HCD false;
                    EvRead DWHCI_CORE_VENDOR_ID vid; EvBarrier] ++ w_trace w
    else ∃ r v new,
      w_trace w' = new ++ [EvConnectInterrupt ARM_IRQ_USB; EvWrite DWHCI_CORE_AHB_CFG v;
                    EvRead DWHCI_CORE_AHB_CFG r; EvSetPowerState DEVICE_ID_USB_HCD true;
                    EvRead DWHCI_CORE_VENDOR_ID vid; EvBarrier] ++ w_trace w ∧
      Z.testbit v 0 = false ∧ (ok = true → 4 <= m_nChannels (w_host w') <= 16)) w.
Proof.
  intros H0 Hrp. unfold DWHCIDeviceInitialize, SetPowerStateOn.
  wp_step. reg_step. wp_step. apply wp_RegRead_any. intros vid _. cbn [m_nBuffer m_nAddress].
  destruct (vid =? 0x4F54280A) eqn:Ev; cbn [negb];
    [|wp_step; exists vid; rewrite Ev; cbn [negb]; done].
  repeat reg_step.
  set (power := hw_power_on _ _). destruct power; cbn [negb];
    [|wp_step; exists vid; rewrite Ev; exists false; done].
  any_steps r Hr. clear Hr. set (w1 := record (EvConnectInterrupt _) _).
  assert (∀ ok w', (∃ new, w_trace w' = new ++ w_trace w1) →
    (ok = true → 4 <= m_nChannels (w_host w') <= 16) →
    ∃ vid, if negb (vid =? 0x4F54280A) then
      ok = false ∧ w_host w' = w_host w ∧
      w_trace w' = [EvRead DWHCI_CORE_VENDOR_ID vid; EvBarrier] ++ w_trace w
    else ∃ power : bool,
    if negb power then
      ok = false ∧ w_host w' = w_host w ∧
      w_trace w' = [EvSetPowerState DEVICE_ID_USB_HCD false;
                    EvRead DWHCI_CORE_VENDOR_ID vid; EvBarrier] ++ w_trace w
    else ∃ r v new,
      w_trace w' = new ++ [EvConnectInterrupt ARM_IRQ_USB; EvWrite DWHCI_CORE_AHB_CFG v;
                    EvRead DWHCI_CORE_AHB_CFG r; EvSetPowerState DEVICE_ID_USB_HCD true;
                    EvRead DWHCI_CORE_VENDOR_ID vid; EvBarrier] ++ w_trace w ∧
      Z.testbit v 0 = false ∧ (ok = true → 4 <= m_nChannels (w_host w') <= 16)) as Hend.
  { intros ok w' [new Hnew] Hok. exists vid. rewrite Ev. cbn [negb]. exists true. cbn [negb].
    eexists r, _, new. split; [exact Hnew|]. split; [|exact Hok].
    rewrite Z.land_spec. by rewrite andb_false_r. }
  assert (∀ w2, traced w1 w2 → ∃ new, w_trace w2 = new ++ w_trace w1) as Hnew
    by (intros w2 (new & E & _); eauto).
  apply wp_InitCore; [exact H0| |].
  { intros w2 [Hq _]. cbn [negb]. apply wp_ret, Hend; [by apply Hnew|done]. }
  intros n w2 Hn Ht2 Hh2. cbn [negb]. apply wp_bind, wp_EnableGlobal. intros w3 [Ht3 Hh3].
  apply wp_bind, wp_InitHost. intros w4 [Ht4 Hh4]. cbn [negb].
  apply wp_bind, wp_EnableRootPort. intros ok w5 [Ht5 Hh5].
  assert (traced w1 w5) as Ht by (repeat (eapply traced_trans; [eassumption|]); tr).
  assert (m_nChannels (w_host w5) = n) as Hn5 by (by rewrite Hh5, Hh4, Hh3, Hh2).
  destruct ok; cbn [negb]; [|apply wp_ret, Hend; [by apply Hnew|by rewrite Hn5]].
  wp_step. eapply wp_mono; [apply Hrp; lia|]. intros ok w6 [[new6 Hw6] Hn6].
  destruct (Hnew w5 Ht) as [new5 Hw5].
  destruct ok; cbn [negb]; repeat reg_step; apply Hend; try (simpl; lia).
  - exists (EvBarrier :: new6 ++ new5). simpl. by rewrite Hw6, Hw5, <- app_assoc.
  - exists (new6 ++ new5). by rewrite Hw6, Hw5, <- app_assoc.
Qed.
End InitProps.
