(* ===== verification/DwhciXfer.v ===== *)
(** * lib/dwhcidevice.c: transfers

    The channel state machine: starting a transaction on a channel, what the
    interrupt and timer handlers do with its outcome, and the blocking and
    asynchronous requests on top. *)
From S2P Require Import Prelude Register Sync FrameSched Endpoint StageData HostState ChanRegs DwhciCore.

Section Xfer.
Context `{HW : Hardware} `{LA : Layout}.
(** The bound on polls of the frame number, and the completion routines of
    the function drivers: routine, request, [pParam], [pContext]. *)
Context (spin : nat) (client : Z → Z → Z → Z → M W unit).

(** A call through the method table of the channel's frame scheduler. *)
Definition with_scheduler {A} (n : Z)
    (f : TDWHCIFrameScheduler → M W (A * TDWHCIFrameScheduler)) : M W A :=
  sd ← stage_at n;
  match DWHCITransferStageDataGetFrameScheduler sd with
  | None => fail MemFault
  | Some p =>
      '(a, p) ← f p;
      sd ← stage_at n;
      stage_set n (sd <| m_FrameScheduler := p |>) ;;
      mret a
  end.
Definition scheduler_StartSplit (n : Z) : M W unit :=
  with_scheduler n (λ p, p ← StartSplit p; mret (tt, p)).
Definition scheduler_CompleteSplit (n : Z) : M W bool := with_scheduler n CompleteSplit.
Definition scheduler_TransactionComplete (n nStatus : Z) : M W unit :=
  with_scheduler n (λ p, p ← TransactionComplete p nStatus; mret (tt, p)).

Definition stage_modify (n : Z) (f : TDWHCITransferStageData → TDWHCITransferStageData) : M W unit :=
  sd ← stage_at n; stage_set n (f sd).
Definition stage_SetSplitComplete (n : Z) (b : bool) : M W unit :=
  sd ← stage_at n; sd ← DWHCITransferStageDataSetSplitComplete sd b; stage_set n sd.

(** ** Starting a channel *)

Definition transfer_size_value (sd : TDWHCITransferStageData) (pid : Z) : Z :=
  Z.lor (Z.lor (Z.land (DWHCITransferStageDataGetBytesToTransfer sd)
                       DWHCI_HOST_CHAN_XFER_SIZ_BYTES__MASK)
               (Z.land (u32 (Z.shiftl (DWHCITransferStageDataGetPacketsToTransfer sd)
                                      DWHCI_HOST_CHAN_XFER_SIZ_PACKETS__SHIFT))
                       DWHCI_HOST_CHAN_XFER_SIZ_PACKETS__MASK))
        (u32 (Z.shiftl pid DWHCI_HOST_CHAN_XFER_SIZ_PID__SHIFT)).

(** The transfer size, packet count and pid of the transaction. *)
Definition start_size (nChannel : Z) (sd : TDWHCITransferStageData) : M W unit :=
  TransferSize ← DWHCIRegisterOr (DWHCIRegister2 (DWHCI_HOST_CHAN_XFER_SIZ nChannel) 0)
    (Z.land (DWHCITransferStageDataGetBytesToTransfer sd) DWHCI_HOST_CHAN_XFER_SIZ_BYTES__MASK);
  TransferSize ← DWHCIRegisterOr TransferSize
    (Z.land (u32 (Z.shiftl (DWHCITransferStageDataGetPacketsToTransfer sd)
                           DWHCI_HOST_CHAN_XFER_SIZ_PACKETS__SHIFT))
            DWHCI_HOST_CHAN_XFER_SIZ_PACKETS__MASK);
  pid ← DWHCITransferStageDataGetPID sd;
  TransferSize ← DWHCIRegisterOr TransferSize (Z.shiftl pid DWHCI_HOST_CHAN_XFER_SIZ_PID__SHIFT);
  DWHCIRegisterWrite TransferSize.

(** The DMA address; the buffer leaves the cache first. *)
Definition start_dma (nChannel : Z) (sd : TDWHCITransferStageData) : M W unit :=
  dma ← DWHCITransferStageDataGetDMAAddress sd;
  DWHCIRegisterWrite (DWHCIRegister2 (DWHCI_HOST_CHAN_DMA_ADDR nChannel) (BUS_ADDRESS dma)) ;;
  uspi_CleanAndInvalidateDataCacheRange dma (DWHCITransferStageDataGetBytesToTransfer sd) ;;
  DataMemBarrier.

Definition start_split (nChannel : Z) (sd : TDWHCITransferStageData) : M W unit :=
  let SplitControl := DWHCIRegister2 (DWHCI_HOST_CHAN_SPLIT_CTRL nChannel) 0 in
  SplitControl ←
    (if DWHCITransferStageDataIsSplit sd then
       port ← DWHCITransferStageDataGetHubPortAddress sd;
       r ← DWHCIRegisterOr SplitControl port;
       hub ← DWHCITransferStageDataGetHubAddress sd;
       r ← DWHCIRegisterOr r (Z.shiftl hub DWHCI_HOST_CHAN_SPLIT_CTRL_HUB_ADDRESS__SHIFT);
       r ← DWHCIRegisterOr r (Z.shiftl (DWHCITransferStageDataGetSplitPosition sd)
                                       DWHCI_HOST_CHAN_SPLIT_CTRL_XACT_POS__SHIFT);
       complete ← DWHCITransferStageDataIsSplitComplete sd;
       r ← (if complete : bool
            then DWHCIRegisterOr r DWHCI_HOST_CHAN_SPLIT_CTRL_COMPLETE_SPLIT else mret r);
       DWHCIRegisterOr r DWHCI_HOST_CHAN_SPLIT_CTRL_SPLIT_ENABLE
     else mret SplitControl);
  DWHCIRegisterWrite SplitControl.

(** The channel parameters, up to the frame. *)
Definition start_character (nChannel : Z) (sd : TDWHCITransferStageData)
    : M W TDWHCIRegister :=
  r ← DWHCIRegisterRead (DWHCIRegister (DWHCI_HOST_CHAN_CHARACTER nChannel));
  r ← DWHCIRegisterAnd r (not32 DWHCI_HOST_CHAN_CHARACTER_MAX_PKT_SIZ__MASK);
  r ← DWHCIRegisterOr r (Z.land (DWHCITransferStageDataGetMaxPacketSize sd)
                                DWHCI_HOST_CHAN_CHARACTER_MAX_PKT_SIZ__MASK);
  r ← DWHCIRegisterAnd r (not32 DWHCI_HOST_CHAN_CHARACTER_MULTI_CNT__MASK);
  r ← DWHCIRegisterOr r (Z.shiftl 1 DWHCI_HOST_CHAN_CHARACTER_MULTI_CNT__SHIFT);
  r ← (if DWHCITransferStageDataIsDirectionIn sd
       then DWHCIRegisterOr r DWHCI_HOST_CHAN_CHARACTER_EP_DIRECTION_IN
       else DWHCIRegisterAnd r (not32 DWHCI_HOST_CHAN_CHARACTER_EP_DIRECTION_IN));
  r ← (if bool_decide (DWHCITransferStageDataGetSpeed sd = USBSpeedLow)
       then DWHCIRegisterOr r DWHCI_HOST_CHAN_CHARACTER_LOW_SPEED_DEVICE
       else DWHCIRegisterAnd r (not32 DWHCI_HOST_CHAN_CHARACTER_LOW_SPEED_DEVICE));
  r ← DWHCIRegisterAnd r (not32 DWHCI_HOST_CHAN_CHARACTER_DEVICE_ADDRESS__MASK);
  addr ← DWHCITransferStageDataGetDeviceAddress sd;
  r ← DWHCIRegisterOr r (Z.shiftl addr DWHCI_HOST_CHAN_CHARACTER_DEVICE_ADDRESS__SHIFT);
  r ← DWHCIRegisterAnd r (not32 DWHCI_HOST_CHAN_CHARACTER_EP_TYPE__MASK);
  t ← DWHCITransferStageDataGetEndpointType sd;
  r ← DWHCIRegisterOr r (Z.shiftl t DWHCI_HOST_CHAN_CHARACTER_EP_TYPE__SHIFT);
  r ← DWHCIRegisterAnd r (not32 DWHCI_HOST_CHAN_CHARACTER_EP_NUMBER__MASK);
  num ← DWHCITransferStageDataGetEndpointNumber sd;
  DWHCIRegisterOr r (Z.shiftl num DWHCI_HOST_CHAN_CHARACTER_EP_NUMBER__SHIFT).

(** Wait for the frame the scheduler wants, and note its parity. *)
Definition start_frame (n : Z) (r : TDWHCIRegister) : M W TDWHCIRegister :=
  sd ← stage_at n;
  match DWHCITransferStageDataGetFrameScheduler sd with
  | None => mret r
  | Some _ =>
      odd ← with_scheduler n (λ p, p ← WaitForFrame spin p; mret (IsOddFrame p, p));
      if odd : bool then DWHCIRegisterOr r DWHCI_HOST_CHAN_CHARACTER_PER_ODD_FRAME
      else DWHCIRegisterAnd r (not32 DWHCI_HOST_CHAN_CHARACTER_PER_ODD_FRAME)
  end.

(** [pStageData] is [&m_StageData[n]]. *)
Definition DWHCIDeviceStartChannel (n : Z) : M W unit :=
  sd ← stage_at n;
  let nChannel := DWHCITransferStageDataGetChannelNumber sd in
  nChannels ← host_get m_nChannels;
  c_assert (nChannel <? nChannels) ;;
  stage_modify n (λ sd, DWHCITransferStageDataSetSubState sd StageSubStateWaitForTransactionComplete) ;;
  sd ← stage_at n;
  DWHCIRegisterWrite (DWHCIRegisterSetAll (DWHCIRegister (DWHCI_HOST_CHAN_INT nChannel))) ;;
  start_size nChannel sd ;;
  start_dma nChannel sd ;;
  start_split nChannel sd ;;
  Character ← start_character nChannel sd;
  Character ← start_frame n Character;
  mask ← DWHCITransferStageDataGetStatusMask sd;
  DWHCIRegisterWrite
    (DWHCIRegisterSet (DWHCIRegister (DWHCI_HOST_CHAN_INT_MASK nChannel)) mask) ;;
  Character ← DWHCIRegisterOr Character DWHCI_HOST_CHAN_CHARACTER_ENABLE;
  Character ← DWHCIRegisterAnd Character (not32 DWHCI_HOST_CHAN_CHARACTER_DISABLE);
  DWHCIRegisterWrite Character.

Definition DWHCIDeviceStartTransaction (n : Z) : M W unit :=
  sd ← stage_at n;
  let nChannel := DWHCITransferStageDataGetChannelNumber sd in
  nChannels ← host_get m_nChannels;
  c_assert (nChannel <? nChannels) ;;
  Character ← DWHCIRegisterRead (DWHCIRegister (DWHCI_HOST_CHAN_CHARACTER nChannel));
  enabled ← DWHCIRegisterIsSet Character DWHCI_HOST_CHAN_CHARACTER_ENABLE;
  if enabled : bool then
    stage_modify n (λ sd, DWHCITransferStageDataSetSubState sd StageSubStateWaitForChannelDisable) ;;
    Character ← DWHCIRegisterAnd Character (not32 DWHCI_HOST_CHAN_CHARACTER_ENABLE);
    Character ← DWHCIRegisterOr Character DWHCI_HOST_CHAN_CHARACTER_DISABLE;
    DWHCIRegisterWrite Character ;;
    DWHCIRegisterWrite (DWHCIRegisterSet (DWHCIRegister (DWHCI_HOST_CHAN_INT_MASK nChannel))
                                         DWHCI_HOST_CHAN_INT_HALTED)
  else DWHCIDeviceStartChannel n.

Definition DWHCIDeviceTransferStageAsync (pURB : Z) (bIn bStatusStage : bool) : M W bool :=
  c_assert (negb (pURB =? 0)) ;;
  nChannel ← DWHCIDeviceAllocateChannel;
  nChannels ← host_get m_nChannels;
  if nChannels <=? nChannel then mret false
  else
    sd ← stage_at nChannel;
    sd ← DWHCITransferStageData sd nChannel pURB bIn bStatusStage;
    stage_set nChannel sd ;;
    DWHCIDeviceEnableChannelInterrupt nChannel ;;
    if negb (DWHCITransferStageDataIsSplit sd) then
      stage_modify nChannel (λ sd, DWHCITransferStageDataSetState sd StageStateNoSplitTransfer) ;;
      DWHCIDeviceStartTransaction nChannel ;;
      mret true
    else if negb (DWHCITransferStageDataBeginSplitCycle sd) then
      DWHCIDeviceDisableChannelInterrupt nChannel ;;
      stage_modify nChannel _DWHCITransferStageData ;;
      DWHCIDeviceFreeChannel nChannel ;;
      mret false
    else
      stage_modify nChannel (λ sd, DWHCITransferStageDataSetState sd StageStateStartSplit) ;;
      stage_SetSplitComplete nChannel false ;;
      c_assert (match DWHCITransferStageDataGetFrameScheduler sd with
                | Some _ => true | None => false end) ;;
      scheduler_StartSplit nChannel ;;
      DWHCIDeviceStartTransaction nChannel ;;
      mret true.

(** ** The handlers *)

(** lib/usbrequest.c *)
Definition USBRequestCallCompletionRoutine (pURB : Z) : M W unit :=
  urb ← urb_at pURB;
  match m_pCompletionRoutine urb with
  | NoRoutine => fail AssertFailed
  | DWHCIDeviceCompletionRoutine_ => host_modify (λ d, d <| m_bWaiting := false |>)
  | ClientRoutine id => client id pURB (m_pCompletionParam urb) (m_pCompletionContext urb)
  end.

Definition urb_modify (pURB : Z) (f : TUSBRequest → TUSBRequest) : M W unit :=
  urb ← urb_at pURB; urb_set pURB (f urb).

(** [StartKernelTimer (MSEC2HZ (nInterval), DWHCIDeviceTimerHandler, ...)]. *)
Definition periodic_delay (n pURB : Z) : M W unit :=
  stage_modify n (λ sd, DWHCITransferStageDataSetState sd StageStatePeriodicDelay) ;;
  urb ← urb_at pURB;
  pE ← USBRequestGetEndpoint urb;
  e ← endpoint_at pE;
  nInterval ← USBEndpointGetInterval e;
  emit (EvStartTimer (MSEC2HZ nInterval) n).

(** The end of a stage: release the stage data and the channel, then tell
    the requester. *)
Definition release_channel (n pURB : Z) : M W unit :=
  stage_modify n _DWHCITransferStageData ;;
  DWHCIDeviceFreeChannel n ;;
  USBRequestCallCompletionRoutine pURB.

Definition fail_stage (n pURB : Z) : M W unit :=
  urb_modify pURB (λ u, USBRequestSetStatus u 0) ;;
  DWHCIDeviceDisableChannelInterrupt n ;;
  release_channel n pURB.

(** Outside the status stage the result length is the stage's. *)
Definition set_result (n pURB : Z) : M W unit :=
  sd ← stage_at n;
  when (negb (DWHCITransferStageDataIsStatusStage sd))
    (urb_modify pURB (λ u, USBRequestSetResultLen u (DWHCITransferStageDataGetResultLen sd))) ;;
  urb_modify pURB (λ u, USBRequestSetStatus u 1).

(** [case StageStateNoSplitTransfer]. *)
Definition no_split_transfer (n pURB : Z) : M W unit :=
  sd ← stage_at n;
  nStatus ← DWHCITransferStageDataGetTransactionStatus sd;
  if has nStatus DWHCI_HOST_CHAN_INT_ERROR_MASK then fail_stage n pURB
  else
    delay ← (if has nStatus (Z.lor DWHCI_HOST_CHAN_INT_NAK DWHCI_HOST_CHAN_INT_NYET)
             then DWHCITransferStageDataIsPeriodic sd else mret false);
    if delay : bool then periodic_delay n pURB
    else
      set_result n pURB ;;
      DWHCIDeviceDisableChannelInterrupt n ;;
      release_channel n pURB.

(** The label [LeaveCompleteSplit]. *)
Definition leave_complete_split (n pURB : Z) : M W unit :=
  sd ← stage_at n;
  if negb (DWHCITransferStageDataIsStageComplete sd) then
    if negb (DWHCITransferStageDataBeginSplitCycle sd) then fail_stage n pURB
    else
      per ← DWHCITransferStageDataIsPeriodic sd;
      if negb per then
        stage_modify n (λ sd, DWHCITransferStageDataSetState sd StageStateStartSplit) ;;
        stage_SetSplitComplete n false ;;
        scheduler_StartSplit n ;;
        DWHCIDeviceStartTransaction n
      else periodic_delay n pURB
  else
    DWHCIDeviceDisableChannelInterrupt n ;;
    set_result n pURB ;;
    release_channel n pURB.

(** [case StageStateStartSplit]. *)
Definition start_split_done (n pURB : Z) : M W unit :=
  sd ← stage_at n;
  nStatus ← DWHCITransferStageDataGetTransactionStatus sd;
  if has nStatus DWHCI_HOST_CHAN_INT_ERROR_MASK || has nStatus DWHCI_HOST_CHAN_INT_NAK
     || has nStatus DWHCI_HOST_CHAN_INT_NYET then fail_stage n pURB
  else
    scheduler_TransactionComplete n nStatus ;;
    stage_modify n (λ sd, DWHCITransferStageDataSetState sd StageStateCompleteSplit) ;;
    stage_SetSplitComplete n true ;;
    more ← scheduler_CompleteSplit n;
    if negb more then leave_complete_split n pURB
    else DWHCIDeviceStartTransaction n.

(** [case StageStateCompleteSplit]. *)
Definition complete_split_done (n pURB : Z) : M W unit :=
  sd ← stage_at n;
  nStatus ← DWHCITransferStageDataGetTransactionStatus sd;
  if has nStatus DWHCI_HOST_CHAN_INT_ERROR_MASK then fail_stage n pURB
  else
    scheduler_TransactionComplete n nStatus ;;
    more ← scheduler_CompleteSplit n;
    if more : bool then DWHCIDeviceStartTransaction n
    else leave_complete_split n pURB.

(** [case StageSubStateWaitForTransactionComplete]; the result says whether
    the handler goes on. *)
Definition transaction_done (n : Z) : M W bool :=
  sd ← stage_at n;
  dma ← DWHCITransferStageDataGetDMAAddress sd;
  uspi_CleanAndInvalidateDataCacheRange dma (DWHCITransferStageDataGetBytesToTransfer sd) ;;
  DataMemBarrier ;;
  TransferSize ← DWHCIRegisterRead (DWHCIRegister (DWHCI_HOST_CHAN_XFER_SIZ n));
  ChanInterrupt ← DWHCIRegisterRead (DWHCIRegister (DWHCI_HOST_CHAN_INT n));
  if m_nBuffer ChanInterrupt =? DWHCI_HOST_CHAN_INT_HALTED then
    DWHCIDeviceStartTransaction n ;; mret false
  else
    per ← DWHCITransferStageDataIsPeriodic sd;
    siz ← DWHCIRegisterGet TransferSize;
    c_assert (negb per ||
      negb (DWHCI_HOST_CHAN_XFER_SIZ_PID siz =? DWHCI_HOST_CHAN_XFER_SIZ_PID_MDATA)) ;;
    ChanInterrupt ← DWHCIRegisterRead ChanInterrupt;
    sd ← DWHCITransferStageDataTransactionComplete sd (m_nBuffer ChanInterrupt)
           (DWHCI_HOST_CHAN_XFER_SIZ_PACKETS siz)
           (Z.land siz DWHCI_HOST_CHAN_XFER_SIZ_BYTES__MASK);
    stage_set n sd ;;
    mret true.

Definition DWHCIDeviceChannelInterruptHandler (n : Z) : M W unit :=
  sd ← stage_at n;
  pURB ← DWHCITransferStageDataGetURB sd;
  match DWHCITransferStageDataGetSubState sd with
  | StageSubStateWaitForChannelDisable => DWHCIDeviceStartChannel n
  | StageSubStateWaitForTransactionComplete =>
      continue ← transaction_done n;
      if negb continue then mret tt
      else
        sd ← stage_at n;
        match DWHCITransferStageDataGetState sd with
        | StageStateNoSplitTransfer => no_split_transfer n pURB
        | StageStateStartSplit => start_split_done n pURB
        | StageStateCompleteSplit => complete_split_done n pURB
        | StageStatePeriodicDelay | StageStateUnknown => fail AssertFailed
        end
  | StageSubStateUnknown => fail AssertFailed
  end.

Fixpoint channel_loop (rest : nat) (nChannel nChannelMask : Z) (AllChanInterrupt : TDWHCIRegister)
    : M W unit :=
  match rest with
  | O => mret tt
  | S rest =>
      v ← DWHCIRegisterGet AllChanInterrupt;
      when (truthy (Z.land v nChannelMask))
        (DWHCIRegisterWrite (DWHCIRegister2 (DWHCI_HOST_CHAN_INT_MASK nChannel) 0) ;;
         DWHCIDeviceChannelInterruptHandler nChannel) ;;
      channel_loop rest (nChannel + 1) (u32 (Z.shiftl nChannelMask 1)) AllChanInterrupt
  end.

Definition DWHCIDeviceInterruptHandler : M W unit :=
  DataMemBarrier ;;
  IntStatus ← DWHCIRegisterRead (DWHCIRegister DWHCI_CORE_INT_STAT);
  v ← DWHCIRegisterGet IntStatus;
  when (truthy (Z.land v DWHCI_CORE_INT_STAT_HC_INTR))
    (AllChanInterrupt ← DWHCIRegisterRead (DWHCIRegister DWHCI_HOST_ALLCHAN_INT);
     DWHCIRegisterWrite AllChanInterrupt ;;
     nChannels ← host_get m_nChannels;
     channel_loop (Z.to_nat nChannels) 0 1 AllChanInterrupt) ;;
  DWHCIRegisterWrite IntStatus ;;
  DataMemBarrier.

(** [pParam] is [&m_StageData[n]]. *)
Definition DWHCIDeviceTimerHandler (n : Z) : M W unit :=
  DataMemBarrier ;;
  sd ← stage_at n;
  c_assert (bool_decide (DWHCITransferStageDataGetState sd = StageStatePeriodicDelay)) ;;
  (if DWHCITransferStageDataIsSplit sd then
     stage_modify n (λ sd, DWHCITransferStageDataSetState sd StageStateStartSplit) ;;
     stage_SetSplitComplete n false ;;
     c_assert (match DWHCITransferStageDataGetFrameScheduler sd with
               | Some _ => true | None => false end) ;;
     scheduler_StartSplit n
   else
     stage_modify n (λ sd, DWHCITransferStageDataSetState sd StageStateNoSplitTransfer)) ;;
  DWHCIDeviceStartTransaction n ;;
  DataMemBarrier.

(** ** Blocking and asynchronous requests *)

(** The next interrupt or timer that is due; the model stops when the
    environment has none left. *)
Definition env_next : M W unit :=
  env ← gets w_env;
  match env with
  | [] => fail OutOfFuel
  | e :: env =>
      modify (λ w, w <| w_env := env |>) ;;
      match e with
      | EnvInterrupt => DWHCIDeviceInterruptHandler
      | EnvTimer n => DWHCIDeviceTimerHandler n
      end
  end.

(** [while (pThis->m_bWaiting) { }]. *)
Fixpoint busy_wait (fuel : nat) : M W unit :=
  match fuel with
  | O => fail OutOfFuel
  | S fuel =>
      b ← host_get m_bWaiting;
      if b : bool then env_next ;; busy_wait fuel else mret tt
  end.

Definition DWHCIDeviceTransferStage (pURB : Z) (bIn bStatusStage : bool) : M W bool :=
  c_assert (negb (pURB =? 0)) ;;
  urb ← urb_at pURB;
  urb ← USBRequestSetCompletionRoutine urb DWHCIDeviceCompletionRoutine_ 0 0;
  urb_set pURB urb ;;
  b ← host_get m_bWaiting;
  c_assert (negb b) ;;
  host_modify (λ d, d <| m_bWaiting := true |>) ;;
  ok ← DWHCIDeviceTransferStageAsync pURB bIn bStatusStage;
  if negb ok then
    host_modify (λ d, d <| m_bWaiting := false |>) ;;
    mret false
  else
    env ← gets w_env;
    busy_wait (S (length env)) ;;
    urb ← urb_at pURB;
    mret (truthy (USBRequestGetStatus urb)).

(** [||] of two stages that must both succeed. *)
Definition and_then (m k : M W bool) : M W bool := ok ← m; if ok : bool then k else mret false.

Definition DWHCIDeviceSubmitBlockingRequest (pURB : Z) : M W bool :=
  DataMemBarrier ;;
  c_assert (negb (pURB =? 0)) ;;
  urb_modify pURB (λ u, USBRequestSetStatus u 0) ;;
  urb ← urb_at pURB;
  pE ← USBRequestGetEndpoint urb;
  e ← endpoint_at pE;
  ok ← (if bool_decide (USBEndpointGetType e = EndpointTypeControl) then
          '(_, setup) ← USBRequestGetSetupData urb;
          if truthy (Z.land (bmRequestType setup) REQUEST_IN) then
            c_assert (0 <? USBRequestGetBufLen urb) ;;
            and_then (DWHCIDeviceTransferStage pURB false false)
              (and_then (DWHCIDeviceTransferStage pURB true false)
                        (DWHCIDeviceTransferStage pURB false true))
          else if USBRequestGetBufLen urb =? 0 then
            and_then (DWHCIDeviceTransferStage pURB false false)
                     (DWHCIDeviceTransferStage pURB true true)
          else
            and_then (DWHCIDeviceTransferStage pURB false false)
              (and_then (DWHCIDeviceTransferStage pURB false false)
                        (DWHCIDeviceTransferStage pURB true true))
        else
          c_assert (bool_decide (USBEndpointGetType e = EndpointTypeBulk)
                    || bool_decide (USBEndpointGetType e = EndpointTypeInterrupt)) ;;
          c_assert (0 <? USBRequestGetBufLen urb) ;;
          DWHCIDeviceTransferStage pURB (USBEndpointIsDirectionIn e) false);
  if negb ok then mret false else DataMemBarrier ;; mret true.

Definition DWHCIDeviceSubmitAsyncRequest (pURB : Z) : M W bool :=
  DataMemBarrier ;;
  c_assert (negb (pURB =? 0)) ;;
  urb ← urb_at pURB;
  pE ← USBRequestGetEndpoint urb;
  e ← endpoint_at pE;
  c_assert (bool_decide (USBEndpointGetType e = EndpointTypeBulk)
            || bool_decide (USBEndpointGetType e = EndpointTypeInterrupt)) ;;
  c_assert (0 <? USBRequestGetBufLen urb) ;;
  urb_modify pURB (λ u, USBRequestSetStatus u 0) ;;
  bOK ← DWHCIDeviceTransferStageAsync pURB (USBEndpointIsDirectionIn e) false;
  DataMemBarrier ;;
  mret bOK.

(** A request object on the stack: a key not in use, freed at the end. *)
Definition new_urb_ptr (u : Usb) : Z := fresh_key (urbs u).
Definition urb_new (urb : TUSBRequest) : M W Z :=
  u ← gets usb_get;
  let p := new_urb_ptr u in
  urb_set p urb ;; mret p.
Definition urb_free (p : Z) : M W unit :=
  modify (λ w, usb_put ((usb_get w) <| urbs := delete p (urbs (usb_get w)) |>) w).

Definition submit_local (urb : TUSBRequest) : M W Z :=
  p ← urb_new urb;
  ok ← DWHCIDeviceSubmitBlockingRequest p;
  nResult ← (if ok : bool then
               urb ← urb_at p; r ← USBRequestGetResultLength urb; mret (s32 r)
             else mret (-1));
  urb_modify p _USBRequest ;;
  urb_free p ;;
  mret nResult.

Definition DWHCIDeviceControlMessage (pEndpoint ucRequestType ucRequest usValue usIndex pData
    usDataSize : Z) : M W Z :=
  let SetupData := {| bmRequestType := ucRequestType; bRequest := ucRequest; wValue := usValue;
                      wIndex := usIndex; wLength := usDataSize |} in
  URB ← USBRequest pEndpoint pData usDataSize (Some (setup_buffer, SetupData));
  submit_local URB.

Definition DWHCIDeviceTransfer (pEndpoint pBuffer nBufSize : Z) : M W Z :=
  URB ← USBRequest pEndpoint pBuffer nBufSize None;
  submit_local URB.

Definition DWHCIDeviceGetDescriptor (pEndpoint ucType ucIndex pBuffer nBufSize ucRequestType : Z)
    : M W Z :=
  DWHCIDeviceControlMessage pEndpoint ucRequestType GET_DESCRIPTOR
    (u16 (Z.lor (Z.shiftl ucType 8) ucIndex)) 0 pBuffer (u16 nBufSize).

Definition DWHCIDeviceSetAddress (pEndpoint ucDeviceAddress : Z) : M W bool :=
  r ← DWHCIDeviceControlMessage pEndpoint REQUEST_OUT SET_ADDRESS ucDeviceAddress 0 0 0;
  if r <? 0 then mret false else MsDelay 50 ;; mret true.

Definition DWHCIDeviceSetConfiguration (pEndpoint ucConfigurationValue : Z) : M W bool :=
  r ← DWHCIDeviceControlMessage pEndpoint REQUEST_OUT SET_CONFIGURATION ucConfigurationValue 0 0 0;
  if r <? 0 then mret false else MsDelay 50 ;; mret true.
End Xfer.

(** ** Properties: starting a channel *)

Definition is_read (e : event) : Prop := ∃ a v, e = EvRead a v.

(** What the stage data of a channel refers to. *)
Record stage_ok (w : W) (n : Z) (sd : TDWHCITransferStageData) (e : TUSBEndpoint) (d : TUSBDevice)
  : Prop := {
  so_stage : m_StageData (w_host w) !! Z.to_nat n = Some sd;
  so_channel : m_nChannel sd = n;
  so_range : 0 <= n < m_nChannels (w_host w);
  so_ep : endpoints (w_usb w) !! sd_pEndpoint sd = Some e;
  so_dev : devices (w_usb w) !! sd_pDevice sd = Some d;
  so_type : m_Type e ≠ EndpointTypeIsochronous;
  so_status : m_bStatusStage sd = true → m_Type e = EndpointTypeControl;
  so_ptr : m_pBufferPointer sd ≠ 0;
  so_bytes : 0 <= m_nBytesPerTransaction sd < 2 ^ 31
}.

Section StartProps.
Context `{HW : Hardware} `{LA : Layout}.
Context (spin : nat).

(** The frame scheduler of a channel finds its frame. *)
Definition frame_found (sd : TDWHCITransferStageData) : Prop :=
  ∀ p, DWHCITransferStageDataGetFrameScheduler sd = Some p →
  ∀ w, wp (WaitForFrame spin p) (λ _ w', ∃ new,
         Forall is_read new ∧ w' = w <| w_trace := new ++ w_trace w |>) w.

Lemma wp_start_size n sd e (Q : unit → W → Prop) w :
  endpoints (w_usb w) !! sd_pEndpoint sd = Some e →
  (m_bStatusStage sd = true → m_Type e = EndpointTypeControl) →
  Q tt (record (EvWrite (DWHCI_HOST_CHAN_XFER_SIZ n) (xfer_value sd e)) w) →
  wp (start_size n sd) Q w.
Proof.
  intros He Hst HQ. unfold start_size, DWHCITransferStageDataGetPID, USBEndpointGetNextPID.
  repeat usb_step. unfold pid_code in HQ. unfold xfer_value, pid_code in HQ.
  destruct (m_bStatusStage sd).
  - rewrite Hst by done. repeat usb_step. exact HQ.
  - repeat usb_step. destruct (m_NextPID e); repeat usb_step; exact HQ.
Qed.

Lemma wp_start_dma n sd (Q : unit → W → Prop) w :
  m_pBufferPointer sd ≠ 0 → 0 <= m_nBytesPerTransaction sd < 2 ^ 31 →
  (∀ new, Forall cache_event new →
     Q tt (w <| w_trace := new ++ EvWrite (DWHCI_HOST_CHAN_DMA_ADDR n)
                                    (u32 (BUS_ADDRESS (u32 (m_pBufferPointer sd)))) :: w_trace w |>)) →
  wp (start_dma n sd) Q w.
Proof.
  intros Hp Hb HQ. unfold start_dma, DWHCITransferStageDataGetDMAAddress.
  repeat usb_step. pose proof (u32_range (m_pBufferPointer sd)) as [Hr1 Hr2].
  apply wp_clean_range; [done|apply Hb|unfold DWHCITransferStageDataGetBytesToTransfer; lia|].
  intros new Hnew. repeat usb_step. apply (HQ (EvBarrier :: new)).
  constructor; [by right|done].
Qed.

Lemma wp_start_split n sd d (Q : unit → W → Prop) w :
  devices (w_usb w) !! sd_pDevice sd = Some d →
  Q tt (record (EvWrite (DWHCI_HOST_CHAN_SPLIT_CTRL n) (split_value sd d)) w) →
  wp (start_split n sd) Q w.
Proof.
  intros Hd HQ. unfold start_split, DWHCITransferStageDataIsSplit,
    DWHCITransferStageDataGetHubPortAddress, DWHCITransferStageDataGetHubAddress,
    DWHCITransferStageDataIsSplitComplete. unfold split_value in HQ.
  destruct (m_bSplitTransaction sd); repeat usb_step; [|exact HQ].
  destruct (m_bSplitComplete sd); repeat usb_step; exact HQ.
Qed.

Lemma wp_start_character n sd e d (Q : TDWHCIRegister → W → Prop) w :
  endpoints (w_usb w) !! sd_pEndpoint sd = Some e →
  devices (w_usb w) !! sd_pDevice sd = Some d → m_Type e ≠ EndpointTypeIsochronous →
  (let v := u32 (hw_read (w_trace w) (DWHCI_HOST_CHAN_CHARACTER n)) in
   Q {| m_bValid := true; m_nAddress := DWHCI_HOST_CHAN_CHARACTER n;
        m_nBuffer := character_value v sd e d |}
     (record (EvRead (DWHCI_HOST_CHAN_CHARACTER n) v) w)) →
  wp (start_character n sd) Q w.
Proof.
  intros He Hd Ht HQ. unfold start_character, DWHCITransferStageDataGetDeviceAddress,
    DWHCITransferStageDataGetEndpointType, DWHCITransferStageDataGetEndpointNumber,
    DWHCITransferStageDataIsDirectionIn, DWHCITransferStageDataGetSpeed, USBEndpointGetType.
  unfold character_value, rmw_flag, rmw_and, type_code in HQ.
  revert HQ. destruct (m_bIn sd), (bool_decide (sd_Speed sd = USBSpeedLow)), (m_Type e) eqn:Et; try done.
  all: intros HQ; repeat (usb_step; cbn [upd m_bValid m_nAddress m_nBuffer]); rewrite Et;
    repeat (usb_step; cbn [upd m_bValid m_nAddress m_nBuffer]); exact HQ.
Qed.

Lemma W_eq w1 w2 :
  w_trace w1 = w_trace w2 → w_cpu w1 = w_cpu w2 → w_usb w1 = w_usb w2 →
  w_host w1 = w_host w2 → w_env w1 = w_env w2 → w1 = w2.
Proof. destruct w1, w2. simpl. by intros -> -> -> -> ->. Qed.

(** The device object with the stage data of channel [n] replaced. *)
Definition with_stage (n : Z) (sd : TDWHCITransferStageData) (w : W) : W :=
  w <| w_host := (w_host w) <| m_StageData := <[Z.to_nat n := sd]> (m_StageData (w_host w)) |> |>.

Lemma with_stage_lookup n sd sd0 w :
  m_StageData (w_host w) !! Z.to_nat n = Some sd0 →
  m_StageData (w_host (with_stage n sd w)) !! Z.to_nat n = Some sd.
Proof. intros H. simpl. apply list_lookup_insert_eq. by eapply lookup_lt_Some. Qed.

Lemma with_stage_twice n sd1 sd2 w :
  with_stage n sd2 (with_stage n sd1 w) = with_stage n sd2 w.
Proof. unfold with_stage, upd. simpl. by rewrite list_insert_insert_eq. Qed.

Lemma with_stage_id n sd w :
  m_StageData (w_host w) !! Z.to_nat n = Some sd → with_stage n sd w = w.
Proof.
  intros H. unfold with_stage, upd. simpl. rewrite list_insert_id by done.
  by destruct w as [? ? ? [] ?].
Qed.

Lemma wp_stage_modify n f sd (Q : unit → W → Prop) w :
  0 <= n → m_StageData (w_host w) !! Z.to_nat n = Some sd → Q tt (with_stage n (f sd) w) →
  wp (stage_modify n f) Q w.
Proof.
  intros Hn Hsd HQ. unfold stage_modify. wp_step. eapply wp_stage_at; [done..|].
  by apply wp_stage_set.
Qed.

Lemma wp_with_scheduler {A} n (f : TDWHCIFrameScheduler → M W (A * TDWHCIFrameScheduler)) sd p
    (Q : A → W → Prop) w :
  0 <= n → m_StageData (w_host w) !! Z.to_nat n = Some sd →
  DWHCITransferStageDataGetFrameScheduler sd = Some p →
  wp (f p) (λ ap w', m_StageData (w_host w') !! Z.to_nat n = Some sd ∧
    Q ap.1 (with_stage n (sd <| m_FrameScheduler := ap.2 |>) w')) w →
  wp (with_scheduler n f) Q w.
Proof.
  intros Hn Hsd Hp Hf. unfold with_scheduler. wp_step. eapply wp_stage_at; [done..|].
  rewrite Hp. wp_step. eapply wp_mono; [exact Hf|]. intros [a p'] w' [Hsd' HQ].
  wp_step. eapply wp_stage_at; [done..|]. wp_step. apply wp_stage_set. by wp_step.
Qed.

Lemma wp_start_frame n r sd (Q : TDWHCIRegister → W → Prop) w :
  0 <= n → m_StageData (w_host w) !! Z.to_nat n = Some sd → frame_found sd →
  m_bValid r = true →
  (∀ new fs odd, Forall is_read new →
     Q (r <| m_nBuffer := match DWHCITransferStageDataGetFrameScheduler sd with
                          | Some _ => rmw_flag odd (m_nBuffer r) (Z.shiftl 1 29)
                          | None => m_nBuffer r
                          end |>)
       (with_stage n (sd <| m_FrameScheduler := fs |>) (w <| w_trace := new ++ w_trace w |>))) →
  wp (start_frame spin n r) Q w.
Proof.
  intros Hn Hsd Hff Hv HQ. unfold start_frame. wp_step. eapply wp_stage_at; [done..|].
  destruct (DWHCITransferStageDataGetFrameScheduler sd) as [p|] eqn:Ep.
  - wp_step. eapply wp_with_scheduler; [done..|]. wp_step.
    eapply wp_mono; [by apply Hff|]. intros p' w' (new & Hnew & ->). wp_step. simpl.
    split; [done|]. unfold rmw_flag, rmw_and in HQ.
    destruct (IsOddFrame p') eqn:Eo.
    + apply wp_RegOr; [done|]. apply (HQ new p' true Hnew).
    + apply wp_RegAnd; [done|]. apply (HQ new p' false Hnew).
  - wp_step. specialize (HQ [] (m_FrameScheduler sd) true (Forall_nil_2 _)).
    rewrite with_stage_id in HQ; [|by destruct sd].
    destruct r, w. exact HQ.
Qed.

(** The interrupts a channel reports. *)
Definition status_mask (sd : TDWHCITransferStageData) (e : TUSBEndpoint) : Z :=
  let nMask := Z.lor DWHCI_HOST_CHAN_INT_XFER_COMPLETE
              (Z.lor DWHCI_HOST_CHAN_INT_HALTED DWHCI_HOST_CHAN_INT_ERROR_MASK) in
  if m_bSplitTransaction sd || is_periodic e
  then Z.lor nMask (Z.lor DWHCI_HOST_CHAN_INT_ACK
                   (Z.lor DWHCI_HOST_CHAN_INT_NAK DWHCI_HOST_CHAN_INT_NYET))
  else nMask.

Lemma wp_StatusMask sd e (Q : Z → W → Prop) w :
  endpoints (w_usb w) !! sd_pEndpoint sd = Some e → Q (status_mask sd e) w →
  wp (DWHCITransferStageDataGetStatusMask sd) Q w.
Proof.
  intros He HQ. unfold DWHCITransferStageDataGetStatusMask. unfold status_mask in HQ.
  destruct (m_bSplitTransaction sd); simpl in HQ.
  - by do 3 wp_step.
  - wp_step. eapply wp_IsPeriodic; [done|]. by wp_step.
Qed.

(** The history [h] after starting a channel, newest first. *)
Definition start_history (n : Z) (sd : TDWHCITransferStageData) (e : TUSBEndpoint)
    (d : TUSBDevice) (odd : bool) (v : Z) (reads_ cache h : list event) : list event :=
  let c := character_value v sd e d in
  let c := match DWHCITransferStageDataGetFrameScheduler sd with
           | Some _ => rmw_flag odd c (Z.shiftl 1 29) | None => c end in
  EvWrite (DWHCI_HOST_CHAN_CHARACTER n)
    (rmw_and (Z.lor c (u32 (Z.shiftl 1 31))) (Z.shiftl 1 30)) ::
  EvWrite (DWHCI_HOST_CHAN_INT_MASK n) (u32 (status_mask sd e)) :: reads_ ++
  EvRead (DWHCI_HOST_CHAN_CHARACTER n) v ::
  EvWrite (DWHCI_HOST_CHAN_SPLIT_CTRL n) (split_value sd d) :: cache ++
  EvWrite (DWHCI_HOST_CHAN_DMA_ADDR n) (u32 (BUS_ADDRESS (u32 (m_pBufferPointer sd)))) ::
  EvWrite (DWHCI_HOST_CHAN_XFER_SIZ n) (xfer_value sd e) ::
  EvWrite (DWHCI_HOST_CHAN_INT n) 0xFFFFFFFF :: h.

Lemma wp_StartChannel n sd e d (Q : unit → W → Prop) w :
  stage_ok w n sd e d → frame_found sd →
  (∀ fs odd v reads_ cache, Forall is_read reads_ → Forall cache_event cache → is_u32 v →
     Q tt (with_stage n
             (sd <| m_nSubState := StageSubStateWaitForTransactionComplete |>
                 <| m_FrameScheduler := fs |>)
             (w <| w_trace := start_history n sd e d odd v reads_ cache (w_trace w) |>))) →
  wp (DWHCIDeviceStartChannel spin n) Q w.
Proof.
  intros [Hsd Hch Hr He Hd Hty Hst Hp Hb] Hff HQ. unfold DWHCIDeviceStartChannel.
  wp_step. eapply wp_stage_at; [lia|done|]. unfold DWHCITransferStageDataGetChannelNumber.
  rewrite Hch. cbv zeta. unfold host_get at 1. wp_step. wp_step. wp_step. wp_step.
  wp_step. eapply wp_stage_modify; [lia|done|]. set (sd1 := DWHCITransferStageDataSetSubState sd _).
  wp_step. eapply wp_stage_at; [lia|by eapply with_stage_lookup|].
  wp_step. reg_step. wp_step. eapply (wp_start_size n sd1 e); [done..|].
  wp_step. apply wp_start_dma; [done..|]. intros cache Hcache.
  wp_step. eapply (wp_start_split n sd1 d); [done|].
  wp_step. eapply (wp_start_character n sd1 e d); [done..|].
  match goal with |- context [u32 (hw_read ?h ?a)] =>
    pose proof (u32_range (hw_read h a)) as Hv; set (v := u32 (hw_read h a)) in * end.
  cbv zeta. wp_step. eapply (wp_start_frame n _ sd1); [lia|by eapply with_stage_lookup|done|done|].
  intros reads_ fs odd Hreads.
  wp_step. eapply (wp_StatusMask sd1 e); [done|]. wp_step. reg_step. wp_step. reg_step.
  wp_step. reg_step. reg_step.
  specialize (HQ fs odd v reads_ cache Hreads Hcache Hv).
  clearbody v.
  match goal with |- Q tt ?G =>
    match type of HQ with Q tt ?G' => replace G with G'; [exact HQ|] end end.
  clear HQ. apply W_eq; try reflexivity.
  transitivity ((w_host w) <| m_StageData := <[Z.to_nat n := sd1 <| m_FrameScheduler := fs |>]>
    (<[Z.to_nat n := sd1]> (m_StageData (w_host w))) |>); [|reflexivity].
  by rewrite list_insert_insert_eq.
Qed.

(** No event of the list writes register [a]. *)
Definition unwritten (a : Z) (l : list event) : Prop := ∀ v, EvWrite a v ∉ l.

Lemma unwritten_app a l1 l2 : unwritten a l1 → unwritten a l2 → unwritten a (l1 ++ l2).
Proof. unfold unwritten. intros H1 H2 v. rewrite elem_of_app. naive_solver. Qed.
Lemma unwritten_cons a ev l : (∀ v, ev ≠ EvWrite a v) → unwritten a l → unwritten a (ev :: l).
Proof. unfold unwritten. intros H1 H2 v. rewrite elem_of_cons. naive_solver. Qed.
Lemma unwritten_nil a : unwritten a [].
Proof. intros v. apply not_elem_of_nil. Qed.
Lemma unwritten_reads a l : Forall is_read l → unwritten a l.
Proof. intros H v Hv. rewrite list.Forall_forall in H. by destruct (H _ Hv) as (? & ? & ?). Qed.
Lemma unwritten_cache a l : Forall cache_event l → unwritten a l.
Proof. intros H v Hv. rewrite list.Forall_forall in H. by destruct (H _ Hv) as [[? ?]|]. Qed.

(** C7. Starting a channel programs the controller with the transaction the stage
    data describes. The character register is written once, last, with the
    enable bit, after the other registers of the channel are set, and every
    field reads back: bytes (19 bits), packets (10 bits), pid, DMA bus
    address, packet size (11 bits), endpoint number, the direction bit (set for
    an IN stage), the low-speed bit, type, one transaction per frame, device
    address, and for a split transaction hub, port and phase. *)
Theorem start_channel_registers n sd e d w :
  stage_ok w n sd e d → frame_found sd → 0 <= m_nPacketsPerTransaction sd →
  0 <= m_ucAddress d < 2 ^ 7 → 0 <= m_ucNumber e < 2 ^ 4 →
  0 <= m_ucHubAddress d < 2 ^ 7 → 0 <= m_ucHubPortNumber d < 2 ^ 7 →
  wp (DWHCIDeviceStartChannel spin n) (λ _ w', ∃ c x s new,
    w_trace w' = EvWrite (DWHCI_HOST_CHAN_CHARACTER n) c :: new ++ w_trace w ∧
    unwritten (DWHCI_HOST_CHAN_CHARACTER n) new ∧
    EvWrite (DWHCI_HOST_CHAN_XFER_SIZ n) x ∈ new ∧ EvWrite (DWHCI_HOST_CHAN_SPLIT_CTRL n) s ∈ new ∧
    EvWrite (DWHCI_HOST_CHAN_DMA_ADDR n) (u32 (BUS_ADDRESS (u32 (m_pBufferPointer sd)))) ∈ new ∧
    EvWrite (DWHCI_HOST_CHAN_INT n) 0xFFFFFFFF ∈ new ∧
    (field 0 19 x = m_nBytesPerTransaction sd mod 2 ^ 19 ∧
     DWHCI_HOST_CHAN_XFER_SIZ_PACKETS x = m_nPacketsPerTransaction sd mod 2 ^ 10 ∧
     DWHCI_HOST_CHAN_XFER_SIZ_PID x = pid_code sd e) ∧
    (Z.testbit c 31 = true ∧ Z.testbit c 30 = false ∧
     field 0 11 c = sd_nMaxPacketSize sd mod 2 ^ 11 ∧ field 11 4 c = m_ucNumber e ∧
     Z.testbit c 15 = m_bIn sd ∧ (Z.testbit c 17 = true ↔ sd_Speed sd = USBSpeedLow) ∧
     field 18 2 c = type_code e ∧ field 20 2 c = 1 ∧ field 22 7 c = m_ucAddress d) ∧
    (if m_bSplitTransaction sd then
       field 0 7 s = m_ucHubPortNumber d ∧ field 7 7 s = m_ucHubAddress d ∧
       Z.testbit s 16 = m_bSplitComplete sd ∧ Z.testbit s 31 = true
     else s = 0)) w.
Proof.
  intros Hok Hff Hpk Ha Hnum Hhub Hport. eapply wp_StartChannel; [done..|].
  intros fs odd v reads_ cache Hreads Hcache Hv.
  set (framed := match DWHCITransferStageDataGetFrameScheduler sd with Some _ => true | None => false end).
  exists (enabled_character v sd e d odd framed), (xfer_value sd e), (split_value sd d).
  exists (EvWrite (DWHCI_HOST_CHAN_INT_MASK n) (u32 (status_mask sd e)) :: reads_ ++
    EvRead (DWHCI_HOST_CHAN_CHARACTER n) v ::
    EvWrite (DWHCI_HOST_CHAN_SPLIT_CTRL n) (split_value sd d) :: cache ++
    [EvWrite (DWHCI_HOST_CHAN_DMA_ADDR n) (u32 (BUS_ADDRESS (u32 (m_pBufferPointer sd))));
     EvWrite (DWHCI_HOST_CHAN_XFER_SIZ n) (xfer_value sd e);
     EvWrite (DWHCI_HOST_CHAN_INT n) 0xFFFFFFFF]).
  split.
  { simpl. unfold start_history, enabled_character. rewrite <- app_assoc. simpl.
    rewrite <- app_assoc. simpl. subst framed.
    by destruct (DWHCITransferStageDataGetFrameScheduler sd). }
  split.
  { repeat first [apply unwritten_nil | apply unwritten_app; [by apply unwritten_reads|]
      | apply unwritten_app; [by apply unwritten_cache|] | apply unwritten_cons].
    all: intros v' Heq; try discriminate Heq; injection Heq; unfold DWHCI_HOST_CHAN_INT_MASK, DWHCI_HOST_CHAN_CHARACTER,
      DWHCI_HOST_CHAN_SPLIT_CTRL, DWHCI_HOST_CHAN_DMA_ADDR, DWHCI_HOST_CHAN_XFER_SIZ,
      DWHCI_HOST_CHAN_INT; lia. }
  do 4 (split; [set_solver|]).
  split; [by apply xfer_decode|]. split.
  - destruct (enabled_bits v sd e d odd framed).
    destruct (character_fields v sd e d Ha Hnum) as (H1 & H2 & H3 & H4 & H5).
    destruct (character_flags v sd e d Ha Hnum) as [H6 H7].
    rewrite !enabled_fields, (enabled_bit _ _ _ _ _ _ 15), (enabled_bit _ _ _ _ _ _ 17), H6, H7,
      bool_decide_eq_true by lia. done.
  - destruct (m_bSplitTransaction sd) eqn:Es; [|unfold split_value; by rewrite Es].
    by destruct (split_decode sd d Hhub Hport Es) as (? & ? & _ & ? & ?).
Qed.
End StartProps.
