(* ===== verification/DwhciStage.v ===== *)
(** * A transfer stage from start to completion

    The host driver and a controller that answers: the stage is started, the
    interrupt arrives, the handler accounts for it, releases the channel and
    wakes the waiting caller. *)
From S2P Require Import Prelude Register Sync FrameSched Endpoint StageData HostState.
From S2P Require Import ChanRegs DwhciCore DwhciXfer.

(** The interrupt state survives a critical section. *)
Definition same_irq (c c' : Cpu) : Prop :=
  crit_ok c' ∧ irq_masked c' = irq_masked c ∧ s_nCriticalLevel c' = s_nCriticalLevel c.

Lemma same_irq_refl c : crit_ok c → same_irq c c.
Proof. done. Qed.
Lemma same_irq_exit c c' : same_irq c c' → same_irq c (crit_exit c').
Proof. unfold same_irq. intros (H1 & H2 & H3). split_and!; [by apply crit_exit_ok|done|done]. Qed.

(** ** The transactions in a history

    What the controller was told to do on a channel, read off the register
    writes: a transaction starts when the character register is written with
    the enable bit, and is what that value and the transfer size register, as
    last written, say. *)
Record transaction := {
  tr_pid : Z; tr_bytes : Z; tr_packets : Z; tr_in : bool; tr_endpoint : Z; tr_address : Z
}.

(** The last value written to the transfer size register of channel [n]. *)
Fixpoint last_size (n : Z) (h : list event) : Z :=
  match h with
  | [] => 0
  | EvWrite a v :: h => if a =? DWHCI_HOST_CHAN_XFER_SIZ n then v else last_size n h
  | _ :: h => last_size n h
  end.

Definition enables (n : Z) (ev : event) : option Z :=
  match ev with
  | EvWrite a v => if (a =? DWHCI_HOST_CHAN_CHARACTER n) && Z.testbit v 31 then Some v else None
  | _ => None
  end.

Definition read_transaction (siz c : Z) : transaction :=
  {| tr_pid := Z.land (Z.shiftr siz 29) 3; tr_bytes := siz mod 2 ^ 19;
     tr_packets := Z.land (Z.shiftr siz 19) 0x3FF; tr_in := Z.testbit c 15; tr_endpoint := field 11 4 c; tr_address := field 22 7 c |}.

(** The transactions of channel [n], newest first. *)
Fixpoint transactions (n : Z) (h : list event) : list transaction :=
  match h with
  | [] => []
  | ev :: h =>
      match enables n ev with
      | Some c => read_transaction (last_size n h) c :: transactions n h
      | None => transactions n h
      end
  end.

(** The kernel timers started for channel [n], newest first, by their delays. *)
Definition timer_of (n : Z) (ev : event) : option Z :=
  match ev with EvStartTimer d c => if c =? n then Some d else None | _ => None end.
Definition timers (n : Z) (h : list event) : list Z := omap (timer_of n) h.

(** Events that start nothing, and that do not write the size register. *)
Definition silent (n : Z) (l : list event) : Prop :=
  Forall (λ ev, enables n ev = None ∧ timer_of n ev = None) l.
Definition same_channel (n : Z) (h h' : list event) : Prop :=
  transactions n h' = transactions n h ∧ timers n h' = timers n h.
Definition unsized (n : Z) (l : list event) : Prop := Forall (λ ev, ∀ v, ev ≠ EvWrite (DWHCI_HOST_CHAN_XFER_SIZ n) v) l.

Lemma silent_same n l h : silent n l → same_channel n h (l ++ h).
Proof.
  induction 1 as [|ev l [H1 H2] _ [IH1 IH2]]; [done|]. split; [simpl; by rewrite H1|].
  unfold timers in *. simpl. by rewrite H2.
Qed.
Lemma transactions_silent n l h : silent n l → transactions n (l ++ h) = transactions n h.
Proof. intros H. by apply silent_same. Qed.
Lemma same_channel_trans n h1 h2 h3 : same_channel n h1 h2 → same_channel n h2 h3 → same_channel n h1 h3.
Proof. intros [? ?] [? ?]. split; congruence. Qed.

Lemma last_size_unsized n l h : unsized n l → last_size n (l ++ h) = last_size n h.
Proof.
  induction 1 as [|ev l Hev _ IH]; [done|]. destruct ev as [| a v | | | | | | |]; simpl; try done.
  destruct (Z.eqb_spec a (DWHCI_HOST_CHAN_XFER_SIZ n)) as [->|]; [|done]. by destruct (Hev v).
Qed.

Lemma enables_other n a v : a ≠ DWHCI_HOST_CHAN_CHARACTER n → enables n (EvWrite a v) = None.
Proof. intros H. simpl. by rewrite (proj2 (Z.eqb_neq _ _) H). Qed.

Lemma silent_reads n l : Forall is_read l → silent n l ∧ unsized n l.
Proof. intros H. split; (eapply list.Forall_impl; [exact H|]); by intros ? (? & ? & ->). Qed.
Lemma silent_cache n l : Forall cache_event l → silent n l ∧ unsized n l.
Proof. intros H. split; (eapply list.Forall_impl; [exact H|]); by intros ? [[? ->]| ->]. Qed.

(** Concrete histories: no write of a list goes to the register. *)
Ltac other_register :=
  try (by constructor); try (split; [apply enables_other|done]); try apply enables_other; try (intros ? [=]); cbn [m_nAddress DWHCIRegister DWHCIRegister2];
  unfold DWHCI_CORE_INT_STAT, DWHCI_HOST_ALLCHAN_INT, DWHCI_HOST_ALLCHAN_INT_MASK, DWHCI_HOST_CHAN_CHARACTER, DWHCI_HOST_CHAN_INT,
    DWHCI_HOST_CHAN_INT_MASK, DWHCI_HOST_CHAN_XFER_SIZ, DWHCI_HOST_CHAN_SPLIT_CTRL, DWHCI_HOST_CHAN_DMA_ADDR,
    ARM_USB_CORE_BASE, ARM_USB_HOST_BASE in *;
  lia.
Ltac other_registers :=
  unfold silent, unsized; repeat (constructor; [other_register|]); other_register.

(** A controller whose answer to a transaction of channel [n], the status [st]
    and the transfer size register [siz], is determined by the transactions it
    was given, and that raises the interrupt of that channel only. *)
Record hw_answers `{HW : Hardware} (n : Z) (st siz : list transaction → Z) : Prop := {
  ha_idle h : Z.testbit (u32 (hw_read h (DWHCI_HOST_CHAN_CHARACTER n))) 31 = false;
  ha_intr h : Z.testbit (u32 (hw_read h DWHCI_CORE_INT_STAT)) 25 = true;
  ha_all h i : 0 <= i < 16 → Z.testbit (u32 (hw_read h DWHCI_HOST_ALLCHAN_INT)) i = (i =? n);
  ha_status h : u32 (hw_read h (DWHCI_HOST_CHAN_INT n)) = st (transactions n h);
  ha_size h : u32 (hw_read h (DWHCI_HOST_CHAN_XFER_SIZ n)) = siz (transactions n h)
}.

(** The transaction that moves the data of a stage: its pid, its size as far as
    the register's fields go, its direction, and where it goes. *)
Definition moves (x : transaction) (pid : Z) (bIn : bool) (nBytes nPackets : Z) (e : TUSBEndpoint)
    (d : TUSBDevice) : Prop :=
  tr_pid x = pid ∧ tr_bytes x = nBytes mod 2 ^ 19 ∧ tr_packets x = nPackets mod 2 ^ 10 ∧
  (0 <= m_ucNumber e < 16 → 0 <= m_ucAddress d < 128 →
   tr_in x = bIn ∧ tr_endpoint x = m_ucNumber e ∧ tr_address x = m_ucAddress d).

(** What starting a channel adds to the history is one transaction. *)
Lemma start_history_transaction n sd e d odd v reads_ cache h :
  0 <= n → 0 <= m_nPacketsPerTransaction sd → Forall is_read reads_ → Forall cache_event cache →
  ∃ x, transactions n (start_history n sd e d odd v reads_ cache h) = x :: transactions n h ∧
    timers n (start_history n sd e d odd v reads_ cache h) = timers n h ∧
    moves x (pid_code sd e) (m_bIn sd) (m_nBytesPerTransaction sd) (m_nPacketsPerTransaction sd) e d.
Proof.
  intros Hn Hp Hreads Hcache.
  set (framed := match DWHCITransferStageDataGetFrameScheduler sd with Some _ => true | None => false end).
  set (c := enabled_character v sd e d odd framed).
  set (new := EvWrite (DWHCI_HOST_CHAN_INT_MASK n) (u32 (status_mask sd e)) :: reads_ ++
    EvRead (DWHCI_HOST_CHAN_CHARACTER n) v ::
    EvWrite (DWHCI_HOST_CHAN_SPLIT_CTRL n) (split_value sd d) :: cache ++
    [EvWrite (DWHCI_HOST_CHAN_DMA_ADDR n) (u32 (BUS_ADDRESS (u32 (m_pBufferPointer sd))))]).
  set (h0 := EvWrite (DWHCI_HOST_CHAN_XFER_SIZ n) (xfer_value sd e) ::
    EvWrite (DWHCI_HOST_CHAN_INT n) 0xFFFFFFFF :: h).
  assert (start_history n sd e d odd v reads_ cache h = EvWrite (DWHCI_HOST_CHAN_CHARACTER n) c :: new ++ h0) as ->.
  { unfold start_history, c, enabled_character, framed, new, h0. simpl. rewrite <- app_assoc. simpl.
    rewrite <- app_assoc. simpl. by destruct (DWHCITransferStageDataGetFrameScheduler sd). }
  destruct (silent_reads n _ Hreads) as [R1 R2], (silent_cache n _ Hcache) as [C1 C2].
  assert (silent n new ∧ unsized n new) as [N1 N2].
  { unfold new. split.
    all: constructor; [|apply Forall_app; split; [done|constructor; [done|]]].
    2,4: constructor; [|apply Forall_app; split; [done|]].
    all: other_registers. }
  destruct (enabled_bits v sd e d odd framed) as [He _].
  exists (read_transaction (xfer_value sd e) c). split.
  - cbn [transactions enables]. rewrite Z.eqb_refl. unfold c at 1. rewrite He. cbn [andb].
    rewrite last_size_unsized, transactions_silent by done. f_equal.
    + unfold h0. simpl. by rewrite Z.eqb_refl.
    + unfold h0. cbn [transactions]. rewrite !enables_other; [done|other_registers..].
  - split; [exact (proj2 (silent_same n new h0 N1))|]. destruct (xfer_decode sd e Hp) as (X1 & X2 & X3). split; [exact X3|]. split.
    { simpl. rewrite <- X1. unfold field. rewrite Z.shiftr_0_r, Z.land_ones by lia. done. }
    split; [exact X2|]. intros Hnum Haddr. destruct (character_fields v sd e d) as (_ & F2 & _ & _ & F5); [done|done|].
    destruct (character_flags v sd e d) as [F6 _]; [done|done|].
    unfold c, read_transaction. cbn [tr_in tr_endpoint tr_address].
    rewrite enabled_bit, !enabled_fields by lia. done.
Qed.

Lemma packet_count size m k : 0 < m → size <= k * m < size + m → k = (size + m - 1) / m.
Proof. intros Hm Hk. apply (Z.div_unique_pos _ _ _ (size + m - 1 - k * m)); nia. Qed.

Lemma idle_host_restored n w :
  channels_wf (w_host w) → length (m_StageData (w_host w)) = 16%nat →
  free_channel (w_host w) = Some n →
  let h := (w_host w) <| m_nChannelAllocated :=
              Z.lor (m_nChannelAllocated (w_host w)) (Z.shiftl 1 n) |> in
  0 <= n < m_nChannels (w_host w) ∧ channels_wf h ∧ allocated h n = true ∧
  Z.land (m_nChannelAllocated h) (not32 (Z.shiftl 1 n)) = m_nChannelAllocated (w_host w).
Proof.
  intros [Hn Ha] Hlen Hfree h. unfold free_channel in Hfree.
  pose proof (lowest_free_spec (w_host w) (Z.to_nat (m_nChannels (w_host w))) 0) as Hs.
  rewrite Hfree in Hs. destruct Hs as (Hr & Hf & _). unfold allocated in *.
  split_and!; [lia|lia|split; [done|]; apply lor_bit_bound; simpl; lia| |].
  - simpl. rewrite Z.lor_spec, Z.shiftl_spec, Z.sub_diag by lia. apply orb_true_r.
  - apply (mark_unmark _ _ (m_nChannels (w_host w))); [lia|lia|done|done].
Qed.

Section Stage.
Context `{HW : Hardware} `{LA : Layout} `{!LayoutLaws}.
Context (spin : nat) (client : Z → Z → Z → Z → M W unit).

(** The driver at rest or inside a transfer. *)
Record host_ok (w : W) : Prop := {
  ho_crit : crit_ok (w_cpu w);
  ho_channels : channels_wf (w_host w);
  ho_stages : length (m_StageData (w_host w)) = 16%nat
}.

Lemma wp_EnableChannelInterrupt n (Q : unit → W → Prop) w :
  0 <= n → crit_ok (w_cpu w) →
  (∀ new, silent n new → Q tt (w <| w_trace := new ++ w_trace w |> <| w_cpu := crit_exit (w_cpu w) |>)) →
  wp (DWHCIDeviceEnableChannelInterrupt n) Q w.
Proof.
  intros Hn Hc HQ. unfold DWHCIDeviceEnableChannelInterrupt.
  wp_step. apply wp_W_enter. any_steps v Hv. apply (wp_W_leave (w_cpu w)); [done|done|].
  eapply (HQ [_; _; _; _]). other_registers.
Qed.

Lemma wp_DisableChannelInterrupt n (Q : unit → W → Prop) w :
  0 <= n → crit_ok (w_cpu w) →
  (∀ new, silent n new → Q tt (w <| w_trace := new ++ w_trace w |> <| w_cpu := crit_exit (w_cpu w) |>)) →
  wp (DWHCIDeviceDisableChannelInterrupt n) Q w.
Proof.
  intros Hn Hc HQ. unfold DWHCIDeviceDisableChannelInterrupt.
  wp_step. apply wp_W_enter. any_steps v Hv. apply (wp_W_leave (w_cpu w)); [done|done|].
  eapply (HQ [_; _; _; _]). other_registers.
Qed.

(** With the channel idle, starting a transaction starts the channel: one
    transaction of the stage's pid and bytes is added to the history. *)
Lemma wp_StartTransaction n sd e d (Q : unit → W → Prop) w :
  (∀ h, Z.testbit (u32 (hw_read h (DWHCI_HOST_CHAN_CHARACTER n))) 31 = false) →
  stage_ok w n sd e d → frame_found spin sd → 0 <= m_nPacketsPerTransaction sd →
  (∀ fs t x, transactions n t = x :: transactions n (w_trace w) → timers n t = timers n (w_trace w) →
     moves x (pid_code sd e) (m_bIn sd) (m_nBytesPerTransaction sd) (m_nPacketsPerTransaction sd) e d →
     Q tt (with_stage n
      (sd <| m_nSubState := StageSubStateWaitForTransactionComplete |>
          <| m_FrameScheduler := fs |>) (w <| w_trace := t |>))) →
  wp (DWHCIDeviceStartTransaction spin n) Q w.
Proof.
  intros Hidle Hok Hff Hpk HQ. pose proof Hok as [Hsd Hch Hr _ _ _ _ _ _].
  unfold DWHCIDeviceStartTransaction.
  wp_step. eapply wp_stage_at; [lia|done|]. unfold DWHCITransferStageDataGetChannelNumber.
  rewrite Hch. cbv zeta. unfold host_get. wp_step. wp_step. wp_step.
  apply wp_assert; [apply Z.ltb_lt; lia|]. wp_step. apply wp_RegRead_any. intros v Hv.
  wp_step. reg_step. cbn [m_nBuffer m_nAddress DWHCIRegister]. unfold DWHCI_HOST_CHAN_CHARACTER_ENABLE.
  rewrite truthy_bit by lia. subst v. cbn [m_nAddress DWHCIRegister]. rewrite Hidle.
  apply (wp_StartChannel spin n sd e d); [split; apply Hok|done|].
  intros fs odd v reads_ cache Hreads Hcache _.
  match goal with |- context [start_history n sd e d odd v reads_ cache ?h] =>
    destruct (start_history_transaction n sd e d odd v reads_ cache h) as (x & Hx & Htm & Hm);
      [lia|done|done|done|] end.
  by apply (HQ fs _ x).
Qed.

(** A running stage: set up, waiting for its transaction. *)
Definition running (sd : TDWHCITransferStageData) (n pURB : Z) (bIn bStatus : bool)
    (urb : TUSBRequest) (e : TUSBEndpoint) (d : TUSBDevice) (p size : Z) : Prop :=
  fresh_stage sd n pURB bIn bStatus urb e d p size ∧
  m_nState sd = StageStateNoSplitTransfer ∧
  m_nSubState sd = StageSubStateWaitForTransactionComplete ∧
  m_bFrameSchedulerUsed sd = bool_decide (is_Some (scheduler_for e d)).

(** The pid a stage starts with, as the controller codes it. *)
Definition stage_pid (bStatus : bool) (e : TUSBEndpoint) : Z :=
  match (if bStatus then USBPIDData1 else m_NextPID e) with
  | USBPIDData0 => 0 | USBPIDData1 => 2 | USBPIDSetup => 3
  end.

Lemma wp_TransferStageAsync n pURB bIn bStatus urb e d p size (Q : bool → W → Prop) w :
  host_ok w → free_channel (w_host w) = Some n →
  request_ok (w_usb w) pURB urb e d → pid_ok urb e →
  stage_range n bStatus urb e = (p, size) → aligned p →
  0 <= size < 2 ^ 31 → 0 < m_nMaxPacketSize e < 65536 → needs_split d = false →
  m_Type e ≠ EndpointTypeIsochronous → (bStatus = true → m_Type e = EndpointTypeControl) →
  (∀ sd, DWHCITransferStageDataGetFrameScheduler sd = scheduler_for e d → frame_found spin sd) →
  (∀ h, Z.testbit (u32 (hw_read h (DWHCI_HOST_CHAN_CHARACTER n))) 31 = false) →
  (∀ sd t c x, running sd n pURB bIn bStatus urb e d p size → same_irq (w_cpu w) c →
     transactions n t = x :: transactions n (w_trace w) → timers n t = timers n (w_trace w) →
     moves x (stage_pid bStatus e) bIn (m_nBytesPerTransaction sd) (m_nPacketsPerTransaction sd) e d →
     Q true {| w_trace := t; w_cpu := c; w_usb := w_usb w; w_env := w_env w;
               w_host := (w_host w) <| m_nChannelAllocated :=
                             Z.lor (m_nChannelAllocated (w_host w)) (Z.shiftl 1 n) |>
                           <| m_StageData := <[Z.to_nat n := sd]> (m_StageData (w_host w)) |> |}) →
  wp (DWHCIDeviceTransferStageAsync spin pURB bIn bStatus) Q w.
Proof.
  intros [Hc Hwf Hlen] Hfree Hro Hpid Hrng Hal Hsz Hm Hns Hty Hst Hff Hidle HQ.
  assert (0 <= n < m_nChannels (w_host w) ∧ n < 16) as [Hn Hn16].
  { pose proof (lowest_free_spec (w_host w) (Z.to_nat (m_nChannels (w_host w))) 0) as Hs.
    unfold free_channel in Hfree. rewrite Hfree in Hs. destruct Hwf as [? _]. lia. }
  unfold DWHCIDeviceTransferStageAsync. wp_step.
  apply wp_assert; [apply negb_true_iff, Z.eqb_neq, Hro|].
  wp_step. apply wp_AllocateChannel; [done|done|]. rewrite Hfree.
  wp_step. apply wp_gets. cbn [after_crit w_host m_nChannels upd].
  rewrite (proj2 (Z.leb_gt _ n)) by (simpl; lia).
  destruct (lookup_lt_is_Some_2 (m_StageData (w_host w)) (Z.to_nat n)) as [sd0 Hsd0]; [lia|].
  wp_step. eapply wp_stage_at; [lia|exact Hsd0|].
  wp_step. eapply wp_fresh_stage; [exact Hro|done..|]. intros sd Hfresh Hsched.
  wp_step. apply wp_stage_set. wp_step. apply wp_EnableChannelInterrupt; [lia|apply Hc|]. intros new Hnew.
  unfold DWHCITransferStageDataIsSplit. rewrite (fs_split _ _ _ _ _ _ _ _ _ _ Hfresh), Hns.
  cbn [negb]. match goal with |- wp _ _ ?s => set (w1 := s) end.
  assert (m_StageData (w_host w1) !! Z.to_nat n = Some sd) as Hsd1.
  { simpl. apply list_lookup_insert_eq. lia. }
  wp_step. eapply wp_stage_modify; [lia|exact Hsd1|].
  set (sd1 := DWHCITransferStageDataSetState sd StageStateNoSplitTransfer).
  wp_step. apply (wp_StartTransaction n sd1 e d); [done| |by apply Hff| |].
  { pose proof Hfresh as []. destruct Hro. constructor; try done.
    - by eapply with_stage_lookup.
    - change (endpoints (w_usb w) !! sd_pEndpoint sd = Some e). by rewrite fs_endpoint.
    - change (devices (w_usb w) !! sd_pDevice sd = Some d). by rewrite fs_device.
    - change (m_bStatusStage sd = true → m_Type e = EndpointTypeControl). by rewrite fs_status.
    - change (m_pBufferPointer sd ≠ 0). rewrite fs_ptr. apply Hal.
    - change (0 <= m_nBytesPerTransaction sd < 2 ^ 31). by rewrite fs_bytes, Hns. }
  { change (0 <= m_nPacketsPerTransaction sd). destruct Hfresh. rewrite fs_ppt, Hns.
    destruct bStatus; [lia|nia]. }
  intros fs t x Hx Htm Hmv. wp_step.
  match goal with |- Q true ?G => replace G with {| w_trace := t;
    w_cpu := crit_exit (crit_exit (w_cpu w)); w_usb := w_usb w; w_env := w_env w;
    w_host := (w_host w) <| m_nChannelAllocated :=
                  Z.lor (m_nChannelAllocated (w_host w)) (Z.shiftl 1 n) |>
                <| m_StageData := <[Z.to_nat n := sd1
                     <| m_nSubState := StageSubStateWaitForTransactionComplete |>
                     <| m_FrameScheduler := fs |>]> (m_StageData (w_host w)) |> |} end.
  { eapply (HQ _ _ _ x); [|do 2 apply same_irq_exit; by apply same_irq_refl| | |].
    3: { rewrite Htm. exact (proj2 (silent_same n new (EvBarrier :: EvBarrier :: w_trace w) Hnew)). }
    2: { rewrite Hx. f_equal. exact (transactions_silent n new (EvBarrier :: EvBarrier :: w_trace w) Hnew). }
    2: { destruct Hfresh. unfold stage_pid. rewrite <- fs_in, <- fs_status. exact Hmv. }
    split; [destruct Hfresh; by constructor|]. split; [done|]. split; [done|].
    rewrite <- Hsched. unfold DWHCITransferStageDataGetFrameScheduler. simpl. by destruct (m_bFrameSchedulerUsed sd). }
  apply W_eq; try reflexivity. simpl. unfold upd. simpl. f_equal.
  by rewrite !list_insert_insert_eq.
Qed.

Lemma wp_urb_modify pURB f u (Q : unit → W → Prop) w :
  urbs (w_usb w) !! pURB = Some u →
  Q tt (w <| w_usb := upd_urb pURB (f u) (w_usb w) |>) → wp (urb_modify pURB f) Q w.
Proof.
  intros Hu HQ. unfold urb_modify. wp_step. eapply wp_urb_at; [exact Hu|]. exact HQ.
Qed.

(** The device object once channel [n] is free again, and once nobody waits. *)
Definition freed_host (n : Z) (sd : TDWHCITransferStageData) (h : TDWHCIDevice) : TDWHCIDevice :=
  h <| m_nChannelAllocated := Z.land (m_nChannelAllocated h) (not32 (Z.shiftl 1 n)) |>
    <| m_StageData := <[Z.to_nat n := sd]> (m_StageData h) |>.
Definition idle_host (n : Z) (sd : TDWHCITransferStageData) (h : TDWHCIDevice) : TDWHCIDevice :=
  freed_host n sd h <| m_bWaiting := false |>.

Lemma wp_release n pURB sd (Q : unit → W → Prop) w :
  crit_ok (w_cpu w) → channels_wf (w_host w) → 0 <= n < m_nChannels (w_host w) →
  allocated (w_host w) n = true → m_StageData (w_host w) !! Z.to_nat n = Some sd →
  (∀ t c, same_irq (w_cpu w) c → same_channel n (w_trace w) t →
     wp (USBRequestCallCompletionRoutine client pURB) Q
       {| w_trace := t; w_cpu := c; w_usb := w_usb w; w_env := w_env w;
          w_host := freed_host n (_DWHCITransferStageData sd) (w_host w) |}) →
  wp (release_channel client n pURB) Q w.
Proof.
  intros Hc Hwf Hn Ha Hsd HQ. unfold release_channel.
  wp_step. eapply wp_stage_modify; [lia|done|].
  wp_step. apply wp_FreeChannel; [done|done|done|done|]. eapply HQ; [|done]. by apply same_irq_exit, same_irq_refl.
Qed.

(** The completion routine of a blocking stage. *)
Lemma wp_blocking_routine pURB urb (Q : unit → W → Prop) w :
  urbs (w_usb w) !! pURB = Some urb → m_pCompletionRoutine urb = DWHCIDeviceCompletionRoutine_ →
  Q tt (w <| w_host := (w_host w) <| m_bWaiting := false |> |>) →
  wp (USBRequestCallCompletionRoutine client pURB) Q w.
Proof.
  intros Hu Hcr HQ. unfold USBRequestCallCompletionRoutine. wp_step. eapply wp_urb_at; [exact Hu|].
  rewrite Hcr. unfold host_modify. by wp_step.
Qed.

Context (n st siz : Z).

Definition packets_left : Z := DWHCI_HOST_CHAN_XFER_SIZ_PACKETS siz.
Definition bytes_left : Z := Z.land siz DWHCI_HOST_CHAN_XFER_SIZ_BYTES__MASK.
Definition failed : bool := has st DWHCI_HOST_CHAN_INT_ERROR_MASK.
Definition refused : bool := has st (Z.lor DWHCI_HOST_CHAN_INT_ERROR_MASK
                                       (Z.lor DWHCI_HOST_CHAN_INT_NAK DWHCI_HOST_CHAN_INT_NYET)).

(** A final status: neither a halt for the driver's own sake nor a handshake
    that asks for a retry. *)
Definition final_status : Prop :=
  st ≠ 0 ∧ st ≠ DWHCI_HOST_CHAN_INT_HALTED ∧
  has st (Z.lor DWHCI_HOST_CHAN_INT_NAK DWHCI_HOST_CHAN_INT_NYET) = false.

Lemma has_lor x a b : has x (Z.lor a b) = has x a || has x b.
Proof.
  unfold has. rewrite Z.land_lor_distr_r. unfold truthy.
  destruct (Z.eqb_spec (Z.land x a) 0) as [->|E]; [done|]. simpl.
  apply negb_true_iff, Z.eqb_neq. intros E0. apply Z.lor_eq_0_iff in E0. tauto.
Qed.

Lemma failed_refused : final_status → refused = failed.
Proof. intros (_ & _ & Hn). unfold refused. by rewrite has_lor, Hn, orb_false_r. Qed.

(** The controller does not report an MDATA packet, of isochronous transfers. *)
Definition not_mdata : Prop := (DWHCI_HOST_CHAN_XFER_SIZ_PID siz =? DWHCI_HOST_CHAN_XFER_SIZ_PID_MDATA) = false.

(** The objects after the stage: the endpoint's toggle and the request's
    result on success, the request's status in both cases. *)
Definition usb_after (sd : TDWHCITransferStageData) (pURB : Z) (urb : TUSBRequest)
    (e : TUSBEndpoint) (u : Usb) : Usb :=
  if failed then upd_urb pURB (urb <| m_bStatus := 0 |>) u
  else upd_urb pURB
         ((if m_bStatusStage sd then urb
           else urb <| m_nResultLen := m_nBytesPerTransaction sd - bytes_left |>)
          <| m_bStatus := 1 |>)
         (upd_endpoint (m_pEndpoint urb) (pid_after sd e (m_nPacketsPerTransaction sd - packets_left)) u).

Context (sts szs : list transaction → Z) (HA : hw_answers n sts szs).

(** The transaction that was started last is answered [st] and [siz]. *)
Definition answering (w : W) : Prop :=
  sts (transactions n (w_trace w)) = st ∧ szs (transactions n (w_trace w)) = siz.

Lemma answering_same w w' :
  same_channel n (w_trace w) (w_trace w') → answering w → answering w'.
Proof. unfold answering. by intros [-> _]. Qed.

(** What the controller reports while only the cache was cleaned and registers
    were read since. *)
Ltac report_step :=
  rewrite ?(ha_status _ _ _ HA), ?(ha_size _ _ _ HA);
  repeat match goal with
  | Hans : answering ?w |- context [sts (transactions n ?h)] =>
      change (transactions n h) with (transactions n (w_trace w)); rewrite (proj1 Hans)
  | Hans : answering ?w |- context [szs (transactions n ?h)] =>
      change (transactions n h) with (transactions n (w_trace w)); rewrite (proj2 Hans)
  end.

(** The first half of the handler: accounting. *)
Lemma wp_transaction_done sd pURB bIn bStatus urb e d p size (Q : bool → W → Prop) w :
  answering w → host_ok w → 0 <= n → m_StageData (w_host w) !! Z.to_nat n = Some sd →
  running sd n pURB bIn bStatus urb e d p size → request_ok (w_usb w) pURB urb e d →
  needs_split d = false → (is_periodic e = true → not_mdata) →
  m_Type e ≠ EndpointTypeIsochronous → (bStatus = true → m_Type e = EndpointTypeControl) →
  aligned p → 0 <= size < 2 ^ 31 → 0 < m_nMaxPacketSize e < 65536 →
  (bStatus = true → size = 0) → (bStatus = false → 0 < size) →
  st ≠ 0 → st ≠ DWHCI_HOST_CHAN_INT_HALTED → 0 <= packets_left <= m_nPackets sd → 0 <= bytes_left <= size →
  (∀ t sd', same_channel n (w_trace w) t → m_nTransactionStatus sd' = st →
     m_nState sd' = StageStateNoSplitTransfer → m_bStatusStage sd' = bStatus →
     sd_pEndpoint sd' = m_pEndpoint urb →
     (refused = false → DWHCITransferStageDataGetResultLen sd' = size - bytes_left) →
     (refused = true → sd' = sd <| m_nTransactionStatus := st |>) →
     Q true (with_stage n sd' {| w_trace := t; w_cpu := w_cpu w; w_host := w_host w;
       w_env := w_env w;
       w_usb := if refused then w_usb w
                else upd_endpoint (m_pEndpoint urb)
                       (pid_after sd e (m_nPacketsPerTransaction sd - packets_left)) (w_usb w) |})) →
  wp (transaction_done spin n) Q w.
Proof.
  intros Hans [Hc Hwf Hlen] Hn Hsd (Hfresh & Hstate & Hsub & _) Hro Hns Hper Hty Hst Hal Hsz Hm Hs0 Hs1
    Hne0 HneH Hpl Hbl HQ.
  destruct (fresh_stage_inv _ _ _ _ _ _ _ _ _ _ Hfresh Hsz Hm Hs0 Hs1) as (Hinv & Hpk & Hpp).
  pose proof Hfresh as []. rewrite Hns in *. destruct Hro.
  unfold transaction_done. wp_step. eapply wp_stage_at; [done..|].
  unfold DWHCITransferStageDataGetDMAAddress. wp_step. wp_step.
  apply wp_assert; [rewrite fs_ptr; apply negb_true_iff, Z.eqb_neq, Hal|]. wp_step.
  wp_step. pose proof (u32_range (m_pBufferPointer sd)) as [? ?].
  apply wp_clean_range; [done|unfold DWHCITransferStageDataGetBytesToTransfer; lia..|].
  intros cache Hcache. destruct (silent_cache n _ Hcache) as [Hq _].
  assert (same_channel n (w_trace w) (cache ++ w_trace w)) as Htr by by apply silent_same.
  assert (answering (w <| w_trace := cache ++ w_trace w |>)) as Hnow by by eapply answering_same.
  clear Hans.
  wp_step. reg_step. wp_step. reg_step. wp_step. reg_step.
  cbn [m_nBuffer m_nAddress DWHCIRegister]. report_step.
  rewrite (proj2 (Z.eqb_neq _ _) HneH).
  wp_step. eapply (wp_IsPeriodic sd e); [by rewrite fs_endpoint|].
  assert (negb (is_periodic e) || negb (DWHCI_HOST_CHAN_XFER_SIZ_PID siz =? DWHCI_HOST_CHAN_XFER_SIZ_PID_MDATA) = true)
    as Hmd by (destruct (is_periodic e); [unfold not_mdata in Hper; by rewrite Hper by done|done]).
  wp_step. reg_step. cbn [m_nBuffer m_nAddress]. wp_step. apply wp_assert; [exact Hmd|].
  repeat usb_step. cbn [m_nBuffer m_nAddress]. report_step.
  destruct refused eqn:Ef.
  - apply wp_TransactionComplete_refused; [exact Ef|].
    wp_step. apply wp_stage_set. wp_step. eapply HQ; try done.
  - eapply (wp_TransactionComplete p sd st _ _ e); try done; try lia.
    { rewrite fs_ppt. exact Hpl. }
    { rewrite fs_bytes. exact Hbl. }
    { by rewrite fs_split. }
    { by rewrite fs_endpoint. }
    { by rewrite fs_status. }
    cbv zeta. intros b _. wp_step. apply wp_stage_set. wp_step.
    rewrite fs_split. cbn [negb orb].
    rewrite fs_endpoint. eapply HQ; try done. intros _.
    unfold DWHCITransferStageDataGetResultLen, credited. rewrite fs_split. sd_cbn.
    rewrite fs_total, fs_size, fs_bytes.
    unfold bytes_left in *. set (b' := Z.land siz _) in *. clearbody b'. cbn [andb].
    destruct (Z.ltb_spec size (0 + (size - b'))); lia.
Qed.

(** The second half: the outcome is recorded, the channel released and the
    waiting caller woken. *)
Lemma wp_no_split_transfer sd pURB urb (Q : unit → W → Prop) w :
  host_ok w → 0 <= n < m_nChannels (w_host w) → allocated (w_host w) n = true →
  m_StageData (w_host w) !! Z.to_nat n = Some sd → m_nTransactionStatus sd = st →
  urbs (w_usb w) !! pURB = Some urb → final_status →
  (∀ t c sd', same_irq (w_cpu w) c → same_channel n (w_trace w) t →
     wp (USBRequestCallCompletionRoutine client pURB) Q
          {| w_trace := t; w_cpu := c; w_env := w_env w;
             w_usb := upd_urb pURB
               (if failed then urb <| m_bStatus := 0 |>
                else (if m_bStatusStage sd then urb
                      else urb <| m_nResultLen := DWHCITransferStageDataGetResultLen sd |>)
                     <| m_bStatus := 1 |>) (w_usb w);
             w_host := freed_host n sd' (w_host w) |}) →
  wp (no_split_transfer client n pURB) Q w.
Proof.
  intros [Hc Hwf Hlen] Hn Ha Hsd Hst Hu (Hne0 & _ & Hnak) HQ. unfold no_split_transfer.
  wp_step. eapply wp_stage_at; [lia|done|]. unfold DWHCITransferStageDataGetTransactionStatus.
  rewrite Hst. wp_step. wp_step. apply wp_assert; [by apply negb_true_iff, Z.eqb_neq|]. wp_step.
  fold failed. destruct failed eqn:Ef.
  - unfold fail_stage. wp_step. eapply wp_urb_modify; [done|].
    wp_step. apply wp_DisableChannelInterrupt; [lia|done|]. intros new Hnew.
    eapply wp_release; [by apply crit_exit_ok|done|done|done|exact Hsd|].
    intros t c Hirq Ht. apply HQ; [destruct Hirq as (? & ? & ?); split_and!; done|].
    eapply same_channel_trans; [by apply silent_same|exact Ht].
  - rewrite Hnak. repeat wp_step. unfold set_result.
    wp_step. eapply wp_stage_at; [lia|done|]. wp_step.
    unfold DWHCITransferStageDataIsStatusStage.
    assert (∀ u,
      (∀ t c sd', same_irq (w_cpu w) c → same_channel n (w_trace w) t →
         wp (USBRequestCallCompletionRoutine client pURB) Q
              {| w_trace := t; w_cpu := c; w_env := w_env w;
                 w_usb := upd_urb pURB (u <| m_bStatus := 1 |>) (w_usb w);
                 w_host := freed_host n sd' (w_host w) |}) →
      ∀ u0, upd_urb pURB (u <| m_bStatus := 1 |>) u0 = upd_urb pURB (u <| m_bStatus := 1 |>) (w_usb w) →
      wp (DWHCIDeviceDisableChannelInterrupt n ;; release_channel client n pURB) Q
         (w <| w_usb := upd_urb pURB (u <| m_bStatus := 1 |>) u0 |>)) as Hfinish.
    { intros u HQu u0 Hu0. rewrite Hu0.
      wp_step. apply wp_DisableChannelInterrupt; [lia|done|]. intros new Hnew.
      eapply wp_release; [by apply crit_exit_ok|done|done|done|exact Hsd|].
      intros t c Hirq Ht. apply HQu; [destruct Hirq as (? & ? & ?); split_and!; done|].
      eapply same_channel_trans; [by apply silent_same|exact Ht]. }
    destruct (m_bStatusStage sd); cbn [negb when].
    + wp_step. eapply wp_urb_modify; [done|]. by apply Hfinish.
    + eapply wp_urb_modify; [done|]. eapply wp_urb_modify; [simpl; apply lookup_insert_eq|].
      apply (Hfinish (urb <| m_nResultLen := DWHCITransferStageDataGetResultLen sd |>)); [done|].
      unfold upd_urb, upd. simpl. f_equal. by rewrite insert_insert_eq.
Qed.

(** A completed stage, seen from the interrupt handler of its channel. *)
Record stage_pre (w : W) (sd : TDWHCITransferStageData) (pURB : Z) (bIn bStatus : bool)
    (urb : TUSBRequest) (e : TUSBEndpoint) (d : TUSBDevice) (p size : Z) : Prop := {
  sp_answer : answering w;
  sp_host : host_ok w;
  sp_range : 0 <= n < m_nChannels (w_host w);
  sp_allocated : allocated (w_host w) n = true;
  sp_stage : m_StageData (w_host w) !! Z.to_nat n = Some sd;
  sp_running : running sd n pURB bIn bStatus urb e d p size;
  sp_request : request_ok (w_usb w) pURB urb e d;
  sp_nosplit : needs_split d = false;
  sp_type : m_Type e ≠ EndpointTypeIsochronous;
  sp_data : is_periodic e = true → not_mdata;
  sp_status : bStatus = true → m_Type e = EndpointTypeControl;
  sp_aligned : aligned p;
  sp_size : 0 <= size < 2 ^ 31;
  sp_mps : 0 < m_nMaxPacketSize e < 65536;
  sp_empty : bStatus = true → size = 0;
  sp_full : bStatus = false → 0 < size;
  sp_packets : 0 <= packets_left <= m_nPackets sd;
  sp_bytes : 0 <= bytes_left <= size
}.

(** The handler of the channel up to the outcome. *)
Lemma wp_channel_done sd pURB bIn bStatus urb e d p size (Q : unit → W → Prop) w :
  stage_pre w sd pURB bIn bStatus urb e d p size → st ≠ 0 → st ≠ DWHCI_HOST_CHAN_INT_HALTED →
  (∀ t sd' w', same_channel n (w_trace w) t →
     w' = with_stage n sd' {| w_trace := t; w_cpu := w_cpu w; w_host := w_host w; w_env := w_env w;
       w_usb := if refused then w_usb w
                else upd_endpoint (m_pEndpoint urb)
                       (pid_after sd e (m_nPacketsPerTransaction sd - packets_left)) (w_usb w) |} →
     m_nTransactionStatus sd' = st → m_bStatusStage sd' = bStatus → sd_pEndpoint sd' = m_pEndpoint urb →
     (refused = false → DWHCITransferStageDataGetResultLen sd' = size - bytes_left) →
     (refused = true → sd' = sd <| m_nTransactionStatus := st |>) →
     host_ok w' → m_StageData (w_host w') !! Z.to_nat n = Some sd' →
     wp (no_split_transfer client n pURB) Q w') →
  wp (DWHCIDeviceChannelInterruptHandler spin client n) Q w.
Proof.
  intros [] Hne0 HneH HQ. pose proof sp_running0 as (Hfresh & Hstate & Hsub & _).
  assert (Z.to_nat n < length (m_StageData (w_host w)))%nat as Hlt
    by (destruct sp_host0 as [_ [? _] ?]; lia).
  unfold DWHCIDeviceChannelInterruptHandler. wp_step. eapply wp_stage_at; [lia|done|].
  unfold DWHCITransferStageDataGetURB. wp_step. wp_step.
  apply wp_assert; [rewrite (fs_urb _ _ _ _ _ _ _ _ _ _ Hfresh); apply negb_true_iff, Z.eqb_neq,
    sp_request0|]. wp_step. rewrite (fs_urb _ _ _ _ _ _ _ _ _ _ Hfresh).
  unfold DWHCITransferStageDataGetSubState. rewrite Hsub. wp_step.
  eapply wp_transaction_done; [done|done|lia|done|done|done|done|exact sp_data0|done..|].
  intros t sd' Ht Hst Hns Hss Hep Hlen Href. cbn [negb].
  wp_step. eapply wp_stage_at; [lia|by apply list_lookup_insert_eq|].
  unfold DWHCITransferStageDataGetState. rewrite Hns. destruct sp_host0.
  eapply HQ; [exact Ht|reflexivity|done|done|done|done|done| |by apply list_lookup_insert_eq].
  split; [done|done|]. simpl. by rewrite length_insert.
Qed.

Lemma wp_ChannelInterrupt sd pURB bIn bStatus urb e d p size (Q : unit → W → Prop) w :
  stage_pre w sd pURB bIn bStatus urb e d p size → final_status →
  (∀ t c sd', same_irq (w_cpu w) c → same_channel n (w_trace w) t →
     wp (USBRequestCallCompletionRoutine client pURB) Q
          {| w_trace := t; w_cpu := c; w_env := w_env w;
             w_usb := usb_after sd pURB urb e (w_usb w);
             w_host := freed_host n sd' (w_host w) |}) →
  wp (DWHCIDeviceChannelInterruptHandler spin client n) Q w.
Proof.
  intros Hpre Hfin HQ. pose proof Hfin as (Hne0 & HneH & _).
  eapply wp_channel_done; [exact Hpre|done|done|].
  intros t sd' w' Ht Hw' Hst Hss Hep Hlen _ Hok' Hsd'. rewrite (failed_refused Hfin) in Hlen, Hw'.
  destruct Hpre. destruct sp_request0. pose proof sp_running0 as (Hfresh & _).
  eapply (wp_no_split_transfer sd' pURB urb); [done|by subst w'|by subst w'|done|done| |done|].
  - subst w'. simpl. by destruct failed.
  - intros t' c sd'' Hirq Ht'. subst w'. specialize (HQ t' c sd'' Hirq (same_channel_trans _ _ _ _ Ht Ht')).
    match goal with |- wp _ Q ?G => match type of HQ with wp _ Q ?G' => replace G with G'; [exact HQ|] end end.
    apply W_eq; try reflexivity.
    + simpl. unfold usb_after. destruct failed; [done|]. rewrite Hlen by done.
      rewrite Hss, (fs_status _ _ _ _ _ _ _ _ _ _ Hfresh), (fs_bytes _ _ _ _ _ _ _ _ _ _ Hfresh),
        sp_nosplit0. by destruct bStatus.
    + simpl. unfold freed_host, upd. simpl. f_equal. by rewrite list_insert_insert_eq.
Qed.

Lemma shift_mask i : 0 <= i < 31 → u32 (Z.shiftl (Z.shiftl 1 i) 1) = Z.shiftl 1 (i + 1).
Proof.
  intros Hi. rewrite Z.shiftl_shiftl by lia. apply u32_id. unfold is_u32.
  rewrite Z.shiftl_1_l. change 4294967296 with (2 ^ 32). split; [lia|].
  apply Z.pow_lt_mono_r; lia.
Qed.

Lemma channel_loop_skip rest i v a (Q : unit → W → Prop) w :
  0 <= i → i + Z.of_nat rest <= 16 →
  (∀ j, i <= j < i + Z.of_nat rest → Z.testbit v j = false) → Q tt w →
  wp (channel_loop spin client rest i (Z.shiftl 1 i)
        {| m_bValid := true; m_nAddress := a; m_nBuffer := v |}) Q w.
Proof.
  revert i. induction rest as [|rest IH]; intros i Hi Hr Hv HQ; [by apply wp_ret|].
  cbn [channel_loop]. wp_step. reg_step. cbn [m_nBuffer]. rewrite truthy_bit, Hv by lia.
  wp_step. cbn [when]. wp_step. rewrite shift_mask by lia. apply IH; [lia|lia| |done].
  intros j Hj. apply Hv. lia.
Qed.

(** The handler's loop over the channels calls the handler of the one channel
    that interrupted. *)
Lemma channel_loop_one rest i v a (Q : unit → W → Prop) w :
  0 <= i → i + Z.of_nat rest <= 16 → i <= n < i + Z.of_nat rest →
  (∀ j, 0 <= j < 16 → Z.testbit v j = (j =? n)) →
  wp (DWHCIDeviceChannelInterruptHandler spin client n) Q
     (record (EvWrite (DWHCI_HOST_CHAN_INT_MASK n) 0) w) →
  wp (channel_loop spin client rest i (Z.shiftl 1 i)
        {| m_bValid := true; m_nAddress := a; m_nBuffer := v |}) Q w.
Proof.
  revert i. induction rest as [|rest IH]; intros i Hi Hr Hn Hv HQ; [lia|].
  cbn [channel_loop]. wp_step. reg_step. cbn [m_nBuffer]. rewrite truthy_bit, Hv by lia.
  wp_step. destruct (Z.eqb_spec i n) as [->|Hne].
  - cbn [when]. wp_step. reg_step. eapply wp_mono; [exact HQ|]. intros [] w' HQ'.
    rewrite shift_mask by lia. apply channel_loop_skip; [lia|lia| |exact HQ'].
    intros j Hj. rewrite Hv by lia. apply Z.eqb_neq. lia.
  - cbn [when]. wp_step. rewrite shift_mask by lia. apply IH; [lia|lia|lia|done|exact HQ].
Qed.

(** The controller's interrupt is the channel's. *)
Lemma wp_InterruptHandler (Q : unit → W → Prop) w :
  0 <= n < m_nChannels (w_host w) → m_nChannels (w_host w) <= 16 →
  (∀ t, same_channel n (w_trace w) t →
     wp (DWHCIDeviceChannelInterruptHandler spin client n)
          (λ _ w', ∀ more, silent n more → Q tt (w' <| w_trace := more ++ w_trace w' |>)) (w <| w_trace := t |>)) →
  wp (DWHCIDeviceInterruptHandler spin client) Q w.
Proof.
  intros Hn Hch HQ. unfold DWHCIDeviceInterruptHandler.
  wp_step. reg_step. wp_step. apply wp_RegRead_any. intros v Hv. wp_step. reg_step.
  cbn [m_nBuffer]. unfold DWHCI_CORE_INT_STAT_HC_INTR. rewrite truthy_bit by lia.
  rewrite Hv at 1. cbn [m_nAddress DWHCIRegister]. rewrite (ha_intr _ _ _ HA). cbn [when].
  wp_step. wp_step. apply wp_RegRead_any. intros v2 Hv2. wp_step. reg_step. wp_step.
  apply wp_gets. change 1 with (Z.shiftl 1 0).
  eapply channel_loop_one; [lia|simpl; lia|simpl; lia| |].
  { intros j Hj. subst v2. apply (ha_all _ _ _ HA). done. }
  eapply wp_mono; [refine (HQ (_ :: _) _)|].
  { refine (silent_same n [_; _; _; _; _] (w_trace w) _). other_registers. }
  intros [] w' H'. wp_step. reg_step. reg_step. refine (H' [_; _] _). other_registers.
Qed.

End Stage.

(** ** The blocking stage *)

(** The endpoint after [k] packets. *)
Definition toggled (e : TUSBEndpoint) (k : Z) (bStatus : bool) : TUSBEndpoint :=
  match USBEndpointSkipPID e k bStatus tt with Ok (e', _) => e' | Err _ => e end.

Definition stage_packet_count (size mps : Z) (bStatus : bool) : Z :=
  if bStatus then 1 else (size + mps - 1) / mps.

(** The objects after a blocking stage of [size] bytes that was answered [st]
    and [siz]. *)
Definition usb_stage (st siz pURB size : Z) (bStatus : bool) (urb : TUSBRequest) (e : TUSBEndpoint)
    (u : Usb) : Usb :=
  let urb := urb <| m_pCompletionRoutine := DWHCIDeviceCompletionRoutine_ |>
                 <| m_pCompletionParam := 0 |> <| m_pCompletionContext := 0 |> in
  if failed st then upd_urb pURB (urb <| m_bStatus := 0 |>) u
  else
    upd_urb pURB ((if bStatus then urb else urb <| m_nResultLen := size - bytes_left siz |>)
                  <| m_bStatus := 1 |>)
      (upd_endpoint (m_pEndpoint urb)
         (toggled e (stage_packet_count size (m_nMaxPacketSize e) bStatus - packets_left siz) bStatus)
         u).

Section Blocking.
Context `{HW : Hardware} `{LA : Layout} `{!LayoutLaws}.
Context (spin : nat) (client : Z → Z → Z → Z → M W unit).
Context (n : Z) (sts szs : list transaction → Z) (HA : hw_answers n sts szs).

(** The controller ends every transaction, and the size register has counted
    down from what it was loaded with. *)
Record ends_transactions : Prop := {
  et_final x l : final_status (sts (x :: l));
  et_packets x l : 0 <= tr_packets x → 0 <= packets_left (szs (x :: l)) <= tr_packets x;
  et_bytes x l : 0 <= tr_bytes x → 0 <= bytes_left (szs (x :: l)) <= tr_bytes x
}.

(** What a stage needs of its request, before it starts. *)
Record stage_request (w : W) (pURB : Z) (bStatus : bool) (urb : TUSBRequest) (e : TUSBEndpoint)
    (d : TUSBDevice) (p size : Z) : Prop := {
  sr_host : host_ok w;
  sr_free : free_channel (w_host w) = Some n;
  sr_idle : m_bWaiting (w_host w) = false;
  sr_request : request_ok (w_usb w) pURB urb e d;
  sr_pid : pid_ok urb e;
  sr_range : stage_range n bStatus urb e = (p, size);
  sr_nosplit : needs_split d = false;
  sr_nonper : is_periodic e = false;
  sr_status : bStatus = true → m_Type e = EndpointTypeControl;
  sr_aligned : aligned p;
  sr_size : 0 <= size < 2 ^ 31;
  sr_mps : 0 < m_nMaxPacketSize e < 65536;
  sr_full : bStatus = false → 0 < size;
  sr_frame : ∀ sd, DWHCITransferStageDataGetFrameScheduler sd = scheduler_for e d →
             frame_found spin sd
}.

(** The device object is as before but for the stage data. *)
Definition same_host (h h' : TDWHCIDevice) : Prop :=
  m_nChannels h' = m_nChannels h ∧ m_nChannelAllocated h' = m_nChannelAllocated h ∧
  m_bWaiting h' = m_bWaiting h ∧ length (m_StageData h') = length (m_StageData h).

(** What the last transaction started was answered. *)
Definition answer_status (w : W) : Z := sts (transactions n (w_trace w)).
Definition answer_size (w : W) : Z := szs (transactions n (w_trace w)).

Lemma wp_TransferStage pURB bIn bStatus urb e d p size env (Q : bool → W → Prop) w :
  stage_request w pURB bStatus urb e d p size → ends_transactions → w_env w = EnvInterrupt :: env →
  (∀ w' x, w_usb w' = usb_stage (answer_status w') (answer_size w') pURB size bStatus urb e (w_usb w) →
     w_env w' = env → same_irq (w_cpu w) (w_cpu w') → same_host (w_host w) (w_host w') →
     transactions n (w_trace w') = x :: transactions n (w_trace w) →
     moves x (stage_pid bStatus e) bIn size (stage_packet_count size (m_nMaxPacketSize e) bStatus) e d →
     Q (negb (failed (answer_status w'))) w') →
  wp (DWHCIDeviceTransferStage spin client pURB bIn bStatus) Q w.
Proof.
  intros [] Hends Henv HQ. pose proof sr_request0 as [Hu Hu0 He0 He Hd0 Hd].
  destruct sr_host0 as [Hc Hwf Hlen].
  destruct (idle_host_restored n w Hwf Hlen sr_free0)
    as (Hn & Hwf' & Hal' & Hmark).
  assert (Z.to_nat n < length (m_StageData (w_host w)))%nat as Hlt
    by (destruct Hwf; lia).
  unfold DWHCIDeviceTransferStage. wp_step.
  apply wp_assert; [by apply negb_true_iff, Z.eqb_neq|]. wp_step.
  eapply wp_urb_at; [done|]. unfold USBRequestSetCompletionRoutine. wp_step. wp_step.
  wp_step. wp_step. wp_step. unfold urb_set. wp_step. wp_step. unfold host_get, host_modify.
  set (urb1 := urb <| m_pCompletionRoutine := DWHCIDeviceCompletionRoutine_ |>
                 <| m_pCompletionParam := 0 |> <| m_pCompletionContext := 0 |>).
  wp_step. wp_step. apply wp_assert; [simpl; by rewrite sr_idle0|]. wp_step. wp_step.
  match goal with |- wp _ _ ?s => set (w1 := s) end.
  assert (request_ok (w_usb w1) pURB urb1 e d) as Hro1.
  { split; try done. simpl. apply lookup_insert_eq. }
  wp_step. eapply (wp_TransferStageAsync spin client n pURB bIn bStatus urb1 e d p size);
    [by split| | | | | | | | | | | |apply (ha_idle _ _ _ HA)|]; try done.
  { rewrite <- sr_free0. by apply free_channel_ext. }
  { intros Hiso. unfold is_periodic in sr_nonper0. by rewrite Hiso, orb_true_r in sr_nonper0. }
  intros sd t c x Hrun Hirq Hx _ Hmv. cbn [negb]. wp_step. wp_step. cbn [w_env].
  change (w_env w1) with (w_env w). rewrite Henv. cbn [length busy_wait].
  wp_step. wp_step. unfold host_get. wp_step. cbn [w_host m_bWaiting upd w1].
  unfold env_next. wp_step. wp_step. wp_step. cbn [w_env].
  wp_step. wp_step. destruct Hro1, Hirq as (Hc1 & Hm1 & Hl1).
  assert (m_nPackets sd = stage_packet_count size (m_nMaxPacketSize e) bStatus) as Hcount.
  { destruct Hrun as [[] _]. unfold stage_packet_count. destruct bStatus; [done|].
    apply packet_count; [lia|exact fs_packets]. }
  assert (bStatus = true → size = 0) as Hsz0.
  { intros ->. simpl in sr_range0. congruence. }
  set (st := sts (x :: transactions n (w_trace w))). set (siz := szs (x :: transactions n (w_trace w))).
  pose proof (et_final Hends x (transactions n (w_trace w)) : final_status st) as Hfin.
  eapply (wp_InterruptHandler spin client n sts szs HA); [simpl; exact Hn|simpl; apply Hwf|]. intros t0 Ht0.
  assert (transactions n t0 = x :: transactions n (w_trace w)) as Hx0 by (rewrite (proj1 Ht0); exact Hx).
  assert (m_nBytesPerTransaction sd = size) as Hbytes.
  { destruct Hrun as [[] _]. by rewrite fs_bytes, sr_nosplit0. }
  assert (m_nPacketsPerTransaction sd = m_nPackets sd) as Hppt.
  { destruct Hrun as [[] _]. by rewrite fs_ppt, sr_nosplit0. }
  assert (0 <= packets_left siz <= m_nPackets sd ∧ 0 <= bytes_left siz <= size) as [Hpl Hbl].
  { destruct Hmv as (_ & M2 & M3 & _). rewrite Hbytes in M2. rewrite Hppt in M3.
    pose proof (et_packets Hends x (transactions n (w_trace w))) as E1.
    pose proof (et_bytes Hends x (transactions n (w_trace w))) as E2.
    fold siz in E1, E2. rewrite M2 in E2. rewrite M3 in E1.
    specialize (E1 ltac:(apply Z.mod_pos_bound; lia)). specialize (E2 ltac:(apply Z.mod_pos_bound; lia)).
    assert (0 <= m_nPackets sd) by (rewrite Hcount; unfold stage_packet_count; destruct bStatus;
      [lia|apply Z.div_pos; lia]).
    pose proof (Z.mod_le size (2 ^ 19)). pose proof (Z.mod_le (m_nPackets sd) (2 ^ 10)). lia. }
  eapply (wp_ChannelInterrupt spin client n st siz sts szs HA sd pURB bIn bStatus urb1 e d p size); [|done|].
  { split; try done.
    - split; cbn [w_trace upd]; by rewrite Hx0.
    - split; [done|exact Hwf'|]. simpl. by rewrite length_insert.
    - simpl; by apply list_lookup_insert_eq.
    - intros Hiso. unfold is_periodic in sr_nonper0. by rewrite Hiso, orb_true_r in sr_nonper0.
    - by rewrite sr_nonper0. }
  intros t2 c2 sd2 (Hc2 & Hm2 & Hl2) Ht2. cbn [w_cpu] in *.
  assert (∃ r, urbs (usb_after st siz sd pURB urb1 e (w_usb w1)) !! pURB = Some r ∧
    m_pCompletionRoutine r = DWHCIDeviceCompletionRoutine_) as (r1 & Hr1 & Hcr1).
  { unfold usb_after. destruct (failed st); simpl; eexists; (split; [apply lookup_insert_eq|]); [done|by destruct (m_bStatusStage sd)]. }
  eapply wp_blocking_routine; [exact Hr1|exact Hcr1|]. intros t3 Ht3.
  wp_step. wp_step. cbn [w_host m_bWaiting freed_host upd]. wp_step.
  set (u2 := usb_after st siz sd pURB urb1 e _). wp_step.
  assert (u2 = usb_stage st siz pURB size bStatus urb e (w_usb w)) as Hu2.
  { destruct Hrun as [[] _]. subst u2. unfold usb_after, usb_stage. fold urb1.
    rewrite fs_status, fs_bytes, sr_nosplit0, fs_ppt, sr_nosplit0, Hcount.
    unfold pid_after, toggled. rewrite fs_split, sr_nosplit0, fs_status. cbn [negb orb].
    cbn [w_usb]. subst w1. cbn [w_usb]. unfold upd_urb, upd_endpoint, upd. simpl.
    destruct (failed st); simpl; rewrite insert_insert_eq; [done|]. by destruct bStatus. }
  assert (∃ r, urbs u2 !! pURB = Some r ∧ truthy (USBRequestGetStatus r) = negb (failed st))
    as (r & Hr & Hstatus).
  { rewrite Hu2. unfold usb_stage. destruct (failed st); simpl; eexists;
      (split; [apply lookup_insert_eq|done]). }
  eapply wp_urb_at; [exact Hr|]. wp_step.
  match goal with |- Q _ ?s => set (w2 := s) end.
  assert (transactions n (w_trace w2) = x :: transactions n (w_trace w)) as Hx2.
  { cbn [w_trace w2 upd]. rewrite transactions_silent by done. rewrite (proj1 Ht2). exact Hx0. }
  assert (answer_status w2 = st ∧ answer_size w2 = siz) as [Es Ez]
    by (unfold answer_status, answer_size; by rewrite Hx2).
  rewrite Hstatus, <- Es. apply (HQ w2 x); [by rewrite Es, Ez|done| | |done|].
  - split_and!; [exact Hc2|by etransitivity|by etransitivity].
  - split_and!; [done|exact Hmark|simpl; by rewrite sr_idle0|simpl; by rewrite !length_insert].
  - rewrite <- Hcount, <- Hppt, <- Hbytes. exact Hmv.
Qed.
End Blocking.
