(* ===== verification/DwhciControl.v ===== *)
(** * Control messages and bulk transfers of the host driver

    Sequences of blocking stages: the request a function driver makes, from the
    setup packet to the status stage. *)
From S2P Require Import Prelude Register Sync FrameSched Endpoint StageData HostState.
From S2P Require Import ChanRegs DwhciCore DwhciXfer DwhciStage.

Lemma new_urb_ptr_fresh u : 0 < new_urb_ptr u ∧ urbs u !! new_urb_ptr u = None.
Proof. apply fresh_key_spec. Qed.

(** What a finished message leaves behind: its request is gone. *)
Lemma usb_restored p q r1 r2 e u :
  urbs u !! p = None →
  let u' := upd_urb p r2 (upd_endpoint q e (upd_urb p r1 u)) in
  u' <| urbs := delete p (urbs u') |> = upd_endpoint q e u.
Proof.
  intros Hp. destruct u as [ds es us]. unfold upd_urb, upd_endpoint, upd in *. simpl in *.
  rewrite insert_insert_eq. by rewrite delete_insert_id.
Qed.

(** The pid of a data endpoint after [k] packets: DATA0 and DATA1 alternate. *)
Definition flip (pid : TUSBPID) : TUSBPID :=
  match pid with USBPIDData0 => USBPIDData1 | USBPIDData1 => USBPIDData0 | USBPIDSetup => USBPIDSetup end.
Definition alternate (pid : TUSBPID) (k : Z) : TUSBPID := Nat.iter (Z.to_nat k) flip pid.

Lemma alternate_odd pid k : pid ≠ USBPIDSetup → 0 <= k →
  alternate pid k = if Z.odd k then flip pid else pid.
Proof.
  intros Hp Hk. rewrite <- (Z2Nat.id k) at 2 by done. unfold alternate. clear Hk.
  induction (Z.to_nat k) as [|m IH]; [done|]. rewrite Nat2Z.inj_succ, Z.odd_succ, <- Z.negb_odd.
  change (Nat.iter (S m) flip pid) with (flip (Nat.iter m flip pid)). rewrite IH.
  by destruct (Z.odd (Z.of_nat m)), pid.
Qed.

(** [USBEndpointSkipPID] alternates: the pid after the stage's packets. *)
Lemma toggled_data e k :
  m_Type e = EndpointTypeBulk ∨ m_Type e = EndpointTypeControl ∨ m_Type e = EndpointTypeInterrupt →
  data_pid (m_NextPID e) → 0 <= k →
  toggled e k false = e <| m_NextPID := alternate (m_NextPID e) k |>.
Proof.
  intros Ht Hp Hk. rewrite alternate_odd by done. unfold toggled, USBEndpointSkipPID, c_assert.
  pose proof (land_1_odd k) as Hodd.
  destruct e as [? ? t ? ? ? pid]; simpl in *.
  destruct t, pid; simpl; try (exfalso; naive_solver); rewrite Hodd; by destruct (Z.odd k).
Qed.

Section Control.
Context `{HW : Hardware} `{LA : Layout} `{!LayoutLaws}.
Context (spin : nat) (client : Z → Z → Z → Z → M W unit).
Context (n : Z) (sts szs : list transaction → Z) (HA : hw_answers n sts szs).
Context (Hends : ends_transactions sts szs).

(** The driver at rest with channel [n] the next to be used. *)
Record at_rest (w : W) : Prop := {
  ar_host : host_ok w;
  ar_free : free_channel (w_host w) = Some n;
  ar_idle : m_bWaiting (w_host w) = false
}.

Lemma at_rest_same w w' :
  at_rest w → same_irq (w_cpu w) (w_cpu w') → same_host (w_host w) (w_host w') → at_rest w'.
Proof.
  intros [[Hc [Hn Ha] Hl] Hf Hi] (Hc' & _) (H1 & H2 & H3 & H4). constructor.
  - split; [done|split; rewrite ?H1, ?H2; done|congruence].
  - by rewrite <- Hf; apply free_channel_ext.
  - congruence.
Qed.

(** What the controller needs of the device and endpoint of any stage. *)
Record target_ok (e : TUSBEndpoint) (d : TUSBDevice) : Prop := {
  tg_nosplit : needs_split d = false;
  tg_nonper : is_periodic e = false;
  tg_mps : 0 < m_nMaxPacketSize e < 65536;
  tg_frame : ∀ sd, DWHCITransferStageDataGetFrameScheduler sd = scheduler_for e d →
             frame_found spin sd
}.

(** The data toggle does not matter to it. *)
Lemma target_ok_pid e d pid : target_ok e d → target_ok (e <| m_NextPID := pid |>) d.
Proof. intros []. by constructor. Qed.

Definition driver_routine (urb : TUSBRequest) : TUSBRequest :=
  urb <| m_pCompletionRoutine := DWHCIDeviceCompletionRoutine_ |>
      <| m_pCompletionParam := 0 |> <| m_pCompletionContext := 0 |>.

(** The request after a stage of [size] bytes that was answered [st], [siz]. *)
Definition urb_after (st siz size : Z) (bStatus : bool) (urb : TUSBRequest) : TUSBRequest :=
  if failed st then (driver_routine urb) <| m_bStatus := 0 |>
  else (if bStatus then driver_routine urb
        else (driver_routine urb) <| m_nResultLen := size - bytes_left siz |>) <| m_bStatus := 1 |>.

(** The endpoint's pid after it. *)
Definition next_pid (st siz size : Z) (bStatus : bool) (e : TUSBEndpoint) : TUSBPID :=
  if failed st then m_NextPID e
  else if bStatus then USBPIDSetup
  else match m_NextPID e with
       | USBPIDSetup => USBPIDData1
       | pid => alternate pid (stage_packet_count size (m_nMaxPacketSize e) false - packets_left siz)
       end.

Lemma packets_sent x l size mps bStatus :
  0 <= size → 0 < mps → tr_packets x = stage_packet_count size mps bStatus mod 2 ^ 10 →
  0 <= stage_packet_count size mps bStatus - packets_left (szs (x :: l)).
Proof.
  intros Hs Hm Hx. pose proof (et_packets _ _ Hends x l) as Hl. rewrite Hx in Hl.
  specialize (Hl ltac:(apply Z.mod_pos_bound; lia)).
  assert (0 <= stage_packet_count size mps bStatus).
  { unfold stage_packet_count. destruct bStatus; [lia|apply Z.div_pos; lia]. }
  pose proof (Z.mod_le (stage_packet_count size mps bStatus) (2 ^ 10)). lia.
Qed.

Lemma bytes_moved x l size : 0 <= size → tr_bytes x = size mod 2 ^ 19 →
  0 <= bytes_left (szs (x :: l)) <= size.
Proof.
  intros Hs Hx. pose proof (et_bytes _ _ Hends x l) as Hl. rewrite Hx in Hl.
  specialize (Hl ltac:(apply Z.mod_pos_bound; lia)).
  pose proof (Z.mod_le size (2 ^ 19)). lia.
Qed.

Lemma usb_stage_next st siz pURB size bStatus urb e d u :
  request_ok u pURB urb e d → is_periodic e = false →
  (bStatus = true → m_Type e = EndpointTypeControl) →
  0 <= stage_packet_count size (m_nMaxPacketSize e) bStatus - packets_left siz →
  usb_stage st siz pURB size bStatus urb e u =
  upd_urb pURB (urb_after st siz size bStatus urb)
    (upd_endpoint (m_pEndpoint urb) (e <| m_NextPID := next_pid st siz size bStatus e |>) u).
Proof.
  intros [_ _ _ He _ _] Hper Hst Hk. unfold usb_stage, urb_after, next_pid, driver_routine.
  destruct (failed st).
  - f_equal. destruct u as [ds es us]. unfold upd_endpoint, upd. simpl in *. f_equal.
    symmetry. apply insert_id. rewrite He. f_equal. by destruct e.
  - f_equal. f_equal. destruct bStatus.
    + unfold toggled, USBEndpointSkipPID. by rewrite Hst.
    + assert (m_Type e = EndpointTypeBulk ∨ m_Type e = EndpointTypeControl ∨ m_Type e = EndpointTypeInterrupt) as Ht.
      { unfold is_periodic in Hper. destruct (m_Type e); auto; done. }
      destruct (m_NextPID e) eqn:Ep; [|rewrite toggled_data, Ep; unfold data_pid; rewrite ?Ep; done..].
      unfold toggled, USBEndpointSkipPID, c_assert. rewrite Ep. destruct Ht as [Ht|[Ht|Ht]]; by rewrite Ht.
Qed.

(** A stage that was run to its end. *)
Record stage_end (w w' : W) (x : transaction) (pURB : Z) (bIn bStatus : bool) (urb : TUSBRequest)
    (e : TUSBEndpoint) (d : TUSBDevice) (size : Z) (env : list env_step) (urb' : TUSBRequest)
    (e' : TUSBEndpoint) : Prop := {
  se_rest : at_rest w';
  se_env : w_env w' = env;
  se_irq : same_irq (w_cpu w) (w_cpu w');
  se_host : same_host (w_host w) (w_host w');
  se_transaction : transactions n (w_trace w') = x :: transactions n (w_trace w);
  se_moves : moves x (stage_pid bStatus e) bIn size
               (stage_packet_count size (m_nMaxPacketSize e) bStatus) e d;
  se_usb : w_usb w' = upd_urb pURB urb' (upd_endpoint (m_pEndpoint urb) e' (w_usb w));
  se_request : request_ok (w_usb w') pURB urb' e' d
}.

Lemma wp_stage pURB bIn bStatus urb e d p size env (Q : bool → W → Prop) w :
  at_rest w → target_ok e d → request_ok (w_usb w) pURB urb e d →
  pid_ok urb e → stage_range n bStatus urb e = (p, size) →
  (bStatus = true → m_Type e = EndpointTypeControl) → aligned p → 0 <= size < 2 ^ 31 →
  (bStatus = false → 0 < size) → w_env w = EnvInterrupt :: env →
  (∀ w' x, let l := x :: transactions n (w_trace w) in
     stage_end w w' x pURB bIn bStatus urb e d size env (urb_after (sts l) (szs l) size bStatus urb)
       (e <| m_NextPID := next_pid (sts l) (szs l) size bStatus e |>) →
     Q (negb (failed (sts l))) w') →
  wp (DWHCIDeviceTransferStage spin client pURB bIn bStatus) Q w.
Proof.
  intros Hrest [] Hro Hpid Hrng Hst Hal Hsz Hfull Henv HQ. pose proof Hrest as [].
  eapply (wp_TransferStage spin client n sts szs HA); [|exact Hends|exact Henv|]; [by constructor|].
  intros w' x Hu He Hi Hh Hx Hm. unfold answer_status, answer_size in *. rewrite Hx in *.
  set (l := x :: transactions n (w_trace w)) in *.
  pose proof Hm as (_ & _ & Hp & _).
  rewrite (usb_stage_next (sts l) (szs l) _ _ _ _ _ d) in Hu;
    [|done..|apply packets_sent; [lia|lia|done]].
  apply (HQ w' x). fold l. split; try done; [by eapply at_rest_same|].
  assert (m_pEndpoint (urb_after (sts l) (szs l) size bStatus urb) = m_pEndpoint urb) as Hep
    by (unfold urb_after; by destruct (failed (sts l)), bStatus).
  destruct Hro. rewrite Hu. constructor; rewrite ?Hep; simpl; try done; apply lookup_insert_eq.
Qed.

Lemma usb_twice p q r1 e1 r2 e2 u :
  upd_urb p r2 (upd_endpoint q e2 (upd_urb p r1 (upd_endpoint q e1 u))) =
  upd_urb p r2 (upd_endpoint q e2 u).
Proof. unfold upd_urb, upd_endpoint, upd. simpl. by rewrite !insert_insert_eq. Qed.

(** A control request: the setup packet, then the data stage if there is
    data, then the status stage against the direction of the data. *)
Record control_request (u : Usb) (pURB : Z) (urb : TUSBRequest) (e : TUSBEndpoint) (d : TUSBDevice)
    (ps : Z) (setup : TSetupData) : Prop := {
  cr_request : request_ok u pURB urb e d;
  cr_type : m_Type e = EndpointTypeControl;
  cr_pid : m_NextPID e = USBPIDSetup;
  cr_setup : m_pSetupData urb = Some (ps, setup);
  cr_setup_aligned : aligned ps;
  cr_len : 0 <= m_nBufLen urb < 2 ^ 31;
  cr_buffer : 0 < m_nBufLen urb → aligned (m_pBuffer urb);
  cr_in : truthy (Z.land (bmRequestType setup) REQUEST_IN) = true → 0 < m_nBufLen urb
}.

(** The stages of a message of [len] bytes, as the controller sees them: the
    codes of SETUP and DATA1 are 3 and 2. *)
Definition setup_stage (x : transaction) (e : TUSBEndpoint) (d : TUSBDevice) : Prop :=
  moves x 3 false 8 ((8 + m_nMaxPacketSize e - 1) / m_nMaxPacketSize e) e d.
Definition data_stage (x : transaction) (bIn : bool) (len : Z) (e : TUSBEndpoint) (d : TUSBDevice) : Prop :=
  moves x 2 bIn len ((len + m_nMaxPacketSize e - 1) / m_nMaxPacketSize e) e d.
Definition status_stage (x : transaction) (bIn : bool) (e : TUSBEndpoint) (d : TUSBDevice) : Prop :=
  moves x 2 bIn 0 1 e d.

(** How a message of [len] bytes to ([bIn] false) or from the device ends, after
    the transactions [l0]: those it adds, newest first, the pid it leaves the
    endpoint with, and its result. It ends with the first stage the controller
    reports an error for. *)
Inductive message_end (e : TUSBEndpoint) (d : TUSBDevice) (bIn : bool) (len : Z) (l0 : list transaction)
    : list transaction → TUSBPID → Z → Prop :=
  | me_setup_failed x1 :
      setup_stage x1 e d → failed (sts (x1 :: l0)) = true →
      message_end e d bIn len l0 [x1] USBPIDSetup (-1)
  | me_data_failed x1 x2 :
      0 < len → setup_stage x1 e d → failed (sts (x1 :: l0)) = false →
      data_stage x2 bIn len e d → failed (sts (x2 :: x1 :: l0)) = true →
      message_end e d bIn len l0 [x2; x1] USBPIDData1 (-1)
  | me_nodata_failed x1 x2 :
      len = 0 → setup_stage x1 e d → failed (sts (x1 :: l0)) = false →
      status_stage x2 true e d → failed (sts (x2 :: x1 :: l0)) = true →
      message_end e d bIn len l0 [x2; x1] USBPIDData1 (-1)
  | me_nodata x1 x2 :
      len = 0 → setup_stage x1 e d → failed (sts (x1 :: l0)) = false →
      status_stage x2 true e d → failed (sts (x2 :: x1 :: l0)) = false →
      message_end e d bIn len l0 [x2; x1] USBPIDSetup (8 - bytes_left (szs (x1 :: l0)))
  | me_status_failed x1 x2 x3 :
      0 < len → setup_stage x1 e d → failed (sts (x1 :: l0)) = false →
      data_stage x2 bIn len e d → failed (sts (x2 :: x1 :: l0)) = false →
      status_stage x3 (negb bIn) e d → failed (sts (x3 :: x2 :: x1 :: l0)) = true →
      message_end e d bIn len l0 [x3; x2; x1]
        (alternate USBPIDData1 ((len + m_nMaxPacketSize e - 1) / m_nMaxPacketSize e
           - packets_left (szs (x2 :: x1 :: l0)))) (-1)
  | me_done x1 x2 x3 :
      0 < len → setup_stage x1 e d → failed (sts (x1 :: l0)) = false →
      data_stage x2 bIn len e d → failed (sts (x2 :: x1 :: l0)) = false →
      status_stage x3 (negb bIn) e d → failed (sts (x3 :: x2 :: x1 :: l0)) = false →
      message_end e d bIn len l0 [x3; x2; x1] USBPIDSetup (len - bytes_left (szs (x2 :: x1 :: l0))).

Lemma data_range urb e : data_pid (m_NextPID e) →
  stage_range n false urb e = (m_pBuffer urb, m_nBufLen urb).
Proof. unfold data_pid, stage_range, stage_source. by destruct (m_NextPID e). Qed.

Lemma same_irq_trans c1 c2 c3 : same_irq c1 c2 → same_irq c2 c3 → same_irq c1 c3.
Proof. intros (_ & ? & ?) (? & ? & ?). split_and!; [done|congruence|congruence]. Qed.
Lemma same_host_trans h1 h2 h3 : same_host h1 h2 → same_host h2 h3 → same_host h1 h3.
Proof. unfold same_host. intros (? & ? & ? & ?) (? & ? & ? & ?). split_and!; congruence. Qed.

(** The stages a message of [len] bytes can take. *)
Definition stage_total (len : Z) : nat := if len =? 0 then 2 else 3.

(** What a control request leaves, with the result [r] it is to return. *)
Definition control_done (w w' : W) (pURB : Z) (urb : TUSBRequest) (e : TUSBEndpoint) (d : TUSBDevice)
    (bIn : bool) (env : list env_step) (r : Z) : Prop :=
  at_rest w' ∧ same_irq (w_cpu w) (w_cpu w') ∧ same_host (w_host w) (w_host w') ∧
  ∃ l pid urb', message_end e d bIn (m_nBufLen urb) (transactions n (w_trace w)) l pid r ∧
    transactions n (w_trace w') = l ++ transactions n (w_trace w) ∧
    w_env w' = replicate (stage_total (m_nBufLen urb) - length l) EnvInterrupt ++ env ∧
    w_usb w' = upd_urb pURB urb' (upd_endpoint (m_pEndpoint urb) (e <| m_NextPID := pid |>) (w_usb w)) ∧
    (r = -1 ∨ 0 <= r <= Z.max 8 (m_nBufLen urb) ∧ m_nResultLen urb' = r ∧ m_bStatus urb' = 1).

Lemma twice_pid e pid pid' : e <| m_NextPID := pid |> <| m_NextPID := pid' |> = e <| m_NextPID := pid' |>.
Proof. done. Qed.

Lemma urb_after_endpoint st siz size b urb : m_pEndpoint (urb_after st siz size b urb) = m_pEndpoint urb.
Proof. unfold urb_after. by destruct (failed st), b. Qed.

Lemma wp_setup_stage pURB urb e d ps setup env (Q : bool → W → Prop) w :
  at_rest w → target_ok e d → control_request (w_usb w) pURB urb e d ps setup →
  w_env w = EnvInterrupt :: env →
  (∀ w' x, let l := x :: transactions n (w_trace w) in
     setup_stage x e d →
     stage_end w w' x pURB false false urb e d 8 env (urb_after (sts l) (szs l) 8 false urb)
       (e <| m_NextPID := if failed (sts l) then USBPIDSetup else USBPIDData1 |>) →
     Q (negb (failed (sts l))) w') →
  wp (DWHCIDeviceTransferStage spin client pURB false false) Q w.
Proof.
  intros Hrest Htg [] Henv HQ.
  eapply (wp_stage pURB false false urb e d ps 8); try done.
  - unfold stage_range, stage_source. by rewrite cr_pid0, cr_setup0.
  - intros w' x l Hend. apply (HQ w' x); fold l.
    + destruct Hend. unfold stage_pid in se_moves0. by rewrite cr_pid0 in se_moves0.
    + unfold next_pid in Hend. by rewrite cr_pid0 in Hend.
Qed.

Lemma wp_status_stage pURB bIn urb e d env (Q : bool → W → Prop) w :
  at_rest w → target_ok e d → m_Type e = EndpointTypeControl → data_pid (m_NextPID e) →
  request_ok (w_usb w) pURB urb e d → w_env w = EnvInterrupt :: env →
  (∀ w' x, let l := x :: transactions n (w_trace w) in
     status_stage x bIn e d →
     stage_end w w' x pURB bIn true urb e d 0 env (urb_after (sts l) (szs l) 0 true urb)
       (e <| m_NextPID := if failed (sts l) then m_NextPID e else USBPIDSetup |>) →
     Q (negb (failed (sts l))) w') →
  wp (DWHCIDeviceTransferStage spin client pURB bIn true) Q w.
Proof.
  intros Hrest Htg Ht Hpid Hro Henv HQ.
  eapply (wp_stage pURB bIn true urb e d (temp_buffer n) 0); try done.
  - split; [apply temp_buffer_nonnull|apply temp_buffer_aligned].
  - intros w' x l Hend. apply (HQ w' x); fold l; [by destruct Hend|exact Hend].
Qed.

Lemma wp_data_stage pURB bIn urb e d env (Q : bool → W → Prop) w :
  at_rest w → target_ok e d → m_Type e = EndpointTypeControl → m_NextPID e = USBPIDData1 →
  request_ok (w_usb w) pURB urb e d → aligned (m_pBuffer urb) → 0 < m_nBufLen urb < 2 ^ 31 →
  w_env w = EnvInterrupt :: env →
  (∀ w' x, let l := x :: transactions n (w_trace w) in
     data_stage x bIn (m_nBufLen urb) e d →
     stage_end w w' x pURB bIn false urb e d (m_nBufLen urb) env
       (urb_after (sts l) (szs l) (m_nBufLen urb) false urb)
       (e <| m_NextPID := if failed (sts l) then USBPIDData1 else
          alternate USBPIDData1 ((m_nBufLen urb + m_nMaxPacketSize e - 1) / m_nMaxPacketSize e
            - packets_left (szs l)) |>) →
     Q (negb (failed (sts l))) w') →
  wp (DWHCIDeviceTransferStage spin client pURB bIn false) Q w.
Proof.
  intros Hrest Htg Ht Hpid Hro Hal Hl Henv HQ.
  assert (data_pid (m_NextPID e)) as Hd by (by rewrite Hpid).
  eapply (wp_stage pURB bIn false urb e d (m_pBuffer urb) (m_nBufLen urb)); try done; try lia.
  - by apply data_range.
  - intros w' x l Hend. apply (HQ w' x); fold l.
    + destruct Hend. unfold stage_pid in se_moves0. by rewrite Hpid in se_moves0.
    + unfold next_pid in Hend. by rewrite Hpid in Hend.
Qed.

Lemma wp_control_nodata pURB bIn urb e d ps setup (Q : bool → W → Prop) env w :
  at_rest w → target_ok e d → control_request (w_usb w) pURB urb e d ps setup →
  m_nBufLen urb = 0 → w_env w = replicate (stage_total (m_nBufLen urb)) EnvInterrupt ++ env →
  (∀ w' r, control_done w w' pURB urb e d bIn env r → Q (negb (r =? -1)) w') →
  wp (and_then (DWHCIDeviceTransferStage spin client pURB false false)
               (DWHCIDeviceTransferStage spin client pURB true true)) Q w.
Proof.
  intros Hrest Htg Hcr Hl Henv HQ. pose proof Hcr as [].
  unfold and_then, control_done, stage_total in *. rewrite Hl in *. wp_step.
  eapply wp_setup_stage; [exact Hrest|exact Htg|exact Hcr|exact Henv|]. intros w1 x1 l1 Hs1 [R1 E1 I1 H1 T1 M1 U1 Q1].
  destruct (failed (sts l1)) eqn:F1; cbn [negb].
  { wp_step. apply (HQ w1 (-1)). do 3 (split; [done|]). exists [x1], USBPIDSetup, (urb_after (sts l1) (szs l1) 8 false urb).
    do 4 (split; [first [by constructor|done]|]). by left. }
  eapply wp_status_stage; [exact R1| | | |exact Q1|exact E1|]; [by apply target_ok_pid|done|done|].
  intros w2 x2 l2 Hs2 [R2 E2 I2 H2 T2 M2 U2 _]. rewrite U1, urb_after_endpoint, usb_twice, twice_pid in U2.
  pose proof M1 as (_ & B1 & _). pose proof (bytes_moved x1 (transactions n (w_trace w)) 8 ltac:(lia) B1) as Hb.
  unfold l2 in *. rewrite T1 in *. fold l1 in Hb, T2, U2, HQ |- *.
  set (urb1 := urb_after (sts l1) (szs l1) 8 false urb) in *.
  destruct (failed (sts (x2 :: l1))) eqn:F2.
  - apply (HQ w2 (-1)). split; [done|]. split; [by eapply same_irq_trans|]. split; [by eapply same_host_trans|].
    exists [x2; x1], USBPIDData1, (urb_after (sts (x2 :: l1)) (szs (x2 :: l1)) 0 true urb1).
    do 4 (split; [first [by apply me_nodata_failed|done]|]). by left.
  - replace (negb false) with (negb (8 - bytes_left (szs l1) =? -1)) by lia.
    apply HQ. split; [done|]. split; [by eapply same_irq_trans|]. split; [by eapply same_host_trans|].
    exists [x2; x1], USBPIDSetup, (urb_after (sts (x2 :: l1)) (szs (x2 :: l1)) 0 true urb1).
    do 4 (split; [first [by apply me_nodata|done]|]). right. split; [lia|].
    unfold urb1, urb_after. by rewrite F1, F2.
Qed.

Lemma wp_control_data pURB bIn urb e d ps setup (Q : bool → W → Prop) env w :
  at_rest w → target_ok e d → control_request (w_usb w) pURB urb e d ps setup →
  0 < m_nBufLen urb → w_env w = replicate (stage_total (m_nBufLen urb)) EnvInterrupt ++ env →
  (∀ w' r, control_done w w' pURB urb e d bIn env r → Q (negb (r =? -1)) w') →
  wp (and_then (DWHCIDeviceTransferStage spin client pURB false false)
        (and_then (DWHCIDeviceTransferStage spin client pURB bIn false)
                  (DWHCIDeviceTransferStage spin client pURB (negb bIn) true))) Q w.
Proof.
  intros Hrest Htg Hcr Hl Henv HQ. pose proof Hcr as [].
  unfold and_then, control_done, stage_total in *. rewrite (proj2 (Z.eqb_neq _ 0)) in * by lia. wp_step.
  eapply wp_setup_stage; [exact Hrest|exact Htg|exact Hcr|exact Henv|]. intros w1 x1 l1 Hs1 [R1 E1 I1 H1 T1 M1 U1 Q1].
  destruct (failed (sts l1)) eqn:F1; cbn [negb].
  { wp_step. apply (HQ w1 (-1)). do 3 (split; [done|]). exists [x1], USBPIDSetup, (urb_after (sts l1) (szs l1) 8 false urb).
    do 4 (split; [first [by constructor|done]|]). by left. }
  set (urb1 := urb_after (sts l1) (szs l1) 8 false urb) in *.
  assert (m_nBufLen urb1 = m_nBufLen urb ∧ m_pBuffer urb1 = m_pBuffer urb) as [L1 P1]
    by (unfold urb1, urb_after; by destruct (failed (sts l1))).
  assert (m_pEndpoint urb1 = m_pEndpoint urb) as Ep1 by apply urb_after_endpoint.
  wp_step. eapply (wp_data_stage pURB bIn urb1); [exact R1| | | |exact Q1| | |exact E1|];
    [by apply target_ok_pid|done|done|rewrite P1; by apply cr_buffer0|rewrite L1; lia|].
  intros w2 x2 l2 Hs2 [R2 E2 I2 H2 T2 M2 U2 Q2]. rewrite L1 in *.
  change (m_nMaxPacketSize (e <| m_NextPID := USBPIDData1 |>)) with (m_nMaxPacketSize e) in *.
  pose proof M2 as (_ & B2 & B3 & _).
  pose proof (bytes_moved x2 (transactions n (w_trace w1)) (m_nBufLen urb) ltac:(lia) B2) as Hb.
  pose proof (packets_sent x2 (transactions n (w_trace w1)) (m_nBufLen urb) (m_nMaxPacketSize e) false
    ltac:(lia) ltac:(apply Htg) B3) as Hp.
  unfold stage_packet_count in Hp. change (m_nMaxPacketSize (e <| m_NextPID := USBPIDData1 |>)) with (m_nMaxPacketSize e) in Hp.
  rewrite U1, Ep1, usb_twice, twice_pid in U2. unfold l2 in *. rewrite T1 in *.
  fold l1 in Hb, Hp, T2, U2, Q2 |- *.
  set (k := (m_nBufLen urb + m_nMaxPacketSize e - 1) / m_nMaxPacketSize e) in *.
  destruct (failed (sts (x2 :: l1))) eqn:F2; cbn [negb].
  { wp_step. apply (HQ w2 (-1)). split; [done|]. split; [by eapply same_irq_trans|]. split; [by eapply same_host_trans|].
    exists [x2; x1], USBPIDData1, (urb_after (sts (x2 :: l1)) (szs (x2 :: l1)) (m_nBufLen urb) false urb1).
    do 4 (split; [first [by apply me_data_failed|done]|]). by left. }
  set (pid := alternate USBPIDData1 (k - packets_left (szs (x2 :: l1)))) in *.
  assert (data_pid pid) as Hpid.
  { unfold pid, data_pid. rewrite alternate_odd by done. by destruct (Z.odd _). }
  eapply wp_status_stage; [exact R2| | | |exact Q2|exact E2|]; [by do 2 apply target_ok_pid|done|done|].
  intros w3 x3 l3 Hs3 [R3 E3 I3 H3 T3 M3 U3 _]. rewrite U2, urb_after_endpoint, Ep1, usb_twice, twice_pid in U3.
  unfold l3 in *. rewrite T2 in *. fold l1 in T3, U3 |- *.
  assert (same_irq (w_cpu w) (w_cpu w3)) by (do 2 (eapply same_irq_trans; [eassumption|]); done).
  assert (same_host (w_host w) (w_host w3)) by (do 2 (eapply same_host_trans; [eassumption|]); done).
  set (urb2 := urb_after (sts (x2 :: l1)) (szs (x2 :: l1)) (m_nBufLen urb) false urb1) in *.
  destruct (failed (sts (x3 :: x2 :: l1))) eqn:F3.
  - apply (HQ w3 (-1)). do 3 (split; [done|]).
    exists [x3; x2; x1], pid, (urb_after (sts (x3 :: x2 :: l1)) (szs (x3 :: x2 :: l1)) 0 true urb2).
    do 4 (split; [first [by apply me_status_failed|done]|]). by left.
  - replace (negb false) with (negb (m_nBufLen urb - bytes_left (szs (x2 :: l1)) =? -1)) by lia.
    apply HQ. do 3 (split; [done|]).
    exists [x3; x2; x1], USBPIDSetup, (urb_after (sts (x3 :: x2 :: l1)) (szs (x3 :: x2 :: l1)) 0 true urb2).
    do 4 (split; [first [by apply me_done|done]|]). right. split; [lia|].
    unfold urb2, urb_after. by rewrite F2, F3.
Qed.

(** A blocking control request. *)
Lemma wp_submit_control pURB urb e d ps setup (Q : bool → W → Prop) env w :
  at_rest w → target_ok e d → control_request (w_usb w) pURB urb e d ps setup →
  w_env w = replicate (stage_total (m_nBufLen urb)) EnvInterrupt ++ env →
  (∀ w' w0 r, w_usb w0 = upd_urb pURB (urb <| m_bStatus := 0 |>) (w_usb w) →
     w_cpu w0 = w_cpu w → w_host w0 = w_host w →
     transactions n (w_trace w0) = transactions n (w_trace w) →
     control_done w0 w' pURB (urb <| m_bStatus := 0 |>) e d
       (truthy (Z.land (bmRequestType setup) REQUEST_IN)) env r → Q (negb (r =? -1)) w') →
  wp (DWHCIDeviceSubmitBlockingRequest spin client pURB) Q w.
Proof.
  intros Hrest Htg Hcr Henv HQ. pose proof Hcr as [[Hu Hu0 He0 He Hd0 Hd] ? ? ? ? ? ? ?].
  unfold DWHCIDeviceSubmitBlockingRequest.
  wp_step. reg_step. wp_step. apply wp_assert; [by apply negb_true_iff, Z.eqb_neq|].
  wp_step. eapply wp_urb_modify; [exact Hu|].
  match goal with |- wp _ _ ?s => set (w0 := s) end.
  set (urb0 := USBRequestSetStatus urb 0).
  assert (control_request (w_usb w0) pURB urb0 e d ps setup) as Hcr0.
  { split; try done. split; try done. apply lookup_insert_eq. }
  assert (at_rest w0) as Hrest0 by (by destruct Hrest as [[] ? ?]; split).
  wp_step. eapply wp_urb_at; [apply lookup_insert_eq|]. fold urb0.
  wp_step. unfold USBRequestGetEndpoint.
  wp_step. apply wp_assert; [by apply negb_true_iff, Z.eqb_neq|]. wp_step.
  wp_step. eapply wp_endpoint_at; [exact He|].
  unfold USBEndpointGetType. rewrite cr_type0. rewrite bool_decide_eq_true_2 by done.
  wp_step. wp_step. unfold USBRequestGetSetupData.
  wp_step. eapply wp_endpoint_at; [exact He|]. wp_step.
  apply wp_assert; [unfold USBEndpointGetType; rewrite cr_type0; done|].
  replace (m_pSetupData urb0) with (Some (ps, setup)) by done. wp_step.
  set (bIn := truthy (Z.land (bmRequestType setup) REQUEST_IN)) in *.
  assert (∀ w' r, control_done w0 w' pURB urb0 e d bIn env r → Q (negb (r =? -1)) w') as HQ0
    by (intros w' r Hdone; by apply (HQ w' w0 r)).
  assert (∀ w' r, control_done w0 w' pURB urb0 e d bIn env r →
    wp (if negb (negb (r =? -1)) then mret false else DataMemBarrier ;; mret true) Q w') as Hend.
  { intros w' r Hdone. specialize (λ w' H, HQ0 w' r H) as HQ1. destruct (r =? -1); cbn [negb] in *.
    - wp_step. by apply HQ1.
    - wp_step. reg_step. wp_step. apply HQ1.
      destruct Hdone as ([[] ? ?] & ? & ? & ? & ? & ? & ? & ? & ? & ? & ?).
      split; [done|]. split; [done|]. split; [done|]. do 3 eexists. done. }
  destruct bIn eqn:Ein.
  - specialize (cr_in0 eq_refl). wp_step. apply wp_assert; [by apply Z.ltb_lt|].
    eapply (wp_control_data pURB true); [done..|]. intros w' r Hdone. by apply Hend.
  - unfold USBRequestGetBufLen. destruct (Z.eqb_spec (m_nBufLen urb0) 0).
    + eapply (wp_control_nodata pURB false); [done..|]. intros w' r Hdone. by apply Hend.
    + change (m_nBufLen urb0) with (m_nBufLen urb) in *.
      eapply (wp_control_data pURB false); [done|done|done|simpl; lia|done|]. intros w' r Hdone. by apply Hend.
Qed.

(** What the callers of [submit_local] share: the request lives on the stack
    for the time of the blocking transfer and is read and destroyed after it. *)
Lemma wp_submit_local urb (Q : Z → W → Prop) w :
  let p := new_urb_ptr (w_usb w) in
  wp (DWHCIDeviceSubmitBlockingRequest spin client p)
    (λ ok w2, ∃ r, urbs (w_usb w2) !! p = Some r ∧ (ok = true → m_bStatus r = 1) ∧
       Q (if ok then s32 (m_nResultLen r) else -1)
         (w2 <| w_usb := (w_usb w2) <| urbs := delete p (urbs (w_usb w2)) |> |>))
    (w <| w_usb := upd_urb p urb (w_usb w) |>) →
  wp (submit_local spin client urb) Q w.
Proof.
  intros p Hsub. unfold submit_local, urb_new, urb_set. repeat wp_step.
  cbn [usb_get W_usb]. fold p. eapply wp_mono; [exact Hsub|].
  intros ok w2 (r & Hr & Hs & HQ). wp_step.
  assert (wp (if ok then
      urb ← urb_at p; r ← USBRequestGetResultLength urb; mret (s32 r)
    else mret (-1))
    (λ x w', x = (if ok then s32 (m_nResultLen r) else -1) ∧ w' = w2) w2) as Hret.
  { destruct ok; [|by wp_step]. wp_step. eapply wp_urb_at; [exact Hr|].
    unfold USBRequestGetResultLength. wp_step. wp_step.
    apply wp_assert; [by rewrite Hs|]. by repeat wp_step. }
  eapply wp_mono; [exact Hret|]. intros x w3 [-> ->].
  wp_step. eapply wp_urb_modify; [exact Hr|].
  wp_step. unfold urb_free. repeat wp_step.
  cbn [usb_get usb_put W_usb w_usb upd_urb]. unfold upd, upd_urb in *. simpl in *.
  rewrite delete_insert_eq. exact HQ.
Qed.

Lemma wp_ControlMessage pEndpoint e d ucRequestType ucRequest usValue usIndex pData usDataSize env
    (Q : Z → W → Prop) w :
  let bIn := truthy (Z.land ucRequestType REQUEST_IN) in
  at_rest w → target_ok e d →
  pEndpoint ≠ 0 → endpoints (w_usb w) !! pEndpoint = Some e →
  m_pDevice e ≠ 0 → devices (w_usb w) !! m_pDevice e = Some d →
  m_Type e = EndpointTypeControl → m_NextPID e = USBPIDSetup →
  0 <= usDataSize < 65536 → (0 < usDataSize → aligned pData) → (bIn = true → 0 < usDataSize) →
  w_env w = replicate (stage_total usDataSize) EnvInterrupt ++ env →
  (∀ w' l pid r, message_end e d bIn usDataSize (transactions n (w_trace w)) l pid r →
     transactions n (w_trace w') = l ++ transactions n (w_trace w) →
     w_usb w' = upd_endpoint pEndpoint (e <| m_NextPID := pid |>) (w_usb w) →
     w_env w' = replicate (stage_total usDataSize - length l) EnvInterrupt ++ env → at_rest w' →
     irq_masked (w_cpu w') = irq_masked (w_cpu w) → same_host (w_host w) (w_host w') →
     (r = -1 ∨ 0 <= r <= Z.max 8 usDataSize) → Q r w') →
  wp (DWHCIDeviceControlMessage spin client pEndpoint ucRequestType ucRequest usValue usIndex
        pData usDataSize) Q w.
Proof.
  intros bIn Hrest Htg Hp0 He Hd0 Hd Hty Hset Hlen Hal Hin Henv HQ.
  unfold DWHCIDeviceControlMessage, USBRequest.
  wp_step. wp_step. apply wp_assert; [by apply negb_true_iff, Z.eqb_neq|]. wp_step.
  apply wp_assert.
  { destruct (Z.eqb_spec usDataSize 0); [by rewrite orb_true_r|].
    destruct Hal as [Hal _]; [lia|]. by rewrite (proj2 (Z.eqb_neq _ _) Hal). }
  wp_step. set (setup := Build_TSetupData _ _ _ _ _).
  set (urb := Build_TUSBRequest _ _ _ _ _ _ _ _ _).
  apply wp_submit_local. destruct (new_urb_ptr_fresh (w_usb w)) as [Hpos Hfresh].
  set (p := new_urb_ptr (w_usb w)) in *.
  match goal with |- wp _ _ ?s => set (w1 := s) end.
  assert (control_request (w_usb w1) p urb e d setup_buffer setup) as Hcr.
  { split; try done.
    - split; try done; [apply lookup_insert_eq|lia].
    - split; [apply setup_buffer_nonnull|apply setup_buffer_aligned].
    - simpl. lia. }
  assert (at_rest w1) as Hrest1 by (by destruct Hrest as [[] ? ?]; split).
  eapply (wp_submit_control p urb e d setup_buffer setup _ env);
    [exact Hrest1|exact Htg|exact Hcr|exact Henv|].
  intros w2 w0 r Hu0 Hc0 Hh0 Ht0 (Hr2 & Hirq & Hhost & l & pid & urb' & Hend & Ht2 & Henv2 & Hu2 & Hr).
  rewrite Hu0 in Hu2. change (transactions n (w_trace w1)) with (transactions n (w_trace w)) in Ht0.
  rewrite Ht0 in Hend, Ht2. exists urb'.
  assert (w_usb w2 = upd_urb p urb' (upd_endpoint pEndpoint (e <| m_NextPID := pid |>) (w_usb w1))) as Hu3.
  { rewrite Hu2. unfold w1. unfold upd_urb, upd_endpoint, upd. simpl. by rewrite !insert_insert_eq. }
  rewrite Hu3. split; [apply lookup_insert_eq|].
  split; [intros Hok; destruct Hr as [-> | (_ & _ & ?)]; done|].
  assert ((if negb (r =? -1) then s32 (m_nResultLen urb') else -1) = r) as ->.
  { destruct Hr as [-> | (Hr & Hlen' & _)]; [done|]. rewrite (proj2 (Z.eqb_neq _ _)) by lia.
    cbn [negb]. rewrite Hlen'. simpl in Hr. cint. }
  destruct Hr2 as [[] ? ?]. destruct Hirq as (_ & Hm & _). rewrite Hh0 in Hhost.
  apply (HQ _ l pid); try done.
  - by eapply usb_restored.
  - simpl. by rewrite Hm, Hc0.
  - destruct Hr as [-> | [Hr _]]; [by left|right; exact Hr].
Qed.

(** C1. A control message, from the request object on the stack to its end, for
    every controller that ends its transactions, whatever status and size it
    reports for each of them. The message runs the stages of [message_end] in
    order, one interrupt each: SETUP with 8 bytes, DATA1 with the data in the
    direction of the request, and DATA1 with no data against it. It ends with
    the first stage that fails, which makes it return -1, or returns the number
    of bytes the data stage moved (of the setup packet when there is no data).
    The channel is free again, nobody waits, interrupts are as before and only
    the pid of the endpoint has changed: it is SETUP after a success and after a
    refused setup packet, but after a failure in a later stage it is the data
    pid that stage would have gone on with. *)
Theorem control_message pEndpoint e d ucRequestType ucRequest usValue usIndex pData usDataSize env w :
  let bIn := truthy (Z.land ucRequestType REQUEST_IN) in
  at_rest w → target_ok e d →
  pEndpoint ≠ 0 → endpoints (w_usb w) !! pEndpoint = Some e →
  m_pDevice e ≠ 0 → devices (w_usb w) !! m_pDevice e = Some d →
  m_Type e = EndpointTypeControl → m_NextPID e = USBPIDSetup →
  0 <= usDataSize < 65536 → (0 < usDataSize → aligned pData) → (bIn = true → 0 < usDataSize) →
  w_env w = replicate (stage_total usDataSize) EnvInterrupt ++ env →
  wp (DWHCIDeviceControlMessage spin client pEndpoint ucRequestType ucRequest usValue usIndex
        pData usDataSize)
    (λ r w', ∃ l pid, message_end e d bIn usDataSize (transactions n (w_trace w)) l pid r ∧
       transactions n (w_trace w') = l ++ transactions n (w_trace w) ∧
       w_usb w' = upd_endpoint pEndpoint (e <| m_NextPID := pid |>) (w_usb w) ∧
       w_env w' = replicate (stage_total usDataSize - length l) EnvInterrupt ++ env ∧ at_rest w' ∧
       irq_masked (w_cpu w') = irq_masked (w_cpu w) ∧ same_host (w_host w) (w_host w') ∧
       (r = -1 ∨ 0 <= r <= Z.max 8 usDataSize)) w.
Proof.
  intros. eapply wp_ControlMessage; [done..|]. intros w' l pid r. intros. by exists l, pid.
Qed.
End Control.

Section Bulk.
Context `{HW : Hardware} `{LA : Layout} `{!LayoutLaws}.
Context (spin : nat) (client : Z → Z → Z → Z → M W unit).
Context (n : Z) (sts szs : list transaction → Z) (HA : hw_answers n sts szs).
Context (Hends : ends_transactions sts szs).

(** The packets of a transfer of [size] bytes. *)
Definition packet_total (e : TUSBEndpoint) (size : Z) : Z :=
  (size + m_nMaxPacketSize e - 1) / m_nMaxPacketSize e.

(** A blocking request on a bulk endpoint. *)
Lemma wp_submit_bulk pURB urb e d env (Q : bool → W → Prop) w :
  at_rest n w → target_ok spin e d → request_ok (w_usb w) pURB urb e d →
  m_Type e = EndpointTypeBulk → data_pid (m_NextPID e) → aligned (m_pBuffer urb) →
  0 < m_nBufLen urb < 2 ^ 31 → w_env w = EnvInterrupt :: env →
  (∀ w' x w0, let l := x :: transactions n (w_trace w) in
     w_usb w0 = upd_urb pURB (urb <| m_bStatus := 0 |>) (w_usb w) →
     stage_end n w0 w' x pURB (m_bDirectionIn e) false (urb <| m_bStatus := 0 |>) e d (m_nBufLen urb) env
       (urb_after (sts l) (szs l) (m_nBufLen urb) false (urb <| m_bStatus := 0 |>))
       (e <| m_NextPID := next_pid (sts l) (szs l) (m_nBufLen urb) false e |>) →
     w_cpu w0 = w_cpu w → w_host w0 = w_host w → transactions n (w_trace w0) = transactions n (w_trace w) →
     Q (negb (failed (sts l))) w') →
  wp (DWHCIDeviceSubmitBlockingRequest spin client pURB) Q w.
Proof.
  intros Hrest Htg Hro Hty Hpid Hal Hsz Henv HQ.
  pose proof Hro as [Hu Hu0 He0 He Hd0 Hd].
  unfold DWHCIDeviceSubmitBlockingRequest.
  wp_step. reg_step. wp_step. apply wp_assert; [by apply negb_true_iff, Z.eqb_neq|].
  wp_step. eapply wp_urb_modify; [exact Hu|].
  match goal with |- wp _ _ ?s => set (w0 := s) end.
  set (urb0 := USBRequestSetStatus urb 0).
  wp_step. eapply wp_urb_at; [apply lookup_insert_eq|]. fold urb0.
  wp_step. unfold USBRequestGetEndpoint.
  wp_step. apply wp_assert; [by apply negb_true_iff, Z.eqb_neq|]. wp_step.
  wp_step. eapply wp_endpoint_at; [exact He|].
  unfold USBEndpointGetType. rewrite Hty. cbn [bool_decide decide_rel].
  rewrite bool_decide_eq_false_2 by done.
  wp_step. wp_step. apply wp_assert; [done|].
  wp_step. apply wp_assert; [apply Z.ltb_lt; simpl; lia|].
  assert (at_rest n w0) as Hrest0 by (by destruct Hrest as [[] ? ?]; split).
  eapply (wp_stage spin client n sts szs HA Hends pURB _ false urb0 e d (m_pBuffer urb) (m_nBufLen urb));
    [exact Hrest0|exact Htg| |done| |done|done|lia|lia|exact Henv|].
  { by constructor; [apply lookup_insert_eq|..]. }
  { unfold stage_range, stage_source. by destruct (m_NextPID e). }
  intros w' x l Hend. change (transactions n (w_trace w0)) with (transactions n (w_trace w)) in l.
  destruct (failed (sts l)) eqn:Hf; cbn [negb] in *.
  - wp_step. specialize (HQ w' x w0). fold l in HQ. rewrite Hf in HQ. by apply HQ.
  - wp_step. reg_step. wp_step. specialize (HQ (record EvBarrier w') x w0). fold l in HQ. rewrite Hf in HQ.
    apply HQ; try done. destruct Hend as [[[] ? ?] ? ? ? ? ? ? ?]. by constructor.
Qed.

Lemma wp_Transfer pEndpoint e d pBuffer nBufSize env (Q : Z → W → Prop) w :
  at_rest n w → target_ok spin e d →
  pEndpoint ≠ 0 → endpoints (w_usb w) !! pEndpoint = Some e →
  m_pDevice e ≠ 0 → devices (w_usb w) !! m_pDevice e = Some d →
  m_Type e = EndpointTypeBulk → data_pid (m_NextPID e) → aligned pBuffer →
  0 < nBufSize < 2 ^ 31 → w_env w = EnvInterrupt :: env →
  (∀ w' x pid r, let l := x :: transactions n (w_trace w) in
     transactions n (w_trace w') = l →
     moves x (if bool_decide (m_NextPID e = USBPIDData1) then 2 else 0) (m_bDirectionIn e) nBufSize
       (packet_total e nBufSize) e d →
     (if failed (sts l) then r = -1 ∧ pid = m_NextPID e
      else r = nBufSize - bytes_left (szs l) ∧ 0 <= r <= nBufSize ∧
           pid = alternate (m_NextPID e) (packet_total e nBufSize - packets_left (szs l)) ∧
           0 <= packets_left (szs l) <= packet_total e nBufSize) →
     w_usb w' = upd_endpoint pEndpoint (e <| m_NextPID := pid |>) (w_usb w) →
     w_env w' = env → at_rest n w' → irq_masked (w_cpu w') = irq_masked (w_cpu w) →
     same_host (w_host w) (w_host w') → Q r w') →
  wp (DWHCIDeviceTransfer spin client pEndpoint pBuffer nBufSize) Q w.
Proof.
  intros Hrest Htg Hp0 He Hd0 Hd Hty Hpid Hal Hsz Henv HQ.
  unfold DWHCIDeviceTransfer, USBRequest.
  wp_step. wp_step. apply wp_assert; [by apply negb_true_iff, Z.eqb_neq|]. wp_step.
  apply wp_assert.
  { destruct Hal as [Hal _]. by rewrite (proj2 (Z.eqb_neq _ _) Hal). }
  wp_step. set (urb := Build_TUSBRequest _ _ _ _ _ _ _ _ _).
  apply wp_submit_local. destruct (new_urb_ptr_fresh (w_usb w)) as [Hpos Hfresh].
  set (p := new_urb_ptr (w_usb w)) in *.
  match goal with |- wp _ _ ?s => set (w1 := s) end.
  assert (request_ok (w_usb w1) p urb e d) as Hro
    by (split; try done; [apply lookup_insert_eq|lia]).
  assert (at_rest n w1) as Hrest1 by (by destruct Hrest as [[] ? ?]; split).
  eapply (wp_submit_bulk p urb e d env); try done.
  intros w2 x w0 l Hu0 Hend Hc0 Hh0 Ht0. change (transactions n (w_trace w1)) with (transactions n (w_trace w)) in *.
  destruct Hend as [[[] ? ?] Henv2 (_ & Hm & _) Hhost Ht2 Hmv Hu2 _].
  rewrite Ht0 in Ht2. rewrite Hu0 in Hu2. rewrite Hh0 in Hhost.
  pose proof Hmv as (_ & B2 & B3 & _). fold l in Ht2. assert (0 <= nBufSize) as Hn0 by (clear -Hsz; lia).
  pose proof (bytes_moved client sts szs Hends x (transactions n (w_trace w)) nBufSize Hn0 B2) as Hb.
  assert (0 < m_nMaxPacketSize e) as Hmps by apply Htg.
  pose proof (packets_sent client sts szs Hends x (transactions n (w_trace w)) nBufSize (m_nMaxPacketSize e) false
    Hn0 Hmps B3) as Hp.
  pose proof (et_packets _ _ Hends x (transactions n (w_trace w))) as Hp'.
  specialize (Hp' ltac:(rewrite B3; apply Z.mod_pos_bound; lia)). fold l in Hb, Hp, Hp'.
  change (stage_packet_count nBufSize (m_nMaxPacketSize e) false) with (packet_total e nBufSize) in *.
  set (urb' := urb_after (sts l) (szs l) nBufSize false (urb <| m_bStatus := 0 |>)) in *.
  assert (w_usb w2 = upd_urb p urb' (upd_endpoint pEndpoint
    (e <| m_NextPID := next_pid (sts l) (szs l) nBufSize false e |>) (w_usb w1))) as Hu3.
  { rewrite Hu2. unfold w1, upd_urb, upd_endpoint, upd. simpl. by rewrite !insert_insert_eq. }
  exists urb'. rewrite Hu3. split; [apply lookup_insert_eq|].
  assert (s32 (nBufSize - bytes_left (szs l)) = nBufSize - bytes_left (szs l)) as Hs by cint.
  assert (moves x (if bool_decide (m_NextPID e = USBPIDData1) then 2 else 0) (m_bDirectionIn e) nBufSize
       (packet_total e nBufSize) e d) as Hmv'.
  { unfold stage_pid in Hmv. unfold data_pid in Hpid. by destruct (m_NextPID e). }
  specialize (HQ (w2 <| w_usb := (upd_urb p urb' (upd_endpoint pEndpoint
      (e <| m_NextPID := next_pid (sts l) (szs l) nBufSize false e |>) (w_usb w1)))
      <| urbs := delete p (urbs (upd_urb p urb' (upd_endpoint pEndpoint
      (e <| m_NextPID := next_pid (sts l) (szs l) nBufSize false e |>) (w_usb w1)))) |> |>)
    x (next_pid (sts l) (szs l) nBufSize false e)).
  unfold next_pid, urb', urb_after in *. fold l in HQ. destruct (failed (sts l)) eqn:Hf; cbn [negb].
  - split; [done|]. apply HQ; try done; [by eapply usb_restored|simpl; by rewrite Hm, Hc0].
  - split; [done|]. simpl m_nResultLen. rewrite Hs. apply HQ; try done.
    + split; [done|]. split; [lia|]. split; [|lia]. unfold data_pid in Hpid. by destruct (m_NextPID e).
    + by eapply usb_restored.
    + simpl. by rewrite Hm, Hc0.
Qed.

(** C2. A bulk transfer, from the request object on the stack to its end, for
    every controller that ends its transactions: one stage and one interrupt, a
    transaction of the whole size in the endpoint's direction with its current
    pid. If the controller reports an error the result is -1 and the pid stays;
    otherwise the result is the number of bytes moved, and DATA0 and DATA1 have
    alternated once for each packet that was sent. Nothing else of the objects
    changes and the driver is at rest again. *)
Theorem bulk_transfer pEndpoint e d pBuffer nBufSize env w :
  at_rest n w → target_ok spin e d →
  pEndpoint ≠ 0 → endpoints (w_usb w) !! pEndpoint = Some e →
  m_pDevice e ≠ 0 → devices (w_usb w) !! m_pDevice e = Some d →
  m_Type e = EndpointTypeBulk → data_pid (m_NextPID e) → aligned pBuffer →
  0 < nBufSize < 2 ^ 31 → w_env w = EnvInterrupt :: env →
  wp (DWHCIDeviceTransfer spin client pEndpoint pBuffer nBufSize)
    (λ r w', ∃ x pid, let l := x :: transactions n (w_trace w) in
       transactions n (w_trace w') = l ∧
       moves x (if bool_decide (m_NextPID e = USBPIDData1) then 2 else 0) (m_bDirectionIn e) nBufSize
         (packet_total e nBufSize) e d ∧
       (if failed (sts l) then r = -1 ∧ pid = m_NextPID e
        else r = nBufSize - bytes_left (szs l) ∧ 0 <= r <= nBufSize ∧
             pid = alternate (m_NextPID e) (packet_total e nBufSize - packets_left (szs l)) ∧
             0 <= packets_left (szs l) <= packet_total e nBufSize) ∧
       w_usb w' = upd_endpoint pEndpoint (e <| m_NextPID := pid |>) (w_usb w) ∧
       w_env w' = env ∧ at_rest n w' ∧
       irq_masked (w_cpu w') = irq_masked (w_cpu w) ∧ same_host (w_host w) (w_host w')) w.
Proof.
  intros. eapply wp_Transfer; [done..|]. intros w' x pid r l. intros. by exists x, pid.
Qed.
End Bulk.

(** ** A concrete driver

    One high-speed device at address 1 on the root port, eight channels, and
    two controllers: one that completes every transaction and one that stalls
    every transaction but the first. *)
Module Demo.
Import StageDemo.

(** Register [a] of a controller whose channel 0 reports [st], everything
    transferred. *)
Definition regs (st a : Z) : Z :=
  if a =? DWHCI_HOST_CHAN_INT 0 then st
  else if a =? DWHCI_CORE_INT_STAT then 0x02000000
  else if a =? DWHCI_HOST_ALLCHAN_INT then 1 else 0.

Definition works : Hardware := {| hw_read _ a := regs 0x23 a; hw_power_on _ _ := true |}.

(** A controller that stalls every transaction but the first. *)
Definition stall_status (l : list transaction) : Z := if (length l <=? 1)%nat then 0x23 else 0x0A.
Definition stalls : Hardware :=
  {| hw_read h a := regs (stall_status (transactions 0 h)) a; hw_power_on _ _ := true |}.

Definition world (interrupts : nat) : W :=
  {| w_trace := []; w_cpu := {| s_nCriticalLevel := 0; s_bWereEnabled := false; irq_masked := false |};
     w_usb := {| devices := {[ 1 := dev ]}; endpoints := {[ 2 := ep0 ]}; urbs := ∅ |};
     w_host := {| m_nChannels := 8; m_nChannelAllocated := 0;
                  m_StageData := replicate 16 blank_stage; m_bWaiting := false |};
     w_env := replicate interrupts EnvInterrupt |}.
Definition no_client (_ _ _ _ : Z) : M W unit := mret tt.

(** GET_DESCRIPTOR (device, 18 bytes). *)
Definition get_device_descriptor (HW : Hardware) : M W Z :=
  DWHCIDeviceControlMessage (HW := HW) 0 no_client 2 REQUEST_IN GET_DESCRIPTOR 0x100 0 0x300000 18.

Lemma works_answers : hw_answers (HW := works) 0 (λ _, 0x23) (λ _, 0).
Proof. constructor; intros h; done. Qed.
Lemma works_ends : ends_transactions (λ _, 0x23) (λ _, 0).
Proof.
  split; intros x l; [done|change (packets_left _) with 0; lia|change (bytes_left _) with 0; lia].
Qed.

Lemma stalls_answers : hw_answers (HW := stalls) 0 stall_status (λ _, 0).
Proof.
  constructor; intros h; try done. simpl. unfold regs, stall_status. simpl. by destruct (_ <=? _)%nat.
Qed.
Lemma stalls_ends : ends_transactions stall_status (λ _, 0).
Proof.
  split; intros x l; [|change (packets_left _) with 0; lia|change (bytes_left _) with 0; lia].
  unfold stall_status. by destruct (_ <=? _)%nat.
Qed.

Lemma world_at_rest k : at_rest 0 (world k).
Proof. by constructor; [constructor|..]. Qed.
Lemma target : target_ok (HW := stalls) 0 ep0 dev.
Proof. constructor; try done. intros sd Hsd p Hp. by rewrite Hsd in Hp. Qed.

(** A stalled data stage: the message fails, and its endpoint stays at DATA1. *)
Lemma control_message_witness :
  wp (get_device_descriptor stalls) (λ r w', r = -1 ∧ at_rest 0 w' ∧ w_env w' = [EnvInterrupt] ∧
    w_usb w' = upd_endpoint 2 (ep0 <| m_NextPID := USBPIDData1 |>) (w_usb (world 3))) (world 3).
Proof.
  eapply wp_mono; [exact (control_message (HW := stalls) 0 no_client 0 stall_status (λ _, 0) stalls_answers stalls_ends
    2 ep0 dev REQUEST_IN GET_DESCRIPTOR 0x100 0 0x300000 18 [] (world 3)
    (world_at_rest 3) target ltac:(done) eq_refl ltac:(done) eq_refl eq_refl eq_refl ltac:(lia) ltac:(done)
    ltac:(done) eq_refl)|].
  intros r w' (l & pid & Hend & _ & Hu & Henv & Hrest & _). cbn [world w_trace transactions] in Hend.
  inversion Hend; subst; try discriminate. done.
Defined.

(** A controller that moves 100 of 150 bytes, in two of three packets. *)
Definition short_size (l : list transaction) : Z :=
  match l with x :: _ => if (tr_bytes x =? 150) && (1 <=? tr_packets x) then 0x80032 else 0 | [] => 0 end.
Definition short : Hardware :=
  {| hw_read h a := if a =? DWHCI_HOST_CHAN_XFER_SIZ 0 then short_size (transactions 0 h) else regs 0x23 a;
     hw_power_on _ _ := true |}.
Lemma short_size_range x l :
  short_size (x :: l) = 0 ∨ short_size (x :: l) = 0x80032 ∧ tr_bytes x = 150 ∧ 1 <= tr_packets x.
Proof.
  unfold short_size. destruct (Z.eqb_spec (tr_bytes x) 150), (Z.leb_spec 1 (tr_packets x)); auto.
Qed.
Lemma short_answers : hw_answers (HW := short) 0 (λ _, 0x23) short_size.
Proof.
  constructor; intros h; try done. simpl. destruct (transactions 0 h) as [|x l]; [done|].
  by destruct (short_size_range x l) as [-> | (-> & _)].
Qed.
Lemma short_ends : ends_transactions (λ _, 0x23) short_size.
Proof.
  split; intros x l; [done|intros H; destruct (short_size_range x l) as [-> | (-> & ? & ?)]..].
  - by change (packets_left 0) with 0.
  - by change (packets_left 0x80032) with 1.
  - by change (bytes_left 0) with 0.
  - change (bytes_left 0x80032) with 50. lia.
Qed.
Definition bulk_world : W := (world 1) <| w_usb := usb |>.
Lemma bulk_world_at_rest : at_rest 0 bulk_world.
Proof. by constructor; [constructor|..]. Qed.
Lemma bulk_target : target_ok (HW := short) 0 bulk dev.
Proof. constructor; try done. intros sd Hsd p Hp. by rewrite Hsd in Hp. Qed.

(** Two packets of three leave the endpoint as it was. *)
Lemma bulk_transfer_witness :
  wp (DWHCIDeviceTransfer (HW := short) 0 no_client 3 0x300000 150)
    (λ r w', r = 100 ∧ w_usb w' = upd_endpoint 3 bulk usb ∧ w_env w' = [] ∧ at_rest 0 w') bulk_world.
Proof.
  eapply wp_mono; [apply (bulk_transfer (HW := short) 0 no_client 0 (λ _, 0x23) short_size short_answers short_ends
           3 bulk dev 0x300000 150 [] bulk_world bulk_world_at_rest bulk_target); done|].
  intros r w' (x & pid & Ht & (_ & Hb & Hp & _) & Hr & Hu & Henv & Hrest & _). cbn beta zeta in *.
  assert (szs_val : short_size (x :: transactions 0 (w_trace bulk_world)) = 0x80032).
  { unfold short_size. rewrite Hb, Hp. done. }
  rewrite szs_val in Hr. destruct Hr as (-> & _ & -> & _). done.
Defined.
End Demo.
