(* ===== verification/Scenarios.v ===== *)
(** * Concrete runs of the host controller driver

    The theorems on dwhcidevice.c applied to a concrete world: eight channels,
    a high-speed device with a control and a bulk endpoint, and a controller
    that identifies itself as the expected core. *)
From S2P Require Import Prelude Register Sync FrameSched Endpoint StageData HostState.
From S2P Require Import ChanRegs DwhciCore DwhciXfer DwhciStage DwhciControl.

Module Scenario.
Import StageDemo Demo.

(** The core of the BCM2835: vendor id, internal DMA, eight channels. *)
Definition bcm2835 : Hardware :=
  {| hw_read _ a := if a =? DWHCI_CORE_VENDOR_ID then 0x4F54280A
                    else if a =? DWHCI_CORE_HW_CFG2 then 0x1C010 else 0xFFFFFFFF;
     hw_power_on _ _ := true |}.
#[export] Instance bcm2835_laws : CoreLaws (HW := bcm2835).
Proof. split; intros h; vm_compute; done. Qed.

(** A root port on which nothing is attached. *)
Definition empty_port : RootPort := {| DWHCIRootPortInitialize := mret false |}.

(** The bulk request's stage data on channel 0. *)
Definition bulk_world : W :=
  {| w_trace := []; w_cpu := {| s_nCriticalLevel := 0; s_bWereEnabled := false; irq_masked := false |};
     w_usb := usb;
     w_host := {| m_nChannels := 8; m_nChannelAllocated := 5;
                  m_StageData := replicate 16 bulk_stage; m_bWaiting := false |};
     w_env := [] |}.

Definition reset_world : W :=
  bulk_world <| w_host := (w_host bulk_world) <| m_nChannels := 0 |> |>.

Lemma wait_for_bit_bounded_witness :
  (∃ k, Z.of_nat k < 10 ∧ reached 1 true (wait_read (HW := bcm2835) k DWHCI_HOST_PORT []) = true ∧
     ∃ r h, DWHCIDeviceWaitForBit (HW := bcm2835) (DWHCIRegister DWHCI_HOST_PORT) 1 true 10 bulk_world =
            Ok ((true, r), mmio_put h bulk_world)) ∨
  (∃ r, DWHCIDeviceWaitForBit (HW := bcm2835) (DWHCIRegister DWHCI_HOST_PORT) 1 true 10 bulk_world =
        Ok ((false, r), mmio_put (waits (HW := bcm2835) 10 DWHCI_HOST_PORT []) bulk_world)).
Proof.
  destruct (wait_for_bit_bounded (HW := bcm2835) (DWHCIRegister DWHCI_HOST_PORT) 1 true 10 bulk_world
    ltac:(lia) ltac:(lia)) as [(k & Hk & Hr & _ & E) | (_ & r & E)].
  - left. exists k. split; [exact Hk|]. split; [exact Hr|]. eexists _, _. exact E.
  - right. exists r. exact E.
Defined.

Lemma channel_allocator_witness :
  wp DWHCIDeviceAllocateChannel (λ n w', channels_wf (w_host w') ∧ w_usb w' = usb) bulk_world.
Proof.
  eapply wp_mono; [apply (channel_allocator bulk_world)|].
  - cbv. repeat split; done.
  - cbv. repeat split; done.
  - intros n w' (H1 & _ & H2 & _). split; [exact H1|exact H2].
Defined.

Lemma initialize_order_witness :
  wp (DWHCIDeviceInitialize (HW := bcm2835) (RP := empty_port)) (λ _ w',
    ∃ vid, if negb (vid =? 0x4F54280A) then
      w_trace w' = [EvRead DWHCI_CORE_VENDOR_ID vid; EvBarrier] else True) reset_world.
Proof.
  eapply wp_mono; [apply (initialize_order (HW := bcm2835) (RP := empty_port) reset_world)|].
  - reflexivity.
  - intros w1 Hw1. split; [by exists []|reflexivity].
  - intros ok w' [vid H]. exists vid. destruct (negb (vid =? 0x4F54280A)); [apply H|exact I].
Defined.

Lemma start_channel_registers_witness :
  wp (DWHCIDeviceStartChannel (HW := bcm2835) 1 0) (λ _ w', ∃ c x new,
    w_trace w' = EvWrite (DWHCI_HOST_CHAN_CHARACTER 0) c :: new ++ [] ∧
    EvWrite (DWHCI_HOST_CHAN_XFER_SIZ 0) x ∈ new ∧ field 0 19 x = 150 ∧
    DWHCI_HOST_CHAN_XFER_SIZ_PACKETS x = 3) bulk_world.
Proof.
  eapply wp_mono; [apply (start_channel_registers (HW := bcm2835) 1 0 bulk_stage bulk dev bulk_world)|].
  - by constructor.
  - intros p Hp. discriminate Hp.
  - simpl. lia.
  - simpl. lia.
  - simpl. lia.
  - simpl. lia.
  - simpl. lia.
  - intros _ w' (c & x & s & new & H1 & _ & H2 & _ & _ & _ & (H3 & H4 & _) & _).
    exists c, x, new. split; [exact H1|split; [exact H2|split; [exact H3|exact H4]]].
Defined.
End Scenario.
