(* ===== verification/DwhciAsync.v ===== *)
(** * Asynchronous requests

    The requests of the drivers whose devices send reports: submitted without
    waiting, completed by the interrupt handler, which calls the request's
    routine. An interrupt endpoint that has nothing to say is asked again after
    its interval, which a kernel timer measures. *)
From S2P Require Import Prelude Register Sync FrameSched Endpoint StageData HostState.
From S2P Require Import ChanRegs DwhciCore DwhciXfer DwhciStage DwhciControl.

Section Async.
Context `{HW : Hardware} `{LA : Layout} `{!LayoutLaws}.
Context (spin : nat) (client : Z → Z → Z → Z → M W unit).

(** A request for a bulk or interrupt endpoint of a high-speed device. *)
Record async_request (u : Usb) (pURB : Z) (urb : TUSBRequest) (e : TUSBEndpoint) (d : TUSBDevice) : Prop := {
  ar_request : request_ok u pURB urb e d;
  ar_type : m_Type e = EndpointTypeBulk ∨ m_Type e = EndpointTypeInterrupt;
  ar_pid : m_NextPID e ≠ USBPIDSetup;
  ar_mps : 0 < m_nMaxPacketSize e < 65536;
  ar_speed : m_Speed d = USBSpeedHigh;
  ar_buffer : aligned (m_pBuffer urb);
  ar_length : 0 < m_nBufLen urb < 2 ^ 31
}.

(** Channel [n] works on it: its transaction runs, or waits for the timer. *)
Record in_progress (n pURB : Z) (urb : TUSBRequest) (e : TUSBEndpoint) (d : TUSBDevice)
    (sd : TDWHCITransferStageData) (w : W) : Prop := {
  ip_host : host_ok w;
  ip_range : 0 <= n < m_nChannels (w_host w);
  ip_allocated : allocated (w_host w) n = true;
  ip_stage : m_StageData (w_host w) !! Z.to_nat n = Some sd;
  ip_fresh : fresh_stage sd n pURB (m_bDirectionIn e) false urb e d (m_pBuffer urb) (m_nBufLen urb);
  ip_sub : m_nSubState sd = StageSubStateWaitForTransactionComplete;
  ip_scheduler : m_bFrameSchedulerUsed sd = false;
  ip_request : async_request (w_usb w) pURB urb e d
}.
Definition in_state (st : TStageState) n pURB urb e d (w : W) : Prop :=
  ∃ sd, in_progress n pURB urb e d sd w ∧ m_nState sd = st.
Definition transferring := in_state StageStateNoSplitTransfer.
Definition delayed := in_state StageStatePeriodicDelay.

Lemma high_speed_split d : m_Speed d = USBSpeedHigh → needs_split d = false.
Proof. intros E. unfold needs_split. rewrite E. by destruct (m_ucHubAddress d =? 0). Qed.
Lemma high_speed_scheduler e d : m_Speed d = USBSpeedHigh → scheduler_for e d = None.
Proof.
  intros E. unfold scheduler_for. rewrite high_speed_split by done. rewrite E. by destruct (m_ucHubAddress d =? 0).
Qed.
Lemma async_not_isochronous u pURB urb e d : async_request u pURB urb e d → m_Type e ≠ EndpointTypeIsochronous.
Proof. intros [_ [E|E] _ _ _ _ _]; by rewrite E. Qed.
Lemma async_range n u pURB urb e d : async_request u pURB urb e d →
  stage_range n false urb e = (m_pBuffer urb, m_nBufLen urb).
Proof. intros [_ _ Hp _ _ _ _]. unfold stage_range, stage_source. by destruct (m_NextPID e). Qed.

(** *** Submitting *)

Definition cleared (urb : TUSBRequest) : TUSBRequest := urb <| m_bStatus := 0 |>.

(** The transaction of a request: the endpoint's pid and direction, the whole
    buffer. *)
Definition request_transaction (urb : TUSBRequest) (e : TUSBEndpoint) (d : TUSBDevice) (x : transaction) : Prop :=
  moves x (if bool_decide (m_NextPID e = USBPIDData1) then 2 else 0) (m_bDirectionIn e) (m_nBufLen urb)
    ((m_nBufLen urb + m_nMaxPacketSize e - 1) / m_nMaxPacketSize e) e d.

(** One more transaction of channel [n], the request's. *)
Definition sends_request (n : Z) (urb : TUSBRequest) (e : TUSBEndpoint) (d : TUSBDevice)
    (x : transaction) (w w' : W) : Prop :=
  transactions n (w_trace w') = x :: transactions n (w_trace w) ∧
  timers n (w_trace w') = timers n (w_trace w) ∧ request_transaction urb e d x.

Definition submitted pURB urb e d (w : W) (n : Z) (w' : W) : Prop :=
  (∃ x, sends_request n urb e d x w w') ∧
  w_usb w' = upd_urb pURB (cleared urb) (w_usb w) ∧ w_env w' = w_env w ∧
  same_irq (w_cpu w) (w_cpu w') ∧ transferring n pURB (cleared urb) e d w' ∧
  Z.land (m_nChannelAllocated (w_host w')) (not32 (Z.shiftl 1 n)) = m_nChannelAllocated (w_host w).

Lemma async_cleared pURB urb e d u :
  async_request u pURB urb e d → async_request (upd_urb pURB (cleared urb) u) pURB (cleared urb) e d.
Proof. intros [[] ? ? ? ? ? ?]. split; try done. split; try done. simpl. apply lookup_insert_eq. Qed.

(** The driver's checks, then the stage. *)
Lemma wp_submit_checks pURB urb e d (Q : bool → W → Prop) w :
  async_request (w_usb w) pURB urb e d →
  (∀ t, (∀ n, same_channel n (w_trace w) t) →
     wp (DWHCIDeviceTransferStageAsync spin pURB (m_bDirectionIn e) false)
          (λ b w', ∀ t', (∀ n, same_channel n (w_trace w') t') → Q b (w' <| w_trace := t' |>))
          (w <| w_trace := t |> <| w_usb := upd_urb pURB (cleared urb) (w_usb w) |>)) →
  wp (DWHCIDeviceSubmitAsyncRequest spin pURB) Q w.
Proof.
  intros [[Hu Hu0 He0 He Hd0 Hd] Hty Hpid Hm Hsp Hb Hl] HQ.
  unfold DWHCIDeviceSubmitAsyncRequest. wp_step. reg_step. wp_step. apply wp_assert; [by apply negb_true_iff, Z.eqb_neq|].
  wp_step. eapply wp_urb_at; [exact Hu|]. wp_step. unfold USBRequestGetEndpoint. wp_step.
  apply wp_assert; [by apply negb_true_iff, Z.eqb_neq|]. wp_step. wp_step. eapply wp_endpoint_at; [exact He|].
  wp_step. apply wp_assert; [unfold USBEndpointGetType; destruct Hty as [E|E]; by rewrite E|].
  wp_step. apply wp_assert; [unfold USBRequestGetBufLen; apply Z.ltb_lt; lia|].
  wp_step. eapply wp_urb_modify; [exact Hu|]. wp_step.
  eapply wp_mono; [apply HQ; intros i; by apply (silent_same i [EvBarrier]), list.Forall_singleton|].
  intros b w' Hb'. wp_step. reg_step. wp_step. apply Hb'. intros i. by apply (silent_same i [EvBarrier]), list.Forall_singleton.
Qed.

(** The packets of a request. *)
Lemma fresh_packets sd n pURB bIn urb e d p size :
  fresh_stage sd n pURB bIn false urb e d p size → 0 < m_nMaxPacketSize e → needs_split d = false →
  m_nPackets sd = (size + m_nMaxPacketSize e - 1) / m_nMaxPacketSize e ∧
  m_nPacketsPerTransaction sd = m_nPackets sd ∧ m_nBytesPerTransaction sd = size.
Proof.
  intros [] Hm Hs. split; [by apply packet_count|]. by rewrite fs_ppt, fs_bytes, Hs.
Qed.

Lemma wp_SubmitAsync pURB urb e d n (Q : bool → W → Prop) w :
  host_ok w → async_request (w_usb w) pURB urb e d → free_channel (w_host w) = Some n →
  (∀ h, Z.testbit (u32 (hw_read h (DWHCI_HOST_CHAN_CHARACTER n))) 31 = false) →
  (∀ w', submitted pURB urb e d w n w' → Q true w') →
  wp (DWHCIDeviceSubmitAsyncRequest spin pURB) Q w.
Proof.
  intros Hok Har Hfree Hidle HQ. pose proof Hok as [Hc Hwf Hlen].
  apply (wp_submit_checks pURB urb e d); [done|]. intros t Ht. apply async_cleared in Har.
  destruct (idle_host_restored n w Hwf Hlen Hfree) as (Hn & Hwf' & Hal & Hback). pose proof Hwf as [Hch _].
  pose proof Har as [Hro Hty Hpid Hm Hsp Hb Hl].
  eapply (wp_TransferStageAsync spin client n pURB _ false (cleared urb) e d (m_pBuffer urb) (m_nBufLen urb));
    [done|exact Hfree|exact Hro|by intros ?|exact (async_range n _ pURB _ _ _ Har)|done|simpl in Hl; lia|done
    |by apply high_speed_split|exact (async_not_isochronous _ _ _ _ _ Har)|done| |exact Hidle|].
  { intros sd Hsd. rewrite high_speed_scheduler in Hsd by done. intros q Hq. congruence. }
  intros sd t' c x (Hfresh & Hst & Hsub & Hfs) Hirq Hx Htm Hmv t'' Ht''.
  destruct (fresh_packets _ _ _ _ _ _ _ _ _ Hfresh) as (Hp1 & Hp2 & Hp3); [lia|by apply high_speed_split|].
  apply HQ. split_and!; [|done|done|exact Hirq| |exact Hback].
  { exists x. split; [|split].
    - cbn [w_trace upd]. rewrite (proj1 (Ht'' n)). cbn [w_trace]. rewrite Hx. f_equal. apply Ht.
    - cbn [w_trace upd]. rewrite (proj2 (Ht'' n)). cbn [w_trace]. rewrite Htm. apply Ht.
    - unfold stage_pid in Hmv. unfold request_transaction. rewrite Hp3, Hp2, Hp1 in Hmv. simpl in Hpid. by destruct (m_NextPID e). }
  exists sd. split; [|exact Hst]. split.
  - split; [apply Hirq|exact Hwf'|simpl; by rewrite length_insert].
  - exact Hn.
  - exact Hal.
  - simpl. apply list_lookup_insert_eq. lia.
  - exact Hfresh.
  - exact Hsub.
  - by rewrite Hfs, high_speed_scheduler.
  - exact Har.
Qed.

(** With every channel busy the request is refused and nothing changes. *)
Lemma wp_SubmitAsync_busy pURB urb e d (Q : bool → W → Prop) w :
  host_ok w → async_request (w_usb w) pURB urb e d → free_channel (w_host w) = None →
  (∀ w', w_usb w' = upd_urb pURB (cleared urb) (w_usb w) → w_host w' = w_host w →
     same_irq (w_cpu w) (w_cpu w') → w_env w' = w_env w →
     (∀ i, same_channel i (w_trace w) (w_trace w')) → Q false w') →
  wp (DWHCIDeviceSubmitAsyncRequest spin pURB) Q w.
Proof.
  intros [Hc Hwf Hlen] Har Hfree HQ. apply (wp_submit_checks pURB urb e d); [done|]. intros t Htc.
  pose proof Har as [[] _ _ _ _ _ _]. pose proof Hwf as [Hch _].
  unfold DWHCIDeviceTransferStageAsync. wp_step. apply wp_assert; [by apply negb_true_iff, Z.eqb_neq|].
  wp_step. apply wp_AllocateChannel; [done|done|].
  change (free_channel (w_host (w <| w_trace := t |> <| w_usb := upd_urb pURB (cleared urb) (w_usb w) |>)))
    with (free_channel (w_host w)). rewrite Hfree.
  wp_step. apply wp_gets. cbn [after_crit w_host m_nChannels upd].
  rewrite (proj2 (Z.leb_le _ _)) by (unfold DWHCI_MAX_CHANNELS; simpl; lia). wp_step. intros t' Ht'.
  apply HQ; [done|done|by apply same_irq_exit, same_irq_refl|done|].
  intros i. eapply same_channel_trans; [apply Htc|]. eapply same_channel_trans; [|apply Ht'].
  apply (silent_same i [EvBarrier; EvBarrier]). by repeat constructor.
Qed.

(** *** The interrupt *)

Context (n : Z) (sts szs : list transaction → Z) (HA : hw_answers n sts szs).

(** What the controller reports is within what it was asked, and no packet of
    an isochronous transfer. *)
Record keeps_limits : Prop := {
  kl_data l : not_mdata (szs l);
  kl_packets x l : 0 <= tr_packets x → 0 <= packets_left (szs (x :: l)) <= tr_packets x;
  kl_bytes x l : 0 <= tr_bytes x → 0 <= bytes_left (szs (x :: l)) <= tr_bytes x
}.
Context (Hlim : keeps_limits).

(** The transaction under way is [x], after [l]. *)
Definition on_wire (urb : TUSBRequest) (e : TUSBEndpoint) (d : TUSBDevice) (x : transaction)
    (l : list transaction) (w : W) : Prop :=
  transactions n (w_trace w) = x :: l ∧ request_transaction urb e d x.

Lemma in_progress_pre pURB urb e d sd x l w :
  in_progress n pURB urb e d sd w → m_nState sd = StageStateNoSplitTransfer → on_wire urb e d x l w →
  stage_pre n (sts (x :: l)) (szs (x :: l)) sts szs w sd pURB (m_bDirectionIn e) false urb e d
    (m_pBuffer urb) (m_nBufLen urb).
Proof.
  intros Hip Hst [Hx (_ & Hb & Hp & _)]. pose proof Hip as []. pose proof ip_request0 as [Hro Hty Hpid Hm Hsp Hbuf Hl].
  destruct (fresh_packets _ _ _ _ _ _ _ _ _ ip_fresh0) as (Hpk & _ & _); [lia|by apply high_speed_split|].
  pose proof (kl_bytes Hlim x l) as B. rewrite Hb in B. specialize (B ltac:(apply Z.mod_pos_bound; lia)).
  pose proof (kl_packets Hlim x l) as P. rewrite Hp in P. specialize (P ltac:(apply Z.mod_pos_bound; lia)).
  set (k := (m_nBufLen urb + m_nMaxPacketSize e - 1) / m_nMaxPacketSize e) in *.
  assert (0 <= k) by (unfold k; apply Z.div_pos; lia).
  pose proof (Z.mod_le (m_nBufLen urb) (2 ^ 19)). pose proof (Z.mod_le k (2 ^ 10)).
  pose proof ip_fresh0 as []. split; try done.
  - by split; rewrite Hx.
  - split; [done|]. split; [done|]. split; [done|]. by rewrite ip_scheduler0, high_speed_scheduler.
  - by apply high_speed_split.
  - by eapply async_not_isochronous.
  - intros _. apply (kl_data Hlim).
  - lia.
  - intros _. lia.
  - lia.
  - lia.
Qed.

(** The objects when a request that was answered [st] and [siz] has ended: on
    success the length of what came and the endpoint's next toggle. *)
Definition async_after (st siz pURB : Z) (urb : TUSBRequest) (e : TUSBEndpoint) (u : Usb) : Usb :=
  if failed st then upd_urb pURB (urb <| m_bStatus := 0 |>) u
  else upd_urb pURB (urb <| m_nResultLen := m_nBufLen urb - bytes_left siz |> <| m_bStatus := 1 |>)
         (upd_endpoint (m_pEndpoint urb)
            (e <| m_NextPID := alternate (m_NextPID e)
               ((m_nBufLen urb + m_nMaxPacketSize e - 1) / m_nMaxPacketSize e - packets_left siz) |>) u).

Definition completed (st siz : Z) pURB urb e (w w' : W) : Prop :=
  w_usb w' = async_after st siz pURB urb e (w_usb w) ∧ same_channel n (w_trace w) (w_trace w') ∧
  w_env w' = w_env w ∧ same_irq (w_cpu w) (w_cpu w') ∧
  m_nChannelAllocated (w_host w') = Z.land (m_nChannelAllocated (w_host w)) (not32 (Z.shiftl 1 n)) ∧
  m_nChannels (w_host w') = m_nChannels (w_host w) ∧ m_bWaiting (w_host w') = m_bWaiting (w_host w).

Lemma in_progress_after pURB urb e d sd x l w :
  in_progress n pURB urb e d sd w →
  stage_pre n (sts (x :: l)) (szs (x :: l)) sts szs w sd pURB (m_bDirectionIn e) false urb e d
    (m_pBuffer urb) (m_nBufLen urb) →
  usb_after (sts (x :: l)) (szs (x :: l)) sd pURB urb e (w_usb w) =
  async_after (sts (x :: l)) (szs (x :: l)) pURB urb e (w_usb w).
Proof.
  intros [] Hpre. destruct ip_request0 as [Hro Hty Hpid Hm Hsp Hbuf Hl].
  destruct (fresh_packets _ _ _ _ _ _ _ _ _ ip_fresh0) as (Hpk & Hpp & Hby); [lia|by apply high_speed_split|].
  pose proof (sp_packets _ _ _ _ _ _ _ _ _ _ _ _ _ _ _ Hpre) as Hr. destruct ip_fresh0.
  unfold usb_after, async_after. rewrite fs_status, Hby, Hpp, Hpk.
  destruct (failed (sts (x :: l))); [done|]. f_equal. f_equal.
  rewrite <- toggled_data by (try lia; naive_solver).
  unfold pid_after, toggled. by rewrite fs_split, (high_speed_split d Hsp), fs_status.
Qed.

(** A final status ends the request: its channel is free when its routine is
    called. *)
Lemma wp_async_interrupt pURB urb e d x l id (Q : unit → W → Prop) w :
  transferring n pURB urb e d w → on_wire urb e d x l w → final_status (sts (x :: l)) →
  m_pCompletionRoutine urb = ClientRoutine id →
  (∀ w1, completed (sts (x :: l)) (szs (x :: l)) pURB urb e w w1 →
     wp (client id pURB (m_pCompletionParam urb) (m_pCompletionContext urb))
       (λ _ w', ∀ more, silent n more → Q tt (w' <| w_trace := more ++ w_trace w' |>)) w1) →
  wp (DWHCIDeviceInterruptHandler spin client) Q w.
Proof.
  intros (sd & Hip & Hst) Hx Hfin Hcr HQ. pose proof (in_progress_pre _ _ _ _ _ _ _ _ Hip Hst Hx) as Hpre.
  pose proof (in_progress_after _ _ _ _ _ _ _ _ Hip Hpre) as Hu.
  pose proof Hip as [[Hc Hwf Hlen] Hn Hal Hsd Hfresh _ _ _]. pose proof Hwf as [Hch _].
  eapply wp_InterruptHandler; [exact HA|exact Hn|lia|]. intros t Ht.
  eapply (wp_ChannelInterrupt spin client n (sts (x :: l)) (szs (x :: l)) sts szs HA sd pURB (m_bDirectionIn e) false
    urb e d _ _ _ (w <| w_trace := t |>)).
  { destruct Hpre. split; try done. by eapply answering_same. }
  { exact Hfin. }
  intros t' c sd' Hirq Ht'. unfold USBRequestCallCompletionRoutine. wp_step.
  cbn [w_usb upd]. change (w_usb (w <| w_trace := t |>)) with (w_usb w). rewrite Hu.
  assert (∃ r, urbs (async_after (sts (x :: l)) (szs (x :: l)) pURB urb e (w_usb w)) !! pURB = Some r ∧
    m_pCompletionRoutine r = m_pCompletionRoutine urb ∧ m_pCompletionParam r = m_pCompletionParam urb ∧
    m_pCompletionContext r = m_pCompletionContext urb) as (r & Hr & Hr1 & Hr2 & Hr3).
  { unfold async_after. destruct (failed (sts (x :: l))); simpl; eexists; (split; [apply lookup_insert_eq|done]). }
  eapply wp_urb_at; [exact Hr|]. rewrite Hr1, Hr2, Hr3, Hcr. apply HQ. split_and!; try done.
  by eapply same_channel_trans.
Qed.

(** A handshake that asks for a retry leaves the request to the timer. *)
Definition retry_status (st : Z) : Prop :=
  failed st = false ∧ has st (Z.lor DWHCI_HOST_CHAN_INT_NAK DWHCI_HOST_CHAN_INT_NYET) = true.

Lemma retry_valid st : retry_status st → st ≠ 0 ∧ st ≠ DWHCI_HOST_CHAN_INT_HALTED.
Proof. intros [_ Hr]. split; intros ->; by vm_compute in Hr. Qed.

Lemma wp_async_retry pURB urb e d x l (Q : unit → W → Prop) w :
  transferring n pURB urb e d w → on_wire urb e d x l w → retry_status (sts (x :: l)) →
  m_Type e = EndpointTypeInterrupt →
  (∀ w', delayed n pURB urb e d w' → transactions n (w_trace w') = transactions n (w_trace w) →
     timers n (w_trace w') = MSEC2HZ (m_nInterval e) :: timers n (w_trace w) →
     w_usb w' = w_usb w → w_env w' = w_env w →
     w_cpu w' = w_cpu w → m_nChannelAllocated (w_host w') = m_nChannelAllocated (w_host w) → Q tt w') →
  wp (DWHCIDeviceInterruptHandler spin client) Q w.
Proof.
  intros (sd & Hip & Hst) Hx Hre Hint HQ. pose proof (in_progress_pre _ _ _ _ _ _ _ _ Hip Hst Hx) as Hpre.
  pose proof (retry_valid _ Hre) as [Hne0 HneH]. destruct Hre as [Hf Hr].
  pose proof Hip as [[Hc Hwf Hlen] Hn Hal Hsd Hfresh Hsub Hfs Har].
  pose proof Har as [[] _ _ Hm Hsp _ Hl]. pose proof Hwf as [Hch _].
  assert (refused (sts (x :: l)) = true) as Href by (unfold refused; by rewrite has_lor, Hr, orb_true_r).
  eapply wp_InterruptHandler; [exact HA|exact Hn|lia|]. intros t Ht.
  eapply (wp_channel_done spin client n (sts (x :: l)) (szs (x :: l)) sts szs HA sd pURB (m_bDirectionIn e) false
    urb e d _ _ _ (w <| w_trace := t |>)).
  { destruct Hpre. split; try done. by eapply answering_same. }
  { done. }
  { done. }
  intros t' sd' w' Ht' -> Hts _ Hep _ Hsd' Hok' Hsd1. rewrite Href in *. specialize (Hsd' eq_refl).
  unfold no_split_transfer. wp_step. eapply wp_stage_at; [lia|exact Hsd1|].
  unfold DWHCITransferStageDataGetTransactionStatus. rewrite Hts. wp_step. wp_step.
  apply wp_assert; [by apply negb_true_iff, Z.eqb_neq|]. wp_step. unfold failed in Hf. rewrite Hf, Hr.
  wp_step. eapply (wp_IsPeriodic sd' e); [by rewrite Hep|]. unfold is_periodic. rewrite Hint.
  rewrite (bool_decide_eq_true_2 (EndpointTypeInterrupt = _)) by done. cbn [orb].
  unfold periodic_delay, USBRequestGetEndpoint, USBEndpointGetInterval.
  wp_step. eapply wp_stage_modify; [lia|exact Hsd1|]. wp_step. eapply wp_urb_at; [done|].
  wp_step. wp_step. apply wp_assert; [by apply negb_true_iff, Z.eqb_neq|]. wp_step.
  wp_step. eapply wp_endpoint_at; [done|]. rewrite Hint. repeat wp_step. apply wp_emit. intros more Hmore.
  pose proof (same_channel_trans _ _ _ _ Ht Ht') as [T1 T2].
  apply HQ; try done.
  - exists (DWHCITransferStageDataSetState sd' StageStatePeriodicDelay). subst sd'. split; [|done].
    split; try done.
    + destruct Hok' as [? ? Hlen']. split; [done|done|]. simpl in *. by rewrite !length_insert.
    + simpl. apply list_lookup_insert_eq. rewrite length_insert. lia.
    + destruct Hfresh. by constructor.
  - cbn [w_trace upd]. by rewrite transactions_silent.
  - cbn [w_trace upd]. rewrite (proj2 (silent_same _ _ _ Hmore)). unfold timers in *. simpl.
    rewrite Z.eqb_refl. f_equal. exact T2.
Qed.

(** *** The timer *)

(** The interval is over: the transaction is started again. *)
Lemma wp_async_timer pURB urb e d (Q : unit → W → Prop) w :
  delayed n pURB urb e d w →
  (∀ w' x, transferring n pURB urb e d w' → sends_request n urb e d x w w' →
     w_usb w' = w_usb w → w_env w' = w_env w →
     w_cpu w' = w_cpu w → m_nChannelAllocated (w_host w') = m_nChannelAllocated (w_host w) → Q tt w') →
  wp (DWHCIDeviceTimerHandler spin n) Q w.
Proof.
  intros (sd & Hip & Hst) HQ.
  pose proof Hip as [[Hc Hwf Hlen] Hn Hal Hsd Hfresh Hsub Hfs Har].
  pose proof Har as [[] Hty Hpid Hm Hsp Hb Hl]. pose proof Hwf as [Hch _]. pose proof Hfresh as [].
  destruct (fresh_packets _ _ _ _ _ _ _ _ _ Hfresh) as (Hpk & Hpp & Hby); [lia|by apply high_speed_split|].
  unfold DWHCIDeviceTimerHandler. wp_step. reg_step. wp_step. eapply wp_stage_at; [lia|exact Hsd|].
  unfold DWHCITransferStageDataGetState, DWHCITransferStageDataIsSplit. rewrite Hst, fs_split, high_speed_split by done.
  wp_step. apply wp_assert; [done|]. wp_step. eapply wp_stage_modify; [lia|exact Hsd|].
  set (sd1 := DWHCITransferStageDataSetState sd StageStateNoSplitTransfer).
  wp_step. apply (wp_StartTransaction spin client n sd1 e d); [apply HA| | | |].
  { constructor; try done.
    - by eapply with_stage_lookup.
    - change (endpoints (w_usb w) !! sd_pEndpoint sd = Some e). by rewrite fs_endpoint.
    - change (devices (w_usb w) !! sd_pDevice sd = Some d). by rewrite fs_device.
    - by eapply async_not_isochronous.
    - change (m_bStatusStage sd = true → m_Type e = EndpointTypeControl). by rewrite fs_status.
    - change (m_pBufferPointer sd ≠ 0). rewrite fs_ptr. apply Hb.
    - change (0 <= m_nBytesPerTransaction sd < 2 ^ 31). rewrite Hby. lia. }
  { intros q. unfold DWHCITransferStageDataGetFrameScheduler. simpl. by rewrite Hfs. }
  { change (0 <= m_nPacketsPerTransaction sd). rewrite Hpp, Hpk. apply Z.div_pos; lia. }
  intros fs t x Hx Htm Hmv. reg_step. apply (HQ _ x); try done.
  - exists (sd1 <| m_nSubState := StageSubStateWaitForTransactionComplete |> <| m_FrameScheduler := fs |>).
    split; [|done]. split; try done.
    + split; [done|done|]. simpl. by rewrite !length_insert.
    + simpl. apply list_lookup_insert_eq. rewrite length_insert. lia.
  - split; [exact Hx|]. split; [exact Htm|].
    change (m_nBytesPerTransaction sd1) with (m_nBytesPerTransaction sd) in Hmv.
    change (m_nPacketsPerTransaction sd1) with (m_nPacketsPerTransaction sd) in Hmv.
    change (m_bIn sd1) with (m_bIn sd) in Hmv. rewrite Hby, Hpp, Hpk, fs_in in Hmv.
    unfold pid_code in Hmv. change (m_bStatusStage sd1) with (m_bStatusStage sd) in Hmv.
    rewrite fs_status in Hmv. unfold request_transaction. by destruct (m_NextPID e).
Qed.

(** *** The whole exchange *)

Lemma async_after_cleared st siz pURB urb e u :
  async_after st siz pURB (cleared urb) e (upd_urb pURB (cleared urb) u) = async_after st siz pURB urb e u.
Proof.
  unfold async_after, upd_urb, upd_endpoint, upd. destruct (failed st); simpl; by rewrite insert_insert_eq.
Qed.

(** The interrupts and timers that come, one after another. *)
Fixpoint env_steps (k : nat) : M W unit :=
  match k with O => mret tt | S k => env_next spin client ;; env_steps k end.

(** An interrupt and the timer it starts, [k] times. *)
Definition quiet_rounds (k : nat) : list env_step := mjoin (replicate k [EnvInterrupt; EnvTimer n]).

Lemma wp_env_next ev env (Q : unit → W → Prop) w : w_env w = ev :: env →
  wp (match ev with
      | EnvInterrupt => DWHCIDeviceInterruptHandler spin client
      | EnvTimer i => DWHCIDeviceTimerHandler spin i
      end) Q (w <| w_env := env |>) → wp (env_next spin client) Q w.
Proof. intros He HQ. unfold env_next. wp_step. wp_step. rewrite He. wp_step. by wp_step. Qed.

Lemma in_state_env x pURB urb e d env w :
  in_state x n pURB urb e d w → in_state x n pURB urb e d (w <| w_env := env |>).
Proof. intros (sd & [[] ? ? ? ? ? ? ?] & Hst). exists sd. split; [|exact Hst]. split; [by split|done..]. Qed.

Lemma wp_seq {A} (m : M W A) (m1 m2 : M W unit) (Q : unit → W → Prop) w :
  wp (m ;; m1) (λ _, wp m2 Q) w → wp (m ;; m1 ;; m2) Q w.
Proof.
  intros Hw. apply wp_bind. apply wp_bind_inv in Hw. eapply wp_mono; [exact Hw|].
  intros a w' Hw'. by apply wp_bind.
Qed.

(** A request that was sent [length xs] times, once more after each of its
    timers. *)
Definition exchange (urb : TUSBRequest) (e : TUSBEndpoint) (d : TUSBDevice) (k : nat)
    (xs : list transaction) (w w' : W) : Prop :=
  length xs = S k ∧ Forall (request_transaction urb e d) xs ∧
  transactions n (w_trace w') = xs ++ transactions n (w_trace w) ∧
  timers n (w_trace w') = replicate k (MSEC2HZ (m_nInterval e)) ++ timers n (w_trace w).

Lemma wp_quiet_rounds pURB urb e d (Q : unit → W → Prop) k x l env w :
  transferring n pURB urb e d w → on_wire urb e d x l w →
  (∀ ts, (length ts < k)%nat → retry_status (sts (ts ++ x :: l))) →
  (k ≠ 0%nat → m_Type e = EndpointTypeInterrupt) →
  w_env w = quiet_rounds k ++ env →
  (∀ w' xs, length xs = k → Forall (request_transaction urb e d) xs →
     transactions n (w_trace w') = xs ++ x :: l →
     timers n (w_trace w') = replicate k (MSEC2HZ (m_nInterval e)) ++ timers n (w_trace w) →
     transferring n pURB urb e d w' → w_usb w' = w_usb w → w_env w' = env →
     w_cpu w' = w_cpu w → m_nChannelAllocated (w_host w') = m_nChannelAllocated (w_host w) → Q tt w') →
  wp (env_steps (2 * k)) Q w.
Proof.
  intros Htr Hx Hre Hint. revert w x l Htr Hx Hre.
  induction k as [|k IH]; intros w x l Htr Hx Hre Henv HQ.
  { apply wp_ret, (HQ w []); try done. apply Hx. }
  replace (2 * S k)%nat with (S (S (2 * k))) by lia. cbn [env_steps].
  wp_step. eapply wp_env_next; [exact Henv|].
  eapply (wp_async_retry pURB urb e d x l); [by apply in_state_env|exact Hx|apply (Hre []); simpl; lia|by apply Hint|].
  intros w1 Hd T1 M1 Hu1 He1 Hc1 Ha1. wp_step. eapply wp_env_next; [exact He1|].
  eapply (wp_async_timer pURB urb e d); [by apply in_state_env|].
  intros w2 x2 Ht2 (T2 & M2 & X2) Hu2 He2 Hc2 Ha2. cbn [w_trace upd] in T1, M1, T2, M2.
  change (w_trace (w1 <| w_env := quiet_rounds k ++ env |>)) with (w_trace w1) in *. rewrite T1 in T2. rewrite M1 in M2.
  apply (IH ltac:(intros _; by apply Hint) w2 x2 (x :: l)); [exact Ht2|split; [by rewrite T2, <- (proj1 Hx)|exact X2]| |by rewrite He2|].
  { intros ts Hts. specialize (Hre (ts ++ [x2])). rewrite <- app_assoc in Hre. apply Hre. rewrite length_app. simpl. lia. }
  intros w3 xs L3 F3 T3 M3 Ht3 Hu3 He3 Hc3 Ha3. apply (HQ w3 (xs ++ [x2])); try done.
  - rewrite length_app, L3. simpl. lia.
  - apply Forall_app. split; [done|]. by apply list.Forall_singleton.
  - by rewrite <- app_assoc.
  - by rewrite M3, M2, replicate_S_end, <- app_assoc.
  - exact (eq_trans Hu3 (eq_trans Hu2 Hu1)).
  - exact (eq_trans Hc3 (eq_trans Hc2 Hc1)).
  - exact (eq_trans Ha3 (eq_trans Ha2 Ha1)).
Qed.

(** What the client's routine finds: the request's result, and the channel free
    again, as all else is. *)
Definition answered (st siz : Z) pURB urb e (w w1 : W) : Prop :=
  w_usb w1 = async_after st siz pURB urb e (w_usb w) ∧ same_irq (w_cpu w) (w_cpu w1) ∧
  m_nChannelAllocated (w_host w1) = m_nChannelAllocated (w_host w).

(** Submitting, and [k] answers that ask for a retry. *)
Lemma wp_submit_rounds pURB urb e d k env (Q : unit → W → Prop) w :
  host_ok w → async_request (w_usb w) pURB urb e d → free_channel (w_host w) = Some n →
  (∀ xs, (0 < length xs <= k)%nat → retry_status (sts (xs ++ transactions n (w_trace w)))) →
  (k ≠ 0%nat → m_Type e = EndpointTypeInterrupt) → w_env w = quiet_rounds k ++ env →
  (∀ w' xs, exchange urb e d k xs w w' → transferring n pURB (cleared urb) e d w' →
     w_usb w' = upd_urb pURB (cleared urb) (w_usb w) → w_env w' = env → same_irq (w_cpu w) (w_cpu w') →
     Z.land (m_nChannelAllocated (w_host w')) (not32 (Z.shiftl 1 n)) = m_nChannelAllocated (w_host w) → Q tt w') →
  wp (DWHCIDeviceSubmitAsyncRequest spin pURB ;; env_steps (2 * k)) Q w.
Proof.
  intros Hok Har Hfree Hre Hint Henv HQ. wp_step. eapply (wp_SubmitAsync pURB urb e d n); [done..|apply HA|].
  intros w1 ((x & T1 & M1 & X1) & Hu1 & He1 & Hi1 & Ht & Ha1).
  eapply (wp_quiet_rounds pURB (cleared urb) e d _ k x); [exact Ht|by split| |exact Hint|by rewrite He1|].
  { intros ts Hts. specialize (Hre (ts ++ [x])). rewrite <- app_assoc in Hre. apply Hre. rewrite length_app. simpl. lia. }
  intros w2 xs L2 F2 T2 M2 Ht2 Hu2 He2 Hc2 Ha2. apply (HQ w2 (xs ++ [x])); try done.
  - split; [rewrite length_app, L2; simpl; lia|]. split; [apply Forall_app; split; [done|by apply list.Forall_singleton]|].
    split; [by rewrite <- app_assoc|]. by rewrite M2, M1.
  - by rewrite Hu2.
  - by rewrite Hc2.
  - by rewrite Ha2.
Qed.

End Async.

Module AsyncDemo.
Import StageDemo Demo.

(** An interrupt endpoint of eight bytes, polled every ten milliseconds, and a
    request whose routine is number 7. *)
Definition pipe : TUSBEndpoint :=
  {| m_pDevice := 1; m_ucNumber := 1; m_Type := EndpointTypeInterrupt; m_bDirectionIn := true;
     m_nMaxPacketSize := 8; m_nInterval := 10; m_NextPID := USBPIDData0 |}.
Definition report : TUSBRequest :=
  {| m_pEndpoint := 3; m_pSetupData := None; m_pBuffer := 0x300000; m_nBufLen := 8;
     m_bStatus := 0; m_nResultLen := 0; m_pCompletionRoutine := ClientRoutine 7;
     m_pCompletionParam := 5; m_pCompletionContext := 6 |}.
Definition polled (env : list env_step) : W :=
  (world 0) <| w_usb := {| devices := {[ 1 := dev ]}; endpoints := {[ 3 := pipe ]}; urbs := {[ 4 := report ]} |} |>
          <| w_env := env |>.
Definition full_world : W :=
  (polled []) <| w_host := (w_host (polled [])) <| m_nChannelAllocated := 255 |> |>.

(** A routine that leaves a mark when it is called with its own arguments. *)
Definition marks (id pURB p c : Z) : M W unit :=
  host_modify (λ h, h <| m_bWaiting := bool_decide ((id, pURB, p, c) = (7, 4, 5, 6)) |>).

(** A controller whose endpoint has nothing to say three times and then moves
    five of the eight bytes. *)
Definition late_status (l : list transaction) : Z := if (length l <=? 3)%nat then 0x12 else 0x23.
Definition late_size (l : list transaction) : Z :=
  match l with x :: _ => if 3 <=? tr_bytes x then 3 else 0 | [] => 0 end.
Definition late : Hardware :=
  {| hw_read h a := if a =? DWHCI_HOST_CHAN_XFER_SIZ 0 then late_size (transactions 0 h)
                    else regs (late_status (transactions 0 h)) a;
     hw_power_on _ _ := true |}.
Lemma late_size_cases l : late_size l = 0 ∨ late_size l = 3.
Proof. destruct l as [|x l]; simpl; [by left|]. destruct (3 <=? tr_bytes x); auto. Qed.
Lemma late_answers : hw_answers (HW := late) 0 late_status late_size.
Proof.
  constructor; intros h; try done; simpl; unfold regs; simpl.
  - unfold late_status. by destruct (_ <=? _)%nat.
  - by destruct (late_size_cases (transactions 0 h)) as [-> | ->].
Qed.
Lemma late_limits : keeps_limits late_size.
Proof.
  split.
  - intros l. by destruct (late_size_cases l) as [-> | ->].
  - intros x l Hx. destruct (late_size_cases (x :: l)) as [-> | ->].
    + by change (packets_left 0) with 0.
    + by change (packets_left 3) with 0.
  - intros x l Hx. unfold late_size. destruct (Z.leb_spec 3 (tr_bytes x)).
    + by change (bytes_left 3) with 3.
    + by change (bytes_left 0) with 0.
Qed.
Lemma late_retries xs : (0 < length xs <= 3)%nat → retry_status (late_status (xs ++ [])).
Proof. intros H. rewrite app_nil_r. unfold late_status. by rewrite (proj2 (Nat.leb_le _ _)) by lia. Qed.
Lemma late_ends xs : length xs = 4%nat → final_status (late_status (xs ++ [])).
Proof. intros H. rewrite app_nil_r. unfold late_status. by rewrite H. Qed.

Lemma polled_request env : async_request (w_usb (polled env)) 4 report pipe dev.
Proof. by split; [split| right|..]. Qed.
Lemma polled_ok env : host_ok (polled env).
Proof. by split. Qed.
Lemma full_ok : host_ok full_world.
Proof. by split. Qed.

Lemma polled_free env : free_channel (w_host (polled env)) = Some 0.
Proof. reflexivity. Qed.
Lemma full_busy : free_channel (w_host full_world) = None.
Proof. reflexivity. Qed.
End AsyncDemo.
