(* ===== verification/ConfigParser.v ===== *)
(** * lib/usbconfigparser.c: walking a configuration descriptor

    The descriptor a device sent lies in a buffer that nobody writes while the
    parser exists; it is the list of its bytes, and a descriptor pointer is an
    offset into it. A read behind the buffer is a [MemFault]. *)
From S2P Require Import Prelude Endpoint.

(** ** Definitions *)

Record TUSBConfigurationParser := {
  cp_pBuffer : option (list Z);
  cp_nBufLen : Z;
  m_bValid : bool;
  m_pEndPosition : nat;
  m_pNextPosition : nat;
  m_pCurrentDescriptor : option nat;
  m_pErrorPosition : nat
}.
#[global] Instance TUSBConfigurationParser_eta : Eta TUSBConfigurationParser := λ r,
  {| cp_pBuffer := cp_pBuffer r; cp_nBufLen := cp_nBufLen r; m_bValid := m_bValid r;
     m_pEndPosition := m_pEndPosition r; m_pNextPosition := m_pNextPosition r;
     m_pCurrentDescriptor := m_pCurrentDescriptor r; m_pErrorPosition := m_pErrorPosition r |}.

Definition sizeof_TUSBConfigurationDescriptor : Z := 9.
Definition sizeof_TUSBInterfaceDescriptor : Z := 9.

(** The byte at an offset. *)
Definition byte_at (i : nat) : M TUSBConfigurationParser Z := λ p,
  match cp_pBuffer p with
  | Some b => match b !! i with Some v => Ok (v, p) | None => Err MemFault end
  | None => Err MemFault
  end.

(** [Configuration.wTotalLength], little-endian. *)
Definition total_length : M TUSBConfigurationParser Z :=
  lo ← byte_at 2; hi ← byte_at 3; mret (lo + 256 * hi).

Definition set_error (pos : nat) : M TUSBConfigurationParser unit :=
  modify (λ p, p <| m_pErrorPosition := pos |>).

(** The [switch]: the expected length and [bInAudioInterface], or [None] where
    it reports an error. *)
Definition descriptor_kind (pos : nat) (ucDescType ucLastDescType : Z) (bInAudioInterface : bool)
    : M TUSBConfigurationParser (option (Z * bool)) :=
  if ucDescType =? DESCRIPTOR_CONFIGURATION then
    mret (if negb (ucLastDescType =? 0) then None
          else Some (sizeof_TUSBConfigurationDescriptor, bInAudioInterface))
  else if ucDescType =? DESCRIPTOR_INTERFACE then
    if ucLastDescType =? 0 then mret None
    else cls ← byte_at (pos + 5);
         mret (Some (sizeof_TUSBInterfaceDescriptor, cls =? 0x01))
  else if ucDescType =? DESCRIPTOR_ENDPOINT then
    mret (if (ucLastDescType =? 0) || (ucLastDescType =? DESCRIPTOR_CONFIGURATION) then None
          else Some (if bInAudioInterface then sizeof_TUSBAudioEndpointDescriptor
                     else sizeof_TUSBEndpointDescriptor, bInAudioInterface))
  else mret (Some (0, bInAudioInterface)).

(** The loop: the position where it ends, or [None] after an error. *)
Fixpoint parse_loop (fuel : nat) (e pos : nat) (ucLastDescType : Z) (bInAudioInterface : bool)
    : M TUSBConfigurationParser (option nat) :=
  match fuel with
  | O => fail OutOfFuel
  | S fuel =>
      if (pos + 2 <? e)%nat then
        ucDescLen ← byte_at pos;
        ucDescType ← byte_at (pos + 1);
        let pDescEnd := (pos + Z.to_nat ucDescLen)%nat in
        if (e <? pDescEnd)%nat then set_error pos ;; mret None
        else
          k ← descriptor_kind pos ucDescType ucLastDescType bInAudioInterface;
          match k with
          | None => set_error pos ;; mret None
          | Some (ucExpectedLen, bInAudioInterface) =>
              if negb (ucExpectedLen =? 0) && negb (ucDescLen =? ucExpectedLen)
              then set_error pos ;; mret None
              else parse_loop fuel e pDescEnd ucDescType bInAudioInterface
          end
      else mret (Some pos)
  end.

(** The constructor. The loop has no bound in the source; [fuel] bounds it
    here ([parser_hangs_or_ends]). *)
Definition USBConfigurationParser (fuel : nat) (pBuffer : option (list Z)) (nBufLen : Z)
    : M TUSBConfigurationParser unit :=
  modify (λ _, {| cp_pBuffer := pBuffer; cp_nBufLen := nBufLen; m_bValid := false;
                  m_pEndPosition := Z.to_nat nBufLen; m_pNextPosition := 0;
                  m_pCurrentDescriptor := None; m_pErrorPosition := 0 |}) ;;
  c_assert (match pBuffer with Some _ => true | None => false end) ;;
  if (nBufLen <? 4) || (512 <? nBufLen) then mret tt
  else
    len ← byte_at 0;
    if negb (len =? sizeof_TUSBConfigurationDescriptor) then mret tt
    else
      ty ← byte_at 1;
      if negb (ty =? DESCRIPTOR_CONFIGURATION) then mret tt
      else
        total ← total_length;
        if nBufLen <? total then mret tt
        else
          when (total <? nBufLen) (modify (λ p, p <| m_pEndPosition := Z.to_nat total |>)) ;;
          e ← gets m_pEndPosition;
          r ← parse_loop fuel e 0 0 false;
          match r with
          | None => mret tt
          | Some pos =>
              if negb (pos =? e)%nat then set_error pos
              else modify (λ p, p <| m_bValid := true |>)
          end.

Definition USBConfigurationParserCopy (pParser : TUSBConfigurationParser) : TUSBConfigurationParser :=
  {| cp_pBuffer := cp_pBuffer pParser; cp_nBufLen := cp_nBufLen pParser;
     m_bValid := m_bValid pParser; m_pEndPosition := m_pEndPosition pParser;
     m_pNextPosition := m_pNextPosition pParser;
     m_pCurrentDescriptor := m_pCurrentDescriptor pParser;
     m_pErrorPosition := m_pErrorPosition pParser |}.

Definition _USBConfigurationParser (pThis : TUSBConfigurationParser) : TUSBConfigurationParser :=
  pThis <| cp_pBuffer := None |>.

Definition USBConfigurationParserIsValid (pThis : TUSBConfigurationParser) : bool := m_bValid pThis.

(** The search loop; it leaves [m_pNextPosition] where the source does. *)
Fixpoint search_loop (fuel : nat) (ucType : Z) : M TUSBConfigurationParser (option nat) :=
  match fuel with
  | O => fail OutOfFuel
  | S fuel =>
      pos ← gets m_pNextPosition;
      e ← gets m_pEndPosition;
      if (pos <? e)%nat then
        ucDescLen ← byte_at pos;
        ucDescType ← byte_at (pos + 1);
        let pDescEnd := (pos + Z.to_nat ucDescLen)%nat in
        c_assert (pDescEnd <=? e)%nat ;;
        if (ucType =? DESCRIPTOR_ENDPOINT) && (ucDescType =? DESCRIPTOR_INTERFACE) then mret None
        else
          modify (λ p, p <| m_pNextPosition := pDescEnd |>) ;;
          if ucDescType =? ucType then mret (Some pos) else search_loop fuel ucType
      else mret None
  end.

(** Fuel for the search: a valid buffer holds no more descriptors than bytes
    ([get_descriptor_correct]). *)
Definition USBConfigurationParserGetDescriptor (ucType : Z) : M TUSBConfigurationParser (option nat) :=
  p ← get;
  c_assert (m_bValid p) ;;
  pResult ← search_loop (S (m_pEndPosition p)) ucType;
  match pResult with Some pos => set_error pos | None => mret tt end ;;
  modify (λ p, p <| m_pCurrentDescriptor := pResult |>) ;;
  mret pResult.

Definition USBConfigurationParserGetCurrentDescriptor : M TUSBConfigurationParser nat :=
  p ← get;
  c_assert (m_bValid p) ;;
  match m_pCurrentDescriptor p with Some pos => mret pos | None => fail AssertFailed end.

(** The offset [USBConfigurationParserError] logs. *)
Definition USBConfigurationParserError (pThis : TUSBConfigurationParser) : nat :=
  m_pErrorPosition pThis.

(** ** The format

    [accept b last audio pos]: the descriptor at [pos] is acceptable after one
    of type [last] ([0] at the start); its length and type, and whether an
    audio interface is open behind it. *)
Definition accept (b : list Z) (last : Z) (audio : bool) (pos : nat) : option (Z * Z * bool) :=
  len ← b !! pos;
  ty ← b !! (pos + 1)%nat;
  if ty =? DESCRIPTOR_CONFIGURATION then
    if (last =? 0) && (len =? 9) then Some (len, ty, audio) else None
  else if ty =? DESCRIPTOR_INTERFACE then
    if negb (last =? 0) && (len =? 9) then
      cls ← b !! (pos + 5)%nat; Some (len, ty, cls =? 1)
    else None
  else if ty =? DESCRIPTOR_ENDPOINT then
    if negb (last =? 0) && negb (last =? DESCRIPTOR_CONFIGURATION) &&
       (len =? (if audio then 9 else 7)) then Some (len, ty, audio) else None
  else Some (len, ty, audio).

(** [chain b e last audio pos l]: from [pos] the buffer is cut, up to [e]
    exactly, into acceptable descriptors at the offsets [l]. *)
Inductive chain (b : list Z) (e : nat) : Z → bool → nat → list nat → Prop :=
  | chain_end last audio : chain b e last audio e []
  | chain_step last audio pos len ty audio' l :
      (pos + 2 < e)%nat → accept b last audio pos = Some (len, ty, audio') →
      (pos + Z.to_nat len <= e)%nat →
      chain b e ty audio' (pos + Z.to_nat len) l → chain b e last audio pos (pos :: l).

(** A configuration of [e] bytes in a buffer of [n]. *)
Definition config_ok (b : list Z) (n : Z) (e : nat) (l : list nat) : Prop :=
  4 <= n <= 512 ∧ b !! 0%nat = Some 9 ∧ b !! 1%nat = Some DESCRIPTOR_CONFIGURATION ∧
  (∃ lo hi, b !! 2%nat = Some lo ∧ b !! 3%nat = Some hi ∧ Z.of_nat e = lo + 256 * hi) ∧
  Z.of_nat e <= n ∧ chain b e 0 false 0 l.

(** The walk comes to a descriptor of length 0 and a type of no interest. *)
Inductive stuck (b : list Z) (e : nat) : Z → bool → nat → Prop :=
  | stuck_here last audio pos ty :
      (pos + 2 < e)%nat → b !! pos = Some 0 → b !! (pos + 1)%nat = Some ty →
      ty ≠ DESCRIPTOR_CONFIGURATION → ty ≠ DESCRIPTOR_INTERFACE → ty ≠ DESCRIPTOR_ENDPOINT →
      stuck b e last audio pos
  | stuck_later last audio pos len ty audio' :
      (pos + 2 < e)%nat → accept b last audio pos = Some (len, ty, audio') → 0 < len →
      (pos + Z.to_nat len <= e)%nat → stuck b e ty audio' (pos + Z.to_nat len) →
      stuck b e last audio pos.

(** ** Shared lemmas *)

Definition on_buffer (b : list Z) (p : TUSBConfigurationParser) : Prop := cp_pBuffer p = Some b.

Lemma byte_at_run b p i :
  on_buffer b p →
  byte_at i p = match b !! i with Some v => Ok (v, p) | None => Err MemFault end.
Proof. unfold on_buffer, byte_at. by intros ->. Qed.

(** The loop's body at [pos] goes on to the next descriptor. *)
Definition advances (b : list Z) (e pos : nat) (last : Z) (audio : bool) (len ty : Z) (audio' : bool)
  : Prop :=
  accept b last audio pos = Some (len, ty, audio') ∧ (pos + Z.to_nat len <= e)%nat.

Lemma wp_byte_at b i v (Q : Z → TUSBConfigurationParser → Prop) p :
  on_buffer b p → b !! i = Some v → Q v p → wp (byte_at i) Q p.
Proof. intros Hb Hi HQ. unfold wp. by rewrite (byte_at_run b), Hi. Qed.

(** What one turn of the loop does, for every fuel left. *)
Lemma parse_step b e pos last audio p :
  on_buffer b p → (pos + 2 < e)%nat →
  (∃ len ty audio', advances b e pos last audio len ty audio' ∧
     ∀ f, parse_loop (S f) e pos last audio p = parse_loop f e (pos + Z.to_nat len) ty audio' p) ∨
  ((∀ len ty audio', ¬ advances b e pos last audio len ty audio') ∧
   ((∀ f, parse_loop (S f) e pos last audio p = Err MemFault) ∨
    (∀ f, parse_loop (S f) e pos last audio p = Ok (None, p <| m_pErrorPosition := pos |>)))).
Proof.
  intros Hb Hpos. assert ((pos + 2 <? e)%nat = true) as Hlt by (by apply Nat.ltb_lt).
  assert (accept b last audio pos = None → ∀ len ty audio', ¬ advances b e pos last audio len ty audio')
    as Hnone by (intros E ??? [E' _]; congruence).
  destruct (b !! pos) as [len|] eqn:El.
  2: { right. split; [apply Hnone; unfold accept; by rewrite El|]. left. intros f.
       cbn [parse_loop]. rewrite Hlt. apply bind_err. by rewrite (byte_at_run b), El. }
  destruct (b !! (pos + 1)%nat) as [ty|] eqn:Et.
  2: { right. split; [apply Hnone; unfold accept; rewrite El; simpl; by rewrite Et|]. left. intros f.
       cbn [parse_loop]. rewrite Hlt.
       erewrite bind_ok by (by rewrite (byte_at_run b), El).
       apply bind_err. by rewrite (byte_at_run b), Et. }
  assert (∀ f, parse_loop (S f) e pos last audio p =
    (if (e <? pos + Z.to_nat len)%nat then Ok (None, p <| m_pErrorPosition := pos |>)
     else (descriptor_kind pos ty last audio ≫= λ k,
       match k with
       | None => set_error pos ;; mret None
       | Some (ucExpectedLen, a') =>
           if negb (ucExpectedLen =? 0) && negb (len =? ucExpectedLen)
           then set_error pos ;; mret None else parse_loop f e (pos + Z.to_nat len) ty a'
       end) p)) as Hrun.
  { intros f. cbn [parse_loop]. rewrite Hlt.
    erewrite bind_ok by (by rewrite (byte_at_run b), El).
    erewrite bind_ok by (by rewrite (byte_at_run b), Et). cbv zeta.
    by destruct (e <? pos + Z.to_nat len)%nat. }
  destruct (Nat.ltb_spec e (pos + Z.to_nat len)) as [He|He].
  { right. split; [|by right]. intros len' ty' a' [E Hle]. unfold accept in E.
    rewrite El, Et in E. cbn [mbind option_bind] in E. repeat case_match; simplify_eq/=; try lia.
    all: destruct (b !! (pos + 5)%nat); simplify_eq/=; lia. }
  assert (accept b last audio pos = accept b last audio pos) as Hacc by done.
  unfold accept at 2 in Hacc. rewrite El, Et in Hacc. cbn [mbind option_bind] in Hacc.
  unfold descriptor_kind, DESCRIPTOR_CONFIGURATION, DESCRIPTOR_INTERFACE, DESCRIPTOR_ENDPOINT,
    sizeof_TUSBConfigurationDescriptor, sizeof_TUSBInterfaceDescriptor,
    sizeof_TUSBAudioEndpointDescriptor, sizeof_TUSBEndpointDescriptor in *.
  assert (∀ n a', n ≠ 0 → (∀ f, parse_loop (S f) e pos last audio p =
      (if negb (n =? 0) && negb (len =? n) then set_error pos ;; mret None
       else parse_loop f e (pos + Z.to_nat len) ty a') p) →
    accept b last audio pos = (if len =? n then Some (len, ty, a') else None) →
    (∃ len ty audio', advances b e pos last audio len ty audio' ∧
     ∀ f, parse_loop (S f) e pos last audio p = parse_loop f e (pos + Z.to_nat len) ty audio' p) ∨
    ((∀ len ty audio', ¬ advances b e pos last audio len ty audio') ∧
     ((∀ f, parse_loop (S f) e pos last audio p = Err MemFault) ∨
      (∀ f, parse_loop (S f) e pos last audio p = Ok (None, p <| m_pErrorPosition := pos |>))))) as Hgo.
  { intros n a' Hn Hr Ha. rewrite (proj2 (Z.eqb_neq n 0) Hn) in Hr. cbn [negb andb] in Hr.
    destruct (len =? n); cbn [negb] in Hr.
    - left. by exists len, ty, a'.
    - right. split; [by apply Hnone|]. right. intros f. by rewrite Hr. }
  destruct (ty =? 2); [|destruct (ty =? 4); [|destruct (ty =? 5)]].
  - destruct (last =? 0); cbn [negb andb] in *; [by apply (Hgo 9 audio)|].
    right. split; [by apply Hnone|by right].
  - destruct (last =? 0); cbn [negb andb] in *; [right; split; [by apply Hnone|by right]|].
    destruct (b !! (pos + 5)%nat) as [cls|] eqn:Ec.
    + apply (Hgo 9 (cls =? 1)); [done| |by destruct (len =? 9)].
      intros f. rewrite Hrun. unfold mbind, M_bind. by rewrite (byte_at_run b), Ec.
    + right. split; [apply Hnone; by destruct (len =? 9)|]. left. intros f. rewrite Hrun.
      apply bind_err, bind_err. by rewrite (byte_at_run b), Ec.
  - destruct (last =? 0); cbn [negb andb orb] in *; [right; split; [by apply Hnone|by right]|].
    destruct (last =? 2); cbn [negb andb orb] in *; [right; split; [by apply Hnone|by right]|].
    apply (Hgo (if audio then 9 else 7) audio); [by destruct audio|exact Hrun|exact Hacc].
  - left. exists len, ty, audio. split; [by split|]. intros f. by rewrite Hrun.
Qed.

Lemma parse_end e pos last audio p f :
  (e <= pos + 2)%nat → parse_loop (S f) e pos last audio p = Ok (Some pos, p).
Proof. intros H. cbn [parse_loop]. by rewrite (proj2 (Nat.ltb_ge _ _)). Qed.

(** On a chain the loop ends at [e]. *)
Lemma chain_parse b e last audio pos l p f :
  on_buffer b p → chain b e last audio pos l → (length l < f)%nat →
  parse_loop f e pos last audio p = Ok (Some e, p).
Proof.
  intros Hb Hc. revert f. induction Hc as [last audio|last audio pos len ty audio' l Hpos Ha He Hc IH];
    intros [|f] Hf; simpl in Hf; try lia.
  - apply parse_end. lia.
  - destruct (parse_step b e pos last audio p Hb Hpos) as [(len' & ty' & a' & [Ha' _] & Hr)|[Hno _]].
    + rewrite Ha in Ha'. injection Ha' as <- <- <-. rewrite Hr. apply IH. lia.
    + by destruct (Hno len ty audio').
Qed.

(** Where the loop ends without an error and at [e], it walked a chain. *)
Lemma parse_chain b e f pos last audio p p' :
  on_buffer b p → parse_loop f e pos last audio p = Ok (Some e, p') →
  p' = p ∧ ∃ l, chain b e last audio pos l.
Proof.
  intros Hb. revert pos last audio. induction f as [|f IH]; intros pos last audio Hr; [done|].
  destruct (Nat.ltb_spec (pos + 2) e) as [Hpos|Hpos].
  - destruct (parse_step b e pos last audio p Hb Hpos) as [(len & ty & a' & [Ha He] & Hs)|[_ [Hs|Hs]]];
      rewrite Hs in Hr; [|done|done].
    destruct (IH _ _ _ Hr) as [-> [l Hl]]. split; [done|]. exists (pos :: l).
    by eapply chain_step.
  - rewrite parse_end in Hr by done. injection Hr as -> ->. split; [done|]. exists []. constructor.
Qed.

Lemma accept_len b last audio pos len ty audio' :
  accept b last audio pos = Some (len, ty, audio') → b !! pos = Some len ∧ b !! (pos + 1)%nat = Some ty.
Proof.
  unfold accept. destruct (b !! pos) as [x|]; [|done]. simpl.
  destruct (b !! (pos + 1)%nat) as [t|]; [|done]. simpl. repeat case_match; intros; simplify_eq/=; try done.
  all: by destruct (b !! (pos + 5)%nat); simplify_eq/=.
Qed.

(** A chain makes progress: no descriptor in it is empty. *)
Lemma chain_len_pos b e last audio pos l :
  chain b e last audio pos l → ∀ len ty audio', (pos + 2 < e)%nat →
  accept b last audio pos = Some (len, ty, audio') → (0 < Z.to_nat len)%nat.
Proof.
  induction 1 as [last audio|last audio pos len ty audio' l Hpos Ha He Hc IH];
    intros len0 ty0 a0 Hlt Ha0; [lia|].
  rewrite Ha in Ha0. injection Ha0 as <- <- <-.
  destruct (Z.to_nat len) as [|k] eqn:Ek; [|lia]. rewrite Nat.add_0_r in *.
  assert (accept b ty audio' pos = Some (len, ty, audio')) as Ha2.
  { revert Ha. unfold accept. destruct (b !! pos) as [x|]; [|done]. simpl.
    destruct (b !! (pos + 1)%nat) as [t|]; [|done]. simpl.
    repeat case_match; intros; simplify_eq/=; try done; try lia.
    all: try (rewrite ?andb_true_iff, ?Z.eqb_eq in *; destruct_and?; subst; simpl in *; lia).
    all: destruct (b !! (pos + 5)%nat); simplify_eq/=;
      rewrite ?andb_true_iff, ?Z.eqb_eq in *; destruct_and?; subst; simpl in *; lia. }
  specialize (IH _ _ _ Hpos Ha2). lia.
Qed.

Lemma chain_length b e last audio pos l :
  chain b e last audio pos l → (pos <= e)%nat ∧ (length l <= e - pos)%nat.
Proof.
  intros Hc. pose proof (chain_len_pos _ _ _ _ _ _ Hc) as Hpos.
  induction Hc as [|last audio pos len ty audio' l Hlt Ha He Hc IH]; simpl; [lia|].
  specialize (Hpos _ _ _ Hlt Ha). destruct IH as [H1 H2]; [|lia].
  exact (chain_len_pos _ _ _ _ _ _ Hc).
Qed.

(** ** Properties *)

(** The state of the object after its first assignments. *)
Definition parser0 (b : list Z) (n : Z) (e : nat) : TUSBConfigurationParser :=
  {| cp_pBuffer := Some b; cp_nBufLen := n; m_bValid := false; m_pEndPosition := e;
     m_pNextPosition := 0; m_pCurrentDescriptor := None; m_pErrorPosition := 0 |}.

(** The header of a configuration descriptor. *)
Definition header_ok (b : list Z) (n : Z) (e : nat) : Prop :=
  4 <= n <= 512 ∧ b !! 0%nat = Some 9 ∧ b !! 1%nat = Some DESCRIPTOR_CONFIGURATION ∧
  (∃ lo hi, b !! 2%nat = Some lo ∧ b !! 3%nat = Some hi ∧ Z.of_nat e = lo + 256 * hi) ∧
  Z.of_nat e <= n.

(** The constructor either refuses the header or runs the loop. *)
Lemma parser_run fuel b n p0 :
  Forall is_u8 b →
  (∃ e, header_ok b n e ∧
     USBConfigurationParser fuel (Some b) n p0 =
     (r ← parse_loop fuel e 0 0 false;
      match r with
      | None => mret tt
      | Some pos => if negb (pos =? e)%nat then set_error pos
                    else modify (λ p, p <| m_bValid := true |>)
      end) (parser0 b n e)) ∨
  ((∀ e, ¬ header_ok b n e) ∧
   (USBConfigurationParser fuel (Some b) n p0 = Ok (tt, parser0 b n (Z.to_nat n)) ∨
    USBConfigurationParser fuel (Some b) n p0 = Err MemFault)).
Proof.
  intros Hu. unfold USBConfigurationParser. set (p := parser0 b n (Z.to_nat n)).
  rewrite (bind_ok _ _ _ tt p) by done. rewrite (bind_ok _ _ _ tt p) by done.
  assert (on_buffer b p) as Hb by done.
  destruct ((n <? 4) || (512 <? n)) eqn:En.
  { right. split; [intros e (?&_); lia|by left]. }
  destruct (b !! 0%nat) as [len|] eqn:E0.
  2: { right. split; [intros e (_&?&_); congruence|]. right. apply bind_err. by rewrite (byte_at_run b), E0. }
  erewrite bind_ok by (by rewrite (byte_at_run b), E0).
  destruct (Z.eqb_spec len sizeof_TUSBConfigurationDescriptor) as [->|Hl]; cbn [negb].
  2: { right. split; [intros e (_&E&_); rewrite E0 in E; by injection E as ->|by left]. }
  destruct (b !! 1%nat) as [ty|] eqn:E1.
  2: { right. split; [intros e (_&_&?&_); congruence|]. right. apply bind_err. by rewrite (byte_at_run b), E1. }
  erewrite bind_ok by (by rewrite (byte_at_run b), E1).
  destruct (Z.eqb_spec ty DESCRIPTOR_CONFIGURATION) as [->|Ht]; cbn [negb].
  2: { right. split; [intros e (_&_&E&_); rewrite E1 in E; by injection E as ->|by left]. }
  unfold total_length.
  destruct (b !! 2%nat) as [lo|] eqn:E2.
  2: { right. split; [intros e (_&_&_&(?&?&?&_)&_); congruence|]. right.
       apply bind_err, bind_err. by rewrite (byte_at_run b), E2. }
  destruct (b !! 3%nat) as [hi|] eqn:E3.
  2: { right. split; [intros e (_&_&_&(?&?&?&?&_)&_); congruence|]. right.
       apply bind_err. erewrite bind_ok by (by rewrite (byte_at_run b), E2).
       apply bind_err. by rewrite (byte_at_run b), E3. }
  erewrite bind_ok.
  2: { erewrite bind_ok by (by rewrite (byte_at_run b), E2).
       erewrite bind_ok by (by rewrite (byte_at_run b), E3). done. }
  assert (is_u8 lo ∧ is_u8 hi) as [Hlo Hhi] by (split; eapply Forall_lookup_1; eauto).
  destruct (Z.ltb_spec n (lo + 256 * hi)) as [Hlt|Hge].
  { right. split; [|by left]. intros e (_&_&_&(x&y&Ex&Ey&He)&Hle). simplify_eq. lia. }
  left. unfold is_u8 in *. exists (Z.to_nat (lo + 256 * hi)). split.
  { split_and!; [lia|lia|done|done|exists lo, hi; split_and!; [done|done|lia]|lia]. }
  destruct (Z.ltb_spec (lo + 256 * hi) n); cbn [when]; [done|].
  replace (lo + 256 * hi) with n by lia. done.
Qed.

(** The loop never sets [m_bValid]. *)
Lemma parse_loop_valid f e pos last audio b p r p' :
  on_buffer b p → parse_loop f e pos last audio p = Ok (r, p') → m_bValid p' = m_bValid p.
Proof.
  revert pos last audio. induction f as [|f IH]; intros pos last audio Hb Hr; [done|].
  destruct (Nat.ltb_spec (pos + 2) e) as [Hpos|Hpos].
  - destruct (parse_step b e pos last audio p Hb Hpos) as [(len&ty&a'&_&Hs)|[_ [Hs|Hs]]];
      rewrite Hs in Hr; [by eapply IH|done|by injection Hr as <- <-].
  - rewrite parse_end in Hr by done. by injection Hr as <- <-.
Qed.

Lemma parser_accepts fuel b n p0 :
  Forall is_u8 b → n < Z.of_nat fuel →
  (∀ e l, config_ok b n e l →
     USBConfigurationParser fuel (Some b) n p0 = Ok (tt, (parser0 b n e) <| m_bValid := true |>)) ∧
  (∀ p, USBConfigurationParser fuel (Some b) n p0 = Ok (tt, p) →
     USBConfigurationParserIsValid p = true →
     ∃ l, config_ok b n (m_pEndPosition p) l ∧ p = (parser0 b n (m_pEndPosition p)) <| m_bValid := true |>).
Proof.
  intros Hu Hf. destruct (parser_run fuel b n p0 Hu) as [(e & Hh & ->)|[Hno Hr]].
  - assert (∀ e', header_ok b n e' → e' = e) as Hinj.
    { intros e' (_&_&_&(x&y&Ex&Ey&He)&_). destruct Hh as (_&_&_&(x'&y'&Ex'&Ey'&He')&_).
      simplify_eq. lia. }
    split.
    + intros e' l (H1&H2&H3&H4&H5&Hc). assert (e' = e) as -> by (by apply Hinj).
      destruct (chain_length _ _ _ _ _ _ Hc) as [_ Hlen].
      erewrite bind_ok by (eapply chain_parse; [done|done|lia]). cbv beta iota. by rewrite Nat.eqb_refl.
    + intros p Hp Hv. apply bind_Ok_inv in Hp as (r & p1 & Hr & Hp).
      destruct r as [pos|]; [|].
      * destruct (Nat.eqb_spec pos e) as [->|]; cbn [negb] in Hp.
        -- destruct (parse_chain b _ _ _ _ _ (parser0 b n e) _ eq_refl Hr) as [-> [l Hl]].
           injection Hp as <-. simpl. destruct Hh as (H1&H2&H3&H4&H5). exists l. by split_and!.
        -- injection Hp as <-. exfalso. simpl in Hv.
           apply parse_loop_valid with (b := b) in Hr; [|done]. simpl in Hr. congruence.
      * injection Hp as <-. exfalso.
        apply parse_loop_valid with (b := b) in Hr; [|done]. unfold USBConfigurationParserIsValid in Hv. simpl in Hr. congruence.
  - split.
    + intros e l (H1&H2&H3&H4&H5&_). destruct (Hno e). exact (conj H1 (conj H2 (conj H3 (conj H4 H5)))).
    + intros p Hp Hv. destruct Hr as [Hr|Hr]; rewrite Hr in Hp; [|done]. injection Hp as <-. done.
Qed.

(** C12. The parser accepts exactly the well-formed configurations: a buffer is
    valid when its header announces a length within the buffer and that many
    bytes are cut exactly into descriptors of the lengths their types demand,
    an interface only after the configuration and an endpoint only after an
    interface. The parser then stands at the first descriptor. *)
Theorem parser_valid_iff fuel b n p0 :
  Forall is_u8 b → n < Z.of_nat fuel →
  (∀ e l, config_ok b n e l →
     USBConfigurationParser fuel (Some b) n p0 = Ok (tt, (parser0 b n e) <| m_bValid := true |>)) ∧
  (∀ p, USBConfigurationParser fuel (Some b) n p0 = Ok (tt, p) →
     USBConfigurationParserIsValid p = true →
     ∃ l, config_ok b n (m_pEndPosition p) l ∧ p = (parser0 b n (m_pEndPosition p)) <| m_bValid := true |>).
Proof. apply parser_accepts. Qed.

Lemma stuck_loop b e f last audio pos p :
  on_buffer b p → stuck b e last audio pos → parse_loop f e pos last audio p = Err OutOfFuel.
Proof.
  intros Hb Hs. revert f. induction Hs as [last audio pos ty Hpos El Et H2 H4 H5|
    last audio pos len ty audio' Hpos Ha Hlen He Hs IH]; intros f.
  - revert last audio. assert (∀ last audio, accept b last audio pos = Some (0, ty, audio)) as Ha.
    { intros last audio. unfold accept. rewrite El, Et. cbn [mbind option_bind].
      by rewrite !(proj2 (Z.eqb_neq _ _)) by done. }
    induction f as [|f IH]; intros last audio; [done|].
    destruct (parse_step b e pos last audio p Hb Hpos) as [(len&ty'&a'&[Ha' _]&Hr)|[Hno _]].
    + rewrite Ha in Ha'. injection Ha' as <- <- <-. rewrite Hr. rewrite Nat.add_0_r. apply IH.
    + destruct (Hno 0 ty audio). split; [done|lia].
  - destruct f as [|f]; [done|].
    destruct (parse_step b e pos last audio p Hb Hpos) as [(len'&ty'&a'&[Ha' _]&Hr)|[Hno _]].
    + rewrite Ha in Ha'. injection Ha' as <- <- <-. rewrite Hr. apply IH.
    + by destruct (Hno len ty audio').
Qed.

Lemma loop_dichotomy b e k last audio pos p :
  on_buffer b p → Forall is_u8 b → (e - pos <= k)%nat →
  stuck b e last audio pos ∨
  (∀ f, (k < f)%nat → parse_loop f e pos last audio p ≠ Err OutOfFuel).
Proof.
  intros Hb Hu. revert last audio pos. induction k as [|k IH]; intros last audio pos Hk.
  - right. intros [|f] Hf; [lia|]. by rewrite parse_end by lia.
  - destruct (Nat.ltb_spec (pos + 2) e) as [Hpos|Hpos].
    2: { right. intros [|f] Hf; [lia|]. by rewrite parse_end by lia. }
    destruct (parse_step b e pos last audio p Hb Hpos) as [(len&ty&a'&[Ha He]&Hr)|[_ Hbad]].
    2: { right. intros [|f] Hf; [lia|]. by destruct Hbad as [-> | ->]. }
    destruct (accept_len _ _ _ _ _ _ _ Ha) as [El Et].
    assert (is_u8 len) as Hlen by (eapply Forall_lookup_1; eauto). unfold is_u8 in Hlen.
    destruct (decide (len = 0)) as [->|Hne].
    + left. eapply stuck_here; [done..| | |]; intros ->; unfold accept in Ha; rewrite El, Et in Ha;
        simpl in Ha; rewrite ?andb_false_r in Ha; try done.
      by destruct audio; rewrite andb_false_r in Ha.
    + destruct (IH ty a' (pos + Z.to_nat len)%nat) as [Hs|Hs]; [lia| |].
      * left. by eapply stuck_later; [..|exact Hs]; [|exact Ha|lia|].
      * right. intros [|f] Hf; [lia|]. rewrite Hr. apply Hs. lia.
Qed.

(** C14. The parser returns, whatever the bytes, with more fuel than bytes in the
    buffer, except on a configuration that contains a descriptor of length 0
    and an unknown type: there the source's loop never ends, and nothing in
    the parser refuses such a descriptor. *)
Theorem parser_hangs_or_ends b n p0 :
  Forall is_u8 b →
  (∃ e, header_ok b n e ∧ stuck b e 0 false 0 ∧
     ∀ fuel, USBConfigurationParser fuel (Some b) n p0 = Err OutOfFuel) ∨
  (∀ fuel, n < Z.of_nat fuel → USBConfigurationParser fuel (Some b) n p0 ≠ Err OutOfFuel).
Proof.
  intros Hu. destruct (parser_run 0 b n p0 Hu) as [(e & Hh & _)|[Hno _]].
  - assert (∀ fuel, USBConfigurationParser fuel (Some b) n p0 =
      (r ← parse_loop fuel e 0 0 false;
       match r with
       | None => mret tt
       | Some pos => if negb (pos =? e)%nat then set_error pos
                     else modify (λ p, p <| m_bValid := true |>)
       end) (parser0 b n e)) as Hrun.
    { intros fuel. destruct (parser_run fuel b n p0 Hu) as [(e' & Hh' & ->)|[Hno _]].
      - assert (e' = e) as ->; [|done].
        destruct Hh as (_&_&_&(x&y&Ex&Ey&He)&_), Hh' as (_&_&_&(x'&y'&Ex'&Ey'&He')&_). simplify_eq. lia.
      - by destruct (Hno e). }
    destruct (loop_dichotomy b e e 0 false 0 (parser0 b n e) eq_refl Hu ltac:(lia)) as [Hs|Hs].
    + left. exists e. split_and!; [done|done|]. intros fuel. rewrite Hrun.
      apply bind_err. by apply (stuck_loop b).
    + right. intros fuel Hf. rewrite Hrun. destruct Hh as (_&_&_&_&Hle). specialize (Hs fuel ltac:(lia)).
      destruct (parse_loop fuel e 0 0 false (parser0 b n e)) as [[[pos|] p']|ft] eqn:E.
      * erewrite bind_ok by exact E. cbv beta iota. by destruct (negb (pos =? e)%nat).
      * by erewrite bind_ok by exact E.
      * erewrite bind_err by exact E. intros [= ->]. by apply Hs.
  - right. intros fuel Hf. destruct (parser_run fuel b n p0 Hu) as [(e & Hh & _)|[_ [-> | ->]]]; [|done|done].
    by destruct (Hno e).
Qed.

(** ** Searching *)

(** The first descriptor of type [ucType] among those at [l], and where the
    search leaves the position; an endpoint is not looked for behind the next
    interface. *)
Fixpoint search (b : list Z) (e : nat) (ucType : Z) (l : list nat) : option nat * nat :=
  match l with
  | [] => (None, e)
  | pos :: l' =>
      let ty := b !! (pos + 1)%nat in
      if (ucType =? DESCRIPTOR_ENDPOINT) && bool_decide (ty = Some DESCRIPTOR_INTERFACE) then (None, pos)
      else if bool_decide (ty = Some ucType) then (Some pos, hd e l')
      else search b e ucType l'
  end.

Lemma chain_hd b e last audio pos l : chain b e last audio pos l → pos = hd e l.
Proof. by destruct 1. Qed.

(** The size a descriptor of a known type has. *)
Definition sized (ty len : Z) : Prop :=
  (ty = DESCRIPTOR_CONFIGURATION → len = 9) ∧ (ty = DESCRIPTOR_INTERFACE → len = 9) ∧
  (ty = DESCRIPTOR_ENDPOINT → len = 7 ∨ len = 9).

Lemma accept_sized b last audio pos len ty audio' :
  accept b last audio pos = Some (len, ty, audio') → sized ty len.
Proof.
  unfold accept, sized. destruct (b !! pos) as [x|]; [|done]. simpl.
  destruct (b !! (pos + 1)%nat) as [t|]; [|done]. simpl.
  intros Ha. split_and!; intros ->; repeat case_match; simplify_eq/=; try done.
  all: rewrite ?andb_true_iff, ?Z.eqb_eq in *; destruct_and?; subst; try done; auto.
  all: try (destruct (b !! (pos + 5)%nat); simplify_eq/=; rewrite ?andb_true_iff, ?Z.eqb_eq in *; destruct_and?; by subst).
Qed.

(** A valid parser whose position is at the first of the descriptors [l]. *)
Definition at_chain (b : list Z) (l : list nat) (p : TUSBConfigurationParser) : Prop :=
  on_buffer b p ∧ m_bValid p = true ∧
  ∃ last audio, chain b (m_pEndPosition p) last audio (m_pNextPosition p) l.

(** The rest of the buffer after a search. *)
Fixpoint search_rest (b : list Z) (ucType : Z) (l : list nat) : list nat :=
  match l with
  | [] => []
  | pos :: l' =>
      let ty := b !! (pos + 1)%nat in
      if (ucType =? DESCRIPTOR_ENDPOINT) && bool_decide (ty = Some DESCRIPTOR_INTERFACE) then l
      else if bool_decide (ty = Some ucType) then l'
      else search_rest b ucType l'
  end.

Lemma search_loop_wp b e f ucType l p :
  at_chain b l p → m_pEndPosition p = e → (length l < f)%nat →
  wp (search_loop f ucType) (λ r p',
    r = (search b e ucType l).1 ∧ p' = p <| m_pNextPosition := (search b e ucType l).2 |> ∧
    at_chain b (search_rest b ucType l) p' ∧
    (∀ pos, r = Some pos → ∃ len, b !! pos = Some len ∧ b !! (pos + 1)%nat = Some ucType ∧
       (pos + Z.to_nat len <= e)%nat ∧ sized ucType len)) p.
Proof.
  intros (Hb & Hv & last & audio & Hc) He. revert f. destruct p as [bf n v e' nx cur err].
  simpl in *. subst e' v.
  induction Hc as [last audio|last audio pos len ty audio' l Hpos Ha Hle Hc IH];
    intros [|f] Hf; simpl in Hf; try lia; cbn [search_loop]; wp_step; wp_step; wp_step; wp_step;
    cbn [m_pNextPosition m_pEndPosition].
  - rewrite Nat.ltb_irrefl. wp_step. split_and!; [done|done| |done].
    split_and!; [done|done|]. exists last, audio. constructor.
  - rewrite (proj2 (Nat.ltb_lt pos e)) by lia.
    destruct (accept_len _ _ _ _ _ _ _ Ha) as [El Et].
    wp_step. eapply (wp_byte_at b); [done|done|]. wp_step. eapply (wp_byte_at b); [done|done|].
    wp_step. apply wp_assert; [by apply Nat.leb_le|]. cbn [search search_rest]. rewrite Et.
    assert (bool_decide (Some ty = Some DESCRIPTOR_INTERFACE) = (ty =? DESCRIPTOR_INTERFACE)) as ->.
    { destruct (Z.eqb_spec ty DESCRIPTOR_INTERFACE) as [->|]; [by rewrite bool_decide_true|].
      rewrite bool_decide_false; [done|congruence]. }
    destruct ((ucType =? DESCRIPTOR_ENDPOINT) && (ty =? DESCRIPTOR_INTERFACE)).
    + wp_step. split_and!; [done|done| |done]. split_and!; [done|done|].
      exists last, audio. by eapply chain_step.
    + wp_step. wp_step. cbn [upd m_pNextPosition m_pEndPosition].
      destruct (Z.eqb_spec ty ucType) as [->|Hne].
      * rewrite bool_decide_true by done. wp_step. rewrite (chain_hd _ _ _ _ _ _ Hc).
        split_and!; [done|done| |].
        -- split_and!; [done|done|]. exists ucType, audio'. simpl.
           by rewrite <- (chain_hd _ _ _ _ _ _ Hc).
        -- intros ? [= <-]. exists len. split_and!; [done|done|done|by eapply accept_sized].
      * rewrite bool_decide_false by congruence. apply IH; [done|lia].
Qed.

(** The search as its callers use it. *)
Lemma wp_GetDescriptor b l ucType p (Q : option nat → TUSBConfigurationParser → Prop) :
  at_chain b l p →
  (∀ r p', r = (search b (m_pEndPosition p) ucType l).1 → m_pCurrentDescriptor p' = r →
     m_pNextPosition p' = (search b (m_pEndPosition p) ucType l).2 →
     at_chain b (search_rest b ucType l) p' → m_pEndPosition p' = m_pEndPosition p →
     (∀ pos, r = Some pos → ∃ len, b !! pos = Some len ∧ b !! (pos + 1)%nat = Some ucType ∧
        (pos + Z.to_nat len <= m_pEndPosition p)%nat ∧ sized ucType len) → Q r p') →
  wp (USBConfigurationParserGetDescriptor ucType) Q p.
Proof.
  intros Hp HQ. pose proof Hp as (Hb & Hv & last & audio & Hc).
  destruct (chain_length _ _ _ _ _ _ Hc) as [_ Hlen].
  unfold USBConfigurationParserGetDescriptor. wp_step. wp_step. wp_step. apply wp_assert; [done|].
  wp_step. eapply wp_mono; [apply (search_loop_wp b (m_pEndPosition p) _ ucType l); [done|done|lia]|].
  intros r p' (Er & Ep' & Hat & Hf).
  assert (∀ x, Q r (p' <| m_pErrorPosition := x |> <| m_pCurrentDescriptor := r |>)) as Hend.
  { intros x. apply HQ; try done.
    - by rewrite Ep'.
    - by rewrite Ep'. }
  wp_step. destruct r as [pos|].
  - unfold set_error. do 4 wp_step. apply Hend.
  - do 4 wp_step. specialize (Hend (m_pErrorPosition p')). by destruct p'.
Qed.

(** C13. On a parser that accepted its buffer, [USBConfigurationParserGetDescriptor]
    returns, fails no assertion and reads inside the buffer: it finds the next
    descriptor of the type asked for, behind which the next search goes on;
    a search for an endpoint ends at the next interface, which is left for the
    next search. A descriptor found lies within the buffer with all the bytes
    its type has, so the fields its users read are there. *)
Theorem get_descriptor_correct b l ucType p :
  at_chain b l p →
  wp (USBConfigurationParserGetDescriptor ucType) (λ r p',
    r = (search b (m_pEndPosition p) ucType l).1 ∧ m_pCurrentDescriptor p' = r ∧
    m_pNextPosition p' = (search b (m_pEndPosition p) ucType l).2 ∧
    at_chain b (search_rest b ucType l) p' ∧
    (∀ pos, r = Some pos →
       wp USBConfigurationParserGetCurrentDescriptor (λ pos' p2, pos' = pos ∧ p2 = p') p' ∧
       ∃ len, b !! pos = Some len ∧ (pos + Z.to_nat len <= m_pEndPosition p)%nat ∧ sized ucType len)) p.
Proof.
  intros Hp. apply (wp_GetDescriptor b l); [done|]. intros r p' Er Ec En Hat _ Hf.
  split_and!; [done|done|done|done|]. intros pos ->.
  destruct (Hf pos eq_refl) as (len & H1 & _ & H2 & H3). split; [|by exists len].
  unfold USBConfigurationParserGetCurrentDescriptor. wp_step. wp_step. wp_step.
  apply wp_assert; [destruct Hat as (_ & H & _); exact H|]. by rewrite Ec.
Qed.

(** ** Concrete inputs *)

Module ConfigDemo.
(** A configuration with one keyboard interface and its interrupt endpoint. *)
Definition keyboard : list Z :=
  [9; 2; 34; 0; 1; 1; 0; 0xA0; 50] ++ [9; 4; 0; 0; 1; 3; 1; 1; 0] ++
  [9; 0x21; 0x11; 1; 0; 1; 0x22; 63; 0] ++ [7; 5; 0x81; 3; 8; 0; 10].

Lemma keyboard_chain : chain keyboard 34 0 false 0 [0%nat; 9%nat; 18%nat; 27%nat].
Proof.
  eapply chain_step; [lia|reflexivity|vm_compute; lia|].
  eapply chain_step; [vm_compute; lia|reflexivity|vm_compute; lia|].
  eapply chain_step; [vm_compute; lia|reflexivity|vm_compute; lia|].
  eapply chain_step; [vm_compute; lia|reflexivity|vm_compute; lia|].
  constructor.
Qed.

Lemma keyboard_bytes : Forall is_u8 keyboard.
Proof. unfold keyboard. cbn [app]. repeat (apply Forall_cons; [unfold is_u8; lia|]). constructor. Qed.

Definition parser : TUSBConfigurationParser :=
  (parser0 keyboard 34 34) <| m_bValid := true |>.

Lemma parser_valid_iff_witness :
  USBConfigurationParser 35 (Some keyboard) 34 (parser0 [] 0 0) = Ok (tt, parser).
Proof.
  apply (parser_valid_iff 35 keyboard 34 (parser0 [] 0 0) keyboard_bytes ltac:(lia)) with (l := [0%nat; 9%nat; 18%nat; 27%nat]).
  split; [lia|]. split; [reflexivity|]. split; [reflexivity|].
  split; [exists 34, 0; repeat split; reflexivity|]. split; [lia|exact keyboard_chain].
Defined.

Lemma parser_hangs_or_ends_witness :
  stuck keyboard 34 0 false 0 ∨
  USBConfigurationParser 35 (Some keyboard) 34 (parser0 [] 0 0) ≠ Err OutOfFuel.
Proof.
  destruct (parser_hangs_or_ends keyboard 34 (parser0 [] 0 0) keyboard_bytes) as [(e & He & Hs & _)|H].
  - left. destruct He as (_ & _ & _ & (lo & hi & Elo & Ehi & He) & _).
    vm_compute in Elo, Ehi. injection Elo as <-. injection Ehi as <-.
    assert (e = 34%nat) as <- by lia. exact Hs.
  - right. apply H. lia.
Defined.

Lemma get_descriptor_correct_witness :
  wp (USBConfigurationParserGetDescriptor DESCRIPTOR_INTERFACE) (λ r p', r = Some 9%nat ∧
    m_pNextPosition p' = 18%nat) parser.
Proof.
  eapply wp_mono; [apply (get_descriptor_correct keyboard [0%nat; 9%nat; 18%nat; 27%nat])|].
  - split; [reflexivity|split; [reflexivity|exists 0, false; exact keyboard_chain]].
  - intros r p' (Er & _ & En & _). split; [exact Er|exact En].
Defined.

(** A class descriptor of length 0 behind the configuration. *)
Definition zero_length : list Z := [9; 2; 12; 0; 1; 1; 0; 0xA0; 50] ++ [0; 0x24; 1].
(** An interface descriptor that claims the three bytes the buffer has left. *)
Definition short_interface : list Z := [9; 2; 12; 0; 1; 1; 0; 0xA0; 50] ++ [3; 4; 0].

(** The two inputs a device can send that break the parser. On a descriptor
    of length 0 it loops for ever. An interface descriptor at the end of the
    buffer is read at offset 5, before its length is compared with the nine
    bytes it should have: behind the end of the buffer. *)
Theorem malformed_configurations fuel p0 :
  USBConfigurationParser fuel (Some zero_length) 12 p0 = Err OutOfFuel ∧
  USBConfigurationParser (S (S fuel)) (Some short_interface) 12 p0 = Err MemFault.
Proof.
  split; [|reflexivity].
  assert (Forall is_u8 zero_length) as Hu.
  { unfold zero_length. cbn [app]. repeat (apply Forall_cons; [unfold is_u8; lia|]). constructor. }
  destruct (parser_run fuel zero_length 12 p0 Hu) as [(e & (_&_&_&(lo&hi&Elo&Ehi&He)&_) & ->)|[Hno _]].
  - vm_compute in Elo, Ehi. injection Elo as <-. injection Ehi as <-. assert (e = 12%nat) as -> by lia.
    apply bind_err. apply (stuck_loop zero_length); [done|].
    eapply stuck_later with (len := 9); [lia|reflexivity|lia|simpl; lia|].
    by eapply stuck_here; [simpl; lia|..].
  - destruct (Hno 12%nat). split; [lia|]. split; [done|]. split; [done|].
    split; [|lia]. by exists 12, 0.
Qed.
End ConfigDemo.
