(* ===== verification/CString.v ===== *)
(** * lib/string.c: the [TString] class and its [printf]-like formatter

    A [TString] owns a heap buffer of [m_nSize] bytes; [m_pInPtr] walks it while
    a format is expanded. The C functions run on [CMem]'s memory together with
    the object ([SW]). A [va_list] is the list of the values still to be
    fetched. The address of the literal returned by [StringGet] for an object
    without a buffer is the section variable [empty_literal]. *)
From S2P Require Import Prelude CMem Util.

(** ** Definitions *)

(** [m_pInPtr] is indeterminate ([None]) until [StringFormatV] sets it. *)
Record TString := {
  m_pBuffer : option ptr;
  m_nSize : Z;
  m_pInPtr : option ptr
}.
#[global] Instance TString_eta : Eta TString := λ r,
  Build_TString (m_pBuffer r) (m_nSize r) (m_pInPtr r).

Record SW := { str : TString; sm : mem }.
#[global] Instance SW_eta : Eta SW := λ r, Build_SW (str r) (sm r).

Definition FORMAT_RESERVE : Z := 64.
Definition MAX_NUMBER_LEN : nat := 11.

Definition on_mem {A} (m : M mem A) : M SW A :=
  zoom (λ w, Some (sm w)) (λ m' w, w <| sm := m' |>) m.

Definition set_str (f : TString → TString) : M SW unit :=
  modify (λ w, w <| str := f (str w) |>).

(** Dereferencing a pointer member: [None] is a null or indeterminate pointer. *)
Definition deref (p : option ptr) : M SW ptr :=
  match p with Some q => mret q | None => fail MemFault end.

Definition String : M SW unit :=
  set_str (λ s, (s <| m_pBuffer := None |>) <| m_nSize := 0 |>).

(** [m_nSize = strlen (pString)+1; m_pBuffer = malloc (m_nSize);
    strcpy (m_pBuffer, pString);], shared by [String2] and [StringSet]. *)
Definition set_copy (pString : ptr) : M SW ptr :=
  n ← on_mem (uspi_strlen pString);
  set_str (λ s, s <| m_nSize := u32 (n + 1) |>) ;;
  size ← gets (λ w, m_nSize (str w));
  p ← on_mem (malloc size);
  set_str (λ s, s <| m_pBuffer := Some p |>) ;;
  on_mem (uspi_strcpy p pString).

Definition String2 (pString : ptr) : M SW unit :=
  set_copy pString ;; mret tt.

Definition String_dtor : M SW unit :=
  b ← gets (λ w, m_pBuffer (str w));
  match b with
  | Some p => on_mem (free p) ;; set_str (λ s, s <| m_pBuffer := None |>)
  | None => mret tt
  end.

Definition StringGet (empty_literal : ptr) : M SW ptr :=
  b ← gets (λ w, m_pBuffer (str w));
  match b with Some p => mret p | None => mret empty_literal end.

(** [if (m_pBuffer != 0) free (m_pBuffer);] *)
Definition free_buffer : M SW unit :=
  b ← gets (λ w, m_pBuffer (str w));
  match b with Some p => on_mem (free p) | None => mret tt end.

Definition StringSet (pString : ptr) : M SW ptr :=
  free_buffer ;;
  set_copy pString ;;
  b ← gets (λ w, m_pBuffer (str w)); deref b.

Definition StringGetLength : M SW Z :=
  b ← gets (λ w, m_pBuffer (str w));
  match b with Some p => on_mem (uspi_strlen p) | None => mret 0 end.

Definition add_size (n : Z) : M SW unit :=
  set_str (λ s, s <| m_nSize := u32 (m_nSize s + n) |>).

Definition StringAppend (pString : ptr) : M SW unit :=
  set_str (λ s, s <| m_nSize := 1 |>) ;;
  b ← gets (λ w, m_pBuffer (str w));
  match b with
  | Some p => n ← on_mem (uspi_strlen p); add_size n
  | None => mret tt
  end ;;
  n ← on_mem (uspi_strlen pString);
  add_size n ;;
  size ← gets (λ w, m_nSize (str w));
  pBuffer ← on_mem (malloc size);
  match b with
  | Some p => on_mem (uspi_strcpy pBuffer p) ;; on_mem (free p)
  | None => on_mem (store pBuffer 0)
  end ;;
  on_mem (uspi_strcat pBuffer pString) ;;
  set_str (λ s, s <| m_pBuffer := Some pBuffer |>).

Definition StringCompare (pString : ptr) : M SW Z :=
  b ← gets (λ w, m_pBuffer (str w));
  p ← deref b;
  on_mem (uspi_strcmp p pString).

(** [nPos] is an [int]; its overflow is undefined. *)
Fixpoint find_loop (fuel : nat) (p : ptr) (chChar nPos : Z) : M mem Z :=
  match fuel with
  | O => fail OutOfFuel
  | S f =>
      c ← load_char p;
      if c =? 0 then mret (-1)
      else if c =? chChar then mret nPos
      else if nPos =? 2147483647 then fail UndefBehaviour
      else find_loop f (padd p 1) chChar (nPos + 1)
  end.

Definition StringFind (chChar : Z) : M SW Z :=
  b ← gets (λ w, m_pBuffer (str w));
  p ← deref b;
  f ← on_mem (fuel_at p);
  on_mem (find_loop f p chChar 0).

(** *** Writing into the buffer *)

(** [m_pInPtr - m_pBuffer], defined within one block. *)
Definition in_offset : M SW Z :=
  s ← gets str;
  i ← deref (m_pInPtr s);
  b ← deref (m_pBuffer s);
  if (blk i =? blk b)%nat && (off b <=? off i)%nat
  then mret (Z.of_nat (off i - off b))
  else fail UndefBehaviour.

Definition StringReserveSpace (nSpace : Z) : M SW unit :=
  if nSpace =? 0 then mret tt
  else
    nOffset ← in_offset;
    let nNewSize := u64 (nOffset + nSpace + 1) in
    size ← gets (λ w, m_nSize (str w));
    if nNewSize <=? size then mret tt
    else
      let nNewSize := u64 (nNewSize + FORMAT_RESERVE) in
      pNewBuffer ← on_mem (malloc nNewSize);
      i ← (s ← gets str; deref (m_pInPtr s));
      on_mem (store i 0) ;;
      b ← (s ← gets str; deref (m_pBuffer s));
      on_mem (uspi_strcpy pNewBuffer b) ;;
      on_mem (free b) ;;
      set_str (λ s, (s <| m_pBuffer := Some pNewBuffer |>) <| m_nSize := u32 nNewSize |>) ;;
      set_str (λ s, s <| m_pInPtr := Some (padd pNewBuffer (Z.to_nat nOffset)) |>).

Fixpoint put_char_loop (chChar : Z) (nCount : nat) : M SW unit :=
  match nCount with
  | O => mret tt
  | S n =>
      i ← (s ← gets str; deref (m_pInPtr s));
      on_mem (store i chChar) ;;
      set_str (λ s, s <| m_pInPtr := Some (padd i 1) |>) ;;
      put_char_loop chChar n
  end.

Definition StringPutChar (chChar nCount : Z) : M SW unit :=
  StringReserveSpace nCount ;; put_char_loop chChar (Z.to_nat nCount).

Definition StringPutString (pString : ptr) : M SW unit :=
  nLen ← on_mem (uspi_strlen pString);
  StringReserveSpace nLen ;;
  i ← (s ← gets str; deref (m_pInPtr s));
  on_mem (uspi_strcpy i pString) ;;
  set_str (λ s, s <| m_pInPtr := Some (padd i (Z.to_nat nLen)) |>).

(** *** Numbers *)

Definition udiv (a b : Z) : M mem Z := if b =? 0 then fail UndefBehaviour else mret (a / b).
Definition umod (a b : Z) : M mem Z := if b =? 0 then fail UndefBehaviour else mret (a mod b).

(** The first loop: the digit and the divisor it leaves. *)
Fixpoint ntoa_divisor (fuel : nat) (ulNumber nBase ulDivisor : Z) : M mem (Z * Z) :=
  match fuel with
  | O => fail OutOfFuel
  | S f =>
      ulDigit ← udiv ulNumber ulDivisor;
      if ulDigit <? nBase then mret (ulDigit, ulDivisor)
      else ntoa_divisor f ulNumber nBase (u64 (ulDivisor * nBase))
  end.

Definition digit_char (bUpcase : bool) (ulDigit : Z) : Z :=
  if ulDigit <? 10 then 48 + ulDigit else 48 + ulDigit + 7 + (if bUpcase then 0 else 0x20).

Fixpoint ntoa_digits (fuel : nat) (p : ptr) (ulNumber nBase ulDivisor ulDigit : Z)
    (bUpcase : bool) : M mem ptr :=
  match fuel with
  | O => fail OutOfFuel
  | S f =>
      ulNumber ← umod ulNumber ulDivisor;
      store p (digit_char bUpcase ulDigit) ;;
      ulDivisor ← udiv ulDivisor nBase;
      if ulDivisor =? 0 then mret (padd p 1)
      else
        ulDigit ← udiv ulNumber ulDivisor;
        ntoa_digits f (padd p 1) ulNumber nBase ulDivisor ulDigit bUpcase
  end.

(** 64 turns of either loop are enough for a 64-bit number ([ntoa_correct]). *)
Definition ntoa (pDest : ptr) (ulNumber nBase : Z) (bUpcase : bool) : M mem ptr :=
  '(ulDigit, ulDivisor) ← ntoa_divisor 64 ulNumber nBase 1;
  p ← ntoa_digits 64 pDest ulNumber nBase ulDivisor ulDigit bUpcase;
  store p 0 ;;
  mret pDest.

(** *** Formatting *)

(** An argument as [va_arg] finds it: a 32-bit or a 64-bit word, or a pointer. *)
Inductive varg := Word32 (z : Z) | Word64 (z : Z) | Pointer (p : ptr).

Definition va_int (a : list varg) : M SW (Z * list varg) :=
  match a with Word32 z :: r => mret (s32 z, r) | _ => fail UndefBehaviour end.
Definition va_unsigned (a : list varg) : M SW (Z * list varg) :=
  match a with Word32 z :: r => mret (u32 z, r) | _ => fail UndefBehaviour end.
Definition va_long (a : list varg) : M SW (Z * list varg) :=
  match a with Word64 z :: r => mret (s64 z, r) | _ => fail UndefBehaviour end.
Definition va_ulong (a : list varg) : M SW (Z * list varg) :=
  match a with Word64 z :: r => mret (u64 z, r) | _ => fail UndefBehaviour end.
Definition va_ptr (a : list varg) : M SW (ptr * list varg) :=
  match a with Pointer p :: r => mret (p, r) | _ => fail UndefBehaviour end.

(** A flag character of a conversion: [if ( *pFormat == ch) { b = TRUE; pFormat++; }] *)
Definition flag (ch : Z) (pFormat : ptr) : M mem (bool * ptr) :=
  c ← load_char pFormat;
  mret (if c =? ch then (true, padd pFormat 1) else (false, pFormat)).

Fixpoint width_loop (fuel : nat) (pFormat : ptr) (nWidth : Z) : M mem (Z * ptr) :=
  match fuel with
  | O => fail OutOfFuel
  | S f =>
      c ← load_char pFormat;
      if (48 <=? c) && (c <=? 57)
      then width_loop f (padd pFormat 1) (u64 (nWidth * 10 + (c - 48)))
      else mret (nWidth, pFormat)
  end.

(** [if (nWidth > nLen) StringPutChar (pThis, ch, nWidth-nLen);] *)
Definition fill (ch nWidth nLen : Z) : M SW unit :=
  when (nLen <? nWidth) (StringPutChar ch (nWidth - nLen)).

(** An automatic array of [n] bytes, live while [k] runs. *)
Definition with_local {A} (n : Z) (k : ptr → M SW A) : M SW A :=
  p ← on_mem (malloc n);
  a ← k p;
  on_mem (free p) ;;
  mret a.

Definition format_char (bLeft : bool) (nWidth : Z) (Args : list varg) : M SW (list varg) :=
  '(c, Args) ← va_int Args;
  let chArg := s8 c in
  (if bLeft then StringPutChar chArg 1 ;; fill 32 nWidth 1
   else fill 32 nWidth 1 ;; StringPutChar chArg 1) ;;
  mret Args.

Definition format_int (NumBuf : ptr) (bLeft bLong : bool) (nWidth : Z) (Args : list varg)
    : M SW (list varg) :=
  '(lArg, Args) ← (if bLong then va_long Args else va_int Args);
  let bMinus := lArg <? 0 in
  lArg ← (if bMinus
          then if lArg =? -9223372036854775808 then fail UndefBehaviour else mret (- lArg)
          else mret lArg);
  on_mem (ntoa NumBuf (u64 lArg) 10 false) ;;
  n ← on_mem (uspi_strlen NumBuf);
  let nLen := n + (if bMinus then 1 else 0) in
  (if bLeft then
     when bMinus (StringPutChar 45 1) ;;
     StringPutString NumBuf ;;
     fill 32 nWidth nLen
   else
     fill 32 nWidth nLen ;;
     when bMinus (StringPutChar 45 1) ;;
     StringPutString NumBuf) ;;
  mret Args.

Definition format_string (bLeft : bool) (nWidth : Z) (Args : list varg) : M SW (list varg) :=
  '(pArg, Args) ← va_ptr Args;
  nLen ← on_mem (uspi_strlen pArg);
  (if bLeft then StringPutString pArg ;; fill 32 nWidth nLen
   else fill 32 nWidth nLen ;; StringPutString pArg) ;;
  mret Args.

(** The label [FormatNumber]. *)
Definition format_number (NumBuf : ptr) (bLeft bNull bLong : bool) (nWidth nBase : Z)
    (bUpcase : bool) (Args : list varg) : M SW (list varg) :=
  '(ulArg, Args) ← (if bLong then va_ulong Args else va_unsigned Args);
  on_mem (ntoa NumBuf ulArg nBase bUpcase) ;;
  nLen ← on_mem (uspi_strlen NumBuf);
  (if bLeft then StringPutString NumBuf ;; fill 32 nWidth nLen
   else fill (if bNull then 48 else 32) nWidth nLen ;; StringPutString NumBuf) ;;
  mret Args.

(** The [switch] on the conversion character [c]. *)
Definition format_switch (NumBuf : ptr) (c : Z) (bLeft bNull bLong : bool) (nWidth : Z)
    (Args : list varg) : M SW (list varg) :=
  if c =? 99 then format_char bLeft nWidth Args
  else if c =? 100 then format_int NumBuf bLeft bLong nWidth Args
  else if c =? 111 then format_number NumBuf bLeft bNull bLong nWidth 8 false Args
  else if c =? 115 then format_string bLeft nWidth Args
  else if c =? 117 then format_number NumBuf bLeft bNull bLong nWidth 10 false Args
  else if (c =? 120) || (c =? 88)
       then format_number NumBuf bLeft bNull bLong nWidth 16 (c =? 88) Args
  else StringPutChar 37 1 ;; StringPutChar c 1 ;; mret Args.

(** One conversion: [pFormat] is behind the ['%']. *)
Definition format_conversion (pFormat : ptr) (Args : list varg) : M SW (ptr * list varg) :=
  '(bLeft, pFormat) ← on_mem (flag 45 pFormat);
  '(bNull, pFormat) ← on_mem (flag 48 pFormat);
  f ← on_mem (fuel_at pFormat);
  '(nWidth, pFormat) ← on_mem (width_loop f pFormat 0);
  '(bLong, pFormat) ← on_mem (flag 108 pFormat);
  with_local (Z.of_nat MAX_NUMBER_LEN + 1) (λ NumBuf,
    c ← on_mem (load_char pFormat);
    Args ← format_switch NumBuf c bLeft bNull bLong nWidth Args;
    mret (padd pFormat 1, Args)).

Fixpoint format_loop (fuel : nat) (pFormat : ptr) (Args : list varg) : M SW unit :=
  match fuel with
  | O => fail OutOfFuel
  | S f =>
      c ← on_mem (load_char pFormat);
      if c =? 0 then mret tt
      else if c =? 37 then
        c ← on_mem (load_char (padd pFormat 1));
        if c =? 37 then
          StringPutChar 37 1 ;;
          format_loop f (padd pFormat 2) Args
        else
          '(pFormat, Args) ← format_conversion (padd pFormat 1) Args;
          format_loop f pFormat Args
      else
        StringPutChar c 1 ;;
        format_loop f (padd pFormat 1) Args
  end.

Definition StringFormatV (pFormat : ptr) (Args : list varg) : M SW unit :=
  free_buffer ;;
  set_str (λ s, s <| m_nSize := FORMAT_RESERVE |>) ;;
  size ← gets (λ w, m_nSize (str w));
  p ← on_mem (malloc size);
  set_str (λ s, s <| m_pBuffer := Some p |>) ;;
  set_str (λ s, s <| m_pInPtr := m_pBuffer s |>) ;;
  f ← on_mem (fuel_at pFormat);
  format_loop f pFormat Args ;;
  i ← (s ← gets str; deref (m_pInPtr s));
  on_mem (store i 0).

(** [va_start] collects the arguments of the call. *)
Definition StringFormat (pFormat : ptr) (Args : list varg) : M SW unit :=
  StringFormatV pFormat Args.

(** ** The representation

    [holds B l w]: the object of [w] represents the string [l], and apart from
    its own buffer the memory is [B]. The buffer is a whole block of [m_nSize]
    bytes; an object without one represents the empty string. *)

Definition bstr (B : gmap nat (list (option Z))) (p : ptr) (l : list Z) : Prop :=
  cstr (Mem B 0) p l.

Definition holds (B : gmap nat (list (option Z))) (l : list Z) (w : SW) : Prop :=
  mem_wf (sm w) ∧ Forall char_ok l ∧
  ((m_pBuffer (str w) = None ∧ blocks (sm w) = B ∧ l = []) ∨
   ∃ b bs, m_pBuffer (str w) = Some (Ptr b 0) ∧ blocks (sm w) = <[b := bs]> B ∧
     B !! b = None ∧ take (S (length l)) bs = cells_of l ∧
     Z.of_nat (length bs) = m_nSize (str w)).

Abbreviation short := (λ l : list Z, Z.of_nat (length l) < 4294967295).

(** ** Shared lemmas *)

Lemma wp_on_mem {A} (m : M mem A) (Q : A → SW → Prop) w :
  wp m (λ a m', Q a (w <| sm := m' |>)) (sm w) → wp (on_mem m) Q w.
Proof. intros H. by eapply wp_zoom. Qed.

Ltac smcbn := cbn [str sm upd m_pBuffer m_nSize m_pInPtr blocks fresh] in *.

Lemma wp_set_str f (Q : unit → SW → Prop) w :
  Q tt (w <| str := f (str w) |>) → wp (set_str f) Q w.
Proof. done. Qed.

(** One step of code on [SW], down to the memory operation it performs. *)
Ltac mstep :=
  lazymatch goal with
  | |- wp (on_mem _) _ _ => apply wp_on_mem
  | |- wp (set_str _) _ _ => apply wp_set_str
  | |- wp (deref (Some _)) _ _ => apply wp_ret
  | |- wp _ _ _ => wp_step
  end; smcbn.
Ltac msteps := repeat mstep.

Lemma bstr_lookup B p l :
  bstr B p l → is_Some (B !! blk p).
Proof. intros H. destruct (cstr_bound _ _ _ H) as (bs&Hb&_). by exists bs. Qed.

Lemma bstr_cstr B m p l :
  bstr B p l → blocks m !! blk p = B !! blk p → cstr m p l.
Proof. intros H E. eapply (cstr_frame (Mem B 0)); [exact E|exact H]. Qed.

Lemma bstr_insert B b bs p l : bstr B p l → B !! b = None → bstr (<[b := bs]> B) p l.
Proof.
  intros H E. eapply bstr_cstr; [done|]. simpl. apply lookup_insert_ne. intros ->.
  apply bstr_lookup in H as [x H]. congruence.
Qed.

Lemma bstr_ne B b p l : bstr B p l → B !! b = None → b ≠ blk p.
Proof. intros H E ->. apply bstr_lookup in H as [x H]. congruence. Qed.

Lemma bstr_whole B b bs l :
  B !! b = Some bs → Forall char_ok l → take (S (length l)) bs = cells_of l →
  bstr B (Ptr b 0) l.
Proof. intros. eapply cstr_of_cells; [done|done|by rewrite drop_0]. Qed.

Lemma take_overwrite_0 {A} (new l : list A) :
  (length new <= length l)%nat → take (length new) (overwrite 0 new l) = new.
Proof. intros. change (length new) with (0 + length new)%nat. by rewrite take_overwrite by lia. Qed.

Lemma insert_twice_gmap {A} (B : gmap nat A) b x y : <[b := x]> (<[b := y]> B) = <[b := x]> B.
Proof. apply insert_insert_eq. Qed.

Lemma delete_insert_fresh {A} (B : gmap nat A) b x : B !! b = None → delete b (<[b := x]> B) = B.
Proof. intros. by rewrite delete_insert_id. Qed.

Lemma mem_wf_malloc m bs : mem_wf m → mem_wf (Mem (<[fresh m := bs]> (blocks m)) (S (fresh m))).
Proof. intros Hm b Hb. simpl in *. rewrite lookup_insert_ne by lia. apply Hm. lia. Qed.

Lemma mem_wf_fresh_None m : mem_wf m → blocks m !! fresh m = None.
Proof. intros Hm. by apply Hm. Qed.

Lemma mem_wf_delete m b :
  mem_wf m → mem_wf (Mem (delete b (blocks m)) (fresh m)).
Proof. intros Hm b' Hb. simpl in *. rewrite lookup_delete_None. right. by apply Hm. Qed.

Lemma mem_wf_blocks m B f :
  mem_wf m → f = fresh m → (∀ b, blocks m !! b = None → B !! b = None) → mem_wf (Mem B f).
Proof. intros Hm -> H b Hb. simpl in *. apply H. by apply Hm. Qed.

(** Releasing the buffer leaves exactly [B]. *)
Lemma wp_free_buffer B l w (Q : unit → SW → Prop) :
  holds B l w →
  (∀ m', blocks m' = B → mem_wf m' → Q tt (w <| sm := m' |>)) →
  wp free_buffer Q w.
Proof.
  intros (Hm&Hl&[(E&Eb&->)|(b&bs&E&Eb&Hn&Ht&Hs)]) HQ; unfold free_buffer; wp_step; wp_step; rewrite E.
  - wp_step. destruct w as [s m]. simpl in *. by apply (HQ m).
  - apply wp_on_mem. eapply wp_free; [rewrite Eb; simpl; apply lookup_insert_eq|done|].
    apply HQ; simpl; [by rewrite Eb, delete_insert_fresh|].
    by apply mem_wf_delete.
Qed.

(** [set_copy] makes the object hold a fresh copy. *)
Lemma wp_set_copy B pString l w (Q : ptr → SW → Prop) :
  blocks (sm w) = B → mem_wf (sm w) → bstr B pString l → short l →
  (∀ p w', holds B l w' → m_pBuffer (str w') = Some p →
     bstr (blocks (sm w')) p l → Q p w') →
  wp (set_copy pString) Q w.
Proof.
  intros Eb Hm Hs Hl HQ. destruct w as [s m]. smcbn. unfold set_copy.
  assert (Forall char_ok l) as Hc by (by eapply cstr_chars).
  assert (cstr m pString l) as Hcs by (eapply bstr_cstr; [done|by rewrite Eb]).
  msteps. eapply uspi_strlen_wp; [done|lia|].
  msteps. eapply wp_malloc. msteps.
  pose proof (mem_wf_fresh_None _ Hm) as Hf.
  assert (blk (Ptr (fresh m) 0) ≠ blk pString) as Hne.
  { simpl. apply (bstr_ne B _ _ l); [done|]. by rewrite <- Eb. }
  assert (Z.to_nat (u32 (u32 (Z.of_nat (length l) + 1))) = S (length l)) as Esz by cint.
  eapply uspi_strcpy_wp.
  - eapply bstr_cstr; [done|]. smcbn. rewrite lookup_insert_ne by done. by rewrite Eb.
  - done.
  - apply lookup_insert_eq.
  - rewrite length_replicate. simpl. lia.
  - rewrite Esz. smcbn. assert (holds B l (Build_SW
      {| m_pBuffer := Some (Ptr (fresh m) 0); m_nSize := u32 (Z.of_nat (length l) + 1);
         m_pInPtr := m_pInPtr s |}
      (upd_block (fresh m) (overwrite 0 (cells_of l) (replicate (S (length l)) None))
       (Mem (<[fresh m := replicate (S (length l)) None]> (blocks m)) (S (fresh m)))))) as Hh.
    { split_and!; [|done|right].
      - apply mem_wf_upd_block; [by apply mem_wf_malloc|]. simpl.
        rewrite lookup_insert_eq. by eexists.
      - eexists _, _. split_and!; [done| |by rewrite <- Eb| |].
        + simpl. by rewrite insert_twice_gmap, Eb.
        + rewrite <- cells_of_length. apply take_overwrite_0.
          rewrite cells_of_length. simpl. rewrite length_replicate. lia.
        + rewrite overwrite_length; rewrite ?cells_of_length; simpl; rewrite length_replicate; cint. }
    apply HQ; [done|done|]. simpl. eapply bstr_whole; [apply lookup_insert_eq|done|].
    rewrite <- cells_of_length. apply take_overwrite_0.
    rewrite cells_of_length. simpl. rewrite length_replicate. lia.
Qed.

Lemma holds_bstr B l w p :
  holds B l w → m_pBuffer (str w) = Some p → cstr (sm w) p l.
Proof.
  intros (Hm&Hl&[(E&_)|(b&bs&E&Eb&Hn&Ht&Hs)]) E'; [congruence|].
  assert (p = Ptr b 0) as -> by congruence.
  eapply cstr_of_cells; [rewrite Eb; apply lookup_insert_eq|done|by rewrite drop_0].
Qed.

Lemma holds_other B l w p s :
  holds B l w → bstr B p s → cstr (sm w) p s.
Proof.
  intros (Hm&Hl&[(E&Eb&_)|(b&bs&E&Eb&Hn&Ht&Hs)]) H; (eapply bstr_cstr; [done|]); rewrite Eb; [done|].
  apply lookup_insert_ne. by eapply bstr_ne.
Qed.

(** ** The object as a string *)

(** Writing past a string that is a block's prefix extends it. *)
Lemma append_cells l1 l2 bs :
  take (S (length l1)) bs = cells_of l1 → (length l1 + length l2 < length bs)%nat →
  take (S (length (l1 ++ l2))) (overwrite (length l1) (cells_of l2) bs) = cells_of (l1 ++ l2).
Proof.
  intros Ht Hl.
  replace (S (length (l1 ++ l2))) with (length l1 + length (cells_of l2))%nat
    by (rewrite cells_of_length, length_app; lia).
  rewrite take_overwrite by (rewrite cells_of_length; lia).
  assert (take (length l1) bs = map Some l1) as ->.
  { assert (length l1 = Nat.min (length l1) (S (length l1))) as E by lia.
    rewrite E at 1. rewrite <- take_take, Ht. unfold cells_of.
    rewrite take_app_le by (rewrite length_map; lia).
    apply take_ge. rewrite length_map. lia. }
  unfold cells_of. by rewrite map_app, app_assoc.
Qed.

Lemma wp_StringSet B l0 l p w :
  holds B l0 w → bstr B p l → short l →
  wp (StringSet p) (λ r w', holds B l w' ∧ m_pBuffer (str w') = Some r) w.
Proof.
  intros Hh Hp Hl. unfold StringSet. mstep. eapply wp_free_buffer; [done|]. intros m' Eb Hm.
  mstep. eapply wp_set_copy; [done|done|done|done|]. intros q w' Hh' E _.
  msteps. rewrite E. mstep. done.
Qed.

Lemma wp_StringGetLength B l w (Q : Z → SW → Prop) :
  holds B l w → short l → Q (Z.of_nat (length l)) w → wp StringGetLength Q w.
Proof.
  intros Hh Hl HQ. unfold StringGetLength. mstep. mstep.
  destruct (m_pBuffer (str w)) as [p|] eqn:E.
  - mstep. eapply uspi_strlen_wp; [by eapply holds_bstr|lia|].
    destruct w as [s m]. exact HQ.
  - mstep. destruct Hh as (_&_&[(_&_&->)|(b&bs&E'&_)]); [done|congruence].
Qed.

(** The new buffer with the old string in it: the first half of [StringAppend]. *)
Lemma holds_block B l s m b bs :
  mem_wf m → Forall char_ok l → m_pBuffer s = Some (Ptr b 0) →
  blocks m = <[b := bs]> B → B !! b = None → take (S (length l)) bs = cells_of l →
  Z.of_nat (length bs) = m_nSize s → holds B l (Build_SW s m).
Proof. intros. split_and!; [done|done|right]. simpl. by exists b, bs. Qed.

Lemma wp_append_tail B l0 l b bs p s m :
  mem_wf m → blocks m = <[b := bs]> B → B !! b = None → Forall char_ok l0 →
  take (S (length l0)) bs = cells_of l0 → bstr B p l →
  Z.of_nat (length bs) = m_nSize s → length bs = S (length l0 + length l) →
  wp (on_mem (uspi_strcat (Ptr b 0) p) ≫=
      λ _, set_str (λ s, s <| m_pBuffer := Some (Ptr b 0) |>))
     (λ _ w', holds B (l0 ++ l) w') (Build_SW s m).
Proof.
  intros Hm Eb Hn Hc0 Ht Hp Hs Hl. pose proof (cstr_chars _ _ _ Hp) as Hc.
  assert (b ≠ blk p) as Hne by (by eapply bstr_ne).
  mstep. mstep. eapply uspi_strcat_wp.
  - eapply cstr_of_cells; [rewrite Eb; apply lookup_insert_eq|exact Hc0|rewrite drop_0; exact Ht].
  - eapply bstr_cstr; [done|]. rewrite Eb. by apply lookup_insert_ne.
  - done.
  - rewrite Eb. apply lookup_insert_eq.
  - simpl. lia.
  - mstep. eapply holds_block.
    + apply mem_wf_upd_block; [done|]. rewrite Eb, lookup_insert_eq. by eexists.
    + by apply Forall_app.
    + done.
    + simpl. rewrite Eb. apply insert_twice_gmap.
    + done.
    + apply append_cells; [done|lia].
    + rewrite overwrite_length; [done|]. rewrite cells_of_length. simpl. lia.
Qed.

Lemma replicate_take_0 n : (0 < n)%nat →
  take 1 (<[0%nat := Some 0]> (replicate n None)) = cells_of [].
Proof. destruct n; [lia|done]. Qed.

Lemma wp_StringAppend B l0 l p w :
  holds B l0 w → bstr B p l → short (l0 ++ l) →
  wp (StringAppend p) (λ _ w', holds B (l0 ++ l) w') w.
Proof.
  intros (Hm&Hc0&Hh) Hp Hl. pose proof (cstr_chars _ _ _ Hp) as Hc.
  rewrite length_app in Hl. destruct w as [s m]. smcbn. unfold StringAppend.
  pose proof (mem_wf_fresh_None _ Hm) as Hf. msteps.
  destruct Hh as [(E&Eb&->)|(b&bs&E&Eb&Hn&Ht&Hs)]; rewrite E; msteps.
  - eapply uspi_strlen_wp; [eapply bstr_cstr; [done|by rewrite Eb]|lia|].
    unfold add_size. msteps. apply wp_malloc. msteps.
    eapply wp_poke; [simpl; apply lookup_insert_eq|rewrite length_replicate; simpl; cint|].
    simpl (u8 0). eapply wp_append_tail; smcbn.
    + apply mem_wf_upd_block; [by apply mem_wf_malloc|]. simpl. rewrite lookup_insert_eq. by eexists.
    + simpl. rewrite insert_twice_gmap. by rewrite Eb.
    + by rewrite <- Eb.
    + done.
    + apply replicate_take_0. simpl in *. cint.
    + done.
    + rewrite length_insert, length_replicate. simpl in *. cint.
    + rewrite length_insert, length_replicate. simpl in *. cint.
  - eapply (uspi_strlen_wp _ _ l0); [|lia|].
    { eapply cstr_of_cells; [rewrite Eb; apply lookup_insert_eq|done|by rewrite drop_0]. }
    unfold add_size. msteps. eapply (uspi_strlen_wp _ _ l); [|lia|].
    { eapply bstr_cstr; [done|]. rewrite Eb. apply lookup_insert_ne. by eapply bstr_ne. }
    msteps. apply wp_malloc. msteps.
    set (n := Z.to_nat (u32 (u32 (u32 (1 + Z.of_nat (length l0)) + Z.of_nat (length l))))).
    assert (n = S (length l0 + length l)) as En by (unfold n; cint).
    assert (fresh m ≠ b) as Hfb.
    { intros E1. rewrite E1, Eb, lookup_insert_eq in Hf. done. }
    eapply uspi_strcpy_wp.
    + eapply cstr_of_cells; [|exact Hc0|by rewrite drop_0].
      simpl. rewrite lookup_insert_ne by done. rewrite Eb. apply lookup_insert_eq.
    + done.
    + simpl. apply lookup_insert_eq.
    + rewrite length_replicate. simpl. lia.
    + msteps. eapply wp_free; [|done|].
      { simpl. rewrite !lookup_insert_ne by done. rewrite Eb. apply lookup_insert_eq. }
      smcbn. eapply wp_append_tail; smcbn.
      * apply mem_wf_delete. apply mem_wf_upd_block; [by apply mem_wf_malloc|]. simpl.
        rewrite lookup_insert_eq. by eexists.
      * simpl. rewrite insert_twice_gmap, Eb. rewrite delete_insert_ne by done.
        by rewrite delete_insert_fresh.
      * rewrite Eb in Hf. rewrite lookup_insert_ne in Hf by done. done.
      * done.
      * rewrite <- cells_of_length. apply take_overwrite_0.
        rewrite cells_of_length, length_replicate. lia.
      * done.
      * rewrite overwrite_length; rewrite ?cells_of_length, length_replicate; unfold n; cint.
      * rewrite overwrite_length; rewrite ?cells_of_length, length_replicate; lia.
Qed.

(** The constructors, [StringSet], [StringAppend] and the destructor are the
    operations of an abstract string: whatever the object holds, [StringSet]
    makes it hold the argument, [StringAppend] the concatenation, and the
    destructor gives back exactly the memory [B] the object did not own, so no
    buffer is leaked or freed twice. *)
Theorem string_update B l0 l p w :
  holds B l0 w → bstr B p l → short (l0 ++ l) →
  wp (StringSet p) (λ r w', holds B l w' ∧ m_pBuffer (str w') = Some r) w ∧
  wp (StringAppend p) (λ _ w', holds B (l0 ++ l) w') w ∧
  wp String_dtor (λ _ w', blocks (sm w') = B) w ∧
  (m_pBuffer (str w) = None →
   wp (String2 p) (λ _ w', holds B l w') w ∧ wp String (λ _ w', holds B [] w') w).
Proof.
  intros Hh Hp Hl. pose proof Hl as Hl'. cbv beta in Hl'. rewrite length_app in Hl'. split_and!.
  - eapply wp_StringSet; [done|done|lia].
  - by eapply wp_StringAppend.
  - destruct Hh as (Hm&_&[(E&Eb&_)|(b&bs&E&Eb&Hn&_)]); unfold String_dtor; msteps; rewrite E; msteps.
    + done.
    + eapply wp_free; [rewrite Eb; apply lookup_insert_eq|done|]. msteps.
      by rewrite Eb, delete_insert_fresh.
  - destruct Hh as (Hm&_&[(E&Eb&_)|(b&bs&E&_)]); [intros _|congruence]. split.
    + unfold String2. mstep. eapply wp_set_copy; [done|done|done|lia|]. intros q w' Hh' _ _.
      by mstep.
    + unfold String. mstep. split_and!; [done|constructor|]. by left.
Qed.

Lemma find_loop_wp f p ch n m l (Q : Z → mem → Prop) :
  cstr m p l → (length l < f)%nat → 0 <= n → n + Z.of_nat (length l) <= 2147483647 →
  Q (match list_find (λ c, s8 c = ch) l with
     | Some (i, _) => n + Z.of_nat i | None => -1 end) m →
  wp (find_loop f p ch n) Q m.
Proof.
  revert p n f. induction l as [|c l IH]; intros p n [|f]; simpl; intros Hc Hf H0 Hn HQ; try lia.
  - wp_step. eapply wp_load_char; [done|]. done.
  - destruct Hc as (Hc&Hr&Hs). wp_step. eapply wp_load_char; [done|].
    rewrite (proj2 (Z.eqb_neq (s8 c) 0)) by (rewrite s8_zero; lia).
    case_decide as Hd.
    + rewrite (proj2 (Z.eqb_eq _ _) Hd). wp_step. by rewrite Z.add_0_r in HQ.
    + rewrite (proj2 (Z.eqb_neq _ _) Hd).
      destruct (Z.eqb_spec n 2147483647); [lia|].
      eapply IH; [done|lia..|].
      destruct (list_find (λ c0, s8 c0 = ch) l) as [[i x]|]; simpl in HQ; [|done].
      by replace (n + 1 + Z.of_nat i) with (n + Z.of_nat (S i)) by lia.
Qed.

(** The queries leave the object alone: [StringGetLength] is the length,
    [StringGet] points at the characters (or is the literal for an object
    without a buffer), [StringCompare] is the comparison of [strcmp] and
    [StringFind] the index of the first occurrence, -1 without one. The last
    two dereference a null buffer. *)
Theorem string_query B l l2 p ch lit w :
  holds B l w → bstr B p l2 → Z.of_nat (length l) <= 2147483647 →
  wp StringGetLength (λ r w', r = Z.of_nat (length l) ∧ w' = w) w ∧
  (m_pBuffer (str w) = None →
   StringGet lit w = Ok (lit, w) ∧ StringCompare p w = Err MemFault ∧
   StringFind ch w = Err MemFault) ∧
  (m_pBuffer (str w) ≠ None →
   wp (StringGet lit) (λ r w', cstr (sm w') r l ∧ w' = w) w ∧
   wp (StringCompare p) (λ r w', r = str_cmp l l2 ∧ (r = 0 ↔ l = l2) ∧ w' = w) w ∧
   wp (StringFind ch) (λ r w', w' = w ∧
     r = match list_find (λ c, s8 c = ch) l with
         | Some (i, _) => Z.of_nat i | None => -1 end) w).
Proof.
  intros Hh Hp Hl. split_and!.
  - eapply wp_StringGetLength; [done|lia|done].
  - intros E. unfold StringGet, StringCompare, StringFind, gets, mbind, M_bind. by rewrite E.
  - intros Hb. destruct (m_pBuffer (str w)) as [q|] eqn:E; [|done].
    assert (cstr (sm w) q l) as Hq by (by eapply holds_bstr).
    assert (cstr (sm w) p l2) as Hp2 by (by eapply holds_other).
    destruct (cstr_bound _ _ _ Hq) as (bs&Hbs&Hlen).
    assert (∀ w', w' = w <| sm := sm w |> → w' = w) as Ew by (intros ? ->; by destruct w).
    split_and!.
    + unfold StringGet. msteps. rewrite E. by msteps.
    + unfold StringCompare. msteps. rewrite E. msteps.
      eapply uspi_strcmp_wp; [done|done|]. split_and!; [done| |by apply Ew].
      eapply str_cmp_eq; by eapply cstr_chars.
    + unfold StringFind. msteps. rewrite E. msteps.
      eapply wp_fuel_at; [done|]. msteps.
      eapply find_loop_wp; [done|lia..|]. split; [by apply Ew|].
      by destruct (list_find _ l) as [[i x]|].
Qed.

(** ** Numbers *)

(** The exponent of the leading digit, and the digits from it down. *)
Fixpoint exponent (fuel : nat) (base n : Z) : nat :=
  match fuel with
  | O => O
  | S f => if n <? base then O else S (exponent f base (n / base))
  end.

Fixpoint digits_from (k : nat) (base n : Z) : list Z :=
  match k with
  | O => [n]
  | S k' => n / base ^ Z.of_nat k :: digits_from k' base (n mod base ^ Z.of_nat k)
  end.

(** The positional representation of a 64-bit number. *)
Definition digits (base n : Z) : list Z := digits_from (exponent 64 base n) base n.

(** The sixteen digits: "0123456789abcdef", or with capitals. *)
Definition digit_codes (bUpcase : bool) : list Z :=
  [48; 49; 50; 51; 52; 53; 54; 55; 56; 57] ++
  if bUpcase then [65; 66; 67; 68; 69; 70] else [97; 98; 99; 100; 101; 102].
Definition digit_code (bUpcase : bool) (d : Z) : Z := nth (Z.to_nat d) (digit_codes bUpcase) 0.

Definition numeral (bUpcase : bool) (base n : Z) : list Z :=
  map (digit_code bUpcase) (digits base n).

Lemma digit_char_code up d : 0 <= d < 16 → digit_char up d = digit_code up d.
Proof.
  intros Hd. assert (Z.to_nat d < 16)%nat as Hn by lia. rewrite <- (Z2Nat.id d) at 1 by lia.
  unfold digit_code. revert Hn. generalize (Z.to_nat d). intros n Hn.
  do 16 (destruct n as [|n]; [by destruct up|]). lia.
Qed.

Lemma pow_split base k : 2 <= base → base ^ Z.of_nat (S k) = base * base ^ Z.of_nat k.
Proof. intros. by rewrite Nat2Z.inj_succ, Z.pow_succ_r by lia. Qed.

Lemma pow_pos_nat base k : 2 <= base → 0 < base ^ Z.of_nat k.
Proof. intros. apply Z.pow_pos_nonneg; lia. Qed.

Lemma pow_ge_2 base k : 2 <= base → 2 ^ Z.of_nat k <= base ^ Z.of_nat k.
Proof. intros. apply Z.pow_le_mono_l. lia. Qed.

(** [k] is the exponent of the leading digit of [n]. *)
Definition leading (k : nat) (base n : Z) : Prop :=
  n < base ^ Z.of_nat (S k) ∧ (k ≠ 0%nat → base ^ Z.of_nat k <= n).

Lemma exponent_leading f base n :
  2 <= base → 0 <= n < 2 ^ Z.of_nat f → leading (exponent f base n) base n.
Proof.
  unfold leading. intros Hb. revert n. induction f as [|f IH]; intros n Hn; simpl exponent.
  - change (2 ^ Z.of_nat 0) with 1 in Hn. split; [|done].
    rewrite pow_split by lia. change (base ^ Z.of_nat 0) with 1. lia.
  - destruct (Z.ltb_spec n base); [split; [|done]|].
    { rewrite pow_split by lia. change (base ^ Z.of_nat 0) with 1. lia. }
    rewrite (pow_split 2) in Hn by lia.
    assert (base * (n / base) <= n) by (apply Z.mul_div_le; lia).
    assert (0 <= n / base) by (apply Z.div_pos; lia).
    assert (n < base * (n / base) + base)
      by (pose proof (Z.mod_pos_bound n base); pose proof (Z.div_mod n base); lia).
    destruct (IH (n / base)) as [Hd1 Hd2]; [nia|].
    set (e := exponent f base (n / base)) in *.
    rewrite (pow_split _ (S e)) by lia.
    split; [nia|]. intros _. rewrite pow_split by lia.
    destruct (decide (e = 0%nat)) as [->|He].
    + change (base ^ Z.of_nat 0) with 1. lia.
    + specialize (Hd2 He). nia.
Qed.

Lemma leading_lt k base n f :
  2 <= base → leading k base n → n < 2 ^ Z.of_nat f → (0 < f)%nat → (k < f)%nat.
Proof.
  intros Hb [_ H] Hn Hf. destruct (decide (k = 0%nat)) as [->|Hk]; [done|]. specialize (H Hk).
  pose proof (pow_ge_2 base k Hb). destruct (Nat.ltb_spec k f); [done|].
  assert (2 ^ Z.of_nat f <= 2 ^ Z.of_nat k) by (apply Z.pow_le_mono_r; lia). lia.
Qed.

Lemma digits_from_length k base n : length (digits_from k base n) = S k.
Proof. revert n. induction k as [|k IH]; intros n; simpl; [done|by rewrite IH]. Qed.

(** The digits are digits, and their positional value is the number. *)
Lemma digits_from_value k base n a :
  2 <= base → 0 <= n < base ^ Z.of_nat (S k) →
  Forall (λ d, 0 <= d < base) (digits_from k base n) ∧
  foldl (λ acc d, acc * base + d) a (digits_from k base n) = a * base ^ Z.of_nat (S k) + n.
Proof.
  intros Hb. revert n a. induction k as [|k IH]; intros n a Hn.
  - rewrite pow_split in * by lia. change (base ^ Z.of_nat 0) with 1 in *. simpl.
    split; [repeat constructor; lia|lia].
  - pose proof (pow_pos_nat base (S k) Hb) as Hp. rewrite pow_split in Hn by lia.
    pose proof (Z.mod_pos_bound n _ Hp) as Hmod. pose proof (Z.div_mod n (base ^ Z.of_nat (S k))).
    assert (0 <= n / base ^ Z.of_nat (S k) < base) by (split; [apply Z.div_pos; lia|apply Z.div_lt_upper_bound; lia]).
    cbn [digits_from foldl].
    destruct (IH (n mod base ^ Z.of_nat (S k)) (a * base + n / base ^ Z.of_nat (S k)) Hmod) as [H1 H2].
    split; [by constructor|]. rewrite H2, (pow_split _ (S k)) by lia. lia.
Qed.

Lemma ntoa_divisor_wp f j k base n (m : mem) (Q : Z * Z → mem → Prop) :
  2 <= base → 0 <= n < 2 ^ 64 → leading k base n → (j <= k)%nat → (k - j < f)%nat →
  Q (n / base ^ Z.of_nat k, base ^ Z.of_nat k) m →
  wp (ntoa_divisor f n base (base ^ Z.of_nat j)) Q m.
Proof.
  intros Hb Hn Hk. revert j. induction f as [|f IH]; intros j Hj Hf HQ; [lia|].
  pose proof (pow_pos_nat base j Hb) as Hp. destruct Hk as [Hk1 Hk2].
  simpl. unfold udiv. rewrite (proj2 (Z.eqb_neq _ 0)) by lia. wp_step. wp_step.
  destruct (decide (j = k)) as [->|Hne].
  - assert (n / base ^ Z.of_nat k < base).
    { apply Z.div_lt_upper_bound; [done|]. rewrite pow_split in Hk1 by lia. lia. }
    rewrite (proj2 (Z.ltb_lt _ _)) by done. by wp_step.
  - assert (base ^ Z.of_nat (S j) <= n) as Hle.
    { assert (base ^ Z.of_nat (S j) <= base ^ Z.of_nat k) by (apply Z.pow_le_mono_r; lia). lia. }
    rewrite pow_split in Hle by lia.
    assert (base <= n / base ^ Z.of_nat j) by (apply Z.div_le_lower_bound; lia).
    rewrite (proj2 (Z.ltb_ge _ _)) by done.
    rewrite Z.mul_comm, u64_id by (unfold is_u64; lia).
    rewrite <- pow_split by lia. apply IH; [lia|lia|done].
Qed.

Lemma digit_char_u8 up d : 0 <= d < 16 → char_ok (digit_char up d).
Proof. unfold digit_char. destruct up, (Z.ltb_spec d 10); lia. Qed.

Lemma ntoa_digits_wp f p k base n n' up m bs (Q : ptr → mem → Prop) :
  2 <= base <= 16 → 0 <= n < base ^ Z.of_nat (S k) → n' mod base ^ Z.of_nat k = n mod base ^ Z.of_nat k →
  (k < f)%nat → blocks m !! blk p = Some bs → (off p + S k <= length bs)%nat →
  Q (padd p (S k)) (upd_block (blk p)
      (overwrite (off p) (map (λ d, Some (digit_char up d)) (digits_from k base n)) bs) m) →
  wp (ntoa_digits f p n' base (base ^ Z.of_nat k) (n / base ^ Z.of_nat k) up) Q m.
Proof.
  intros Hb. revert p k n n' m bs. induction f as [|f IH]; intros p k n n' m bs Hn E Hf Hbs Hl HQ; [lia|].
  pose proof (pow_pos_nat base k ltac:(lia)) as Hp. simpl. unfold umod, udiv.
  rewrite (proj2 (Z.eqb_neq (base ^ Z.of_nat k) 0)) by lia. wp_step. wp_step. rewrite E.
  assert (0 <= n / base ^ Z.of_nat k < base).
  { split; [apply Z.div_pos; lia|]. apply Z.div_lt_upper_bound; [done|].
    rewrite pow_split in Hn by lia. lia. }
  wp_step. eapply wp_store; [done|lia|].
  rewrite u8_char by (apply digit_char_u8; lia).
  rewrite (proj2 (Z.eqb_neq base 0)) by lia. wp_step. wp_step.
  destruct k as [|k].
  - change (base ^ Z.of_nat 0) with 1 in *. rewrite Z.div_small by lia. simpl. wp_step.
    simpl in HQ. rewrite overwrite_cons, overwrite_nil in HQ by lia.
    by rewrite Z.div_1_r.
  - assert (base ^ Z.of_nat (S k) / base = base ^ Z.of_nat k) as ->.
    { rewrite pow_split, Z.mul_comm, Z.div_mul by lia. done. }
    pose proof (pow_pos_nat base k ltac:(lia)) as Hp'.
    rewrite (proj2 (Z.eqb_neq (base ^ Z.of_nat k) 0)) by lia. wp_step. wp_step.
    cbn [digits_from map] in HQ.
    eapply (IH _ _ (n mod base ^ Z.of_nat (S k))); psimpl;
      [apply Z.mod_pos_bound; lia|done|lia|apply lookup_upd_block|rewrite length_insert; lia|].
    rewrite upd_block_twice, padd_padd, Nat.add_1_r. simpl.
    by rewrite overwrite_cons in HQ by lia.
Qed.

#[global] Arguments numeral : simpl never.
#[global] Arguments exponent : simpl never.

Lemma digits_leading base n : 2 <= base → is_u64 n → leading (exponent 64 base n) base n.
Proof. intros. apply exponent_leading; [done|]. by change (2 ^ Z.of_nat 64) with 18446744073709551616. Qed.

Lemma digits_below base n : 2 <= base → is_u64 n → Forall (λ d, 0 <= d < base) (digits base n).
Proof.
  intros Hb Hn. destruct (digits_from_value (exponent 64 base n) base n 0) as [H _]; [lia| |exact H].
  destruct (digits_leading base n) as [Hl _]; [lia|done|]. unfold is_u64 in Hn. lia.
Qed.

Lemma numeral_chars up base n : 2 <= base <= 16 → is_u64 n → Forall char_ok (numeral up base n).
Proof.
  intros Hb Hn. unfold numeral. apply Forall_map.
  eapply Forall_impl; [|by apply digits_below; [lia|]]. intros d Hd. cbv beta in Hd.
  rewrite <- digit_char_code by lia. apply digit_char_u8. lia.
Qed.

Lemma numeral_length up base n : length (numeral up base n) = S (exponent 64 base n).
Proof. unfold numeral, digits. by rewrite length_map, digits_from_length. Qed.

Lemma wp_ntoa p n base up m bs (Q : ptr → mem → Prop) :
  2 <= base <= 16 → is_u64 n → blocks m !! blk p = Some bs →
  (off p + length (numeral up base n) < length bs)%nat →
  Q p (upd_block (blk p) (overwrite (off p) (cells_of (numeral up base n)) bs) m) →
  wp (ntoa p n base up) Q m.
Proof.
  intros Hb Hn Hbs Hl HQ. rewrite numeral_length in Hl.
  assert (Hk : leading (exponent 64 base n) base n) by (apply digits_leading; [lia|done]).
  unfold ntoa. change 1 with (base ^ Z.of_nat 0).
  assert (exponent 64 base n < 64)%nat as H64.
  { eapply leading_lt; [|exact Hk| |lia]; [lia|]. unfold is_u64 in Hn. lia. }
  wp_step. eapply ntoa_divisor_wp; [lia| |exact Hk|lia|lia|].
  { unfold is_u64 in Hn. lia. }
  wp_step. eapply ntoa_digits_wp; [done| |done|lia|exact Hbs|lia|].
  { destruct Hk as [Hk _]. unfold is_u64 in Hn. lia. }
  assert (map (λ d, Some (digit_char up d)) (digits_from (exponent 64 base n) base n)
          = map Some (numeral up base n)) as ->.
  { unfold numeral. rewrite map_map. apply map_ext_in. intros d Hd. rewrite digit_char_code; [done|].
    apply list_elem_of_In in Hd. pose proof (digits_below base n ltac:(lia) Hn) as Hds.
    rewrite list.Forall_forall in Hds. specialize (Hds d Hd). cbv beta in Hds. lia. }
  wp_step. eapply wp_store; [apply lookup_upd_block| |].
  - simpl. rewrite overwrite_length; rewrite ?length_map, ?numeral_length; lia.
  - wp_step. simpl. rewrite upd_block_twice.
    rewrite <- (numeral_length up), strcpy_tail by (rewrite numeral_length; lia). done.
Qed.

Lemma numeral_short up base n k :
  2 <= base → is_u64 n → n < base ^ Z.of_nat k → (0 < k)%nat →
  (length (numeral up base n) <= k)%nat.
Proof.
  intros Hb Hn Hk H0. rewrite numeral_length.
  destruct (digits_leading base n Hb Hn) as [_ H].
  destruct (decide (exponent 64 base n = 0%nat)) as [->|Hne]; [lia|]. specialize (H Hne).
  destruct (Nat.leb_spec (S (exponent 64 base n)) k); [done|].
  assert (base ^ Z.of_nat k <= base ^ Z.of_nat (exponent 64 base n))
    by (apply Z.pow_le_mono_r; lia). lia.
Qed.

Lemma numeral_32 up base n : 8 <= base → is_u32 n → (length (numeral up base n) <= 11)%nat.
Proof.
  intros Hb Hn. unfold is_u32 in Hn. apply numeral_short; [lia|unfold is_u64; lia| |lia].
  assert (8 ^ Z.of_nat 11 <= base ^ Z.of_nat 11) by (apply Z.pow_le_mono_l; lia). lia.
Qed.

(** [ntoa] terminates, without overflow of its divisor, on every 64-bit number
    and base up to 16: it writes the numeral and its terminator, whose digits
    are below the base, have the number as their positional value and no
    leading zero. In the bases the formatter uses, 32-bit numbers fit the
    [MAX_NUMBER_LEN] characters of its buffer. *)
Theorem ntoa_correct p n base up m bs :
  2 <= base <= 16 → is_u64 n → blocks m !! blk p = Some bs →
  (off p + length (numeral up base n) < length bs)%nat →
  wp (ntoa p n base up) (λ r m', r = p ∧ cstr m' p (numeral up base n) ∧
    ∀ b, b ≠ blk p → blocks m' !! b = blocks m !! b) m ∧
  Forall (λ d, 0 <= d < base) (digits base n) ∧
  foldl (λ acc d, acc * base + d) 0 (digits base n) = n ∧
  (∀ ds, digits base n = 0 :: ds → ds = []) ∧
  (8 <= base → is_u32 n → (length (numeral up base n) <= MAX_NUMBER_LEN)%nat).
Proof.
  intros Hb Hn Hbs Hl. pose proof (digits_leading base n ltac:(lia) Hn) as [Hk1 Hk2].
  destruct (digits_from_value (exponent 64 base n) base n 0) as [Hd Hv]; [lia| |].
  { unfold is_u64 in Hn. lia. }
  split_and!; [|done|unfold digits; rewrite Hv; lia| |by apply numeral_32].
  - eapply wp_ntoa; [done..|]. split_and!; [done| |intros; by apply lookup_upd_block_ne].
    destruct p as [b k]. simpl in *. apply cstr_overwrite; [by apply numeral_chars|lia].
  - unfold digits. destruct (exponent 64 base n) as [|k] eqn:E; simpl; [congruence|].
    intros ds H0. injection H0 as H0 _. specialize (Hk2 ltac:(lia)).
    assert (1 <= n / base ^ Z.of_nat (S k)); [|lia].
    apply Z.div_le_lower_bound; [apply pow_pos_nat; lia|]. rewrite pow_split in * by lia. lia.
Qed.

(** ** The reference formatter *)

(** [render] expands a format over lists of characters. It is undefined
    ([None]) where the C function is: an argument of the wrong type or none, a
    format ending in ['%'], a numeral of more than eleven digits, the
    negation of the least [long]; and for a ['%c'] of the null character,
    whose result is not a C string. [sv] gives the strings behind pointers. *)
Section Render.
Context (sv : ptr → list Z).

Definition ref_flag (ch : Z) (fmt : list Z) : bool * list Z :=
  match fmt with c :: r => if c =? ch then (true, r) else (false, fmt) | [] => (false, []) end.

Fixpoint ref_width (fmt : list Z) (nWidth : Z) : Z * list Z :=
  match fmt with
  | c :: r => if (48 <=? c) && (c <=? 57)
              then ref_width r (u64 (nWidth * 10 + (c - 48))) else (nWidth, fmt)
  | [] => (nWidth, [])
  end.

(** [s] in a field of [nWidth] characters. *)
Definition padding (ch nWidth nLen : Z) : list Z := replicate (Z.to_nat (nWidth - nLen)) ch.

Definition justify (bLeft : bool) (ch nWidth : Z) (s : list Z) : list Z :=
  if bLeft then s ++ padding ch nWidth (Z.of_nat (length s))
  else padding ch nWidth (Z.of_nat (length s)) ++ s.

Definition ref_numeral (bUpcase : bool) (base n : Z) : option (list Z) :=
  if (length (numeral bUpcase base n) <=? 11)%nat
  then Some (numeral bUpcase base n) else None.

Definition ref_word (bLong sign : bool) (a : varg) : option Z :=
  match a, bLong with
  | Word32 z, false => Some (if sign then s32 z else u32 z)
  | Word64 z, true => Some (if sign then s64 z else u64 z)
  | _, _ => None
  end.

Definition ref_unsigned (bLeft bNull bLong : bool) (nWidth base : Z) (bUpcase : bool)
    (a : varg) : option (list Z) :=
  n ← ref_word bLong false a;
  s ← ref_numeral bUpcase base n;
  Some (justify bLeft (if bNull && negb bLeft then 48 else 32) nWidth s).

Definition ref_signed (bLeft bLong : bool) (nWidth : Z) (a : varg) : option (list Z) :=
  n ← ref_word bLong true a;
  if n =? -9223372036854775808 then None
  else s ← ref_numeral false 10 (Z.abs n);
       Some (justify bLeft 32 nWidth (if n <? 0 then 45 :: s else s)).

Definition ref_char (bLeft : bool) (nWidth : Z) (a : varg) : option (list Z) :=
  match a with
  | Word32 z => if u8 z =? 0 then None else Some (justify bLeft 32 nWidth [u8 z])
  | _ => None
  end.

Definition ref_string (bLeft : bool) (nWidth : Z) (a : varg) : option (list Z) :=
  match a with Pointer p => Some (justify bLeft 32 nWidth (sv p)) | _ => None end.

(** The conversion [c] of one argument, [None] for a character that is none. *)
Definition ref_conv (c : Z) (bLeft bNull bLong : bool) (nWidth : Z)
    : option (varg → option (list Z)) :=
  if c =? 99 then Some (ref_char bLeft nWidth)
  else if c =? 100 then Some (ref_signed bLeft bLong nWidth)
  else if c =? 111 then Some (ref_unsigned bLeft bNull bLong nWidth 8 false)
  else if c =? 115 then Some (ref_string bLeft nWidth)
  else if c =? 117 then Some (ref_unsigned bLeft bNull bLong nWidth 10 false)
  else if (c =? 120) || (c =? 88) then Some (ref_unsigned bLeft bNull bLong nWidth 16 (c =? 88))
  else None.

Definition ref_switch (c : Z) (bLeft bNull bLong : bool) (nWidth : Z) (Args : list varg)
    : option (list Z * list varg) :=
  match ref_conv c bLeft bNull bLong nWidth with
  | Some conv => match Args with a :: r => s ← conv a; Some (s, r) | [] => None end
  | None => Some ([37; c], Args)
  end.

(** A conversion: its text, the rest of the format and of the arguments. *)
Definition ref_conversion (fmt : list Z) (Args : list varg)
    : option (list Z * list Z * list varg) :=
  let '(bLeft, fmt) := ref_flag 45 fmt in
  let '(bNull, fmt) := ref_flag 48 fmt in
  let '(nWidth, fmt) := ref_width fmt 0 in
  let '(bLong, fmt) := ref_flag 108 fmt in
  match fmt with
  | c :: r => '(s, Args) ← ref_switch c bLeft bNull bLong nWidth Args; Some (s, r, Args)
  | [] => None
  end.

Fixpoint render (fuel : nat) (fmt : list Z) (Args : list varg) : option (list Z) :=
  match fuel, fmt with
  | O, _ => None
  | S f, [] => Some []
  | S f, c :: r =>
      if c =? 37 then
        match r with
        | c' :: r' =>
            if c' =? 37 then (cons 37) <$> render f r' Args
            else '(s, r, Args) ← ref_conversion r Args;
                 (app s) <$> render f r Args
        | [] => None
        end
      else (cons c) <$> render f r Args
  end.
End Render.

(** "%-5d|%05x|%s%%|%q" *)
Example render_ex :
  render (λ _, [104; 105]) 20
    [37;45;53;100;124;37;48;53;120;124;37;115;37;37;124;37;113]
    [Word32 (-42); Word32 0xbeef; Pointer (Ptr 0 0)] =
  Some [45;52;50;32;32;124;48;98;101;101;102;124;104;105;37;124;37;113].
Proof. reflexivity. Qed.

(** ** The formatter implements the reference *)

(** [building B out w]: [out] has been written so far, [m_pInPtr] is behind it
    with room for the terminator, and the rest of the memory is [B]. *)
Definition building (B : gmap nat (list (option Z))) (out : list Z) (w : SW) : Prop :=
  mem_wf (sm w) ∧ Forall char_ok out ∧
  ∃ b bs, m_pBuffer (str w) = Some (Ptr b 0) ∧ m_pInPtr (str w) = Some (Ptr b (length out)) ∧
    blocks (sm w) = <[b := bs]> B ∧ B !! b = None ∧
    take (length out) bs = map Some out ∧ (length out < length bs)%nat ∧
    Z.of_nat (length bs) = m_nSize (str w).

(** The bound that keeps buffer sizes in an [unsigned]. *)
Abbreviation fits := (λ n : nat, Z.of_nat n < 4294967000).

Lemma insert_app_map (bs : list (option Z)) out (x : Z) :
  take (length out) bs = map Some out → (length out < length bs)%nat →
  take (S (length out)) (<[length out := Some x]> bs) = map Some out ++ [Some x].
Proof.
  intros Ht Hl. rewrite (take_S_r _ _ (Some x)) by (apply list_lookup_insert_eq; lia).
  by rewrite take_insert_ge, Ht by lia.
Qed.

Lemma wp_in_offset B out w (Q : Z → SW → Prop) :
  building B out w → Q (Z.of_nat (length out)) w → wp in_offset Q w.
Proof.
  intros (_&_&b&bs&E1&E2&_) HQ. unfold in_offset. msteps. rewrite E2, E1. msteps.
  rewrite Nat.eqb_refl. simpl. mstep. by rewrite Nat.sub_0_r.
Qed.

Lemma building_run B out b bs s m :
  mem_wf m → Forall char_ok out → m_pBuffer s = Some (Ptr b 0) →
  m_pInPtr s = Some (Ptr b (length out)) → blocks m = <[b := bs]> B → B !! b = None →
  take (length out) bs = map Some out → (length out < length bs)%nat →
  Z.of_nat (length bs) = m_nSize s → building B out (Build_SW s m).
Proof. intros. split_and!; [done|done|]. simpl. exists b, bs. by split_and!. Qed.

Lemma wp_StringReserveSpace B out n w :
  building B out w → 0 <= n → Z.of_nat (length out) + n < 4294967000 →
  wp (StringReserveSpace n) (λ _ w', building B out w' ∧
    Z.of_nat (length out) + n + 1 <= m_nSize (str w')) w.
Proof.
  intros Hw Hn Hl. unfold StringReserveSpace. destruct (Z.eqb_spec n 0) as [->|Hn0].
  { mstep. split; [done|]. destruct Hw as (_&_&b&bs&_&_&_&_&_&?&?). lia. }
  mstep. eapply wp_in_offset; [done|]. rewrite u64_id by (unfold is_u64; lia). mstep. mstep.
  destruct (Z.leb_spec (Z.of_nat (length out) + n + 1) (m_nSize (str w))).
  { mstep. by split; [|lia]. }
  rewrite u64_id by (unfold is_u64, FORMAT_RESERVE; lia).
  destruct Hw as (Hm&Hc&b&bs&E1&E2&Eb&Hb&Ht&Hlt&Hs). destruct w as [s m]. smcbn.
  pose proof (mem_wf_fresh_None _ Hm) as Hf.
  msteps. apply wp_malloc. msteps. rewrite E2. msteps.
  assert (fresh m ≠ b) as Hne.
  { intros E. rewrite E, Eb, lookup_insert_eq in Hf. done. }
  set (n' := Z.to_nat (u32 (Z.of_nat (length out) + n + 1 + FORMAT_RESERVE))).
  assert (n' = (length out + Z.to_nat n + 65)%nat) as En by (unfold n', FORMAT_RESERVE; cint).
  eapply wp_poke; [simpl; rewrite lookup_insert_ne by done; rewrite Eb; apply lookup_insert_eq|done|].
  msteps. rewrite E1. msteps. eapply uspi_strcpy_wp.
  - eapply (cstr_of_cells _ _ _ 0 out); [simpl; apply lookup_insert_eq|done|].
    rewrite drop_0. simpl. by rewrite insert_app_map.
  - done.
  - simpl. rewrite lookup_insert_ne by done. apply lookup_insert_eq.
  - rewrite length_replicate. simpl. lia.
  - msteps. eapply wp_free; [|done|].
    { simpl. rewrite lookup_insert_ne by done. apply lookup_insert_eq. }
    msteps. split; [|unfold FORMAT_RESERVE; rewrite u32_id by (unfold is_u32; lia); lia].
    eapply (building_run _ _ (fresh m)).
    + apply mem_wf_delete. apply mem_wf_upd_block.
      * apply mem_wf_upd_block; [by apply mem_wf_malloc|]. simpl.
        rewrite lookup_insert_ne, Eb, lookup_insert_eq by done. by eexists.
      * simpl. rewrite lookup_insert_ne, lookup_insert_eq by done. by eexists.
    + done.
    + done.
    + simpl. by rewrite Nat2Z.id.
    + simpl. apply map_eq. intros i. rewrite Eb.
      destruct (decide (i = fresh m)) as [->|].
      * by rewrite lookup_delete_ne, !lookup_insert_eq by done.
      * rewrite (lookup_insert_ne B) by done. destruct (decide (i = b)) as [->|].
        { by rewrite lookup_delete_eq. }
        by rewrite lookup_delete_ne, !lookup_insert_ne by done.
    + rewrite Eb in Hf. by rewrite lookup_insert_ne in Hf by done.
    + assert (length out = 0 + length (map (@Some Z) out))%nat as E by (rewrite length_map; lia).
      rewrite E at 1. unfold cells_of.
      rewrite <- (overwrite_app 0) by (rewrite length_map, length_replicate; simpl; lia).
      rewrite length_map. simpl. unfold overwrite at 1.
      rewrite take_app_le by (rewrite length_take, overwrite_length; rewrite ?length_map, length_replicate; lia).
      rewrite take_take, Nat.min_id. rewrite <- (length_map Some out) at 1.
      apply take_overwrite_0. rewrite length_map, length_replicate. lia.
    + rewrite overwrite_length; rewrite ?cells_of_length, length_replicate; lia.
    + simpl. rewrite overwrite_length; rewrite ?cells_of_length, length_replicate; unfold n'; cint.
Qed.

Lemma put_char_loop_wp B out c n w :
  building B out w → 0 < u8 c → Z.of_nat (length out + n) < m_nSize (str w) →
  wp (put_char_loop c n) (λ _ w', building B (out ++ replicate n (u8 c)) w' ∧
     m_nSize (str w') = m_nSize (str w)) w.
Proof.
  revert out w. induction n as [|n IH]; intros out w Hw Hc Hl; simpl.
  { mstep. by rewrite app_nil_r. }
  destruct Hw as (Hm&Ho&b&bs&E1&E2&Eb&Hb&Ht&Hlt&Hs). destruct w as [s m]. smcbn.
  msteps. rewrite E2. msteps. eapply wp_store; [simpl; rewrite Eb; apply lookup_insert_eq|simpl; lia|].
  msteps. eapply wp_mono; [apply (IH (out ++ [u8 c]))|].
  - eapply (building_run _ _ b); simpl.
    + apply mem_wf_upd_block; [done|]. rewrite Eb, lookup_insert_eq. by eexists.
    + apply Forall_app. split; [done|]. constructor; [|done]. pose proof (u8_range c). unfold is_u8 in *. lia.
    + done.
    + by rewrite length_app.
    + rewrite Eb. apply insert_twice_gmap.
    + done.
    + rewrite length_app, map_app. simpl. rewrite Nat.add_1_r. by apply insert_app_map.
    + rewrite length_insert, length_app. simpl. lia.
    + by rewrite length_insert.
  - done.
  - simpl. rewrite length_app. simpl. lia.
  - intros [] w' H. simpl in H. by rewrite <- app_assoc in H.
Qed.

Lemma wp_StringPutChar B out c n w :
  building B out w → 0 < u8 c → 0 <= n → Z.of_nat (length out) + n < 4294967000 →
  wp (StringPutChar c n) (λ _, building B (out ++ replicate (Z.to_nat n) (u8 c))) w.
Proof.
  intros Hw Hc Hn Hl. unfold StringPutChar. mstep.
  eapply wp_mono; [by apply wp_StringReserveSpace|]. intros [] w' [Hw' Hs].
  eapply wp_mono; [apply put_char_loop_wp; [done|done|lia]|]. by intros [] w'' [? _].
Qed.

Lemma building_bstr B out w p s : building B out w → bstr B p s → cstr (sm w) p s.
Proof.
  intros (_&_&b&bs&_&_&Eb&Hb&_) H. eapply bstr_cstr; [done|].
  rewrite Eb. apply lookup_insert_ne. by eapply bstr_ne.
Qed.

Lemma wp_StringPutString B out p s w :
  building B out w → bstr B p s → fits (length out + length s)%nat →
  wp (StringPutString p) (λ _, building B (out ++ s)) w.
Proof.
  intros Hw Hp Hl. unfold StringPutString. mstep. mstep.
  eapply uspi_strlen_wp; [by eapply building_bstr|lia|].
  replace (w <| sm := sm w |>) with w by (by destruct w).
  mstep. eapply wp_mono; [apply (wp_StringReserveSpace B out); [done|lia|lia]|].
  intros [] w' [Hw' Hs']. pose proof (building_bstr _ _ _ _ _ Hw' Hp) as Hcs.
  pose proof (cstr_chars _ _ _ Hp) as Hc.
  destruct Hw' as (Hm&Ho&b&bs&E1&E2&Eb&Hb&Ht&Hlt&Hs). destruct w' as [st m]. smcbn.
  msteps. rewrite E2. msteps. eapply uspi_strcpy_wp; [exact Hcs|..].
  - simpl. by eapply bstr_ne.
  - simpl. rewrite Eb. apply lookup_insert_eq.
  - simpl. lia.
  - msteps. eapply (building_run _ _ b); simpl.
    + apply mem_wf_upd_block; [done|]. rewrite Eb, lookup_insert_eq. by eexists.
    + by apply Forall_app.
    + done.
    + rewrite Nat2Z.id. by rewrite length_app.
    + rewrite Eb. apply insert_twice_gmap.
    + done.
    + unfold cells_of. rewrite <- (overwrite_app (length out)) by (rewrite length_map; simpl; lia).
      rewrite length_map, length_app. unfold overwrite at 1.
      rewrite take_app_le by (rewrite length_take, overwrite_length; rewrite ?length_map; lia).
      rewrite take_take, Nat.min_id.
      rewrite <- (length_map Some s) at 1. rewrite take_overwrite by (rewrite length_map; lia).
      by rewrite Ht, map_app.
    + rewrite overwrite_length, length_app; rewrite ?cells_of_length; lia.
    + rewrite overwrite_length; rewrite ?cells_of_length; [done|lia].
Qed.

Lemma wp_fill B out ch nWidth n w :
  building B out w → 0 < ch < 128 → 0 <= n →
  fits (length out + length (padding ch nWidth n))%nat →
  wp (fill ch nWidth n) (λ _, building B (out ++ padding ch nWidth n)) w.
Proof.
  unfold padding. rewrite length_replicate. intros Hw Hc Hn Hl. unfold fill. apply wp_when; intros E.
  - apply Z.ltb_lt in E. pose proof (wp_StringPutChar B out ch (nWidth - n) w) as H.
    rewrite u8_char in H by lia. apply H; [done|lia..].
  - apply Z.ltb_ge in E. replace (Z.to_nat (nWidth - n)) with 0%nat by lia. simpl.
    by rewrite app_nil_r.
Qed.

(** The two halves every conversion ends with. *)
Lemma wp_justify B out (put : M SW unit) ch nWidth bLeft s w :
  building B out w → 0 < ch < 128 →
  fits (length out + length (justify bLeft ch nWidth s))%nat →
  (∀ out' w', building B out' w' → fits (length out' + length s)%nat →
     wp put (λ _, building B (out' ++ s)) w') →
  wp (if bLeft then put ;; fill ch nWidth (Z.of_nat (length s))
      else fill ch nWidth (Z.of_nat (length s)) ;; put)
     (λ _, building B (out ++ justify bLeft ch nWidth s)) w.
Proof.
  intros Hw Hc Hl Hput. unfold justify in *.
  destruct bLeft; rewrite length_app in Hl; mstep; (eapply wp_mono; [first [eapply wp_fill|eapply Hput]; try done; lia|]);
    intros [] w' Hw'; rewrite app_assoc; first [eapply wp_fill|eapply Hput]; try done; rewrite ?length_app; lia.
Qed.

Section Format.
Context (sv : ptr → list Z).

(** The pointers among the arguments are strings outside the object. *)
Definition args_ok (B : gmap nat (list (option Z))) (Args : list varg) : Prop :=
  Forall (λ a, match a with Pointer p => bstr B p (sv p) | _ => True end) Args.

(** The state with the automatic array at [nb] alive. *)
Definition with_buf (B : gmap nat (list (option Z))) (nb : nat) (out : list Z) (w : SW) : Prop :=
  ∃ cs, length cs = S MAX_NUMBER_LEN ∧ building (<[nb := cs]> B) out w.

Lemma wp_assoc {A C D} (m : M SW A) (k : A → M SW C) (k' : C → M SW D) Q w :
  wp ((m ≫= k) ≫= k') Q w → wp (m ≫= λ x, k x ≫= k') Q w.
Proof. unfold wp, mbind, M_bind. by destruct (m w) as [[a w']|]. Qed.

Lemma wp_put_sign B out p s (neg : bool) w :
  building B out w → bstr B p s →
  fits (length out + length (if neg then 45%Z :: s else s))%nat →
  wp (when neg (StringPutChar 45 1) ;; StringPutString p)
     (λ _, building B (out ++ (if neg then 45 :: s else s))) w.
Proof.
  intros Hw Hp Hl. mstep. apply wp_when; intros ->.
  - eapply wp_mono; [apply (wp_StringPutChar B out); [done|done|lia|simpl in *; lia]|].
    intros [] w' Hw'. change (u8 45) with 45 in Hw'. simpl in Hw'.
    eapply wp_mono; [eapply wp_StringPutString; [done|done|rewrite length_app; simpl in *; lia]|].
    intros [] w'' Hw''. by rewrite <- app_assoc in Hw''.
  - by eapply wp_StringPutString.
Qed.

(** [ntoa] into the automatic array. *)
Lemma wp_ntoa_buf B nb out base n up s w (Q : ptr → SW → Prop) :
  with_buf B nb out w → 2 <= base <= 16 → is_u64 n → ref_numeral up base n = Some s →
  (∀ w' cs, length cs = S MAX_NUMBER_LEN → building (<[nb := cs]> B) out w' →
     bstr (<[nb := cs]> B) (Ptr nb 0) s → Q (Ptr nb 0) w') →
  wp (on_mem (ntoa (Ptr nb 0) n base up)) Q w.
Proof.
  intros (cs&Hcs&Hw) Hb Hn Es HQ. unfold ref_numeral in Es.
  destruct (Nat.leb_spec (length (numeral up base n)) 11) as [Hl|]; [|done].
  assert (MAX_NUMBER_LEN = 11%nat) as E11 by done.
  injection Es as <-. destruct Hw as (Hm&Ho&b&bs&E1&E2&Eb&Hbn&Ht&Hlt&Hs).
  apply lookup_insert_None in Hbn as [Hbn Hne]. destruct w as [st m]. smcbn.
  mstep. eapply (wp_ntoa _ _ _ _ _ cs); [done|done| |simpl; lia|].
  { simpl. rewrite Eb, lookup_insert_ne by done. apply lookup_insert_eq. }
  assert (bstr (<[nb := overwrite 0 (cells_of (numeral up base n)) cs]> B) (Ptr nb 0)
               (numeral up base n)) as Hstr.
  { eapply bstr_whole; [apply lookup_insert_eq|by apply numeral_chars|].
    rewrite <- cells_of_length. apply take_overwrite_0. rewrite cells_of_length. lia. }
  eapply HQ; [|eapply (building_run _ _ b)|exact Hstr]; simpl.
  - rewrite overwrite_length; rewrite ?cells_of_length; lia.
  - apply mem_wf_upd_block; [done|]. rewrite Eb, lookup_insert_ne, lookup_insert_eq by done. by eexists.
  - done.
  - done.
  - done.
  - rewrite Eb. rewrite (insert_insert_ne _ nb b) by done. by rewrite insert_twice_gmap.
  - by rewrite lookup_insert_ne.
  - done.
  - done.
  - done.
Qed.

Lemma wp_format_char B out bLeft nWidth a Args s w :
  building B out w → ref_char bLeft nWidth a = Some s → fits (length out + length s)%nat →
  wp (format_char bLeft nWidth (a :: Args)) (λ r w', r = Args ∧ building B (out ++ s) w') w.
Proof.
  intros Hw Es Hl. destruct a as [z|z|p]; simpl in Es; [|done..].
  destruct (Z.eqb_spec (u8 z) 0) as [|Hz]; [done|]. injection Es as <-.
  unfold format_char. mstep. simpl. mstep. mstep.
  assert (u8 (s8 (s32 z)) = u8 z) as Ez by cint.
  eapply wp_mono; [apply (wp_justify B out (StringPutChar (s8 (s32 z)) 1) 32 nWidth bLeft [u8 z]);
    [done|lia|done|]|].
  - intros out' w' Hw' Hl'. rewrite <- Ez.
    apply (wp_StringPutChar B out' (s8 (s32 z)) 1); [done|rewrite Ez|lia|simpl in *; lia].
    pose proof (u8_range z). unfold is_u8 in *. lia.
  - intros [] w' Hw'. by mstep.
Qed.

Lemma wp_format_string B out bLeft nWidth p Args w :
  building B out w → bstr B p (sv p) →
  fits (length out + length (justify bLeft 32%Z nWidth (sv p)))%nat →
  wp (format_string bLeft nWidth (Pointer p :: Args))
     (λ r w', r = Args ∧ building B (out ++ justify bLeft 32 nWidth (sv p)) w') w.
Proof.
  intros Hw Hp Hl. unfold format_string. mstep. simpl. mstep. mstep. mstep.
  assert (length (sv p) <= length (justify bLeft 32 nWidth (sv p)))%nat
    by (unfold justify; destruct bLeft; rewrite length_app; lia).
  eapply uspi_strlen_wp; [by eapply building_bstr|lia|].
  replace (w <| sm := sm w |>) with w by (by destruct w). mstep.
  eapply wp_mono; [apply wp_justify; [done|lia|done|]|].
  - intros out' w' Hw' Hl'. by apply wp_StringPutString.
  - intros [] w' Hw'. by mstep.
Qed.
(** The state after a conversion: [s] appended, the array still there. *)
Lemma wp_put_numeral B nb cs out put ch nWidth bLeft s (Args : list varg) w :
  length cs = S MAX_NUMBER_LEN → building (<[nb := cs]> B) out w → 0 < ch < 128 →
  fits (length out + length (justify bLeft ch nWidth s))%nat →
  (∀ out' w', building (<[nb := cs]> B) out' w' → fits (length out' + length s)%nat →
     wp put (λ _, building (<[nb := cs]> B) (out' ++ s)) w') →
  wp ((if bLeft then put ;; fill ch nWidth (Z.of_nat (length s))
       else fill ch nWidth (Z.of_nat (length s)) ;; put) ;; mret Args)
     (λ r w', r = Args ∧ with_buf B nb (out ++ justify bLeft ch nWidth s) w') w.
Proof.
  intros Hcs Hw Hc Hl Hput. mstep.
  eapply wp_mono; [by apply wp_justify|]. intros [] w' Hw'. mstep. split; [done|]. by exists cs.
Qed.

Lemma justify_length bLeft ch nWidth s :
  (length s <= length (justify bLeft ch nWidth s))%nat.
Proof. unfold justify. destruct bLeft; rewrite length_app; lia. Qed.

Lemma wp_va_word (bLong : bool) a Args n w (Q : Z * list varg → SW → Prop) :
  ref_word bLong false a = Some n → (is_u64 n → Q (n, Args) w) →
  wp (if bLong then va_ulong (a :: Args) else va_unsigned (a :: Args)) Q w.
Proof.
  destruct a as [z|z|p], bLong; simpl; intros [=<-] HQ; wp_step; apply HQ; cint.
Qed.

Lemma wp_va_sword (bLong : bool) a Args n w (Q : Z * list varg → SW → Prop) :
  ref_word bLong true a = Some n →
  (-9223372036854775808 <= n < 9223372036854775808 → Q (n, Args) w) →
  wp (if bLong then va_long (a :: Args) else va_int (a :: Args)) Q w.
Proof.
  destruct a as [z|z|p], bLong; simpl; intros [=<-] HQ; wp_step; apply HQ; cint.
Qed.

Lemma wp_format_number B nb out bLeft bNull bLong nWidth base up a Args s w :
  with_buf B nb out w → 2 <= base <= 16 →
  ref_unsigned bLeft bNull bLong nWidth base up a = Some s →
  fits (length out + length s)%nat →
  wp (format_number (Ptr nb 0) bLeft bNull bLong nWidth base up (a :: Args))
     (λ r w', r = Args ∧ with_buf B nb (out ++ s) w') w.
Proof.
  intros Hw Hb Es Hl. unfold ref_unsigned in Es.
  destruct (ref_word bLong false a) as [n|] eqn:En; [|done]. simpl in Es.
  destruct (ref_numeral up base n) as [s0|] eqn:E0; [|done]. injection Es as <-.
  unfold format_number. mstep. eapply wp_va_word; [done|]. intros Hn. mstep.
  eapply wp_ntoa_buf; [done|done|done|done|]. intros w' cs Hcs Hw' Hs.
  mstep. mstep. pose proof (justify_length bLeft (if bNull && negb bLeft then 48 else 32) nWidth s0).
  eapply uspi_strlen_wp; [by eapply building_bstr|lia|].
  replace (w' <| sm := sm w' |>) with w' by (by destruct w').
  assert (∀ A (x : M SW A) y, (if bLeft then x else y) = if bLeft then x else y) by done.
  replace (if bNull && negb bLeft then 48 else 32)
    with (if bLeft then 32 else if bNull then 48 else 32) in * by (by destruct bNull, bLeft).
  assert (0 < (if bLeft then 32 else if bNull then 48 else 32) < 128)
    by (destruct bLeft, bNull; lia).
  pose proof (wp_put_numeral B nb cs out (StringPutString (Ptr nb 0)) _ nWidth bLeft s0 Args w'
    Hcs Hw' ltac:(eassumption) Hl) as Hput.
  destruct bLeft; apply Hput; intros; by apply wp_StringPutString.
Qed.

Lemma wp_format_int B nb out bLeft bLong nWidth a Args s w :
  with_buf B nb out w → ref_signed bLeft bLong nWidth a = Some s →
  fits (length out + length s)%nat →
  wp (format_int (Ptr nb 0) bLeft bLong nWidth (a :: Args))
     (λ r w', r = Args ∧ with_buf B nb (out ++ s) w') w.
Proof.
  intros Hw Es Hl. unfold ref_signed in Es.
  destruct (ref_word bLong true a) as [n|] eqn:En; [|done]. simpl in Es.
  destruct (Z.eqb_spec n (-9223372036854775808)) as [|Hmin]; [done|].
  destruct (ref_numeral false 10 (Z.abs n)) as [s0|] eqn:E0; [|done]. injection Es as <-.
  unfold format_int. mstep. eapply wp_va_sword; [done|]. intros Hn. mstep.
  assert (wp (if n <? 0 then if n =? -9223372036854775808 then fail UndefBehaviour else mret (- n)
              else mret n) (λ r w', r = Z.abs n ∧ w' = w) w) as Habs.
  { rewrite (proj2 (Z.eqb_neq _ _) Hmin). destruct (Z.ltb_spec n 0); wp_step; (split; [lia|done]). }
  eapply wp_mono; [exact Habs|]. intros r w0 [-> ->]. clear Habs. mstep.
  rewrite u64_id by (unfold is_u64; lia).
  eapply wp_ntoa_buf; [done|lia|unfold is_u64; lia|done|]. intros w' cs Hcs Hw' Hs.
  mstep. mstep. set (t := if n <? 0 then 45 :: s0 else s0) in *.
  pose proof (justify_length bLeft 32 nWidth t).
  assert (Z.of_nat (length t) = Z.of_nat (length s0) + (if n <? 0 then 1 else 0)) as Et
    by (unfold t; destruct (n <? 0); simpl length; lia).
  assert (length s0 <= length t)%nat by (unfold t; destruct (n <? 0); simpl; lia).
  eapply uspi_strlen_wp; [by eapply building_bstr|lia|].
  replace (w' <| sm := sm w' |>) with w' by (by destruct w').
  rewrite <- Et.
  pose proof (wp_put_numeral B nb cs out
    (when (n <? 0) (StringPutChar 45 1) ;; StringPutString (Ptr nb 0)) 32 nWidth bLeft t Args w'
    Hcs Hw' ltac:(lia) Hl) as Hput.
  assert (∀ out' w', building (<[nb:=cs]> B) out' w' → fits (length out' + length t)%nat →
    wp (when (n <? 0) (StringPutChar 45 1);; StringPutString (Ptr nb 0))
      (λ _, building (<[nb:=cs]> B) (out' ++ t)) w') as Hp
    by (intros; by apply wp_put_sign).
  specialize (Hput Hp). destruct bLeft; [|exact Hput].
  apply wp_bind. apply wp_assoc. by apply wp_bind_inv in Hput.
Qed.

Lemma s8_eqb r k : 0 <= r < 256 → 0 <= k < 128 → (s8 r =? k) = (r =? k).
Proof. intros. apply eq_true_iff_eq. rewrite !Z.eqb_eq. unfold s8. lia. Qed.

Lemma with_buf_building B nb out w (cs : list (option Z)) (Args r : list varg) :
  length cs = S MAX_NUMBER_LEN → r = Args ∧ building (<[nb := cs]> B) out w →
  r = Args ∧ with_buf B nb out w.
Proof. intros ? [? ?]. split; [done|]. by exists cs. Qed.

Lemma wp_format_switch B nb out c bLeft bNull bLong nWidth Args Args' s w :
  with_buf B nb out w → B !! nb = None → char_ok c → args_ok B Args →
  ref_switch sv c bLeft bNull bLong nWidth Args = Some (s, Args') →
  fits (length out + length s)%nat →
  wp (format_switch (Ptr nb 0) (s8 c) bLeft bNull bLong nWidth Args)
     (λ r w', r = Args' ∧ with_buf B nb (out ++ s) w') w.
Proof.
  intros Hw Hnb Hc Ha Es Hl. cbv beta in Hc. unfold format_switch. rewrite !s8_eqb by lia.
  unfold ref_switch, ref_conv in Es. pose proof Hw as (cs&Hcs&Hb).
  assert (∀ conv, match Args with a :: r => s ← conv a; Some (s, r) | [] => None end = Some (s, Args') →
    ∃ a, Args = a :: Args' ∧ conv a = Some s) as Hinv.
  { intros conv H. destruct Args as [|a r]; [done|]. destruct (conv a) as [s'|] eqn:E; [|done].
    simpl in H. injection H as <- <-. by exists a. }
  destruct (Z.eqb_spec c 99) as [->|].
  { destruct (Hinv _ Es) as (a&->&E). eapply wp_mono; [by eapply wp_format_char|].
    intros r w'. by apply with_buf_building. }
  destruct (Z.eqb_spec c 100) as [->|].
  { destruct (Hinv _ Es) as (a&->&E). by apply wp_format_int. }
  destruct (Z.eqb_spec c 111) as [->|].
  { destruct (Hinv _ Es) as (a&->&E). by apply wp_format_number. }
  destruct (Z.eqb_spec c 115) as [->|].
  { destruct (Hinv _ Es) as (a&->&E). destruct a as [| |p]; [done..|]. simpl in E. injection E as <-.
    apply Forall_cons_1 in Ha as [Hp _]. eapply wp_mono; [eapply wp_format_string; [done| |done]|].
    - by apply bstr_insert.
    - intros r w'. by apply with_buf_building. }
  destruct (Z.eqb_spec c 117) as [->|].
  { destruct (Hinv _ Es) as (a&->&E). by apply wp_format_number. }
  destruct (Z.eqb_spec c 120) as [->|].
  { destruct (Hinv _ Es) as (a&->&E). by apply wp_format_number. }
  destruct (Z.eqb_spec c 88) as [->|].
  { destruct (Hinv _ Es) as (a&->&E). by apply wp_format_number. }
  simpl in Es. injection Es as <- <-. simpl in Hl.
  simpl. mstep. eapply wp_mono; [eapply (wp_StringPutChar _ out); [done|done|lia|lia]|].
  intros [] w' Hw'. change (u8 37) with 37 in Hw'. simpl in Hw'.
  assert (u8 (s8 c) = c) as Ec by cint.
  mstep. eapply wp_mono; [eapply (wp_StringPutChar _ (out ++ [37])); [done|lia|lia|]|].
  { rewrite length_app. simpl. lia. }
  intros [] w'' Hw''. rewrite Ec, <- app_assoc in Hw''. mstep. split; [done|]. by exists cs.
Qed.
(** *** Reading the format *)

Lemma sm_self w : w <| sm := sm w |> = w.
Proof. by destruct w. Qed.

Lemma wp_fmt_char B out p fmt w (Q : Z → SW → Prop) :
  building B out w → bstr B p fmt → Q (s8 (hd 0 fmt)) w → wp (on_mem (load_char p)) Q w.
Proof.
  intros Hw Hp HQ. apply wp_on_mem. eapply (wp_load_char _ _ (hd 0 fmt)); [|by rewrite sm_self].
  pose proof (building_bstr _ _ _ _ _ Hw Hp) as H. destruct fmt; simpl in H; [done|by destruct H].
Qed.

Lemma bstr_tail B p c fmt : bstr B p (c :: fmt) → bstr B (padd p 1) fmt.
Proof. unfold bstr. simpl. tauto. Qed.

Lemma bstr_head B p c fmt : bstr B p (c :: fmt) → 0 < c < 256.
Proof. unfold bstr. simpl. tauto. Qed.

Lemma hd_u8 B p fmt : bstr B p fmt → 0 <= hd 0 fmt < 256.
Proof. destruct fmt; simpl; [lia|]. intros H%bstr_head. lia. Qed.

Lemma wp_flag B out ch p fmt w (Q : bool * ptr → SW → Prop) :
  building B out w → bstr B p fmt → 0 < ch < 128 →
  (∀ q, bstr B q (snd (ref_flag ch fmt)) → Q (fst (ref_flag ch fmt), q) w) →
  wp (on_mem (flag ch p)) Q w.
Proof.
  intros Hw Hp Hch HQ. apply wp_on_mem. unfold flag. wp_step.
  eapply (wp_load_char _ _ (hd 0 fmt)).
  { pose proof (building_bstr _ _ _ _ _ Hw Hp) as H. destruct fmt; simpl in H; [done|by destruct H]. }
  wp_step. rewrite sm_self, s8_eqb by (first [by eapply hd_u8|lia]).
  destruct fmt as [|c r]; cbn [hd ref_flag fst snd] in *.
  - rewrite (proj2 (Z.eqb_neq 0 ch)) by lia. by apply HQ.
  - destruct (c =? ch); apply HQ; simpl; [by eapply bstr_tail|done].
Qed.

Lemma width_loop_wp f p fmt n m (Q : Z * ptr → mem → Prop) :
  cstr m p fmt → (length fmt < f)%nat →
  (∀ q, blk q = blk p → cstr m q (snd (ref_width fmt n)) → Q (fst (ref_width fmt n), q) m) →
  wp (width_loop f p n) Q m.
Proof.
  revert p fmt n. induction f as [|f IH]; intros p fmt n Hp Hf HQ; [lia|]. simpl. wp_step.
  destruct fmt as [|c r]; simpl in *.
  - eapply wp_load_char; [done|]. simpl. wp_step. by apply HQ.
  - destruct Hp as (Hc&Hr&Hs). eapply wp_load_char; [done|].
    assert ((48 <=? s8 c) && (s8 c <=? 57) = (48 <=? c) && (c <=? 57)) as ->.
    { apply eq_true_iff_eq. rewrite !andb_true_iff, !Z.leb_le. unfold s8. lia. }
    destruct ((48 <=? c) && (c <=? 57)) eqn:Ed.
    + assert (s8 c = c) as -> by (apply andb_true_iff in Ed as [?%Z.leb_le ?%Z.leb_le]; unfold s8; lia).
      eapply IH; [done|lia|]. intros q Hq. by apply HQ.
    + wp_step. apply HQ; [done|]. exact (conj Hc (conj Hr Hs)).
Qed.

Lemma wp_width B out p fmt w (Q : Z * ptr → SW → Prop) :
  building B out w → bstr B p fmt →
  (∀ q, bstr B q (snd (ref_width fmt 0)) → Q (fst (ref_width fmt 0), q) w) →
  wp (f ← on_mem (fuel_at p); on_mem (width_loop f p 0)) Q w.
Proof.
  intros Hw Hp HQ. pose proof (building_bstr _ _ _ _ _ Hw Hp) as Hc.
  destruct (cstr_bound _ _ _ Hc) as (bs&Hb&Hl).
  mstep. apply wp_on_mem. eapply wp_fuel_at; [done|]. rewrite sm_self. apply wp_on_mem.
  eapply width_loop_wp; [done|lia|]. rewrite sm_self. intros q Hq Hs. apply HQ.
  destruct Hw as (_&_&b&bs'&_&_&Eb&Hn&_). eapply (cstr_frame (sm w)); [|done].
  simpl. rewrite Eb, Hq. rewrite lookup_insert_ne; [done|]. by eapply bstr_ne.
Qed.

(** The automatic array is released after the conversion. *)
Lemma wp_with_local {A} B out (k : ptr → M SW A) w (Q : A → SW → Prop) :
  building B out w →
  (∀ nb w', B !! nb = None → with_buf B nb out w' →
     wp (k (Ptr nb 0)) (λ a w'', ∃ out', with_buf B nb out' w'' ∧
       ∀ w3, building B out' w3 → Q a w3) w') →
  wp (with_local (Z.of_nat MAX_NUMBER_LEN + 1) k) Q w.
Proof.
  intros (Hm&Ho&b&bs&E1&E2&Eb&Hb&Ht&Hlt&Hs) HQ. destruct w as [st m]. smcbn. unfold with_local.
  pose proof (mem_wf_fresh_None _ Hm) as Hf.
  assert (fresh m ≠ b) as Hne.
  { intros E. rewrite E, Eb, lookup_insert_eq in Hf. done. }
  rewrite Eb, lookup_insert_ne in Hf by done.
  msteps. apply wp_malloc. msteps.
  eapply wp_mono; [apply (HQ (fresh m)); [done|]|].
  - exists (replicate 12 None). split; [done|]. eapply (building_run _ _ b); simpl.
    + by apply mem_wf_malloc.
    + done.
    + done.
    + done.
    + rewrite Eb. by rewrite insert_insert_ne.
    + by rewrite lookup_insert_ne.
    + done.
    + done.
    + done.
  - intros a [st' m'] (out'&(cs&Hcs&Hm'&Ho'&b'&bs'&E1'&E2'&Eb'&Hb'&Ht'&Hlt'&Hs')&HQ'). smcbn.
    apply lookup_insert_None in Hb' as [Hb' Hne'].
    msteps. eapply wp_free; [simpl; rewrite Eb', lookup_insert_ne by done; apply lookup_insert_eq|done|].
    msteps. apply HQ'. eapply (building_run _ _ b'); simpl.
    + by apply mem_wf_delete.
    + done.
    + done.
    + done.
    + rewrite Eb', delete_insert_ne by done. by rewrite delete_insert_fresh.
    + done.
    + done.
    + done.
    + done.
Qed.
Lemma ref_switch_args B c bLeft bNull bLong nWidth Args s Args' :
  ref_switch sv c bLeft bNull bLong nWidth Args = Some (s, Args') →
  args_ok B Args → args_ok B Args'.
Proof.
  unfold ref_switch. destruct (ref_conv sv c bLeft bNull bLong nWidth) as [conv|];
    [|intros [=_ <-]; done].
  destruct Args as [|a r]; [done|]. destruct (conv a); [|done]. simpl.
  intros [= _ <-] H. by apply Forall_cons_1 in H as [_ H].
Qed.

Lemma wp_format_conversion B out p fmt Args s fmt' Args' w :
  building B out w → bstr B p fmt → args_ok B Args →
  ref_conversion sv fmt Args = Some (s, fmt', Args') →
  fits (length out + length s)%nat →
  wp (format_conversion p Args) (λ r w', r.2 = Args' ∧ bstr B r.1 fmt' ∧ args_ok B Args' ∧
    building B (out ++ s) w') w.
Proof.
  intros Hw Hp Ha Es Hl. unfold ref_conversion in Es. unfold format_conversion.
  mstep. eapply wp_flag; [done|done|lia|]. intros q1 H1.
  destruct (ref_flag 45 fmt) as [bLeft fmt1]. simpl in *.
  mstep. eapply wp_flag; [done|done|lia|]. intros q2 H2.
  destruct (ref_flag 48 fmt1) as [bNull fmt2]. simpl in *.
  apply wp_assoc. mstep. eapply wp_width; [done|done|]. intros q3 H3.
  destruct (ref_width fmt2 0) as [nWidth fmt3]. simpl in *.
  mstep. eapply wp_flag; [done|done|lia|]. intros q4 H4.
  destruct (ref_flag 108 fmt3) as [bLong fmt4]. simpl in *.
  destruct fmt4 as [|c r]; [done|].
  destruct (ref_switch sv c bLeft bNull bLong nWidth Args) as [[s' a']|] eqn:E; [|done].
  simpl in Es. injection Es as -> -> ->.
  eapply wp_with_local; [done|]. intros nb w' Hnb (cs&Hcs&Hw').
  mstep. eapply wp_fmt_char; [done|by apply bstr_insert|]. simpl. mstep.
  eapply wp_mono; [eapply wp_format_switch; [by exists cs|done|by eapply bstr_head|done|done|done]|].
  intros a w'' [-> Hw'']. mstep. exists (out ++ s). split; [done|].
  intros w3 Hw3. split_and!; [done|by eapply bstr_tail| |done].
  by eapply ref_switch_args.
Qed.

Lemma format_loop_wp B f p fmt out Args s w :
  building B out w → bstr B p fmt → args_ok B Args →
  render sv f fmt Args = Some s → fits (length out + length s)%nat →
  wp (format_loop f p Args) (λ _, building B (out ++ s)) w.
Proof.
  revert p fmt out Args s w. induction f as [|f IH]; intros p fmt out Args s w Hw Hp Ha Es Hl; [done|].
  simpl. mstep. eapply wp_fmt_char; [done|done|]. destruct fmt as [|c r].
  { simpl in Es. injection Es as <-. simpl. mstep. by rewrite app_nil_r. }
  pose proof (bstr_head _ _ _ _ Hp) as Hc. cbn [hd render] in *.
  rewrite (proj2 (Z.eqb_neq (s8 c) 0)) by (rewrite s8_zero; lia).
  rewrite s8_eqb by lia. pose proof (bstr_tail _ _ _ _ Hp) as Hp1.
  destruct (Z.eqb_spec c 37) as [->|Hne].
  - destruct r as [|c' r']; [done|].
    mstep. eapply wp_fmt_char; [done|done|]. cbn [hd].
    pose proof (bstr_head _ _ _ _ Hp1) as Hc'. rewrite s8_eqb by lia.
    destruct (c' =? 37).
    + destruct (render sv f r' Args) as [s'|] eqn:E'; [|done]. injection Es as <-. simpl in Hl.
      mstep. eapply wp_mono; [apply (wp_StringPutChar B out); [done|done|lia|lia]|].
      intros [] w' Hw'. change (u8 37) with 37 in Hw'. simpl in Hw'.
      apply bstr_tail in Hp1. rewrite padd_padd in Hp1.
      eapply wp_mono; [apply (IH _ _ _ _ _ _ Hw' Hp1 Ha E'); rewrite length_app; simpl; lia|].
      intros [] w'' Hw''. by rewrite <- app_assoc in Hw''.
    + destruct (ref_conversion sv (c' :: r') Args) as [[[s1 r1] a1]|] eqn:E1; [|done].
      simpl in Es. destruct (render sv f r1 a1) as [s2|] eqn:E2; [|done].
      simpl in Es. injection Es as <-. rewrite length_app in Hl.
      mstep. eapply wp_mono; [eapply wp_format_conversion; [done|done|done|done|lia]|].
      intros [q a] w' (Ea&Hq&Ha'&Hw'). simpl in *. subst a.
      eapply wp_mono; [eapply IH; [done|done|done|done|rewrite length_app; lia]|].
      intros [] w'' Hw''. by rewrite <- app_assoc in Hw''.
  - destruct (render sv f r Args) as [s'|] eqn:E'; [|done]. injection Es as <-. simpl in Hl.
    assert (u8 (s8 c) = c) as Ec by cint.
    mstep. eapply wp_mono; [apply (wp_StringPutChar B out); [done|lia|lia|lia]|].
    intros [] w' Hw'. rewrite Ec in Hw'. simpl in Hw'.
    eapply wp_mono; [apply (IH _ _ _ _ _ _ Hw' Hp1 Ha E'); rewrite length_app; simpl; lia|].
    intros [] w'' Hw''. by rewrite <- app_assoc in Hw''.
Qed.

Lemma render_fuel f f' fmt Args s :
  (length fmt < f)%nat → (length fmt < f')%nat →
  render sv f fmt Args = Some s → render sv f' fmt Args = Some s.
Proof.
  assert (∀ c l, length (snd (ref_flag c l)) <= length l)%nat as Hfl.
  { intros c [|x l]; simpl; [lia|]. destruct (x =? c); simpl; lia. }
  assert (∀ l n, length (snd (ref_width l n)) <= length l)%nat as Hwd.
  { induction l as [|x l IHl]; intros n; simpl; [lia|].
    destruct (_ && _); simpl; [specialize (IHl (u64 (n * 10 + (x - 48)))); lia|lia]. }
  assert (∀ l a s r a', ref_conversion sv l a = Some (s, r, a') → length r < length l)%nat as Hcv.
  { intros l a s0 r a'. unfold ref_conversion.
    pose proof (Hfl 45 l). destruct (ref_flag 45 l) as [b1 l1].
    pose proof (Hfl 48 l1). destruct (ref_flag 48 l1) as [b2 l2].
    pose proof (Hwd l2 0). destruct (ref_width l2 0) as [wd l3].
    pose proof (Hfl 108 l3). destruct (ref_flag 108 l3) as [b3 l4]. simpl in *.
    destruct l4 as [|c r4]; [done|]. destruct (ref_switch sv c b1 b2 b3 wd a) as [[x y]|]; [|done].
    simpl. intros [= _ <- _]. simpl in *. lia. }
  revert f' fmt Args s. induction f as [|f IH]; intros [|f'] fmt Args s Hf Hf' E; try lia.
  simpl in *. destruct fmt as [|c r]; [done|]. simpl in *.
  assert (∀ (g : list Z → list Z) x l, (length l < f)%nat → (length l < f')%nat →
    g <$> render sv f l x = Some s → g <$> render sv f' l x = Some s) as Hmap.
  { intros g x l Hx Hx' H. destruct (render sv f l x) as [y|] eqn:Ey; [|done].
    by rewrite (IH f' l x y Hx Hx' Ey). }
  destruct (c =? 37); [|apply Hmap; [lia|lia|done]].
  destruct r as [|c' r']; [done|]. simpl in *.
  destruct (c' =? 37); [apply Hmap; [lia|lia|done]|].
  destruct (ref_conversion sv (c' :: r') Args) as [[[s1 r1] a1]|] eqn:E1; [|done].
  simpl in *. apply Hcv in E1. simpl in E1. apply Hmap; [lia|lia|done].
Qed.
End Format.

Lemma wp_StringFormatV sv B l0 pFormat fmt Args s w :
  holds B l0 w → bstr B pFormat fmt → args_ok sv B Args →
  render sv (S (length fmt)) fmt Args = Some s → Z.of_nat (length s) < 4294967000 →
  wp (StringFormatV pFormat Args) (λ _ w', holds B s w') w.
Proof.
  intros Hh Hp Ha Es Hl. unfold StringFormatV. mstep.
  eapply wp_free_buffer; [done|]. intros m Eb Hm. destruct w as [st m0]. smcbn.
  pose proof (mem_wf_fresh_None _ Hm) as Hf.
  msteps. apply wp_malloc. msteps.
  set (p0 := Ptr (fresh m) 0).
  pose (w := Build_SW (Build_TString (Some p0) FORMAT_RESERVE (Some p0))
    (Mem (<[fresh m := replicate 64 None]> (blocks m)) (S (fresh m)))).
  assert (building B [] w) as Hw.
  { eapply (building_run _ _ (fresh m)); simpl.
    - by apply mem_wf_malloc.
    - done.
    - done.
    - done.
    - by rewrite Eb.
    - by rewrite <- Eb.
    - done.
    - simpl. lia.
    - done. }
  destruct (cstr_bound _ _ _ (building_bstr _ _ _ _ _ Hw Hp)) as (bs&Hbs&Hlen).
  eapply wp_fuel_at; [exact Hbs|]. mstep.
  eapply wp_mono; [eapply (format_loop_wp sv B _ _ fmt []); [exact Hw|done|done| |]|].
  { eapply render_fuel; [| |exact Es]; lia. }
  { done. }
  intros [] w' (Hm'&Ho&b&bs'&E1&E2&Eb'&Hb&Ht&Hlt&Hs). simpl in *. destruct w' as [st' m']. smcbn.
  msteps. rewrite E2. msteps.
  eapply wp_poke; [simpl; rewrite Eb'; apply lookup_insert_eq|done|].
  eapply (holds_block _ _ _ _ b).
  - apply mem_wf_upd_block; [done|]. simpl. rewrite Eb', lookup_insert_eq. by eexists.
  - done.
  - done.
  - simpl. rewrite Eb'. apply insert_twice_gmap.
  - done.
  - simpl. by apply insert_app_map.
  - by rewrite length_insert.
Qed.

(** C38. [StringFormatV] (and [StringFormat]) replace whatever the object held by
    the expansion of the format: for every format and arguments on which the
    reference [render] is defined, so with numerals of at most eleven digits,
    the object then holds exactly the rendered string, however often the buffer
    had to grow; every buffer replaced on the way, and the automatic arrays, are
    released and nothing else in memory changes. *)
Theorem string_format_correct sv B l0 pFormat fmt Args s w :
  holds B l0 w → bstr B pFormat fmt → args_ok sv B Args →
  render sv (S (length fmt)) fmt Args = Some s → Z.of_nat (length s) < 4294967000 →
  wp (StringFormat pFormat Args) (λ _ w', holds B s w') w.
Proof. exact (wp_StringFormatV sv B l0 pFormat fmt Args s w). Qed.

(** ** Numerals that do not fit *)

Lemma store_oob p v m bs :
  blocks m !! blk p = Some bs → (length bs <= off p)%nat → store p v m = Err MemFault.
Proof.
  intros Hb Hl. unfold store, poke. rewrite Hb. by rewrite (proj2 (Nat.ltb_ge _ _)).
Qed.

Lemma store_run p v m bs :
  blocks m !! blk p = Some bs → (off p < length bs)%nat →
  store p v m = Ok (tt, upd_block (blk p) (<[off p := Some (u8 v)]> bs) m).
Proof.
  intros Hb Hl. unfold store, poke. rewrite Hb. by rewrite (proj2 (Nat.ltb_lt _ _)).
Qed.

Lemma ntoa_digits_oob f p k base n d up m bs :
  2 <= base → (k < f)%nat → blocks m !! blk p = Some bs → (length bs < off p + S k)%nat →
  ntoa_digits f p n base (base ^ Z.of_nat k) d up m = Err MemFault.
Proof.
  intros Hb. revert p k n d m bs. induction f as [|f IH]; intros p k n d m bs Hf Hbs Hl; [lia|].
  pose proof (pow_pos_nat base k Hb) as Hp. simpl. unfold umod, udiv.
  rewrite (proj2 (Z.eqb_neq (base ^ Z.of_nat k) 0)) by lia. rewrite bind_ret_l.
  destruct (Nat.leb_spec (length bs) (off p)) as [Ho|Ho].
  { apply bind_err. by eapply store_oob. }
  erewrite bind_ok by (by apply store_run).
  rewrite (proj2 (Z.eqb_neq base 0)) by lia. rewrite bind_ret_l.
  destruct k as [|k]; [lia|].
  assert (base ^ Z.of_nat (S k) / base = base ^ Z.of_nat k) as ->.
  { rewrite pow_split, Z.mul_comm, Z.div_mul by lia. done. }
  pose proof (pow_pos_nat base k Hb) as Hp'.
  rewrite (proj2 (Z.eqb_neq (base ^ Z.of_nat k) 0)) by lia. rewrite bind_ret_l.
  eapply IH; [lia|apply lookup_upd_block|rewrite length_insert; simpl; lia].
Qed.

(** A numeral as long as the buffer, or longer, is written past its end. The
    formatter's buffer has [MAX_NUMBER_LEN + 1] bytes, chosen for 32-bit
    numbers, and the ['l'] flag lets a 64-bit number reach it: [%lu] overruns
    the array from 10^11 on. *)
Theorem ntoa_overflow b n base up m bs :
  2 <= base <= 16 → is_u64 n → blocks m !! b = Some bs →
  (length bs <= length (numeral up base n))%nat →
  ntoa (Ptr b 0) n base up m = Err MemFault ∧
  (100000000000 <= n → (MAX_NUMBER_LEN < length (numeral up 10 n))%nat).
Proof.
  intros Hb Hn Hbs Hl. split.
  - rewrite numeral_length in Hl.
    assert (Hk : leading (exponent 64 base n) base n) by (apply digits_leading; [lia|done]).
    assert (exponent 64 base n < 64)%nat as H64.
    { eapply leading_lt; [|exact Hk| |lia]; [lia|]. unfold is_u64 in Hn. lia. }
    set (k := exponent 64 base n) in *.
    assert (wp (ntoa_divisor 64 n base (base ^ Z.of_nat 0))
      (λ r m', r = (n / base ^ Z.of_nat k, base ^ Z.of_nat k) ∧ m' = m) m) as H.
    { eapply ntoa_divisor_wp; [lia| |exact Hk|lia|lia|done]. unfold is_u64 in Hn. lia. }
    apply wp_run in H as (r&m'&E&->&->). unfold ntoa. erewrite bind_ok by exact E.
    destruct (decide (length bs = S k)) as [Heq|].
    + assert (wp (ntoa_digits 64 (Ptr b 0) n base (base ^ Z.of_nat k) (n / base ^ Z.of_nat k) up)
        (λ r m', r = Ptr b (S k) ∧ ∃ bs', blocks m' !! b = Some bs' ∧ length bs' = S k) m) as H.
      { eapply ntoa_digits_wp; [lia| |done|lia|exact Hbs|simpl; lia|].
        - destruct Hk as [Hk _]. unfold is_u64 in Hn. lia.
        - split; [done|]. eexists. split; [apply lookup_upd_block|].
          rewrite overwrite_length; [done|]. rewrite length_map, digits_from_length. simpl. lia. }
      apply wp_run in H as (r&m'&E'&->&bs'&Hbs'&Hl'). erewrite bind_ok by exact E'.
      apply bind_err. eapply store_oob; [done|simpl; lia].
    + apply bind_err. eapply ntoa_digits_oob; [lia|lia|done|simpl; lia].
  - intros Hbig. rewrite numeral_length.
    destruct (digits_leading 10 n ltac:(lia) Hn) as [H _].
    destruct (Nat.ltb_spec MAX_NUMBER_LEN (S (exponent 64 10 n))) as [|Hle]; [done|].
    assert (10 ^ Z.of_nat (S (exponent 64 10 n)) <= 10 ^ Z.of_nat 11)
      by (apply Z.pow_le_mono_r; unfold MAX_NUMBER_LEN in Hle; lia). lia.
Qed.

(** ** Concrete inputs *)

Module Demo.
(** "%-3d|%s" and "ab" *)
Definition fmt : list Z := [37; 45; 51; 100; 124; 37; 115].
Definition B0 : gmap nat (list (option Z)) :=
  <[0%nat := cells_of fmt]> (<[1%nat := cells_of [97; 98]]> ∅).
Definition w0 : SW :=
  {| str := {| m_pBuffer := None; m_nSize := 0; m_pInPtr := None |}; sm := Mem B0 2 |}.
(** An object that holds "x". *)
Definition w1 : SW :=
  {| str := {| m_pBuffer := Some (Ptr 2 0); m_nSize := 2; m_pInPtr := None |};
     sm := Mem (<[2%nat := cells_of [120]]> B0) 3 |}.

Lemma wf0 : mem_wf (sm w0).
Proof.
  intros [|[|b]] H; [simpl in H; lia..|]. change (blocks (sm w0)) with B0. unfold B0.
  by rewrite !lookup_insert_ne by lia.
Qed.

Lemma wf1 : mem_wf (sm w1).
Proof.
  intros [|[|[|b]]] H; [simpl in H; lia..|].
  change (blocks (sm w1)) with (<[2%nat := cells_of [120]]> B0). unfold B0.
  by rewrite !lookup_insert_ne by lia.
Qed.

Lemma holds0 : holds B0 [] w0.
Proof. split_and!; [apply wf0|constructor|by left]. Qed.

Lemma holds1 : holds B0 [120] w1.
Proof.
  split_and!; [apply wf1|repeat constructor; lia|right].
  by exists 2%nat, (cells_of [120]).
Qed.

Lemma ab_str : bstr B0 (Ptr 1 0) [97; 98].
Proof. repeat split; lia. Qed.

Lemma fmt_ok : bstr B0 (Ptr 0 0) fmt.
Proof. repeat split; lia. Qed.

Lemma string_update_witness :
  wp (StringSet (Ptr 1 0)) (λ r w', holds B0 [97; 98] w' ∧ m_pBuffer (str w') = Some r) w1 ∧
  wp (StringAppend (Ptr 1 0)) (λ _ w', holds B0 [120; 97; 98] w') w1.
Proof.
  pose proof (string_update B0 [120] [97; 98] (Ptr 1 0) w1 holds1 ab_str eq_refl) as (H1&H2&_).
  split; [exact H1|exact H2].
Defined.

Lemma string_query_witness :
  wp StringGetLength (λ r w', r = 1 ∧ w' = w1) w1 ∧
  wp (StringFind 120) (λ r w', w' = w1 ∧ r = 0) w1.
Proof.
  pose proof (string_query B0 [120] [97; 98] (Ptr 1 0) 120 (Ptr 1 2) w1 holds1 ab_str ltac:(simpl; lia))
    as (H1&_&H2).
  split; [exact H1|]. apply H2. discriminate.
Defined.

Lemma ntoa_correct_witness :
  wp (ntoa (Ptr 0 0) 48879 16 false) (λ r m', r = Ptr 0 0 ∧ cstr m' (Ptr 0 0) [98; 101; 101; 102])
     (sm w0).
Proof.
  pose proof (ntoa_correct (Ptr 0 0) 48879 16 false (sm w0) (cells_of fmt) ltac:(lia)
    ltac:(unfold is_u64; lia) eq_refl ltac:(vm_compute; lia)) as (H&_).
  eapply wp_mono; [exact H|]. intros r m' (E&Hc&_). split; [exact E|exact Hc].
Defined.

Lemma string_format_witness :
  wp (StringFormat (Ptr 0 0) [Word32 (-7); Pointer (Ptr 1 0)])
     (λ _ w', holds B0 [45; 55; 32; 124; 97; 98] w') w1.
Proof.
  apply (string_format_correct (λ _, [97; 98]) B0 [120] (Ptr 0 0) fmt
           [Word32 (-7); Pointer (Ptr 1 0)]).
  - apply holds1.
  - apply fmt_ok.
  - repeat constructor; simpl; lia.
  - vm_compute. reflexivity.
  - simpl. lia.
Defined.

(** "%lu" of 10^12 runs off its 12-byte array. *)
Lemma ntoa_overflow_witness :
  ntoa (Ptr 5 0) 1000000000000 10 false (Mem {[5%nat := replicate 12 None]} 6) = Err MemFault.
Proof.
  apply (ntoa_overflow 5 1000000000000 10 false _ (replicate 12 None)).
  - lia.
  - unfold is_u64. lia.
  - reflexivity.
  - vm_compute. lia.
Defined.
End Demo.
