(* ===== verification/DeviceName.v ===== *)
(** * lib/devicenameservice.c and lib/macaddress.c

    The registry under which function drivers publish their devices, and the
    address of a network adapter. A name is its list of characters, copied when
    it is entered; a device is its pointer. *)
From S2P Require Import Prelude CMem Util CString.

Module Names.
Record TDeviceInfo := { pName : list Z; pDevice : Z; bBlockDevice : bool }.

(** The service object's list, head first, and the static [s_pThis]. *)
Record TDeviceNameService := { m_pList : list TDeviceInfo; s_pThis : Z }.
#[global] Instance TDeviceNameService_eta : Eta TDeviceNameService := λ r,
  {| m_pList := m_pList r; s_pThis := s_pThis r |}.

Definition DeviceNameService (pThis : Z) : M TDeviceNameService unit :=
  c_assert (negb (pThis =? 0)) ;;
  modify (λ n, n <| m_pList := [] |>) ;;
  s ← gets s_pThis;
  c_assert (s =? 0) ;;
  modify (λ n, n <| s_pThis := pThis |>).

Definition _DeviceNameService : M TDeviceNameService unit :=
  modify (λ n, n <| m_pList := [] |> <| s_pThis := 0 |>).

Definition DeviceNameServiceAddDevice (name : list Z) (device : Z) (block : bool)
    : M TDeviceNameService unit :=
  c_assert (negb (device =? 0)) ;;
  modify (λ n, n <| m_pList := {| pName := name; pDevice := device; bBlockDevice := block |}
                               :: m_pList n |>).

(** The walk along the list; 0 where it ends. *)
Fixpoint find_device (l : list TDeviceInfo) (name : list Z) (block : bool)
    : M TDeviceNameService Z :=
  match l with
  | [] => mret 0
  | pInfo :: l =>
      if (str_cmp name (pName pInfo) =? 0) && Bool.eqb (bBlockDevice pInfo) block then
        c_assert (negb (pDevice pInfo =? 0)) ;; mret (pDevice pInfo)
      else find_device l name block
  end.
Definition DeviceNameServiceGetDevice (name : list Z) (block : bool) : M TDeviceNameService Z :=
  l ← gets m_pList; find_device l name block.

Definition DeviceNameServiceGet : M TDeviceNameService Z :=
  s ← gets s_pThis; c_assert (negb (s =? 0)) ;; mret s.

(** ** The map the registry implements *)

Definition names_map (l : list TDeviceInfo) : gmap (list Z * bool) Z :=
  foldr (λ i m, <[(pName i, bBlockDevice i) := pDevice i]> m) ∅ l.

(** Names are C strings and devices are not null. *)
Definition names_ok (n : TDeviceNameService) : Prop :=
  Forall (λ i, Forall char_ok (pName i) ∧ pDevice i ≠ 0) (m_pList n).

Lemma find_device_map name block l (Q : Z → TDeviceNameService → Prop) n :
  Forall (λ i, Forall char_ok (pName i) ∧ pDevice i ≠ 0) l → Forall char_ok name →
  Q (default 0 (names_map l !! (name, block))) n → wp (find_device l name block) Q n.
Proof.
  intros Hl Hn. induction Hl as [|i l [Hi Hd] Hl IH]; simpl; intros HQ; [by wp_step|].
  destruct (decide ((pName i, bBlockDevice i) = (name, block))) as [E|E].
  - simplify_eq/=. rewrite lookup_insert_eq in HQ.
    rewrite (proj2 (str_cmp_eq _ _ Hn Hn)), eqb_reflx by done. simpl.
    wp_step. apply wp_assert; [by apply negb_true_iff, Z.eqb_neq|]. by wp_step.
  - rewrite lookup_insert_ne in HQ by done.
    destruct ((str_cmp name (pName i) =? 0) && Bool.eqb (bBlockDevice i) block) eqn:Et; [|by apply IH].
    apply andb_true_iff in Et as [E1 E2]. apply Z.eqb_eq, (str_cmp_eq _ _ Hn Hi) in E1.
    apply eqb_prop in E2. subst. by destruct E.
Qed.

(** The registry is a map from names and kinds to devices: adding enters,
    replacing what was there, looking up finds what was entered last and
    nothing else, and the destructor empties it. *)
Theorem device_names_map n name device block :
  names_ok n → Forall char_ok name → device ≠ 0 →
  wp (DeviceNameServiceAddDevice name device block) (λ _ n',
    names_ok n' ∧ s_pThis n' = s_pThis n ∧
    names_map (m_pList n') = <[(name, block) := device]> (names_map (m_pList n))) n ∧
  wp (DeviceNameServiceGetDevice name block) (λ d n', n' = n ∧
    match names_map (m_pList n) !! (name, block) with
    | Some x => d = x ∧ d ≠ 0 | None => d = 0 end) n ∧
  wp _DeviceNameService (λ _ n', names_map (m_pList n') = ∅ ∧ s_pThis n' = 0) n.
Proof.
  intros Hn Hname Hd. split_and!.
  - unfold DeviceNameServiceAddDevice. wp_step. apply wp_assert; [by apply negb_true_iff, Z.eqb_neq|].
    wp_step. split; [|done]. constructor; [by split|done].
  - unfold DeviceNameServiceGetDevice. wp_step. wp_step. apply find_device_map; [done..|].
    split; [done|]. destruct (names_map (m_pList n) !! (name, block)) as [x|] eqn:E; [|done].
    split; [done|]. simpl. revert E. unfold names_ok in Hn.
    induction Hn as [|i l [_ Hi] _ IH]; simpl; [done|]. rewrite lookup_insert_Some.
    intros [[_ <-]|[_ E]]; auto.
  - by unfold _DeviceNameService; wp_step.
Qed.

(** A service with a block device and a keyboard. *)
Definition umsd1 : list Z := [117; 109; 115; 100; 49].
Definition ukbd1 : list Z := [117; 107; 98; 100; 49].
Definition service : TDeviceNameService :=
  {| m_pList := [{| pName := ukbd1; pDevice := 64; bBlockDevice := false |}]; s_pThis := 8 |}.

Lemma device_names_map_witness :
  wp (DeviceNameServiceAddDevice umsd1 128 true) (λ _ n',
    names_map (m_pList n') = <[(umsd1, true) := 128]> {[ (ukbd1, false) := 64 ]}) service.
Proof.
  assert (Forall char_ok umsd1) as Hu by (repeat (constructor; [split; simpl; lia|]); constructor).
  assert (names_ok service) as Hs.
  { constructor; [|constructor]. split; [|done]. repeat (constructor; [split; simpl; lia|]); constructor. }
  eapply wp_mono; [apply (device_names_map service umsd1 128 true Hs Hu ltac:(done))|].
  intros _ n' (_ & _ & H). exact H.
Defined.
End Names.

(** ** lib/macaddress.c *)
Module Mac.
Definition MAC_ADDRESS_SIZE : Z := 6.

(** [m_Address] is indeterminate until it is set. *)
Record TMACAddress := { m_bValid : bool; m_Address : list (option Z) }.

Section Ops.
Context {St : Type}.
Implicit Types (pThis : TMACAddress).

Definition MACAddress : TMACAddress := {| m_bValid := false; m_Address := replicate 6 None |}.
Definition _MACAddress pThis : TMACAddress := {| m_bValid := false; m_Address := m_Address pThis |}.

Definition MACAddressSet (pAddress : list Z) : M St TMACAddress :=
  if (length pAddress <? 6)%nat then fail MemFault
  else mret {| m_bValid := true; m_Address := map Some (take 6 pAddress) |}.
Definition MACAddress2 (pAddress : list Z) : M St TMACAddress := MACAddressSet pAddress.
Definition MACAddressSetBroadcast : TMACAddress :=
  {| m_bValid := true; m_Address := replicate 6 (Some 0xFF) |}.

(** The six bytes, which a valid address has. *)
Fixpoint bytes_of (l : list (option Z)) : M St (list Z) :=
  match l with
  | [] => mret []
  | Some v :: l => r ← bytes_of l; mret (v :: r)
  | None :: _ => fail UndefBehaviour
  end.
Definition MACAddressGet pThis : M St (list Z) :=
  c_assert (m_bValid pThis) ;; bytes_of (m_Address pThis).

Definition MACAddressIsEqual pThis (pAddress2 : TMACAddress) : M St bool :=
  c_assert (m_bValid pThis) ;;
  a ← bytes_of (m_Address pThis);
  b ← MACAddressGet pAddress2;
  mret (lex_cmp a b =? 0).

(** It writes the first six bytes of the caller's buffer. *)
Definition MACAddressCopyTo pThis (pBuffer : list (option Z)) : M St (list (option Z)) :=
  c_assert (m_bValid pThis) ;;
  if (length pBuffer <? 6)%nat then fail MemFault
  else mret (m_Address pThis ++ drop 6 pBuffer).

Fixpoint broadcast_loop (l : list (option Z)) : M St bool :=
  match l with
  | [] => mret true
  | None :: _ => fail UndefBehaviour
  | Some v :: l => if negb (v =? 0xFF) then mret false else broadcast_loop l
  end.
Definition MACAddressIsBroadcast pThis : M St bool :=
  c_assert (m_bValid pThis) ;; broadcast_loop (m_Address pThis).

Definition MACAddressGetSize : Z := MAC_ADDRESS_SIZE.

(** The arguments of "%02X:%02X:%02X:%02X:%02X:%02X". *)
Definition format : list Z :=
  flat_map (λ i, [37; 48; 50; 88] ++ if (i =? 5)%nat then [] else [58]) (seq 0 6).
Definition MACAddressFormat pThis : M St (option (list Z)) :=
  c_assert (m_bValid pThis) ;;
  a ← bytes_of (m_Address pThis);
  mret (render (λ _, []) (S (length format)) format (map Word32 a)).
End Ops.

(** ** Properties *)

Lemma bytes_of_some {St} (a : list Z) (Q : list Z → St → Prop) s :
  Q a s → wp (bytes_of (map Some a)) Q s.
Proof.
  revert Q. induction a as [|x a IH]; intros Q HQ; simpl; [by wp_step|].
  wp_step. apply IH. by wp_step.
Qed.

Lemma broadcast_some {St} (a : list Z) (Q : bool → St → Prop) s :
  Q (bool_decide (Forall (eq 0xFF) a)) s → wp (broadcast_loop (map Some a)) Q s.
Proof.
  induction a as [|x a IH]; intros HQ; simpl; [by wp_step|].
  destruct (Z.eqb_spec x 0xFF) as [->|Hx]; simpl.
  - apply IH. rewrite (bool_decide_ext _ (Forall (eq 255) a)) in HQ; [done|].
    split; intros H; [by inversion H|by constructor].
  - wp_step. rewrite bool_decide_eq_false_2 in HQ; [done|]. intros H. inversion H. by subst.
Qed.

(** Equal bytes compare as 0, and only those, when the lengths agree. *)
Lemma lex_cmp_eq l1 l2 : length l1 = length l2 → lex_cmp l1 l2 = 0 ↔ l1 = l2.
Proof.
  revert l2. induction l1 as [|a l1 IH]; intros [|b l2] Hl; simpl in *; try lia; [done|].
  destruct (Z.eqb_spec a b) as [->|Hne].
  - rewrite (IH l2) by lia. split; [by intros ->|by intros [= ->]].
  - rewrite cmp3_zero. split; [done|by intros [= ->]].
Qed.

(** Two upper-case hexadecimal digits, what "%02X" prints of a byte. *)
Definition hex2 (v : Z) : list Z := [digit_code true (v / 16); digit_code true (v mod 16)].

Lemma ref_02X v : is_u8 v → ref_unsigned false true false 2 16 true (Word32 v) = Some (hex2 v).
Proof.
  intros Hv.
  assert (forallb (λ i, bool_decide (ref_unsigned false true false 2 16 true (Word32 (Z.of_nat i))
                                     = Some (hex2 (Z.of_nat i)))) (seq 0 256) = true) as H
    by (vm_compute; reflexivity).
  rewrite forallb_forall in H. specialize (H (Z.to_nat v)). rewrite Z2Nat.id in H by (cint).
  eapply bool_decide_eq_true_1, H, in_seq. cint.
Qed.

Lemma conversion_02X sv v r args : is_u8 v →
  ref_conversion sv (48 :: 50 :: 88 :: r) (Word32 v :: args) = Some (hex2 v, r, args).
Proof.
  intros Hv. change (ref_conversion sv (48 :: 50 :: 88 :: r) (Word32 v :: args))
    with ('(s, Args) ← (s ← ref_unsigned false true false 2 16 true (Word32 v); Some (s, args));
          Some (s, r, Args)).
  by rewrite (ref_02X v Hv).
Qed.

Lemma render_02X sv f v r args : is_u8 v →
  render sv (S f) (37 :: 48 :: 50 :: 88 :: r) (Word32 v :: args) = app (hex2 v) <$> render sv f r args.
Proof.
  intros Hv. change (render sv (S f) (37 :: 48 :: 50 :: 88 :: r) (Word32 v :: args))
    with ('(s, r, Args) ← ref_conversion sv (48 :: 50 :: 88 :: r) (Word32 v :: args);
          app s <$> render sv f r Args).
  by rewrite (conversion_02X sv v r args Hv).
Qed.

Lemma render_colon sv f r args :
  render sv (S f) (58 :: r) args = cons 58 <$> render sv f r args.
Proof. done. Qed.

(** A set address is what it was set to, by every operation: reading, copying,
    comparing, the test for the broadcast address, and its text, six pairs of
    upper-case hexadecimal digits with colons between. *)
Theorem mac_address {St} a0 a1 a2 a3 a4 a5 rest a' (s : St) :
  let a := [a0; a1; a2; a3; a4; a5] in
  Forall is_u8 a → length a' = 6%nat →
  wp (MACAddressSet (a ++ rest)) (λ m _,
    wp (MACAddressGet m) (λ b _, b = a) s ∧
    (∀ buf, (6 <= length buf)%nat →
       wp (MACAddressCopyTo m buf) (λ b _, b = overwrite 0 (map Some a) buf) s) ∧
    wp (MACAddressSet a') (λ m' _, wp (MACAddressIsEqual m m') (λ b _, b = true ↔ a = a') s) s ∧
    wp (MACAddressIsBroadcast m) (λ b _, b = true ↔ m = MACAddressSetBroadcast) s ∧
    wp (MACAddressFormat m) (λ t _, t = Some (hex2 a0 ++ 58 :: hex2 a1 ++ 58 :: hex2 a2 ++ 58 ::
      hex2 a3 ++ 58 :: hex2 a4 ++ 58 :: hex2 a5)) s) s.
Proof.
  intros a Ha Hl. unfold MACAddressSet. rewrite length_app. subst a. simpl.
  wp_step. split_and!.
  - unfold MACAddressGet. wp_step. apply wp_assert; [done|].
    by apply (bytes_of_some [a0; a1; a2; a3; a4; a5]).
  - intros buf Hb. unfold MACAddressCopyTo. wp_step. apply wp_assert; [done|].
    rewrite (proj2 (Nat.ltb_ge _ _)) by lia. by wp_step.
  - rewrite (proj2 (Nat.ltb_ge _ _)) by lia. wp_step. unfold MACAddressIsEqual, MACAddressGet.
    wp_step. apply wp_assert; [done|]. wp_step.
    apply (bytes_of_some [a0; a1; a2; a3; a4; a5]). wp_step. wp_step. apply wp_assert; [done|].
    apply bytes_of_some. wp_step. rewrite take_ge by lia.
    rewrite Z.eqb_eq. by apply lex_cmp_eq.
  - unfold MACAddressIsBroadcast. wp_step. apply wp_assert; [done|].
    apply (broadcast_some [a0; a1; a2; a3; a4; a5]). rewrite bool_decide_eq_true.
    split; [|by intros [= -> -> -> -> -> ->]; repeat constructor].
    intros H. repeat (apply Forall_cons_1 in H as [<- H]). done.
  - unfold MACAddressFormat. wp_step. apply wp_assert; [done|]. wp_step.
    apply (bytes_of_some [a0; a1; a2; a3; a4; a5]). wp_step.
    repeat (apply Forall_cons_1 in Ha as [? Ha]). cbn [map].
    change format with (flat_map (λ i : nat, [37; 48; 50; 88] ++ if (i =? 5)%nat then [] else [58])
      [0; 1; 2; 3; 4; 5]%nat).
    cbn [flat_map app Nat.eqb length]. repeat first [rewrite render_02X by assumption|rewrite render_colon].
    reflexivity.
Qed.

Lemma mac_address_witness :
  wp (MACAddressSet [0xB8; 0x27; 0xEB; 0; 0x1F; 0xA5]) (λ m _,
    wp (MACAddressFormat m) (λ t _, t = Some [66; 56; 58; 50; 55; 58; 69; 66; 58; 48; 48; 58; 49; 70;
      58; 65; 53]) tt) tt.
Proof.
  eapply wp_mono; [apply (mac_address 0xB8 0x27 0xEB 0 0x1F 0xA5 [] [1; 2; 3; 4; 5; 6] tt)|].
  - repeat (constructor; [split; lia|]). constructor.
  - reflexivity.
  - intros m _ (_ & _ & _ & _ & H). exact H.
Defined.
End Mac.
