(* ===== verification/UsbBus.v ===== *)
(** * The bus as a function driver sees it

    A function driver uses the host controller through two calls,
    [DWHCIDeviceTransfer] and [DWHCIDeviceControlMessage]. This file states
    what it may rely on: an interface to any state a request can be run in,
    with the requests and their outcomes kept as a history, newest first. The
    device at the other end is not part of the program; what it answers is
    whatever the history says. [DwhciHost] shows that the driver of
    [DwhciControl] keeps this contract. *)
From S2P Require Import Prelude Endpoint.

(** ** Requests and their outcomes *)

(** A call, with the bytes that leave the host and the number it asks for. *)
Inductive bus_op :=
  | BulkOut (pEndpoint : Z) (data : list Z)
  | BulkIn (pEndpoint nBufSize : Z)
  | ControlOut (pEndpoint ucRequestType ucRequest usValue usIndex : Z) (data : list Z)
  | ControlIn (pEndpoint ucRequestType ucRequest usValue usIndex usDataSize : Z).

(** What happened: the call's result and the bytes that came in, or a delay. *)
Inductive bus_event :=
  | BusDone (op : bus_op) (nResult : Z) (data : list Z)
  | BusDelay (nMilliSeconds : Z).

(** What a call may return. A message without data returns the length of the
    setup packet ([control_message]). *)
Definition result_ok (op : bus_op) (r : Z) (d : list Z) : Prop :=
  Forall is_u8 d ∧
  match op with
  | BulkOut _ l => d = [] ∧ (r = -1 ∨ 0 <= r <= Z.of_nat (length l))
  | ControlOut _ _ _ _ _ l =>
      d = [] ∧ (r = -1 ∨ if decide (l = []) then r = 8 else 0 <= r <= Z.of_nat (length l))
  | BulkIn _ n | ControlIn _ _ _ _ _ n =>
      Z.of_nat (length d) <= n ∧ (r = -1 ∨ r = Z.of_nat (length d))
  end.

(** The endpoint a call uses, and the type it must have. *)
Definition op_endpoint (op : bus_op) : Z :=
  match op with
  | BulkOut p _ | BulkIn p _ | ControlOut p _ _ _ _ _ | ControlIn p _ _ _ _ _ => p
  end.
Definition op_control (op : bus_op) : bool :=
  match op with ControlOut _ _ _ _ _ _ | ControlIn _ _ _ _ _ _ => true | _ => false end.
Definition op_length (op : bus_op) : Z :=
  match op with
  | BulkOut _ l | ControlOut _ _ _ _ _ l => Z.of_nat (length l)
  | BulkIn _ n | ControlIn _ _ _ _ _ n => n
  end.

(** The calls the driver can make: the endpoint exists, has the type and a
    packet size, data is requested where data must be, and the direction is the
    one the request type states. *)
Record op_ok (u : Usb) (op : bus_op) : Prop := {
  op_nonnull : op_endpoint op ≠ 0;
  op_known : ∃ e, endpoints u !! op_endpoint op = Some e ∧
    m_Type e = (if op_control op then EndpointTypeControl else EndpointTypeBulk) ∧
    0 < m_nMaxPacketSize e < 65536 ∧ is_Some (devices u !! m_pDevice e);
  op_len : match op with
    | BulkOut _ l => 0 < Z.of_nat (length l) < 2 ^ 31
    | BulkIn _ n => 0 < n < 2 ^ 31
    | ControlOut _ t _ _ _ l => Z.of_nat (length l) < 65536 ∧ truthy (Z.land t REQUEST_IN) = false
    | ControlIn _ t _ _ _ n => 0 < n < 65536 ∧ truthy (Z.land t REQUEST_IN) = true
    end
}.

(** Requests leave the objects alone but for the toggle of a bulk endpoint. *)
Definition same_but_pid (u u' : Usb) : Prop :=
  devices u' = devices u ∧
  ∀ p, match endpoints u !! p, endpoints u' !! p with
       | Some e, Some e' => e <| m_NextPID := m_NextPID e' |> = e' ∧
                            (m_Type e = EndpointTypeControl → e' = e)
       | None, None => True
       | _, _ => False
       end.

Lemma same_but_pid_refl u : same_but_pid u u.
Proof. split; [done|]. intros p. destruct (endpoints u !! p) as [[]|]; done. Qed.

Lemma same_but_pid_trans u1 u2 u3 :
  same_but_pid u1 u2 → same_but_pid u2 u3 → same_but_pid u1 u3.
Proof.
  intros [Hd1 H1] [Hd2 H2]. split; [congruence|]. intros p. specialize (H1 p). specialize (H2 p).
  destruct (endpoints u1 !! p) as [e1|], (endpoints u2 !! p) as [e2|],
    (endpoints u3 !! p) as [e3|]; try done.
  destruct H1 as [E1 K1], H2 as [E2 K2]. split.
  - rewrite <- E2, <- E1. done.
  - intros Ht. rewrite K2; [by apply K1|]. by rewrite <- E1.
Qed.

(** The same objects of the same types. *)
Lemma op_ok_same u u' op : same_but_pid u u' → op_ok u op → op_ok u' op.
Proof.
  intros [Hd H] [H1 (e & He & Ht & Hm & Hdev) H3]. split; [done| |done].
  specialize (H (op_endpoint op)). rewrite He in H.
  destruct (endpoints u' !! op_endpoint op) as [e'|]; [|done].
  exists e'. rewrite Hd. destruct H as [<- _]. done.
Qed.

(** ** The interface *)

(** States with a history of requests. *)
Class HasBus (St : Type) := {
  bus_get : St → list bus_event;
  bus_put : list bus_event → St → St
}.

(** The objects between two requests: every device is one the host can serve,
    every endpoint has a packet size and the toggle of its type. *)
Record objects_ok (serves : TUSBDevice → Prop) (u : Usb) : Prop := {
  oo_device p d : devices u !! p = Some d → serves d;
  oo_endpoint p e : endpoints u !! p = Some e →
    m_Type e = EndpointTypeBulk ∨ m_Type e = EndpointTypeControl →
    m_pDevice e ≠ 0 ∧ 0 < m_nMaxPacketSize e < 65536 ∧
    (m_NextPID e = USBPIDSetup ↔ m_Type e = EndpointTypeControl)
}.

(** A host. [host_idle k]: it is at rest and will answer [k] more requests.
    [host_serves]: the devices it can reach. *)
Class UsbHost (St : Type) := {
  host_usb :: HasUsb St;
  host_bus :: HasBus St;
  host_run : bus_op → M St (Z * list Z);
  host_idle : nat → St → Prop;
  host_serves : TUSBDevice → Prop
}.

(** A state in which requests can be made. *)
Definition host_ready {St} `{!UsbHost St} (k : nat) (s : St) : Prop :=
  host_idle k s ∧ objects_ok host_serves (usb_get s).

(** An endpoint as its constructors make it, of a device that exists. *)
Definition new_endpoint (u : Usb) (e : TUSBEndpoint) : Prop :=
  (m_Type e = EndpointTypeBulk ∧ m_NextPID e = USBPIDData0 ∨
   m_Type e = EndpointTypeControl ∧ m_NextPID e = USBPIDSetup ∨
   m_Type e = EndpointTypeInterrupt) ∧
  0 < m_nMaxPacketSize e < 65536 ∧ m_pDevice e ≠ 0 ∧ is_Some (devices u !! m_pDevice e).

(** What a request does to the objects: nothing but the pid of its endpoint
    moves. It stays a data pid on a bulk endpoint and is SETUP again after a
    control message that succeeded; after one that failed it may be any. *)
Definition pid_moved (op : bus_op) (r : Z) (u u' : Usb) : Prop :=
  ∃ e pid, endpoints u !! op_endpoint op = Some e ∧
    u' = upd_endpoint (op_endpoint op) (e <| m_NextPID := pid |>) u ∧
    (if op_control op then r ≠ -1 → pid = USBPIDSetup else pid ≠ USBPIDSetup).

(** The objects, the history and the host's own state are independent; a
    request is answered and entered in the history with its outcome. The
    address of a device does not decide whether it is served. *)
Class UsbHostLaws (St : Type) `{!UsbHost St} := {
  host_serves_address (d : TUSBDevice) a : host_serves d → host_serves (d <| m_ucAddress := a |>);
  usb_get_put u (s : St) : usb_get (usb_put u s) = u;
  usb_get_bus h (s : St) : usb_get (bus_put h s) = usb_get s;
  bus_get_put h (s : St) : bus_get (bus_put h s) = h;
  bus_get_usb u (s : St) : bus_get (usb_put u s) = bus_get s;
  host_idle_mono k k' (s : St) : (k' <= k)%nat → host_idle k s → host_idle k' s;
  host_idle_bus k h (s : St) : host_idle k s → host_idle k (bus_put h s);
  host_idle_usb k u (s : St) : host_idle k s → host_idle k (usb_put u s);
  host_run_ok k op (s : St) :
    host_ready (S k) s → op_ok (usb_get s) op →
    wp (host_run op) (λ '(r, d) s', host_idle k s' ∧ result_ok op r d ∧
      bus_get s' = BusDone op r d :: bus_get s ∧ pid_moved op r (usb_get s) (usb_get s')) s
}.

(** What a function driver needs to go on with its control endpoint after a
    failed message: that the message left it alone. It does when no message
    fails, and when messages fail only by having their setup packet refused; a
    host may promise it or not. *)
Class UsbHostRecovers (St : Type) `{!UsbHost St} :=
  host_recovers k op (s : St) :
    host_ready (S k) s → op_ok (usb_get s) op → op_control op = true →
    wlp (host_run op) (λ x s', x.1 = -1 → usb_get s' = usb_get s) s.

(** Changes of the objects that keep them in order. *)
Lemma objects_ok_pid serves u p e pid :
  objects_ok serves u → endpoints u !! p = Some e → m_Type e = EndpointTypeBulk → pid ≠ USBPIDSetup →
  objects_ok serves (upd_endpoint p (e <| m_NextPID := pid |>) u).
Proof.
  intros [Hd He] Hp Ht Hpid. split; [exact Hd|]. intros q e' Hq Hty. simpl in Hq.
  apply lookup_insert_Some in Hq as [[<- <-]|[_ Hq]]; [|by eapply He].
  destruct (He p e Hp) as (H1 & H2 & _); [by left|].
  split; [done|]. split; [done|]. simpl. rewrite Ht. by split.
Qed.

Lemma objects_ok_new serves u p e :
  objects_ok serves u → new_endpoint u e → objects_ok serves (upd_endpoint p e u).
Proof.
  intros [Hd He] (Hk & Hm & H0 & _). split; [exact Hd|]. intros q e' Hq Hty. simpl in Hq.
  apply lookup_insert_Some in Hq as [[<- <-]|[_ Hq]]; [|by eapply He].
  split; [done|]. split; [done|].
  destruct Hk as [[Ht Hp]|[[Ht Hp]|Ht]]; [rewrite Ht, Hp; by split..|].
  rewrite Ht in Hty. by destruct Hty.
Qed.

Lemma same_but_pid_bulk u p e pid :
  endpoints u !! p = Some e → m_Type e = EndpointTypeBulk →
  same_but_pid u (upd_endpoint p (e <| m_NextPID := pid |>) u).
Proof.
  intros He Ht. split; [done|]. intros q. unfold upd_endpoint, upd. simpl.
  destruct (decide (q = p)) as [->|Hne].
  - rewrite lookup_insert_eq, He. split; [by destruct e|]. congruence.
  - rewrite lookup_insert_ne by done. destruct (endpoints u !! q) as [[]|]; done.
Qed.

Lemma upd_endpoint_id u p e : endpoints u !! p = Some e → upd_endpoint p e u = u.
Proof. intros He. destruct u. unfold upd_endpoint, upd. simpl in *. by rewrite insert_id. Qed.

(** A request after which the driver can go on. *)
Lemma pid_moved_kept serves op r u u' :
  objects_ok serves u → op_ok u op → pid_moved op r u u' →
  (op_control op = true → r = -1 → u' = u) →
  objects_ok serves u' ∧ same_but_pid u u'.
Proof.
  intros Ho [_ (e & He & Ht & _) _] (e' & pid & He' & -> & Hp) Hr.
  rewrite He in He'. injection He' as <-. destruct (op_control op).
  - assert (upd_endpoint (op_endpoint op) (e <| m_NextPID := pid |>) u = u) as ->; [|split; [done|apply same_but_pid_refl]].
    destruct (decide (r = -1)) as [E|E]; [by apply Hr|]. rewrite Hp by done.
    apply upd_endpoint_id. rewrite He. f_equal.
    destruct (oo_endpoint _ _ Ho _ _ He) as (_ & _ & Hs); [by right|]. apply Hs in Ht. destruct e. simpl in *. by subst.
  - split; [by apply objects_ok_pid|by apply same_but_pid_bulk].
Qed.

Section Ready.
Context {St : Type} `{!UsbHost St} `{!UsbHostLaws St}.
Implicit Types s : St.

Lemma host_ready_mono k k' s : (k' <= k)%nat → host_ready k s → host_ready k' s.
Proof. intros Hk [Hi Ho]. split; [by eapply host_idle_mono|done]. Qed.

Lemma host_ready_bus k h s : host_ready k s → host_ready k (bus_put h s).
Proof. intros [Hi Ho]. split; [by apply host_idle_bus|by rewrite usb_get_bus]. Qed.

Lemma host_ready_usb k u s :
  host_ready k s → objects_ok host_serves u → host_ready k (usb_put u s).
Proof. intros [Hi _] Ho. split; [by apply host_idle_usb|by rewrite usb_get_put]. Qed.

Lemma host_ready_pid k p e s :
  host_ready k s → endpoints (usb_get s) !! p = Some e → m_Type e = EndpointTypeBulk →
  host_ready k (usb_put (upd_endpoint p (e <| m_NextPID := USBPIDData0 |>) (usb_get s)) s).
Proof. intros Hr He Ht. apply host_ready_usb; [done|]. apply objects_ok_pid; [apply Hr|done..]. Qed.

Lemma host_ready_new k p e s :
  host_ready k s → new_endpoint (usb_get s) e →
  host_ready k (usb_put (upd_endpoint p e (usb_get s)) s).
Proof. intros Hr He. apply host_ready_usb; [done|]. apply objects_ok_new; [apply Hr|done]. Qed.
End Ready.

(** ** The calls *)

(** A buffer is a list of cells, [None] where it was never written. *)
Definition buffer := list (option Z).
Definition blank (n : Z) : buffer := replicate (Z.to_nat n) None.

Section Calls.
Context {St : Type} `{!UsbHost St}.

(** [DWHCIDeviceTransfer], by the direction of the endpoint. *)
Definition TransferOut (pEndpoint : Z) (data : list Z) : M St Z :=
  '(r, _) ← host_run (BulkOut pEndpoint data); mret r.
Definition TransferIn (pEndpoint : Z) (pBuffer : buffer) : M St (Z * buffer) :=
  '(r, d) ← host_run (BulkIn pEndpoint (Z.of_nat (length pBuffer)));
  mret (r, overwrite 0 (map Some d) pBuffer).

(** [DWHCIDeviceControlMessage], by the direction of the request. *)
Definition ControlMessageOut (pEndpoint ucRequestType ucRequest usValue usIndex : Z)
    (data : list Z) : M St Z :=
  '(r, _) ← host_run (ControlOut pEndpoint ucRequestType ucRequest usValue usIndex data); mret r.
Definition ControlMessageIn (pEndpoint ucRequestType ucRequest usValue usIndex : Z)
    (pData : buffer) : M St (Z * buffer) :=
  '(r, d) ← host_run (ControlIn pEndpoint ucRequestType ucRequest usValue usIndex
                        (Z.of_nat (length pData)));
  mret (r, overwrite 0 (map Some d) pData).

Definition HostMsDelay (nMilliSeconds : Z) : M St unit :=
  modify (λ s, bus_put (BusDelay nMilliSeconds :: bus_get s) s).

(** Reading a buffer: outside it, or where nothing was written. *)
Definition cell_at (b : buffer) (i : nat) : M St Z :=
  match b !! i with
  | Some (Some v) => mret v
  | Some None => fail UndefBehaviour
  | None => fail MemFault
  end.
Definition le16_at (b : buffer) (i : nat) : M St Z :=
  b0 ← cell_at b i; b1 ← cell_at b (i + 1); mret (b0 + 256 * b1).
Definition le32_at (b : buffer) (i : nat) : M St Z :=
  lo ← le16_at b i; hi ← le16_at b (i + 2); mret (lo + 65536 * hi).
End Calls.

(** The bytes of a buffer that goes out. *)
Fixpoint buffer_bytes {St} (b : buffer) : M St (list Z) :=
  match b with
  | [] => mret []
  | Some v :: b => l ← buffer_bytes b; mret (v :: l)
  | None :: _ => fail UndefBehaviour
  end.

(** The bytes of a little-endian integer in memory. *)
Definition le_bytes (n : nat) (v : Z) : list Z :=
  map (λ i, field (8 * Z.of_nat i) 8 v) (seq 0 n).

(** Reading what has been written. *)
Lemma wp_cell_at {St} b i v (Q : Z → St → Prop) s :
  b !! i = Some (Some v) → Q v s → wp (cell_at b i) Q s.
Proof. intros Hb HQ. unfold cell_at. by rewrite Hb. Qed.

(** A buffer that was written completely. *)
Lemma overwrite_all (d : list Z) (b : buffer) :
  length d = length b → overwrite 0 (map Some d) b = map Some d.
Proof.
  intros H. unfold overwrite. rewrite take_0, length_map, H, drop_ge by lia.
  by rewrite app_nil_l, app_nil_r.
Qed.

(** ** A bus driven by an oracle

    The simplest host: no controller, only the function from the history to
    the answers. Witnesses run on it. *)
Class Oracle := { respond : list bus_event → bus_op → Z * list Z }.
Class OracleLaws `{Oracle} :=
  respond_ok h op : 0 <= op_length op → result_ok op (respond h op).1 (respond h op).2.

Record Bus := { bw_usb : Usb; bw_events : list bus_event }.
#[global] Instance Bus_eta : Eta Bus := λ w, {| bw_usb := bw_usb w; bw_events := bw_events w |}.

#[export] Instance Bus_usb : HasUsb Bus :=
  {| usb_get := bw_usb; usb_put u w := w <| bw_usb := u |> |}.
#[export] Instance Bus_bus : HasBus Bus :=
  {| bus_get := bw_events; bus_put h w := w <| bw_events := h |> |}.
#[export] Instance Bus_host `{Oracle} : UsbHost Bus :=
  {| host_usb := Bus_usb; host_bus := Bus_bus;
     host_run op w := let '(r, d) := respond (bw_events w) op in
       Ok ((r, d), w <| bw_events := BusDone op r d :: bw_events w |>);
     host_idle _ _ := True; host_serves _ := True |}.
#[export] Instance Bus_laws `{OracleLaws} : UsbHostLaws Bus.
Proof.
  split; try done. intros k op s [_ Hobj] Hop. unfold wp. simpl.
  assert (0 <= op_length op) as Hlen.
  { destruct Hop as [_ _ Hl]. destruct op; simpl in *; lia. }
  pose proof (respond_ok (bw_events s) op Hlen) as Hr.
  destruct (respond (bw_events s) op) as [r d]. simpl in *.
  split; [done|]. split; [done|]. split; [done|].
  destruct Hop as [_ (e & He & Ht & _) _]. exists e, (m_NextPID e). split; [done|]. split.
  { symmetry. apply upd_endpoint_id. rewrite He. f_equal. by destruct e. }
  destruct (oo_endpoint _ _ Hobj _ _ He) as (_ & _ & Hs); [rewrite Ht; destruct (op_control op); auto|].
  rewrite Ht in Hs. destruct (op_control op); [intros _; by apply Hs|]. intros E. apply Hs in E. done.
Qed.
#[export] Instance Bus_recovers `{Oracle} : UsbHostRecovers Bus.
Proof.
  intros k op s _ _ _. unfold wlp. simpl. by destruct (respond (bw_events s) op) as [r d].
Qed.

(** ** A driver's object next to the host's state *)

#[export] Instance prod_usb {D St} `{HasUsb St} : HasUsb (D * St) :=
  {| usb_get s := usb_get (snd s); usb_put u s := (fst s, usb_put u (snd s)) |}.
#[export] Instance prod_bus {D St} `{HasBus St} : HasBus (D * St) :=
  {| bus_get s := bus_get (snd s); bus_put h s := (fst s, bus_put h (snd s)) |}.
#[export] Instance prod_host {D St} `{!UsbHost St} : UsbHost (D * St) :=
  {| host_usb := prod_usb; host_bus := prod_bus;
     host_run op := zoom (λ s, Some (snd s)) (λ t s, (fst s, t)) (host_run op);
     host_idle k s := host_idle k (snd s); host_serves := host_serves |}.
#[export] Instance prod_laws {D St} `{!UsbHost St} `{!UsbHostLaws St} : UsbHostLaws (D * St).
Proof.
  split; intros; simpl in *;
    auto using host_serves_address, usb_get_put, usb_get_bus, bus_get_put, bus_get_usb, host_idle_bus, host_idle_usb.
  - by eapply host_idle_mono.
  - eapply wp_zoom; [done|]. eapply wp_mono; [by apply (host_run_ok k)|]. by intros [r d] s'.
Qed.

#[export] Instance prod_recovers {D St} `{!UsbHost St} `{!UsbHostRecovers St} : UsbHostRecovers (D * St).
Proof.
  intros k op s Hr Ho Hc. apply wlp_zoom. intros t [= <-]. eapply wlp_mono; [by apply (host_recovers k)|done].
Qed.

(** ** What the calls do

    The step of every proof about a driver: one request is answered, and the
    driver's own object is not touched. *)
Section Laws.
Context {D St : Type} `{!UsbHost St} `{!UsbHostLaws St} `{!UsbHostRecovers St}.

Lemma host_run_kept k op (s : St) :
  host_ready (S k) s → op_ok (usb_get s) op →
  wp (host_run op) (λ '(r, d) s', host_ready k s' ∧ result_ok op r d ∧
    bus_get s' = BusDone op r d :: bus_get s ∧ same_but_pid (usb_get s) (usb_get s')) s.
Proof.
  intros Hr Ho.
  assert (wlp (host_run op) (λ x s', op_control op = true → x.1 = -1 → usb_get s' = usb_get s) s) as Hrec.
  { destruct (op_control op) eqn:Ec; [|unfold wlp; by destruct (host_run op s) as [[]|]].
    eapply wlp_mono; [by apply (host_recovers k)|]. intros x s' Hx _. exact Hx. }
  eapply wp_told; [exact Hrec|]. eapply wp_mono; [by apply (host_run_ok k)|].
  intros [r d] s' (H1 & H2 & H3 & H4) Hx. destruct Hr as [Hi Hobj].
  destruct (pid_moved_kept _ _ _ _ _ Hobj Ho H4 Hx). split; [by split|done].
Qed.

Lemma wp_host_run k op (Q : Z * list Z → D * St → Prop) o s :
  host_ready (S k) s → op_ok (usb_get s) op →
  (∀ r d s', host_ready k s' → result_ok op r d → bus_get s' = BusDone op r d :: bus_get s →
     same_but_pid (usb_get s) (usb_get s') → Q (r, d) (o, s')) →
  wp (host_run op) Q (o, s).
Proof.
  intros Hr Ho HQ. eapply wp_zoom; [done|]. eapply wp_mono; [by apply (host_run_kept k)|].
  intros [r d] s' (H1 & H2 & H3 & H4). by apply HQ.
Qed.

Lemma wp_TransferOut k p l (Q : Z → D * St → Prop) o s :
  host_ready (S k) s → op_ok (usb_get s) (BulkOut p l) →
  (∀ r s', host_ready k s' → r = -1 ∨ 0 <= r <= Z.of_nat (length l) →
     bus_get s' = BusDone (BulkOut p l) r [] :: bus_get s →
     same_but_pid (usb_get s) (usb_get s') → Q r (o, s')) →
  wp (TransferOut p l) Q (o, s).
Proof.
  intros Hr Ho HQ. unfold TransferOut. wp_step. eapply wp_host_run; [done..|].
  intros r d s' H1 (_ & -> & H2) H3 H4. wp_step. by apply HQ.
Qed.

Lemma wp_TransferIn k p b (Q : Z * buffer → D * St → Prop) o s :
  host_ready (S k) s → op_ok (usb_get s) (BulkIn p (Z.of_nat (length b))) →
  (∀ r d s', host_ready k s' → Forall is_u8 d → (length d <= length b)%nat →
     r = -1 ∨ r = Z.of_nat (length d) →
     bus_get s' = BusDone (BulkIn p (Z.of_nat (length b))) r d :: bus_get s →
     same_but_pid (usb_get s) (usb_get s') → Q (r, overwrite 0 (map Some d) b) (o, s')) →
  wp (TransferIn p b) Q (o, s).
Proof.
  intros Hr Ho HQ. unfold TransferIn. wp_step. eapply wp_host_run; [done..|].
  intros r d s' H1 (H2 & H3 & H4) H5 H6. wp_step. apply HQ; try done. lia.
Qed.

Lemma wp_ControlMessageOut k p t q v i l (Q : Z → D * St → Prop) o s :
  host_ready (S k) s → op_ok (usb_get s) (ControlOut p t q v i l) →
  (∀ r s', host_ready k s' →
     r = -1 ∨ (if decide (l = []) then r = 8 else 0 <= r <= Z.of_nat (length l)) →
     bus_get s' = BusDone (ControlOut p t q v i l) r [] :: bus_get s →
     same_but_pid (usb_get s) (usb_get s') → Q r (o, s')) →
  wp (ControlMessageOut p t q v i l) Q (o, s).
Proof.
  intros Hr Ho HQ. unfold ControlMessageOut. wp_step. eapply wp_host_run; [done..|].
  intros r d s' H1 (_ & -> & H2) H3 H4. wp_step. by apply HQ.
Qed.

Lemma wp_ControlMessageIn k p t q v i b (Q : Z * buffer → D * St → Prop) o s :
  host_ready (S k) s → op_ok (usb_get s) (ControlIn p t q v i (Z.of_nat (length b))) →
  (∀ r d s', host_ready k s' → Forall is_u8 d → (length d <= length b)%nat →
     r = -1 ∨ r = Z.of_nat (length d) →
     bus_get s' = BusDone (ControlIn p t q v i (Z.of_nat (length b))) r d :: bus_get s →
     same_but_pid (usb_get s) (usb_get s') → Q (r, overwrite 0 (map Some d) b) (o, s')) →
  wp (ControlMessageIn p t q v i b) Q (o, s).
Proof.
  intros Hr Ho HQ. unfold ControlMessageIn. wp_step. eapply wp_host_run; [done..|].
  intros r d s' H1 (H2 & H3 & H4) H5 H6. wp_step. apply HQ; try done. lia.
Qed.
End Laws.

(** ** Little-endian integers *)

(** The integer of a list of bytes, least significant first. *)
Definition le_value (l : list Z) : Z := foldr (λ b v, b + 256 * v) 0 l.

Lemma le_bytes_length n v : length (le_bytes n v) = n.
Proof. unfold le_bytes. by rewrite length_map, length_seq. Qed.

Lemma le_bytes_u8 n v : Forall is_u8 (le_bytes n v).
Proof.
  unfold le_bytes. apply Forall_map, Forall_forall. intros i _. unfold field.
  rewrite Z.land_ones by lia. cint.
Qed.

Lemma le_bytes_S n v : le_bytes (S n) v = field 0 8 v :: le_bytes n (v / 256).
Proof.
  unfold le_bytes. simpl. f_equal. rewrite <- seq_shift, map_map. apply map_ext. intros i.
  unfold field. f_equal. rewrite Z.shiftr_div_pow2, (Z.shiftr_div_pow2 (v / 256)) by lia.
  replace (2 ^ (8 * Z.of_nat (S i))) with (256 * 2 ^ (8 * Z.of_nat i)).
  - rewrite Z.div_div by lia. done.
  - rewrite Nat2Z.inj_succ. replace (8 * Z.succ (Z.of_nat i)) with (8 + 8 * Z.of_nat i) by lia.
    rewrite Z.pow_add_r by lia. done.
Qed.

Lemma le_value_range l n : Forall is_u8 l → length l = n → 0 <= le_value l < 256 ^ Z.of_nat n.
Proof.
  revert n. induction l as [|v l IH]; intros n Hl <-; [simpl; lia|]. apply Forall_cons_1 in Hl as [Hv Hl].
  specialize (IH _ Hl eq_refl). unfold is_u8 in Hv. simpl length. rewrite Nat2Z.inj_succ, Z.pow_succ_r by lia.
  change (le_value (v :: l)) with (v + 256 * le_value l). nia.
Qed.

(** Writing an integer and reading it back. *)
Lemma le_value_bytes n v : 0 <= v < 256 ^ Z.of_nat n → le_value (le_bytes n v) = v.
Proof.
  revert v. induction n as [|n IH]; intros v Hv; [simpl in *; lia|].
  rewrite le_bytes_S. cbn [le_value foldr]. rewrite Nat2Z.inj_succ, Z.pow_succ_r in Hv by lia.
  change (foldr (λ b v : Z, b + 256 * v) 0 (le_bytes n (v / 256))) with (le_value (le_bytes n (v / 256))).
  rewrite IH by (split; [apply Z.div_pos|apply Z.div_lt_upper_bound]; lia).
  unfold field. rewrite Z.shiftr_0_r, Z.land_ones by lia. lia.
Qed.

Lemma map_Some_lookup {A} (d : list A) i v : d !! i = Some v → map Some d !! i = Some (Some v).
Proof. intros Hd. change (map Some d) with (Some <$> d). by rewrite list_lookup_fmap, Hd. Qed.

Section Read.
Context {St : Type}.

Lemma wp_buffer_bytes l (Q : list Z → St → Prop) s : Q l s → wp (buffer_bytes (map Some l)) Q s.
Proof.
  revert Q. induction l as [|x l IH]; intros Q HQ; simpl; [by wp_step|].
  wp_step. apply IH. by wp_step.
Qed.

Lemma wp_le16_at d i (Q : Z → St → Prop) s :
  (i + 2 <= length d)%nat → Q (le_value (take 2 (drop i d))) s → wp (le16_at (map Some d) i) Q s.
Proof.
  intros Hl HQ. destruct (lookup_lt_is_Some_2 d i) as [a Ha]; [lia|].
  destruct (lookup_lt_is_Some_2 d (i + 1)) as [b Hb]; [lia|].
  unfold le16_at. wp_step. eapply wp_cell_at; [by apply map_Some_lookup|].
  wp_step. eapply wp_cell_at; [by apply map_Some_lookup|]. wp_step.
  rewrite (drop_S _ _ _ Ha), <- (Nat.add_1_r i), (drop_S _ _ _ Hb) in HQ. simpl in HQ.
  by rewrite Z.mul_0_r, Z.add_0_r in HQ.
Qed.

Lemma wp_le32_at d i (Q : Z → St → Prop) s :
  (i + 4 <= length d)%nat → Q (le_value (take 4 (drop i d))) s → wp (le32_at (map Some d) i) Q s.
Proof.
  intros Hl HQ. unfold le32_at. wp_step. apply wp_le16_at; [lia|]. wp_step. apply wp_le16_at; [lia|].
  wp_step. replace (take 4 (drop i d)) with (take 2 (drop i d) ++ take 2 (drop (i + 2) d)) in HQ.
  - destruct (drop i d) as [|a [|b l]] eqn:E.
    1,2: apply (f_equal length) in E; rewrite length_drop in E; simpl in E; lia.
    simpl in *. replace (le_value (take 2 (drop (i + 2) d))) with (le_value (take 2 (drop (i + 2) d))) in HQ by done.
    rewrite !Z.mul_0_r, !Z.add_0_r. simpl in HQ.
    replace (a + 256 * b + 65536 * le_value (take 2 (drop (i + 2) d)))
      with (a + 256 * (b + 256 * le_value (take 2 (drop (i + 2) d)))) by lia. exact HQ.
  - rewrite <- drop_drop. by rewrite <- (take_take_drop _ 2 2).
Qed.
End Read.

(** ** Devices that answer as the standard says

    [Answers P]: every answer of the device satisfies [P]. Theorems ask for it
    where the code relies on the device. *)
Class Answers (St : Type) `{!UsbHost St} (P : bus_op → Z → list Z → Prop) :=
  answers_ok op (s : St) : wlp (host_run op) (λ x _, P op x.1 x.2) s.

#[export] Instance prod_answers {D St} `{!UsbHost St} P `{!Answers St P} : Answers (D * St) P.
Proof. intros op s. apply wlp_zoom. intros t _. eapply wlp_mono; [apply answers_ok|done]. Qed.

Section AnswerLaws.
Context {D St : Type} `{!UsbHost St} `{!UsbHostLaws St} `{!UsbHostRecovers St} P `{!Answers St P}.

Lemma wp_host_run_answers k op (Q : Z * list Z → D * St → Prop) o s :
  host_ready (S k) s → op_ok (usb_get s) op →
  (∀ r d s', host_ready k s' → result_ok op r d → P op r d → bus_get s' = BusDone op r d :: bus_get s →
     same_but_pid (usb_get s) (usb_get s') → Q (r, d) (o, s')) →
  wp (host_run op) Q (o, s).
Proof.
  intros Hr Ho HQ. eapply wp_told; [apply (answers_ok (P := P))|]. eapply wp_host_run; [done..|].
  intros r d s' H1 H2 H3 H4 H5. by apply HQ.
Qed.

Lemma wp_TransferIn_answers k p b (Q : Z * buffer → D * St → Prop) o s :
  host_ready (S k) s → op_ok (usb_get s) (BulkIn p (Z.of_nat (length b))) →
  (∀ r d s', host_ready k s' → Forall is_u8 d → (length d <= length b)%nat →
     r = -1 ∨ r = Z.of_nat (length d) → P (BulkIn p (Z.of_nat (length b))) r d →
     bus_get s' = BusDone (BulkIn p (Z.of_nat (length b))) r d :: bus_get s →
     same_but_pid (usb_get s) (usb_get s') → Q (r, overwrite 0 (map Some d) b) (o, s')) →
  wp (TransferIn p b) Q (o, s).
Proof.
  intros Hr Ho HQ. unfold TransferIn. wp_step. eapply wp_host_run_answers; [done..|].
  intros r d s' H1 (H2 & H3 & H4) H5 H6 H7. wp_step. apply HQ; try done. lia.
Qed.

Lemma wp_ControlMessageIn_answers k p t q v i b (Q : Z * buffer → D * St → Prop) o s :
  host_ready (S k) s → op_ok (usb_get s) (ControlIn p t q v i (Z.of_nat (length b))) →
  (∀ r d s', host_ready k s' → Forall is_u8 d → (length d <= length b)%nat →
     r = -1 ∨ r = Z.of_nat (length d) → P (ControlIn p t q v i (Z.of_nat (length b))) r d →
     bus_get s' = BusDone (ControlIn p t q v i (Z.of_nat (length b))) r d :: bus_get s →
     same_but_pid (usb_get s) (usb_get s') → Q (r, overwrite 0 (map Some d) b) (o, s')) →
  wp (ControlMessageIn p t q v i b) Q (o, s).
Proof.
  intros Hr Ho HQ. unfold ControlMessageIn. wp_step. eapply wp_host_run_answers; [done..|].
  intros r d s' H1 (H2 & H3 & H4) H5 H6 H7. wp_step. apply HQ; try done. lia.
Qed.
End AnswerLaws.
