(* ===== verification/DwhciHost.v ===== *)
(** * The host controller driver keeps the drivers' contract

    The interface [UsbHost] is what function drivers are proved against; here
    the driver of [DwhciXfer] is shown to keep it, so that what is proved of a
    function driver holds on top of the host controller driver. *)
From S2P Require Import Prelude Register Sync FrameSched Endpoint StageData HostState.
From S2P Require Import ChanRegs DwhciCore DwhciXfer DwhciStage DwhciControl UsbBus.

(** The driver's world and the history of requests. The bytes themselves travel
    by DMA, which is the controller's work. *)
Record HostWorld := { hw_world : W; hw_events : list bus_event }.
#[global] Instance HostWorld_eta : Eta HostWorld := λ s,
  {| hw_world := hw_world s; hw_events := hw_events s |}.

#[export] Instance HostWorld_usb : HasUsb HostWorld :=
  {| usb_get s := w_usb (hw_world s);
     usb_put u s := s <| hw_world := (hw_world s) <| w_usb := u |> |> |}.
#[export] Instance HostWorld_bus : HasBus HostWorld :=
  {| bus_get := hw_events; bus_put h s := s <| hw_events := h |> |}.

(** ** Frames

    Below high speed a transaction waits for the next frame to begin. *)
Section Frames.
Context `{HW : Hardware}.

Definition frame_of (v : Z) : Z := Z.land (DWHCI_HOST_FRM_NUM_NUMBER v) DWHCI_MAX_FRAME_NUMBER.

(** Polling the frame counter [spin] times sees the next frame. *)
Definition frames_advance (spin : nat) : Prop := ∀ h : list event, ∃ k, (k < spin)%nat ∧
  frame_of (nth_read (S k) DWHCI_HOST_FRM_NUM h) =
  Z.land (DWHCI_HOST_FRM_NUM_NUMBER (nth_read 0 DWHCI_HOST_FRM_NUM h) + 1) DWHCI_MAX_FRAME_NUMBER.

Lemma first_such (f : nat → bool) k : f k = true → ∃ j, (j <= k)%nat ∧ f j = true ∧ ∀ i, (i < j)%nat → f i = false.
Proof.
  induction k as [k IH] using lt_wf_ind. intros Hk.
  destruct (decide (Exists (λ i, f i = true) (seq 0 k))) as [Hex|Hno].
  - apply list.Exists_exists in Hex as (i & Hi & Hf). apply elem_of_seq in Hi.
    destruct (IH i ltac:(lia) Hf) as (j & Hj & Hr). exists j. split; [lia|done].
  - exists k. split; [done|]. split; [done|]. intros i Hi. destruct (f i) eqn:E; [|done]. exfalso.
    apply Hno, list.Exists_exists. exists i. split; [apply elem_of_seq; lia|done].
Qed.

Lemma reads_events k a h : ∃ new, Forall is_read new ∧ reads k a h = new ++ h.
Proof.
  revert h. induction k as [|k IH]; intros h; [by exists []|]. simpl.
  destruct (IH (EvRead a (u32 (hw_read h a)) :: h)) as (new & Hn & ->).
  exists (new ++ [EvRead a (u32 (hw_read h a))]). split; [|by rewrite <- app_assoc].
  apply Forall_app. split; [done|]. constructor; [by do 2 eexists|done].
Qed.

Lemma nosplit_frame_found spin sd :
  frames_advance spin →
  DWHCITransferStageDataGetFrameScheduler sd = Some (FSNoSplit (NoSplit.DWHCIFrameSchedulerNoSplit false)) →
  frame_found spin sd.
Proof.
  intros Hadv Hsd p Hp w. rewrite Hp in Hsd. injection Hsd as ->.
  set (h := w_trace w). destruct (Hadv h) as (k & Hk & Hhit).
  set (next := Z.land (DWHCI_HOST_FRM_NUM_NUMBER (nth_read 0 DWHCI_HOST_FRM_NUM h) + 1) DWHCI_MAX_FRAME_NUMBER) in *.
  destruct (first_such (λ j, frame_of (nth_read (S j) DWHCI_HOST_FRM_NUM h) =? next) k) as (j & Hj & Hf & Hmiss);
    [by apply Z.eqb_eq|].
  unfold WaitForFrame, NoSplit.WaitForFrame. wp_step. wp_step. apply wp_RegRead. cbv zeta.
  cbn [m_nAddress m_nBuffer DWHCIRegister NoSplit.m_bIsPeriodic NoSplit.DWHCIFrameSchedulerNoSplit upd negb].
  wp_step. wp_step. set (s1 := record _ w). unfold wp at 1.
  rewrite (poll_reg_ok _ _ _ j); [|lia|exact Hf|exact Hmiss]. do 3 wp_step.
  destruct (reads_events (S j) DWHCI_HOST_FRM_NUM (w_trace s1)) as (new & Hn & E).
  exists (new ++ [EvRead DWHCI_HOST_FRM_NUM (u32 (hw_read h DWHCI_HOST_FRM_NUM))]). split.
  - apply Forall_app. split; [done|]. constructor; [by do 2 eexists|done].
  - change (mmio_put (reads (S j) DWHCI_HOST_FRM_NUM (w_trace s1)) s1 =
      w <| w_trace := (new ++ [EvRead DWHCI_HOST_FRM_NUM (u32 (hw_read h DWHCI_HOST_FRM_NUM))]) ++ w_trace w |>).
    rewrite E, <- app_assoc. done.
Qed.
End Frames.

Section Host.
Context `{HW : Hardware} `{LA : Layout} `{!LayoutLaws}.
Context (spin : nat) (client : Z → Z → Z → Z → M W unit).

(** The caller's buffer, and what the controller has put there: the byte at a
    place, by the history. *)
Context (pBuffer : Z) (dma : list bus_event → bus_op → nat → Z).

(** The call of a request. *)
Definition host_call (op : bus_op) : M W Z :=
  match op with
  | BulkOut p l => DWHCIDeviceTransfer spin client p pBuffer (Z.of_nat (length l))
  | BulkIn p n => DWHCIDeviceTransfer spin client p pBuffer n
  | ControlOut p t q v i l =>
      DWHCIDeviceControlMessage spin client p t q v i pBuffer (Z.of_nat (length l))
  | ControlIn p t q v i n => DWHCIDeviceControlMessage spin client p t q v i pBuffer n
  end.

Definition op_in (op : bus_op) : bool :=
  match op with BulkIn _ _ | ControlIn _ _ _ _ _ _ => true | _ => false end.

Definition incoming (h : list bus_event) (op : bus_op) (r : Z) : list Z :=
  if op_in op then map (λ i, u8 (dma h op i)) (seq 0 (Z.to_nat r)) else [].

Definition driver_run (op : bus_op) : M HostWorld (Z * list Z) :=
  r ← zoom (λ s, Some (hw_world s)) (λ w s, s <| hw_world := w |>) (host_call op);
  h ← gets hw_events;
  let d := incoming h op r in
  modify (λ s, s <| hw_events := BusDone op r d :: h |>) ;; mret (r, d).

(** The driver at rest, with three interrupts to come for each request. *)
Definition driver_idle (n : Z) (k : nat) (s : HostWorld) : Prop :=
  at_rest n (hw_world s) ∧ ∃ j, w_env (hw_world s) = replicate (3 * k + j) EnvInterrupt.

(** Devices that need no split transactions: high-speed ones, and if the frame
    counter runs those of any speed on the root port. *)
Definition served (d : TUSBDevice) : Prop :=
  needs_split d = false ∧ (m_Speed d = USBSpeedHigh ∨ frames_advance spin).

Definition driver_ready (n : Z) (k : nat) (s : HostWorld) : Prop :=
  driver_idle n k s ∧ objects_ok served (usb_get s).

Definition driver_host (n : Z) : UsbHost HostWorld :=
  {| host_usb := HostWorld_usb; host_bus := HostWorld_bus;
     host_run := driver_run; host_idle := driver_idle n; host_serves := served |}.

(** A controller that ends its transactions, each with a status and a size of
    its own; a setup packet that is acknowledged was sent as a whole. *)
Context (n : Z) (sts szs : list transaction → Z) (HA : hw_answers n sts szs).
Context (Hends : ends_transactions sts szs).
Context (Hsetup : ∀ x l, tr_pid x = 3 → failed (sts (x :: l)) = false → bytes_left (szs (x :: l)) = 0).
Context (Hbuf : aligned pBuffer).

Lemma at_rest_usb w u : at_rest n w → at_rest n (w <| w_usb := u |>).
Proof. by intros [[] ? ?]. Qed.

Lemma objects_target u p e :
  objects_ok served u → endpoints u !! p = Some e →
  m_Type e = EndpointTypeBulk ∨ m_Type e = EndpointTypeControl → is_Some (devices u !! m_pDevice e) →
  m_pDevice e ≠ 0 ∧ ∃ d, devices u !! m_pDevice e = Some d ∧ target_ok spin e d.
Proof.
  intros [Hd He] Hp Ht [d H2]. destruct (He p e Hp Ht) as (H1 & H3 & _). split; [done|].
  exists d. split; [done|]. destruct (Hd _ _ H2) as [Hns Hs].
  assert (is_periodic e = false) as Hper by (unfold is_periodic; by destruct Ht as [-> | ->]).
  split; try done. intros sd Hsd. unfold scheduler_for in Hsd. rewrite Hns, Hper in Hsd.
  destruct ((m_ucHubAddress d =? 0) && negb (bool_decide (m_Speed d = USBSpeedHigh))) eqn:E.
  - destruct Hs as [Hs|Hs]; [|by apply nosplit_frame_found].
    by rewrite Hs, andb_false_r in E.
  - intros q Hq. by rewrite Hq in Hsd.
Qed.

Lemma incoming_ok h op r : result_ok op r (incoming h op r) ↔ 
  match op with
  | BulkOut _ l => r = -1 ∨ 0 <= r <= Z.of_nat (length l)
  | ControlOut _ _ _ _ _ l => r = -1 ∨ if decide (l = []) then r = 8 else 0 <= r <= Z.of_nat (length l)
  | BulkIn _ n | ControlIn _ _ _ _ _ n => Z.of_nat (Z.to_nat r) <= n ∧ (r = -1 ∨ 0 <= r)
  end.
Proof.
  assert (Forall is_u8 (incoming h op r)) as Hu.
  { unfold incoming. destruct (op_in op); [|constructor].
    apply Forall_map, Forall_forall. intros i _. apply u8_range. }
  unfold result_ok. destruct op; simpl in *; unfold incoming in *; simpl in *;
    rewrite ?length_map, ?length_seq; intuition lia.
Qed.

(** What came of a call, on the controller's side: its transactions, of which
    the last decides whether it failed. *)
Definition call_outcome (op : bus_op) (r : Z) (w w' : W) : Prop :=
  ∃ l, transactions n (w_trace w') = l ++ transactions n (w_trace w) ∧
    (if op_control op then (1 <= length l <= 3)%nat else length l = 1%nat) ∧
    (r = -1 ↔ failed (sts (transactions n (w_trace w'))) = true).

(** How a message ends, as the interface sees it. *)
Lemma message_end_outcome e d bIn len l0 l pid r :
  message_end sts szs e d bIn len l0 l pid r →
  (1 <= length l <= 3)%nat ∧ (r = -1 ↔ failed (sts (l ++ l0)) = true) ∧
  (r ≠ -1 → pid = USBPIDSetup) ∧ (r = -1 ∨ if len =? 0 then r = 8 else 0 <= r <= len).
Proof.
  intros Hend.
  assert (∀ x1, setup_stage x1 e d → failed (sts (x1 :: l0)) = false → bytes_left (szs (x1 :: l0)) = 0) as H8
    by (intros x1 [Hp _] Hf; by apply Hsetup).
  assert (∀ x1 x2, data_stage x2 bIn len e d → 0 < len → 0 <= bytes_left (szs (x2 :: x1 :: l0)) <= len) as Hb.
  { intros x1 x2 (_ & Hx & _) Hl. pose proof (et_bytes _ _ Hends x2 (x1 :: l0)) as Hb. rewrite Hx in Hb.
    specialize (Hb ltac:(apply Z.mod_pos_bound; lia)). pose proof (Z.mod_le len (2 ^ 19)). lia. }
  destruct Hend as [x1 S1 F1|x1 x2 Hl S1 F1 S2 F2|x1 x2 Hl S1 F1 S2 F2|x1 x2 Hl S1 F1 S2 F2
    |x1 x2 x3 Hl S1 F1 S2 F2 S3 F3|x1 x2 x3 Hl S1 F1 S2 F2 S3 F3]; cbn [length app].
  1,2,3,5: by (split; [lia|]; split; [done|]; split; [done|left]).
  - rewrite (H8 x1 S1 F1), F2. split; [lia|]. split; [done|]. split; [done|]. right. by rewrite Hl.
  - specialize (Hb x1 x2 S2 Hl). rewrite F3. split; [lia|]. split; [split; [lia|done]|]. split; [done|]. right.
    rewrite (proj2 (Z.eqb_neq _ _)) by lia. lia.
Qed.

(** Only setup packets are refused: then a failed message left its endpoint
    alone. *)
Lemma message_end_refused e d bIn len l0 l pid r :
  (∀ x l, failed (sts (x :: l)) = true → tr_pid x = 3) →
  message_end sts szs e d bIn len l0 l pid r → r = -1 → pid = USBPIDSetup.
Proof.
  intros Href Hend Hr.
  destruct Hend as [x1 S1 F1|x1 x2 Hl S1 F1 [E _] F2|x1 x2 Hl S1 F1 [E _] F2|x1 x2 Hl S1 F1 S2 F2
    |x1 x2 x3 Hl S1 F1 S2 F2 [E _] F3|x1 x2 x3 Hl S1 F1 S2 F2 S3 F3]; try done; [apply Href in F2|apply Href in F2|apply Href in F3]; congruence.
Qed.

(** The call, by the type of the endpoint. *)
Lemma wp_host_call op j (Q : Z → W → Prop) w :
  at_rest n w → objects_ok served (w_usb w) → op_ok (w_usb w) op →
  w_env w = replicate (3 + j) EnvInterrupt →
  (∀ w' i r, at_rest n w' → (j <= i)%nat → w_env w' = replicate i EnvInterrupt →
     pid_moved op r (w_usb w) (w_usb w') → call_outcome op r w w' →
     (op_control op = true → (∀ x l, failed (sts (x :: l)) = true → tr_pid x = 3) → r = -1 → w_usb w' = w_usb w) →
     (r = -1 ∨ if op_control op && (op_length op =? 0) then r = 8 else 0 <= r <= op_length op) → Q r w') →
  wp (host_call op) Q w.
Proof.
  intros Hrest Hobj [H0 (e & He & Hty & Hm & Hdev) Hlen] Henv HQ.
  destruct (objects_target _ _ _ Hobj He) as (Hd0 & d & Hd & Htg); [|done|].
  { rewrite Hty. destruct (op_control op); auto. }
  pose proof Hobj as [_ Hep]. specialize (Hep _ _ He).
  assert (m_NextPID e = USBPIDSetup ↔ m_Type e = EndpointTypeControl) as Hpid.
  { apply Hep. rewrite Hty. destruct (op_control op); auto. }
  assert (∀ p size, op_endpoint op = p → op_control op = false → op_length op = size →
    0 < size < 2 ^ 31 → wp (DWHCIDeviceTransfer spin client p pBuffer size) Q w) as Hbulk.
  { intros p size <- Hc Hs Hr. unfold call_outcome, pid_moved in HQ. rewrite Hc in Hty, HQ. rewrite Hs in HQ.
    assert (data_pid (m_NextPID e)) as Hdp by (intros Ex; apply Hpid in Ex; congruence).
    eapply (wp_Transfer spin client n sts szs HA Hends _ e d); [done..|exact Henv|].
    intros w' x pid r l Hl Hmv Hres Hu Henv' Hrest' _ _.
    assert ((r = -1 ↔ failed (sts l) = true) ∧ pid ≠ USBPIDSetup ∧ (r = -1 ∨ 0 <= r <= size)) as (Hf & Hpd & Hrng).
    { destruct (failed (sts l)).
      - destruct Hres as [-> ->]. split; [done|]. split; [done|by left].
      - destruct Hres as (_ & Hr0 & -> & Hk). split; [split; [lia|done]|]. split; [|by right].
        rewrite alternate_odd by (done || lia). unfold data_pid in Hdp. by destruct (Z.odd _), (m_NextPID e). }
    apply (HQ w' (2 + j)%nat); [done|lia|done| | |done|exact Hrng].
    - by exists e, pid.
    - exists [x]. split; [done|]. split; [done|]. by rewrite Hl. }
  assert (∀ p t q v i size, op_endpoint op = p → op_control op = true → op_length op = size →
    0 <= size < 65536 → (truthy (Z.land t REQUEST_IN) = true → 0 < size) →
    wp (DWHCIDeviceControlMessage spin client p t q v i pBuffer size) Q w) as Hcontrol.
  { intros p t q v i size <- Hc Hs Hr Hin. unfold call_outcome, pid_moved in HQ. rewrite Hc in Hty, HQ. rewrite Hs in HQ.
    assert (stage_total size <= 3)%nat as Htot by (unfold stage_total; destruct (size =? 0); lia).
    eapply (wp_ControlMessage spin client n sts szs HA Hends _ e d _ _ _ _ _ _
              (replicate (3 - stage_total size + j) EnvInterrupt));
      [done|done|done|done|done|done|done|by apply Hpid|done|done|done| |].
    - rewrite Henv, <- replicate_add. f_equal. lia.
    - intros w' l pid r Hend Hl Hu Henv' Hrest' _ _ Hrng.
      destruct (message_end_outcome _ _ _ _ _ _ _ _ Hend) as (L1 & L2 & L3 & L4).
      apply (HQ w' (stage_total size - length l + (3 - stage_total size + j))%nat r); [done|lia|rewrite Henv'; symmetry; apply replicate_add| | | |done].
      + by exists e, pid.
      + exists l. split; [done|]. split; [done|]. by rewrite Hl.
      + intros _ Href E. rewrite Hu. apply upd_endpoint_id. rewrite He. f_equal.
        rewrite (message_end_refused _ _ _ _ _ _ _ _ Href Hend E). apply Hpid in Hty. destruct e. simpl in *. by subst. }
  destruct op; simpl in Hlen |- *; [by apply Hbulk..| |]; destruct Hlen as [Hl Ht];
    apply Hcontrol; try done; try lia; by rewrite Ht.
Qed.

(** A request of a function driver, on top of the host controller driver. *)
Lemma wp_driver_run k op s :
  driver_ready n (S k) s → op_ok (usb_get s) op →
  wp (driver_run op) (λ '(r, d) s', driver_idle n k s' ∧ result_ok op r d ∧
    bus_get s' = BusDone op r d :: bus_get s ∧ pid_moved op r (usb_get s) (usb_get s') ∧
    call_outcome op r (hw_world s) (hw_world s') ∧
    (op_control op = true → (∀ x l, failed (sts (x :: l)) = true → tr_pid x = 3) → r = -1 →
     usb_get s' = usb_get s)) s.
Proof.
  intros [[Hrest [j Henv]] Hobj] Hop. unfold driver_run. wp_step. eapply wp_zoom; [done|].
  eapply (wp_host_call op (3 * k + j)); [exact Hrest|exact Hobj|exact Hop| |].
  { rewrite Henv. f_equal. lia. }
  intros w' i r Hr' Hi He Hpm Hout Href Hres. wp_step. wp_step. wp_step. wp_step. wp_step.
  split; [|split; [|split; [done|split; [exact Hpm|split; [exact Hout|exact Href]]]]].
  - split; [exact Hr'|]. exists (i - 3 * k)%nat. simpl. rewrite He. f_equal. lia.
  - apply incoming_ok. destruct Hop as [_ _ Hl].
    destruct op; simpl in *; try lia.
    + destruct Hres as [-> |Hres]; [by left|]. right. destruct data; [done|]. simpl in *. lia.
    + destruct (Z.eqb_spec usDataSize 0); lia.
Qed.

Lemma driver_host_laws : UsbHostLaws HostWorld (UsbHost0 := driver_host n).
Proof.
  split; try done.
  - intros k k' s Hk [H1 [j Hj]]. split; [done|]. exists (3 * (k - k') + j)%nat.
    rewrite Hj. f_equal. lia.
  - intros k u s [H1 H2]. split; [by apply at_rest_usb|done].
  - intros k op s Hr Hop. eapply wp_mono; [exact (wp_driver_run k op s Hr Hop)|].
    intros [r d] s' (H1 & H2 & H3 & H4 & _). by split_and!.
Qed.

Lemma driver_host_recovers :
  (∀ x l, failed (sts (x :: l)) = true → tr_pid x = 3) → UsbHostRecovers HostWorld (UsbHost0 := driver_host n).
Proof.
  intros Href k op s Hr Hop Hc. pose proof (wp_driver_run k op s Hr Hop) as Hrun. unfold wp, wlp in *.
  change (@host_run HostWorld (driver_host n) op) with (driver_run op) in *.
  destruct (driver_run op s) as [[[r d] s']|]; [|done]. simpl. by apply Hrun.
Qed.

(** C4. The host controller driver implements the interface the function drivers
    are proved against, for every controller that ends its transactions with
    whatever status and size. At rest, with interrupts enough to come and the
    endpoints in the state between two requests, it answers every request the
    interface admits for a device that needs no split transactions: blocking,
    without a fault, with a result and incoming bytes the interface allows,
    entered as the newest of the history. A bulk transfer is one transaction, a
    message one to three; the result is -1 exactly when the controller reports
    an error for the last of them. The driver is at rest again, and of the
    objects only the endpoint's pid has moved: a data pid stays one, and a
    message that succeeds leaves SETUP. A message that fails leaves it too, as
    function drivers need to go on with the endpoint, if the controller refuses
    nothing but setup packets. *)
Theorem driver_refines_host :
  UsbHostLaws HostWorld (UsbHost0 := driver_host n) ∧
  ((∀ x l, failed (sts (x :: l)) = true → tr_pid x = 3) →
   UsbHostRecovers HostWorld (UsbHost0 := driver_host n)) ∧
  ∀ k op s, driver_ready n (S k) s → op_ok (usb_get s) op →
    wp (driver_run op) (λ '(r, d) s', driver_idle n k s' ∧ result_ok op r d ∧
      bus_get s' = BusDone op r d :: bus_get s ∧ pid_moved op r (usb_get s) (usb_get s') ∧
      call_outcome op r (hw_world s) (hw_world s')) s.
Proof.
  split; [exact driver_host_laws|]. split; [exact driver_host_recovers|].
  intros k op s Hr Hop. eapply wp_mono; [by apply (wp_driver_run k)|].
  intros [r d] s' (H1 & H2 & H3 & H4 & H5 & _). by split_and!.
Qed.
End Host.

(** ** A concrete driver *)

Module HostDemo.
Import Demo StageDemo.

Definition host_world : HostWorld := {| hw_world := world 3; hw_events := [] |}.
Definition buffer_address : Z := 0x300000.
Definition zeros (_ : list bus_event) (_ : bus_op) (_ : nat) : Z := 0.

Lemma world_objects : objects_ok (served (HW := works) 0) (w_usb (world 3)).
Proof.
  split.
  - intros p d Hp. simpl in Hp. apply lookup_singleton_Some in Hp as [_ <-]. split; [done|by left].
  - intros p e Hp _. simpl in Hp. apply lookup_singleton_Some in Hp as [_ <-].
    split; [done|]. split; [simpl; lia|done].
Qed.

(** A controller that refuses setup packets. *)
Definition refuse_status (l : list transaction) : Z :=
  match l with x :: _ => if tr_pid x =? 3 then 0x0A else 0x23 | [] => 0x23 end.
Definition refuses : Hardware :=
  {| hw_read h a := regs (refuse_status (transactions 0 h)) a; hw_power_on _ _ := true |}.
Lemma refuse_cases l : refuse_status l = 0x0A ∨ refuse_status l = 0x23.
Proof. destruct l as [|x l]; simpl; [by right|]. destruct (tr_pid x =? 3); auto. Qed.
Lemma refuses_answers : hw_answers (HW := refuses) 0 refuse_status (λ _, 0).
Proof.
  constructor; intros h; try done. simpl. unfold regs. simpl. by destruct (refuse_cases (transactions 0 h)) as [-> | ->].
Qed.
Lemma refuses_ends : ends_transactions refuse_status (λ _, 0).
Proof.
  split; intros x l; [by destruct (refuse_cases (x :: l)) as [-> | ->]
    |change (packets_left _) with 0; lia|change (bytes_left _) with 0; lia].
Qed.
Lemma refuses_setups x l : failed (refuse_status (x :: l)) = true → tr_pid x = 3.
Proof. unfold refuse_status. by destruct (Z.eqb_spec (tr_pid x) 3). Qed.

(** GET_DESCRIPTOR through the interface. *)
Lemma driver_refines_host_witness :
  UsbHostRecovers HostWorld (UsbHost0 := driver_host (HW := refuses) 0 no_client buffer_address zeros 0) ∧
  wp (driver_run (HW := refuses) 0 no_client buffer_address zeros
        (ControlIn 2 REQUEST_IN GET_DESCRIPTOR 0x100 0 18))
    (λ '(r, d) s', result_ok (ControlIn 2 REQUEST_IN GET_DESCRIPTOR 0x100 0 18) r d ∧
      hw_events s' = [BusDone (ControlIn 2 REQUEST_IN GET_DESCRIPTOR 0x100 0 18) r d] ∧ at_rest 0 (hw_world s'))
    host_world.
Proof.
  destruct (driver_refines_host (HW := refuses) 0 no_client buffer_address zeros 0 refuse_status (λ _, 0)
      refuses_answers refuses_ends (λ _ _ _ _, eq_refl) ltac:(done)) as (_ & Hrec & Hrun).
  split; [exact (Hrec refuses_setups)|].
  eapply wp_mono; [apply (Hrun 0%nat)|].
  - split; [|exact world_objects]. split; [exact (world_at_rest 3)|]. by exists 0%nat.
  - split; [done| |simpl; split; [lia|done]]. exists ep0. split; [done|]. split; [done|]. split; [simpl; lia|by eexists].
  - intros [r d] s' ([H1 _] & H2 & H3 & _). split; [exact H2|]. split; [exact H3|exact H1].
Defined.
End HostDemo.
