(* ===== verification/UsbFunction.v ===== *)
(** * lib/usbfunction.c: the part of a device one driver serves

    A function is an interface of a device with the drivers' view of its
    descriptors: a copy of the device's configuration parser that stands behind
    the interface descriptor. A descriptor pointer is an offset into the
    configuration (see [ConfigParser]). *)
From S2P Require Import Prelude CMem Endpoint ConfigParser UsbBus CString.

(** ** Definitions *)

(** The virtual method [Configure], by the driver it belongs to. *)
Inductive TConfigure :=
  | NoConfigure
  | USBFunctionConfigure_
  | USBStandardHubConfigure_
  | USBBulkOnlyMassStorageDeviceConfigure_
  | USBKeyboardDeviceConfigure_
  | USBMouseDeviceConfigure_
  | USBGamePadDeviceConfigure_
  | USBMIDIDeviceConfigure_
  | SMSC951xDeviceConfigure_
  | LAN7800DeviceConfigure_.
#[export] Instance TConfigure_eq_dec : EqDecision TConfigure.
Proof. solve_decision. Defined.

Record TUSBFunction := {
  Configure : TConfigure;
  fn_pDevice : Z;
  fn_pConfigParser : option TUSBConfigurationParser;
  m_pInterfaceDesc : option nat
}.
#[global] Instance TUSBFunction_eta : Eta TUSBFunction := λ f,
  {| Configure := Configure f; fn_pDevice := fn_pDevice f;
     fn_pConfigParser := fn_pConfigParser f; m_pInterfaceDesc := m_pInterfaceDesc f |}.

(** Offsets of the fields of an interface descriptor. *)
Definition off_bInterfaceNumber : nat := 2.
Definition off_bAlternateSetting : nat := 3.
Definition off_bNumEndpoints : nat := 4.
Definition off_bInterfaceClass : nat := 5.
Definition off_bInterfaceSubClass : nat := 6.
Definition off_bInterfaceProtocol : nat := 7.

Section Function.
Context {St : Type}.
Implicit Types (pThis : TUSBFunction).

(** The parser behind a pointer that an assertion checks. *)
Definition parser_of pThis : M St TUSBConfigurationParser :=
  match fn_pConfigParser pThis with Some p => mret p | None => fail AssertFailed end.
Definition interface_of pThis : M St nat :=
  match m_pInterfaceDesc pThis with Some o => mret o | None => fail AssertFailed end.

(** A call of the parser's code on a parser. *)
Definition on_parser {A} (m : M TUSBConfigurationParser A) (p : TUSBConfigurationParser)
    : M St (A * TUSBConfigurationParser) :=
  λ s, match m p with Ok (a, p') => Ok ((a, p'), s) | Err f => Err f end.

(** [pThis->m_pInterfaceDesc->...] *)
Definition interface_byte pThis (off : nat) : M St Z :=
  o ← interface_of pThis;
  p ← parser_of pThis;
  '(v, _) ← on_parser (byte_at (o + off)) p;
  mret v.

Definition USBFunction (pDevice : Z) (pConfigParser : option TUSBConfigurationParser)
    : M St TUSBFunction :=
  c_assert (negb (pDevice =? 0)) ;;
  p ← (match pConfigParser with Some p => mret p | None => fail AssertFailed end);
  let p := USBConfigurationParserCopy p in
  '(o, p) ← on_parser USBConfigurationParserGetCurrentDescriptor p;
  mret {| Configure := NoConfigure; fn_pDevice := pDevice; fn_pConfigParser := Some p;
          m_pInterfaceDesc := Some o |}.

Definition USBFunctionCopy (pFunction : TUSBFunction) : M St TUSBFunction :=
  c_assert (negb (fn_pDevice pFunction =? 0)) ;;
  p ← parser_of pFunction;
  let p := USBConfigurationParserCopy p in
  '(o, p) ← on_parser USBConfigurationParserGetCurrentDescriptor p;
  mret {| Configure := Configure pFunction; fn_pDevice := fn_pDevice pFunction;
          fn_pConfigParser := Some p; m_pInterfaceDesc := Some o |}.

Definition _USBFunction pThis : M St TUSBFunction :=
  p ← parser_of pThis;
  let _ := _USBConfigurationParser p in
  mret {| Configure := NoConfigure; fn_pDevice := 0; fn_pConfigParser := None;
          m_pInterfaceDesc := None |}.

Definition USBFunctionGetNumEndpoints pThis : M St Z := interface_byte pThis off_bNumEndpoints.
Definition USBFunctionGetDevice pThis : M St Z :=
  c_assert (negb (fn_pDevice pThis =? 0)) ;; mret (fn_pDevice pThis).
Definition USBFunctionGetInterfaceNumber pThis : M St Z :=
  interface_byte pThis off_bInterfaceNumber.
Definition USBFunctionGetInterfaceClass pThis : M St Z := interface_byte pThis off_bInterfaceClass.
Definition USBFunctionGetInterfaceSubClass pThis : M St Z :=
  interface_byte pThis off_bInterfaceSubClass.
Definition USBFunctionGetInterfaceProtocol pThis : M St Z :=
  interface_byte pThis off_bInterfaceProtocol.

(** The next descriptor of a type; the function's parser moves on. *)
Definition USBFunctionGetDescriptor pThis (ucType : Z) : M St (option nat * TUSBFunction) :=
  p ← parser_of pThis;
  '(r, p) ← on_parser (USBConfigurationParserGetDescriptor ucType) p;
  mret (r, pThis <| fn_pConfigParser := Some p |>).

(** It logs where the parser stands. *)
Definition USBFunctionConfigurationError pThis : M St unit :=
  parser_of pThis ;; mret tt.

(** The endpoint descriptor at an offset, as [USBEndpoint2] reads it. *)
Definition endpoint_descriptor pThis (o : nat) : M St TUSBEndpointDescriptor :=
  p ← parser_of pThis;
  '(d, _) ← on_parser
    (len ← byte_at o; ty ← byte_at (o + 1); addr ← byte_at (o + 2); attr ← byte_at (o + 3);
     lo ← byte_at (o + 4); hi ← byte_at (o + 5); iv ← byte_at (o + 6);
     mret {| bLength := len; bDescriptorType := ty; bEndpointAddress := addr;
             bmAttributes := attr; wMaxPacketSize := lo + 256 * hi; bInterval := iv |}) p;
  mret d.

(** The interface's name: a string of its own ("unknown" where the class says
    nothing), with the characters that [StringFormat] writes for
    "int%x-%x-%x" ([string_format_correct]). *)
Definition unknown : list Z := [117; 110; 107; 110; 111; 119; 110].
Definition dash : list Z := [45].
Definition USBFunctionGetInterfaceName pThis : M St (list Z) :=
  match m_pInterfaceDesc pThis with
  | None => mret unknown
  | Some _ =>
      c ← interface_byte pThis off_bInterfaceClass;
      if (c =? 0x00) || (c =? 0xFF) then mret unknown
      else
        sc ← interface_byte pThis off_bInterfaceSubClass;
        pr ← interface_byte pThis off_bInterfaceProtocol;
        mret ([105; 110; 116] ++ numeral false 16 c ++ dash ++ numeral false 16 sc ++ dash
              ++ numeral false 16 pr)
  end.

(** [USBFunctionSelectInterfaceByClass]: a driver that was found by the
    device's ids looks for its interface. The device's own parser is moved on
    with the function's ([USBDeviceGetDescriptor]). Every turn passes an
    interface descriptor, so the bytes of the configuration are enough fuel. *)
Fixpoint select_loop (USBDeviceGetDescriptor : Z → Z → M St (option nat)) (fuel : nat)
    pThis (uchClass uchSubClass uchProtocol : Z) : M St (bool * TUSBFunction) :=
  match fuel with
  | O => fail OutOfFuel
  | S fuel =>
      c ← interface_byte pThis off_bInterfaceClass;
      ok ← (if c =? uchClass then
              sc ← interface_byte pThis off_bInterfaceSubClass;
              if sc =? uchSubClass then
                pr ← interface_byte pThis off_bInterfaceProtocol; mret (pr =? uchProtocol)
              else mret false
            else mret false);
      if ok : bool then mret (true, pThis)
      else
        USBDeviceGetDescriptor (fn_pDevice pThis) DESCRIPTOR_INTERFACE ;;
        '(o, pThis) ← USBFunctionGetDescriptor pThis DESCRIPTOR_INTERFACE;
        let pThis := pThis <| m_pInterfaceDesc := o |> in
        match o with
        | None => mret (false, pThis)
        | Some _ => select_loop USBDeviceGetDescriptor fuel pThis uchClass uchSubClass uchProtocol
        end
  end.

Definition USBFunctionSelectInterfaceByClass (USBDeviceGetDescriptor : Z → Z → M St (option nat))
    pThis (uchClass uchSubClass uchProtocol : Z) : M St (bool * TUSBFunction) :=
  interface_of pThis ;;
  p ← parser_of pThis;
  c_assert (negb (fn_pDevice pThis =? 0)) ;;
  select_loop USBDeviceGetDescriptor (S (m_pEndPosition p)) pThis uchClass uchSubClass uchProtocol.
End Function.

Section Configure.
Context {St : Type} `{!UsbHost St}.
Implicit Types (pThis : TUSBFunction).

(** [malloc] of an endpoint, and [free]. *)
Definition endpoint_new (e : TUSBEndpoint) : M St Z :=
  u ← gets usb_get;
  let p := fresh_key (endpoints u) in
  endpoint_set p e ;; mret p.
Definition endpoint_free (p : Z) : M St unit :=
  modify (λ w, usb_put ((usb_get w) <| endpoints := delete p (endpoints (usb_get w)) |>) w).

Definition USBFunctionGetEndpoint0 pThis : M St Z :=
  c_assert (negb (fn_pDevice pThis =? 0)) ;;
  d ← device_at (fn_pDevice pThis);
  c_assert (negb (m_pEndpoint0 d =? 0)) ;;
  mret (m_pEndpoint0 d).

(** [malloc] and [USBEndpoint2] for the descriptor at [o]. *)
Definition endpoint_from pThis (o : nat) : M St Z :=
  dev ← USBFunctionGetDevice pThis;
  d ← device_at dev;
  desc ← endpoint_descriptor pThis o;
  e ← USBEndpoint2 dev (USBDeviceGetSpeed d) desc;
  endpoint_new e.

(** The controller object is one; its pointer is not modelled. *)
Definition USBFunctionGetHost pThis : M St unit :=
  c_assert (negb (fn_pDevice pThis =? 0)) ;; device_at (fn_pDevice pThis) ;; mret tt.

(** Selecting the alternate setting of the interface, if it is not the first. *)
Definition USBFunctionConfigure pThis : M St bool :=
  alt ← interface_byte pThis off_bAlternateSetting;
  if negb (alt =? 0) then
    USBFunctionGetHost pThis ;;
    ep0 ← USBFunctionGetEndpoint0 pThis;
    num ← interface_byte pThis off_bInterfaceNumber;
    r ← ControlMessageOut ep0 (Z.lor REQUEST_OUT REQUEST_TO_INTERFACE) SET_INTERFACE alt num [];
    mret (negb (r <? 0))
  else mret true.
End Configure.

(** ** A well-formed function

    Its parser accepted the configuration [b], [l] are the descriptors behind
    its interface, which lies in the buffer. *)
Record function_ok (b : list Z) (l : list nat) (o : nat) (f : TUSBFunction) : Prop := {
  fk_device : fn_pDevice f ≠ 0;
  fk_bytes : Forall is_u8 b;
  fk_interface : m_pInterfaceDesc f = Some o;
  fk_inside : (o + 9 <= length b)%nat;
  fk_parser : ∃ p, fn_pConfigParser f = Some p ∧ at_chain b l p ∧
                   (m_pEndPosition p <= length b)%nat
}.

Section Lemmas.
Context {St : Type}.

Lemma wp_on_parser {A} (m : M TUSBConfigurationParser A) p (Q : A * TUSBConfigurationParser → St → Prop) s :
  wp m (λ a p', Q (a, p') s) p → wp (on_parser m p) Q s.
Proof. unfold wp, on_parser. by destruct (m p) as [[a p']|]. Qed.

Lemma wp_parser_of f p (Q : TUSBConfigurationParser → St → Prop) s :
  fn_pConfigParser f = Some p → Q p s → wp (parser_of f) Q s.
Proof. unfold parser_of. by intros ->. Qed.

(** The bytes of the interface descriptor can be read. *)
Lemma wp_interface_byte b l o f off (Q : Z → St → Prop) s :
  function_ok b l o f → (off < 9)%nat → (∀ v, b !! (o + off)%nat = Some v → is_u8 v → Q v s) →
  wp (interface_byte f off) Q s.
Proof.
  intros [_ Hu Ho Hl (p & Hp & (Hb & _) & _)] Hoff HQ. unfold interface_byte, interface_of.
  rewrite Ho. wp_step. wp_step. wp_step. eapply wp_parser_of; [done|]. wp_step.
  destruct (lookup_lt_is_Some_2 b (o + off)) as [v Hv]; [lia|].
  apply wp_on_parser. eapply (wp_byte_at b); [done|exact Hv|]. wp_step. apply HQ; [done|].
  by eapply Forall_lookup_1.
Qed.

(** Searching for a descriptor keeps the function well formed; what is found
    lies in the configuration. *)
Lemma wp_FunctionGetDescriptor_any b l o f ucType (Q : option nat * TUSBFunction → St → Prop) s :
  function_ok b l o f →
  (∀ r f', (∃ e, r = (search b e ucType l).1) → function_ok b (search_rest b ucType l) o f' →
     (∃ p, f' = f <| fn_pConfigParser := Some p |> ∧ m_pCurrentDescriptor p = r) →
     (∀ pos, r = Some pos → b !! (pos + 1)%nat = Some ucType ∧
        ∃ len, b !! pos = Some len ∧ sized ucType len ∧ (pos + Z.to_nat len <= length b)%nat) →
     Q (r, f') s) →
  wp (USBFunctionGetDescriptor f ucType) Q s.
Proof.
  intros [Hd Hu Ho Hl (p & Hp & Hat & He)] HQ. unfold USBFunctionGetDescriptor.
  wp_step. eapply wp_parser_of; [done|]. wp_step. apply wp_on_parser.
  apply (wp_GetDescriptor b l); [done|]. intros r p' Er Ec _ Hat' He' Hf. wp_step.
  apply HQ; [by eexists| |by exists p'|].
  - split; try done. exists p'. split_and!; [done|done|by rewrite He'].
  - intros pos Hr. destruct (Hf pos Hr) as (len & H1 & H2 & H3 & H4). split; [done|]. exists len.
    split_and!; [done|done|lia].
Qed.

(** An interface or an endpoint has the size of its type. *)
Lemma wp_FunctionGetDescriptor b l o f ucType (Q : option nat * TUSBFunction → St → Prop) s :
  function_ok b l o f → ucType = DESCRIPTOR_ENDPOINT ∨ ucType = DESCRIPTOR_INTERFACE →
  (∀ r f', (∃ e, r = (search b e ucType l).1) → function_ok b (search_rest b ucType l) o f' →
     (∃ p, f' = f <| fn_pConfigParser := Some p |> ∧ m_pCurrentDescriptor p = r) →
     (∀ pos, r = Some pos → b !! (pos + 1)%nat = Some ucType ∧
        ∃ len, b !! pos = Some len ∧ (len = 7 ∨ len = 9) ∧ sized ucType len ∧
          (pos + Z.to_nat len <= length b)%nat) →
     Q (r, f') s) →
  wp (USBFunctionGetDescriptor f ucType) Q s.
Proof.
  intros Hf Hty HQ. eapply wp_FunctionGetDescriptor_any; [exact Hf|].
  intros r f' H1 H2 H3 Hfound. apply HQ; [done..|]. intros pos Hr.
  destruct (Hfound pos Hr) as (H4 & len & H5 & (H6 & H7 & H8) & H9). split; [done|]. exists len.
  split; [done|]. split; [destruct Hty as [-> | ->]; auto|]. by split.
Qed.

(** Reading an endpoint descriptor that a search found. *)
Lemma wp_endpoint_descriptor b l o f pos (Q : TUSBEndpointDescriptor → St → Prop) s :
  function_ok b l o f → (pos + 7 <= length b)%nat →
  (∀ d, b !! pos = Some (bLength d) → b !! (pos + 1)%nat = Some (bDescriptorType d) →
     b !! (pos + 2)%nat = Some (bEndpointAddress d) → b !! (pos + 3)%nat = Some (bmAttributes d) →
     b !! (pos + 4)%nat = Some (wMaxPacketSize d mod 256) ∧
     b !! (pos + 5)%nat = Some (wMaxPacketSize d / 256) →
     is_u16 (wMaxPacketSize d) → is_u8 (bmAttributes d) →
     (b !! (pos + 4)%nat ≠ Some 0 ∨ b !! (pos + 5)%nat ≠ Some 0 → 0 < wMaxPacketSize d < 65536) →
     Q d s) →
  wp (endpoint_descriptor f pos) Q s.
Proof.
  intros [_ Hu _ _ (p & Hp & (Hb & _) & _)] Hl HQ. unfold endpoint_descriptor.
  wp_step. eapply wp_parser_of; [done|]. wp_step. apply wp_on_parser.
  assert (∀ i, (i < 7)%nat → ∃ v, b !! (pos + i)%nat = Some v ∧ is_u8 v) as Hget.
  { intros i Hi. destruct (lookup_lt_is_Some_2 b (pos + i)) as [v Hv]; [lia|].
    exists v. split; [done|]. by eapply Forall_lookup_1. }
  destruct (Hget 0%nat) as (v0 & E0 & _); [lia|]. rewrite Nat.add_0_r in E0.
  wp_step. eapply (wp_byte_at b); [done|exact E0|].
  destruct (Hget 1%nat) as (v1 & E1 & _); [lia|]. wp_step. eapply (wp_byte_at b); [done|exact E1|].
  destruct (Hget 2%nat) as (v2 & E2 & _); [lia|]. wp_step. eapply (wp_byte_at b); [done|exact E2|].
  destruct (Hget 3%nat) as (v3 & E3 & R3); [lia|]. wp_step. eapply (wp_byte_at b); [done|exact E3|].
  destruct (Hget 4%nat) as (v4 & E4 & R4); [lia|]. wp_step. eapply (wp_byte_at b); [done|exact E4|].
  destruct (Hget 5%nat) as (v5 & E5 & R5); [lia|]. wp_step. eapply (wp_byte_at b); [done|exact E5|].
  destruct (Hget 6%nat) as (v6 & E6 & _); [lia|]. wp_step. eapply (wp_byte_at b); [done|exact E6|].
  wp_step. wp_step. apply HQ; try done; simpl; [rewrite E4, E5; split; f_equal; cint|cint|].
  rewrite E4, E5. intros Hnz. assert (v4 ≠ 0 ∨ v5 ≠ 0) by naive_solver. cint.
Qed.

(** A copy stands where the original does. *)
Lemma wp_USBFunctionCopy b l o f (Q : TUSBFunction → St → Prop) s :
  function_ok b l o f → (∃ p, fn_pConfigParser f = Some p ∧ m_pCurrentDescriptor p = Some o) →
  Q f s → wp (USBFunctionCopy f) Q s.
Proof.
  intros [Hd Hu Ho Hl (p & Hp & (Hb & Hv & Hc) & He)] (p' & Hp' & Hcur) HQ.
  rewrite Hp in Hp'. injection Hp' as <-. unfold USBFunctionCopy.
  wp_step. apply wp_assert; [by apply negb_true_iff, Z.eqb_neq|].
  wp_step. eapply wp_parser_of; [done|]. cbv zeta. wp_step. apply wp_on_parser.
  unfold USBConfigurationParserGetCurrentDescriptor. wp_step. wp_step. wp_step.
  apply wp_assert; [done|]. simpl. rewrite Hcur. wp_step. wp_step.
  destruct f, p. simpl in *. by subst.
Qed.
End Lemmas.

(** ** Endpoints of a function's device *)

(** An endpoint of a type that can be used. *)
Definition endpoint_is (u : Usb) (p : Z) (ty : TEndpointType) : Prop :=
  p ≠ 0 ∧ ∃ e, endpoints u !! p = Some e ∧ m_Type e = ty ∧ 0 < m_nMaxPacketSize e < 65536 ∧
    is_Some (devices u !! m_pDevice e).

Lemma endpoint_is_same u u' p ty : same_but_pid u u' → endpoint_is u p ty → endpoint_is u' p ty.
Proof.
  intros [Hd Hs] (H0 & e & He & Ht & Hm & Hdev). split; [done|]. specialize (Hs p). rewrite He in Hs.
  destruct (endpoints u' !! p) as [e'|]; [|done]. exists e'. rewrite Hd. destruct Hs as [<- _]. done.
Qed.

(** New endpoints do not disturb the old ones. *)
Definition extends (u u' : Usb) : Prop :=
  devices u' = devices u ∧ ∀ p e, endpoints u !! p = Some e → endpoints u' !! p = Some e.

Lemma extends_refl u : extends u u.
Proof. done. Qed.
Lemma extends_trans u1 u2 u3 : extends u1 u2 → extends u2 u3 → extends u1 u3.
Proof. intros [E1 H1] [E2 H2]. split; [congruence|]. auto. Qed.

Lemma endpoint_is_extends u u' p ty : extends u u' → endpoint_is u p ty → endpoint_is u' p ty.
Proof.
  intros [Hd H] (H0 & e & He & Ht & Hm & Hdev). split; [done|]. exists e. rewrite Hd. auto.
Qed.

(** Requests without data on a control endpoint. *)
Lemma control_ok u p t q v i :
  endpoint_is u p EndpointTypeControl → truthy (Z.land t REQUEST_IN) = false →
  op_ok u (ControlOut p t q v i []).
Proof. intros (H0 & He) Ht. by split. Qed.
Section Endpoints.
Context {D St : Type} `{!UsbHost St} `{!UsbHostLaws St} `{!UsbHostRecovers St}.
Implicit Types (m : D) (h : St).

Lemma wp_USBFunctionGetHost f (Q : unit → D * St → Prop) m h :
  fn_pDevice f ≠ 0 → (∃ d, devices (usb_get h) !! fn_pDevice f = Some d) → Q tt (m, h) →
  wp (USBFunctionGetHost f) Q (m, h).
Proof.
  intros Hd [d Hl] HQ. unfold USBFunctionGetHost. wp_step.
  apply wp_assert; [by apply negb_true_iff, Z.eqb_neq|]. wp_step.
  eapply wp_device_at; [exact Hl|]. by wp_step.
Qed.

Lemma wp_USBFunctionGetEndpoint0 f d (Q : Z → D * St → Prop) m h :
  fn_pDevice f ≠ 0 → devices (usb_get h) !! fn_pDevice f = Some d → m_pEndpoint0 d ≠ 0 →
  Q (m_pEndpoint0 d) (m, h) → wp (USBFunctionGetEndpoint0 f) Q (m, h).
Proof.
  intros Hd Hl H0 HQ. unfold USBFunctionGetEndpoint0. wp_step.
  apply wp_assert; [by apply negb_true_iff, Z.eqb_neq|]. wp_step.
  eapply wp_device_at; [exact Hl|]. wp_step. apply wp_assert; [by apply negb_true_iff, Z.eqb_neq|].
  by wp_step.
Qed.

Lemma wp_endpoint_new e m h (Q : Z → D * St → Prop) k :
  host_ready k h → new_endpoint (usb_get h) e →
  (∀ p h', p ≠ 0 → host_ready k h' → endpoints (usb_get h') !! p = Some e →
     extends (usb_get h) (usb_get h') → bus_get h' = bus_get h → Q p (m, h')) →
  wp (endpoint_new e) Q (m, h).
Proof.
  intros Hr He HQ. unfold endpoint_new. wp_step. wp_step.
  cbn [usb_get host_usb prod_host prod_usb snd].
  destruct (fresh_key_spec (endpoints (usb_get h))) as [Hpos Hnone].
  set (p := fresh_key _) in *. unfold endpoint_set. do 3 wp_step.
  cbn [usb_get usb_put host_usb prod_host prod_usb fst snd].
  apply HQ; rewrite ?usb_get_put; [lia| |apply lookup_insert_eq| |apply bus_get_usb].
  - by apply host_ready_new.
  - split; [done|]. intros q e' He'. unfold upd_endpoint, upd. simpl.
    rewrite lookup_insert_ne; [done|]. intros <-. by rewrite Hnone in He'.
Qed.

(** Requests and nothing else: no object but a toggle changes, the history grows. *)
Definition host_step h h' : Prop :=
  same_but_pid (usb_get h) (usb_get h') ∧ ∃ es, bus_get h' = es ++ bus_get h.

Lemma host_step_refl h : host_step h h.
Proof. split; [apply same_but_pid_refl|by exists []]. Qed.
Lemma host_step_trans h1 h2 h3 : host_step h1 h2 → host_step h2 h3 → host_step h1 h3.
Proof.
  intros [S1 [e1 E1]] [S2 [e2 E2]]. split; [by eapply same_but_pid_trans|].
  exists (e2 ++ e1). by rewrite E2, E1, app_assoc.
Qed.

(** Selecting the alternate setting makes at most one request. *)
Definition setting_request (d : TUSBDevice) (es : list bus_event) : Prop :=
  es = [] ∨ ∃ alt num r, es = [BusDone (ControlOut (m_pEndpoint0 d) (Z.lor REQUEST_OUT REQUEST_TO_INTERFACE)
                                          SET_INTERFACE alt num []) r []].

Lemma wp_Configure_request k b l o f d m h (Q : bool → D * St → Prop) :
  host_ready (1 + k) h → function_ok b l o f → devices (usb_get h) !! fn_pDevice f = Some d →
  endpoint_is (usb_get h) (m_pEndpoint0 d) EndpointTypeControl →
  (∀ r h' es, host_ready k h' → same_but_pid (usb_get h) (usb_get h') → bus_get h' = es ++ bus_get h →
     setting_request d es → Q r (m, h')) →
  wp (USBFunctionConfigure f) Q (m, h).
Proof.
  intros Hr Hf Hd He HQ. pose proof Hf as [Hd0 _ _ _ _]. unfold USBFunctionConfigure.
  wp_step. eapply wp_interface_byte; [exact Hf|unfold off_bAlternateSetting; lia|]. intros alt _ _.
  destruct (alt =? 0); cbn [negb].
  { wp_step. apply (HQ true h []); [|apply same_but_pid_refl|done|by left]. by eapply host_ready_mono; [|exact Hr]; lia. }
  wp_step. eapply wp_USBFunctionGetHost; [done|by exists d|].
  wp_step. eapply wp_USBFunctionGetEndpoint0; [done|done|by destruct He|].
  wp_step. eapply wp_interface_byte; [exact Hf|unfold off_bInterfaceNumber; lia|]. intros num _ _.
  wp_step. eapply (wp_ControlMessageOut k); [done|by apply control_ok|].
  intros r h' Hr' _ Hb Hs. wp_step. eapply (HQ _ _ [_]); [done|done|exact Hb|]. right. by exists alt, num, r.
Qed.

Lemma wp_USBFunctionConfigure k b l o f d m h (Q : bool → D * St → Prop) :
  host_ready (1 + k) h → function_ok b l o f → devices (usb_get h) !! fn_pDevice f = Some d →
  endpoint_is (usb_get h) (m_pEndpoint0 d) EndpointTypeControl →
  (∀ r h', host_ready k h' → host_step h h' → Q r (m, h')) →
  wp (USBFunctionConfigure f) Q (m, h).
Proof.
  intros Hr Hf Hd He HQ. eapply wp_Configure_request; [done..|].
  intros r h' es Hr' Hs Hb _. apply HQ; [done|]. split; [done|by exists es].
Qed.

Lemma wp_ConfigurationError b l o f (Q : unit → D * St → Prop) s :
  function_ok b l o f → Q tt s → wp (USBFunctionConfigurationError f) Q s.
Proof.
  intros [_ _ _ _ (p & Hp & _)] HQ. unfold USBFunctionConfigurationError.
  wp_step. eapply wp_parser_of; [done|]. by wp_step.
Qed.

(** A descriptor that a search found becomes an endpoint of the device. *)
Lemma wp_USBEndpoint2 (b : list Z) (pos : nat) dev speed desc (Q : TUSBEndpoint → D * St → Prop) s :
  dev ≠ 0 → b !! pos = Some (bLength desc) → b !! pos = Some 7 ∨ b !! pos = Some 9 →
  bDescriptorType desc = DESCRIPTOR_ENDPOINT →
  Z.land (bmAttributes desc) 3 = 2 ∨ Z.land (bmAttributes desc) 3 = 3 →
  (∀ e, m_Type e = (if Z.land (bmAttributes desc) 3 =? 2 then EndpointTypeBulk else EndpointTypeInterrupt) →
     m_nMaxPacketSize e = wMaxPacketSize desc → m_pDevice e = dev → m_NextPID e = USBPIDData0 →
     m_bDirectionIn e = truthy (Z.land (bEndpointAddress desc) 0x80) →
     m_ucNumber e = Z.land (bEndpointAddress desc) 0x0F → Q e s) →
  wp (USBEndpoint2 dev speed desc) Q s.
Proof.
  intros Hd E0 Hlen Ht Hattr HQ. unfold USBEndpoint2. wp_step. apply wp_assert; [by apply negb_true_iff, Z.eqb_neq|].
  wp_step. apply wp_assert.
  { rewrite E0 in Hlen. by destruct Hlen as [Hx|Hx]; injection Hx as Hx; rewrite Hx. }
  wp_step. apply wp_assert; [by rewrite Ht|].
  destruct Hattr as [Ha|Ha]; rewrite Ha in *; cbn [Z.eqb Pos.eqb]; do 3 wp_step; by apply HQ.
Qed.

Lemma wp_endpoint_from k b l o pos f m h (Q : Z → D * St → Prop) :
  host_ready k h → function_ok b l o f → is_Some (devices (usb_get h) !! fn_pDevice f) →
  (pos + 7 <= length b)%nat → b !! pos = Some 7 ∨ b !! pos = Some 9 →
  b !! (pos + 1)%nat = Some DESCRIPTOR_ENDPOINT →
  b !! (pos + 4)%nat ≠ Some 0 ∨ b !! (pos + 5)%nat ≠ Some 0 →
  (∀ v, b !! (pos + 3)%nat = Some v → Z.land v 3 = 2 ∨ Z.land v 3 = 3) →
  (∀ p h' e, p ≠ 0 → host_ready k h' → extends (usb_get h) (usb_get h') →
     bus_get h' = bus_get h → endpoints (usb_get h') !! p = Some e →
     (∀ v, b !! (pos + 3)%nat = Some v →
        m_Type e = if Z.land v 3 =? 2 then EndpointTypeBulk else EndpointTypeInterrupt) →
     (∀ v, b !! (pos + 2)%nat = Some v → m_bDirectionIn e = truthy (Z.land v 0x80)) →
     b !! (pos + 4)%nat = Some (m_nMaxPacketSize e mod 256) ∧
     b !! (pos + 5)%nat = Some (m_nMaxPacketSize e / 256) →
     m_NextPID e = USBPIDData0 → endpoint_is (usb_get h') p (m_Type e) →
     Q p (m, h')) →
  wp (endpoint_from f pos) Q (m, h).
Proof.
  intros Hr Hf [d Hd] Hpos Hlen Hty Hps Hattr HQ. unfold endpoint_from.
  pose proof Hf as [Hd0 Hu _ _ _]. wp_step. unfold USBFunctionGetDevice. wp_step.
  apply wp_assert; [by apply negb_true_iff, Z.eqb_neq|]. wp_step. wp_step. eapply wp_device_at; [exact Hd|].
  wp_step. eapply wp_endpoint_descriptor; [exact Hf|lia|].
  intros desc E0 E1 E2 E3 E4 Hmps Hat Hmps'. wp_step.
  eapply (wp_USBEndpoint2 b pos); [done|exact E0|exact Hlen|congruence|by apply Hattr|].
  intros e Ht Hsz Hde Hpid Hin _.
  assert (0 < m_nMaxPacketSize e < 65536) as Hm by (rewrite Hsz; by apply Hmps').
  eapply (wp_endpoint_new e m h _ k); [done| |].
  { split; [|by rewrite Hde; split; [exact Hm|split; [done|by exists d]]].
    rewrite Ht, Hpid. destruct (_ =? 2); auto. }
  intros q h' Hq Hr' He' Hx Hb. apply (HQ q h' e); try done.
  - intros v Hv. rewrite E3 in Hv. by injection Hv as <-.
  - intros v Hv. rewrite E2 in Hv. by injection Hv as <-.
  - by rewrite Hsz.
  - split; [done|]. exists e. split; [exact He'|]. split; [done|]. split; [done|].
    destruct Hx as [-> _]. rewrite Hde. by exists d.
Qed.
End Endpoints.

(** ** Searching the descriptors of an interface *)

(** The endpoint descriptors among those at [l] have a packet size. *)
Definition packet_sizes (b : list Z) (l : list nat) : Prop :=
  ∀ pos, pos ∈ l → b !! (pos + 1)%nat = Some DESCRIPTOR_ENDPOINT →
    b !! (pos + 4)%nat ≠ Some 0 ∨ b !! (pos + 5)%nat ≠ Some 0.

Lemma search_elem b e ty l pos : (search b e ty l).1 = Some pos → pos ∈ l.
Proof.
  induction l as [|q l IH]; simpl; [done|]. repeat case_match; simpl; try done.
  - intros [= <-]. by left.
  - intros Hs. right. by apply IH.
Qed.

Lemma search_rest_suffix b ty l pos : pos ∈ search_rest b ty l → pos ∈ l.
Proof.
  induction l as [|q l IH]; simpl; [done|]. repeat case_match; try done; intros Hs; right; auto.
Qed.

(** A hit is passed. *)
Lemma search_rest_shorter b e ty l pos :
  (search b e ty l).1 = Some pos → (length (search_rest b ty l) < length l)%nat.
Proof.
  induction l as [|q l IH]; simpl; [done|]. repeat case_match; simpl; try done; intros Hs; [lia|].
  specialize (IH Hs). lia.
Qed.

Lemma packet_sizes_rest b ty l : packet_sizes b l → packet_sizes b (search_rest b ty l).
Proof. intros Hp pos Hpos. apply Hp. by eapply search_rest_suffix. Qed.
