(* ===== verification/UsbString.v ===== *)
(** * lib/usbstring.c: string descriptors

    A string of the device, read in the language it offers and converted to
    ASCII. The object owns the descriptor it read last and a TString, which is
    its list of characters here ([CString] proves what TString's operations
    do). *)
From S2P Require Import Prelude Endpoint UsbBus UsbFunction.

Definition DESCRIPTOR_STRING : Z := 3.
Definition USBSTR_MIN_LENGTH : Z := 4.
Definition USBSTR_DEFAULT_LANGID : Z := 0x409.

Record TUSBString := {
  us_pDevice : Z;
  m_pUSBString : option buffer;
  m_pString : list Z
}.
#[global] Instance TUSBString_eta : Eta TUSBString := λ r,
  {| us_pDevice := us_pDevice r; m_pUSBString := m_pUSBString r; m_pString := m_pString r |}.

Section Ops.
Context {St : Type} `{!UsbHost St}.
Implicit Types (pThis : TUSBString).

(** ** The calls on the device *)

Definition USBDeviceGetEndpoint0 (pDevice : Z) : M St Z :=
  d ← device_at pDevice;
  c_assert (negb (m_pEndpoint0 d =? 0)) ;;
  mret (m_pEndpoint0 d).

(** The controller object is one; its pointer is not modelled. *)
Definition USBDeviceGetHost (pDevice : Z) : M St unit := device_at pDevice ;; mret tt.

Definition DWHCIDeviceGetDescriptor (pEndpoint ucType ucIndex : Z) (pBuffer : buffer)
    (ucRequestType : Z) : M St (Z * buffer) :=
  ControlMessageIn pEndpoint ucRequestType GET_DESCRIPTOR
    (u16 (Z.lor (Z.shiftl ucType 8) ucIndex)) 0 pBuffer.

(** ** The object *)

Definition USBString (pDevice : Z) : M St TUSBString :=
  c_assert (negb (pDevice =? 0)) ;;
  mret {| us_pDevice := pDevice; m_pUSBString := None; m_pString := [] |}.

(** The copy takes as many bytes as the descriptor says it has. *)
Definition USBStringCopy (pParent : TUSBString) : M St TUSBString :=
  d ← match m_pUSBString pParent with
      | None => mret None
      | Some b =>
          len ← cell_at b 0;
          if (length b <? Z.to_nat len)%nat then fail MemFault
          else mret (Some (take (Z.to_nat len) b))
      end;
  mret {| us_pDevice := us_pDevice pParent; m_pUSBString := d; m_pString := m_pString pParent |}.

Definition _USBString pThis : TUSBString :=
  pThis <| m_pString := [] |> <| m_pUSBString := None |> <| us_pDevice := 0 |>.

Definition odd8 (v : Z) : bool := negb (Z.land v 1 =? 0).

(** A character that is not printable becomes an underscore. *)
Definition ascii_char (usChar : Z) : Z :=
  if (usChar <? 32) || (126 <? usChar) then 95 else usChar.

Fixpoint convert (n : nat) (b : buffer) (i : nat) : M St (list Z) :=
  match n with
  | O => mret []
  | S n => c ← le16_at b (2 + 2 * i); l ← convert n b (S i); mret (ascii_char c :: l)
  end.

(** The conversion at the end of [USBStringGetFromDescriptor]. *)
Definition convert_string pThis (b : buffer) : M St (bool * TUSBString) :=
  len ← cell_at b 0;
  c_assert (2 <=? len) ;;
  c_assert (negb (odd8 len)) ;;
  let nLength := (len - 2) / 2 in
  c_assert (nLength <=? (255 - 2) / 2) ;;
  l ← convert (Z.to_nat nLength) b 0;
  mret (true, pThis <| m_pString := l |>).

(** The checks of the header: the conditions are joined by [||], so the type is
    read only behind a proper length. *)
Definition bad_header (b : buffer) (ucLength ucMin : Z) : M St bool :=
  if (ucLength <? ucMin) || odd8 ucLength then mret true
  else ty ← cell_at b 1; mret (negb (ty =? DESCRIPTOR_STRING)).
Definition changed_header (b : buffer) (ucLength : Z) : M St bool :=
  len ← cell_at b 0;
  if negb (len =? ucLength) || odd8 len then mret true
  else ty ← cell_at b 1; mret (negb (ty =? DESCRIPTOR_STRING)).

(** A request for a string, and for the languages. *)
Definition get_string (pDevice ucID usLanguageID : Z) (b : buffer) : M St (Z * buffer) :=
  USBDeviceGetHost pDevice ;;
  ep0 ← USBDeviceGetEndpoint0 pDevice;
  ControlMessageIn ep0 REQUEST_IN GET_DESCRIPTOR
    (Z.lor (Z.shiftl DESCRIPTOR_STRING 8) ucID) usLanguageID b.
Definition get_languages (pDevice : Z) (b : buffer) : M St (Z * buffer) :=
  USBDeviceGetHost pDevice ;;
  ep0 ← USBDeviceGetEndpoint0 pDevice;
  DWHCIDeviceGetDescriptor ep0 DESCRIPTOR_STRING 0 b REQUEST_IN.

(** The second request, for the whole descriptor. *)
Definition read_whole pThis (ucID usLanguageID ucLength : Z) : M St (bool * TUSBString) :=
  '(r, b) ← get_string (us_pDevice pThis) ucID usLanguageID (blank ucLength);
  let pThis := pThis <| m_pUSBString := Some b |> in
  if negb (r =? ucLength) then mret (false, pThis)
  else
    bad ← changed_header b ucLength;
    if bad : bool then mret (false, pThis) else convert_string pThis b.

Definition USBStringGetFromDescriptor pThis (ucID usLanguageID : Z) : M St (bool * TUSBString) :=
  c_assert (0 <? ucID) ;;
  c_assert (negb (us_pDevice pThis =? 0)) ;;
  '(r, b) ← get_string (us_pDevice pThis) ucID usLanguageID (blank USBSTR_MIN_LENGTH);
  let pThis := pThis <| m_pUSBString := Some b |> in
  if r <? 0 then mret (false, pThis)
  else
    ucLength ← cell_at b 0;
    bad ← bad_header b ucLength 2;
    if bad : bool then mret (false, pThis)
    else if USBSTR_MIN_LENGTH <? ucLength then
      read_whole pThis ucID usLanguageID ucLength
    else convert_string pThis b.

Definition USBStringGet pThis : list Z := m_pString pThis.

(** The languages: the default one if it is offered, otherwise the first. *)
Fixpoint find_language (n : nat) (b : buffer) (i : nat) : M St bool :=
  match n with
  | O => mret false
  | S n =>
      c ← le16_at b (2 + 2 * i);
      if c =? USBSTR_DEFAULT_LANGID then mret true else find_language n b (S i)
  end.

Definition choose_language (b : buffer) : M St Z :=
  len ← cell_at b 0;
  c_assert (4 <=? len) ;;
  c_assert (negb (odd8 len)) ;;
  found ← find_language (Z.to_nat ((len - 2) / 2)) b 0;
  if found : bool then mret USBSTR_DEFAULT_LANGID else le16_at b 2.

Definition USBStringGetLanguageID pThis : M St Z :=
  c_assert (negb (us_pDevice pThis =? 0)) ;;
  '(r, b) ← get_languages (us_pDevice pThis) (blank USBSTR_MIN_LENGTH);
  if r <? 0 then mret USBSTR_DEFAULT_LANGID
  else
    ucLength ← cell_at b 0;
    bad ← bad_header b ucLength 4;
    if bad : bool then mret USBSTR_DEFAULT_LANGID
    else if USBSTR_MIN_LENGTH <? ucLength then
      '(r, b) ← get_languages (us_pDevice pThis) (blank ucLength);
      if negb (r =? ucLength) then mret USBSTR_DEFAULT_LANGID
      else
        bad ← changed_header b ucLength;
        if bad : bool then mret USBSTR_DEFAULT_LANGID else choose_language b
    else choose_language b.
End Ops.

(** ** Reading a buffer that is partly filled *)
Section Filled.
Context {St : Type}.

Lemma filled_lookup (d : list Z) (b : buffer) i v :
  (length d <= length b)%nat → d !! i = Some v → overwrite 0 (map Some d) b !! i = Some (Some v).
Proof.
  intros Hl Hi. unfold overwrite. rewrite take_0, app_nil_l, lookup_app_l.
  - by apply map_Some_lookup.
  - rewrite length_map. by apply lookup_lt_Some in Hi.
Qed.

Lemma wp_filled_cell d b i v (Q : Z → St → Prop) s :
  (length d <= length b)%nat → d !! i = Some v → Q v s →
  wp (cell_at (overwrite 0 (map Some d) b) i) Q s.
Proof. intros Hl Hi HQ. eapply wp_cell_at; [by apply filled_lookup|done]. Qed.

Lemma wp_filled_le16 d b i (Q : Z → St → Prop) s :
  (length d <= length b)%nat → (i + 2 <= length d)%nat → Q (le_value (take 2 (drop i d))) s →
  wp (le16_at (overwrite 0 (map Some d) b) i) Q s.
Proof.
  intros Hl Hi HQ. destruct (lookup_lt_is_Some_2 d i) as [x Hx]; [lia|].
  destruct (lookup_lt_is_Some_2 d (i + 1)) as [y Hy]; [lia|].
  unfold le16_at. wp_step. eapply wp_filled_cell; [done|exact Hx|].
  wp_step. eapply wp_filled_cell; [done|exact Hy|]. wp_step.
  rewrite (drop_S _ _ _ Hx), <- (Nat.add_1_r i), (drop_S _ _ _ Hy) in HQ. simpl in HQ.
  by rewrite Z.mul_0_r, Z.add_0_r in HQ.
Qed.
End Filled.

(** ** What the descriptor says *)

(** The 16-bit units behind the header, and the string they stand for. *)
Definition unit_at (d : list Z) (i : nat) : Z := le_value (take 2 (drop (2 + 2 * i) d)).
Definition unit_count (d : list Z) : nat := Z.to_nat ((hd 0 d - 2) / 2).
Definition shown (u : Z) : Z := if decide (32 <= u <= 126) then u else 95.
Definition string_of (d : list Z) : list Z := map (λ i, shown (unit_at d i)) (seq 0 (unit_count d)).

Lemma ascii_shown u : ascii_char u = shown u.
Proof.
  unfold ascii_char, shown. destruct (decide _); destruct (Z.ltb_spec u 32), (Z.ltb_spec 126 u); simpl; lia.
Qed.

Lemma odd8_even v : odd8 v = false ↔ v mod 2 = 0.
Proof.
  unfold odd8. change 1 with (Z.ones 1). rewrite Z.land_ones, negb_false_iff, Z.eqb_eq by lia. done.
Qed.

(** The header of a string descriptor: an even length, the type. *)
Record good_header (d : list Z) : Prop := {
  gh_length : 2 <= hd 0 d;
  gh_even : hd 0 d mod 2 = 0;
  gh_type : d !! 1%nat = Some DESCRIPTOR_STRING
}.

(** A string descriptor that was read completely. *)
Record string_descriptor (d : list Z) : Prop := {
  sd_header : good_header d;
  sd_length : hd 0 d <= Z.of_nat (length d);
  sd_bytes : Forall is_u8 d
}.

(** A device that sends as much of a string descriptor as was asked for and as
    there is. *)
Definition string_answer (op : bus_op) (r : Z) (d : list Z) : Prop :=
  match op with
  | ControlIn _ _ q v _ n =>
      q = GET_DESCRIPTOR → Z.shiftr v 8 = DESCRIPTOR_STRING → 2 <= n → 0 <= r →
      (2 <= length d)%nat ∧ Z.min n (hd 0 d) <= Z.of_nat (length d)
  | _ => True
  end.

Lemma string_of_printable d : Forall (λ c, 32 <= c <= 126) (string_of d).
Proof.
  apply Forall_map, Forall_forall. intros i _. unfold shown. destruct (decide _); lia.
Qed.

Lemma string_of_length d : is_u8 (hd 0 d) → (length (string_of d) <= 126)%nat.
Proof. intros Hu. unfold string_of, unit_count. rewrite length_map, length_seq. cint. Qed.

Section Properties.
Context {D St : Type} `{!UsbHost St} `{!UsbHostLaws St} `{!UsbHostRecovers St} `{!Answers St string_answer}.
Implicit Types (m : D) (h : St).

Lemma wp_convert n d b i m h (Q : list Z → D * St → Prop) :
  (length d <= length b)%nat → (2 + 2 * (i + n) <= length d)%nat →
  Q (map (λ i, shown (unit_at d i)) (seq i n)) (m, h) →
  wp (convert n (overwrite 0 (map Some d) b) i) Q (m, h).
Proof.
  revert i Q. induction n as [|n IH]; intros i Q Hl Hi HQ; cbn [convert]; [by wp_step|].
  wp_step. apply wp_filled_le16; [done|lia|]. wp_step. apply IH; [done|lia|]. wp_step.
  rewrite ascii_shown. exact HQ.
Qed.

Lemma hd_lookup (d : list Z) : (0 < length d)%nat → d !! 0%nat = Some (hd 0 d).
Proof. destruct d; simpl; [lia|done]. Qed.

Lemma wp_convert_string pThis d b m h (Q : bool * TUSBString → D * St → Prop) :
  (length d <= length b)%nat → string_descriptor d →
  Q (true, pThis <| m_pString := string_of d |>) (m, h) →
  wp (convert_string pThis (overwrite 0 (map Some d) b)) Q (m, h).
Proof.
  intros Hl [[H2 He Ht] Hlen Hu] HQ. apply odd8_even in He. unfold convert_string.
  assert (is_u8 (hd 0 d)) as Hh.
  { destruct d; [simpl in *; lia|]. by apply Forall_cons_1 in Hu as [? _]. }
  wp_step. eapply wp_filled_cell; [done|apply hd_lookup; lia|].
  wp_step. apply wp_assert; [apply Z.leb_le; lia|]. wp_step. apply wp_assert; [by rewrite He|].
  wp_step. apply wp_assert; [apply Z.leb_le; unfold is_u8 in Hh; lia|].
  wp_step. apply wp_convert; [done|unfold is_u8 in Hh; lia|]. wp_step. exact HQ.
Qed.

(** The two checks of a header, on an answer with at least its two bytes. *)
Lemma wp_bad_header d b ucMin m h (Q : bool → D * St → Prop) :
  (length d <= length b)%nat → (2 <= length d)%nat → 2 <= ucMin →
  (∀ bad, (bad = false ↔ good_header d ∧ ucMin <= hd 0 d) → Q bad (m, h)) →
  wp (bad_header (overwrite 0 (map Some d) b) (hd 0 d) ucMin) Q (m, h).
Proof.
  intros Hl Hd Hmin HQ. unfold bad_header.
  destruct (Z.ltb_spec (hd 0 d) ucMin); simpl; [wp_step; apply HQ; split; [done|intros [_ ?]; lia]|].
  destruct (odd8 (hd 0 d)) eqn:Eo; simpl.
  { wp_step. apply HQ. split; [done|]. intros [[_ He _] _]. apply odd8_even in He. congruence. }
  apply odd8_even in Eo. destruct (lookup_lt_is_Some_2 d 1) as [ty Hty]; [lia|].
  wp_step. eapply wp_filled_cell; [done|exact Hty|]. wp_step. apply HQ. rewrite negb_false_iff, Z.eqb_eq. split.
  - intros ->. split; [|done]. split; [lia|done|done].
  - intros [[_ _ Ht] _]. congruence.
Qed.

Lemma wp_changed_header d b len m h (Q : bool → D * St → Prop) :
  (length d <= length b)%nat → (2 <= length d)%nat → 2 <= len →
  (∀ bad, (bad = false ↔ hd 0 d = len ∧ good_header d) → Q bad (m, h)) →
  wp (changed_header (overwrite 0 (map Some d) b) len) Q (m, h).
Proof.
  intros Hl Hd Hmin HQ. unfold changed_header. wp_step. eapply wp_filled_cell; [done|apply hd_lookup; lia|].
  destruct (Z.eqb_spec (hd 0 d) len) as [El|]; simpl; [|wp_step; apply HQ; split; [done|by intros [? _]]].
  destruct (odd8 (hd 0 d)) eqn:Eo; simpl.
  { wp_step. apply HQ. split; [done|]. intros [_ [_ He _]]. apply odd8_even in He. congruence. }
  apply odd8_even in Eo. destruct (lookup_lt_is_Some_2 d 1) as [ty Hty]; [lia|].
  wp_step. eapply wp_filled_cell; [done|exact Hty|]. wp_step. apply HQ. rewrite negb_false_iff, Z.eqb_eq. split.
  - intros ->. split; [done|]. split; [lia|done|done].
  - intros [_ [_ _ Ht]]. congruence.
Qed.

(** The endpoint 0 of a device of the store. *)
Lemma wp_DeviceGetEndpoint0 p d m h (Q : Z → D * St → Prop) :
  devices (usb_get h) !! p = Some d → m_pEndpoint0 d ≠ 0 → Q (m_pEndpoint0 d) (m, h) →
  wp (USBDeviceGetEndpoint0 p) Q (m, h).
Proof.
  intros Hd H0 HQ. unfold USBDeviceGetEndpoint0. wp_step. eapply wp_device_at; [exact Hd|].
  wp_step. apply wp_assert; [by apply negb_true_iff, Z.eqb_neq|]. by wp_step.
Qed.

Lemma wp_DeviceGetHost p d m h (Q : unit → D * St → Prop) :
  devices (usb_get h) !! p = Some d → Q tt (m, h) → wp (USBDeviceGetHost p) Q (m, h).
Proof. intros Hd HQ. unfold USBDeviceGetHost. wp_step. eapply wp_device_at; [exact Hd|]. by wp_step. Qed.

Lemma control_in_ok u p t q v i n :
  endpoint_is u p EndpointTypeControl → truthy (Z.land t REQUEST_IN) = true → 0 < n < 65536 →
  op_ok u (ControlIn p t q v i n).
Proof. intros (H0 & He) Ht Hn. by split. Qed.

(** GET_DESCRIPTOR for [n] bytes of the string [id], or with 0 of the list of
    languages. *)
Definition string_op (ep0 id lang n : Z) : bus_op := ControlIn ep0 0x80 6 (0x300 + id) lang n.

Lemma string_value id : 0 <= id < 256 → Z.lor (Z.shiftl DESCRIPTOR_STRING 8) id = 0x300 + id.
Proof. intros Hid. rewrite Z.lor_comm, lor_disjoint by done. unfold DESCRIPTOR_STRING. lia. Qed.

(** The device of a string: its control endpoint can be used. *)
Record device_ready (p : Z) (d : TUSBDevice) (u : Usb) : Prop := {
  dr_nonnull : p ≠ 0;
  dr_device : devices u !! p = Some d;
  dr_ep0 : endpoint_is u (m_pEndpoint0 d) EndpointTypeControl
}.

Lemma device_ready_same p d u u' : same_but_pid u u' → device_ready p d u → device_ready p d u'.
Proof.
  intros Hs [H1 H2 H3]. split; [done| |by eapply endpoint_is_same]. destruct Hs as [-> _]. done.
Qed.

(** An answer, as the two requests see it: with its header if it succeeded. *)
Definition answered (h : St) (op : bus_op) (n : Z) (Q : Z * buffer → D * St → Prop) (k : nat) m : Prop :=
  ∀ r dat h', host_ready k h' → Forall is_u8 dat → (length dat <= Z.to_nat n)%nat →
    (0 <= r → r = Z.of_nat (length dat) ∧ (2 <= length dat)%nat ∧
              Z.min n (hd 0 dat) <= Z.of_nat (length dat)) →
    bus_get h' = BusDone op r dat :: bus_get h → same_but_pid (usb_get h) (usb_get h') →
    Q (r, overwrite 0 (map Some dat) (blank n)) (m, h').

Lemma wp_string_request k ep0 id i n m h (Q : Z * buffer → D * St → Prop) :
  host_ready (S k) h → endpoint_is (usb_get h) ep0 EndpointTypeControl →
  0 <= id < 256 → 2 <= n < 256 → answered h (string_op ep0 id i n) n Q k m →
  wp (ControlMessageIn ep0 REQUEST_IN GET_DESCRIPTOR (0x300 + id) i (blank n)) Q (m, h).
Proof.
  intros Hr He Hv Hn HQ. assert (Z.of_nat (length (blank n)) = n) as Hb
    by (unfold blank; rewrite length_replicate; lia).
  eapply (wp_ControlMessageIn_answers string_answer k);
    [exact Hr|rewrite Hb; apply control_in_ok; [done|done|lia]|].
  rewrite Hb. intros r dat h' Hr' Hu Hl Hres Ha Hbus Hs.
  eapply HQ; [done|done|unfold blank in Hl; rewrite length_replicate in Hl; lia| |done|done]. intros Hge.
  assert (Z.shiftr (0x300 + id) 8 = DESCRIPTOR_STRING) as Hsh.
  { rewrite Z.shiftr_div_pow2 by lia. change (2 ^ 8) with 256. unfold DESCRIPTOR_STRING. lia. }
  destruct (Ha eq_refl Hsh (proj1 Hn) Hge) as [H2 Hmin]. split; [destruct Hres; lia|done].
Qed.

Lemma wp_get_string k p d id lang n m h (Q : Z * buffer → D * St → Prop) :
  host_ready (S k) h → device_ready p d (usb_get h) → 0 < id < 256 → 2 <= n < 256 →
  answered h (string_op (m_pEndpoint0 d) id lang n) n Q k m → wp (get_string p id lang (blank n)) Q (m, h).
Proof.
  intros Hr [Hp Hd He] Hid Hn HQ. unfold get_string. wp_step. eapply wp_DeviceGetHost; [exact Hd|].
  wp_step. eapply wp_DeviceGetEndpoint0; [exact Hd|by destruct He|].
  rewrite string_value by lia. eapply wp_string_request; [exact Hr|done|lia|done|done].
Qed.

Lemma wp_get_languages k p d n m h (Q : Z * buffer → D * St → Prop) :
  host_ready (S k) h → device_ready p d (usb_get h) → 2 <= n < 256 →
  answered h (string_op (m_pEndpoint0 d) 0 0 n) n Q k m → wp (get_languages p (blank n)) Q (m, h).
Proof.
  intros Hr [Hp Hd He] Hn HQ. unfold get_languages. wp_step. eapply wp_DeviceGetHost; [exact Hd|].
  wp_step. eapply wp_DeviceGetEndpoint0; [exact Hd|by destruct He|].
  eapply (wp_string_request k _ 0); [exact Hr|done|lia|done|done].
Qed.

(** What a string is after it was read from the device, by the bytes of the last
    answer. *)
Definition string_read (pThis pThis' : TUSBString) (ok : bool) (d : list Z) : Prop :=
  us_pDevice pThis' = us_pDevice pThis ∧
  if ok then string_descriptor d ∧
    m_pString pThis' = string_of d ∧ Forall (λ c, 32 <= c <= 126) (m_pString pThis') ∧
    (length (m_pString pThis') <= 126)%nat
  else m_pString pThis' = m_pString pThis.

Lemma string_read_true pThis pThis' d :
  us_pDevice pThis' = us_pDevice pThis → string_descriptor d → m_pString pThis' = string_of d →
  string_read pThis pThis' true d.
Proof.
  intros Hd Hs Hm. split; [done|]. rewrite Hm. split_and!; try done.
  - apply string_of_printable.
  - apply string_of_length. destruct Hs as [[_ _ Ht] _ Hu]. destruct d; [done|].
    by apply Forall_cons_1 in Hu as [? _].
Qed.

(** The requests for a string, newest first, and when they succeed: the first
    four bytes, and if their header is that of a longer descriptor all of it. *)
Inductive string_reading (ep0 id lang : Z) (pThis pThis' : TUSBString) (ok : bool) : list bus_event → Prop :=
  | string_at_once r d :
      ¬ (0 <= r ∧ good_header d ∧ 4 < hd 0 d) → (ok = true ↔ 0 <= r ∧ good_header d) →
      string_read pThis pThis' ok d →
      string_reading ep0 id lang pThis pThis' ok [BusDone (string_op ep0 id lang 4) r d]
  | string_in_two r d r2 d2 :
      0 <= r → good_header d → 4 < hd 0 d →
      (ok = true ↔ r2 = hd 0 d ∧ hd 0 d2 = hd 0 d ∧ good_header d2) → string_read pThis pThis' ok d2 →
      string_reading ep0 id lang pThis pThis' ok
        [BusDone (string_op ep0 id lang (hd 0 d)) r2 d2; BusDone (string_op ep0 id lang 4) r d].

(** The second request. *)
Lemma wp_read_whole k pThis d id lang len m h (Q : bool * TUSBString → D * St → Prop) :
  host_ready (S k) h → device_ready (us_pDevice pThis) d (usb_get h) → 0 < id < 256 → 4 < len < 256 →
  (∀ ok pThis' r2 d2 h', host_ready k h' → same_but_pid (usb_get h) (usb_get h') →
     bus_get h' = BusDone (string_op (m_pEndpoint0 d) id lang len) r2 d2 :: bus_get h →
     (ok = true ↔ r2 = len ∧ hd 0 d2 = len ∧ good_header d2) →
     string_read pThis pThis' ok d2 → Q (ok, pThis') (m, h')) →
  wp (read_whole pThis id lang len) Q (m, h).
Proof.
  intros Hr Hd Hid Hlen HQ. unfold read_whole. wp_step.
  eapply (wp_get_string k); [exact Hr|exact Hd|done|lia|]. intros r dat h' Hr' Hu Hl Hres Hb Hs.
  assert (∀ ok pThis', (ok = true ↔ r = len ∧ hd 0 dat = len ∧ good_header dat) →
    string_read pThis pThis' ok dat → Q (ok, pThis') (m, h')) as Hend by (intros ok pThis'; by apply HQ).
  destruct (Z.eqb_spec r len) as [->|]; cbn [negb]; [|wp_step; apply Hend; [split; [done|by intros (? & _)]|done]].
  destruct Hres as (Hl' & H2 & Hmin); [lia|].
  assert (length dat <= length (blank len))%nat as Hbl by (unfold blank; rewrite length_replicate; lia).
  wp_step. apply wp_changed_header; [done|done|lia|]. intros bad Hbad.
  destruct bad.
  { wp_step. apply Hend; [|done]. split; [done|]. intros (_ & E1 & E2). by discriminate (proj2 Hbad (conj E1 E2)). }
  destruct (proj1 Hbad eq_refl) as (Hh & Hg).
  assert (string_descriptor dat) as Hsd by (split; [done|lia|done]).
  apply wp_convert_string; [done|exact Hsd|]. apply Hend; [done|]. by apply string_read_true.
Qed.

Lemma wp_GetFromDescriptor k pThis d id lang m h (Q : bool * TUSBString → D * St → Prop) :
  host_ready (2 + k) h → device_ready (us_pDevice pThis) d (usb_get h) → 0 < id < 256 →
  (∀ ok pThis' es h', host_ready k h' → same_but_pid (usb_get h) (usb_get h') →
     bus_get h' = es ++ bus_get h → string_reading (m_pEndpoint0 d) id lang pThis pThis' ok es →
     Q (ok, pThis') (m, h')) →
  wp (USBStringGetFromDescriptor pThis id lang) Q (m, h).
Proof.
  intros Hr Hd Hid HQ. unfold USBStringGetFromDescriptor. pose proof Hd as [Hp _ _].
  wp_step. apply wp_assert; [apply Z.ltb_lt; lia|]. wp_step.
  apply wp_assert; [by apply negb_true_iff, Z.eqb_neq|].
  wp_step. eapply (wp_get_string (S k)); [exact Hr|exact Hd|done|done|].
  intros r dat h1 Hr1 Hu Hl Hres Hb Hs. set (p1 := pThis <| m_pUSBString := _ |>).
  assert (∀ ok pThis', ¬ (0 <= r ∧ good_header dat ∧ 4 < hd 0 dat) → (ok = true ↔ 0 <= r ∧ good_header dat) →
    string_read pThis pThis' ok dat → Q (ok, pThis') (m, h1)) as Hend.
  { intros ok pThis' H1 H2 H3. apply (HQ ok pThis' [_] h1 (host_ready_mono _ _ _ (Nat.le_succ_diag_r k) Hr1) Hs Hb).
    by apply string_at_once. }
  destruct (Z.ltb_spec r 0).
  { wp_step. apply Hend; [intros (? & _); lia|split; [done|intros (? & _); lia]|done]. }
  destruct Hres as (-> & H2 & Hmin); [done|]. change (Z.to_nat USBSTR_MIN_LENGTH) with 4%nat in Hl.
  wp_step. eapply wp_filled_cell; [done|apply hd_lookup; lia|].
  wp_step. apply wp_bad_header; [done|done|done|]. intros bad Hbad.
  destruct bad.
  { assert (¬ good_header dat) as Hng by (intros Hg; by discriminate (proj2 Hbad (conj Hg (gh_length _ Hg)))).
    wp_step. apply Hend; [by intros (_ & ? & _)|split; [done|by intros (_ & ?)]|done]. }
  destruct (proj1 Hbad eq_refl) as (Hg & Hge).
  unfold USBSTR_MIN_LENGTH in *. destruct (Z.ltb_spec 4 (hd 0 dat)) as [Hgt|Hle].
  - assert (is_u8 (hd 0 dat)) as Hh.
    { destruct dat; [simpl in H2; lia|]. by apply Forall_cons_1 in Hu as [? _]. }
    unfold is_u8 in Hh.
    eapply (wp_read_whole k p1); [exact Hr1|exact (device_ready_same _ _ _ _ Hs Hd)|done|lia|].
    intros ok pThis' r2 d2 h' Hr' Hs' Hb' Hok Hsr. rewrite Hb in Hb'.
    eapply (HQ ok pThis' [_; _] h' Hr'); [by eapply same_but_pid_trans|exact Hb'|].
    by apply string_in_two.
  - assert (string_descriptor dat) as Hsd by (split; [done|lia|done]).
    apply wp_convert_string; [done|exact Hsd|].
    apply Hend; [intros (_ & _ & ?); lia|done|]. by apply string_read_true.
Qed.

(** C17. Reading the string [id] in the language [lang], from a device that sends as
    much of a descriptor as was asked for and as there is, ends without a fault.
    The device is asked for the first four bytes of this string in this
    language, and if they begin a longer descriptor for all of it, and for
    nothing else. It succeeds exactly if the last answer is a complete string
    descriptor, and the string is then what that says: printable ASCII, at most
    126 characters, with an underscore for every other character. If it fails
    the string is as it was. *)
Theorem string_from_descriptor k pThis d id lang m h :
  host_ready (2 + k) h → device_ready (us_pDevice pThis) d (usb_get h) → 0 < id < 256 →
  wp (USBStringGetFromDescriptor pThis id lang) (λ '(ok, pThis') '(m', h'),
    m' = m ∧ host_ready k h' ∧ same_but_pid (usb_get h) (usb_get h') ∧
    ∃ es, bus_get h' = es ++ bus_get h ∧ string_reading (m_pEndpoint0 d) id lang pThis pThis' ok es)
    (m, h).
Proof.
  intros Hr Hd Hid. eapply wp_GetFromDescriptor; [done..|]. intros ok pThis' es h' H1 H2 H3 H4.
  split; [done|]. split; [done|]. split; [done|]. by exists es.
Qed.

(** ** The language *)

(** The units that a device lists; the default language if it is among them. *)
Definition language_of (d : list Z) : Z :=
  if decide (USBSTR_DEFAULT_LANGID ∈ map (unit_at d) (seq 0 (unit_count d)))
  then USBSTR_DEFAULT_LANGID else unit_at d 0.

Lemma wp_find_language n d b i m h (Q : bool → D * St → Prop) :
  (length d <= length b)%nat → (2 + 2 * (i + n) <= length d)%nat →
  Q (bool_decide (USBSTR_DEFAULT_LANGID ∈ map (unit_at d) (seq i n))) (m, h) →
  wp (find_language n (overwrite 0 (map Some d) b) i) Q (m, h).
Proof.
  revert i. induction n as [|n IH]; intros i Hl Hi HQ; cbn [find_language seq map] in *; [by wp_step|].
  wp_step. apply wp_filled_le16; [done|lia|]. fold (unit_at d i).
  destruct (Z.eqb_spec (unit_at d i) USBSTR_DEFAULT_LANGID) as [E|E].
  - wp_step. rewrite bool_decide_eq_true_2 in HQ; [done|]. rewrite E. left.
  - apply IH; [done|lia|]. rewrite (bool_decide_ext _ (USBSTR_DEFAULT_LANGID ∈ map (unit_at d) (seq (S i) n))) in HQ; [done|].
    rewrite elem_of_cons. split; [intros [?|?]; [congruence|done]|by right].
Qed.

Lemma wp_choose_language d b m h (Q : Z → D * St → Prop) :
  (length d <= length b)%nat → string_descriptor d → 4 <= hd 0 d →
  Q (language_of d) (m, h) → wp (choose_language (overwrite 0 (map Some d) b)) Q (m, h).
Proof.
  intros Hl [[_ He Ht] Hlen Hu] H4 HQ. apply odd8_even in He. unfold choose_language.
  wp_step. eapply wp_filled_cell; [done|apply hd_lookup; lia|].
  wp_step. apply wp_assert; [apply Z.leb_le; lia|]. wp_step. apply wp_assert; [by rewrite He|].
  wp_step. apply wp_find_language; [done|lia|]. fold (unit_count d). unfold language_of in HQ.
  case_bool_decide as Hd; [rewrite decide_True in HQ by done; by wp_step|].
  rewrite decide_False in HQ by done. apply wp_filled_le16; [done|lia|done].
Qed.

(** The language that the bytes of the last answer give. *)
Definition language_read (lang : Z) (d : list Z) : Prop :=
  lang = USBSTR_DEFAULT_LANGID ∨ string_descriptor d ∧ 4 <= hd 0 d ∧ lang = language_of d.

(** The requests for the languages, newest first. *)
Inductive language_reading (ep0 lang : Z) : list bus_event → Prop :=
  | language_at_once r d : language_read lang d →
      language_reading ep0 lang [BusDone (string_op ep0 0 0 4) r d]
  | language_in_two r d r2 d2 : language_read lang d2 →
      language_reading ep0 lang [BusDone (string_op ep0 0 0 (hd 0 d)) r2 d2; BusDone (string_op ep0 0 0 4) r d].

Lemma wp_GetLanguageID k pThis d m h (Q : Z → D * St → Prop) :
  host_ready (2 + k) h → device_ready (us_pDevice pThis) d (usb_get h) →
  (∀ r es h', host_ready k h' → same_but_pid (usb_get h) (usb_get h') →
     bus_get h' = es ++ bus_get h → language_reading (m_pEndpoint0 d) r es → Q r (m, h')) →
  wp (USBStringGetLanguageID pThis) Q (m, h).
Proof.
  intros Hr Hd HQ. unfold USBStringGetLanguageID. pose proof Hd as [Hp _ _].
  wp_step. apply wp_assert; [by apply negb_true_iff, Z.eqb_neq|].
  wp_step. eapply (wp_get_languages (S k)); [exact Hr|exact Hd|done|].
  intros r dat h1 Hr1 Hu Hl Hres Hb Hs.
  assert (∀ x, language_read x dat → Q x (m, h1)) as Hend.
  { intros x Hx. apply (HQ x [_] h1 (host_ready_mono _ _ _ (Nat.le_succ_diag_r k) Hr1) Hs Hb).
    by apply language_at_once. }
  destruct (Z.ltb_spec r 0); [wp_step; apply Hend; by left|].
  destruct Hres as (-> & H2 & Hmin); [done|]. change (Z.to_nat USBSTR_MIN_LENGTH) with 4%nat in Hl.
  wp_step. eapply wp_filled_cell; [done|apply hd_lookup; lia|].
  wp_step. apply wp_bad_header; [done|done|done|]. intros bad Hbad.
  destruct bad; [wp_step; apply Hend; by left|]. destruct (proj1 Hbad eq_refl) as (Hg & Hge).
  unfold USBSTR_MIN_LENGTH in *. destruct (Z.ltb_spec 4 (hd 0 dat)) as [Hgt|Hle].
  2: { assert (string_descriptor dat) as Hsd by (split; [done|lia|done]).
       apply wp_choose_language; [done|exact Hsd|done|]. apply Hend. by right. }
  assert (is_u8 (hd 0 dat)) as Hh.
  { destruct dat; [simpl in H2; lia|]. by apply Forall_cons_1 in Hu as [? _]. }
  unfold is_u8 in Hh. wp_step.
  eapply (wp_get_languages k); [exact Hr1|exact (device_ready_same _ _ _ _ Hs Hd)|lia|].
  intros r2 dat2 h2 Hr2 Hu2 Hl2 Hres2 Hb2 Hs2. rewrite Hb in Hb2.
  assert (∀ x, language_read x dat2 → Q x (m, h2)) as Hend2.
  { intros x Hx. eapply (HQ x [_; _] h2 Hr2); [by eapply same_but_pid_trans|exact Hb2|].
    by apply language_in_two. }
  destruct (Z.eqb_spec r2 (hd 0 dat)) as [->|]; cbn [negb]; [|wp_step; apply Hend2; by left].
  destruct Hres2 as (Hlen2 & H22 & Hmin2); [lia|].
  assert (length dat2 <= length (blank (hd 0%Z dat)))%nat as Hbl by (unfold blank; rewrite length_replicate; lia).
  wp_step. apply wp_changed_header; [done|done|lia|]. intros bad2 Hbad2.
  destruct bad2; [wp_step; apply Hend2; by left|]. destruct (proj1 Hbad2 eq_refl) as (Hh2 & Hg2).
  assert (string_descriptor dat2) as Hsd by (split; [done|lia|done]).
  apply wp_choose_language; [done|exact Hsd|lia|]. apply Hend2. right. split; [done|]. split; [lia|done].
Qed.
End Properties.

(** ** Concrete devices *)
Module StringDemo.
(** A device whose string 1 is "USB" with a character outside ASCII behind it. *)
Definition usb_string : list Z := [10; 3; 85; 0; 83; 0; 66; 0; 0xE9; 0].
Definition send (d : list Z) (op : bus_op) : Z * list Z :=
  match op with
  | ControlIn _ _ _ _ _ n => let l := take (Z.to_nat n) d in (Z.of_nat (length l), l)
  | ControlOut _ _ _ _ _ l => (if decide (l = []) then 8 else 0, [])
  | _ => (-1, [])
  end.

#[local] Instance speaks : Oracle := {| respond _ op := send usb_string op |}.
#[local] Instance speaks_laws : OracleLaws.
Proof.
  intros h op Hl. destruct op as [p l|p n|p t q v i l|p t q v i n]; simpl in *; unfold result_ok; simpl.
  - split_and!; try done. by left.
  - split_and!; [done|lia|by left].
  - split_and!; try done. right. destruct (decide (l = [])); lia.
  - split; [apply Forall_take; unfold usb_string; repeat (constructor; [unfold is_u8; lia|]); constructor|].
    rewrite length_take. lia.
Qed.
#[local] Instance speaks_answers : Answers Bus string_answer.
Proof.
  intros op s. unfold wlp. simpl. destruct op as [p l|p n|p t q v i l|p t q v i n]; simpl; try done.
  intros _ _ Hn _. destruct (Z.to_nat n) as [|[|j]] eqn:E; [lia|lia|]. simpl. rewrite length_take. simpl.
  split; lia.
Qed.
Definition device : TUSBDevice :=
  {| m_ucAddress := 5; m_Speed := USBSpeedHigh; m_pEndpoint0 := 16; m_bSplitTransfer := false;
     m_ucHubAddress := 0; m_ucHubPortNumber := 1 |}.
Definition ep0 : TUSBEndpoint :=
  {| m_pDevice := 1; m_ucNumber := 0; m_Type := EndpointTypeControl; m_bDirectionIn := false;
     m_nMaxPacketSize := 64; m_nInterval := 1; m_NextPID := USBPIDSetup |}.
Definition bus0 : Bus :=
  {| bw_usb := {| devices := {[ 1 := device ]}; endpoints := {[ 16 := ep0 ]}; urbs := ∅ |};
     bw_events := [] |}.
Definition blank_string : TUSBString := {| us_pDevice := 1; m_pUSBString := None; m_pString := [] |}.

Lemma bus0_ready k : host_ready k bus0.
Proof.
  split; [done|]. split; [done|]. intros p e Hp _. simpl in Hp.
  apply lookup_singleton_Some in Hp as [<- <-]. split; [done|]. split; [simpl; lia|done].
Qed.

Lemma bus0_device : device_ready 1 device (usb_get bus0).
Proof.
  split; [done|done|]. split; [done|]. exists ep0. split; [done|]. split; [done|].
  split; [simpl; lia|by exists device].
Qed.

(** "USB_" *)
Lemma string_from_descriptor_witness :
  wp (USBStringGetFromDescriptor blank_string 1 USBSTR_DEFAULT_LANGID) (λ '(ok, s') '(_, h'),
    (ok = true ∧ m_pString s' = [85; 83; 66; 95]) ∧
    ∃ es, bus_get h' = es ++ bus_get bus0 ∧ string_reading 16 1 0x409 blank_string s' ok es) (tt, bus0).
Proof.
  eapply wp_mono.
  - apply wp_and with (P := λ x _, x.1 = true ∧ m_pString x.2 = [85; 83; 66; 95]);
      [vm_compute; split; reflexivity|].
    apply (string_from_descriptor 0 blank_string device 1 USBSTR_DEFAULT_LANGID tt bus0
      (bus0_ready _) bus0_device). lia.
  - intros [ok s'] [m' h'] [H1 (_ & _ & _ & es & H2 & H3)]. split; [exact H1|].
    exists es. split; [exact H2|exact H3].
Defined.

(** A device that answers with a single byte. *)
#[local] Instance mumbles : Oracle := {| respond _ op := send [4] op |}.

(** The length of an answer is not looked at, only that it is no error: the
    header of a descriptor of which one byte came is read all the same, the
    second byte from memory that was never written. *)
Theorem short_string_answer :
  USBStringGetFromDescriptor (UsbHost0 := Bus_host (H := mumbles)) blank_string 1
    USBSTR_DEFAULT_LANGID bus0 = Err UndefBehaviour.
Proof. vm_compute. reflexivity. Qed.
End StringDemo.
