(* ===== verification/UsbDevice.v ===== *)
(** * lib/usbdevice.c and lib/usbdevicefactory.c: enumeration

    A device from its default address to its configured state: its descriptors
    are read and checked, it gets an address, and a driver is made for each of
    its interfaces that has one. The fields of [TUSBDevice] that transfers use
    are in the store of [Endpoint]; the others are here, under the same pointer.
    The drivers' own fields belong to their components: a state [C], with what
    their constructors and their [Configure] methods do as arguments. *)
From S2P Require Import Prelude CMem Util CString Endpoint ConfigParser.
From S2P Require Import UsbBus UsbFunction UsbString.

Definition USB_DEFAULT_ADDRESS : Z := 0.
Definition USB_FIRST_DEDICATED_ADDRESS : Z := 1.
Definition USB_MAX_ADDRESS : Z := 127.
Definition USBDEV_MAX_FUNCTIONS : nat := 10.
Definition MAX_CONFIG_DESC_SIZE : Z := 512.
Definition DESCRIPTOR_DEVICE : Z := 1.
Definition DESCRIPTOR_INDEX_DEFAULT : Z := 0.
Definition sizeof_TUSBDeviceDescriptor : Z := 18.

(** Offsets of the fields of a device descriptor, and of a configuration's. *)
Definition off_bDeviceClass : nat := 4.
Definition off_bDeviceSubClass : nat := 5.
Definition off_bDeviceProtocol : nat := 6.
Definition off_bMaxPacketSize0 : nat := 7.
Definition off_idVendor : nat := 8.
Definition off_idProduct : nat := 10.
Definition off_iManufacturer : nat := 14.
Definition off_iProduct : nat := 15.
Definition off_wTotalLength : nat := 2.
Definition off_bConfigurationValue : nat := 5.

Inductive TDeviceNameSelector := DeviceNameVendor | DeviceNameDevice | DeviceNameUnknown.

(** ** The state *)

Record TUSBDeviceData := {
  m_pDeviceDesc : option buffer;
  m_pConfigDesc : option buffer;
  m_pConfigParser : option TUSBConfigurationParser;
  m_ManufacturerString : TUSBString;
  m_ProductString : TUSBString;
  m_pFunction : list Z
}.
#[global] Instance TUSBDeviceData_eta : Eta TUSBDeviceData := λ r,
  {| m_pDeviceDesc := m_pDeviceDesc r; m_pConfigDesc := m_pConfigDesc r;
     m_pConfigParser := m_pConfigParser r; m_ManufacturerString := m_ManufacturerString r;
     m_ProductString := m_ProductString r; m_pFunction := m_pFunction r |}.

(** The static [s_ucNextAddress]; the devices' data; the functions, which are
    the first part of every driver's object. *)
Record Enum := {
  s_ucNextAddress : Z;
  device_data : gmap Z TUSBDeviceData;
  function_store : gmap Z TUSBFunction
}.
#[global] Instance Enum_eta : Eta Enum := λ r,
  {| s_ucNextAddress := s_ucNextAddress r; device_data := device_data r;
     function_store := function_store r |}.

Section Device.
Context {C H : Type} `{!UsbHost H}.
Abbreviation W := ((Enum * C) * H)%type.

(** The fields of its own that a driver's constructor initialises. *)
Context (class_init : TConfigure → Z → C → C).

Definition enum_get {A} (f : Enum → A) : M W A := gets (λ w, f (fst (fst w))).
Definition enum_set (f : Enum → Enum) : M W unit :=
  modify (λ w, ((f (fst (fst w)), snd (fst w)), snd w)).

Definition data_at (p : Z) : M W TUSBDeviceData :=
  l ← enum_get device_data; deref (l !! p).
Definition data_set (p : Z) (d : TUSBDeviceData) : M W unit :=
  enum_set (λ e, e <| device_data := <[p := d]> (device_data e) |>).
Definition data_modify (p : Z) (f : TUSBDeviceData → TUSBDeviceData) : M W unit :=
  d ← data_at p; data_set p (f d).

Definition function_at (p : Z) : M W TUSBFunction :=
  l ← enum_get function_store; deref (l !! p).
Definition function_set (p : Z) (f : TUSBFunction) : M W unit :=
  enum_set (λ e, e <| function_store := <[p := f]> (function_store e) |>).
Definition function_free (p : Z) : M W unit :=
  enum_set (λ e, e <| function_store := delete p (function_store e) |>).
Definition function_malloc : M W Z := l ← enum_get function_store; mret (fresh_key l).

(** The fields of the device that transfers use. *)
Definition device_set (p : Z) (d : TUSBDevice) : M W unit :=
  modify (λ w, usb_put ((usb_get w) <| devices := <[p := d]> (devices (usb_get w)) |>) w).
Definition device_free (p : Z) : M W unit :=
  modify (λ w, usb_put ((usb_get w) <| devices := delete p (devices (usb_get w)) |>) w).

(** ** Names *)

Definition device_byte (pThis : Z) (off : nat) : M W Z :=
  d ← data_at pThis;
  match m_pDeviceDesc d with None => fail AssertFailed | Some b => cell_at b off end.
Definition device_word (pThis : Z) (off : nat) : M W Z :=
  d ← data_at pThis;
  match m_pDeviceDesc d with None => fail AssertFailed | Some b => le16_at b off end.

(** "ven%x-%x" and "dev%x-%x-%x" ([string_format_correct]). *)
Definition USBDeviceGetName (pThis : Z) (Selector : TDeviceNameSelector) : M W (list Z) :=
  match Selector with
  | DeviceNameVendor =>
      v ← device_word pThis off_idVendor;
      p ← device_word pThis off_idProduct;
      mret ([118; 101; 110] ++ numeral false 16 v ++ dash ++ numeral false 16 p)
  | DeviceNameDevice =>
      c ← device_byte pThis off_bDeviceClass;
      if (c =? 0) || (c =? 0xFF) then mret unknown
      else
        sc ← device_byte pThis off_bDeviceSubClass;
        pr ← device_byte pThis off_bDeviceProtocol;
        mret ([100; 101; 118] ++ numeral false 16 c ++ dash ++ numeral false 16 sc ++ dash
              ++ numeral false 16 pr)
  | DeviceNameUnknown => fail AssertFailed
  end.

(** The names a device has, for the log. *)
Fixpoint names_loop (pThis : Z) (l : list TDeviceNameSelector) (pResult : list Z) : M W (list Z) :=
  match l with
  | [] => mret pResult
  | s :: l =>
      n ← USBDeviceGetName pThis s;
      names_loop pThis l
        (if negb (str_cmp n unknown =? 0)
         then (if (0 <? Z.of_nat (length pResult)) then pResult ++ [44; 32] else pResult) ++ n
         else pResult)
  end.
Definition USBDeviceGetNames (pThis : Z) : M W (list Z) :=
  r ← names_loop pThis [DeviceNameVendor; DeviceNameDevice] [];
  mret (if (Z.of_nat (length r) =? 0) then unknown else r).

(** ** Accessors *)

Definition USBDeviceGetDeviceDescriptor (pThis : Z) : M W buffer :=
  d ← data_at pThis;
  match m_pDeviceDesc d with None => fail AssertFailed | Some b => mret b end.
Definition USBDeviceGetConfigurationDescriptor (pThis : Z) : M W buffer :=
  d ← data_at pThis;
  match m_pConfigDesc d with None => fail AssertFailed | Some b => mret b end.

(** The device's parser moves on. *)
Definition USBDeviceGetDescriptor (pThis ucType : Z) : M W (option nat) :=
  d ← data_at pThis;
  match m_pConfigParser d with
  | None => fail AssertFailed
  | Some p =>
      '(o, p) ← on_parser (USBConfigurationParserGetDescriptor ucType) p;
      data_set pThis (d <| m_pConfigParser := Some p |>) ;; mret o
  end.
Definition USBDeviceConfigurationError (pThis : Z) : M W unit :=
  d ← data_at pThis;
  match m_pConfigParser d with None => fail AssertFailed | Some _ => mret tt end.
Definition USBDeviceSetAddress (pThis ucAddress : Z) : M W unit :=
  c_assert (ucAddress <=? USB_MAX_ADDRESS) ;;
  d ← device_at pThis;
  device_set pThis (d <| m_ucAddress := ucAddress |>).

(** ** The object *)

Definition USBDevice (pThis : Z) (Speed : TUSBSpeed) (bSplitTransfer : bool)
    (ucHubAddress ucHubPortNumber : Z) : M W unit :=
  device_set pThis {| m_ucAddress := USB_DEFAULT_ADDRESS; m_Speed := Speed; m_pEndpoint0 := 0;
                      m_bSplitTransfer := bSplitTransfer; m_ucHubAddress := ucHubAddress;
                      m_ucHubPortNumber := ucHubPortNumber |} ;;
  e ← USBEndpoint pThis;
  ep0 ← endpoint_new e;
  d ← device_at pThis;
  device_set pThis (d <| m_pEndpoint0 := ep0 |>) ;;
  c_assert (1 <=? ucHubPortNumber) ;;
  ms ← USBString pThis;
  ps ← USBString pThis;
  data_set pThis {| m_pDeviceDesc := None; m_pConfigDesc := None; m_pConfigParser := None;
                    m_ManufacturerString := ms; m_ProductString := ps;
                    m_pFunction := replicate USBDEV_MAX_FUNCTIONS 0 |}.

(** A function's object is destroyed as a plain [TUSBFunction]. *)
Definition function_delete (f : Z) : M W unit :=
  fn ← function_at f; _USBFunction fn ;; function_free f.
Fixpoint delete_functions (l : list Z) : M W unit :=
  match l with
  | [] => mret tt
  | f :: l => (if negb (f =? 0) then function_delete f else mret tt) ;; delete_functions l
  end.

Definition _USBDevice (pThis : Z) : M W unit :=
  d ← data_at pThis;
  delete_functions (m_pFunction d) ;;
  dev ← device_at pThis;
  (if negb (m_pEndpoint0 dev =? 0) then
     endpoint_at (m_pEndpoint0 dev) ;; endpoint_free (m_pEndpoint0 dev)
   else mret tt) ;;
  device_set pThis (dev <| m_pEndpoint0 := 0 |>) ;;
  data_set pThis {| m_pDeviceDesc := None; m_pConfigDesc := None; m_pConfigParser := None;
                    m_ManufacturerString := _USBString (m_ManufacturerString d);
                    m_ProductString := _USBString (m_ProductString d);
                    m_pFunction := map (λ _, 0) (m_pFunction d) |}.

(** ** lib/usbdevicefactory.c *)

(** The names it knows, in the order of its tests. *)
Definition factory_table : list (list Z * TConfigure) :=
  [ ([105; 110; 116; 57; 45; 48; 45; 50], USBStandardHubConfigure_);
    ([105; 110; 116; 57; 45; 48; 45; 48], USBStandardHubConfigure_);
    ([105; 110; 116; 56; 45; 54; 45; 53; 48], USBBulkOnlyMassStorageDeviceConfigure_);
    ([105; 110; 116; 51; 45; 49; 45; 49], USBKeyboardDeviceConfigure_);
    ([105; 110; 116; 51; 45; 49; 45; 50], USBMouseDeviceConfigure_);
    ([118; 101; 110; 52; 50; 52; 45; 101; 99; 48; 48], SMSC951xDeviceConfigure_);
    ([118; 101; 110; 52; 50; 52; 45; 55; 56; 48; 48], LAN7800DeviceConfigure_);
    ([105; 110; 116; 51; 45; 48; 45; 48], USBGamePadDeviceConfigure_);
    ([105; 110; 116; 49; 45; 51; 45; 48], USBMIDIDeviceConfigure_) ].

Fixpoint factory_lookup (l : list (list Z * TConfigure)) (pName : list Z) : option TConfigure :=
  match l with
  | [] => None
  | (n, c) :: l => if str_cmp pName n =? 0 then Some c else factory_lookup l pName
  end.

(** Every driver's constructor copies the parent and sets its own method. *)
Definition USBDeviceFactoryGetDevice (pParent : Z) (pName : list Z) : M W Z :=
  match factory_lookup factory_table pName with
  | None => mret 0
  | Some c =>
      p ← function_malloc;
      parent ← function_at pParent;
      f ← USBFunctionCopy parent;
      function_set p (f <| Configure := c |>) ;;
      modify (λ w, ((fst (fst w), class_init c p (snd (fst w))), snd w)) ;;
      mret p
  end.

(** ** Initialisation: onto the address state *)

(** A descriptor read into the first [n] bytes of a buffer. *)
Definition get_descriptor (pThis ucType : Z) (b : buffer) (n : Z) : M W (Z * buffer) :=
  ep0 ← USBDeviceGetEndpoint0 pThis;
  '(r, b') ← DWHCIDeviceGetDescriptor ep0 ucType DESCRIPTOR_INDEX_DEFAULT (take (Z.to_nat n) b) REQUEST_IN;
  mret (r, b' ++ drop (Z.to_nat n) b).

Definition set_device_desc (pThis : Z) (b : option buffer) : M W unit :=
  data_modify pThis (λ d, d <| m_pDeviceDesc := b |>).
Definition set_config_desc (pThis : Z) (b : option buffer) : M W unit :=
  data_modify pThis (λ d, d <| m_pConfigDesc := b |>).

(** The device descriptor: its first eight bytes, which hold the packet size of
    endpoint 0, and then all of it. *)
Definition read_device_descriptor (pThis : Z) : M W bool :=
  d ← data_at pThis;
  c_assert (negb (bool_decide (is_Some (m_pDeviceDesc d)))) ;;
  '(r, b) ← get_descriptor pThis DESCRIPTOR_DEVICE (blank sizeof_TUSBDeviceDescriptor)
              USB_DEFAULT_MAX_PACKET_SIZE;
  set_device_desc pThis (Some b) ;;
  if negb (r =? USB_DEFAULT_MAX_PACKET_SIZE) then set_device_desc pThis None ;; mret false
  else
    len ← cell_at b 0;
    bad ← (if negb (len =? sizeof_TUSBDeviceDescriptor) then mret true
           else ty ← cell_at b 1; mret (negb (ty =? DESCRIPTOR_DEVICE)));
    if bad : bool then set_device_desc pThis None ;; mret false
    else
      mps ← cell_at b off_bMaxPacketSize0;
      ep0 ← USBDeviceGetEndpoint0 pThis;
      e ← endpoint_at ep0;
      endpoint_set ep0 (USBEndpointSetMaxPacketSize e mps) ;;
      '(r, b) ← get_descriptor pThis DESCRIPTOR_DEVICE b sizeof_TUSBDeviceDescriptor;
      set_device_desc pThis (Some b) ;;
      if negb (r =? sizeof_TUSBDeviceDescriptor) then set_device_desc pThis None ;; mret false
      else mret true.

Definition DWHCIDeviceSetAddress (pEndpoint ucDeviceAddress : Z) : M W bool :=
  r ← ControlMessageOut pEndpoint REQUEST_OUT SET_ADDRESS ucDeviceAddress 0 [];
  if r <? 0 then mret false else HostMsDelay 50 ;; mret true.
Definition DWHCIDeviceSetConfiguration (pEndpoint ucConfigurationValue : Z) : M W bool :=
  r ← ControlMessageOut pEndpoint REQUEST_OUT SET_CONFIGURATION ucConfigurationValue 0 [];
  if r <? 0 then mret false else HostMsDelay 50 ;; mret true.

(** The next free address; the counter has eight bits. *)
Definition assign_address (pThis : Z) : M W bool :=
  ucAddress ← enum_get s_ucNextAddress;
  enum_set (λ e, e <| s_ucNextAddress := u8 (ucAddress + 1) |>) ;;
  if USB_MAX_ADDRESS <? ucAddress then mret false
  else
    ep0 ← USBDeviceGetEndpoint0 pThis;
    ok ← DWHCIDeviceSetAddress ep0 ucAddress;
    if negb ok then mret false
    else USBDeviceSetAddress pThis ucAddress ;; mret true.

(** Manufacturer and product, where the device names them. *)
Definition read_strings (pThis : Z) : M W unit :=
  iM ← device_byte pThis off_iManufacturer;
  iP ← device_byte pThis off_iProduct;
  if negb (iM =? 0) || negb (iP =? 0) then
    d ← data_at pThis;
    usLanguageID ← USBStringGetLanguageID (m_ManufacturerString d);
    (if negb (iM =? 0) then
       '(_, s) ← USBStringGetFromDescriptor (m_ManufacturerString d) iM usLanguageID;
       data_modify pThis (λ d, d <| m_ManufacturerString := s |>)
     else mret tt) ;;
    (if negb (iP =? 0) then
       d ← data_at pThis;
       '(_, s) ← USBStringGetFromDescriptor (m_ProductString d) iP usLanguageID;
       data_modify pThis (λ d, d <| m_ProductString := s |>)
     else mret tt)
  else mret tt.

(** The bytes of a buffer that was filled. *)
Fixpoint filled_bytes (b : buffer) : M W (list Z) :=
  match b with
  | [] => mret []
  | Some v :: b => l ← filled_bytes b; mret (v :: l)
  | None :: _ => fail UndefBehaviour
  end.

(** The configuration: its descriptor, which tells the length of the whole,
    and then all of it, checked by the parser. *)
Definition parse_config (pThis : Z) (b : buffer) (nTotalLength : Z) : M W bool :=
  l ← filled_bytes b;
  d ← data_at pThis;
  c_assert (negb (bool_decide (is_Some (m_pConfigParser d)))) ;;
  '(_, p) ← on_parser (USBConfigurationParser (S (Z.to_nat nTotalLength)) (Some l) nTotalLength)
              {| cp_pBuffer := None; cp_nBufLen := 0; m_bValid := false; m_pEndPosition := 0;
                 m_pNextPosition := 0; m_pCurrentDescriptor := None; m_pErrorPosition := 0 |};
  data_modify pThis (λ d, d <| m_pConfigParser := Some p |>) ;;
  if negb (m_bValid p) then USBDeviceConfigurationError pThis ;; mret false else mret true.

Definition read_config (pThis : Z) : M W bool :=
  d ← data_at pThis;
  c_assert (negb (bool_decide (is_Some (m_pConfigDesc d)))) ;;
  '(r, b) ← get_descriptor pThis DESCRIPTOR_CONFIGURATION
              (blank sizeof_TUSBConfigurationDescriptor) sizeof_TUSBConfigurationDescriptor;
  set_config_desc pThis (Some b) ;;
  if negb (r =? sizeof_TUSBConfigurationDescriptor) then set_config_desc pThis None ;; mret false
  else
    len ← cell_at b 0;
    bad ← (if negb (len =? sizeof_TUSBConfigurationDescriptor) then mret true
           else
             ty ← cell_at b 1;
             if negb (ty =? DESCRIPTOR_CONFIGURATION) then mret true
             else n ← le16_at b off_wTotalLength; mret (MAX_CONFIG_DESC_SIZE <? n));
    if bad : bool then set_config_desc pThis None ;; mret false
    else
      nTotalLength ← le16_at b off_wTotalLength;
      '(r, b) ← get_descriptor pThis DESCRIPTOR_CONFIGURATION (blank nTotalLength) nTotalLength;
      set_config_desc pThis (Some b) ;;
      if negb (r =? nTotalLength) then set_config_desc pThis None ;; mret false
      else parse_config pThis b nTotalLength.

(** ** The functions of the interfaces *)

Definition set_function (pThis : Z) (n : nat) (f : Z) : M W unit :=
  data_modify pThis (λ d, d <| m_pFunction := <[n := f]> (m_pFunction d) |>).

(** The driver of a function: by the vendor's name and the device's for the
    first one, then by the interface's. *)
Definition find_driver (pThis : Z) (nFunction : nat) (f : Z) : M W Z :=
  pChild ← (if (nFunction =? 0)%nat then
              n ← USBDeviceGetName pThis DeviceNameVendor;
              c ← USBDeviceFactoryGetDevice f n;
              if c =? 0 then
                n ← USBDeviceGetName pThis DeviceNameDevice;
                USBDeviceFactoryGetDevice f n
              else mret c
            else mret 0);
  if pChild =? 0 then
    fn ← function_at f;
    n ← USBFunctionGetInterfaceName fn;
    if negb (str_cmp n unknown =? 0) then USBDeviceFactoryGetDevice f n else mret 0
  else mret pChild.

(** The interface at [o] as a function: its driver, or 0. *)
Definition make_function (pThis : Z) (nFunction : nat) : M W Z :=
  d ← data_at pThis;
  c_assert (bool_decide (is_Some (m_pConfigParser d))) ;;
  c_assert (bool_decide (m_pFunction d !! nFunction = Some 0)) ;;
  f ← function_malloc;
  fn ← USBFunction pThis (m_pConfigParser d);
  function_set f fn ;;
  set_function pThis nFunction f ;;
  pChild ← find_driver pThis nFunction f;
  function_delete f ;;
  set_function pThis nFunction 0 ;;
  mret pChild.

(** A field of the descriptor the device's parser has found. *)
Definition config_byte (pThis : Z) (o : nat) : M W Z :=
  d ← data_at pThis;
  match m_pConfigParser d with
  | None => fail AssertFailed
  | Some p => '(v, _) ← on_parser (byte_at o) p; mret v
  end.

(** Every turn passes an interface descriptor. An interface number below the
    counter is an alternate setting of an interface that has its function. *)
Fixpoint interface_loop (fuel : nat) (pThis : Z) (nFunction : nat) (ucInterfaceNumber : Z) : M W nat :=
  match fuel with
  | O => fail OutOfFuel
  | S fuel =>
      o ← USBDeviceGetDescriptor pThis DESCRIPTOR_INTERFACE;
      match o with
      | None => mret nFunction
      | Some o =>
          num ← config_byte pThis (o + off_bInterfaceNumber);
          let ucInterfaceNumber := if ucInterfaceNumber <? num then num else ucInterfaceNumber in
          if negb (num =? ucInterfaceNumber) then interface_loop fuel pThis nFunction ucInterfaceNumber
          else
            pChild ← make_function pThis nFunction;
            if pChild =? 0 then interface_loop fuel pThis nFunction ucInterfaceNumber
            else
              set_function pThis nFunction pChild ;;
              if (S nFunction =? USBDEV_MAX_FUNCTIONS)%nat then mret (S nFunction)
              else interface_loop fuel pThis (S nFunction) (u8 (ucInterfaceNumber + 1))
      end
  end.

Definition make_functions (pThis : Z) : M W bool :=
  d ← data_at pThis;
  match m_pConfigParser d with
  | None => fail AssertFailed
  | Some p =>
      n ← interface_loop (S (m_pEndPosition p)) pThis 0 0;
      mret (negb (n =? 0)%nat)
  end.

Definition USBDeviceInitialize (pThis : Z) : M W bool :=
  ok ← read_device_descriptor pThis;
  if negb ok then mret false
  else
    ok ← assign_address pThis;
    if negb ok then mret false
    else
      read_strings pThis ;;
      ok ← read_config pThis;
      if negb ok then mret false
      else USBDeviceGetNames pThis ;; make_functions pThis.

(** ** Configuration: onto the configured state *)

(** The virtual method [Configure] of the drivers is an argument. *)
Fixpoint configure_loop (configure : TConfigure → Z → M W bool) (pThis : Z) (fuel : nat) (n : nat)
    (bResult : bool) : M W bool :=
  match fuel with
  | O => mret bResult
  | S fuel =>
      d ← data_at pThis;
      f ← deref (m_pFunction d !! n);
      if negb (f =? 0) then
        fn ← function_at f;
        ok ← configure (Configure fn) f;
        if negb ok then
          function_delete f ;; set_function pThis n 0 ;;
          configure_loop configure pThis fuel (S n) bResult
        else configure_loop configure pThis fuel (S n) true
      else configure_loop configure pThis fuel (S n) bResult
  end.

Definition USBDeviceConfigure (configure : TConfigure → Z → M W bool) (pThis : Z) : M W bool :=
  USBDeviceGetEndpoint0 pThis ;;
  d ← data_at pThis;
  match m_pConfigDesc d with
  | None => mret false
  | Some b =>
      v ← cell_at b off_bConfigurationValue;
      ep0 ← USBDeviceGetEndpoint0 pThis;
      ok ← DWHCIDeviceSetConfiguration ep0 v;
      if negb ok then mret false
      else configure_loop configure pThis USBDEV_MAX_FUNCTIONS 0 false
  end.
End Device.
