(* ===== verification/UsbDeviceProofs.v ===== *)
(** * Enumeration: what initialising a device does

    The phases of [USBDeviceInitialize], each against any device that answers
    as the standard says. *)
From S2P Require Import Prelude CMem Util CString Endpoint ConfigParser.
From S2P Require Import UsbBus UsbFunction UsbString UsbDevice.

(** ** Well-behaved devices

    A device descriptor has a packet size; a configuration has a length, and
    the parser comes to an end on it ([parser_valid_iff], [parser_hangs_or_ends]
    say when it does); strings are as [string_answer] says. *)
Definition blank_parser : TUSBConfigurationParser :=
  {| cp_pBuffer := None; cp_nBufLen := 0; m_bValid := false; m_pEndPosition := 0;
     m_pNextPosition := 0; m_pCurrentDescriptor := None; m_pErrorPosition := 0 |}.

Definition config_answer (n : Z) (d : list Z) : Prop :=
  (n = 9 → d !! 2%nat ≠ Some 0 ∨ d !! 3%nat ≠ Some 0) ∧
  ∃ p, USBConfigurationParser (S (Z.to_nat n)) (Some d) n blank_parser = Ok (tt, p).

Definition device_answer (op : bus_op) (r : Z) (d : list Z) : Prop :=
  string_answer op r d ∧
  match op with
  | ControlIn _ _ q v _ n =>
      q = GET_DESCRIPTOR →
      (v = 0x100 → 8 <= r → d !! off_bMaxPacketSize0 ≠ Some 0) ∧
      (v = 0x200 → r = n → config_answer n d)
  | _ => True
  end.

Lemma answers_mono {St} `{!UsbHost St} (P R : bus_op → Z → list Z → Prop) :
  (∀ op r d, P op r d → R op r d) → Answers St P → Answers St R.
Proof. intros HPR HP op s. eapply wlp_mono; [apply HP|]. intros x s' Hx. by apply HPR. Qed.

(** ** What a phase leaves alone *)

(** The objects other than the device [p]; no endpoint stops being usable. *)
Record usb_step (p : Z) (u u' : Usb) : Prop := {
  us_devices q : q ≠ p → devices u' !! q = devices u !! q;
  us_self : is_Some (devices u !! p) → is_Some (devices u' !! p);
  us_endpoints q ty : endpoint_is u q ty → endpoint_is u' q ty
}.

Lemma usb_step_same p u u' : same_but_pid u u' → usb_step p u u'.
Proof.
  intros Hs. pose proof Hs as [Hd _]. split.
  - intros q _. by rewrite Hd.
  - by rewrite Hd.
  - intros q ty. by apply endpoint_is_same.
Qed.

Lemma usb_step_trans p u1 u2 u3 : usb_step p u1 u2 → usb_step p u2 u3 → usb_step p u1 u3.
Proof.
  intros [A1 A2 A3] [B1 B2 B3]. split; [|auto|auto]. intros q Hq. by rewrite B1, A1.
Qed.

(** A change of the device itself, and of an endpoint's packet size. *)
Lemma usb_step_device p d u :
  is_Some (devices u !! p) → usb_step p u (u <| devices := <[p := d]> (devices u) |>).
Proof.
  intros Hp. split; simpl.
  - intros q Hq. by rewrite lookup_insert_ne.
  - intros _. rewrite lookup_insert_eq. by eexists.
  - intros q ty (H0 & e & He & Ht & Hm & Hd). split; [done|]. exists e. simpl.
    split; [done|]. split; [done|]. split; [done|].
    destruct (decide (m_pDevice e = p)) as [->|Hne]; [rewrite lookup_insert_eq; by eexists|].
    by rewrite lookup_insert_ne.
Qed.

Lemma usb_step_size p ep e n u :
  endpoints u !! ep = Some e → 0 < n < 65536 →
  usb_step p u (upd_endpoint ep (e <| m_nMaxPacketSize := n |>) u).
Proof.
  intros He Hn. split; [done|done|]. intros q ty (H0 & e' & He' & Ht & Hm & Hd).
  split; [done|]. unfold upd_endpoint, upd. simpl. destruct (decide (q = ep)) as [->|Hne].
  - rewrite He in He'. injection He' as <-. eexists. rewrite lookup_insert_eq.
    split; [done|]. split; [exact Ht|]. split; [exact Hn|exact Hd].
  - exists e'. rewrite lookup_insert_ne by done. split; [done|]. split; [exact Ht|]. split; [exact Hm|exact Hd].
Qed.

Lemma objects_ok_size serves ep e n u :
  objects_ok serves u → endpoints u !! ep = Some e → 0 < n < 65536 →
  objects_ok serves (upd_endpoint ep (e <| m_nMaxPacketSize := n |>) u).
Proof.
  intros [Hd He] Hp Hn. split; [exact Hd|]. intros q e' Hq Ht. simpl in Hq.
  apply lookup_insert_Some in Hq as [[<- <-]|[_ Hq]]; [|by eapply He].
  destruct (He _ _ Hp Ht) as (H1 & _ & H3). split; [done|]. by split.
Qed.

Lemma objects_ok_device (serves : TUSBDevice → Prop) p d u :
  objects_ok serves u → serves d → objects_ok serves (u <| devices := <[p := d]> (devices u) |>).
Proof.
  intros [Hd He] Hs. split; [|exact He]. intros q d' Hq. simpl in Hq.
  apply lookup_insert_Some in Hq as [[_ <-]|[_ Hq]]; [done|by eapply Hd].
Qed.

(** ** What is said to a new device *)

(** Requests on endpoint 0: descriptors of the types device, configuration and
    string, and the address [a]; between them only the delay after the address. *)
Definition enum_event (ep a : Z) (ev : bus_event) : Prop :=
  match ev with
  | BusDelay ms => ms = 50
  | BusDone (ControlIn q t r v _ _) _ _ => q = ep ∧ t = 0x80 ∧ r = 6 ∧ 1 <= v / 256 <= 3
  | BusDone op _ _ => op = ControlOut ep 0 5 a 0 []
  end.

(** GET_DESCRIPTOR of the type and index [v], answered with all that was asked
    for. *)
Definition got (ep v : Z) (d : list Z) : bus_event :=
  BusDone (ControlIn ep 0x80 6 v 0 (Z.of_nat (length d))) (Z.of_nat (length d)) d.

(** The texts: the languages if there is any text, then each text that has a
    number, in a language the device gave. *)
Definition text_said (ep id lang : Z) (s s' : TUSBString) (es : list bus_event) : Prop :=
  if id =? 0 then es = [] ∧ s' = s else ∃ ok, string_reading ep id lang s s' ok es.
Definition texts_said (ep iM iP : Z) (dd dd' : TUSBDeviceData) (es : list bus_event) : Prop :=
  if (iM =? 0) && (iP =? 0) then es = []
  else ∃ lang l1 l2 l3, es = l3 ++ l2 ++ l1 ∧ language_reading ep lang l1 ∧
    text_said ep iM lang (m_ManufacturerString dd) (m_ManufacturerString dd') l2 ∧
    text_said ep iP lang (m_ProductString dd) (m_ProductString dd') l3.

(** The dialog of an initialisation that succeeds, newest first: eight bytes of
    the device descriptor and all of it; the address and a delay; the texts the
    descriptor numbers; nine bytes of the configuration and as many as these
    state. *)
Definition dialog (ep a : Z) (desc conf : list Z) (dd dd' : TUSBDeviceData) (es : list bus_event) : Prop :=
  ∃ d8 c9 r ls, length d8 = 8%nat ∧ length c9 = 9%nat ∧ 0 <= r ∧
    le_value (take 2 (drop 2 c9)) = Z.of_nat (length conf) ∧
    texts_said ep (desc !!! 14%nat) (desc !!! 15%nat) dd dd' ls ∧
    es = [got ep 0x200 conf; got ep 0x200 c9] ++ ls ++
         [BusDelay 50; BusDone (ControlOut ep 0 5 a 0 []) r []] ++ [got ep 0x100 desc; got ep 0x100 d8].

Lemma string_enum ep a id lang n r d : 0 <= id < 256 → enum_event ep a (BusDone (string_op ep id lang n) r d).
Proof. intros Hid. simpl. split; [done|]. split; [done|]. split; [done|]. lia. Qed.
Lemma string_reading_enum ep a id lang s s' ok es : 0 <= id < 256 →
  string_reading ep id lang s s' ok es → Forall (enum_event ep a) es.
Proof. intros Hid []; repeat (constructor; [by apply string_enum|]); constructor. Qed.
Lemma language_reading_enum ep a lang es : language_reading ep lang es → Forall (enum_event ep a) es.
Proof. intros []; repeat (constructor; [by apply string_enum|]); constructor. Qed.
Lemma string_reading_read ep id lang s s' ok es :
  string_reading ep id lang s s' ok es → ∃ d, string_read s s' ok d.
Proof. intros []; by eexists. Qed.

Section Phases.
Context {C H : Type} `{!UsbHost H} `{!UsbHostLaws H} `{!UsbHostRecovers H} `{!Answers H device_answer}.
Context (ep a : Z).
Implicit Types (e : Enum) (c : C) (h : H).

(** ** Steps through the state *)

Lemma wp_enum_get {A} (f : Enum → A) (Q : A → (Enum * C) * H → Prop) e c h :
  Q (f e) ((e, c), h) → wp (enum_get f) Q ((e, c), h).
Proof. done. Qed.
Lemma wp_enum_set (f : Enum → Enum) (Q : unit → (Enum * C) * H → Prop) e c h :
  Q tt ((f e, c), h) → wp (enum_set f) Q ((e, c), h).
Proof. done. Qed.
Lemma wp_data_at p dd (Q : TUSBDeviceData → (Enum * C) * H → Prop) e c h :
  device_data e !! p = Some dd → Q dd ((e, c), h) → wp (data_at p) Q ((e, c), h).
Proof. intros Hd HQ. unfold data_at. wp_step. apply wp_enum_get. rewrite Hd. exact HQ. Qed.

Definition put_data (p : Z) (dd : TUSBDeviceData) e : Enum :=
  e <| device_data := <[p := dd]> (device_data e) |>.

Lemma wp_data_modify p f dd (Q : unit → (Enum * C) * H → Prop) e c h :
  device_data e !! p = Some dd → Q tt ((put_data p (f dd) e, c), h) →
  wp (data_modify p f) Q ((e, c), h).
Proof. intros Hd HQ. unfold data_modify. wp_step. eapply wp_data_at; [done|]. exact HQ. Qed.

Lemma put_data_twice p dd dd' e : put_data p dd' (put_data p dd e) = put_data p dd' e.
Proof. unfold put_data, upd. simpl. by rewrite insert_insert_eq. Qed.
Lemma put_data_at p dd e : device_data (put_data p dd e) !! p = Some dd.
Proof. unfold put_data, upd. simpl. apply lookup_insert_eq. Qed.

Lemma overwrite_take (d : list (option Z)) (b : buffer) n :
  (length d <= n)%nat → (n <= length b)%nat →
  overwrite 0 d (take n b) ++ drop n b = overwrite 0 d b.
Proof.
  intros Hd Hn. unfold overwrite. rewrite !take_0, !app_nil_l, <- app_assoc. f_equal. simpl.
  rewrite skipn_firstn_comm. rewrite <- (take_drop (n - length d) (drop (length d) b)) at 2.
  rewrite drop_drop. by replace (length d + (n - length d))%nat with n by lia.
Qed.

(** A descriptor request. *)
Lemma wp_get_descriptor k p d ty b n e c h (Q : Z * buffer → (Enum * C) * H → Prop) :
  host_ready (S k) h → device_ready p d (usb_get h) → 0 < n < 65536 → (Z.to_nat n <= length b)%nat →
  let op := ControlIn (m_pEndpoint0 d) REQUEST_IN GET_DESCRIPTOR (u16 (Z.lor (Z.shiftl ty 8) 0)) 0 n in
  (∀ r dat h', host_ready k h' → Forall is_u8 dat → (length dat <= Z.to_nat n)%nat →
     r = -1 ∨ r = Z.of_nat (length dat) → device_answer op r dat →
     bus_get h' = BusDone op r dat :: bus_get h → same_but_pid (usb_get h) (usb_get h') →
     Q (r, overwrite 0 (map Some dat) b) ((e, c), h')) →
  wp (get_descriptor p ty b n) Q ((e, c), h).
Proof.
  intros Hr [Hp Hd He] Hn Hb op HQ. unfold get_descriptor.
  assert (Z.of_nat (length (take (Z.to_nat n) b)) = n) as Hl by (rewrite length_take; lia).
  wp_step. eapply wp_DeviceGetEndpoint0; [exact Hd|by destruct He|]. wp_step.
  eapply (wp_ControlMessageIn_answers device_answer k); [exact Hr|rewrite Hl; by apply control_in_ok|].
  rewrite Hl. intros r dat h' Hr' Hu Hld Hres Ha Hbus Hs. wp_step.
  rewrite length_take in Hld. rewrite overwrite_take by (rewrite ?length_map; lia).
  apply HQ; try done. lia.
Qed.

(** ** What a phase leaves *)

(** The device is the only thing that changed, the host is ready for [k] more
    requests, and the history has grown by what may be said to a new device. *)
Record phase (p : Z) (k : nat) h h' : Prop := {
  ph_ready : host_ready k h';
  ph_usb : usb_step p (usb_get h) (usb_get h');
  ph_bus : ∃ es, bus_get h' = es ++ bus_get h ∧ Forall (enum_event ep a) es
}.

Lemma phase_same p k h h' ev : host_ready k h' → same_but_pid (usb_get h) (usb_get h') →
  bus_get h' = ev :: bus_get h → enum_event ep a ev → phase p k h h'.
Proof.
  intros Hr Hs Hb He. split; [done|by apply usb_step_same|]. exists [ev]. split; [done|]. by constructor.
Qed.

Lemma phase_trans p k1 k2 h1 h2 h3 : phase p k1 h1 h2 → phase p k2 h2 h3 → phase p k2 h1 h3.
Proof.
  intros [R1 U1 (l1 & B1 & E1)] [R2 U2 (l2 & B2 & E2)]. split; [done|by eapply usb_step_trans|].
  exists (l2 ++ l1). rewrite B2, B1, app_assoc. split; [done|]. by apply Forall_app.
Qed.

Lemma phase_mono p k k' h h' : (k' <= k)%nat → phase p k h h' → phase p k' h h'.
Proof. intros Hk [R U B]. split; [by eapply host_ready_mono|done|done]. Qed.

Lemma usb_step_refl p u : usb_step p u u.
Proof. apply usb_step_same, same_but_pid_refl. Qed.

Lemma phase_refl p k h : host_ready k h → phase p k h h.
Proof. intros Hr. split; [done|apply usb_step_refl|]. by exists []. Qed.

Lemma phase_device p k d h h' : phase p k h h' → devices (usb_get h') !! p = Some d →
  endpoint_is (usb_get h) (m_pEndpoint0 d) EndpointTypeControl → p ≠ 0 → device_ready p d (usb_get h').
Proof. intros [_ [_ _ U] _] Hd He Hp. split; [done|done|by apply U]. Qed.

(** The packet size of endpoint 0. *)
Lemma wp_set_packet_size {A} k p d v h (m : M ((Enum * C) * H) A) (Q : A → (Enum * C) * H → Prop) e c :
  host_ready k h → device_ready p d (usb_get h) → is_u8 v → v ≠ 0 →
  (∀ h', phase p k h h' → devices (usb_get h') = devices (usb_get h) → bus_get h' = bus_get h →
     wp m Q ((e, c), h')) →
  wp (ep0 ← USBDeviceGetEndpoint0 p; x ← endpoint_at ep0;
      endpoint_set ep0 (USBEndpointSetMaxPacketSize x v) ;; m) Q ((e, c), h).
Proof.
  intros Hr [Hp Hd He] Hv Hv0 HQ. pose proof He as (H0 & x & Hx & Ht & _).
  wp_step. eapply wp_DeviceGetEndpoint0; [exact Hd|done|]. wp_step. eapply wp_endpoint_at; [exact Hx|].
  unfold endpoint_set. do 2 wp_step. cbn [usb_get usb_put host_usb prod_host prod_usb fst snd].
  unfold USBEndpointSetMaxPacketSize. rewrite u32_id by cint.
  assert (0 < v < 65536) as Hvr by (unfold is_u8 in Hv; lia).
  apply HQ; [|by rewrite usb_get_put|by rewrite bus_get_usb]. split.
  - apply host_ready_usb; [done|]. apply objects_ok_size; [apply Hr|done|done].
  - rewrite usb_get_put. by apply usb_step_size.
  - exists []. split; [by rewrite bus_get_usb|constructor].
Qed.

(** ** The device descriptor *)

Definition with_desc (b : option buffer) (dd : TUSBDeviceData) : TUSBDeviceData :=
  dd <| m_pDeviceDesc := b |>.

Lemma wp_set_device_desc p b b0 dd e c h (Q : unit → (Enum * C) * H → Prop) :
  Q tt ((put_data p (with_desc b dd) e, c), h) →
  wp (set_device_desc p b) Q ((put_data p (with_desc b0 dd) e, c), h).
Proof.
  intros HQ. unfold set_device_desc. eapply wp_data_modify; [apply put_data_at|].
  rewrite put_data_twice. exact HQ.
Qed.

(** A descriptor of 18 bytes. *)
Definition full_desc (b : option buffer) (l : list Z) : Prop :=
  b = Some (map Some l) ∧ length l = 18%nat ∧ Forall is_u8 l.

(** The requests of [get_descriptor]. *)
Lemma got_enum d ty v n r dat : m_pEndpoint0 d = ep → u16 (Z.lor (Z.shiftl ty 8) 0) = v → 1 <= v / 256 <= 3 →
  enum_event ep a (BusDone (ControlIn (m_pEndpoint0 d) REQUEST_IN GET_DESCRIPTOR (u16 (Z.lor (Z.shiftl ty 8) 0)) 0 n) r dat).
Proof. intros Hep Hty Hv. unfold enum_event. rewrite Hty. split_and!; [done|done|done|lia|lia]. Qed.

Lemma wp_second_read k p d dd b e c h (Q : bool → (Enum * C) * H → Prop) :
  host_ready (S k) h → device_ready p d (usb_get h) → m_pEndpoint0 d = ep → length b = 18%nat →
  (∀ ok b' h', phase p k h h' → devices (usb_get h') = devices (usb_get h) →
     (ok = true → ∃ l, full_desc b' l ∧ bus_get h' = got ep 0x100 l :: bus_get h) → Q ok ((put_data p (with_desc b' dd) e, c), h')) →
  wp ('(r, b) ← get_descriptor p DESCRIPTOR_DEVICE b sizeof_TUSBDeviceDescriptor;
      set_device_desc p (Some b) ;;
      if negb (r =? sizeof_TUSBDeviceDescriptor) then set_device_desc p None ;; mret false
      else mret true) Q ((put_data p (with_desc (Some b) dd) e, c), h).
Proof.
  intros Hr Hd Hep Hl HQ. wp_step. eapply wp_get_descriptor; [exact Hr|exact Hd|done|rewrite Hl; reflexivity|].
  intros r dat h' Hr' Hu Hld Hres _ Hb Hs. wp_step. apply wp_set_device_desc.
  assert (phase p k h h') as Hph by (by eapply phase_same; [..|eapply got_enum]).
  pose proof Hs as [Hdev _].
  destruct (Z.eqb_spec r sizeof_TUSBDeviceDescriptor) as [->|]; cbn [negb].
  - wp_step. apply HQ; [done|done|]. intros _. exists dat.
    assert (length dat = 18%nat) as Hd18 by (unfold sizeof_TUSBDeviceDescriptor in Hres; lia).
    split; [split; [|done]; f_equal; apply overwrite_all; by rewrite Hl|].
    unfold got. rewrite Hb, Hd18, Hep. done.
  - wp_step. apply wp_set_device_desc. wp_step. by apply HQ.
Qed.

(** Only the device's own fields are touched. *)
Lemma wp_read_device_descriptor k p d dd e c h (Q : bool → (Enum * C) * H → Prop) :
  host_ready (2 + k) h → device_ready p d (usb_get h) → m_pEndpoint0 d = ep →
  device_data e !! p = Some dd → m_pDeviceDesc dd = None →
  (∀ ok b' h', phase p k h h' → devices (usb_get h') = devices (usb_get h) →
     (ok = true → ∃ l d8, full_desc b' l ∧ length d8 = 8%nat ∧
        bus_get h' = got ep 0x100 l :: got ep 0x100 d8 :: bus_get h) → Q ok ((put_data p (with_desc b' dd) e, c), h')) →
  wp (read_device_descriptor p) Q ((e, c), h).
Proof.
  intros Hr Hd Hep Hdd Hnone HQ. unfold read_device_descriptor. wp_step. eapply wp_data_at; [exact Hdd|].
  wp_step. apply wp_assert; [by rewrite Hnone|].
  wp_step. eapply wp_get_descriptor; [exact Hr|exact Hd|done|by vm_compute; lia|].
  intros r dat h1 Hr1 Hu Hl Hres [_ Ha] Hb Hs. pose proof Hs as [Hdev _].
  wp_step. unfold set_device_desc at 1. eapply wp_data_modify; [exact Hdd|].
  assert (phase p (S k) h h1) as Hph by (by eapply phase_same; [..|eapply got_enum]).
  assert (∀ b', Q false ((put_data p (with_desc b' dd) e, c), h1)) as Hend.
  { intros b'. apply HQ; [eapply phase_mono; [|exact Hph]; lia|done|done]. }
  destruct (Z.eqb_spec r USB_DEFAULT_MAX_PACKET_SIZE) as [->|]; cbn [negb].
  2: { wp_step. apply wp_set_device_desc. wp_step. apply Hend. }
  assert (length dat = 8%nat) as Hl8 by (unfold USB_DEFAULT_MAX_PACKET_SIZE in Hres; lia).
  assert (length dat <= length (blank sizeof_TUSBDeviceDescriptor))%nat as Hlb by (rewrite Hl8; vm_compute; lia).
  assert (∀ i, (i < 8)%nat → ∃ v, dat !! i = Some v ∧ is_u8 v) as Hget.
  { intros i Hi. destruct (lookup_lt_is_Some_2 dat i) as [v Hv]; [lia|].
    exists v. split; [done|]. by eapply Forall_lookup_1. }
  destruct (Hget 0%nat) as (len & Elen & _); [lia|]. wp_step. eapply wp_filled_cell; [done|exact Elen|].
  destruct (Hget 1%nat) as (ty & Ety & _); [lia|].
  wp_step. apply wp_mono with (P := λ _ w, w = ((put_data p (with_desc (Some (overwrite 0 (map Some dat)
    (blank sizeof_TUSBDeviceDescriptor))) dd) e, c), h1)).
  { destruct (len =? sizeof_TUSBDeviceDescriptor); cbn [negb]; [|by wp_step].
    wp_step. eapply wp_filled_cell; [done|exact Ety|]. by wp_step. }
  intros bad w ->. destruct bad; [wp_step; apply wp_set_device_desc; wp_step; apply Hend|].
  destruct (Hget off_bMaxPacketSize0) as (mps & Em & Hmr); [unfold off_bMaxPacketSize0; lia|].
  wp_step. eapply wp_filled_cell; [done|exact Em|].
  eapply wp_set_packet_size; [exact Hr1|exact (device_ready_same _ _ _ _ Hs Hd)|exact Hmr| |].
  { rewrite Em in Ha. intros ->. by apply (proj1 (Ha eq_refl) eq_refl). }
  intros h2 Hp2 Hdev2 Hb2. rewrite Hdev in Hdev2. pose proof (phase_trans _ _ _ _ _ _ Hph Hp2) as Hp12.
  eapply wp_second_read; [exact (ph_ready _ _ _ _ Hp2)| |exact Hep|rewrite overwrite_length; [done|rewrite length_map; exact Hlb]|].
  - eapply phase_device; [exact Hp12|rewrite Hdev2; by destruct Hd|by destruct Hd..].
  - intros ok b' h3 Hp3 Hdev3 Hok. apply HQ; [by eapply phase_trans|congruence|].
    intros E. destruct (Hok E) as (l & Hfull & Hb3). exists l, dat. split; [done|]. split; [done|].
    unfold got at 2. by rewrite Hb3, Hb2, Hb, Hl8, Hep.
Qed.

(** ** The address *)

Lemma wp_SetAddress k e c h (Q : bool → (Enum * C) * H → Prop) p :
  host_ready (S k) h → endpoint_is (usb_get h) ep EndpointTypeControl →
  (∀ ok h', phase p k h h' → devices (usb_get h') = devices (usb_get h) →
     (ok = true → ∃ r, 0 <= r ∧ bus_get h' = BusDelay 50 :: BusDone (ControlOut ep 0 5 a 0 []) r [] :: bus_get h) →
     Q ok ((e, c), h')) →
  wp (DWHCIDeviceSetAddress ep a) Q ((e, c), h).
Proof.
  intros Hr He HQ. unfold DWHCIDeviceSetAddress. wp_step.
  eapply (wp_ControlMessageOut k); [exact Hr|by apply control_ok|].
  intros r h' Hr' _ Hb Hs. pose proof Hs as [Hdev _].
  assert (phase p k h h') as Hph by (by eapply phase_same).
  destruct (Z.ltb_spec r 0); [wp_step; by apply HQ|]. unfold HostMsDelay. do 2 wp_step. wp_step.
  cbn [bus_get bus_put host_bus prod_host prod_bus fst snd]. apply HQ; rewrite ?usb_get_bus, ?bus_get_put; [|done|].
  2: { intros _. exists r. split; [done|]. by rewrite Hb. }
  destruct Hph as [R U (es & B & E)]. split; rewrite ?usb_get_bus, ?bus_get_put; [by apply host_ready_bus|done|].
  rewrite B. exists (BusDelay 50 :: es). split; [done|]. by constructor.
Qed.

Definition next_address (e : Enum) : Enum := e <| s_ucNextAddress := u8 (s_ucNextAddress e + 1) |>.

(** A device that got an address has the one that was next, which fits. *)
Lemma wp_assign_address k p d e c h (Q : bool → (Enum * C) * H → Prop) :
  host_ready (S k) h → device_ready p d (usb_get h) → m_pEndpoint0 d = ep → s_ucNextAddress e = a →
  (∀ ok d' h', phase p k h h' → devices (usb_get h') !! p = Some d' → m_pEndpoint0 d' = m_pEndpoint0 d →
     (ok = true → s_ucNextAddress e <= USB_MAX_ADDRESS ∧ d' = d <| m_ucAddress := s_ucNextAddress e |>) →
     (ok = true → ∃ r, 0 <= r ∧ bus_get h' = BusDelay 50 :: BusDone (ControlOut ep 0 5 a 0 []) r [] :: bus_get h) →
     Q ok ((next_address e, c), h')) →
  wp (assign_address p) Q ((e, c), h).
Proof.
  intros Hr Hd Hep Ha HQ. pose proof Hd as [Hp0 Hdev He]. rewrite Hep in He. unfold assign_address.
  wp_step. apply wp_enum_get. wp_step. apply wp_enum_set.
  change (upd s_ucNextAddress _ e) with (next_address e).
  destruct (Z.ltb_spec USB_MAX_ADDRESS (s_ucNextAddress e)) as [Hgt|Hle].
  - wp_step. apply (HQ false d h); [|done|done|done|done]. apply phase_refl. by eapply host_ready_mono; [|exact Hr]; lia.
  - wp_step. eapply wp_DeviceGetEndpoint0; [exact Hdev|rewrite Hep; by destruct He|]. rewrite Hep, Ha. wp_step.
    eapply wp_SetAddress; [exact Hr|exact He|]. intros ok h1 Hp1 Hdev1 Hsaid.
    destruct ok; cbn [negb]; [|wp_step; by apply (HQ false d); rewrite ?Hdev1].
    unfold USBDeviceSetAddress, device_set. wp_step. wp_step. apply wp_assert; [apply Z.leb_le; lia|].
    wp_step. eapply wp_device_at; [simpl; by rewrite Hdev1|]. do 2 wp_step.
    cbn [usb_get usb_put host_usb prod_host prod_usb fst snd].
    rewrite <- Ha. apply (HQ true (d <| m_ucAddress := s_ucNextAddress e |>)); rewrite ?usb_get_put, ?bus_get_usb; [|by simpl; rewrite lookup_insert_eq|done|done|done].
    destruct Hp1 as [R U (es & B & E)]. split.
    + apply host_ready_usb; [done|]. destruct R as [_ Ho]. apply objects_ok_device; [exact Ho|].
      apply host_serves_address. eapply (oo_device _ _ Ho p). by rewrite Hdev1.
    + rewrite usb_get_put. eapply usb_step_trans; [exact U|]. apply usb_step_device. rewrite Hdev1. by eexists.
    + rewrite bus_get_usb. by exists es.
Qed.

(** ** The strings *)

(** A string of the device: printable, and short. *)
Record text_ok (p : Z) (s : TUSBString) : Prop := {
  tx_device : us_pDevice s = p;
  tx_chars : Forall (λ x, 32 <= x <= 126) (m_pString s);
  tx_length : (length (m_pString s) <= 126)%nat
}.

Definition with_strings (ms ps : TUSBString) (dd : TUSBDeviceData) : TUSBDeviceData :=
  dd <| m_ManufacturerString := ms |> <| m_ProductString := ps |>.

#[local] Instance string_answers : Answers H string_answer.
Proof. eapply answers_mono; [|done]. by intros op r dat [Hs _]. Qed.

Lemma put_data_id p dd e : device_data e !! p = Some dd → put_data p dd e = e.
Proof. intros Hp. destruct e. unfold put_data, upd. simpl in *. by rewrite insert_id. Qed.

(** More events, the devices as they were. *)
Lemma phase_events p k h h' es : host_ready k h' → same_but_pid (usb_get h) (usb_get h') →
  bus_get h' = es ++ bus_get h → Forall (enum_event ep a) es → phase p k h h'.
Proof. intros Hr Hs Hb He. split; [done|by apply usb_step_same|by exists es]. Qed.

Lemma wp_read_text k p d s0 i lang (f : TUSBString → TUSBDeviceData → TUSBDeviceData) dd e c h
    (Q : unit → (Enum * C) * H → Prop) :
  host_ready (2 + k) h → device_ready p d (usb_get h) → m_pEndpoint0 d = ep → 0 < i < 256 →
  device_data e !! p = Some dd → text_ok p s0 →
  (∀ s h' es, phase p k h h' → devices (usb_get h') = devices (usb_get h) → text_ok p s →
     bus_get h' = es ++ bus_get h → text_said ep i lang s0 s es →
     Q tt ((put_data p (f s dd) e, c), h')) →
  wp ('(_, s) ← USBStringGetFromDescriptor s0 i lang; data_modify p (f s)) Q ((e, c), h).
Proof.
  intros Hr Hd Hep Hi Hdd [T1 T2 T3] HQ. wp_step.
  eapply (wp_GetFromDescriptor k); [exact Hr|by rewrite T1|done|].
  intros ok s es h' Hr' Hs Hb Hrd. rewrite Hep in Hrd. eapply wp_data_modify; [exact Hdd|].
  apply (HQ s h' es); [apply (phase_events _ _ _ _ es); try done; eapply string_reading_enum; [|exact Hrd]; lia|by destruct Hs| |done|].
  - destruct (string_reading_read _ _ _ _ _ _ _ Hrd) as (dat & Hdev & Hread).
    split; [by rewrite Hdev|..]; destruct ok; [|by rewrite Hread| |by rewrite Hread].
    + by destruct Hread as (_ & _ & ? & _).
    + by destruct Hread as (_ & _ & _ & ?).
  - unfold text_said. rewrite (proj2 (Z.eqb_neq i 0)) by lia. by exists ok.
Qed.

Lemma wp_device_byte p dd l off e c h (Q : Z → (Enum * C) * H → Prop) :
  device_data e !! p = Some dd → full_desc (m_pDeviceDesc dd) l → (off < 18)%nat →
  (is_u8 (l !!! off) → Q (l !!! off) ((e, c), h)) → wp (device_byte p off) Q ((e, c), h).
Proof.
  intros Hdd (Hb & Hl & Hu) Ho HQ. unfold device_byte. wp_step. eapply wp_data_at; [exact Hdd|].
  rewrite Hb. destruct (lookup_lt_is_Some_2 l off) as [v Hv]; [lia|].
  eapply wp_cell_at; [by apply map_Some_lookup|]. rewrite (list_lookup_total_correct _ _ _ Hv) in HQ.
  apply HQ. by eapply Forall_lookup_1.
Qed.

Lemma wp_device_word p dd l off e c h (Q : Z → (Enum * C) * H → Prop) :
  device_data e !! p = Some dd → full_desc (m_pDeviceDesc dd) l → (off < 17)%nat →
  Q (le_value (take 2 (drop off l))) ((e, c), h) → wp (device_word p off) Q ((e, c), h).
Proof.
  intros Hdd (Hb & Hl & Hu) Ho HQ. unfold device_word. wp_step. eapply wp_data_at; [exact Hdd|].
  rewrite Hb. apply wp_le16_at; [lia|done].
Qed.

Lemma wp_read_strings k p d dd l e c h (Q : unit → (Enum * C) * H → Prop) :
  host_ready (6 + k) h → device_ready p d (usb_get h) → m_pEndpoint0 d = ep → device_data e !! p = Some dd →
  full_desc (m_pDeviceDesc dd) l → text_ok p (m_ManufacturerString dd) → text_ok p (m_ProductString dd) →
  (∀ ms ps h' es, phase p k h h' → devices (usb_get h') = devices (usb_get h) → text_ok p ms → text_ok p ps →
     bus_get h' = es ++ bus_get h →
     texts_said ep (l !!! off_iManufacturer) (l !!! off_iProduct) dd (with_strings ms ps dd) es →
     Q tt ((put_data p (with_strings ms ps dd) e, c), h')) →
  wp (read_strings p) Q ((e, c), h).
Proof.
  intros Hr Hd Hep Hdd Hl Hm Hps HQ. unfold read_strings.
  wp_step. eapply wp_device_byte; [exact Hdd|exact Hl|unfold off_iManufacturer; lia|]. intros HiM.
  wp_step. eapply wp_device_byte; [exact Hdd|exact Hl|unfold off_iProduct; lia|]. intros HiP.
  unfold texts_said in HQ. set (iM := l !!! off_iManufacturer) in *. set (iP := l !!! off_iProduct) in *.
  assert (with_strings (m_ManufacturerString dd) (m_ProductString dd) dd = dd) as Hself by (by destruct dd).
  rewrite <- negb_andb. destruct ((iM =? 0) && (iP =? 0)) eqn:Enone; cbn [negb].
  { wp_step. specialize (HQ (m_ManufacturerString dd) (m_ProductString dd) h []).
    rewrite Hself, put_data_id in HQ by done. apply HQ; try done.
    apply phase_refl. by eapply host_ready_mono; [|exact Hr]; lia. }
  wp_step. eapply wp_data_at; [exact Hdd|]. wp_step.
  eapply (wp_GetLanguageID (4 + k)); [exact Hr|rewrite (tx_device _ _ Hm); exact Hd|].
  intros lang l1 h1 Hr1 Hs1 Hb1 Hlang. rewrite Hep in Hlang.
  assert (phase p (4 + k) h h1) as Hp1 by (apply (phase_events _ _ _ _ l1); try done; by eapply language_reading_enum).
  assert (device_ready p d (usb_get h1)) as Hd1 by (by eapply device_ready_same).
  pose proof Hs1 as [Hdev1 _]. wp_step.
  apply wp_mono with (P := λ _ w, ∃ ms h' l2, w = ((put_data p (with_strings ms (m_ProductString dd) dd) e, c), h') ∧
    phase p (2 + k) h h' ∧ devices (usb_get h') = devices (usb_get h) ∧ text_ok p ms ∧
    bus_get h' = l2 ++ l1 ++ bus_get h ∧ text_said ep iM lang (m_ManufacturerString dd) ms l2).
  - destruct (Z.eqb_spec iM 0) as [E|E]; cbn [negb].
    + wp_step. exists (m_ManufacturerString dd), h1, []. rewrite Hself, put_data_id by done.
      split; [done|]. split; [eapply phase_mono; [|exact Hp1]; lia|]. split; [done|]. split; [done|].
      split; [exact Hb1|]. unfold text_said. by rewrite E.
    + eapply (wp_read_text (2 + k) p d (m_ManufacturerString dd) iM lang (λ s dd, dd <| m_ManufacturerString := s |>));
        [exact Hr1|exact Hd1|exact Hep|unfold is_u8 in HiM; lia|exact Hdd|exact Hm|].
      intros s h2 l2 Hp2 Hdev2 Ht Hb2 Hsaid. exists s, h2, l2. split; [by destruct dd|].
      split; [by eapply phase_trans|]. split; [congruence|]. split; [done|]. by rewrite Hb2, Hb1.
  - intros [] w (ms & h2 & l2 & -> & Hp2 & Hdev2 & Hms & Hb2 & Hsaid2).
    destruct (Z.eqb_spec iP 0) as [E|E]; cbn [negb].
    + wp_step. apply (HQ _ _ _ (l2 ++ l1)); try done; [eapply phase_mono; [|exact Hp2]; lia|by rewrite <- app_assoc|].
      exists lang, l1, l2, []. split; [done|]. split; [done|]. split; [exact Hsaid2|].
      unfold text_said. by rewrite E.
    + wp_step. eapply wp_data_at; [apply put_data_at|].
      eapply (wp_read_text k p d (m_ProductString dd) iP lang (λ s dd, dd <| m_ProductString := s |>));
        [exact (ph_ready _ _ _ _ Hp2)|eapply phase_device; [exact Hp2|rewrite Hdev2; by destruct Hd|by destruct Hd..]
        |exact Hep|unfold is_u8 in HiP; lia|apply put_data_at|exact Hps|].
      intros s h3 l3 Hp3 Hdev3 Ht Hb3 Hsaid3. rewrite put_data_twice.
      replace ((with_strings ms (m_ProductString dd) dd) <| m_ProductString := s |>) with (with_strings ms s dd) by (by destruct dd).
      apply (HQ _ _ _ (l3 ++ l2 ++ l1)); [by eapply phase_trans|congruence|done|done|by rewrite Hb3, Hb2, <- !app_assoc|].
      by exists lang, l1, l2, l3.
Qed.

(** ** The configuration *)

Definition with_config (b : option buffer) (pr : option TUSBConfigurationParser)
    (dd : TUSBDeviceData) : TUSBDeviceData :=
  dd <| m_pConfigDesc := b |> <| m_pConfigParser := pr |>.

(** The bytes of a configuration and the parser that accepted them. *)
Definition config_read (b : option buffer) (pr : option TUSBConfigurationParser)
    (conf : list Z) (l : list nat) : Prop :=
  b = Some (map Some conf) ∧ Forall is_u8 conf ∧
  ∃ stop, config_ok conf (Z.of_nat (length conf)) stop l ∧
    pr = Some ((parser0 conf (Z.of_nat (length conf)) stop) <| m_bValid := true |>).

Lemma wp_filled_bytes l e c h (Q : list Z → (Enum * C) * H → Prop) :
  Q l ((e, c), h) → wp (filled_bytes (map Some l)) Q ((e, c), h).
Proof.
  revert Q. induction l as [|v l IH]; intros Q HQ; simpl; wp_step; [done|]. apply IH. by wp_step.
Qed.

(** A wrong configuration is kept, with its parser; a right one is [config_read]. *)
Lemma wp_parse_config p dd conf e c h (Q : bool → (Enum * C) * H → Prop) :
  device_data e !! p = Some dd → m_pConfigParser dd = None → Forall is_u8 conf →
  config_answer (Z.of_nat (length conf)) conf →
  (∀ ok pr, (ok = true → ∃ l, config_read (Some (map Some conf)) pr conf l) →
     Q ok ((put_data p (dd <| m_pConfigParser := pr |>) e, c), h)) →
  wp (parse_config p (map Some conf) (Z.of_nat (length conf))) Q ((e, c), h).
Proof.
  intros Hdd Hnone Hu [_ [pr Hpr]] HQ. unfold parse_config.
  wp_step. apply wp_filled_bytes. wp_step. eapply wp_data_at; [exact Hdd|].
  wp_step. apply wp_assert; [by rewrite Hnone|].
  wp_step. apply wp_on_parser. apply wp_run. exists tt, pr. split; [exact Hpr|].
  wp_step. eapply wp_data_modify; [exact Hdd|].
  destruct (m_bValid pr) eqn:Hv; cbn [negb].
  - wp_step. apply HQ. intros _.
    destruct (proj2 (parser_accepts (S (Z.to_nat (Z.of_nat (length conf)))) conf
      (Z.of_nat (length conf)) blank_parser Hu ltac:(lia)) pr Hpr Hv) as (l & Hc & Ep).
    exists l. split; [done|]. split; [done|]. exists (m_pEndPosition pr).
    split; [exact Hc|]. by rewrite Ep at 1.
  - wp_step. unfold USBDeviceConfigurationError. wp_step. eapply wp_data_at; [apply put_data_at|].
    simpl. wp_step. wp_step. by apply HQ.
Qed.

Lemma wp_set_config_desc p b b0 pr dd e c h (Q : unit → (Enum * C) * H → Prop) :
  Q tt ((put_data p (with_config b pr dd) e, c), h) →
  wp (set_config_desc p b) Q ((put_data p (with_config b0 pr dd) e, c), h).
Proof.
  intros HQ. unfold set_config_desc. eapply wp_data_modify; [apply put_data_at|].
  rewrite put_data_twice. exact HQ.
Qed.

(** The checks of the header: its length is that of a configuration's. *)
Lemma wp_config_header dat len e c h (Q : bool → (Enum * C) * H → Prop) :
  length dat = 9%nat →
  (∀ bad, (bad = false → le_value (take 2 (drop off_wTotalLength dat)) <= MAX_CONFIG_DESC_SIZE) →
     Q bad ((e, c), h)) →
  wp (if negb (len =? sizeof_TUSBConfigurationDescriptor) then mret true
      else
        ty ← cell_at (map Some dat) 1;
        if negb (ty =? DESCRIPTOR_CONFIGURATION) then mret true
        else n ← le16_at (map Some dat) off_wTotalLength; mret (MAX_CONFIG_DESC_SIZE <? n))
    Q ((e, c), h).
Proof.
  intros Hl HQ. destruct (lookup_lt_is_Some_2 dat 1) as [ty Hty]; [lia|].
  destruct (len =? sizeof_TUSBConfigurationDescriptor); cbn [negb]; [|wp_step; by apply HQ].
  wp_step. eapply wp_cell_at; [by apply map_Some_lookup|].
  destruct (ty =? DESCRIPTOR_CONFIGURATION); cbn [negb]; [|wp_step; by apply HQ].
  wp_step. apply wp_le16_at; [unfold off_wTotalLength; lia|]. wp_step. apply HQ.
  intros Hb. by apply Z.ltb_ge in Hb.
Qed.

(** The length that a configuration's header tells. *)
Lemma total_length_range dat : length dat = 9%nat → Forall is_u8 dat → config_answer 9 dat →
  0 < le_value (take 2 (drop off_wTotalLength dat)) < 65536.
Proof.
  intros Hl Hu [Hnz _]. specialize (Hnz eq_refl). unfold off_wTotalLength.
  do 9 (destruct dat as [|? dat]; [done|]). simpl in *. unfold is_u8 in Hu.
  repeat match goal with X : Forall _ (_ :: _) |- _ => apply Forall_cons_1 in X as [? X] end.
  match goal with X : Some ?a ≠ Some 0 ∨ Some ?b ≠ Some 0 |- _ => assert (a ≠ 0 ∨ b ≠ 0) by naive_solver end. lia.
Qed.

Lemma wp_read_config k p d dd e c h (Q : bool → (Enum * C) * H → Prop) :
  host_ready (2 + k) h → device_ready p d (usb_get h) → m_pEndpoint0 d = ep → device_data e !! p = Some dd →
  m_pConfigDesc dd = None → m_pConfigParser dd = None →
  (∀ ok b pr h', phase p k h h' → devices (usb_get h') = devices (usb_get h) →
     (ok = true → ∃ conf l head9, config_read b pr conf l ∧ length head9 = 9%nat ∧
        le_value (take 2 (drop 2 head9)) = Z.of_nat (length conf) ∧
        bus_get h' = got ep 0x200 conf :: got ep 0x200 head9 :: bus_get h) →
     Q ok ((put_data p (with_config b pr dd) e, c), h')) →
  wp (read_config p) Q ((e, c), h).
Proof.
  intros Hr Hd Hep Hdd Hcd Hcp HQ. unfold read_config.
  assert (∀ b, dd <| m_pConfigDesc := b |> = with_config b None dd) as Hwith.
  { intros b. unfold with_config. rewrite <- Hcp. by destruct dd. }
  wp_step. eapply wp_data_at; [exact Hdd|]. wp_step. apply wp_assert; [by rewrite Hcd|].
  wp_step. eapply wp_get_descriptor; [exact Hr|exact Hd|done|by vm_compute; lia|].
  intros r dat h1 Hr1 Hu Hl Hres [_ Ha] Hb Hs. pose proof Hs as [Hdev _].
  assert (phase p (S k) h h1) as Hph by (by eapply phase_same; [..|eapply got_enum]).
  assert (∀ b, Q false ((put_data p (with_config b None dd) e, c), h1)) as Hend.
  { intros b. apply HQ; [eapply phase_mono; [|exact Hph]; lia|done|done]. }
  wp_step. unfold set_config_desc at 1. eapply wp_data_modify; [exact Hdd|]. rewrite Hwith.
  destruct (Z.eqb_spec r sizeof_TUSBConfigurationDescriptor) as [->|]; cbn [negb].
  2: { wp_step. apply wp_set_config_desc. wp_step. apply Hend. }
  assert (length dat = 9%nat) as Hl9 by (unfold sizeof_TUSBConfigurationDescriptor in Hres; lia).
  rewrite overwrite_all by (rewrite Hl9; done).
  pose proof (total_length_range dat Hl9 Hu (proj2 (Ha eq_refl) eq_refl eq_refl)) as Hn.
  destruct (lookup_lt_is_Some_2 dat 0) as [len Hlen]; [lia|].
  wp_step. eapply wp_cell_at; [by apply map_Some_lookup|].
  wp_step. apply wp_config_header; [done|]. intros bad Hbad.
  destruct bad; [wp_step; apply wp_set_config_desc; wp_step; apply Hend|].
  wp_step. apply wp_le16_at; [unfold off_wTotalLength; lia|].
  set (n := le_value _) in *. wp_step.
  eapply wp_get_descriptor; [exact Hr1|exact (device_ready_same _ _ _ _ Hs Hd)|done
    |unfold blank; by rewrite length_replicate|].
  intros r2 conf h2 Hr2 Hu2 Hl2 Hres2 [_ Ha2] Hb2 Hs2. pose proof Hs2 as [Hdev2 _].
  assert (phase p k h h2) as Hph2 by (eapply phase_trans; [exact Hph|by eapply phase_same; [..|eapply got_enum]]).
  wp_step. apply wp_set_config_desc.
  destruct (Z.eqb_spec r2 n) as [->|]; cbn [negb].
  2: { wp_step. apply wp_set_config_desc. wp_step. apply HQ; [done|congruence|done]. }
  assert (n = Z.of_nat (length conf)) as Hlc by lia.
  rewrite overwrite_all by (unfold blank; rewrite length_replicate; lia).
  pose proof (proj2 (Ha2 eq_refl) eq_refl eq_refl) as Hconf. rewrite Hlc in Hconf |- *.
  eapply wp_parse_config; [apply put_data_at|done|done|exact Hconf|]. intros ok pr Hok.
  rewrite put_data_twice. apply (HQ ok (Some (map Some conf)) pr); [done|congruence|].
  intros E. destruct (Hok E) as [l0 Hl0]. exists conf, l0, dat. split; [done|]. split; [done|]. split; [exact Hlc|].
  unfold got. by rewrite Hb2, Hb, Hl9, <- Hlc, Hep.
Qed.
End Phases.
