(* ===== verification/UsbEnumerate.v ===== *)
(** * Enumeration: the functions of a device

    The drivers that [USBDeviceInitialize] finds for the interfaces of a device
    are those that a plain recursion over the configuration's descriptors
    finds. *)
From S2P Require Import Prelude CMem Util CString Endpoint ConfigParser.
From S2P Require Import UsbBus UsbFunction UsbString UsbDevice UsbDeviceProofs.

(** ** Which driver *)

(** The names the code looks for, from the bytes of the device descriptor and of
    the interface descriptor at [o]. *)
Definition vendor_name (desc : list Z) : list Z :=
  [118; 101; 110] ++ numeral false 16 (le_value (take 2 (drop off_idVendor desc)))
  ++ dash ++ numeral false 16 (le_value (take 2 (drop off_idProduct desc))).
Definition class_name (prefix : list Z) (c sc pr : Z) : list Z :=
  if (c =? 0) || (c =? 0xFF) then unknown
  else prefix ++ numeral false 16 c ++ dash ++ numeral false 16 sc ++ dash ++ numeral false 16 pr.
Definition device_class_name (desc : list Z) : list Z :=
  class_name [100; 101; 118] (desc !!! off_bDeviceClass) (desc !!! off_bDeviceSubClass)
    (desc !!! off_bDeviceProtocol).
Definition interface_name (conf : list Z) (o : nat) : list Z :=
  class_name [105; 110; 116] (conf !!! (o + off_bInterfaceClass)%nat)
    (conf !!! (o + off_bInterfaceSubClass)%nat) (conf !!! (o + off_bInterfaceProtocol)%nat).

(** For the first function the names of the device come first. *)
Definition driver_choice (first : bool) (desc conf : list Z) (o : nat) : option TConfigure :=
  let by_interface := factory_lookup factory_table (interface_name conf o) in
  if first then
    match factory_lookup factory_table (vendor_name desc) with
    | Some c => Some c
    | None =>
        match factory_lookup factory_table (device_class_name desc) with
        | Some c => Some c
        | None => by_interface
        end
    end
  else by_interface.

(** The interfaces that get a driver, with [n] functions already made and the
    interface numbers below [num] done. *)
Fixpoint pick (desc conf : list Z) (l : list nat) (n : nat) (num : Z) : list (nat * TConfigure) :=
  match l with
  | [] => []
  | o :: l =>
      if decide (conf !! (o + 1)%nat = Some DESCRIPTOR_INTERFACE) then
        let i := conf !!! (o + off_bInterfaceNumber)%nat in
        let num := Z.max num i in
        if i =? num then
          match driver_choice (n =? 0)%nat desc conf o with
          | None => pick desc conf l n num
          | Some cf =>
              (o, cf) :: (if (S n =? USBDEV_MAX_FUNCTIONS)%nat then []
                          else pick desc conf l (S n) (u8 (num + 1)))
          end
        else pick desc conf l n num
      else pick desc conf l n num
  end.

Lemma pick_search desc conf stop l n num :
  pick desc conf l n num =
  match (search conf stop DESCRIPTOR_INTERFACE l).1 with
  | None => []
  | Some o => pick desc conf (o :: search_rest conf DESCRIPTOR_INTERFACE l) n num
  end.
Proof.
  induction l as [|o l IH]; [done|]. cbn [search search_rest].
  change (DESCRIPTOR_INTERFACE =? DESCRIPTOR_ENDPOINT) with false. cbn [andb].
  case_bool_decide as Ht; [done|]. rewrite <- IH. cbn [pick]. by rewrite decide_False.
Qed.

Lemma search_rest_found conf stop ty l o :
  (search conf stop ty l).1 = Some o → (length (search_rest conf ty l) < length l)%nat.
Proof.
  induction l as [|o' l IH]; [done|]. cbn [search search_rest].
  destruct (_ && _); [done|]. destruct (bool_decide _); simpl; [lia|]. intros Hs. apply IH in Hs. lia.
Qed.

Lemma char_ok_hex v : 0 <= v < 256 → Forall char_ok (numeral false 16 v).
Proof. intros Hv. apply numeral_chars; [lia|cint]. Qed.

Lemma class_name_chars c sc pr : is_u8 c → is_u8 sc → is_u8 pr → Forall char_ok (class_name [105; 110; 116] c sc pr).
Proof.
  intros H1 H2 H3. unfold class_name, unknown, dash.
  assert (∀ x, 0 < x < 128 → char_ok x) as Hx by (intros; lia).
  destruct (_ || _); [repeat constructor; apply Hx; lia|].
  repeat (apply Forall_app; split); repeat (constructor; [apply Hx; lia|]);
    try constructor; by apply char_ok_hex.
Qed.
Section Names.
Context {C H : Type} `{!UsbHost H}.
Implicit Types (e : Enum) (c : C) (h : H).

Lemma wp_class_name p desc dd e c h (Q : list Z → (Enum * C) * H → Prop) :
  device_data e !! p = Some dd → full_desc (m_pDeviceDesc dd) desc →
  Q (device_class_name desc) ((e, c), h) → wp (USBDeviceGetName p DeviceNameDevice) Q ((e, c), h).
Proof.
  intros Hdd Hl HQ. unfold device_class_name, class_name in HQ. cbn [USBDeviceGetName].
  wp_step. eapply wp_device_byte; [exact Hdd|exact Hl|unfold off_bDeviceClass; lia|]. intros _.
  destruct ((desc !!! off_bDeviceClass =? 0) || (desc !!! off_bDeviceClass =? 0xFF)); [by wp_step|].
  wp_step. eapply wp_device_byte; [exact Hdd|exact Hl|unfold off_bDeviceSubClass; lia|]. intros _.
  wp_step. eapply wp_device_byte; [exact Hdd|exact Hl|unfold off_bDeviceProtocol; lia|]. intros _.
  by wp_step.
Qed.

Lemma wp_vendor_name p desc dd e c h (Q : list Z → (Enum * C) * H → Prop) :
  device_data e !! p = Some dd → full_desc (m_pDeviceDesc dd) desc →
  Q (vendor_name desc) ((e, c), h) → wp (USBDeviceGetName p DeviceNameVendor) Q ((e, c), h).
Proof.
  intros Hdd Hl HQ. cbn [USBDeviceGetName].
  wp_step. eapply wp_device_word; [exact Hdd|exact Hl|unfold off_idVendor; lia|].
  wp_step. eapply wp_device_word; [exact Hdd|exact Hl|unfold off_idProduct; lia|]. by wp_step.
Qed.

Lemma wp_interface_byte_at conf l o f off (Q : Z → (Enum * C) * H → Prop) s :
  function_ok conf l o f → (off < 9)%nat → Q (conf !!! (o + off)%nat) s → wp (interface_byte f off) Q s.
Proof.
  intros Hf Ho HQ. eapply wp_interface_byte; [exact Hf|exact Ho|]. intros v Hv _.
  by rewrite (list_lookup_total_correct _ _ _ Hv) in HQ.
Qed.

Lemma wp_interface_name conf l o f (Q : list Z → (Enum * C) * H → Prop) s :
  function_ok conf l o f → Q (interface_name conf o) s → wp (USBFunctionGetInterfaceName f) Q s.
Proof.
  intros Hf HQ. unfold USBFunctionGetInterfaceName. rewrite (fk_interface _ _ _ _ Hf).
  unfold interface_name, class_name in HQ.
  wp_step. eapply wp_interface_byte_at; [exact Hf|unfold off_bInterfaceClass; lia|].
  destruct (_ || _); [by wp_step|].
  wp_step. eapply wp_interface_byte_at; [exact Hf|unfold off_bInterfaceSubClass; lia|].
  wp_step. eapply wp_interface_byte_at; [exact Hf|unfold off_bInterfaceProtocol; lia|]. by wp_step.
Qed.

End Names.

(** ** The factory *)

Section Functions.
Context {C H : Type} `{!UsbHost H}.
Context (class_init : TConfigure → Z → C → C).
Implicit Types (e : Enum) (c : C) (h : H).

Definition put_function (q : Z) (fn : TUSBFunction) e : Enum :=
  e <| function_store := <[q := fn]> (function_store e) |>.

(** A function as its constructor leaves it: its parser stands behind [o]. *)
Definition function_at_interface (p : Z) (conf : list Z) (l : list nat) (o : nat) (fn : TUSBFunction) : Prop :=
  function_ok conf l o fn ∧ fn_pDevice fn = p ∧
  ∃ pr, fn_pConfigParser fn = Some pr ∧ m_pCurrentDescriptor pr = Some o.

Lemma wp_function_at q fn e c h (Q : TUSBFunction → (Enum * C) * H → Prop) :
  function_store e !! q = Some fn → Q fn ((e, c), h) → wp (function_at q) Q ((e, c), h).
Proof. intros Hq HQ. unfold function_at. wp_step. apply wp_enum_get. by rewrite Hq. Qed.

Lemma wp_USBDeviceFactoryGetDevice p conf l o fn f n e c h (Q : Z → (Enum * C) * H → Prop) :
  function_store e !! f = Some fn → function_at_interface p conf l o fn →
  (factory_lookup factory_table n = None → Q 0 ((e, c), h)) →
  (∀ cf q, factory_lookup factory_table n = Some cf → 0 < q → function_store e !! q = None →
     Q q ((put_function q (fn <| Configure := cf |>) e, class_init cf q c), h)) →
  wp (USBDeviceFactoryGetDevice class_init f n) Q ((e, c), h).
Proof.
  intros Hf (Hok & _ & Hcur) HN HS. unfold USBDeviceFactoryGetDevice.
  destruct (factory_lookup factory_table n) as [cf|]; [|wp_step; by apply HN].
  unfold function_malloc. do 2 wp_step. apply wp_enum_get. wp_step.
  wp_step. eapply wp_function_at; [exact Hf|]. wp_step. eapply wp_USBFunctionCopy; [exact Hok|exact Hcur|].
  wp_step. unfold function_set. apply wp_enum_set. do 2 wp_step. wp_step.
  destruct (fresh_key_spec (function_store e)) as [Hpos Hnone]. by apply HS.
Qed.


Lemma interface_name_chars conf l o f : function_ok conf l o f → Forall char_ok (interface_name conf o).
Proof.
  intros [_ Hu _ Ho _]. unfold off_bInterfaceClass in *.
  assert (∀ i, (i < 9)%nat → is_u8 (conf !!! (o + i)%nat)) as Hb.
  { intros i Hi. destruct (lookup_lt_is_Some_2 conf (o + i)) as [v Hv]; [lia|].
    rewrite (list_lookup_total_correct _ _ _ Hv). by eapply Forall_lookup_1. }
  apply class_name_chars; apply Hb;
    unfold off_bInterfaceClass, off_bInterfaceSubClass, off_bInterfaceProtocol; lia.
Qed.

(** The interface's own name, if it has one. *)
Lemma wp_interface_driver p conf l o fn f e c h (Q : Z → (Enum * C) * H → Prop) :
  function_store e !! f = Some fn → function_at_interface p conf l o fn →
  (factory_lookup factory_table (interface_name conf o) = None → Q 0 ((e, c), h)) →
  (∀ cf q, factory_lookup factory_table (interface_name conf o) = Some cf → 0 < q →
     function_store e !! q = None →
     Q q ((put_function q (fn <| Configure := cf |>) e, class_init cf q c), h)) →
  wp (fn ← function_at f;
      n ← USBFunctionGetInterfaceName fn;
      if negb (str_cmp n unknown =? 0) then USBDeviceFactoryGetDevice class_init f n else mret 0)
    Q ((e, c), h).
Proof.
  intros Hf Hfn HN HS. pose proof Hfn as (Hok & _). wp_step. eapply wp_function_at; [exact Hf|].
  wp_step. eapply wp_interface_name; [exact Hok|].
  destruct (Z.eqb_spec (str_cmp (interface_name conf o) unknown) 0) as [E|E]; cbn [negb].
  - wp_step. apply HN. apply str_cmp_eq in E; [by rewrite E|by eapply interface_name_chars|].
    unfold unknown. repeat (constructor; [lia|]). constructor.
  - by eapply wp_USBDeviceFactoryGetDevice.
Qed.

Lemma wp_find_driver p desc conf l o nf fn f dd e c h (Q : Z → (Enum * C) * H → Prop) :
  device_data e !! p = Some dd → full_desc (m_pDeviceDesc dd) desc →
  function_store e !! f = Some fn → function_at_interface p conf l o fn →
  (driver_choice (nf =? 0)%nat desc conf o = None → Q 0 ((e, c), h)) →
  (∀ cf q, driver_choice (nf =? 0)%nat desc conf o = Some cf → 0 < q → function_store e !! q = None →
     Q q ((put_function q (fn <| Configure := cf |>) e, class_init cf q c), h)) →
  wp (find_driver class_init p nf f) Q ((e, c), h).
Proof.
  intros Hdd Hl Hf Hfn HN HS. unfold find_driver.
  assert (∀ q : Z, 0 < q → (q =? 0) = false) as Hq0 by lia.
  destruct (nf =? 0)%nat; cbn [driver_choice] in *.
  2: { do 2 wp_step. rewrite Z.eqb_refl. by eapply wp_interface_driver. }
  do 2 wp_step. eapply wp_vendor_name; [exact Hdd|exact Hl|]. wp_step.
  eapply wp_USBDeviceFactoryGetDevice; [exact Hf|exact Hfn| |].
  2: { intros cf q E Hq Hn. rewrite (Hq0 q Hq). wp_step. rewrite (Hq0 q Hq). wp_step.
       rewrite E in HS. by apply HS. }
  intros E. rewrite Z.eqb_refl. rewrite E in HN, HS.
  wp_step. eapply wp_class_name; [exact Hdd|exact Hl|].
  eapply wp_USBDeviceFactoryGetDevice; [exact Hf|exact Hfn| |].
  2: { intros cf q E2 Hq Hn. rewrite (Hq0 q Hq). wp_step. rewrite E2 in HS. by apply HS. }
  intros E2. rewrite Z.eqb_refl. rewrite E2 in HN, HS. by eapply wp_interface_driver.
Qed.

(** ** One interface *)

Lemma wp_USBFunction p conf l o pr (Q : TUSBFunction → (Enum * C) * H → Prop) s :
  p ≠ 0 → at_chain conf l pr → Forall is_u8 conf → (m_pEndPosition pr <= length conf)%nat →
  m_pCurrentDescriptor pr = Some o → (o + 9 <= length conf)%nat →
  (∀ fn, function_at_interface p conf l o fn → Q fn s) →
  wp (USBFunction p (Some pr)) Q s.
Proof.
  intros Hp Hat Hu He Hc Ho HQ. unfold USBFunction. wp_step. apply wp_assert; [by apply negb_true_iff, Z.eqb_neq|].
  do 2 wp_step. cbv zeta. wp_step. apply wp_on_parser.
  unfold USBConfigurationParserGetCurrentDescriptor. wp_step. wp_step. wp_step.
  pose proof Hat as (_ & Hv & _). apply wp_assert; [exact Hv|]. simpl. rewrite Hc. wp_step. wp_step.
  apply HQ. split; [|split; [done|by eexists]]. split; try done. eexists. split; [done|]. by split.
Qed.

(** The temporary function leaves nothing behind. *)
Definition del_function (f : Z) e : Enum := e <| function_store := delete f (function_store e) |>.
Definition set_pointer (n : nat) (f : Z) (dd : TUSBDeviceData) : TUSBDeviceData :=
  dd <| m_pFunction := <[n := f]> (m_pFunction dd) |>.

Lemma restore_none p dd n f fn e :
  device_data e !! p = Some dd → m_pFunction dd !! n = Some 0 → function_store e !! f = None →
  put_data p (set_pointer n 0 (set_pointer n f dd))
    (del_function f (put_data p (set_pointer n f dd) (put_function f fn e))) = e.
Proof.
  intros Hd Hn Hf. destruct e as [a dm st], dd.
  unfold put_data, put_function, del_function, set_pointer, upd. simpl in *.
  rewrite insert_insert_eq, list_insert_insert_eq, list_insert_id, insert_id by done.
  by rewrite delete_insert_id.
Qed.

Lemma restore_some p dd n f fn q fn' e :
  device_data e !! p = Some dd → m_pFunction dd !! n = Some 0 → function_store e !! f = None → f ≠ q →
  put_data p (set_pointer n 0 (set_pointer n f dd))
    (del_function f (put_function q fn' (put_data p (set_pointer n f dd) (put_function f fn e)))) =
  put_function q fn' e.
Proof.
  intros Hd Hn Hf Hq. destruct e as [a dm st], dd.
  unfold put_data, put_function, del_function, set_pointer, upd. simpl in *.
  rewrite insert_insert_eq, list_insert_insert_eq, list_insert_id, insert_id by done.
  rewrite delete_insert_ne by done. by rewrite delete_insert_id.
Qed.

Lemma wp_function_delete p conf l o f fn e c h (Q : unit → (Enum * C) * H → Prop) :
  function_store e !! f = Some fn → function_at_interface p conf l o fn →
  Q tt ((del_function f e, c), h) → wp (function_delete f) Q ((e, c), h).
Proof.
  intros Hf (_ & _ & pr & Hpr & _) HQ. unfold function_delete. wp_step. eapply wp_function_at; [exact Hf|].
  unfold _USBFunction. do 2 wp_step. eapply wp_parser_of; [exact Hpr|]. wp_step. by apply wp_enum_set.
Qed.

Lemma wp_set_pointer p n f dd e c h (Q : unit → (Enum * C) * H → Prop) :
  device_data e !! p = Some dd → Q tt ((put_data p (set_pointer n f dd) e, c), h) →
  wp (set_function p n f) Q ((e, c), h).
Proof. intros Hd HQ. unfold set_function. eapply wp_data_modify; [exact Hd|exact HQ]. Qed.

Lemma wp_make_function p desc conf l o nf dd pr e c h (Q : Z → (Enum * C) * H → Prop) :
  p ≠ 0 → device_data e !! p = Some dd → full_desc (m_pDeviceDesc dd) desc →
  m_pConfigParser dd = Some pr → at_chain conf l pr → Forall is_u8 conf →
  (m_pEndPosition pr <= length conf)%nat → m_pCurrentDescriptor pr = Some o → (o + 9 <= length conf)%nat →
  m_pFunction dd !! nf = Some 0 →
  (driver_choice (nf =? 0)%nat desc conf o = None → Q 0 ((e, c), h)) →
  (∀ cf q fn, driver_choice (nf =? 0)%nat desc conf o = Some cf → 0 < q → function_store e !! q = None →
     function_at_interface p conf l o fn → Q q ((put_function q (fn <| Configure := cf |>) e, class_init cf q c), h)) →
  wp (make_function class_init p nf) Q ((e, c), h).
Proof.
  intros Hp Hdd Hl Hpr Hat Hu He Hc Ho Hz HN HS. unfold make_function.
  wp_step. eapply wp_data_at; [exact Hdd|]. wp_step. apply wp_assert; [by rewrite Hpr|].
  wp_step. apply wp_assert; [by rewrite Hz; apply bool_decide_eq_true_2|].
  unfold function_malloc. do 2 wp_step. apply wp_enum_get. wp_step. rewrite Hpr.
  destruct (fresh_key_spec (function_store e)) as [Hpos Hnone]. set (f := fresh_key _) in *.
  wp_step. eapply wp_USBFunction; [done..|]. intros fn Hfn.
  wp_step. unfold function_set. apply wp_enum_set.
  change (e <| function_store := <[f:=fn]> (function_store e) |>) with (put_function f fn e).
  wp_step. eapply wp_set_pointer; [exact Hdd|].
  set (e1 := put_data p (set_pointer nf f dd) (put_function f fn e)).
  assert (function_store e1 !! f = Some fn) as Hf by (apply lookup_insert_eq).
  assert (device_data e1 !! p = Some (set_pointer nf f dd)) as Hd1 by (apply put_data_at).
  wp_step. eapply (wp_find_driver p desc conf l o nf fn f); [exact Hd1|exact Hl|exact Hf|exact Hfn| |].
  - intros E. wp_step. eapply wp_function_delete; [exact Hf|exact Hfn|].
    wp_step. eapply wp_set_pointer; [exact Hd1|]. wp_step. unfold e1. rewrite restore_none by done. by apply HN.
  - intros cf q E Hq Hnq.
    assert (f ≠ q) as Hfq by (intros <-; congruence).
    wp_step. eapply wp_function_delete; [simpl; by rewrite lookup_insert_ne|exact Hfn|].
    wp_step. eapply wp_set_pointer; [exact Hd1|]. wp_step. unfold e1. rewrite restore_some by done.
    apply HS; [done|done| |done]. unfold e1 in Hnq. simpl in Hnq. by rewrite lookup_insert_ne in Hnq.
Qed.

(** ** All of them *)

(** A driver's object, at its pointer, for the interface descriptor at an offset. *)
Definition driver_object (p : Z) (conf : list Z) e (x : Z * (nat * TConfigure)) : Prop :=
  0 < x.1 ∧ ∃ l fn, function_store e !! x.1 = Some (fn <| Configure := x.2.2 |>) ∧
    function_at_interface p conf l x.2.1 fn.

Definition pointers (fs : list (Z * (nat * TConfigure))) : list Z :=
  map fst fs ++ replicate (USBDEV_MAX_FUNCTIONS - length fs) 0.
Definition class_inits (fs : list (Z * (nat * TConfigure))) (c : C) : C :=
  foldl (λ c x, class_init x.2.2 x.1 c) c fs.

(** From [e0] to [e] the functions [fs] of device [p] were made. *)
Record made (p : Z) (conf : list Z) (dd0 : TUSBDeviceData) (e0 : Enum)
    (fs : list (Z * (nat * TConfigure))) (dd : TUSBDeviceData) (e : Enum) : Prop := {
  md_next : s_ucNextAddress e = s_ucNextAddress e0;
  md_data : device_data e = <[p := dd]> (device_data e0);
  md_dd : ∃ pr, dd = dd0 <| m_pConfigParser := pr |> <| m_pFunction := pointers fs |>;
  md_old q : is_Some (function_store e0 !! q) → function_store e !! q = function_store e0 !! q;
  md_new : Forall (λ x, function_store e0 !! x.1 = None ∧ driver_object p conf e x) fs;
  md_distinct : NoDup (map fst fs)
}.

Lemma made_at p conf dd0 e0 fs dd e : made p conf dd0 e0 fs dd e → device_data e !! p = Some dd.
Proof. intros Hm. rewrite (md_data _ _ _ _ _ _ _ Hm). apply lookup_insert_eq. Qed.

Lemma made_desc p conf dd0 e0 fs dd e : made p conf dd0 e0 fs dd e → m_pDeviceDesc dd = m_pDeviceDesc dd0.
Proof. intros Hm. by destruct (md_dd _ _ _ _ _ _ _ Hm) as [pr ->]. Qed.
Lemma made_pointers p conf dd0 e0 fs dd e : made p conf dd0 e0 fs dd e → m_pFunction dd = pointers fs.
Proof. intros Hm. by destruct (md_dd _ _ _ _ _ _ _ Hm) as [pr ->]. Qed.

(** The parser moves. *)
Lemma made_parser p conf dd0 e0 fs dd e pr :
  made p conf dd0 e0 fs dd e →
  made p conf dd0 e0 fs (dd <| m_pConfigParser := pr |>) (put_data p (dd <| m_pConfigParser := pr |>) e).
Proof.
  intros [M1 M2 [pr0 M3] M4 M5 M6]. split; simpl; try done.
  - rewrite M2. by rewrite insert_insert_eq.
  - exists pr. by rewrite M3.
Qed.

Lemma pointers_free fs : (length fs < USBDEV_MAX_FUNCTIONS)%nat → pointers fs !! length fs = Some 0.
Proof.
  intros Hl. unfold pointers. rewrite lookup_app_r by (by rewrite length_map).
  rewrite length_map, Nat.sub_diag. apply lookup_replicate_2. unfold USBDEV_MAX_FUNCTIONS in *. lia.
Qed.

Lemma pointers_snoc fs x : (length fs < USBDEV_MAX_FUNCTIONS)%nat →
  <[length fs := x.1]> (pointers fs) = pointers (fs ++ [x]).
Proof.
  intros Hl. unfold pointers. rewrite map_app, length_app. simpl.
  replace (length fs) with (length (map fst fs) + 0)%nat at 1 by (rewrite length_map; lia).
  rewrite insert_app_r, <- app_assoc. f_equal.
  replace (USBDEV_MAX_FUNCTIONS - length fs)%nat with (S (USBDEV_MAX_FUNCTIONS - (length fs + 1))) by lia.
  done.
Qed.

(** A driver more. *)
Lemma made_snoc p conf l dd0 e0 fs dd e q o cf fn :
  made p conf dd0 e0 fs dd e → (length fs < USBDEV_MAX_FUNCTIONS)%nat → 0 < q →
  function_store e !! q = None → function_at_interface p conf l o fn →
  made p conf dd0 e0 (fs ++ [(q, (o, cf))]) (set_pointer (length fs) q dd)
    (put_data p (set_pointer (length fs) q dd) (put_function q (fn <| Configure := cf |>) e)).
Proof.
  intros [M1 M2 [pr M3] M4 M5 M6] Hl Hq Hnone Hfn.
  assert (function_store e0 !! q = None) as Hnone0.
  { destruct (function_store e0 !! q) as [x|] eqn:E; [|done].
    specialize (M4 q (ex_intro _ x E)). congruence. }
  split; simpl; try done.
  - rewrite M2. by rewrite insert_insert_eq.
  - exists pr. rewrite M3. by rewrite <- (pointers_snoc fs (q, (o, cf))).
  - intros q' Hq'. rewrite lookup_insert_ne; [by apply M4|]. intros <-. rewrite Hnone0 in Hq'. by destruct Hq'.
  - apply Forall_app. split.
    + eapply Forall_impl; [|exact M5]. intros x (H1 & H2 & l' & fn' & H3 & H4). split; [done|]. split; [done|].
      exists l', fn'. simpl. rewrite lookup_insert_ne; [done|]. intros E. congruence.
    + constructor; [|constructor]. simpl. split; [done|]. split; [done|]. exists l, fn. simpl.
      by rewrite lookup_insert_eq.
  - rewrite map_app. apply list.NoDup_app. split; [done|]. split; [|apply list.NoDup_singleton].
    intros x Hx Hx'. apply list_elem_of_singleton in Hx'. simpl in Hx'. subst x.
    apply list_elem_of_fmap in Hx as (y & -> & Hy).
    rewrite list.Forall_forall in M5. destruct (M5 y Hy) as (_ & _ & l' & fn' & H3 & _). congruence.
Qed.

(** ** The loop *)

Lemma wp_device_parser p dd pr conf l ty e c h (Q : option nat → (Enum * C) * H → Prop) :
  device_data e !! p = Some dd → m_pConfigParser dd = Some pr → at_chain conf l pr →
  (∀ r pr', r = (search conf (m_pEndPosition pr) ty l).1 → m_pCurrentDescriptor pr' = r →
     at_chain conf (search_rest conf ty l) pr' → m_pEndPosition pr' = m_pEndPosition pr →
     (∀ pos, r = Some pos → ∃ len, conf !! pos = Some len ∧ conf !! (pos + 1)%nat = Some ty ∧
        (pos + Z.to_nat len <= m_pEndPosition pr)%nat ∧ sized ty len) →
     Q r ((put_data p (dd <| m_pConfigParser := Some pr' |>) e, c), h)) →
  wp (USBDeviceGetDescriptor p ty) Q ((e, c), h).
Proof.
  intros Hd Hpr Hat HQ. unfold USBDeviceGetDescriptor. wp_step. eapply wp_data_at; [exact Hd|].
  rewrite Hpr. wp_step. apply wp_on_parser. eapply wp_GetDescriptor; [exact Hat|].
  intros r pr' H1 H2 _ H4 H5 H6. wp_step. unfold data_set. apply wp_enum_set. wp_step. by apply HQ.
Qed.

Lemma wp_config_byte p dd pr conf o e c h (Q : Z → (Enum * C) * H → Prop) :
  device_data e !! p = Some dd → m_pConfigParser dd = Some pr → on_buffer conf pr →
  (o < length conf)%nat → Q (conf !!! o) ((e, c), h) → wp (config_byte p o) Q ((e, c), h).
Proof.
  intros Hd Hpr Hb Ho HQ. unfold config_byte. wp_step. eapply wp_data_at; [exact Hd|]. rewrite Hpr.
  destruct (lookup_lt_is_Some_2 conf o Ho) as [v Hv]. rewrite (list_lookup_total_correct _ _ _ Hv) in HQ.
  wp_step. apply wp_on_parser. eapply (wp_byte_at conf); [exact Hb|exact Hv|]. by wp_step.
Qed.

Lemma class_inits_snoc fs x c : class_inits (fs ++ [x]) c = class_init x.2.2 x.1 (class_inits fs c).
Proof. unfold class_inits. by rewrite foldl_app. Qed.

(** With the functions [fs] made and the descriptors [l] ahead. *)
Lemma wp_interface_loop fuel p desc conf l fs num dd0 e0 dd pr e c0 c h
    (Q : nat → (Enum * C) * H → Prop) :
  p ≠ 0 → made p conf dd0 e0 fs dd e → full_desc (m_pDeviceDesc dd0) desc →
  m_pConfigParser dd = Some pr → at_chain conf l pr → Forall is_u8 conf →
  (m_pEndPosition pr <= length conf)%nat → (length l < fuel)%nat →
  (length fs < USBDEV_MAX_FUNCTIONS)%nat → c = class_inits fs c0 →
  (∀ fs' dd' e', made p conf dd0 e0 (fs ++ fs') dd' e' →
     map snd fs' = pick desc conf l (length fs) num →
     Q (length (fs ++ fs')) ((e', class_inits (fs ++ fs') c0), h)) →
  wp (interface_loop class_init fuel p (length fs) num) Q ((e, c), h).
Proof.
  intros Hp. revert l fs num dd pr e c. induction fuel as [|fuel IH];
    intros l fs num dd pr e c Hm Hdesc Hpr Hat Hu He Hf Hl Hc HQ; [lia|].
  cbn [interface_loop]. wp_step. pose proof (made_at _ _ _ _ _ _ _ Hm) as Hdd.
  eapply wp_device_parser; [exact Hdd|exact Hpr|exact Hat|].
  intros r pr' Er Hcur Hat' He' Hfound. rewrite (pick_search desc conf (m_pEndPosition pr)), <- Er in HQ.
  pose proof (made_parser _ _ _ _ _ _ _ (Some pr') Hm) as Hm'.
  set (dd1 := dd <| m_pConfigParser := Some pr' |>) in *. set (e1 := put_data p dd1 e) in *.
  destruct r as [o|].
  2: { wp_step. specialize (HQ [] dd1 e1). rewrite app_nil_r in HQ. rewrite Hc. by apply HQ. }
  destruct (Hfound o eq_refl) as (len & _ & Hty & Hin & _ & Hlen & _). specialize (Hlen eq_refl). subst len.
  assert (o + 9 <= length conf)%nat as Ho by lia.
  assert (length (search_rest conf DESCRIPTOR_INTERFACE l) < fuel)%nat as Hf'
    by (symmetry in Er; apply search_rest_found in Er; lia).
  cbn [pick] in HQ. rewrite decide_True in HQ by exact Hty.
  wp_step. eapply (wp_config_byte p dd1 pr' conf); [exact (made_at _ _ _ _ _ _ _ Hm')|done|by destruct Hat'
    |unfold off_bInterfaceNumber; lia|].
  set (i := conf !!! (o + off_bInterfaceNumber)%nat) in *. cbv zeta.
  replace (if num <? i then i else num) with (Z.max num i) by (destruct (Z.ltb_spec num i); lia).
  set (num' := Z.max num i) in *. set (l' := search_rest conf DESCRIPTOR_INTERFACE l) in *.
  destruct (Z.eqb_spec i num') as [Ei|Ei]; cbn [negb].
  2: { eapply (IH l' fs num' dd1 pr' e1); try done. by rewrite He'. }
  wp_step. eapply (wp_make_function p desc conf l' o (length fs) dd1 pr');
    [done|exact (made_at _ _ _ _ _ _ _ Hm')|by rewrite (made_desc _ _ _ _ _ _ _ Hm')|done|done|done
    |by rewrite He'|done|exact Ho|by rewrite (made_pointers _ _ _ _ _ _ _ Hm'), pointers_free| |].
  - intros En. rewrite En in HQ. rewrite Z.eqb_refl.
    eapply (IH l' fs num' dd1 pr' e1); try done. by rewrite He'.
  - intros cf q fn Es Hq Hnq Hfn. rewrite Es in HQ. rewrite (proj2 (Z.eqb_neq q 0)) by lia.
    pose proof (made_snoc _ _ _ _ _ _ _ _ q o cf fn Hm' Hl Hq Hnq Hfn) as Hm2.
    wp_step. eapply wp_set_pointer; [exact (made_at _ _ _ _ _ _ _ Hm')|].
    set (dd2 := set_pointer (length fs) q dd1) in *. set (e2 := put_data p dd2 _) in *.
    assert (length (fs ++ [(q, (o, cf))]) = S (length fs)) as Hlen by (rewrite length_app; simpl; lia).
    assert (class_init cf q c = class_inits (fs ++ [(q, (o, cf))]) c0) as Hc2 by (by rewrite class_inits_snoc, Hc).
    destruct (Nat.eqb_spec (S (length fs)) USBDEV_MAX_FUNCTIONS) as [Emax|Emax].
    + wp_step. specialize (HQ [(q, (o, cf))] dd2 e2 Hm2 eq_refl). rewrite Hlen in HQ. by rewrite Hc2.
    + rewrite <- Hlen. eapply (IH l' _ (u8 (num' + 1)) dd2 pr' e2); try done; [by rewrite He'|rewrite Hlen; lia|].
      intros fs' dd' e' Hm3 Hp3. specialize (HQ ((q, (o, cf)) :: fs') dd' e').
      rewrite <- app_assoc in Hm3 |- *. apply HQ; [done|]. simpl. by rewrite Hp3, Hlen.
Qed.
End Functions.

(** ** The whole *)

Section Initialize.
Context {C H : Type} `{!UsbHost H} `{!UsbHostLaws H} `{!UsbHostRecovers H} `{!Answers H device_answer}.
Context (class_init : TConfigure → Z → C → C).
Implicit Types (e : Enum) (c : C) (h : H).

Lemma wp_get_names p desc dd e c h (Q : list Z → (Enum * C) * H → Prop) :
  device_data e !! p = Some dd → full_desc (m_pDeviceDesc dd) desc →
  (∀ names, Q names ((e, c), h)) → wp (USBDeviceGetNames p) Q ((e, c), h).
Proof.
  intros Hdd Hl HQ. unfold USBDeviceGetNames. cbn [names_loop].
  do 2 wp_step. eapply wp_vendor_name; [exact Hdd|exact Hl|].
  wp_step. eapply wp_class_name; [exact Hdd|exact Hl|]. wp_step. wp_step. apply HQ.
Qed.

(** A device as its constructor leaves it. *)
Record fresh_data (p : Z) (dd : TUSBDeviceData) : Prop := {
  fd_desc : m_pDeviceDesc dd = None;
  fd_config : m_pConfigDesc dd = None;
  fd_parser : m_pConfigParser dd = None;
  fd_manufacturer : text_ok p (m_ManufacturerString dd);
  fd_product : text_ok p (m_ProductString dd);
  fd_functions : m_pFunction dd = pointers []
}.

(** Nothing else was touched. *)
Definition others_kept (p : Z) (e e' : Enum) : Prop :=
  (∀ q, q ≠ p → device_data e' !! q = device_data e !! q) ∧
  (∀ q, is_Some (function_store e !! q) → function_store e' !! q = function_store e !! q).

(** A device after a successful initialisation, with the bytes it sent. *)
Record initialized (p : Z) (e e' : Enum) (c c' : C) (desc conf : list Z) (l : list nat)
    (fs : list (Z * (nat * TConfigure))) : Prop := {
  in_data : ∃ dd, device_data e' !! p = Some dd ∧ full_desc (m_pDeviceDesc dd) desc ∧
    m_pConfigDesc dd = Some (map Some conf) ∧ m_pFunction dd = pointers fs ∧
    text_ok p (m_ManufacturerString dd) ∧ text_ok p (m_ProductString dd);
  in_config : Forall is_u8 conf ∧ ∃ stop, config_ok conf (Z.of_nat (length conf)) stop l;
  in_functions : map snd fs = pick desc conf l 0 0;
  in_some : fs ≠ [];
  in_objects : Forall (λ x, function_store e !! x.1 = None ∧ driver_object p conf e' x) fs;
  in_distinct : NoDup (map fst fs);
  in_class : c' = class_inits class_init fs c
}.

Lemma config_at_chain conf n stop l :
  config_ok conf n stop l → at_chain conf l ((parser0 conf n stop) <| m_bValid := true |>).
Proof. intros (_ & _ & _ & _ & _ & Hc). split; [done|]. split; [done|]. by exists 0, false. Qed.

Lemma wp_make_functions p desc conf l dd e c h (Q : bool → (Enum * C) * H → Prop) :
  p ≠ 0 → device_data e !! p = Some dd → full_desc (m_pDeviceDesc dd) desc →
  m_pConfigDesc dd = Some (map Some conf) → config_read (m_pConfigDesc dd) (m_pConfigParser dd) conf l →
  m_pFunction dd = pointers [] → text_ok p (m_ManufacturerString dd) → text_ok p (m_ProductString dd) →
  (∀ ok e' c', others_kept p e e' → s_ucNextAddress e' = s_ucNextAddress e →
     (∃ dd', device_data e' !! p = Some dd' ∧ m_ManufacturerString dd' = m_ManufacturerString dd ∧
        m_ProductString dd' = m_ProductString dd) →
     (ok = true → ∃ fs, initialized p e e' c c' desc conf l fs) → Q ok ((e', c'), h)) →
  wp (make_functions class_init p) Q ((e, c), h).
Proof.
  intros Hp Hdd Hdesc Hcd (_ & Hu & stop & Hok & Hpr) Hf0 Hms Hps HQ. unfold make_functions.
  wp_step. eapply wp_data_at; [exact Hdd|]. rewrite Hpr. set (pr := _ <| m_bValid := true |>) in *.
  pose proof (config_at_chain _ _ _ _ Hok) as Hat. pose proof Hok as (_ & _ & _ & _ & Hle & Hchain).
  destruct (chain_length _ _ _ _ _ _ Hchain) as [_ Hlen].
  assert (made p conf dd e [] dd e) as Hm.
  { split; try done.
    - by rewrite insert_id.
    - exists (m_pConfigParser dd). rewrite <- Hf0. by destruct dd.
    - constructor. }
  wp_step. eapply (wp_interface_loop class_init _ p desc conf l [] 0 dd e dd pr e c c);
    [done|done|done|done|done|done|simpl; lia|simpl; lia|unfold USBDEV_MAX_FUNCTIONS; simpl; lia|done|].
  intros fs dd' e' [M1 M2 [pr' M3] M4 M5 M6] Hpick. wp_step. simpl in *. apply HQ.
  - split; [|exact M4]. intros q Hq. rewrite M2. by rewrite lookup_insert_ne.
  - done.
  - exists dd'. rewrite M2, lookup_insert_eq. by subst dd'.
  - intros Hn. exists fs. split; try done.
    + exists dd'. rewrite M2, lookup_insert_eq. subst dd'. simpl. done.
    + split; [done|by exists stop].
    + intros ->. done.
Qed.

Lemma others_put p dd e : others_kept p e (put_data p dd e).
Proof. split; [|done]. intros q Hq. simpl. by rewrite lookup_insert_ne. Qed.
Lemma others_next p e e' : others_kept p e e' → others_kept p e (next_address e').
Proof. done. Qed.
Lemma others_trans p e1 e2 e3 : others_kept p e1 e2 → others_kept p e2 e3 → others_kept p e1 e3.
Proof.
  intros [A1 A2] [B1 B2]. split; [intros q Hq; by rewrite B1, A1|].
  intros q Hq. rewrite B2; [by apply A2|]. by rewrite A2.
Qed.

(** The outcome of an initialisation that began in [e], [c], [h] with device [d]. *)
Record outcome (p : Z) (k : nat) (d : TUSBDevice) e c h (ok : bool) e' c' h' : Prop := {
  oc_phase : phase (m_pEndpoint0 d) (s_ucNextAddress e) p k h h';
  oc_others : others_kept p e e';
  oc_address : (s_ucNextAddress e' = s_ucNextAddress e ∨ s_ucNextAddress e' = u8 (s_ucNextAddress e + 1));
  oc_data : is_Some (device_data e' !! p);
  oc_device : ∃ d', devices (usb_get h') !! p = Some d' ∧ m_pEndpoint0 d' = m_pEndpoint0 d ∧
    (ok = true → s_ucNextAddress e <= USB_MAX_ADDRESS ∧ d' = d <| m_ucAddress := s_ucNextAddress e |> ∧
                 s_ucNextAddress e' = u8 (s_ucNextAddress e + 1));
  oc_success : ok = true → ∃ desc conf l fs dd dd' es, initialized p e e' c c' desc conf l fs ∧
    device_data e !! p = Some dd ∧ device_data e' !! p = Some dd' ∧ bus_get h' = es ++ bus_get h ∧
    dialog (m_pEndpoint0 d) (s_ucNextAddress e) desc conf dd dd' es
}.

Lemma wp_USBDeviceInitialize k p d dd e c h (Q : bool → (Enum * C) * H → Prop) :
  host_ready (11 + k) h → device_ready p d (usb_get h) → device_data e !! p = Some dd → fresh_data p dd →
  (∀ ok e' c' h', outcome p k d e c h ok e' c' h' → Q ok ((e', c'), h')) →
  wp (USBDeviceInitialize class_init p) Q ((e, c), h).
Proof.
  intros Hr Hd Hdd [F1 F2 F3 F4 F5 F6] HQ. unfold USBDeviceInitialize. pose proof Hd as [Hp0 Hdev Hep].
  set (ep := m_pEndpoint0 d) in *. set (a := s_ucNextAddress e) in *.
  wp_step. eapply (wp_read_device_descriptor ep a (9 + k)); [exact Hr|exact Hd|done|exact Hdd|done|].
  intros ok b h1 P1 D1 S1. set (e1 := put_data p (with_desc b dd) e).
  assert (others_kept p e e1) as O1 by apply others_put.
  assert (is_Some (device_data e1 !! p)) as I1 by (exists (with_desc b dd); apply put_data_at).
  destruct ok; cbn [negb].
  2: { wp_step. apply HQ. split; [eapply phase_mono; [|exact P1]; lia|done|by left|done| |done].
       exists d. by rewrite D1. }
  destruct (S1 eq_refl) as (desc & d8 & Hdesc & L8 & B1).
  assert (device_ready p d (usb_get h1)) as Hd1 by (eapply phase_device; [exact P1|by rewrite D1|done|done]).
  wp_step. eapply (wp_assign_address ep a (8 + k)); [exact (ph_ready _ _ _ _ _ _ P1)|exact Hd1|done|done|].
  intros ok d' h2 P2 D2 E2 A2 S2. pose proof (phase_trans _ _ _ _ _ _ _ _ P1 P2) as P12.
  assert (device_ready p d' (usb_get h2)) as Hd2 by (eapply phase_device; [exact P12|done|by rewrite E2|done]).
  destruct ok; cbn [negb].
  2: { wp_step. apply HQ. split; [eapply phase_mono; [|exact P12]; lia|done|by right|done| |done].
       exists d'. by rewrite E2. }
  destruct (A2 eq_refl) as [Hmax Hd']. destruct (S2 eq_refl) as (ra & Hra & B2).
  assert (∀ ok e' h', devices (usb_get h') = devices (usb_get h2) →
    s_ucNextAddress e' = u8 (s_ucNextAddress e + 1) →
    ∃ d', devices (usb_get h') !! p = Some d' ∧ m_pEndpoint0 d' = m_pEndpoint0 d ∧
    (ok = true → s_ucNextAddress e <= USB_MAX_ADDRESS ∧ d' = d <| m_ucAddress := s_ucNextAddress e |> ∧
                 s_ucNextAddress e' = u8 (s_ucNextAddress e + 1))) as Hdevice.
  { intros ok e' h' Hh He'. exists d'. by rewrite Hh. }
  set (e2 := next_address e1) in *. set (dd1 := with_desc b dd) in *.
  assert (device_data e2 !! p = Some dd1) as G2 by (apply put_data_at).
  wp_step. eapply (wp_read_strings ep a (2 + k)); [exact (ph_ready _ _ _ _ _ _ P2)|exact Hd2|exact E2|exact G2|exact Hdesc|exact F4|exact F5|].
  intros ms ps h3 ls P3 D3 T1 T2 B3 Htexts. pose proof (phase_trans _ _ _ _ _ _ _ _ P12 P3) as P13.
  assert (device_ready p d' (usb_get h3)) as Hd3 by (eapply phase_device; [exact P13|by rewrite D3|by rewrite E2|done]).
  set (dd2 := with_strings ms ps dd1) in *. set (e3 := put_data p dd2 e2) in *.
  assert (others_kept p e e3) as O3 by (eapply others_trans; [exact O1|apply (others_put p dd2 e2)]).
  wp_step. eapply (wp_read_config ep a k); [exact (ph_ready _ _ _ _ _ _ P3)|exact Hd3|exact E2|apply put_data_at|exact F2|exact F3|].
  intros ok cb pr h4 P4 D4 S4. pose proof (phase_trans _ _ _ _ _ _ _ _ P13 P4) as P14.
  set (dd3 := with_config cb pr dd2) in *. set (e4 := put_data p dd3 e3) in *.
  assert (others_kept p e e4) as O4 by (eapply others_trans; [exact O3|apply (others_put p dd3 e3)]).
  assert (device_data e4 !! p = Some dd3) as G4 by (apply put_data_at).
  rewrite D3 in D4.
  destruct ok; cbn [negb].
  2: { wp_step. apply HQ. split; [done|done|by right|by eexists|by apply Hdevice|done]. }
  destruct (S4 eq_refl) as (conf & l & head9 & Hconf & L9 & Htotal & B4).
  wp_step. eapply wp_get_names; [exact G4|exact Hdesc|]. intros names.
  eapply (wp_make_functions p desc conf l dd3);
    [exact Hp0|exact G4|exact Hdesc|by destruct Hconf|exact Hconf|exact F6|exact T1|exact T2|].
  intros ok e5 c5 O5 N5 G5 S5. apply HQ.
  assert (others_kept p e e5) as O by (by eapply others_trans).
  destruct G5 as (dd5 & G5 & Ems & Eps).
  split; [done|done|by right|by eexists|by apply Hdevice|].
  intros E. destruct (S5 E) as [fs Hfs].
  exists desc, conf, l, fs, dd, dd5, ([got ep 0x200 conf; got ep 0x200 head9] ++ ls ++
    [BusDelay 50; BusDone (ControlOut ep 0 5 a 0 []) ra []] ++ [got ep 0x100 desc; got ep 0x100 d8]).
  split; [by destruct Hfs|]. split; [done|]. split; [done|]. split.
  { by rewrite B4, B3, B2, B1, <- !app_assoc. }
  exists d8, head9, ra, ls. split; [done|]. split; [done|]. split; [done|]. split; [done|]. split; [|done].
  unfold texts_said in *. rewrite Ems, Eps. exact Htexts.
Qed.

(** C15. Initialising a new device, whatever it answers as the standard says, at a
    host where a message that fails leaves the endpoint ready for the next
    ([UsbHostRecovers]): the function returns without a fault after at most
    eleven requests, says nothing to the device but what an enumeration says,
    and changes no other device and no function that exists. If it succeeds, the
    dialog was exactly this: eight bytes of the device descriptor, all of it,
    SET_ADDRESS with the address that was next, a delay, the languages and the
    texts that the descriptor numbers, nine bytes of the configuration, all of
    it. The device then has that address, at most 127, and holds the descriptors
    it sent as a whole; its configuration is well formed and its drivers are
    exactly those that [pick] finds, each a new object for its interface of this
    device whose parser stands behind that interface's descriptor; there is at
    least one. *)
Theorem device_initialize k p d dd e c h :
  host_ready (11 + k) h → device_ready p d (usb_get h) → device_data e !! p = Some dd → fresh_data p dd →
  wp (USBDeviceInitialize class_init p) (λ ok '((e', c'), h'), outcome p k d e c h ok e' c' h') ((e, c), h).
Proof. intros H1 H2 H3 H4. by eapply wp_USBDeviceInitialize. Qed.
End Initialize.
