(* ===== verification/UsbFactory.v ===== *)
(** * The drivers' table, by numbers

    The factory finds drivers by the text of a name. Numerals are unique and hold
    no dash, so a name that the table lists is the name of one device or
    interface only: the choice is one by vendor and product, or by class,
    subclass and protocol. *)
From S2P Require Import Prelude CMem Util CString Endpoint ConfigParser.
From S2P Require Import UsbBus UsbFunction UsbString UsbDevice UsbDeviceProofs UsbEnumerate.

(** ** Numerals *)

Lemma digit_code_hex d d' : 0 <= d < 16 → 0 <= d' < 16 →
  digit_code false d ≠ 45 ∧ (digit_code false d = digit_code false d' → d = d').
Proof.
  intros Hd Hd'. rewrite <- !digit_char_code by done. unfold digit_char. destruct (Z.ltb_spec d 10), (Z.ltb_spec d' 10); lia.
Qed.

Lemma hex_digits n : is_u64 n →
  Forall (λ d, 0 <= d < 16) (digits 16 n) ∧ foldl (λ acc d, acc * 16 + d) 0 (digits 16 n) = n.
Proof.
  intros Hn. destruct (digits_leading 16 n ltac:(lia) Hn) as [Hk _].
  destruct (digits_from_value (exponent 64 16 n) 16 n 0) as [Hd Hv]; [lia|unfold is_u64 in Hn; lia|].
  split; [exact Hd|]. unfold digits. rewrite Hv. lia.
Qed.

Lemma map_digits_inj l1 l2 : Forall (λ d, 0 <= d < 16) l1 → Forall (λ d, 0 <= d < 16) l2 →
  map (digit_code false) l1 = map (digit_code false) l2 → l1 = l2.
Proof.
  intros H1. revert l2. induction H1 as [|d l1 Hd H1 IH]; intros [|d' l2] H2 Heq; try done.
  apply list.Forall_cons_1 in H2 as [Hd' H2]. injection Heq as E Heq. f_equal; [by apply digit_code_hex|by apply IH].
Qed.

Lemma numeral_inj n m : is_u64 n → is_u64 m → numeral false 16 n = numeral false 16 m → n = m.
Proof.
  intros Hn Hm E. destruct (hex_digits n Hn) as [H1 V1], (hex_digits m Hm) as [H2 V2].
  rewrite <- V1, <- V2. f_equal. by apply map_digits_inj.
Qed.

Lemma numeral_no_dash n : is_u64 n → 45 ∉ numeral false 16 n.
Proof.
  intros Hn Hin. destruct (hex_digits n Hn) as [H1 _]. unfold numeral in Hin.
  apply list_elem_of_fmap in Hin as (d & E & Hd). rewrite list.Forall_forall in H1. specialize (H1 d Hd).
  by destruct (digit_code_hex d d H1 H1).
Qed.

(** Fields behind each other, with a dash between them. *)
Lemma dash_split (a a' r r' : list Z) : 45 ∉ a → 45 ∉ a' →
  a ++ dash ++ r = a' ++ dash ++ r' → a = a' ∧ r = r'.
Proof.
  revert a'. induction a as [|x a IH]; intros [|y a'] Ha Ha' E; simpl in E.
  - by injection E as ->.
  - injection E as <- _. destruct Ha'. by left.
  - injection E as -> _. destruct Ha. by left.
  - injection E as -> E. rewrite not_elem_of_cons in Ha, Ha'. by destruct (IH a' (proj2 Ha) (proj2 Ha') E) as [-> ->].
Qed.

Definition triple_name (prefix : list Z) (c sc pr : Z) : list Z :=
  prefix ++ numeral false 16 c ++ dash ++ numeral false 16 sc ++ dash ++ numeral false 16 pr.
Definition pair_name (prefix : list Z) (v p : Z) : list Z :=
  prefix ++ numeral false 16 v ++ dash ++ numeral false 16 p.

Lemma u8_u64 x : is_u8 x → is_u64 x. Proof. cint. Qed.
Lemma u16_u64 x : is_u16 x → is_u64 x. Proof. cint. Qed.

Lemma triple_name_inj pre c sc pr c' sc' pr' :
  is_u8 c → is_u8 sc → is_u8 pr → is_u8 c' → is_u8 sc' → is_u8 pr' →
  triple_name pre c sc pr = triple_name pre c' sc' pr' → (c, sc, pr) = (c', sc', pr').
Proof.
  intros H1 H2 H3 H1' H2' H3' E. apply app_inv_head in E.
  apply dash_split in E as [E1 E]; [|by apply numeral_no_dash, u8_u64..].
  apply dash_split in E as [E2 E3]; [|by apply numeral_no_dash, u8_u64..].
  apply numeral_inj in E1, E2, E3; try by apply u8_u64. by subst.
Qed.

Lemma pair_name_inj pre v p v' p' : is_u16 v → is_u16 p → is_u16 v' → is_u16 p' →
  pair_name pre v p = pair_name pre v' p' → (v, p) = (v', p').
Proof.
  intros H1 H2 H1' H2' E. apply app_inv_head in E.
  apply dash_split in E as [E1 E2]; [|by apply numeral_no_dash, u16_u64..].
  apply numeral_inj in E1, E2; try by apply u16_u64. by subst.
Qed.

(** ** The table *)

Definition int_ : list Z := [105; 110; 116].
Definition ven_ : list Z := [118; 101; 110].
Definition dev_ : list Z := [100; 101; 118].

(** Drivers by class, subclass and protocol, and by vendor and product. *)
Definition class_driver (c sc pr : Z) : option TConfigure :=
  if decide ((c, sc, pr) = (9, 0, 2)) then Some USBStandardHubConfigure_
  else if decide ((c, sc, pr) = (9, 0, 0)) then Some USBStandardHubConfigure_
  else if decide ((c, sc, pr) = (8, 6, 0x50)) then Some USBBulkOnlyMassStorageDeviceConfigure_
  else if decide ((c, sc, pr) = (3, 1, 1)) then Some USBKeyboardDeviceConfigure_
  else if decide ((c, sc, pr) = (3, 1, 2)) then Some USBMouseDeviceConfigure_
  else if decide ((c, sc, pr) = (3, 0, 0)) then Some USBGamePadDeviceConfigure_
  else if decide ((c, sc, pr) = (1, 3, 0)) then Some USBMIDIDeviceConfigure_
  else None.
Definition vendor_driver (v p : Z) : option TConfigure :=
  if decide ((v, p) = (0x424, 0xEC00)) then Some SMSC951xDeviceConfigure_
  else if decide ((v, p) = (0x424, 0x7800)) then Some LAN7800DeviceConfigure_
  else None.

Lemma factory_table_names :
  factory_table =
  [ (triple_name int_ 9 0 2, USBStandardHubConfigure_);
    (triple_name int_ 9 0 0, USBStandardHubConfigure_);
    (triple_name int_ 8 6 0x50, USBBulkOnlyMassStorageDeviceConfigure_);
    (triple_name int_ 3 1 1, USBKeyboardDeviceConfigure_);
    (triple_name int_ 3 1 2, USBMouseDeviceConfigure_);
    (pair_name ven_ 0x424 0xEC00, SMSC951xDeviceConfigure_);
    (pair_name ven_ 0x424 0x7800, LAN7800DeviceConfigure_);
    (triple_name int_ 3 0 0, USBGamePadDeviceConfigure_);
    (triple_name int_ 1 3 0, USBMIDIDeviceConfigure_) ].
Proof. vm_compute. reflexivity. Qed.

Lemma factory_lookup_cons n c l name : Forall char_ok name → Forall char_ok n →
  factory_lookup ((n, c) :: l) name = if decide (name = n) then Some c else factory_lookup l name.
Proof.
  intros H1 H2. cbn [factory_lookup]. destruct (Z.eqb_spec (str_cmp name n) 0) as [E|E].
  - rewrite decide_True; [done|by apply str_cmp_eq].
  - rewrite decide_False; [done|]. intros ->. apply E. by apply str_cmp_eq.
Qed.

Lemma prefix_chars pre l : Forall (λ x, 0 < x < 128) pre → Forall char_ok l → Forall char_ok (pre ++ l).
Proof. intros H1 H2. apply Forall_app. split; [|done]. eapply Forall_impl; [|exact H1]. simpl. lia. Qed.

Lemma hex_chars x l : is_u64 x → Forall char_ok l → Forall char_ok (numeral false 16 x ++ dash ++ l).
Proof.
  intros Hx Hl. apply Forall_app. split; [apply numeral_chars; [lia|done]|].
  apply Forall_app. split; [repeat constructor; lia|done].
Qed.

Lemma triple_name_chars pre c sc pr : Forall (λ x, 0 < x < 128) pre → is_u8 c → is_u8 sc → is_u8 pr →
  Forall char_ok (triple_name pre c sc pr).
Proof.
  intros Hp H1 H2 H3. apply prefix_chars; [done|]. apply hex_chars; [by apply u8_u64|].
  apply hex_chars; [by apply u8_u64|]. apply numeral_chars; [lia|by apply u8_u64].
Qed.

Lemma pair_name_chars pre v p : Forall (λ x, 0 < x < 128) pre → is_u16 v → is_u16 p →
  Forall char_ok (pair_name pre v p).
Proof.
  intros Hp H1 H2. apply prefix_chars; [done|]. apply hex_chars; [by apply u16_u64|].
  apply numeral_chars; [lia|by apply u16_u64].
Qed.

Lemma prefixes : Forall (λ x, 0 < x < 128) int_ ∧ Forall (λ x, 0 < x < 128) ven_ ∧ Forall (λ x, 0 < x < 128) dev_.
Proof. split_and!; repeat constructor; lia. Qed.

(** A byte string behind the table's names. *)
Ltac small := unfold is_u8, is_u16; lia.

(** The table, for a name of characters. *)
Lemma factory_lookup_table name : Forall char_ok name →
  factory_lookup factory_table name =
  if decide (name = triple_name int_ 9 0 2) then Some USBStandardHubConfigure_
  else if decide (name = triple_name int_ 9 0 0) then Some USBStandardHubConfigure_
  else if decide (name = triple_name int_ 8 6 0x50) then Some USBBulkOnlyMassStorageDeviceConfigure_
  else if decide (name = triple_name int_ 3 1 1) then Some USBKeyboardDeviceConfigure_
  else if decide (name = triple_name int_ 3 1 2) then Some USBMouseDeviceConfigure_
  else if decide (name = pair_name ven_ 0x424 0xEC00) then Some SMSC951xDeviceConfigure_
  else if decide (name = pair_name ven_ 0x424 0x7800) then Some LAN7800DeviceConfigure_
  else if decide (name = triple_name int_ 3 0 0) then Some USBGamePadDeviceConfigure_
  else if decide (name = triple_name int_ 1 3 0) then Some USBMIDIDeviceConfigure_
  else None.
Proof.
  intros Hn. destruct prefixes as (Pi & Pv & _). rewrite factory_table_names.
  rewrite !factory_lookup_cons; try done; first [apply triple_name_chars|apply pair_name_chars]; first [done|small].
Qed.

Lemma triple_iff pre c sc pr c' sc' pr' :
  is_u8 c → is_u8 sc → is_u8 pr → is_u8 c' → is_u8 sc' → is_u8 pr' →
  triple_name pre c sc pr = triple_name pre c' sc' pr' ↔ (c, sc, pr) = (c', sc', pr').
Proof. intros H1 H2 H3 H4 H5 H6. split; [by apply triple_name_inj|]. by intros [= -> -> ->]. Qed.

Lemma pair_iff pre v p v' p' : is_u16 v → is_u16 p → is_u16 v' → is_u16 p' →
  pair_name pre v p = pair_name pre v' p' ↔ (v, p) = (v', p').
Proof. intros H1 H2 H3 H4. split; [by apply pair_name_inj|]. by intros [= -> ->]. Qed.

Lemma if_ext {A} (P Q : Prop) `{Decision P, Decision Q} (x y y' : A) :
  (P ↔ Q) → y = y' → (if decide P then x else y) = (if decide Q then x else y').
Proof. intros HPQ ->. by apply decide_ext. Qed.

Lemma lookup_class c sc pr : is_u8 c → is_u8 sc → is_u8 pr →
  factory_lookup factory_table (class_name int_ c sc pr) = class_driver c sc pr.
Proof.
  intros H1 H2 H3. unfold class_name.
  destruct (Z.eqb_spec c 0) as [->|N0]; [unfold class_driver; by rewrite !decide_False by congruence|].
  destruct (Z.eqb_spec c 255) as [->|N1]; [unfold class_driver; by rewrite !decide_False by congruence|]. simpl orb.
  change (int_ ++ _) with (triple_name int_ c sc pr).
  rewrite factory_lookup_table by (apply triple_name_chars; [apply prefixes|done..]).
  unfold class_driver.
  rewrite (decide_False (P := triple_name int_ c sc pr = pair_name ven_ 0x424 0xEC00)) by done.
  rewrite (decide_False (P := triple_name int_ c sc pr = pair_name ven_ 0x424 0x7800)) by done.
  repeat (apply if_ext; [apply triple_iff; first [done|small]|]). done.
Qed.

Lemma lookup_vendor v p : is_u16 v → is_u16 p →
  factory_lookup factory_table (pair_name ven_ v p) = vendor_driver v p.
Proof.
  intros H1 H2. rewrite factory_lookup_table by (apply pair_name_chars; [apply prefixes|done..]).
  unfold vendor_driver. do 5 (rewrite decide_False by done).
  do 2 (apply if_ext; [apply pair_iff; first [done|small]|]). by do 2 (rewrite decide_False by done).
Qed.

(** No driver is looked up by the class of the device. *)
Lemma lookup_device c sc pr : is_u8 c → is_u8 sc → is_u8 pr →
  factory_lookup factory_table (class_name dev_ c sc pr) = None.
Proof.
  intros H1 H2 H3. unfold class_name. destruct ((c =? 0) || (c =? 0xFF)); [done|].
  change (dev_ ++ _) with (triple_name dev_ c sc pr).
  rewrite factory_lookup_table by (apply triple_name_chars; [apply prefixes|done..]).
  by do 9 (rewrite decide_False by done).
Qed.

Lemma total_u8 l i : Forall is_u8 l → is_u8 (l !!! i).
Proof.
  intros Hl. destruct (l !! i) as [v|] eqn:E.
  - rewrite (list_lookup_total_correct _ _ _ E). by eapply Forall_lookup_1.
  - rewrite list_lookup_total_alt, E. by vm_compute.
Qed.

Lemma le_value_u16 l i : Forall is_u8 l → is_u16 (le_value (take 2 (drop i l))).
Proof.
  intros Hl. assert (Forall is_u8 (take 2 (drop i l))) as Ht by (by apply Forall_take, Forall_drop).
  assert (length (take 2 (drop i l)) <= 2)%nat as Hlen by (rewrite length_take; lia).
  revert Ht Hlen. generalize (take 2 (drop i l)). intros t Ht Hlen. unfold is_u8, is_u16 in *.
  destruct Ht as [|a t Ha Ht]; [simpl; lia|]. destruct Ht as [|b t Hb Ht]; [simpl; lia|].
  destruct Ht; simpl in *; lia.
Qed.

(** C16. Which driver an interface gets: the network adapters are recognised by the
    device's vendor and product, for the first function only, every other driver
    by the class, subclass and protocol of the interface; no driver is bound
    to the class of the device, and no other name of the table can be hit by
    the text of a name. *)
Theorem driver_choice_numbers first desc conf o :
  Forall is_u8 desc → Forall is_u8 conf →
  driver_choice first desc conf o =
  match (if first then vendor_driver (le_value (take 2 (drop off_idVendor desc)))
                         (le_value (take 2 (drop off_idProduct desc))) else None) with
  | Some cf => Some cf
  | None => class_driver (conf !!! (o + off_bInterfaceClass)%nat)
              (conf !!! (o + off_bInterfaceSubClass)%nat) (conf !!! (o + off_bInterfaceProtocol)%nat)
  end.
Proof.
  intros Hd Hc. unfold driver_choice, interface_name, device_class_name.
  change (vendor_name desc) with (pair_name ven_ (le_value (take 2 (drop off_idVendor desc)))
                                    (le_value (take 2 (drop off_idProduct desc)))).
  rewrite (lookup_vendor _ _ (le_value_u16 _ _ Hd) (le_value_u16 _ _ Hd)).
  rewrite (lookup_device _ _ _ (total_u8 _ _ Hd) (total_u8 _ _ Hd) (total_u8 _ _ Hd)).
  rewrite (lookup_class _ _ _ (total_u8 _ _ Hc) (total_u8 _ _ Hc) (total_u8 _ _ Hc)).
  by destruct first.
Qed.

(** ** A concrete device *)

Module EnumDemo.
(** A keyboard: its device descriptor, and the configuration of [ConfigDemo]. *)
Definition keyboard_device : list Z := [18; 1; 0; 2; 0; 0; 0; 8; 0x6D; 4; 0x1C; 0xC3; 0; 1; 0; 0; 0; 1].
Definition answer_of (v : Z) : list Z :=
  if v =? 0x100 then keyboard_device else if v =? 0x200 then ConfigDemo.keyboard else [].
Definition reply (op : bus_op) : Z * list Z :=
  match op with
  | ControlIn _ _ _ v _ n =>
      let l := take (Z.to_nat n) (answer_of v) in
      if (length l =? 0)%nat then (-1, []) else (Z.of_nat (length l), l)
  | ControlOut _ _ _ _ _ l => (if decide (l = []) then 8 else 0, [])
  | _ => (-1, [])
  end.
#[local] Instance plugged : Oracle := {| respond _ op := reply op |}.

Lemma answer_bytes v : Forall is_u8 (answer_of v).
Proof.
  unfold answer_of. destruct (v =? 0x100); [|destruct (v =? 0x200); [exact ConfigDemo.keyboard_bytes|constructor]].
  unfold keyboard_device. repeat (constructor; [small|]). constructor.
Qed.

#[local] Instance plugged_laws : OracleLaws.
Proof.
  intros h op Hl. destruct op as [p l|p n|p t q v i l|p t q v i n]; simpl in *; unfold result_ok; simpl.
  - split_and!; try done. by left.
  - split_and!; [done|lia|by left].
  - split_and!; try done. right. destruct (decide (l = [])); lia.
  - destruct (Nat.eqb_spec (length (take (Z.to_nat n) (answer_of v))) 0); simpl.
    + split_and!; [done|lia|by left].
    + split; [apply Forall_take, answer_bytes|]. rewrite length_take in *. lia.
Qed.

(** Every prefix of the configuration is a possible answer. *)
Lemma keyboard_prefix n : (n <= 34)%nat → config_answer (Z.of_nat n) (take n ConfigDemo.keyboard).
Proof.
  intros Hn. split.
  - intros E. assert (n = 9%nat) as -> by lia. left. by vm_compute.
  - do 35 (destruct n as [|n]; [eexists; vm_compute; reflexivity|]). lia.
Qed.

#[local] Instance plugged_answers : Answers Bus device_answer.
Proof.
  intros op s. unfold wlp. simpl. destruct op as [p l|p n|p t q v i l|p t q v i n]; simpl; try done.
  set (l := take (Z.to_nat n) (answer_of v)). destruct (Nat.eqb_spec (length l) 0) as [E|E]; cbn [fst snd].
  - split; [intros _ _ _ ?; lia|]. intros _. split; [intros _ ?; lia|]. intros _ <-. split; [done|]. by eexists.
  - split.
    + intros _ Hv _ _. unfold l, answer_of in E. destruct (Z.eqb_spec v 0x100) as [->|]; [by vm_compute in Hv|].
      destruct (Z.eqb_spec v 0x200) as [->|]; [by vm_compute in Hv|]. by rewrite take_nil in E.
    + intros _. split; intros -> Hr; unfold l in *; rewrite length_take in *.
      * change (answer_of 0x100) with keyboard_device in *.
        rewrite lookup_take_lt by (unfold off_bMaxPacketSize0; lia). by vm_compute.
      * change (answer_of 0x200) with ConfigDemo.keyboard in *. change (length ConfigDemo.keyboard) with 34%nat in *.
        rewrite <- Hr. replace (Z.to_nat (Z.of_nat (Z.to_nat n `min` 34))) with (Z.to_nat n) by lia.
        replace (Z.to_nat n `min` 34)%nat with (Z.to_nat n) by lia. apply keyboard_prefix. lia.
Qed.

Definition new_device : TUSBDevice :=
  {| m_ucAddress := 0; m_Speed := USBSpeedFull; m_pEndpoint0 := 16; m_bSplitTransfer := false;
     m_ucHubAddress := 0; m_ucHubPortNumber := 1 |}.
Definition bus1 : Bus :=
  {| bw_usb := {| devices := {[ 1 := new_device ]}; endpoints := {[ 16 := StringDemo.ep0 ]}; urbs := ∅ |};
     bw_events := [] |}.
Definition new_data : TUSBDeviceData :=
  {| m_pDeviceDesc := None; m_pConfigDesc := None; m_pConfigParser := None;
     m_ManufacturerString := StringDemo.blank_string; m_ProductString := StringDemo.blank_string;
     m_pFunction := replicate USBDEV_MAX_FUNCTIONS 0 |}.
Definition enum0 : Enum :=
  {| s_ucNextAddress := 1; device_data := {[ 1 := new_data ]}; function_store := ∅ |}.

Lemma bus1_ready k : host_ready k bus1.
Proof.
  split; [done|]. split; [done|]. intros p e Hp _. simpl in Hp.
  apply lookup_singleton_Some in Hp as [<- <-]. split; [done|]. split; [simpl; lia|done].
Qed.

Lemma bus1_device : device_ready 1 new_device (usb_get bus1).
Proof.
  split; [done|done|]. split; [done|]. exists StringDemo.ep0. split; [done|]. split; [done|].
  split; [simpl; lia|by exists new_device].
Qed.

Lemma new_data_fresh : fresh_data 1 new_data.
Proof. split; try done; split; try done; try constructor; simpl; lia. Qed.

(** The keyboard is found, under address 1. *)
Lemma device_initialize_witness :
  wp (USBDeviceInitialize (λ _ _ c, c) 1) (λ ok '((e', c'), h'),
    (ok = true ∧ option_map Configure (function_store e' !! 2) = Some USBKeyboardDeviceConfigure_) ∧
    outcome (λ _ _ c, c) 1 0 new_device enum0 tt bus1 ok e' c' h') ((enum0, tt), bus1).
Proof.
  eapply wp_mono.
  - apply wp_and with (P := λ ok w, ok = true ∧
      option_map Configure (function_store w.1.1 !! 2) = Some USBKeyboardDeviceConfigure_);
      [vm_compute; split; reflexivity|].
    apply (device_initialize (λ _ _ c, c) 0 1 new_device new_data enum0 tt bus1
      (bus1_ready _) bus1_device eq_refl new_data_fresh).
  - intros ok [[e' c'] h'] [H1 H2]. split; [exact H1|exact H2].
Defined.

Lemma driver_choice_numbers_witness :
  driver_choice true keyboard_device ConfigDemo.keyboard 9 = Some USBKeyboardDeviceConfigure_.
Proof.
  etransitivity; [apply (driver_choice_numbers true keyboard_device ConfigDemo.keyboard 9
    (answer_bytes 0x100) ConfigDemo.keyboard_bytes)|]. vm_compute. reflexivity.
Defined.
End EnumDemo.
