(* ===== verification/MassDevice.v ===== *)
(** * lib/usbmassdevice.c: USB mass storage, bulk-only transport

    A command goes to the device in three transfers: the command block wrapper
    (CBW), the data, and the status wrapper (CSW) it answers with. The structures
    of the source are the bytes they have in memory. *)
From S2P Require Import Prelude CMem Util CString Endpoint ConfigParser DeviceName.
From S2P Require Import UsbBus UsbFunction.
Import Names.

(** ** The structures *)

Definition CBWSIGNATURE : Z := 0x43425355.
Definition CBWFLAGS_DATA_IN : Z := 0x80.
Definition CBWLUN : Z := 0.
Definition CSWSIGNATURE : Z := 0x53425355.
Definition CSWSTATUS_PASSED : Z := 0x00.
Definition SCSI_CONTROL : Z := 0x00.
Definition SCSI_OP_INQUIRY : Z := 0x12.
Definition SCSI_PDT_DIRECT_ACCESS_BLOCK : Z := 0x00.
Definition SCSI_OP_TEST_UNIT_READY : Z := 0x00.
Definition SCSI_REQUEST_SENSE : Z := 0x03.
Definition SCSI_OP_READ_CAPACITY10 : Z := 0x25.
Definition SCSI_OP_READ : Z := 0x28.
Definition SCSI_OP_WRITE : Z := 0x2A.
Definition SCSI_WRITE_FUA : Z := 0x08.
Definition UMSD_BLOCK_SIZE : Z := 512.
Definition UMSD_BLOCK_MASK : Z := UMSD_BLOCK_SIZE - 1.
Definition UMSD_BLOCK_SHIFT : Z := 9.
Definition UMSD_MAX_OFFSET : Z := 0x1FFFFFFFFFF.

Definition sizeof_TCBW : Z := 31.
Definition sizeof_TCSW : Z := 13.
Definition sizeof_TSCSIInquiryResponse : Z := 36.
Definition sizeof_TSCSIRequestSenseResponse7x : Z := 18.
Definition sizeof_TSCSIReadCapacityResponse : Z := 8.

(** A command block wrapper around a command; the block is padded with zeros. *)
Definition TCBW (dCWBTag dCBWDataTransferLength : Z) (bIn : bool) (pCmdBlk : list Z) : list Z :=
  le_bytes 4 CBWSIGNATURE ++ le_bytes 4 dCWBTag ++ le_bytes 4 dCBWDataTransferLength ++
  [if bIn then CBWFLAGS_DATA_IN else 0; CBWLUN; field 0 5 (u8 (Z.of_nat (length pCmdBlk)))] ++
  pCmdBlk ++ replicate (16 - length pCmdBlk) 0.

(** The commands. *)
Definition TSCSIInquiry : list Z :=
  [SCSI_OP_INQUIRY; 0; 0; 0; sizeof_TSCSIInquiryResponse; SCSI_CONTROL].
Definition TSCSITestUnitReady : list Z := [SCSI_OP_TEST_UNIT_READY; 0; 0; 0; 0; SCSI_CONTROL].
Definition TSCSIRequestSense : list Z :=
  [SCSI_REQUEST_SENSE; 0; 0; 0; sizeof_TSCSIRequestSenseResponse7x; SCSI_CONTROL].
Definition TSCSIReadCapacity10 : list Z :=
  [SCSI_OP_READ_CAPACITY10; 0; 0; 0; 0; 0; 0; 0; 0; SCSI_CONTROL].
Definition TSCSIRead10 (LogicalBlockAddress TransferLength : Z) : list Z :=
  [SCSI_OP_READ; 0] ++ le_bytes 4 LogicalBlockAddress ++ [0] ++ le_bytes 2 TransferLength
  ++ [SCSI_CONTROL].
Definition TSCSIWrite10 (LogicalBlockAddress TransferLength : Z) : list Z :=
  [SCSI_OP_WRITE; SCSI_WRITE_FUA] ++ le_bytes 4 LogicalBlockAddress ++ [0]
  ++ le_bytes 2 TransferLength ++ [SCSI_CONTROL].

(** ** The object, and what it shares with others *)

Record TUSBBulkOnlyMassStorageDevice := {
  m_USBFunction : TUSBFunction;
  m_pEndpointIn : Z;
  m_pEndpointOut : Z;
  m_nCWBTag : Z;
  m_nBlockCount : Z;
  m_ullOffset : Z
}.
#[global] Instance TUSBBulkOnlyMassStorageDevice_eta : Eta TUSBBulkOnlyMassStorageDevice := λ r,
  {| m_USBFunction := m_USBFunction r; m_pEndpointIn := m_pEndpointIn r;
     m_pEndpointOut := m_pEndpointOut r; m_nCWBTag := m_nCWBTag r;
     m_nBlockCount := m_nBlockCount r; m_ullOffset := m_ullOffset r |}.

(** The static [s_nDeviceNumber] and the name service. *)
Record Mass := { mass : TUSBBulkOnlyMassStorageDevice; s_nDeviceNumber : Z; names : TDeviceNameService }.
#[global] Instance Mass_eta : Eta Mass := λ r,
  {| mass := mass r; s_nDeviceNumber := s_nDeviceNumber r; names := names r |}.

Section MassDevice.
Context {H : Type} `{!UsbHost H}.
Abbreviation W := (Mass * H)%type.

Definition mass_get {A} (f : TUSBBulkOnlyMassStorageDevice → A) : M W A :=
  gets (λ w, f (mass (fst w))).
Definition mass_set (f : TUSBBulkOnlyMassStorageDevice → TUSBBulkOnlyMassStorageDevice) : M W unit :=
  modify (λ w, ((fst w) <| mass := f (mass (fst w)) |>, snd w)).
Definition on_names {A} (m : M TDeviceNameService A) : M W A :=
  zoom (λ w, Some (names (fst w))) (λ n w, ((fst w) <| names := n |>, snd w)) m.

Definition USBBulkOnlyMassStorageDevice (pDevice : TUSBFunction)
    : M W TUSBBulkOnlyMassStorageDevice :=
  f ← USBFunctionCopy pDevice;
  mret {| m_USBFunction := f <| Configure := USBBulkOnlyMassStorageDeviceConfigure_ |>;
          m_pEndpointIn := 0; m_pEndpointOut := 0; m_nCWBTag := 0; m_nBlockCount := 0;
          m_ullOffset := 0 |}.

(** The destructor frees the endpoints that there are. *)
Definition _USBBulkOnlyMassStorageDevice : M W unit :=
  o ← mass_get m_pEndpointOut;
  (if negb (o =? 0) then
     endpoint_at o ;; endpoint_free o ;; mass_set (λ m, m <| m_pEndpointOut := 0 |>)
   else mret tt) ;;
  i ← mass_get m_pEndpointIn;
  (if negb (i =? 0) then
     endpoint_at i ;; endpoint_free i ;; mass_set (λ m, m <| m_pEndpointIn := 0 |>)
   else mret tt) ;;
  f ← mass_get m_USBFunction;
  f ← _USBFunction f;
  mass_set (λ m, m <| m_USBFunction := f |>).

(** ** Commands *)

(** The data stage, in the direction of the command. *)
Definition command_data (pBuffer : buffer) (bIn : bool) : M W (Z * buffer) :=
  if (0 <? Z.of_nat (length pBuffer)) then
    if bIn then i ← mass_get m_pEndpointIn; TransferIn i pBuffer
    else o ← mass_get m_pEndpointOut; d ← buffer_bytes pBuffer; r ← TransferOut o d;
         mret (r, pBuffer)
  else mret (0, pBuffer).

(** The checks of the status wrapper, in the order of the source. *)
Definition command_status (CSW : buffer) (nResult : Z) : M W Z :=
  sig ← le32_at CSW 0;
  if negb (sig =? CSWSIGNATURE) then mret (-1)
  else
    tag ← le32_at CSW 4;
    t ← mass_get m_nCWBTag;
    if negb (tag =? t) then mret (-1)
    else
      status ← cell_at CSW 12;
      if negb (status =? CSWSTATUS_PASSED) then mret (-1)
      else
        residue ← le32_at CSW 8;
        if negb (residue =? 0) then mret (-1) else mret nResult.

Definition USBBulkOnlyMassStorageDeviceCommand (pCmdBlk : list Z) (pBuffer : buffer) (bIn : bool)
    : M W (Z * buffer) :=
  c_assert ((6 <=? Z.of_nat (length pCmdBlk)) && (Z.of_nat (length pCmdBlk) <=? 16)) ;;
  mass_set (λ m, m <| m_nCWBTag := u32 (m_nCWBTag m + 1) |>) ;;
  tag ← mass_get m_nCWBTag;
  f ← mass_get m_USBFunction;
  USBFunctionGetHost f ;;
  o ← mass_get m_pEndpointOut;
  r ← TransferOut o (TCBW tag (u32 (Z.of_nat (length pBuffer))) bIn pCmdBlk);
  if r <? 0 then mret (-1, pBuffer)
  else
    '(nResult, pBuffer) ← command_data pBuffer bIn;
    if nResult <? 0 then mret (-1, pBuffer)
    else
      i ← mass_get m_pEndpointIn;
      '(r, CSW) ← TransferIn i (blank sizeof_TCSW);
      if negb (r =? sizeof_TCSW) then mret (-1, pBuffer)
      else r ← command_status CSW nResult; mret (r, pBuffer).

(** Recovery: reset the transport, clear the halts, restart the toggles. *)
Definition reset_pid (p : Z) : M W unit :=
  e ← endpoint_at p; e ← USBEndpointResetPID e; endpoint_set p e.

Definition USBBulkOnlyMassStorageDeviceReset : M W Z :=
  f ← mass_get m_USBFunction;
  USBFunctionGetHost f ;;
  ep0 ← USBFunctionGetEndpoint0 f;
  r ← ControlMessageOut ep0 0x21 0xFF 0 0x00 [];
  if r <? 0 then mret (-1)
  else
    ep0 ← USBFunctionGetEndpoint0 f;
    r ← ControlMessageOut ep0 0x02 1 0 1 [];
    if r <? 0 then mret (-1)
    else
      ep0 ← USBFunctionGetEndpoint0 f;
      r ← ControlMessageOut ep0 0x02 1 0 2 [];
      if r <? 0 then mret (-1)
      else
        i ← mass_get m_pEndpointIn; reset_pid i ;;
        o ← mass_get m_pEndpointOut; reset_pid o ;;
        mret 0.

(** ** Reading and writing *)

(** What both tries check first: the block of the offset. *)
Definition offset_ok (ullOffset : Z) : bool :=
  negb (truthy (Z.land ullOffset UMSD_BLOCK_MASK) || (UMSD_MAX_OFFSET <? ullOffset)).

Definition USBBulkOnlyMassStorageDeviceTryRead (pBuffer : buffer) : M W (Z * buffer) :=
  let nCount := u32 (Z.of_nat (length pBuffer)) in
  off ← mass_get m_ullOffset;
  if negb (offset_ok off) then mret (-1, pBuffer)
  else
    let nBlockAddress := u32 (Z.shiftr off UMSD_BLOCK_SHIFT) in
    if truthy (Z.land nCount UMSD_BLOCK_MASK) then mret (-1, pBuffer)
    else
      let usTransferLength := u16 (Z.shiftr nCount UMSD_BLOCK_SHIFT) in
      '(r, pBuffer) ← USBBulkOnlyMassStorageDeviceCommand
        (TSCSIRead10 (uspi_le2be32 nBlockAddress) (uspi_le2be16 usTransferLength)) pBuffer true;
      if negb (r =? s32 nCount) then mret (-1, pBuffer) else mret (s32 nCount, pBuffer).

Definition USBBulkOnlyMassStorageDeviceTryWrite (pBuffer : buffer) : M W Z :=
  let nCount := u32 (Z.of_nat (length pBuffer)) in
  off ← mass_get m_ullOffset;
  if negb (offset_ok off) then mret (-1)
  else
    let nBlockAddress := u32 (Z.shiftr off UMSD_BLOCK_SHIFT) in
    if truthy (Z.land nCount UMSD_BLOCK_MASK) then mret (-1)
    else
      let usTransferLength := u16 (Z.shiftr nCount UMSD_BLOCK_SHIFT) in
      '(r, _) ← USBBulkOnlyMassStorageDeviceCommand
        (TSCSIWrite10 (uspi_le2be32 nBlockAddress) (uspi_le2be16 usTransferLength)) pBuffer false;
      if r <? 0 then mret (-1) else mret (s32 nCount).

(** The loops around them: at most [nTries] attempts, with a recovery after
    each that fails. *)
Fixpoint read_loop (nTries : nat) (pBuffer : buffer) : M W (Z * buffer) :=
  let nCount := u32 (Z.of_nat (length pBuffer)) in
  '(nResult, pBuffer) ← USBBulkOnlyMassStorageDeviceTryRead pBuffer;
  if negb (nResult =? s32 nCount) then
    nStatus ← USBBulkOnlyMassStorageDeviceReset;
    if negb (nStatus =? 0) then mret (nStatus, pBuffer)
    else match nTries with
         | S n => if (0 <? n)%nat then read_loop n pBuffer else mret (nResult, pBuffer)
         | O => mret (nResult, pBuffer)
         end
  else mret (nResult, pBuffer).

Fixpoint write_loop (nTries : nat) (pBuffer : buffer) : M W Z :=
  let nCount := u32 (Z.of_nat (length pBuffer)) in
  nResult ← USBBulkOnlyMassStorageDeviceTryWrite pBuffer;
  if negb (nResult =? s32 nCount) then
    nStatus ← USBBulkOnlyMassStorageDeviceReset;
    if negb (nStatus =? 0) then mret nStatus
    else match nTries with
         | S n => if (0 <? n)%nat then write_loop n pBuffer else mret nResult
         | O => mret nResult
         end
  else mret nResult.

Definition USBBulkOnlyMassStorageDeviceRead (pBuffer : buffer) : M W (Z * buffer) :=
  read_loop 4 pBuffer.
Definition USBBulkOnlyMassStorageDeviceWrite (pBuffer : buffer) : M W Z := write_loop 4 pBuffer.

Definition USBBulkOnlyMassStorageDeviceSeek (ullOffset : Z) : M W Z :=
  mass_set (λ m, m <| m_ullOffset := ullOffset |>) ;; mass_get m_ullOffset.
Definition USBBulkOnlyMassStorageDeviceGetCapacity : M W Z := mass_get m_nBlockCount.

(** ** Configuring *)

(** The endpoints among the descriptors of the interface: one bulk endpoint in
    each direction. Every turn passes a descriptor, so the bytes of the
    configuration are enough fuel. *)
Definition function_set (f : TUSBFunction) : M W unit := mass_set (λ m, m <| m_USBFunction := f |>).

Definition take_endpoint (old : Z) (set : Z → M W unit) (o : nat) : M W bool :=
  if negb (old =? 0) then f ← mass_get m_USBFunction; USBFunctionConfigurationError f ;; mret false
  else
    f ← mass_get m_USBFunction; p ← endpoint_from f o; set p ;; mret true.

Fixpoint endpoint_loop (fuel : nat) : M W bool :=
  match fuel with
  | O => fail OutOfFuel
  | S fuel =>
      f ← mass_get m_USBFunction;
      '(o, f) ← USBFunctionGetDescriptor f DESCRIPTOR_ENDPOINT;
      function_set f ;;
      match o with
      | None => mret true
      | Some o =>
          desc ← endpoint_descriptor f o;
          if Z.land (bmAttributes desc) 0x3F =? 0x02 then
            ok ← (if Z.land (bEndpointAddress desc) 0x80 =? 0x80 then
                    i ← mass_get m_pEndpointIn;
                    take_endpoint i (λ p, mass_set (λ m, m <| m_pEndpointIn := p |>)) o
                  else
                    q ← mass_get m_pEndpointOut;
                    take_endpoint q (λ p, mass_set (λ m, m <| m_pEndpointOut := p |>)) o);
            if ok : bool then endpoint_loop fuel else mret false
          else endpoint_loop fuel
      end
  end.

(** Waiting until the unit is ready: [nTries] more attempts. *)
Fixpoint ready_loop (nTries : nat) : M W bool :=
  match nTries with
  | O => mret false
  | S nTries =>
      '(r, _) ← USBBulkOnlyMassStorageDeviceCommand TSCSITestUnitReady [] false;
      if 0 <=? r then mret true
      else
        '(r, _) ← USBBulkOnlyMassStorageDeviceCommand TSCSIRequestSense
                    (blank sizeof_TSCSIRequestSenseResponse7x) true;
        if r <? 0 then mret false
        else HostMsDelay 100 ;; ready_loop nTries
  end.

(** The device's capacity; false where it is refused. *)
Definition read_capacity : M W bool :=
  '(r, cap) ← USBBulkOnlyMassStorageDeviceCommand TSCSIReadCapacity10
                (blank sizeof_TSCSIReadCapacityResponse) true;
  if negb (r =? sizeof_TSCSIReadCapacityResponse) then mret false
  else
    bl ← le32_at cap 4;
    if negb (uspi_le2be32 bl =? UMSD_BLOCK_SIZE) then mret false
    else
      n ← le32_at cap 0;
      mass_set (λ m, m <| m_nBlockCount := uspi_le2be32 n |>) ;;
      c ← mass_get m_nBlockCount;
      if c =? 0xFFFFFFFF then mret false
      else mass_set (λ m, m <| m_nBlockCount := u32 (m_nBlockCount m + 1) |>) ;; mret true.

(** Entering the device under the next name, "umsd1", "umsd2", ... *)
Definition umsd : list Z := [117; 109; 115; 100].
Definition publish (pThis : Z) : M W unit :=
  n ← gets (λ w, s_nDeviceNumber (fst w));
  modify (λ w, ((fst w) <| s_nDeviceNumber := u32 (n + 1) |>, snd w)) ;;
  on_names DeviceNameServiceGet ;;
  on_names (DeviceNameServiceAddDevice (umsd ++ numeral false 10 n) pThis true).

(** With both endpoints there: configure the interface, ask what kind of device
    it is, wait until it is ready, read its capacity. *)
Definition bring_up (pThis : Z) : M W bool :=
  f ← mass_get m_USBFunction;
  ok ← USBFunctionConfigure f;
  if negb ok then mret false
  else
    '(r, inq) ← USBBulkOnlyMassStorageDeviceCommand TSCSIInquiry
                  (blank sizeof_TSCSIInquiryResponse) true;
    if negb (r =? sizeof_TSCSIInquiryResponse) then mret false
    else
      b0 ← cell_at inq 0;
      if negb (field 0 5 b0 =? SCSI_PDT_DIRECT_ACCESS_BLOCK) then mret false
      else
        ok ← ready_loop 99;
        if negb ok then mret false
        else
          ok ← read_capacity;
          if negb ok then mret false
          else publish pThis ;; mret true.

Definition USBBulkOnlyMassStorageDeviceConfigure (pThis : Z) : M W bool :=
  f ← mass_get m_USBFunction;
  n ← USBFunctionGetNumEndpoints f;
  if n <? 2 then USBFunctionConfigurationError f ;; mret false
  else
    p ← parser_of f;
    ok ← endpoint_loop (S (m_pEndPosition p));
    if negb ok then mret false
    else
      i ← mass_get m_pEndpointIn;
      o ← mass_get m_pEndpointOut;
      f ← mass_get m_USBFunction;
      if (i =? 0) || (o =? 0) then USBFunctionConfigurationError f ;; mret false
      else bring_up pThis.
End MassDevice.

(** ** What a command does

    [csw_good]: a status wrapper that passes the checks. *)
Definition csw_good (tag rc : Z) (c : list Z) : bool :=
  (rc =? sizeof_TCSW) && (le_value (take 4 c) =? CSWSIGNATURE) &&
  (le_value (take 4 (drop 4 c)) =? tag) && bool_decide (c !! 12%nat = Some CSWSTATUS_PASSED) &&
  (le_value (take 4 (drop 8 c)) =? 0).

(** The data stage: the result, the buffer after it and its events. *)
Definition data_moved (pin pout : Z) (buf : buffer) (bIn : bool) (rd : Z) (buf' : buffer)
    (es : list bus_event) : Prop :=
  (buf = [] ∧ rd = 0 ∧ buf' = [] ∧ es = []) ∨
  (buf ≠ [] ∧
   if bIn then ∃ d, es = [BusDone (BulkIn pin (Z.of_nat (length buf))) rd d] ∧
     buf' = overwrite 0 (map Some d) buf ∧ (length d <= length buf)%nat ∧
     (rd = -1 ∨ rd = Z.of_nat (length d)) ∧ Forall is_u8 d
   else ∃ l, buf = map Some l ∧ es = [BusDone (BulkOut pout l) rd []] ∧ buf' = buf ∧
     (rd = -1 ∨ 0 <= rd <= Z.of_nat (length l))).

(** A command ends in one of three ways; events newest first. *)
Inductive command_outcome (pin pout : Z) (cbw : list Z) (tag : Z) (buf : buffer) (bIn : bool)
    : Z → buffer → list bus_event → Prop :=
  | co_refused :
      command_outcome pin pout cbw tag buf bIn (-1) buf [BusDone (BulkOut pout cbw) (-1) []]
  | co_data_failed r0 buf' es :
      0 <= r0 → data_moved pin pout buf bIn (-1) buf' es →
      command_outcome pin pout cbw tag buf bIn (-1) buf' (es ++ [BusDone (BulkOut pout cbw) r0 []])
  | co_status r0 rd buf' es rc c :
      0 <= r0 → 0 <= rd → data_moved pin pout buf bIn rd buf' es →
      command_outcome pin pout cbw tag buf bIn (if csw_good tag rc c then rd else -1) buf'
        (BusDone (BulkIn pin sizeof_TCSW) rc c :: es ++ [BusDone (BulkOut pout cbw) r0 []]).

(** A configured device: both endpoints, and the control endpoint. *)
Record mass_ok (m : TUSBBulkOnlyMassStorageDevice) (u : Usb) : Prop := {
  mo_in : endpoint_is u (m_pEndpointIn m) EndpointTypeBulk;
  mo_out : endpoint_is u (m_pEndpointOut m) EndpointTypeBulk;
  mo_device : fn_pDevice (m_USBFunction m) ≠ 0;
  mo_ep0 : ∃ d, devices u !! fn_pDevice (m_USBFunction m) = Some d ∧
                endpoint_is u (m_pEndpoint0 d) EndpointTypeControl
}.

Lemma mass_ok_same m u u' : same_but_pid u u' → mass_ok m u → mass_ok m u'.
Proof.
  intros Hs [H1 H2 H3 (d & Hd & H4)]. pose proof Hs as [Hdev _].
  split; [by eapply endpoint_is_same..|done|]. exists d. rewrite Hdev. split; [done|].
  by eapply endpoint_is_same.
Qed.

Lemma mass_ok_tag m u t : mass_ok m u → mass_ok (m <| m_nCWBTag := t |>) u.
Proof. by intros []. Qed.

Lemma TCBW_length tag len bIn cmd :
  (length cmd <= 16)%nat → length (TCBW tag len bIn cmd) = 31%nat.
Proof.
  intros Hl. unfold TCBW. rewrite !length_app, !le_bytes_length, length_replicate. simpl. lia.
Qed.

(** The calls of a configured device are ones the driver can make. *)
Lemma bulk_out_ok m u l :
  mass_ok m u → 0 < Z.of_nat (length l) < 2 ^ 31 → op_ok u (BulkOut (m_pEndpointOut m) l).
Proof. intros [_ (H0 & He) _ _] Hl. by split. Qed.

Lemma bulk_in_ok m u n : mass_ok m u → 0 < n < 2 ^ 31 → op_ok u (BulkIn (m_pEndpointIn m) n).
Proof. intros [(H0 & He) _ _ _] Hl. by split. Qed.

Section Command.
Context {H : Type} `{!UsbHost H} `{!UsbHostLaws H} `{!UsbHostRecovers H}.
Implicit Types (h : H) (m : Mass).

Lemma wp_mass_get {A} (f : TUSBBulkOnlyMassStorageDevice → A) (Q : A → Mass * H → Prop) m h :
  Q (f (mass m)) (m, h) → wp (mass_get f) Q (m, h).
Proof. done. Qed.

Lemma wp_mass_set f (Q : unit → Mass * H → Prop) m h :
  Q tt (m <| mass := f (mass m) |>, h) → wp (mass_set f) Q (m, h).
Proof. done. Qed.

End Command.

Section Outcome.
Context {H : Type} `{!UsbHost H} `{!UsbHostLaws H} `{!UsbHostRecovers H}.
Implicit Types (h : H) (m : Mass).

Lemma wp_command_data k buf bIn m h (Q : Z * buffer → Mass * H → Prop) :
  host_ready (S k) h → mass_ok (mass m) (usb_get h) → Z.of_nat (length buf) < 2 ^ 31 →
  (bIn = false → ∃ l, buf = map Some l) →
  (∀ rd buf' es h', host_ready k h' → bus_get h' = es ++ bus_get h →
     same_but_pid (usb_get h) (usb_get h') → length buf' = length buf →
     rd = -1 ∨ 0 <= rd →
     data_moved (m_pEndpointIn (mass m)) (m_pEndpointOut (mass m)) buf bIn rd buf' es →
     Q (rd, buf') (m, h')) →
  wp (command_data buf bIn) Q (m, h).
Proof.
  intros Hr Hm Hl Hdef HQ. unfold command_data. destruct (Z.ltb_spec 0 (Z.of_nat (length buf))).
  2: { destruct buf; [|simpl in *; lia]. wp_step. eapply (HQ _ _ []); try done; auto.
       - by apply (host_ready_mono (S k)); [lia|].
       - apply same_but_pid_refl.
       - left. done. }
  assert (buf ≠ []) by (by intros ->). destruct bIn; wp_step; apply wp_mass_get.
  - eapply wp_TransferIn; [done|by apply bulk_in_ok|]. intros r d s' Hk Hu Hd Hres Hb Hs.
    eapply (HQ _ _ [_]); try done.
    + rewrite overwrite_length; rewrite ?length_map; lia.
    + lia.
    + right. split; [done|]. exists d. by split_and!.
  - destruct Hdef as [l ->]; [done|]. rewrite length_map in *.
    wp_step. apply wp_buffer_bytes. wp_step.
    eapply wp_TransferOut; [done|by apply bulk_out_ok|]. intros r s' Hk Hres Hb Hs. wp_step.
    eapply (HQ _ _ [_]); try done; [by rewrite length_map|lia|]. right. split; [done|]. by exists l.
Qed.

Lemma wp_command_status d nResult m h (Q : Z → Mass * H → Prop) :
  length d = 13%nat →
  Q (if csw_good (m_nCWBTag (mass m)) 13 d then nResult else -1) (m, h) →
  wp (command_status (map Some d) nResult) Q (m, h).
Proof.
  intros Hd HQ. unfold command_status, csw_good in *. change (13 =? sizeof_TCSW) with true in HQ.
  rewrite andb_true_l in HQ. wp_step. apply wp_le32_at; [lia|]. rewrite drop_0.
  destruct (le_value (take 4 d) =? CSWSIGNATURE); cbn [negb andb] in *; [|by wp_step].
  wp_step. apply wp_le32_at; [lia|]. wp_step. apply wp_mass_get.
  destruct (le_value (take 4 (drop 4 d)) =? m_nCWBTag (mass m)); cbn [negb andb] in *; [|by wp_step].
  destruct (lookup_lt_is_Some_2 d 12) as [st Hst]; [lia|].
  wp_step. eapply wp_cell_at; [by apply map_Some_lookup|]. rewrite Hst in HQ.
  destruct (Z.eqb_spec st CSWSTATUS_PASSED) as [->|Hne]; cbn [negb].
  - rewrite bool_decide_eq_true_2 in HQ by done. wp_step. apply wp_le32_at; [lia|].
    destruct (le_value (take 4 (drop 8 d)) =? 0); cbn [negb] in *; by wp_step.
  - rewrite bool_decide_eq_false_2 in HQ by congruence. by wp_step.
Qed.

(** A command, whatever the device answers: one of the three outcomes, with
    the tag counted up. *)
Lemma wp_Command k cmd buf bIn m h (Q : Z * buffer → Mass * H → Prop) :
  host_ready (3 + k) h → mass_ok (mass m) (usb_get h) → (6 <= length cmd <= 16)%nat →
  Z.of_nat (length buf) < 2 ^ 31 → (bIn = false → ∃ l, buf = map Some l) →
  let tag := u32 (m_nCWBTag (mass m) + 1) in
  (∀ r buf' es h', host_ready k h' → bus_get h' = es ++ bus_get h → (length es <= 3)%nat →
     same_but_pid (usb_get h) (usb_get h') → length buf' = length buf → r = -1 ∨ 0 <= r →
     command_outcome (m_pEndpointIn (mass m)) (m_pEndpointOut (mass m))
       (TCBW tag (Z.of_nat (length buf)) bIn cmd) tag buf bIn r buf' es →
     Q (r, buf') (m <| mass := (mass m) <| m_nCWBTag := tag |> |>, h')) →
  wp (USBBulkOnlyMassStorageDeviceCommand cmd buf bIn) Q (m, h).
Proof.
  intros Hr Hm Hc Hl Hdef tag HQ. unfold USBBulkOnlyMassStorageDeviceCommand.
  wp_step. apply wp_assert; [rewrite andb_true_iff, !Z.leb_le; lia|].
  wp_step. apply wp_mass_set. wp_step. apply wp_mass_get. wp_step. apply wp_mass_get. fold tag.
  pose proof Hm as [_ _ Hd0 (d & Hd & _)]. wp_step. apply wp_USBFunctionGetHost; [done|by exists d|].
  wp_step. apply wp_mass_get. set (m1 := m <| mass := _ |>) in *.
  assert (mass_ok (mass m1) (usb_get h)) as Hm1 by by apply mass_ok_tag.
  change (m_nCWBTag (mass m1)) with tag.
  change (m_pEndpointOut (mass m1)) with (m_pEndpointOut (mass m)).
  rewrite u32_id by cint. set (cbw := TCBW tag (Z.of_nat (length buf)) bIn cmd) in *. wp_step.
  eapply (wp_TransferOut (2 + k));
    [done|apply (bulk_out_ok (mass m)); [done|]; unfold cbw; rewrite TCBW_length by lia; lia|].
  intros r0 h1 Hr1 Hr0 Hb1 Hs1. destruct (Z.ltb_spec r0 0).
  { wp_step. assert (r0 = -1) as -> by lia. eapply (HQ _ _ [_]); try done; auto.
    - by eapply (host_ready_mono (2 + k)); [lia|].
    - apply co_refused. }
  wp_step. eapply (wp_command_data (1 + k)); [done|by eapply mass_ok_same|done|done|].
  intros rd buf' es h2 Hr2 Hb2 Hs2 Hlb Hrd Hdm.
  change (m_pEndpointIn (mass m1)) with (m_pEndpointIn (mass m)) in Hdm.
  change (m_pEndpointOut (mass m1)) with (m_pEndpointOut (mass m)) in Hdm.
  assert ((length es <= 1)%nat) as Hles.
  { destruct Hdm as [(_ & _ & _ & ->)|(_ & Hx)]; [simpl; lia|].
    destruct bIn; destruct Hx as (? & ? & ?); destruct_and?; subst; simpl; lia. }
  destruct (Z.ltb_spec rd 0).
  { wp_step. assert (rd = -1) as -> by lia.
    apply (HQ _ _ (es ++ [BusDone (BulkOut (m_pEndpointOut (mass m)) cbw) r0 []])); auto.
    - by eapply (host_ready_mono (1 + k)); [lia|].
    - rewrite Hb2, Hb1. by rewrite <- app_assoc.
    - rewrite length_app. simpl. lia.
    - by eapply same_but_pid_trans.
    - apply co_data_failed; [lia|exact Hdm]. }
  wp_step. apply wp_mass_get. wp_step.
  change (m_pEndpointIn (mass m1)) with (m_pEndpointIn (mass m)).
  eapply (wp_TransferIn k); [done|apply (bulk_in_ok (mass m)); [|simpl; lia]|].
  { eapply mass_ok_same; [|exact Hm]. by eapply same_but_pid_trans. }
  intros rc c h3 Hr3 Hcu Hcl Hrc Hb3 Hs3.
  set (ev := BusDone (BulkIn _ _) rc c) in Hb3. set (out := BusDone (BulkOut _ cbw) r0 []) in Hb1.
  assert (bus_get h3 = (ev :: es ++ [out]) ++ bus_get h) as Hb.
  { rewrite Hb3, Hb2, Hb1. simpl. by rewrite <- app_assoc. }
  assert (same_but_pid (usb_get h) (usb_get h3)) as Hs
    by (eapply same_but_pid_trans; [exact Hs1|by eapply same_but_pid_trans]).
  assert (∀ r, r = (if csw_good tag rc c then rd else -1) →
    Q (r, buf') (m1, h3)) as Hend.
  { intros r ->. apply (HQ _ _ (ev :: es ++ [out])); try done.
    - simpl. rewrite length_app. simpl. lia.
    - destruct (csw_good tag rc c); lia.
    - by apply co_status. }
  destruct (Z.eqb_spec rc sizeof_TCSW) as [Hrc13|Hne]; cbn [negb].
  - assert (length c = 13%nat) as Hc13 by (unfold sizeof_TCSW in Hrc13; lia).
    rewrite overwrite_all by (rewrite Hc13; done).
    wp_step. apply wp_command_status; [done|]. wp_step. apply Hend. by rewrite Hrc13.
  - wp_step. apply Hend. unfold csw_good. by rewrite (proj2 (Z.eqb_neq _ _) Hne).
Qed.
End Outcome.

(** ** The formats, as the device reads them *)

Definition be_value (l : list Z) : Z := foldl (λ v b, 256 * v + b) 0 l.

(** A command block wrapper: tag, data length, direction, command. *)
Definition cbw_decode (l : list Z) : option (Z * Z * bool * list Z) :=
  flags ← l !! 12%nat;
  len ← l !! 14%nat;
  if (length l =? 31)%nat && (le_value (take 4 l) =? CBWSIGNATURE) then
    Some (le_value (take 4 (drop 4 l)), le_value (take 4 (drop 8 l)), Z.testbit flags 7,
          take (Z.to_nat len) (drop 15 l))
  else None.

(** READ(10) and WRITE(10): first block and number of blocks, big endian. *)
Definition rw10_decode (op : Z) (cmd : list Z) : option (Z * Z) :=
  o ← cmd !! 0%nat;
  if (length cmd =? 10)%nat && (o =? op)
  then Some (be_value (take 4 (drop 2 cmd)), be_value (take 2 (drop 7 cmd))) else None.

Lemma le_bytes_16 v : le_bytes 2 v = [v mod 256; (v / 256) mod 256].
Proof.
  rewrite !le_bytes_S. unfold field. rewrite !Z.shiftr_0_r, !Z.land_ones by lia. done.
Qed.
Lemma le_bytes_32 v :
  le_bytes 4 v = [v mod 256; (v / 256) mod 256; (v / 65536) mod 256; (v / 16777216) mod 256].
Proof.
  rewrite !le_bytes_S. unfold field. rewrite !Z.shiftr_0_r, !Z.land_ones by lia.
  rewrite !Z.div_div by lia. done.
Qed.

(** The byte swap stores a number big endian. *)
Lemma be32_bytes x : is_u32 x → be_value (le_bytes 4 (uspi_le2be32 x)) = x.
Proof.
  intros Hx. rewrite le_bytes_32, le2be32_sum. unfold be_value. cbn [foldl]. cint.
Qed.
Lemma be16_bytes x : is_u16 x → be_value (le_bytes 2 (uspi_le2be16 x)) = x.
Proof.
  intros Hx.
  assert (uspi_le2be16 x = (x / 256) mod 256 + 256 * (x mod 256)) as ->.
  { unfold uspi_le2be16. change 0xFF00 with (Z.shiftl (Z.ones 8) 8). rewrite land_shiftr_field by lia.
    change 0x00FF with (Z.ones 8). rewrite Z.land_ones by lia.
    rewrite Z.lor_comm, lor_disjoint by lia. cint. }
  rewrite le_bytes_16. unfold be_value. cbn [foldl]. cint.
Qed.

Lemma TCBW_decode tag len bIn cmd :
  is_u32 tag → is_u32 len → (length cmd <= 16)%nat →
  cbw_decode (TCBW tag len bIn cmd) = Some (tag, len, bIn, cmd).
Proof.
  intros Ht Hl Hc. unfold cbw_decode.
  assert (length (TCBW tag len bIn cmd) = 31%nat) as -> by by apply TCBW_length.
  unfold TCBW. rewrite !le_bytes_32. cbn [app lookup list_lookup take drop mbind option_bind].
  replace (field 0 5 (u8 (Z.of_nat (length cmd)))) with (Z.of_nat (length cmd)).
  2: { unfold field. rewrite Z.shiftr_0_r, Z.land_ones by lia. cint. }
  rewrite Nat2Z.id, drop_0, take_app_length. cbn [le_value foldr].
  match goal with |- (if ?c then _ else _) = _ => assert (c = true) as -> by (vm_compute; done) end.
  apply f_equal. repeat apply f_equal2; [cint|cint|by destruct bIn|done].
Qed.

(** ** A disk behind the transport

    The history says what a disk that answers truthfully holds. [good_write]: a
    write command whose status wrapper passes, at the newest event. The disk is
    a map from byte addresses to bytes. *)
Definition disk := Z → Z.
Definition read_at (d : disk) (off : Z) (n : nat) : list Z :=
  map (λ i, d (off + Z.of_nat i)) (seq 0 n).
Definition write_at (d : disk) (off : Z) (l : list Z) : disk := λ a,
  if (off <=? a) && (a <? off + Z.of_nat (length l))
  then default 0 (l !! Z.to_nat (a - off)) else d a.

Definition good_command (op : Z) (bIn : bool) (n rc : Z) (c data cbw : list Z) : option (Z * list Z) :=
  '(tag, len, b, cmd) ← cbw_decode cbw;
  '(lba, cnt) ← rw10_decode op cmd;
  if (n =? sizeof_TCSW) && csw_good tag rc c && Bool.eqb b bIn
     && (Z.of_nat (length data) =? len) && (len =? UMSD_BLOCK_SIZE * cnt)
  then Some (UMSD_BLOCK_SIZE * lba, data) else None.

Definition good_write (e : bus_event) (h : list bus_event) : option (Z * list Z) :=
  match e, h with
  | BusDone (BulkIn _ n) rc c, BusDone (BulkOut _ data) _ _ :: BusDone (BulkOut _ cbw) _ _ :: _ =>
      good_command SCSI_OP_WRITE false n rc c data cbw
  | _, _ => None
  end.
Definition good_read (e : bus_event) (h : list bus_event) : option (Z * list Z) :=
  match e, h with
  | BusDone (BulkIn _ n) rc c, BusDone (BulkIn _ _) _ data :: BusDone (BulkOut _ cbw) _ _ :: _ =>
      good_command SCSI_OP_READ true n rc c data cbw
  | _, _ => None
  end.

(** What the disk holds after a history, and that its reads returned that. *)
Fixpoint disk_after (h : list bus_event) (d : disk) : disk :=
  match h with
  | [] => d
  | e :: h =>
      match good_write e h with
      | Some (off, l) => write_at (disk_after h d) off l
      | None => disk_after h d
      end
  end.
Fixpoint honest (d : disk) (h : list bus_event) : Prop :=
  match h with
  | [] => True
  | e :: h =>
      honest d h ∧
      match good_read e h with
      | Some (off, l) => l = read_at (disk_after h d) off (length l)
      | None => True
      end
  end.

Lemma read_at_length d off n : length (read_at d off n) = n.
Proof. unfold read_at. by rewrite length_map, length_seq. Qed.

Lemma read_write d off l : read_at (write_at d off l) off (length l) = l.
Proof.
  apply list_eq. intros i. unfold read_at.
  change (map ?f (seq 0 ?n)) with (f <$> seq 0 n). rewrite list_lookup_fmap.
  destruct (decide (i < length l)%nat) as [Hi|Hi].
  - rewrite lookup_seq_lt by done. simpl. unfold write_at.
    rewrite (proj2 (Z.leb_le _ _)), (proj2 (Z.ltb_lt _ _)) by lia. simpl.
    replace (Z.to_nat (off + Z.of_nat i - off)) with i by lia.
    by destruct (lookup_lt_is_Some_2 l i Hi) as [x ->].
  - rewrite lookup_seq_ge by lia. symmetry. apply lookup_ge_None. lia.
Qed.

Lemma csw_good_refused tag rc c rd : 0 <= rd → (if csw_good tag rc c then rd else -1) = -1 →
  csw_good tag rc c = false.
Proof. destruct (csw_good tag rc c); [lia|done]. Qed.

(** The data of a command is no status wrapper. *)
Lemma disk_data pin pout cbw buf bIn rd buf' es r0 h d :
  data_moved pin pout buf bIn rd buf' es → Z.of_nat (length buf) ≠ 13 →
  disk_after (es ++ BusDone (BulkOut pout cbw) r0 [] :: h) d = disk_after h d.
Proof.
  intros [(_ & _ & _ & ->)|(_ & Hm)] H13; [done|].
  destruct bIn; destruct Hm as (l & Hm); destruct_and?; subst; [|done].
  cbn [app disk_after]. unfold good_write, good_command.
  destruct h as [|[[]|] h]; try done. destruct (cbw_decode data) as [[[[]]]|]; simpl; [|done].
  destruct (rw10_decode _ _) as [[]|]; simpl; [|done].
  by rewrite (proj2 (Z.eqb_neq _ sizeof_TCSW)).
Qed.

(** A command that fails, or reads, leaves the disk as it was. *)
Lemma disk_frame pin pout tag cmd buf bIn r buf' es h d :
  is_u32 tag → (length cmd <= 16)%nat → 0 < Z.of_nat (length buf) < 2 ^ 31 →
  Z.of_nat (length buf) ≠ 13 → bIn = true ∨ r = -1 →
  command_outcome pin pout (TCBW tag (Z.of_nat (length buf)) bIn cmd) tag buf bIn r buf' es →
  disk_after (es ++ h) d = disk_after h d.
Proof.
  intros Ht Hc Hl H13 Hr Ho. destruct Ho as [|r0 b' es' H0 Hm|r0 rd b' es' rc c H0 H1 Hm].
  - done.
  - rewrite <- app_assoc. by eapply disk_data.
  - cbn [app disk_after]. rewrite <- app_assoc. cbn [app].
    rewrite (disk_data _ _ _ _ _ _ _ _ _ _ _ Hm H13).
    destruct Hm as [(-> & _)|(_ & Hm)]; [simpl in Hl; lia|].
    destruct bIn; destruct Hm as (l & Hm); destruct_and?; subst; cbn [app good_write]; [done|].
    unfold good_command. rewrite TCBW_decode by (rewrite ?length_map in *; cint). simpl.
    destruct (rw10_decode _ _) as [[]|]; simpl; [|done].
    destruct Hr as [|Hr]; [done|]. rewrite (csw_good_refused tag rc c rd) by done. done.
Qed.

(** Control messages and delays do not touch it either. *)
Definition no_transfer (e : bus_event) : Prop :=
  match e with BusDone (BulkIn _ _) _ _ | BusDone (BulkOut _ _) _ _ => False | _ => True end.

Lemma disk_quiet es h d : Forall no_transfer es → disk_after (es ++ h) d = disk_after h d.
Proof. induction 1 as [|e es He Hes IH]; [done|]. simpl. by destruct e as [[]|]. Qed.

Lemma honest_app d es h : honest d (es ++ h) → honest d h.
Proof. induction es as [|e es IH]; [done|]. simpl. intros [Hh _]. by apply IH. Qed.

(** ** Attempts and recoveries *)

(** What they leave alone: the object but for its tag, the types of the
    endpoints, the history before. *)
Record mass_step {H} `{!UsbHost H} (m : Mass) (h : H) (m' : Mass) (h' : H) : Prop := {
  ms_object : ∃ t, m' = m <| mass := (mass m) <| m_nCWBTag := t |> |>;
  ms_usb : same_but_pid (usb_get h) (usb_get h');
  ms_history : ∃ es, bus_get h' = es ++ bus_get h
}.

Section Attempts.
Context {H : Type} `{!UsbHost H} `{!UsbHostLaws H} `{!UsbHostRecovers H}.
Implicit Types (h : H) (m : Mass).

Lemma mass_step_quiet m h h' es :
  same_but_pid (usb_get h) (usb_get h') → bus_get h' = es ++ bus_get h → mass_step m h m h'.
Proof.
  split; [exists (m_nCWBTag (mass m)); by destruct m as [[] ? ?]|done|by exists es].
Qed.

Lemma mass_step_refl m h : mass_step m h m h.
Proof. by apply (mass_step_quiet m h h []), eq_refl; apply same_but_pid_refl. Qed.

Lemma mass_step_trans m1 h1 m2 h2 m3 h3 :
  mass_step m1 h1 m2 h2 → mass_step m2 h2 m3 h3 → mass_step m1 h1 m3 h3.
Proof.
  intros [[t1 ->] Hs1 [es1 E1]] [[t2 ->] Hs2 [es2 E2]]. split.
  - exists t2. by destruct m1.
  - by eapply same_but_pid_trans.
  - exists (es2 ++ es1). by rewrite E2, E1, app_assoc.
Qed.

Lemma mass_step_ok m h m' h' :
  mass_step m h m' h' → mass_ok (mass m) (usb_get h) → mass_ok (mass m') (usb_get h').
Proof. intros [[t ->] Hs _] Hm. apply mass_ok_tag. by eapply mass_ok_same. Qed.

Lemma mass_step_offset m h m' h' :
  mass_step m h m' h' → m_ullOffset (mass m') = m_ullOffset (mass m).
Proof. by intros [[t ->] _ _]. Qed.

(** Restarting the toggle of a bulk endpoint. *)
Lemma wp_reset_pid k p m h (Q : unit → Mass * H → Prop) :
  host_ready k h → endpoint_is (usb_get h) p EndpointTypeBulk →
  (∀ h', host_ready k h' → same_but_pid (usb_get h) (usb_get h') → bus_get h' = bus_get h →
     Q tt (m, h')) →
  wp (reset_pid p) Q (m, h).
Proof.
  intros Hr (_ & e & He & Ht & _) HQ. unfold reset_pid. wp_step. eapply wp_endpoint_at; [exact He|].
  wp_step. unfold USBEndpointResetPID. wp_step. apply wp_assert; [by rewrite bool_decide_eq_true|].
  wp_step. unfold endpoint_set. wp_step. cbn [usb_get usb_put host_usb prod_host prod_usb fst snd].
  apply HQ.
  - by apply host_ready_pid.
  - rewrite usb_get_put. split; [done|]. intros q. unfold upd_endpoint, upd. simpl.
    destruct (decide (q = p)) as [->|Hne].
    + rewrite lookup_insert_eq, He. split; [by destruct e|]. congruence.
    + rewrite lookup_insert_ne by done. destruct (endpoints (usb_get h) !! q) as [[]|]; done.
  - apply bus_get_usb.
Qed.

(** Recovery: three control messages, or fewer when one fails. *)
Lemma wp_MassReset k m h (Q : Z → Mass * H → Prop) :
  host_ready (3 + k) h → mass_ok (mass m) (usb_get h) →
  (∀ r es h', host_ready k h' → mass_step m h m h' → bus_get h' = es ++ bus_get h →
     Forall no_transfer es → r = -1 ∨ r = 0 → Q r (m, h')) →
  wp USBBulkOnlyMassStorageDeviceReset Q (m, h).
Proof.
  intros Hr Hm HQ. pose proof Hm as [_ _ Hd0 (d & Hd & Hep)].
  assert (∀ r es k' h', (k <= k')%nat → host_ready k' h' → same_but_pid (usb_get h) (usb_get h') →
    bus_get h' = es ++ bus_get h → Forall no_transfer es → r = -1 ∨ r = 0 → Q r (m, h')) as HQ'.
  { intros r es k' h' Hk Hr' Hs Hb Hf Hres. apply (HQ _ es); try done.
    - by eapply host_ready_mono.
    - by eapply mass_step_quiet. }
  unfold USBBulkOnlyMassStorageDeviceReset. wp_step. apply wp_mass_get.
  wp_step. apply wp_USBFunctionGetHost; [done|by exists d|].
  wp_step. eapply wp_USBFunctionGetEndpoint0; [done|done|by destruct Hep|].
  wp_step. eapply (wp_ControlMessageOut (2 + k)); [done|by apply control_ok|].
  intros r1 h1 Hr1 Hres1 Hb1 Hs1. destruct (Z.ltb_spec r1 0).
  { wp_step. eapply (HQ' _ [_] _ h1); [|exact Hr1|done|exact Hb1|by constructor|by left]; lia. }
  wp_step. eapply wp_USBFunctionGetEndpoint0; [done|by rewrite (proj1 Hs1)|by destruct Hep|].
  wp_step. eapply (wp_ControlMessageOut (1 + k));
    [done|apply control_ok; [by eapply endpoint_is_same|done]|].
  intros r2 h2 Hr2 Hres2 Hb2 Hs2. rewrite Hb1 in Hb2.
  assert (same_but_pid (usb_get h) (usb_get h2)) by by eapply same_but_pid_trans.
  destruct (Z.ltb_spec r2 0).
  { wp_step. eapply (HQ' _ [_; _] _ h2); [|exact Hr2|done|exact Hb2|by repeat constructor|by left]; lia. }
  wp_step. eapply wp_USBFunctionGetEndpoint0; [done|by rewrite (proj1 Hs2), (proj1 Hs1)|by destruct Hep|].
  wp_step. eapply (wp_ControlMessageOut k);
    [done|apply control_ok; [by eapply endpoint_is_same|done]|].
  intros r3 h3 Hr3 Hres3 Hb3 Hs3. rewrite Hb2 in Hb3.
  assert (same_but_pid (usb_get h) (usb_get h3)) by by eapply same_but_pid_trans.
  destruct (Z.ltb_spec r3 0).
  { wp_step. eapply (HQ' _ [_; _; _] _ h3); [|exact Hr3|done|exact Hb3|by repeat constructor|by left]; lia. }
  wp_step. apply wp_mass_get. wp_step. eapply wp_reset_pid; [done|by eapply endpoint_is_same; [|apply Hm]|].
  intros h4 Hr4 Hs4 Hb4. wp_step. apply wp_mass_get. wp_step.
  assert (same_but_pid (usb_get h) (usb_get h4)) by by eapply same_but_pid_trans.
  eapply wp_reset_pid; [done|by eapply endpoint_is_same; [|apply Hm]|].
  intros h5 Hr5 Hs5 Hb5. wp_step.
  rewrite <- Hb4, <- Hb5 in Hb3.
  eapply (HQ' _ [_; _; _] k h5); [done|done|by eapply same_but_pid_trans|exact Hb3| |by right].
  by repeat constructor.
Qed.
End Attempts.

(** ** Reading and writing blocks *)

(** A transfer the transport can express: whole blocks, on a block boundary
    below 2 TB, and no more of them than the 16 bits of the command count. *)
Record block_range (off n : Z) : Prop := {
  br_offset : 0 <= off <= UMSD_MAX_OFFSET;
  br_block : off mod UMSD_BLOCK_SIZE = 0;
  br_count : n mod UMSD_BLOCK_SIZE = 0;
  br_size : 0 < n <= 65535 * UMSD_BLOCK_SIZE
}.

Lemma block_mask x : truthy (Z.land x UMSD_BLOCK_MASK) = negb (x mod UMSD_BLOCK_SIZE =? 0).
Proof.
  change UMSD_BLOCK_MASK with (Z.ones 9). rewrite Z.land_ones by lia. done.
Qed.

Lemma offset_ok_spec off n : block_range off n → offset_ok off = true.
Proof.
  intros [H1 H2 _ _]. unfold offset_ok. rewrite block_mask, H2. simpl.
  by rewrite (proj2 (Z.ltb_ge _ _)) by lia.
Qed.

(** A command and what the device reads in it. *)
Lemma rw10_read op flags off n :
  0 <= off <= UMSD_MAX_OFFSET →
  let cmd := [op; flags] ++ le_bytes 4 (uspi_le2be32 (u32 (Z.shiftr off UMSD_BLOCK_SHIFT))) ++ [0] ++
             le_bytes 2 (uspi_le2be16 (u16 (Z.shiftr n UMSD_BLOCK_SHIFT))) ++ [SCSI_CONTROL] in
  rw10_decode op cmd = Some (off / UMSD_BLOCK_SIZE, (n / UMSD_BLOCK_SIZE) mod 65536).
Proof.
  intros H1 cmd. unfold UMSD_MAX_OFFSET, UMSD_BLOCK_SIZE, UMSD_BLOCK_SHIFT in *.
  assert (length cmd = 10%nat) as Hl.
  { unfold cmd. rewrite !length_app, !le_bytes_length. done. }
  unfold rw10_decode. rewrite Hl.
  change (cmd !! 0%nat) with (Some op). cbn [mbind option_bind]. rewrite Z.eqb_refl.
  cbn [Nat.eqb andb]. unfold cmd.
  rewrite !Z.shiftr_div_pow2 by lia. change (2 ^ 9) with 512.
  pose proof (be32_bytes (u32 (off / 512)) (u32_range _)) as E1.
  pose proof (be16_bytes (u16 (n / 512)) (u16_range _)) as E2.
  pose proof (le_bytes_length 4 (uspi_le2be32 (u32 (off / 512)))) as L1.
  pose proof (le_bytes_length 2 (uspi_le2be16 (u16 (n / 512)))) as L2.
  rewrite u32_id in E1 at 2 by cint. revert E1 E2 L1 L2.
  generalize (le_bytes 4 (uspi_le2be32 (u32 (off / 512)))),
    (le_bytes 2 (uspi_le2be16 (u16 (n / 512)))).
  intros [|a1 [|a2 [|a3 [|a4 [|]]]]] [|b1 [|b2 [|]]] E1 E2 L1 L2; try done.
  cbn [app drop take]. by rewrite E1, E2.
Qed.

(** The command of a block range. *)
Lemma rw10_fields op flags off n :
  block_range off n →
  let cmd := [op; flags] ++ le_bytes 4 (uspi_le2be32 (u32 (Z.shiftr off UMSD_BLOCK_SHIFT))) ++ [0] ++
             le_bytes 2 (uspi_le2be16 (u16 (Z.shiftr n UMSD_BLOCK_SHIFT))) ++ [SCSI_CONTROL] in
  length cmd = 10%nat ∧
  rw10_decode op cmd = Some (off / UMSD_BLOCK_SIZE, n / UMSD_BLOCK_SIZE).
Proof.
  intros [H1 H2 H3 H4] cmd. split; [unfold cmd; rewrite !length_app, !le_bytes_length; done|].
  unfold cmd. rewrite rw10_read by done. unfold UMSD_BLOCK_SIZE in *.
  by rewrite (Z.mod_small (n / 512)) by lia.
Qed.

Section ReadWrite.
Context {H : Type} `{!UsbHost H} `{!UsbHostLaws H} `{!UsbHostRecovers H}.
Implicit Types (h : H) (m : Mass).

(** The length of a buffer as the source's [nCount]. *)
Lemma count_ok off (buf : buffer) :
  block_range off (Z.of_nat (length buf)) →
  u32 (Z.of_nat (length buf)) = Z.of_nat (length buf) ∧
  s32 (Z.of_nat (length buf)) = Z.of_nat (length buf) ∧
  truthy (Z.land (Z.of_nat (length buf)) UMSD_BLOCK_MASK) = false ∧
  0 < Z.of_nat (length buf) < 2 ^ 31 ∧ Z.of_nat (length buf) ≠ 13.
Proof.
  intros [_ _ H3 H4]. rewrite block_mask, H3. unfold UMSD_BLOCK_SIZE in *. split_and!; try done; cint.
Qed.

(** One attempt to read: failure, or the truth if the disk is honest; the disk
    stays as it was. *)
Lemma wp_TryRead k buf m h (Q : Z * buffer → Mass * H → Prop) :
  host_ready (3 + k) h → mass_ok (mass m) (usb_get h) →
  block_range (m_ullOffset (mass m)) (Z.of_nat (length buf)) →
  (∀ r buf' m' h', host_ready k h' → mass_step m h m' h' → length buf' = length buf →
     (∀ d, disk_after (bus_get h') d = disk_after (bus_get h) d) →
     r = -1 ∨ (r = Z.of_nat (length buf) ∧ ∀ d, honest d (bus_get h') →
       buf' = map Some (read_at (disk_after (bus_get h) d) (m_ullOffset (mass m)) (length buf))) →
     Q (r, buf') (m', h')) →
  wp (USBBulkOnlyMassStorageDeviceTryRead buf) Q (m, h).
Proof.
  intros Hr Hm Hbr HQ. destruct (count_ok _ buf Hbr) as (Hu & Hs32 & Hmask & Hlen & H13).
  unfold USBBulkOnlyMassStorageDeviceTryRead. rewrite Hu, Hs32, Hmask.
  wp_step. apply wp_mass_get. rewrite (offset_ok_spec _ _ Hbr). cbn [negb].
  set (off := m_ullOffset (mass m)) in *. set (cmd := TSCSIRead10 _ _). wp_step.
  destruct (rw10_fields SCSI_OP_READ 0 _ _ Hbr) as [Hcl Hdec].
  eapply (wp_Command k); [done|done|unfold cmd, TSCSIRead10; rewrite Hcl; lia|lia|done|].
  intros r buf' es h' Hr' Hb Hes Hs Hlb Hres Ho.
  set (m' := m <| mass := _ |>).
  assert (mass_step m h m' h') as Hstep
    by (split; [by exists (u32 (m_nCWBTag (mass m) + 1))|done|by exists es]).
  assert (length cmd = 10%nat) as Hcl' by exact Hcl.
  assert (∀ d, disk_after (bus_get h') d = disk_after (bus_get h) d) as Hdisk.
  { intros d. rewrite Hb. eapply disk_frame; [| | | | |exact Ho]; auto using u32_range; lia. }
  destruct (Z.eqb_spec r (Z.of_nat (length buf))) as [Hreq|Hne]; cbn [negb]; wp_step;
    [|by apply HQ; try done; left].
  apply HQ; try done. right. split; [done|]. intros d Hh. rewrite Hb in Hh.
  destruct Ho as [|r0 b' es' H0 Hdm|r0 rd b' es' rc c H0 H1 Hdm]; [lia|lia|].
  pose proof (disk_data _ _ (TCBW (u32 (m_nCWBTag (mass m) + 1)) (Z.of_nat (length buf)) true cmd)
    _ _ _ _ _ r0 (bus_get h) d Hdm H13) as Hdd.
  destruct Hdm as [(-> & _)|(_ & x & -> & -> & Hx & Hrd & _)]; [simpl in *; lia|].
  assert (csw_good (u32 (m_nCWBTag (mass m) + 1)) rc c = true) as Hgood
    by (destruct (csw_good _ rc c); [done|lia]).
  rewrite Hgood in Hreq. assert (length x = length buf) as Hxl by (destruct Hrd; lia).
  rewrite overwrite_all by done. f_equal.
  destruct Hh as [_ Hh]. cbn [app good_read] in Hh. unfold good_command in Hh.
  cbn [app] in Hdd. rewrite Hdd in Hh.
  rewrite TCBW_decode in Hh by (auto using u32_range; rewrite ?Hcl'; cint).
  cbn [mbind option_bind] in Hh.
  assert (rw10_decode SCSI_OP_READ cmd = Some (off / UMSD_BLOCK_SIZE, Z.of_nat (length buf) / UMSD_BLOCK_SIZE))
    as Hdec' by exact Hdec.
  rewrite Hdec', Hgood, Hxl in Hh. cbn [mbind option_bind eqb andb] in Hh.
  destruct Hbr as [B1 B2 B3 B4]. unfold UMSD_BLOCK_SIZE in *.
  rewrite (proj2 (Z.eqb_eq (Z.of_nat (length buf)) (512 * (Z.of_nat (length buf) / 512)))) in Hh by lia.
  rewrite !Z.eqb_refl in Hh. cbn [andb eqb] in Hh. cbv beta iota in Hh. rewrite Hxl in Hh. etrans; [exact Hh|]. f_equal. lia.
Qed.

(** One attempt to write: failure and the disk as it was, or success and the
    data on it. *)
Lemma wp_TryWrite k l m h (Q : Z → Mass * H → Prop) :
  host_ready (3 + k) h → mass_ok (mass m) (usb_get h) →
  block_range (m_ullOffset (mass m)) (Z.of_nat (length l)) →
  (∀ r m' h', host_ready k h' → mass_step m h m' h' →
     (r = -1 ∧ (∀ d, disk_after (bus_get h') d = disk_after (bus_get h) d)) ∨
     (r = Z.of_nat (length l) ∧ ∀ d, disk_after (bus_get h') d =
        write_at (disk_after (bus_get h) d) (m_ullOffset (mass m)) l) →
     Q r (m', h')) →
  wp (USBBulkOnlyMassStorageDeviceTryWrite (map Some l)) Q (m, h).
Proof.
  intros Hr Hm Hbr HQ. pose proof (length_map Some l) as Hlm.
  rewrite <- Hlm in Hbr, HQ. destruct (count_ok _ _ Hbr) as (Hu & Hs32 & Hmask & Hlen & H13).
  unfold USBBulkOnlyMassStorageDeviceTryWrite. rewrite Hu, Hs32, Hmask.
  wp_step. apply wp_mass_get. rewrite (offset_ok_spec _ _ Hbr). cbn [negb].
  set (off := m_ullOffset (mass m)) in *. set (cmd := TSCSIWrite10 _ _). wp_step.
  destruct (rw10_fields SCSI_OP_WRITE SCSI_WRITE_FUA _ _ Hbr) as [Hcl Hdec].
  assert (length cmd = 10%nat) as Hcl' by exact Hcl.
  eapply (wp_Command k); [exact Hr|exact Hm|lia|lia|by eexists|].
  intros r buf' es h' Hr' Hb Hes Hs Hlb Hres Ho.
  set (m' := m <| mass := _ |>).
  assert (mass_step m h m' h') as Hstep
    by (split; [by exists (u32 (m_nCWBTag (mass m) + 1))|done|by exists es]).
  destruct (Z.ltb_spec r 0) as [Hneg|Hpos]; wp_step; apply HQ; try done.
  - left. split; [done|]. intros d. rewrite Hb.
    eapply disk_frame; [| | | | |exact Ho]; auto using u32_range; lia.
  - right. split; [done|]. intros d. rewrite Hb.
    destruct Ho as [|r0 b' es' H0 Hdm|r0 rd b' es' rc c H0 H1 Hdm]; [lia|lia|].
    pose proof (disk_data _ _ (TCBW (u32 (m_nCWBTag (mass m) + 1)) (Z.of_nat (length (map Some l))) false cmd)
      _ _ _ _ _ r0 (bus_get h) d Hdm H13) as Hdd.
    destruct Hdm as [(E & _)|(_ & x & Ex & -> & -> & Hrd)]; [rewrite E in Hlen; simpl in Hlen; lia|].
    assert (x = l) as ->.
    { apply (f_equal (omap id)) in Ex. revert Ex. clear. revert x.
      induction l as [|a l IH]; intros [|b x]; try done. simpl. intros [= -> E]. f_equal. by apply IH. }
    assert (csw_good (u32 (m_nCWBTag (mass m) + 1)) rc c = true) as Hgood
      by (destruct (csw_good _ rc c); [done|lia]).
    cbn [app] in *. cbn [disk_after]. cbn [disk_after] in Hdd. rewrite Hdd.
    unfold good_write at 1, good_command. rewrite TCBW_decode by (auto using u32_range; rewrite ?Hcl'; cint).
    cbn [mbind option_bind].
    assert (rw10_decode SCSI_OP_WRITE cmd = Some (off / UMSD_BLOCK_SIZE,
      Z.of_nat (length (map Some l)) / UMSD_BLOCK_SIZE)) as Hdec' by exact Hdec.
    rewrite Hdec', Hgood, Hlm, Z.eqb_refl. cbn [mbind option_bind eqb andb].
    destruct Hbr as [B1 B2 B3 B4]. rewrite Hlm in *. unfold UMSD_BLOCK_SIZE in *.
    destruct (Z.eqb_spec (Z.of_nat (length l)) (512 * (Z.of_nat (length l) / 512))); [|lia].
    rewrite Z.eqb_refl. cbn [andb]. cbv beta iota. by replace (512 * (off / 512)) with off by lia.
Qed.

(** The loops: with [n] attempts left, six requests for each. *)
Lemma wp_read_loop n k buf m h (Q : Z * buffer → Mass * H → Prop) :
  (0 < n)%nat → host_ready (6 * n + k) h → mass_ok (mass m) (usb_get h) →
  block_range (m_ullOffset (mass m)) (Z.of_nat (length buf)) →
  (∀ r buf' m' h', host_ready k h' → mass_step m h m' h' → length buf' = length buf →
     (∀ d, disk_after (bus_get h') d = disk_after (bus_get h) d) →
     r = -1 ∨ (r = Z.of_nat (length buf) ∧ ∀ d, honest d (bus_get h') →
       buf' = map Some (read_at (disk_after (bus_get h) d) (m_ullOffset (mass m)) (length buf))) →
     Q (r, buf') (m', h')) →
  wp (read_loop n buf) Q (m, h).
Proof.
  revert buf m h. induction n as [|n IH]; intros buf m h Hn Hr Hm Hbr HQ; [lia|].
  destruct (count_ok _ buf Hbr) as (Hu & Hs32 & _ & Hlen & _). cbn [read_loop].
  rewrite Hu, Hs32. wp_step. eapply (wp_TryRead (6 * n + 3 + k)); [|done|done|].
  { by eapply host_ready_mono; [|exact Hr]; lia. }
  intros r buf' m1 h1 Hr1 Hst1 Hl1 Hd1 Hres.
  destruct (Z.eqb_spec r (Z.of_nat (length buf))) as [->|Hne]; cbn [negb].
  { wp_step. apply HQ; try done. by eapply host_ready_mono; [|exact Hr1]; lia. }
  wp_step. eapply (wp_MassReset (6 * n + k)).
  { by eapply host_ready_mono; [|exact Hr1]; lia. }
  { by eapply mass_step_ok. }
  intros st es h2 Hr2 Hst2 Hb2 Hq Hst.
  assert (mass_step m h m1 h2) as Hstep by by eapply mass_step_trans.
  assert (∀ d, disk_after (bus_get h2) d = disk_after (bus_get h) d) as Hd2.
  { intros d. by rewrite Hb2, disk_quiet, Hd1. }
  assert (r = -1) as -> by (destruct Hres as [|[]]; [done|lia]).
  destruct (Z.eqb_spec st 0) as [->|Hst0]; cbn [negb].
  - destruct (Nat.ltb_spec 0 n).
    + apply IH; [done|done|by eapply mass_step_ok| |].
      { rewrite Hl1. by erewrite mass_step_offset by exact Hst1. }
      intros r' buf'' m3 h3 Hr3 Hst3 Hl3 Hd3 Hres3. apply HQ; try done.
      * by eapply mass_step_trans.
      * by rewrite Hl3.
      * intros d. by rewrite Hd3.
      * destruct Hres3 as [->|[-> Hh]]; [by left|right]. rewrite Hl1. split; [done|].
        intros d Hd. rewrite (Hh d Hd). rewrite Hd2, Hl1.
        by erewrite mass_step_offset by exact Hst1.
    + wp_step. apply HQ; try done; [|by left]. by eapply host_ready_mono; [|exact Hr2]; lia.
  - assert (st = -1) as -> by (destruct Hst; [done|lia]).
    wp_step. apply HQ; try done; [|by left]. by eapply host_ready_mono; [|exact Hr2]; lia.
Qed.

Lemma wp_write_loop n k l m h (Q : Z → Mass * H → Prop) :
  (0 < n)%nat → host_ready (6 * n + k) h → mass_ok (mass m) (usb_get h) →
  block_range (m_ullOffset (mass m)) (Z.of_nat (length l)) →
  (∀ r m' h', host_ready k h' → mass_step m h m' h' →
     (r = -1 ∧ (∀ d, disk_after (bus_get h') d = disk_after (bus_get h) d)) ∨
     (r = Z.of_nat (length l) ∧ ∀ d, disk_after (bus_get h') d =
        write_at (disk_after (bus_get h) d) (m_ullOffset (mass m)) l) →
     Q r (m', h')) →
  wp (write_loop n (map Some l)) Q (m, h).
Proof.
  revert m h. induction n as [|n IH]; intros m h Hn Hr Hm Hbr HQ; [lia|].
  pose proof (length_map Some l) as Hlm.
  destruct (count_ok (m_ullOffset (mass m)) (map Some l)) as (Hu & Hs32 & _ & Hlen & _); [by rewrite Hlm|].
  cbn [write_loop]. rewrite Hu, Hs32. rewrite Hlm in *.
  wp_step. eapply (wp_TryWrite (6 * n + 3 + k)); [|done|done|].
  { by eapply host_ready_mono; [|exact Hr]; lia. }
  intros r m1 h1 Hr1 Hst1 Hres.
  destruct (Z.eqb_spec r (Z.of_nat (length l))) as [->|Hne]; cbn [negb].
  { wp_step. apply HQ; try done. by eapply host_ready_mono; [|exact Hr1]; lia. }
  destruct Hres as [[-> Hd1]|[-> _]]; [|done].
  wp_step. eapply (wp_MassReset (6 * n + k)).
  { by eapply host_ready_mono; [|exact Hr1]; lia. }
  { by eapply mass_step_ok. }
  intros st es h2 Hr2 Hst2 Hb2 Hq Hst.
  assert (mass_step m h m1 h2) as Hstep by by eapply mass_step_trans.
  assert (∀ d, disk_after (bus_get h2) d = disk_after (bus_get h) d) as Hd2.
  { intros d. by rewrite Hb2, disk_quiet, Hd1. }
  destruct (Z.eqb_spec st 0) as [->|Hst0]; cbn [negb].
  - destruct (Nat.ltb_spec 0 n).
    + apply IH; [done|done|by eapply mass_step_ok| |].
      { by erewrite mass_step_offset by exact Hst1. }
      intros r' m3 h3 Hr3 Hst3 Hres3. apply HQ; [done|by eapply mass_step_trans|].
      destruct Hres3 as [[-> Hh]|[-> Hh]]; [left|right]; (split; [done|]); intros d; rewrite Hh, Hd2;
        [done|by erewrite mass_step_offset by exact Hst1].
    + wp_step. apply HQ; [|done|by left]. by eapply host_ready_mono; [|exact Hr2]; lia.
  - assert (st = -1) as -> by (destruct Hst; [done|lia]).
    wp_step. apply HQ; [|done|by left]. by eapply host_ready_mono; [|exact Hr2]; lia.
Qed.
End ReadWrite.

(** ** Properties *)

Section Properties.
Context {H : Type} `{!UsbHost H} `{!UsbHostLaws H} `{!UsbHostRecovers H}.
Implicit Types (h : H) (m : Mass).

(** A command is safe with any device: it makes at most three transfers, its
    tag is the last one counted up, and it reports success only after a status
    wrapper that carries this tag, passes and leaves no residue; the result is
    then what the data stage moved. *)
Theorem mass_command k cmd buf bIn m h :
  host_ready (3 + k) h → mass_ok (mass m) (usb_get h) → (6 <= length cmd <= 16)%nat →
  Z.of_nat (length buf) < 2 ^ 31 → (bIn = false → ∃ l, buf = map Some l) →
  let tag := u32 (m_nCWBTag (mass m) + 1) in
  wp (USBBulkOnlyMassStorageDeviceCommand cmd buf bIn) (λ '(r, buf') '(m', h'),
    m' = m <| mass := (mass m) <| m_nCWBTag := tag |> |> ∧ mass_ok (mass m') (usb_get h') ∧
    host_ready k h' ∧ length buf' = length buf ∧
    ∃ es, bus_get h' = es ++ bus_get h ∧ (length es <= 3)%nat ∧
      (r = -1 ∨ 0 <= r ∧ ∃ c r0 es',
        es = BusDone (BulkIn (m_pEndpointIn (mass m)) sizeof_TCSW) 13 c :: es' ++
             [BusDone (BulkOut (m_pEndpointOut (mass m))
                        (TCBW tag (Z.of_nat (length buf)) bIn cmd)) r0 []] ∧
        csw_good tag 13 c = true ∧
        data_moved (m_pEndpointIn (mass m)) (m_pEndpointOut (mass m)) buf bIn r buf' es')) (m, h).
Proof.
  intros Hr Hm Hc Hl Hdef tag. eapply (wp_Command k); [done..|].
  intros r buf' es h' Hr' Hb Hes Hs Hlb Hres Ho. split_and!; try done.
  { apply mass_ok_tag. by eapply mass_ok_same. }
  exists es. split_and!; try done. destruct Ho as [|r0 b' es' H0 Hdm|r0 rd b' es' rc c H0 H1 Hdm].
  1,2: by left. fold tag. destruct (csw_good tag rc c) eqn:Hg; [|by left]. right. split; [done|].
  assert (rc = 13) as -> by (unfold csw_good in Hg; destruct (Z.eqb_spec rc sizeof_TCSW); done).
  by exists c, r0, es'.
Qed.

(** C3. The object is a block device with a position. Whatever the device does,
    reading changes nothing on a disk that answers truthfully and either fails
    or returns what the disk holds at the position; writing either fails and
    changes nothing or puts the data there. Both end after at most four
    attempts. *)
Theorem block_device k off buf l m h :
  host_ready (24 + k) h → mass_ok (mass m) (usb_get h) →
  wp (USBBulkOnlyMassStorageDeviceSeek off) (λ r '(m', h'),
    r = off ∧ h' = h ∧ m_ullOffset (mass m') = off ∧ mass_ok (mass m') (usb_get h)) (m, h) ∧
  (block_range (m_ullOffset (mass m)) (Z.of_nat (length buf)) →
   wp (USBBulkOnlyMassStorageDeviceRead buf) (λ '(r, buf') '(m', h'),
     host_ready k h' ∧ mass_step m h m' h' ∧
     (∀ d, disk_after (bus_get h') d = disk_after (bus_get h) d) ∧
     (r = -1 ∨ r = Z.of_nat (length buf) ∧ ∀ d, honest d (bus_get h') →
       buf' = map Some (read_at (disk_after (bus_get h) d) (m_ullOffset (mass m)) (length buf))))
     (m, h)) ∧
  (block_range (m_ullOffset (mass m)) (Z.of_nat (length l)) →
   wp (USBBulkOnlyMassStorageDeviceWrite (map Some l)) (λ r '(m', h'),
     host_ready k h' ∧ mass_step m h m' h' ∧
     (r = -1 ∧ (∀ d, disk_after (bus_get h') d = disk_after (bus_get h) d) ∨
      r = Z.of_nat (length l) ∧ ∀ d, disk_after (bus_get h') d =
        write_at (disk_after (bus_get h) d) (m_ullOffset (mass m)) l)) (m, h)).
Proof.
  intros Hr Hm. split_and!.
  - unfold USBBulkOnlyMassStorageDeviceSeek. wp_step. apply wp_mass_set. apply wp_mass_get.
    split_and!; try done. by destruct Hm.
  - intros Hbr. apply (wp_read_loop 4 k); [lia|exact Hr|done|done|]. intros. by split_and!.
  - intros Hbr. apply (wp_write_loop 4 k); [lia|exact Hr|done|done|]. intros. by split_and!.
Qed.

(** What was written is read back, from any disk that answers truthfully. *)
Theorem read_after_write k l buf m h :
  host_ready (48 + k) h → mass_ok (mass m) (usb_get h) → length buf = length l →
  block_range (m_ullOffset (mass m)) (Z.of_nat (length l)) →
  wp (w ← USBBulkOnlyMassStorageDeviceWrite (map Some l);
      '(r, buf') ← USBBulkOnlyMassStorageDeviceRead buf; mret (w, r, buf')) (λ '(w, r, buf') '(_, h'),
    w = Z.of_nat (length l) → r = Z.of_nat (length l) → ∀ d, honest d (bus_get h') →
    buf' = map Some l) (m, h).
Proof.
  intros Hr Hm Hl Hbr. wp_step. apply (wp_write_loop 4 (24 + k)); [lia|exact Hr|done|done|].
  intros w m1 h1 Hr1 Hst1 Hw. wp_step. apply (wp_read_loop 4 k); [lia|exact Hr1| | |].
  { by eapply mass_step_ok. }
  { rewrite Hl. by erewrite mass_step_offset by exact Hst1. }
  intros r buf' m2 h2 Hr2 Hst2 Hl2 _ Hres. wp_step. intros -> -> d Hd.
  destruct Hw as [[Hw _]|[_ Hw]]; [lia|]. destruct Hres as [Hres|[_ Hres]]; [lia|].
  rewrite (Hres d Hd), Hw, Hl. erewrite (mass_step_offset m h m1) by exact Hst1. by rewrite read_write.
Qed.
End Properties.

(** The requests on the wire: wrapping a command and reading the wrapper gives
    back the tag, the length, the direction and the command, and a read or write
    command its first block and number of blocks. The count has 16 bits: of a
    transfer of 32 MB or more only the remainder is asked for, while the
    wrapper announces the whole length. *)
Theorem wrapper_roundtrip tag n bIn op flags off :
  is_u32 tag → is_u32 n → 0 <= off <= UMSD_MAX_OFFSET →
  let cmd := [op; flags] ++ le_bytes 4 (uspi_le2be32 (u32 (Z.shiftr off UMSD_BLOCK_SHIFT))) ++ [0] ++
             le_bytes 2 (uspi_le2be16 (u16 (Z.shiftr n UMSD_BLOCK_SHIFT))) ++ [SCSI_CONTROL] in
  (op = SCSI_OP_READ → flags = 0 → cmd = TSCSIRead10 (uspi_le2be32 (u32 (Z.shiftr off UMSD_BLOCK_SHIFT)))
     (uspi_le2be16 (u16 (Z.shiftr n UMSD_BLOCK_SHIFT)))) ∧
  length (TCBW tag n bIn cmd) = Z.to_nat sizeof_TCBW ∧
  cbw_decode (TCBW tag n bIn cmd) = Some (tag, n, bIn, cmd) ∧
  rw10_decode op cmd = Some (off / UMSD_BLOCK_SIZE, (n / UMSD_BLOCK_SIZE) mod 65536).
Proof.
  intros Ht Hn Ho cmd. assert (length cmd = 10%nat) as Hl.
  { unfold cmd. rewrite !length_app, !le_bytes_length. done. }
  split_and!.
  - by intros -> ->.
  - rewrite TCBW_length by lia. done.
  - apply TCBW_decode; [done|done|lia].
  - by apply rw10_read.
Qed.
