(* ===== verification/MassConfig.v ===== *)
(** * Configuring a mass storage device

    From the descriptors of the interface to a published block device, whatever
    the device answers on the way. *)
From S2P Require Import Prelude CMem Util CString Endpoint ConfigParser DeviceName.
From S2P Require Import UsbBus UsbFunction MassDevice.
Import Names.

Section Configure.
Context {H : Type} `{!UsbHost H} `{!UsbHostLaws H} `{!UsbHostRecovers H}.
Implicit Types (h : H) (m : Mass).

(** The device object stays, and so does everything of the class object but
    its endpoints and the place of the parser. *)
Definition same_device m m' : Prop :=
  ∃ f i o, m' = m <| mass := (mass m) <| m_USBFunction := f |> <| m_pEndpointIn := i |>
                                      <| m_pEndpointOut := o |> |> ∧
    fn_pDevice f = fn_pDevice (m_USBFunction (mass m)).

Lemma same_device_refl m : same_device m m.
Proof.
  exists (m_USBFunction (mass m)), (m_pEndpointIn (mass m)), (m_pEndpointOut (mass m)).
  split; [by destruct m as [[] ? ?]|done].
Qed.

(** An endpoint that is missing or a bulk endpoint. *)
Definition maybe_bulk (u : Usb) (p : Z) : Prop := p = 0 ∨ endpoint_is u p EndpointTypeBulk.

Lemma maybe_bulk_extends u u' p : extends u u' → maybe_bulk u p → maybe_bulk u' p.
Proof. intros Hx [?|?]; [by left|right]. by eapply endpoint_is_extends. Qed.

(** [take_endpoint]: the second endpoint of a direction is refused, the first
    becomes an endpoint of the device. *)
Lemma wp_take_endpoint k b l o pos old set m h (Q : bool → Mass * H → Prop) :
  host_ready k h → function_ok b l o (m_USBFunction (mass m)) →
  is_Some (devices (usb_get h) !! fn_pDevice (m_USBFunction (mass m))) →
  (pos + 7 <= length b)%nat → b !! pos = Some 7 ∨ b !! pos = Some 9 →
  b !! (pos + 1)%nat = Some DESCRIPTOR_ENDPOINT →
  b !! (pos + 4)%nat ≠ Some 0 ∨ b !! (pos + 5)%nat ≠ Some 0 →
  (∀ v, b !! (pos + 3)%nat = Some v → Z.land v 3 = 2) →
  (Q false (m, h)) →
  (∀ p h', p ≠ 0 → host_ready k h' → extends (usb_get h) (usb_get h') →
     bus_get h' = bus_get h → endpoint_is (usb_get h') p EndpointTypeBulk →
     wp (set p ;; mret true) Q (m, h')) →
  wp (take_endpoint old set pos) Q (m, h).
Proof.
  intros Hr Hf [d Hd] Hpos Hlen Hty Hps Hattr HQf HQt. unfold take_endpoint.
  pose proof Hf as [Hd0 Hu _ _ (p & Hp & _)].
  destruct (Z.eqb_spec old 0); cbn [negb].
  2: { wp_step. apply wp_mass_get. wp_step. unfold USBFunctionConfigurationError.
       wp_step. eapply wp_parser_of; [done|]. do 2 wp_step. exact HQf. }
  wp_step. apply wp_mass_get. wp_step.
  eapply (wp_endpoint_from k b l o pos); [done|done|by exists d|lia|done|done|done|left; by apply Hattr|].
  intros q h' e' Hq Hr' Hx Hb _ Ht _ _ _ He. apply (HQt q); try done.
  destruct (lookup_lt_is_Some_2 b (pos + 3)) as [v Hv]; [lia|].
  specialize (Ht v Hv). rewrite (Hattr v Hv) in Ht. by rewrite Ht in He.
Qed.

Lemma same_device_trans m1 m2 m3 : same_device m1 m2 → same_device m2 m3 → same_device m1 m3.
Proof.
  intros (f1 & i1 & o1 & -> & E1) (f2 & i2 & o2 & -> & E2). exists f2, i2, o2.
  split; [done|]. by rewrite E2, <- E1.
Qed.

(** What the loop over the descriptors keeps: the position in the parser, and
    endpoints that are there and of the right kind. *)
Record configuring (k : nat) (b : list Z) (o : nat) (l : list nat) m h : Prop := {
  cg_ready : host_ready k h;
  cg_function : function_ok b l o (m_USBFunction (mass m));
  cg_sizes : packet_sizes b l;
  cg_device : is_Some (devices (usb_get h) !! fn_pDevice (m_USBFunction (mass m)));
  cg_in : maybe_bulk (usb_get h) (m_pEndpointIn (mass m));
  cg_out : maybe_bulk (usb_get h) (m_pEndpointOut (mass m))
}.

(** The part of the loop before and behind it. *)
Definition config_step m h m' h' : Prop :=
  same_device m m' ∧ extends (usb_get h) (usb_get h') ∧ bus_get h' = bus_get h.

Lemma config_step_refl m h : config_step m h m h.
Proof. split_and!; [apply same_device_refl|apply extends_refl|done]. Qed.

Lemma config_step_trans m1 h1 m2 h2 m3 h3 :
  config_step m1 h1 m2 h2 → config_step m2 h2 m3 h3 → config_step m1 h1 m3 h3.
Proof.
  intros (S1 & X1 & B1) (S2 & X2 & B2). split_and!; [by eapply same_device_trans| |congruence].
  by eapply extends_trans.
Qed.

Lemma attr_bulk v : Z.land v 0x3F = 0x02 → Z.land v 3 = 2.
Proof.
  intros E. replace (Z.land v 3) with (Z.land (Z.land v 0x3F) 3); [by rewrite E|].
  by rewrite <- Z.land_assoc.
Qed.

Lemma wp_endpoint_loop k b o fuel l m h (Q : bool → Mass * H → Prop) :
  configuring k b o l m h → (length l < fuel)%nat →
  (∀ r l' m' h', configuring k b o l' m' h' → config_step m h m' h' → Q r (m', h')) →
  wp (endpoint_loop fuel) Q (m, h).
Proof.
  revert l m h. induction fuel as [|fuel IH]; intros l m h Hc Hl HQ; [lia|]. cbn [endpoint_loop].
  pose proof Hc as [Hr Hf Hps Hdev Hi Ho].
  wp_step. apply wp_mass_get. wp_step. eapply wp_FunctionGetDescriptor; [exact Hf|by left|].
  intros r f' [e Er] Hf' (p & -> & Hcur) Hfound. wp_step. apply wp_mass_set.
  set (m1 := m <| mass := _ |>).
  assert (configuring k b o (search_rest b DESCRIPTOR_ENDPOINT l) m1 h) as Hc1.
  { split; [exact Hr|exact Hf'|by apply packet_sizes_rest|exact Hdev|exact Hi|exact Ho]. }
  assert (config_step m h m1 h) as Hst1.
  { split_and!; [|apply extends_refl|done]. exists ((m_USBFunction (mass m)) <| fn_pConfigParser := Some p |>),
      (m_pEndpointIn (mass m)), (m_pEndpointOut (mass m)).
    split; [by destruct m as [[] ? ?]|done]. }
  destruct r as [pos|]; [|wp_step; by eapply HQ].
  destruct (Hfound pos eq_refl) as (Hty & len & Hlen & Hlen' & _ & Hin).
  assert ((pos + 7 <= length b)%nat) by (destruct Hlen'; subst; lia).
  assert (pos ∈ l) as Hpos by (eapply search_elem; by symmetry).
  assert ((length (search_rest b DESCRIPTOR_ENDPOINT l) < fuel)%nat) as Hfuel.
  { pose proof (search_rest_shorter _ _ _ _ _ (eq_sym Er)). lia. }
  wp_step. eapply wp_endpoint_descriptor; [exact Hf'|lia|].
  intros desc E0 E1 E2 E3 _ _ _ _.
  destruct (Z.eqb_spec (Z.land (bmAttributes desc) 0x3F) 2) as [Hattr|_]; [|eapply IH; [exact Hc1|done|]].
  2: { intros ok l' m' h' Hc' Hs'. eapply HQ; [done|]. eapply config_step_trans; [exact Hst1|done]. }
  assert (∀ v, b !! (pos + 3)%nat = Some v → Z.land v 3 = 2) as Hbulk.
  { intros v Hv. rewrite E3 in Hv. injection Hv as <-. by apply attr_bulk. }
  assert (b !! pos = Some 7 ∨ b !! pos = Some 9) as Hlen9 by (destruct Hlen'; subst; auto).
  pose proof (Hps pos Hpos Hty) as Hsize.
  (** both directions: the endpoint is refused or taken and the loop goes on *)
  assert (∀ old set, (∀ q h' (R : unit → Mass * H → Prop),
      (∀ m2, same_device m1 m2 → m_USBFunction (mass m2) = m_USBFunction (mass m1) →
         (m_pEndpointIn (mass m2) = q ∧ m_pEndpointOut (mass m2) = m_pEndpointOut (mass m1)) ∨
         (m_pEndpointOut (mass m2) = q ∧ m_pEndpointIn (mass m2) = m_pEndpointIn (mass m1)) →
         R tt (m2, h')) → wp (set q) R (m1, h')) →
    wp (ok ← take_endpoint old set pos; if ok : bool then endpoint_loop fuel else mret false) Q (m1, h))
    as Htake.
  { intros old set Hset. wp_step. eapply (wp_take_endpoint k b); [exact Hr|exact Hf'|exact Hdev|..]; try done.
    { wp_step. by eapply HQ. }
    intros q h' Hq Hr' Hx Hb He. wp_step. apply Hset. intros m2 Hs2 Ef Hq2. wp_step.
    assert (config_step m1 h m2 h') as Hst2 by by split_and!.
    apply (IH (search_rest b DESCRIPTOR_ENDPOINT l)); [|done|].
    - destruct Hc1 as [C1 C2 C3 C4 C5 C6]. split; [done|by rewrite Ef|done| | |].
      + rewrite Ef. destruct Hx as [Hx _]. by rewrite Hx.
      + destruct Hq2 as [[-> _]|[_ ->]]; [by right|by eapply maybe_bulk_extends].
      + destruct Hq2 as [[_ ->]|[-> _]]; [by eapply maybe_bulk_extends|by right].
    - intros ok l' m' h3 Hc' Hs'. eapply HQ; [done|].
      eapply config_step_trans; [exact Hst1|]. by eapply config_step_trans. }
  destruct (Z.land (bEndpointAddress desc) 0x80 =? 0x80); wp_step; (wp_step; apply wp_mass_get).
  all: eapply wp_bind_inv, Htake; intros q h' R HR; apply wp_mass_set, HR; [|done|auto].
  - exists (m_USBFunction (mass m1)), q, (m_pEndpointOut (mass m1)). split; [by destruct m as [[] ? ?]|done].
  - exists (m_USBFunction (mass m1)), (m_pEndpointIn (mass m1)), q. split; [by destruct m as [[] ? ?]|done].
Qed.

(** ** The commands of the configuration *)

(** A command that asks for data, by what its result says. *)
Lemma wp_In_command k cmd n m h (Q : Z * buffer → Mass * H → Prop) :
  host_ready (3 + k) h → mass_ok (mass m) (usb_get h) → (6 <= length cmd <= 16)%nat →
  0 < n < 256 →
  (∀ r buf' m' h', host_ready k h' → mass_step m h m' h' → r = -1 ∨ 0 <= r →
     (r = n → ∃ d, buf' = map Some d ∧ Z.of_nat (length d) = n ∧ Forall is_u8 d ∧
        BusDone (BulkIn (m_pEndpointIn (mass m)) n) n d ∈ bus_get h') →
     Q (r, buf') (m', h')) →
  wp (USBBulkOnlyMassStorageDeviceCommand cmd (blank n) true) Q (m, h).
Proof.
  intros Hr Hm Hc Hn HQ.
  assert (Z.of_nat (length (blank n)) = n) as Hlb by (unfold blank; rewrite length_replicate; lia).
  eapply (wp_Command k); [done|done|done|lia|done|].
  intros r buf' es h' Hr' Hb _ Hs Hl Hres Ho. apply HQ; try done.
  { split; [by eexists|done|by exists es]. }
  intros Er. rewrite Hlb in Ho.
  destruct Ho as [|r0 b' es' H0 Hdm|r0 rd b' es' rc c H0 H1 Hdm]; [lia|lia|].
  destruct (csw_good _ rc c); [|lia]. subst rd.
  destruct Hdm as [(E & _)|(_ & d & -> & -> & Hd & Hrd & Hu)]; [by rewrite E in Hlb; simpl in Hlb; lia|].
  rewrite Hlb in *. destruct Hrd as [|Hrd]; [lia|]. exists d. split_and!; [|done|done|].
  - apply overwrite_all. lia.
  - rewrite Hb. right. apply elem_of_app. left. left.
Qed.

Lemma wp_HostMsDelay k t m h (Q : unit → Mass * H → Prop) :
  host_ready k h → (∀ h', host_ready k h' → mass_step m h m h' → Q tt (m, h')) →
  wp (HostMsDelay t) Q (m, h).
Proof.
  intros Hr HQ. unfold HostMsDelay. wp_step. cbn [bus_put bus_get host_bus prod_host prod_bus fst snd].
  apply HQ; [by apply host_ready_bus|]. eapply (mass_step_quiet _ _ _ [_]).
  - rewrite usb_get_bus. apply same_but_pid_refl.
  - by rewrite bus_get_put.
Qed.

Lemma wp_ready_loop n k m h (Q : bool → Mass * H → Prop) :
  host_ready (6 * n + k) h → mass_ok (mass m) (usb_get h) →
  (∀ r m' h', host_ready k h' → mass_step m h m' h' → Q r (m', h')) →
  wp (ready_loop n) Q (m, h).
Proof.
  revert m h. induction n as [|n IH]; intros m h Hr Hm HQ; cbn [ready_loop].
  { wp_step. apply HQ; [done|apply mass_step_refl]. }
  assert (∀ r m' h' k', host_ready k' h' → (k <= k')%nat → mass_step m h m' h' → Q r (m', h')) as HQ'.
  { intros r m' h' k' Hr' Hk. apply HQ. by eapply host_ready_mono. }
  wp_step. eapply (wp_Command (6 * n + 3 + k)); [|done|simpl; lia|simpl; lia|by exists []|].
  { by eapply host_ready_mono; [|exact Hr]; lia. }
  intros r buf1 es h1 Hr1 Hb1 _ Hs1 _ Hres1 _. set (m1 := m <| mass := _ |>).
  assert (mass_step m h m1 h1) as Hst1 by (split; [by eexists|done|by exists es]).
  destruct (Z.leb_spec 0 r); [wp_step; eapply HQ'; [exact Hr1|lia|done]|].
  wp_step. eapply (wp_In_command (6 * n + k)); [|by eapply mass_step_ok|simpl; lia|done|].
  { by eapply host_ready_mono; [|exact Hr1]; lia. }
  intros r2 buf2 m2 h2 Hr2 Hst2 Hres2 _.
  assert (mass_step m h m2 h2) as Hst by by eapply mass_step_trans.
  destruct (Z.ltb_spec r2 0); [wp_step; eapply HQ'; [exact Hr2|lia|done]|].
  wp_step. eapply wp_HostMsDelay; [exact Hr2|]. intros h3 Hr3 Hst3.
  assert (mass_step m h m2 h3) by by eapply mass_step_trans.
  apply IH; [done|by eapply mass_step_ok|]. intros r3 m4 h4 Hr4 Hst4.
  apply HQ; [done|]. by eapply mass_step_trans.
Qed.

(** The byte swap reads a big-endian number. *)
Lemma swap_bytes l : length l = 4%nat → Forall is_u8 l → uspi_le2be32 (le_value l) = be_value l.
Proof.
  intros Hl Hu. destruct l as [|a [|b [|c [|d [|]]]]]; try done.
  repeat (apply Forall_cons_1 in Hu as [? Hu]). rewrite le2be32_sum.
  unfold le_value, be_value. cbn [foldr foldl]. cint.
Qed.

(** The capacity is what the device said, with blocks of 512 bytes. *)
Definition capacity_event (pin : Z) (nBlockCount : Z) (h : list bus_event) : Prop :=
  ∃ d, BusDone (BulkIn pin sizeof_TSCSIReadCapacityResponse) 8 d ∈ h ∧ length d = 8%nat ∧
    be_value (drop 4 d) = UMSD_BLOCK_SIZE ∧ nBlockCount = be_value (take 4 d) + 1 ∧
    nBlockCount < 2 ^ 32.

Lemma wp_read_capacity k m h (Q : bool → Mass * H → Prop) :
  host_ready (3 + k) h → mass_ok (mass m) (usb_get h) →
  (∀ r m' h' t c, host_ready k h' → same_but_pid (usb_get h) (usb_get h') →
     (∃ es, bus_get h' = es ++ bus_get h) →
     m' = m <| mass := (mass m) <| m_nCWBTag := t |> <| m_nBlockCount := c |> |> →
     (r = true → capacity_event (m_pEndpointIn (mass m)) c (bus_get h')) →
     Q r (m', h')) →
  wp read_capacity Q (m, h).
Proof.
  intros Hr Hm HQ. unfold read_capacity. wp_step.
  eapply (wp_In_command k); [done|done|simpl; lia|done|].
  intros r buf' m1 h1 Hr1 [[t ->] Hs1 Hb1] _ Hd.
  assert (∀ v c, (v = true → capacity_event (m_pEndpointIn (mass m)) c (bus_get h1)) →
    Q v (m <| mass := (mass m) <| m_nCWBTag := t |> <| m_nBlockCount := c |> |>, h1)) as HQ'
    by (intros v c; by eapply HQ).
  assert (Q false (m <| mass := (mass m) <| m_nCWBTag := t |> |>, h1)) as HQf.
  { specialize (HQ' false (m_nBlockCount (mass m))). by apply HQ'. }
  destruct (Z.eqb_spec r sizeof_TSCSIReadCapacityResponse) as [->|]; cbn [negb]; [|by wp_step].
  destruct (Hd eq_refl) as (d & -> & Hl & Hu & He). unfold sizeof_TSCSIReadCapacityResponse in Hl.
  wp_step. apply wp_le32_at; [lia|]. rewrite swap_bytes.
  2: { rewrite length_take, length_drop. lia. }
  2: { by apply Forall_take, Forall_drop. }
  rewrite (take_ge (drop 4 d)) by (rewrite length_drop; lia).
  destruct (Z.eqb_spec (be_value (drop 4 d)) UMSD_BLOCK_SIZE) as [Hbs|]; cbn [negb]; [|by wp_step].
  wp_step. apply wp_le32_at; [lia|]. rewrite drop_0, swap_bytes.
  2: { rewrite length_take. lia. }
  2: { by apply Forall_take. }
  wp_step. apply wp_mass_set. wp_step. apply wp_mass_get. cbn [mass upd m_nBlockCount].
  destruct (Z.eqb_spec (be_value (take 4 d)) 0xFFFFFFFF) as [|Hff].
  { wp_step. specialize (HQ' false (be_value (take 4 d))). by apply HQ'. }
  wp_step. apply wp_mass_set. wp_step.
  assert (0 <= be_value (take 4 d) < 2 ^ 32) as Hrange.
  { destruct d as [|a [|b [|c [|e d]]]]; try done.
    repeat (apply Forall_cons_1 in Hu as [? Hu]). unfold be_value, is_u8 in *. cbn [take].
    rewrite take_0. cbn [foldl]. lia. }
  apply (HQ' true). intros _. exists d. split_and!; try done.
  - unfold sizeof_TSCSIReadCapacityResponse in He. lia.
  - cbn [mass upd m_nBlockCount]. rewrite u32_id; cint.
  - cint.
Qed.

Lemma wp_publish pThis m h (Q : unit → Mass * H → Prop) :
  pThis ≠ 0 → s_pThis (names m) ≠ 0 →
  Q tt (m <| s_nDeviceNumber := u32 (s_nDeviceNumber m + 1) |>
          <| names := (names m) <| m_pList :=
               {| pName := umsd ++ numeral false 10 (s_nDeviceNumber m); pDevice := pThis;
                  bBlockDevice := true |} :: m_pList (names m) |> |>, h) →
  wp (publish pThis) Q (m, h).
Proof.
  intros Hp Hs HQ. unfold publish. wp_step. wp_step. wp_step. wp_step. wp_step.
  eapply wp_zoom; [done|]. unfold DeviceNameServiceGet. wp_step. wp_step. wp_step.
  apply wp_assert; [by apply negb_true_iff, Z.eqb_neq|]. wp_step.
  eapply wp_zoom; [done|]. unfold DeviceNameServiceAddDevice. wp_step.
  apply wp_assert; [by apply negb_true_iff, Z.eqb_neq|]. wp_step. exact HQ.
Qed.

(** What a device becomes: a block device with the capacity it told, entered
    under the next name. *)
Definition configured (pThis : Z) m h m' h' : Prop :=
  mass_ok (mass m') (usb_get h') ∧
  capacity_event (m_pEndpointIn (mass m')) (m_nBlockCount (mass m')) (bus_get h') ∧
  s_nDeviceNumber m' = u32 (s_nDeviceNumber m + 1) ∧ s_pThis (names m') = s_pThis (names m) ∧
  m_pList (names m') =
    {| pName := umsd ++ numeral false 10 (s_nDeviceNumber m); pDevice := pThis;
       bBlockDevice := true |} :: m_pList (names m).

Definition entered (pThis : Z) (ok : bool) m h m' h' : Prop :=
  (∃ es, bus_get h' = es ++ bus_get h) ∧
  if ok then configured pThis m h m' h'
  else names m' = names m ∧ s_nDeviceNumber m' = s_nDeviceNumber m.

Lemma wp_bring_up k pThis b l o m h (Q : bool → Mass * H → Prop) :
  host_ready (601 + k) h → function_ok b l o (m_USBFunction (mass m)) →
  mass_ok (mass m) (usb_get h) → pThis ≠ 0 → s_pThis (names m) ≠ 0 →
  (∀ r m' h', host_ready k h' → entered pThis r m h m' h' → Q r (m', h')) →
  wp (bring_up pThis) Q (m, h).
Proof.
  intros Hr Hf Hm Hp Hn HQ.
  assert (∀ m' h' k', host_ready k' h' → (k <= k')%nat → mass_step m h m' h' → Q false (m', h')) as Hno.
  { intros m' h' k' Hr' Hk [[t ->] _ Hes]. apply HQ; [by eapply host_ready_mono|]. by split_and!. }
  pose proof Hm as [_ _ _ (d & Hd & He)].
  unfold bring_up. wp_step. apply wp_mass_get. wp_step.
  eapply (wp_USBFunctionConfigure (600 + k)); [exact Hr|exact Hf|exact Hd|exact He|].
  intros ok h1 Hr1 [Hsb1 [es1 Hbus1]]. pose proof (mass_step_quiet m h h1 es1 Hsb1 Hbus1) as Hs1. destruct ok; cbn [negb]; [|wp_step; eapply Hno; [exact Hr1|lia|done]].
  wp_step. eapply (wp_In_command (597 + k)); [exact Hr1|by eapply mass_step_ok|simpl; lia|done|].
  intros r inq m2 h2 Hr2 Hs2 _ Hinq.
  assert (mass_step m h m2 h2) as Hst2 by by eapply mass_step_trans.
  destruct (Z.eqb_spec r sizeof_TSCSIInquiryResponse) as [->|]; cbn [negb];
    [|wp_step; eapply Hno; [exact Hr2|lia|done]].
  destruct (Hinq eq_refl) as (di & -> & Hl & _ & _). unfold sizeof_TSCSIInquiryResponse in Hl.
  destruct (lookup_lt_is_Some_2 di 0) as [b0 Hb0]; [lia|].
  wp_step. eapply wp_cell_at; [by apply map_Some_lookup|].
  destruct (field 0 5 b0 =? SCSI_PDT_DIRECT_ACCESS_BLOCK); cbn [negb];
    [|wp_step; eapply Hno; [exact Hr2|lia|done]].
  wp_step. eapply (wp_ready_loop 99 (3 + k)); [exact Hr2|by eapply mass_step_ok|].
  intros ok m3 h3 Hr3 Hs3. assert (mass_step m h m3 h3) as Hst3 by by eapply mass_step_trans.
  destruct ok; cbn [negb]; [|wp_step; eapply Hno; [exact Hr3|lia|done]].
  assert (mass_ok (mass m3) (usb_get h3)) as Hm3 by by eapply mass_step_ok.
  wp_step. eapply (wp_read_capacity k); [exact Hr3|exact Hm3|].
  intros ok m4 h4 t c Hr4 Hs4 [es4 Hb4] -> Hcap.
  destruct Hst3 as [[t3 ->] _ [es3 Hb3]].
  assert (∃ es, bus_get h4 = es ++ bus_get h) as Hes.
  { exists (es4 ++ es3). by rewrite Hb4, Hb3, app_assoc. }
  destruct ok; cbn [negb]; [|wp_step; apply HQ; [exact Hr4|by split_and!]].
  wp_step. apply wp_publish; [done|exact Hn|]. wp_step. apply HQ; [exact Hr4|].
  split; [exact Hes|]. split_and!; [|by apply Hcap|done..].
  eapply mass_ok_same; [exact Hs4|]. by destruct Hm3.
Qed.

(** C6. Configuring is safe with any device: with the descriptors of an accepted
    configuration in which bulk endpoints have a packet size, it ends without a
    fault after at most 601 requests, whatever the device answers. If it
    succeeds, the device has an endpoint in each direction, its capacity is the
    one it told (in blocks of 512 bytes, less than 2^32 of them), and it is
    entered as "umsd" with its number; otherwise nothing is entered. *)
Theorem mass_configure k pThis b l o m h d :
  host_ready (601 + k) h → function_ok b l o (m_USBFunction (mass m)) → packet_sizes b l →
  devices (usb_get h) !! fn_pDevice (m_USBFunction (mass m)) = Some d →
  endpoint_is (usb_get h) (m_pEndpoint0 d) EndpointTypeControl →
  m_pEndpointIn (mass m) = 0 → m_pEndpointOut (mass m) = 0 →
  pThis ≠ 0 → s_pThis (names m) ≠ 0 →
  wp (USBBulkOnlyMassStorageDeviceConfigure pThis) (λ ok '(m', h'),
    host_ready k h' ∧ entered pThis ok m h m' h') (m, h).
Proof.
  intros Hr Hf Hps Hd He Hi Ho Hp Hn.
  assert (∀ m' h', host_ready (601 + k) h' → bus_get h' = bus_get h → names m' = names m →
    s_nDeviceNumber m' = s_nDeviceNumber m → host_ready k h' ∧ entered pThis false m h m' h') as Hno.
  { intros m' h' Hr' Hb H1 H2. split; [by eapply host_ready_mono; [|exact Hr']; lia|].
    split; [by exists []|done]. }
  pose proof Hf as [_ _ _ _ (p & Hpp & (_ & _ & last & audio & Hch) & _)].
  unfold USBBulkOnlyMassStorageDeviceConfigure. wp_step. apply wp_mass_get.
  wp_step. eapply wp_interface_byte; [exact Hf|unfold off_bNumEndpoints; lia|]. intros n _ _.
  destruct (Z.ltb_spec n 2).
  { wp_step. unfold USBFunctionConfigurationError. wp_step. eapply wp_parser_of; [done|]. wp_step.
    wp_step. by apply Hno. }
  wp_step. eapply wp_parser_of; [done|]. wp_step.
  eapply (wp_endpoint_loop (601 + k) b o _ l).
  { split; [exact Hr|exact Hf|exact Hps|by exists d|by left|by left]. }
  { pose proof (chain_length _ _ _ _ _ _ Hch). lia. }
  intros ok l' m1 h1 [Hr1 Hf1 _ _ Hin Hout] ((f & i & q & -> & Ef) & Hx & Hb1).
  set (m1 := m <| mass := _ |>) in *.
  destruct ok; cbn [negb]; [|wp_step; by apply Hno].
  wp_step. apply wp_mass_get. wp_step. apply wp_mass_get. wp_step. apply wp_mass_get.
  assert (devices (usb_get h1) !! fn_pDevice (m_USBFunction (mass m1)) = Some d) as Hd1.
  { destruct Hx as [-> _]. by rewrite <- Hd, <- Ef. }
  assert (endpoint_is (usb_get h1) (m_pEndpoint0 d) EndpointTypeControl) as He1
    by by eapply endpoint_is_extends.
  destruct ((m_pEndpointIn (mass m1) =? 0) || (m_pEndpointOut (mass m1) =? 0)) eqn:Ez.
  { wp_step. pose proof Hf1 as [_ _ _ _ (p1 & Hp1 & _)]. unfold USBFunctionConfigurationError.
    wp_step. eapply wp_parser_of; [done|]. wp_step.
    wp_step. by apply Hno. }
  apply orb_false_iff in Ez as [Ei Eo]. apply Z.eqb_neq in Ei, Eo.
  assert (mass_ok (mass m1) (usb_get h1)) as Hm1.
  { pose proof Hf1 as [Hd0 _ _ _ _]. destruct Hin as [|Hin], Hout as [|Hout]; try done.
    split; [exact Hin|exact Hout|exact Hd0|by exists d]. }
  eapply (wp_bring_up k); [exact Hr1|exact Hf1|exact Hm1|exact Hp|exact Hn|].
  intros ok m2 h2 Hr2 Hent. split; [done|]. destruct Hent as [[es Hes] Hent].
  split; [exists es; by rewrite Hes, Hb1|]. exact Hent.
Qed.
End Configure.
