(* ===== verification/MassScenario.v ===== *)
(** * A memory stick

    A concrete device for the theorems of [MassDevice] and [MassConfig]: it
    answers every command, from a disk that holds zeros at first and then what
    was written. *)
From S2P Require Import Prelude CMem Util CString Endpoint ConfigParser DeviceName.
From S2P Require Import UsbBus UsbFunction MassDevice MassConfig.
Import Names.

Module MassDemo.
Definition zeros : disk := λ _, 0.

(** The wrapper of the command in progress. *)
Fixpoint last_command (h : list bus_event) : option (Z * Z * bool * list Z) :=
  match h with
  | [] => None
  | BusDone (BulkOut _ l) _ _ :: h =>
      match cbw_decode l with Some c => Some c | None => last_command h end
  | _ :: h => last_command h
  end.

(** [n] bytes: those of [l], or zeros. *)
Definition sized_to (n : Z) (l : list Z) : list Z :=
  map (λ i, u8 (default 0 (l !! i))) (seq 0 (Z.to_nat n)).

(** 1024 blocks of 512 bytes. *)
Definition capacity_answer : list Z := [0; 0; 3; 255] ++ [0; 0; 2; 0].

Definition data_in (h : list bus_event) (n : Z) : list Z :=
  match last_command h with
  | Some (tag, _, _, cmd) =>
      if n =? sizeof_TCSW then le_bytes 4 CSWSIGNATURE ++ le_bytes 4 tag
      else match rw10_decode SCSI_OP_READ cmd with
           | Some (lba, _) => read_at (disk_after h zeros) (512 * lba) (Z.to_nat n)
           | None => if bool_decide (hd 0 cmd = SCSI_OP_READ_CAPACITY10) then capacity_answer else []
           end
  | None => []
  end.

#[export] Instance stick : Oracle := {| respond h op :=
  match op with
  | BulkOut _ l => (Z.of_nat (length l), [])
  | BulkIn _ n => (n, sized_to n (data_in h n))
  | ControlOut _ _ _ _ _ l => (if decide (l = []) then 8 else Z.of_nat (length l), [])
  | ControlIn _ _ _ _ _ n => (n, sized_to n [])
  end |}.

Lemma sized_to_ok n l : 0 <= n →
  Forall is_u8 (sized_to n l) ∧ Z.of_nat (length (sized_to n l)) = n.
Proof.
  intros Hn. unfold sized_to. rewrite length_map, length_seq. split; [|lia].
  apply Forall_map, Forall_forall. intros i _. apply u8_range.
Qed.

#[export] Instance stick_laws : OracleLaws.
Proof.
  intros h op Hl. destruct op as [p l|p n|p t q v i l|p t q v i n]; simpl in Hl |- *;
    unfold result_ok; simpl.
  - split_and!; try done. lia.
  - destruct (sized_to_ok n (data_in h n) Hl). split_and!; [done|lia|lia].
  - split_and!; try done. right. destruct (decide (l = [])); lia.
  - destruct (sized_to_ok n [] Hl). split_and!; [done|lia|lia].
Qed.

(** The configuration of the stick, and its parser behind the interface. *)
Definition config : list Z :=
  [9; 2; 32; 0; 1; 1; 0; 0x80; 50] ++ [9; 4; 0; 0; 2; 8; 6; 0x50; 0] ++
  [7; 5; 0x81; 2; 0; 2; 0] ++ [7; 5; 0x02; 2; 0; 2; 0].

Lemma config_chain : chain config 32 4 false 18 [18%nat; 25%nat].
Proof.
  eapply chain_step; [lia|reflexivity|vm_compute; lia|].
  eapply chain_step; [vm_compute; lia|reflexivity|vm_compute; lia|]. constructor.
Qed.

Definition function : TUSBFunction :=
  {| Configure := USBBulkOnlyMassStorageDeviceConfigure_; fn_pDevice := 1;
     fn_pConfigParser := Some {| cp_pBuffer := Some config; cp_nBufLen := 32; m_bValid := true;
       m_pEndPosition := 32; m_pNextPosition := 18; m_pCurrentDescriptor := Some 9%nat;
       m_pErrorPosition := 0 |};
     m_pInterfaceDesc := Some 9%nat |}.

Lemma config_bytes : Forall is_u8 config.
Proof. unfold config. cbn [app]. repeat (apply Forall_cons; [unfold is_u8; lia|]). constructor. Qed.

Lemma stick_function : function_ok config [18%nat; 25%nat] 9 function.
Proof.
  split; [done|exact config_bytes|done|simpl; lia|].
  eexists. split; [reflexivity|]. split; [|simpl; lia].
  split; [done|]. split; [done|]. exists 4, false. exact config_chain.
Qed.

Lemma stick_sizes : packet_sizes config [18%nat; 25%nat].
Proof.
  intros pos Hpos _. apply elem_of_cons in Hpos as [->|Hpos]; [by right|].
  apply list_elem_of_singleton in Hpos as ->. by right.
Qed.

(** The objects: the device with its control endpoint, and two bulk endpoints. *)
Definition ep (n : Z) (ty : TEndpointType) (bIn : bool) (pid : TUSBPID) : TUSBEndpoint :=
  {| m_pDevice := 1; m_ucNumber := n; m_Type := ty; m_bDirectionIn := bIn;
     m_nMaxPacketSize := 512; m_nInterval := 1; m_NextPID := pid |}.
Definition device : TUSBDevice :=
  {| m_ucAddress := 5; m_Speed := USBSpeedHigh; m_pEndpoint0 := 16; m_bSplitTransfer := false;
     m_ucHubAddress := 0; m_ucHubPortNumber := 1 |}.
Definition objects : Usb :=
  {| devices := {[ 1 := device ]};
     endpoints := <[16 := ep 0 EndpointTypeControl false USBPIDSetup]>
       (<[17 := ep 1 EndpointTypeBulk true USBPIDData0]>
         {[ 18 := ep 2 EndpointTypeBulk false USBPIDData0 ]});
     urbs := ∅ |}.
Definition bus0 : Bus := {| bw_usb := objects; bw_events := [] |}.

Lemma bus_ready k : host_ready k bus0.
Proof.
  split; [done|]. split; [done|]. intros p e Hp _. simpl in Hp.
  do 2 (apply lookup_insert_Some in Hp as [[<- <-]|[_ Hp]]; [split; [done|]; split; [simpl; lia|done]|]).
  apply lookup_singleton_Some in Hp as [<- <-]. split; [done|]. split; [simpl; lia|done].
Qed.

Definition unconfigured : Mass :=
  {| mass := {| m_USBFunction := function; m_pEndpointIn := 0; m_pEndpointOut := 0;
                m_nCWBTag := 0; m_nBlockCount := 0; m_ullOffset := 0 |};
     s_nDeviceNumber := 1; names := {| m_pList := []; s_pThis := 8 |} |}.
Definition ready : Mass :=
  unconfigured <| mass := (mass unconfigured) <| m_pEndpointIn := 17 |> <| m_pEndpointOut := 18 |>
                                              <| m_ullOffset := 1024 |> |>.

Lemma ep_is p n ty bIn pid : p ≠ 0 → endpoints objects !! p = Some (ep n ty bIn pid) →
  endpoint_is objects p ty.
Proof.
  intros Hp He. split; [done|]. eexists. split; [exact He|]. split; [done|].
  split; [simpl; lia|by exists device].
Qed.

Lemma ready_ok : mass_ok (mass ready) objects.
Proof.
  split; [by eapply ep_is|by eapply ep_is|done|].
  exists device. split; [done|]. by eapply ep_is.
Qed.

Definition block : list Z := map (λ i, u8 (Z.of_nat i)) (seq 0 512).

Lemma block_fits n : n = 512 → block_range (m_ullOffset (mass ready)) n.
Proof. intros ->. split; try done; simpl; unfold UMSD_MAX_OFFSET, UMSD_BLOCK_SIZE; lia. Qed.

(** One block is written and read; the results are the block's size. *)
Lemma read_after_write_witness :
  wp (w ← USBBulkOnlyMassStorageDeviceWrite (map Some block);
      '(r, buf') ← USBBulkOnlyMassStorageDeviceRead (blank 512); mret (w, r, buf')) (λ '(w, r, buf') '(_, h'),
    (w = 512 ∧ r = 512) ∧
    (w = 512 → r = 512 → ∀ d, honest d (bus_get h') → buf' = map Some block)) (ready, bus0).
Proof.
  eapply wp_mono.
  - apply wp_and with (P := λ x _, x.1.1 = 512 ∧ x.1.2 = 512); [vm_compute; split; reflexivity|].
    apply (read_after_write 0 block (blank 512) ready bus0 (bus_ready _) ready_ok eq_refl). by apply block_fits.
  - intros [[w r] buf'] [m' h'] [H1 H2]. split; [exact H1|exact H2].
Defined.

Lemma block_device_witness :
  wp (USBBulkOnlyMassStorageDeviceWrite (map Some block)) (λ r '(m', h'),
     mass_step ready bus0 m' h' ∧
     (r = -1 ∧ (∀ d, disk_after (bus_get h') d = d) ∨
      r = 512 ∧ ∀ d, disk_after (bus_get h') d = write_at d 1024 block)) (ready, bus0).
Proof.
  destruct (block_device 0 1024 (blank 512) block ready bus0 (bus_ready _) ready_ok) as (_ & _ & Hw).
  eapply wp_mono; [apply Hw; by apply block_fits|]. intros r [m' h'] (_ & Hs & Hr). split; [exact Hs|exact Hr].
Defined.

Lemma mass_command_witness :
  wp (USBBulkOnlyMassStorageDeviceCommand TSCSIReadCapacity10 (blank 8) true) (λ '(r, buf') '(m', h'),
    m_nCWBTag (mass m') = 1 ∧ length buf' = 8%nat ∧ r = 8) (ready, bus0).
Proof.
  eapply wp_mono.
  - apply wp_and with (P := λ x _, x.1 = 8); [vm_compute; reflexivity|].
    apply (mass_command 0 TSCSIReadCapacity10 (blank 8) true ready bus0 (bus_ready _) ready_ok);
      [simpl; lia|reflexivity|intros [=]].
  - intros [r buf'] [m' h'] [Hr (Hm & _ & _ & Hl & _)]. split; [by rewrite Hm|split; [exact Hl|exact Hr]].
Defined.

(** The stick is configured: 1024 blocks, entered as "umsd1". *)
Lemma mass_configure_witness :
  wp (USBBulkOnlyMassStorageDeviceConfigure 64) (λ ok '(m', h'),
    (ok = true ∧ m_nBlockCount (mass m') = 1024 ∧
     m_pList (names m') = [{| pName := umsd1; pDevice := 64; bBlockDevice := true |}]) ∧
    (if ok : bool then configured 64 unconfigured bus0 m' h' else names m' = names unconfigured))
    (unconfigured, bus0).
Proof.
  eapply wp_mono.
  - apply wp_and with (P := λ ok w, ok = true ∧ m_nBlockCount (mass w.1) = 1024 ∧
      m_pList (names w.1) = [{| pName := umsd1; pDevice := 64; bBlockDevice := true |}]).
    { vm_compute. split_and!; reflexivity. }
    apply (mass_configure 0 64 config [18%nat; 25%nat] 9 unconfigured bus0 device (bus_ready _) stick_function
      stick_sizes eq_refl); [by eapply ep_is|reflexivity|reflexivity|lia|done].
  - intros ok [m' h'] [H1 (_ & _ & H2)]. split; [exact H1|]. destruct ok; [exact H2|apply H2].
Defined.

Lemma wrapper_roundtrip_witness :
  cbw_decode (TCBW 7 (65536 * 512) true (TSCSIRead10 (uspi_le2be32 2) (uspi_le2be16 0))) =
    Some (7, 65536 * 512, true, TSCSIRead10 (uspi_le2be32 2) (uspi_le2be16 0)) ∧
  rw10_decode SCSI_OP_READ (TSCSIRead10 (uspi_le2be32 2) (uspi_le2be16 0)) = Some (2, 0).
Proof.
  destruct (wrapper_roundtrip 7 (65536 * 512) true SCSI_OP_READ 0 1024) as (_ & _ & H1 & H2);
    [cint|cint|unfold UMSD_MAX_OFFSET; lia|]. split; [exact H1|exact H2].
Defined.
End MassDemo.
