(* ===== verification/UsbHub.v ===== *)
(** * lib/usbstandardhub.c and lib/dwhcirootport.c: the tree of devices

    A hub is a driver like the others: a function whose [Configure] powers the
    ports, makes a device for each port where one is connected, initialises
    and configures it, and so on down the tree. The root port does the same for
    the device at the top. The hubs' own fields are in a store of their own,
    under the pointer of the function. *)
From S2P Require Import Prelude CMem Util CString Endpoint ConfigParser.
From S2P Require Import UsbBus UsbFunction UsbString UsbDevice.

Definition USB_HUB_MAX_PORTS : nat := 8.
Definition REQUEST_CLASS : Z := 0x20.
Definition REQUEST_TO_OTHER : Z := 3.
Definition GET_STATUS : Z := 0.
Definition CLEAR_FEATURE : Z := 1.
Definition SET_FEATURE : Z := 3.
Definition DESCRIPTOR_HUB : Z := 0x29.
Definition PORT_RESET : Z := 4.
Definition PORT_POWER : Z := 8.
Definition sizeof_TUSBHubDescriptor : Z := 9.
Definition sizeof_TUSBHubStatus : Z := 4.
Definition sizeof_TUSBPortStatus : Z := 4.
Definition off_bNbrPorts : nat := 2.
Definition HUB_OVER_CURRENT__MASK : Z := Z.shiftl 1 1.
Definition PORT_CONNECTION__MASK : Z := Z.shiftl 1 0.
Definition PORT_ENABLE__MASK : Z := Z.shiftl 1 1.
Definition PORT_OVER_CURRENT__MASK : Z := Z.shiftl 1 3.
Definition PORT_POWER__MASK : Z := Z.shiftl 1 8.
Definition PORT_LOW_SPEED__MASK : Z := Z.shiftl 1 9.
Definition PORT_HIGH_SPEED__MASK : Z := Z.shiftl 1 10.

(** [m_pDevice] and [m_pStatus] by port; a port's status is its four bytes. *)
Record TUSBStandardHub := {
  m_pHubDesc : option buffer;
  m_nPorts : Z;
  hub_pDevice : list Z;
  m_pStatus : list (option buffer)
}.
#[global] Instance TUSBStandardHub_eta : Eta TUSBStandardHub := λ r,
  {| m_pHubDesc := m_pHubDesc r; m_nPorts := m_nPorts r; hub_pDevice := hub_pDevice r;
     m_pStatus := m_pStatus r |}.

(** The drivers' own fields, with the hubs among them. *)
Class HasHubs (C : Type) := {
  hubs : C → gmap Z TUSBStandardHub;
  put_hubs : gmap Z TUSBStandardHub → C → C
}.

(** The constructor's own part; the rest of it is [USBFunctionCopy]. *)
Definition USBStandardHub {C} `{HasHubs C} (pThis : Z) (c : C) : C :=
  put_hubs (<[pThis := {| m_pHubDesc := None; m_nPorts := 0;
                          hub_pDevice := replicate USB_HUB_MAX_PORTS 0;
                          m_pStatus := replicate USB_HUB_MAX_PORTS None |}]> (hubs c)) c.

(** The route of a device at port [nPort] (from 0) of a hub: split transfers or
    not, and the hub and port that translate them. The first high-speed hub with
    a device behind it that is not high-speed is the translator. *)
Definition speed_lt_high (s : TUSBSpeed) : bool :=
  match s with USBSpeedLow | USBSpeedFull => true | _ => false end.
Definition child_route (hub : TUSBDevice) (Speed : TUSBSpeed) (nPort : Z) : bool * Z * Z :=
  let bSplit := USBDeviceIsSplit hub in
  if negb bSplit && bool_decide (USBDeviceGetSpeed hub = USBSpeedHigh) && speed_lt_high Speed
  then (true, USBDeviceGetAddress hub, u8 (nPort + 1))
  else (bSplit, USBDeviceGetHubAddress hub, USBDeviceGetHubPortNumber hub).

(** The speed that a port's status tells. *)
Definition port_speed (wPortStatus : Z) : TUSBSpeed :=
  if truthy (Z.land wPortStatus PORT_LOW_SPEED__MASK) then USBSpeedLow
  else if truthy (Z.land wPortStatus PORT_HIGH_SPEED__MASK) then USBSpeedHigh
  else USBSpeedFull.

Section Hub.
Context {C H : Type} `{!HasHubs C} `{!UsbHost H}.
Abbreviation W := ((Enum * C) * H)%type.
Context (class_init : TConfigure → Z → C → C).

(** The virtual method [Configure] of the drivers. *)
Context (configure : TConfigure → Z → M W bool).

Definition hub_at (pThis : Z) : M W TUSBStandardHub :=
  l ← gets (λ w, hubs (snd (fst w))); deref (l !! pThis).
Definition hub_set (pThis : Z) (x : TUSBStandardHub) : M W unit :=
  modify (λ w, ((fst (fst w), put_hubs (<[pThis := x]> (hubs (snd (fst w)))) (snd (fst w))), snd w)).
Definition hub_modify (pThis : Z) (f : TUSBStandardHub → TUSBStandardHub) : M W unit :=
  x ← hub_at pThis; hub_set pThis (f x).
Definition set_hub_desc (pThis : Z) (b : option buffer) : M W unit :=
  hub_modify pThis (λ x, x <| m_pHubDesc := b |>).
Definition set_port_device (pThis : Z) (n : nat) (d : Z) : M W unit :=
  hub_modify pThis (λ x, x <| hub_pDevice := <[n := d]> (hub_pDevice x) |>).
Definition set_port_status (pThis : Z) (n : nat) (b : option buffer) : M W unit :=
  hub_modify pThis (λ x, x <| m_pStatus := <[n := b]> (m_pStatus x) |>).

(** ** Devices: malloc and the constructor, the destructor and free *)

Definition device_new (Speed : TUSBSpeed) (route : bool * Z * Z) : M W Z :=
  u ← gets usb_get;
  let p := fresh_key (devices u) in
  USBDevice p Speed (fst (fst route)) (snd (fst route)) (snd route) ;; mret p.
Definition device_delete (p : Z) : M W unit :=
  _USBDevice p ;; device_free p ;;
  enum_set (λ e, e <| device_data := delete p (device_data e) |>).

(** ** Requests to the hub *)

Definition REQUEST_PORT : Z := Z.lor REQUEST_CLASS REQUEST_TO_OTHER.

Definition set_feature (ep0 wFeature : Z) (nPort : nat) : M W Z :=
  ControlMessageOut ep0 (Z.lor REQUEST_OUT REQUEST_PORT) SET_FEATURE wFeature
    (u16 (Z.of_nat nPort + 1)) [].
Definition clear_feature (ep0 wFeature : Z) (nPort : nat) : M W Z :=
  ControlMessageOut ep0 (Z.lor REQUEST_OUT REQUEST_PORT) CLEAR_FEATURE wFeature
    (u16 (Z.of_nat nPort + 1)) [].

(** The status of a port, into the port's buffer. *)
Definition get_port_status (pThis ep0 : Z) (nPort : nat) : M W Z :=
  x ← hub_at pThis;
  ob ← deref (m_pStatus x !! nPort);
  b ← (match ob with Some b => mret b | None => fail MemFault end);
  '(r, b) ← ControlMessageIn ep0 (Z.lor REQUEST_IN REQUEST_PORT) GET_STATUS 0
              (u16 (Z.of_nat nPort + 1)) b;
  set_port_status pThis nPort (Some b) ;; mret r.
Definition port_status (pThis : Z) (nPort : nat) : M W Z :=
  x ← hub_at pThis;
  ob ← deref (m_pStatus x !! nPort);
  b ← (match ob with Some b => mret b | None => fail MemFault end);
  le16_at b 0.

(** ** USBStandardHubEnumeratePorts *)

Fixpoint power_loop (ep0 : Z) (fuel nPort : nat) : M W bool :=
  match fuel with
  | O => mret true
  | S fuel =>
      r ← set_feature ep0 PORT_POWER nPort;
      if r <? 0 then mret false else power_loop ep0 fuel (S nPort)
  end.

(** A default device for the port, initialised, or none. *)
Definition make_device (pThis : Z) (nPort : nat) (wPortStatus : Z) : M W unit :=
  let Speed := port_speed wPortStatus in
  fn ← function_at pThis;
  pHubDevice ← USBFunctionGetDevice fn;
  hub ← device_at pHubDevice;
  x ← hub_at pThis;
  d ← deref (hub_pDevice x !! nPort);
  c_assert (d =? 0) ;;
  p ← device_new Speed (child_route hub Speed (Z.of_nat nPort));
  set_port_device pThis nPort p ;;
  ok ← USBDeviceInitialize class_init p;
  if negb ok then device_delete p ;; set_port_device pThis nPort 0 else mret tt.

(** What one port of the second loop does: go on with the next, or leave. *)
Definition detect_port (pThis ep0 : Z) (nPort : nat) : M W bool :=
  x ← hub_at pThis;
  ob ← deref (m_pStatus x !! nPort);
  c_assert (negb (bool_decide (is_Some ob))) ;;
  set_port_status pThis nPort (Some (blank sizeof_TUSBPortStatus)) ;;
  r ← get_port_status pThis ep0 nPort;
  if negb (r =? 4) then mret true
  else
    s ← port_status pThis nPort;
    c_assert (truthy (Z.land s PORT_POWER__MASK)) ;;
    if negb (truthy (Z.land s PORT_CONNECTION__MASK)) then mret true
    else
      r ← set_feature ep0 PORT_RESET nPort;
      if r <? 0 then mret true
      else
        HostMsDelay 100 ;;
        r ← get_port_status pThis ep0 nPort;
        if negb (r =? 4) then mret false
        else
          s ← port_status pThis nPort;
          if negb (truthy (Z.land s PORT_ENABLE__MASK)) then mret true
          else if truthy (Z.land s PORT_OVER_CURRENT__MASK) then
            clear_feature ep0 PORT_POWER nPort ;; mret false
          else make_device pThis nPort s ;; mret true.

Fixpoint detect_loop (pThis ep0 : Z) (fuel nPort : nat) : M W bool :=
  match fuel with
  | O => mret true
  | S fuel =>
      ok ← detect_port pThis ep0 nPort;
      if ok : bool then detect_loop pThis ep0 fuel (S nPort) else mret false
  end.

Fixpoint configure_ports (pThis : Z) (fuel nPort : nat) : M W unit :=
  match fuel with
  | O => mret tt
  | S fuel =>
      x ← hub_at pThis;
      d ← deref (hub_pDevice x !! nPort);
      (if d =? 0 then mret tt
       else
         ok ← USBDeviceConfigure configure d;
         if negb ok then device_delete d ;; set_port_device pThis nPort 0 else mret tt) ;;
      configure_ports pThis fuel (S nPort)
  end.

Fixpoint power_off_loop (ep0 : Z) (fuel nPort : nat) : M W unit :=
  match fuel with
  | O => mret tt
  | S fuel => clear_feature ep0 PORT_POWER nPort ;; power_off_loop ep0 fuel (S nPort)
  end.

Fixpoint check_ports (pThis ep0 : Z) (fuel nPort : nat) (bResult : bool) : M W bool :=
  match fuel with
  | O => mret bResult
  | S fuel =>
      r ← get_port_status pThis ep0 nPort;
      if negb (r =? 4) then check_ports pThis ep0 fuel (S nPort) bResult
      else
        s ← port_status pThis nPort;
        if truthy (Z.land s PORT_OVER_CURRENT__MASK) then
          clear_feature ep0 PORT_POWER nPort ;; check_ports pThis ep0 fuel (S nPort) false
        else check_ports pThis ep0 fuel (S nPort) bResult
  end.

(** The last part: over-current of the hub, then of its ports. *)
Definition check_over_current (pThis ep0 : Z) (nPorts : nat) : M W bool :=
  '(r, b) ← ControlMessageIn ep0 (Z.lor REQUEST_IN REQUEST_CLASS) GET_STATUS 0 0
              (blank sizeof_TUSBHubStatus);
  if negb (r =? sizeof_TUSBHubStatus) then mret false
  else
    s ← le16_at b 0;
    if truthy (Z.land s HUB_OVER_CURRENT__MASK) then power_off_loop ep0 nPorts 0 ;; mret false
    else check_ports pThis ep0 nPorts 0 true.

Definition USBStandardHubEnumeratePorts (pThis : Z) : M W bool :=
  fn ← function_at pThis;
  USBFunctionGetHost fn ;;
  ep0 ← USBFunctionGetEndpoint0 fn;
  x ← hub_at pThis;
  c_assert (0 <? m_nPorts x) ;;
  let nPorts := Z.to_nat (m_nPorts x) in
  ok ← power_loop ep0 nPorts 0;
  if negb ok then mret false
  else
    HostMsDelay 510 ;;
    ok ← detect_loop pThis ep0 nPorts 0;
    if negb ok then mret false
    else
      configure_ports pThis nPorts 0 ;;
      check_over_current pThis ep0 nPorts.

(** ** USBStandardHubConfigure *)

(** An interrupt IN endpoint. *)
Definition hub_endpoint_ok (fn : TUSBFunction) (o : option nat) : M W bool :=
  match o with
  | None => mret false
  | Some o =>
      d ← endpoint_descriptor fn o;
      mret (negb (negb (Z.land (bEndpointAddress d) 0x80 =? 0x80)
                  || negb (Z.land (bmAttributes d) 0x3F =? 0x03)))
  end.

Definition USBStandardHubConfigure (pThis : Z) : M W bool :=
  fn ← function_at pThis;
  n ← USBFunctionGetNumEndpoints fn;
  if negb (n =? 1) then USBFunctionConfigurationError fn ;; mret false
  else
    '(o, fn) ← USBFunctionGetDescriptor fn DESCRIPTOR_ENDPOINT;
    function_set pThis fn ;;
    ok ← hub_endpoint_ok fn o;
    if negb ok then USBFunctionConfigurationError fn ;; mret false
    else
      ok ← USBFunctionConfigure fn;
      if negb ok then mret false
      else
        USBFunctionGetHost fn ;;
        x ← hub_at pThis;
        c_assert (negb (bool_decide (is_Some (m_pHubDesc x)))) ;;
        ep0 ← USBFunctionGetEndpoint0 fn;
        '(r, b) ← DWHCIDeviceGetDescriptor ep0 DESCRIPTOR_HUB DESCRIPTOR_INDEX_DEFAULT
                    (blank sizeof_TUSBHubDescriptor) (Z.lor REQUEST_IN REQUEST_CLASS);
        set_hub_desc pThis (Some b) ;;
        if negb (r =? sizeof_TUSBHubDescriptor) then set_hub_desc pThis None ;; mret false
        else
          n ← cell_at b off_bNbrPorts;
          hub_modify pThis (λ x, x <| m_nPorts := n |>) ;;
          if Z.of_nat USB_HUB_MAX_PORTS <? n then set_hub_desc pThis None ;; mret false
          else USBStandardHubEnumeratePorts pThis.

(** ** The destructor *)

Fixpoint delete_ports (pThis : Z) (fuel nPort : nat) : M W unit :=
  match fuel with
  | O => mret tt
  | S fuel =>
      set_port_status pThis nPort None ;;
      x ← hub_at pThis;
      d ← deref (hub_pDevice x !! nPort);
      (if negb (d =? 0) then device_delete d ;; set_port_device pThis nPort 0 else mret tt) ;;
      delete_ports pThis fuel (S nPort)
  end.

Definition _USBStandardHub (pThis : Z) : M W unit :=
  x ← hub_at pThis;
  delete_ports pThis (Z.to_nat (m_nPorts x)) 0 ;;
  hub_modify pThis (λ x, x <| m_nPorts := 0 |> <| m_pHubDesc := None |>) ;;
  fn ← function_at pThis;
  fn ← _USBFunction fn;
  function_set pThis fn.
End Hub.

(** ** The virtual method: hubs below hubs

    A hub calls the [Configure] of the drivers it finds, which may be a hub's
    again; [others] are the drivers that are not hubs. The depth of the tree is
    the fuel (USB allows five hubs in a row). *)
Section Tree.
Context {C H : Type} `{!HasHubs C} `{!UsbHost H}.
Abbreviation W := ((Enum * C) * H)%type.
Context (class_init : TConfigure → Z → C → C) (others : TConfigure → Z → M W bool).

Fixpoint configure_function (depth : nat) (c : TConfigure) (f : Z) : M W bool :=
  match c with
  | USBStandardHubConfigure_ =>
      match depth with
      | O => fail OutOfFuel
      | S depth => USBStandardHubConfigure class_init (configure_function depth) f
      end
  | NoConfigure => fail MemFault
  | _ => others c f
  end.
End Tree.

(** ** lib/dwhcirootport.c *)

(** What the root port needs of the host controller driver. *)
Class HasRootPort (H : Type) := {
  port_get_speed : M H TUSBSpeed;
  port_over_current : M H bool;
  port_disable : M H unit
}.

Section Root.
Context {C H : Type} `{!HasHubs C} `{!UsbHost H} `{!HasRootPort H}.
Abbreviation W := ((Enum * C) * H)%type.
Context (class_init : TConfigure → Z → C → C) (configure : TConfigure → Z → M W bool).

(** [LogWrite] with a null pointer for its format. *)
Context (log_null : M W unit).

Definition on_host {A} (m : M H A) : M W A :=
  zoom (λ w, Some (snd w)) (λ h w, (fst w, h)) m.

(** The object is its [m_pDevice]; the controller is one. *)
Definition DWHCIRootPort : Z := 0.

Definition _DWHCIRootPort (m_pDevice : Z) : M W Z :=
  if negb (m_pDevice =? 0) then device_delete m_pDevice ;; mret 0 else mret 0.

(** The message in the middle is the manufacturer's string of a new device,
    whose buffer is null. *)
Definition DWHCIRootPortInitialize (m_pDevice : Z) : M W (bool * Z) :=
  Speed ← on_host port_get_speed;
  if bool_decide (Speed = USBSpeedUnknown) then mret (false, m_pDevice)
  else
    c_assert (m_pDevice =? 0) ;;
    p ← device_new Speed (false, 0, 1);
    log_null ;;
    ok ← USBDeviceInitialize class_init p;
    if negb ok then device_delete p ;; mret (false, 0)
    else
      ok ← USBDeviceConfigure configure p;
      if negb ok then device_delete p ;; mret (false, 0)
      else
        over ← on_host port_over_current;
        if over : bool then on_host port_disable ;; device_delete p ;; mret (false, 0)
        else mret (true, p).
End Root.

(** ** The route of a device, from the root *)

(** A device on the way: its speed and address, and the port it is at. *)
Record hop := { hop_speed : TUSBSpeed; hop_address : Z; hop_port : Z }.

(** The devices from the root to [d], as root port and hubs make them. *)
Inductive attached : list hop → TUSBDevice → Prop :=
  | attached_root s a ep :
      attached [{| hop_speed := s; hop_address := a; hop_port := 0 |}]
        {| m_ucAddress := a; m_Speed := s; m_pEndpoint0 := ep; m_bSplitTransfer := false;
           m_ucHubAddress := 0; m_ucHubPortNumber := 1 |}
  | attached_hub path hub s a ep n :
      attached path hub →
      attached (path ++ [{| hop_speed := s; hop_address := a; hop_port := n |}])
        {| m_ucAddress := a; m_Speed := s; m_pEndpoint0 := ep;
           m_bSplitTransfer := fst (fst (child_route hub s n));
           m_ucHubAddress := snd (fst (child_route hub s n));
           m_ucHubPortNumber := snd (child_route hub s n) |}.

(** Where the speed drops: a high-speed hub and a slower device at it. *)
Definition drops (x : hop * hop) : Prop :=
  hop_speed x.1 = USBSpeedHigh ∧ speed_lt_high (hop_speed x.2) = true.
#[export] Instance drops_dec x : Decision (drops x).
Proof. unfold drops. apply _. Defined.

Definition neighbours (path : list hop) : list (hop * hop) := zip path (tail path).
Definition translator (path : list hop) : option (hop * hop) := head (filter drops (neighbours path)).

Lemma neighbours_snoc path x y : neighbours ((path ++ [x]) ++ [y]) = neighbours (path ++ [x]) ++ [(x, y)].
Proof.
  unfold neighbours. destruct path as [|z path]; [done|]. simpl. f_equal.
  revert z. induction path as [|w path IH]; intros z; [done|]. simpl. f_equal. apply IH.
Qed.

Lemma attached_last path d : attached path d →
  ∃ path' x, path = path' ++ [x] ∧ hop_speed x = m_Speed d ∧ hop_address x = m_ucAddress d.
Proof. destruct 1 as [s a ep|path hub s a ep n Ha]; [by exists [], {| hop_speed := s; hop_address := a; hop_port := 0 |}|].
  by exists path, {| hop_speed := s; hop_address := a; hop_port := n |}.
Qed.

(** C37. Split transfers: a device behind the root and any number of hubs is reached
    by split transfers exactly if the speed drops on the way, from a high-speed
    hub to a slower device; the first such hub translates, at the port of that
    device. Otherwise it is reached directly. *)
Theorem split_route path d : attached path d →
  (m_bSplitTransfer d, m_ucHubAddress d, m_ucHubPortNumber d) =
  match translator path with
  | Some (hub, dev) => (true, hop_address hub, u8 (hop_port dev + 1))
  | None => (false, 0, 1)
  end.
Proof.
  induction 1 as [s a ep|path hub s a ep n Ha IH]; [done|].
  destruct (attached_last _ _ Ha) as (path' & x & -> & Hs & Hx).
  unfold translator. rewrite neighbours_snoc, list.filter_app. unfold translator in IH.
  destruct (filter drops (neighbours (path' ++ [x]))) as [|[h0 d0] l]; simpl in *.
  - injection IH as I1 I2 I3. rewrite list.filter_cons, list.filter_nil.
    unfold child_route, USBDeviceIsSplit, USBDeviceGetSpeed, USBDeviceGetAddress, USBDeviceGetHubAddress, USBDeviceGetHubPortNumber.
    rewrite I1, I2, I3. simpl. destruct (decide _) as [[E1 E2]|E]; simpl in *.
    + rewrite Hs in E1. rewrite bool_decide_eq_true_2, E2 by done. simpl. by rewrite Hx.
    + case_bool_decide as E1; simpl; [|done]. destruct (speed_lt_high s) eqn:E2; [|done].
      destruct E. split; [by rewrite <- E1|exact E2].
  - injection IH as I1 I2 I3. unfold child_route, USBDeviceIsSplit. rewrite I1. simpl. by rewrite ?I1, <- I2, <- I3.
Qed.

Module HubDemo.
(** A keyboard at a full-speed hub, which is at port 2 of a high-speed hub. *)
Definition path : list hop :=
  [ {| hop_speed := USBSpeedHigh; hop_address := 1; hop_port := 0 |};
    {| hop_speed := USBSpeedFull; hop_address := 2; hop_port := 1 |};
    {| hop_speed := USBSpeedLow; hop_address := 3; hop_port := 0 |} ].
Definition keyboard_behind : TUSBDevice :=
  {| m_ucAddress := 3; m_Speed := USBSpeedLow; m_pEndpoint0 := 4; m_bSplitTransfer := true;
     m_ucHubAddress := 1; m_ucHubPortNumber := 2 |}.

Lemma keyboard_attached : attached path keyboard_behind.
Proof.
  apply (attached_hub [{| hop_speed := USBSpeedHigh; hop_address := 1; hop_port := 0 |};
    {| hop_speed := USBSpeedFull; hop_address := 2; hop_port := 1 |}]
    {| m_ucAddress := 2; m_Speed := USBSpeedFull; m_pEndpoint0 := 4; m_bSplitTransfer := true;
       m_ucHubAddress := 1; m_ucHubPortNumber := 2 |} USBSpeedLow 3 4 0).
  apply (attached_hub [{| hop_speed := USBSpeedHigh; hop_address := 1; hop_port := 0 |}]
    {| m_ucAddress := 1; m_Speed := USBSpeedHigh; m_pEndpoint0 := 4; m_bSplitTransfer := false;
       m_ucHubAddress := 0; m_ucHubPortNumber := 1 |} USBSpeedFull 2 4 1).
  apply attached_root.
Qed.

Lemma split_route_witness :
  attached path keyboard_behind ∧
  (m_bSplitTransfer keyboard_behind, m_ucHubAddress keyboard_behind, m_ucHubPortNumber keyboard_behind) = (true, 1, 2).
Proof. split; [apply keyboard_attached|]. etransitivity; [apply (split_route path keyboard_behind keyboard_attached)|]. reflexivity. Defined.
End HubDemo.
