(* ===== verification/KeyMap.v ===== *)
(** * lib/keymap.c: from key codes to strings

    A key map is a table of logical codes for each physical key, one column per
    combination of shift and AltGr, and the three locks. The map of the build is
    the British one (keymap_uk.h). *)
From S2P Require Import Prelude Endpoint.

Definition PHY_MAX_CODE : Z := 127.
Definition K_NORMTAB : Z := 0.
Definition K_SHIFTTAB : Z := 1.
Definition K_ALTTAB : Z := 2.
Definition K_ALTSHIFTTAB : Z := 3.
Definition KEYPAD_FIRST : Z := 0x53.
Definition KEYPAD_LAST : Z := 0x63.

(** The modifiers and LEDs of usbhid.h. *)
Definition LCTRL : Z := Z.shiftl 1 0.
Definition LSHIFT : Z := Z.shiftl 1 1.
Definition ALT : Z := Z.shiftl 1 2.
Definition LWIN : Z := Z.shiftl 1 3.
Definition RCTRL : Z := Z.shiftl 1 4.
Definition RSHIFT : Z := Z.shiftl 1 5.
Definition ALTGR : Z := Z.shiftl 1 6.
Definition RWIN : Z := Z.shiftl 1 7.
Definition LED_NUM_LOCK : Z := Z.shiftl 1 0.
Definition LED_CAPS_LOCK : Z := Z.shiftl 1 1.
Definition LED_SCROLL_LOCK : Z := Z.shiftl 1 2.

(** [TSpecialKey]; characters stand for themselves. *)
Definition KeyNone : Z := 0x0.
Definition KeySpace : Z := 0x100.
Definition KeyEscape : Z := 0x101.
Definition KeyBackspace : Z := 0x102.
Definition KeyTabulator : Z := 0x103.
Definition KeyReturn : Z := 0x104.
Definition KeyInsert : Z := 0x105.
Definition KeyHome : Z := 0x106.
Definition KeyPageUp : Z := 0x107.
Definition KeyDelete : Z := 0x108.
Definition KeyEnd : Z := 0x109.
Definition KeyPageDown : Z := 0x10A.
Definition KeyUp : Z := 0x10B.
Definition KeyDown : Z := 0x10C.
Definition KeyLeft : Z := 0x10D.
Definition KeyRight : Z := 0x10E.
Definition KeyF1 : Z := 0x10F.
Definition KeyF2 : Z := 0x110.
Definition KeyF3 : Z := 0x111.
Definition KeyF4 : Z := 0x112.
Definition KeyF5 : Z := 0x113.
Definition KeyF6 : Z := 0x114.
Definition KeyF7 : Z := 0x115.
Definition KeyF8 : Z := 0x116.
Definition KeyF9 : Z := 0x117.
Definition KeyF10 : Z := 0x118.
Definition KeyF11 : Z := 0x119.
Definition KeyF12 : Z := 0x11A.
Definition KeyApplication : Z := 0x11B.
Definition KeyCapsLock : Z := 0x11C.
Definition KeyPrintScreen : Z := 0x11D.
Definition KeyScrollLock : Z := 0x11E.
Definition KeyPause : Z := 0x11F.
Definition KeyNumLock : Z := 0x120.
Definition KeyKP_Divide : Z := 0x121.
Definition KeyKP_Multiply : Z := 0x122.
Definition KeyKP_Subtract : Z := 0x123.
Definition KeyKP_Add : Z := 0x124.
Definition KeyKP_Enter : Z := 0x125.
Definition KeyKP_1 : Z := 0x126.
Definition KeyKP_2 : Z := 0x127.
Definition KeyKP_3 : Z := 0x128.
Definition KeyKP_4 : Z := 0x129.
Definition KeyKP_5 : Z := 0x12A.
Definition KeyKP_6 : Z := 0x12B.
Definition KeyKP_7 : Z := 0x12C.
Definition KeyKP_8 : Z := 0x12D.
Definition KeyKP_9 : Z := 0x12E.
Definition KeyKP_0 : Z := 0x12F.
Definition KeyKP_Center : Z := 0x130.
Definition KeyKP_Comma : Z := 0x131.
Definition KeyKP_Period : Z := 0x132.
Definition KeyMaxCode : Z := 0x133.

(** [TSpecialAction] *)
Definition ActionSwitchCapsLock : Z := 0x133.
Definition ActionSwitchNumLock : Z := 0x134.
Definition ActionSwitchScrollLock : Z := 0x135.
Definition ActionSelectConsole1 : Z := 0x136.
Definition ActionSelectConsole2 : Z := 0x137.
Definition ActionSelectConsole3 : Z := 0x138.
Definition ActionSelectConsole4 : Z := 0x139.
Definition ActionSelectConsole5 : Z := 0x13A.
Definition ActionSelectConsole6 : Z := 0x13B.
Definition ActionSelectConsole7 : Z := 0x13C.
Definition ActionSelectConsole8 : Z := 0x13D.
Definition ActionSelectConsole9 : Z := 0x13E.
Definition ActionSelectConsole10 : Z := 0x13F.
Definition ActionSelectConsole11 : Z := 0x140.
Definition ActionSelectConsole12 : Z := 0x141.
Definition ActionShutdown : Z := 0x142.
Definition ActionNone : Z := 0x143.

(** The strings of the special keys from [KeySpace] on; [None] is the null pointer. *)
Definition s_KeyStrings : list (option (list Z)) :=
  [ Some [32];
    Some [27];
    Some [127];
    Some [9];
    Some [10];
    Some [27; 91; 50; 126];
    Some [27; 91; 49; 126];
    Some [27; 91; 53; 126];
    Some [27; 91; 51; 126];
    Some [27; 91; 52; 126];
    Some [27; 91; 54; 126];
    Some [27; 91; 65];
    Some [27; 91; 66];
    Some [27; 91; 68];
    Some [27; 91; 67];
    Some [27; 91; 91; 65];
    Some [27; 91; 91; 66];
    Some [27; 91; 91; 67];
    Some [27; 91; 91; 68];
    Some [27; 91; 91; 69];
    Some [27; 91; 49; 55; 126];
    Some [27; 91; 49; 56; 126];
    Some [27; 91; 49; 57; 126];
    Some [27; 91; 50; 48; 126];
    None;
    None;
    None;
    None;
    None;
    None;
    None;
    None;
    None;
    Some [47];
    Some [42];
    Some [45];
    Some [43];
    Some [10];
    Some [49];
    Some [50];
    Some [51];
    Some [52];
    Some [53];
    Some [54];
    Some [55];
    Some [56];
    Some [57];
    Some [48];
    Some [27; 91; 71];
    Some [44];
    Some [46] ].

(** keymap_uk.h: by physical code; normal, shift, AltGr, AltGr and shift. *)
Definition s_DefaultMap : list (list Z) :=
  [ [KeyNone; KeyNone; KeyNone; KeyNone];
    [KeyNone; KeyNone; KeyNone; KeyNone];
    [KeyNone; KeyNone; KeyNone; KeyNone];
    [KeyNone; KeyNone; KeyNone; KeyNone];
    [97; 65; KeyNone; KeyNone];
    [98; 66; KeyNone; KeyNone];
    [99; 67; KeyNone; KeyNone];
    [100; 68; KeyNone; KeyNone];
    [101; 69; KeyNone; KeyNone];
    [102; 70; KeyNone; KeyNone];
    [103; 71; KeyNone; KeyNone];
    [104; 72; KeyNone; KeyNone];
    [105; 73; KeyNone; KeyNone];
    [106; 74; KeyNone; KeyNone];
    [107; 75; KeyNone; KeyNone];
    [108; 76; KeyNone; KeyNone];
    [109; 77; KeyNone; KeyNone];
    [110; 78; KeyNone; KeyNone];
    [111; 79; KeyNone; KeyNone];
    [112; 80; KeyNone; KeyNone];
    [113; 81; KeyNone; KeyNone];
    [114; 82; KeyNone; KeyNone];
    [115; 83; KeyNone; KeyNone];
    [116; 84; KeyNone; KeyNone];
    [117; 85; KeyNone; KeyNone];
    [118; 86; KeyNone; KeyNone];
    [119; 87; KeyNone; KeyNone];
    [120; 88; KeyNone; KeyNone];
    [121; 89; KeyNone; KeyNone];
    [122; 90; KeyNone; KeyNone];
    [49; 33; KeyNone; KeyNone];
    [50; 34; KeyNone; KeyNone];
    [51; 163; KeyNone; KeyNone];
    [52; 36; KeyNone; KeyNone];
    [53; 37; KeyNone; KeyNone];
    [54; 94; KeyNone; KeyNone];
    [55; 38; KeyNone; KeyNone];
    [56; 42; KeyNone; KeyNone];
    [57; 40; KeyNone; KeyNone];
    [48; 41; KeyNone; KeyNone];
    [KeyReturn; KeyReturn; KeyNone; KeyNone];
    [KeyEscape; KeyEscape; KeyNone; KeyNone];
    [KeyBackspace; KeyBackspace; KeyNone; KeyNone];
    [KeyTabulator; KeyTabulator; KeyNone; KeyNone];
    [KeySpace; KeySpace; KeyNone; KeyNone];
    [45; 95; KeyNone; KeyNone];
    [61; 43; KeyNone; KeyNone];
    [91; 123; KeyNone; KeyNone];
    [93; 125; KeyNone; KeyNone];
    [35; 126; KeyNone; KeyNone];
    [35; 126; KeyNone; KeyNone];
    [59; 58; KeyNone; KeyNone];
    [39; 64; KeyNone; KeyNone];
    [96; 172; 124; KeyNone];
    [44; 60; KeyNone; KeyNone];
    [46; 62; KeyNone; KeyNone];
    [47; 63; KeyNone; KeyNone];
    [KeyCapsLock; KeyCapsLock; KeyNone; KeyNone];
    [KeyF1; KeyNone; KeyNone; KeyNone];
    [KeyF2; KeyNone; KeyNone; KeyNone];
    [KeyF3; KeyNone; KeyNone; KeyNone];
    [KeyF4; KeyNone; KeyNone; KeyNone];
    [KeyF5; KeyNone; KeyNone; KeyNone];
    [KeyF6; KeyNone; KeyNone; KeyNone];
    [KeyF7; KeyNone; KeyNone; KeyNone];
    [KeyF8; KeyNone; KeyNone; KeyNone];
    [KeyF9; KeyNone; KeyNone; KeyNone];
    [KeyF10; KeyNone; KeyNone; KeyNone];
    [KeyF11; KeyNone; KeyNone; KeyNone];
    [KeyF12; KeyNone; KeyNone; KeyNone];
    [KeyPrintScreen; KeyNone; KeyNone; KeyNone];
    [KeyScrollLock; KeyNone; KeyNone; KeyNone];
    [KeyPause; KeyNone; KeyNone; KeyNone];
    [KeyInsert; KeyNone; KeyNone; KeyNone];
    [KeyHome; KeyNone; KeyNone; KeyNone];
    [KeyPageUp; KeyNone; KeyNone; KeyNone];
    [KeyDelete; KeyNone; KeyNone; KeyNone];
    [KeyEnd; KeyNone; KeyNone; KeyNone];
    [KeyPageDown; KeyNone; KeyNone; KeyNone];
    [KeyRight; KeyNone; KeyNone; KeyNone];
    [KeyLeft; KeyNone; KeyNone; KeyNone];
    [KeyDown; KeyNone; KeyNone; KeyNone];
    [KeyUp; KeyNone; KeyNone; KeyNone];
    [KeyNumLock; KeyNumLock; KeyNone; KeyNone];
    [KeyKP_Divide; KeyKP_Divide; KeyNone; KeyNone];
    [KeyKP_Multiply; KeyKP_Multiply; KeyNone; KeyNone];
    [KeyKP_Subtract; KeyKP_Subtract; KeyNone; KeyNone];
    [KeyKP_Add; KeyKP_Add; KeyNone; KeyNone];
    [KeyKP_Enter; KeyKP_Enter; KeyNone; KeyNone];
    [KeyEnd; KeyKP_1; KeyNone; KeyNone];
    [KeyDown; KeyKP_2; KeyNone; KeyNone];
    [KeyPageDown; KeyKP_3; KeyNone; KeyNone];
    [KeyLeft; KeyKP_4; KeyNone; KeyNone];
    [KeyKP_Center; KeyKP_5; KeyNone; KeyNone];
    [KeyRight; KeyKP_6; KeyNone; KeyNone];
    [KeyHome; KeyKP_7; KeyNone; KeyNone];
    [KeyUp; KeyKP_8; KeyNone; KeyNone];
    [KeyPageUp; KeyKP_9; KeyNone; KeyNone];
    [KeyInsert; KeyKP_0; KeyNone; KeyNone];
    [KeyDelete; KeyKP_Period; KeyNone; KeyNone];
    [92; 124; KeyNone; KeyNone];
    [KeyApplication; KeyApplication; KeyNone; KeyNone];
    [KeyNone; KeyNone; KeyNone; KeyNone];
    [KeyNone; KeyNone; KeyNone; KeyNone];
    [KeyNone; KeyNone; KeyNone; KeyNone];
    [KeyNone; KeyNone; KeyNone; KeyNone];
    [KeyNone; KeyNone; KeyNone; KeyNone];
    [KeyNone; KeyNone; KeyNone; KeyNone];
    [KeyNone; KeyNone; KeyNone; KeyNone];
    [KeyNone; KeyNone; KeyNone; KeyNone];
    [KeyNone; KeyNone; KeyNone; KeyNone];
    [KeyNone; KeyNone; KeyNone; KeyNone];
    [KeyNone; KeyNone; KeyNone; KeyNone];
    [KeyNone; KeyNone; KeyNone; KeyNone];
    [KeyNone; KeyNone; KeyNone; KeyNone];
    [KeyNone; KeyNone; KeyNone; KeyNone];
    [KeyNone; KeyNone; KeyNone; KeyNone];
    [KeyNone; KeyNone; KeyNone; KeyNone];
    [KeyNone; KeyNone; KeyNone; KeyNone];
    [KeyNone; KeyNone; KeyNone; KeyNone];
    [KeyNone; KeyNone; KeyNone; KeyNone];
    [KeyNone; KeyNone; KeyNone; KeyNone];
    [KeyNone; KeyNone; KeyNone; KeyNone];
    [KeyNone; KeyNone; KeyNone; KeyNone];
    [KeyNone; KeyNone; KeyNone; KeyNone];
    [KeyNone; KeyNone; KeyNone; KeyNone];
    [KeyNone; KeyNone; KeyNone; KeyNone];
    [KeyNone; KeyNone; KeyNone; KeyNone] ].

(** ** The object *)

Record TKeyMap := {
  m_KeyMap : list (list Z);
  m_bCapsLock : bool;
  m_bNumLock : bool;
  m_bScrollLock : bool
}.
#[global] Instance TKeyMap_eta : Eta TKeyMap := λ k,
  {| m_KeyMap := m_KeyMap k; m_bCapsLock := m_bCapsLock k; m_bNumLock := m_bNumLock k;
     m_bScrollLock := m_bScrollLock k |}.

Definition KeyMap : TKeyMap :=
  {| m_KeyMap := s_DefaultMap; m_bCapsLock := false; m_bNumLock := true; m_bScrollLock := false |}.

(** [pThis->m_KeyMap[nPhyCode][nTable]], which must be inside the table. *)
Definition entry_at (nPhyCode nTable : Z) : M TKeyMap Z :=
  t ← gets m_KeyMap;
  match t !! Z.to_nat nPhyCode with
  | None => fail MemFault
  | Some row => match row !! Z.to_nat nTable with None => fail MemFault | Some v => mret v end
  end.
Definition set_entry (nPhyCode nTable v : Z) : M TKeyMap unit :=
  entry_at nPhyCode nTable ;;
  modify (λ k, k <| m_KeyMap := alter (λ row, <[Z.to_nat nTable := v]> row) (Z.to_nat nPhyCode) (m_KeyMap k) |>).

Fixpoint clear_loop (fuel : nat) (nTable nPhyCode : Z) : M TKeyMap unit :=
  match fuel with
  | O => mret tt
  | S fuel => set_entry nPhyCode nTable KeyNone ;; clear_loop fuel nTable (nPhyCode + 1)
  end.
Definition KeyMapClearTable (nTable : Z) : M TKeyMap bool :=
  if K_ALTSHIFTTAB <? nTable then mret false
  else clear_loop (Z.to_nat (PHY_MAX_CODE + 1)) nTable 0 ;; mret true.

Definition KeyMapSetEntry (nTable nPhyCode nValue : Z) : M TKeyMap bool :=
  if (K_ALTSHIFTTAB <? nTable) || (nPhyCode =? 0) || (PHY_MAX_CODE <? nPhyCode) || (KeyMaxCode <=? nValue)
  then mret false
  else set_entry nPhyCode nTable nValue ;; mret true.

(** The column of the table. *)
Definition key_table (bNumLock : bool) (nPhyCode nModifiers : Z) : Z :=
  if (KEYPAD_FIRST <=? nPhyCode) && (nPhyCode <=? KEYPAD_LAST) then
    if bNumLock then K_SHIFTTAB else K_NORMTAB
  else if truthy (Z.land nModifiers ALTGR) then
    if truthy (Z.land nModifiers (Z.lor LSHIFT RSHIFT)) then K_ALTSHIFTTAB else K_ALTTAB
  else if truthy (Z.land nModifiers (Z.lor LSHIFT RSHIFT)) then K_SHIFTTAB
  else K_NORMTAB.

Definition KeyMapTranslate (nPhyCode nModifiers : Z) : M TKeyMap Z :=
  if (nPhyCode =? 0) || (PHY_MAX_CODE <? nPhyCode) then mret KeyNone
  else
    nLogCodeNorm ← entry_at nPhyCode K_NORMTAB;
    if (nLogCodeNorm =? KeyDelete) && truthy (Z.land nModifiers (Z.lor LCTRL RCTRL))
       && truthy (Z.land nModifiers ALT)
    then mret ActionShutdown
    else if (KeyF1 <=? nLogCodeNorm) && (nLogCodeNorm <=? KeyF12) && truthy (Z.land nModifiers ALT)
    then mret (u16 (ActionSelectConsole1 + (nLogCodeNorm - KeyF1)))
    else if truthy (Z.land nModifiers (Z.lor (Z.lor ALT LWIN) RWIN)) then mret KeyNone
    else
      bNumLock ← gets m_bNumLock;
      nLogCode ← entry_at nPhyCode (key_table bNumLock nPhyCode nModifiers);
      if nLogCode =? KeyCapsLock then
        modify (λ k, k <| m_bCapsLock := negb (m_bCapsLock k) |>) ;; mret ActionSwitchCapsLock
      else if nLogCode =? KeyNumLock then
        modify (λ k, k <| m_bNumLock := negb (m_bNumLock k) |>) ;; mret ActionSwitchNumLock
      else if nLogCode =? KeyScrollLock then
        modify (λ k, k <| m_bScrollLock := negb (m_bScrollLock k) |>) ;; mret ActionSwitchScrollLock
      else mret nLogCode.

(** The string of a code, [None] for the null pointer. A [char] is signed. *)
Definition KeyMapGetString (nKeyCode nModifiers : Z) : M TKeyMap (option (list Z)) :=
  if (nKeyCode <=? 32) || (KeyMaxCode <=? nKeyCode) then mret None
  else if (KeySpace <=? nKeyCode) && (nKeyCode <? KeyMaxCode) then
    match s_KeyStrings !! Z.to_nat (nKeyCode - KeySpace) with
    | None => fail MemFault
    | Some s => mret s
    end
  else
    let chChar := s8 nKeyCode in
    if truthy (Z.land nModifiers (Z.lor LCTRL RCTRL)) then
      let chChar := s8 (chChar - 97) in
      if (0 <=? chChar) && (chChar <=? 25) then mret (Some [u8 (chChar + 1)]) else mret None
    else
      bCapsLock ← gets m_bCapsLock;
      let chChar :=
        if bCapsLock : bool then
          if (65 <=? chChar) && (chChar <=? 90) then s8 (chChar + 32)
          else if (97 <=? chChar) && (chChar <=? 122) then s8 (chChar - 32) else chChar
        else chChar in
      mret (Some [u8 chChar]).

Definition KeyMapGetLEDStatus : M TKeyMap Z :=
  k ← get;
  mret (Z.lor (Z.lor (if m_bCapsLock k then LED_CAPS_LOCK else 0) (if m_bNumLock k then LED_NUM_LOCK else 0))
          (if m_bScrollLock k then LED_SCROLL_LOCK else 0)).

(** ** The invariant *)

(** A table of the size it is declared with, of codes below [KeyMaxCode]. *)
Definition code_ok (v : Z) : Prop := 0 <= v < KeyMaxCode.
Record keymap_ok (k : TKeyMap) : Prop := {
  km_rows : length (m_KeyMap k) = 128%nat;
  km_cells : Forall (λ row, length row = 4%nat ∧ Forall code_ok row) (m_KeyMap k)
}.

#[export] Instance code_ok_dec v : Decision (code_ok v).
Proof. unfold code_ok. apply _. Defined.

Lemma default_ok : keymap_ok KeyMap.
Proof.
  split; [reflexivity|]. simpl.
  apply (bool_decide_unpack (Forall (λ row, length row = 4%nat ∧ Forall code_ok row) s_DefaultMap)).
  vm_compute. exact I.
Qed.

(** The cell at a row and a column. *)
Definition cell (k : TKeyMap) (p t : Z) : Z := (m_KeyMap k !!! Z.to_nat p) !!! Z.to_nat t.

Lemma wp_entry_at k p t (Q : Z → TKeyMap → Prop) :
  keymap_ok k → 0 <= p <= 127 → 0 <= t <= 3 → (code_ok (cell k p t) → Q (cell k p t) k) →
  wp (entry_at p t) Q k.
Proof.
  intros [Hr Hc] Hp Ht HQ. unfold entry_at. wp_step. wp_step.
  destruct (lookup_lt_is_Some_2 (m_KeyMap k) (Z.to_nat p)) as [row Hrow]; [lia|]. rewrite Hrow.
  destruct (Forall_lookup_1 _ _ _ _ Hc Hrow) as [Hl Hok].
  destruct (lookup_lt_is_Some_2 row (Z.to_nat t)) as [v Hv]; [lia|]. rewrite Hv. wp_step.
  unfold cell in HQ. rewrite (list_lookup_total_correct _ _ _ Hrow), (list_lookup_total_correct _ _ _ Hv) in HQ.
  apply HQ. by eapply Forall_lookup_1.
Qed.

(** The map with one cell changed. *)
Definition with_cell (k : TKeyMap) (p t v : Z) : TKeyMap :=
  k <| m_KeyMap := alter (λ row, <[Z.to_nat t := v]> row) (Z.to_nat p) (m_KeyMap k) |>.

Lemma with_cell_ok k p t v : keymap_ok k → code_ok v → keymap_ok (with_cell k p t v).
Proof.
  intros [Hr Hc] Hv. split; simpl; [by rewrite length_alter|].
  apply Forall_alter; [done|]. intros row Hrow. destruct (Forall_lookup_1 _ _ _ _ Hc Hrow) as [Hl Hok].
  split; [by rewrite length_insert|]. apply Forall_insert; [done|done].
Qed.

Lemma with_cell_same k p t v : keymap_ok k → 0 <= p <= 127 → 0 <= t <= 3 → cell (with_cell k p t v) p t = v.
Proof.
  intros [Hr Hc] Hp Ht. unfold cell, with_cell. simpl.
  destruct (lookup_lt_is_Some_2 (m_KeyMap k) (Z.to_nat p)) as [row Hrow]; [lia|].
  destruct (Forall_lookup_1 _ _ _ _ Hc Hrow) as [Hl _].
  rewrite (list_lookup_total_correct _ _ (<[Z.to_nat t := v]> row)).
  - apply list_lookup_total_insert_eq. lia.
  - by rewrite list_lookup_alter_eq, Hrow.
Qed.

Lemma with_cell_other k p t v p' t' : 0 <= p → 0 <= t → 0 <= p' → 0 <= t' → (p', t') ≠ (p, t) →
  cell (with_cell k p t v) p' t' = cell k p' t'.
Proof.
  intros H1 H2 H3 H4 Hne. unfold cell, with_cell. simpl. rewrite !list_lookup_total_alt.
  destruct (decide (Z.to_nat p' = Z.to_nat p)) as [E|E].
  - rewrite E, list_lookup_alter_eq. destruct (m_KeyMap k !! Z.to_nat p) as [row|]; [|done]. simpl.
    assert (t' ≠ t) by (intros ->; apply Hne; f_equal; lia). by rewrite list_lookup_insert_ne by lia.
  - by rewrite list_lookup_alter_ne by done.
Qed.

Lemma wp_set_entry k p t v (Q : unit → TKeyMap → Prop) :
  keymap_ok k → 0 <= p <= 127 → 0 <= t <= 3 → Q tt (with_cell k p t v) → wp (set_entry p t v) Q k.
Proof. intros Hk Hp Ht HQ. unfold set_entry. wp_step. eapply wp_entry_at; [done..|]. intros _. by wp_step. Qed.

(** ** Changing the map *)

Lemma wp_clear_loop fuel t p k (Q : unit → TKeyMap → Prop) :
  keymap_ok k → 0 <= t <= 3 → 0 <= p → p + Z.of_nat fuel = 128 →
  (∀ k', keymap_ok k' → (∀ p', p <= p' <= 127 → cell k' p' t = KeyNone) →
     (∀ p' t', 0 <= p' → 0 <= t' → t' ≠ t ∨ p' < p → cell k' p' t' = cell k p' t') →
     m_bCapsLock k' = m_bCapsLock k → m_bNumLock k' = m_bNumLock k → m_bScrollLock k' = m_bScrollLock k →
     Q tt k') →
  wp (clear_loop fuel t p) Q k.
Proof.
  revert p k. induction fuel as [|fuel IH]; intros p k Hk Ht Hp Hf HQ; cbn [clear_loop].
  - wp_step. apply HQ; try done. intros p' Hp'. lia.
  - wp_step. eapply wp_set_entry; [done|lia|done|].
    apply IH; [by apply with_cell_ok|done|lia|lia|]. intros k' Hk' Hz Ho C1 C2 C3.
    apply HQ; [done| | |done|done|done].
    + intros p' Hp'. destruct (decide (p' = p)) as [->|]; [|apply Hz; lia].
      rewrite Ho by lia. apply with_cell_same; [done|lia|done].
    + intros p' t' Hp' Ht' Hne. rewrite Ho by lia. apply with_cell_other; try lia. intros [= -> ->]. lia.
Qed.

(** Changing the map: [KeyMapSetEntry] takes exactly the values of the table's
    type at its keys, which then are there; [KeyMapClearTable] clears one column.
    Both keep the map well formed and leave every other cell and the locks
    alone. *)
Theorem keymap_update k nTable nPhyCode nValue :
  keymap_ok k → is_u8 nTable → is_u8 nPhyCode → is_u16 nValue →
  wp (KeyMapSetEntry nTable nPhyCode nValue) (λ ok k',
    (ok = true ↔ nTable <= 3 ∧ 1 <= nPhyCode <= 127 ∧ nValue < KeyMaxCode) ∧
    k' = (if ok then with_cell k nPhyCode nTable nValue else k) ∧ keymap_ok k' ∧
    (ok = true → cell k' nPhyCode nTable = nValue ∧
       ∀ p t, 0 <= p → 0 <= t → (p, t) ≠ (nPhyCode, nTable) → cell k' p t = cell k p t)) k ∧
  wp (KeyMapClearTable nTable) (λ ok k',
    (ok = true ↔ nTable <= 3) ∧ keymap_ok k' ∧ (ok = false → k' = k) ∧
    (ok = true → (∀ p, 0 <= p <= 127 → cell k' p nTable = KeyNone) ∧
       ∀ p t, 0 <= p → 0 <= t → t ≠ nTable → cell k' p t = cell k p t) ∧
    m_bCapsLock k' = m_bCapsLock k ∧ m_bNumLock k' = m_bNumLock k ∧ m_bScrollLock k' = m_bScrollLock k) k.
Proof.
  intros Hk Ht Hp Hv. unfold is_u8, is_u16 in *. split.
  - unfold KeyMapSetEntry. destruct ((K_ALTSHIFTTAB <? nTable) || (nPhyCode =? 0) || (PHY_MAX_CODE <? nPhyCode)
      || (KeyMaxCode <=? nValue)) eqn:E; unfold K_ALTSHIFTTAB, PHY_MAX_CODE, KeyMaxCode in *.
    + wp_step. split; [split; [done|lia]|]. split; [done|]. by split.
    + wp_step. eapply wp_set_entry; [done|lia|lia|]. wp_step. split; [split; [lia|done]|]. split; [done|].
      split; [apply with_cell_ok; [done|unfold code_ok, KeyMaxCode; lia]|]. intros _.
      split; [apply with_cell_same; [done|lia|lia]|]. intros p t H1 H2 Hne. apply with_cell_other; [lia..|exact Hne].
  - unfold KeyMapClearTable. destruct (Z.ltb_spec K_ALTSHIFTTAB nTable) as [E|E]; unfold K_ALTSHIFTTAB in E.
    + wp_step. split; [split; [done|lia]|]. done.
    + wp_step. apply wp_clear_loop; [done|lia|lia|done|]. intros k' Hk' Hz Ho C1 C2 C3. wp_step.
      split; [split; [lia|done]|]. split; [done|]. split; [done|]. split; [|done]. intros _.
      split; [intros p Hp'; by apply Hz|]. intros p t H1 H2 Hne. apply Ho; [done|done|]. by left.
Qed.

(** ** Translating *)

(** What an action does to the locks. *)
Definition toggled (c : Z) (k : TKeyMap) : TKeyMap :=
  if c =? ActionSwitchCapsLock then k <| m_bCapsLock := negb (m_bCapsLock k) |>
  else if c =? ActionSwitchNumLock then k <| m_bNumLock := negb (m_bNumLock k) |>
  else if c =? ActionSwitchScrollLock then k <| m_bScrollLock := negb (m_bScrollLock k) |>
  else k.

Lemma toggled_ok c k : keymap_ok k → keymap_ok (toggled c k) ∧ m_KeyMap (toggled c k) = m_KeyMap k.
Proof. intros [Hr Hc]. unfold toggled. by repeat case_match; split; try split. Qed.

Lemma toggled_below c k : c < KeyMaxCode → toggled c k = k.
Proof.
  unfold toggled, KeyMaxCode, ActionSwitchCapsLock, ActionSwitchNumLock, ActionSwitchScrollLock. intros Hc.
  by rewrite !(proj2 (Z.eqb_neq _ _)) by lia.
Qed.

Lemma key_table_range b p m : 0 <= key_table b p m <= 3.
Proof. unfold key_table, K_ALTSHIFTTAB, K_ALTTAB, K_SHIFTTAB, K_NORMTAB. repeat case_match; lia. Qed.

Lemma wp_KeyMapTranslate k p m (Q : Z → TKeyMap → Prop) :
  keymap_ok k → is_u8 p → (∀ c, 0 <= c < ActionNone → Q c (toggled c k)) → wp (KeyMapTranslate p m) Q k.
Proof.
  intros Hk Hp HQ. unfold KeyMapTranslate, is_u8, PHY_MAX_CODE in *.
  assert (∀ c, 0 <= c < KeyMaxCode → Q c k) as Hkey.
  { intros c Hc. specialize (HQ c). rewrite toggled_below in HQ by lia. apply HQ.
    unfold ActionNone, KeyMaxCode in *. lia. }
  destruct ((p =? 0) || (127 <? p)) eqn:Ep; [wp_step; apply Hkey; unfold KeyNone, KeyMaxCode; lia|].
  wp_step. eapply wp_entry_at; [done|lia|unfold K_NORMTAB; lia|]. intros Hn. set (n := cell k p K_NORMTAB) in *.
  destruct (_ && _ && _); [wp_step; specialize (HQ ActionShutdown); by apply HQ|].
  destruct ((KeyF1 <=? n) && (n <=? KeyF12) && _) eqn:Ef.
  { wp_step. unfold KeyF1, KeyF12, ActionSelectConsole1 in *.
    assert (271 <= n <= 282) as Hf by lia. specialize (HQ (u16 (310 + (n - 271)))).
    unfold toggled, ActionSwitchCapsLock, ActionSwitchNumLock, ActionSwitchScrollLock, ActionNone in HQ.
    rewrite !u16_id in * by cint. rewrite !(proj2 (Z.eqb_neq _ _)) in HQ by lia. apply HQ. lia. }
  destruct (truthy (Z.land m (Z.lor (Z.lor ALT LWIN) RWIN))); [wp_step; apply Hkey; unfold KeyNone, KeyMaxCode; lia|].
  wp_step. wp_step. wp_step. eapply wp_entry_at; [done|lia|apply key_table_range|]. intros Hc. set (c := cell k p (key_table _ _ _)) in *.
  destruct (c =? KeyCapsLock); [do 3 wp_step; by apply (HQ ActionSwitchCapsLock)|].
  destruct (c =? KeyNumLock); [do 3 wp_step; by apply (HQ ActionSwitchNumLock)|].
  destruct (c =? KeyScrollLock); [do 3 wp_step; by apply (HQ ActionSwitchScrollLock)|].
  wp_step. by apply Hkey.
Qed.

(** ** Strings *)

Definition string_ok (s : option (list Z)) : Prop :=
  match s with None => True | Some l => l ≠ [] ∧ Forall (λ x, 0 < x < 256) l end.
#[export] Instance string_ok_dec s : Decision (string_ok s).
Proof. destruct s; simpl; apply _. Defined.

Lemma key_strings_ok : Forall string_ok s_KeyStrings.
Proof. apply (bool_decide_unpack _). vm_compute. exact I. Qed.

Lemma wp_KeyMapGetString k c m (Q : option (list Z) → TKeyMap → Prop) :
  0 <= c → (∀ s, string_ok s → Q s k) → wp (KeyMapGetString c m) Q k.
Proof.
  intros Hc HQ. unfold KeyMapGetString.
  destruct ((c <=? 32) || (KeyMaxCode <=? c)) eqn:E1; [wp_step; by apply HQ|]. unfold KeyMaxCode, KeySpace in *.
  destruct ((256 <=? c) && (c <? 307)) eqn:E2.
  { destruct (lookup_lt_is_Some_2 s_KeyStrings (Z.to_nat (c - 256))) as [s Hs];
      [change (length s_KeyStrings) with 51%nat; lia|].
    rewrite Hs. wp_step. apply HQ. eapply Forall_lookup_1; [exact key_strings_ok|exact Hs]. }
  assert (33 <= c < 256) as Hr by lia.
  assert (∀ x, 0 < x < 256 → string_ok (Some [x])) as Hone by (intros x Hx; split; [done|by constructor]).
  destruct (truthy (Z.land m (Z.lor LCTRL RCTRL))).
  { destruct ((0 <=? _) && _) eqn:E3; wp_step; apply HQ; [|done]. apply Hone.
    remember (s8 (s8 c - 97)) as d. unfold u8. lia. }
  do 2 wp_step. cbv zeta. wp_step. apply HQ, Hone.
  destruct (m_bCapsLock k); [|unfold u8, s8; lia].
  destruct ((65 <=? s8 c) && (s8 c <=? 90)) eqn:E4; [unfold u8, s8 in *; lia|].
  destruct ((97 <=? s8 c) && (s8 c <=? 122)) eqn:E5; unfold u8, s8 in *; lia.
Qed.

(** From a key to its string: with a well-formed map a key code of any value and
    any modifiers give a code that the keyboard driver knows, the locks change
    by exactly what the code says, and the string of the code is found without
    a fault; if there is one it is not empty and a C string. *)
Theorem keymap_codes k p m :
  keymap_ok k → is_u8 p →
  wp (KeyMapTranslate p m) (λ c k', 0 <= c < ActionNone ∧ k' = toggled c k ∧ keymap_ok k' ∧
    wp (KeyMapGetString c m) (λ s k'', k'' = k' ∧ string_ok s) k') k.
Proof.
  intros Hk Hp. apply wp_KeyMapTranslate; [done|done|]. intros c Hc. split; [done|]. split; [done|].
  split; [by apply toggled_ok|]. apply wp_KeyMapGetString; [lia|]. done.
Qed.

(** ** The letters *)

(** A letter key with its modifiers and the state of the caps lock. *)
Definition letter (i : Z) (m : Z) (caps : bool) : option (list Z) :=
  if truthy (Z.land m (Z.lor (Z.lor ALT LWIN) RWIN)) then None
  else
    let shift := truthy (Z.land m (Z.lor LSHIFT RSHIFT)) in
    if truthy (Z.land m (Z.lor LCTRL RCTRL)) then if shift then None else Some [i + 1]
    else Some [if xorb shift caps then 65 + i else 97 + i].

Definition typed (p m : Z) : M TKeyMap (option (list Z)) :=
  c ← KeyMapTranslate p m; KeyMapGetString c m.

Definition with_caps (caps num scroll : bool) : TKeyMap :=
  {| m_KeyMap := s_DefaultMap; m_bCapsLock := caps; m_bNumLock := num; m_bScrollLock := scroll |}.

Definition letter_code (p m : Z) (k : TKeyMap) (l : option (list Z)) : bool :=
  match KeyMapTranslate p m k with
  | Ok (c, k) =>
      (c <? KeyMaxCode) && match KeyMapGetString c m k with Ok (s, _) => bool_decide (s = l) | Err _ => false end
  | Err _ => false
  end.

Lemma letter_code_run p m k l :
  keymap_ok k → is_u8 p → letter_code p m k l = true →
  ∃ c, c < KeyMaxCode ∧ KeyMapTranslate p m k = Ok (c, k) ∧ KeyMapGetString c m k = Ok (l, k).
Proof.
  intros Hk Hp H. unfold letter_code in H.
  pose proof (wp_KeyMapTranslate k p m (λ c k', 0 <= c ∧ k' = toggled c k) Hk Hp ltac:(intros c' [Hc' _]; done)) as Ht.
  unfold wp in Ht. destruct (KeyMapTranslate p m k) as [[c k']|]; [|done].
  apply andb_true_iff in H as [Hc H]. apply Z.ltb_lt in Hc. destruct Ht as [Hc0 ->].
  rewrite toggled_below in * by done. exists c. split; [done|]. split; [done|].
  pose proof (wp_KeyMapGetString k c m (λ _ k', k' = k) Hc0 ltac:(done)) as Hg. unfold wp in Hg.
  destruct (KeyMapGetString c m k) as [[s k'']|]; [|done]. apply bool_decide_eq_true in H as ->. by subst k''.
Qed.

Lemma letter_code_typed p m k l :
  keymap_ok k → is_u8 p → letter_code p m k l = true → typed p m k = Ok (l, k).
Proof.
  intros Hk Hp H. destruct (letter_code_run p m k l Hk Hp H) as (c & _ & H1 & H2).
  unfold typed, mbind, M_bind. by rewrite H1.
Qed.

Lemma letters_ok :
  forallb (λ i, forallb (λ m, forallb (λ caps, forallb (λ num, forallb (λ scroll,
    truthy (Z.land (Z.of_nat m) ALTGR) ||
    letter_code (4 + Z.of_nat i) (Z.of_nat m) (with_caps caps num scroll) (letter (Z.of_nat i) (Z.of_nat m) caps))
    [false; true]) [false; true]) [false; true]) (seq 0 256)) (seq 0 26) = true.
Proof. vm_compute. reflexivity. Qed.

Lemma forallb_seq (f : nat → bool) n i : forallb f (seq 0 n) = true → (i < n)%nat → f i = true.
Proof. intros H Hi. rewrite forallb_forall in H. apply H, in_seq. lia. Qed.

Lemma forallb_bool (f : bool → bool) b : forallb f [false; true] = true → f b = true.
Proof. intros H. rewrite forallb_forall in H. apply H. destruct b; simpl; auto. Qed.

Lemma with_caps_ok caps num scroll : keymap_ok (with_caps caps num scroll).
Proof. destruct default_ok as [H1 H2]. split; [exact H1|exact H2]. Qed.

Lemma letters_at i m caps num scroll : 0 <= i < 26 → is_u8 m →
  truthy (Z.land m ALTGR) || letter_code (4 + i) m (with_caps caps num scroll) (letter i m caps) = true.
Proof.
  intros Hi Hm. unfold is_u8 in Hm.
  pose proof (forallb_seq _ _ (Z.to_nat i) letters_ok ltac:(lia)) as H. cbv beta in H.
  apply (forallb_seq _ _ (Z.to_nat m)) in H; [|lia]. cbv beta in H.
  apply (forallb_bool _ caps), (forallb_bool _ num), (forallb_bool _ scroll) in H. cbv beta in H.
  by rewrite !Z2Nat.id in H by lia.
Qed.

(** On the map of the build every letter key types its letter: in capitals when
    exactly one of shift and caps lock is on, its control character with control
    alone, and nothing with control and shift, with Alt or with a Windows key;
    the other locks have no part in it. The hypothesis on AltGr is needed, as
    some letters have a third character. *)
Theorem letters_typed (i m : Z) (caps num scroll : bool) :
  0 <= i < 26 → is_u8 m → Z.land m ALTGR = 0 →
  typed (4 + i) m (with_caps caps num scroll) =
    Ok (letter i m caps, with_caps caps num scroll).
Proof.
  intros Hi Hm Ha. apply letter_code_typed; [apply with_caps_ok|unfold is_u8; lia|].
  destruct (orb_prop _ _ (letters_at i m caps num scroll Hi Hm)) as [H|H]; [|exact H].
  by rewrite Ha in H.
Qed.

Module KeyDemo.
Lemma letters_typed_witness :
  0 <= 22 < 26 ∧ typed 26 LSHIFT (with_caps false true false) = Ok (Some [87], with_caps false true false).
Proof. split; [lia|]. apply (letters_typed 22 LSHIFT false true false); [lia|unfold is_u8; vm_compute; by split|reflexivity]. Defined.

(** The caps lock key. *)
Lemma keymap_codes_witness :
  KeyMapTranslate 57 0 KeyMap = Ok (ActionSwitchCapsLock, KeyMap <| m_bCapsLock := true |>) ∧
  wp (KeyMapTranslate 57 0) (λ c k', 0 <= c < ActionNone ∧ k' = toggled c KeyMap ∧ keymap_ok k' ∧
    wp (KeyMapGetString c 0) (λ s k'', k'' = k' ∧ string_ok s) k') KeyMap.
Proof. split; [reflexivity|]. apply (keymap_codes KeyMap 57 0 default_ok). unfold is_u8. lia. Defined.

(** Swapping Y and Z is two entries. *)
Lemma keymap_update_witness :
  keymap_ok KeyMap ∧ wp (KeyMapSetEntry 0 28 122) (λ ok k', ok = true ∧ cell k' 28 0 = 122) KeyMap.
Proof.
  split; [exact default_ok|].
  eapply wp_mono; [apply (proj1 (keymap_update KeyMap 0 28 122 default_ok ltac:(unfold is_u8; lia)
    ltac:(unfold is_u8; lia) ltac:(unfold is_u16; lia)))|].
  intros ok k' (Hok & _ & _ & Hc). assert (ok = true) as -> by (apply Hok; unfold KeyMaxCode; lia).
  split; [done|]. by apply Hc.
Defined.
End KeyDemo.
