(* ===== verification/InputDriver.v ===== *)
(** * Drivers of devices that send reports

    The keyboard, mouse, gamepad and MIDI drivers have a shape in common: an
    object that begins with the function, an endpoint whose transfers are
    requested asynchronously, a routine the host calls when one is complete,
    which tells a handler what came in and requests the next, and an entry in
    the name service. This file has that shape: the interface to asynchronous
    requests, the object next to the driver's statics, and the operations and
    lemmas the four share. *)
From S2P Require Import Prelude CMem Util CString Endpoint ConfigParser DeviceName.
From S2P Require Import UsbBus UsbFunction.
Import Names.

(** ** Asynchronous requests *)

(** What [DWHCIDeviceSubmitAsyncRequest] asks of a request. *)
Record async_ok (u : Usb) (r : TUSBRequest) : Prop := {
  ao_endpoint : m_pEndpoint r ≠ 0;
  ao_known : ∃ e, endpoints u !! m_pEndpoint r = Some e ∧
    (m_Type e = EndpointTypeBulk ∨ m_Type e = EndpointTypeInterrupt) ∧
    0 < m_nMaxPacketSize e < 65536 ∧ is_Some (devices u !! m_pDevice e);
  ao_buffer : m_pBuffer r ≠ 0;
  ao_length : 0 < m_nBufLen r < 2 ^ 31;
  ao_routine : m_pCompletionRoutine r ≠ NoRoutine
}.

(** A host that takes requests: [host_accepts] where one may be submitted, and
    every call that was made to submit one, newest first: the address, the
    request as it was handed over, and the answer. *)
Class AsyncHost (St : Type) `{!UsbHost St} := {
  host_submit : Z → M St bool;
  host_accepts : St → Prop;
  host_submitted : St → list (Z * TUSBRequest * bool)
}.

Class AsyncHostLaws (St : Type) `{!UsbHost St} `{!AsyncHost St} := {
  host_accepts_ready k (s : St) : host_ready k s → host_accepts s;
  host_accepts_urbs u (s : St) : host_accepts s → devices u = devices (usb_get s) →
    endpoints u = endpoints (usb_get s) → host_accepts (usb_put u s);
  host_submitted_usb u (s : St) : host_submitted (usb_put u s) = host_submitted s;
  host_submit_ok p r (s : St) :
    host_accepts s → p ≠ 0 → urbs (usb_get s) !! p = Some r → async_ok (usb_get s) r →
    wp (host_submit p) (λ b s', bus_get s' = bus_get s ∧
      usb_get s' = upd_urb p (r <| m_bStatus := 0 |>) (usb_get s) ∧
      host_submitted s' = (p, r, b) :: host_submitted s) s
}.

#[export] Instance prod_async {D St} `{!UsbHost St} `{!AsyncHost St} : AsyncHost (D * St) :=
  {| host_submit p := zoom (λ s, Some (snd s)) (λ t s, (fst s, t)) (host_submit p);
     host_accepts s := host_accepts (snd s); host_submitted s := host_submitted (snd s) |}.

(** ** The driver's object and statics *)

(** [calls]: the calls of the handlers, newest first. *)
Record Input (D E : Type) := {
  device : D;
  s_nDeviceNumber : Z;
  names : TDeviceNameService;
  calls : list E
}.
Arguments device {D E} _.
Arguments s_nDeviceNumber {D E} _.
Arguments names {D E} _.
Arguments calls {D E} _.
#[global] Instance Input_eta {D E} : Eta (Input D E) := λ r,
  {| device := device r; s_nDeviceNumber := s_nDeviceNumber r; names := names r; calls := calls r |}.

(** What the shared operations need of an object: the function, the endpoint of
    the reports, the address of the member [m_URB]. *)
Class InputObject (D : Type) := {
  io_function : D → TUSBFunction;
  io_set_function : TUSBFunction → D → D;
  io_endpoint : D → Z;
  io_set_endpoint : Z → D → D;
  io_urb : D → Z
}.
Class InputObjectLaws (D : Type) `{!InputObject D} := {
  io_function_set f (d : D) : io_function (io_set_function f d) = f;
  io_function_endpoint p (d : D) : io_function (io_set_endpoint p d) = io_function d;
  io_endpoint_set p (d : D) : io_endpoint (io_set_endpoint p d) = p;
  io_endpoint_function f (d : D) : io_endpoint (io_set_function f d) = io_endpoint d;
  io_urb_function f (d : D) : io_urb (io_set_function f d) = io_urb d;
  io_urb_endpoint p (d : D) : io_urb (io_set_endpoint p d) = io_urb d;
  io_set_function_twice f g (d : D) : io_set_function f (io_set_function g d) = io_set_function f d;
  io_set_endpoint_same (d : D) : io_set_endpoint (io_endpoint d) d = d
}.

(** usbhid.h *)
Definition SET_REPORT : Z := 0x09.
Definition GET_REPORT : Z := 0x01.
Definition SET_PROTOCOL : Z := 0x0B.
Definition DESCRIPTOR_HID : Z := 0x21.
Definition BOOT_PROTOCOL : Z := 0x00.
Definition REPORT_TYPE_INPUT : Z := 0x01.
Definition REPORT_TYPE_OUTPUT : Z := 0x02.
Definition REPORT_TYPE_FEATURE : Z := 0x03.
Definition REQUEST_CLASS : Z := 0x20.
Definition DESCRIPTOR_INDEX_DEFAULT : Z := 0.

(** The fields of a HID descriptor, [TUSBHIDDescriptor]. *)
Section HID.
Context {St : Type}.

Definition hid_report_type (f : TUSBFunction) (o : nat) : M St Z :=
  p ← parser_of f; '(v, _) ← on_parser (byte_at (o + 6)) p; mret v.
Definition hid_report_length (f : TUSBFunction) (o : nat) : M St Z :=
  p ← parser_of f;
  '(v, _) ← on_parser (lo ← byte_at (o + 7); hi ← byte_at (o + 8); mret (lo + 256 * hi)) p; mret v.
End HID.

Section Operations.
Context {D E H : Type} `{!InputObject D} `{!UsbHost H} `{!AsyncHost H}.
Abbreviation W := (Input D E * H)%type.

Definition dget {A} (f : D → A) : M W A := gets (λ w, f (device (fst w))).
Definition dset (f : D → D) : M W unit :=
  modify (λ w, ((fst w) <| device := f (device (fst w)) |>, snd w)).
Definition on_names {A} (m : M TDeviceNameService A) : M W A :=
  zoom (λ w, Some (names (fst w))) (λ n w, ((fst w) <| names := n |>, snd w)) m.

(** The call of a handler, which is not part of the library. *)
Definition call (e : E) : M W unit :=
  modify (λ w, ((fst w) <| calls := e :: calls (fst w) |>, snd w)).

(** [USBFunctionGetDescriptor] on the object's function. *)
Definition next_descriptor (ucType : Z) : M W (option nat) :=
  f ← dget io_function;
  '(o, f) ← USBFunctionGetDescriptor f ucType;
  dset (io_set_function f) ;; mret o.

(** A HID descriptor that was found and has a report descriptor. *)
Definition hid_usable (hid : option nat) : M W (option nat) :=
  match hid with
  | None => mret None
  | Some o =>
      f ← dget io_function;
      len ← hid_report_length f o;
      mret (if len =? 0 then None else Some o)
  end.

(** Looking for the interrupt IN endpoint, which becomes the endpoint of the
    reports. Every turn passes a descriptor, so the bytes of the configuration
    are enough fuel. *)
Fixpoint report_endpoint_loop (fuel : nat) : M W unit :=
  match fuel with
  | O => fail OutOfFuel
  | S fuel =>
      o ← next_descriptor DESCRIPTOR_ENDPOINT;
      match o with
      | None => mret tt
      | Some o =>
          f ← dget io_function;
          desc ← endpoint_descriptor f o;
          if negb (Z.land (bEndpointAddress desc) 0x80 =? 0x80)
             || negb (Z.land (bmAttributes desc) 0x3F =? 0x03)
          then report_endpoint_loop fuel
          else
            p ← dget io_endpoint;
            c_assert (p =? 0) ;;
            p ← endpoint_from f o;
            dset (io_set_endpoint p)
      end
  end.

(** A control message without data to the interface, to endpoint 0. *)
Definition interface_message (ucRequestType ucRequest usValue : Z) (data : list Z) : M W Z :=
  f ← dget io_function;
  USBFunctionGetHost f ;;
  ep0 ← USBFunctionGetEndpoint0 f;
  num ← USBFunctionGetInterfaceNumber f;
  ControlMessageOut ep0 ucRequestType ucRequest usValue num data.
Definition interface_request (ucRequestType ucRequest usValue : Z) (pData : buffer) : M W (Z * buffer) :=
  f ← dget io_function;
  USBFunctionGetHost f ;;
  ep0 ← USBFunctionGetEndpoint0 f;
  num ← USBFunctionGetInterfaceNumber f;
  ControlMessageIn ep0 ucRequestType ucRequest usValue num pData.

(** The next number of the driver, and the entry of the object under a name with
    it: [StringFormat] of the prefix and "%u". *)
Definition take_number : M W Z :=
  n ← gets (λ w, s_nDeviceNumber (fst w));
  modify (λ w, ((fst w) <| s_nDeviceNumber := u32 (n + 1) |>, snd w)) ;; mret n.
Definition publish (prefix : list Z) (n pThis : Z) : M W unit :=
  on_names DeviceNameServiceGet ;;
  on_names (DeviceNameServiceAddDevice (prefix ++ numeral false 10 n) pThis false).

(** Setting up the object's request and submitting it. *)
Definition start_request (pEndpoint pBuffer nBufLen pThis : Z) (routine : TURBCompletionRoutine)
    : M W bool :=
  c_assert (negb (pEndpoint =? 0)) ;;
  c_assert (negb (pBuffer =? 0)) ;;
  p ← dget io_urb;
  r ← USBRequest pEndpoint pBuffer nBufLen None;
  r ← USBRequestSetCompletionRoutine r routine 0 pThis;
  urb_set p r ;;
  f ← dget io_function;
  USBFunctionGetHost f ;;
  host_submit p.

(** The end of a completion routine: [_USBRequest] on the object's request. *)
Definition finish_request : M W unit :=
  p ← dget io_urb; r ← urb_at p; urb_set p (_USBRequest r).

(** The destructor's part for the endpoint. *)
Definition free_endpoint (p : Z) : M W unit := endpoint_at p ;; endpoint_free p.
End Operations.

(** ** What the operations do *)

(** An endpoint that reports come in through. *)
Definition input_endpoint (u : Usb) (p : Z) (ty : TEndpointType) : Prop :=
  p ≠ 0 ∧ ∃ e, endpoints u !! p = Some e ∧ m_Type e = ty ∧ m_bDirectionIn e = true ∧
    0 < m_nMaxPacketSize e < 65536 ∧ is_Some (devices u !! m_pDevice e).

Lemma input_endpoint_same u u' p ty :
  same_but_pid u u' → input_endpoint u p ty → input_endpoint u' p ty.
Proof.
  intros [Hd Hs] (H0 & e & He & Ht & Hi & Hm & Hdev). split; [done|]. specialize (Hs p). rewrite He in Hs.
  destruct (endpoints u' !! p) as [e'|]; [|done]. exists e'. rewrite Hd. destruct Hs as [<- _]. done.
Qed.

(** The request as it is submitted. *)
Definition pending_request (pEndpoint pBuffer nBufLen pThis : Z) (routine : TURBCompletionRoutine) : TUSBRequest :=
  {| m_pEndpoint := pEndpoint; m_pSetupData := None; m_pBuffer := pBuffer; m_nBufLen := nBufLen;
     m_bStatus := 0; m_nResultLen := 0; m_pCompletionRoutine := routine; m_pCompletionParam := 0;
     m_pCompletionContext := pThis |}.

Lemma land_interrupt v : Z.land v 0x3F = 3 → Z.land v 3 = 3.
Proof.
  intros E. replace (Z.land v 3) with (Z.land (Z.land v 0x3F) 3); [by rewrite E|].
  by rewrite <- Z.land_assoc.
Qed.
Lemma land_bulk v : Z.land v 0x3F = 2 → Z.land v 3 = 2.
Proof.
  intros E. replace (Z.land v 3) with (Z.land (Z.land v 0x3F) 3); [by rewrite E|].
  by rewrite <- Z.land_assoc.
Qed.

Section Lemmas.
Context {D E H : Type} `{!InputObject D} `{!InputObjectLaws D}.
Context `{!UsbHost H} `{!UsbHostLaws H} `{!UsbHostRecovers H} `{!AsyncHost H} `{!AsyncHostLaws H}.
Implicit Types (x : Input D E) (h : H).

Lemma wp_dget {A} (f : D → A) (Q : A → Input D E * H → Prop) x h :
  Q (f (device x)) (x, h) → wp (dget f) Q (x, h).
Proof. done. Qed.
Lemma wp_dset f (Q : unit → Input D E * H → Prop) x h :
  Q tt (x <| device := f (device x) |>, h) → wp (dset f) Q (x, h).
Proof. done. Qed.
Lemma wp_call (e : E) (Q : unit → Input D E * H → Prop) x h :
  Q tt (x <| calls := e :: calls x |>, h) → wp (call e) Q (x, h).
Proof. done. Qed.

(** An object whose function stands at the descriptors [l] of [b], at a host
    that answers [k] more requests. *)
Record searching (k : nat) (b : list Z) (o : nat) (l : list nat) (d : TUSBDevice) x h : Prop := {
  se_ready : host_ready k h;
  se_function : function_ok b l o (io_function (device x));
  se_device : devices (usb_get h) !! fn_pDevice (io_function (device x)) = Some d;
  se_ep0 : endpoint_is (usb_get h) (m_pEndpoint0 d) EndpointTypeControl
}.

Lemma searching_device k b o l d x h y :
  searching k b o l d x h → io_function (device y) = io_function (device x) → searching k b o l d y h.
Proof. intros [H1 H2 H3 H4] E0. split; rewrite ?E0; done. Qed.

Lemma searching_step k k' b o l d x h h' :
  searching k b o l d x h → host_ready k' h' → host_step h h' → searching k' b o l d x h'.
Proof.
  intros [H1 H2 H3 H4] Hr [Hs _]. split; [done|done|by rewrite (proj1 Hs)|by eapply endpoint_is_same].
Qed.

Lemma searching_extends k b o l d x h h' :
  searching k b o l d x h → host_ready k h' → extends (usb_get h) (usb_get h') → searching k b o l d x h'.
Proof.
  intros [H1 H2 H3 H4] Hr Hx. split; [done|done|by rewrite (proj1 Hx)|by eapply endpoint_is_extends].
Qed.

Lemma wp_next_descriptor k b o l d x h ucType (Q : option nat → Input D E * H → Prop) :
  searching k b o l d x h →
  (∀ r f, (∃ e, r = (search b e ucType l).1) →
     fn_pDevice f = fn_pDevice (io_function (device x)) →
     searching k b o (search_rest b ucType l) d (x <| device := io_set_function f (device x) |>) h →
     (∀ pos, r = Some pos → b !! (pos + 1)%nat = Some ucType ∧
        ∃ len, b !! pos = Some len ∧ sized ucType len ∧ (pos + Z.to_nat len <= length b)%nat) →
     Q r (x <| device := io_set_function f (device x) |>, h)) →
  wp (next_descriptor ucType) Q (x, h).
Proof.
  intros [Hr Hf Hd He] HQ. unfold next_descriptor. wp_step. apply wp_dget. wp_step.
  eapply wp_FunctionGetDescriptor_any; [exact Hf|]. intros r f' H1 H2 (p & -> & _) H4.
  wp_step. apply wp_dset. wp_step. apply HQ; [done|done| |done].
  split; [done|..]; simpl; rewrite ?io_function_set; done.
Qed.

Lemma wp_report_endpoint_loop k b o d fuel l x h (Q : unit → Input D E * H → Prop) :
  searching k b o l d x h → packet_sizes b l → io_endpoint (device x) = 0 → (length l < fuel)%nat →
  (∀ f l' p h', fn_pDevice f = fn_pDevice (io_function (device x)) →
     p = 0 ∨ input_endpoint (usb_get h') p EndpointTypeInterrupt →
     searching k b o l' d (x <| device := io_set_endpoint p (io_set_function f (device x)) |>) h' →
     extends (usb_get h) (usb_get h') → bus_get h' = bus_get h →
     Q tt (x <| device := io_set_endpoint p (io_set_function f (device x)) |>, h')) →
  wp (report_endpoint_loop fuel) Q (x, h).
Proof.
  revert l x. induction fuel as [|fuel IH]; intros l x Hc Hps H0 Hl HQ; [lia|].
  cbn [report_endpoint_loop]. wp_step. eapply wp_next_descriptor; [exact Hc|].
  intros r f [e Er] Hfd Hc1 Hfound. set (x1 := x <| device := _ |>) in *.
  assert (io_endpoint (device x1) = 0) as H01 by (simpl; by rewrite io_endpoint_function).
  destruct r as [pos|].
  2: { pose proof (io_set_endpoint_same (io_set_function f (device x))) as Hs.
       rewrite io_endpoint_function, H0 in Hs. wp_step. unfold x1 in *. rewrite <- Hs.
       apply (HQ f (search_rest b DESCRIPTOR_ENDPOINT l)); [done|by left| |apply extends_refl|done].
       eapply searching_device; [exact Hc1|]. simpl. by rewrite io_function_endpoint. }
  destruct (Hfound pos eq_refl) as (Hty & len & Hlen & (_ & _ & Hsz) & Hin). specialize (Hsz eq_refl).
  assert (pos ∈ l) as Hpos by (eapply search_elem; by symmetry).
  pose proof (search_rest_shorter _ _ _ _ _ (eq_sym Er)) as Hshort.
  pose proof Hc1 as [Hr1 Hf1 Hd1 He1].
  wp_step. apply wp_dget. wp_step. eapply wp_endpoint_descriptor; [exact Hf1|destruct Hsz; lia|].
  intros desc E0 E1 E2 E3 _ _ _ _.
  destruct (negb (Z.land (bEndpointAddress desc) 0x80 =? 0x80) || _) eqn:Ecase.
  { eapply (IH (search_rest b DESCRIPTOR_ENDPOINT l)); [exact Hc1|by apply packet_sizes_rest|done|lia|].
    intros f' l' p h' Hfd' Hp Hc' Hx Hb. simpl in *. rewrite io_set_function_twice in *.
    apply (HQ f' l'); try done. by rewrite Hfd', io_function_set. }
  apply orb_false_iff in Ecase as [Ein Eint]. apply negb_false_iff, Z.eqb_eq in Ein, Eint.
  apply land_interrupt in Eint.
  wp_step. apply wp_dget. wp_step. apply wp_assert; [by rewrite H01|]. wp_step.
  eapply (wp_endpoint_from k b _ o pos); [exact Hr1|exact Hf1|by eexists|destruct Hsz; lia| |done|by apply Hps| |].
  { destruct Hsz; subst; auto. }
  { intros v Hv. rewrite E3 in Hv. injection Hv as <-. by right. }
  intros p h' ep Hp Hr' Hx Hb He' Ht Hdir _ _ His. apply wp_dset.
  specialize (Ht _ E3). specialize (Hdir _ E2). rewrite Eint in Ht. simpl in Ht. rewrite Ein in Hdir.
  simpl. rewrite Ht in His. destruct His as (Hp0 & e1 & He1' & Ht1 & Hm1 & Hdev1).
  rewrite He' in He1'. injection He1' as <-.
  apply (HQ f (search_rest b DESCRIPTOR_ENDPOINT l)); [done| | |done|done].
  - right. split; [done|]. by exists ep.
  - eapply searching_device; [by eapply searching_extends|]. simpl. by rewrite io_function_endpoint.
Qed.

Lemma wp_interface_message k b o l d x h t q v data (Q : Z → Input D E * H → Prop) :
  searching (S k) b o l d x h → Z.of_nat (length data) < 65536 → truthy (Z.land t REQUEST_IN) = false →
  (∀ r num h', r = -1 ∨ (if decide (data = []) then r = 8 else 0 <= r <= Z.of_nat (length data)) →
     b !! (o + off_bInterfaceNumber)%nat = Some num →
     bus_get h' = BusDone (ControlOut (m_pEndpoint0 d) t q v num data) r [] :: bus_get h →
     searching k b o l d x h' → host_step h h' → Q r (x, h')) →
  wp (interface_message t q v data) Q (x, h).
Proof.
  intros Hs Hl Ht HQ. pose proof Hs as [Hr Hf Hd [He0 He]]. pose proof Hf as [Hd0 _ _ _ _].
  unfold interface_message. wp_step. apply wp_dget. wp_step. apply wp_USBFunctionGetHost; [done|by exists d|].
  wp_step. eapply wp_USBFunctionGetEndpoint0; [done|done|done|].
  wp_step. unfold USBFunctionGetInterfaceNumber. eapply wp_interface_byte; [exact Hf|unfold off_bInterfaceNumber; lia|].
  intros num Hnum _. eapply (wp_ControlMessageOut k); [done|by split|].
  intros r h' Hr' Hres Hb Hsame.
  assert (host_step h h') as Hst.
  { split; [done|]. by exists [BusDone (ControlOut (m_pEndpoint0 d) t q v num data) r []]. }
  apply (HQ r num); try done. by eapply searching_step.
Qed.

Lemma wp_interface_request k b o l d x h t q v buf (Q : Z * buffer → Input D E * H → Prop) :
  searching (S k) b o l d x h → 0 < Z.of_nat (length buf) < 65536 → truthy (Z.land t REQUEST_IN) = true →
  (∀ r c num h', Forall is_u8 c → (length c <= length buf)%nat → r = -1 ∨ r = Z.of_nat (length c) →
     b !! (o + off_bInterfaceNumber)%nat = Some num →
     bus_get h' = BusDone (ControlIn (m_pEndpoint0 d) t q v num (Z.of_nat (length buf))) r c :: bus_get h →
     searching k b o l d x h' → host_step h h' → Q (r, overwrite 0 (map Some c) buf) (x, h')) →
  wp (interface_request t q v buf) Q (x, h).
Proof.
  intros Hs Hl Ht HQ. pose proof Hs as [Hr Hf Hd [He0 He]]. pose proof Hf as [Hd0 _ _ _ _].
  unfold interface_request. wp_step. apply wp_dget. wp_step. apply wp_USBFunctionGetHost; [done|by exists d|].
  wp_step. eapply wp_USBFunctionGetEndpoint0; [done|done|done|].
  wp_step. unfold USBFunctionGetInterfaceNumber. eapply wp_interface_byte; [exact Hf|unfold off_bInterfaceNumber; lia|].
  intros num Hnum _. eapply (wp_ControlMessageIn k); [done|by split|].
  intros r c h' Hr' Hc Hlc Hres Hb Hsame.
  assert (host_step h h') as Hst.
  { split; [done|]. by exists [BusDone (ControlIn (m_pEndpoint0 d) t q v num (Z.of_nat (length buf))) r c]. }
  apply (HQ r c num); try done. by eapply searching_step.
Qed.

Lemma wp_take_number (Q : Z → Input D E * H → Prop) x h :
  Q (s_nDeviceNumber x) (x <| s_nDeviceNumber := u32 (s_nDeviceNumber x + 1) |>, h) → wp take_number Q (x, h).
Proof. done. Qed.

(** The entry under a name. *)
Definition entry_of (prefix : list Z) (n pThis : Z) : TDeviceInfo :=
  {| pName := prefix ++ numeral false 10 n; pDevice := pThis; bBlockDevice := false |}.

Lemma wp_enter prefix n pThis (Q : unit → Input D E * H → Prop) x h :
  pThis ≠ 0 → s_pThis (names x) ≠ 0 →
  Q tt (x <| names := (names x) <| m_pList := entry_of prefix n pThis :: m_pList (names x) |> |>, h) →
  wp (publish prefix n pThis) Q (x, h).
Proof.
  intros Hp Hs HQ. unfold publish. wp_step. eapply wp_zoom; [done|]. unfold DeviceNameServiceGet.
  wp_step. wp_step. wp_step. apply wp_assert; [by apply negb_true_iff, Z.eqb_neq|]. wp_step.
  eapply wp_zoom; [done|]. unfold DeviceNameServiceAddDevice. wp_step.
  apply wp_assert; [by apply negb_true_iff, Z.eqb_neq|]. wp_step. by destruct x.
Qed.

(** The object of a driver that is configured: its function, the endpoint of
    the reports. *)
Record started (x : Input D E) h (ty : TEndpointType) : Prop := {
  st_device0 : fn_pDevice (io_function (device x)) ≠ 0;
  st_device : is_Some (devices (usb_get h) !! fn_pDevice (io_function (device x)));
  st_endpoint : input_endpoint (usb_get h) (io_endpoint (device x)) ty;
  st_urb : io_urb (device x) ≠ 0
}.

(** Its request is set up and was submitted once after the submissions [l]; the
    host's answer was [ok]. *)
Definition requested (pBuffer n pThis : Z) (routine : TURBCompletionRoutine) (ok : bool)
    (l : list (Z * TUSBRequest * bool)) x h : Prop :=
  let r := pending_request (io_endpoint (device x)) pBuffer n pThis routine in
  urbs (usb_get h) !! io_urb (device x) = Some r ∧
  host_submitted h = (io_urb (device x), r, ok) :: l.

Lemma searching_started k b o l d x h ty :
  searching k b o l d x h → input_endpoint (usb_get h) (io_endpoint (device x)) ty → io_urb (device x) ≠ 0 →
  started x h ty.
Proof. intros [Hr [H0 _ _ _ _] Hd He] Hi Hu. split; [done|by eexists|done|done]. Qed.

Lemma wp_start_request pBuffer n pThis routine ty (Q : bool → Input D E * H → Prop) x h :
  host_accepts h → started x h ty → ty = EndpointTypeBulk ∨ ty = EndpointTypeInterrupt →
  pBuffer ≠ 0 → 0 < n < 2 ^ 31 → routine ≠ NoRoutine →
  (∀ ok h', bus_get h' = bus_get h →
     usb_get h' = upd_urb (io_urb (device x))
       (pending_request (io_endpoint (device x)) pBuffer n pThis routine) (usb_get h) →
     started x h' ty → requested pBuffer n pThis routine ok (host_submitted h) x h' → Q ok (x, h')) →
  wp (start_request (io_endpoint (device x)) pBuffer n pThis routine) Q (x, h).
Proof.
  intros Ha Hst Ht Hb Hn Hrt HQ. pose proof Hst as [Hd0 [d Hd] (He0 & e & He & Hty & _ & Hm & Hdev) Hu]. unfold start_request.
  wp_step. apply wp_assert; [by apply negb_true_iff, Z.eqb_neq|].
  wp_step. apply wp_assert; [by apply negb_true_iff, Z.eqb_neq|].
  wp_step. apply wp_dget. wp_step. unfold USBRequest. wp_step.
  apply wp_assert; [by apply negb_true_iff, Z.eqb_neq|]. wp_step.
  apply wp_assert; [by rewrite (proj2 (Z.eqb_neq _ _) Hb)|]. wp_step.
  wp_step. unfold USBRequestSetCompletionRoutine. cbv zeta. wp_step.
  apply wp_assert; [simpl; by rewrite bool_decide_eq_false_2|]. wp_step.
  set (r := pending_request (io_endpoint (device x)) pBuffer n pThis routine).
  wp_step. unfold urb_set. wp_step. cbn [usb_get usb_put host_usb prod_host prod_usb fst snd].
  set (h1 := usb_put (upd_urb _ _ _) h). assert (usb_get h1 = upd_urb (io_urb (device x)) r (usb_get h)) as E1
    by apply usb_get_put.
  wp_step. apply wp_dget. wp_step. apply wp_USBFunctionGetHost; [done|rewrite E1; by exists d|].
  eapply wp_zoom; [done|]. cbn [fst snd].
  eapply wp_mono; [apply (host_submit_ok _ r)|].
  - by apply host_accepts_urbs.
  - exact Hu.
  - rewrite E1. apply lookup_insert_eq.
  - rewrite E1. split; try done. by exists e; split; [done|]; rewrite Hty.
  - intros ok h' (Hb' & Hu' & Hp').
    assert (usb_get h' = upd_urb (io_urb (device x)) r (usb_get h)) as Eu.
    { rewrite Hu', E1. unfold upd_urb, upd. simpl. by rewrite insert_insert_eq. }
    apply HQ; [rewrite Hb'; apply bus_get_usb|exact Eu| |].
    + destruct Hst as [S1 S2 S3 S4]. split; [done|by rewrite Eu| |done]. by rewrite Eu.
    + split; [rewrite Eu; apply lookup_insert_eq|]. cbv zeta. rewrite Hp'. unfold h1. by rewrite host_submitted_usb.
Qed.

Lemma wp_finish_request r (Q : unit → Input D E * H → Prop) x h :
  urbs (usb_get h) !! io_urb (device x) = Some r →
  Q tt (x, usb_put (upd_urb (io_urb (device x)) (_USBRequest r) (usb_get h)) h) → wp finish_request Q (x, h).
Proof.
  intros Hr HQ. unfold finish_request. wp_step. apply wp_dget. wp_step. eapply wp_urb_at; [exact Hr|].
  unfold urb_set. by wp_step.
Qed.

(** HID descriptors among those at [l] have their nine bytes. *)
Definition hid_sizes (b : list Z) (l : list nat) : Prop :=
  ∀ pos, pos ∈ l → b !! (pos + 1)%nat = Some DESCRIPTOR_HID → (pos + 9 <= length b)%nat.

Lemma wp_hid_report_length b l o f pos (Q : Z → Input D E * H → Prop) s :
  function_ok b l o f → (pos + 9 <= length b)%nat →
  (∀ v, is_u16 v → b !! (pos + 7)%nat = Some (v mod 256) → b !! (pos + 8)%nat = Some (v / 256) → Q v s) →
  wp (hid_report_length f pos) Q s.
Proof.
  intros [_ Hu _ _ (p & Hp & (Hb & _) & _)] Hl HQ. unfold hid_report_length.
  wp_step. eapply wp_parser_of; [done|]. wp_step. apply wp_on_parser.
  destruct (lookup_lt_is_Some_2 b (pos + 7)) as [v7 E7]; [lia|].
  destruct (lookup_lt_is_Some_2 b (pos + 8)) as [v8 E8]; [lia|].
  pose proof (Forall_lookup_1 _ _ _ _ Hu E7) as H7. pose proof (Forall_lookup_1 _ _ _ _ Hu E8) as H8.
  wp_step. eapply (wp_byte_at b); [done|exact E7|]. wp_step. eapply (wp_byte_at b); [done|exact E8|].
  wp_step. wp_step. apply HQ; [cint|rewrite E7; f_equal; cint|rewrite E8; f_equal; cint].
Qed.

Lemma wp_hid_report_type b l o f pos (Q : Z → Input D E * H → Prop) s :
  function_ok b l o f → (pos + 9 <= length b)%nat →
  (∀ v, is_u8 v → b !! (pos + 6)%nat = Some v → Q v s) → wp (hid_report_type f pos) Q s.
Proof.
  intros [_ Hu _ _ (p & Hp & (Hb & _) & _)] Hl HQ. unfold hid_report_type.
  wp_step. eapply wp_parser_of; [done|]. wp_step. apply wp_on_parser.
  destruct (lookup_lt_is_Some_2 b (pos + 6)) as [v Ev]; [lia|].
  eapply (wp_byte_at b); [done|exact Ev|]. wp_step. apply HQ; [by eapply Forall_lookup_1|done].
Qed.

(** Looking for the HID descriptor. *)
Lemma wp_find_hid {A} (K : option nat → M (Input D E * H) A) k b l o d x h (Q : A → Input D E * H → Prop) :
  searching k b o l d x h → hid_sizes b l →
  (∀ r f, fn_pDevice f = fn_pDevice (io_function (device x)) →
     searching k b o (search_rest b DESCRIPTOR_HID l) d (x <| device := io_set_function f (device x) |>) h →
     (∀ pos, r = Some pos → (pos + 9 <= length b)%nat ∧
        (b !! (pos + 7)%nat ≠ Some 0 ∨ b !! (pos + 8)%nat ≠ Some 0) ∧
        pos ∈ l ∧ b !! (pos + 1)%nat = Some DESCRIPTOR_HID) →
     wp (K r) Q (x <| device := io_set_function f (device x) |>, h)) →
  wp (hid ← next_descriptor DESCRIPTOR_HID; r ← hid_usable hid; K r) Q (x, h).
Proof.
  intros Hs Hh HQ. wp_step. eapply wp_next_descriptor; [exact Hs|].
  intros r f [e Er] Hfd Hs1 Hfound. pose proof Hs1 as [_ Hf1 _ _].
  wp_step. destruct r as [pos|]; simpl; [|wp_step; by apply HQ].
  destruct (Hfound pos eq_refl) as (Hty & _).
  assert (pos ∈ l) as Hpos by (eapply search_elem; by symmetry). pose proof (Hh pos Hpos Hty) as Hlen.
  wp_step. apply wp_dget. wp_step. eapply wp_hid_report_length; [exact Hf1|exact Hlen|].
  intros v Hv E7 E8. wp_step. apply HQ; [done|done|]. intros q. destruct (Z.eqb_spec v 0); [done|].
  intros [= <-]. rewrite E7, E8. unfold is_u16 in Hv.
  split; [done|]. split; [|done]. destruct (decide (v mod 256 = 0)); [right|left]; intros [= ?]; lia.
Qed.

(** ** The outcome of configuring *)

(** The object is in the name service, under the next name. *)
Definition enrolled (prefix : list Z) (pThis : Z) x x' : Prop :=
  s_nDeviceNumber x' = u32 (s_nDeviceNumber x + 1) ∧
  names x' = (names x) <| m_pList := entry_of prefix (s_nDeviceNumber x) pThis :: m_pList (names x) |>.

(** The end of a completion: the request is set up again. *)
Lemma wp_finish_then {A} (m : M (Input D E * H) A) r x h ty (Q : A → Input D E * H → Prop) :
  host_accepts h → started x h ty → urbs (usb_get h) !! io_urb (device x) = Some r →
  (∀ h', host_accepts h' → started x h' ty → bus_get h' = bus_get h → host_submitted h' = host_submitted h →
     wp m Q (x, h')) →
  wp (finish_request ;; m) Q (x, h).
Proof.
  intros Ha [S1 S2 S3 S4] Hr HQ. wp_step. eapply wp_finish_request; [exact Hr|].
  apply HQ; [by apply host_accepts_urbs| |apply bus_get_usb|apply host_submitted_usb].
  split; rewrite ?usb_get_put; done.
Qed.

(** Nothing was entered, or the driver runs. *)
Definition driver_outcome (prefix : list Z) (pBuffer n pThis : Z) (routine : TURBCompletionRoutine)
    (ty : TEndpointType) (ok : bool) x x' h' : Prop :=
  calls x' = calls x ∧
  (ok = false ∧ names x' = names x ∧ s_nDeviceNumber x' = s_nDeviceNumber x ∨
   enrolled prefix pThis x x' ∧ started x' h' ty ∧ ∃ l, requested pBuffer n pThis routine ok l x' h').
End Lemmas.

(** ** The oracle's bus with asynchronous requests

    The list is that of the submissions. Witnesses run on it. *)
Abbreviation AsyncBus := (list (Z * TUSBRequest * bool) * Bus)%type.
#[export] Instance Bus_async `{Oracle} : AsyncHost AsyncBus :=
  {| host_submit p :=
       r ← urb_at p;
       urb_set p (r <| m_bStatus := 0 |>) ;;
       modify (λ s, ((p, r, true) :: fst s, snd s)) ;; mret true;
     host_accepts _ := True; host_submitted := fst |}.
#[export] Instance Bus_async_laws `{OracleLaws} : AsyncHostLaws AsyncBus.
Proof.
  split; try done. intros p r s _ _ Hr _. simpl. wp_step. eapply wp_urb_at; [exact Hr|].
  wp_step. unfold urb_set. wp_step. wp_step. wp_step. wp_step. by destruct s as [l []].
Qed.

(** ** A device for the witnesses

    The configuration of [ConfigDemo] and a device that answers every control
    message completely, with zeros. *)
Module InputDemo.
Definition config : list Z := ConfigDemo.keyboard.

#[export] Instance willing : Oracle := {| respond h op :=
  match op with
  | BulkOut _ l => (Z.of_nat (length l), [])
  | BulkIn _ n => (n, replicate (Z.to_nat n) 0)
  | ControlOut _ _ _ _ _ l => (if decide (l = []) then 8 else Z.of_nat (length l), [])
  | ControlIn _ _ _ _ _ n => (n, replicate (Z.to_nat n) 0)
  end |}.
#[export] Instance willing_laws : OracleLaws.
Proof.
  assert (∀ n, Forall is_u8 (replicate n 0)) as Hz.
  { intros n. apply Forall_replicate. unfold is_u8. lia. }
  intros h op Hl. destruct op as [p l|p n|p t q v i l|p t q v i n]; simpl in Hl |- *;
    unfold result_ok; simpl; rewrite ?length_replicate.
  - split_and!; try done. lia.
  - split_and!; [done|lia|lia].
  - split_and!; try done. right. destruct (decide (l = [])); lia.
  - split_and!; [done|lia|lia].
Qed.

(** The function behind its interface descriptor. *)
Definition function : TUSBFunction :=
  {| Configure := NoConfigure; fn_pDevice := 1;
     fn_pConfigParser := Some {| cp_pBuffer := Some config; cp_nBufLen := 34; m_bValid := true;
       m_pEndPosition := 34; m_pNextPosition := 18; m_pCurrentDescriptor := Some 9%nat;
       m_pErrorPosition := 0 |};
     m_pInterfaceDesc := Some 9%nat |}.

Lemma chain_behind : chain config 34 4 false 18 [18%nat; 27%nat].
Proof.
  eapply chain_step; [lia|reflexivity|vm_compute; lia|].
  eapply chain_step; [vm_compute; lia|reflexivity|vm_compute; lia|]. constructor.
Qed.

Lemma function_fine : function_ok config [18%nat; 27%nat] 9 function.
Proof.
  split; [done|exact ConfigDemo.keyboard_bytes|done|vm_compute; lia|].
  eexists. split; [reflexivity|]. split; [|vm_compute; lia].
  split; [done|]. split; [done|]. exists 4, false. exact chain_behind.
Qed.

Lemma sizes : packet_sizes config [18%nat; 27%nat].
Proof.
  intros pos Hpos Hty. apply elem_of_cons in Hpos as [->|Hpos]; [by vm_compute in Hty|].
  apply list_elem_of_singleton in Hpos as ->. by left.
Qed.
Lemma hid_fits : hid_sizes config [18%nat; 27%nat].
Proof.
  intros pos Hpos Hty. apply elem_of_cons in Hpos as [->|Hpos]; [vm_compute; lia|].
  apply list_elem_of_singleton in Hpos as ->. by vm_compute in Hty.
Qed.

Definition ep (n : Z) (ty : TEndpointType) (pid : TUSBPID) : TUSBEndpoint :=
  {| m_pDevice := 1; m_ucNumber := n; m_Type := ty; m_bDirectionIn := true;
     m_nMaxPacketSize := 8; m_nInterval := 10; m_NextPID := pid |}.
Definition dev : TUSBDevice :=
  {| m_ucAddress := 5; m_Speed := USBSpeedFull; m_pEndpoint0 := 16; m_bSplitTransfer := false;
     m_ucHubAddress := 0; m_ucHubPortNumber := 1 |}.

(** Before and after configuring: with the endpoint 17 and the request 32. *)
Definition objects (rs : gmap Z TUSBRequest) : Usb :=
  {| devices := {[ 1 := dev ]};
     endpoints := <[16 := ep 0 EndpointTypeControl USBPIDSetup]> {[ 17 := ep 1 EndpointTypeInterrupt USBPIDData0 ]};
     urbs := rs |}.
Definition bus (rs : gmap Z TUSBRequest) : AsyncBus := ([], {| bw_usb := objects rs; bw_events := [] |}).

Lemma willing_ready `{Oracle} k rs : host_ready k (bus rs).
Proof.
  split; [done|]. split; [done|]. intros p e Hp Ht. simpl in Hp.
  apply lookup_insert_Some in Hp as [[<- <-]|[_ Hp]]; [split; [done|]; split; [simpl; lia|done]|].
  apply lookup_singleton_Some in Hp as [<- <-]. by destruct Ht.
Qed.

Section Object.
Context {D E : Type} `{!InputObject D}.
Definition input (d : D) : Input D E :=
  {| device := d; s_nDeviceNumber := 1; names := {| m_pList := []; s_pThis := 8 |}; calls := [] |}.

Lemma input_searching `{Oracle} k d rs : io_function d = function →
  searching k config 9 [18%nat; 27%nat] dev (input d) (bus rs).
Proof.
  intros Hf. split; [apply willing_ready|..]; simpl; rewrite ?Hf; [exact function_fine|done|].
  split; [done|]. eexists. split; [reflexivity|]. split; [done|]. split; [simpl; lia|by eexists].
Qed.

Lemma input_started `{Oracle} d rs : io_function d = function → io_endpoint d = 17 → io_urb d ≠ 0 →
  started (input d) (bus rs) EndpointTypeInterrupt.
Proof.
  intros Hf He Hu. split; simpl; rewrite ?Hf, ?He; [done|by eexists| |done].
  split; [done|]. eexists. split; [reflexivity|]. split; [done|]. split; [done|]. split; [simpl; lia|by eexists].
Qed.
End Object.
End InputDemo.
