(* ===== verification/EndpointPair.v ===== *)
(** * Drivers with an endpoint in each direction

    The gamepad and the network adapters look through the descriptors of their
    interface for the endpoints of one type: the first in each direction is
    taken, a second one is an error. This file has the loop and what it does. *)
From S2P Require Import Prelude Endpoint ConfigParser UsbBus UsbFunction InputDriver.

(** The endpoint of the other direction. *)
Class PairObject (D : Type) := {
  po_out : D → Z;
  po_set_out : Z → D → D
}.
Class PairObjectLaws (D : Type) `{!InputObject D} `{!PairObject D} := {
  po_input :: InputObjectLaws D;
  po_function_out p (d : D) : io_function (po_set_out p d) = io_function d;
  po_endpoint_out p (d : D) : io_endpoint (po_set_out p d) = io_endpoint d;
  po_out_function f (d : D) : po_out (io_set_function f d) = po_out d;
  po_out_endpoint p (d : D) : po_out (io_set_endpoint p d) = po_out d;
  po_out_set p (d : D) : po_out (po_set_out p d) = p;
  po_function_same (d : D) : io_set_function (io_function d) d = d;
  po_out_same (d : D) : po_set_out (po_out d) d = d;
  po_endpoint_twice p q (d : D) : io_set_endpoint p (io_set_endpoint q d) = io_set_endpoint p d;
  po_out_twice p q (d : D) : po_set_out p (po_set_out q d) = po_set_out p d;
  po_endpoint_function f p (d : D) : io_set_function f (io_set_endpoint p d) = io_set_endpoint p (io_set_function f d);
  po_out_function_comm f p (d : D) : io_set_function f (po_set_out p d) = po_set_out p (io_set_function f d);
  po_out_endpoint_comm p q (d : D) : io_set_endpoint p (po_set_out q d) = po_set_out q (io_set_endpoint p d)
}.

Section Loop.
Context {D E H : Type} `{!InputObject D} `{!PairObject D} `{!UsbHost H}.
Abbreviation W := (Input D E * H)%type.

(** [attributes]: the type of the endpoints. [false] for a second one of a
    direction. Every turn passes a descriptor, so the bytes of the configuration
    are enough fuel. *)
Fixpoint pair_endpoint_loop (attributes : Z) (fuel : nat) : M W bool :=
  match fuel with
  | O => fail OutOfFuel
  | S fuel =>
      o ← next_descriptor DESCRIPTOR_ENDPOINT;
      match o with
      | None => mret true
      | Some o =>
          f ← dget io_function;
          desc ← endpoint_descriptor f o;
          if Z.land (bmAttributes desc) 0x3F =? attributes then
            if Z.land (bEndpointAddress desc) 0x80 =? 0x80 then
              p ← dget io_endpoint;
              if negb (p =? 0) then USBFunctionConfigurationError f ;; mret false
              else
                p ← endpoint_from f o;
                dset (io_set_endpoint p) ;; pair_endpoint_loop attributes fuel
            else
              p ← dget po_out;
              if negb (p =? 0) then USBFunctionConfigurationError f ;; mret false
              else
                p ← endpoint_from f o;
                dset (po_set_out p) ;; pair_endpoint_loop attributes fuel
          else pair_endpoint_loop attributes fuel
      end
  end.
End Loop.

(** ** What the loop does *)

(** An endpoint of a type and a direction. *)
Definition directed_endpoint (u : Usb) (p : Z) (ty : TEndpointType) (dir : bool) : Prop :=
  p ≠ 0 ∧ ∃ e, endpoints u !! p = Some e ∧ m_Type e = ty ∧ m_bDirectionIn e = dir ∧
    0 < m_nMaxPacketSize e < 65536 ∧ is_Some (devices u !! m_pDevice e).

Lemma directed_extends u u' p ty dir :
  extends u u' → directed_endpoint u p ty dir → directed_endpoint u' p ty dir.
Proof.
  intros [Hd Hx] (H0 & e & He & Ht & Hi & Hm & Hdev). split; [done|]. exists e. split; [by apply Hx|]. by rewrite Hd.
Qed.
Lemma directed_same u u' p ty dir :
  same_but_pid u u' → directed_endpoint u p ty dir → directed_endpoint u' p ty dir.
Proof.
  intros [Hd Hs] (H0 & e & He & Ht & Hi & Hm & Hdev). split; [done|]. specialize (Hs p). rewrite He in Hs.
  destruct (endpoints u' !! p) as [e'|]; [|done]. exists e'. rewrite Hd. destruct Hs as [<- _]. done.
Qed.

(** The two types of endpoints that drivers look for. *)
Definition attributes_of (ty : TEndpointType) : option Z :=
  match ty with EndpointTypeBulk => Some 2 | EndpointTypeInterrupt => Some 3 | _ => None end.

Section Lemmas.
Context {D E H : Type} `{!InputObject D} `{!PairObject D} `{!PairObjectLaws D}.
Context `{!UsbHost H} `{!UsbHostLaws H} `{!UsbHostRecovers H}.
Implicit Types (x : Input D E) (h : H).

(** The search changes the function and the endpoints. *)
Definition same_pair x x' : Prop := ∃ f i o,
  fn_pDevice f = fn_pDevice (io_function (device x)) ∧
  x' = x <| device := po_set_out o (io_set_endpoint i (io_set_function f (device x))) |>.

Lemma same_pair_refl x : same_pair x x.
Proof.
  exists (io_function (device x)), (io_endpoint (device x)), (po_out (device x)). split; [done|].
  rewrite po_function_same, io_set_endpoint_same, po_out_same. by destruct x.
Qed.
Lemma same_pair_trans x1 x2 x3 : same_pair x1 x2 → same_pair x2 x3 → same_pair x1 x3.
Proof.
  intros (f & i & o & E1 & ->) (f' & i' & o' & E2 & ->). exists f', i', o'. simpl in *.
  rewrite po_function_out, io_function_endpoint, io_function_set in E2. split; [congruence|].
  by rewrite po_out_function_comm, po_endpoint_function, io_set_function_twice, po_out_endpoint_comm,
    po_endpoint_twice, po_out_twice.
Qed.

(** No endpoint of a direction yet, or one of the type. *)
Definition in_found ty x h : Prop :=
  io_endpoint (device x) = 0 ∨ directed_endpoint (usb_get h) (io_endpoint (device x)) ty true.
Definition out_found ty x h : Prop :=
  po_out (device x) = 0 ∨ directed_endpoint (usb_get h) (po_out (device x)) ty false.

(** How the search leaves object and host. *)
Record searched ty x h x' h' : Prop := {
  sd_same : same_pair x x';
  sd_in : in_found ty x h → in_found ty x' h';
  sd_out : out_found ty x h → out_found ty x' h';
  sd_extends : extends (usb_get h) (usb_get h');
  sd_bus : bus_get h' = bus_get h
}.

Lemma searched_trans ty x1 h1 x2 h2 x3 h3 :
  searched ty x1 h1 x2 h2 → searched ty x2 h2 x3 h3 → searched ty x1 h1 x3 h3.
Proof.
  intros [A1 A2 A3 A4 A5] [B1 B2 B3 B4 B5].
  split; [by eapply same_pair_trans|auto|auto|by eapply extends_trans|congruence].
Qed.

Lemma searched_function ty x h f : fn_pDevice f = fn_pDevice (io_function (device x)) →
  searched ty x h (x <| device := io_set_function f (device x) |>) h.
Proof.
  intros Hf. split; [|by unfold in_found; simpl; rewrite io_endpoint_function
    |by unfold out_found; simpl; rewrite po_out_function|apply extends_refl|done].
  exists f, (io_endpoint (device x)), (po_out (device x)). split; [done|].
  pose proof (io_set_endpoint_same (io_set_function f (device x))) as E1. rewrite io_endpoint_function in E1.
  pose proof (po_out_same (io_set_function f (device x))) as E2. rewrite po_out_function in E2.
  by rewrite E1, E2.
Qed.

(** A found endpoint is entered in its direction. *)
Lemma searched_take ty dir p x h h' :
  extends (usb_get h) (usb_get h') → bus_get h' = bus_get h →
  directed_endpoint (usb_get h') p ty dir →
  searched ty x h (x <| device := (if dir then io_set_endpoint p else po_set_out p) (device x) |>) h'.
Proof.
  intros Hx Hb Hp. split; [| | |done|done].
  - destruct dir; [exists (io_function (device x)), p, (po_out (device x))
                  |exists (io_function (device x)), (io_endpoint (device x)), p]; (split; [done|]).
    + pose proof (po_out_same (io_set_endpoint p (device x))) as E2. rewrite po_out_endpoint in E2.
      by rewrite po_function_same, E2.
    + by rewrite po_function_same, io_set_endpoint_same.
  - unfold in_found. simpl. destruct dir; [rewrite io_endpoint_set; by right|rewrite po_endpoint_out].
    intros [?|?]; [by left|right; by eapply directed_extends].
  - unfold out_found. simpl. destruct dir; [rewrite po_out_endpoint|rewrite po_out_set; by right].
    intros [?|?]; [by left|right; by eapply directed_extends].
Qed.

Lemma wp_pair_endpoint_loop ty a k b o d fuel l x h (Q : bool → Input D E * H → Prop) :
  attributes_of ty = Some a → searching k b o l d x h → packet_sizes b l → (length l < fuel)%nat →
  (∀ ok l' x' h', searching k b o l' d x' h' → searched ty x h x' h' → Q ok (x', h')) →
  wp (pair_endpoint_loop a fuel) Q (x, h).
Proof.
  intros Ha. revert l x h. induction fuel as [|fuel IH]; intros l x h Hc Hps Hl HQ; [lia|].
  cbn [pair_endpoint_loop]. wp_step. eapply wp_next_descriptor; [exact Hc|].
  intros r f [e Er] Hfd Hc1 Hfound. pose proof (searched_function ty x h f Hfd) as Hs1.
  set (x1 := x <| device := _ |>) in *.
  destruct r as [pos|]; [|wp_step; by eapply HQ].
  destruct (Hfound pos eq_refl) as (Hty & len & Hlen & (_ & _ & Hsz) & Hfit). specialize (Hsz eq_refl).
  assert (pos ∈ l) as Hpos by (eapply search_elem; by symmetry).
  pose proof (search_rest_shorter _ _ _ _ _ (eq_sym Er)) as Hshort.
  pose proof Hc1 as [Hr1 Hf1 Hd1 He1].
  wp_step. apply wp_dget. wp_step. eapply wp_endpoint_descriptor; [exact Hf1|destruct Hsz; lia|].
  intros desc E0 E1 E2 E3 _ _ _ _.
  assert (∀ x2 h2, searching k b o (search_rest b DESCRIPTOR_ENDPOINT l) d x2 h2 → searched ty x h x2 h2 →
    wp (pair_endpoint_loop a fuel) Q (x2, h2)) as Hrec.
  { intros x2 h2 Hc2 Hs2. eapply IH; [exact Hc2|by apply packet_sizes_rest|lia|].
    intros ok l' x' h' H1 H2. eapply HQ; [exact H1|by eapply searched_trans]. }
  destruct (Z.eqb_spec (Z.land (bmAttributes desc) 0x3F) a) as [Hat|]; [|by apply Hrec].
  assert (∀ v, b !! (pos + 3)%nat = Some v → Z.land v 3 = a) as Hland.
  { intros v Hv. rewrite E3 in Hv. injection Hv as <-.
    destruct ty; try discriminate Ha; injection Ha as <-; [by apply land_bulk|by apply land_interrupt]. }
  assert (∀ dir, truthy (Z.land (bEndpointAddress desc) 0x80) = dir →
    wp (p ← endpoint_from (io_function (device x1)) pos; dset (if dir then io_set_endpoint p else po_set_out p) ;; pair_endpoint_loop a fuel)
      Q (x1, h)) as Htake.
  { intros dir Hdir. wp_step.
    eapply (wp_endpoint_from k b _ o pos); [exact Hr1|exact Hf1|by eexists|destruct Hsz; lia| |done|by apply Hps| |].
    { destruct Hsz; subst; auto. }
    { intros v Hv%Hland. rewrite Hv. destruct ty; try discriminate Ha; injection Ha as <-; auto. }
    intros p h' ep Hp Hr' Hx Hb He' Ht Hdi _ _ (_ & e1 & He1' & Ht1 & Hm1 & Hdev1). wp_step. apply wp_dset.
    specialize (Ht _ E3). specialize (Hdi _ E2). rewrite (Hland _ E3) in Ht.
    rewrite He' in He1'. injection He1' as <-.
    assert (directed_endpoint (usb_get h') p ty dir) as Hde.
    { split; [done|]. exists ep. split; [exact He'|]. split; [|split; [congruence|done]].
      rewrite Ht. destruct ty; try discriminate Ha; by injection Ha as <-. }
    pose proof (searched_take ty dir p x1 h h' Hx Hb Hde) as Hst.
    apply Hrec; [|by eapply searched_trans].
    eapply searching_device; [by eapply searching_extends|].
    simpl. destruct dir; [apply io_function_endpoint|apply po_function_out]. }
  assert (wp (USBFunctionConfigurationError (io_function (device x1)) ;; mret false) Q (x1, h)) as Hno.
  { wp_step. eapply wp_ConfigurationError; [exact Hf1|]. wp_step. by eapply HQ. }
  destruct (Z.eqb_spec (Z.land (bEndpointAddress desc) 0x80) 0x80) as [Hdi|Hdi].
  - wp_step. apply wp_dget. destruct (negb _); [exact Hno|]. apply (Htake true). by rewrite Hdi.
  - wp_step. apply wp_dget. destruct (negb _); [exact Hno|]. apply (Htake false).
    apply truthy_false. replace 0x80 with (Z.shiftl 1 7) in * by done.
    pose proof (truthy_bit (bEndpointAddress desc) 7 ltac:(lia)) as Hb.
    destruct (Z.testbit (bEndpointAddress desc) 7) eqn:Et; [|by apply truthy_false in Hb].
    exfalso. apply Hdi. apply Z.bits_inj'. intros i Hi. rewrite Z.land_spec.
    destruct (Z.eqb_spec i 7) as [->|]; [by rewrite Et|].
    replace (Z.testbit (Z.shiftl 1 7) i) with false; [apply andb_false_r|].
    symmetry. rewrite Z.shiftl_spec by lia. destruct (Z.ltb_spec i 7); [by rewrite Z.testbit_neg_r by lia|].
    apply Z.bits_above_log2; simpl; lia.
Qed.
End Lemmas.
