(* ===== verification/UsbMouse.v ===== *)
(** * lib/usbmouse.c: the mouse

    The boot protocol: reports of three bytes, the buttons and the two
    displacements. *)
From S2P Require Import Prelude CMem Util CString Endpoint ConfigParser DeviceName.
From S2P Require Import UsbBus UsbFunction InputDriver.
Import Names.

Definition MOUSE_BOOT_REPORT_SIZE : Z := 3.

(** The status handler's call: the handler and its arguments. *)
Inductive mouse_call :=
  | MouseStatus (pStatusHandler nButtons nDisplacementX nDisplacementY : Z).

(** [m_URB] is the address of the member; [mouse_report] are the bytes at
    [m_pReportBuffer]. The length is not initialised by the constructor. *)
Record TUSBMouseDevice := {
  m_USBFunction : TUSBFunction;
  m_pReportEndpoint : Z;
  m_pStatusHandler : Z;
  m_usReportDescriptorLength : option Z;
  m_pHIDReportDescriptor : option buffer;
  m_URB : Z;
  m_pReportBuffer : Z;
  mouse_report : buffer
}.
#[global] Instance TUSBMouseDevice_eta : Eta TUSBMouseDevice := λ r,
  {| m_USBFunction := m_USBFunction r; m_pReportEndpoint := m_pReportEndpoint r;
     m_pStatusHandler := m_pStatusHandler r;
     m_usReportDescriptorLength := m_usReportDescriptorLength r;
     m_pHIDReportDescriptor := m_pHIDReportDescriptor r; m_URB := m_URB r;
     m_pReportBuffer := m_pReportBuffer r; mouse_report := mouse_report r |}.

#[export] Instance mouse_object : InputObject TUSBMouseDevice :=
  {| io_function := m_USBFunction; io_set_function f m := m <| m_USBFunction := f |>;
     io_endpoint := m_pReportEndpoint; io_set_endpoint p m := m <| m_pReportEndpoint := p |>;
     io_urb := m_URB |}.
#[export] Instance mouse_object_laws : InputObjectLaws TUSBMouseDevice.
Proof. split; try done. by intros []. Qed.

Section Mouse.
Context {H : Type} `{!UsbHost H} `{!AsyncHost H}.
Abbreviation W := (Input TUSBMouseDevice mouse_call * H)%type.

(** [pReportBuffer]: what [malloc] returns; [URB]: the address of the member. *)
Definition USBMouseDevice (pDevice : TUSBFunction) (URB pReportBuffer : Z) : M W TUSBMouseDevice :=
  f ← USBFunctionCopy pDevice;
  c_assert (negb (pReportBuffer =? 0)) ;;
  mret {| m_USBFunction := f <| Configure := USBMouseDeviceConfigure_ |>;
          m_pReportEndpoint := 0; m_pStatusHandler := 0; m_usReportDescriptorLength := None;
          m_pHIDReportDescriptor := None; m_URB := URB; m_pReportBuffer := pReportBuffer;
          mouse_report := blank MOUSE_BOOT_REPORT_SIZE |}.

Definition _CUSBMouseDevice : M W unit :=
  dset (λ m, m <| m_pHIDReportDescriptor := None |> <| m_pReportBuffer := 0 |>) ;;
  p ← dget m_pReportEndpoint;
  (if negb (p =? 0) then free_endpoint p ;; dset (λ m, m <| m_pReportEndpoint := 0 |>) else mret tt) ;;
  f ← dget m_USBFunction;
  f ← _USBFunction f;
  dset (λ m, m <| m_USBFunction := f |>).

(** The routine given to the host. *)
Definition USBMouseDeviceCompletionRoutine_ : TURBCompletionRoutine := ClientRoutine 2.

Definition USBMouseDeviceStartRequest (pThis : Z) : M W bool :=
  p ← dget m_pReportEndpoint;
  b ← dget m_pReportBuffer;
  start_request p b MOUSE_BOOT_REPORT_SIZE pThis USBMouseDeviceCompletionRoutine_.

(** "umouse" *)
Definition umouse : list Z := [117; 109; 111; 117; 115; 101].

(** The part behind the endpoint: the report descriptor, the boot protocol. *)
Definition mouse_bring_up (pThis : Z) (hid : nat) : M W bool :=
  f ← dget m_USBFunction;
  len ← hid_report_length f hid;
  dset (λ m, m <| m_usReportDescriptorLength := Some len |> <| m_pHIDReportDescriptor := Some (blank len) |>) ;;
  ty ← hid_report_type f hid;
  '(r, b) ← interface_request (Z.lor REQUEST_IN REQUEST_TO_INTERFACE) GET_DESCRIPTOR
              (Z.lor (Z.shiftl ty 8) DESCRIPTOR_INDEX_DEFAULT) (blank len);
  dset (λ m, m <| m_pHIDReportDescriptor := Some b |>) ;;
  if negb (r =? len) then mret false
  else
    f ← dget m_USBFunction;
    ok ← USBFunctionConfigure f;
    if negb ok then mret false
    else
      r ← interface_message (Z.lor (Z.lor REQUEST_OUT REQUEST_CLASS) REQUEST_TO_INTERFACE)
            SET_PROTOCOL BOOT_PROTOCOL [];
      if r <? 0 then mret false
      else
        n ← take_number;
        publish umouse n pThis ;;
        USBMouseDeviceStartRequest pThis.

Definition USBMouseDeviceConfigure (pThis : Z) : M W bool :=
  f ← dget m_USBFunction;
  n ← USBFunctionGetNumEndpoints f;
  if n <? 1 then USBFunctionConfigurationError f ;; mret false
  else
    hid ← next_descriptor DESCRIPTOR_HID;
    ok ← hid_usable hid;
    match ok with
    | None => f ← dget m_USBFunction; USBFunctionConfigurationError f ;; mret false
    | Some hid =>
        f ← dget m_USBFunction;
        p ← parser_of f;
        report_endpoint_loop (S (m_pEndPosition p)) ;;
        e ← dget m_pReportEndpoint;
        if e =? 0 then f ← dget m_USBFunction; USBFunctionConfigurationError f ;; mret false
        else mouse_bring_up pThis hid
    end.

Definition USBMouseDeviceRegisterStatusHandler (pStatusHandler : Z) : M W unit :=
  c_assert (negb (pStatusHandler =? 0)) ;;
  dset (λ m, m <| m_pStatusHandler := pStatusHandler |>).

(** The handler's call: the first byte, and the others as a [char]. *)
Definition mouse_status : M W unit :=
  h ← dget m_pStatusHandler;
  buf ← dget m_pReportBuffer;
  c_assert (negb (buf =? 0)) ;;
  b ← dget mouse_report;
  b0 ← cell_at b 0; b1 ← cell_at b 1; b2 ← cell_at b 2;
  call (MouseStatus h b0 (uspi_char2int (s8 b1)) (uspi_char2int (s8 b2))).

Definition USBMouseDeviceCompletionRoutine (pURB pThis : Z) : M W unit :=
  c_assert (negb (pThis =? 0)) ;;
  c_assert (negb (pURB =? 0)) ;;
  urb ← dget m_URB;
  c_assert (urb =? pURB) ;;
  r ← urb_at pURB;
  (if truthy (USBRequestGetStatus r) then
     n ← USBRequestGetResultLength r;
     h ← dget m_pStatusHandler;
     if (n =? MOUSE_BOOT_REPORT_SIZE) && negb (h =? 0) then mouse_status else mret tt
   else mret tt) ;;
  finish_request ;;
  USBMouseDeviceStartRequest pThis ;; mret tt.
End Mouse.

Section Proofs.
Context {H : Type} `{!UsbHost H} `{!UsbHostLaws H} `{!UsbHostRecovers H} `{!AsyncHost H} `{!AsyncHostLaws H}.
Implicit Types (x : Input TUSBMouseDevice mouse_call) (h : H).
Abbreviation routine := USBMouseDeviceCompletionRoutine_.

Lemma wp_mouse_start pThis x h (Q : bool → Input TUSBMouseDevice mouse_call * H → Prop) :
  host_accepts h → started x h EndpointTypeInterrupt → m_pReportBuffer (device x) ≠ 0 →
  (∀ ok h', bus_get h' = bus_get h → started x h' EndpointTypeInterrupt →
     requested (m_pReportBuffer (device x)) MOUSE_BOOT_REPORT_SIZE pThis routine ok (host_submitted h) x h' → Q ok (x, h')) →
  wp (USBMouseDeviceStartRequest pThis) Q (x, h).
Proof.
  intros Ha Hs Hb HQ. unfold USBMouseDeviceStartRequest. wp_step. apply wp_dget. wp_step. apply wp_dget.
  change (m_pReportEndpoint (device x)) with (io_endpoint (device x)).
  apply (wp_start_request _ _ _ _ EndpointTypeInterrupt); [done|done|by right|done|done|done|].
  intros ok h' H1 _. by apply HQ.
Qed.

Abbreviation outcome := (λ pThis ok x x' h',
  driver_outcome umouse (m_pReportBuffer (device x)) MOUSE_BOOT_REPORT_SIZE pThis routine
    EndpointTypeInterrupt ok x x' h').

Lemma wp_mouse_bring_up k pThis b o l d pos x h (Q : bool → Input TUSBMouseDevice mouse_call * H → Prop) :
  searching (3 + k) b o l d x h → input_endpoint (usb_get h) (m_pReportEndpoint (device x)) EndpointTypeInterrupt →
  (pos + 9 <= length b)%nat → b !! (pos + 7)%nat ≠ Some 0 ∨ b !! (pos + 8)%nat ≠ Some 0 →
  m_URB (device x) ≠ 0 → m_pReportBuffer (device x) ≠ 0 → pThis ≠ 0 → s_pThis (names x) ≠ 0 →
  (∀ ok x' h', outcome pThis ok x x' h' → Q ok (x', h')) →
  wp (mouse_bring_up pThis pos) Q (x, h).
Proof.
  intros Hs Hi Hpos Hnz Hu Hb Hp Hn HQ. pose proof Hs as [_ Hf _ _].
  unfold mouse_bring_up. wp_step. apply wp_dget. wp_step.
  eapply wp_hid_report_length; [exact Hf|exact Hpos|]. intros len Hlen E7 E8.
  assert (0 < len < 65536) as Hl.
  { rewrite E7, E8 in Hnz. unfold is_u16 in Hlen.
    assert (len ≠ 0); [|lia]. intros ->. by destruct Hnz. }
  wp_step. apply wp_dset. wp_step. eapply wp_hid_report_type; [exact Hf|exact Hpos|]. intros ty _ _.
  wp_step. set (x1 := x <| device := _ |>).
  assert (searching (3 + k) b o l d x1 h) as Hs1 by by apply (searching_device _ _ _ _ _ x).
  eapply (wp_interface_request (2 + k)); [exact Hs1|unfold blank; rewrite length_replicate; lia|done|].
  intros r c num h2 _ _ _ _ _ Hs2 Hst2. wp_step. apply wp_dset. set (x2 := x1 <| device := _ |>).
  assert (searching (2 + k) b o l d x2 h2) as Hs2' by by apply (searching_device _ _ _ _ _ x1).
  assert (∀ h', outcome pThis false x x2 h') as Hno by (intros h'; split; [done|by left]).
  destruct (negb (r =? len)); [wp_step; by apply HQ|].
  wp_step. apply wp_dget. wp_step. pose proof Hs2' as [Hr2 Hf2 Hd2 He2].
  eapply (wp_USBFunctionConfigure (1 + k)); [exact Hr2|exact Hf2|exact Hd2|exact He2|].
  intros ok h3 Hr3 Hst3. destruct ok; cbn [negb]; [|wp_step; by apply HQ].
  assert (searching (1 + k) b o l d x2 h3) as Hs3 by by eapply searching_step.
  wp_step. eapply (wp_interface_message k); [exact Hs3|simpl; lia|done|].
  intros r' num' h4 _ _ _ Hs4 Hst4. destruct (r' <? 0); [wp_step; by apply HQ|].
  wp_step. apply wp_take_number. wp_step. apply wp_enter; [done|exact Hn|].
  set (x3 := _ <| names := _ |>).
  assert (input_endpoint (usb_get h4) (io_endpoint (device x3)) EndpointTypeInterrupt) as Hi4.
  { simpl. do 3 (eapply input_endpoint_same; [by apply Hst2 || by apply Hst3 || by apply Hst4|]). exact Hi. }
  assert (searching k b o l d x3 h4) as Hs4' by by apply (searching_device _ _ _ _ _ x2).
  eapply wp_mouse_start; [eapply host_accepts_ready, Hs4'|by eapply searching_started|done|].
  intros ok h5 _ Hst5 Hreq. apply HQ. split; [done|]. right. split; [by split|]. split; [done|]. by eexists.
Qed.

(** Configuring a mouse ends without a fault after at most three requests,
    whatever the device answers, if the HID descriptor lies in the configuration
    and the endpoints have a packet size. If it succeeds, the mouse is entered
    as "umouse" with its number and waits for the first report on its interrupt
    IN endpoint; no status is reported before. *)
Theorem mouse_configure k pThis b o l d x h :
  searching (3 + k) b o l d x h → packet_sizes b l → hid_sizes b l →
  m_pReportEndpoint (device x) = 0 → m_URB (device x) ≠ 0 → m_pReportBuffer (device x) ≠ 0 →
  pThis ≠ 0 → s_pThis (names x) ≠ 0 →
  wp (USBMouseDeviceConfigure pThis) (λ ok '(x', h'), outcome pThis ok x x' h') (x, h).
Proof.
  intros Hs Hps Hh H0 Hu Hb Hp Hn. pose proof Hs as [_ Hf _ _].
  assert (∀ x' h', names x' = names x → s_nDeviceNumber x' = s_nDeviceNumber x → calls x' = calls x →
    outcome pThis false x x' h') as Hno by (intros x' h' E1 E2 E3; split; [done|by left]).
  unfold USBMouseDeviceConfigure. wp_step. apply wp_dget. wp_step.
  eapply wp_interface_byte; [exact Hf|unfold off_bNumEndpoints; lia|]. intros n _ _.
  destruct (n <? 1); [wp_step; eapply wp_ConfigurationError; [exact Hf|]; wp_step; by apply Hno|].
  eapply wp_find_hid; [exact Hs|exact Hh|]. intros r f Hfd Hs1 Hpos.
  pose proof Hs1 as [_ Hf1 _ _]. pose proof Hf1 as [_ _ _ _ (p1 & Hp1 & (_ & _ & last & audio & Hch) & _)].
  destruct r as [pos|].
  2: { wp_step. apply wp_dget. wp_step. eapply wp_ConfigurationError; [exact Hf1|]. wp_step. by apply Hno. }
  destruct (Hpos pos eq_refl) as (Hpos9 & Hnz & _). wp_step. apply wp_dget. wp_step. eapply wp_parser_of; [exact Hp1|].
  wp_step. eapply (wp_report_endpoint_loop _ b o d _ _ _ _ _ Hs1).
  { intros q Hq. apply Hps. by eapply search_rest_suffix. }
  { simpl. exact H0. }
  { pose proof (chain_length _ _ _ _ _ _ Hch). lia. }
  intros f2 l2 p h2 Hfd2 Hep Hs2 _ _. wp_step. apply wp_dget.
  pose proof Hs2 as [_ Hf2 _ _].
  destruct (Z.eqb_spec (m_pReportEndpoint (device (x <| device := io_set_endpoint p
    (io_set_function f2 (io_set_function f (device x))) |>))) 0) as [E0|E0].
  { simpl in E0 |- *. rewrite E0. simpl. wp_step. apply wp_dget. wp_step.
    eapply wp_ConfigurationError; [exact Hf2|]. wp_step. by apply Hno. }
  simpl in E0 |- *. rewrite (proj2 (Z.eqb_neq _ _) E0). destruct Hep as [|Hep]; [done|].
  eapply (wp_mouse_bring_up k); [exact Hs2|exact Hep|exact Hpos9|exact Hnz|done|done|done|done|].
  intros ok x' h' [Hc Ho]. split; [by rewrite Hc|exact Ho].
Qed.

(** The calls that the completion of request [r] makes, with the report [d]. *)
Definition mouse_events (pStatusHandler : Z) (r : TUSBRequest) (d : list Z) : list mouse_call :=
  match d with
  | [b0; b1; b2] =>
      if truthy (m_bStatus r) && (m_nResultLen r =? 3) && negb (pStatusHandler =? 0)
      then [MouseStatus pStatusHandler b0 (s8 b1) (s8 b2)] else []
  | _ => []
  end.

Lemma char2int_signed v : uspi_char2int (s8 v) = s8 v.
Proof.
  unfold uspi_char2int. assert (s8 v <= 127) by (unfold s8; lia). by rewrite (proj2 (Z.ltb_ge _ _)).
Qed.

(** C20. A completed request: if it succeeded with a whole report, the handler is
    told the buttons and the two displacements as signed numbers, once; after an
    error, a report of another length or without a handler nothing is told. In
    every case the driver asks for the next report, and nothing else changes. *)
Theorem mouse_reports pThis x h r d :
  host_accepts h → started x h EndpointTypeInterrupt → m_pReportBuffer (device x) ≠ 0 → pThis ≠ 0 →
  urbs (usb_get h) !! m_URB (device x) = Some r → mouse_report (device x) = map Some d → length d = 3%nat →
  wp (USBMouseDeviceCompletionRoutine (m_URB (device x)) pThis) (λ _ '(x', h'),
    x' = x <| calls := mouse_events (m_pStatusHandler (device x)) r d ++ calls x |> ∧
    started x' h' EndpointTypeInterrupt ∧ bus_get h' = bus_get h ∧
    ∃ ok, requested (m_pReportBuffer (device x)) MOUSE_BOOT_REPORT_SIZE pThis routine ok (host_submitted h) x' h') (x, h).
Proof.
  intros Ha Hs Hb Hp Hr Hrep Hd. pose proof Hs as [_ _ _ Hu].
  destruct d as [|b0 [|b1 [|b2 [|]]]]; try done.
  assert (∀ x', device x' = device x → wp (finish_request ;; USBMouseDeviceStartRequest pThis ;; mret tt)
    (λ _ '(x2, h'), x2 = x' ∧ started x2 h' EndpointTypeInterrupt ∧ bus_get h' = bus_get h ∧
      ∃ ok, requested (m_pReportBuffer (device x)) MOUSE_BOOT_REPORT_SIZE pThis routine ok (host_submitted h) x2 h') (x', h)) as Hend.
  { intros x' Ex. destruct Hs as [S1 S2 S3 S4]. eapply (wp_finish_then _ r _ _ EndpointTypeInterrupt);
      [done|split; by rewrite Ex|by rewrite Ex|].
    intros h1 Ha1 Hs1 Hb1 Hq1. wp_step. apply wp_mouse_start; [done|done|by rewrite Ex|].
    intros ok h2 E2 Hs2 Hreq. wp_step. split; [done|]. split; [done|]. split; [congruence|].
    exists ok. by rewrite <- Ex, <- Hq1. }
  assert (x <| calls := calls x |> = x) as Hnil by by destruct x.
  unfold USBMouseDeviceCompletionRoutine, USBRequestGetStatus.
  wp_step. apply wp_assert; [by apply negb_true_iff, Z.eqb_neq|].
  wp_step. apply wp_assert; [by apply negb_true_iff, Z.eqb_neq|].
  wp_step. apply wp_dget. wp_step. apply wp_assert; [apply Z.eqb_refl|].
  wp_step. eapply wp_urb_at; [exact Hr|]. unfold mouse_events. wp_step.
  destruct (truthy (m_bStatus r)) eqn:Est; simpl.
  2: { wp_step. rewrite Hnil. by apply (Hend x). }
  wp_step. unfold USBRequestGetResultLength. wp_step. apply wp_assert; [done|]. wp_step.
  wp_step. apply wp_dget. unfold MOUSE_BOOT_REPORT_SIZE at 1.
  destruct ((m_nResultLen r =? 3) && _); [|wp_step; simpl; rewrite Hnil; by apply (Hend x)].
  unfold mouse_status. wp_step. apply wp_dget. wp_step. apply wp_dget. wp_step.
  apply wp_assert; [by apply negb_true_iff, Z.eqb_neq|]. wp_step. apply wp_dget. rewrite Hrep.
  wp_step. eapply wp_cell_at; [done|]. wp_step. eapply wp_cell_at; [done|]. wp_step. eapply wp_cell_at; [done|].
  apply wp_call. rewrite !char2int_signed. by apply (Hend (x <| calls := _ |>)).
Qed.
End Proofs.

Module MouseDemo.
Import InputDemo.
(** A mouse that is configured, with a handler and a report: the left button,
    one to the right, two up. *)
Definition mouse (p : Z) (report : buffer) : TUSBMouseDevice :=
  {| m_USBFunction := InputDemo.function; m_pReportEndpoint := p; m_pStatusHandler := 77;
     m_usReportDescriptorLength := None; m_pHIDReportDescriptor := None; m_URB := 32;
     m_pReportBuffer := 4096; mouse_report := report |}.
Definition completed : TUSBRequest :=
  (pending_request 17 4096 3 64 USBMouseDeviceCompletionRoutine_) <| m_bStatus := 1 |> <| m_nResultLen := 3 |>.

Lemma mouse_searching : searching (E := mouse_call) 3 config 9 [18%nat; 27%nat] dev (input (mouse 0 (blank 3))) (bus ∅).
Proof. by apply input_searching. Qed.
Lemma mouse_started :
  started (E := mouse_call) (input (mouse 17 (map Some [1; 1; 254]))) (bus {[ 32 := completed ]}) EndpointTypeInterrupt.
Proof. by apply input_started. Qed.

Lemma mouse_configure_witness :
  wp (USBMouseDeviceConfigure 64) (λ ok '(x', h'),
    (ok = true ∧ map (λ q, q.1.1) (host_submitted h') = [32]) ∧
    driver_outcome umouse 4096 3 64 USBMouseDeviceCompletionRoutine_ EndpointTypeInterrupt ok
      (input (mouse 0 (blank 3))) x' h') (input (mouse 0 (blank 3)), bus ∅).
Proof.
  eapply wp_mono.
  - apply wp_and with (P := λ ok w, ok = true ∧ map (λ q, q.1.1) (host_submitted (snd w)) = [32]);
      [vm_compute; split; reflexivity|].
    apply (mouse_configure 0 64 config 9 [18%nat; 27%nat] dev (input (mouse 0 (blank 3))) (bus ∅)
      mouse_searching sizes hid_fits eq_refl ltac:(done) ltac:(done) ltac:(done) ltac:(done)).
  - intros ok [x' h'] [H1 H2]. split; [exact H1|exact H2].
Defined.

Lemma mouse_reports_witness :
  wp (USBMouseDeviceCompletionRoutine 32 64) (λ _ '(x', h'), calls x' = [MouseStatus 77 1 1 (-2)])
    (input (mouse 17 (map Some [1; 1; 254])), bus {[ 32 := completed ]}).
Proof.
  eapply wp_mono.
  - apply (mouse_reports 64 (input (mouse 17 (map Some [1; 1; 254]))) (bus {[ 32 := completed ]}) completed
      [1; 1; 254]); [exact I|exact mouse_started|done..].
  - intros _ [x' h'] (-> & _). reflexivity.
Defined.
End MouseDemo.
