(* ===== verification/UsbKeyboard.v ===== *)
(** * lib/usbkeyboard.c: the keyboard

    The boot protocol: reports of eight bytes, the modifiers, a byte that is
    reserved, and up to six keys that are down. *)
From S2P Require Import Prelude Util CString Endpoint ConfigParser DeviceName.
From S2P Require Import UsbBus UsbFunction InputDriver KeyMap.
Import Names.

Definition BOOT_REPORT_SIZE : Z := 8.

(** The calls of the registered handlers, and of the kernel timer. *)
Inductive keyboard_call :=
  | KeyPressed (pHandler : Z) (pString : list Z)
  | SelectConsole (pHandler nConsole : Z)
  | Shutdown (pHandler : Z)
  | KeyStatusRaw (pHandler ucModifiers : Z) (RawKeys : list Z)
  | CancelKernelTimer (hTimer : Z).

(** [m_URB] is the address of the member; [keyboard_report] are the bytes at
    [m_pReportBuffer], [keymap] is the member [m_KeyMap]. *)
Record TUSBKeyboardDevice := {
  m_USBFunction : TUSBFunction;
  m_pReportEndpoint : Z;
  m_pKeyPressedHandler : Z;
  m_pSelectConsoleHandler : Z;
  m_pShutdownHandler : Z;
  m_pKeyStatusHandlerRaw : Z;
  m_URB : Z;
  m_pReportBuffer : Z;
  keyboard_report : buffer;
  m_ucLastPhyCode : Z;
  m_hTimer : Z;
  keymap : TKeyMap;
  m_ucLastLEDStatus : Z
}.
#[global] Instance TUSBKeyboardDevice_eta : Eta TUSBKeyboardDevice := λ r,
  {| m_USBFunction := m_USBFunction r; m_pReportEndpoint := m_pReportEndpoint r;
     m_pKeyPressedHandler := m_pKeyPressedHandler r;
     m_pSelectConsoleHandler := m_pSelectConsoleHandler r;
     m_pShutdownHandler := m_pShutdownHandler r;
     m_pKeyStatusHandlerRaw := m_pKeyStatusHandlerRaw r; m_URB := m_URB r;
     m_pReportBuffer := m_pReportBuffer r; keyboard_report := keyboard_report r;
     m_ucLastPhyCode := m_ucLastPhyCode r; m_hTimer := m_hTimer r; keymap := keymap r;
     m_ucLastLEDStatus := m_ucLastLEDStatus r |}.

#[export] Instance keyboard_object : InputObject TUSBKeyboardDevice :=
  {| io_function := m_USBFunction; io_set_function f m := m <| m_USBFunction := f |>;
     io_endpoint := m_pReportEndpoint; io_set_endpoint p m := m <| m_pReportEndpoint := p |>;
     io_urb := m_URB |}.
#[export] Instance keyboard_object_laws : InputObjectLaws TUSBKeyboardDevice.
Proof. split; try done. by intros []. Qed.

Section Keyboard.
Context {H : Type} `{!UsbHost H} `{!AsyncHost H}.
Abbreviation W := (Input TUSBKeyboardDevice keyboard_call * H)%type.

(** [pReportBuffer]: what [malloc] returns; [URB]: the address of the member. *)
Definition USBKeyboardDevice (pDevice : TUSBFunction) (URB pReportBuffer : Z)
    : M W TUSBKeyboardDevice :=
  f ← USBFunctionCopy pDevice;
  c_assert (negb (pReportBuffer =? 0)) ;;
  mret {| m_USBFunction := f <| Configure := USBKeyboardDeviceConfigure_ |>;
          m_pReportEndpoint := 0; m_pKeyPressedHandler := 0; m_pSelectConsoleHandler := 0;
          m_pShutdownHandler := 0; m_pKeyStatusHandlerRaw := 0; m_URB := URB;
          m_pReportBuffer := pReportBuffer; keyboard_report := blank BOOT_REPORT_SIZE;
          m_ucLastPhyCode := 0; m_hTimer := 0; keymap := KeyMap; m_ucLastLEDStatus := 0 |}.

Definition _CUSBKeyboardDevice : M W unit :=
  dset (λ m, m <| m_pReportBuffer := 0 |>) ;;
  p ← dget m_pReportEndpoint;
  (if negb (p =? 0) then free_endpoint p ;; dset (λ m, m <| m_pReportEndpoint := 0 |>) else mret tt) ;;
  f ← dget m_USBFunction;
  f ← _USBFunction f;
  dset (λ m, m <| m_USBFunction := f |>).

Definition USBKeyboardDeviceCompletionRoutine_ : TURBCompletionRoutine := ClientRoutine 1.

Definition USBKeyboardDeviceStartRequest (pThis : Z) : M W bool :=
  p ← dget m_pReportEndpoint;
  b ← dget m_pReportBuffer;
  start_request p b BOOT_REPORT_SIZE pThis USBKeyboardDeviceCompletionRoutine_.

(** The failure is only logged. *)
Definition USBKeyboardDeviceSetLEDs (ucLEDMask : Z) : M W unit :=
  interface_message (Z.lor (Z.lor REQUEST_OUT REQUEST_CLASS) REQUEST_TO_INTERFACE)
    SET_REPORT (Z.lor (Z.shiftl REPORT_TYPE_OUTPUT 8) 0) [ucLEDMask] ;; mret tt.

(** "ukbd" *)
Definition ukbd : list Z := [117; 107; 98; 100].

Definition keyboard_bring_up (pThis : Z) : M W bool :=
  f ← dget m_USBFunction;
  ok ← USBFunctionConfigure f;
  if negb ok then mret false
  else
    r ← interface_message (Z.lor (Z.lor REQUEST_OUT REQUEST_CLASS) REQUEST_TO_INTERFACE)
          SET_PROTOCOL BOOT_PROTOCOL [];
    if r <? 0 then mret false
    else
      led ← dget m_ucLastLEDStatus;
      USBKeyboardDeviceSetLEDs led ;;
      n ← take_number;
      publish ukbd n pThis ;;
      USBKeyboardDeviceStartRequest pThis.

Definition USBKeyboardDeviceConfigure (pThis : Z) : M W bool :=
  f ← dget m_USBFunction;
  n ← USBFunctionGetNumEndpoints f;
  if n <? 1 then USBFunctionConfigurationError f ;; mret false
  else
    p ← parser_of f;
    report_endpoint_loop (S (m_pEndPosition p)) ;;
    e ← dget m_pReportEndpoint;
    if e =? 0 then f ← dget m_USBFunction; USBFunctionConfigurationError f ;; mret false
    else keyboard_bring_up pThis.

Definition USBKeyboardDeviceRegisterKeyPressedHandler (pKeyPressedHandler : Z) : M W unit :=
  c_assert (negb (pKeyPressedHandler =? 0)) ;;
  dset (λ m, m <| m_pKeyPressedHandler := pKeyPressedHandler |>).
Definition USBKeyboardDeviceRegisterSelectConsoleHandler (pSelectConsoleHandler : Z) : M W unit :=
  c_assert (negb (pSelectConsoleHandler =? 0)) ;;
  dset (λ m, m <| m_pSelectConsoleHandler := pSelectConsoleHandler |>).
Definition USBKeyboardDeviceRegisterShutdownHandler (pShutdownHandler : Z) : M W unit :=
  c_assert (negb (pShutdownHandler =? 0)) ;;
  dset (λ m, m <| m_pShutdownHandler := pShutdownHandler |>).
Definition USBKeyboardDeviceRegisterKeyStatusHandlerRaw (pKeyStatusHandlerRaw : Z) : M W unit :=
  c_assert (negb (pKeyStatusHandlerRaw =? 0)) ;;
  dset (λ m, m <| m_pKeyStatusHandlerRaw := pKeyStatusHandlerRaw |>).

Definition on_keymap {A} (m : M TKeyMap A) : M W A :=
  zoom (λ w, Some (keymap (device (fst w))))
       (λ k w, ((fst w) <| device := (device (fst w)) <| keymap := k |> |>, snd w)) m.

Definition USBKeyboardDeviceUpdateLEDs : M W unit :=
  ucLEDStatus ← on_keymap KeyMapGetLEDStatus;
  l ← dget m_ucLastLEDStatus;
  if negb (ucLEDStatus =? l) then
    USBKeyboardDeviceSetLEDs ucLEDStatus ;;
    dset (λ m, m <| m_ucLastLEDStatus := ucLEDStatus |>)
  else mret tt.

Definition USBKeyboardDeviceGetModifiers : M W Z := b ← dget keyboard_report; cell_at b 0.

(** From the last byte to the third. *)
Fixpoint key_code_loop (b : buffer) (l : list nat) : M W Z :=
  match l with
  | [] => mret 0
  | i :: l => ucKeyCode ← cell_at b i; if negb (ucKeyCode =? 0) then mret ucKeyCode else key_code_loop b l
  end.
Definition USBKeyboardDeviceGetKeyCode : M W Z :=
  b ← dget keyboard_report; key_code_loop b [7; 6; 5; 4; 3; 2]%nat.

Definition USBKeyboardDeviceGenerateKeyEvent (ucPhyCode : Z) : M W unit :=
  ucModifiers ← USBKeyboardDeviceGetModifiers;
  usLogCode ← on_keymap (KeyMapTranslate ucPhyCode ucModifiers);
  if (usLogCode =? ActionSwitchCapsLock) || (usLogCode =? ActionSwitchNumLock)
     || (usLogCode =? ActionSwitchScrollLock) then mret tt
  else if (ActionSelectConsole1 <=? usLogCode) && (usLogCode <=? ActionSelectConsole12) then
    h ← dget m_pSelectConsoleHandler;
    if negb (h =? 0) then
      let nConsole := u32 (usLogCode - ActionSelectConsole1) in
      c_assert (nConsole <? 12) ;;
      call (SelectConsole h nConsole)
    else mret tt
  else if usLogCode =? ActionShutdown then
    h ← dget m_pShutdownHandler;
    if negb (h =? 0) then call (Shutdown h) else mret tt
  else
    pKeyString ← on_keymap (KeyMapGetString usLogCode ucModifiers);
    match pKeyString with
    | None => mret tt
    | Some s =>
        h ← dget m_pKeyPressedHandler;
        if negb (h =? 0) then call (KeyPressed h s) else mret tt
    end.

(** The part for the key handlers: a key is an event when it is another than in
    the last report. *)
Definition cooked_report : M W unit :=
  ucPhyCode ← USBKeyboardDeviceGetKeyCode;
  l ← dget m_ucLastPhyCode;
  ucPhyCode ← (if ucPhyCode =? l then mret 0
               else dset (λ m, m <| m_ucLastPhyCode := ucPhyCode |>) ;; mret ucPhyCode);
  if negb (ucPhyCode =? 0) then USBKeyboardDeviceGenerateKeyEvent ucPhyCode
  else
    t ← dget m_hTimer;
    if negb (t =? 0) then call (CancelKernelTimer t) ;; dset (λ m, m <| m_hTimer := 0 |>) else mret tt.

(** The raw handler is told the modifiers and the six bytes behind the second. *)
Definition raw_report (h : Z) : M W unit :=
  ucModifiers ← USBKeyboardDeviceGetModifiers;
  b ← dget keyboard_report;
  keys ← buffer_bytes (drop 2 b);
  call (KeyStatusRaw h ucModifiers keys).

Definition USBKeyboardDeviceCompletionRoutine (pURB pThis : Z) : M W unit :=
  c_assert (negb (pThis =? 0)) ;;
  c_assert (negb (pURB =? 0)) ;;
  urb ← dget m_URB;
  c_assert (urb =? pURB) ;;
  r ← urb_at pURB;
  (if truthy (USBRequestGetStatus r) then
     n ← USBRequestGetResultLength r;
     if n =? BOOT_REPORT_SIZE then
       h ← dget m_pKeyStatusHandlerRaw;
       if negb (h =? 0) then raw_report h else cooked_report
     else mret tt
   else mret tt) ;;
  finish_request ;;
  USBKeyboardDeviceStartRequest pThis ;; mret tt.
End Keyboard.

(** ** Configuring *)

Section Configure.
Context {H : Type} `{!UsbHost H} `{!UsbHostLaws H} `{!UsbHostRecovers H} `{!AsyncHost H} `{!AsyncHostLaws H}.
Implicit Types (x : Input TUSBKeyboardDevice keyboard_call) (h : H).
Abbreviation routine := USBKeyboardDeviceCompletionRoutine_.

Lemma wp_keyboard_start pThis x h (Q : bool → Input TUSBKeyboardDevice keyboard_call * H → Prop) :
  host_accepts h → started x h EndpointTypeInterrupt → m_pReportBuffer (device x) ≠ 0 →
  (∀ ok h', bus_get h' = bus_get h → started x h' EndpointTypeInterrupt →
     requested (m_pReportBuffer (device x)) BOOT_REPORT_SIZE pThis routine ok (host_submitted h) x h' → Q ok (x, h')) →
  wp (USBKeyboardDeviceStartRequest pThis) Q (x, h).
Proof.
  intros Ha Hs Hb HQ. unfold USBKeyboardDeviceStartRequest. wp_step. apply wp_dget. wp_step. apply wp_dget.
  change (m_pReportEndpoint (device x)) with (io_endpoint (device x)).
  apply (wp_start_request _ _ _ _ EndpointTypeInterrupt); [done|done|by right|done|done|done|].
  intros ok h' H1 _. by apply HQ.
Qed.

Abbreviation outcome := (λ pThis ok x x' h',
  driver_outcome ukbd (m_pReportBuffer (device x)) BOOT_REPORT_SIZE pThis routine
    EndpointTypeInterrupt ok x x' h').

Lemma wp_SetLEDs k b o l d led x h (Q : unit → Input TUSBKeyboardDevice keyboard_call * H → Prop) :
  searching (S k) b o l d x h →
  (∀ r num h', b !! (o + off_bInterfaceNumber)%nat = Some num →
     bus_get h' = BusDone (ControlOut (m_pEndpoint0 d) 0x21 SET_REPORT 0x200 num [led]) r [] :: bus_get h →
     searching k b o l d x h' → host_step h h' → Q tt (x, h')) →
  wp (USBKeyboardDeviceSetLEDs led) Q (x, h).
Proof.
  intros Hs HQ. unfold USBKeyboardDeviceSetLEDs. wp_step.
  eapply (wp_interface_message k); [exact Hs|simpl; lia|done|].
  intros r num h' _ Hnum Hb Hs' Hst. wp_step. by eapply HQ.
Qed.

Lemma wp_keyboard_bring_up k pThis b o l d x h (Q : bool → Input TUSBKeyboardDevice keyboard_call * H → Prop) :
  searching (3 + k) b o l d x h → input_endpoint (usb_get h) (m_pReportEndpoint (device x)) EndpointTypeInterrupt →
  m_URB (device x) ≠ 0 → m_pReportBuffer (device x) ≠ 0 → pThis ≠ 0 → s_pThis (names x) ≠ 0 →
  (∀ ok x' h', outcome pThis ok x x' h' → Q ok (x', h')) →
  wp (keyboard_bring_up pThis) Q (x, h).
Proof.
  intros Hs Hi Hu Hb Hp Hn HQ. pose proof Hs as [Hr Hf Hd He].
  assert (∀ h', outcome pThis false x x h') as Hno by (intros h'; split; [done|by left]).
  unfold keyboard_bring_up. wp_step. apply wp_dget. wp_step.
  eapply (wp_USBFunctionConfigure (2 + k)); [exact Hr|exact Hf|exact Hd|exact He|].
  intros ok h1 Hr1 Hst1. destruct ok; cbn [negb]; [|wp_step; by apply HQ].
  assert (searching (2 + k) b o l d x h1) as Hs1 by by eapply searching_step.
  wp_step. eapply (wp_interface_message (1 + k)); [exact Hs1|simpl; lia|done|].
  intros r num h2 _ _ _ Hs2 Hst2. destruct (r <? 0); [wp_step; by apply HQ|].
  wp_step. apply wp_dget. wp_step. eapply (wp_SetLEDs k); [exact Hs2|].
  intros r' num' h3 _ _ Hs3 Hst3. wp_step. apply wp_take_number. wp_step. apply wp_enter; [done|exact Hn|].
  set (x3 := _ <| names := _ |>).
  assert (input_endpoint (usb_get h3) (io_endpoint (device x3)) EndpointTypeInterrupt) as Hi3.
  { simpl. do 3 (eapply input_endpoint_same; [by apply Hst1 || by apply Hst2 || by apply Hst3|]). exact Hi. }
  assert (searching k b o l d x3 h3) as Hs3' by by apply (searching_device _ _ _ _ _ x).
  eapply wp_keyboard_start; [eapply host_accepts_ready, Hs3'|by eapply searching_started|done|].
  intros ok h4 _ Hst4 Hreq. apply HQ. split; [done|]. right. split; [by split|]. split; [done|]. by eexists.
Qed.

(** Configuring a keyboard ends without a fault after at most three requests,
    whatever the device answers, if its endpoints have a packet size. If it
    succeeds, the keyboard is entered as "ukbd" with its number and waits for
    the first report on its interrupt IN endpoint. *)
Theorem keyboard_configure k pThis b o l d x h :
  searching (3 + k) b o l d x h → packet_sizes b l →
  m_pReportEndpoint (device x) = 0 → m_URB (device x) ≠ 0 → m_pReportBuffer (device x) ≠ 0 →
  pThis ≠ 0 → s_pThis (names x) ≠ 0 →
  wp (USBKeyboardDeviceConfigure pThis) (λ ok '(x', h'), outcome pThis ok x x' h') (x, h).
Proof.
  intros Hs Hps H0 Hu Hb Hp Hn. pose proof Hs as [_ Hf _ _].
  pose proof Hf as [_ _ _ _ (p1 & Hp1 & (_ & _ & last & audio & Hch) & _)].
  assert (∀ x' h', names x' = names x → s_nDeviceNumber x' = s_nDeviceNumber x → calls x' = calls x →
    outcome pThis false x x' h') as Hno by (intros x' h' E1 E2 E3; split; [done|by left]).
  unfold USBKeyboardDeviceConfigure. wp_step. apply wp_dget. wp_step.
  eapply wp_interface_byte; [exact Hf|unfold off_bNumEndpoints; lia|]. intros n _ _.
  destruct (n <? 1); [wp_step; eapply wp_ConfigurationError; [exact Hf|]; wp_step; by apply Hno|].
  wp_step. eapply wp_parser_of; [exact Hp1|].
  wp_step. eapply (wp_report_endpoint_loop _ b o d _ _ _ _ _ Hs); [exact Hps|exact H0| |].
  { pose proof (chain_length _ _ _ _ _ _ Hch). lia. }
  intros f2 l2 p h2 Hfd2 Hep Hs2 _ _. wp_step. apply wp_dget. pose proof Hs2 as [_ Hf2 _ _]. simpl.
  destruct (Z.eqb_spec p 0) as [E0|E0].
  { wp_step. apply wp_dget. wp_step. eapply wp_ConfigurationError; [exact Hf2|]. wp_step. by apply Hno. }
  destruct Hep as [|Hep]; [done|].
  eapply (wp_keyboard_bring_up k); [exact Hs2|exact Hep|done..|].
  intros ok x' h' [Hc Ho]. split; [by rewrite Hc|exact Ho].
Qed.

(** The LEDs follow the locks: they are set exactly when the locks differ from
    what was set last, with one request that carries the new state. *)
Theorem keyboard_leds k b o l d x h :
  searching (S k) b o l d x h →
  wp USBKeyboardDeviceUpdateLEDs (λ _ '(x', h'),
    let leds := (if m_bNumLock (keymap (device x)) then 1 else 0) + (if m_bCapsLock (keymap (device x)) then 2 else 0)
                + (if m_bScrollLock (keymap (device x)) then 4 else 0) in
    x' = x <| device := (device x) <| m_ucLastLEDStatus := leds |> |> ∧
    if leds =? m_ucLastLEDStatus (device x) then h' = h
    else ∃ r num, b !! (o + off_bInterfaceNumber)%nat = Some num ∧
      bus_get h' = BusDone (ControlOut (m_pEndpoint0 d) 0x21 SET_REPORT 0x200 num [leds]) r [] :: bus_get h) (x, h).
Proof.
  intros Hs. unfold USBKeyboardDeviceUpdateLEDs. wp_step. eapply wp_zoom; [done|].
  unfold KeyMapGetLEDStatus. wp_step. wp_step. wp_step. cbn [fst snd].
  set (led := Z.lor _ _). cbv zeta. set (leds := _ + _ + _).
  assert (led = leds) as -> by (unfold led, leds; repeat case_match; reflexivity).
  replace (x <| device := (device x) <| keymap := keymap (device x) |> |>) with x by (by destruct x as [[] ? ? ?]).
  wp_step. apply wp_dget. destruct (Z.eqb_spec leds (m_ucLastLEDStatus (device x))) as [E|E]; cbn [negb].
  - wp_step. split; [|done]. rewrite E. by destruct x as [[] ? ? ?].
  - wp_step. eapply (wp_SetLEDs k); [exact Hs|]. intros r num h' Hnum Hb _ _. apply wp_dset.
    split; [done|]. by exists r, num.
Qed.
End Configure.

(** ** Reports *)

(** The key of a report: the last of the six that is one. *)
Definition report_key (d : list Z) : Z := fold_left (λ k v, if v =? 0 then k else v) (drop 2 d) 0.

(** What a logical code that was typed with the modifiers [m] tells the handlers. *)
Definition code_events (k : TUSBKeyboardDevice) (c m : Z) : list keyboard_call :=
  if (ActionSwitchCapsLock <=? c) && (c <=? ActionSwitchScrollLock) then []
  else if (ActionSelectConsole1 <=? c) && (c <=? ActionSelectConsole12) then
    if m_pSelectConsoleHandler k =? 0 then [] else [SelectConsole (m_pSelectConsoleHandler k) (c - ActionSelectConsole1)]
  else if c =? ActionShutdown then
    if m_pShutdownHandler k =? 0 then [] else [Shutdown (m_pShutdownHandler k)]
  else match KeyMapGetString c m (keymap k) with
       | Ok (Some s, _) => if m_pKeyPressedHandler k =? 0 then [] else [KeyPressed (m_pKeyPressedHandler k) s]
       | _ => []
       end.

(** A key with its modifiers: the locks it changes and what it tells. *)
Definition key_step (k : TUSBKeyboardDevice) (p m : Z) : TUSBKeyboardDevice * list keyboard_call :=
  match KeyMapTranslate p m (keymap k) with
  | Ok (c, km) => let k := k <| keymap := km |> in (k, code_events k c m)
  | Err _ => (k, [])
  end.

(** Without a raw handler, a key is typed when it is not the key of the last
    report. *)
Definition cooked_step (k : TUSBKeyboardDevice) (d : list Z) : TUSBKeyboardDevice * list keyboard_call :=
  if report_key d =? m_ucLastPhyCode k then (k, [])
  else
    let k := k <| m_ucLastPhyCode := report_key d |> in
    if report_key d =? 0 then (k, []) else key_step k (report_key d) (hd 0 d).

(** A completed request: nothing for an error or a report of another length; the
    raw handler is told all of the report. *)
Definition report_step (k : TUSBKeyboardDevice) (r : TUSBRequest) (d : list Z)
    : TUSBKeyboardDevice * list keyboard_call :=
  if truthy (m_bStatus r) && (m_nResultLen r =? 8) then
    if m_pKeyStatusHandlerRaw k =? 0 then cooked_step k d
    else (k, [KeyStatusRaw (m_pKeyStatusHandlerRaw k) (hd 0 d) (drop 2 d)])
  else (k, []).

(** Nothing of the object changes but the last key and the locks. *)
Lemma report_step_fields k r d :
  ∃ l km, (report_step k r d).1 = k <| m_ucLastPhyCode := l |> <| keymap := km |>.
Proof.
  assert (∀ k0, ∃ l km, k0 = k0 <| m_ucLastPhyCode := l |> <| keymap := km |>) as Hid.
  { intros k0. exists (m_ucLastPhyCode k0), (keymap k0). by destruct k0. }
  unfold report_step, cooked_step, key_step. repeat case_match; simpl; eauto.
Qed.

Lemma toggled_locks c k : keymap_ok k → 0 <= c < ActionNone →
  keymap_ok (toggled c k).
Proof. intros Hk _. by apply toggled_ok. Qed.

Section Reports.
Context {H : Type} `{!UsbHost H} `{!UsbHostLaws H} `{!UsbHostRecovers H} `{!AsyncHost H} `{!AsyncHostLaws H}.
Implicit Types (x : Input TUSBKeyboardDevice keyboard_call) (h : H).
Abbreviation routine := USBKeyboardDeviceCompletionRoutine_.

Lemma wp_key_code_loop d (Q : Z → Input TUSBKeyboardDevice keyboard_call * H → Prop) s :
  length d = 8%nat → Q (report_key d) s → wp (key_code_loop (map Some d) [7; 6; 5; 4; 3; 2]%nat) Q s.
Proof.
  intros Hd HQ. do 8 (destruct d as [|? d]; [done|]). destruct d; [|done].
  unfold report_key in HQ. simpl in HQ |- *.
  repeat (wp_step; eapply wp_cell_at; [reflexivity|];
    match goal with |- context [negb (?a =? 0)] => destruct (a =? 0); simpl in HQ |- *; [|by wp_step] end).
  by wp_step.
Qed.

Lemma wp_on_keymap {A} (m : M TKeyMap A) x h (Q : A → Input TUSBKeyboardDevice keyboard_call * H → Prop) :
  wp m (λ a k, Q a (x <| device := (device x) <| keymap := k |> |>, h)) (keymap (device x)) → wp (on_keymap m) Q (x, h).
Proof. intros Hm. by eapply wp_zoom. Qed.

Lemma wp_GenerateKeyEvent p d x h (Q : unit → Input TUSBKeyboardDevice keyboard_call * H → Prop) :
  keymap_ok (keymap (device x)) → is_u8 p → keyboard_report (device x) = map Some d → (0 < length d)%nat →
  (∀ k es, key_step (device x) p (hd 0 d) = (k, es) → keymap_ok (keymap k) →
     Q tt (x <| device := k |> <| calls := es ++ calls x |>, h)) →
  wp (USBKeyboardDeviceGenerateKeyEvent p) Q (x, h).
Proof.
  intros Hk Hp Hrep Hd HQ. destruct d as [|m d]; [simpl in Hd; lia|].
  unfold USBKeyboardDeviceGenerateKeyEvent, USBKeyboardDeviceGetModifiers.
  wp_step. wp_step. apply wp_dget. rewrite Hrep. eapply wp_cell_at; [reflexivity|].
  wp_step. apply wp_on_keymap. unfold key_step in HQ. simpl hd in HQ.
  pose proof (wp_KeyMapTranslate (keymap (device x)) p m (λ c k', 0 <= c < ActionNone ∧ keymap_ok k') Hk Hp
    ltac:(intros c Hc; split; [done|by apply toggled_locks])) as Ht.
  unfold wp in Ht. destruct (KeyMapTranslate p m (keymap (device x))) as [[c km]|] eqn:Et; [|done].
  destruct Ht as [Hc Hkm]. specialize (HQ _ _ eq_refl Hkm).
  eapply wp_Ok; [exact Et|]. set (x1 := x <| device := _ |>) in *.
  assert (∀ es, code_events (device x1) c m = es → Q tt (x1 <| calls := es ++ calls x1 |>, h)) as HQ'.
  { intros es <-. exact HQ. }
  unfold code_events in HQ'. unfold ActionSwitchCapsLock, ActionSwitchNumLock, ActionSwitchScrollLock in *.
  destruct ((0x133 <=? c) && (c <=? 0x135)) eqn:E1.
  { replace ((c =? 0x133) || (c =? 0x134) || (c =? 0x135)) with true by (symmetry; lia).
    wp_step. specialize (HQ' [] eq_refl). by destruct x. }
  replace ((c =? 0x133) || (c =? 0x134) || (c =? 0x135)) with false by (symmetry; lia).
  destruct ((ActionSelectConsole1 <=? c) && (c <=? ActionSelectConsole12)) eqn:E2.
  { unfold ActionSelectConsole1, ActionSelectConsole12 in *. wp_step. apply wp_dget.
    destruct (Z.eqb_spec (m_pSelectConsoleHandler (device x1)) 0) as [E|E]; cbn [negb].
    - wp_step. specialize (HQ' [] eq_refl). by destruct x.
    - cbv zeta. wp_step. rewrite u32_id by (unfold is_u32; lia). apply wp_assert; [lia|]. apply wp_call. exact (HQ' [_] eq_refl). }
  destruct (c =? ActionShutdown).
  { wp_step. apply wp_dget. destruct (Z.eqb_spec (m_pShutdownHandler (device x1)) 0) as [E|E]; cbn [negb].
    - wp_step. specialize (HQ' [] eq_refl). by destruct x.
    - apply wp_call. exact (HQ' [_] eq_refl). }
  wp_step. apply wp_on_keymap.
  pose proof (wp_KeyMapGetString (keymap (device x1)) c m (λ _ k', k' = keymap (device x1)) ltac:(lia) ltac:(done)) as Hg.
  unfold wp in Hg. destruct (KeyMapGetString c m (keymap (device x1))) as [[s k']|] eqn:Eg; [|done]. subst k'.
  eapply wp_Ok; [exact Eg|].
  replace (x1 <| device := (device x1) <| keymap := keymap (device x1) |> |>) with x1 by (by destruct x as [[] ? ? ?]).
  destruct s as [s|].
  - wp_step. apply wp_dget. destruct (Z.eqb_spec (m_pKeyPressedHandler (device x1)) 0) as [E|E]; cbn [negb].
    + wp_step. specialize (HQ' [] eq_refl). by destruct x.
    + apply wp_call. exact (HQ' [_] eq_refl).
  - wp_step. specialize (HQ' [] eq_refl). by destruct x.
Qed.

Lemma report_key_u8 d : Forall is_u8 d → is_u8 (report_key d).
Proof.
  intros Hd. unfold report_key.
  assert (∀ l a, Forall is_u8 l → is_u8 a → is_u8 (fold_left (λ k v, if v =? 0 then k else v) l a)) as Hf.
  { induction l as [|v l IH]; intros a Hl Ha; [done|]. apply Forall_cons_1 in Hl as [Hv Hl]. simpl.
    apply IH; [done|]. by destruct (v =? 0). }
  apply Hf; [by apply Forall_drop|unfold is_u8; lia].
Qed.

Lemma no_calls x k : x <| device := k |> <| calls := [] ++ calls x |> = x <| device := k |>.
Proof. by destruct x. Qed.

Lemma wp_cooked_report d x h (Q : unit → Input TUSBKeyboardDevice keyboard_call * H → Prop) :
  keymap_ok (keymap (device x)) → m_hTimer (device x) = 0 →
  keyboard_report (device x) = map Some d → length d = 8%nat → Forall is_u8 d →
  (∀ k es, cooked_step (device x) d = (k, es) → keymap_ok (keymap k) →
     Q tt (x <| device := k |> <| calls := es ++ calls x |>, h)) →
  wp cooked_report Q (x, h).
Proof.
  intros Hk Ht Hrep Hl Hd HQ. unfold cooked_report, USBKeyboardDeviceGetKeyCode.
  wp_step. wp_step. apply wp_dget. rewrite Hrep. apply wp_key_code_loop; [done|].
  wp_step. apply wp_dget. unfold cooked_step in HQ. wp_step.
  destruct (report_key d =? m_ucLastPhyCode (device x)).
  { wp_step. cbn [Z.eqb negb]. wp_step. apply wp_dget. rewrite Ht. cbn [Z.eqb negb]. wp_step. specialize (HQ _ [] eq_refl Hk).
    by destruct x. }
  wp_step. apply wp_dset. wp_step. set (x1 := x <| device := _ |>).
  destruct (Z.eqb_spec (report_key d) 0) as [E|E]; cbn [negb].
  { wp_step. apply wp_dget. change (m_hTimer (device x1)) with (m_hTimer (device x)). rewrite Ht. cbn [Z.eqb negb].
    wp_step. by apply (HQ _ [] eq_refl). }
  eapply (wp_GenerateKeyEvent _ d); [exact Hk|by apply report_key_u8|exact Hrep|lia|].
  intros k es Hes Hk'. by apply (HQ k es).
Qed.

Lemma wp_keyboard_reports pThis x h r d :
  host_accepts h → started x h EndpointTypeInterrupt → m_pReportBuffer (device x) ≠ 0 → pThis ≠ 0 →
  urbs (usb_get h) !! m_URB (device x) = Some r →
  keyboard_report (device x) = map Some d → length d = 8%nat → Forall is_u8 d →
  keymap_ok (keymap (device x)) → m_hTimer (device x) = 0 →
  wp (USBKeyboardDeviceCompletionRoutine (m_URB (device x)) pThis) (λ _ '(x', h'),
    let '(k, es) := report_step (device x) r d in
    x' = x <| device := k |> <| calls := es ++ calls x |> ∧ keymap_ok (keymap k) ∧
    started x' h' EndpointTypeInterrupt ∧ bus_get h' = bus_get h ∧
    ∃ ok, requested (m_pReportBuffer (device x)) BOOT_REPORT_SIZE pThis routine ok (host_submitted h) x' h') (x, h).
Proof.
  intros Ha Hs Hb Hp Hr Hrep Hl Hd Hk Ht. pose proof Hs as [_ _ _ Hu].
  destruct (report_step_fields (device x) r d) as (l & km & Hfields).
  destruct (report_step (device x) r d) as [k es] eqn:Est. simpl in Hfields.
  assert (keymap_ok (keymap k) → wp (finish_request ;; USBKeyboardDeviceStartRequest pThis ;; mret tt)
    (λ _ '(x2, h'), x2 = x <| device := k |> <| calls := es ++ calls x |> ∧ keymap_ok (keymap k) ∧
      started x2 h' EndpointTypeInterrupt ∧ bus_get h' = bus_get h ∧
      ∃ ok, requested (m_pReportBuffer (device x)) BOOT_REPORT_SIZE pThis routine ok (host_submitted h) x2 h')
    (x <| device := k |> <| calls := es ++ calls x |>, h)) as Hend.
  { intros Hkk. set (x' := x <| device := k |> <| calls := _ |>).
    assert (io_function (device x') = io_function (device x) ∧ io_endpoint (device x') = io_endpoint (device x) ∧
      io_urb (device x') = io_urb (device x) ∧ m_pReportBuffer (device x') = m_pReportBuffer (device x)) as (F1 & F2 & F3 & F4)
      by (simpl; by rewrite Hfields).
    destruct Hs as [S1 S2 S3 S4].
    eapply (wp_finish_then _ r _ _ EndpointTypeInterrupt); [done|split; congruence|by rewrite F3|].
    intros h1 Ha1 Hs1 Hb1 Hq1. wp_step. apply wp_keyboard_start; [done|done|by rewrite F4|].
    intros ok h2 E2 Hs2 Hreq. wp_step. split; [done|]. split; [done|]. split; [done|]. split; [congruence|].
    exists ok. by rewrite <- F4, <- Hq1. }
  assert (k = device x → es = [] → x <| device := k |> <| calls := es ++ calls x |> = x) as Hnil
    by (intros -> ->; by destruct x).
  unfold USBKeyboardDeviceCompletionRoutine, USBRequestGetStatus.
  wp_step. apply wp_assert; [by apply negb_true_iff, Z.eqb_neq|].
  wp_step. apply wp_assert; [by apply negb_true_iff, Z.eqb_neq|].
  wp_step. apply wp_dget. wp_step. apply wp_assert; [apply Z.eqb_refl|].
  wp_step. eapply wp_urb_at; [exact Hr|]. unfold report_step in Est. wp_step.
  destruct (truthy (m_bStatus r)) eqn:Estatus; simpl in Est.
  2: { injection Est as <- <-. rewrite Hnil in Hend |- * by done. wp_step. by apply Hend. }
  wp_step. unfold USBRequestGetResultLength. wp_step. apply wp_assert; [done|]. wp_step.
  change BOOT_REPORT_SIZE with 8 at 1.
  destruct (m_nResultLen r =? 8).
  2: { injection Est as <- <-. rewrite Hnil in Hend |- * by done. wp_step. by apply Hend. }
  wp_step. apply wp_dget. destruct (m_pKeyStatusHandlerRaw (device x) =? 0); cbn [negb].
  - apply (wp_cooked_report d); [done..|]. intros k' es' Ec Hk'. rewrite Ec in Est. injection Est as -> ->.
    by apply Hend.
  - injection Est as <- <-. unfold raw_report, USBKeyboardDeviceGetModifiers.
    destruct d as [|m d]; [done|]. wp_step. wp_step. apply wp_dget. rewrite Hrep.
    eapply wp_cell_at; [reflexivity|]. wp_step. apply wp_dget. rewrite Hrep. wp_step.
    change (drop 2 (map Some (m :: d))) with (drop 2 (Some <$> (m :: d))). rewrite <- fmap_drop.
    apply wp_buffer_bytes. apply wp_call. simpl in Hend |- *. specialize (Hend Hk). by destruct x.
Qed.

(** C19. A completed request, whatever it is: the keyboard does what [report_step]
    says, ends without a fault and asks for the next report. The handlers are
    called for nothing but a complete report; the raw handler gets it as it is;
    otherwise a key is typed once, when it appears, with the modifiers and locks
    of that moment. *)
Theorem keyboard_reports pThis x h r d :
  host_accepts h → started x h EndpointTypeInterrupt → m_pReportBuffer (device x) ≠ 0 → pThis ≠ 0 →
  urbs (usb_get h) !! m_URB (device x) = Some r →
  keyboard_report (device x) = map Some d → length d = 8%nat → Forall is_u8 d →
  keymap_ok (keymap (device x)) → m_hTimer (device x) = 0 →
  wp (USBKeyboardDeviceCompletionRoutine (m_URB (device x)) pThis) (λ _ '(x', h'),
    let '(k, es) := report_step (device x) r d in
    x' = x <| device := k |> <| calls := es ++ calls x |> ∧ keymap_ok (keymap k) ∧
    started x' h' EndpointTypeInterrupt ∧ bus_get h' = bus_get h ∧
    ∃ ok, requested (m_pReportBuffer (device x)) BOOT_REPORT_SIZE pThis routine ok (host_submitted h) x' h') (x, h).
Proof. apply wp_keyboard_reports. Qed.
End Reports.

(** ** Typing *)

(** A session: reports come in one after the other, each to its own state of the
    host; between them only the host and the report buffer change. *)
Section Session.
Context {H : Type} `{!UsbHost H} `{!UsbHostLaws H} `{!UsbHostRecovers H} `{!AsyncHost H} `{!AsyncHostLaws H}.
Implicit Types (x : Input TUSBKeyboardDevice keyboard_call) (h : H).

Definition with_report (d : list Z) x : Input TUSBKeyboardDevice keyboard_call :=
  x <| device := (device x) <| keyboard_report := map Some d |> |>.

Inductive keyboard_session (pThis : Z) :
    Input TUSBKeyboardDevice keyboard_call → list (TUSBRequest * list Z) →
    Input TUSBKeyboardDevice keyboard_call → Prop :=
  | session_end x : keyboard_session pThis x [] x
  | session_report x h r d x1 h1 l x2 :
      host_accepts h → started (with_report d x) h EndpointTypeInterrupt →
      urbs (usb_get h) !! m_URB (device x) = Some r → length d = 8%nat → Forall is_u8 d →
      USBKeyboardDeviceCompletionRoutine (m_URB (device x)) pThis (with_report d x, h) = Ok (tt, (x1, h1)) →
      keyboard_session pThis x1 l x2 → keyboard_session pThis x ((r, d) :: l) x2.

(** A letter, with the left shift key or without: reports while the key is held,
    one or more, and one when it is released. *)
Definition complete (r : TUSBRequest) : Prop := truthy (m_bStatus r) = true ∧ m_nResultLen r = 8.
Definition pressed (i : Z) (shift : bool) : list Z := [if shift then LSHIFT else 0; 0; 4 + i; 0; 0; 0; 0; 0].
Definition released : list Z := [0; 0; 0; 0; 0; 0; 0; 0].
Inductive strokes : list (TUSBRequest * list Z) → list (Z * bool) → Prop :=
  | strokes_nil : strokes [] []
  | strokes_cons r1 held r2 i shift l t :
      complete r1 → Forall complete held → complete r2 → 0 <= i < 26 → strokes l t →
      strokes ((r1, pressed i shift) :: map (λ r, (r, pressed i shift)) held ++ (r2, released) :: l)
        ((i, shift) :: t).

(** The character of a letter. *)
Definition letter_char (caps : bool) (a : Z * bool) : list Z := [if xorb a.2 caps then 65 + a.1 else 97 + a.1].
End Session.

(** A keyboard in cooked mode with the map of the build, and its last key. *)
Record cooked_keyboard (handler : Z) (caps num scroll : bool) (last : Z) (k : TUSBKeyboardDevice) : Prop := {
  ck_handler : m_pKeyPressedHandler k = handler;
  ck_given : handler ≠ 0;
  ck_raw : m_pKeyStatusHandlerRaw k = 0;
  ck_map : keymap k = with_caps caps num scroll;
  ck_last : m_ucLastPhyCode k = last;
  ck_timer : m_hTimer k = 0;
  ck_buffer : m_pReportBuffer k ≠ 0
}.

Lemma report_key_pressed i shift : 0 <= i < 26 → report_key (pressed i shift) = 4 + i.
Proof.
  intros Hi. unfold report_key, pressed. cbn [drop fold_left Z.eqb]. by rewrite (proj2 (Z.eqb_neq _ _)) by lia.
Qed.

(** The reports of a letter: the first tells the handler. *)
Lemma press_step handler caps num scroll k r i shift :
  cooked_keyboard handler caps num scroll 0 k → complete r → 0 <= i < 26 →
  report_step k r (pressed i shift) =
    (k <| m_ucLastPhyCode := 4 + i |>, [KeyPressed handler (letter_char caps (i, shift))]).
Proof.
  intros [Hh Hg Hraw Hm Hl _ _] [Hst Hlen] Hi. unfold report_step. rewrite Hst, Hlen, Hraw. cbn [andb Z.eqb Pos.eqb].
  unfold cooked_step. rewrite report_key_pressed by done.
  rewrite Hl. rewrite !(proj2 (Z.eqb_neq _ _)) by lia. cbv zeta. unfold key_step. simpl keymap. rewrite Hm.
  set (m := hd 0 (pressed i shift)).
  assert (m = if shift then LSHIFT else 0) as Em by (by destruct shift).
  assert (letter_code (4 + i) m (with_caps caps num scroll) (letter i m caps) = true) as Hlc.
  { destruct (orb_prop _ _ (letters_at i m caps num scroll Hi ltac:(rewrite Em; by destruct shift))) as [Hx|Hx]; [|done].
    rewrite Em in Hx. by destruct shift. }
  destruct (letter_code_run (4 + i) m (with_caps caps num scroll) (letter i m caps) (with_caps_ok caps num scroll) ltac:(unfold is_u8; lia) Hlc) as (c & Hc & Ht & Hs).
  rewrite Ht. cbv zeta. unfold code_events. cbn [keymap m_pKeyPressedHandler upd].
  unfold ActionSwitchCapsLock, ActionSwitchScrollLock, ActionSelectConsole1, ActionSelectConsole12, ActionShutdown, KeyMaxCode in *.
  replace ((0x133 <=? c) && (c <=? 0x135)) with false by (symmetry; lia).
  replace ((0x136 <=? c) && (c <=? 0x141)) with false by (symmetry; lia).
  rewrite (proj2 (Z.eqb_neq c 0x142)) by lia. rewrite Hs, Hh, (proj2 (Z.eqb_neq handler 0)) by done.
  assert (letter i m caps = Some (letter_char caps (i, shift))) as ->.
  { rewrite Em. unfold letter, letter_char. by destruct shift. }
  f_equal. rewrite <- Hm. by destruct k.
Qed.

Lemma held_step handler caps num scroll k r i shift :
  cooked_keyboard handler caps num scroll (4 + i) k → complete r → 0 <= i < 26 →
  report_step k r (pressed i shift) = (k, []).
Proof.
  intros [Hh Hg Hraw Hm Hl _ _] [Hst Hlen] Hi. unfold report_step, cooked_step.
  rewrite Hst, Hlen, Hraw. cbn [andb Z.eqb Pos.eqb]. by rewrite report_key_pressed, Hl, Z.eqb_refl by done.
Qed.

Lemma release_step handler caps num scroll k r last :
  cooked_keyboard handler caps num scroll last k → complete r →
  report_step k r released = (k <| m_ucLastPhyCode := 0 |>, []).
Proof.
  intros [Hh Hg Hraw Hm Hl _ _] [Hst Hlen]. unfold report_step, cooked_step. rewrite Hst, Hlen, Hraw.
  cbn [andb Z.eqb Pos.eqb]. change (report_key released) with 0.
  destruct (Z.eqb_spec 0 (m_ucLastPhyCode k)) as [E|]; [|done]. f_equal. destruct k; simpl in *; by subst.
Qed.

Lemma cooked_last handler caps num scroll last last' k :
  cooked_keyboard handler caps num scroll last k →
  cooked_keyboard handler caps num scroll last' (k <| m_ucLastPhyCode := last' |>).
Proof. by intros []. Qed.

Section Text.
Context {H : Type} `{!UsbHost H} `{!UsbHostLaws H} `{!UsbHostRecovers H} `{!AsyncHost H} `{!AsyncHostLaws H}.
Implicit Types (x : Input TUSBKeyboardDevice keyboard_call) (h : H).

Lemma with_report_cooked handler caps num scroll last k d :
  cooked_keyboard handler caps num scroll last k →
  cooked_keyboard handler caps num scroll last (k <| keyboard_report := d |>).
Proof. by intros []. Qed.

(** One report of a session. *)
Lemma session_step pThis handler caps num scroll last r d l x x' k es :
  keyboard_session pThis x ((r, d) :: l) x' → pThis ≠ 0 →
  cooked_keyboard handler caps num scroll last (device x) →
  report_step (device (with_report d x)) r d = (k, es) →
  ∃ x1, keyboard_session pThis x1 l x' ∧ device x1 = k ∧ calls x1 = es ++ calls x.
Proof.
  intros Hses Hp Hck Hst.
  inversion Hses as [|? h ? ? x1 h1 ? ? Ha Hs Hr Hl Hd Hrun Hses1]; subst.
  destruct Hck as [_ _ _ Hm _ Ht Hb].
  assert (keymap_ok (keymap (device (with_report d x)))) as Hk by (simpl; rewrite Hm; apply with_caps_ok).
  pose proof (wp_keyboard_reports pThis (with_report d x) h r d Ha Hs Hb Hp Hr eq_refl Hl Hd Hk Ht) as Hw.
  unfold wp in Hw. change (m_URB (device (with_report d x))) with (m_URB (device x)) in Hw. rewrite Hrun, Hst in Hw.
  destruct Hw as [-> _]. eexists. split; [exact Hses1|]. by split.
Qed.

(** The key is held. *)
Lemma session_held pThis handler caps num scroll i shift held l x x' :
  keyboard_session pThis x (map (λ r, (r, pressed i shift)) held ++ l) x' → pThis ≠ 0 →
  cooked_keyboard handler caps num scroll (4 + i) (device x) → Forall complete held → 0 <= i < 26 →
  ∃ x1, keyboard_session pThis x1 l x' ∧
    cooked_keyboard handler caps num scroll (4 + i) (device x1) ∧ calls x1 = calls x.
Proof.
  revert x. induction held as [|r held IH]; intros x Hses Hp Hck Hheld Hi; [by exists x|].
  apply Forall_cons_1 in Hheld as [Hr Hheld].
  pose proof (with_report_cooked _ _ _ _ _ _ (map Some (pressed i shift)) Hck) as Hck'.
  destruct (session_step _ _ _ _ _ _ _ _ _ _ _ _ _ Hses Hp Hck (held_step _ _ _ _ _ r i shift Hck' Hr Hi))
    as (x1 & Hses1 & Hd & Hc).
  destruct (IH x1 Hses1 Hp ltac:(by rewrite Hd) Hheld Hi) as (x2 & H2 & H3 & H4).
  exists x2. split; [done|]. split; [done|]. by rewrite H4, Hc.
Qed.

(** C18. Typing text: however the host's state changes in between and however long
    the keys are held, letters typed one after the other, with shift or without,
    reach the handler exactly once each, in their order, in the case that shift
    and the caps lock say. *)
Theorem keyboard_types pThis handler caps num scroll reports text x x' :
  pThis ≠ 0 → cooked_keyboard handler caps num scroll 0 (device x) → strokes reports text →
  keyboard_session pThis x reports x' →
  calls x' = rev (map (λ a, KeyPressed handler (letter_char caps a)) text) ++ calls x ∧
  cooked_keyboard handler caps num scroll 0 (device x').
Proof.
  intros Hp Hck Hst. revert x Hck. induction Hst as [|r1 held r2 i shift l t Hr1 Hheld Hr2 Hi Hst IH]; intros x Hck Hses.
  { inversion Hses; subst. done. }
  pose proof (with_report_cooked _ _ _ _ _ _ (map Some (pressed i shift)) Hck) as Hck0.
  destruct (session_step _ _ _ _ _ _ _ _ _ _ _ _ _ Hses Hp Hck (press_step _ _ _ _ _ r1 i shift Hck0 Hr1 Hi))
    as (x1 & Hses1 & Hd1 & Hc1).
  assert (cooked_keyboard handler caps num scroll (4 + i) (device x1)) as Hck1 by (rewrite Hd1; by eapply cooked_last).
  destruct (session_held _ _ _ _ _ _ _ _ _ _ _ Hses1 Hp Hck1 Hheld Hi) as (x2 & Hses2 & Hck2 & Hc2).
  pose proof (with_report_cooked _ _ _ _ _ _ (map Some released) Hck2) as Hck3.
  destruct (session_step _ _ _ _ _ _ _ _ _ _ _ _ _ Hses2 Hp Hck2 (release_step _ _ _ _ _ r2 _ Hck3 Hr2))
    as (x3 & Hses3 & Hd3 & Hc3).
  assert (cooked_keyboard handler caps num scroll 0 (device x3)) as Hck4 by (rewrite Hd3; by eapply cooked_last).
  destruct (IH x3 Hck4 Hses3) as [E H2]. split; [|exact H2]. rewrite E, Hc3, Hc2, Hc1. simpl. by rewrite <- app_assoc.
Qed.
End Text.

Module KeyboardDemo.
Import InputDemo.
(** A keyboard with a handler for keys. *)
Definition keyboard (p : Z) (report : buffer) : TUSBKeyboardDevice :=
  {| m_USBFunction := InputDemo.function; m_pReportEndpoint := p; m_pKeyPressedHandler := 77;
     m_pSelectConsoleHandler := 0; m_pShutdownHandler := 0; m_pKeyStatusHandlerRaw := 0; m_URB := 32;
     m_pReportBuffer := 4096; keyboard_report := report; m_ucLastPhyCode := 0; m_hTimer := 0;
     keymap := with_caps false true false; m_ucLastLEDStatus := 0 |}.
Definition completed : TUSBRequest :=
  (pending_request 17 4096 8 64 USBKeyboardDeviceCompletionRoutine_) <| m_bStatus := 1 |> <| m_nResultLen := 8 |>.
Definition start : Input TUSBKeyboardDevice keyboard_call := input (keyboard 17 (blank 8)).
Definition host := bus {[ 32 := completed ]}.

Lemma keyboard_searching k p : searching (E := keyboard_call) k config 9 [18%nat; 27%nat] dev (input (keyboard p (blank 8))) (bus ∅).
Proof. by apply input_searching. Qed.
Lemma keyboard_started (x : Input TUSBKeyboardDevice keyboard_call) : io_function (device x) = InputDemo.function →
  io_endpoint (device x) = 17 → io_urb (device x) = 32 → started x host EndpointTypeInterrupt.
Proof.
  intros H1 H2 H3. destruct x as [d n ns c]. pose proof (input_started (E := keyboard_call) d {[ 32 := completed ]} H1 H2) as [S1 S2 S3 S4].
  { simpl in *. by rewrite H3. }
  by split.
Qed.

Lemma keyboard_configure_witness :
  wp (USBKeyboardDeviceConfigure 64) (λ ok '(x', h'),
    (ok = true ∧ map (λ q, q.1.1) (host_submitted h') = [32]) ∧
    driver_outcome ukbd 4096 8 64 USBKeyboardDeviceCompletionRoutine_ EndpointTypeInterrupt ok
      (input (keyboard 0 (blank 8))) x' h') (input (keyboard 0 (blank 8)), bus ∅).
Proof.
  eapply wp_mono.
  - apply wp_and with (P := λ ok w, ok = true ∧ map (λ q, q.1.1) (host_submitted (snd w)) = [32]);
      [vm_compute; split; reflexivity|].
    apply (keyboard_configure 0 64 config 9 [18%nat; 27%nat] dev (input (keyboard 0 (blank 8))) (bus ∅)
      (keyboard_searching _ _) sizes); done.
  - intros ok [x' h'] [H1 H2]. split; [exact H1|exact H2].
Defined.

(** The caps lock key is pressed with nothing else. *)
Lemma caps_step :
  report_step (device (input (E := keyboard_call) (keyboard 17 (map Some [0; 0; 57; 0; 0; 0; 0; 0])))) completed
    [0; 0; 57; 0; 0; 0; 0; 0] =
  ((keyboard 17 (map Some [0; 0; 57; 0; 0; 0; 0; 0])) <| m_ucLastPhyCode := 57 |> <| keymap := with_caps true true false |>,
   []).
Proof. vm_compute. reflexivity. Qed.

Lemma keyboard_reports_witness :
  wp (USBKeyboardDeviceCompletionRoutine 32 64) (λ _ '(x', h'),
    m_bCapsLock (keymap (device x')) = true ∧ calls x' = [])
    (input (keyboard 17 (map Some [0; 0; 57; 0; 0; 0; 0; 0])), host).
Proof.
  eapply wp_mono.
  - apply (keyboard_reports 64 (input (keyboard 17 (map Some [0; 0; 57; 0; 0; 0; 0; 0]))) host completed
      [0; 0; 57; 0; 0; 0; 0; 0]); try done; [by apply keyboard_started| |apply with_caps_ok].
    repeat (constructor; [unfold is_u8; lia|]). constructor.
  - intros _ [x' h']. rewrite caps_step. intros (-> & _). by split.
Defined.

Lemma keyboard_leds_witness :
  wp USBKeyboardDeviceUpdateLEDs (λ _ '(x', h'),
    m_ucLastLEDStatus (device x') = 1 ∧ ∃ r, bus_get h' = [BusDone (ControlOut 16 0x21 SET_REPORT 0x200 0 [1]) r []])
    (input (keyboard 17 (blank 8)), bus ∅).
Proof.
  eapply wp_mono.
  - apply (keyboard_leds 0 config 9 [18%nat; 27%nat] dev (input (keyboard 17 (blank 8))) (bus ∅) (keyboard_searching _ _)).
  - intros _ [x' h'] [-> H]. split; [reflexivity|]. destruct H as (r & num & Hnum & Hb). exists r.
    vm_compute in Hnum. injection Hnum as <-. exact Hb.
Defined.

(** "Hi", with two reports while the first key is held. *)
Definition hi : list (TUSBRequest * list Z) :=
  [(completed, pressed 7 true); (completed, pressed 7 true); (completed, released); (completed, pressed 8 false); (completed, released)].
Lemma hi_strokes : strokes hi [(7, true); (8, false)].
Proof.
  apply (strokes_cons _ [completed]); [by split|by constructor|by split|lia|].
  apply (strokes_cons _ []); [by split|by constructor|by split|lia|]. constructor.
Qed.

Lemma hi_session : ∃ x, keyboard_session (H := AsyncBus) 64 start hi x.
Proof.
  assert (∀ i s, 0 <= i < 26 → Forall is_u8 (pressed i s)) as Hu.
  { intros i s Hi. unfold pressed. apply Forall_cons; [by destruct s|]. do 7 (apply Forall_cons; [unfold is_u8; lia|]). constructor. }
  assert (Forall is_u8 released) as H2 by (do 8 (apply Forall_cons; [unfold is_u8; lia|]); constructor).
  pose proof (Hu 7 true ltac:(lia)) as H1. pose proof (Hu 8 false ltac:(lia)) as H3.
  eexists. unfold hi.
  eapply (session_report _ _ host); [exact I|by apply keyboard_started|reflexivity|reflexivity|exact H1|vm_compute; reflexivity|].
  eapply (session_report _ _ host); [exact I|by apply keyboard_started|reflexivity|reflexivity|exact H1|vm_compute; reflexivity|].
  eapply (session_report _ _ host); [exact I|by apply keyboard_started|reflexivity|reflexivity|exact H2|vm_compute; reflexivity|].
  eapply (session_report _ _ host); [exact I|by apply keyboard_started|reflexivity|reflexivity|exact H3|vm_compute; reflexivity|].
  eapply (session_report _ _ host); [exact I|by apply keyboard_started|reflexivity|reflexivity|exact H2|vm_compute; reflexivity|].
  constructor.
Qed.

Lemma keyboard_types_witness :
  ∃ x, keyboard_session (H := AsyncBus) 64 start hi x ∧ calls x = [KeyPressed 77 [105]; KeyPressed 77 [72]].
Proof.
  destruct hi_session as [x Hx]. exists x. split; [exact Hx|].
  assert (cooked_keyboard 77 false true false 0 (device start)) as Hc by (split; done).
  apply (keyboard_types (H := AsyncBus) 64 77 false true false hi [(7, true); (8, false)] start x ltac:(done) Hc hi_strokes Hx).
Defined.
End KeyboardDemo.
