(* ===== verification/UsbMidi.v ===== *)
(** * lib/usbmidi.c: MIDI streams

    Packets of four bytes over a bulk IN endpoint: a byte with the cable and the
    code index, which says how many of the other three belong to the message. *)
From S2P Require Import Prelude Util CString Endpoint ConfigParser DeviceName.
From S2P Require Import UsbBus UsbFunction InputDriver.
Import Names.

Definition EVENT_PACKET_SIZE : Z := 4.
Definition DESCRIPTOR_CS_ENDPOINT : Z := 37.
Definition cin_to_length : list Z := [0; 0; 2; 3; 3; 1; 2; 3; 3; 3; 3; 3; 2; 2; 3; 1].

(** The handler is given the cable, the length and a pointer into the buffer:
    the cells from there on. *)
Inductive midi_call :=
  | MIDIPacket (pPacketHandler nCable nLength : Z) (pPacket : buffer).

(** [m_URB] is the address of the member; [packets] are the bytes at
    [m_pPacketBuffer]. The size is not initialised by the constructor. *)
Record TUSBMIDIDevice := {
  m_USBFunction : TUSBFunction;
  m_pEndpointIn : Z;
  m_pPacketHandler : Z;
  m_URB : Z;
  m_usBufferSize : option Z;
  m_pPacketBuffer : Z;
  packets : buffer
}.
#[global] Instance TUSBMIDIDevice_eta : Eta TUSBMIDIDevice := λ r,
  {| m_USBFunction := m_USBFunction r; m_pEndpointIn := m_pEndpointIn r;
     m_pPacketHandler := m_pPacketHandler r; m_URB := m_URB r; m_usBufferSize := m_usBufferSize r;
     m_pPacketBuffer := m_pPacketBuffer r; packets := packets r |}.

#[export] Instance midi_object : InputObject TUSBMIDIDevice :=
  {| io_function := m_USBFunction; io_set_function f m := m <| m_USBFunction := f |>;
     io_endpoint := m_pEndpointIn; io_set_endpoint p m := m <| m_pEndpointIn := p |>;
     io_urb := m_URB |}.
#[export] Instance midi_object_laws : InputObjectLaws TUSBMIDIDevice.
Proof. split; try done. by intros []. Qed.

Section Midi.
Context {H : Type} `{!UsbHost H} `{!AsyncHost H}.
Abbreviation W := (Input TUSBMIDIDevice midi_call * H)%type.

Definition USBMIDIDevice (pDevice : TUSBFunction) (URB : Z) : M W TUSBMIDIDevice :=
  f ← USBFunctionCopy pDevice;
  mret {| m_USBFunction := f <| Configure := USBMIDIDeviceConfigure_ |>; m_pEndpointIn := 0;
          m_pPacketHandler := 0; m_URB := URB; m_usBufferSize := None; m_pPacketBuffer := 0;
          packets := [] |}.

Definition _CUSBMIDIDevice : M W unit :=
  dset (λ m, m <| m_pPacketBuffer := 0 |> <| packets := [] |>) ;;
  p ← dget m_pEndpointIn;
  (if negb (p =? 0) then free_endpoint p ;; dset (λ m, m <| m_pEndpointIn := 0 |>) else mret tt) ;;
  f ← dget m_USBFunction;
  f ← _USBFunction f;
  dset (λ m, m <| m_USBFunction := f |>).

(** [pPacketBuffer]: what [malloc] returns for the packet buffer. *)
Context (pPacketBuffer : Z).

Definition take_stream (o : nat) (wMaxPacketSize : Z) : M W unit :=
  p ← dget m_pEndpointIn;
  c_assert (p =? 0) ;;
  let size := u16 (wMaxPacketSize - wMaxPacketSize mod EVENT_PACKET_SIZE) in
  dset (λ m, m <| m_usBufferSize := Some size |>) ;;
  b ← dget m_pPacketBuffer;
  c_assert (b =? 0) ;;
  dset (λ m, m <| m_pPacketBuffer := pPacketBuffer |> <| packets := blank size |>) ;;
  c_assert (negb (pPacketBuffer =? 0)) ;;
  f ← dget m_USBFunction;
  p ← endpoint_from f o;
  dset (λ m, m <| m_pEndpointIn := p |>).

(** Bulk IN endpoints that a class-specific endpoint descriptor follows. Every
    turn passes a descriptor, so the bytes of the configuration are enough fuel. *)
Fixpoint stream_loop (fuel : nat) : M W unit :=
  match fuel with
  | O => fail OutOfFuel
  | S fuel =>
      o ← next_descriptor DESCRIPTOR_ENDPOINT;
      match o with
      | None => mret tt
      | Some o =>
          f ← dget m_USBFunction;
          desc ← endpoint_descriptor f o;
          if negb (Z.land (bEndpointAddress desc) 0x80 =? 0x80)
             || negb (Z.land (bmAttributes desc) 0x3F =? 0x02)
          then stream_loop fuel
          else
            m ← next_descriptor DESCRIPTOR_CS_ENDPOINT;
            if negb (bool_decide (m = Some (o + Z.to_nat (bLength desc))%nat)) then stream_loop fuel
            else take_stream o (wMaxPacketSize desc) ;; stream_loop fuel
      end
  end.

Definition USBMIDIDeviceCompletionRoutine_ : TURBCompletionRoutine := ClientRoutine 3.

Definition USBMIDIDeviceStartRequest (pThis : Z) : M W bool :=
  p ← dget m_pEndpointIn;
  b ← dget m_pPacketBuffer;
  size ← dget m_usBufferSize;
  match size with
  | None => fail UndefBehaviour
  | Some size => start_request p b size pThis USBMIDIDeviceCompletionRoutine_
  end.

(** "umidi" *)
Definition umidi : list Z := [117; 109; 105; 100; 105].

Definition midi_bring_up (pThis : Z) : M W bool :=
  f ← dget m_USBFunction;
  ok ← USBFunctionConfigure f;
  if negb ok then mret false
  else
    n ← take_number;
    publish umidi n pThis ;;
    USBMIDIDeviceStartRequest pThis.

Definition USBMIDIDeviceConfigure (pThis : Z) : M W bool :=
  f ← dget m_USBFunction;
  n ← USBFunctionGetNumEndpoints f;
  if n <? 1 then USBFunctionConfigurationError f ;; mret false
  else
    p ← parser_of f;
    stream_loop (S (m_pEndPosition p)) ;;
    e ← dget m_pEndpointIn;
    if e =? 0 then f ← dget m_USBFunction; USBFunctionConfigurationError f ;; mret false
    else midi_bring_up pThis.

Definition USBMIDIDeviceRegisterPacketHandler (pPacketHandler : Z) : M W unit :=
  c_assert (negb (pPacketHandler =? 0)) ;;
  dset (λ m, m <| m_pPacketHandler := pPacketHandler |>).

(** One packet. *)
Definition midi_packet (i : nat) : M W unit :=
  b ← dget packets;
  b0 ← cell_at b i;
  if negb (b0 =? 0) then
    h ← dget m_pPacketHandler;
    if negb (h =? 0) then
      let nCable := Z.shiftr b0 4 in
      n ← (match cin_to_length !! Z.to_nat (Z.land b0 0xf) with Some n => mret n | None => fail MemFault end);
      call (MIDIPacket h nCable n (drop (S i) b))
    else mret tt
  else mret tt.

(** From packet to packet; [fuel] packets are enough for the length. *)
Fixpoint packet_loop (fuel : nat) (i n : nat) : M W unit :=
  match fuel with
  | O => fail OutOfFuel
  | S fuel => if (i <? n)%nat then midi_packet i ;; packet_loop fuel (i + 4) n else mret tt
  end.

Definition USBMIDIDeviceCompletionRoutine (pURB pThis : Z) : M W unit :=
  c_assert (negb (pThis =? 0)) ;;
  c_assert (negb (pURB =? 0)) ;;
  urb ← dget m_URB;
  c_assert (urb =? pURB) ;;
  r ← urb_at pURB;
  (if truthy (USBRequestGetStatus r) then
     n ← USBRequestGetResultLength r;
     if n mod EVENT_PACKET_SIZE =? 0 then
       b ← dget m_pPacketBuffer;
       c_assert (negb (b =? 0)) ;;
       packet_loop (S (Z.to_nat n)) 0 (Z.to_nat n)
     else mret tt
   else mret tt) ;;
  finish_request ;;
  USBMIDIDeviceStartRequest pThis ;; mret tt.
End Midi.

(** ** Configuring *)

(** A bulk IN endpoint. *)
Definition bulk_in (b : list Z) (pos : nat) : bool :=
  match b !! (pos + 2)%nat, b !! (pos + 3)%nat with
  | Some a, Some t => (Z.land a 0x80 =? 0x80) && (Z.land t 0x3F =? 0x02)
  | _, _ => false
  end.

(** The streams among the descriptors [l]: bulk IN endpoints whose own
    descriptor is followed by a class-specific one. *)
Fixpoint streams (fuel : nat) (b : list Z) (l : list nat) : list nat :=
  match fuel with
  | O => []
  | S fuel =>
      let l1 := search_rest b DESCRIPTOR_ENDPOINT l in
      match (search b 0 DESCRIPTOR_ENDPOINT l).1 with
      | None => []
      | Some pos =>
          if bulk_in b pos then
            let m := (search b 0 DESCRIPTOR_CS_ENDPOINT l1).1 in
            let l2 := search_rest b DESCRIPTOR_CS_ENDPOINT l1 in
            if bool_decide (m = option_map (λ len, (pos + Z.to_nat len)%nat) (b !! pos))
            then pos :: streams fuel b l2 else streams fuel b l2
          else streams fuel b l1
      end
  end.

Lemma search_end b e e' ty l : (search b e ty l).1 = (search b e' ty l).1.
Proof. induction l as [|q l IH]; simpl; [done|]. repeat case_match; done. Qed.

Lemma search_rest_length b ty l : (length (search_rest b ty l) <= length l)%nat.
Proof. induction l as [|q l IH]; simpl; [done|]. repeat case_match; simpl; lia. Qed.

(** The descriptors are enough fuel. *)
Lemma streams_fuel b l fuel fuel' : (length l < fuel)%nat → (length l < fuel')%nat → streams fuel b l = streams fuel' b l.
Proof.
  revert fuel' l. induction fuel as [|fuel IH]; intros [|fuel'] l H1 H2; try lia. cbn [streams].
  destruct (search b 0 DESCRIPTOR_ENDPOINT l).1 as [pos|] eqn:E; [|done].
  pose proof (search_rest_shorter _ _ _ _ _ E) as Hs.
  pose proof (search_rest_length b DESCRIPTOR_CS_ENDPOINT (search_rest b DESCRIPTOR_ENDPOINT l)) as Hs2.
  rewrite (IH fuel' (search_rest b DESCRIPTOR_ENDPOINT l)) by lia.
  rewrite (IH fuel' (search_rest b DESCRIPTOR_CS_ENDPOINT (search_rest b DESCRIPTOR_ENDPOINT l))) by lia. done.
Qed.

(** Endpoints among those at [l] have room for a packet. *)
Definition packet_room (b : list Z) (l : list nat) : Prop :=
  ∀ pos, pos ∈ l → b !! (pos + 1)%nat = Some DESCRIPTOR_ENDPOINT →
    ∃ lo hi, b !! (pos + 4)%nat = Some lo ∧ b !! (pos + 5)%nat = Some hi ∧ 4 <= lo + 256 * hi.

Section Configure.
Context {H : Type} `{!UsbHost H} `{!UsbHostLaws H} `{!UsbHostRecovers H} `{!AsyncHost H} `{!AsyncHostLaws H}.
Implicit Types (x : Input TUSBMIDIDevice midi_call) (h : H).
Context (pPacketBuffer : Z).
Abbreviation routine := USBMIDIDeviceCompletionRoutine_.

(** No stream yet, or one with its buffer. *)
Definition stream_taken x h : Prop :=
  input_endpoint (usb_get h) (m_pEndpointIn (device x)) EndpointTypeBulk ∧
  ∃ size, m_usBufferSize (device x) = Some size ∧ size mod 4 = 0 ∧ 0 < size < 65536 ∧
    m_pPacketBuffer (device x) = pPacketBuffer ∧ packets (device x) = blank size.
Definition stream_state x h : Prop :=
  (m_pEndpointIn (device x) = 0 ∧ m_pPacketBuffer (device x) = 0) ∨ stream_taken x h.

(** Nothing changes that the loop is not about. *)
Definition same_driver x x' : Prop :=
  names x' = names x ∧ s_nDeviceNumber x' = s_nDeviceNumber x ∧ calls x' = calls x ∧
  m_URB (device x') = m_URB (device x) ∧ m_pPacketHandler (device x') = m_pPacketHandler (device x) ∧
  fn_pDevice (m_USBFunction (device x')) = fn_pDevice (m_USBFunction (device x)).

Lemma same_driver_trans x1 x2 x3 : same_driver x1 x2 → same_driver x2 x3 → same_driver x1 x3.
Proof. unfold same_driver. intuition congruence. Qed.

Lemma stream_state_extends x h h' : extends (usb_get h) (usb_get h') → stream_state x h → stream_state x h'.
Proof.
  intros [Hd Hx] [?|[(H0 & e & He & Ht & Hi & Hm & Hdev) Hs]]; [by left|right]. split; [|done].
  split; [done|]. exists e. split; [by apply Hx|]. by rewrite Hd.
Qed.

Lemma wp_take_stream k b o l d pos mps x h (Q : unit → Input TUSBMIDIDevice midi_call * H → Prop) :
  searching k b o l d x h → m_pEndpointIn (device x) = 0 → m_pPacketBuffer (device x) = 0 →
  (pos + 7 <= length b)%nat → b !! pos = Some 7 ∨ b !! pos = Some 9 →
  b !! (pos + 1)%nat = Some DESCRIPTOR_ENDPOINT → bulk_in b pos = true →
  b !! (pos + 4)%nat = Some (mps mod 256) → b !! (pos + 5)%nat = Some (mps / 256) → 4 <= mps < 65536 →
  pPacketBuffer ≠ 0 →
  (∀ x' h', searching k b o l d x' h' → extends (usb_get h) (usb_get h') → bus_get h' = bus_get h →
     stream_taken x' h' → same_driver x x' → Q tt (x', h')) →
  wp (take_stream pPacketBuffer pos mps) Q (x, h).
Proof.
  intros Hs H0 Hb0 Hpos Hlen Hty Hbulk E4 E5 Hmps Hpb HQ. unfold take_stream.
  wp_step. apply wp_dget. rewrite H0. wp_step. apply wp_assert; [done|]. cbv zeta.
  wp_step. apply wp_dset. wp_step. apply wp_dget. cbn [m_pPacketBuffer device upd]. rewrite Hb0.
  wp_step. apply wp_assert; [done|]. wp_step. apply wp_dset. wp_step.
  apply wp_assert; [by apply negb_true_iff, Z.eqb_neq|]. wp_step. apply wp_dget. wp_step.
  pose proof Hs as [Hr Hf Hd He].
  assert (∃ a t, b !! (pos + 2)%nat = Some a ∧ b !! (pos + 3)%nat = Some t ∧ Z.land a 0x80 = 0x80 ∧ Z.land t 3 = 2)
    as (a & t & E2 & E3 & Ha & Ht).
  { unfold bulk_in in Hbulk. destruct (b !! (pos + 2)%nat) as [a|]; [|done]. destruct (b !! (pos + 3)%nat) as [t|]; [|done].
    apply andb_true_iff in Hbulk as [Ha%Z.eqb_eq Ht%Z.eqb_eq]. exists a, t. split_and!; try done. by apply land_bulk. }
  eapply (wp_endpoint_from k b l o pos); [exact Hr|exact Hf|by eexists|lia|done|done| | |].
  { rewrite E4, E5. destruct (decide (mps mod 256 = 0)); [right|left]; intros [= ?]; lia. }
  { intros v Hv. left. congruence. }
  intros p h' ep Hp Hr' Hx Hb He' Hty' Hdir [M4 M5] Hpid (_ & e1 & He1 & _ & Hm1 & Hdev1). apply wp_dset.
  rewrite He' in He1. injection He1 as <-. specialize (Hty' _ E3). specialize (Hdir _ E2).
  rewrite Ht in Hty'. rewrite Ha in Hdir. simpl in Hty'.
  apply HQ; [|done|done| |by split_and!].
  - eapply searching_device; [by eapply searching_extends|done].
  - split; [split; [done|]; exists ep; done|].
    exists (u16 (mps - mps mod 4)). split; [done|]. unfold u16. split; [|split; [|done]].
    + assert (mps - mps mod 4 = 4 * (mps / 4)) as -> by lia. rewrite (Z.mod_small _ 65536) by lia. lia.
    + rewrite (Z.mod_small _ 65536) by lia. lia.
Qed.

Lemma wp_stream_loop k b o d fuel l x h (Q : unit → Input TUSBMIDIDevice midi_call * H → Prop) :
  searching k b o l d x h → packet_room b l → (length l < fuel)%nat → stream_state x h → pPacketBuffer ≠ 0 →
  (length (streams fuel b l) + (if decide (m_pEndpointIn (device x) = 0%Z) then 0 else 1) <= 1)%nat →
  (∀ l' x' h', searching k b o l' d x' h' → extends (usb_get h) (usb_get h') → bus_get h' = bus_get h →
     stream_state x' h' → same_driver x x' → Q tt (x', h')) →
  wp (stream_loop pPacketBuffer fuel) Q (x, h).
Proof.
  revert l x h. induction fuel as [|fuel IH]; intros l x h Hs Hroom Hl Hst Hpb Hone HQ; [lia|].
  cbn [stream_loop]. cbn [streams] in Hone. wp_step. eapply wp_next_descriptor; [exact Hs|].
  intros r f [e Er] Hfd Hs1 Hfound. set (x1 := x <| device := _ |>) in *.
  assert (same_driver x x1) as Hsd1 by by split_and!.
  assert (stream_state x1 h) as Hst1 by exact Hst.
  rewrite (search_end b 0 e), <- Er in Hone.
  destruct r as [pos|]; [|wp_step; by eapply HQ; [exact Hs1|apply extends_refl|..]].
  destruct (Hfound pos eq_refl) as (Hty & len & Hlen & (_ & _ & Hsz) & Hin). specialize (Hsz eq_refl).
  assert (pos ∈ l) as Hpos by (eapply search_elem; by symmetry).
  pose proof (search_rest_shorter _ _ _ _ _ (eq_sym Er)) as Hshort.
  pose proof Hs1 as [Hr1 Hf1 _ _].
  assert ((pos + 7 <= length b)%nat) as Hp7 by (destruct Hsz; lia).
  wp_step. apply wp_dget. wp_step. eapply wp_endpoint_descriptor; [exact Hf1|exact Hp7|].
  intros desc E0 E1 E2 E3 [E4 E5] Hmps _ _.
  assert (bulk_in b pos = (Z.land (bEndpointAddress desc) 0x80 =? 0x80) && (Z.land (bmAttributes desc) 0x3F =? 0x02)) as Hbulk.
  { unfold bulk_in. by rewrite E2, E3. }
  rewrite <- negb_andb, <- Hbulk. destruct (bulk_in b pos) eqn:Eb; cbn [negb].
  2: { eapply (IH (search_rest b DESCRIPTOR_ENDPOINT l)); [exact Hs1| |lia|exact Hst1|done|exact Hone|].
       - intros q Hq. apply Hroom. by eapply search_rest_suffix.
       - intros l' x' h' H1 H2 H3 H4 H5. eapply HQ; [done..|]. by eapply same_driver_trans. }
  wp_step. eapply wp_next_descriptor; [exact Hs1|]. intros m f2 [e2 Em] Hfd2 Hs2 _. set (x2 := x1 <| device := _ |>) in *.
  assert (same_driver x x2) as Hsd2.
  { split_and!; try done. change (fn_pDevice f2 = fn_pDevice (m_USBFunction (device x))). by rewrite Hfd2. }
  assert (stream_state x2 h) as Hst2 by exact Hst.
  set (l1 := search_rest b DESCRIPTOR_ENDPOINT l) in *.
  pose proof (search_rest_length b DESCRIPTOR_CS_ENDPOINT l1) as Hshort2.
  set (l2 := search_rest b DESCRIPTOR_CS_ENDPOINT l1) in *.
  assert (packet_room b l2) as Hroom2.
  { intros q Hq. apply Hroom. by eapply search_rest_suffix, search_rest_suffix. }
  rewrite (search_end b 0 e2), <- Em, E0 in Hone. cbn [option_map] in Hone.
  case_bool_decide as Ecs; cbn [negb].
  - simpl in Hone.
    assert (m_pEndpointIn (device x) = 0) as H0 by (destruct (decide (m_pEndpointIn (device x) = 0)); [done|lia]).
    rewrite decide_True in Hone by done.
    destruct Hst as [[_ Hb0]|[[H0' _] _]]; [|done].
    destruct (Hroom pos Hpos Hty) as (lo & hi & Elo & Ehi & Hge).
    wp_step. eapply (wp_take_stream k b o l2 d pos (wMaxPacketSize desc)); [exact Hs2|exact H0|exact Hb0|done| |done|done|done|done| |done|].
    { rewrite Hlen. destruct Hsz; subst; auto. }
    { rewrite E4 in Elo. rewrite E5 in Ehi. injection Elo as <-. injection Ehi as <-. unfold is_u16 in Hmps. lia. }
    intros x3 h3 Hs3 Hx3 Hb3 Hst3 Hsd3.
    eapply (IH l2); [exact Hs3|exact Hroom2|lia|by right|done| |].
    { destruct (decide (m_pEndpointIn (device x3) = 0)); simpl in *; lia. }
    intros l' x' h' H1 H2 H3 H4 H5. eapply HQ; [done|by eapply extends_trans|congruence|done|].
    eapply same_driver_trans; [|done]. by eapply same_driver_trans.
  - eapply (IH l2); [exact Hs2|exact Hroom2|lia|exact Hst2|done|exact Hone|].
    intros l' x' h' H1 H2 H3 H4 H5. eapply HQ; [done..|]. by eapply same_driver_trans.
Qed.

Lemma wp_midi_start pThis size x h (Q : bool → Input TUSBMIDIDevice midi_call * H → Prop) :
  host_accepts h → started x h EndpointTypeBulk → m_pPacketBuffer (device x) ≠ 0 →
  m_usBufferSize (device x) = Some size → 0 < size < 65536 →
  (∀ ok h', bus_get h' = bus_get h → started x h' EndpointTypeBulk →
     requested (m_pPacketBuffer (device x)) size pThis routine ok (host_submitted h) x h' → Q ok (x, h')) →
  wp (USBMIDIDeviceStartRequest pThis) Q (x, h).
Proof.
  intros Ha Hs Hb Hsz Hr HQ. unfold USBMIDIDeviceStartRequest.
  wp_step. apply wp_dget. wp_step. apply wp_dget. wp_step. apply wp_dget. rewrite Hsz.
  change (m_pEndpointIn (device x)) with (io_endpoint (device x)).
  apply (wp_start_request _ _ _ _ EndpointTypeBulk); [done|done|by left|done|lia|done|].
  intros ok h' H1 _. by apply HQ.
Qed.

(** A stream that runs: the buffer is a whole number of packets, no larger than
    the endpoint's packet, and the first transfer into it is requested. *)
Definition midi_outcome (pThis : Z) (ok : bool) x x' h' : Prop :=
  calls x' = calls x ∧
  (ok = false ∧ names x' = names x ∧ s_nDeviceNumber x' = s_nDeviceNumber x ∨
   enrolled umidi pThis x x' ∧ started x' h' EndpointTypeBulk ∧ stream_taken x' h' ∧
   ∃ size, m_usBufferSize (device x') = Some size ∧ ∃ l, requested pPacketBuffer size pThis routine ok l x' h').

(** Configuring a MIDI device with at most one stream ends without a fault after
    at most one request, whatever the device answers: without a stream nothing is
    entered; otherwise, if the setting is accepted, the device is entered as
    "umidi" with its number and waits for packets in a buffer that holds a
    whole number of them. *)
Theorem midi_configure k pThis b o l d x h :
  searching (1 + k) b o l d x h → packet_room b l → (length (streams (S (length l)) b l) <= 1)%nat →
  m_pEndpointIn (device x) = 0 → m_pPacketBuffer (device x) = 0 → m_URB (device x) ≠ 0 →
  pPacketBuffer ≠ 0 → pThis ≠ 0 → s_pThis (names x) ≠ 0 →
  wp (USBMIDIDeviceConfigure pPacketBuffer pThis) (λ ok '(x', h'), midi_outcome pThis ok x x' h') (x, h).
Proof.
  intros Hs Hroom Hone H0 Hb0 Hu Hpb Hp Hn. pose proof Hs as [_ Hf _ _].
  pose proof Hf as [_ _ _ _ (p1 & Hp1 & (_ & _ & last & audio & Hch) & _)].
  assert (∀ x' h', same_driver x x' → midi_outcome pThis false x x' h') as Hno
    by (intros x' h' (E1 & E2 & E3 & _); split; [done|by left]).
  assert (same_driver x x) as Hrefl by by split_and!.
  unfold USBMIDIDeviceConfigure. wp_step. apply wp_dget. wp_step.
  eapply wp_interface_byte; [exact Hf|unfold off_bNumEndpoints; lia|]. intros n _ _.
  destruct (n <? 1); [wp_step; eapply wp_ConfigurationError; [exact Hf|]; wp_step; by apply Hno|].
  wp_step. eapply wp_parser_of; [exact Hp1|]. pose proof (chain_length _ _ _ _ _ _ Hch) as Hcl.
  wp_step. eapply (wp_stream_loop _ b o d); [exact Hs|exact Hroom|lia|by left|done| |].
  { rewrite decide_True by done. rewrite (streams_fuel b l _ (S (length l))) by lia. lia. }
  intros l' x1 h1 Hs1 Hx1 Hb1 Hst1 Hsd1. wp_step. apply wp_dget. pose proof Hs1 as [Hr1 Hf1 Hd1 He1].
  destruct (Z.eqb_spec (m_pEndpointIn (device x1)) 0) as [E0|E0].
  { wp_step. apply wp_dget. wp_step. eapply wp_ConfigurationError; [exact Hf1|]. wp_step. by apply Hno. }
  destruct Hst1 as [[? _]|Hst1]; [done|]. unfold midi_bring_up. wp_step. apply wp_dget. wp_step.
  eapply (wp_USBFunctionConfigure k); [exact Hr1|exact Hf1|exact Hd1|exact He1|].
  intros ok h2 Hr2 Hst2. destruct ok; cbn [negb]; [|wp_step; by apply Hno].
  destruct Hsd1 as (S1 & S2 & S3 & S4 & S5 & S6).
  wp_step. apply wp_take_number. wp_step. apply wp_enter; [done|by cbn; rewrite S1|].
  set (x3 := _ <| names := _ |>). destruct Hst1 as [Hi (size & T1 & T2 & T3 & T4 & T5)].
  assert (searching k b o l' d x3 h2) as Hs3 by (apply (searching_device _ _ _ _ _ x1); [by eapply searching_step|done]).
  assert (input_endpoint (usb_get h2) (m_pEndpointIn (device x1)) EndpointTypeBulk) as Hi2
    by (eapply input_endpoint_same; [by apply Hst2|exact Hi]).
  assert (io_urb (device x3) ≠ 0) as Hu3 by (simpl; by rewrite S4).
  eapply (wp_midi_start pThis size); [eapply host_accepts_ready, Hs3|by eapply searching_started|by cbn; rewrite T4|exact T1|done|].
  intros ok h4 _ Hst4 Hreq. split; [exact S3|]. right.
  split; [split; cbn; by rewrite ?S1, ?S2|]. split; [exact Hst4|].
  split; [split; [by destruct Hst4|]; exists size; done|].
  exists size. split; [exact T1|]. change (m_pPacketBuffer (device x3)) with (m_pPacketBuffer (device x1)) in Hreq. rewrite T4 in Hreq. by eexists.
Qed.
End Configure.

(** ** Packets *)

(** The calls for [n] packets at the beginning of [b], in their order. *)
Fixpoint midi_events (pPacketHandler : Z) (n : nat) (b : buffer) : list midi_call :=
  match n, b with
  | S n, Some b0 :: b =>
      (if (b0 =? 0) || (pPacketHandler =? 0) then []
       else [MIDIPacket pPacketHandler (b0 / 16) (nth (Z.to_nat (b0 mod 16)) cin_to_length 0) b])
      ++ midi_events pPacketHandler n (drop 3 b)
  | _, _ => []
  end.

(** The packets of a completed request: none after an error or if the result is
    not a whole number of them. *)
Definition midi_result (m : TUSBMIDIDevice) (r : TUSBRequest) : list midi_call :=
  if truthy (m_bStatus r) && (m_nResultLen r mod 4 =? 0)
  then midi_events (m_pPacketHandler m) (Z.to_nat (m_nResultLen r / 4)) (packets m) else [].

(** A call whose message was received: at most three bytes, all of them bytes of
    the device. *)
Definition message_received (c : midi_call) : Prop :=
  let '(MIDIPacket _ nCable nLength pPacket) := c in
  0 <= nCable < 16 ∧ 0 <= nLength <= 3 ∧
  ∃ l, take (Z.to_nat nLength) pPacket = map Some l ∧ length l = Z.to_nat nLength.

Lemma cin_range i : 0 <= i < 16 → cin_to_length !! Z.to_nat i = Some (nth (Z.to_nat i) cin_to_length 0) ∧
  0 <= nth (Z.to_nat i) cin_to_length 0 <= 3.
Proof.
  intros Hi. assert (Z.to_nat i < 16)%nat as Hn by lia. revert Hn. generalize (Z.to_nat i). intros n Hn.
  do 16 (destruct n as [|n]; [simpl; split; [done|lia]|]). lia.
Qed.

Lemma events_received h n d rest : length d = (4 * n)%nat → Forall is_u8 d →
  Forall message_received (midi_events h n (map Some d ++ rest)).
Proof.
  revert d. induction n as [|n IH]; intros d Hl Hu; [constructor|].
  destruct d as [|b0 [|b1 [|b2 [|b3 d]]]]; simpl in Hl; try lia.
  inversion Hu as [|? ? H0 H1]; subst. do 3 (inversion H1 as [|? ? _ H2]; subst; clear H1; rename H2 into H1).
  cbn [map app midi_events drop]. apply Forall_app. split; [|apply IH; [lia|done]].
  destruct (_ || _); constructor; [|constructor]. unfold is_u8 in H0.
  assert (0 <= b0 mod 16 < 16) as Hm by (apply Z.mod_pos_bound; lia).
  destruct (cin_range _ Hm) as [_ Hc]. split; [split; [apply Z.div_pos|apply Z.div_lt_upper_bound]; lia|]. split; [done|].
  set (k := nth _ _ _) in *. exists (take (Z.to_nat k) [b1; b2; b3]).
  assert (Z.to_nat k <= 3)%nat as Hk by lia. revert Hk. generalize (Z.to_nat k). intros [|[|[|[|]]]] Hk; try lia; done.
Qed.

Section Packets.
Context {H : Type} `{!UsbHost H} `{!UsbHostLaws H} `{!UsbHostRecovers H} `{!AsyncHost H} `{!AsyncHostLaws H}.
Implicit Types (x : Input TUSBMIDIDevice midi_call) (h : H).
Abbreviation routine := USBMIDIDeviceCompletionRoutine_.

Lemma wp_midi_packet i b0 x h (Q : unit → Input TUSBMIDIDevice midi_call * H → Prop) :
  packets (device x) !! i = Some (Some b0) → is_u8 b0 →
  Q tt (x <| calls := (if (b0 =? 0) || (m_pPacketHandler (device x) =? 0) then []
     else [MIDIPacket (m_pPacketHandler (device x)) (b0 / 16) (nth (Z.to_nat (b0 mod 16)) cin_to_length 0)
             (drop (S i) (packets (device x)))]) ++ calls x |>, h) →
  wp (midi_packet i) Q (x, h).
Proof.
  intros Hb Hu HQ. unfold midi_packet. wp_step. apply wp_dget. wp_step. eapply wp_cell_at; [done|].
  assert (x <| calls := [] ++ calls x |> = x) as Hnil by by destruct x.
  destruct (Z.eqb_spec b0 0) as [E|E]; cbn [negb orb] in *; [wp_step; by rewrite <- Hnil|].
  wp_step. apply wp_dget. destruct (m_pPacketHandler (device x) =? 0); cbn [negb]; [wp_step; by rewrite <- Hnil|].
  wp_step. change 0xf with (Z.ones 4). rewrite Z.land_ones, Z.shiftr_div_pow2 by lia. change (2 ^ 4) with 16.
  destruct (cin_range (b0 mod 16) ltac:(apply Z.mod_pos_bound; lia)) as [-> _]. wp_step. by apply wp_call.
Qed.

(** The loop over [n] packets from [i] on. *)
Lemma wp_packet_loop n i fuel d rest x h (Q : unit → Input TUSBMIDIDevice midi_call * H → Prop) :
  drop i (packets (device x)) = map Some d ++ rest → length d = (4 * n)%nat → Forall is_u8 d → (n < fuel)%nat →
  Q tt (x <| calls := rev (midi_events (m_pPacketHandler (device x)) n (map Some d ++ rest)) ++ calls x |>, h) →
  wp (packet_loop fuel i (i + 4 * n)) Q (x, h).
Proof.
  revert i fuel d x. induction n as [|n IH]; intros i [|fuel] d x Hd Hl Hu Hf HQ; try lia; cbn [packet_loop].
  - rewrite (proj2 (Nat.ltb_ge _ _)) by lia. wp_step. simpl in HQ. by destruct x.
  - rewrite (proj2 (Nat.ltb_lt _ _)) by lia. destruct d as [|b0 [|b1 [|b2 [|b3 d]]]]; simpl in Hl; try lia.
    inversion Hu as [|? ? H0 H1]; subst. do 3 (inversion H1 as [|? ? _ H2]; subst; clear H1; rename H2 into H1).
    assert (packets (device x) !! i = Some (Some b0)) as Hi.
    { pose proof (list.lookup_drop (packets (device x)) i 0) as El. rewrite Hd, Nat.add_0_r in El. etransitivity; [symmetry; exact El|done]. }
    assert (drop (S i) (packets (device x)) = map Some [b1; b2; b3] ++ map Some d ++ rest) as Hrest.
    { replace (S i) with (i + 1)%nat by lia. rewrite <- drop_drop, Hd. done. }
    wp_step. eapply wp_midi_packet; [exact Hi|done|]. rewrite Hrest. set (x1 := x <| calls := _ |>).
    replace (i + 4 * S n)%nat with (i + 4 + 4 * n)%nat by lia.
    eapply (IH (i + 4)%nat fuel d x1); [|lia|done|lia|].
    + simpl. rewrite <- drop_drop, Hd. done.
    + cbn [map app midi_events drop] in HQ. rewrite rev_app_distr, <- app_assoc in HQ.
      subst x1. simpl in HQ |- *. destruct (_ || _); exact HQ.
Qed.

(** C21. A completed request: every packet in it that is not padding is told to the
    handler, once and in its order, with its cable and the length of its
    message, which lies in the bytes received; a failed request and one whose
    length is not a whole number of packets tell nothing. The next request
    always follows. *)
Theorem midi_reports pThis x h r d rest :
  host_accepts h → started x h EndpointTypeBulk → pThis ≠ 0 →
  m_pPacketBuffer (device x) ≠ 0 → m_usBufferSize (device x) = Some (Z.of_nat (length (packets (device x)))) →
  0 < Z.of_nat (length (packets (device x))) < 65536 →
  urbs (usb_get h) !! m_URB (device x) = Some r →
  packets (device x) = map Some d ++ rest → Forall is_u8 d → m_nResultLen r = Z.of_nat (length d) →
  wp (USBMIDIDeviceCompletionRoutine (m_URB (device x)) pThis) (λ _ '(x', h'),
    x' = x <| calls := rev (midi_result (device x) r) ++ calls x |> ∧
    Forall message_received (midi_result (device x) r) ∧
    started x' h' EndpointTypeBulk ∧ bus_get h' = bus_get h ∧
    ∃ ok, requested (m_pPacketBuffer (device x)) (Z.of_nat (length (packets (device x)))) pThis routine ok (host_submitted h) x' h') (x, h).
Proof.
  intros Ha Hs Hp Hb Hsz Hrange Hr Hpk Hu Hn. pose proof Hs as [_ _ _ Hurb].
  assert (∀ es, Forall message_received es →
    wp (finish_request ;; USBMIDIDeviceStartRequest pThis ;; mret tt) (λ _ '(x', h'),
      x' = x <| calls := rev es ++ calls x |> ∧ Forall message_received es ∧
      started x' h' EndpointTypeBulk ∧ bus_get h' = bus_get h ∧
      ∃ ok, requested (m_pPacketBuffer (device x)) (Z.of_nat (length (packets (device x)))) pThis routine ok (host_submitted h) x' h')
      (x <| calls := rev es ++ calls x |>, h)) as Hend.
  { intros es Hes. set (x' := x <| calls := _ |>). destruct Hs as [S1 S2 S3 S4].
    eapply (wp_finish_then _ r x' h EndpointTypeBulk); [done|by split|done|]. intros h1 Ha1 Hs1 Hb1 Hq1.
    wp_step. eapply (wp_midi_start _ _ x'); [done|done|done|exact Hsz|lia|].
    intros ok h2 E2 Hs2 Hreq. wp_step. split; [done|]. split; [done|]. split; [done|]. split; [congruence|].
    exists ok. by rewrite <- Hq1. }
  assert ((x <| calls := rev [] ++ calls x |>, h) = (x, h)) as Hstay by by destruct x.
  unfold USBMIDIDeviceCompletionRoutine, USBRequestGetStatus.
  wp_step. apply wp_assert; [by apply negb_true_iff, Z.eqb_neq|].
  wp_step. apply wp_assert; [by apply negb_true_iff, Z.eqb_neq|].
  wp_step. apply wp_dget. wp_step. apply wp_assert; [apply Z.eqb_refl|].
  wp_step. eapply wp_urb_at; [exact Hr|]. unfold midi_result. wp_step.
  destruct (truthy (m_bStatus r)) eqn:Est; cbn [andb].
  2: { wp_step. rewrite <- Hstay. by apply Hend. }
  wp_step. unfold USBRequestGetResultLength. wp_step. apply wp_assert; [done|]. wp_step.
  change EVENT_PACKET_SIZE with 4. destruct (Z.eqb_spec (m_nResultLen r mod 4) 0) as [Em|Em].
  2: { wp_step. rewrite <- Hstay. by apply Hend. }
  wp_step. apply wp_dget. wp_step. apply wp_assert; [by apply negb_true_iff, Z.eqb_neq|].
  set (k := Z.to_nat (m_nResultLen r / 4)).
  assert (length d = (4 * k)%nat) as Hlen by (unfold k; lia).
  replace (Z.to_nat (m_nResultLen r)) with (0 + 4 * k)%nat at 2 by (unfold k; lia).
  eapply (wp_packet_loop k 0 _ d rest); [by rewrite drop_0|done|done|lia|].
  rewrite <- Hpk. apply Hend. rewrite Hpk. by apply events_received.
Qed.
End Packets.

Module MidiDemo.
Import InputDemo.
(** A MIDI streaming interface: class 1, audio, so the endpoints have nine bytes;
    one bulk IN endpoint with its class-specific descriptor, or two of them. *)
Definition interface : list Z := [9; 2; 34; 0; 1; 1; 0; 0xA0; 50] ++ [9; 4; 0; 0; 1; 1; 3; 0; 0].
Definition stream (n : Z) : list Z := [9; 5; 0x80 + n; 2; 10; 0; 0; 0; 0] ++ [5; 0x25; 1; 1; n].
Definition one_stream : list Z := interface ++ stream 1.
Definition two_streams : list Z := interface ++ stream 1 ++ stream 2.

Definition function_at (b : list Z) (n : Z) : TUSBFunction :=
  {| Configure := NoConfigure; fn_pDevice := 1;
     fn_pConfigParser := Some {| cp_pBuffer := Some b; cp_nBufLen := n; m_bValid := true;
       m_pEndPosition := Z.to_nat n; m_pNextPosition := 18; m_pCurrentDescriptor := Some 9%nat;
       m_pErrorPosition := 0 |};
     m_pInterfaceDesc := Some 9%nat |}.
Definition midi (b : list Z) (n p h : Z) (pk : buffer) : TUSBMIDIDevice :=
  {| m_USBFunction := function_at b n; m_pEndpointIn := p; m_pPacketHandler := h; m_URB := 32;
     m_usBufferSize := if p =? 0 then None else Some 8; m_pPacketBuffer := if p =? 0 then 0 else 4096;
     packets := pk |}.
Abbreviation start b := (input (midi b (Z.of_nat (length b)) 0 0 [])).

Lemma stream_chain : chain one_stream 32 4 true 18 [18%nat; 27%nat].
Proof.
  eapply chain_step; [lia|reflexivity|vm_compute; lia|].
  eapply chain_step; [vm_compute; lia|reflexivity|vm_compute; lia|]. constructor.
Qed.

Lemma midi_function : function_ok one_stream [18%nat; 27%nat] 9 (function_at one_stream 32).
Proof.
  split; [done| |done|vm_compute; lia|].
  - unfold one_stream, interface, stream. cbn [app]. repeat (apply Forall_cons; [unfold is_u8; lia|]). constructor.
  - eexists. split; [reflexivity|]. split; [|vm_compute; lia].
    split; [done|]. split; [done|]. exists 4, true. exact stream_chain.
Qed.

Lemma midi_searching :
  searching (E := midi_call) 1 one_stream 9 [18%nat; 27%nat] dev (start one_stream) (bus ∅).
Proof.
  split; [apply willing_ready|exact midi_function|done|].
  split; [done|]. eexists. split; [reflexivity|]. split; [done|]. split; [simpl; lia|by eexists].
Qed.

Lemma room : packet_room one_stream [18%nat; 27%nat].
Proof.
  intros pos Hpos Hty. apply elem_of_cons in Hpos as [->|Hpos]; [by exists 10, 0|].
  apply list_elem_of_singleton in Hpos as ->. by vm_compute in Hty.
Qed.

Lemma midi_configure_witness :
  wp (USBMIDIDeviceConfigure 4096 64) (λ ok '(x', h'),
    (ok = true ∧ m_usBufferSize (device x') = Some 8) ∧ midi_outcome 4096 64 ok (start one_stream) x' h')
    (start one_stream, bus ∅).
Proof.
  eapply wp_mono.
  - apply wp_and with (P := λ ok w, ok = true ∧ m_usBufferSize (device (fst w)) = Some 8);
      [vm_compute; split; reflexivity|].
    apply (midi_configure 4096 0 64 one_stream 9 [18%nat; 27%nat] dev (start one_stream) (bus ∅) midi_searching room);
      [vm_compute; lia|done..].
  - intros ok [x' h'] [H1 H2]. split; [exact H1|exact H2].
Defined.

(** A second stream is an assertion failure: the loop does not end with the
    first, as the comment above it says, but takes every one. *)
Theorem midi_two_streams :
  USBMIDIDeviceConfigure (H := AsyncBus) 4096 64 (start two_streams, bus ∅) = Err AssertFailed.
Proof. vm_compute. reflexivity. Qed.

(** Two packets: a note on the cable 2 and padding. *)
Definition note : list Z := [0x29; 0x90; 60; 100; 0; 0; 0; 0].
Definition completed : TUSBRequest :=
  (pending_request 17 4096 8 64 USBMIDIDeviceCompletionRoutine_) <| m_bStatus := 1 |> <| m_nResultLen := 8 |>.
Definition bulk_bus : AsyncBus :=
  ([], {| bw_usb := (objects {[ 32 := completed ]}) <| endpoints :=
            {[ 17 := ep 1 EndpointTypeBulk USBPIDData0 ]} |>; bw_events := [] |}).
Abbreviation running := (input (midi one_stream 32 17 77 (map Some note))).

Lemma midi_started : started (E := midi_call) running bulk_bus EndpointTypeBulk.
Proof.
  split; simpl; [done|by eexists| |done].
  split; [done|]. eexists. split; [reflexivity|]. split; [done|]. split; [done|]. split; [simpl; lia|by eexists].
Qed.

Lemma midi_reports_witness :
  wp (USBMIDIDeviceCompletionRoutine 32 64) (λ _ '(x', h'),
    calls x' = [MIDIPacket 77 2 3 (map Some [0x90; 60; 100; 0; 0; 0; 0])]) (running, bulk_bus).
Proof.
  eapply wp_mono.
  - apply (midi_reports 64 running bulk_bus completed note []);
      [exact I|exact midi_started|done|done|done|done|done|done| |done].
    repeat (apply Forall_cons; [unfold is_u8; lia|]). constructor.
  - intros _ [x' h'] (-> & _). reflexivity.
Defined.
End MidiDemo.
