(* ===== verification/GamepadReport.v ===== *)
(** * lib/usbgamepad.c: report descriptors and reports

    A gamepad describes its reports by items: a byte with a tag and the number of
    bytes of an argument. [USBGamePadDeviceDecodeReport] walks over the items and
    takes the values of axes, hats and buttons out of the report as it comes to
    the items that announce them. *)
From S2P Require Import Prelude Util Endpoint UsbBus UsbFunction.

Definition HID_USAGE_PAGE : Z := 0x04.
Definition HID_USAGE : Z := 0x08.
Definition HID_REPORT_COUNT : Z := 0x94.
Definition HID_REPORT_SIZE : Z := 0x74.
Definition HID_LOGICAL_MIN : Z := 0x14.
Definition HID_LOGICAL_MAX : Z := 0x24.
Definition HID_PHYSICAL_MIN : Z := 0x34.
Definition HID_PHYSICAL_MAX : Z := 0x44.
Definition HID_INPUT : Z := 0x80.
Definition HID_REPORT_ID : Z := 0x84.
Definition HID_USAGE_PAGE_BUTTONS : Z := 0x09.
Definition HID_USAGE_JOYSTICK : Z := 0x04.
Definition HID_USAGE_GAMEPAD : Z := 0x05.
Definition HID_USAGE_X : Z := 0x30.
Definition HID_USAGE_SLIDER : Z := 0x36.
Definition HID_USAGE_HATSWITCH : Z := 0x39.
Definition UNDEFINED : Z := -123456789.

Definition MAX_AXIS : nat := 6.
Definition MAX_HATS : nat := 6.

Record TAxis := { value : Z; minimum : Z; maximum : Z }.
#[global] Instance TAxis_eta : Eta TAxis := λ r,
  {| value := value r; minimum := minimum r; maximum := maximum r |}.

Record USPiGamePadState := {
  naxes : Z; axes : list TAxis; nhats : Z; hats : list Z; nbuttons : Z; buttons : Z
}.
#[global] Instance USPiGamePadState_eta : Eta USPiGamePadState := λ r,
  {| naxes := naxes r; axes := axes r; nhats := nhats r; hats := hats r;
     nbuttons := nbuttons r; buttons := buttons r |}.

(** [m_URB] is the address of the member; [report] are the 64 bytes at
    [m_pReportBuffer]; [writeBuf] is the static array of
    [USBGamePadDevicePS3Configure]. The constructor does not set the index. *)
Record TUSBGamePadDevice := {
  m_USBFunction : TUSBFunction;
  m_nDeviceIndex : option Z;
  m_pEndpointIn : Z;
  m_pEndpointOut : Z;
  m_State : USPiGamePadState;
  m_pStatusHandler : Z;
  m_usReportDescriptorLength : Z;
  m_pHIDReportDescriptor : option buffer;
  m_URB : Z;
  m_pReportBuffer : Z;
  report : list Z;
  m_nReportSize : Z;
  writeBuf : list Z
}.
#[global] Instance TUSBGamePadDevice_eta : Eta TUSBGamePadDevice := λ r,
  {| m_USBFunction := m_USBFunction r; m_nDeviceIndex := m_nDeviceIndex r;
     m_pEndpointIn := m_pEndpointIn r; m_pEndpointOut := m_pEndpointOut r; m_State := m_State r;
     m_pStatusHandler := m_pStatusHandler r;
     m_usReportDescriptorLength := m_usReportDescriptorLength r;
     m_pHIDReportDescriptor := m_pHIDReportDescriptor r; m_URB := m_URB r;
     m_pReportBuffer := m_pReportBuffer r; report := report r; m_nReportSize := m_nReportSize r;
     writeBuf := writeBuf r |}.

(** ** Bits *)

(** A shift to the left of an [int]: as gcc defines it below the width, undefined
    from there on. A difference that no [int] holds is undefined. *)
Definition shl_int {S} (v n : Z) : M S Z :=
  if n <? 32 then mret (s32 (v * 2 ^ n)) else fail UndefBehaviour.
Definition sub_int {S} (a b : Z) : M S Z :=
  if (-2147483648 <=? a - b) && (a - b <=? 2147483647) then mret (a - b) else fail UndefBehaviour.
Definition byte_in {S} (b : list Z) (i : Z) : M S Z :=
  match b !! Z.to_nat i with Some v => mret v | None => fail MemFault end.

(** One turn: the next [j] and [result]. *)
Definition bit_step {S} (b : list Z) (offset length i j result : Z) : M S (Z * Z) :=
  let o := offset mod 8 in
  let last := u32 (offset + length - 1) / 8 in
  if offset / 8 =? last then
    hi ← shl_int 1 (u32 (o + length));
    lo ← shl_int 1 o;
    mask ← sub_int hi lo;
    c ← byte_in b i;
    mret (j, Z.shiftr (Z.land c (u8 mask)) o)
  else if i =? offset / 8 then
    lo ← shl_int 1 o;
    mask ← sub_int 0x100 lo;
    let j := u32 (j + (8 - o)) in
    c ← byte_in b i;
    v ← shl_int (Z.shiftr (Z.land c (u8 mask)) o) (u32 (length - j));
    mret (j, u32 v)
  else if i =? last then
    hi ← shl_int 1 (u32 (o + length));
    mask ← sub_int hi 1;
    c ← byte_in b i;
    mret (j, Z.lor result (Z.land c (u8 mask)))
  else
    let j := u32 (j + 8) in
    c ← byte_in b i;
    v ← shl_int c (u32 (length - j));
    mret (j, Z.lor result (u32 v)).

(** Every turn reads the byte [i], so one more turn than there are bytes is
    enough fuel. *)
Fixpoint bit_loop {S} (fuel : nat) (b : list Z) (offset length i j result : Z) : M S Z :=
  match fuel with
  | O => fail OutOfFuel
  | S fuel =>
      if i <? u32 (offset + length + 7) / 8 then
        '(j, result) ← bit_step b offset length i j result;
        bit_loop fuel b offset length (i + 1) j result
      else mret result
  end.

Definition BitGetUnsigned {S} (b : list Z) (offset length : Z) : M S Z :=
  bit_loop (1 + List.length b) b offset length (offset / 8) 0 0.

Definition BitGetSigned {S} (b : list Z) (offset length : Z) : M S Z :=
  result ← BitGetUnsigned b offset length;
  sign ← shl_int 1 (u32 (length - 1));
  if truthy (Z.land result (u32 sign)) then
    hi ← shl_int 1 length;
    mask ← sub_int hi 1;
    mret (s32 (Z.lor result (u32 (0xffffffff - u32 mask))))
  else mret (s32 result).

(** ** Decoding *)

(** The kinds of the enumeration. *)
Inductive pad_kind := None_ | GamePad | GamePadButton | GamePadAxis | GamePadHat.
#[global] Instance pad_kind_eq : EqDecision pad_kind.
Proof. solve_decision. Defined.

(** The variables of the function; [k_axes] and [k_hats] count. *)
Record Locals := {
  offset : Z; size : Z; count : Z; lmax : Z; lmin : Z; pmin : Z; pmax : Z;
  k_axes : Z; k_hats : Z; id : Z; state : pad_kind
}.
#[global] Instance Locals_eta : Eta Locals := λ r,
  {| offset := offset r; size := size r; count := count r; lmax := lmax r; lmin := lmin r;
     pmin := pmin r; pmax := pmax r; k_axes := k_axes r; k_hats := k_hats r; id := id r;
     state := state r |}.
Definition locals0 : Locals :=
  {| offset := 0; size := 0; count := 0; lmax := UNDEFINED; lmin := UNDEFINED; pmin := UNDEFINED;
     pmax := UNDEFINED; k_axes := 0; k_hats := 0; id := 0; state := None_ |}.

Abbreviation P := TUSBGamePadDevice.
Definition pad_set (f : USPiGamePadState → USPiGamePadState) : M P unit :=
  modify (λ w, w <| m_State := f (m_State w) |>).

(** The elements of the two arrays. *)
Definition axis_set (i : Z) (f : TAxis → TAxis) : M P unit :=
  s ← gets m_State;
  if (0 <=? i) && (i <? Z.of_nat MAX_AXIS)
  then pad_set (λ s, s <| axes := alter f (Z.to_nat i) (axes s) |>) else fail MemFault.
Definition hat_set (i v : Z) : M P unit :=
  if (0 <=? i) && (i <? Z.of_nat MAX_HATS)
  then pad_set (λ s, s <| hats := <[Z.to_nat i := v]> (hats s) |>) else fail MemFault.

(** The loops over the fields of an item: at most six turns. *)
Fixpoint axis_loop (turns : nat) (i : Z) (l : Locals) : M P Locals :=
  match turns with
  | O => mret l
  | S turns =>
      if i <? count l then
        let mn := if negb (lmin l =? UNDEFINED) then lmin l else pmin l in
        let mx := if negb (lmax l =? UNDEFINED) then lmax l else pmax l in
        axis_set (k_axes l) (λ a, a <| minimum := mn |> <| maximum := mx |>) ;;
        b ← gets report;
        v ← (if mn <? 0 then BitGetSigned b (u32 (offset l + i * size l)) (size l)
             else BitGetUnsigned b (u32 (offset l + i * size l)) (size l));
        axis_set (k_axes l) (λ a, a <| value := s32 v |>) ;;
        axis_loop turns (i + 1) (l <| k_axes := k_axes l + 1 |>)
      else mret l
  end.
Fixpoint hat_loop (turns : nat) (i : Z) (l : Locals) : M P Locals :=
  match turns with
  | O => mret l
  | S turns =>
      if i <? count l then
        b ← gets report;
        v ← BitGetUnsigned b (u32 (offset l + i * size l)) (size l);
        hat_set (k_hats l) (s32 v) ;;
        hat_loop turns (i + 1) (l <| k_hats := k_hats l + 1 |>)
      else mret l
  end.

(** An input item that is data and a variable. *)
Definition input_fields (l : Locals) : M P Locals :=
  match state l with
  | GamePadAxis => l ← axis_loop MAX_AXIS 0 l; mret (l <| state := GamePad |>)
  | GamePadHat => l ← hat_loop MAX_HATS 0 l; mret (l <| state := GamePad |>)
  | GamePadButton =>
      pad_set (λ s, s <| nbuttons := s32 (count l) |>) ;;
      b ← gets report;
      v ← BitGetUnsigned b (offset l) (u32 (size l * count l));
      pad_set (λ s, s <| buttons := v |>) ;;
      mret (l <| state := GamePad |>)
  | _ => mret l
  end.

(** The items that only set variables: the cases of the switch over the tag [t]
    of an item with the argument [arg], but the input. *)
Definition item_variables (t arg : Z) (l : Locals) : Locals :=
  if t =? HID_USAGE_PAGE then
    if (arg =? HID_USAGE_PAGE_BUTTONS) && bool_decide (state l = GamePad)
    then l <| state := GamePadButton |> else l
  else if t =? HID_USAGE then
    if (arg =? HID_USAGE_JOYSTICK) || (arg =? HID_USAGE_GAMEPAD) then l <| state := GamePad |>
    else if (HID_USAGE_X <=? arg) && (arg <=? HID_USAGE_SLIDER) then
      if bool_decide (state l = GamePad) then l <| state := GamePadAxis |> else l
    else if arg =? HID_USAGE_HATSWITCH then
      if bool_decide (state l = GamePad) then l <| state := GamePadHat |> else l
    else l
  else if t =? HID_LOGICAL_MIN then l <| lmin := arg |>
  else if t =? HID_PHYSICAL_MIN then l <| pmin := arg |>
  else if t =? HID_LOGICAL_MAX then l <| lmax := arg |>
  else if t =? HID_PHYSICAL_MAX then l <| pmax := arg |>
  else if t =? HID_REPORT_SIZE then l <| size := u32 arg |>
  else if t =? HID_REPORT_COUNT then l <| count := u32 arg |>
  else l.

Definition item_switch (t arg : Z) (l : Locals) : M P Locals :=
  if t =? HID_INPUT then
    l ← (if Z.land arg 0x03 =? 0x02 then input_fields l else mret l);
    mret (l <| offset := u32 (offset l + count l * size l) |>)
  else mret (item_variables t arg l).

(** How the body of the loop ends. *)
Inductive turn := Continue (l : Locals) | Break (l : Locals) | Return.

Definition item_step (item arg : Z) (l : Locals) : M P turn :=
  let t := Z.land item 0xFC in
  if t =? HID_REPORT_ID then
    if negb (id l =? 0) then mret (Break l)
    else
      b ← gets report;
      v ← BitGetUnsigned b 0 8;
      if negb (v =? 0) && negb (v =? u32 arg) then mret Return
      else mret (Continue (l <| id := u32 arg |> <| offset := 8 |>))
  else l ← item_switch t arg l; mret (Continue l).

(** The bytes of the descriptor are read as signed numbers. *)
Definition descriptor_byte (pos : nat) : M P Z :=
  d ← gets m_pHIDReportDescriptor;
  match d with None => fail MemFault | Some b => v ← cell_at b pos; mret (s8 v) end.

(** The argument of an item, and how many bytes it has. *)
Definition item_argument (item : Z) (pos : nat) : M P (Z * nat) :=
  let n := Z.land item 0x03 in
  if n =? 0 then mret (0, 0%nat)
  else if n =? 1 then b0 ← descriptor_byte pos; mret (b0, 1%nat)
  else if n =? 2 then
    b0 ← descriptor_byte pos; b1 ← descriptor_byte (pos + 1);
    mret (Z.lor (Z.land b0 0xFF) (Z.shiftl b1 8), 2%nat)
  else
    b0 ← descriptor_byte pos; b1 ← descriptor_byte (pos + 1);
    b2 ← descriptor_byte (pos + 2); b3 ← descriptor_byte (pos + 3);
    mret (Z.lor (Z.lor (Z.lor b0 (Z.shiftl b1 8)) (Z.shiftl b2 16)) (Z.shiftl b3 24), 4%nat).

(** The loop; [len] is the [u16] that counts down. Every turn reads a byte of the
    descriptor, so one more turn than it has bytes is enough fuel. [None]: the
    function returned. *)
Fixpoint decode_loop (fuel : nat) (pos : nat) (len : Z) (l : Locals) : M P (option Locals) :=
  match fuel with
  | O => fail OutOfFuel
  | S fuel =>
      if len =? 0 then mret (Some l)
      else
        item ← descriptor_byte pos;
        '(arg, n) ← item_argument item (pos + 1);
        t ← item_step item arg l;
        match t with
        | Return => mret None
        | Break l => mret (Some l)
        | Continue l => decode_loop fuel (pos + 1 + n) (u16 (len - 1 - Z.of_nat n)) l
        end
  end.

Definition USBGamePadDeviceDecodeReport : M P unit :=
  d ← gets m_pHIDReportDescriptor;
  len ← gets m_usReportDescriptorLength;
  r ← decode_loop (S (length (default [] d))) 0 len locals0;
  match r with
  | None => mret tt
  | Some l =>
      pad_set (λ s, s <| naxes := k_axes l |> <| nhats := k_hats l |>) ;;
      modify (λ w, w <| m_nReportSize := u16 (u32 (offset l + 7) / 8) |>)
  end.

(** ** What the bits are *)

(** The number of bytes a field touches. *)
Definition field_bytes (offset size : Z) : nat := Z.to_nat ((offset mod 8 + size + 7) / 8).

(** The value of a field: its bytes with the first on top, without the bits
    below the field in the first. *)
Definition field_value (b : list Z) (offset size : Z) : Z :=
  match take (field_bytes offset size) (drop (Z.to_nat (offset / 8)) b) with
  | [] => 0
  | c :: cs => fold_left (λ v c, 256 * v + c) cs (c / 2 ^ (offset mod 8)) mod 2 ^ size
  end.

(** Fields inside a byte, and those of two or three bytes that end with one. *)
Definition field_ok (n : nat) (offset size : Z) : bool :=
  (0 <=? offset) && (offset <? 2 ^ 31) && (0 <? size) &&
  ((offset mod 8 + size <=? 8) || (offset mod 8 + size =? 16) || (offset mod 8 + size =? 24)) &&
  (Z.to_nat (offset / 8) + field_bytes offset size <=? n)%nat.

Section Bits.
Context {S : Type}.
Implicit Types (Q : Z → S → Prop).

Lemma wp_shl_int v n Q s : 0 <= n < 32 → 0 <= v * 2 ^ n < 2 ^ 31 → Q (v * 2 ^ n) s → wp (shl_int v n) Q s.
Proof.
  intros Hn Hv HQ. unfold shl_int. rewrite (proj2 (Z.ltb_lt _ _)) by lia. wp_step.
  unfold s32. rewrite (Z.mod_small (_ + _)) by lia. by replace (v * 2 ^ n + 2147483648 - 2147483648) with (v * 2 ^ n) by lia.
Qed.

Lemma wp_sub_int a c Q s : 0 <= a <= 2147483647 → 0 <= c <= 2147483647 → Q (a - c) s → wp (sub_int a c) Q s.
Proof. intros Ha Hc HQ. unfold sub_int. replace (_ && _) with true by (symmetry; lia). by wp_step. Qed.

Lemma wp_byte_in b i c Q s : b !! Z.to_nat i = Some c → Q c s → wp (byte_in b i) Q s.
Proof. intros Hc HQ. unfold byte_in. rewrite Hc. by wp_step. Qed.

(** The mask of the bits from [o] on. *)
Lemma masked c o n : is_u8 c → 0 <= o → 0 <= n → o + n <= 8 →
  Z.shiftr (Z.land c (u8 (2 ^ (o + n) - 2 ^ o))) o = (c / 2 ^ o) mod 2 ^ n.
Proof.
  intros Hc Ho Hn Hs. rewrite <- (field_mod o n c) by done. unfold field.
  assert (2 ^ (o + n) - 2 ^ o = Z.shiftl (Z.ones n) o) as E.
  { rewrite Z.shiftl_mul_pow2, Z.ones_equiv, Z.pow_add_r by lia. lia. }
  assert (0 < 2 ^ o) by (apply Z.pow_pos_nonneg; lia).
  assert (2 ^ (o + n) <= 2 ^ 8) by (apply Z.pow_le_mono_r; lia).
  assert (2 ^ o <= 2 ^ (o + n)) by (apply Z.pow_le_mono_r; lia).
  rewrite u8_id by (unfold is_u8; lia). rewrite E. apply Z.bits_inj'. intros i Hi.
  rewrite !Z.shiftr_spec, !Z.land_spec, Z.shiftr_spec, Z.shiftl_spec by lia. f_equal. f_equal. lia.
Qed.

Lemma lor_byte a c : is_u8 c → Z.lor (a * 256) c = 256 * a + c.
Proof.
  intros Hc. rewrite Z.lor_comm. replace (a * 256) with (Z.shiftl a 8) by (rewrite Z.shiftl_mul_pow2 by lia; lia).
  rewrite lor_disjoint by (unfold is_u8 in Hc; lia). lia.
Qed.

(** The position of a field of [n] bits at the bit [o] of the byte [q]. *)
Lemma field_position q o n : 0 <= q -> 8 * q + o + n + 7 < 2 ^ 32 -> 0 <= o < 8 -> 0 < n ->
  (8 * q + o) / 8 = q ∧ (8 * q + o) mod 8 = o ∧ u32 (8 * q + o + n - 1) / 8 = q + (o + n - 1) / 8 ∧
  u32 (8 * q + o + n + 7) / 8 = q + (o + n - 1) / 8 + 1.
Proof. intros. unfold u32. rewrite !(Z.mod_small _ 4294967296) by lia. lia. Qed.

(** A field in one byte. *)
Lemma wp_bits_byte b q o n c fuel Q s :
  0 <= q < 2 ^ 28 → 0 <= o → 0 < n → o + n <= 8 → b !! Z.to_nat q = Some c → is_u8 c →
  Q ((c / 2 ^ o) mod 2 ^ n) s → wp (bit_loop (2 + fuel) b (8 * q + o) n q 0 0) Q s.
Proof.
  intros Hq Ho Hn Hs Hb Hc HQ. destruct (field_position q o n) as (E1 & E2 & E3 & E4); try lia.
  assert ((o + n - 1) / 8 = 0) as E0 by lia. rewrite E0 in E3, E4.
  cbn [Nat.add bit_loop]. rewrite E4, (proj2 (Z.ltb_lt _ _)) by lia. wp_step. unfold bit_step. cbv zeta.
  rewrite E1, E2, E3, Z.add_0_r, Z.eqb_refl.
  assert (2 ^ (o + n) <= 2 ^ 8) by (apply Z.pow_le_mono_r; lia).
  assert (0 < 2 ^ (o + n)) by (apply Z.pow_pos_nonneg; lia).
  assert (0 < 2 ^ o < 2 ^ 8) by (split; [apply Z.pow_pos_nonneg|apply Z.pow_lt_mono_r]; lia).
  rewrite u32_id by (unfold is_u32; lia).
  wp_step. apply wp_shl_int; [lia|lia|]. wp_step. apply wp_shl_int; [lia|lia|]. rewrite !Z.mul_1_l.
  wp_step. apply wp_sub_int; [lia|lia|]. wp_step. eapply wp_byte_in; [exact Hb|]. wp_step.
  rewrite (proj2 (Z.ltb_ge _ _)) by lia. wp_step. rewrite masked by (done || lia). exact HQ.
Qed.

(** The first byte of a longer field. *)
Lemma wp_bit_first b q o n c k (Q : Z * Z → S → Prop) s :
  0 <= q < 2 ^ 28 → 0 <= o < 8 → o + n = 8 + k → k = 8 ∨ k = 16 → b !! Z.to_nat q = Some c → is_u8 c →
  Q (8 - o, (c / 2 ^ o) * 2 ^ k) s → wp (bit_step b (8 * q + o) n q 0 0) Q s.
Proof.
  intros Hq Ho Hn Hk Hb Hc HQ. destruct (field_position q o n) as (E1 & E2 & E3 & E4); try lia.
  unfold bit_step. cbv zeta. rewrite E1, E2, E3, (proj2 (Z.eqb_neq _ _)), Z.eqb_refl by lia.
  assert (0 < 2 ^ o < 2 ^ 8) by (split; [apply Z.pow_pos_nonneg|apply Z.pow_lt_mono_r]; lia).
  wp_step. apply wp_shl_int; [lia|lia|]. rewrite Z.mul_1_l. wp_step. apply wp_sub_int; [lia|lia|].
  wp_step. eapply wp_byte_in; [exact Hb|]. wp_step.
  replace 0x100 with (2 ^ (o + (8 - o))) by (replace (o + (8 - o)) with 8 by lia; done).
  rewrite masked by (done || lia). rewrite Z.add_0_l. rewrite (u32_id (8 - o)) by (unfold is_u32; lia).
  replace (n - (8 - o)) with k by lia. rewrite (u32_id k) by (unfold is_u32; lia).
  unfold is_u8 in Hc. assert (0 <= c / 2 ^ o <= c) as Hd.
  { split; [apply Z.div_pos; lia|]. apply Z.div_le_upper_bound; [lia|]. nia. }
  assert (c / 2 ^ o < 2 ^ (8 - o)) as Hlt.
  { apply Z.div_lt_upper_bound; [lia|]. rewrite <- Z.pow_add_r by lia. replace (o + (8 - o)) with 8 by lia. lia. }
  rewrite (Z.mod_small _ (2 ^ (8 - o))) by lia.
  assert (0 <= c / 2 ^ o * 2 ^ k < 2 ^ 31) as Hr by (destruct Hk as [-> | ->]; lia).
  apply wp_shl_int; [lia|exact Hr|]. wp_step. rewrite u32_id by (unfold is_u32; lia). exact HQ.
Qed.

(** A byte between the first and the last. *)
Lemma wp_bit_middle b q o n c a j (Q : Z * Z → S → Prop) s :
  0 <= q < 2 ^ 28 → 0 <= o < 8 → o + n = 24 → j = 8 - o → b !! Z.to_nat (q + 1) = Some c → is_u8 c →
  Q (16 - o, (256 * a + c) * 256) s → wp (bit_step b (8 * q + o) n (q + 1) j (a * 2 ^ 16)) Q s.
Proof.
  intros Hq Ho Hn -> Hb Hc HQ. destruct (field_position q o n) as (E1 & E2 & E3 & E4); try lia.
  unfold bit_step. cbv zeta. rewrite E1, E2, E3, !(proj2 (Z.eqb_neq _ _)) by lia.
  wp_step. eapply wp_byte_in; [exact Hb|]. wp_step. replace (8 - o + 8) with (16 - o) by lia.
  rewrite (u32_id (16 - o)) by (unfold is_u32; lia). replace (n - (16 - o)) with 8 by lia.
  unfold is_u8 in Hc. apply wp_shl_int; [done|change (u32 8) with 8; lia|]. wp_step. change (u32 8) with 8.
  rewrite u32_id by (unfold is_u32; lia). change (2 ^ 8) with 256.
  replace (Z.lor (a * 2 ^ 16) (c * 256)) with (Z.lor (a * 256) c * 256); [by rewrite lor_byte|].
  change 256 with (2 ^ 8). rewrite <- !Z.shiftl_mul_pow2, Z.shiftl_lor, Z.shiftl_shiftl by lia. done.
Qed.

(** The last. *)
Lemma wp_bit_last b q o n c a j (Q : Z * Z → S → Prop) s :
  0 <= q < 2 ^ 28 → 0 <= o < 8 → o + n = 16 ∨ o + n = 24 → b !! Z.to_nat (q + (o + n - 1) / 8) = Some c → is_u8 c →
  Q (j, 256 * a + c) s → wp (bit_step b (8 * q + o) n (q + (o + n - 1) / 8) j (a * 256)) Q s.
Proof.
  intros Hq Ho Hn Hb Hc HQ. destruct (field_position q o n) as (E1 & E2 & E3 & E4); try lia.
  unfold bit_step. cbv zeta. rewrite E1, E2, E3, Z.eqb_refl, !(proj2 (Z.eqb_neq _ _)) by lia.
  rewrite u32_id by (unfold is_u32; lia).
  assert (2 ^ (o + n) = 65536 ∨ 2 ^ (o + n) = 16777216) as Hp by (destruct Hn as [-> | ->]; [by left|by right]).
  wp_step. apply wp_shl_int; [lia|lia|]. wp_step. apply wp_sub_int; [lia|lia|].
  wp_step. eapply wp_byte_in; [exact Hb|]. wp_step.
  assert (u8 (1 * 2 ^ (o + n) - 1) = 255) as -> by (destruct Hp as [-> | ->]; done).
  change 255 with (Z.ones 8). rewrite Z.land_ones, Z.mod_small by (unfold is_u8 in Hc; lia).
  by rewrite lor_byte.
Qed.

Lemma join_bound o n c cs : is_u8 c → 0 <= o < 8 → o + n = 8 + 8 * Z.of_nat (length cs) → Forall is_u8 cs →
  0 <= fold_left (λ v c, 256 * v + c) cs (c / 2 ^ o) < 2 ^ n.
Proof.
  intros Hc Ho Hn Hcs.
  assert (0 <= c / 2 ^ o < 2 ^ (8 - o)) as Hr.
  { unfold is_u8 in Hc. split; [apply Z.div_pos; [lia|apply Z.pow_pos_nonneg; lia]|].
    apply Z.div_lt_upper_bound; [apply Z.pow_pos_nonneg; lia|]. rewrite <- Z.pow_add_r by lia.
    replace (o + (8 - o)) with 8 by lia. lia. }
  replace n with (8 - o + 8 * Z.of_nat (length cs)) by lia.
  assert (∀ v k, 0 <= k → 0 <= v < 2 ^ k →
    0 <= fold_left (λ v c, 256 * v + c) cs v < 2 ^ (k + 8 * Z.of_nat (length cs))) as H; [|by apply H; [lia|]].
  clear -Hcs. induction Hcs as [|c cs Hc _ IH]; intros v k Hk Hv; [by rewrite Z.add_0_r|].
  cbn [fold_left length]. replace (k + 8 * Z.of_nat (Datatypes.S (length cs))) with ((k + 8) + 8 * Z.of_nat (length cs)) by lia.
  apply IH; [lia|]. rewrite Z.pow_add_r by lia. unfold is_u8 in Hc. lia.
Qed.

(** The loop from turn to turn. *)
Lemma wp_bit_turn fuel b offset n i j r Q s :
  i < u32 (offset + n + 7) / 8 →
  wp (bit_step b offset n i j r) (λ jr s', wp (bit_loop fuel b offset n (i + 1) (fst jr) (snd jr)) Q s') s →
  wp (bit_loop (Datatypes.S fuel) b offset n i j r) Q s.
Proof.
  intros Hi Hs. cbn [bit_loop]. rewrite (proj2 (Z.ltb_lt _ _)) by done. wp_step.
  eapply wp_mono; [exact Hs|]. by intros [j' r'] s'.
Qed.
Lemma wp_bit_end fuel b offset n i j r Q s :
  u32 (offset + n + 7) / 8 <= i → Q r s → wp (bit_loop (Datatypes.S fuel) b offset n i j r) Q s.
Proof. intros Hi HQ. cbn [bit_loop]. rewrite (proj2 (Z.ltb_ge _ _)) by done. by wp_step. Qed.

Lemma wp_BitGetUnsigned b offset size Q s :
  field_ok (length b) offset size = true → Forall is_u8 b →
  (0 <= field_value b offset size < 2 ^ size → Q (field_value b offset size) s) →
  wp (BitGetUnsigned b offset size) Q s.
Proof.
  unfold field_ok, BitGetUnsigned. intros Hok Hb HQ.
  apply andb_true_iff in Hok as [Hok Hn%Nat.leb_le]. apply andb_true_iff in Hok as [Hok Hk].
  assert (0 <= field_value b offset size < 2 ^ size) as Hr.
  { unfold field_value. destruct (take _ _); [split; [done|apply Z.pow_pos_nonneg; lia]|].
    apply Z.mod_pos_bound, Z.pow_pos_nonneg; lia. }
  specialize (HQ Hr). clear Hr. unfold field_value in HQ. unfold field_bytes in Hn, HQ.
  assert (∃ q o, offset = 8 * q + o ∧ offset / 8 = q ∧ offset mod 8 = o) as (q & o & E & Eq & Eo)
    by (exists (offset / 8), (offset mod 8); lia).
  assert (0 <= o < 8 ∧ 0 <= q < 2 ^ 28 ∧ 0 < size) as (Ho & Hq & Hs) by lia. clear Hok.
  rewrite Eq, Eo in *. clear Eq Eo.
  subst offset. set (p := Z.to_nat q) in *.
  assert (∀ k, (k < Z.to_nat ((o + size + 7) / 8))%nat → ∃ c, b !! (p + k)%nat = Some c ∧ is_u8 c) as Hbyte.
  { intros k Hlt. destruct (lookup_lt_is_Some_2 b (p + k)) as [c Hc]; [lia|].
    exists c. split; [done|]. by eapply Forall_lookup_1. }
  destruct (Hbyte 0%nat ltac:(lia)) as (c0 & H0 & U0). rewrite Nat.add_0_r in H0.
  assert (o + size <= 8 ∨ o + size = 16 ∨ o + size = 24) as [Hc|[Hc|Hc]] by lia.
  - replace (Z.to_nat ((o + size + 7) / 8)) with 1%nat in HQ by lia.
    rewrite (drop_S _ c0 p H0) in HQ. simpl in HQ.
    destruct (length b) as [|n'] eqn:El; [apply lookup_lt_Some in H0; lia|].
    eapply (wp_bits_byte b q o size c0); [done|lia..|done|done|exact HQ].
  - destruct (Hbyte 1%nat ltac:(lia)) as (c1 & H1 & U1).
    replace (Z.to_nat ((o + size + 7) / 8)) with 2%nat in HQ by lia.
    rewrite (drop_S _ c0 p H0), (drop_S _ c1 (Datatypes.S p)) in HQ by (rewrite <- H1; f_equal; lia). simpl in HQ.
    destruct (length b) as [|[|n']] eqn:El; [apply lookup_lt_Some in H1; lia..|].
    destruct (field_position q o size) as (_ & _ & _ & E4); [lia..|].
    apply wp_bit_turn; [lia|]. eapply (wp_bit_first b q o size c0 8); [done|done|lia|by left|done|done|]. cbn [fst snd].
    apply wp_bit_turn; [lia|]. replace (q + 1) with (q + (o + size - 1) / 8) by lia. change (2 ^ 8) with 256.
    eapply wp_bit_last; [done|done|by left| |exact U1|].
    { replace (Z.to_nat _) with (p + 1)%nat by lia. exact H1. }
    cbn [fst snd]. apply wp_bit_end; [lia|]. rewrite Z.mod_small in HQ; [exact HQ|].
    apply (join_bound o size c0 [c1]); [done|done|cbn [List.length]; lia|by repeat (apply Forall_cons; [done|])].
  - destruct (Hbyte 1%nat ltac:(lia)) as (c1 & H1 & U1). destruct (Hbyte 2%nat ltac:(lia)) as (c2 & H2 & U2).
    replace (Z.to_nat ((o + size + 7) / 8)) with 3%nat in HQ by lia.
    rewrite (drop_S _ c0 p H0), (drop_S _ c1 (Datatypes.S p)), (drop_S _ c2 (Datatypes.S (Datatypes.S p))) in HQ
      by (rewrite <- ?H1, <- ?H2; f_equal; lia). simpl in HQ.
    destruct (length b) as [|[|[|n']]] eqn:El; [apply lookup_lt_Some in H2; lia..|].
    destruct (field_position q o size) as (_ & _ & _ & E4); [lia..|].
    apply wp_bit_turn; [lia|]. eapply (wp_bit_first b q o size c0 16); [done|done|lia|by right|done|done|]. cbn [fst snd].
    apply wp_bit_turn; [lia|]. eapply (wp_bit_middle b q o size c1); [done|done|done|done| |done|].
    { replace (Z.to_nat _) with (p + 1)%nat by lia. exact H1. }
    cbn [fst snd]. apply wp_bit_turn; [lia|]. replace (q + 1 + 1) with (q + (o + size - 1) / 8) by lia.
    eapply wp_bit_last; [done|done|by right| |exact U2|].
    { replace (Z.to_nat _) with (p + 2)%nat by lia. exact H2. }
    cbn [fst snd]. apply wp_bit_end; [lia|]. rewrite Z.mod_small in HQ; [exact HQ|].
    apply (join_bound o size c0 [c1; c2]); [done|done|cbn [List.length]; lia|by repeat (apply Forall_cons; [done|])].
Qed.

(** The value of a signed field: two's complement. *)
Definition signed_value (b : list Z) (offset size : Z) : Z :=
  let v := field_value b offset size in
  if v <? 2 ^ (size - 1) then v else v - 2 ^ size.

Lemma wp_BitGetSigned b offset size Q s :
  field_ok (length b) offset size = true → Forall is_u8 b →
  (- 2 ^ 31 <= signed_value b offset size < 2 ^ 31 → Q (signed_value b offset size) s) →
  wp (BitGetSigned b offset size) Q s.
Proof.
  intros Hok Hb HQ. unfold BitGetSigned. wp_step. apply wp_BitGetUnsigned; [done|done|]. intros Hv.
  assert (0 < size <= 24) as Hs.
  { unfold field_ok in Hok. repeat (apply andb_true_iff in Hok as [Hok ?]). lia. }
  unfold signed_value in HQ. set (v := field_value b offset size) in *.
  assert (2 ^ size = 2 * 2 ^ (size - 1)) as Hd by (rewrite <- Z.pow_succ_r by lia; f_equal; lia).
  assert (0 < 2 ^ (size - 1) <= 2 ^ 23) as Hp by (split; [apply Z.pow_pos_nonneg|apply Z.pow_le_mono_r]; lia).
  rewrite (u32_id (size - 1)) by (unfold is_u32; lia).
  wp_step. apply wp_shl_int; [lia|lia|]. rewrite Z.mul_1_l, u32_id by (unfold is_u32; lia).
  rewrite <- (Z.mul_1_l (2 ^ (size - 1))), <- Z.shiftl_mul_pow2, truthy_bit by lia.
  assert (Z.testbit v (size - 1) = negb (v <? 2 ^ (size - 1))) as ->.
  { rewrite Z.testbit_odd, Z.shiftr_div_pow2 by lia.
    destruct (Z.ltb_spec v (2 ^ (size - 1))) as [Hlt|Hge]; [by rewrite Z.div_small by lia|].
    assert (v / 2 ^ (size - 1) = 1) as -> by (symmetry; eapply Z.div_unique_pos with (r := v - 2 ^ (size - 1)); lia).
    done. }
  destruct (v <? 2 ^ (size - 1)) eqn:E; cbn [negb].
  - wp_step. unfold s32. rewrite Z.mod_small by lia. replace (v + 2147483648 - 2147483648) with v by lia. apply HQ. lia.
  - wp_step. apply wp_shl_int; [lia|lia|]. rewrite Z.mul_1_l. wp_step. apply wp_sub_int; [lia|lia|]. wp_step.
    rewrite (u32_id (2 ^ size - 1)) by (unfold is_u32; lia).
    rewrite u32_id by (unfold is_u32; lia).
    replace (0xffffffff - (2 ^ size - 1)) with (Z.shiftl (2 ^ (32 - size) - 1) size).
    2: { rewrite Z.shiftl_mul_pow2, Z.mul_sub_distr_r, <- Z.pow_add_r by lia. replace (32 - size + size) with 32 by lia. lia. }
    rewrite lor_disjoint, Z.mul_sub_distr_r, <- Z.pow_add_r by lia. replace (32 - size + size) with 32 by lia.
    replace (s32 _) with (v - 2 ^ size) by (unfold s32; lia). apply HQ. lia.
Qed.
End Bits.

(** ** Termination and bounds *)

(** The arrays have their lengths. *)
Definition arrays (w : P) : Prop := length (axes (m_State w)) = MAX_AXIS ∧ length (hats (m_State w)) = MAX_HATS.

(** The loop changes nothing but the values in the state. *)
Definition decoded (w w' : P) : Prop :=
  ∃ s, w' = w <| m_State := s |> ∧ naxes s = naxes (m_State w) ∧ nhats s = nhats (m_State w).

Lemma decoded_refl w : decoded w w.
Proof. exists (m_State w). by destruct w. Qed.
Lemma decoded_trans w1 w2 w3 : decoded w1 w2 → decoded w2 w3 → decoded w1 w3.
Proof. intros (s & -> & E1 & E2) (t & -> & E3 & E4). exists t. split; [done|]. simpl in *. split; congruence. Qed.

(** A computation that ends, returns or faults, with a result in [R]; it keeps
    the arrays and changes no more than decoding does. *)
Definition steady {A} (R : A → Prop) (m : M P A) : Prop := ∀ w, arrays w →
  wpe m (λ a w', R a ∧ arrays w' ∧ decoded w w') (λ f, f ≠ OutOfFuel) w.
Abbreviation steadily m := (steady (λ _, True) m).

Lemma steady_bind {A B} (R : A → Prop) (R' : B → Prop) (m : M P A) (k : A → M P B) :
  steady R m → (∀ a, R a → steady R' (k a)) → steady R' (m ≫= k).
Proof.
  intros Hm Hk w Hw. apply wpe_bind. eapply wpe_mono; [by apply Hm|simpl|done].
  intros a w1 (Ha & Hw1 & Hd1). eapply wpe_mono; [by apply Hk|simpl|done].
  intros b w2 (Hb & Hw2 & Hd2). split; [done|]. split; [done|]. by eapply decoded_trans.
Qed.
Lemma steady_then {A B} (R' : B → Prop) (m : M P A) (k : A → M P B) :
  steadily m → (∀ a, steady R' (k a)) → steady R' (m ≫= k).
Proof. intros Hm Hk. eapply steady_bind; [exact Hm|auto]. Qed.
Lemma steady_mono {A} (R R' : A → Prop) (m : M P A) : steady R m → (∀ a, R a → R' a) → steady R' m.
Proof. intros Hm Hi w Hw. eapply wpe_mono; [by apply Hm|simpl|done]. naive_solver. Qed.
Lemma steady_ret {A} (R : A → Prop) (a : A) : R a → steady R (mret a).
Proof. intros HR w Hw. split; [done|]. split; [done|apply decoded_refl]. Qed.
Lemma steady_fail {A} R f : f ≠ OutOfFuel → steady (A := A) R (fail f).
Proof. by intros Hf w. Qed.
Lemma steady_gets {A} (f : P → A) : steadily (gets f).
Proof. intros w Hw. split; [done|]. split; [done|apply decoded_refl]. Qed.
Lemma steady_pad_set f :
  (∀ s, (length (axes (f s)) = length (axes s) ∧ length (hats (f s)) = length (hats s)) ∧
        naxes (f s) = naxes s ∧ nhats (f s) = nhats s) →
  steadily (pad_set f).
Proof.
  intros Hf w [H1 H2]. split; [done|]. destruct (Hf (m_State w)) as [[F1 F2] F3]. split; [by split; simpl; rewrite ?F1, ?F2|].
  by exists (f (m_State w)).
Qed.
Lemma steady_shl v n : steadily (shl_int v n).
Proof. unfold shl_int. case_match; [by apply steady_ret|by apply steady_fail]. Qed.
Lemma steady_sub a b : steadily (sub_int a b).
Proof. unfold sub_int. case_match; [by apply steady_ret|by apply steady_fail]. Qed.
Lemma steady_cell b i : steadily (cell_at b i).
Proof. unfold cell_at. repeat case_match; by apply steady_ret || by apply steady_fail. Qed.
Create HintDb steady.
#[export] Hint Resolve steady_gets steady_shl steady_sub steady_cell : steady.
#[export] Hint Extern 1 (steady _ (pad_set _)) => (apply steady_pad_set; intros; split; split; reflexivity) : steady.
#[export] Hint Extern 1 (steady _ (fail _)) => (by apply steady_fail) : steady.

Ltac steady := repeat first
  [ progress eauto 1 with steady | apply steady_then; [|intros ?] | apply steady_ret; [first [done|split_and!; simpl; lia]] | case_match ].

(** A turn reads the byte [i]. *)
Lemma bit_step_reads b o n i j r (w : P) :
  wpe (bit_step b o n i j r) (λ _ w', w' = w ∧ (Z.to_nat i < length b)%nat) (λ f, f ≠ OutOfFuel) w.
Proof.
  assert (∀ B v n (k : Z → M P B) (Q : B → P → Prop), (∀ a, wpe (k a) Q (λ f, f ≠ OutOfFuel) w) →
    wpe (a ← shl_int v n; k a) Q (λ f, f ≠ OutOfFuel) w) as Hshl.
  { intros B v m k Q HQ. apply wpe_bind. unfold shl_int. case_match; [apply HQ|done]. }
  assert (∀ B x y (k : Z → M P B) (Q : B → P → Prop), (∀ a, wpe (k a) Q (λ f, f ≠ OutOfFuel) w) →
    wpe (a ← sub_int x y; k a) Q (λ f, f ≠ OutOfFuel) w) as Hsub.
  { intros B x y k Q HQ. apply wpe_bind. unfold sub_int. case_match; [apply HQ|done]. }
  assert (∀ B (k : Z → M P B) (Q : B → P → Prop),
    ((Z.to_nat i < length b)%nat → ∀ c, wpe (k c) Q (λ f, f ≠ OutOfFuel) w) →
    wpe (c ← byte_in b i; k c) Q (λ f, f ≠ OutOfFuel) w) as Hbyte.
  { intros B k Q HQ. apply wpe_bind. unfold byte_in. case_match eqn:E; [|done]. apply HQ. by eapply lookup_lt_Some. }
  unfold bit_step. cbv zeta.
  repeat case_match; repeat first [apply Hshl; intros ?|apply Hsub; intros ?|apply Hbyte; intros ? ?]; by apply wpe_ret.
Qed.

Lemma steady_bit_loop fuel b o n i j r :
  0 <= i → (0 < fuel)%nat → (length b < fuel + Z.to_nat i)%nat → steadily (bit_loop fuel b o n i j r).
Proof.
  revert i j r. induction fuel as [|fuel IH]; intros i j r Hi H0 Hf w Hw; [lia|]. cbn [bit_loop].
  case_match; [|split; [done|]; split; [done|apply decoded_refl]].
  apply wpe_bind. eapply wpe_mono; [apply bit_step_reads|simpl|done].
  intros [j' r'] w' [-> Hlt]. apply IH; [lia..|done].
Qed.

Lemma steady_BitGetUnsigned b o n : 0 <= o → steadily (BitGetUnsigned b o n).
Proof. intros Ho. apply steady_bit_loop; lia. Qed.
Lemma steady_BitGetSigned b o n : 0 <= o → steadily (BitGetSigned b o n).
Proof. intros Ho. unfold BitGetSigned. apply steady_then; [by apply steady_BitGetUnsigned|intros ?]. steady. Qed.
#[export] Hint Extern 1 (steady _ (BitGetUnsigned _ _ _)) => (apply steady_BitGetUnsigned; first [lia | apply u32_range]) : steady.
#[export] Hint Extern 1 (steady _ (BitGetSigned _ _ _)) => (apply steady_BitGetSigned; first [lia | apply u32_range]) : steady.

(** The counters stay in the arrays. *)
Definition locals_ok (l : Locals) : Prop := 0 <= offset l ∧ 0 <= k_axes l <= 6 ∧ 0 <= k_hats l <= 6.

Lemma steady_axis_set i f : steady (λ _, 0 <= i < 6) (axis_set i f).
Proof.
  unfold axis_set. apply steady_then; [auto with steady|intros ?]. destruct (_ && _) eqn:Hi; [|auto with steady].
  change (Z.of_nat MAX_AXIS) with 6 in Hi. apply (steady_mono (λ _, True)); [|intros _ _; lia]. apply steady_pad_set. intros s. split; [|done]. split; [|done].
  simpl. apply length_alter.
Qed.
Lemma steady_hat_set i v : steady (λ _, 0 <= i < 6) (hat_set i v).
Proof.
  unfold hat_set. destruct (_ && _) eqn:Hi; [|auto with steady].
  change (Z.of_nat MAX_HATS) with 6 in Hi. apply (steady_mono (λ _, True)); [|intros _ _; lia]. apply steady_pad_set. intros s. split; [|done]. split; [done|].
  simpl. apply length_insert.
Qed.

Lemma steady_axis_loop turns i l : locals_ok l → steady locals_ok (axis_loop turns i l).
Proof.
  revert i l. induction turns as [|turns IH]; intros i l Hl; simpl; [by apply steady_ret|].
  case_match; [|by apply steady_ret]. cbv zeta. eapply steady_bind; [apply steady_axis_set|intros ? Hk].
  apply steady_then; [auto with steady|intros ?]. apply steady_then; [steady|intros ?].
  eapply steady_bind; [apply steady_axis_set|intros ? ?]. apply IH. cbv beta in Hk. destruct Hl as (?&?&?). split_and!; simpl; lia.
Qed.
Lemma steady_hat_loop turns i l : locals_ok l → steady locals_ok (hat_loop turns i l).
Proof.
  revert i l. induction turns as [|turns IH]; intros i l Hl; simpl; [by apply steady_ret|].
  case_match; [|by apply steady_ret].
  apply steady_then; [auto with steady|intros ?]. apply steady_then; [steady|intros ?].
  eapply steady_bind; [apply steady_hat_set|intros ? Hk]. apply IH. cbv beta in Hk. destruct Hl as (?&?&?). split_and!; simpl; lia.
Qed.

Lemma steady_input_fields l : locals_ok l → steady locals_ok (input_fields l).
Proof.
  intros Hl. unfold input_fields. case_match; try by apply steady_ret.
  - destruct Hl as (Ho & Ha & Hh). do 4 (apply steady_then; [auto with steady|intros ?]).
    by apply steady_ret.
  - eapply steady_bind; [by apply steady_axis_loop|]. intros l' Hl'. by apply steady_ret.
  - eapply steady_bind; [by apply steady_hat_loop|]. intros l' Hl'. by apply steady_ret.
Qed.

Definition turn_ok (t : turn) : Prop :=
  match t with Continue l | Break l => locals_ok l | Return => True end.

Lemma steady_item_step item arg l : locals_ok l → steady turn_ok (item_step item arg l).
Proof.
  intros Hl. unfold item_step. cbv zeta. pose proof Hl as (Ho & Ha & Hh).
  case_match; [case_match; [by apply steady_ret|]|].
  - apply steady_then; [auto with steady|intros ?]. apply steady_then; [auto with steady|intros ?].
    case_match; by apply steady_ret.
  - eapply steady_bind with (R := locals_ok); [|intros l' Hl'; by apply steady_ret].
    unfold item_switch. case_match; [|apply steady_ret; unfold item_variables; repeat case_match; done].
    eapply steady_bind with (R := locals_ok).
    + case_match; [by apply steady_input_fields|by apply steady_ret].
    + intros l' (?&?&?). apply steady_ret. split_and!; simpl; try lia. apply u32_range.
Qed.

(** The bytes that are read are in the descriptor. *)
Lemma descriptor_byte_reads pos w :
  wpe (descriptor_byte pos) (λ _ w', w' = w ∧ (pos < length (default [] (m_pHIDReportDescriptor w)))%nat)
    (λ f, f ≠ OutOfFuel) w.
Proof.
  unfold descriptor_byte. apply wpe_bind, wpe_wp. wp_step. destruct (m_pHIDReportDescriptor w) as [b|]; [|done].
  apply wpe_bind. unfold cell_at. destruct (b !! pos) as [[v|]|] eqn:E; [|done..]. apply wpe_ret, wpe_ret.
  split; [done|]. by eapply lookup_lt_Some.
Qed.
Lemma steady_descriptor_byte pos : steadily (descriptor_byte pos).
Proof. unfold descriptor_byte. steady. Qed.
#[export] Hint Resolve steady_descriptor_byte : steady.
Lemma steady_item_argument item pos : steadily (item_argument item pos).
Proof. unfold item_argument. cbv zeta. steady. Qed.

Definition decode_result (r : option Locals) : Prop := ∀ l, r = Some l → locals_ok l.

Lemma decode_loop_ends fuel pos len l w : arrays w → locals_ok l →
  (0 < fuel)%nat → (length (default [] (m_pHIDReportDescriptor w)) < fuel + pos)%nat →
  wpe (decode_loop fuel pos len l) (λ r w', decode_result r ∧ arrays w' ∧ decoded w w') (λ f, f ≠ OutOfFuel) w.
Proof.
  revert pos len l w. induction fuel as [|fuel IH]; intros pos len l w Hw Hl H0 Hf; [lia|]. cbn [decode_loop].
  case_match.
  { apply wpe_ret. split; [by intros ? [= <-]|]. split; [done|apply decoded_refl]. }
  apply wpe_bind. eapply wpe_mono; [apply descriptor_byte_reads|simpl|done]. intros item w' [-> Hpos].
  apply wpe_bind. eapply wpe_mono; [by apply steady_item_argument|simpl|done]. intros [arg n] w1 (_ & Hw1 & Hd1).
  apply wpe_bind. eapply wpe_mono; [by apply steady_item_step|simpl|done]. intros t w2 (Ht & Hw2 & Hd2).
  assert (decoded w w2) as Hd by by eapply decoded_trans.
  destruct t as [l'|l'|]; simpl in Ht.
  - eapply wpe_mono; [apply IH; [done|done|lia|]|simpl|done].
    + destruct Hd as (s & -> & _). simpl. lia.
    + intros r w3 (Hr & Hw3 & Hd3). split; [done|]. split; [done|]. by eapply decoded_trans.
  - apply wpe_ret. split; [by intros ? [= <-]|done].
  - apply wpe_ret. split; [by intros ? [=]|done].
Qed.

(** The counts are those of the arrays, the size is of its type. *)
Definition pad_ok (w : P) : Prop :=
  arrays w ∧ 0 <= naxes (m_State w) <= 6 ∧ 0 <= nhats (m_State w) <= 6 ∧ is_u16 (m_nReportSize w).

Lemma wpe_decode w : pad_ok w → wpe USBGamePadDeviceDecodeReport (λ _ w', pad_ok w' ∧
  w' = w <| m_State := m_State w' |> <| m_nReportSize := m_nReportSize w' |>) (λ f, f ≠ OutOfFuel) w.
Proof.
  intros (Hw & Ha & Hh & Hn).
  unfold USBGamePadDeviceDecodeReport. apply wpe_bind, wpe_wp. wp_step. apply wpe_bind, wpe_wp. wp_step. apply wpe_bind.
  eapply wpe_mono; [apply (decode_loop_ends _ _ _ locals0); [done| |lia|lia]|simpl|done]; [unfold locals_ok; simpl; lia|].
  intros r w' (Hr & Hw' & s & -> & E1 & E2). destruct r as [l|].
  2: { apply wpe_ret. split; [|by destruct w]. rewrite <- E1 in Ha. rewrite <- E2 in Hh. exact (conj Hw' (conj Ha (conj Hh Hn))). }
  destruct (Hr l eq_refl) as (Ho & Hka & Hkh). apply wpe_wp. wp_step. unfold pad_set. wp_step. wp_step.
  split; [|done]. split; [done|]. split; [done|]. split; [done|]. apply u16_range.
Qed.
