(* ===== verification/GamepadLayout.v ===== *)
(** * What a report descriptor means

    The driver reads the values of a report while it walks over the descriptor.
    Here the two are apart: the items of a descriptor, the layout they describe,
    and the values that a layout takes from a report; decoding is filling the
    layout of the items. *)
From S2P Require Import Prelude Util Endpoint UsbBus UsbFunction GamepadReport.

(** ** Items *)

Record hid_item := { tag : Z; args : list Z }.

(** The number of bytes of the argument, in two bits. *)
Definition args_code (n : nat) : Z := match n with 4%nat => 3 | _ => Z.of_nat n end.
Definition item_bytes (it : hid_item) : list Z := (tag it + args_code (length (args it))) :: args it.
Definition descriptor_bytes (items : list hid_item) : list Z := concat (map item_bytes items).

(** The argument: signed, the low byte first. *)
Definition arg_value (l : list Z) : Z :=
  match l with
  | [a] => s8 a
  | [a; b] => a + 256 * s8 b
  | [a; b; c; d] => a + 256 * (b + 256 * (c + 256 * s8 d))
  | _ => 0
  end.

(** The driver reads arguments of four bytes right if no byte but the last has
    its top bit set. *)
Definition item_ok (it : hid_item) : Prop :=
  0 <= tag it < 256 ∧ tag it mod 4 = 0 ∧ Forall is_u8 (args it) ∧
  (length (args it) ≤ 2 ∨ length (args it) = 4 ∧ Forall (λ c : Z, (c < 128)%Z) (take 3 (args it)))%nat.

(** ** Layouts *)

(** Fields are places of [fld_size] bits in a report; an axis has its range. *)
Record pad_field := { fld_offset : Z; fld_size : Z }.
Record layout := {
  lay_axes : list (pad_field * (Z * Z));
  lay_hats : list pad_field;
  lay_buttons : option (Z * pad_field);
  lay_id : option Z
}.
#[global] Instance layout_eta : Eta layout := λ r,
  {| lay_axes := lay_axes r; lay_hats := lay_hats r; lay_buttons := lay_buttons r; lay_id := lay_id r |}.
Definition layout0 : layout := {| lay_axes := []; lay_hats := []; lay_buttons := None; lay_id := None |}.

Fixpoint fields (offset size : Z) (n : nat) : list pad_field :=
  match n with
  | O => []
  | S n => {| fld_offset := offset; fld_size := size |} :: fields (offset + size) size n
  end.

(** The items, by the tables of the HID specification. *)
Inductive hid_tag := UsagePage | Usage | LogicalMin | LogicalMax | PhysicalMin | PhysicalMax
  | ReportSize | ReportCount | ReportId | InputItem.
Definition tag_table : list (Z * hid_tag) :=
  [(4, UsagePage); (8, Usage); (20, LogicalMin); (36, LogicalMax); (52, PhysicalMin); (68, PhysicalMax);
   (116, ReportSize); (148, ReportCount); (132, ReportId); (128, InputItem)].
Definition meaning (t : Z) : option hid_tag := snd <$> find (λ p, fst p =? t) tag_table.

(** What the fields of the next input item are for: nothing before a joystick or
    a gamepad is announced. *)
Inductive purpose := Outside | Unnamed | ForAxes | ForHats | ForButtons.
#[global] Instance purpose_eq : EqDecision purpose.
Proof. solve_decision. Defined.

(** What is known between two items: where the next field is, and the bounds and
    sizes stated last. *)
Record hid_view := {
  v_offset : Z; v_size : Z; v_count : Z;
  v_lmin : option Z; v_lmax : option Z; v_pmin : option Z; v_pmax : option Z;
  v_purpose : purpose
}.
#[global] Instance hid_view_eta : Eta hid_view := λ r,
  {| v_offset := v_offset r; v_size := v_size r; v_count := v_count r; v_lmin := v_lmin r;
     v_lmax := v_lmax r; v_pmin := v_pmin r; v_pmax := v_pmax r; v_purpose := v_purpose r |}.
Definition view0 : hid_view :=
  {| v_offset := 0; v_size := 0; v_count := 0; v_lmin := None; v_lmax := None; v_pmin := None;
     v_pmax := None; v_purpose := Outside |}.

(** The purpose a usage names inside a gamepad: the usages X to slider are axes,
    39 hexadecimal is the hat switch. *)
Definition usage_purpose (u : Z) : option purpose :=
  if (48 <=? u) && (u <=? 54) then Some ForAxes else if u =? 57 then Some ForHats else None.

(** The range of an axis: the logical bounds, or else the physical ones, or else
    the mark of the driver for none. *)
Definition range_of (v : hid_view) : Z * Z :=
  (default (default (-123456789) (v_pmin v)) (v_lmin v), default (default (-123456789) (v_pmax v)) (v_lmax v)).

Definition readable (n : nat) (f : pad_field) : bool := field_ok n (fld_offset f) (fld_size f).

(** The fields of an input item, for reports of [n] bytes; none if the fields
    cannot be read or are too many. *)
Definition layout_input (n : nat) (v : hid_view) (L : layout) : option (hid_view * layout) :=
  let fs := fields (v_offset v) (v_size v) (Nat.min 6 (Z.to_nat (v_count v))) in
  match v_purpose v with
  | ForAxes =>
      if forallb (readable n) fs && (length (lay_axes L) + length fs <=? 6)%nat
      then Some (v <| v_purpose := Unnamed |>, L <| lay_axes := lay_axes L ++ map (λ f, (f, range_of v)) fs |>)
      else None
  | ForHats =>
      if forallb (readable n) fs && (length (lay_hats L) + length fs <=? 6)%nat
      then Some (v <| v_purpose := Unnamed |>, L <| lay_hats := lay_hats L ++ fs |>)
      else None
  | ForButtons =>
      let f := {| fld_offset := v_offset v; fld_size := v_size v * v_count v |} in
      if readable n f
      then Some (v <| v_purpose := Unnamed |>, L <| lay_buttons := Some (v_count v, f) |>) else None
  | _ => Some (v, L)
  end.

(** One item. A report identifier is one byte, it comes before all fields, and
    there is one. Sizes and counts are unsigned. *)
Definition layout_item (n : nat) (it : hid_item) (v : hid_view) (L : layout) : option (hid_view * layout) :=
  let arg := arg_value (args it) in
  match meaning (tag it) with
  | Some UsagePage =>
      Some (if (arg =? 9) && bool_decide (v_purpose v = Unnamed) then v <| v_purpose := ForButtons |> else v, L)
  | Some Usage =>
      Some (if (arg =? 4) || (arg =? 5) then v <| v_purpose := Unnamed |>
            else match usage_purpose arg with
                 | Some q => if bool_decide (v_purpose v = Unnamed) then v <| v_purpose := q |> else v
                 | None => v
                 end, L)
  | Some LogicalMin => Some (v <| v_lmin := Some arg |>, L)
  | Some LogicalMax => Some (v <| v_lmax := Some arg |>, L)
  | Some PhysicalMin => Some (v <| v_pmin := Some arg |>, L)
  | Some PhysicalMax => Some (v <| v_pmax := Some arg |>, L)
  | Some ReportSize => Some (v <| v_size := arg mod 2 ^ 32 |>, L)
  | Some ReportCount => Some (v <| v_count := arg mod 2 ^ 32 |>, L)
  | Some ReportId =>
      match L with
      | {| lay_axes := []; lay_hats := []; lay_buttons := None; lay_id := None |} =>
          if (1 <=? arg) && (arg <? 256) && (1 <=? n)%nat
          then Some (v <| v_offset := 8 |>, L <| lay_id := Some arg |>) else None
      | _ => None
      end
  | Some InputItem =>
      '(v, L) ← (if arg mod 4 =? 2 then layout_input n v L else Some (v, L));
      let next := v_offset v + v_count v * v_size v in
      if next <? 2 ^ 31 then Some (v <| v_offset := next |>, L) else None
  | None => Some (v, L)
  end.

Fixpoint layout_items (n : nat) (items : list hid_item) (v : hid_view) (L : layout) : option (hid_view * layout) :=
  match items with
  | [] => Some (v, L)
  | it :: items => '(v, L) ← layout_item n it v L; layout_items n items v L
  end.

(** ** Filling a layout *)

Definition axis_of (b : list Z) (a : pad_field * (Z * Z)) : TAxis :=
  let '(f, (mn, mx)) := a in
  {| value := if mn <? 0 then signed_value b (fld_offset f) (fld_size f)
              else field_value b (fld_offset f) (fld_size f);
     minimum := mn; maximum := mx |}.
Definition hat_of (b : list Z) (f : pad_field) : Z := field_value b (fld_offset f) (fld_size f).

Definition fill (L : layout) (b : list Z) (s : USPiGamePadState) : USPiGamePadState :=
  s <| axes := overwrite 0 (map (axis_of b) (lay_axes L)) (axes s) |>
    <| hats := overwrite 0 (map (hat_of b) (lay_hats L)) (hats s) |>
    <| nbuttons := match lay_buttons L with Some (n, _) => n | None => nbuttons s end |>
    <| buttons := match lay_buttons L with Some (_, f) => hat_of b f | None => buttons s end |>.

(** A report for this layout: without an identifier, or with its own, or 0. *)
Definition report_for (L : layout) (b : list Z) : bool :=
  match lay_id L, b with
  | Some i, c :: _ => (c =? 0) || (c =? i)
  | _, _ => true
  end.

(** ** The loops fill their fields *)

Lemma fields_length offset size n : length (fields offset size n) = n.
Proof. revert offset. induction n as [|n IH]; intros offset; simpl; [done|by rewrite IH]. Qed.

Lemma field_ok_range n o k : field_ok n o k = true → 0 <= o < 2 ^ 31 ∧ 0 < k <= 24.
Proof. unfold field_ok. intros Hok. repeat (apply andb_true_iff in Hok as [Hok ?]). lia. Qed.

Lemma s32_id v : - 2 ^ 31 <= v < 2 ^ 31 → s32 v = v.
Proof. unfold s32. lia. Qed.

Lemma wp_axis_set i f (Q : unit → TUSBGamePadDevice → Prop) w :
  0 <= i < 6 → Q tt (w <| m_State := (m_State w) <| axes := alter f (Z.to_nat i) (axes (m_State w)) |> |>) →
  wp (axis_set i f) Q w.
Proof.
  intros Hi HQ. unfold axis_set. wp_step. wp_step. change (Z.of_nat MAX_AXIS) with 6.
  replace (_ && _) with true by (symmetry; lia). unfold pad_set. by wp_step.
Qed.
Lemma wp_hat_set i v (Q : unit → TUSBGamePadDevice → Prop) w :
  0 <= i < 6 → Q tt (w <| m_State := (m_State w) <| hats := <[Z.to_nat i := v]> (hats (m_State w)) |> |>) →
  wp (hat_set i v) Q w.
Proof.
  intros Hi HQ. unfold hat_set. change (Z.of_nat MAX_HATS) with 6.
  replace (_ && _) with true by (symmetry; lia). unfold pad_set. by wp_step.
Qed.

(** Writing the parts of an axis is writing the axis. *)
Lemma alter_axis mn mx v i (l : list TAxis) : (i < length l)%nat →
  alter (λ a, a <| value := v |>) i (alter (λ a, a <| minimum := mn |> <| maximum := mx |>) i l) =
  <[i := {| value := v; minimum := mn; maximum := mx |}]> l.
Proof.
  revert i. induction l as [|a l IH]; intros i Hi; simpl in *; [lia|].
  destruct i as [|i]; [done|]. simpl. f_equal. apply IH. lia.
Qed.

(** The range that the loop over the axes reads off its variables. *)
Definition loop_range (l : Locals) : Z * Z :=
  (if lmin l =? UNDEFINED then pmin l else lmin l, if lmax l =? UNDEFINED then pmax l else lmax l).

Lemma wp_axis_loop turns i l w (Q : Locals → TUSBGamePadDevice → Prop) :
  let k := Nat.min turns (Z.to_nat (count l - i)) in
  let fs := fields (offset l + i * size l) (size l) k in
  arrays w → Forall is_u8 (report w) → Forall (λ f, readable (length (report w)) f = true) fs →
  0 <= i → 0 <= k_axes l → k_axes l + Z.of_nat k <= 6 →
  Q (l <| k_axes := k_axes l + Z.of_nat k |>)
    (w <| m_State := (m_State w) <| axes :=
       overwrite (Z.to_nat (k_axes l)) (map (axis_of (report w)) (map (λ f, (f, loop_range l)) fs)) (axes (m_State w)) |> |>) →
  wp (axis_loop turns i l) Q w.
Proof.
  cbv zeta. revert i l w. induction turns as [|turns IH]; intros i l w Hw Hb Hf Hi Hk H6 HQ; simpl.
  { wp_step. simpl in HQ. rewrite Z.add_0_r, overwrite_nil in HQ. destruct l, w as [? ? ? ? []]; exact HQ. }
  destruct (Z.ltb_spec i (count l)) as [Hlt|Hge].
  2: { wp_step. replace (Z.to_nat (count l - i)) with 0%nat in HQ by lia. rewrite Nat.min_0_r in HQ. simpl in HQ.
       rewrite Z.add_0_r, overwrite_nil in HQ. destruct l, w as [? ? ? ? []]; exact HQ. }
  assert (Nat.min (S turns) (Z.to_nat (count l - i)) = S (Nat.min turns (Z.to_nat (count l - (i + 1))))) as Ek by lia.
  rewrite Ek in *. set (k := Nat.min turns _) in *. cbn [fields map] in *.
  replace (offset l + i * size l + size l) with (offset l + (i + 1) * size l) in * by lia.
  apply Forall_cons_1 in Hf as [Hf0 Hf]. unfold readable in Hf0. simpl in Hf0.
  destruct (field_ok_range _ _ _ Hf0) as [Ho Hsz].
  rewrite !if_negb. change (if lmin l =? UNDEFINED then pmin l else lmin l) with (fst (loop_range l)).
  change (if lmax l =? UNDEFINED then pmax l else lmax l) with (snd (loop_range l)).
  wp_step. apply wp_axis_set; [lia|]. set (w1 := w <| m_State := _ |>).
  wp_step. wp_step. change (report w1) with (report w). rewrite u32_id by (unfold is_u32; lia).
  set (f0 := {| fld_offset := _; fld_size := _ |}) in *.
  assert (∀ v, v = value (axis_of (report w) (f0, loop_range l)) → - 2 ^ 31 <= v < 2 ^ 31 →
    wp (axis_set (k_axes l) (λ a, a <| value := s32 v |>) ;; axis_loop turns (i + 1) (l <| k_axes := k_axes l + 1 |>)) Q w1) as Hrest.
  { intros v Ev Hr. wp_step. apply wp_axis_set; [lia|]. rewrite s32_id by done.
    set (w2 := w1 <| m_State := _ |>).
    assert (axes (m_State w2) = <[Z.to_nat (k_axes l) := axis_of (report w) (f0, loop_range l)]> (axes (m_State w))) as Ea.
    { change (alter (λ a, a <| value := v |>) (Z.to_nat (k_axes l)) (alter (λ a, a <| minimum := fst (loop_range l) |> <| maximum := snd (loop_range l) |>)
        (Z.to_nat (k_axes l)) (axes (m_State w))) = <[Z.to_nat (k_axes l) := axis_of (report w) (f0, loop_range l)]> (axes (m_State w))).
      rewrite alter_axis by (destruct Hw as [-> _]; unfold MAX_AXIS; lia). f_equal.
      rewrite Ev. unfold axis_of. by destruct (loop_range l). }
    destruct Hw as [Hw1 Hw2].
    apply (IH (i + 1) (l <| k_axes := k_axes l + 1 |>) w2); [|exact Hb|exact Hf|lia|simpl; lia|simpl; fold k; lia|].
    { split; [rewrite Ea, length_insert; exact Hw1|exact Hw2]. }
    cbn [count offset size k_axes upd]. fold k. rewrite Ea. rewrite overwrite_cons in HQ by (rewrite Hw1; unfold MAX_AXIS; lia).
    replace (Z.to_nat (k_axes l + 1)) with (S (Z.to_nat (k_axes l))) by lia.
    replace (k_axes l + Z.of_nat (S k)) with (k_axes l + 1 + Z.of_nat k) in HQ by lia. exact HQ. }
  wp_step. destruct (fst (loop_range l) <? 0) eqn:Es.
  - apply wp_BitGetSigned; [exact Hf0|done|]. intros Hr. apply Hrest; [|done].
    unfold axis_of. destruct (loop_range l) as [mn mx]; simpl in Es |- *. by rewrite Es.
  - apply wp_BitGetUnsigned; [exact Hf0|done|]. intros Hr. apply Hrest.
    + unfold axis_of. destruct (loop_range l) as [mn mx]; simpl in Es |- *. by rewrite Es.
    + assert (2 ^ size l <= 2 ^ 24) by (apply Z.pow_le_mono_r; lia). lia.
Qed.

Lemma wp_hat_loop turns i l w (Q : Locals → TUSBGamePadDevice → Prop) :
  let k := Nat.min turns (Z.to_nat (count l - i)) in
  let fs := fields (offset l + i * size l) (size l) k in
  arrays w → Forall is_u8 (report w) → Forall (λ f, readable (length (report w)) f = true) fs →
  0 <= i → 0 <= k_hats l → k_hats l + Z.of_nat k <= 6 →
  Q (l <| k_hats := k_hats l + Z.of_nat k |>)
    (w <| m_State := (m_State w) <| hats :=
       overwrite (Z.to_nat (k_hats l)) (map (hat_of (report w)) fs) (hats (m_State w)) |> |>) →
  wp (hat_loop turns i l) Q w.
Proof.
  cbv zeta. revert i l w. induction turns as [|turns IH]; intros i l w Hw Hb Hf Hi Hk H6 HQ; simpl.
  { wp_step. simpl in HQ. rewrite Z.add_0_r, overwrite_nil in HQ. destruct l, w as [? ? ? ? []]; exact HQ. }
  destruct (Z.ltb_spec i (count l)) as [Hlt|Hge].
  2: { wp_step. replace (Z.to_nat (count l - i)) with 0%nat in HQ by lia. rewrite Nat.min_0_r in HQ. simpl in HQ.
       rewrite Z.add_0_r, overwrite_nil in HQ. destruct l, w as [? ? ? ? []]; exact HQ. }
  assert (Nat.min (S turns) (Z.to_nat (count l - i)) = S (Nat.min turns (Z.to_nat (count l - (i + 1))))) as Ek by lia.
  rewrite Ek in *. set (k := Nat.min turns _) in *. cbn [fields map] in *.
  replace (offset l + i * size l + size l) with (offset l + (i + 1) * size l) in * by lia.
  apply Forall_cons_1 in Hf as [Hf0 Hf]. unfold readable in Hf0. simpl in Hf0.
  destruct (field_ok_range _ _ _ Hf0) as [Ho Hsz].
  wp_step. wp_step. rewrite u32_id by (unfold is_u32; lia). wp_step.
  apply wp_BitGetUnsigned; [exact Hf0|done|]. intros Hr.
  assert (2 ^ size l <= 2 ^ 24) by (apply Z.pow_le_mono_r; lia).
  wp_step. apply wp_hat_set; [lia|]. rewrite s32_id by lia. set (w1 := w <| m_State := _ |>). destruct Hw as [Hw1 Hw2].
  apply (IH (i + 1) (l <| k_hats := k_hats l + 1 |>) w1); [|exact Hb|exact Hf|lia|simpl; lia|simpl; fold k; lia|].
  { split; [exact Hw1|]. simpl. by rewrite length_insert. }
  cbn [count offset size k_hats upd]. fold k. rewrite overwrite_cons in HQ by (rewrite Hw2; unfold MAX_HATS; lia).
  replace (Z.to_nat (k_hats l + 1)) with (S (Z.to_nat (k_hats l))) by lia.
  replace (k_hats l + Z.of_nat (S k)) with (k_hats l + 1 + Z.of_nat k) in HQ by lia. exact HQ.
Qed.

(** ** Reading items *)

Lemma item_codes : forallb (λ v, (Z.land (s8 v) 0xFC =? v - v mod 4) && (Z.land (s8 v) 0x03 =? v mod 4)) (seqZ 0 256) = true.
Proof. vm_compute. reflexivity. Qed.

Lemma item_code v : is_u8 v → Z.land (s8 v) 0xFC = v - v mod 4 ∧ Z.land (s8 v) 0x03 = v mod 4.
Proof.
  intros Hv. pose proof (proj1 (forallb_forall _ _) item_codes v) as Hc.
  destruct (andb_prop _ _ (Hc ltac:(apply list_elem_of_In, elem_of_seqZ; unfold is_u8 in Hv; lia))) as [H1 H2]. lia.
Qed.

(** A descriptor that holds the bytes [D]. *)
Definition holds (D : list Z) (w : TUSBGamePadDevice) : Prop := m_pHIDReportDescriptor w = Some (map Some D).

Lemma wp_descriptor_byte D pos v (Q : Z → TUSBGamePadDevice → Prop) w :
  holds D w → D !! pos = Some v → Q (s8 v) w → wp (descriptor_byte pos) Q w.
Proof.
  intros Hh Hv HQ. unfold descriptor_byte. wp_step. wp_step. rewrite Hh. wp_step.
  eapply wp_cell_at; [by apply map_Some_lookup|]. by wp_step.
Qed.

Lemma low_byte v : is_u8 v → Z.land (s8 v) 0xFF = v.
Proof. intros Hv. change 0xFF with (Z.ones 8). rewrite Z.land_ones by lia. unfold s8, is_u8 in *. lia. Qed.

Lemma wp_item_argument D pos it (Q : Z * nat → TUSBGamePadDevice → Prop) w :
  holds D w → item_ok it → take (length (args it)) (drop pos D) = args it →
  Q (arg_value (args it), length (args it)) w →
  wp (item_argument (s8 (tag it + args_code (length (args it)))) pos) Q w.
Proof.
  intros Hh (Ht & Hm & Hu & Hl) HD HQ. destruct it as [t l]; simpl in *.
  assert (∀ k v, l !! k = Some v → D !! (pos + k)%nat = Some v) as Hat.
  { intros k v Hk. rewrite <- HD in Hk. apply lookup_take_Some in Hk as [Hk _]. by rewrite list.lookup_drop in Hk. }
  unfold item_argument. cbv zeta.
  assert (0 <= args_code (length l) < 4) as Hc by (destruct Hl as [Hl|[-> _]]; unfold args_code; repeat case_match; lia).
  destruct (item_code (t + args_code (length l))) as [_ ->]; [unfold is_u8; lia|].
  replace ((t + args_code (length l)) mod 4) with (args_code (length l)) by lia.
  destruct Hl as [Hl|[Hl Hs]].
  - destruct l as [|a [|b [|]]]; simpl in Hl; try lia;
      cbn [length args_code]; change (Z.of_nat 0) with 0; change (Z.of_nat 1) with 1; change (Z.of_nat 2) with 2;
      cbn [Z.eqb Pos.eqb].
    + by wp_step.
    + pose proof (Hat 0%nat a eq_refl) as Ha. rewrite Nat.add_0_r in Ha.
      wp_step. eapply wp_descriptor_byte; [done|exact Ha|]. by wp_step.
    + pose proof (Hat 0%nat a eq_refl) as Ha. rewrite Nat.add_0_r in Ha. pose proof (Hat 1%nat b eq_refl) as Hb.
      inversion Hu as [|? ? Ua _]; subst.
      wp_step. eapply wp_descriptor_byte; [done|exact Ha|]. wp_step. eapply wp_descriptor_byte; [done|exact Hb|]. wp_step.
      rewrite low_byte, lor_disjoint by (done || unfold is_u8 in Ua; lia). simpl in HQ.
      replace (a + s8 b * 2 ^ 8) with (a + 256 * s8 b) by lia. exact HQ.
  - destruct l as [|a [|b [|c [|d [|]]]]]; simpl in Hl; try lia.
    cbn [length args_code Z.eqb Pos.eqb].
    pose proof (Hat 0%nat a eq_refl) as Ha. rewrite Nat.add_0_r in Ha. pose proof (Hat 1%nat b eq_refl) as Hb.
    pose proof (Hat 2%nat c eq_refl) as Hcc. pose proof (Hat 3%nat d eq_refl) as Hd.
    repeat match goal with H : Forall is_u8 (_ :: _) |- _ => apply Forall_cons_1 in H as [? H] end.
    simpl in Hs. repeat match goal with H : Forall _ (_ :: _) |- _ => apply Forall_cons_1 in H as [? H] end.
    unfold is_u8 in *.
    wp_step. eapply wp_descriptor_byte; [done|exact Ha|]. wp_step. eapply wp_descriptor_byte; [done|exact Hb|].
    wp_step. eapply wp_descriptor_byte; [done|exact Hcc|]. wp_step. eapply wp_descriptor_byte; [done|exact Hd|]. wp_step.
    assert (∀ v, 0 <= v < 128 → s8 v = v) as Hs8 by (unfold s8; lia).
    rewrite (Hs8 a), (Hs8 b), (Hs8 c) by lia. rewrite (lor_disjoint a b 8), (lor_disjoint _ c 16), (lor_disjoint _ _ 24) by lia. simpl in HQ.
    replace (a + b * 2 ^ 8 + c * 2 ^ 16 + s8 d * 2 ^ 24) with (a + 256 * (b + 256 * (c + 256 * s8 d))) by lia. exact HQ.
Qed.

(** ** Decoding fills the layout *)

(** A bound is stated, or the variable has the mark. *)
Definition marks (o : option Z) (z : Z) : Prop := z = default UNDEFINED o ∧ o ≠ Some UNDEFINED.
Definition pad_state (q : purpose) : pad_kind :=
  match q with
  | Outside => None_ | Unnamed => GamePad | ForAxes => GamePadAxis | ForHats => GamePadHat
  | ForButtons => GamePadButton
  end.

(** The variables of the function show what is known and the layout so far. *)
Record sees (l : Locals) (v : hid_view) (L : layout) : Prop := {
  se_offset : offset l = v_offset v;
  se_size : size l = v_size v;
  se_count : count l = v_count v;
  se_lmin : marks (v_lmin v) (lmin l);
  se_lmax : marks (v_lmax v) (lmax l);
  se_pmin : marks (v_pmin v) (pmin l);
  se_pmax : marks (v_pmax v) (pmax l);
  se_state : state l = pad_state (v_purpose v);
  se_axes : k_axes l = Z.of_nat (length (lay_axes L));
  se_hats : k_hats l = Z.of_nat (length (lay_hats L));
  se_six : (length (lay_axes L) <= 6)%nat ∧ (length (lay_hats L) <= 6)%nat;
  se_id : id l = default 0 (lay_id L) ∧ lay_id L ≠ Some 0;
  se_range : 0 <= v_offset v < 2 ^ 31;
  se_words : is_u32 (v_size v) ∧ is_u32 (v_count v)
}.

Lemma sees0 : sees locals0 view0 layout0.
Proof. split; try done; simpl; lia. Qed.

Lemma marks_range o p a b :
  marks o a → marks p b → (if a =? UNDEFINED then b else a) = default (default (-123456789) p) o.
Proof.
  intros [-> Ho] [-> _]. destruct o as [z|]; simpl; [|done].
  destruct (Z.eqb_spec z UNDEFINED) as [->|]; [done|done].
Qed.
Lemma sees_range l v L : sees l v L → loop_range l = range_of v.
Proof. intros []. unfold loop_range, range_of. f_equal; by apply marks_range. Qed.

(** No argument is the mark. *)
Lemma arg_marks it : item_ok it → marks (Some (arg_value (args it))) (arg_value (args it)).
Proof.
  intros (_ & _ & Hu & Hl). split; [done|]. intros [= E]. unfold UNDEFINED in E.
  destruct it as [t l]; simpl in *. destruct Hl as [Hl|[Hl Hs]].
  - destruct l as [|a [|b [|]]]; simpl in *; try lia; repeat (apply Forall_cons_1 in Hu as [? Hu]); unfold is_u8, s8 in *; lia.
  - destruct l as [|a [|b [|c [|d [|]]]]]; simpl in *; try lia.
    apply Forall_cons_1 in Hs as [? _]. apply Forall_cons_1 in Hu as [Ha _]. unfold is_u8 in Ha. lia.
Qed.

Lemma overwrite_more {A} (xs ys l : list A) : (length xs + length ys <= length l)%nat →
  overwrite (length xs) ys (overwrite 0 xs l) = overwrite 0 (xs ++ ys) l.
Proof. intros Hl. rewrite <- (overwrite_app 0 xs ys l) by lia. done. Qed.

Lemma forallb_holds {A} (f : A → bool) l : forallb f l = true → Forall (λ x, f x = true) l.
Proof. induction l as [|x l IH]; simpl; [constructor|]. intros [Hx Hl]%andb_true_iff. constructor; auto. Qed.

(** The item's fields are those that the layout gets. *)
Lemma wp_input_fields l v L v1 L1 w (Q : Locals → TUSBGamePadDevice → Prop) :
  arrays w → Forall is_u8 (report w) → sees l v L → layout_input (length (report w)) v L = Some (v1, L1) →
  (∀ l1, sees l1 v1 L1 → v_offset v1 = v_offset v → lay_id L1 = lay_id L →
   Q l1 (w <| m_State := fill L1 (report w) (m_State w) |>)) →
  wp (input_fields l) Q (w <| m_State := fill L (report w) (m_State w) |>).
Proof.
  intros [Ha Hh] Hb Hs HL HQ. pose proof Hs as [O1 O2 O3 B1 B2 B3 B4 O4 O5 O6 [O7 O7'] O8 O9 [O10 O11]].
  pose proof (sees_range _ _ _ Hs) as Hrg. unfold layout_input in HL. unfold input_fields.
  rewrite <- O1, <- O2, <- O3 in HL.
  set (k := Nat.min 6 (Z.to_nat (count l))) in *. set (fs := fields (offset l) (size l) k) in *.
  assert (length fs = k) as Hfs by apply fields_length.
  set (w1 := w <| m_State := _ |>).
  assert (arrays w1) as Hw1.
  { split; simpl; rewrite overwrite_length; rewrite ?length_map; rewrite ?Ha, ?Hh; unfold MAX_AXIS, MAX_HATS; lia. }
  assert (Nat.min 6 (Z.to_nat (count l - 0)) = k) as E6 by (unfold k; lia).
  assert (fields (offset l + 0 * size l) (size l) k = fs) as Ef by (unfold fs; f_equal; lia).
  rewrite O4. destruct (v_purpose v) eqn:Es; cbn [pad_state].
  - injection HL as <- <-. wp_step. by apply HQ.
  - injection HL as <- <-. wp_step. by apply HQ.
  - destruct (_ && _) eqn:Hr; [|done]. injection HL as <- <-. apply andb_true_iff in Hr as [Hr%forallb_holds H6%Nat.leb_le].
    wp_step. eapply (wp_axis_loop MAX_AXIS 0 l w1); [exact Hw1|exact Hb| |lia|lia| |];
      change MAX_AXIS with 6%nat; rewrite E6; [rewrite Ef; exact Hr|lia|].
    rewrite Ef, Hrg. wp_step. change (report w1) with (report w).
    replace (Z.to_nat (k_axes l)) with (length (map (axis_of (report w)) (lay_axes L))) by (rewrite length_map; lia).
    change (axes (m_State w1)) with (overwrite 0 (map (axis_of (report w)) (lay_axes L)) (axes (m_State w))).
    rewrite overwrite_more by (rewrite !length_map, Ha; unfold MAX_AXIS; lia). rewrite <- map_app.
    apply HQ; [|done|done]. split; simpl; try done; rewrite length_app, length_map; lia.
  - destruct (_ && _) eqn:Hr; [|done]. injection HL as <- <-. apply andb_true_iff in Hr as [Hr%forallb_holds H6%Nat.leb_le].
    wp_step. eapply (wp_hat_loop MAX_HATS 0 l w1); [exact Hw1|exact Hb| |lia|lia| |];
      change MAX_HATS with 6%nat; rewrite E6; [rewrite Ef; exact Hr|lia|].
    rewrite Ef. wp_step. change (report w1) with (report w).
    replace (Z.to_nat (k_hats l)) with (length (map (hat_of (report w)) (lay_hats L))) by (rewrite length_map; lia).
    change (hats (m_State w1)) with (overwrite 0 (map (hat_of (report w)) (lay_hats L)) (hats (m_State w))).
    rewrite overwrite_more by (rewrite !length_map, Hh; unfold MAX_HATS; lia). rewrite <- map_app.
    apply HQ; [|done|done]. split; simpl; try done; rewrite length_app; lia.
  - destruct (readable _ _) eqn:Hr; [|done]. injection HL as <- <-. unfold readable in Hr. simpl in Hr.
    destruct (field_ok_range _ _ _ Hr) as [R1 R2]. rewrite <- O2 in O10. rewrite <- O3 in O11.
    wp_step. unfold pad_set. wp_step. wp_step. wp_step. simpl. rewrite u32_id by (unfold is_u32; lia). wp_step.
    apply wp_BitGetUnsigned; [exact Hr|done|]. intros Hv. wp_step. wp_step. wp_step.
    assert (count l <= 24) by (unfold is_u32 in *; nia). rewrite s32_id by (unfold is_u32 in *; lia). simpl in HQ |- *.
    apply HQ; [|done|done]. split; simpl; try done; split; congruence.
Qed.

(** The items that only set variables: the switch of the driver reads the tables
    as they are. *)
Lemma variables_seen n it l v L v1 L1 :
  item_ok it → tag it ≠ HID_REPORT_ID → tag it ≠ HID_INPUT → sees l v L → layout_item n it v L = Some (v1, L1) →
  L1 = L ∧ sees (item_variables (tag it) (arg_value (args it)) l) v1 L.
Proof.
  intros Hit Hid Hin Hs HL. pose proof (arg_marks it Hit) as Ha. pose proof Hs as [].
  unfold layout_item, meaning, tag_table in HL. unfold HID_REPORT_ID, HID_INPUT in *.
  set (arg := arg_value (args it)) in *. set (t := tag it) in *. cbn [find fst] in HL.
  assert (∀ q, bool_decide (state l = pad_state q) = bool_decide (v_purpose v = q)) as Hq.
  { intros q. rewrite se_state0. apply bool_decide_ext. destruct (v_purpose v), q; done. }
  assert (∀ q, sees (l <| state := pad_state q |>) (v <| v_purpose := q |>) L) as Hp by (intros q; by split).
  unfold item_variables, HID_USAGE_PAGE, HID_USAGE, HID_LOGICAL_MIN, HID_PHYSICAL_MIN, HID_LOGICAL_MAX,
    HID_PHYSICAL_MAX, HID_REPORT_SIZE, HID_REPORT_COUNT, HID_USAGE_PAGE_BUTTONS, HID_USAGE_JOYSTICK,
    HID_USAGE_GAMEPAD, HID_USAGE_X, HID_USAGE_SLIDER, HID_USAGE_HATSWITCH.
  pose proof (Hq Unnamed) as Hq1. cbn [pad_state] in Hq1. rewrite Hq1. clear Hq Hq1.
  destruct (Z.eqb_spec 4 t) as [<-|]; cbn [fmap option_fmap option_map snd] in HL.
  { injection HL as <- <-. split; [done|]. cbn [Z.eqb Pos.eqb].
    destruct (_ && _); [apply (Hp ForButtons)|done]. }
  rewrite (proj2 (Z.eqb_neq t 4)) by done.
  destruct (Z.eqb_spec 8 t) as [<-|]; cbn [fmap option_fmap option_map snd] in HL.
  { injection HL as <- <-. split; [done|]. cbn [Z.eqb Pos.eqb]. unfold usage_purpose.
    destruct (_ || _); [apply (Hp Unnamed)|]. destruct (_ && _).
    - destruct (bool_decide _); [apply (Hp ForAxes)|done].
    - destruct (arg =? 57); [|done]. destruct (bool_decide _); [apply (Hp ForHats)|done]. }
  rewrite (proj2 (Z.eqb_neq t 8)) by done.
  destruct (Z.eqb_spec 20 t) as [<-|]; cbn [fmap option_fmap option_map snd] in HL.
  { injection HL as <- <-. split; [done|]. by split. }
  rewrite (proj2 (Z.eqb_neq t 20)) by done.
  destruct (Z.eqb_spec 36 t) as [<-|]; cbn [fmap option_fmap option_map snd] in HL.
  { injection HL as <- <-. split; [done|]. by split. }
  destruct (Z.eqb_spec 52 t) as [<-|]; cbn [fmap option_fmap option_map snd] in HL.
  { injection HL as <- <-. split; [done|]. by split. }
  rewrite (proj2 (Z.eqb_neq t 52)), (proj2 (Z.eqb_neq t 36)) by done.
  destruct (Z.eqb_spec 68 t) as [<-|]; cbn [fmap option_fmap option_map snd] in HL.
  { injection HL as <- <-. split; [done|]. by split. }
  rewrite (proj2 (Z.eqb_neq t 68)) by done.
  destruct (Z.eqb_spec 116 t) as [<-|]; cbn [fmap option_fmap option_map snd] in HL.
  { injection HL as <- <-. split; [done|]. split; try done. split; [apply u32_range|by apply se_words0]. }
  rewrite (proj2 (Z.eqb_neq t 116)) by done.
  destruct (Z.eqb_spec 148 t) as [<-|]; cbn [fmap option_fmap option_map snd] in HL.
  { injection HL as <- <-. split; [done|]. split; try done. split; [by apply se_words0|apply u32_range]. }
  rewrite (proj2 (Z.eqb_neq t 148)) by done.
  rewrite (proj2 (Z.eqb_neq 132 t)), (proj2 (Z.eqb_neq 128 t)) in HL by congruence.
  by injection HL as <- <-.
Qed.

Lemma layout_input_id n v L v1 L1 : layout_input n v L = Some (v1, L1) → lay_id L1 = lay_id L.
Proof. unfold layout_input. intros HL. repeat case_match; simplify_eq; done. Qed.

(** Only one identifier. *)
Lemma layout_item_id n it v L v1 L1 : layout_item n it v L = Some (v1, L1) → lay_id L ≠ None → lay_id L1 = lay_id L.
Proof.
  unfold layout_item. intros HL Hid. destruct (meaning (tag it)) as [[]|]; try by injection HL as <- <-.
  - by destruct L as [[] [] [] []].
  - destruct (if arg_value (args it) mod 4 =? 2 then layout_input n v L else Some (v, L)) as [[v2 L2]|] eqn:E; simpl in HL; [|done].
    case_match; [|done]. injection HL as <- <-. case_match; [by apply layout_input_id in E|]. by injection E as <- <-.
Qed.
Lemma layout_items_id n items v L v1 L1 : layout_items n items v L = Some (v1, L1) → lay_id L ≠ None → lay_id L1 = lay_id L.
Proof.
  revert v L. induction items as [|it items IH]; simpl; intros v L HL Hid; [by injection HL as <- <-|].
  destruct (layout_item n it v L) as [[v2 L2]|] eqn:E; simpl in HL; [|done].
  pose proof (layout_item_id _ _ _ _ _ _ E Hid) as E1. rewrite <- E1. eapply IH; [exact HL|congruence].
Qed.

Lemma fill_empty L b s : lay_axes L = [] → lay_hats L = [] → lay_buttons L = None → fill L b s = s.
Proof. intros Ha Hh Hb. unfold fill. rewrite Ha, Hh, Hb. simpl. rewrite !overwrite_nil. by destruct s. Qed.

Lemma first_byte c b : is_u8 c → field_value (c :: b) 0 8 = c.
Proof. intros Hc. unfold field_value. simpl. unfold is_u8 in Hc. rewrite Z.div_1_r. apply Z.mod_small. lia. Qed.

(** One item. *)
Lemma wp_layout_item it l v L v1 L1 w (Q : turn → TUSBGamePadDevice → Prop) :
  item_ok it → arrays w → Forall is_u8 (report w) → sees l v L → report_for L (report w) = true →
  layout_item (length (report w)) it v L = Some (v1, L1) →
  (∀ l1, report_for L1 (report w) = true → sees l1 v1 L1 →
     Q (Continue l1) (w <| m_State := fill L1 (report w) (m_State w) |>)) →
  (report_for L1 (report w) = false → lay_id L1 ≠ None → Q Return w) →
  wp (item_step (s8 (tag it + args_code (length (args it)))) (arg_value (args it)) l) Q
    (w <| m_State := fill L (report w) (m_State w) |>).
Proof.
  intros Hit Hw Hb Hs Hfor HL HQ HR. pose proof Hit as (Ht & Hm & Hu & Hl).
  pose proof Hs as [O1 O2 O3 B1 B2 B3 B4 O4 O5 O6 O7 [O8 O8'] O9 [O10 O11]].
  assert (0 <= args_code (length (args it)) < 4) as Hc.
  { destruct Hl as [Hl|[-> _]]; [|done]. destruct (length (args it)) as [|[|[|]]]; simpl; lia. }
  unfold item_step. cbv zeta. destruct (item_code (tag it + args_code (length (args it)))) as [-> _]; [unfold is_u8; lia|].
  replace (tag it + args_code (length (args it)) - (tag it + args_code (length (args it))) mod 4) with (tag it) by lia.
  destruct (Z.eqb_spec (tag it) HID_REPORT_ID) as [Eid|Nid].
  - unfold layout_item in HL. rewrite Eid in HL. change (meaning HID_REPORT_ID) with (Some ReportId) in HL. cbn beta iota in HL.
    destruct L as [[|] [|] [|] [|]]; try done. simpl in O8. rewrite O8. cbn [negb Z.eqb].
    destruct (_ && _) eqn:Ec in HL; [|done]. injection HL as <- <-. apply andb_true_iff in Ec as [Ec Hn%Nat.leb_le].
    set (arg := arg_value (args it)) in *. assert (1 <= arg < 256) as Harg by lia.
    rewrite (fill_empty _ _ (m_State w)) by done. replace (w <| m_State := m_State w |>) with w by (by destruct w).
    wp_step. wp_step. wp_step.
    destruct (report w) as [|c b] eqn:Er; [simpl in Hn; lia|].
    apply Forall_cons_1 in Hb as [Hc0 Hb].
    apply wp_BitGetUnsigned; [unfold field_ok, field_bytes; simpl; lia|by constructor|]. intros _.
    rewrite first_byte by done. rewrite u32_id by (unfold is_u32; lia). rewrite <- negb_orb.
    unfold report_for in HQ, HR. simpl in HQ, HR. destruct ((c =? 0) || (c =? arg)) eqn:Em; cbn [negb].
    + wp_step. replace w with (w <| m_State := m_State w |>) at 1 by (by destruct w).
      rewrite <- (fill_empty {| lay_axes := []; lay_hats := []; lay_buttons := None; lay_id := Some arg |} (c :: b) (m_State w)) by done.
      apply HQ; [done|]. split; simpl; try done. split; [done|]. intros [= E0]. lia.
    + wp_step. by apply HR.
  - unfold item_switch. destruct (Z.eqb_spec (tag it) HID_INPUT) as [Ein|Nin].
    + unfold layout_item in HL. rewrite Ein in HL. change (meaning HID_INPUT) with (Some InputItem) in HL. cbn beta iota in HL.
      change 3 with (Z.ones 2). rewrite Z.land_ones by lia. change (2 ^ 2) with 4.
      destruct (if arg_value (args it) mod 4 =? 2 then layout_input (length (report w)) v L else Some (v, L)) as [[v2 L2]|] eqn:E; cbn in HL; [|done].
      destruct (_ <? 2 ^ 31) eqn:Er in HL; [|done]. injection HL as <- <-.
      assert (∀ l2 w', sees l2 v2 L2 → lay_id L2 = lay_id L → w' = w <| m_State := fill L2 (report w) (m_State w) |> →
        wp (l ← mret (l2 <| offset := u32 (offset l2 + count l2 * size l2) |>); mret (Continue l)) Q w') as Hrest.
      { intros l2 w' [P1 P2 P3 D1 D2 D3 D4 P4 P5 P6 P7 P8 P9 [P10 P11]] Hi ->. rewrite P1, P2, P3.
        assert (0 <= v_offset v2 + v_count v2 * v_size v2 < 2 ^ 31) as Hn by (unfold is_u32 in *; nia).
        wp_step. wp_step. wp_step. rewrite u32_id by (unfold is_u32; lia).
        apply HQ; [by unfold report_for in *; rewrite Hi|]. by split. }
      wp_step. wp_step. destruct (arg_value (args it) mod 4 =? 2).
      * eapply (wp_input_fields _ _ _ _ _ _ _ Hw Hb Hs E). intros l2 Hs2 _ Hi2. by apply wp_bind_inv, Hrest.
      * injection E as <- <-. wp_step. by apply wp_bind_inv, Hrest.
    + destruct (variables_seen _ _ _ _ _ _ _ Hit Nid Nin Hs HL) as [-> Hv]. wp_step. wp_step. wp_step. by apply HQ.
Qed.

Lemma item_bytes_length it : length (item_bytes it) = S (length (args it)).
Proof. done. Qed.

Lemma wp_decode_items D items fuel pos l v L vf Lf w (Q : option Locals → TUSBGamePadDevice → Prop) :
  Forall item_ok items → arrays w → Forall is_u8 (report w) → holds D w →
  drop pos D = descriptor_bytes items → Z.of_nat (length D) < 65536 → (length D - pos < fuel)%nat → (pos <= length D)%nat →
  sees l v L → report_for L (report w) = true →
  layout_items (length (report w)) items v L = Some (vf, Lf) →
  (∀ lf, report_for Lf (report w) = true → sees lf vf Lf → Q (Some lf) (w <| m_State := fill Lf (report w) (m_State w) |>)) →
  (report_for Lf (report w) = false → Q None w) →
  wp (decode_loop fuel pos (Z.of_nat (length D - pos)) l) Q (w <| m_State := fill L (report w) (m_State w) |>).
Proof.
  intros Hitems Hw Hb HD. revert fuel pos l v L.
  induction Hitems as [|it items Hit _ IH]; intros fuel pos l v L Hd Hlen Hf Hpos Hlo Hfor HL HQ HR;
    destruct fuel as [|fuel]; [lia| |lia|]; cbn [decode_loop].
  - injection HL as <- <-. pose proof (f_equal length Hd) as Hl. rewrite length_drop in Hl. simpl in Hl.
    rewrite (proj2 (Z.eqb_eq _ _)) by lia. wp_step. by apply HQ.
  - simpl in HL. destruct (layout_item _ it v L) as [[v1 L1]|] eqn:E; simpl in HL; [|done].
    change (descriptor_bytes (it :: items)) with (item_bytes it ++ descriptor_bytes items) in Hd.
    pose proof (f_equal length Hd) as Hl. rewrite length_drop, length_app, item_bytes_length in Hl.
    rewrite (proj2 (Z.eqb_neq _ _)) by lia. set (w1 := w <| m_State := _ |>).
    assert (holds D w1) as HD1 by exact HD.
    change (drop pos D = (tag it + args_code (length (args it))) :: args it ++ descriptor_bytes items) in Hd.
    wp_step. eapply wp_descriptor_byte; [exact HD1|exact (drop_cons_lookup _ _ _ _ Hd)|].
    assert (drop (pos + 1) D = args it ++ descriptor_bytes items) as Hd1 by exact (drop_cons_drop _ _ _ _ Hd).
    wp_step. apply (wp_item_argument D); [exact HD1|exact Hit|by rewrite Hd1, take_app_length|].
    wp_step. apply (wp_layout_item it l v L v1 L1 w); [done|done|done|done|done|exact E|..].
    + intros l1 Hfor1 Hlo1. replace (u16 _) with (Z.of_nat (length D - (pos + 1 + length (args it)))) by (unfold u16; rewrite Z.mod_small by lia; lia).
      eapply IH; [|done|lia|lia|exact Hlo1|exact Hfor1|exact HL|exact HQ|exact HR].
      by rewrite <- drop_drop, Hd1, drop_app_length.
    + intros Hfor1 Hid1. wp_step. apply HR. unfold report_for in *. by rewrite (layout_items_id _ _ _ _ _ _ HL Hid1).
Qed.

(** ** The walk over the descriptor *)

(** The items of a descriptor in turn, by [item_step], until one ends the walk. *)
Fixpoint run_items (items : list hid_item) (l : Locals) : M TUSBGamePadDevice (option Locals) :=
  match items with
  | [] => mret (Some l)
  | it :: items =>
      t ← item_step (s8 (hd 0 (item_bytes it))) (arg_value (args it)) l;
      match t with
      | Return => mret None
      | Break l => mret (Some l)
      | Continue l => run_items items l
      end
  end.

Lemma decode_loop_items D items fuel pos l w :
  Forall item_ok items → holds D w → arrays w → locals_ok l →
  drop pos D = descriptor_bytes items → Z.of_nat (length D) < 65536 → (length D - pos < fuel)%nat → (pos <= length D)%nat →
  decode_loop fuel pos (Z.of_nat (length D - pos)) l w = run_items items l w.
Proof.
  intros Hitems. revert fuel pos l w.
  induction Hitems as [|it items Hit _ IH]; intros fuel pos l w HD Hw Hl Hd Hlen Hf Hpos;
    (destruct fuel as [|fuel]; [lia|]); cbn [decode_loop run_items].
  { pose proof (f_equal length Hd) as He. rewrite length_drop in He. simpl in He.
    by rewrite (proj2 (Z.eqb_eq _ _)) by lia. }
  change (descriptor_bytes (it :: items)) with (item_bytes it ++ descriptor_bytes items) in Hd.
  pose proof (f_equal length Hd) as He. rewrite length_drop, length_app, item_bytes_length in He.
  rewrite (proj2 (Z.eqb_neq _ _)) by lia.
  change (drop pos D = (tag it + args_code (length (args it))) :: args it ++ descriptor_bytes items) in Hd.
  assert (drop (pos + 1) D = args it ++ descriptor_bytes items) as Hd1 by exact (drop_cons_drop _ _ _ _ Hd).
  assert (descriptor_byte pos w = Ok (s8 (tag it + args_code (length (args it))), w)) as E1.
  { assert (wp (descriptor_byte pos) (λ a s, a = s8 (tag it + args_code (length (args it))) ∧ s = w) w) as H1
      by (eapply wp_descriptor_byte; [exact HD|exact (drop_cons_lookup _ _ _ _ Hd)|done]).
    apply wp_run in H1 as (? & ? & E & -> & ->). exact E. }
  assert (item_argument (s8 (tag it + args_code (length (args it)))) (pos + 1) w =
    Ok ((arg_value (args it), length (args it)), w)) as E2.
  { assert (wp (item_argument (s8 (tag it + args_code (length (args it)))) (pos + 1))
      (λ a s, a = (arg_value (args it), length (args it)) ∧ s = w) w) as H2
      by (apply (wp_item_argument D); [exact HD|exact Hit|by rewrite Hd1, take_app_length|done]).
    apply wp_run in H2 as (? & ? & E & -> & ->). exact E. }
  unfold mbind, M_bind. rewrite E1, E2. cbn [hd item_bytes].
  pose proof (steady_item_step (s8 (tag it + args_code (length (args it)))) (arg_value (args it)) l Hl w Hw) as Hs.
  unfold wpe in Hs. destruct (item_step _ _ l w) as [[t w1]|]; [|done]. destruct Hs as (Ht & Hw1 & s1 & E3 & _).
  destruct t as [l1|l1|]; [|done|done].
  replace (u16 _) with (Z.of_nat (length D - (pos + 1 + length (args it)))) by (unfold u16; rewrite Z.mod_small by lia; lia).
  apply IH; [by rewrite E3|done|done| |done|lia|lia].
  by rewrite <- drop_drop, Hd1, drop_app_length.
Qed.

(** What the function keeps of its variables. *)
Definition keep_counts (r : option Locals) : M TUSBGamePadDevice unit :=
  match r with
  | None => mret tt
  | Some l => modify (λ w, w <| m_State := (m_State w) <| naxes := k_axes l |> <| nhats := k_hats l |> |>
                             <| m_nReportSize := u16 (u32 (offset l + 7) / 8) |>)
  end.

(** However many fields an item announces, six are read. *)
Definition capped (l : Locals) : Locals := l <| count := Z.min 6 (count l) |>.

Lemma axis_loop_capped turns i l w : i + Z.of_nat turns <= 6 →
  axis_loop turns i l w = (l' ← axis_loop turns i (capped l); mret (l' <| count := count l |>)) w.
Proof.
  revert i l w. induction turns as [|turns IH]; intros i l w Hi; cbn [axis_loop]; [by destruct l|].
  replace (i <? count (capped l)) with (i <? count l) by (simpl; lia).
  destruct (i <? count l); [|by destruct l].
  change (lmin (capped l)) with (lmin l). change (lmax (capped l)) with (lmax l). change (pmin (capped l)) with (pmin l).
  change (pmax (capped l)) with (pmax l). change (offset (capped l)) with (offset l). change (size (capped l)) with (size l).
  change (k_axes (capped l)) with (k_axes l). unfold mbind, M_bind.
  repeat match goal with |- match ?m with _ => _ end = _ => destruct m as [[? ?]|]; [|done] end.
  rewrite (IH (i + 1) (l <| k_axes := k_axes l + 1 |>)) by lia. done.
Qed.
Lemma hat_loop_capped turns i l w : i + Z.of_nat turns <= 6 →
  hat_loop turns i l w = (l' ← hat_loop turns i (capped l); mret (l' <| count := count l |>)) w.
Proof.
  revert i l w. induction turns as [|turns IH]; intros i l w Hi; cbn [hat_loop]; [by destruct l|].
  replace (i <? count (capped l)) with (i <? count l) by (simpl; lia).
  destruct (i <? count l); [|by destruct l].
  change (offset (capped l)) with (offset l). change (size (capped l)) with (size l).
  change (k_hats (capped l)) with (k_hats l). unfold mbind, M_bind.
  repeat match goal with |- match ?m with _ => _ end = _ => destruct m as [[? ?]|]; [|done] end.
  rewrite (IH (i + 1) (l <| k_hats := k_hats l + 1 |>)) by lia. done.
Qed.
Lemma input_fields_capped l w : state l = GamePadAxis ∨ state l = GamePadHat →
  input_fields l w = (l' ← input_fields (capped l); mret (l' <| count := count l |>)) w.
Proof.
  intros Hs. unfold input_fields. change (state (capped l)) with (state l).
  destruct Hs as [-> | ->]; unfold mbind, M_bind.
  - rewrite (axis_loop_capped MAX_AXIS 0 l w) by done. unfold mbind, M_bind.
    by destruct (axis_loop _ 0 (capped l) w) as [[l1 w1]|].
  - rewrite (hat_loop_capped MAX_HATS 0 l w) by done. unfold mbind, M_bind.
    by destruct (hat_loop _ 0 (capped l) w) as [[l1 w1]|].
Qed.

Lemma decode_walk items w :
  Forall item_ok items → arrays w →
  m_pHIDReportDescriptor w = Some (map Some (descriptor_bytes items)) →
  m_usReportDescriptorLength w = Z.of_nat (length (descriptor_bytes items)) →
  Z.of_nat (length (descriptor_bytes items)) < 65536 →
  USBGamePadDeviceDecodeReport w = (r ← run_items items locals0; keep_counts r) w.
Proof.
  intros Hit Hw HD Hn Hlen. unfold USBGamePadDeviceDecodeReport, mbind, M_bind, gets. rewrite HD, Hn. simpl default.
  set (D := descriptor_bytes items) in *. rewrite length_map.
  replace (Z.of_nat (length D)) with (Z.of_nat (length D - 0)) by lia.
  rewrite (decode_loop_items D items); [|done|done|done|by split; simpl|by rewrite drop_0|exact Hlen|lia|lia].
  by destruct (run_items items locals0 w) as [[[l|] w1]|].
Qed.

(** C24. The walk over a descriptor ends: for every descriptor that is made of whole
    items, whatever the items and the report are, decoding is doing each item
    once, in their order, and ends behind the last one or where an identifier
    ends it; then the counts and the size are kept. Of the axes or hats that an
    item announces at most six are read, however many it states. A result has
    at most six axes and hats and a size of sixteen bits and has changed nothing
    else; what does not give a result is a fault of memory or of a shift. *)
Theorem decode_ends items w :
  Forall item_ok items → pad_ok w →
  m_pHIDReportDescriptor w = Some (map Some (descriptor_bytes items)) →
  m_usReportDescriptorLength w = Z.of_nat (length (descriptor_bytes items)) →
  Z.of_nat (length (descriptor_bytes items)) < 65536 →
  USBGamePadDeviceDecodeReport w = (r ← run_items items locals0; keep_counts r) w ∧
  (∀ l w1, state l = GamePadAxis ∨ state l = GamePadHat →
     input_fields l w1 = (l' ← input_fields (capped l); mret (l' <| count := count l |>)) w1) ∧
  match USBGamePadDeviceDecodeReport w with
  | Ok (_, w') => pad_ok w' ∧ w' = w <| m_State := m_State w' |> <| m_nReportSize := m_nReportSize w' |>
  | Err f => f = MemFault ∨ f = UndefBehaviour ∨ f = AssertFailed
  end.
Proof.
  intros Hit Hok HD Hn Hlen. split; [by apply decode_walk; [|apply Hok|..]|].
  split; [exact input_fields_capped|]. pose proof (wpe_decode w Hok) as He. unfold wpe in He.
  destruct (USBGamePadDeviceDecodeReport w) as [[]|[]]; auto. by destruct He.
Qed.

(** The object after a report for its layout. *)
Definition filled (v : hid_view) (L : layout) (w : TUSBGamePadDevice) : TUSBGamePadDevice :=
  w <| m_State := (fill L (report w) (m_State w)) <| naxes := Z.of_nat (length (lay_axes L)) |>
                    <| nhats := Z.of_nat (length (lay_hats L)) |> |>
    <| m_nReportSize := ((v_offset v + 7) / 8) mod 65536 |>.

(** An object with the descriptor of these items and their layout. *)
Record described (items : list hid_item) (v : hid_view) (L : layout) (w : TUSBGamePadDevice) : Prop := {
  de_items : Forall item_ok items;
  de_arrays : arrays w;
  de_report : Forall is_u8 (report w);
  de_descriptor : m_pHIDReportDescriptor w = Some (map Some (descriptor_bytes items));
  de_length : m_usReportDescriptorLength w = Z.of_nat (length (descriptor_bytes items));
  de_short : Z.of_nat (length (descriptor_bytes items)) < 65536;
  de_layout : layout_items (length (report w)) items view0 layout0 = Some (v, L)
}.

Lemma wp_decode items v L w (Q : unit → TUSBGamePadDevice → Prop) :
  described items v L w → Q tt (if report_for L (report w) then filled v L w else w) →
  wp USBGamePadDeviceDecodeReport Q w.
Proof.
  intros [Hit Hw Hb HD Hn Hlen HL] HQ.
  unfold USBGamePadDeviceDecodeReport. wp_step. wp_step. wp_step. wp_step. rewrite HD, Hn. simpl default.
  set (D := descriptor_bytes items) in *. rewrite length_map.
  assert (w = w <| m_State := fill layout0 (report w) (m_State w) |>) as Ew by (rewrite fill_empty by done; by destruct w).
  wp_step. rewrite Ew. replace (Z.of_nat (length D)) with (Z.of_nat (length D - 0)) by lia.
  eapply (wp_decode_items D items); [exact Hit|exact Hw|exact Hb|exact HD|by rewrite drop_0|exact Hlen|lia|lia|exact sees0|done|exact HL|..].
  - intros lf Hfor []. rewrite Hfor in HQ. wp_step. unfold pad_set. wp_step. wp_step.
    unfold filled in HQ. simpl in HQ |- *.
    rewrite se_axes0, se_hats0, se_offset0. unfold u16. rewrite u32_id by (unfold is_u32; lia). exact HQ.
  - intros Hfor. rewrite Hfor in HQ. by wp_step.
Qed.

(** C22. Decoding a report is filling the layout of its descriptor: the axes, hats and
    buttons that the items describe, read by the tables of the HID
    specification, get the values of their fields, the counts and the size of a
    report are those of the layout, whatever the report holds, and nothing else
    changes. A report with another identifier changes nothing at all. *)
Theorem decode_fills items v L w : described items v L w →
  USBGamePadDeviceDecodeReport w = Ok (tt, if report_for L (report w) then filled v L w else w).
Proof.
  intros Hw. pose proof (wp_decode items v L w (λ _ w', w' = if report_for L (report w) then filled v L w else w) Hw eq_refl) as Hwp.
  apply wp_run in Hwp as ([] & w' & E & ->). exact E.
Qed.

(** ** A gamepad

    Two axes of a byte each, signed, a hat of four bits, ten buttons that begin in
    the same byte and two bits of padding; the report has the identifier 1. *)
Module LayoutDemo.
Definition item (t : Z) (l : list Z) : hid_item := {| tag := t; args := l |}.
Definition items : list hid_item :=
  [item 0x04 [1]; item 0x08 [5]; item 0xA0 [1]; item 0x84 [1];
   item 0x14 [0x81]; item 0x24 [0x7F]; item 0x74 [8]; item 0x94 [2]; item 0x08 [0x30]; item 0x08 [0x31]; item 0x80 [2];
   item 0x14 [0]; item 0x24 [7; 0]; item 0x74 [4]; item 0x94 [1]; item 0x08 [0x39]; item 0x80 [2];
   item 0x34 [0]; item 0x44 [0x3B; 1]; item 0x64 [0x14]; item 0x54 [0];
   item 0x04 [9]; item 0x24 [1; 0; 0; 0]; item 0x74 [1]; item 0x94 [12]; item 0x80 [2]; 
   item 0x08 [1]; item 0xA0 [0]; item 0xC0 []; item 0xC0 []].
Definition pad (b : list Z) : TUSBGamePadDevice :=
  {| m_USBFunction := {| Configure := NoConfigure; fn_pDevice := 1; fn_pConfigParser := None; m_pInterfaceDesc := None |};
     m_nDeviceIndex := Some 1; m_pEndpointIn := 17; m_pEndpointOut := 0;
     m_State := {| naxes := 0; axes := replicate 6 {| value := 0; minimum := 0; maximum := 0 |}; nhats := 0;
                   hats := replicate 6 0; nbuttons := 0; buttons := 0 |};
     m_pStatusHandler := 77; m_usReportDescriptorLength := Z.of_nat (length (descriptor_bytes items));
     m_pHIDReportDescriptor := Some (map Some (descriptor_bytes items)); m_URB := 32; m_pReportBuffer := 4096;
     report := b; m_nReportSize := 0; writeBuf := replicate 48 0 |}.
Definition b : list Z := [1; 0xFE; 3; 0x53; 0x12] ++ replicate 59 0.

Lemma items_ok : Forall item_ok items.
Proof.
  unfold items. repeat (apply Forall_cons; [|]); try apply Forall_nil_2; unfold item_ok, item; simpl;
    (split; [lia|]; split; [reflexivity|]; split; [repeat (apply Forall_cons; [unfold is_u8; lia|]); apply Forall_nil_2|]).
  all: first [left; lia|right; split; [reflexivity|repeat (apply Forall_cons; [lia|]); apply Forall_nil_2]].
Qed.
Lemma b_bytes : Forall is_u8 b.
Proof. unfold b. simpl. repeat (apply Forall_cons; [unfold is_u8; lia|]). apply Forall_nil_2. Qed.

Lemma pad_described : described items
  (default view0 (fst <$> layout_items 64 items view0 layout0))
  (default layout0 (snd <$> layout_items 64 items view0 layout0)) (pad b).
Proof. split; [exact items_ok|by split|exact b_bytes|reflexivity|reflexivity|reflexivity|vm_compute; reflexivity]. Qed.

(** The values: -2 and 3, the direction 3, the buttons. *)
Lemma decode_fills_witness : ∃ w', USBGamePadDeviceDecodeReport (pad b) = Ok (tt, w') ∧
  map value (axes (m_State w')) = [-2; 3; 0; 0; 0; 0] ∧ naxes (m_State w') = 2 ∧ hats (m_State w') = [3; 0; 0; 0; 0; 0] ∧
  nbuttons (m_State w') = 12 ∧ m_nReportSize w' = 5.
Proof.
  eexists. split.
  - eapply (decode_fills items _ _ (pad b)). exact pad_described.
  - vm_compute. repeat split.
Defined.

(** The walk over the descriptor of the gamepad above comes to its end, and that
    over one with an item for seven axes reads six of them. *)
Lemma decode_ends_witness :
  (∃ w', USBGamePadDeviceDecodeReport (pad b) = Ok (tt, w') ∧ naxes (m_State w') = 2 ∧ pad_ok w') ∧
  (let l := locals0 <| state := GamePadAxis |> <| count := 7 |> <| size := 8 |> <| lmin := 0 |> in
   map value (axes (m_State (match input_fields l (pad b) with Ok (_, w1) => w1 | Err _ => pad b end))) =
     [1; 254; 3; 83; 18; 0]).
Proof.
  destruct (decode_ends items (pad b) items_ok) as (H1 & H2 & H3);
    [split; [by split|]; vm_compute; repeat split; discriminate|reflexivity|reflexivity|reflexivity|].
  split.
  - rewrite H1 in H3 |- *. destruct ((r ← run_items items locals0; keep_counts r) (pad b)) as [[[] w']|f] eqn:E.
    + exists w'. split; [done|]. split; [|exact (proj1 H3)]. revert E. vm_compute. by intros [= <-].
    + revert E. vm_compute. done.
  - cbv zeta. rewrite H2 by (by left). vm_compute. reflexivity.
Defined.

(** Fields that cross the end of a byte are not what they are in a HID report,
    the low bits first: of twelve bits in the bytes 34 and 12 hexadecimal, which
    are 234 hexadecimal, the driver makes 352; of ten bits it adds bits that are
    not of the field; and 32 bits are an undefined shift. *)
Theorem crossing_fields :
  BitGetUnsigned [0x34; 0x12] 0 12 tt = Ok (0x352, tt) ∧
  BitGetUnsigned [0x00; 0xFC] 0 10 tt = Ok (0xFC, tt) ∧
  BitGetUnsigned [1; 0; 0; 0] 0 32 tt = Err UndefBehaviour.
Proof. vm_compute. done. Qed.

(** Descriptors that make the driver leave its memory: an item that is cut short,
    after which the length wraps around, and a seventh axis. *)
Definition with_descriptor (d : list Z) : TUSBGamePadDevice :=
  (pad b) <| m_pHIDReportDescriptor := Some (map Some d) |> <| m_usReportDescriptorLength := Z.of_nat (length d) |>.
Theorem hostile_descriptors :
  USBGamePadDeviceDecodeReport (with_descriptor [0x05]) = Err MemFault ∧
  USBGamePadDeviceDecodeReport (with_descriptor
    ([0x09; 5; 0x15; 0; 0x75; 1; 0x95; 6; 0x09; 0x30; 0x81; 2] ++ [0x09; 0x31; 0x81; 2])) = Err MemFault.
Proof. vm_compute. done. Qed.
End LayoutDemo.
