(* ===== verification/UsbGamepad.v ===== *)
(** * lib/usbgamepad.c: the gamepad

    The driver around the decoding of reports: configuring, the requests for
    reports, and the commands that wake a controller of a PlayStation 3. *)
From S2P Require Import Prelude Util CString Endpoint ConfigParser DeviceName.
From S2P Require Import UsbBus UsbFunction InputDriver EndpointPair GamepadReport GamepadLayout.
Import Names.

(** The handler is given the state as it is. *)
Inductive gamepad_call := GamePadStatus (pStatusHandler nDeviceIndex : Z) (pState : USPiGamePadState).

#[export] Instance gamepad_object : InputObject TUSBGamePadDevice :=
  {| io_function := m_USBFunction; io_set_function f m := m <| m_USBFunction := f |>;
     io_endpoint := m_pEndpointIn; io_set_endpoint p m := m <| m_pEndpointIn := p |>;
     io_urb := m_URB |}.
#[export] Instance gamepad_object_laws : InputObjectLaws TUSBGamePadDevice.
Proof. split; try done. by intros []. Qed.
#[export] Instance gamepad_pair : PairObject TUSBGamePadDevice :=
  {| po_out := m_pEndpointOut; po_set_out p m := m <| m_pEndpointOut := p |> |}.
#[export] Instance gamepad_pair_laws : PairObjectLaws TUSBGamePadDevice.
Proof. split; try done; try apply _; by intros []. Qed.

(** The static array as it is initialised. *)
Definition writeBuf0 : list Z :=
  replicate 10 0 ++ concat (replicate 4 [0xff; 0x27; 0x10; 0x00; 0x32]) ++ replicate 18 0.
Definition leds : list Z := [0x00; 0x01; 0x02; 0x04; 0x08].

Section Gamepad.
Context {H : Type} `{!UsbHost H} `{!AsyncHost H}.
Abbreviation W := (Input TUSBGamePadDevice gamepad_call * H)%type.

(** [URB]: the address of the member; [pReportBuffer]: what [malloc] returns, and
    [garbage] the 64 bytes it finds there; [writeBuf]: the static array. *)
Definition USBGamePadDevice (pDevice : TUSBFunction) (URB pReportBuffer : Z) (garbage writeBuf : list Z)
    : M W TUSBGamePadDevice :=
  f ← USBFunctionCopy pDevice;
  c_assert (negb (pReportBuffer =? 0)) ;;
  mret {| m_USBFunction := f <| Configure := USBGamePadDeviceConfigure_ |>; m_nDeviceIndex := None;
          m_pEndpointIn := 0; m_pEndpointOut := 0;
          m_State := {| naxes := 0; axes := replicate MAX_AXIS {| value := 0; minimum := 0; maximum := 0 |};
                        nhats := 0; hats := replicate MAX_HATS 0; nbuttons := 0; buttons := 0 |};
          m_pStatusHandler := 0; m_usReportDescriptorLength := 0; m_pHIDReportDescriptor := None;
          m_URB := URB; m_pReportBuffer := pReportBuffer; report := garbage; m_nReportSize := 0;
          writeBuf := writeBuf |}.

Definition _CUSBGamePadDevice : M W unit :=
  dset (λ m, m <| m_pHIDReportDescriptor := None |>) ;;
  dset (λ m, m <| m_pReportBuffer := 0 |> <| report := [] |>) ;;
  p ← dget m_pEndpointIn;
  (if negb (p =? 0) then free_endpoint p ;; dset (λ m, m <| m_pEndpointIn := 0 |>) else mret tt) ;;
  p ← dget m_pEndpointOut;
  (if negb (p =? 0) then free_endpoint p ;; dset (λ m, m <| m_pEndpointOut := 0 |>) else mret tt) ;;
  f ← dget m_USBFunction;
  f ← _USBFunction f;
  dset (λ m, m <| m_USBFunction := f |>).

(** Decoding, on the object. *)
Definition on_pad {A} (m : M TUSBGamePadDevice A) : M W A :=
  zoom (λ w, Some (device (fst w))) (λ d w, ((fst w) <| device := d |>, snd w)) m.

(** The interrupt endpoints, one in each direction; [false] for a second one. *)
Definition pad_endpoint_loop : nat → M W bool := pair_endpoint_loop 0x03.

Definition USBGamePadDeviceCompletionRoutine_ : TURBCompletionRoutine := ClientRoutine 4.

Definition USBGamePadDeviceStartRequest (pThis : Z) : M W bool :=
  p ← dget m_pEndpointIn;
  b ← dget m_pReportBuffer;
  n ← dget m_nReportSize;
  start_request p b n pThis USBGamePadDeviceCompletionRoutine_.

(** The first bytes of the report buffer, and writing them. *)
Definition report_put (l : list Z) : M W unit :=
  b ← dget report;
  if (length l <=? length b)%nat then dset (λ m, m <| report := overwrite 0 l (report m) |>) else fail MemFault.
Definition report_take (n : nat) : M W (list Z) :=
  b ← dget report;
  if (n <=? length b)%nat then mret (take n b) else fail MemFault.

Definition USBGamePadDevicePS3Configure : M W unit :=
  report_put [0x42; 0x0c; 0x00; 0x00] ;;
  data ← report_take 4;
  interface_message (Z.lor (Z.lor REQUEST_OUT REQUEST_CLASS) REQUEST_TO_INTERFACE) SET_REPORT
    (Z.lor (Z.shiftl REPORT_TYPE_FEATURE 8) 0xf4) data ;;
  i ← dget m_nDeviceIndex;
  i ← (match i with Some i => mret i | None => fail UndefBehaviour end);
  led ← (match leds !! Z.to_nat i with Some v => mret v | None => fail MemFault end);
  dset (λ m, m <| writeBuf := alter (λ v, u8 (Z.lor v (u8 (Z.shiftl led 1)))) 9%nat (writeBuf m) |>) ;;
  b ← dget writeBuf;
  interface_message (Z.lor (Z.lor REQUEST_OUT REQUEST_CLASS) REQUEST_TO_INTERFACE) SET_REPORT
    (Z.lor (Z.shiftl REPORT_TYPE_OUTPUT 8) 0x01) (take 48 b) ;;
  mret tt.

(** "upad" *)
Definition upad : list Z := [117; 112; 97; 100].

(** [idVendor], [idProduct]: of the descriptor of the function's device. *)
Context (idVendor idProduct : Z).

(** Behind the decoding: nothing for an interface without axes, hats or buttons. *)
Definition pad_bring_up (pThis : Z) : M W bool :=
  s ← dget m_State;
  if (naxes s =? 0) && (nhats s =? 0) && (nbuttons s =? 0) then mret false
  else
    f ← dget m_USBFunction;
    ok ← USBFunctionConfigure f;
    if negb ok then mret false
    else
      n ← take_number;
      dset (λ m, m <| m_nDeviceIndex := Some n |>) ;;
      (if (idVendor =? 0x054c) && (idProduct =? 0x0268) then USBGamePadDevicePS3Configure else mret tt) ;;
      publish upad n pThis ;;
      USBGamePadDeviceStartRequest pThis.

(** Behind the endpoints: the report descriptor. *)
Definition pad_read_descriptor (pThis : Z) (hid : nat) : M W bool :=
  f ← dget m_USBFunction;
  len ← hid_report_length f hid;
  dset (λ m, m <| m_usReportDescriptorLength := len |> <| m_pHIDReportDescriptor := Some (blank len) |>) ;;
  ty ← hid_report_type f hid;
  '(r, b) ← interface_request (Z.lor REQUEST_IN REQUEST_TO_INTERFACE) GET_DESCRIPTOR
              (Z.lor (Z.shiftl ty 8) DESCRIPTOR_INDEX_DEFAULT) (blank len);
  dset (λ m, m <| m_pHIDReportDescriptor := Some b |>) ;;
  if negb (r =? len) then mret false
  else
    report_put [0] ;;
    on_pad USBGamePadDeviceDecodeReport ;;
    pad_bring_up pThis.

Definition USBGamePadDeviceConfigure (pThis : Z) : M W bool :=
  f ← dget m_USBFunction;
  n ← USBFunctionGetNumEndpoints f;
  if n <? 1 then USBFunctionConfigurationError f ;; mret false
  else
    hid ← next_descriptor DESCRIPTOR_HID;
    ok ← hid_usable hid;
    match ok with
    | None => f ← dget m_USBFunction; USBFunctionConfigurationError f ;; mret false
    | Some hid =>
        f ← dget m_USBFunction;
        p ← parser_of f;
        ok ← pad_endpoint_loop (S (m_pEndPosition p));
        if negb ok then mret false
        else
          e ← dget m_pEndpointIn;
          if e =? 0 then f ← dget m_USBFunction; USBFunctionConfigurationError f ;; mret false
          else pad_read_descriptor pThis hid
    end.

Definition USBGamePadDeviceRegisterStatusHandler (pStatusHandler : Z) : M W unit :=
  c_assert (negb (pStatusHandler =? 0)) ;;
  dset (λ m, m <| m_pStatusHandler := pStatusHandler |>).

(** A report that came in. *)
Definition pad_report : M W unit :=
  d ← dget m_pHIDReportDescriptor;
  h ← dget m_pStatusHandler;
  if bool_decide (is_Some d) && negb (h =? 0) then
    on_pad USBGamePadDeviceDecodeReport ;;
    i ← dget m_nDeviceIndex;
    i ← (match i with Some i => mret i | None => fail UndefBehaviour end);
    s ← dget m_State;
    call (GamePadStatus h (u32 (i - 1)) s)
  else mret tt.

Definition USBGamePadDeviceCompletionRoutine (pURB pThis : Z) : M W unit :=
  c_assert (negb (pThis =? 0)) ;;
  c_assert (negb (pURB =? 0)) ;;
  urb ← dget m_URB;
  c_assert (urb =? pURB) ;;
  r ← urb_at pURB;
  (if truthy (USBRequestGetStatus r) then
     n ← USBRequestGetResultLength r;
     if 0 <? n then pad_report else mret tt
   else mret tt) ;;
  finish_request ;;
  USBGamePadDeviceStartRequest pThis ;; mret tt.

Definition USBGamePadDeviceGetReport : M W unit :=
  n ← dget m_nReportSize;
  data ← report_take (Z.to_nat n);
  '(r, b) ← interface_request (Z.lor (Z.lor REQUEST_IN REQUEST_CLASS) REQUEST_TO_INTERFACE) GET_REPORT
              (Z.lor (Z.shiftl REPORT_TYPE_INPUT 8) 0x00) (map Some data);
  l ← buffer_bytes b;
  report_put l ;;
  if 0 <? r then on_pad USBGamePadDeviceDecodeReport else mret tt.
End Gamepad.

(** ** Configuring *)

Section Configure.
Context {H : Type} `{!UsbHost H} `{!UsbHostLaws H} `{!UsbHostRecovers H} `{!AsyncHost H} `{!AsyncHostLaws H}.
Implicit Types (x : Input TUSBGamePadDevice gamepad_call) (h : H).
Abbreviation routine := USBGamePadDeviceCompletionRoutine_.
Abbreviation post B := (B → Input TUSBGamePadDevice gamepad_call * H → Prop).

Lemma wp_pad_start pThis x h (Q : post bool) :
  host_accepts h → started x h EndpointTypeInterrupt → m_pReportBuffer (device x) ≠ 0 →
  0 < m_nReportSize (device x) < 65536 →
  (∀ ok h', bus_get h' = bus_get h → started x h' EndpointTypeInterrupt →
     requested (m_pReportBuffer (device x)) (m_nReportSize (device x)) pThis routine ok (host_submitted h) x h' → Q ok (x, h')) →
  wp (USBGamePadDeviceStartRequest pThis) Q (x, h).
Proof.
  intros Ha Hs Hb Hn HQ. unfold USBGamePadDeviceStartRequest. wp_step. apply wp_dget. wp_step. apply wp_dget.
  wp_step. apply wp_dget. change (m_pEndpointIn (device x)) with (io_endpoint (device x)).
  apply (wp_start_request _ _ _ _ EndpointTypeInterrupt); [done|done|by right|done|lia|done|].
  intros ok h' H1 _. by apply HQ.
Qed.

Lemma wp_on_pad {A} (m : M TUSBGamePadDevice A) x h (Q : post A) (E : fault → Prop) :
  wpe m (λ a d, Q a (x <| device := d |>, h)) E (device x) → wpe (on_pad m) Q E (x, h).
Proof. intros Hm. by eapply wpe_zoom. Qed.

Lemma wp_report_put l x h (Q : post unit) : (length l <= length (report (device x)))%nat →
  Q tt (x <| device := (device x) <| report := overwrite 0 l (report (device x)) |> |>, h) → wp (report_put l) Q (x, h).
Proof.
  intros Hl HQ. unfold report_put. wp_step. apply wp_dget. rewrite (proj2 (Nat.leb_le _ _)) by done. by apply wp_dset.
Qed.

(** The commands for the controller: two requests, whatever comes of them. *)
Lemma wp_PS3Configure k b o l d i x h (Q : post unit) :
  searching (2 + k) b o l d x h → m_nDeviceIndex (device x) = Some i → 0 <= i < 5 →
  (4 <= length (report (device x)))%nat →
  (∀ x' h', searching k b o l d x' h' → host_step h h' →
     (∃ rp wb, x' = x <| device := (device x) <| report := rp |> <| writeBuf := wb |> |>) → Q tt (x', h')) →
  wp USBGamePadDevicePS3Configure Q (x, h).
Proof.
  intros Hs Hi Hr Hl HQ. unfold USBGamePadDevicePS3Configure.
  wp_step. apply wp_report_put; [exact Hl|]. set (x1 := x <| device := _ |>).
  assert (searching (2 + k) b o l d x1 h) as Hs1 by by apply (searching_device _ _ _ _ _ x).
  wp_step. unfold report_take. wp_step. apply wp_dget.
  assert (length (report (device x1)) = length (report (device x))) as El by (apply (overwrite_length 0); simpl; lia).
  rewrite (proj2 (Nat.leb_le _ _)) by lia. wp_step.
  wp_step. eapply (wp_interface_message (1 + k)); [exact Hs1|rewrite length_take; lia|done|].
  intros r num h2 _ _ _ Hs2 Hst2. wp_step. apply wp_dget. change (m_nDeviceIndex (device x1)) with (m_nDeviceIndex (device x)).
  rewrite Hi. wp_step. wp_step. wp_step.
  destruct (lookup_lt_is_Some_2 leds (Z.to_nat i)) as [led Eled]; [simpl; lia|]. rewrite Eled. wp_step.
  wp_step. apply wp_dset. set (x2 := x1 <| device := _ |>).
  assert (searching (1 + k) b o l d x2 h2) as Hs2' by by apply (searching_device _ _ _ _ _ x1).
  wp_step. apply wp_dget. wp_step.
  eapply (wp_interface_message k); [exact Hs2'|rewrite length_take; lia|done|].
  intros r' num' h3 _ _ _ Hs3 Hst3. wp_step. apply HQ; [exact Hs3|by eapply host_step_trans|].
  by eexists _, _.
Qed.

Definition pad_outcome (pThis : Z) (ok : bool) x x' h' : Prop :=
  calls x' = calls x ∧
  (ok = false ∧ names x' = names x ∧ s_nDeviceNumber x' = s_nDeviceNumber x ∨
   enrolled upad pThis x x' ∧ started x' h' EndpointTypeInterrupt ∧
   m_nDeviceIndex (device x') = Some (s_nDeviceNumber x) ∧ pad_ok (device x') ∧
   ∃ l, requested (m_pReportBuffer (device x')) (m_nReportSize (device x')) pThis routine ok l x' h').

Context (idVendor idProduct : Z).
(** The controller, whose number chooses one of five lights. *)
Definition ps3 : bool := (idVendor =? 0x054c) && (idProduct =? 0x0268).

Lemma wp_pad_bring_up k pThis b o l d x h (Q : post bool) :
  searching (3 + k) b o l d x h → input_endpoint (usb_get h) (m_pEndpointIn (device x)) EndpointTypeInterrupt →
  pad_ok (device x) → 0 < m_nReportSize (device x) → length (report (device x)) = 64%nat →
  (ps3 = true → 0 <= s_nDeviceNumber x < 5) →
  m_URB (device x) ≠ 0 → m_pReportBuffer (device x) ≠ 0 → pThis ≠ 0 → s_pThis (names x) ≠ 0 →
  (∀ ok x' h', pad_outcome pThis ok x x' h' → Q ok (x', h')) →
  wp (pad_bring_up idVendor idProduct pThis) Q (x, h).
Proof.
  intros Hs Hi Hok Hn Hlen Hps Hu Hb Hp Hnm HQ. pose proof Hs as [Hr Hf Hd He].
  assert (∀ h', pad_outcome pThis false x x h') as Hno by (intros h'; split; [done|by left]).
  unfold pad_bring_up. wp_step. apply wp_dget. destruct (_ && _); [wp_step; by apply HQ|].
  wp_step. apply wp_dget. wp_step.
  eapply (wp_USBFunctionConfigure (2 + k)); [exact Hr|exact Hf|exact Hd|exact He|].
  intros ok h1 Hr1 Hst1. destruct ok; cbn [negb]; [|wp_step; by apply HQ].
  assert (searching (2 + k) b o l d x h1) as Hs1 by by eapply searching_step.
  wp_step. apply wp_take_number. wp_step. apply wp_dset. set (x2 := _ <| device := _ |>).
  assert (searching (2 + k) b o l d x2 h1) as Hs2 by by apply (searching_device _ _ _ _ _ x).
  assert (∀ k' x3 h3, searching k' b o l d x3 h3 → host_step h h3 →
    (∃ rp wb, x3 = x2 <| device := (device x2) <| report := rp |> <| writeBuf := wb |> |>) →
    wp (publish upad (s_nDeviceNumber x) pThis ;; USBGamePadDeviceStartRequest pThis) Q (x3, h3)) as Hend.
  { intros k' x3 h3 Hs3 Hst3 (rp & wb & ->). wp_step. apply wp_enter; [done|exact Hnm|].
    set (x4 := _ <| names := _ |>).
    assert (input_endpoint (usb_get h3) (io_endpoint (device x4)) EndpointTypeInterrupt) as Hi3
      by (eapply input_endpoint_same; [by apply Hst3|exact Hi]).
    assert (searching k' b o l d x4 h3) as Hs4 by by apply (searching_device _ _ _ _ _ _ _ _ Hs3).
    destruct Hok as (O1 & O2 & O3 & O4).
    eapply wp_pad_start; [eapply host_accepts_ready, Hs4|by eapply searching_started|exact Hb|split; [exact Hn|apply O4]|].
    intros ok h4 _ Hst4 Hreq. apply HQ. split; [done|]. right. split; [by split|]. split; [exact Hst4|].
    split; [done|]. split; [exact (conj O1 (conj O2 (conj O3 O4)))|by eexists]. }
  wp_step. fold ps3. destruct ps3 eqn:Eps.
  - eapply (wp_PS3Configure k _ _ _ _ _ x2); [exact Hs2|done|by apply Hps|simpl; lia|].
    intros x3 h3 Hs3 Hst3 Hx3. eapply Hend; [exact Hs3|by eapply host_step_trans|exact Hx3].
  - wp_step. eapply Hend; [exact Hs2|exact Hst1|]. exists (report (device x2)), (writeBuf (device x2)). by destruct x as [[]].
Qed.


(** ** A device with a report descriptor

    The device answers a request for a descriptor of this length, if at all, with
    these bytes, and its HID descriptor announces them. *)
Definition report_descriptor_is (D : list Z) : Prop := ∀ pEndpoint t v i (h : H),
  wlp (host_run (ControlIn pEndpoint t GET_DESCRIPTOR v i (Z.of_nat (length D))))
    (λ '(r, c) _, r = Z.of_nat (length D) → c = D) h.
Definition hid_announces (b : list Z) (l : list nat) (n : Z) : Prop :=
  ∀ pos, pos ∈ l → b !! (pos + 1)%nat = Some DESCRIPTOR_HID →
    b !! (pos + 7)%nat = Some (n mod 256) ∧ b !! (pos + 8)%nat = Some (n / 256).

Lemma wlp_any {S A} (m : M S A) (Q : A → S → Prop) s : (∀ a s', Q a s') → wlp m Q s.
Proof. intros HQ. unfold wlp. by destruct (m s) as [[]|]. Qed.

Lemma wlp_read_descriptor D t v x h : report_descriptor_is D →
  wlp (interface_request t GET_DESCRIPTOR v (blank (Z.of_nat (length D))))
    (λ '(r, b) _, r = Z.of_nat (length D) → b = map Some D) (x, h).
Proof.
  intros HD. assert (length (blank (Z.of_nat (length D))) = length D) as Hl
    by (unfold blank; rewrite length_replicate; lia).
  unfold interface_request, ControlMessageIn.
  apply wlp_bind, wlp_any. intros f s1. apply wlp_bind, wlp_any. intros _ s2.
  apply wlp_bind, wlp_any. intros ep s3. apply wlp_bind, wlp_any. intros num [x4 h4]. apply wlp_bind. rewrite Hl.
  cbn [host_run prod_host]. apply wlp_zoom. intros t' [= <-].
  eapply wlp_mono; [apply HD|]. intros [r c] s5 Hc. apply wlp_ret. intros Hr. rewrite (Hc Hr).
  unfold overwrite. simpl. rewrite drop_ge by (rewrite Hl, length_map; lia). apply app_nil_r.
Qed.

Context (items : list hid_item) (l0 : hid_view) (L : layout).
Abbreviation D := (descriptor_bytes items).
(** A layout whose reports fit the buffer of 64 bytes. *)
Record pad_layout : Prop := {
  pl_items : Forall item_ok items;
  pl_length : 0 < Z.of_nat (length D) < 65536;
  pl_layout : layout_items 64 items view0 layout0 = Some (l0, L);
  pl_size : 0 < v_offset l0 <= 512
}.
(** The size of its reports. *)
Abbreviation bytes := ((v_offset l0 + 7) / 8).

Lemma filled_size w : pad_layout → m_nReportSize (filled l0 L w) = bytes.
Proof. intros []. simpl. apply Z.mod_small. lia. Qed.

Lemma filled_arrays w : pad_ok w → described items l0 L w → report_for L (report w) = true → pad_ok (filled l0 L w).
Proof.
  intros Hok Hde Hfor. pose proof (wpe_decode w Hok) as He. unfold wpe in He.
  assert (wp USBGamePadDeviceDecodeReport (λ _ w', w' = filled l0 L w) w) as Hw
    by (eapply wp_decode; [exact Hde|by rewrite Hfor]).
  apply wp_run in Hw as ([] & w' & E & ->). rewrite E in He. by destruct He.
Qed.

Lemma described_filled w : pad_ok w → described items l0 L w → report_for L (report w) = true →
  described items l0 L (filled l0 L w).
Proof.
  intros Hok Hde Hfor. destruct (filled_arrays w Hok Hde Hfor) as [Ha _]. by destruct Hde.
Qed.

Lemma wp_read_descriptor k pThis b o l d pos x h (Q : post bool) :
  searching (4 + k) b o l d x h → input_endpoint (usb_get h) (m_pEndpointIn (device x)) EndpointTypeInterrupt →
  (pos + 9 <= length b)%nat → b !! (pos + 7)%nat = Some (Z.of_nat (length D) mod 256) →
  b !! (pos + 8)%nat = Some (Z.of_nat (length D) / 256) →
  pad_layout → report_descriptor_is D → pad_ok (device x) → length (report (device x)) = 64%nat →
  Forall is_u8 (report (device x)) → (ps3 = true → 0 <= s_nDeviceNumber x < 5) →
  m_URB (device x) ≠ 0 → m_pReportBuffer (device x) ≠ 0 → pThis ≠ 0 → s_pThis (names x) ≠ 0 →
  (∀ ok x' h', pad_outcome pThis ok x x' h' → Q ok (x', h')) →
  wp (pad_read_descriptor idVendor idProduct pThis pos) Q (x, h).
Proof.
  intros Hs Hi Hpos E7 E8 Hpl HD Hok Hlen Hb8 Hps Hu Hb Hp Hnm HQ. pose proof Hs as [_ Hf _ _].
  pose proof Hpl as [Hit Hr HL Hsz]. unfold pad_read_descriptor.
  wp_step. apply wp_dget. wp_step. eapply wp_hid_report_length; [exact Hf|exact Hpos|]. intros len Hl E7' E8'.
  assert (len = Z.of_nat (length D)) as ->.
  { rewrite E7 in E7'. rewrite E8 in E8'. injection E7' as E7'. injection E8' as E8'. unfold is_u16 in Hl. lia. }
  wp_step. apply wp_dset. wp_step. eapply wp_hid_report_type; [exact Hf|exact Hpos|]. intros ty _ _. wp_step.
  set (x1 := x <| device := _ |>).
  assert (searching (4 + k) b o l d x1 h) as Hs1 by by apply (searching_device _ _ _ _ _ x).
  assert (length (blank (Z.of_nat (length D))) = length D) as Ebl by (unfold blank; rewrite length_replicate; lia).
  pose proof (wlp_read_descriptor D (Z.lor REQUEST_IN REQUEST_TO_INTERFACE) (Z.lor (Z.shiftl ty 8) DESCRIPTOR_INDEX_DEFAULT) x1 h HD) as Htold.
  eapply wp_told; [exact Htold|].
  eapply (wp_interface_request (3 + k)); [exact Hs1|rewrite Ebl; lia|done|].
  intros r c num h2 Hc Hcl Hres _ _ Hs2 Hst2 Hans. wp_step. apply wp_dset. set (x2 := x1 <| device := _ |>).
  destruct (Z.eqb_spec r (Z.of_nat (length D))) as [->|]; cbn [negb]; [|wp_step; apply HQ; split; [done|by left]].
  specialize (Hans eq_refl). wp_step. apply wp_report_put; [simpl; lia|]. set (x3 := x2 <| device := _ |>).
  assert (report (device x3) = 0 :: drop 1 (report (device x))) as Erep by done.
  assert (length (report (device x3)) = 64%nat) as Hlen3 by (rewrite Erep; simpl; rewrite length_drop; lia).
  assert (described items l0 L (device x3)) as Hde.
  { split; [done|by destruct Hok| |simpl; by rewrite Hans|done|by apply Hr|by rewrite Hlen3].
    rewrite Erep. apply Forall_cons; [unfold is_u8; lia|]. by apply Forall_drop. }
  assert (report_for L (report (device x3)) = true) as Hfor by (rewrite Erep; unfold report_for; by destruct (lay_id L)).
  assert (pad_ok (device x3)) as Hok3 by exact Hok.
  wp_step. eapply wp_zoom; [done|]. cbn [fst snd]. apply (wp_decode items l0 L); [exact Hde|]. rewrite Hfor.
  set (x4 := x3 <| device := filled l0 L (device x3) |>).
  assert (searching (3 + k) b o l d x4 h2) as Hs4 by by apply (searching_device _ _ _ _ _ x1).
  eapply (wp_pad_bring_up k); [exact Hs4| |by apply filled_arrays| | |exact Hps|exact Hu|exact Hb|exact Hp|exact Hnm|].
  - eapply input_endpoint_same; [by apply Hst2|exact Hi].
  - change (0 < m_nReportSize (filled l0 L (device x3))). rewrite filled_size by done. lia.
  - exact Hlen3.
  - intros ok x' h' [Hcalls Ho]. apply HQ. by split.
Qed.

(** Configuring a gamepad whose report descriptor has a layout ends without a
    fault, after at most four requests and whatever they return. If it succeeds,
    the gamepad is entered as "upad" with its number, its index is that number,
    and it waits for reports of the size that the descriptor says; an interface
    without axes, hats and buttons is left alone. *)
Theorem gamepad_configure k pThis b o l d x h :
  searching (4 + k) b o l d x h → packet_sizes b l → hid_sizes b l → hid_announces b l (Z.of_nat (length D)) →
  pad_layout → report_descriptor_is D → pad_ok (device x) → length (report (device x)) = 64%nat →
  Forall is_u8 (report (device x)) → (ps3 = true → 0 <= s_nDeviceNumber x < 5) →
  m_pEndpointIn (device x) = 0 → m_URB (device x) ≠ 0 → m_pReportBuffer (device x) ≠ 0 →
  pThis ≠ 0 → s_pThis (names x) ≠ 0 →
  wp (USBGamePadDeviceConfigure idVendor idProduct pThis) (λ ok '(x', h'), pad_outcome pThis ok x x' h') (x, h).
Proof.
  intros Hs Hpk Hh Han Hpl HD Hok Hlen Hb8 Hps H0 Hu Hb Hp Hn. pose proof Hs as [_ Hf _ _].
  assert (∀ x' h', names x' = names x → s_nDeviceNumber x' = s_nDeviceNumber x → calls x' = calls x →
    pad_outcome pThis false x x' h') as Hno by (intros x' h' E1 E2 E3; split; [done|by left]).
  unfold USBGamePadDeviceConfigure. wp_step. apply wp_dget. wp_step.
  eapply wp_interface_byte; [exact Hf|unfold off_bNumEndpoints; lia|]. intros n _ _.
  destruct (n <? 1); [wp_step; eapply wp_ConfigurationError; [exact Hf|]; wp_step; by apply Hno|].
  eapply wp_find_hid; [exact Hs|exact Hh|].
  intros r f Hfd Hs1 Hpos. set (x1 := x <| device := _ |>) in *.
  pose proof Hs1 as [_ Hf1 _ _]. pose proof Hf1 as [_ _ _ _ (p1 & Hp1 & (_ & _ & last & audio & Hch) & _)].
  destruct r as [pos|].
  2: { wp_step. apply wp_dget. wp_step. eapply wp_ConfigurationError; [exact Hf1|]. wp_step. by apply Hno. }
  destruct (Hpos pos eq_refl) as (Hpos9 & _ & Hin & Hty). destruct (Han pos Hin Hty) as [E7 E8].
  wp_step. apply wp_dget. wp_step. eapply wp_parser_of; [exact Hp1|].
  wp_step. eapply (wp_pair_endpoint_loop EndpointTypeInterrupt 3 _ b o d _ _ x1); [done|exact Hs1| | |].
  { intros q Hq. apply Hpk. by eapply search_rest_suffix. }
  { pose proof (chain_length _ _ _ _ _ _ Hch). lia. }
  intros ok l2 x2 h2 Hs2 [(f2 & i2 & o2 & Ef2 & Ex2) Hie _ Hx2 Hb2].
  specialize (Hie (or_introl H0)).
  assert (∀ x' h', names x' = names x2 → s_nDeviceNumber x' = s_nDeviceNumber x2 → calls x' = calls x2 →
    pad_outcome pThis false x x' h') as Hno2 by (intros x' h'; rewrite Ex2; apply Hno).
  destruct ok; cbn [negb]; [|wp_step; by apply Hno2].
  wp_step. apply wp_dget. pose proof Hs2 as [_ Hf2 _ _].
  destruct (Z.eqb_spec (m_pEndpointIn (device x2)) 0) as [E0|E0].
  { wp_step. apply wp_dget. wp_step. eapply wp_ConfigurationError; [exact Hf2|]. wp_step. by apply Hno2. }
  destruct Hie as [|Hie]; [done|].
  eapply (wp_read_descriptor k); [exact Hs2|exact Hie|exact Hpos9|exact E7|exact E8|exact Hpl|exact HD|..]; rewrite ?Ex2; try done.
Qed.
End Configure.

(** ** Reports *)

Section Reports.
Context {H : Type} `{!UsbHost H} `{!UsbHostLaws H} `{!UsbHostRecovers H} `{!AsyncHost H} `{!AsyncHostLaws H}.
Implicit Types (x : Input TUSBGamePadDevice gamepad_call) (h : H).
Abbreviation routine := USBGamePadDeviceCompletionRoutine_.

(** A report is told if it came with bytes and there is a handler; the state is
    that of the layout filled from the report. *)
Definition report_told (x : Input TUSBGamePadDevice gamepad_call) (r : TUSBRequest) : bool :=
  truthy (m_bStatus r) && (0 <? m_nResultLen r) && negb (m_pStatusHandler (device x) =? 0).
Definition told (l : hid_view) (L : layout) (x : Input TUSBGamePadDevice gamepad_call) (r : TUSBRequest)
    : TUSBGamePadDevice :=
  if report_told x r && report_for L (report (device x)) then filled l L (device x) else device x.

(** C23. A completed request of a gamepad with a layout: if it brought bytes, the
    handler is told once, with the index and with the values of the layout in
    the report (the values of before, if the report has another identifier);
    otherwise nothing is told and nothing changes. The next report is always
    requested, with the size of the layout's reports. *)
Theorem gamepad_reports items l L pThis i x h r :
  host_accepts h → started x h EndpointTypeInterrupt → m_pReportBuffer (device x) ≠ 0 → pThis ≠ 0 →
  urbs (usb_get h) !! m_URB (device x) = Some r →
  described items l L (device x) → 0 < v_offset l <= 512 → m_nReportSize (device x) = (v_offset l + 7) / 8 →
  m_nDeviceIndex (device x) = Some i →
  wp (USBGamePadDeviceCompletionRoutine (m_URB (device x)) pThis) (λ _ '(x', h'),
    x' = x <| device := told l L x r |>
           <| calls := (if report_told x r then [GamePadStatus (m_pStatusHandler (device x)) (u32 (i - 1)) (m_State (told l L x r))]
                        else []) ++ calls x |> ∧
    started x' h' EndpointTypeInterrupt ∧ bus_get h' = bus_get h ∧
    ∃ ok, requested (m_pReportBuffer (device x)) ((v_offset l + 7) / 8) pThis routine ok (host_submitted h) x' h') (x, h).
Proof.
  intros Ha Hs Hb Hp Hr Hde Hsz Hn Hidx. pose proof Hs as [_ _ _ Hu].
  assert (m_nReportSize (filled l L (device x)) = (v_offset l + 7) / 8) as Hfn by (apply Z.mod_small; lia).
  assert (∀ x', io_function (device x') = io_function (device x) → io_endpoint (device x') = io_endpoint (device x) →
    io_urb (device x') = io_urb (device x) → m_pReportBuffer (device x') = m_pReportBuffer (device x) →
    m_nReportSize (device x') = (v_offset l + 7) / 8 → wp (finish_request ;; USBGamePadDeviceStartRequest pThis ;; mret tt)
    (λ _ '(x2, h'), x2 = x' ∧ started x2 h' EndpointTypeInterrupt ∧ bus_get h' = bus_get h ∧
      ∃ ok, requested (m_pReportBuffer (device x)) ((v_offset l + 7) / 8) pThis routine ok (host_submitted h) x2 h') (x', h)) as Hend.
  { intros x' E1 E2 E3 E4 E5. destruct Hs as [S1 S2 S3 S4].
    eapply (wp_finish_then _ r _ _ EndpointTypeInterrupt); [done|split; congruence|by rewrite E3|].
    intros h1 Ha1 Hs1 Hb1 Hq1. wp_step. apply wp_pad_start; [done|done|by rewrite E4|lia|].
    intros ok h2 F2 Hs2 Hreq. wp_step. split; [done|]. split; [done|]. split; [congruence|].
    exists ok. by rewrite <- E4, <- E5, <- Hq1. }
  assert (x <| device := device x |> <| calls := [] ++ calls x |> = x) as Hnil by by destruct x.
  unfold USBGamePadDeviceCompletionRoutine, USBRequestGetStatus, told, report_told.
  wp_step. apply wp_assert; [by apply negb_true_iff, Z.eqb_neq|].
  wp_step. apply wp_assert; [by apply negb_true_iff, Z.eqb_neq|].
  wp_step. apply wp_dget. wp_step. apply wp_assert; [apply Z.eqb_refl|].
  wp_step. eapply wp_urb_at; [exact Hr|]. wp_step.
  destruct (truthy (m_bStatus r)) eqn:Est; cbn [andb].
  2: { wp_step. rewrite Hnil. by apply Hend. }
  wp_step. unfold USBRequestGetResultLength. wp_step. apply wp_assert; [done|]. wp_step.
  destruct (0 <? m_nResultLen r); cbn [andb]; [|wp_step; rewrite Hnil; by apply Hend].
  unfold pad_report. wp_step. apply wp_dget. wp_step. apply wp_dget. rewrite (de_descriptor _ _ _ _ Hde).
  rewrite bool_decide_eq_true_2 by by eexists. cbn [andb].
  destruct (m_pStatusHandler (device x) =? 0); cbn [negb andb]; [wp_step; rewrite Hnil; by apply Hend|].
  wp_step. eapply wp_zoom; [done|]. cbn [fst snd]. apply (wp_decode items l L); [exact Hde|].
  set (y := if report_for L (report (device x)) then filled l L (device x) else device x).
  assert (io_function y = io_function (device x) ∧ io_endpoint y = io_endpoint (device x) ∧ io_urb y = io_urb (device x) ∧
    m_pReportBuffer y = m_pReportBuffer (device x) ∧ m_nReportSize y = (v_offset l + 7) / 8 ∧ m_nDeviceIndex y = Some i)
    as (Y1 & Y2 & Y3 & Y4 & Y5 & Y6) by (unfold y; destruct (report_for L (report (device x))); done).
  wp_step. apply wp_dget. cbn [device upd]. rewrite Y6. wp_step. wp_step. wp_step. apply wp_dget. apply wp_call.
  by apply (Hend (x <| device := y |> <| calls := _ |>)).
Qed.
End Reports.

Module GamepadDemo.
Import InputDemo LayoutDemo.
(** The device of [LayoutDemo]: it answers a request for its report descriptor
    with the bytes of its items. *)
#[export] Instance pad_oracle : Oracle := {| respond h op :=
  match op with
  | ControlIn _ _ q _ _ n =>
      if (q =? GET_DESCRIPTOR) && (n =? Z.of_nat (length (descriptor_bytes items))) then (n, descriptor_bytes items)
      else (n, replicate (Z.to_nat n) 0)
  | _ => @respond willing h op
  end |}.

Lemma descriptor_u8 : Forall is_u8 (descriptor_bytes items).
Proof. cbn. repeat (apply Forall_cons; [unfold is_u8; lia|]). apply Forall_nil_2. Qed.

#[export] Instance pad_oracle_laws : OracleLaws.
Proof.
  intros h op Hl. destruct op as [p l|p n|p t q v i l|p t q v i n]; try exact (@respond_ok willing willing_laws h _ Hl).
  unfold respond, pad_oracle. destruct (_ && _) eqn:E; [|exact (@respond_ok willing willing_laws h _ Hl)].
  apply andb_true_iff in E as [_ ->%Z.eqb_eq]. split_and!; [exact descriptor_u8|simpl; lia|right; simpl; lia].
Qed.

Definition gamepad (p : Z) (d : option buffer) (rp : list Z) : TUSBGamePadDevice :=
  (pad rp) <| m_USBFunction := InputDemo.function |> <| m_pEndpointIn := p |> <| m_pHIDReportDescriptor := d |>
    <| m_nReportSize := if p =? 0 then 0 else 5 |>.
Abbreviation fresh := (input (gamepad 0 None b)).
Abbreviation described_l := (default view0 (fst <$> layout_items 64 items view0 layout0)).
Abbreviation described_L := (default layout0 (snd <$> layout_items 64 items view0 layout0)).

Lemma pad_searching : searching (E := gamepad_call) 4 config 9 [18%nat; 27%nat] dev fresh (bus ∅).
Proof. by apply input_searching. Qed.
Lemma pad_announces : hid_announces config [18%nat; 27%nat] (Z.of_nat (length (descriptor_bytes items))).
Proof.
  intros pos Hpos Hty. apply elem_of_cons in Hpos as [->|Hpos]; [done|].
  apply list_elem_of_singleton in Hpos as ->. by vm_compute in Hty.
Qed.
Lemma pad_fits : pad_layout items described_l described_L.
Proof. split; [exact items_ok|vm_compute; done|vm_compute; reflexivity|vm_compute; split; [reflexivity|discriminate]]. Qed.
Lemma pad_answers : report_descriptor_is (H := AsyncBus) (descriptor_bytes items).
Proof. intros ep t v i [l w]. unfold wlp. vm_compute. done. Qed.
Lemma pad_fresh : pad_ok (gamepad 0 None b).
Proof. split; [by split|]. vm_compute. repeat split; discriminate. Qed.

Lemma gamepad_configure_witness :
  wp (USBGamePadDeviceConfigure 1 2 64) (λ ok '(x', h'),
    (ok = true ∧ naxes (m_State (device x')) = 2 ∧ m_nReportSize (device x') = 5) ∧ pad_outcome 64 ok fresh x' h')
    (fresh, bus ∅).
Proof.
  eapply wp_mono.
  - apply wp_and with (P := λ ok w, ok = true ∧ naxes (m_State (device (fst w))) = 2 ∧ m_nReportSize (device (fst w)) = 5);
      [vm_compute; repeat split; reflexivity|].
    apply (gamepad_configure 1 2 items described_l described_L 0 64 config 9 [18%nat; 27%nat] dev fresh (bus ∅)
      pad_searching sizes hid_fits pad_announces pad_fits pad_answers pad_fresh eq_refl b_bytes); done.
  - intros ok [x' h'] [H1 H2]. split; [exact H1|exact H2].
Defined.

(** A running gamepad with a report. *)
Definition completed : TUSBRequest :=
  (pending_request 17 4096 5 64 USBGamePadDeviceCompletionRoutine_) <| m_bStatus := 1 |> <| m_nResultLen := 5 |>.
Abbreviation running := (input (gamepad 17 (Some (map Some (descriptor_bytes items))) b)).

Lemma pad_started : started (E := gamepad_call) running (bus {[ 32 := completed ]}) EndpointTypeInterrupt.
Proof. by apply input_started. Qed.
Lemma running_described : described items described_l described_L (gamepad 17 (Some (map Some (descriptor_bytes items))) b).
Proof. split; [exact items_ok|by split|exact b_bytes|reflexivity|reflexivity|reflexivity|vm_compute; reflexivity]. Qed.

Lemma gamepad_reports_witness :
  wp (USBGamePadDeviceCompletionRoutine 32 64) (λ _ '(x', h'),
    map (λ '(GamePadStatus p i s), (p, i, map value (axes s), hats s, nbuttons s)) (calls x') =
      [(77, 0, [-2; 3; 0; 0; 0; 0], [3; 0; 0; 0; 0; 0], 12)]) (running, bus {[ 32 := completed ]}).
Proof.
  eapply wp_mono.
  - apply (gamepad_reports items described_l described_L 64 1 running (bus {[ 32 := completed ]}) completed);
      [exact I|exact pad_started|done|done|done|exact running_described|vm_compute; split; [reflexivity|discriminate]|vm_compute; reflexivity|done].
  - intros _ [x' h'] (-> & _). vm_compute. reflexivity.
Defined.
End GamepadDemo.
