(* ===== verification/NetAdapter.v ===== *)
(** * lib/smsc951x.c and lib/lan7800.c: what the two network adapters share

    The drivers of the two Ethernet chips of the Raspberry Pi have one shape:
    the chip's registers are read and written by vendor requests, frames go
    through a bulk endpoint in each direction behind a header of the chip. The
    two files were written apart; the code they have in common is given here
    once, with what differs as arguments, and [Smsc951x] and [Lan7800] apply it.

    [GetMACAddress] of uspios.h belongs to the environment: it is an argument,
    [None] where it fails. Submitting a blocking request and reading its result
    length is what [DWHCIDeviceTransfer] does, so it is [TransferIn] here, with
    a negative result where it fails. *)
From S2P Require Import Prelude Util CString Endpoint ConfigParser DeviceName.
From S2P Require Import UsbBus UsbFunction InputDriver EndpointPair.
Import Names Mac.

Definition FRAME_BUFFER_SIZE : Z := 1600.
Definition REQUEST_VENDOR : Z := 0x40.
Definition WRITE_REGISTER : Z := 0xA0.
Definition READ_REGISTER : Z := 0xA1.
Definition nTries : nat := 1000.

(** [m_MACAddress] is not initialised by the constructors; [tx] is the memory at
    [m_pTxBuffer]. *)
Record TNetDevice := {
  m_USBFunction : TUSBFunction;
  m_pEndpointBulkIn : Z;
  m_pEndpointBulkOut : Z;
  m_MACAddress : option TMACAddress;
  m_pTxBuffer : Z;
  tx : buffer
}.
#[global] Instance TNetDevice_eta : Eta TNetDevice := λ r,
  {| m_USBFunction := m_USBFunction r; m_pEndpointBulkIn := m_pEndpointBulkIn r;
     m_pEndpointBulkOut := m_pEndpointBulkOut r; m_MACAddress := m_MACAddress r;
     m_pTxBuffer := m_pTxBuffer r; tx := tx r |}.

(** No request of the object is asynchronous. *)
#[export] Instance net_object : InputObject TNetDevice :=
  {| io_function := m_USBFunction; io_set_function f m := m <| m_USBFunction := f |>;
     io_endpoint := m_pEndpointBulkIn; io_set_endpoint p m := m <| m_pEndpointBulkIn := p |>;
     io_urb _ := 0 |}.
#[export] Instance net_object_laws : InputObjectLaws TNetDevice.
Proof. split; try done. by intros []. Qed.
#[export] Instance net_pair : PairObject TNetDevice :=
  {| po_out := m_pEndpointBulkOut; po_set_out p m := m <| m_pEndpointBulkOut := p |> |}.
#[export] Instance net_pair_laws : PairObjectLaws TNetDevice.
Proof. split; try done; try apply _; by intros []. Qed.

(** "eth" *)
Definition eth : list Z := [101; 116; 104].

Section Net.
Context {H : Type} `{!UsbHost H}.
Abbreviation W := (Input TNetDevice Empty_set * H)%type.

(** [pTxBuffer]: what [malloc] returns for the frame buffer. *)
Definition net_new (configure : TConfigure) (pDevice : TUSBFunction) (pTxBuffer : Z) : M W TNetDevice :=
  f ← USBFunctionCopy pDevice;
  c_assert (negb (pTxBuffer =? 0)) ;;
  mret {| m_USBFunction := f <| Configure := configure |>; m_pEndpointBulkIn := 0; m_pEndpointBulkOut := 0;
          m_MACAddress := None; m_pTxBuffer := pTxBuffer; tx := blank FRAME_BUFFER_SIZE |}.

Definition net_delete : M W unit :=
  dset (λ m, m <| m_pTxBuffer := 0 |> <| tx := [] |>) ;;
  p ← dget m_pEndpointBulkOut;
  (if negb (p =? 0) then free_endpoint p ;; dset (λ m, m <| m_pEndpointBulkOut := 0 |>) else mret tt) ;;
  p ← dget m_pEndpointBulkIn;
  (if negb (p =? 0) then free_endpoint p ;; dset (λ m, m <| m_pEndpointBulkIn := 0 |>) else mret tt) ;;
  f ← dget m_USBFunction;
  f ← _USBFunction f;
  dset (λ m, m <| m_USBFunction := f |>).

(** ** Registers *)

Definition write_reg (nIndex nValue : Z) : M W bool :=
  f ← dget m_USBFunction;
  USBFunctionGetHost f ;;
  ep0 ← USBFunctionGetEndpoint0 f;
  r ← ControlMessageOut ep0 (Z.lor REQUEST_OUT REQUEST_VENDOR) WRITE_REGISTER 0 (u16 nIndex) (le_bytes 4 nValue);
  mret (negb (r <? 0)).

(** [None]: it failed, and the caller's variable is not to be used. *)
Definition read_reg (nIndex : Z) : M W (option Z) :=
  f ← dget m_USBFunction;
  USBFunctionGetHost f ;;
  ep0 ← USBFunctionGetEndpoint0 f;
  '(r, b) ← ControlMessageIn ep0 (Z.lor REQUEST_IN REQUEST_VENDOR) READ_REGISTER 0 (u16 nIndex) (blank 4);
  if negb (r =? 4) then mret None else v ← le32_at b 0; mret (Some v).

(** Polling a register every millisecond; [n] is [nTries] after it was decreased. *)
Fixpoint wait_reg (n : nat) (nIndex nMask nCompare : Z) : M W bool :=
  HostMsDelay 1 ;;
  match n with
  | O => mret false
  | S n =>
      v ← read_reg nIndex;
      match v with
      | None => mret false
      | Some v => if negb (Z.land v nMask =? nCompare) then wait_reg n nIndex nMask nCompare else mret true
      end
  end.

(** The chain of conditions [!a || !b || ...] that ends in a return. *)
Fixpoint all_true (l : list (M W bool)) : M W bool :=
  match l with
  | [] => mret true
  | m :: l => ok ← m; if ok : bool then all_true l else mret false
  end.

(** A register of the PHY, through two registers of the chip: [acc] takes the
    command and says when it is done, [data] has the value. *)
Definition MII_BUSY : Z := 1.
Definition phy_wait (acc : Z) : M W bool := wait_reg (pred nTries) acc MII_BUSY 0.
Definition phy_read (acc data cmd : Z) : M W (option Z) :=
  ok ← all_true [phy_wait acc; write_reg acc cmd; phy_wait acc];
  if ok : bool then v ← read_reg data; mret ((λ v, Z.land v 0xFFFF) <$> v) else mret None.
Definition phy_write (acc data cmd usValue : Z) : M W bool :=
  all_true [phy_wait acc; write_reg data usValue; write_reg acc cmd; phy_wait acc].

(** ** Frames *)

(** [memcpy] or a store of a word, into the transmit buffer; its first bytes. *)
Definition tx_put (k : nat) (l : list Z) : M W unit :=
  b ← dget tx;
  if (k + length l <=? length b)%nat then dset (λ m, m <| tx := overwrite k (map Some l) (tx m) |>)
  else fail MemFault.
Definition tx_take (n : nat) : M W (list Z) :=
  b ← dget tx;
  if (n <=? length b)%nat then buffer_bytes (take n b) else fail MemFault.

(** [cmdA], [cmdB]: the two words in front of a frame, by its length. *)
Definition send_frame (too_long : Z → bool) (cmdA cmdB : Z → Z) (pBuffer : Z) (frame : list Z) : M W bool :=
  let nLength := Z.of_nat (length frame) in
  if too_long nLength then mret false
  else
    p ← dget m_pTxBuffer;
    c_assert (negb (p =? 0)) ;;
    c_assert (negb (pBuffer =? 0)) ;;
    tx_put 8 frame ;;
    tx_put 0 (le_bytes 4 (cmdA nLength)) ;;
    tx_put 4 (le_bytes 4 (cmdB nLength)) ;;
    e ← dget m_pEndpointBulkOut;
    c_assert (negb (e =? 0)) ;;
    f ← dget m_USBFunction;
    USBFunctionGetHost f ;;
    data ← tx_take (length frame + 8);
    r ← TransferOut e data;
    mret (negb (r <? 0)).

(** [memcpy (pBuffer, pBuffer + hdr, n)]: util.c copies upwards, so the
    overlap does no harm ([memcpy_down]). *)
Definition move_down (hdr n : nat) (b : buffer) : M W buffer :=
  if (hdr + n <=? length b)%nat then mret (overwrite 0 (take n (drop hdr b)) b) else fail MemFault.

(** [b]: the caller's buffer, of which [FRAME_BUFFER_SIZE] bytes are used. It
    returns the result, the length it wrote if it did, and the buffer. [hdr],
    [bad] and [frame_length] are the chip's: bytes before a frame, errors and
    the length field of the status word. *)
Definition receive_frame (hdr : Z) (bad : Z → bool) (frame_length : Z → Z) (pBuffer : Z) (b : buffer)
    (pResultLength : Z) : M W (bool * option Z * buffer) :=
  e ← dget m_pEndpointBulkIn;
  c_assert (negb (e =? 0)) ;;
  c_assert (negb (pBuffer =? 0)) ;;
  f ← dget m_USBFunction;
  USBFunctionGetHost f ;;
  (if (length b <? Z.to_nat FRAME_BUFFER_SIZE)%nat then fail MemFault else mret tt) ;;
  '(r, b1) ← TransferIn e (take (Z.to_nat FRAME_BUFFER_SIZE) b);
  let b := b1 ++ drop (Z.to_nat FRAME_BUFFER_SIZE) b in
  if r <? 0 then mret (false, None, b)
  else if r <? hdr then mret (false, None, b)
  else
    status ← le32_at b 0;
    if bad status then mret (false, None, b)
    else
      let n := frame_length status in
      c_assert (n =? u32 (r - hdr)) ;;
      c_assert (4 <? n) ;;
      if n <=? 4 then mret (false, None, b)
      else
        b ← move_down (Z.to_nat hdr) (Z.to_nat (n - 4)) b;
        c_assert (negb (pResultLength =? 0)) ;;
        mret (true, Some (n - 4), b).

(** ** Configuring *)

Context (GetMACAddress : option (list Z)).

(** The address is set, and formatted for the log. *)
Definition set_mac (a : list Z) : M W unit :=
  a ← MACAddressSet a; dset (λ m, m <| m_MACAddress := Some a |>).
Definition mac_of : M W TMACAddress :=
  a ← dget m_MACAddress;
  match a with Some a => mret a | None => fail UndefBehaviour end.
Definition log_mac : M W unit := a ← mac_of; MACAddressFormat a ;; mret tt.

(** Four bytes and two bytes of an address as the words of registers. *)
Definition mac_low (a : list Z) : Z :=
  Z.lor (nth 0 a 0) (Z.lor (Z.shiftl (nth 1 a 0) 8) (Z.lor (Z.shiftl (nth 2 a 0) 16) (Z.shiftl (nth 3 a 0) 24))).
Definition mac_high (a : list Z) : Z := Z.lor (nth 4 a 0) (Z.shiftl (nth 5 a 0) 8).

(** The two bulk endpoints of an interface with three, and the setting; then
    [rest]. *)
Definition find_endpoints (rest : M W bool) : M W bool :=
  f ← dget m_USBFunction;
  n ← USBFunctionGetNumEndpoints f;
  if negb (n =? 3) then USBFunctionConfigurationError f ;; mret false
  else
    p ← parser_of f;
    ok ← pair_endpoint_loop 0x02 (S (m_pEndPosition p));
    if negb ok then mret false
    else
      i ← dget m_pEndpointBulkIn;
      o ← dget m_pEndpointBulkOut;
      if (i =? 0) || (o =? 0) then f ← dget m_USBFunction; USBFunctionConfigurationError f ;; mret false
      else
        f ← dget m_USBFunction;
        ok ← USBFunctionConfigure f;
        if negb ok then mret false else rest.

(** The end of configuring: the object gets its name. *)
Definition net_publish (pThis : Z) : M W bool :=
  n ← take_number; publish eth n pThis ;; mret true.
End Net.

(** ** What is done to the registers

    The accesses among the requests of a history, oldest first, and plans of
    accesses: what a driver means to do, and what may come of it. *)
Inductive reg_access :=
  | RegRead (nIndex nValue : Z)
  | RegWrite (nIndex nValue : Z).
#[export] Instance reg_access_eq_dec : EqDecision reg_access.
Proof. solve_decision. Defined.

Definition access_of (e : bus_event) : list reg_access :=
  match e with
  | BusDone (ControlOut _ t q _ i l) _ _ =>
      if (t =? Z.lor REQUEST_OUT REQUEST_VENDOR) && (q =? WRITE_REGISTER) then [RegWrite i (le_value l)] else []
  | BusDone (ControlIn _ t q _ i _) _ d =>
      if (t =? Z.lor REQUEST_IN REQUEST_VENDOR) && (q =? READ_REGISTER) then [RegRead i (le_value d)] else []
  | _ => []
  end.
Definition accesses (es : list bus_event) : list reg_access := flat_map access_of (rev es).

Lemma accesses_app es es' : accesses (es ++ es') = accesses es' ++ accesses es.
Proof. unfold accesses. by rewrite rev_app_distr, flat_map_app. Qed.

Inductive reg_step :=
  | Writes (nIndex : Z) (P : Z → Prop)
  | Reads (nIndex : Z) (P : Z → Prop)
  | Updates (nIndex nOrMask nAndMask : Z)
  | Awaits (nIndex nMask nCompare : Z).

Inductive performs : list reg_step → list reg_access → Prop :=
  | performs_nil : performs [] []
  | performs_writes i (P : Z → Prop) v pl l : P v → performs pl l → performs (Writes i P :: pl) (RegWrite i v :: l)
  | performs_reads i (P : Z → Prop) v pl l : P v → performs pl l → performs (Reads i P :: pl) (RegRead i v :: l)
  | performs_updates i o a v pl l : performs pl l →
      performs (Updates i o a :: pl) (RegRead i v :: RegWrite i (Z.lor (Z.land v a) o) :: l)
  | performs_awaited i m c v pl l : Z.land v m = c → performs pl l → performs (Awaits i m c :: pl) (RegRead i v :: l)
  | performs_awaits i m c v pl l : Z.land v m ≠ c → performs (Awaits i m c :: pl) l →
      performs (Awaits i m c :: pl) (RegRead i v :: l).

Lemma performs_app pl pl' l l' : performs pl l → performs pl' l' → performs (pl ++ pl') (l ++ l').
Proof. induction 1; simpl; try by constructor; auto. done. Qed.

(** The requests a plan may take. *)
Definition step_cost (s : reg_step) : nat :=
  match s with Writes _ _ | Reads _ _ => 1 | Updates _ _ _ => 2 | Awaits _ _ _ => pred nTries end.
Definition cost (pl : list reg_step) : nat := sum_list_with step_cost pl.

Lemma cost_app pl pl' : cost (pl ++ pl') = (cost pl + cost pl')%nat.
Proof. apply sum_list_with_app. Qed.

Section Registers.
Context {H : Type} `{!UsbHost H} `{!UsbHostLaws H} `{!UsbHostRecovers H}.
Implicit Types (x : Input TNetDevice Empty_set) (h : H).
Context (b : list Z) (o : nat) (l : list nat) (d : TUSBDevice).
Abbreviation W := (Input TNetDevice Empty_set * H)%type.

(** [m] makes at most [n] requests and returns; [T] relates its result, the
    object before and after, and the register accesses. Function and endpoints
    stay. *)
Definition carries {A} (n : nat) (m : M W A) (T : A → TNetDevice → TNetDevice → list reg_access → Prop) : Prop :=
  ∀ k x h (Q : A → W → Prop), searching (n + k) b o l d x h →
    (∀ a dv h' es, searching k b o l d (x <| device := dv |>) h' →
       same_but_pid (usb_get h) (usb_get h') → bus_get h' = es ++ bus_get h →
       T a (device x) dv (accesses es) → Q a (x <| device := dv |>, h')) →
    wp m Q (x, h).

Lemma carries_ret {A} (a : A) (T : A → TNetDevice → TNetDevice → list reg_access → Prop) :
  (∀ dv, T a dv dv []) → carries 0 (mret a) T.
Proof.
  intros HT k x h Q Hs HQ. wp_step.
  assert (x = x <| device := device x |>) as E by by destruct x. rewrite E.
  apply (HQ _ _ _ []); [by rewrite <- E|apply same_but_pid_refl|done|apply HT].
Qed.

Lemma carries_bind {A B} n n' (m : M W A) (f : A → M W B) T T' :
  carries n m T → (∀ a, (∃ d1 d2 w, T a d1 d2 w) → carries n' (f a) (T' a)) →
  carries (n + n') (m ≫= f)
    (λ c d1 d3 w, ∃ a d2 w1 w2, T a d1 d2 w1 ∧ T' a c d2 d3 w2 ∧ w = w1 ++ w2).
Proof.
  intros Hm Hf k x h Q Hs HQ. rewrite <- Nat.add_assoc in Hs. wp_step. eapply Hm; [exact Hs|].
  intros a dv h1 es Hs1 Hu1 Hb1 HT1. eapply Hf; [by eexists _, _, _|exact Hs1|].
  intros c dv' h2 es' Hs2 Hu2 Hb2 HT2. apply (HQ c dv' h2 (es' ++ es)); [exact Hs2|by eapply same_but_pid_trans| |].
  - by rewrite Hb2, Hb1, app_assoc.
  - rewrite accesses_app. by exists a, dv, (accesses es), (accesses es').
Qed.

Lemma carries_mono {A} n n' (m : M W A) (T T' : A → TNetDevice → TNetDevice → list reg_access → Prop) :
  carries n m T → (n <= n')%nat → (∀ a d1 d2 w, T a d1 d2 w → T' a d1 d2 w) → carries n' m T'.
Proof.
  intros Hm Hn HT k x h Q Hs HQ. eapply Hm.
  - eapply (searching_step); [exact Hs| |apply host_step_refl]. eapply host_ready_mono; [|apply Hs].
    assert (n + (n' - n + k) <= n' + k)%nat as Hle by lia. exact Hle.
  - intros a dv h' es Hs' Hu Hb Ht. apply (HQ _ _ _ es); [|done|done|by apply HT].
    eapply searching_step; [exact Hs'| |apply host_step_refl]. eapply host_ready_mono; [|apply Hs']. lia.
Qed.

Lemma wp_endpoint0 k x h (Q : Z → W → Prop) :
  searching k b o l d x h → Q (m_pEndpoint0 d) (x, h) →
  wp (f ← dget m_USBFunction; USBFunctionGetHost f ;; USBFunctionGetEndpoint0 f) Q (x, h).
Proof.
  intros [Hr Hf Hd [H0 He]] HQ. pose proof Hf as [Hd0 _ _ _ _]. simpl in Hd0, Hd.
  wp_step. apply wp_dget. wp_step. apply wp_USBFunctionGetHost; [done|by eexists|].
  by eapply wp_USBFunctionGetEndpoint0.
Qed.

Lemma carries_read i : carries 1 (read_reg i)
  (λ r d1 d2 w, d2 = d1 ∧ ∃ v, w = [RegRead (u16 i) v] ∧ is_u32 v ∧ (r = None ∨ r = Some v)).
Proof.
  intros k x h Q Hs HQ. pose proof Hs as [Hr Hf Hd He]. pose proof Hf as [Hd0 _ _ _ _]. simpl in Hd0, Hd.
  unfold read_reg. wp_step. apply wp_dget. wp_step. apply wp_USBFunctionGetHost; [done|by eexists|].
  wp_step. eapply wp_USBFunctionGetEndpoint0; [done|done|by destruct He|].
  wp_step. eapply (wp_ControlMessageIn k); [exact Hr| |].
  { destruct He as [H0 He]. by split. }
  intros r c h' Hr' Hc Hlc Hres Hb Hsame. simpl in Hlc.
  assert (host_step h h') as Hst by (split; [done|by eexists [_]]).
  assert (is_u32 (le_value c)) as Hu32.
  { destruct (le_value_range c _ Hc eq_refl) as [L1 L2]. split; [done|].
    eapply Z.lt_le_trans; [exact L2|]. change 4294967296 with (256 ^ Z.of_nat 4). apply Z.pow_le_mono_r; lia. }
  assert (∀ v, v = None ∨ v = Some (le_value c) → Q v (x, h')) as Hdone.
  { intros v Hv. assert (x = x <| device := device x |>) as E by by destruct x. rewrite E.
    eapply (HQ _ _ _ [_]); [rewrite <- E; by eapply searching_step|done|exact Hb|].
    split; [done|]. exists (le_value c). by split. }
  destruct (Z.eqb_spec r 4) as [->|]; cbn [negb]; [|wp_step; apply Hdone; by left].
  assert (length c = 4%nat) as Hl4 by (destruct Hres; lia).
  rewrite overwrite_all by (rewrite Hl4; done).
  wp_step. apply wp_le32_at; [lia|]. wp_step. apply Hdone. right.
  by rewrite drop_0, take_ge by lia.
Qed.

Lemma carries_write i v : is_u32 v → carries 1 (write_reg i v)
  (λ r d1 d2 w, d2 = d1 ∧ w = [RegWrite (u16 i) v]).
Proof.
  intros Hv k x h Q Hs HQ. pose proof Hs as [Hr Hf Hd He]. pose proof Hf as [Hd0 _ _ _ _]. simpl in Hd0, Hd.
  unfold write_reg. wp_step. apply wp_dget. wp_step. apply wp_USBFunctionGetHost; [done|by eexists|].
  wp_step. eapply wp_USBFunctionGetEndpoint0; [done|done|by destruct He|].
  wp_step. eapply (wp_ControlMessageOut k); [exact Hr| |].
  { destruct He as [H0 He]. split; [done|done|]. rewrite le_bytes_length. by split. }
  intros r h' Hr' _ Hb Hsame. wp_step.
  assert (x = x <| device := device x |>) as E by by destruct x. rewrite E.
  eapply (HQ _ _ _ [_]); [rewrite <- E; eapply searching_step; [exact Hs|done|]|done|exact Hb|].
  { split; [done|by eexists [_]]. }
  split; [done|]. transitivity [RegWrite (u16 i) (le_value (le_bytes 4 v))]; [done|by rewrite le_value_bytes].
Qed.

Lemma carries_delay t : carries 0 (HostMsDelay t) (λ _ d1 d2 w, d2 = d1 ∧ w = []).
Proof.
  intros k x h Q Hs HQ. unfold HostMsDelay. wp_step. cbn [bus_put bus_get host_bus prod_host prod_bus fst snd].
  assert (x = x <| device := device x |>) as E by by destruct x. rewrite E.
  eapply (HQ _ _ _ [BusDelay t]); [|rewrite usb_get_bus; apply same_but_pid_refl|by rewrite bus_get_put|by split].
  rewrite <- E. eapply searching_step; [exact Hs|by apply host_ready_bus, Hs|].
  split; [rewrite usb_get_bus; apply same_but_pid_refl|exists [BusDelay t]; by rewrite bus_get_put].
Qed.

(** Success means that the plan was carried out; nothing else changes. *)
Definition carries_out (pl : list reg_step) (m : M W bool) : Prop :=
  carries (cost pl) m (λ ok d1 d2 w, d2 = d1 ∧ (ok = true → performs pl w)).

Lemma does_write i v : is_u32 v → is_u16 i → carries_out [Writes i (eq v)] (write_reg i v).
Proof.
  intros Hv Hi. eapply carries_mono; [by apply carries_write|simpl; lia|].
  intros r d1 d2 w (-> & ->). split; [done|]. intros _. rewrite u16_id by done. by repeat constructor.
Qed.

Lemma does_nil : carries_out [] (all_true []).
Proof. apply carries_ret. intros dv. split; [done|]. constructor. Qed.

Lemma does_seq pl pl' (m m' : M W bool) :
  carries_out pl m → carries_out pl' m' → carries_out (pl ++ pl') (ok ← m; if ok : bool then m' else mret false).
Proof.
  intros Hm Hm'. eapply carries_mono.
  - apply carries_bind; [exact Hm|]. intros ok _.
    instantiate (2 := cost pl'). instantiate (1 := λ ok ok' d1 d2 w, d2 = d1 ∧ (ok' = true → ok = true ∧ performs pl' w)).
    destruct ok; [eapply carries_mono; [exact Hm'|done|]; naive_solver|].
    eapply carries_mono; [by apply (carries_ret false (λ ok d1 d2 w, d2 = d1 ∧ ok = false))|lia|].
    intros a d1 d2 w (-> & ->). by split.
  - by rewrite cost_app.
  - intros ok d1 d2 w (ok1 & d3 & w1 & w2 & (-> & H1) & (-> & H2) & ->). split; [done|].
    intros Hok. destruct (H2 Hok) as [Hok1 H3]. apply performs_app; [by apply H1|done].
Qed.

Lemma does_cons pl pl' (m : M W bool) ms :
  carries_out pl m → carries_out pl' (all_true ms) → carries_out (pl ++ pl') (all_true (m :: ms)).
Proof. apply does_seq. Qed.

Lemma carries_wait n i m c : is_u16 i →
  carries n (wait_reg n i m c) (λ ok d1 d2 w, d2 = d1 ∧ (ok = true → performs [Awaits i m c] w)).
Proof.
  intros Hi. induction n as [|n IH]; cbn [wait_reg].
  { eapply carries_mono.
    - apply carries_bind; [apply carries_delay|]. intros u _.
      apply (carries_ret false (λ ok d1 d2 w, d2 = d1 ∧ ok = false)). done.
    - done.
    - intros ok d1 d2 w (u & d3 & w1 & w2 & (-> & ->) & (-> & ->) & ->). by split. }
  eapply carries_mono.
  - apply carries_bind; [apply carries_delay|]. intros u _.
    apply carries_bind; [apply carries_read|]. intros r _.
    instantiate (2 := n). instantiate (1 := λ r ok d1 d2 w, d2 = d1 ∧ (ok = true → ∃ v, r = Some v ∧
      (Z.land v m = c ∧ w = [] ∨ Z.land v m ≠ c ∧ performs [Awaits i m c] w))).
    destruct r as [v|].
    2: { eapply carries_mono; [apply (carries_ret false (λ ok d1 d2 w, d2 = d1 ∧ ok = false)); done|lia|].
         intros a d1 d2 w (-> & ->). by split. }
    destruct (Z.eqb_spec (Z.land v m) c) as [E|E]; cbn [negb].
    + eapply carries_mono; [apply (carries_ret true (λ ok d1 d2 w, d2 = d1 ∧ w = [])); done|lia|].
      intros a d1 d2 w (-> & ->). split; [done|]. intros _. exists v. split; [done|]. by left.
    + eapply carries_mono; [exact IH|lia|]. intros a d1 d2 w (-> & Hp). split; [done|]. intros Ha.
      exists v. split; [done|]. right. auto.
  - lia.
  - intros ok d1 d2 w (u & d3 & w1 & w2 & (-> & ->) & (r & d4 & w3 & w4 & (-> & v & -> & _ & Hr) & (-> & Hk) & ->) & ->).
    split; [done|]. intros Hok. destruct (Hk Hok) as (v' & -> & Hv). destruct Hr as [|Hr]; [done|].
    injection Hr as ->. simpl. rewrite u16_id by done. destruct Hv as [(Hv & ->)|(Hv & Hp)].
    + constructor; [done|constructor].
    + by constructor.
Qed.

Lemma does_wait i m c : is_u16 i → carries_out [Awaits i m c] (wait_reg (pred nTries) i m c).
Proof. intros Hi. eapply carries_mono; [by apply carries_wait|unfold cost; simpl; lia|done]. Qed.

Lemma does_all pls (ms : list (M W bool)) : Forall2 carries_out pls ms → carries_out (concat pls) (all_true ms).
Proof. induction 1; [apply does_nil|by apply does_cons]. Qed.

Lemma does_phy_write acc data cmd v : is_u16 acc → is_u16 data → is_u32 cmd → is_u32 v →
  carries_out [Awaits acc 1 0; Writes data (eq v); Writes acc (eq cmd); Awaits acc 1 0] (phy_write acc data cmd v).
Proof.
  intros Ha Hd Hc Hv. apply (does_all [[_]; [_]; [_]; [_]]).
  repeat (constructor; [first [by apply does_wait | by apply does_write]|]). constructor.
Qed.

(** The value is the lower half of what the data register was last seen to be. *)
Lemma carries_phy_read acc data cmd : is_u16 acc → is_u16 data → is_u32 cmd →
  carries (2 * pred nTries + 2) (phy_read acc data cmd) (λ r d1 d2 w, d2 = d1 ∧ ∀ v, r = Some v →
    ∃ u, v = Z.land u 0xFFFF ∧ performs [Awaits acc 1 0; Writes acc (eq cmd); Awaits acc 1 0; Reads data (eq u)] w).
Proof.
  intros Ha Hd Hc. unfold phy_read. eapply carries_mono.
  - apply carries_bind; [apply (does_all [[Awaits acc 1 0]; [Writes acc (eq cmd)]; [Awaits acc 1 0]])|].
    { repeat (constructor; [first [by apply does_wait | by apply does_write]|]). constructor. }
    intros ok _. instantiate (2 := 1%nat).
    instantiate (1 := λ ok r d1 d2 w, d2 = d1 ∧ ∀ v, r = Some v → ok = true ∧
      ∃ u, v = Z.land u 0xFFFF ∧ w = [RegRead data u]).
    destruct ok; [|eapply carries_mono; [apply (carries_ret None (λ r d1 d2 w, d2 = d1 ∧ r = None)); done|lia|]].
    + eapply carries_mono; [apply carries_bind; [apply carries_read|]|reflexivity|].
      * intros r _. apply (carries_ret _ (λ c d1 d2 w, d2 = d1 ∧ w = [] ∧ c = (λ v, Z.land v 0xFFFF) <$> r)). done.
      * intros r d1 d2 w (a & d3 & w1 & w2 & (-> & u & -> & _ & Hu) & (-> & -> & ->) & ->). split; [done|].
        intros v Hv. split; [done|]. exists u. rewrite u16_id by done.
        destruct Hu as [-> | ->]; [done|]. simpl in Hv. by injection Hv as <-.
    + intros r d1 d2 w (-> & ->). by split.
  - unfold cost. simpl. lia.
  - intros r d1 d2 w (ok & d3 & w1 & w2 & (-> & H1) & (-> & H2) & ->). split; [done|].
    intros v Hv. destruct (H2 v Hv) as (Hok & u & -> & ->). exists u. split; [done|].
    apply (performs_app [_; _; _] [_]); [by apply H1|]. by repeat constructor.
Qed.
End Registers.

(** ** Frames *)

(** What a driver sends: the two words of the chip and the frame. *)
Definition packet (cmdA cmdB : Z → Z) (frame : list Z) : list Z :=
  let n := Z.of_nat (length frame) in le_bytes 4 (cmdA n) ++ le_bytes 4 (cmdB n) ++ frame.

Lemma packet_words cmdA cmdB frame : let n := Z.of_nat (length frame) in
  is_u32 (cmdA n) → is_u32 (cmdB n) →
  le_value (take 4 (packet cmdA cmdB frame)) = cmdA n ∧
  le_value (take 4 (drop 4 (packet cmdA cmdB frame))) = cmdB n ∧ drop 8 (packet cmdA cmdB frame) = frame.
Proof.
  intros n Ha Hb. unfold packet. cbv zeta. fold n.
  pose proof (le_bytes_length 4 (cmdA n)) as La. pose proof (le_bytes_length 4 (cmdB n)) as Lb.
  split_and!.
  - rewrite take_app_length' by done. by apply le_value_bytes.
  - rewrite drop_app_length' by done. rewrite take_app_length' by done. by apply le_value_bytes.
  - rewrite app_assoc. apply drop_app_length'. rewrite length_app. lia.
Qed.

(** What comes in: nothing, if the transfer failed, was too short or has an error;
    else what lies between the header and the four bytes of the checksum. *)
Definition status_of (d : list Z) : Z := le_value (take 4 d).
Definition received (hdr : Z) (bad : Z → bool) (r : Z) (d : list Z) : option (list Z) :=
  if r <? hdr then None
  else if bad (status_of d) then None
  else Some (take (length d - Z.to_nat hdr - 4) (drop (Z.to_nat hdr) d)).

(** A chip that states the length of the frame it sends, and sends no empty one. *)
Definition framing (hdr : Z) (bad : Z → bool) (frame_length : Z → Z) (op : bus_op) (r : Z) (d : list Z) : Prop :=
  match op with
  | BulkIn _ _ => hdr <= r → bad (status_of d) = false →
      frame_length (status_of d) = r - hdr ∧ 4 < r - hdr
  | _ => True
  end.

(** The upward copy of util.c, where source and target overlap in one block. *)
Lemma memcpy_down (n p q blk0 : nat) m bs : (p <= q)%nat → (q + n <= length bs)%nat →
  CMem.blocks m !! blk0 = Some bs →
  wp (memcpy_loop (CMem.Ptr blk0 p) (CMem.Ptr blk0 q) n)
    (λ _ m', m' = CMem.upd_block blk0 (overwrite p (take n (drop q bs)) bs) m) m.
Proof.
  revert p q m bs. induction n as [|n IH]; intros p q m bs Hpq Hq Hb; cbn [memcpy_loop].
  { wp_step. by rewrite take_0, overwrite_nil, CMem.upd_block_same. }
  destruct (lookup_lt_is_Some_2 bs q) as [c Hc]; [lia|].
  wp_step. eapply CMem.wp_peek; [unfold CMem.cell; simpl; by rewrite Hb|]. wp_step.
  eapply CMem.wp_poke; [exact Hb|simpl; lia|]. simpl. unfold CMem.padd. simpl.
  eapply wp_mono; [apply (IH _ _ _ (<[p := c]> bs)); [lia|rewrite length_insert; lia|apply CMem.lookup_upd_block]|].
  intros _ m' ->. rewrite CMem.upd_block_twice. f_equal.
  rewrite (drop_S _ _ _ Hc). simpl. rewrite overwrite_cons by lia. rewrite !Nat.add_1_r.
  f_equal. by rewrite drop_insert_lt by lia.
Qed.

Section Frames.
Context {H : Type} `{!UsbHost H} `{!UsbHostLaws H} `{!UsbHostRecovers H}.
Implicit Types (x : Input TNetDevice Empty_set) (h : H).
Context (b : list Z) (o : nat) (d : TUSBDevice).
Abbreviation W := (Input TNetDevice Empty_set * H)%type.

(** An adapter that is configured. *)
Record running (k : nat) (l : list nat) x h : Prop := {
  ru_searching : searching k b o l d x h;
  ru_in : directed_endpoint (usb_get h) (m_pEndpointBulkIn (device x)) EndpointTypeBulk true;
  ru_out : directed_endpoint (usb_get h) (m_pEndpointBulkOut (device x)) EndpointTypeBulk false;
  ru_tx0 : m_pTxBuffer (device x) ≠ 0;
  ru_tx : length (tx (device x)) = Z.to_nat FRAME_BUFFER_SIZE
}.

Lemma running_step k k' l x h h' : running k l x h → host_ready k' h' → same_but_pid (usb_get h) (usb_get h') →
  (∃ es, bus_get h' = es ++ bus_get h) → running k' l x h'.
Proof.
  intros [H1 H2 H3 H4 H5] Hr Hs He.
  split; [by eapply searching_step|by eapply directed_same|by eapply directed_same|done|done].
Qed.

Lemma bulk_ok u p ty dir : directed_endpoint u p EndpointTypeBulk dir → ∀ op, op_endpoint op = p →
  op_control op = false → (match op with BulkOut _ l => 0 < Z.of_nat (length l) < 2 ^ 31 | BulkIn _ n => 0 < n < 2 ^ 31 | _ => False end) →
  ty = EndpointTypeBulk → op_ok u op.
Proof.
  intros (H0 & e & He & Ht & _ & Hm & Hd) op Ep Ec Hlen _. split; [by rewrite Ep| |by destruct op].
  exists e. by rewrite Ep, Ec.
Qed.

Lemma wp_tx_put k l t (Q : unit → W → Prop) x h :
  tx (device x) = t → (k + length l <= length t)%nat →
  Q tt (x <| device := (device x) <| tx := overwrite k (map Some l) t |> |>, h) → wp (tx_put k l) Q (x, h).
Proof.
  intros <- Hl HQ. unfold tx_put. wp_step. apply wp_dget. rewrite (proj2 (Nat.leb_le _ _)) by done. by apply wp_dset.
Qed.

Lemma wp_tx_take n l t (Q : list Z → W → Prop) x h :
  tx (device x) = t → (n <= length t)%nat → take n t = map Some l → Q l (x, h) → wp (tx_take n) Q (x, h).
Proof.
  intros <- Hl El HQ. unfold tx_take. wp_step. apply wp_dget. rewrite (proj2 (Nat.leb_le _ _)) by done.
  rewrite El. by apply wp_buffer_bytes.
Qed.

Lemma wp_send_frame k l too_long cmdA cmdB pBuffer frame (Q : bool → W → Prop) x h :
  running (S k) l x h → pBuffer ≠ 0 →
  (too_long (Z.of_nat (length frame)) = false → Z.of_nat (length frame) + 8 <= FRAME_BUFFER_SIZE) →
  (too_long (Z.of_nat (length frame)) = true → Q false (x, h)) →
  (too_long (Z.of_nat (length frame)) = false → ∀ r x' h', running k l x' h' →
     x' = x <| device := (device x) <| tx := overwrite 0 (map Some (packet cmdA cmdB frame)) (tx (device x)) |> |> →
     bus_get h' = BusDone (BulkOut (m_pEndpointBulkOut (device x)) (packet cmdA cmdB frame)) r [] :: bus_get h →
     Q (negb (r <? 0)) (x', h')) →
  wp (send_frame too_long cmdA cmdB pBuffer frame) Q (x, h).
Proof.
  intros Hrun Hp Hfit Hlong HQ. unfold send_frame. cbv zeta.
  destruct (too_long _) eqn:E; [wp_step; by apply Hlong|].
  specialize (Hfit eq_refl). specialize (HQ eq_refl). pose proof Hrun as [[Hr Hf Hd He] Hin Hout Ht0 Ht].
  assert (length (tx (device x)) = 1600%nat) as Ht' by exact Ht. unfold FRAME_BUFFER_SIZE in Hfit.
  wp_step. apply wp_dget. wp_step. apply wp_assert; [by apply negb_true_iff, Z.eqb_neq|].
  wp_step. apply wp_assert; [by apply negb_true_iff, Z.eqb_neq|].
  set (A := le_bytes 4 (cmdA _)). set (B := le_bytes 4 (cmdB _)).
  assert (length A = 4%nat ∧ length B = 4%nat) as [EA EB] by (split; apply le_bytes_length).
  set (t1 := overwrite 8 (map Some frame) (tx (device x))). set (t2 := overwrite 0 (map Some A) t1).
  assert (length t1 = 1600%nat) as E1 by (unfold t1; rewrite overwrite_length; rewrite ?length_map; lia).
  assert (length t2 = 1600%nat) as E2 by (unfold t2; rewrite overwrite_length; rewrite ?length_map; lia).
  assert (overwrite 4 (map Some B) t2 = overwrite 0 (map Some (packet cmdA cmdB frame)) (tx (device x))) as Et.
  { transitivity (overwrite 0 (map Some (A ++ B)) t1).
    - rewrite map_app, <- (overwrite_app 0); rewrite !length_map; [by rewrite EA|lia].
    - unfold t1, overwrite. rewrite !take_0, !length_map. clear Hlong HQ. unfold packet. fold A B.
      rewrite !length_app, EA, EB, !map_app. cbn [Nat.add app]. rewrite <- !app_assoc.
      rewrite drop_app_ge by (rewrite length_take; lia). rewrite length_take, Nat.min_l by lia.
      done. }
  wp_step. apply (wp_tx_put _ _ (tx (device x))); [done|lia|]. fold t1. wp_step.
  apply (wp_tx_put _ _ t1); [done|lia|]. fold t2. wp_step.
  apply (wp_tx_put _ _ t2); [done|lia|]. rewrite Et.
  set (t3 := overwrite 0 (map Some (packet cmdA cmdB frame)) (tx (device x))).
  set (x' := x <| device := (device x) <| tx := t3 |> |>).
  lazymatch goal with |- wp ?m ?K (?y, h) => change (wp m K (x', h)) end.
  assert (length (packet cmdA cmdB frame) = (length frame + 8)%nat) as Elen.
  { unfold packet. rewrite !length_app. fold A B. lia. }
  assert (length t3 = 1600%nat) as E3 by (unfold t3; rewrite overwrite_length; rewrite ?length_map; lia).
  assert (∀ k' h', host_ready k' h' → same_but_pid (usb_get h) (usb_get h') →
    (∃ es, bus_get h' = es ++ bus_get h) → running k' l x' h') as Hrun'.
  { intros k' h' Hr' Hs' He'. destruct (running_step _ k' _ _ _ h' Hrun Hr' Hs' He') as [S1 S2 S3 S4 S5].
    split; [by eapply searching_device|done|done|done|done]. }
  wp_step. apply wp_dget. pose proof Hout as (Hout0 & _).
  wp_step. apply wp_assert; [by apply negb_true_iff, Z.eqb_neq|].
  wp_step. apply wp_dget. pose proof Hf as [Hd0 _ _ _ _].
  wp_step. apply wp_USBFunctionGetHost; [done|by eexists|].
  wp_step. apply (wp_tx_take _ (packet cmdA cmdB frame) t3); [done|lia| |].
  { rewrite <- Elen, <- (length_map Some). apply (take_overwrite 0). rewrite length_map. lia. }
  wp_step. eapply (wp_TransferOut k); [exact Hr| |].
  { eapply bulk_ok; [exact Hout|done|done| |reflexivity]. rewrite Elen. lia. }
  intros r h' Hr' Hres Hb Hs. wp_step. apply HQ; [|done|exact Hb]. apply Hrun'; [done|done|by eexists [_]].
Qed.

(** The word at the beginning of what was received. *)
Lemma wp_status_word c rest (Q : Z → W → Prop) s :
  (4 <= length c)%nat → Q (status_of c) s → wp (le32_at (map Some c ++ rest) 0) Q s.
Proof.
  destruct c as [|c0 [|c1 [|c2 [|c3 c]]]]; simpl; try lia. intros _ HQ.
  assert (status_of (c0 :: c1 :: c2 :: c3 :: c) = c0 + 256 * c1 + 65536 * (c2 + 256 * c3)) as Es.
  { unfold status_of, le_value. simpl. lia. }
  rewrite Es in HQ. exact HQ.
Qed.

(** The bytes that the caller's buffer begins with. *)
Definition begins (bf : buffer) (l : list Z) : Prop := take (length l) bf = map Some l.

Lemma wp_receive_frame k l hdr bad frame_length `{!Answers H (framing hdr bad frame_length)}
    pBuffer bf pResultLength (Q : bool * option Z * buffer → W → Prop) x h :
  running (S k) l x h → pBuffer ≠ 0 → pResultLength ≠ 0 → 4 <= hdr <= FRAME_BUFFER_SIZE →
  (Z.to_nat FRAME_BUFFER_SIZE <= length bf)%nat →
  (∀ r c h' bf' f, running k l x h' →
     bus_get h' = BusDone (BulkIn (m_pEndpointBulkIn (device x)) FRAME_BUFFER_SIZE) r c :: bus_get h →
     f = received hdr bad r c → length bf' = length bf →
     drop (Z.to_nat FRAME_BUFFER_SIZE) bf' = drop (Z.to_nat FRAME_BUFFER_SIZE) bf → (∀ l, f = Some l → begins bf' l) →
     Q (bool_decide (is_Some f), (λ l, Z.of_nat (length l)) <$> f, bf') (x, h')) →
  wp (receive_frame hdr bad frame_length pBuffer bf pResultLength) Q (x, h).
Proof.
  intros Hrun Hp Hpl Hh Hbf HQ. unfold FRAME_BUFFER_SIZE in Hh. set (N := Z.to_nat FRAME_BUFFER_SIZE) in *.
  assert (length (take N bf) = N) as EN by (rewrite length_take; lia).
  assert (Z.of_nat N = 1600) as EN' by done.
  pose proof Hrun as [[Hr Hf Hd He] Hin Hout Ht0 Ht]. pose proof Hf as [Hd0 _ _ _ _]. pose proof Hin as (Hin0 & _).
  unfold receive_frame. wp_step. apply wp_dget. wp_step. apply wp_assert; [by apply negb_true_iff, Z.eqb_neq|].
  wp_step. apply wp_assert; [by apply negb_true_iff, Z.eqb_neq|].
  wp_step. apply wp_dget. wp_step. apply wp_USBFunctionGetHost; [done|by eexists|].
  fold N. wp_step. rewrite (proj2 (Nat.ltb_ge _ _)) by done. wp_step. wp_step.
  eapply (wp_TransferIn_answers (framing hdr bad frame_length) k); [exact Hr| |].
  { eapply bulk_ok; [exact Hin|done|done| |reflexivity]. simpl. rewrite EN. lia. }
  intros r c h' Hr' Hc Hlc Hres Hans Hb Hs. rewrite EN in Hlc.
  assert (running k l x h') as Hrun' by (eapply running_step; [exact Hrun|done|done|by eexists [_]]).
  rewrite EN in Hb. specialize (HQ r c h').
  set (bf1 := overwrite 0 (map Some c) (take N bf) ++ drop N bf).
  assert (bf1 = overwrite 0 (map Some c) bf) as Ebf.
  { unfold bf1, overwrite. rewrite !take_0, !length_map. simpl. rewrite <- app_assoc. f_equal.
    rewrite <- drop_app_le by lia. by rewrite take_drop. }
  assert (length bf1 = length bf) as Elen by (rewrite Ebf, overwrite_length; [done|rewrite length_map; lia]).
  assert (drop N bf1 = drop N bf) as Edrop.
  { unfold bf1. apply drop_app_length'. rewrite overwrite_length; [done|rewrite length_map; lia]. }
  assert (received hdr bad r c = None → Q (false, None, bf1) (x, h')) as Hno.
  { intros En. apply (HQ bf1 None); [done|exact Hb|done|done|done|]. done. }
  cbv zeta. destruct (Z.ltb_spec r 0); [wp_step; apply Hno; unfold received; by rewrite (proj2 (Z.ltb_lt _ _)) by lia|].
  destruct (Z.ltb_spec r hdr) as [Hlt|Hge]; [wp_step; apply Hno; unfold received; by rewrite (proj2 (Z.ltb_lt _ _)) by lia|].
  assert (r = Z.of_nat (length c)) as Er by (destruct Hres; lia).
  wp_step. rewrite Ebf.
  assert (overwrite 0 (map Some c) bf = map Some c ++ drop (length c) bf) as Eov.
  { unfold overwrite. by rewrite take_0, length_map. }
  assert (Z.to_nat hdr <= length c)%nat as Hhc by lia.
  rewrite Eov. apply wp_status_word; [lia|]. rewrite <- Eov, <- Ebf.
  destruct (bad (status_of c)) eqn:Eb.
  { wp_step. apply Hno. unfold received. rewrite (proj2 (Z.ltb_ge _ _)) by lia. by rewrite Eb. }
  destruct Hans as [Efl Hfl]; [lia|done|].
  wp_step. apply wp_assert; [rewrite Efl; apply Z.eqb_eq; cint|].
  wp_step. apply wp_assert; [rewrite Efl; apply Z.ltb_lt; lia|].
  rewrite (proj2 (Z.leb_gt _ _)) by lia. wp_step. rewrite Efl.
  unfold move_down. replace (Z.to_nat hdr + Z.to_nat (r - hdr - 4))%nat with (length c - 4)%nat by lia.
  rewrite (proj2 (Nat.leb_le _ _)) by lia. wp_step. wp_step.
  apply wp_assert; [by apply negb_true_iff, Z.eqb_neq|]. wp_step.
  set (f := take (length c - Z.to_nat hdr - 4) (drop (Z.to_nat hdr) c)).
  assert (length f = Z.to_nat (r - hdr - 4)) as Elf.
  { unfold f. rewrite length_take, length_drop. lia. }
  assert (take (Z.to_nat (r - hdr - 4)) (drop (Z.to_nat hdr) bf1) = map Some f) as Emv.
  { rewrite Ebf, Eov, drop_app_le by (rewrite length_map; lia).
    rewrite take_app_le by (rewrite length_drop, length_map; lia).
    unfold f. change (map Some) with (fmap (M := list) (@Some Z)). rewrite fmap_take, fmap_drop. f_equal. lia. }
  rewrite Emv. replace (r - hdr - 4) with (Z.of_nat (length f)) by lia.
  apply (HQ _ (Some f)); [done|exact Hb| | | |].
  - unfold received. rewrite (proj2 (Z.ltb_ge _ _)) by lia. by rewrite Eb.
  - by rewrite overwrite_length by (rewrite length_map; lia).
  - unfold overwrite. rewrite take_0, length_map. simpl. rewrite drop_app_ge by (rewrite length_map; lia).
    rewrite length_map, drop_drop, <- Edrop. f_equal. lia.
  - intros l' [= <-]. unfold begins. rewrite <- (length_map Some f) at 1. apply (take_overwrite 0). rewrite length_map. lia.
Qed.

(** ** Configuring *)

Lemma setting_accesses es : setting_request d es → accesses es = [].
Proof. by intros [->|(alt & num & r & ->)]. Qed.

(** The search for the endpoints and the setting, before anything else is done. *)
Lemma wp_find_endpoints k l (rest : M W bool) (Q : bool → W → Prop) x h :
  searching (1 + k) b o l d x h → packet_sizes b l →
  m_pEndpointBulkIn (device x) = 0 → m_pEndpointBulkOut (device x) = 0 →
  m_pTxBuffer (device x) ≠ 0 → length (tx (device x)) = Z.to_nat FRAME_BUFFER_SIZE →
  (∀ x' h', same_pair x x' → Q false (x', h')) →
  (∀ l' x' h' es, same_pair x x' → running k l' x' h' → bus_get h' = es ++ bus_get h → accesses es = [] →
     wp rest Q (x', h')) →
  wp (find_endpoints rest) Q (x, h).
Proof.
  intros Hs Hps Hi Ho Ht0 Ht Hno HQ. pose proof Hs as [_ Hf _ _].
  pose proof Hf as [_ _ _ _ (p & Hp & (_ & _ & last & audio & Hch) & _)].
  unfold find_endpoints. wp_step. apply wp_dget. wp_step.
  eapply wp_interface_byte; [exact Hf|unfold off_bNumEndpoints; lia|]. intros n _ _.
  destruct (negb _).
  { wp_step. eapply wp_ConfigurationError; [exact Hf|]. wp_step. apply Hno, same_pair_refl. }
  wp_step. eapply wp_parser_of; [exact Hp|]. wp_step.
  eapply (wp_pair_endpoint_loop EndpointTypeBulk 2); [done|exact Hs|exact Hps| |].
  { pose proof (chain_length _ _ _ _ _ _ Hch). lia. }
  intros ok l2 x2 h2 Hs2 [Hsame Hin Hout Hx Hb].
  destruct ok; cbn [negb]; [|wp_step; by apply Hno].
  specialize (Hin (or_introl Hi)). specialize (Hout (or_introl Ho)).
  wp_step. apply wp_dget. wp_step. apply wp_dget. pose proof Hs2 as [Hr2 Hf2 Hd2 He2].
  assert (wp (f ← dget m_USBFunction; USBFunctionConfigurationError f ;; mret false) Q (x2, h2)) as Herr.
  { wp_step. apply wp_dget. wp_step. eapply wp_ConfigurationError; [exact Hf2|]. wp_step. by apply Hno. }
  destruct (Z.eqb_spec (m_pEndpointBulkIn (device x2)) 0) as [|Hi2]; [exact Herr|].
  destruct (Z.eqb_spec (m_pEndpointBulkOut (device x2)) 0) as [|Ho2]; [exact Herr|]. cbn [orb].
  destruct Hin as [|Hin]; [done|]. destruct Hout as [|Hout]; [done|].
  wp_step. apply wp_dget. wp_step. eapply (wp_Configure_request k); [exact Hr2|exact Hf2|exact Hd2|exact He2|].
  intros ok h3 es Hr3 Hs3 Hb3 Hset. destruct ok; cbn [negb]; [|wp_step; by apply Hno].
  apply (HQ l2 _ _ es); [done| |by rewrite Hb3, Hb|by apply setting_accesses].
  destruct Hsame as (f & i & o' & Ef & ->). simpl in *.
  split; [eapply searching_step; [exact Hs2|done|]|by eapply directed_same|by eapply directed_same|done|done].
  split; [done|by exists es].
Qed.

Lemma wp_set_mac a (Q : unit → W → Prop) x h : length a = 6%nat →
  Q tt (x <| device := (device x) <| m_MACAddress := Some {| m_bValid := true; m_Address := map Some a |} |> |>, h) →
  wp (set_mac a) Q (x, h).
Proof.
  intros Ha HQ. unfold set_mac, MACAddressSet. wp_step. rewrite Ha. simpl. wp_step. apply wp_dset.
  by rewrite take_ge by lia.
Qed.

Lemma wp_log_mac a (Q : unit → W → Prop) x h :
  m_MACAddress (device x) = Some {| m_bValid := true; m_Address := map Some a |} → Q tt (x, h) → wp log_mac Q (x, h).
Proof.
  intros Ha HQ. unfold log_mac, mac_of. wp_step. wp_step. apply wp_dget. rewrite Ha. wp_step.
  unfold MACAddressFormat. wp_step. wp_step. apply wp_assert; [done|]. wp_step. apply bytes_of_some.
  wp_step. by wp_step.
Qed.

Lemma wp_net_publish pThis (Q : bool → W → Prop) x h :
  pThis ≠ 0 → s_pThis (names x) ≠ 0 →
  (∀ x', enrolled eth pThis x x' → device x' = device x → calls x' = calls x → Q true (x', h)) →
  wp (net_publish pThis) Q (x, h).
Proof.
  intros Hp Hs HQ. unfold net_publish. wp_step. apply wp_take_number. wp_step.
  apply wp_enter; [done|done|]. wp_step. by apply HQ.
Qed.

(** What register accesses do to an adapter that runs. *)
Lemma wp_carries {A} n (m : M W A) (R : A → list reg_access → Prop) k l (Q : A → W → Prop) x h :
  (∀ l, carries b o l d n m (λ r d1 d2 w, d2 = d1 ∧ R r w)) → running (n + k) l x h →
  (∀ r h' es, running k l x h' → bus_get h' = es ++ bus_get h → R r (accesses es) → Q r (x, h')) →
  wp m Q (x, h).
Proof.
  intros Hm Hrun HQ. eapply (Hm l); [apply Hrun|]. intros r dv h' es Hs Hu Hb (-> & Hp).
  assert (x <| device := device x |> = x) as E by by destruct x. rewrite E in *.
  apply (HQ _ _ es); [|done|done]. eapply running_step; [exact Hrun|apply Hs|done|by exists es].
Qed.

Lemma wp_carries_out pl (m : M W bool) k l (Q : bool → W → Prop) x h :
  (∀ l, carries_out b o l d pl m) → running (cost pl + k) l x h →
  (∀ ok h' es, running k l x h' → bus_get h' = es ++ bus_get h → (ok = true → performs pl (accesses es)) →
     Q ok (x, h')) →
  wp m Q (x, h).
Proof. apply wp_carries. Qed.

(** An adapter goes on running when its address is set or it gets its name. *)
Lemma running_device k l x y h : running k l x h → m_USBFunction (device y) = m_USBFunction (device x) →
  m_pEndpointBulkIn (device y) = m_pEndpointBulkIn (device x) →
  m_pEndpointBulkOut (device y) = m_pEndpointBulkOut (device x) →
  m_pTxBuffer (device y) = m_pTxBuffer (device x) → tx (device y) = tx (device x) → running k l y h.
Proof.
  intros [S1 S2 S3 S4 S5] E1 E2 E3 E4 E5.
  split; rewrite ?E2, ?E3, ?E4, ?E5; try done. by eapply searching_device.
Qed.

(** How configuring may end: the adapter runs with the address it was given, has
    its name, and the plan was carried out last; or it has no name. *)
Definition net_outcome (GetMACAddress : option (list Z)) (plan : list Z → list reg_access → Prop)
    (pThis : Z) (k : nat)
    x h (ok : bool) x' h' : Prop :=
  if ok then ∃ a l' es, GetMACAddress = Some a ∧ running k l' x' h' ∧ enrolled eth pThis x x' ∧
    m_MACAddress (device x') = Some {| m_bValid := true; m_Address := map Some a |} ∧
    bus_get h' = es ++ bus_get h ∧ plan a (accesses es)
  else names x' = names x ∧ s_nDeviceNumber x' = s_nDeviceNumber x.

(** The words of an address are its bytes in the little-endian order. *)
Lemma mac_words a : length a = 6%nat → Forall is_u8 a →
  mac_low a = le_value (take 4 a) ∧ mac_high a = le_value (drop 4 a).
Proof.
  destruct a as [|a0 [|a1 [|a2 [|a3 [|a4 [|a5 [|]]]]]]]; try done. intros _ Ha.
  do 6 (apply Forall_cons_1 in Ha as [? Ha]). unfold is_u8 in *.
  unfold mac_low, mac_high, le_value. simpl.
  replace (Z.shiftl a3 24) with (Z.shiftl (Z.shiftl a3 8) 16) by (by rewrite Z.shiftl_shiftl by lia).
  rewrite <- Z.shiftl_lor, (lor_disjoint a2) by lia.
  replace (Z.shiftl (a2 + a3 * 2 ^ 8) 16) with (Z.shiftl (Z.shiftl (a2 + a3 * 2 ^ 8) 8) 8) by (by rewrite Z.shiftl_shiftl by lia).
  rewrite <- Z.shiftl_lor, (lor_disjoint a1), !lor_disjoint by lia. lia.
Qed.

Lemma mac_words_range a : length a = 6%nat → Forall is_u8 a → is_u32 (mac_low a) ∧ is_u16 (mac_high a).
Proof.
  intros Hl Ha. destruct (mac_words a Hl Ha) as [-> ->]. split.
  - apply (le_value_range _ 4); [by apply Forall_take|]. rewrite length_take. lia.
  - apply (le_value_range _ 2); [by apply Forall_drop|]. rewrite length_drop. lia.
Qed.
End Frames.

(** ** An adapter for the witnesses

    A configuration with an interface of three endpoints: bulk in, bulk out and
    interrupt in. *)
Module NetDemo.
Definition config : list Z :=
  [9; 2; 39; 0; 1; 1; 0; 0xE0; 1;
   9; 4; 0; 0; 3; 0xFF; 0; 0xFF; 0;
   7; 5; 0x81; 2; 0; 2; 0;
   7; 5; 0x02; 2; 0; 2; 0;
   7; 5; 0x83; 3; 16; 0; 4].
Abbreviation behind := [18%nat; 25%nat; 32%nat].

Definition function : TUSBFunction :=
  {| Configure := NoConfigure; fn_pDevice := 1;
     fn_pConfigParser := Some {| cp_pBuffer := Some config; cp_nBufLen := 39; ConfigParser.m_bValid := true;
       m_pEndPosition := 39; m_pNextPosition := 18; m_pCurrentDescriptor := Some 9%nat;
       m_pErrorPosition := 0 |};
     m_pInterfaceDesc := Some 9%nat |}.

Lemma chain_behind_net : chain config 39 4 false 18 behind.
Proof.
  eapply chain_step; [lia|reflexivity|vm_compute; lia|].
  eapply chain_step; [vm_compute; lia|reflexivity|vm_compute; lia|].
  eapply chain_step; [vm_compute; lia|reflexivity|vm_compute; lia|]. constructor.
Qed.

Lemma function_fine_net : function_ok config behind 9 function.
Proof.
  split; [done| |done|vm_compute; lia|].
  - repeat (apply Forall_cons; [unfold is_u8; lia|]). apply Forall_nil_2.
  - eexists. split; [reflexivity|]. split; [|vm_compute; lia].
    split; [done|]. split; [done|]. exists 4, false. exact chain_behind_net.
Qed.

Lemma sizes_net : packet_sizes config behind.
Proof.
  intros pos Hpos _. do 2 (apply elem_of_cons in Hpos as [->|Hpos]; [by right|]).
  apply list_elem_of_singleton in Hpos as ->. by left.
Qed.

Definition dev : TUSBDevice :=
  {| m_ucAddress := 5; m_Speed := USBSpeedHigh; m_pEndpoint0 := 16; m_bSplitTransfer := false;
     m_ucHubAddress := 0; m_ucHubPortNumber := 1 |}.
Definition ep (n : Z) (ty : TEndpointType) (dir : bool) (pid : TUSBPID) : TUSBEndpoint :=
  {| m_pDevice := 1; m_ucNumber := n; m_Type := ty; m_bDirectionIn := dir;
     m_nMaxPacketSize := 512; m_nInterval := 1; m_NextPID := pid |}.
Definition objects : Usb :=
  {| devices := {[ 1 := dev ]};
     endpoints := <[16 := ep 0 EndpointTypeControl true USBPIDSetup]> (<[17 := ep 1 EndpointTypeBulk true USBPIDData0]>
       {[ 18 := ep 2 EndpointTypeBulk false USBPIDData0 ]});
     urbs := ∅ |}.
Definition bus : Bus := {| bw_usb := objects; bw_events := [] |}.

Lemma net_ready `{Oracle} k : host_ready k bus.
Proof.
  split; [done|]. split; [done|]. intros p e Hp Ht. simpl in Hp.
  apply lookup_insert_Some in Hp as [[<- <-]|[_ Hp]]; [split; [done|]; split; [simpl; lia|done]|].
  apply lookup_insert_Some in Hp as [[<- <-]|[_ Hp]]; [split; [done|]; split; [simpl; lia|done]|].
  apply lookup_singleton_Some in Hp as [<- <-]. split; [done|]; split; [simpl; lia|done].
Qed.

(** An adapter as it is constructed ([i], [o]: no endpoints) and as it runs. *)
Definition adapter (i o : Z) : Input TNetDevice Empty_set :=
  {| device := {| m_USBFunction := function; m_pEndpointBulkIn := i; m_pEndpointBulkOut := o;
       m_MACAddress := None; m_pTxBuffer := 4096; tx := blank FRAME_BUFFER_SIZE |};
     s_nDeviceNumber := 0; names := {| m_pList := []; s_pThis := 8 |}; calls := [] |}.

Lemma net_searching `{Oracle} k i o : searching k config 9 behind dev (adapter i o) bus.
Proof.
  split; [apply net_ready|exact function_fine_net|done|].
  split; [done|]. eexists. split; [reflexivity|]. split; [done|]. split; [simpl; lia|by eexists].
Qed.

Lemma net_running `{Oracle} k : running config 9 dev k behind (adapter 17 18) bus.
Proof.
  split; [apply net_searching| | |done|reflexivity]; (split; [done|]; eexists; split; [reflexivity|];
    split; [done|]; split; [done|]; split; [simpl; lia|by eexists]).
Qed.

(** A device that takes everything and whose registers and packets are given. *)
Definition answering (register : Z → Z) (incoming : list Z) : Oracle := {| respond h op :=
  match op with
  | BulkOut _ l => (Z.of_nat (length l), [])
  | BulkIn _ n => if Z.of_nat (length incoming) <=? n then (Z.of_nat (length incoming), incoming) else (-1, [])
  | ControlOut _ _ _ _ _ l => (if decide (l = []) then 8 else Z.of_nat (length l), [])
  | ControlIn _ _ _ _ i n => if n =? 4 then (4, le_bytes 4 (register i)) else (-1, [])
  end |}.
(** It states the length of what it sends. *)
Lemma answering_framing register incoming hdr bad frame_length : 0 <= hdr →
  (bad (status_of incoming) = false → hdr <= Z.of_nat (length incoming) →
     frame_length (status_of incoming) = Z.of_nat (length incoming) - hdr ∧ 4 < Z.of_nat (length incoming) - hdr) →
  @Answers Bus (@Bus_host (answering register incoming)) (framing hdr bad frame_length).
Proof.
  intros H0 Hf op [u es]. unfold wlp. destruct op as [p l|p n|p t q v i l|p t q v i n]; simpl; try done.
  - destruct (Z.leb_spec (Z.of_nat (length incoming)) n); simpl; [intros; by apply Hf|lia].
  - by destruct (n =? 4).
Qed.
Lemma answering_laws register incoming : Forall is_u8 incoming → @OracleLaws (answering register incoming).
Proof.
  intros Hi h op Hl. unfold result_ok. destruct op as [p l|p n|p t q v i l|p t q v i n]; simpl in Hl |- *.
  - split_and!; try done. lia.
  - destruct (Z.leb_spec (Z.of_nat (length incoming)) n); simpl; split_and!; try done; lia.
  - split_and!; try done. right. destruct (decide (l = [])); lia.
  - destruct (Z.eqb_spec n 4) as [->|]; simpl; [|split_and!; try done; lia].
    split; [exact (le_bytes_u8 4 _)|]. split; [lia|]. by right.
Qed.
End NetDemo.
