(* ===== verification/Smsc951x.v ===== *)
(** * lib/smsc951x.c: the Ethernet chip of the older boards *)
From S2P Require Import Prelude CString Endpoint ConfigParser DeviceName.
From S2P Require Import UsbBus UsbFunction InputDriver EndpointPair NetAdapter.
Import Names Mac.

(** Registers *)
Definition ID_REV : Z := 0x00.
Definition INT_STS : Z := 0x08.
Definition RX_CFG : Z := 0x0C.
Definition TX_CFG : Z := 0x10.
Definition TX_CFG_ON : Z := 0x00000004.
Definition HW_CFG : Z := 0x14.
Definition RX_FIFO_INF : Z := 0x18.
Definition PM_CTRL : Z := 0x20.
Definition LED_GPIO_CFG : Z := 0x24.
Definition LED_GPIO_CFG_SPD_LED : Z := 0x01000000.
Definition LED_GPIO_CFG_LNK_LED : Z := 0x00100000.
Definition LED_GPIO_CFG_FDX_LED : Z := 0x00010000.
Definition GPIO_CFG : Z := 0x28.
Definition AFC_CFG : Z := 0x2C.
Definition BURST_CAP : Z := 0x38.
Definition INT_EP_CTL : Z := 0x68.
Definition BULK_IN_DLY : Z := 0x6C.
Definition MAC_CR : Z := 0x100.
Definition MAC_CR_RCVOWN : Z := 0x00800000.
Definition MAC_CR_TXEN : Z := 0x00000008.
Definition MAC_CR_RXEN : Z := 0x00000004.
Definition ADDRH : Z := 0x104.
Definition ADDRL : Z := 0x108.
Definition HASHH : Z := 0x10C.
Definition HASHL : Z := 0x110.
Definition MII_ADDR : Z := 0x114.
Definition MII_WRITE : Z := 0x02.
Definition PHY_ID_INTERNAL : Z := 0x01.
Definition MII_DATA : Z := 0x118.
Definition FLOW : Z := 0x11C.
Definition WUCSR : Z := 0x12C.

(** The words in front of a frame that is sent *)
Definition TX_CMD_A_DATA_OFFSET : Z := 0x001F0000.
Definition TX_CMD_A_FIRST_SEG : Z := 0x00002000.
Definition TX_CMD_A_LAST_SEG : Z := 0x00001000.
Definition TX_CMD_A_BUF_SIZE : Z := 0x000007FF.
Definition TX_CMD_B_PKT_BYTE_LENGTH : Z := 0x000007FF.

(** The word in front of a frame that came in *)
Definition RX_STS_FL : Z := 0x3FFF0000.
Definition RX_STS_FRAMELEN (reg : Z) : Z := Z.shiftr (Z.land reg RX_STS_FL) 16.
Definition RX_STS_ERROR : Z :=
  foldr Z.lor 0 [0x40000000; 0x00008000; 0x00001000; 0x00000080; 0x00000040; 0x00000010; 0x00000008; 0x00000004; 0x00000002].

Section Smsc.
Context {H : Type} `{!UsbHost H}.
Abbreviation W := (Input TNetDevice Empty_set * H)%type.

Definition SMSC951xDevice : TUSBFunction → Z → M W TNetDevice := net_new SMSC951xDeviceConfigure_.
Definition _SMSC951xDevice : M W unit := net_delete.

Definition SMSC951xDeviceWriteReg : Z → Z → M W bool := write_reg.
Definition SMSC951xDeviceReadReg : Z → M W (option Z) := read_reg.
Definition SMSC951xDevicePHYWaitNotBusy : M W bool := phy_wait MII_ADDR.

Definition SMSC951xDevicePHYWrite (uchIndex usValue : Z) : M W bool :=
  c_assert (uchIndex <=? 31) ;;
  phy_write MII_ADDR MII_DATA
    (Z.lor (Z.lor (Z.lor (Z.shiftl PHY_ID_INTERNAL 11) (Z.shiftl uchIndex 6)) MII_WRITE) MII_BUSY) usValue.
Definition SMSC951xDevicePHYRead (uchIndex : Z) : M W (option Z) :=
  c_assert (uchIndex <=? 31) ;;
  phy_read MII_ADDR MII_DATA (Z.lor (Z.lor (Z.shiftl PHY_ID_INTERNAL 11) (Z.shiftl uchIndex 6)) MII_BUSY).

Definition SMSC951xDeviceIsLinkUp : M W bool :=
  v ← SMSC951xDevicePHYRead 0x01;
  match v with None => mret false | Some v => mret (truthy (Z.land v (Z.shiftl 1 2))) end.

Definition SMSC951xDeviceSendFrame : Z → list Z → M W bool :=
  send_frame (λ n, FRAME_BUFFER_SIZE - 8 <=? n)
    (λ n, Z.lor (Z.lor TX_CMD_A_FIRST_SEG TX_CMD_A_LAST_SEG) n) (λ n, n).
Definition SMSC951xDeviceReceiveFrame : Z → buffer → Z → M W (bool * option Z * buffer) :=
  receive_frame 4 (λ status, truthy (Z.land status RX_STS_ERROR)) RX_STS_FRAMELEN.

Context (GetMACAddress : option (list Z)).

(** Behind the endpoints: the address, the lights, the two directions. *)
Definition smsc_start (pThis : Z) : M W bool :=
  m ← mac_of;
  a ← MACAddressCopyTo m (blank 6);
  a ← buffer_bytes a;
  ok ← all_true [SMSC951xDeviceWriteReg ADDRH (mac_high a); SMSC951xDeviceWriteReg ADDRL (mac_low a)];
  if negb ok then mret false
  else
    ok ← all_true
      [SMSC951xDeviceWriteReg LED_GPIO_CFG (Z.lor (Z.lor LED_GPIO_CFG_SPD_LED LED_GPIO_CFG_LNK_LED) LED_GPIO_CFG_FDX_LED);
       SMSC951xDeviceWriteReg MAC_CR (Z.lor (Z.lor MAC_CR_RCVOWN MAC_CR_TXEN) MAC_CR_RXEN);
       SMSC951xDeviceWriteReg TX_CFG TX_CFG_ON];
    if negb ok then mret false else net_publish pThis.

Definition SMSC951xDeviceConfigure (pThis : Z) : M W bool :=
  match GetMACAddress with
  | None => mret false
  | Some a => set_mac a ;; log_mac ;; find_endpoints (smsc_start pThis)
  end.

Definition SMSC951xDeviceGetMACAddress : M W (option TMACAddress) := dget m_MACAddress.

(** A register for the log: only its being read is modelled. *)
Definition SMSC951xDeviceDumpReg (nIndex : Z) : M W unit := SMSC951xDeviceReadReg nIndex ;; mret tt.
Definition SMSC951xDeviceDumpRegs : M W unit :=
  foldr (λ i m, SMSC951xDeviceDumpReg i ;; m) (mret tt)
    [ID_REV; INT_STS; RX_CFG; TX_CFG; HW_CFG; RX_FIFO_INF; PM_CTRL; LED_GPIO_CFG; GPIO_CFG; AFC_CFG; BURST_CAP;
     INT_EP_CTL; BULK_IN_DLY; MAC_CR; ADDRH; ADDRL; HASHH; HASHL; FLOW; WUCSR].
End Smsc.

(** ** What the chip reads in a packet

    A frame in one segment: first and last, no offset, its length in both words. *)
Definition smsc_frame_of (p : list Z) : option (list Z) :=
  let a := le_value (take 4 p) in
  let b := le_value (take 4 (drop 4 p)) in
  let n := Z.land a TX_CMD_A_BUF_SIZE in
  if truthy (Z.land a TX_CMD_A_FIRST_SEG) && truthy (Z.land a TX_CMD_A_LAST_SEG)
     && (Z.land a TX_CMD_A_DATA_OFFSET =? 0) && (Z.land b TX_CMD_B_PKT_BYTE_LENGTH =? n)
     && (n =? Z.of_nat (length (drop 8 p)))
  then Some (drop 8 p) else None.

Lemma smsc_packet frame : Z.of_nat (length frame) < 1592 →
  smsc_frame_of (packet (λ n, Z.lor (Z.lor TX_CMD_A_FIRST_SEG TX_CMD_A_LAST_SEG) n) (λ n, n) frame) = Some frame.
Proof.
  intros Hn. set (n := Z.of_nat (length frame)).
  assert (is_u32 (Z.lor (Z.lor TX_CMD_A_FIRST_SEG TX_CMD_A_LAST_SEG) n)) as Ha by (apply lor_u32; [done|unfold n; cint]).
  destruct (packet_words (λ n, Z.lor (Z.lor TX_CMD_A_FIRST_SEG TX_CMD_A_LAST_SEG) n) (λ n, n) frame) as (Ea & Eb & Ed);
    [exact Ha|fold n; unfold n; cint|]. fold n in Ea, Eb.
  unfold smsc_frame_of. rewrite Ea, Eb, Ed. clear Ea Eb Ed.
  assert (Z.land n TX_CMD_A_BUF_SIZE = n) as Enm.
  { change TX_CMD_A_BUF_SIZE with (Z.ones 11). rewrite Z.land_ones by lia. apply Z.mod_small. unfold n. lia. }
  assert (Z.land n TX_CMD_A_DATA_OFFSET = 0) as Eoff.
  { apply Z.bits_inj'. intros i Hi. rewrite Z.land_spec, Z.bits_0. change TX_CMD_A_DATA_OFFSET with (Z.shiftl (Z.ones 5) 16).
    rewrite Z.shiftl_spec by lia. destruct (Z.ltb_spec i 16); [by rewrite (Z.testbit_neg_r _ (i - 16)), andb_false_r by lia|].
    rewrite <- Enm. change TX_CMD_A_BUF_SIZE with (Z.ones 11). rewrite Z.land_spec, (Z.ones_spec_high 11) by lia.
    by rewrite andb_false_r. }
  rewrite !Z.land_lor_distr_l, Enm, Eoff.
  assert (∀ u v, truthy u = true → truthy (Z.lor u v) = true) as Ht.
  { intros u v. rewrite !truthy_spec, Z.lor_eq_0_iff. naive_solver. }
  rewrite (Ht _ (Z.land n TX_CMD_A_FIRST_SEG)), (Ht _ (Z.land n TX_CMD_A_LAST_SEG)) by done.
  change (Z.land n TX_CMD_B_PKT_BYTE_LENGTH) with (Z.land n TX_CMD_A_BUF_SIZE). rewrite Enm.
  change (Z.lor (Z.land TX_CMD_A_FIRST_SEG TX_CMD_A_BUF_SIZE) (Z.land TX_CMD_A_LAST_SEG TX_CMD_A_BUF_SIZE)) with 0.
  rewrite !Z.lor_0_l, Z.eqb_refl. unfold n. by rewrite Z.eqb_refl.
Qed.

(** ** Sending and receiving *)

Section Properties.
Context {H : Type} `{!UsbHost H} `{!UsbHostLaws H} `{!UsbHostRecovers H}.
Implicit Types (x : Input TNetDevice Empty_set) (h : H).
Abbreviation rx_error := (λ status, truthy (Z.land status RX_STS_ERROR)).

(** C25. An adapter that runs sends every frame of less than 1592 bytes in one
    transfer that the chip reads as this frame, and says whether the transfer was
    taken; a longer frame is refused without a request. A chip that states the
    length of what it sends is understood: the caller is given the bytes between
    the status word and the checksum, or nothing where there are none. *)
Theorem smsc_frames k b o d l pBuffer frame bf pResultLength x h :
  running b o d (S k) l x h → Answers H (framing 4 rx_error RX_STS_FRAMELEN) →
  pBuffer ≠ 0 → pResultLength ≠ 0 → (1600 <= length bf)%nat →
  wp (SMSC951xDeviceSendFrame pBuffer frame) (λ ok '(x', h'),
    if Z.of_nat (length frame) <? 1592 then
      running b o d k l x' h' ∧ ∃ p r,
        bus_get h' = BusDone (BulkOut (m_pEndpointBulkOut (device x)) p) r [] :: bus_get h ∧
        smsc_frame_of p = Some frame ∧ ok = (0 <=? r)
    else ok = false ∧ x' = x ∧ h' = h) (x, h) ∧
  wp (SMSC951xDeviceReceiveFrame pBuffer bf pResultLength) (λ '(ok, n, bf') '(x', h'),
    x' = x ∧ running b o d k l x h' ∧ length bf' = length bf ∧ drop 1600 bf' = drop 1600 bf ∧ ∃ r c,
      bus_get h' = BusDone (BulkIn (m_pEndpointBulkIn (device x)) 1600) r c :: bus_get h ∧
      match received 4 rx_error r c with
      | Some f => ok = true ∧ n = Some (Z.of_nat (length f)) ∧ begins bf' f
      | None => ok = false ∧ n = None
      end) (x, h).
Proof.
  intros Hrun Hans Hp Hpl Hbf. split.
  - eapply wp_send_frame; [exact Hrun|exact Hp|..]; change (FRAME_BUFFER_SIZE - 8) with 1592.
    + intros Hlt%Z.leb_gt. unfold FRAME_BUFFER_SIZE. lia.
    + intros Hge%Z.leb_le. rewrite (proj2 (Z.ltb_ge _ _)) by lia. done.
    + intros Hlt%Z.leb_gt r x' h' Hrun' _ Hb. rewrite (proj2 (Z.ltb_lt _ _)) by lia. split; [done|].
      eexists _, r. split; [exact Hb|]. split; [by apply smsc_packet|]. by rewrite Z.leb_antisym.
  - eapply (wp_receive_frame _ _ _ k l); [exact Hans|exact Hrun|exact Hp|exact Hpl|unfold FRAME_BUFFER_SIZE; lia|exact Hbf|].
    intros r c h' bf' f Hrun' Hb -> Hl Hd Hf. split_and!; [done|done|done|exact Hd|]. exists r, c. split; [exact Hb|].
    destruct (received 4 rx_error r c) as [f|]; [|done]. split_and!; [done|done|by apply Hf].
Qed.

(** ** Configuring *)

Definition smsc_plan (a : list Z) : list reg_step :=
  [Writes ADDRH (eq (le_value (drop 4 a))); Writes ADDRL (eq (le_value (take 4 a)));
   Writes LED_GPIO_CFG (eq 0x01110000); Writes MAC_CR (eq 0x0080000C); Writes TX_CFG (eq 4)].

Lemma does_mac b o l d a : length a = 6%nat → Forall is_u8 a →
  carries_out (H := H) b o l d [Writes ADDRH (eq (le_value (drop 4 a))); Writes ADDRL (eq (le_value (take 4 a)))]
    (all_true [SMSC951xDeviceWriteReg ADDRH (mac_high a); SMSC951xDeviceWriteReg ADDRL (mac_low a)]).
Proof.
  intros Hl Ha. destruct (mac_words_range a Hl Ha) as [Hlo Hhi]. destruct (mac_words a Hl Ha) as [El Eh].
  rewrite El in *. rewrite Eh in *. eapply (does_all _ _ _ _ [[_]; [_]]).
  constructor; [apply does_write; [unfold is_u16 in Hhi; cint|done]|].
  constructor; [by apply does_write|constructor].
Qed.

Lemma does_start b o l d :
  carries_out (H := H) b o l d [Writes LED_GPIO_CFG (eq 0x01110000); Writes MAC_CR (eq 0x0080000C); Writes TX_CFG (eq 4)]
    (all_true
      [SMSC951xDeviceWriteReg LED_GPIO_CFG (Z.lor (Z.lor LED_GPIO_CFG_SPD_LED LED_GPIO_CFG_LNK_LED) LED_GPIO_CFG_FDX_LED);
       SMSC951xDeviceWriteReg MAC_CR (Z.lor (Z.lor MAC_CR_RCVOWN MAC_CR_TXEN) MAC_CR_RXEN);
       SMSC951xDeviceWriteReg TX_CFG TX_CFG_ON]).
Proof.
  eapply (does_all _ _ _ _ [[_]; [_]; [_]]). repeat (constructor; [by apply does_write|]). constructor.
Qed.

Lemma wp_smsc_start b o d k l a pThis (Q : bool → Input TNetDevice Empty_set * H → Prop) x h :
  running b o d (5 + k) l x h → length a = 6%nat → Forall is_u8 a → pThis ≠ 0 → s_pThis (names x) ≠ 0 →
  m_MACAddress (device x) = Some {| m_bValid := true; m_Address := map Some a |} →
  (∀ h', Q false (x, h')) →
  (∀ x' h' es, running b o d k l x h' → enrolled eth pThis x x' → device x' = device x →
     bus_get h' = es ++ bus_get h → performs (smsc_plan a) (accesses es) → Q true (x', h')) →
  wp (smsc_start pThis) Q (x, h).
Proof.
  intros Hrun Hl Ha Hp Hn Hmac Hno HQ. unfold smsc_start, mac_of. wp_step. wp_step. apply wp_dget. rewrite Hmac.
  wp_step. wp_step. unfold MACAddressCopyTo. wp_step. apply wp_assert; [done|]. simpl. wp_step. wp_step.
  rewrite app_nil_r. apply wp_buffer_bytes.
  wp_step. eapply (wp_carries_out b o d _ _ (3 + k)); [intros; by apply does_mac|exact Hrun|].
  intros ok h1 es1 Hrun1 Hb1 Hp1. destruct ok; cbn [negb]; [|wp_step; by apply Hno].
  wp_step. eapply (wp_carries_out b o d _ _ k); [intros; by apply does_start|exact Hrun1|].
  intros ok h2 es2 Hrun2 Hb2 Hp2. destruct ok; cbn [negb]; [|wp_step; by apply Hno].
  apply wp_net_publish; [done|done|]. intros x' He Hd _. apply (HQ x' h2 (es2 ++ es1)); [done|done|done| |].
  - by rewrite Hb2, Hb1, app_assoc.
  - rewrite accesses_app. apply (performs_app [_; _] [_; _; _]); auto.
Qed.

(** Configuring ends without a fault, whatever the device is and answers. If it
    succeeds, the adapter has a bulk endpoint in each direction and the address
    that the environment gave; this address, the lights and the two directions
    were the registers written, in this order; and the adapter is entered as
    "eth" with its number. Otherwise nothing is entered. *)
Theorem smsc_configure GetMACAddress pThis b o d k l x h :
  searching (6 + k) b o l d x h → packet_sizes b l →
  (∀ a, GetMACAddress = Some a → length a = 6%nat ∧ Forall is_u8 a) →
  m_pEndpointBulkIn (device x) = 0 → m_pEndpointBulkOut (device x) = 0 →
  m_pTxBuffer (device x) ≠ 0 → length (tx (device x)) = 1600%nat → pThis ≠ 0 → s_pThis (names x) ≠ 0 →
  wp (SMSC951xDeviceConfigure GetMACAddress pThis) (λ ok '(x', h'),
    net_outcome b o d GetMACAddress (λ a, performs (smsc_plan a)) pThis k x h ok x' h') (x, h).
Proof.
  intros Hs Hps Hmac Hi Ho Ht0 Ht Hp Hn. unfold SMSC951xDeviceConfigure.
  destruct GetMACAddress as [a|]; [|by wp_step]. destruct (Hmac a eq_refl) as [Hl Ha].
  wp_step. apply wp_set_mac; [done|]. set (x1 := x <| device := _ |>).
  wp_step. apply (wp_log_mac a); [done|].
  eapply (wp_find_endpoints b o d (5 + k) l); [by apply (searching_device _ _ _ _ _ x)|exact Hps|done..| |].
  - intros x' h' (f & i & o' & _ & ->). by split.
  - intros l' x' h' es Hsame Hrun Hb Hes.
    assert (names x' = names x ∧ s_nDeviceNumber x' = s_nDeviceNumber x ∧
      m_MACAddress (device x') = Some {| m_bValid := true; m_Address := map Some a |}) as (N1 & N2 & N3)
      by (by destruct Hsame as (f & i & o' & _ & ->)).
    eapply (wp_smsc_start b o d k l' a); [exact Hrun|done|done|done|by rewrite N1|done|by intros h2|].
    intros x2 h2 es2 Hrun2 He Hd Hb2 Hp2. exists a, l', (es2 ++ es). split; [done|].
    split; [by apply (running_device _ _ _ _ _ x'); [|rewrite Hd..]|].
    split; [unfold enrolled in *; by rewrite N1, N2 in He|]. split; [by rewrite Hd|].
    split; [by rewrite Hb2, Hb, app_assoc|]. by rewrite accesses_app, Hes.
Qed.

(** ** The link *)

(** Asking for the link ends, however the chip behaves, after at most 2000
    accesses to its registers. It is up if the PHY's status register was read, in
    the order that the interface to the PHY requires, and has its third bit set. *)
Theorem smsc_link b o d k l x h :
  running b o d (2 * pred nTries + 2 + k) l x h →
  wp SMSC951xDeviceIsLinkUp (λ up '(x', h'), x' = x ∧ running b o d k l x h' ∧ ∃ es,
    bus_get h' = es ++ bus_get h ∧ (up = true → ∃ u, Z.testbit u 2 = true ∧
      performs [Awaits MII_ADDR 1 0; Writes MII_ADDR (eq 0x841); Awaits MII_ADDR 1 0; Reads MII_DATA (eq u)]
        (accesses es))) (x, h).
Proof.
  intros Hrun. unfold SMSC951xDeviceIsLinkUp, SMSC951xDevicePHYRead. wp_step. wp_step. wp_step.
  eapply (wp_carries b o d); [intros; by apply carries_phy_read|exact Hrun|].
  intros r h' es Hrun' Hb Hp. cbn beta in Hp.
  destruct r as [v|]; wp_step; (split; [done|]; split; [done|]; exists es; split; [done|]; intros Hup); [|done].
  destruct (Hp v eq_refl) as (u & -> & Hp'). exists u. split; [|exact Hp'].
  rewrite truthy_bit, Z.land_spec in Hup by lia. by apply andb_true_iff in Hup as [Hup _].
Qed.
End Properties.

Module SmscDemo.
Import NetDemo.
(** The link is up; a packet with a frame of three bytes and its checksum. *)
Definition incoming : list Z := [0; 0; 7; 0; 1; 2; 3; 9; 9; 9; 9].
#[export] Instance chip : Oracle := answering (λ i, if i =? MII_DATA then 0x780D else 0) incoming.
#[export] Instance chip_laws : OracleLaws.
Proof. apply answering_laws. repeat (apply Forall_cons; [unfold is_u8; lia|]). apply Forall_nil_2. Qed.
#[export] Instance chip_framing : Answers Bus (framing 4 (λ status, truthy (Z.land status RX_STS_ERROR)) RX_STS_FRAMELEN).
Proof. apply answering_framing; [lia|]. intros _ _. vm_compute. done. Qed.

Lemma smsc_frames_witness :
  wp (SMSC951xDeviceSendFrame 4096 [1; 2; 3]) (λ ok '(x', h'), ok = true ∧ ∃ p r,
    bus_get h' = [BusDone (BulkOut 18 p) r []] ∧ smsc_frame_of p = Some [1; 2; 3]) (adapter 17 18, bus) ∧
  wp (SMSC951xDeviceReceiveFrame 4096 (blank 1600) 64) (λ '(ok, n, bf) '(x', h'),
    (ok = true ∧ n = Some 3 ∧ take 3 bf = map Some [1; 2; 3]) ∧ x' = adapter 17 18) (adapter 17 18, bus).
Proof.
  destruct (smsc_frames 0 config 9 dev behind 4096 [1; 2; 3] (blank 1600) 64 (adapter 17 18) bus
    (net_running 1) chip_framing) as [Hs Hr]; [done|done|vm_compute; lia|]. split.
  - eapply wp_mono; [apply wp_and; [|exact Hs]|].
    + instantiate (1 := λ ok _, ok = true). vm_compute. reflexivity.
    + intros ok [x' h'] [-> (_ & p & r & Hb & Hf & _)]. split; [done|]. by exists p, r.
  - eapply wp_mono; [apply wp_and; [|exact Hr]|].
    + instantiate (1 := λ '(ok, n, bf) _, ok = true ∧ n = Some 3 ∧ take 3 bf = map Some [1; 2; 3]).
      vm_compute. repeat split; reflexivity.
    + intros [[ok n] bf] [x' h'] [H1 (H2 & _)]. by split.
Defined.

Definition mac : list Z := [0xB8; 0x27; 0xEB; 0; 0x1F; 0xA5].
Lemma smsc_configure_witness :
  wp (SMSC951xDeviceConfigure (Some mac) 64) (λ ok '(x', h'),
    (ok = true ∧ accesses (bus_get h') = [RegWrite ADDRH 0xA51F; RegWrite ADDRL 0x00EB27B8; RegWrite LED_GPIO_CFG 0x01110000;
       RegWrite MAC_CR 0x0080000C; RegWrite TX_CFG 4]) ∧
    net_outcome config 9 dev (Some mac) (λ a, performs (smsc_plan a)) 64 0 (adapter 0 0) bus ok x' h') (adapter 0 0, bus).
Proof.
  eapply wp_mono; [apply wp_and; [|apply (smsc_configure (Some mac) 64 config 9 dev 0 behind (adapter 0 0) bus
    (net_searching 6 0 0) sizes_net)]|].
  - instantiate (1 := λ ok w, ok = true ∧ accesses (bus_get (snd w)) = [RegWrite ADDRH 0xA51F; RegWrite ADDRL 0x00EB27B8;
      RegWrite LED_GPIO_CFG 0x01110000; RegWrite MAC_CR 0x0080000C; RegWrite TX_CFG 4]).
    vm_compute. split; reflexivity.
  - intros a [= <-]. split; [done|]. repeat (apply Forall_cons; [unfold is_u8; lia|]). apply Forall_nil_2.
  - done.
  - done.
  - done.
  - done.
  - done.
  - done.
  - intros ok [x' h'] [H1 H2]. by split.
Defined.

Lemma smsc_link_witness :
  wp SMSC951xDeviceIsLinkUp (λ up '(x', h'), up = true ∧ x' = adapter 17 18) (adapter 17 18, bus).
Proof.
  eapply wp_mono; [apply wp_and; [|apply (smsc_link config 9 dev 0 behind (adapter 17 18) bus (net_running _))]|].
  - instantiate (1 := λ up _, up = true). vm_compute. reflexivity.
  - intros up [x' h'] [H1 (H2 & _)]. by split.
Defined.

(** A chip that states another length than it sends fails the driver's assertion. *)
Example dishonest_length :
  SMSC951xDeviceReceiveFrame (UsbHost0 := @Bus_host (answering (λ _, 0) [0; 0; 8; 0; 1; 2; 3; 9; 9; 9; 9]))
    4096 (blank 1600) 64 (adapter 17 18, bus) = Err AssertFailed.
Proof. vm_compute. reflexivity. Qed.
End SmscDemo.
