(* ===== verification/Lan7800.v ===== *)
(** * lib/lan7800.c: the Ethernet chip of the newer boards *)
From S2P Require Import Prelude CString Endpoint ConfigParser DeviceName.
From S2P Require Import UsbBus UsbFunction InputDriver EndpointPair NetAdapter.
Import Names Mac.

Definition HS_USB_PKT_SIZE : Z := 512.
Definition MAX_RX_FIFO_SIZE : Z := 12 * 1024.
Definition MAX_TX_FIFO_SIZE : Z := 12 * 1024.
Definition DEFAULT_BURST_CAP_SIZE : Z := MAX_TX_FIFO_SIZE.
Definition DEFAULT_BULK_IN_DELAY : Z := 0x800.
Definition RX_HEADER_SIZE : Z := 4 + 4 + 2.
Definition TX_HEADER_SIZE : Z := 4 + 4.
Definition MAX_RX_FRAME_SIZE : Z := 2 * 6 + 2 + 1500 + 4.

(** Registers *)
Definition ID_REV : Z := 0x000.
Definition ID_REV_CHIP_ID_MASK : Z := 0xFFFF0000.
Definition ID_REV_CHIP_ID_7800 : Z := 0x7800.
Definition INT_STS : Z := 0x00C.
Definition INT_STS_CLEAR_ALL : Z := 0xFFFFFFFF.
Definition HW_CFG : Z := 0x010.
Definition HW_CFG_LED1_EN : Z := 0x00200000.
Definition HW_CFG_LED0_EN : Z := 0x00100000.
Definition HW_CFG_MEF : Z := 0x00000010.
Definition HW_CFG_LRST : Z := 0x00000002.
Definition PMT_CTL : Z := 0x014.
Definition PMT_CTL_READY : Z := 0x00000080.
Definition PMT_CTL_PHY_RST : Z := 0x00000010.
Definition USB_CFG0 : Z := 0x080.
Definition USB_CFG_BIR : Z := 0x00000040.
Definition USB_CFG_BCE : Z := 0x00000020.
Definition BURST_CAP : Z := 0x090.
Definition BULK_IN_DLY : Z := 0x094.
Definition INT_EP_CTL : Z := 0x098.
Definition RFE_CTL : Z := 0x0B0.
Definition RFE_CTL_BCAST_EN : Z := 0x00000400.
Definition RFE_CTL_DA_PERFECT : Z := 0x00000002.
Definition FCT_RX_CTL : Z := 0x0C0.
Definition FCT_RX_CTL_EN : Z := 0x80000000.
Definition FCT_TX_CTL : Z := 0x0C4.
Definition FCT_TX_CTL_EN : Z := 0x80000000.
Definition FCT_RX_FIFO_END : Z := 0x0C8.
Definition FCT_TX_FIFO_END : Z := 0x0CC.
Definition FCT_FLOW : Z := 0x0D0.
Definition MAC_CR : Z := 0x100.
Definition MAC_CR_AUTO_DUPLEX : Z := 0x00001000.
Definition MAC_CR_AUTO_SPEED : Z := 0x00000800.
Definition MAC_RX : Z := 0x104.
Definition MAC_RX_MAX_SIZE_SHIFT : Z := 16.
Definition MAC_RX_MAX_SIZE_MASK : Z := 0x3FFF0000.
Definition MAC_RX_RXEN : Z := 0x00000001.
Definition MAC_TX : Z := 0x108.
Definition MAC_TX_TXEN : Z := 0x00000001.
Definition FLOW : Z := 0x10C.
Definition RX_ADDRH : Z := 0x118.
Definition RX_ADDRL : Z := 0x11C.
Definition MII_ACC : Z := 0x120.
Definition MII_ACC_PHY_ADDR_SHIFT : Z := 11.
Definition MII_ACC_PHY_ADDR_MASK : Z := 0x0000F800.
Definition PHY_ADDRESS : Z := 1.
Definition MII_ACC_MIIRINDA_SHIFT : Z := 6.
Definition MII_ACC_MIIRINDA_MASK : Z := 0x000007C0.
Definition MII_ACC_MII_READ : Z := 0x00000000.
Definition MII_ACC_MII_WRITE : Z := 0x00000002.
Definition MII_DATA : Z := 0x124.
Definition MAF_BASE : Z := 0x400.
Definition MAF_HI (index : Z) : Z := MAF_BASE + 8 * index + 0x00.
Definition MAF_LO (index : Z) : Z := MAF_BASE + 8 * index + 0x04.
Definition MAF_HI_VALID : Z := 0x80000000.

Definition TX_CMD_A_FCS : Z := 0x00400000.
Definition TX_CMD_A_LEN_MASK : Z := 0x000FFFFF.
Definition RX_CMD_A_RED : Z := 0x00400000.
Definition RX_CMD_A_LEN_MASK : Z := 0x00003FFF.

Section Lan.
Context {H : Type} `{!UsbHost H}.
Abbreviation W := (Input TNetDevice Empty_set * H)%type.

Definition LAN7800Device : TUSBFunction → Z → M W TNetDevice := net_new LAN7800DeviceConfigure_.
Definition _LAN7800Device : M W unit := net_delete.

Definition LAN7800DeviceWriteReg : Z → Z → M W bool := write_reg.
Definition LAN7800DeviceReadReg : Z → M W (option Z) := read_reg.
Definition LAN7800DeviceReadWriteReg (nIndex nOrMask nAndMask : Z) : M W bool :=
  v ← LAN7800DeviceReadReg nIndex;
  match v with
  | None => mret false
  | Some v => LAN7800DeviceWriteReg nIndex (Z.lor (Z.land v nAndMask) nOrMask)
  end.
Definition LAN7800DeviceWaitReg : Z → Z → Z → M W bool := wait_reg (pred nTries).

(** The command for a register of the PHY. *)
Definition mii_access (uchIndex direction : Z) : Z :=
  Z.lor (Z.lor (Z.land (Z.shiftl PHY_ADDRESS MII_ACC_PHY_ADDR_SHIFT) MII_ACC_PHY_ADDR_MASK)
               (Z.land (Z.shiftl uchIndex MII_ACC_MIIRINDA_SHIFT) MII_ACC_MIIRINDA_MASK))
        (Z.lor direction MII_BUSY).
Definition LAN7800DevicePHYWrite (uchIndex usValue : Z) : M W bool :=
  c_assert (uchIndex <=? 30) ;;
  phy_write MII_ACC MII_DATA (mii_access uchIndex MII_ACC_MII_WRITE) usValue.
Definition LAN7800DevicePHYRead (uchIndex : Z) : M W (option Z) :=
  c_assert (uchIndex <=? 30) ;;
  phy_read MII_ACC MII_DATA (mii_access uchIndex MII_ACC_MII_READ).

Definition LAN7800DeviceIsLinkUp : M W bool :=
  v ← LAN7800DevicePHYRead 0x01;
  match v with None => mret false | Some v => mret (truthy (Z.land v (Z.shiftl 1 2))) end.

(** Which link speeds the lights show. *)
Definition LAN7800DeviceInitPHY : M W bool :=
  v ← LAN7800DevicePHYRead 0x1D;
  match v with
  | None => mret false
  | Some usLEDModeSel =>
      let usLEDModeSel := u16 (Z.land usLEDModeSel (Z.lnot 0xFF)) in
      let usLEDModeSel := u16 (Z.lor usLEDModeSel (Z.shiftl 1 0)) in
      let usLEDModeSel := u16 (Z.lor usLEDModeSel (Z.shiftl 6 4)) in
      LAN7800DevicePHYWrite 0x1D usLEDModeSel
  end.

Definition LAN7800DeviceSendFrame : Z → list Z → M W bool :=
  send_frame (λ n, FRAME_BUFFER_SIZE - TX_HEADER_SIZE <? n)
    (λ n, Z.lor (Z.land n TX_CMD_A_LEN_MASK) TX_CMD_A_FCS) (λ _, 0).
Definition LAN7800DeviceReceiveFrame : Z → buffer → Z → M W (bool * option Z * buffer) :=
  receive_frame RX_HEADER_SIZE (λ status, truthy (Z.land status RX_CMD_A_RED)) (λ status, Z.land status RX_CMD_A_LEN_MASK).

Context (GetMACAddress : option (list Z)).

Definition LAN7800DeviceInitMACAddress : M W bool :=
  match GetMACAddress with
  | None => mret false
  | Some a =>
      set_mac a ;;
      ok ← all_true
        [LAN7800DeviceWriteReg RX_ADDRL (mac_low a); LAN7800DeviceWriteReg RX_ADDRH (mac_high a);
         LAN7800DeviceWriteReg (MAF_LO 0) (mac_low a);
         LAN7800DeviceWriteReg (MAF_HI 0) (Z.lor (mac_high a) MAF_HI_VALID)];
      if negb ok then mret false else log_mac ;; mret true
  end.

(** The chip of the driver. *)
Definition check_chip : M W bool :=
  v ← LAN7800DeviceReadReg ID_REV;
  match v with
  | None => mret false
  | Some v => mret (Z.shiftr (Z.land v ID_REV_CHIP_ID_MASK) 16 =? ID_REV_CHIP_ID_7800)
  end.

(** Before and after the address is set. *)
Definition lan_reset : list (M W bool) :=
  [check_chip;
   LAN7800DeviceReadWriteReg HW_CFG HW_CFG_LRST (not32 0);
   LAN7800DeviceWaitReg HW_CFG HW_CFG_LRST 0].
Definition lan_init : list (M W bool) :=
  [LAN7800DeviceWriteReg BURST_CAP (DEFAULT_BURST_CAP_SIZE / HS_USB_PKT_SIZE);
   LAN7800DeviceWriteReg BULK_IN_DLY DEFAULT_BULK_IN_DELAY;
   LAN7800DeviceReadWriteReg HW_CFG (Z.lor HW_CFG_LED0_EN HW_CFG_LED1_EN) (not32 HW_CFG_MEF);
   LAN7800DeviceReadWriteReg USB_CFG0 USB_CFG_BCE (not32 USB_CFG_BIR);
   LAN7800DeviceWriteReg FCT_RX_FIFO_END ((MAX_RX_FIFO_SIZE - 512) / 512);
   LAN7800DeviceWriteReg FCT_TX_FIFO_END ((MAX_TX_FIFO_SIZE - 512) / 512);
   LAN7800DeviceWriteReg INT_EP_CTL 0;
   LAN7800DeviceWriteReg INT_STS INT_STS_CLEAR_ALL;
   LAN7800DeviceWriteReg FLOW 0;
   LAN7800DeviceWriteReg FCT_FLOW 0;
   LAN7800DeviceReadWriteReg RFE_CTL (Z.lor RFE_CTL_BCAST_EN RFE_CTL_DA_PERFECT) (not32 0);
   LAN7800DeviceReadWriteReg PMT_CTL PMT_CTL_PHY_RST (not32 0);
   LAN7800DeviceWaitReg PMT_CTL (Z.lor PMT_CTL_PHY_RST PMT_CTL_READY) PMT_CTL_READY;
   LAN7800DeviceReadWriteReg MAC_CR (Z.lor MAC_CR_AUTO_DUPLEX MAC_CR_AUTO_SPEED) (not32 0);
   LAN7800DeviceReadWriteReg MAC_TX MAC_TX_TXEN (not32 0);
   LAN7800DeviceReadWriteReg FCT_TX_CTL FCT_TX_CTL_EN (not32 0);
   LAN7800DeviceReadWriteReg MAC_RX (Z.lor (Z.shiftl MAX_RX_FRAME_SIZE MAC_RX_MAX_SIZE_SHIFT) MAC_RX_RXEN)
     (not32 MAC_RX_MAX_SIZE_MASK);
   LAN7800DeviceReadWriteReg FCT_RX_CTL FCT_RX_CTL_EN (not32 0)].

Definition lan_start (pThis : Z) : M W bool :=
  ok ← all_true lan_reset;
  if negb ok then mret false
  else
    ok ← LAN7800DeviceInitMACAddress;
    if negb ok then mret false
    else
      ok ← all_true lan_init;
      if negb ok then mret false
      else
        ok ← LAN7800DeviceInitPHY;
        if negb ok then mret false else net_publish pThis.

Definition LAN7800DeviceConfigure (pThis : Z) : M W bool := find_endpoints (lan_start pThis).

Definition LAN7800DeviceGetMACAddress : M W (option TMACAddress) := dget m_MACAddress.
End Lan.

(** ** What the chip reads in a packet

    A frame with its length, for which the chip computes the checksum. *)
Definition lan_frame_of (p : list Z) : option (list Z) :=
  let a := le_value (take 4 p) in
  if truthy (Z.land a TX_CMD_A_FCS) && (Z.land a TX_CMD_A_LEN_MASK =? Z.of_nat (length (drop 8 p)))
     && (le_value (take 4 (drop 4 p)) =? 0)
  then Some (drop 8 p) else None.

Lemma lan_packet frame : Z.of_nat (length frame) <= 1592 →
  lan_frame_of (packet (λ n, Z.lor (Z.land n TX_CMD_A_LEN_MASK) TX_CMD_A_FCS) (λ _, 0) frame) = Some frame.
Proof.
  intros Hn. set (n := Z.of_nat (length frame)).
  assert (Z.land n TX_CMD_A_LEN_MASK = n) as Enm.
  { change TX_CMD_A_LEN_MASK with (Z.ones 20). rewrite Z.land_ones by lia. apply Z.mod_small. unfold n. lia. }
  assert (is_u32 (Z.lor (Z.land n TX_CMD_A_LEN_MASK) TX_CMD_A_FCS)) as Ha by (rewrite Enm; apply lor_u32; [unfold n; cint|done]).
  destruct (packet_words (λ n, Z.lor (Z.land n TX_CMD_A_LEN_MASK) TX_CMD_A_FCS) (λ _, 0) frame) as (Ea & Eb & Ed);
    [exact Ha|done|]. fold n in Ea, Eb.
  unfold lan_frame_of. rewrite Ea, Eb, Ed. clear Ea Eb Ed. rewrite Enm, !Z.land_lor_distr_l, Enm.
  change (Z.land TX_CMD_A_FCS TX_CMD_A_LEN_MASK) with 0. rewrite Z.lor_0_r. unfold n. rewrite Z.eqb_refl.
  replace (truthy _) with true; [done|]. symmetry. apply truthy_spec. rewrite Z.lor_eq_0_iff. by intros [_ ?].
Qed.

Section Properties.
Context {H : Type} `{!UsbHost H} `{!UsbHostLaws H} `{!UsbHostRecovers H}.
Implicit Types (x : Input TNetDevice Empty_set) (h : H).
Abbreviation rx_error := (λ status, truthy (Z.land status RX_CMD_A_RED)).
Abbreviation rx_length := (λ status, Z.land status RX_CMD_A_LEN_MASK).

(** An adapter that runs sends every frame of at most 1592 bytes in one
    transfer that the chip reads as this frame, and says whether the transfer was
    taken; a longer frame is refused without a request. A chip that states the
    length of what it sends is understood: the caller is given the bytes between
    the ten of the header and the checksum, or nothing where there are none. *)
Theorem lan_frames k b o d l pBuffer frame bf pResultLength x h :
  running b o d (S k) l x h → Answers H (framing 10 rx_error rx_length) →
  pBuffer ≠ 0 → pResultLength ≠ 0 → (1600 <= length bf)%nat →
  wp (LAN7800DeviceSendFrame pBuffer frame) (λ ok '(x', h'),
    if Z.of_nat (length frame) <=? 1592 then
      running b o d k l x' h' ∧ ∃ p r,
        bus_get h' = BusDone (BulkOut (m_pEndpointBulkOut (device x)) p) r [] :: bus_get h ∧
        lan_frame_of p = Some frame ∧ ok = (0 <=? r)
    else ok = false ∧ x' = x ∧ h' = h) (x, h) ∧
  wp (LAN7800DeviceReceiveFrame pBuffer bf pResultLength) (λ '(ok, n, bf') '(x', h'),
    x' = x ∧ running b o d k l x h' ∧ length bf' = length bf ∧ drop 1600 bf' = drop 1600 bf ∧ ∃ r c,
      bus_get h' = BusDone (BulkIn (m_pEndpointBulkIn (device x)) 1600) r c :: bus_get h ∧
      match received 10 rx_error r c with
      | Some f => ok = true ∧ n = Some (Z.of_nat (length f)) ∧ begins bf' f
      | None => ok = false ∧ n = None
      end) (x, h).
Proof.
  intros Hrun Hans Hp Hpl Hbf. split.
  - eapply wp_send_frame; [exact Hrun|exact Hp|..]; change (FRAME_BUFFER_SIZE - TX_HEADER_SIZE) with 1592.
    + intros Hlt%Z.ltb_ge. unfold FRAME_BUFFER_SIZE. lia.
    + intros Hge%Z.ltb_lt. rewrite (proj2 (Z.leb_gt _ _)) by lia. done.
    + intros Hlt%Z.ltb_ge r x' h' Hrun' _ Hb. rewrite (proj2 (Z.leb_le _ _)) by lia. split; [done|].
      eexists _, r. split; [exact Hb|]. split; [by apply lan_packet|]. by rewrite Z.leb_antisym.
  - eapply (wp_receive_frame _ _ _ k l); [exact Hans|exact Hrun|exact Hp|exact Hpl|unfold FRAME_BUFFER_SIZE, RX_HEADER_SIZE; lia|exact Hbf|].
    intros r c h' bf' f Hrun' Hb -> Hl Hd Hf. split_and!; [done|done|done|exact Hd|]. exists r, c. split; [exact Hb|].
    change RX_HEADER_SIZE with 10 in *. destruct (received 10 rx_error r c) as [f|]; [|done].
    split_and!; [done|done|by apply Hf].
Qed.

(** ** Configuring *)

(** [u]: what the PHY's register for the lights was. *)
Definition lan_reset_plan : list reg_step :=
  [Reads ID_REV (λ v, field 16 16 v = 0x7800); Updates HW_CFG 2 0xFFFFFFFF; Awaits HW_CFG 2 0].
Definition lan_mac_plan (a : list Z) : list reg_step :=
  [Writes RX_ADDRL (eq (le_value (take 4 a))); Writes RX_ADDRH (eq (le_value (drop 4 a)));
   Writes 0x404 (eq (le_value (take 4 a))); Writes 0x400 (eq (le_value (drop 4 a) + 2 ^ 31))].
Definition lan_init_plan : list reg_step :=
  [Writes BURST_CAP (eq 24); Writes BULK_IN_DLY (eq 0x800);
   Updates HW_CFG 0x300000 0xFFFFFFEF; Updates USB_CFG0 0x20 0xFFFFFFBF;
   Writes FCT_RX_FIFO_END (eq 23); Writes FCT_TX_FIFO_END (eq 23);
   Writes INT_EP_CTL (eq 0); Writes INT_STS (eq 0xFFFFFFFF); Writes FLOW (eq 0); Writes FCT_FLOW (eq 0);
   Updates RFE_CTL 0x402 0xFFFFFFFF;
   Updates PMT_CTL 0x10 0xFFFFFFFF; Awaits PMT_CTL 0x90 0x80;
   Updates MAC_CR 0x1800 0xFFFFFFFF;
   Updates MAC_TX 1 0xFFFFFFFF; Updates FCT_TX_CTL 0x80000000 0xFFFFFFFF;
   Updates MAC_RX 0x5EE0001 0xC000FFFF; Updates FCT_RX_CTL 0x80000000 0xFFFFFFFF].
Definition lan_phy_plan (u : Z) : list reg_step :=
  [Awaits MII_ACC 1 0; Writes MII_ACC (eq 0xF41); Awaits MII_ACC 1 0; Reads MII_DATA (eq u);
   Awaits MII_ACC 1 0; Writes MII_DATA (eq (Z.lor (Z.land u 0xFF00) 0x61)); Writes MII_ACC (eq 0xF43);
   Awaits MII_ACC 1 0].
Definition lan_plan (a : list Z) (u : Z) : list reg_step :=
  lan_reset_plan ++ lan_mac_plan a ++ lan_init_plan ++ lan_phy_plan u.

Context (b : list Z) (o : nat) (d : TUSBDevice).

Lemma does_update l i om am : is_u32 om → 0 <= am → is_u16 i →
  carries_out (H := H) b o l d [Updates i om am] (LAN7800DeviceReadWriteReg i om am).
Proof.
  intros Ho Ha Hi. eapply carries_mono.
  - apply carries_bind; [apply carries_read|]. intros r (_ & _ & w & _ & v & _ & Hv & Hr).
    instantiate (2 := 1%nat). instantiate (1 := λ r ok d1 d2 w, d2 = d1 ∧ (ok = true → ∃ v, r = Some v ∧
      w = [RegWrite i (Z.lor (Z.land v am) om)])).
    destruct Hr as [-> | ->].
    + eapply carries_mono; [apply (carries_ret _ _ _ _ false (λ ok d1 d2 w, d2 = d1 ∧ ok = false)); done|lia|].
      intros ok d1 d2 w' (-> & ->). by split.
    + eapply carries_mono; [apply carries_write; apply lor_u32; [by apply land_u32|done]|lia|].
      intros ok d1 d2 w' (-> & ->). split; [done|]. intros _. exists v. by rewrite u16_id.
  - done.
  - intros ok d1 d2 w (r & d3 & w1 & w2 & (-> & v & -> & _ & Hr) & (-> & Hk) & ->). split; [done|].
    intros Hok. destruct (Hk Hok) as (v' & -> & ->). destruct Hr as [|[= ->]]; [done|].
    rewrite u16_id by done. simpl. constructor. constructor.
Qed.

Lemma does_check l :
  carries_out (H := H) b o l d [Reads ID_REV (λ v, field 16 16 v = 0x7800)] check_chip.
Proof.
  eapply carries_mono.
  - apply carries_bind; [apply carries_read|]. intros r _.
    instantiate (2 := 0%nat). instantiate (1 := λ r ok d1 d2 w, d2 = d1 ∧ w = [] ∧ (ok = true → ∃ v, r = Some v ∧
      field 16 16 v = 0x7800)).
    destruct r as [v|]; (apply carries_ret; intros dv; split; [done|]; split; [done|]); [|done].
    intros Hv%Z.eqb_eq. exists v. split; [done|]. rewrite field_mod by lia. by rewrite <- land_shiftr_field.
  - done.
  - intros ok d1 d2 w (r & d3 & w1 & w2 & (-> & v & -> & _ & Hr) & (-> & -> & Hk) & ->). split; [done|].
    intros Hok. destruct (Hk Hok) as (v' & -> & Hv'). destruct Hr as [|[= ->]]; [done|]. by repeat constructor.
Qed.

Lemma does_reset l : carries_out (H := H) b o l d lan_reset_plan (all_true lan_reset).
Proof.
  apply (does_all _ _ _ _ [[_]; [_]; [_]]).
  constructor; [apply does_check|]. constructor; [by apply does_update|]. constructor; [by apply does_wait|]. constructor.
Qed.

Lemma does_init l : carries_out (H := H) b o l d lan_init_plan (all_true lan_init).
Proof.
  apply (does_all _ _ _ _ (map (λ s, [s]) lan_init_plan)).
  repeat (constructor; [first [by apply does_write | by apply does_update | by apply does_wait]|]). constructor.
Qed.

Lemma wp_InitMACAddress a k l (Q : bool → Input TNetDevice Empty_set * H → Prop) x h :
  length a = 6%nat → Forall is_u8 a → running b o d (4 + k) l x h →
  (∀ ok h' es, let x' := x <| device := (device x) <| m_MACAddress := Some {| m_bValid := true; m_Address := map Some a |} |> |> in
     running b o d k l x' h' → bus_get h' = es ++ bus_get h →
     (ok = true → performs (lan_mac_plan a) (accesses es)) → Q ok (x', h')) →
  wp (LAN7800DeviceInitMACAddress (Some a)) Q (x, h).
Proof.
  intros Hl Ha Hrun HQ. unfold LAN7800DeviceInitMACAddress. wp_step. apply wp_set_mac; [done|].
  set (x1 := x <| device := _ |>). wp_step.
  destruct (mac_words_range a Hl Ha) as [Hlo Hhi]. destruct (mac_words a Hl Ha) as [El Eh].
  eapply (wp_carries_out b o d (lan_mac_plan a) _ k l); [|by apply (running_device _ _ _ _ _ x)|].
  { intros l'. rewrite El in *. rewrite Eh in *. apply (does_all _ _ _ _ [[_]; [_]; [_]; [_]]).
    constructor; [by apply does_write|]. constructor; [apply does_write; [unfold is_u16 in Hhi; cint|done]|].
    constructor; [by apply does_write|]. constructor; [|constructor].
    assert (Z.lor (le_value (drop 4 a)) MAF_HI_VALID = le_value (drop 4 a) + 2 ^ 31) as ->.
    { unfold is_u16 in Hhi. change MAF_HI_VALID with (Z.shiftl 1 31). rewrite lor_disjoint; lia. }
    apply does_write; [unfold is_u16 in Hhi; cint|done]. }
  intros ok h' es Hrun' Hb Hp. destruct ok; cbn [negb]; [|wp_step; by apply (HQ _ _ es)].
  wp_step. apply (wp_log_mac a); [done|]. wp_step. by apply (HQ _ _ es).
Qed.

(** The new value keeps the upper half of the register. *)
Lemma led_value u :
  u16 (Z.lor (u16 (Z.lor (u16 (Z.land (Z.land u 0xFFFF) (Z.lnot 0xFF))) (Z.shiftl 1 0))) (Z.shiftl 6 4)) =
  Z.lor (Z.land u 0xFF00) 0x61.
Proof.
  unfold u16. change 65536 with (2 ^ 16). rewrite <- !Z.land_ones by lia.
  change (Z.lor (Z.land u 0xFF00) 0x61) with
    (Z.lor (Z.land u (Z.land (Z.ones 16) (Z.lnot 0xFF)))
       (Z.lor (Z.land (Z.shiftl 1 0) (Z.ones 16)) (Z.land (Z.shiftl 6 4) (Z.ones 16)))).
  change 0xFFFF with (Z.ones 16).
  apply Z.bits_inj'. intros i Hi. rewrite !Z.lor_spec, !Z.land_spec, !Z.lor_spec, !Z.land_spec, !Z.lor_spec, !Z.land_spec. btauto.
Qed.

Lemma wp_InitPHY k l (Q : bool → Input TNetDevice Empty_set * H → Prop) x h :
  running b o d (cost (lan_phy_plan 0) + k) l x h →
  (∀ ok h' es, running b o d k l x h' → bus_get h' = es ++ bus_get h →
     (ok = true → ∃ u, performs (lan_phy_plan u) (accesses es)) → Q ok (x, h')) →
  wp LAN7800DeviceInitPHY Q (x, h).
Proof.
  intros Hrun HQ.
  assert (cost (lan_phy_plan 0) + k = (2 * pred nTries + 2) + (2 * pred nTries + 2 + k))%nat as Ec.
  { unfold cost. simpl. lia. }
  rewrite Ec in Hrun. unfold LAN7800DeviceInitPHY, LAN7800DevicePHYRead. wp_step. wp_step. wp_step.
  eapply (wp_carries b o d); [intros; by apply carries_phy_read|exact Hrun|].
  intros r h1 es1 Hrun1 Hb1 Hp1. cbn beta in Hp1.
  destruct r as [v|]; [|wp_step; apply (HQ _ _ es1); [|done|done]].
  2: { eapply running_step; [exact Hrun1| |apply same_but_pid_refl|by exists []].
       eapply host_ready_mono; [|apply Hrun1]. lia. }
  destruct (Hp1 v eq_refl) as (u & -> & Hp). cbv zeta. rewrite led_value. unfold LAN7800DevicePHYWrite. wp_step. wp_step.
  assert (is_u32 (Z.lor (Z.land u 0xFF00) 0x61)) as Hu.
  { apply lor_u32; [|done]. change 0xFF00 with (Z.land (Z.ones 16) 0xFF00). rewrite Z.land_assoc, Z.land_ones by lia.
    apply land_u32; [cint|done]. }
  eapply (wp_carries_out b o d _ _ k); [intros l'; by apply does_phy_write| |].
  { replace (cost _ + k)%nat with (2 * pred nTries + 2 + k)%nat by (unfold cost; simpl; lia). exact Hrun1. }
  intros ok h2 es2 Hrun2 Hb2 Hp2. apply (HQ _ _ (es2 ++ es1)); [done|by rewrite Hb2, Hb1, app_assoc|].
  intros Hok. exists u. rewrite accesses_app. apply (performs_app [_; _; _; _] [_; _; _; _]); [exact Hp|by apply Hp2].
Qed.

Lemma wp_lan_start a pThis k l (Q : bool → Input TNetDevice Empty_set * H → Prop) x h :
  length a = 6%nat → Forall is_u8 a → pThis ≠ 0 → s_pThis (names x) ≠ 0 →
  running b o d (cost (lan_plan a 0) + k) l x h →
  (∀ x' h', names x' = names x → s_nDeviceNumber x' = s_nDeviceNumber x → Q false (x', h')) →
  (∀ x' h' es u, running b o d k l x' h' → enrolled eth pThis x x' →
     m_MACAddress (device x') = Some {| m_bValid := true; m_Address := map Some a |} →
     bus_get h' = es ++ bus_get h → performs (lan_plan a u) (accesses es) → Q true (x', h')) →
  wp (lan_start (Some a) pThis) Q (x, h).
Proof.
  intros Hl Ha Hp Hn Hrun Hno HQ. unfold lan_plan in Hrun. rewrite !cost_app in Hrun.
  change (cost (lan_mac_plan a)) with 4%nat in Hrun. rewrite <- !Nat.add_assoc in Hrun.
  unfold lan_start. wp_step. eapply (wp_carries_out b o d); [intros; apply does_reset|exact Hrun|].
  intros ok h1 es1 Hrun1 Hb1 Hp1. destruct ok; cbn [negb]; [|wp_step; by apply Hno].
  wp_step. eapply (wp_InitMACAddress a); [done|done|exact Hrun1|]. cbv zeta.
  intros ok h2 es2 Hrun2 Hb2 Hp2. set (x2 := x <| device := _ |>) in *.
  destruct ok; cbn [negb]; [|wp_step; by apply Hno].
  wp_step. eapply (wp_carries_out b o d); [intros; apply does_init|exact Hrun2|].
  intros ok h3 es3 Hrun3 Hb3 Hp3. destruct ok; cbn [negb]; [|wp_step; by apply Hno].
  wp_step. eapply wp_InitPHY; [exact Hrun3|].
  intros ok h4 es4 Hrun4 Hb4 Hp4. destruct ok; cbn [negb]; [|wp_step; by apply Hno].
  destruct (Hp4 eq_refl) as [u Hu].
  apply wp_net_publish; [done|done|]. intros x' He Hd _. apply (HQ x' h4 (es4 ++ es3 ++ es2 ++ es1) u).
  - by apply (running_device _ _ _ _ _ x2); [|rewrite Hd..].
  - exact He.
  - by rewrite Hd.
  - by rewrite Hb4, Hb3, Hb2, Hb1, !app_assoc.
  - rewrite !accesses_app, <- !app_assoc. unfold lan_plan. repeat apply performs_app; auto.
Qed.

(** C26. Configuring ends without a fault, whatever the device is and answers: no
    register is polled more than 999 times. If it succeeds, the chip said that it
    is a LAN7800; it was reset, given the address of the environment, set up,
    its PHY reset, its two directions enabled and its lights set, in this order,
    and where a register is changed in part the rest of it keeps its value; the
    adapter has a bulk endpoint in each direction and is entered as "eth" with
    its number. Otherwise nothing is entered. *)
Theorem lan_configure GetMACAddress pThis k l x h :
  searching (1 + (cost (lan_plan [] 0) + k)) b o l d x h → packet_sizes b l →
  (∀ a, GetMACAddress = Some a → length a = 6%nat ∧ Forall is_u8 a) →
  m_pEndpointBulkIn (device x) = 0 → m_pEndpointBulkOut (device x) = 0 →
  m_pTxBuffer (device x) ≠ 0 → length (tx (device x)) = 1600%nat → pThis ≠ 0 → s_pThis (names x) ≠ 0 →
  wp (LAN7800DeviceConfigure GetMACAddress pThis) (λ ok '(x', h'),
    net_outcome b o d GetMACAddress (λ a w, ∃ u, performs (lan_plan a u) w) pThis k x h ok x' h') (x, h).
Proof.
  intros Hs Hps Hmac Hi Ho Ht0 Ht Hp Hn. unfold LAN7800DeviceConfigure.
  eapply (wp_find_endpoints b o d _ l); [exact Hs|exact Hps|done..| |].
  { intros x' h' (f & i & o' & _ & ->). by split. }
  intros l' x' h' es Hsame Hrun Hb Hes.
  assert (names x' = names x ∧ s_nDeviceNumber x' = s_nDeviceNumber x) as (N1 & N2)
    by (by destruct Hsame as (f & i & o' & _ & ->)).
  destruct GetMACAddress as [a|].
  - destruct (Hmac a eq_refl) as [Hl Ha].
    eapply (wp_lan_start a pThis k l'); [done|done|done|by rewrite N1|exact Hrun| |].
    + intros x2 h2 E1 E2. split; congruence.
    + intros x2 h2 es2 u Hrun2 He Hm2 Hb2 Hp2. exists a, l', (es2 ++ es). split; [done|]. split; [done|].
      split; [unfold enrolled in *; by rewrite N1, N2 in He|]. split; [done|].
      split; [by rewrite Hb2, Hb, app_assoc|]. rewrite accesses_app, Hes. by exists u.
  - unfold lan_start. wp_step.
    unfold lan_plan in Hrun. rewrite cost_app, <- Nat.add_assoc in Hrun.
    eapply (wp_carries_out b o d); [intros; apply does_reset|exact Hrun|].
    intros ok h1 es1 _ _ _. destruct ok; cbn [negb]; [wp_step|]; unfold LAN7800DeviceInitMACAddress; wp_step; by split.
Qed.
End Properties.

Module LanDemo.
Import NetDemo.
Definition incoming : list Z := [7; 0; 0; 0; 0; 0; 0; 0; 0; 0; 1; 2; 3; 9; 9; 9; 9].
Definition registers (i : Z) : Z :=
  if i =? ID_REV then 0x78000002 else if i =? PMT_CTL then 0x80 else if i =? MII_DATA then 0xABCD else 0.
#[export] Instance chip : Oracle := answering registers incoming.
#[export] Instance chip_laws : OracleLaws.
Proof. apply answering_laws. repeat (apply Forall_cons; [unfold is_u8; lia|]). apply Forall_nil_2. Qed.
#[export] Instance chip_framing :
  Answers Bus (framing 10 (λ status, truthy (Z.land status RX_CMD_A_RED)) (λ status, Z.land status RX_CMD_A_LEN_MASK)).
Proof. apply answering_framing; [lia|]. intros _ _. vm_compute. done. Qed.

Lemma lan_frames_witness :
  wp (LAN7800DeviceSendFrame 4096 [1; 2; 3]) (λ ok '(x', h'), ok = true ∧ ∃ p r,
    bus_get h' = [BusDone (BulkOut 18 p) r []] ∧ lan_frame_of p = Some [1; 2; 3]) (adapter 17 18, bus) ∧
  wp (LAN7800DeviceReceiveFrame 4096 (blank 1600) 64) (λ '(ok, n, bf) '(x', h'),
    (ok = true ∧ n = Some 3 ∧ take 3 bf = map Some [1; 2; 3]) ∧ x' = adapter 17 18) (adapter 17 18, bus).
Proof.
  destruct (lan_frames 0 config 9 dev behind 4096 [1; 2; 3] (blank 1600) 64 (adapter 17 18) bus
    (net_running 1) chip_framing) as [Hs Hr]; [done|done|vm_compute; lia|]. split.
  - eapply wp_mono; [apply wp_and; [|exact Hs]|].
    + instantiate (1 := λ ok _, ok = true). vm_compute. reflexivity.
    + intros ok [x' h'] [-> (_ & p & r & Hb & Hf & _)]. split; [done|]. by exists p, r.
  - eapply wp_mono; [apply wp_and; [|exact Hr]|].
    + instantiate (1 := λ '(ok, n, bf) _, ok = true ∧ n = Some 3 ∧ take 3 bf = map Some [1; 2; 3]).
      vm_compute. repeat split; reflexivity.
    + intros [[ok n] bf] [x' h'] [H1 (H2 & _)]. by split.
Defined.

Definition mac : list Z := [0xB8; 0x27; 0xEB; 0; 0x1F; 0xA5].
Lemma lan_configure_witness :
  wp (LAN7800DeviceConfigure (Some mac) 64) (λ ok '(x', h'),
    (ok = true ∧ RegWrite MII_DATA 0xAB61 ∈ accesses (bus_get h') ∧ RegWrite 0x400 0x8000A51F ∈ accesses (bus_get h')) ∧
    net_outcome config 9 dev (Some mac) (λ a w, ∃ u, performs (lan_plan a u) w) 64 0 (adapter 0 0) bus ok x' h')
    (adapter 0 0, bus).
Proof.
  eapply wp_mono; [apply wp_and; [|apply (lan_configure config 9 dev (Some mac) 64 0 behind (adapter 0 0) bus
    (net_searching _ 0 0) sizes_net)]|].
  - instantiate (1 := λ ok w, (ok && bool_decide (RegWrite MII_DATA 0xAB61 ∈ accesses (bus_get (snd w)))
      && bool_decide (RegWrite 0x400 0x8000A51F ∈ accesses (bus_get (snd w)))) = true). vm_compute. reflexivity.
  - intros a [= <-]. split; [done|]. repeat (apply Forall_cons; [unfold is_u8; lia|]). apply Forall_nil_2.
  - done.
  - done.
  - done.
  - done.
  - done.
  - done.
  - intros ok [x' h'] [H1 H2]. apply andb_true_iff in H1 as [[H1 H3]%andb_true_iff H4].
    apply bool_decide_eq_true_1 in H3, H4. by split.
Defined.
End LanDemo.
