(* ===== verification/Library.v ===== *)
(** * lib/uspilibrary.c: the interface of the library

    The calls that the kernel makes. They find a driver's object through the
    library object, which the initialisation fills from the name service. The
    state here is the enumeration's, next to the objects of all the drivers
    under their pointers; a call of a driver works on the part that the driver
    is modelled on. The controller driver's constructor, its initialisation,
    which enumerates the devices, and its destructor are arguments. *)
From S2P Require Import Prelude CString Endpoint ConfigParser DeviceName UsbBus UsbFunction UsbString UsbDevice.
From S2P Require Import MassDevice InputDriver UsbKeyboard UsbMouse UsbMidi GamepadReport UsbGamepad.
From S2P Require Import NetAdapter Smsc951x Lan7800.
Import Names Mac.

Definition MAX_DEVICES : Z := 4.

(** The host controller's object is the host; the service is in [registry]. *)
Record TUSPiLibrary := {
  pUKBD1 : Z;
  pUMouse1 : Z;
  pUMSD : list Z;
  pEth0 : Z;
  pEth10 : Z;
  pUPAD : list Z;
  pMIDI1 : Z
}.
#[global] Instance TUSPiLibrary_eta : Eta TUSPiLibrary := λ r,
  {| pUKBD1 := pUKBD1 r; pUMouse1 := pUMouse1 r; pUMSD := pUMSD r; pEth0 := pEth0 r; pEth10 := pEth10 r;
     pUPAD := pUPAD r; pMIDI1 := pMIDI1 r |}.

(** A driver's objects, its static number and the calls of its handlers. *)
Record Drivers (D E : Type) := { objects : gmap Z D; number : Z; events : list E }.
Arguments objects {D E} _.
Arguments number {D E} _.
Arguments events {D E} _.

Record Lib := {
  s_pLibrary : option TUSPiLibrary;
  registry : TDeviceNameService;
  keyboards : Drivers TUSBKeyboardDevice keyboard_call;
  mice : Drivers TUSBMouseDevice mouse_call;
  disks : Drivers TUSBBulkOnlyMassStorageDevice Empty_set;
  smscs : Drivers TNetDevice Empty_set;
  lans : Drivers TNetDevice Empty_set;
  pads : Drivers TUSBGamePadDevice gamepad_call;
  midis : Drivers TUSBMIDIDevice midi_call
}.
#[global] Instance Lib_eta : Eta Lib := λ r,
  {| s_pLibrary := s_pLibrary r; registry := registry r; keyboards := keyboards r; mice := mice r;
     disks := disks r; smscs := smscs r; lans := lans r; pads := pads r; midis := midis r |}.

Section Library.
Context {H : Type} `{!UsbHost H} `{!AsyncHost H}.
Abbreviation W := ((Enum * Lib) * H)%type.

Definition lib_get {A} (f : Lib → A) : M W A := gets (λ w, f (snd (fst w))).
Definition lib_set (f : Lib → Lib) : M W unit := modify (λ w, ((fst (fst w), f (snd (fst w))), snd w)).
Definition on_registry {A} (m : M TDeviceNameService A) : M W A :=
  zoom (λ w, Some (registry (snd (fst w))))
       (λ n w, ((fst (fst w), (snd (fst w)) <| registry := n |>), snd w)) m.

(** A driver's code on one of its objects. *)
Definition on_driver {D E A} (get : Lib → Drivers D E) (set : Drivers D E → Lib → Lib) (p : Z)
    (m : M (Input D E * H) A) : M W A :=
  zoom (λ w, let l := snd (fst w) in
          d ← objects (get l) !! p;
          Some ({| device := d; InputDriver.s_nDeviceNumber := number (get l); InputDriver.names := registry l;
                   calls := events (get l) |}, snd w))
       (λ '(x, h) w, let l := snd (fst w) in
          ((fst (fst w), set {| objects := <[p := device x]> (objects (get l));
                                number := InputDriver.s_nDeviceNumber x; events := calls x |} l
                           <| registry := InputDriver.names x |>), h)) m.
Definition on_keyboard {A} : Z → M (Input TUSBKeyboardDevice keyboard_call * H) A → M W A :=
  on_driver keyboards (λ d l, l <| keyboards := d |>).
Definition on_mouse {A} : Z → M (Input TUSBMouseDevice mouse_call * H) A → M W A :=
  on_driver mice (λ d l, l <| mice := d |>).
Definition on_smsc {A} : Z → M (Input TNetDevice Empty_set * H) A → M W A :=
  on_driver smscs (λ d l, l <| smscs := d |>).
Definition on_lan {A} : Z → M (Input TNetDevice Empty_set * H) A → M W A :=
  on_driver lans (λ d l, l <| lans := d |>).
Definition on_gamepad {A} : Z → M (Input TUSBGamePadDevice gamepad_call * H) A → M W A :=
  on_driver pads (λ d l, l <| pads := d |>).
Definition on_midi {A} : Z → M (Input TUSBMIDIDevice midi_call * H) A → M W A :=
  on_driver midis (λ d l, l <| midis := d |>).
Definition on_disk {A} (p : Z) (m : M (Mass * H) A) : M W A :=
  zoom (λ w, let l := snd (fst w) in
          d ← objects (disks l) !! p;
          Some ({| mass := d; MassDevice.s_nDeviceNumber := number (disks l); MassDevice.names := registry l |}, snd w))
       (λ '(x, h) w, let l := snd (fst w) in
          ((fst (fst w), l <| disks := {| objects := <[p := mass x]> (objects (disks l));
                                          number := MassDevice.s_nDeviceNumber x; events := events (disks l) |} |>
                           <| registry := MassDevice.names x |>), h)) m.

(** The library object, which an assertion asks for, and its members. *)
Definition library : M W TUSPiLibrary :=
  l ← lib_get s_pLibrary;
  match l with Some l => mret l | None => fail AssertFailed end.
Definition member (f : TUSPiLibrary → Z) : M W Z :=
  l ← library; c_assert (negb (f l =? 0)) ;; mret (f l).

(** ** Initialisation *)

Definition ukbd1 : list Z := [117; 107; 98; 100; 49].
Definition umouse1 : list Z := [117; 109; 111; 117; 115; 101; 49].
Definition umidi1 : list Z := [117; 109; 105; 100; 105; 49].
Definition eth0 : list Z := [101; 116; 104; 48].
Definition eth10 : list Z := [101; 116; 104; 49; 48].
Definition umsd : list Z := [117; 109; 115; 100].

Definition lookup_device (name : list Z) (block : bool) : M W Z :=
  on_registry DeviceNameServiceGet ;; on_registry (DeviceNameServiceGetDevice name block).

(** [StringFormat] of the prefix and "%u", and the lookup, [n] times from [i]. *)
Fixpoint lookup_devices (prefix : list Z) (block : bool) (n : nat) (i : Z) : M W (list Z) :=
  match n with
  | O => mret []
  | S n =>
      p ← lookup_device (prefix ++ numeral false 10 (i + 1)) block;
      l ← lookup_devices prefix block n (i + 1);
      mret (p :: l)
  end.

(** The controller driver's constructor, initialisation and destructor are
    arguments. [pLibrary]: what [malloc] returns, and [garbage] what it finds there. *)
Definition USPiInitialize (DWHCIDevice : M W unit) (DWHCIDeviceInitialize : M W bool) (_DWHCIDevice : M W unit)
    (pLibrary : Z) (garbage : TUSPiLibrary) : M W Z :=
  l ← lib_get s_pLibrary;
  c_assert (negb (bool_decide (is_Some l))) ;;
  c_assert (negb (pLibrary =? 0)) ;;
  lib_set (λ w, w <| s_pLibrary := Some garbage |>) ;;
  on_registry (DeviceNameService pLibrary) ;;
  DWHCIDevice ;;
  lib_set (λ w, w <| s_pLibrary := Some (garbage <| pEth0 := 0 |> <| pEth10 := 0 |>) |>) ;;
  ok ← DWHCIDeviceInitialize;
  if negb ok then
    _DWHCIDevice ;;
    on_registry _DeviceNameService ;;
    lib_set (λ w, w <| s_pLibrary := None |>) ;;
    mret 0
  else
    k ← lookup_device ukbd1 false;
    m ← lookup_device umouse1 false;
    i ← lookup_device umidi1 false;
    d ← lookup_devices umsd true (Z.to_nat MAX_DEVICES) 0;
    e0 ← lookup_device eth0 false;
    e10 ← lookup_device eth10 false;
    g ← lookup_devices upad false (Z.to_nat MAX_DEVICES) 0;
    lib_set (λ w, w <| s_pLibrary := Some {| pUKBD1 := k; pUMouse1 := m; pUMSD := d; pEth0 := e0; pEth10 := e10;
                                             pUPAD := g; pMIDI1 := i |} |>) ;;
    mret 1.

(** ** Keyboard and mouse *)

Definition available (f : TUSPiLibrary → Z) : M W Z :=
  l ← library; mret (if f l =? 0 then 0 else 1).
Definition USPiKeyboardAvailable : M W Z := available pUKBD1.
Definition USPiKeyboardRegisterKeyPressedHandler (pHandler : Z) : M W unit :=
  p ← member pUKBD1; on_keyboard p (USBKeyboardDeviceRegisterKeyPressedHandler pHandler).
Definition USPiKeyboardRegisterShutdownHandler (pHandler : Z) : M W unit :=
  p ← member pUKBD1; on_keyboard p (USBKeyboardDeviceRegisterShutdownHandler pHandler).
Definition USPiKeyboardUpdateLEDs : M W unit :=
  p ← member pUKBD1; on_keyboard p USBKeyboardDeviceUpdateLEDs.
Definition USPiKeyboardRegisterKeyStatusHandlerRaw (pHandler : Z) : M W unit :=
  p ← member pUKBD1; on_keyboard p (USBKeyboardDeviceRegisterKeyStatusHandlerRaw pHandler).
Definition USPiKeyboardSetLEDs (ucLEDMask : Z) : M W unit :=
  p ← member pUKBD1; on_keyboard p (USBKeyboardDeviceSetLEDs ucLEDMask).
Definition USPiMouseAvailable : M W Z := available pUMouse1.
Definition USPiMouseRegisterStatusHandler (pHandler : Z) : M W unit :=
  p ← member pUMouse1; on_mouse p (USBMouseDeviceRegisterStatusHandler pHandler).

(** ** Disks *)

(** The number of devices before the first that is missing. *)
Fixpoint leading_devices (l : list Z) : Z :=
  match l with [] => 0 | p :: l => if p =? 0 then 0 else 1 + leading_devices l end.
Definition USPiMassStorageDeviceAvailable : M W Z := l ← library; mret (leading_devices (pUMSD l)).

(** [nDeviceIndex >= MAX_DEVICES || pUMSD[nDeviceIndex] == 0]: no device. *)
Definition indexed (f : TUSPiLibrary → list Z) (nDeviceIndex : Z) : M W (option Z) :=
  l ← library;
  if MAX_DEVICES <=? nDeviceIndex then mret None
  else
    match f l !! Z.to_nat nDeviceIndex with
    | None => fail MemFault
    | Some p => mret (if p =? 0 then None else Some p)
    end.

Definition USPiMassStorageDeviceRead (ullOffset : Z) (pBuffer : buffer) (nDeviceIndex : Z) : M W (Z * buffer) :=
  p ← indexed pUMSD nDeviceIndex;
  match p with
  | None => mret (-1, pBuffer)
  | Some p =>
      r ← on_disk p (USBBulkOnlyMassStorageDeviceSeek ullOffset);
      if negb (r =? ullOffset) then mret (-1, pBuffer)
      else on_disk p (USBBulkOnlyMassStorageDeviceRead pBuffer)
  end.
Definition USPiMassStorageDeviceWrite (ullOffset : Z) (pBuffer : buffer) (nDeviceIndex : Z) : M W Z :=
  p ← indexed pUMSD nDeviceIndex;
  match p with
  | None => mret (-1)
  | Some p =>
      r ← on_disk p (USBBulkOnlyMassStorageDeviceSeek ullOffset);
      if negb (r =? ullOffset) then mret (-1)
      else on_disk p (USBBulkOnlyMassStorageDeviceWrite pBuffer)
  end.
Definition USPiMassStorageDeviceGetCapacity (nDeviceIndex : Z) : M W Z :=
  p ← indexed pUMSD nDeviceIndex;
  match p with None => mret 0 | Some p => on_disk p USBBulkOnlyMassStorageDeviceGetCapacity end.

(** ** Network *)

Definition USPiEthernetAvailable : M W Z :=
  l ← library; mret (if negb (pEth0 l =? 0) || negb (pEth10 l =? 0) then 1 else 0).

(** The newer chip if there is one. *)
Definition on_ethernet {A} (lan smsc : M (Input TNetDevice Empty_set * H) A) : M W A :=
  l ← library;
  if negb (pEth10 l =? 0) then on_lan (pEth10 l) lan
  else c_assert (negb (pEth0 l =? 0)) ;; on_smsc (pEth0 l) smsc.
Definition int_of (m : M W bool) : M W Z := b ← m; mret (if b : bool then 1 else 0).

Definition USPiGetMACAddress (pBuffer : Z) (Buffer : buffer) : M W buffer :=
  a ← on_ethernet LAN7800DeviceGetMACAddress SMSC951xDeviceGetMACAddress;
  c_assert (negb (pBuffer =? 0)) ;;
  match a with None => fail UndefBehaviour | Some a => MACAddressCopyTo a Buffer end.
Definition USPiEthernetIsLinkUp : M W Z := int_of (on_ethernet LAN7800DeviceIsLinkUp SMSC951xDeviceIsLinkUp).
Definition USPiSendFrame (pBuffer : Z) (frame : list Z) : M W Z :=
  int_of (on_ethernet (LAN7800DeviceSendFrame pBuffer frame) (SMSC951xDeviceSendFrame pBuffer frame)).
Definition USPiReceiveFrame (pBuffer : Z) (b : buffer) (pResultLength : Z) : M W (Z * option Z * buffer) :=
  '(ok, n, b) ← on_ethernet (LAN7800DeviceReceiveFrame pBuffer b pResultLength)
                            (SMSC951xDeviceReceiveFrame pBuffer b pResultLength);
  mret (if ok : bool then 1 else 0, n, b).

(** ** Gamepads and MIDI *)

Definition USPiGamePadAvailable : M W Z := l ← library; mret (leading_devices (pUPAD l)).
Fixpoint register_loop (l : list Z) (pHandler : Z) : M W unit :=
  match l with
  | [] => mret tt
  | p :: l =>
      (if negb (p =? 0) then on_gamepad p (USBGamePadDeviceRegisterStatusHandler pHandler) else mret tt) ;;
      register_loop l pHandler
  end.
Definition USPiGamePadRegisterStatusHandler (pHandler : Z) : M W unit :=
  l ← library; register_loop (pUPAD l) pHandler.
Definition USPiGamePadGetStatus (nDeviceIndex : Z) : M W (option USPiGamePadState) :=
  p ← indexed pUPAD nDeviceIndex;
  match p with
  | None => mret None
  | Some p => on_gamepad p (USBGamePadDeviceGetReport ;; s ← dget m_State; mret (Some s))
  end.
Definition USPiMIDIAvailable : M W Z := available pMIDI1.
Definition USPiMIDIRegisterPacketHandler (pHandler : Z) : M W unit :=
  p ← member pMIDI1; on_midi p (USBMIDIDeviceRegisterPacketHandler pHandler).

(** ** Information *)

Definition KEYBOARD_CLASS : Z := 1.
Definition MOUSE_CLASS : Z := 2.
Definition STORAGE_CLASS : Z := 3.
Definition ETHERNET_CLASS : Z := 4.
Definition GAMEPAD_CLASS : Z := 5.
Definition MIDI_CLASS : Z := 6.

Record TUSPiDeviceInformation := {
  idVendor : Z;
  idProduct : Z;
  bcdDevice : Z;
  pManufacturer : list Z;
  pProduct : list Z
}.
Definition off_bcdDevice : nat := 12.

(** [(TUSBFunction * ) p] of a driver's object; [None] for a null pointer. *)
Definition driver_function {D E} `{!InputObject D} (get : Lib → Drivers D E) (p : Z) : M W (option TUSBFunction) :=
  if p =? 0 then mret None
  else l ← lib_get get; d ← deref (objects l !! p); mret (Some (io_function d)).
Definition disk_function (p : Z) : M W (option TUSBFunction) :=
  if p =? 0 then mret None
  else l ← lib_get disks; d ← deref (objects l !! p); mret (Some (MassDevice.m_USBFunction d)).
Definition nth_device (l : list Z) (i : Z) : M W Z :=
  if i <? MAX_DEVICES then (match l !! Z.to_nat i with Some p => mret p | None => fail MemFault end) else mret 0.

Definition function_of_class (nClass nDeviceIndex : Z) : M W (option TUSBFunction) :=
  l ← library;
  let first (p : Z) := if nDeviceIndex =? 0 then p else 0 in
  if nClass =? KEYBOARD_CLASS then driver_function keyboards (first (pUKBD1 l))
  else if nClass =? MOUSE_CLASS then driver_function mice (first (pUMouse1 l))
  else if nClass =? STORAGE_CLASS then p ← nth_device (pUMSD l) nDeviceIndex; disk_function p
  else if nClass =? ETHERNET_CLASS then
    if negb (pEth10 l =? 0) then driver_function lans (first (pEth10 l)) else driver_function smscs (first (pEth0 l))
  else if nClass =? GAMEPAD_CLASS then p ← nth_device (pUPAD l) nDeviceIndex; driver_function pads p
  else if nClass =? MIDI_CLASS then driver_function midis (first (pMIDI1 l))
  else mret None.

(** [None]: it returned 0 and the caller's buffer was not written. *)
Definition USPiDeviceGetInformation (nClass nDeviceIndex pInfo : Z) : M W (option TUSPiDeviceInformation) :=
  f ← function_of_class nClass nDeviceIndex;
  match f with
  | None => mret None
  | Some f =>
      p ← USBFunctionGetDevice f;
      c_assert (negb (p =? 0)) ;;
      desc ← USBDeviceGetDeviceDescriptor p;
      c_assert (negb (pInfo =? 0)) ;;
      v ← le16_at desc off_idVendor;
      q ← le16_at desc off_idProduct;
      b ← le16_at desc off_bcdDevice;
      d ← data_at p;
      mret (Some {| idVendor := v; idProduct := q; bcdDevice := b;
                    pManufacturer := USBStringGet (m_ManufacturerString d);
                    pProduct := USBStringGet (m_ProductString d) |})
  end.
End Library.
