(* ===== verification/LibraryProofs.v ===== *)
(** * The interface of the library does what it says

    What the initialisation leaves, reading and writing a disk by its index,
    sending through whichever adapter there is. *)
From S2P Require Import Prelude CMem Util CString Endpoint ConfigParser DeviceName UsbBus UsbFunction UsbString UsbDevice.
From S2P Require Import MassDevice MassConfig MassScenario InputDriver EndpointPair UsbKeyboard UsbMouse UsbMidi GamepadReport UsbGamepad.
From S2P Require Import NetAdapter Smsc951x Lan7800 Library.
Import Names Mac.

Section Proofs.
Context {H : Type} `{!UsbHost H} `{!UsbHostLaws H} `{!UsbHostRecovers H} `{!AsyncHost H}.
Implicit Types (e : Enum) (l : Lib) (h : H).
Abbreviation W := ((Enum * Lib) * H)%type.

(** ** Steps *)

Lemma wp_library L e l h (Q : TUSPiLibrary → W → Prop) :
  s_pLibrary l = Some L → Q L ((e, l), h) → wp library Q ((e, l), h).
Proof. intros Hl HQ. unfold library, lib_get. wp_step. wp_step. simpl. rewrite Hl. by wp_step. Qed.

(** What a name stands for; 0 if nothing. *)
Definition registered (n : TDeviceNameService) (name : list Z) (block : bool) : Z :=
  default 0 (names_map (m_pList n) !! (name, block)).

Lemma wp_lookup_device name block e l h (Q : Z → W → Prop) :
  names_ok (registry l) → s_pThis (registry l) ≠ 0 → Forall char_ok name →
  Q (registered (registry l) name block) ((e, l), h) → wp (lookup_device name block) Q ((e, l), h).
Proof.
  intros Hn Hs Hc HQ. unfold lookup_device, on_registry.
  assert (l <| registry := registry l |> = l) as E by by destruct l.
  wp_step. eapply wp_zoom; [done|]. unfold DeviceNameServiceGet. wp_step. wp_step. wp_step.
  apply wp_assert; [by apply negb_true_iff, Z.eqb_neq|]. wp_step. cbn [fst snd]. rewrite E.
  eapply wp_zoom; [done|]. unfold DeviceNameServiceGetDevice. wp_step. wp_step. cbn [fst snd].
  apply find_device_map; [done|done|]. by rewrite E.
Qed.

Lemma wp_lookup_devices prefix block n i e l h (Q : list Z → W → Prop) :
  names_ok (registry l) → s_pThis (registry l) ≠ 0 → Forall char_ok prefix → 0 <= i → i + Z.of_nat n < 1000 →
  Q (map (λ k, registered (registry l) (prefix ++ numeral false 10 (i + 1 + Z.of_nat k)) block) (seq 0 n)) ((e, l), h) →
  wp (lookup_devices prefix block n i) Q ((e, l), h).
Proof.
  intros Hn Hs Hc. revert i Q. induction n as [|n IH]; intros i Q Hi Hb HQ; cbn [lookup_devices]; [by wp_step|].
  wp_step. apply wp_lookup_device; [done|done|apply Forall_app_2; [done|apply numeral_chars; cint]|].
  wp_step. apply IH; [lia|lia|]. wp_step. cbn [seq map] in HQ. rewrite Z.add_0_r in HQ.
  rewrite <- seq_shift, map_map in HQ.
  replace (map _ (seq 0 n)) with
    (map (λ k, registered (registry l) (prefix ++ numeral false 10 (i + 1 + Z.of_nat (S k))) block) (seq 0 n)); [exact HQ|].
  apply map_ext. intros k. do 3 f_equal. lia.
Qed.

(** ** Initialisation *)

(** The characters of a name that is written out. *)
Ltac chars := repeat (apply Forall_cons; [split; lia|]); apply Forall_nil_2.

(** The library object for a registry. *)
Definition library_for (n : TDeviceNameService) : TUSPiLibrary :=
  let disk k := registered n (umsd ++ numeral false 10 k) true in
  let pad k := registered n (upad ++ numeral false 10 k) false in
  {| pUKBD1 := registered n ukbd1 false; pUMouse1 := registered n umouse1 false;
     pUMSD := [disk 1; disk 2; disk 3; disk 4]; pEth0 := registered n eth0 false; pEth10 := registered n eth10 false;
     pUPAD := [pad 1; pad 2; pad 3; pad 4]; pMIDI1 := registered n umidi1 false |}.

(** C28. Initialising the library the first time: if the controller can be
    initialised, each member of the library object is the driver's object that
    enumeration entered under the member's name, or null where none is; nothing
    else changes after enumeration. If it cannot, no library is left and the
    name service is empty, so that initialising may be tried again. *)
Theorem library_initialize DWHCIDevice DWHCIDeviceInitialize _DWHCIDevice pLibrary garbage e l h0 h :
  s_pLibrary l = None → s_pThis (registry l) = 0 → pLibrary ≠ 0 →
  (∀ l1, wp DWHCIDevice (λ _ w, w = ((e, l1), h)) ((e, l1), h0)) →
  (∀ l1, s_pLibrary l1 = Some (garbage <| pEth0 := 0 |> <| pEth10 := 0 |>) →
     registry l1 = {| m_pList := []; s_pThis := pLibrary |} →
     wp DWHCIDeviceInitialize (λ ok '((e2, l2), h2),
       names_ok (registry l2) ∧ s_pThis (registry l2) = pLibrary ∧
       (ok = false → wp _DWHCIDevice (λ _ _, True) ((e2, l2), h2))) ((e, l1), h)) →
  wp (USPiInitialize DWHCIDevice DWHCIDeviceInitialize _DWHCIDevice pLibrary garbage) (λ r '((e', l'), h'),
    (r = 0 ∧ s_pLibrary l' = None ∧ registry l' = {| m_pList := []; s_pThis := 0 |}) ∨
    (r = 1 ∧ s_pLibrary l' = Some (library_for (registry l')) ∧ s_pThis (registry l') = pLibrary ∧
     ∃ l1 l2, wp DWHCIDeviceInitialize (λ ok w, ok = true ∧ w = ((e', l2), h')) ((e, l1), h) ∧
       l' = l2 <| s_pLibrary := Some (library_for (registry l2)) |>)) ((e, l), h0).
Proof.
  intros Hl Hn Hp Hnew Hinit. unfold USPiInitialize, lib_get, lib_set.
  wp_step. wp_step. cbn [fst snd]. rewrite Hl. wp_step. apply wp_assert; [done|].
  wp_step. apply wp_assert; [by apply negb_true_iff, Z.eqb_neq|]. wp_step. wp_step. wp_step.
  unfold on_registry at 1. eapply wp_zoom; [done|]. cbn [fst snd]. unfold DeviceNameService.
  wp_step. apply wp_assert; [by apply negb_true_iff, Z.eqb_neq|]. wp_step. wp_step. wp_step. wp_step. wp_step.
  apply wp_assert; [simpl; by rewrite Hn|]. wp_step. cbn [fst snd].
  wp_step. eapply wp_mono; [apply Hnew|]. intros _ w ->. wp_step. wp_step. cbn [fst snd].
  lazymatch goal with |- wp _ _ ((_, ?x), _) => set (l1 := x) end.
  specialize (Hinit l1 eq_refl eq_refl).
  wp_step. eapply wp_mono.
  - apply wp_and; [exact Hinit|]. instantiate (1 := λ ok w, DWHCIDeviceInitialize ((e, l1), h) = Ok (ok, w)).
    apply wp_run. apply wp_run in Hinit as (ok & w & E & _). by exists ok, w.
  - intros ok [[e2 l2] h2] [(Hok2 & Hs2 & Hdel) Erun]. destruct ok; cbn [negb].
    + assert (s_pThis (registry l2) ≠ 0) as Hs0 by congruence.
      wp_step. apply wp_lookup_device; [done|done|chars|].
      wp_step. apply wp_lookup_device; [done|done|chars|].
      wp_step. apply wp_lookup_device; [done|done|chars|].
      wp_step. apply wp_lookup_devices; [done|done|chars|lia|done|].
      wp_step. apply wp_lookup_device; [done|done|chars|].
      wp_step. apply wp_lookup_device; [done|done|chars|].
      wp_step. apply wp_lookup_devices; [done|done|chars|lia|done|].
      wp_step. wp_step. wp_step. right. split; [done|]. split; [reflexivity|]. split; [done|].
      exists l1, l2. split; [unfold wp; by rewrite Erun|reflexivity].
    + wp_step. eapply wp_mono; [by apply Hdel|]. intros _ [[e3 l3] h3] _.
      wp_step. unfold on_registry. eapply wp_zoom; [done|]. unfold _DeviceNameService. wp_step. wp_step. wp_step. wp_step.
      left. by simpl.
Qed.

(** ** Disks *)

(** A disk's object next to the statics, and back in its place. *)
Definition disk_of (l : Lib) (d : TUSBBulkOnlyMassStorageDevice) : Mass :=
  {| mass := d; MassDevice.s_nDeviceNumber := number (disks l); MassDevice.names := registry l |}.
Definition put_disk (p : Z) (d : TUSBBulkOnlyMassStorageDevice) (l : Lib) : Lib :=
  l <| disks := {| objects := <[p := d]> (objects (disks l)); number := number (disks l); events := events (disks l) |} |>.

Lemma wp_on_disk {A} p d (m : M (Mass * H) A) e l h (Q : A → W → Prop) :
  objects (disks l) !! p = Some d →
  wp m (λ a '(x, h'), ∃ d', x = disk_of l d' ∧ Q a ((e, put_disk p d' l), h')) (disk_of l d, h) →
  wp (on_disk p m) Q ((e, l), h).
Proof.
  intros Hd Hm. unfold on_disk. eapply wp_zoom; [cbn [fst snd]; by rewrite Hd|].
  eapply wp_mono; [exact Hm|]. intros a [x h'] (d' & -> & HQ). by destruct l.
Qed.

Lemma mass_step_disk l d m h h' : mass_step (disk_of l d) h m h' → ∃ t, m = disk_of l (d <| m_nCWBTag := t |>).
Proof. intros [[t ->] _ _]. by exists t. Qed.

Lemma put_disk_twice p d d' l : put_disk p d (put_disk p d' l) = put_disk p d l.
Proof. unfold put_disk, upd. simpl. by rewrite insert_insert_eq. Qed.

(** No device at an index, or the one that is there. *)
Definition device_index (f : TUSPiLibrary → list Z) (L : TUSPiLibrary) (i : Z) : option Z :=
  p ← f L !! Z.to_nat i; if p =? 0 then None else Some p.

Lemma device_index_some f L i p : device_index f L i = Some p → f L !! Z.to_nat i = Some p ∧ p ≠ 0.
Proof.
  unfold device_index. destruct (f L !! Z.to_nat i) as [q|]; simpl; [|done].
  destruct (Z.eqb_spec q 0); [done|]. by intros [= ->].
Qed.

Lemma wp_indexed f i e l h L (Q : option Z → W → Prop) :
  s_pLibrary l = Some L → 0 <= i → length (f L) = 4%nat →
  Q (device_index f L i) ((e, l), h) → wp (indexed f i) Q ((e, l), h).
Proof.
  unfold device_index. intros Hl Hi Hf HQ. unfold indexed. wp_step. eapply wp_library; [exact Hl|]. unfold MAX_DEVICES.
  destruct (Z.leb_spec 4 i) as [Hge|Hlt].
  - wp_step. rewrite lookup_ge_None_2 in HQ by lia. exact HQ.
  - destruct (lookup_lt_is_Some_2 (f L) (Z.to_nat i)) as [p Hp]; [lia|]. rewrite Hp in HQ |- *. by wp_step.
Qed.

(** One access: the position, and the transfer. *)
Lemma wp_LibraryWrite k off data i L p d e l h (Q : Z → W → Prop) :
  host_ready (24 + k) h → s_pLibrary l = Some L → 0 <= i → length (pUMSD L) = 4%nat →
  device_index pUMSD L i = Some p → objects (disks l) !! p = Some d → mass_ok d (usb_get h) →
  block_range off (Z.of_nat (length data)) →
  (∀ r t h', host_ready k h' → same_but_pid (usb_get h) (usb_get h') →
     r = -1 ∨ (r = Z.of_nat (length data) ∧ ∀ c, disk_after (bus_get h') c = write_at (disk_after (bus_get h) c) off data) →
     Q r ((e, put_disk p (d <| m_ullOffset := off |> <| m_nCWBTag := t |>) l), h')) →
  wp (USPiMassStorageDeviceWrite off (map Some data) i) Q ((e, l), h).
Proof.
  intros Hr Hl Hi Hf Hp Hd Hm Hbr HQ. unfold USPiMassStorageDeviceWrite.
  wp_step. eapply wp_indexed; [exact Hl|done|done|]. rewrite Hp. wp_step.
  eapply wp_on_disk; [exact Hd|]. unfold USBBulkOnlyMassStorageDeviceSeek. wp_step. apply wp_mass_set. apply wp_mass_get.
  exists (d <| m_ullOffset := off |>). split; [done|]. simpl. rewrite Z.eqb_refl. cbn [negb].
  eapply wp_on_disk; [apply lookup_insert_eq|].
  apply (wp_write_loop 4 k); [lia|exact Hr|by destruct Hm|exact Hbr|].
  intros r m' h' Hr' Hst Hw. destruct (mass_step_disk _ _ _ _ _ Hst) as [t ->]. eexists. split; [reflexivity|].
  rewrite put_disk_twice. apply HQ; [done|by destruct Hst|]. destruct Hw as [[-> _]|[-> Hw]]; [by left|by right].
Qed.

Lemma wp_LibraryRead k off buf i L p d e l h (Q : Z * buffer → W → Prop) :
  host_ready (24 + k) h → s_pLibrary l = Some L → 0 <= i → length (pUMSD L) = 4%nat →
  device_index pUMSD L i = Some p → objects (disks l) !! p = Some d → mass_ok d (usb_get h) →
  block_range off (Z.of_nat (length buf)) →
  (∀ r buf' t h', host_ready k h' → same_but_pid (usb_get h) (usb_get h') →
     r = -1 ∨ (r = Z.of_nat (length buf) ∧ ∀ c, honest c (bus_get h') →
       buf' = map Some (read_at (disk_after (bus_get h) c) off (length buf))) →
     Q (r, buf') ((e, put_disk p (d <| m_ullOffset := off |> <| m_nCWBTag := t |>) l), h')) →
  wp (USPiMassStorageDeviceRead off buf i) Q ((e, l), h).
Proof.
  intros Hr Hl Hi Hf Hp Hd Hm Hbr HQ. unfold USPiMassStorageDeviceRead.
  wp_step. eapply wp_indexed; [exact Hl|done|done|]. rewrite Hp. wp_step.
  eapply wp_on_disk; [exact Hd|]. unfold USBBulkOnlyMassStorageDeviceSeek. wp_step. apply wp_mass_set. apply wp_mass_get.
  exists (d <| m_ullOffset := off |>). split; [done|]. simpl. rewrite Z.eqb_refl. cbn [negb].
  eapply wp_on_disk; [apply lookup_insert_eq|].
  apply (wp_read_loop 4 k); [lia|exact Hr|by destruct Hm|exact Hbr|].
  intros r buf' m' h' Hr' Hst _ _ Hres. destruct (mass_step_disk _ _ _ _ _ Hst) as [t ->]. eexists. split; [reflexivity|].
  rewrite put_disk_twice. apply HQ; [done|by destruct Hst|exact Hres].
Qed.

(** C27. Through the interface, what was written to a disk at a position is read
    back from it, from any disk that answers truthfully, wherever another access
    left the position before; only this disk's object is touched. An index
    without a device is refused, and nothing happens. *)
Theorem library_disks k off data buf i L e l h :
  host_ready (48 + k) h → s_pLibrary l = Some L → 0 <= i → length (pUMSD L) = 4%nat →
  block_range off (Z.of_nat (length data)) → length buf = length data →
  (∀ p, device_index pUMSD L i = Some p → ∃ d, objects (disks l) !! p = Some d ∧ mass_ok d (usb_get h)) →
  wp (w ← USPiMassStorageDeviceWrite off (map Some data) i;
      '(r, buf') ← USPiMassStorageDeviceRead off buf i; mret (w, r, buf')) (λ '(w, r, buf') s,
    match device_index pUMSD L i with
    | Some p =>
        (∃ d', s.1 = (e, put_disk p d' l)) ∧
        (w = Z.of_nat (length data) → r = Z.of_nat (length data) → ∀ c, honest c (bus_get (s.2)) → buf' = map Some data)
    | None => w = -1 ∧ r = -1 ∧ buf' = buf ∧ s = ((e, l), h)
    end) ((e, l), h).
Proof.
  intros Hr Hl Hi Hf Hbr Hlb Hd. destruct (device_index pUMSD L i) as [p|] eqn:Hp.
  - destruct (Hd p eq_refl) as (d & Hd1 & Hm).
    wp_step. eapply (wp_LibraryWrite (24 + k)); [exact Hr|exact Hl|done|done|exact Hp|exact Hd1|exact Hm|exact Hbr|].
    intros w t h1 Hr1 Hs1 Hw. wp_step.
    eapply (wp_LibraryRead k); [exact Hr1|exact Hl|done|done|exact Hp|apply lookup_insert_eq| |by rewrite Hlb|].
    { apply (mass_ok_same _ (usb_get h)); [done|]. by destruct Hm. }
    intros r buf' t' h2 Hr2 Hs2 Hres. wp_step. cbn [fst snd].
    rewrite put_disk_twice. split; [by eexists|]. intros -> -> c Hc.
    destruct Hw as [?|[_ Hw]]; [lia|]. destruct Hres as [?|[_ Hres]]; [lia|].
    by rewrite (Hres c Hc), Hw, Hlb, read_write.
  - unfold USPiMassStorageDeviceWrite, USPiMassStorageDeviceRead.
    wp_step. wp_step. eapply wp_indexed; [exact Hl|done|done|]. rewrite Hp. wp_step.
    wp_step. wp_step. eapply wp_indexed; [exact Hl|done|done|]. rewrite Hp. wp_step. by wp_step.
Qed.
End Proofs.

(** ** Witnesses *)
Module LibraryDemo.
#[local] Existing Instances MassDemo.stick MassDemo.stick_laws.
Definition nothing {D E} : Drivers D E := {| Library.objects := ∅; number := 1; events := [] |}.
Definition fresh : Lib :=
  {| s_pLibrary := None; registry := {| m_pList := []; s_pThis := 0 |}; keyboards := nothing; mice := nothing;
     disks := nothing; smscs := nothing; lans := nothing; pads := nothing; midis := nothing |}.
Definition uninitialised : TUSPiLibrary :=
  {| pUKBD1 := 1; pUMouse1 := 2; pUMSD := [3; 4; 5; 6]; pEth0 := 7; pEth10 := 8; pUPAD := [9; 10; 11; 12]; pMIDI1 := 13 |}.
Definition enum : Enum := {| s_ucNextAddress := 1; device_data := ∅; function_store := ∅ |}.
Definition host : AsyncBus := ([], MassDemo.bus0).

(** Enumeration that finds a keyboard and two disks. *)
Definition two_disks : TDeviceNameService → TDeviceNameService := λ n,
  n <| m_pList := [{| pName := umsd ++ [50]; pDevice := 80; bBlockDevice := true |};
                   {| pName := ukbd1; pDevice := 72; bBlockDevice := false |};
                   {| pName := umsd ++ [49]; pDevice := 64; bBlockDevice := true |}] |>.
Definition enumerated : M ((Enum * Lib) * (AsyncBus)) bool :=
  on_registry (modify two_disks) ;; mret true.

Lemma library_initialize_witness :
  wp (USPiInitialize (mret tt) enumerated (mret tt) 8 uninitialised) (λ r '((e', l'), h'),
    (r = 1 ∧ option_map pUMSD (s_pLibrary l') = Some [64; 80; 0; 0] ∧ option_map pUKBD1 (s_pLibrary l') = Some 72) ∧
    ((r = 0 ∧ s_pLibrary l' = None ∧ registry l' = {| m_pList := []; s_pThis := 0 |}) ∨
     (r = 1 ∧ s_pLibrary l' = Some (library_for (registry l')) ∧ s_pThis (registry l') = 8 ∧
      ∃ l1 l2, wp enumerated (λ ok w, ok = true ∧ w = ((e', l2), h')) ((enum, l1), host) ∧
       l' = l2 <| s_pLibrary := Some (library_for (registry l2)) |>))) ((enum, fresh), host).
Proof.
  eapply wp_mono; [apply wp_and; [|apply (library_initialize (mret tt) enumerated (mret tt) 8 uninitialised enum fresh host host)]|].
  - instantiate (1 := λ r w, r = 1 ∧ option_map pUMSD (s_pLibrary w.1.2) = Some [64; 80; 0; 0] ∧
      option_map pUKBD1 (s_pLibrary w.1.2) = Some 72). vm_compute. by split_and!.
  - reflexivity.
  - reflexivity.
  - done.
  - intros l1. by apply wp_ret.
  - intros l1 _ Hl1. unfold enumerated, on_registry. wp_step. eapply wp_zoom; [done|]. wp_step. wp_step.
    cbn [fst snd]. split; [|by split; [simpl; rewrite Hl1|]].
    repeat (apply Forall_cons; [split; [simpl; repeat (apply Forall_cons; [split; lia|]); apply Forall_nil_2|done]|]).
    apply Forall_nil_2.
  - intros r [[e' l'] h'] [H1 H2]. by split.
Defined.

(** One disk, of which the stick of [MassDemo] is the device. *)
Definition with_disk : Lib :=
  fresh <| s_pLibrary := Some (uninitialised <| pUMSD := [64; 0; 0; 0] |>) |>
        <| disks := {| Library.objects := {[ 64 := mass MassDemo.ready ]}; number := 2; events := [] |} |>.

Lemma host_ready_stick k : host_ready k host.
Proof. exact (MassDemo.bus_ready k). Qed.

Lemma library_disks_witness :
  wp (w ← USPiMassStorageDeviceWrite 1024 (map Some MassDemo.block) 0;
      '(r, buf') ← USPiMassStorageDeviceRead 1024 (blank 512) 0; mret (w, r, buf')) (λ '(w, r, buf') s,
    (w = 512 ∧ r = 512) ∧ ((∃ d', s.1 = (enum, put_disk 64 d' with_disk)) ∧
    (w = 512 → r = 512 → ∀ c, honest c (bus_get (s.2)) → buf' = map Some MassDemo.block))) ((enum, with_disk), host) ∧
  wp (w ← USPiMassStorageDeviceWrite 1024 (map Some MassDemo.block) 1;
      '(r, buf') ← USPiMassStorageDeviceRead 1024 (blank 512) 1; mret (w, r, buf')) (λ '(w, r, buf') s,
    w = -1 ∧ r = -1 ∧ buf' = blank 512 ∧ s = ((enum, with_disk), host)) ((enum, with_disk), host).
Proof.
  split.
  - eapply wp_mono; [apply wp_and; [|apply (library_disks 0 1024 MassDemo.block (blank 512) 0 (uninitialised <| pUMSD := [64; 0; 0; 0] |>)
      enum with_disk host (host_ready_stick _) eq_refl)]|].
    + instantiate (1 := λ x _, x.1.1 = 512 ∧ x.1.2 = 512). vm_compute. by split.
    + done.
    + done.
    + by apply MassDemo.block_fits.
    + done.
    + intros p [= <-]. exists (mass MassDemo.ready). split; [done|exact MassDemo.ready_ok].
    + intros [[w r] buf'] s [H1 H2]. split; [exact H1|exact H2].
  - apply (library_disks 0 1024 MassDemo.block (blank 512) 1 (uninitialised <| pUMSD := [64; 0; 0; 0] |>)
      enum with_disk host (host_ready_stick _) eq_refl); [done|done|by apply MassDemo.block_fits|done|done].
Defined.
End LibraryDemo.
