(* ===== verification/KernelTimer.v ===== *)
(** * env/lib/timer.c: the kernel's timers

    The timer that ticks [HZ] times a second, and the array of handlers that are
    to be called after a number of ticks; with [StartKernelTimer] and
    [CancelKernelTimer] of env/lib/uspibind.c, through which the library reaches
    it. The handlers belong to other files; here they are an argument. *)
From S2P Require Import Prelude Register Sync CString HostState DwhciXfer.

(** env/include/uspienv: timer.h, sysconfig.h, bcm2835.h, bcm2835int.h *)
Definition HZ : Z := 10.
Definition CLOCKHZ : Z := 1000000.
Definition KERNEL_TIMERS : Z := 20.
Definition ARM_IO_BASE : Z := 0x3F000000.
Definition ARM_SYSTIMER_BASE : Z := ARM_IO_BASE + 0x3000.
Definition ARM_SYSTIMER_CS : Z := ARM_SYSTIMER_BASE + 0x00.
Definition ARM_SYSTIMER_CLO : Z := ARM_SYSTIMER_BASE + 0x04.
Definition ARM_SYSTIMER_C3 : Z := ARM_SYSTIMER_BASE + 0x18.
Definition ARM_IRQ_TIMER3 : Z := 3.

(** env/lib/memio.c *)
Definition read32 `{Hardware} {St} `{HasMmio St} (nAddress : Z) : M St Z :=
  h ← gets mmio_get;
  let v := u32 (hw_read h nAddress) in
  emit (EvRead nAddress v) ;; mret v.
Definition write32 {St} `{HasMmio St} (nAddress nValue : Z) : M St unit := emit (EvWrite nAddress nValue).

Record TKernelTimer := {
  m_pHandler : Z;
  m_nElapsesAt : Z;
  m_pParam : Z;
  m_pContext : Z
}.
#[global] Instance TKernelTimer_eta : Eta TKernelTimer := λ r,
  {| m_pHandler := m_pHandler r; m_nElapsesAt := m_nElapsesAt r; m_pParam := m_pParam r; m_pContext := m_pContext r |}.

Record TTimer := {
  initialized : bool;
  m_nTicks : Z;
  m_nTime : Z;
  m_KernelTimer : list TKernelTimer;
  m_nMsDelay : Z;
  m_nusDelay : Z
}.
#[global] Instance TTimer_eta : Eta TTimer := λ r,
  {| initialized := initialized r; m_nTicks := m_nTicks r; m_nTime := m_nTime r; m_KernelTimer := m_KernelTimer r;
     m_nMsDelay := m_nMsDelay r; m_nusDelay := m_nusDelay r |}.

(** A call of a handler: the handler, the handle, the parameter, the context. *)
Definition timer_call : Type := Z * Z * Z * Z.
Definition call_handle (c : timer_call) : Z := c.1.1.2.

(** The static [gTimer], and the calls made so far, newest first. *)
Record Timers := { gTimer : TTimer; ran : list timer_call }.
#[global] Instance Timers_eta : Eta Timers := λ r, {| gTimer := gTimer r; ran := ran r |}.

Class HasTimers (St : Type) := { timers_get : St → Timers; timers_put : Timers → St → St }.
Class TimersLaws (St : Type) `{HasMmio St, HasCpu St, HasTimers St} := {
  timers_get_put t s : timers_get (timers_put t s) = t;
  timers_get_mmio h s : timers_get (mmio_put h s) = timers_get s;
  timers_get_cpu c s : timers_get (cpu_put c s) = timers_get s;
  cpu_get_timers t s : cpu_get (timers_put t s) = cpu_get s
}.

(** A static object is zero before its first use. *)
Definition no_timer : TKernelTimer := {| m_pHandler := 0; m_nElapsesAt := 0; m_pParam := 0; m_pContext := 0 |}.
Definition static_timer : TTimer :=
  {| initialized := false; m_nTicks := 0; m_nTime := 0; m_KernelTimer := replicate (Z.to_nat KERNEL_TIMERS) no_timer;
     m_nMsDelay := 0; m_nusDelay := 0 |}.

Section Timer.
Context `{HW : Hardware} {St : Type} `{HM : HasMmio St} `{HC : HasCpu St} `{HT : HasTimers St}.

(** [handler p h a c]: the code at [p] called with the handle [h], the parameter
    [a] and the context [c]. *)
Context (handler : Z → Z → Z → Z → M St unit).

Definition tget {A} (f : TTimer → A) : M St A := gets (λ s, f (gTimer (timers_get s))).
Definition tset (f : TTimer → TTimer) : M St unit :=
  modify (λ s, timers_put ((timers_get s) <| gTimer := f (gTimer (timers_get s)) |>) s).
Definition timer_at (i : nat) : M St TKernelTimer :=
  l ← tget m_KernelTimer;
  match l !! i with Some t => mret t | None => fail MemFault end.
Definition timer_set (i : nat) (f : TKernelTimer → TKernelTimer) : M St unit :=
  tset (λ t, t <| m_KernelTimer := alter f i (m_KernelTimer t) |>).

(** ** Construction *)

Definition Timer : M St unit :=
  tset (λ t, t <| m_nTicks := 0 |> <| m_nTime := 0 |> <| m_nMsDelay := 350000 |>
               <| m_nusDelay := 350000 / 1000 |>) ;;
  tset (λ t, t <| m_KernelTimer := (λ k, k <| m_pHandler := 0 |>) <$> m_KernelTimer t |>).

Definition TimerInitialize : M St bool :=
  i ← tget initialized;
  c_assert (negb i) ;;
  emit (EvConnectInterrupt ARM_IRQ_TIMER3) ;;
  DataMemBarrier ;;
  v ← read32 ARM_SYSTIMER_CLO;
  write32 ARM_SYSTIMER_C3 (u32 (v + CLOCKHZ / HZ)) ;;
  DataMemBarrier ;;
  tset (λ t, t <| initialized := true |>) ;;
  mret true.

(** The pointer it returns is that of the one object. *)
Definition TimerGet : M St unit :=
  i ← tget initialized;
  if i : bool then mret tt else (Timer ;; _ ← TimerInitialize; mret tt).

(** ** The time *)

Definition TimerGetClockTicks : M St Z :=
  DataMemBarrier ;; v ← read32 ARM_SYSTIMER_CLO; DataMemBarrier ;; mret v.
Definition TimerGetTicks : M St Z := tget m_nTicks.
Definition TimerGetTime : M St Z := tget m_nTime.

(** "%02u:%02u:%02u.%02lu" *)
Definition time_format : list Z :=
  [37; 48; 50; 117; 58; 37; 48; 50; 117; 58; 37; 48; 50; 117; 46; 37; 48; 50; 108; 117].

(** The string the caller is given; the arguments are as they are passed. *)
Definition TimerGetTimeString : M St (option (list Z)) :=
  uspi_EnterCritical ;;
  nTime ← tget m_nTime;
  nTicks ← tget m_nTicks;
  uspi_LeaveCritical ;;
  if nTicks =? 0 then mret None
  else
    let nSecond := nTime mod 60 in
    let nMinute := nTime / 60 mod 60 in
    let nHours := nTime / 60 / 60 in
    let nTicks := u32 (nTicks mod HZ * 100) / HZ in
    match render (λ _, []) (S (length time_format)) time_format
            [Word32 nHours; Word32 nMinute; Word32 nSecond; Word32 nTicks] with
    | Some l => mret (Some l)
    | None => fail UndefBehaviour
    end.

(** ** The timers *)

(** The first slot without a handler, from [hTimer] on. *)
Fixpoint free_timer (l : list TKernelTimer) (hTimer : nat) : nat :=
  match l with
  | [] => hTimer
  | t :: l => if m_pHandler t =? 0 then hTimer else free_timer l (S hTimer)
  end.

Definition TimerStartKernelTimer (nDelay pHandler pParam pContext : Z) : M St Z :=
  uspi_EnterCritical ;;
  l ← tget m_KernelTimer;
  let hTimer := free_timer l 0 in
  if KERNEL_TIMERS <=? Z.of_nat hTimer then uspi_LeaveCritical ;; mret 0
  else
    c_assert (negb (pHandler =? 0)) ;;
    timer_set hTimer (λ t, t <| m_pHandler := pHandler |>) ;;
    n ← tget m_nTicks;
    timer_set hTimer (λ t, t <| m_nElapsesAt := u32 (n + nDelay) |>) ;;
    timer_set hTimer (λ t, t <| m_pParam := pParam |>) ;;
    timer_set hTimer (λ t, t <| m_pContext := pContext |>) ;;
    uspi_LeaveCritical ;;
    mret (Z.of_nat hTimer + 1).

Definition TimerCancelKernelTimer (hTimer : Z) : M St unit :=
  c_assert ((1 <=? hTimer) && (hTimer <=? KERNEL_TIMERS)) ;;
  timer_set (Z.to_nat (hTimer - 1)) (λ t, t <| m_pHandler := 0 |>).

(** [StartKernelTimer] and [CancelKernelTimer] *)
Definition StartKernelTimer (nDelay pHandler pParam pContext : Z) : M St Z :=
  TimerGet ;; TimerStartKernelTimer nDelay pHandler pParam pContext.
Definition CancelKernelTimer (hTimer : Z) : M St unit := TimerGet ;; TimerCancelKernelTimer hTimer.

(** A call of a handler, which is also entered in [ran]. *)
Definition call_handler (c : timer_call) : M St unit :=
  modify (λ s, timers_put ((timers_get s) <| ran := c :: ran (timers_get s) |>) s) ;;
  let '(p, h, a, x) := c in handler p h a x.

(** The body of the loop. *)
Definition poll_timer (hTimer : nat) : M St unit :=
  t ← timer_at hTimer;
  let pHandler := m_pHandler t in
  if pHandler =? 0 then mret tt
  else
    n ← tget m_nTicks;
    if s32 (u32 (m_nElapsesAt t - n)) <=? 0 then
      timer_set hTimer (λ t, t <| m_pHandler := 0 |>) ;;
      t ← timer_at hTimer;
      call_handler (pHandler, Z.of_nat hTimer + 1, m_pParam t, m_pContext t)
    else mret tt.
Fixpoint poll_loop (n hTimer : nat) : M St unit :=
  match n with
  | O => mret tt
  | S n => poll_timer hTimer ;; poll_loop n (S hTimer)
  end.
Definition TimerPollKernelTimers : M St unit :=
  uspi_EnterCritical ;; poll_loop (Z.to_nat KERNEL_TIMERS) 0 ;; uspi_LeaveCritical.

Definition TimerInterruptHandler : M St unit :=
  DataMemBarrier ;;
  v ← read32 ARM_SYSTIMER_CS;
  c_assert (truthy (Z.land v (Z.shiftl 1 3))) ;;
  v ← read32 ARM_SYSTIMER_CLO;
  write32 ARM_SYSTIMER_C3 (u32 (v + CLOCKHZ / HZ)) ;;
  write32 ARM_SYSTIMER_CS (Z.shiftl 1 3) ;;
  DataMemBarrier ;;
  tset (λ t, t <| m_nTicks := u32 (m_nTicks t + 1) |>) ;;
  n ← tget m_nTicks;
  when (n mod HZ =? 0) (tset (λ t, t <| m_nTime := u32 (m_nTime t + 1) |>)) ;;
  TimerPollKernelTimers.

(** [DelayLoop]: counts, and does nothing else. *)
Definition DelayLoop (nCycles : Z) : M St unit := mret tt.
End Timer.

(** ** Properties *)

Section Laws.
Context `{HW : Hardware} {St : Type} `{HM : HasMmio St} `{HC : HasCpu St} `{HT : HasTimers St}.
Context `{!MmioLaws St} `{!CpuLaws St} `{!TimersLaws St}.
Implicit Types s : St.

Definition clock s : TTimer := gTimer (timers_get s).
Definition slots s : list TKernelTimer := m_KernelTimer (clock s).
Definition level s : Z := s_nCriticalLevel (cpu_get s).

(** The state between any two steps. *)
Record timers_ok s : Prop := {
  tk_slots : length (slots s) = Z.to_nat KERNEL_TIMERS;
  tk_ticks : is_u32 (m_nTicks (clock s));
  tk_level : 0 <= level s < 2 ^ 31
}.

(** A timer that runs, the ticks that are left to it, its call, and the calls
    of a handle. *)
Definition pending (i : nat) (t : TKernelTimer) s : Prop := slots s !! i = Some t ∧ m_pHandler t ≠ 0.
Definition remaining (t : TKernelTimer) s : Z := s32 (u32 (m_nElapsesAt t - m_nTicks (clock s))).
Definition call_of (i : nat) (t : TKernelTimer) : timer_call :=
  (m_pHandler t, Z.of_nat i + 1, m_pParam t, m_pContext t).
Definition calls_of (i : nat) s : list timer_call :=
  filter (λ c, call_handle c = Z.of_nat i + 1) (ran (timers_get s)).

Record same_clock s s' : Prop := {
  sc_ticks : m_nTicks (clock s') = m_nTicks (clock s);
  sc_time : m_nTime (clock s') = m_nTime (clock s);
  sc_initialized : initialized (clock s') = initialized (clock s);
  sc_level : level s' = level s
}.

(** What other code may do: anything but stop the timers of others. *)
Record others_step s s' : Prop := {
  os_clock : same_clock s s';
  os_slots : length (slots s') = length (slots s);
  os_ran : ran (timers_get s') = ran (timers_get s);
  os_pending i t : pending i t s → slots s' !! i = Some t
}.
Definition keeps (m : M St unit) : Prop := ∀ s, timers_ok s → wp m (λ _ s', others_step s s') s.

Lemma others_ok s s' : timers_ok s → others_step s s' → timers_ok s'.
Proof. intros [H1 H2 H3] [[E1 _ _ E2] E3 _ _]. split; [by rewrite E3|by rewrite E1|by rewrite E2]. Qed.

Lemma same_clock_refl s : same_clock s s.
Proof. by split. Qed.
Lemma same_clock_trans s1 s2 s3 : same_clock s1 s2 → same_clock s2 s3 → same_clock s1 s3.
Proof. intros [] []. split; congruence. Qed.
Lemma others_step_refl s : others_step s s.
Proof. split; [by split|done|done|by intros i t []]. Qed.

Lemma remaining_same t s s' : same_clock s s' → remaining t s' = remaining t s.
Proof. intros [E _ _ _]. unfold remaining. by rewrite E. Qed.

(** Polling the slots from [lo] to [hi]. *)
Record polled (lo hi : nat) s s' : Prop := {
  pd_ok : timers_ok s';
  pd_clock : same_clock s s';
  pd_ran : ∃ new, ran (timers_get s') = new ++ ran (timers_get s);
  pd_other i : ¬ (lo <= i < hi)%nat → calls_of i s' = calls_of i s ∧ (∀ t, pending i t s → slots s' !! i = Some t);
  pd_timer i t : (lo <= i < hi)%nat → pending i t s →
    if remaining t s <=? 0 then calls_of i s' = call_of i t :: calls_of i s
    else calls_of i s' = calls_of i s ∧ slots s' !! i = Some t
}.

Lemma polled_nothing lo hi s : timers_ok s →
  (∀ i t, (lo <= i < hi)%nat → pending i t s → 0 < remaining t s) → polled lo hi s s.
Proof.
  intros Hok H. split; [done|by split|by exists []|by split; [|intros t []]|].
  intros i t Hi Ht. pose proof (H i t Hi Ht). destruct (Z.leb_spec (remaining t s) 0); [lia|]. by destruct Ht.
Qed.

Lemma polled_then lo mid hi s1 s2 s3 : (lo <= mid <= hi)%nat →
  polled lo mid s1 s2 → polled mid hi s2 s3 → polled lo hi s1 s3.
Proof.
  intros Hm [Ho1 Hc1 [n1 Hr1] Hn1 Ht1] [Ho2 Hc2 [n2 Hr2] Hn2 Ht2]. split.
  - done.
  - by eapply same_clock_trans.
  - exists (n2 ++ n1). by rewrite Hr2, Hr1, app_assoc.
  - intros i Hi. destruct (Hn1 i ltac:(lia)) as [E1 K1]. destruct (Hn2 i ltac:(lia)) as [E2 K2].
    split; [congruence|]. intros t Ht. apply K2. split; [by apply K1|apply Ht].
  - intros i t Hi Ht. destruct (decide (i < mid)%nat) as [Hlt|Hge].
    + specialize (Ht1 i t ltac:(lia) Ht). destruct (Hn2 i ltac:(lia)) as [E2 K2].
      destruct (remaining t s1 <=? 0); [congruence|]. destruct Ht1 as [E1 K1].
      split; [congruence|]. apply K2. split; [done|apply Ht].
    + destruct (Hn1 i ltac:(lia)) as [E1 K1]. assert (pending i t s2) as Hp by (split; [by apply K1|apply Ht]).
      specialize (Ht2 i t ltac:(lia) Hp). rewrite (remaining_same t s1 s2 Hc1), E1 in Ht2. exact Ht2.
Qed.

Lemma wp_timer_at i t (Q : TKernelTimer → St → Prop) s :
  slots s !! i = Some t → Q t s → wp (timer_at i) Q s.
Proof.
  intros E HQ. unfold timer_at, tget. wp_step. wp_step. unfold slots, clock in E. rewrite E. by wp_step.
Qed.

Context (handler : Z → Z → Z → Z → M St unit).
Context (Hhandler : ∀ p h a x, keeps (handler p h a x)).

Lemma filter_call c i l :
  filter (λ c, call_handle c = Z.of_nat i + 1) (c :: l) =
  if decide (call_handle c = Z.of_nat i + 1) then c :: filter (λ c, call_handle c = Z.of_nat i + 1) l
  else filter (λ c, call_handle c = Z.of_nat i + 1) l.
Proof. by rewrite filter_cons. Qed.

Lemma wp_poll_timer j s : timers_ok s → (j < Z.to_nat KERNEL_TIMERS)%nat →
  wp (poll_timer handler j) (λ _ s', polled j (S j) s s') s.
Proof.
  intros Hok Hj. destruct (lookup_lt_is_Some_2 (slots s) j) as [t Ht]; [by rewrite (tk_slots _ Hok)|].
  unfold poll_timer. wp_step. apply (wp_timer_at j t); [done|].
  assert (∀ i t', (j <= i < S j)%nat → pending i t' s → i = j ∧ t' = t) as Hone.
  { intros i t' Hi [E _]. assert (i = j) as -> by lia. split; [done|congruence]. }
  destruct (Z.eqb_spec (m_pHandler t) 0) as [E0|E0].
  { wp_step. apply polled_nothing; [done|]. intros i t' Hi Hp. destruct (Hone i t' Hi Hp) as [-> ->]. by destruct Hp. }
  unfold tget. wp_step. wp_step. change (m_nTicks (gTimer (timers_get s))) with (m_nTicks (clock s)).
  fold (remaining t s). destruct (Z.leb_spec (remaining t s) 0) as [Hdue|Hdue].
  2: { wp_step. apply polled_nothing; [done|]. intros i t' Hi Hp. by destruct (Hone i t' Hi Hp) as [-> ->]. }
  unfold timer_set, tset. wp_step. wp_step.
  set (s1 := timers_put _ s).
  assert (timers_get s1 = (timers_get s) <| gTimer := (clock s) <| m_KernelTimer :=
    alter (λ t, t <| m_pHandler := 0 |>) j (slots s) |> |>) as E1 by (unfold s1; by rewrite timers_get_put).
  assert (slots s1 !! j = Some (t <| m_pHandler := 0 |>)) as Ht1.
  { unfold slots, clock. rewrite E1. simpl. by rewrite list_lookup_alter_eq, Ht. }
  wp_step. eapply (wp_timer_at j); [exact Ht1|]. cbn [m_pParam m_pContext upd].
  unfold call_handler. wp_step. wp_step. change (m_pHandler t, Z.of_nat j + 1, m_pParam t, m_pContext t) with (call_of j t).
  set (s2 := timers_put _ s1).
  assert (timers_get s2 = (timers_get s1) <| ran := call_of j t :: ran (timers_get s) |>) as E2.
  { unfold s2. rewrite timers_get_put, E1. done. }
  assert (same_clock s s2) as Hc.
  { split; unfold clock; rewrite ?E2, ?E1; [done..|]. unfold level, s2, s1. by rewrite !cpu_get_timers. }
  assert (slots s2 = alter (λ t, t <| m_pHandler := 0 |>) j (slots s)) as Es2 by (unfold slots, clock; by rewrite E2, E1).
  assert (timers_ok s2) as Hok2.
  { destruct Hok as [H1 H2 H3], Hc as [C1 _ _ C2]. split; [by rewrite Es2, length_alter|by rewrite C1|by rewrite C2]. }
  eapply wp_mono; [by apply Hhandler|]. intros [] s' Hs'. pose proof (os_clock _ _ Hs') as Hc'. pose proof (os_ran _ _ Hs') as Hr'. pose proof (os_pending _ _ Hs') as Hp'.
  assert (ran (timers_get s') = call_of j t :: ran (timers_get s)) as Er by (rewrite Hr', E2; done).
  split.
  - by eapply others_ok.
  - by eapply same_clock_trans.
  - by exists [call_of j t].
  - intros i Hi. unfold calls_of. rewrite Er, filter_call. rewrite decide_False by (unfold call_of; cbn; lia).
    split; [done|]. intros t' [Ht' Hn']. apply Hp'. split; [|done]. by rewrite Es2, list_lookup_alter_ne by lia.
  - intros i t' Hi Hp. destruct (Hone i t' Hi Hp) as [-> ->]. rewrite (proj2 (Z.leb_le _ _) Hdue).
    unfold calls_of. rewrite Er, filter_call. by rewrite decide_True by done.
Qed.

Lemma wp_poll_loop n j s : timers_ok s → (j + n = Z.to_nat KERNEL_TIMERS)%nat →
  wp (poll_loop handler n j) (λ _ s', polled j (Z.to_nat KERNEL_TIMERS) s s') s.
Proof.
  revert j s. induction n as [|n IH]; intros j s Hok Hj; cbn [poll_loop].
  - wp_step. apply polled_nothing; [done|]. lia.
  - wp_step. eapply wp_mono; [apply wp_poll_timer; [done|lia]|]. intros [] s1 H1.
    eapply wp_mono; [apply IH; [apply H1|lia]|]. intros [] s2 H2. eapply polled_then; [|exact H1|exact H2]. lia.
Qed.

(** *** Critical sections leave the timers alone *)

Lemma wp_timers_enter (Q : unit → St → Prop) s : 0 <= level s < 2 ^ 31 →
  (∀ s', timers_get s' = timers_get s → level s' = level s + 1 → Q tt s') → wp uspi_EnterCritical Q s.
Proof.
  intros Hl HQ. apply wp_EnterCritical. cbv zeta. apply HQ.
  - unfold record. by rewrite timers_get_mmio, timers_get_cpu.
  - unfold level, record in *. rewrite cpu_get_mmio, cpu_get_put. simpl. cint.
Qed.
Lemma wp_timers_leave (Q : unit → St → Prop) s : 0 < level s →
  (∀ s', timers_get s' = timers_get s → level s' = level s - 1 → Q tt s') → wp uspi_LeaveCritical Q s.
Proof.
  intros Hl HQ. apply wp_LeaveCritical; [done|]. apply HQ.
  - unfold record. by rewrite timers_get_cpu, timers_get_mmio.
  - unfold level, record in *. by rewrite cpu_get_put.
Qed.
Lemma wp_emit_timers e (Q : unit → St → Prop) s :
  (∀ s', timers_get s' = timers_get s → level s' = level s → Q tt s') → wp (emit e) Q s.
Proof.
  intros HQ. apply wp_emit, HQ; unfold level, record; [by rewrite timers_get_mmio|by rewrite cpu_get_mmio].
Qed.
Lemma wp_read32_timers a (Q : Z → St → Prop) s :
  (∀ v s', v = u32 (hw_read (mmio_get s) a) → timers_get s' = timers_get s → level s' = level s → Q v s') →
  wp (read32 a) Q s.
Proof.
  intros HQ. unfold read32. wp_step. wp_step. wp_step. apply wp_emit_timers. intros s' H1 H2. wp_step. by apply HQ.
Qed.
Lemma wp_tset f (Q : unit → St → Prop) s :
  (∀ s', timers_get s' = (timers_get s) <| gTimer := f (clock s) |> → level s' = level s → Q tt s') →
  wp (tset f) Q s.
Proof.
  intros HQ. unfold tset. wp_step. apply HQ; unfold level; [by rewrite timers_get_put|by rewrite cpu_get_timers].
Qed.

(** *** One interrupt *)

Lemma polled_frame lo hi s0 s1 s2 s3 : polled lo hi s1 s2 →
  timers_get s1 = timers_get s0 → timers_get s3 = timers_get s2 → level s0 = level s3 → 0 <= level s0 < 2 ^ 31 →
  polled lo hi s0 s3.
Proof.
  intros [[H1 H2 _] [C1 C2 C3 _] Hr Ho Ht] E1 E3 El Hl.
  assert (∀ i t, pending i t s0 → pending i t s1) as Hp by (intros i t; unfold pending, slots, clock; by rewrite E1).
  assert (∀ t, remaining t s1 = remaining t s0) as Er by (intros t; unfold remaining, clock; by rewrite E1).
  assert (∀ i, calls_of i s1 = calls_of i s0) as Ec1 by (intros i; unfold calls_of; by rewrite E1).
  assert (∀ i, calls_of i s3 = calls_of i s2) as Ec3 by (intros i; unfold calls_of; by rewrite E3).
  assert (slots s3 = slots s2) as Es by (unfold slots, clock; by rewrite E3).
  assert (clock s3 = clock s2) as Ek3 by (unfold clock; by rewrite E3).
  assert (clock s1 = clock s0) as Ek1 by (unfold clock; by rewrite E1).
  split.
  - split; [by rewrite Es|by rewrite Ek3|lia].
  - split; [by rewrite Ek3, C1, Ek1|by rewrite Ek3, C2, Ek1|by rewrite Ek3, C3, Ek1|done].
  - by rewrite E3, <- E1.
  - intros i Hi. destruct (Ho i Hi) as [A B]. rewrite Ec3, <- Ec1, Es. split; [done|]. intros t Hpt. by apply B, Hp.
  - intros i t Hi Hpt. specialize (Ht i t Hi (Hp i t Hpt)). by rewrite <- Er, Ec3, <- Ec1, Es.
Qed.

Lemma wp_poll_timers s : timers_ok s → level s + 1 < 2 ^ 31 →
  wp (TimerPollKernelTimers handler) (λ _ s', polled 0 (Z.to_nat KERNEL_TIMERS) s s') s.
Proof.
  intros Hok Hl. unfold TimerPollKernelTimers. wp_step. apply wp_timers_enter; [apply Hok|]. intros s1 E1 L1.
  assert (timers_ok s1) as Hok1.
  { destruct Hok as [H1 H2 H3]. split; [unfold slots, clock; by rewrite E1|unfold clock; by rewrite E1|lia]. }
  wp_step. eapply wp_mono; [by apply wp_poll_loop|]. intros [] s2 H2.
  pose proof (sc_level _ _ (pd_clock _ _ _ _ H2)) as L2. pose proof (tk_level _ Hok).
  apply wp_timers_leave; [lia|]. intros s3 E3 L3. eapply polled_frame; [exact H2|done|done|lia|lia].
Qed.

Definition next_time (n time : Z) : Z := if n mod HZ =? 0 then u32 (time + 1) else time.

Record ticked s s' : Prop := {
  ti_ok : timers_ok s';
  ti_level : level s' = level s;
  ti_ticks : m_nTicks (clock s') = u32 (m_nTicks (clock s) + 1);
  ti_time : m_nTime (clock s') = next_time (u32 (m_nTicks (clock s) + 1)) (m_nTime (clock s));
  ti_ran : ∃ new, ran (timers_get s') = new ++ ran (timers_get s);
  ti_timer i t : pending i t s →
    if s32 (remaining t s - 1) <=? 0 then calls_of i s' = call_of i t :: calls_of i s
    else calls_of i s' = calls_of i s ∧ pending i t s' ∧ remaining t s' = s32 (remaining t s - 1)
}.

(** The timer's interrupt is only taken when it is raised. *)
Context (Hraised : ∀ h, truthy (Z.land (u32 (hw_read h ARM_SYSTIMER_CS)) 8) = true).

Lemma remaining_next t s s' : m_nTicks (clock s') = u32 (m_nTicks (clock s) + 1) →
  remaining t s' = s32 (remaining t s - 1).
Proof. intros E. unfold remaining. rewrite E. cint. Qed.

Lemma wp_interrupt s : timers_ok s → level s + 1 < 2 ^ 31 →
  wp (TimerInterruptHandler handler) (λ _ s', ticked s s') s.
Proof.
  intros Hok Hl. unfold TimerInterruptHandler, DataMemBarrier, write32.
  wp_step. apply wp_emit_timers. intros s1 E1 L1. wp_step. apply wp_read32_timers. intros v s2 -> E2 L2.
  wp_step. apply wp_assert; [apply Hraised|].
  wp_step. apply wp_read32_timers. intros w s3 _ E3 L3. wp_step. apply wp_emit_timers. intros s4 E4 L4.
  wp_step. apply wp_emit_timers. intros s5 E5 L5. wp_step. apply wp_emit_timers. intros s6 E6 L6.
  assert (timers_get s6 = timers_get s) as E by congruence.
  wp_step. apply wp_tset. intros s7 E7 L7. wp_step. unfold tget. wp_step.
  set (n := m_nTicks (gTimer (timers_get s7))).
  assert (n = u32 (m_nTicks (clock s) + 1)) as En by (unfold n; rewrite E7; unfold clock; by rewrite E).
  assert (∀ s8, clock s8 = (clock s) <| m_nTicks := n |> <| m_nTime := next_time n (m_nTime (clock s)) |> →
    ran (timers_get s8) = ran (timers_get s) → level s8 = level s →
    wp (TimerPollKernelTimers handler) (λ _ s', ticked s s') s8) as Hpoll.
  { intros s8 E8 R8 L8. destruct Hok as [H1 H2 H3].
    assert (slots s8 = slots s) as Es by (unfold slots; by rewrite E8).
    assert (timers_ok s8) as Hok8.
    { split; [by rewrite Es|rewrite E8, En; apply u32_range|by rewrite L8]. }
    eapply wp_mono; [apply wp_poll_timers; [done|lia]|]. intros [] s' [Pok [P1 P2 P3 P4] Pr _ Pt].
    assert (m_nTicks (clock s') = u32 (m_nTicks (clock s) + 1)) as Et by (rewrite P1, E8; simpl; done).
    split; [done|congruence|done| |by rewrite <- R8|].
    - rewrite P2, E8. simpl. by rewrite En.
    - intros i t [Hs Hn]. assert (i < Z.to_nat KERNEL_TIMERS)%nat as Hi.
      { rewrite <- H1. by eapply lookup_lt_Some. }
      assert (remaining t s8 = s32 (remaining t s - 1)) as Er by (apply remaining_next; rewrite E8; exact En).
      specialize (Pt i t ltac:(lia) ltac:(split; [by rewrite Es|done])). rewrite Er in Pt.
      assert (calls_of i s8 = calls_of i s) as Ec by (unfold calls_of; by rewrite R8). rewrite Ec in Pt.
      destruct (_ <=? 0); [done|]. destruct Pt as [Pt1 Pt2]. split; [done|]. split; [by split|].
      by apply remaining_next. }
  wp_step. apply wp_when; intros Eh.
  - apply wp_tset. intros s8 E8 L8. apply Hpoll; [|by rewrite E8, E7, E|lia].
    unfold clock. rewrite E8. unfold clock. rewrite E7. unfold next_time. rewrite Eh. simpl. unfold clock. by rewrite E, En.
  - apply Hpoll; [|by rewrite E7, E|lia]. unfold clock. rewrite E7. unfold next_time. rewrite Eh. simpl. unfold clock.
    by rewrite E, En.
Qed.

(** *** Time goes on *)

(** Interrupts, and other code before each. *)
Fixpoint ticking (l : list (M St unit)) : M St unit :=
  match l with
  | [] => mret tt
  | m :: l => m ;; TimerInterruptHandler handler ;; ticking l
  end.

Lemma wp_tick m s : timers_ok s → level s + 1 < 2 ^ 31 → keeps m →
  wp (m ;; TimerInterruptHandler handler) (λ _ s2, ∃ s1, others_step s s1 ∧ ticked s1 s2) s.
Proof.
  intros Hok Hl Hm. wp_step. eapply wp_mono; [by apply Hm|]. intros [] s1 H1.
  pose proof (sc_level _ _ (os_clock _ _ H1)).
  eapply wp_mono; [apply wp_interrupt; [by eapply others_ok|lia]|]. intros [] s2 H2. by exists s1.
Qed.

Lemma wp_ticking_cons m l s (Q : unit → St → Prop) : timers_ok s → level s + 1 < 2 ^ 31 → keeps m →
  (∀ s1 s2, others_step s s1 → ticked s1 s2 → timers_ok s2 → level s2 = level s → wp (ticking l) Q s2) →
  wp (ticking (m :: l)) Q s.
Proof.
  intros Hok Hl Hm HQ. cbn [ticking].
  pose proof (wp_tick m s Hok Hl Hm) as Ht. apply wp_bind_inv in Ht.
  wp_step. eapply wp_mono; [exact Ht|]. cbv beta. intros [] s0 H0. wp_step.
  eapply wp_mono; [exact H0|]. intros [] s2 (s1 & H1 & H2).
  apply (HQ s1 s2); [done|done|by destruct H2|]. rewrite (ti_level _ _ H2). apply H1.
Qed.

(** Calls are never forgotten, and the seconds follow the ticks until these wrap. *)
Lemma wp_ticking l s : timers_ok s → level s + 1 < 2 ^ 31 → Forall keeps l →
  wp (ticking l) (λ _ s', timers_ok s' ∧ level s' = level s ∧
    (∃ new, ran (timers_get s') = new ++ ran (timers_get s)) ∧
    (m_nTicks (clock s) + Z.of_nat (length l) < 2 ^ 32 → m_nTime (clock s) = m_nTicks (clock s) / HZ →
     m_nTicks (clock s') = m_nTicks (clock s) + Z.of_nat (length l) ∧ m_nTime (clock s') = m_nTicks (clock s') / HZ)) s.
Proof.
  intros Hok Hl Hk. revert s Hok Hl. induction Hk as [|m l Hm Hk IH]; intros s Hok Hl.
  { cbn [ticking]. wp_step. split; [done|]. split; [done|]. split; [by exists []|]. simpl. intros _ E. split; [lia|done]. }
  apply wp_ticking_cons; [done|done|done|]. intros s1 s2 H1 H2 Hok2 L2.
  eapply wp_mono; [apply IH; [done|by rewrite L2]|]. intros [] s' (Ho & L & [new Hr] & Hc).
  destruct (ti_ran _ _ H2) as [new2 Hr2]. split; [done|]. split; [congruence|]. split.
  { exists (new ++ new2). by rewrite Hr, Hr2, (os_ran _ _ H1), app_assoc. }
  cbn [length]. intros Hb Ht. pose proof (tk_ticks _ Hok) as [Hn _].
  destruct (os_clock _ _ H1) as [C1 C2 _ _].
  pose proof (ti_ticks _ _ H2) as T2. pose proof (ti_time _ _ H2) as M2. rewrite C1 in T2, M2. rewrite C2 in M2.
  rewrite (u32_id (m_nTicks (clock s) + 1)) in T2, M2 by (unfold is_u32; lia).
  assert (m_nTime (clock s2) = m_nTicks (clock s2) / HZ) as E2.
  { rewrite M2, T2, Ht. unfold next_time, HZ in *. destruct (Z.eqb_spec ((m_nTicks (clock s) + 1) mod 10) 0); cint. }
  destruct (Hc ltac:(rewrite T2; lia) E2) as [A B]. split; [rewrite A, T2; lia|done].
Qed.

Lemma calls_of_app i s s' new : ran (timers_get s') = new ++ ran (timers_get s) →
  ∃ later, calls_of i s' = later ++ calls_of i s.
Proof. intros E. unfold calls_of. rewrite E, list.filter_app. by eexists. Qed.

Lemma pending_others i t s s' : pending i t s → others_step s s' →
  pending i t s' ∧ remaining t s' = remaining t s ∧ calls_of i s' = calls_of i s.
Proof.
  intros Hp Hs. split; [split; [by apply (os_pending _ _ Hs)|apply Hp]|].
  split; [apply remaining_same, Hs|]. unfold calls_of. by rewrite (os_ran _ _ Hs).
Qed.

(** A running timer: nothing before its time, its call then. *)
Lemma wp_ticking_timer i t l s : timers_ok s → level s + 1 < 2 ^ 31 → Forall keeps l →
  pending i t s → 0 <= remaining t s →
  wp (ticking l) (λ _ s',
    (Z.of_nat (length l) < Z.max 1 (remaining t s) → calls_of i s' = calls_of i s ∧ pending i t s') ∧
    (Z.max 1 (remaining t s) <= Z.of_nat (length l) → ∃ later, calls_of i s' = later ++ call_of i t :: calls_of i s ∧
       (Z.max 1 (remaining t s) = Z.of_nat (length l) → later = []))) s.
Proof.
  intros Hok Hl Hk. revert s Hok Hl. induction Hk as [|m l Hm Hk IH]; intros s Hok Hl Hp Hr.
  { cbn [ticking]. wp_step. simpl. split; [done|lia]. }
  apply wp_ticking_cons; [done|done|done|]. intros s1 s2 H1 H2 Hok2 L2.
  destruct (pending_others i t s s1 Hp H1) as (Hp1 & Er1 & Ec1).
  pose proof (ti_timer _ _ H2 i t Hp1) as Ht. rewrite Er1, Ec1 in Ht.
  assert (s32 (remaining t s - 1) = remaining t s - 1) as Es by (unfold remaining in *; cint).
  rewrite Es in Ht. clear Es. cbn [length]. rewrite Nat2Z.inj_succ.
  set (r := remaining t s) in *. clearbody r. destruct (Z.leb_spec (r - 1) 0).
  - replace (Z.max 1 r) with 1 by lia. destruct l as [|m' l].
    + cbn [ticking]. wp_step. simpl length. split; [lia|]. intros _. exists []. by rewrite Ht.
    + eapply wp_mono; [apply wp_ticking; [done|by rewrite L2|done]|].
      intros [] s' (_ & _ & [new Hn] & _). cbn [length]. split; [lia|]. intros _.
      destruct (calls_of_app i s2 s' new Hn) as [later E]. exists later. rewrite E, Ht. split; [done|lia].
  - destruct Ht as (Ec2 & Hp2 & Er2).
    eapply wp_mono; [apply IH; [done|by rewrite L2|done|lia]|].
    intros [] s' [A B]. rewrite Er2, Ec2 in A, B. split; [intros; apply A; lia|].
    intros Hge. destruct B as (later & E & Hnil); [lia|]. exists later. split; [done|]. intros. apply Hnil. lia.
Qed.

(** *** Starting a timer *)

Lemma free_timer_spec l k : ∃ i, free_timer l k = (k + i)%nat ∧
  (∀ j t, (j < i)%nat → l !! j = Some t → m_pHandler t ≠ 0) ∧
  ((i < length l)%nat ∧ (∃ t, l !! i = Some t ∧ m_pHandler t = 0) ∨ i = length l).
Proof.
  revert k. induction l as [|t l IH]; intros k; cbn [free_timer].
  - exists 0%nat. split; [lia|]. split; [lia|by right].
  - destruct (Z.eqb_spec (m_pHandler t) 0) as [E|E].
    + exists 0%nat. split; [lia|]. split; [lia|]. left. simpl. split; [lia|by exists t].
    + destruct (IH (S k)) as (i & Ei & H1 & H2). exists (S i). split; [lia|]. split.
      * intros [|j] t' Hj Hl; [by injection Hl as <-|]. apply (H1 j t'); [lia|done].
      * destruct H2 as [[H2 H3]|H2]; [left|right]; simpl; [split; [lia|done]|lia].
Qed.

(** What [TimerStartKernelTimer] leaves. *)
Definition started (nDelay pHandler pParam pContext : Z) s (h : Z) s' : Prop :=
  same_clock s s' ∧ ran (timers_get s') = ran (timers_get s) ∧
  (h = 0 ∧ slots s' = slots s ∧ Forall (λ t, m_pHandler t ≠ 0) (slots s) ∨
   ∃ i, h = Z.of_nat i + 1 ∧ (i < Z.to_nat KERNEL_TIMERS)%nat ∧
     (∃ t, slots s !! i = Some t ∧ m_pHandler t = 0) ∧
     (∀ j t, (j < i)%nat → slots s !! j = Some t → m_pHandler t ≠ 0) ∧
     slots s' = <[i := {| m_pHandler := pHandler; m_nElapsesAt := u32 (m_nTicks (clock s) + nDelay);
                          m_pParam := pParam; m_pContext := pContext |}]> (slots s)).

Lemma wp_start nDelay pHandler pParam pContext s : timers_ok s → pHandler ≠ 0 →
  wp (TimerStartKernelTimer nDelay pHandler pParam pContext)
    (λ h s', started nDelay pHandler pParam pContext s h s' ∧ timers_ok s') s.
Proof.
  intros Hok Hh. pose proof Hok as [H1 H2 H3]. unfold TimerStartKernelTimer.
  wp_step. apply wp_timers_enter; [lia|]. intros s1 E1 L1. wp_step. unfold tget at 1. wp_step.
  assert (m_KernelTimer (gTimer (timers_get s1)) = slots s) as -> by (rewrite E1; done).
  destruct (free_timer_spec (slots s) 0) as (i & -> & Hbusy & Hfree). cbn [Nat.add].
  unfold KERNEL_TIMERS in *. destruct (Z.leb_spec 20 (Z.of_nat i)) as [Hge|Hlt].
  - wp_step. apply wp_timers_leave; [lia|]. intros s2 E2 L2. wp_step.
    assert (clock s2 = clock s) as Ek by (unfold clock; congruence).
    split; [|split; [by unfold slots; rewrite Ek|by rewrite Ek|lia]].
    split; [split; [by rewrite Ek|by rewrite Ek|by rewrite Ek|lia]|]. split; [congruence|]. left. split; [done|].
    split; [unfold slots; by rewrite Ek|]. apply Forall_lookup_2. intros j t Hj. apply (Hbusy j t); [|done].
    apply lookup_lt_Some in Hj. lia.
  - wp_step. wp_step. unfold timer_set.
    wp_step. apply wp_tset. intros s2 E2 L2. wp_step. unfold tget at 1. wp_step. wp_step. apply wp_tset. intros s3 E3 L3. wp_step. apply wp_tset. intros s4 E4 L4. wp_step. apply wp_tset. intros s5 E5 L5.
    wp_step. apply wp_timers_leave; [lia|]. intros s6 E6 L6. wp_step.
    destruct Hfree as [[_ (t & Ht & Hz)]|]; [|lia].
    assert (clock s6 = (clock s) <| m_KernelTimer := <[i := {| m_pHandler := pHandler;
      m_nElapsesAt := u32 (m_nTicks (clock s) + nDelay); m_pParam := pParam; m_pContext := pContext |}]> (slots s) |>) as Ek.
    { unfold clock. rewrite E6, E5. unfold clock. rewrite E4. unfold clock. rewrite E3. unfold clock. rewrite E2. unfold clock.
      rewrite E1. unfold upd. simpl. rewrite !list_alter_alter_eq, list_insert_alter. done. }
    assert (slots s6 = <[i := {| m_pHandler := pHandler; m_nElapsesAt := u32 (m_nTicks (clock s) + nDelay);
      m_pParam := pParam; m_pContext := pContext |}]> (slots s)) as Es by (unfold slots; by rewrite Ek).
    split; [|split; [by rewrite Es, length_insert|by rewrite Ek|lia]].
    split; [split; [by rewrite Ek|by rewrite Ek|by rewrite Ek|lia]|].
    split; [by rewrite E6, E5, E4, E3, E2, E1|]. right. exists i. split; [done|]. split; [unfold KERNEL_TIMERS; lia|]. split; [by exists t|]. by split.
Qed.

(** Cancelling frees the slot of the handle and touches no other. *)
Lemma wp_cancel h s : 1 <= h <= KERNEL_TIMERS →
  wp (TimerCancelKernelTimer h) (λ _ s', same_clock s s' ∧ ran (timers_get s') = ran (timers_get s) ∧
    slots s' = alter (λ t, t <| m_pHandler := 0 |>) (Z.to_nat (h - 1)) (slots s)) s.
Proof.
  intros Hh. unfold TimerCancelKernelTimer. wp_step. apply wp_assert; [lia|]. unfold timer_set. apply wp_tset.
  intros s' E L. unfold slots, clock. rewrite E. split; [split; unfold clock; by rewrite ?E|done].
Qed.

(** Starting a timer is one of the things other code may do. *)
Lemma start_keeps nDelay pHandler pParam pContext s : timers_ok s → pHandler ≠ 0 →
  wp (TimerStartKernelTimer nDelay pHandler pParam pContext) (λ _ s', others_step s s') s.
Proof.
  intros Hok Hh. eapply wp_mono; [by apply wp_start|]. intros h s' [(Hc & Hr & Hs) _].
  destruct Hs as [(_ & E & _)|(i & _ & Hi & (t0 & H0 & Hz) & _ & E)].
  - split; [done|by rewrite E|done|]. intros j t [Hj _]. by rewrite E.
  - split; [done|by rewrite E, length_insert|done|]. intros j t [Hj Hn]. rewrite E.
    rewrite list_lookup_insert_ne; [done|]. intros ->. congruence.
Qed.

(** C29. Starting a timer with a delay of [nDelay] ticks. If all are in use the
    result is 0 and nothing changes. Otherwise the result is the number of the
    first free one, from 1, the running ones are untouched, and from then on,
    whatever the handlers of the other timers and the code between the
    interrupts do short of stopping it (they may start timers of their own) and
    wherever the tick counter wraps: its handler is not called before tick
    [max 1 nDelay], it is called at that tick exactly once, with its handle, its
    parameter and its context, and it stays called. *)
Theorem timer_fires nDelay pHandler pParam pContext l s :
  timers_ok s → level s + 1 < 2 ^ 31 → pHandler ≠ 0 → 0 <= nDelay < 2 ^ 31 → Forall keeps l →
  wp (h ← TimerStartKernelTimer nDelay pHandler pParam pContext; s1 ← get; ticking l ;; mret (h, s1)) (λ '(h, s1) s',
    started nDelay pHandler pParam pContext s h s1 ∧
    ∀ i, h = Z.of_nat i + 1 →
      let due := Z.max 1 nDelay in
      (Z.of_nat (length l) < due → calls_of i s' = calls_of i s) ∧
      (due <= Z.of_nat (length l) → ∃ later,
         calls_of i s' = later ++ (pHandler, h, pParam, pContext) :: calls_of i s ∧
         (due = Z.of_nat (length l) → later = []))) s.
Proof.
  intros Hok Hl Hh Hd Hk. wp_step. eapply wp_mono; [by apply wp_start|]. intros h s1 [Hst Hok1].
  assert (level s1 = level s) as L1 by apply Hst. wp_step. wp_step. wp_step.
  pose proof Hst as ([C1 _ _ _] & R1 & Hs). destruct Hs as [(-> & _ & _)|(i & -> & Hi & Hfree & _ & Es)].
  { eapply wp_mono; [apply wp_ticking; [done|by rewrite L1|done]|]. intros [] s' _. wp_step. split; [done|]. lia. }
  set (t := {| m_pHandler := pHandler; m_nElapsesAt := u32 (m_nTicks (clock s) + nDelay); m_pParam := pParam;
               m_pContext := pContext |}) in *.
  assert (pending i t s1) as Hp.
  { split; [|done]. rewrite Es, list_lookup_insert_eq; [done|]. by rewrite (tk_slots _ Hok). }
  assert (remaining t s1 = nDelay) as Er.
  { unfold remaining, t. cbn [m_nElapsesAt]. rewrite C1. pose proof (tk_ticks _ Hok). cint. }
  eapply wp_mono; [apply (wp_ticking_timer i t); [done|by rewrite L1|done|done|by rewrite Er; apply Hd]|].
  intros [] s' [A B]. rewrite Er in A, B. wp_step. split; [done|]. intros j Hj. assert (j = i) as -> by lia.
  assert (calls_of i s1 = calls_of i s) as Ec by (unfold calls_of; by rewrite R1). rewrite Ec in A, B.
  split; [intros Hlt; by apply A|]. exact B.
Qed.
End Laws.

(** The string of the time is undefined behaviour once the timer has ticked: its
    last conversion takes a [long] and is given an [unsigned]. *)
Lemma render_number f r a (Args : list varg) :
  render (λ _, []) (S f) (37 :: 48 :: 50 :: 117 :: r) (Word32 a :: Args) =
  match ref_unsigned false true false 2 10 false (Word32 a) with
  | Some s => (app s) <$> render (λ _, []) f r Args
  | None => None
  end.
Proof. cbn -[ref_unsigned]. by destruct (ref_unsigned _ _ _ _ _ _ _). Qed.
Lemma render_literal f c r (Args : list varg) : c ≠ 37 →
  render (λ _, []) (S f) (c :: r) Args = (cons c) <$> render (λ _, []) f r Args.
Proof. intros Hc. cbn [render]. by rewrite (proj2 (Z.eqb_neq _ _) Hc). Qed.
Lemma render_long f r a (Args : list varg) :
  render (λ _, []) (S f) (37 :: 48 :: 50 :: 108 :: 117 :: r) (Word32 a :: Args) = None.
Proof. reflexivity. Qed.
Lemma render_time a b c d :
  render (λ _, []) (S (length time_format)) time_format [Word32 a; Word32 b; Word32 c; Word32 d] = None.
Proof.
  unfold time_format. change (length _) with 20%nat.
  do 3 (rewrite render_number; destruct (ref_unsigned _ _ _ _ _ _ _); [|done]; rewrite render_literal by done).
  by rewrite render_long.
Qed.

Lemma time_string_undefined `{Hardware} {St} `{HasMmio St, HasCpu St, HasTimers St} `{!MmioLaws St, !CpuLaws St, !TimersLaws St} (s : St) :
  timers_ok s → m_nTicks (clock s) ≠ 0 → wpe TimerGetTimeString (λ _ _, False) (λ f, f = UndefBehaviour) s.
Proof.
  intros Hok Hn. unfold TimerGetTimeString. apply wpe_bind, wpe_wp, wp_timers_enter; [apply Hok|]. intros s1 E1 L1.
  unfold tget. apply wpe_bind, wpe_wp. wp_step. apply wpe_bind, wpe_wp. wp_step.
  pose proof (tk_level _ Hok). apply wpe_bind, wpe_wp, wp_timers_leave; [lia|]. intros s2 _ _.
  rewrite E1. change (m_nTicks (gTimer (timers_get s))) with (m_nTicks (clock s)).
  rewrite (proj2 (Z.eqb_neq _ _) Hn), render_time. by apply wpe_fail.
Qed.

(** The library counts with 100 ticks a second (include/uspios.h); the timer
    ticks 10 times. A delay in milliseconds takes ten times as long. *)
Lemma library_delay ms : 0 <= ms < 2 ^ 24 → ms mod 10 = 0 → MSEC2HZ ms * (CLOCKHZ / HZ) = 10 * (1000 * ms).
Proof. intros H1 H2. unfold MSEC2HZ, HostState.HZ. change (CLOCKHZ / HZ) with 100000. lia. Qed.

(** ** Witnesses *)
Module TimerDemo.
Definition World : Type := (Cpu * list event) * Timers.
#[export] Instance w_mmio : HasMmio World := {| mmio_get w := w.1.2; mmio_put h w := ((w.1.1, h), w.2) |}.
#[export] Instance w_cpu : HasCpu World := {| cpu_get w := w.1.1; cpu_put c w := ((c, w.1.2), w.2) |}.
#[export] Instance w_timers : HasTimers World := {| timers_get := snd; timers_put t w := (w.1, t) |}.
#[export] Instance w_mmio_laws : MmioLaws World.
Proof. split; intros; repeat match goal with s : World |- _ => destruct s as [[] ?] end; done. Qed.
#[export] Instance w_cpu_laws : CpuLaws World.
Proof. split; intros; repeat match goal with s : World |- _ => destruct s as [[] ?] end; done. Qed.
#[export] Instance w_timers_laws : TimersLaws World.
Proof. split; intros; repeat match goal with s : World |- _ => destruct s as [[] ?] end; done. Qed.

#[export] Instance board : Hardware := {|
  hw_read h a := if a =? ARM_SYSTIMER_CS then 8 else Z.of_nat (length h); hw_power_on _ _ := true |}.

(** The handler at 64 starts its timer again, the other does nothing. *)
Definition periodic (p h a x : Z) : M World unit :=
  if p =? 64 then _ ← TimerStartKernelTimer 2 64 a x; mret tt else mret tt.
Lemma periodic_keeps p h a x : keeps (periodic p h a x).
Proof.
  intros s Hok. unfold periodic. destruct (p =? 64); [|wp_step; apply others_step_refl].
  wp_step. eapply wp_mono; [by apply start_keeps|]. intros ? s' Hs. by wp_step.
Qed.

(** One timer runs, and the tick counter is about to wrap. *)
Definition world : World := (({| s_nCriticalLevel := 0; s_bWereEnabled := true; irq_masked := false |}, []),
  {| gTimer := static_timer <| initialized := true |> <| m_nTicks := 2 ^ 32 - 2 |> <| m_KernelTimer :=
       {| m_pHandler := 64; m_nElapsesAt := 2 ^ 32 - 1; m_pParam := 7; m_pContext := 8 |} :: replicate 19 no_timer |>;
     ran := [] |}).

(** The second slot is taken; after five ticks the handler has been called once,
    at the third, and the other one at the first, the third and the fifth. *)
Lemma timer_fires_witness :
  wp (h ← TimerStartKernelTimer 3 96 1 2; s1 ← get; ticking periodic (replicate 5 (mret tt)) ;; mret (h, s1)) (λ '(h, s1) s',
    (h = 2 ∧ ran s'.2 = [(64, 1, 7, 8); (96, 2, 1, 2); (64, 1, 7, 8); (64, 1, 7, 8)]) ∧
    (started 3 96 1 2 world h s1 ∧
    ∀ i, h = Z.of_nat i + 1 →
      let due := Z.max 1 3 in
      (Z.of_nat (length (replicate 5 (mret (M := M World) tt))) < due → calls_of i s' = calls_of i world) ∧
      (due <= Z.of_nat (length (replicate 5 (mret (M := M World) tt))) → ∃ later,
         calls_of i s' = later ++ (96, h, 1, 2) :: calls_of i world ∧
         (due = Z.of_nat (length (replicate 5 (mret (M := M World) tt))) → later = [])))) world.
Proof.
  eapply wp_mono; [apply wp_and; [|apply (timer_fires periodic periodic_keeps) with (s := world)]|].
  - instantiate (1 := λ x s', x.1 = 2 ∧ ran s'.2 = [(64, 1, 7, 8); (96, 2, 1, 2); (64, 1, 7, 8); (64, 1, 7, 8)]).
    vm_compute. by split.
  - intros h. vm_compute. reflexivity.
  - split; [reflexivity|vm_compute; split; [discriminate|reflexivity]|vm_compute; split; [discriminate|reflexivity]].
  - reflexivity.
  - lia.
  - lia.
  - apply Forall_replicate. intros s _. wp_step. apply others_step_refl.
  - intros [h s1] s' [H1 H2]. split; [exact H1|exact H2].
Defined.
End TimerDemo.
