(* ===== verification/PropertyTags.v ===== *)
(** * env/lib/bcmmailbox.c, bcmpropertytags.c: asking the firmware

    The mailbox between the processor and the firmware, the buffer of a property
    request in the coherent region, and the two requests of env/lib/uspibind.c:
    switching a device on and the board's MAC address. The firmware's part, what
    it puts into the mailbox and into the buffer, is not in the repository. *)
From S2P Require Import Prelude Register UsbBus KernelTimer.

(** env/include/uspienv: bcm2835.h, bcmpropertytags.h, sysconfig.h *)
Definition GPU_UNCACHED_BASE : Z := 0xC0000000.
Definition GPU_MEM_BASE : Z := GPU_UNCACHED_BASE.
Definition BUS_ADDRESS (phys : Z) : Z := Z.lor (Z.land phys (not32 0xC0000000)) GPU_MEM_BASE.
Definition MAILBOX_BASE : Z := ARM_IO_BASE + 0xB880.
Definition MAILBOX0_READ : Z := MAILBOX_BASE + 0x00.
Definition MAILBOX0_STATUS : Z := MAILBOX_BASE + 0x18.
Definition MAILBOX_STATUS_EMPTY : Z := 0x40000000.
Definition MAILBOX1_WRITE : Z := MAILBOX_BASE + 0x20.
Definition MAILBOX1_STATUS : Z := MAILBOX_BASE + 0x38.
Definition MAILBOX_STATUS_FULL : Z := 0x80000000.
Definition BCM_MAILBOX_PROP_OUT : Z := 8.
Definition MEM_COHERENT_REGION : Z := 0x400000.
Definition PROPTAG_END : Z := 0x00000000.
Definition PROPTAG_GET_MAC_ADDRESS : Z := 0x00010003.
Definition PROPTAG_SET_POWER_STATE : Z := 0x00028001.
Definition VALUE_LENGTH_RESPONSE : Z := Z.shiftl 1 31.
Definition POWER_STATE_ON : Z := Z.shiftl 1 0.
Definition POWER_STATE_WAIT : Z := Z.shiftl 1 1.
Definition POWER_STATE_NO_DEVICE : Z := Z.shiftl 1 1.
Definition CODE_REQUEST : Z := 0x00000000.
Definition CODE_RESPONSE_SUCCESS : Z := 0x80000000.

(** The structures: their sizes and the offsets of their members. *)
Definition sizeof_TPropertyBuffer : Z := 8.
Definition off_nBufferSize : nat := 0.
Definition off_nCode : nat := 4.
Definition off_Tags : nat := 8.
Definition sizeof_TPropertyTag : Z := 12.
Definition off_nTagId : nat := 0.
Definition off_nValueBufSize : nat := 4.
Definition off_nValueLength : nat := 8.
Definition sizeof_TPropertyTagSimple : Z := 16.
Definition sizeof_TPropertyTagPowerState : Z := 20.
Definition off_nDeviceId : nat := 12.
Definition off_nState : nat := 16.
Definition sizeof_TPropertyTagMACAddress : Z := 20.
Definition off_Address : nat := 12.

(** The object is its one member. *)
Record TBcmMailBox := { m_nChannel : Z }.
Record TBcmPropertyTags := { m_MailBox : TBcmMailBox }.

(** The coherent region, which the firmware reads and writes, too. *)
Class HasRegion (St : Type) := { region_get : St → buffer; region_put : buffer → St → St }.
Class RegionLaws (St : Type) `{HasMmio St, HasRegion St} := {
  region_get_put r s : region_get (region_put r s) = r;
  region_get_mmio h s : region_get (mmio_put h s) = region_get s;
  mmio_get_region r s : mmio_get (region_put r s) = mmio_get s
}.

Section Mailbox.
Context `{HW : Hardware} {St : Type} `{HM : HasMmio St} `{HR : HasRegion St}.

(** The loops have no bound in the source; [spin] bounds the rounds of each. *)
Context (spin : nat).

Definition BcmMailBox (nChannel : Z) : TBcmMailBox := {| m_nChannel := nChannel |}.

Fixpoint flush_loop (n : nat) : M St unit :=
  match n with
  | O => fail OutOfFuel
  | S n =>
      v ← read32 MAILBOX0_STATUS;
      if truthy (Z.land v MAILBOX_STATUS_EMPTY) then mret tt
      else _ ← read32 MAILBOX0_READ; MsDelay 20 ;; flush_loop n
  end.
Definition BcmMailBoxFlush : M St unit := flush_loop spin.

(** The inner loop of [BcmMailBoxRead], and that of [BcmMailBoxWrite]. *)
Fixpoint wait_flag (nAddress nMask : Z) (n : nat) : M St unit :=
  match n with
  | O => fail OutOfFuel
  | S n =>
      v ← read32 nAddress;
      if truthy (Z.land v nMask) then wait_flag nAddress nMask n else mret tt
  end.
Fixpoint channel_loop (pThis : TBcmMailBox) (n : nat) : M St Z :=
  match n with
  | O => fail OutOfFuel
  | S n =>
      wait_flag MAILBOX0_STATUS MAILBOX_STATUS_EMPTY spin ;;
      nResult ← read32 MAILBOX0_READ;
      if Z.land nResult 0xF =? m_nChannel pThis then mret (Z.land nResult (not32 0xF)) else channel_loop pThis n
  end.
Definition BcmMailBoxRead (pThis : TBcmMailBox) : M St Z := channel_loop pThis spin.

Definition BcmMailBoxWrite (pThis : TBcmMailBox) (nData : Z) : M St unit :=
  wait_flag MAILBOX1_STATUS MAILBOX_STATUS_FULL spin ;;
  c_assert (Z.land nData 0xF =? 0) ;;
  write32 MAILBOX1_WRITE (Z.lor (m_nChannel pThis) nData).

Definition BcmMailBoxWriteRead (pThis : TBcmMailBox) (nData : Z) : M St Z :=
  DataMemBarrier ;;
  BcmMailBoxFlush ;;
  BcmMailBoxWrite pThis nData ;;
  nResult ← BcmMailBoxRead pThis;
  DataMemBarrier ;;
  mret nResult.

(** ** Property tags *)

(** [firmware]: the bytes of the region when the answer to the request is in the
    mailbox, from the history and from what the processor has left there. *)
Context (firmware : list event → buffer → list Z).

Definition region_write (off : nat) (l : buffer) : M St unit :=
  r ← gets region_get;
  if (off + length l <=? length r)%nat then modify (region_put (overwrite off l r)) else fail MemFault.
Definition region_write32 (off : nat) (v : Z) : M St unit := region_write off (map Some (le_bytes 4 v)).
Definition region_read32 (off : nat) : M St Z := r ← gets region_get; le32_at r off.

Definition BcmPropertyTags : TBcmPropertyTags := {| m_MailBox := BcmMailBox BCM_MAILBOX_PROP_OUT |}.

(** [pTag] is the caller's structure, of [nTagSize] bytes; it is returned. *)
Definition BcmPropertyTagsGetTag (pThis : TBcmPropertyTags) (nTagId : Z) (pTag : buffer) (nTagSize nRequestParmSize : Z)
    : M St (bool * buffer) :=
  c_assert (sizeof_TPropertyTagSimple <=? nTagSize) ;;
  let nBufferSize := sizeof_TPropertyBuffer + nTagSize + 4 in
  c_assert (Z.land nBufferSize 3 =? 0) ;;
  region_write32 off_nBufferSize nBufferSize ;;
  region_write32 off_nCode CODE_REQUEST ;;
  region_write off_Tags pTag ;;
  region_write32 (off_Tags + off_nTagId) nTagId ;;
  region_write32 (off_Tags + off_nValueBufSize) (nTagSize - sizeof_TPropertyTag) ;;
  region_write32 (off_Tags + off_nValueLength) (Z.land nRequestParmSize (not32 VALUE_LENGTH_RESPONSE)) ;;
  region_write32 (off_Tags + Z.to_nat nTagSize) PROPTAG_END ;;
  let nBufferAddress := BUS_ADDRESS MEM_COHERENT_REGION in
  nResult ← BcmMailBoxWriteRead (m_MailBox pThis) nBufferAddress;
  modify (λ s, region_put (map Some (firmware (mmio_get s) (region_get s))) s) ;;
  if negb (nResult =? nBufferAddress) then mret (false, pTag)
  else
    DataMemBarrier ;;
    nCode ← region_read32 off_nCode;
    if negb (nCode =? CODE_RESPONSE_SUCCESS) then mret (false, pTag)
    else
      n ← region_read32 (off_Tags + off_nValueLength);
      if negb (truthy (Z.land n VALUE_LENGTH_RESPONSE)) then mret (false, pTag)
      else
        region_write32 (off_Tags + off_nValueLength) (Z.land n (not32 VALUE_LENGTH_RESPONSE)) ;;
        n ← region_read32 (off_Tags + off_nValueLength);
        if n =? 0 then mret (false, pTag)
        else
          r ← gets region_get;
          mret (true, take (Z.to_nat nTagSize) (drop off_Tags r)).

(** ** The requests, of env/lib/uspibind.c *)

Definition SetPowerStateOn (nDeviceId : Z) : M St Z :=
  let PowerState := overwrite off_nState (map Some (le_bytes 4 (Z.lor POWER_STATE_ON POWER_STATE_WAIT)))
    (overwrite off_nDeviceId (map Some (le_bytes 4 nDeviceId)) (blank sizeof_TPropertyTagPowerState)) in
  '(ok, PowerState) ← BcmPropertyTagsGetTag BcmPropertyTags PROPTAG_SET_POWER_STATE PowerState
                        sizeof_TPropertyTagPowerState 8;
  if negb ok then mret 0
  else
    v ← le32_at PowerState off_nState;
    mret (if truthy (Z.land v POWER_STATE_NO_DEVICE) || negb (truthy (Z.land v POWER_STATE_ON)) then 0 else 1).

(** [None]: it returned 0, and the caller's buffer was not written. *)
Definition GetMACAddress : M St (option buffer) :=
  '(ok, MACAddress) ← BcmPropertyTagsGetTag BcmPropertyTags PROPTAG_GET_MAC_ADDRESS
                        (blank sizeof_TPropertyTagMACAddress) sizeof_TPropertyTagMACAddress 0;
  mret (if ok : bool then Some (take 6 (drop off_Address MACAddress)) else None).
End Mailbox.

(** ** Properties *)

(** A mailbox: the messages that can be read and those on their way, by the
    history, and what the firmware answers to a message. Messages are read in
    order and none is lost; only a message from the processor brings new ones;
    one that is on its way arrives within [spin] looks at the status, and the
    processor's own mailbox is not full for longer. *)
Record mailbox_hw `{Hardware} (spin : nat) (seen coming : list event → list Z) (answer : list event → Z → list Z) : Prop := {
  mb_status h : truthy (Z.land (u32 (hw_read h MAILBOX0_STATUS)) MAILBOX_STATUS_EMPTY) = bool_decide (seen h = []);
  mb_head h x l : seen h = x :: l → u32 (hw_read h MAILBOX0_READ) = x;
  mb_read h x l v : seen h = x :: l → seen (EvRead MAILBOX0_READ v :: h) ++ coming (EvRead MAILBOX0_READ v :: h) = l ++ coming h;
  mb_write h v : seen (EvWrite MAILBOX1_WRITE v :: h) ++ coming (EvWrite MAILBOX1_WRITE v :: h) =
    seen h ++ coming h ++ answer h v;
  mb_other h e : (∀ v, e ≠ EvRead MAILBOX0_READ v) → (∀ v, e ≠ EvWrite MAILBOX1_WRITE v) →
    seen (e :: h) ++ coming (e :: h) = seen h ++ coming h;
  mb_quiet h e : (∀ v, e ≠ EvWrite MAILBOX1_WRITE v) → coming h = [] → coming (e :: h) = [];
  mb_kept h e : (∀ v, e ≠ EvRead MAILBOX0_READ v) → seen h ≠ [] → seen (e :: h) ≠ [];
  mb_soon h : seen h ++ coming h ≠ [] → ∃ k, (k < spin)%nat ∧ seen (reads k MAILBOX0_STATUS h) ≠ [];
  mb_room h : ∃ k, (k < spin)%nat ∧
    truthy (Z.land (u32 (hw_read (reads k MAILBOX1_STATUS h) MAILBOX1_STATUS)) MAILBOX_STATUS_FULL) = false
}.

Definition no_write (e : event) : Prop := ∀ a v, e ≠ EvWrite a v.

Section MailboxLaws.
Context `{HW : Hardware} {St : Type} `{HM : HasMmio St} `{HR : HasRegion St} `{!MmioLaws St} `{!RegionLaws St}.
Context (spin : nat) (seen coming : list event → list Z) (answer : list event → Z → list Z).
Context (HB : mailbox_hw spin seen coming answer).
Implicit Types s : St.

(** Only reads, waiting and barriers between the two. *)
Definition looked s s' : Prop :=
  region_get s' = region_get s ∧ ∃ new, mmio_get s' = new ++ mmio_get s ∧ Forall no_write new.

Lemma looked_refl s : looked s s.
Proof. split; [done|]. by exists []. Qed.
Lemma looked_trans s1 s2 s3 : looked s1 s2 → looked s2 s3 → looked s1 s3.
Proof.
  intros [E1 (n1 & H1 & F1)] [E2 (n2 & H2 & F2)]. split; [congruence|]. exists (n2 ++ n1).
  split; [by rewrite H2, H1, app_assoc|by apply Forall_app].
Qed.
Lemma looked_record e s : no_write e → looked s (record e s).
Proof.
  intros He. unfold record. split; [by rewrite region_get_mmio|]. exists [e]. split; [by rewrite mmio_get_put|].
  by apply Forall_cons.
Qed.

Lemma wp_read32 a (Q : Z → St → Prop) s :
  Q (u32 (hw_read (mmio_get s) a)) (record (EvRead a (u32 (hw_read (mmio_get s) a))) s) → wp (read32 a) Q s.
Proof. intros HQ. unfold read32. wp_step. wp_step. wp_step. apply wp_emit. by wp_step. Qed.

Lemma no_write_read a v : no_write (EvRead a v).
Proof. done. Qed.

Lemma reads_S k a h : reads (S k) a h = EvRead a (u32 (hw_read (reads k a h) a)) :: reads k a h.
Proof. revert h. induction k as [|k IH]; intros h; [done|]. change (reads (S (S k)) a h) with (reads (S k) a (EvRead a (u32 (hw_read h a)) :: h)). by rewrite IH. Qed.

(** Waiting for a flag that will be clear. *)
Lemma wp_wait_flag a mask k n s : (k < n)%nat →
  truthy (Z.land (u32 (hw_read (reads k a (mmio_get s)) a)) mask) = false →
  wp (wait_flag a mask n) (λ _ s', ∃ j, (j <= k)%nat ∧ looked s s' ∧ mmio_get s' = reads (S j) a (mmio_get s) ∧
    truthy (Z.land (u32 (hw_read (reads j a (mmio_get s)) a)) mask) = false) s.
Proof.
  revert k s. induction n as [|n IH]; intros k s Hk Hf; [lia|]. cbn [wait_flag]. wp_step. apply wp_read32.
  set (v := u32 (hw_read (mmio_get s) a)). set (s1 := record _ s).
  assert (mmio_get s1 = EvRead a v :: mmio_get s) as E1 by (unfold s1, record; apply mmio_get_put).
  assert (looked s s1) as L1 by by apply looked_record.
  destruct (truthy (Z.land v mask)) eqn:Ev.
  - destruct k as [|k]; [simpl in Hf; fold v in Hf; congruence|].
    eapply wp_mono; [apply (IH k); [lia|]|].
    + rewrite E1. exact Hf.
    + intros [] s' (j & Hj & L2 & Es & Et). exists (S j). split; [lia|]. split; [by eapply looked_trans|].
      rewrite E1 in Es, Et. split; [exact Es|exact Et].
  - wp_step. exists 0%nat. split; [lia|]. split; [done|]. split; [rewrite E1; done|exact Ev].
Qed.

Lemma pending_reads k a h : a ≠ MAILBOX0_READ →
  seen (reads k a h) ++ coming (reads k a h) = seen h ++ coming h.
Proof.
  intros Ha. revert h. induction k as [|k IH]; intros h; [done|]. cbn [reads]. rewrite IH.
  apply (mb_other _ _ _ _ HB); [|done]. intros v [=]. congruence.
Qed.
Lemma quiet_reads k a h : coming h = [] → coming (reads k a h) = [].
Proof.
  revert h. induction k as [|k IH]; intros h Hc; [done|]. cbn [reads]. apply IH. by apply (mb_quiet _ _ _ _ HB).
Qed.

Lemma wp_flush n s : coming (mmio_get s) = [] → (length (seen (mmio_get s)) < n)%nat →
  wp (flush_loop n) (λ _ s', looked s s' ∧ seen (mmio_get s') = [] ∧ coming (mmio_get s') = []) s.
Proof.
  revert s. induction n as [|n IH]; intros s Hc Hn; [lia|]. cbn [flush_loop]. wp_step. apply wp_read32.
  set (v := u32 (hw_read (mmio_get s) MAILBOX0_STATUS)). set (s1 := record _ s).
  assert (mmio_get s1 = EvRead MAILBOX0_STATUS v :: mmio_get s) as E1 by (unfold s1, record; apply mmio_get_put).
  assert (looked s s1) as L1 by by apply looked_record.
  assert (coming (mmio_get s1) = []) as Hc1 by (rewrite E1; by apply (mb_quiet _ _ _ _ HB)).
  assert (seen (mmio_get s1) = seen (mmio_get s)) as Hs1.
  { pose proof (mb_other _ _ _ _ HB (mmio_get s) (EvRead MAILBOX0_STATUS v) ltac:(done) ltac:(done)) as E.
    rewrite <- E1, Hc1, Hc, !app_nil_r in E. exact E. }
  unfold v at 1. rewrite (mb_status _ _ _ _ HB). case_bool_decide as Es.
  - wp_step. split; [done|]. by rewrite Hs1.
  - wp_step. apply wp_read32. set (x := u32 _). set (s2 := record _ s1). wp_step. unfold MsDelay. apply wp_emit.
    set (s3 := record _ s2).
    assert (mmio_get s2 = EvRead MAILBOX0_READ x :: mmio_get s1) as E2 by (unfold s2, record; apply mmio_get_put).
    assert (mmio_get s3 = EvMsDelay 20 :: mmio_get s2) as E3 by (unfold s3, record; apply mmio_get_put).
    assert (coming (mmio_get s2) = []) as Hc2 by (rewrite E2; by apply (mb_quiet _ _ _ _ HB)).
    assert (coming (mmio_get s3) = []) as Hc3 by (rewrite E3; by apply (mb_quiet _ _ _ _ HB)).
    destruct (seen (mmio_get s)) as [|y l] eqn:Ey; [done|].
    pose proof (mb_read _ _ _ _ HB (mmio_get s1) y l x Hs1) as E. rewrite <- E2, Hc2, Hc1, !app_nil_r in E.
    pose proof (mb_other _ _ _ _ HB (mmio_get s2) (EvMsDelay 20) ltac:(done) ltac:(done)) as E'.
    rewrite <- E3, Hc3, Hc2, !app_nil_r in E'.
    eapply wp_mono; [apply IH; [done|rewrite E', E; simpl in Hn; lia]|].
    intros [] s' (L & H1 & H2). split; [|done]. eapply looked_trans; [exact L1|].
    eapply looked_trans; [by apply (looked_record (EvRead MAILBOX0_READ x))|].
    eapply looked_trans; [by apply (looked_record (EvMsDelay 20))|exact L].
Qed.

(** The next message. *)
Lemma wp_next {A} (K : Z → M St A) y l (Q : A → St → Prop) s :
  seen (mmio_get s) ++ coming (mmio_get s) = y :: l →
  (∀ s', looked s s' → seen (mmio_get s') ++ coming (mmio_get s') = l → wp (K y) Q s') →
  wp (wait_flag MAILBOX0_STATUS MAILBOX_STATUS_EMPTY spin ;; v ← read32 MAILBOX0_READ; K v) Q s.
Proof.
  intros Hall HQ. destruct (mb_soon _ _ _ _ HB (mmio_get s)) as (k & Hk & Hseen); [by rewrite Hall|].
  wp_step. eapply wp_mono.
  { apply (wp_wait_flag _ _ k); [exact Hk|]. rewrite (mb_status _ _ _ _ HB). by apply bool_decide_eq_false_2. }
  cbv beta. intros [] s1 (j & _ & L1 & E1 & Et). rewrite (mb_status _ _ _ _ HB) in Et. apply bool_decide_eq_false_1 in Et.
  assert (seen (mmio_get s1) ++ coming (mmio_get s1) = y :: l) as A1.
  { rewrite E1, <- Hall. by apply pending_reads. }
  assert (seen (mmio_get s1) ≠ []) as N1.
  { rewrite E1, reads_S. by apply (mb_kept _ _ _ _ HB). }
  destruct (seen (mmio_get s1)) as [|y' l'] eqn:Ey; [done|]. injection A1 as -> A1.
  wp_step. apply wp_read32. rewrite (mb_head _ _ _ _ HB _ _ _ Ey). apply HQ.
  - eapply looked_trans; [exact L1|by apply looked_record].
  - unfold record. rewrite mmio_get_put. by rewrite (mb_read _ _ _ _ HB _ _ _ _ Ey).
Qed.

(** Reading until a message of the channel comes. *)
Lemma wp_channel pThis others x rest n s :
  seen (mmio_get s) ++ coming (mmio_get s) = others ++ x :: rest →
  Forall (λ y, Z.land y 0xF ≠ m_nChannel pThis) others → Z.land x 0xF = m_nChannel pThis → (length others < n)%nat →
  wp (channel_loop spin pThis n) (λ r s', r = Z.land x (not32 0xF) ∧ looked s s' ∧
    seen (mmio_get s') ++ coming (mmio_get s') = rest) s.
Proof.
  intros Hall Ho Hx. revert s n Hall. induction Ho as [|y others Hy Ho IH]; intros s [|n] Hall Hn; simpl in Hn; try lia;
    cbn [channel_loop]; (eapply wp_next; [exact Hall|]; intros s1 L1 A1).
  - rewrite (proj2 (Z.eqb_eq _ _) Hx). wp_step. done.
  - rewrite (proj2 (Z.eqb_neq _ _) Hy). eapply wp_mono; [apply IH; [exact A1|lia]|].
    intros r s' (-> & L2 & A2). split; [done|]. split; [by eapply looked_trans|done].
Qed.

Lemma wp_mailbox pThis nData others x rest s :
  coming (mmio_get s) = [] → (length (seen (mmio_get s)) < spin)%nat →
  (∀ h, answer h (Z.lor (m_nChannel pThis) nData) = others ++ x :: rest) →
  Forall (λ y, Z.land y 0xF ≠ m_nChannel pThis) others → Z.land x 0xF = m_nChannel pThis → (length others < spin)%nat →
  Z.land nData 0xF = 0 →
  wp (BcmMailBoxWriteRead spin pThis nData) (λ r s', r = Z.land x (not32 0xF) ∧ region_get s' = region_get s ∧
    seen (mmio_get s') ++ coming (mmio_get s') = rest ∧
    ∃ before after, mmio_get s' = after ++ EvWrite MAILBOX1_WRITE (Z.lor (m_nChannel pThis) nData) :: before ++ mmio_get s ∧
      Forall no_write before ∧ Forall no_write after) s.
Proof.
  intros Hc Hn Hans Ho Hx Hlen Hd. unfold BcmMailBoxWriteRead, BcmMailBoxFlush, BcmMailBoxWrite, BcmMailBoxRead, DataMemBarrier.
  wp_step. apply wp_emit. set (s0 := record EvBarrier s).
  assert (mmio_get s0 = EvBarrier :: mmio_get s) as E0 by (unfold s0, record; apply mmio_get_put).
  assert (coming (mmio_get s0) = []) as Hc0 by (rewrite E0; by apply (mb_quiet _ _ _ _ HB)).
  assert (seen (mmio_get s0) = seen (mmio_get s)) as Hs0.
  { pose proof (mb_other _ _ _ _ HB (mmio_get s) EvBarrier ltac:(done) ltac:(done)) as E.
    by rewrite <- E0, Hc0, Hc, !app_nil_r in E. }
  wp_step. eapply wp_mono; [apply wp_flush; [done|by rewrite Hs0]|]. cbv beta. intros [] s1 (L1 & S1 & C1).
  wp_step. wp_step. destruct (mb_room _ _ _ _ HB (mmio_get s1)) as (k & Hk & Hroom).
  eapply wp_mono; [by apply (wp_wait_flag _ _ k)|]. cbv beta. intros [] s2 (j & _ & L2 & E2 & _).
  wp_step. apply wp_assert; [by apply Z.eqb_eq|]. unfold write32. apply wp_emit. set (s3 := record _ s2).
  assert (mmio_get s3 = EvWrite MAILBOX1_WRITE (Z.lor (m_nChannel pThis) nData) :: mmio_get s2) as E3
    by (unfold s3, record; apply mmio_get_put).
  assert (seen (mmio_get s3) ++ coming (mmio_get s3) = others ++ x :: rest) as A3.
  { rewrite E3, (mb_write _ _ _ _ HB), Hans, E2, app_assoc, pending_reads by done. by rewrite S1, C1. }
  wp_step. eapply wp_mono; [by eapply wp_channel|]. cbv beta. intros r s4 (-> & L4 & A4).
  wp_step. apply wp_emit. wp_step. split; [done|].
  assert (looked s s2) as [R2 (before & H2 & F2)].
  { eapply looked_trans; [by apply (looked_record EvBarrier)|]. eapply looked_trans; [exact L1|exact L2]. }
  destruct L4 as [R4 (after & H4 & F4)]. unfold record. rewrite region_get_mmio, mmio_get_put.
  split; [rewrite R4; unfold s3, record; by rewrite region_get_mmio|]. split.
  - by rewrite (mb_other _ _ _ _ HB) by done.
  - exists before, (EvBarrier :: after). rewrite H4, E3, H2. split; [done|]. split; [done|by apply Forall_cons].
Qed.

(** *** The buffer of a request *)

Lemma wp_region_write off l (Q : unit → St → Prop) s : (off + length l <= length (region_get s))%nat →
  (∀ s', region_get s' = overwrite off l (region_get s) → length (region_get s') = length (region_get s) →
     mmio_get s' = mmio_get s → Q tt s') → wp (region_write off l) Q s.
Proof.
  intros Hl HQ. unfold region_write. wp_step. wp_step. rewrite (proj2 (Nat.leb_le _ _) Hl). wp_step.
  apply HQ; rewrite ?region_get_put; [done|by apply overwrite_length|apply mmio_get_region].
Qed.
Lemma wp_region_write32 off v (Q : unit → St → Prop) s : (off + 4 <= length (region_get s))%nat →
  (∀ s', region_get s' = overwrite off (map Some (le_bytes 4 v)) (region_get s) →
     length (region_get s') = length (region_get s) → mmio_get s' = mmio_get s → Q tt s') →
  wp (region_write32 off v) Q s.
Proof. intros Hl. apply wp_region_write. by rewrite length_map, le_bytes_length. Qed.
Lemma wp_region_read32 off d (Q : Z → St → Prop) s : region_get s = map Some d → (off + 4 <= length d)%nat →
  Q (le_value (take 4 (drop off d))) s → wp (region_read32 off) Q s.
Proof. intros E Hl HQ. unfold region_read32. wp_step. wp_step. rewrite E. by apply wp_le32_at. Qed.

(** The words of a message. *)
Definition words (l : list Z) : list Z := concat (map (le_bytes 4) l).
Definition word (d : list Z) (i : nat) : Z := le_value (take 4 (drop (4 * i) d)).

(** The buffer for a tag of 20 bytes, of which the last eight are the caller's. *)
Definition tag_request (nTagId nParam : Z) (value : buffer) : buffer :=
  map Some (words [32; CODE_REQUEST; nTagId; 8; nParam]) ++ value ++ map Some (words [PROPTAG_END]).

Lemma request_buffer nTagId nParam (pTag r : buffer) : length pTag = 20%nat → (32 <= length r)%nat →
  overwrite 28 (map Some (le_bytes 4 PROPTAG_END)) (overwrite 16 (map Some (le_bytes 4 nParam))
   (overwrite 12 (map Some (le_bytes 4 8)) (overwrite 8 (map Some (le_bytes 4 nTagId)) (overwrite 8 pTag
     (overwrite 4 (map Some (le_bytes 4 CODE_REQUEST)) (overwrite 0 (map Some (le_bytes 4 32)) r)))))) =
  tag_request nTagId nParam (drop 12 pTag) ++ drop 32 r.
Proof.
  intros Ht Hr. unfold tag_request, words.
  do 20 (destruct pTag as [|? pTag]; [done|]). destruct pTag; [|done]. clear Ht.
  do 32 (destruct r as [|? r]; [simpl in Hr; lia|]). clear Hr. reflexivity.
Qed.

(** The firmware leaves bytes in the whole region, and answers a request through
    the mailbox with one message of the channel, [x]. *)
Context (firmware : list event → buffer → list Z).
Context (Hlength : ∀ h r, (32 <= length r)%nat → length (firmware h r) = length r).
Context (others : list Z) (x : Z) (rest : list Z).
Definition address : Z := BUS_ADDRESS MEM_COHERENT_REGION.
Context (Hanswer : ∀ h, answer h (Z.lor BCM_MAILBOX_PROP_OUT address) = others ++ x :: rest).
Context (Hothers : Forall (λ y, Z.land y 0xF ≠ BCM_MAILBOX_PROP_OUT) others) (Hx : Z.land x 0xF = BCM_MAILBOX_PROP_OUT).
Context (Hfew : (length others < spin)%nat).

(** No request is on its way, and the region has room for one. *)
Record can_ask s : Prop := {
  ca_coming : coming (mmio_get s) = [];
  ca_seen : (length (seen (mmio_get s)) < spin)%nat;
  ca_region : (32 <= length (region_get s))%nat
}.

(** The one message that was sent. *)
Definition asked s s' : Prop :=
  ∃ before after, mmio_get s' = after ++ EvWrite MAILBOX1_WRITE (Z.lor BCM_MAILBOX_PROP_OUT address) :: before ++ mmio_get s ∧
    Forall no_write before ∧ Forall no_write after.

(** What the firmware must answer, and the tag that the caller then has. *)
Definition answered (d : list Z) : bool :=
  (Z.land x (not32 0xF) =? address) && (word d 1 =? CODE_RESPONSE_SUCCESS) &&
  Z.testbit (word d 4) 31 && negb (field 0 31 (word d 4) =? 0).
Definition answer_tag (d : list Z) : list Z :=
  take 8 (drop 8 d) ++ le_bytes 4 (field 0 31 (word d 4)) ++ take 8 (drop 20 d).

Lemma low_bits v : Z.land v (not32 VALUE_LENGTH_RESPONSE) = field 0 31 v.
Proof. unfold field. by rewrite Z.shiftr_0_r. Qed.

(** The length in the answer with its top bit cleared, written and read back. *)
Lemma overwrite_bytes k (new l : list Z) : overwrite k (map Some new) (map Some l) = map Some (overwrite k new l).
Proof.
  unfold overwrite. rewrite length_map, !map_app. f_equal; [symmetry; apply fmap_take|]. f_equal. symmetry. apply fmap_drop.
Qed.
Lemma answer_overwrite d v : (32 <= length d)%nat →
  take 20 (drop 8 (overwrite 16 (le_bytes 4 v) d)) = take 8 (drop 8 d) ++ le_bytes 4 v ++ take 8 (drop 20 d) ∧
  take 4 (drop 16 (overwrite 16 (le_bytes 4 v) d)) = le_bytes 4 v.
Proof.
  intros Hd. do 32 (destruct d as [|? d]; [simpl in Hd; lia|]). clear Hd. split; reflexivity.
Qed.

(** Laying out the request, for the rest of the code. *)
Lemma wp_request {A} nTagId nParam pTag (K : M St A) (Q : A → St → Prop) s : length pTag = 20%nat →
  (32 <= length (region_get s))%nat →
  (∀ s', region_get s' = tag_request nTagId nParam (drop 12 pTag) ++ drop 32 (region_get s) → mmio_get s' = mmio_get s →
     wp K Q s') →
  wp (region_write32 0 32 ;; region_write32 4 CODE_REQUEST ;; region_write 8 pTag ;; region_write32 8 nTagId ;;
      region_write32 12 8 ;; region_write32 16 nParam ;; region_write32 28 PROPTAG_END ;; K) Q s.
Proof.
  intros Ht Hr HK.
  wp_step. eapply wp_region_write32; [lia|]. intros s1 E1 L1 M1. wp_step. eapply wp_region_write32; [lia|]. intros s2 E2 L2 M2.
  wp_step. eapply wp_region_write; [lia|]. intros s3 E3 L3 M3. wp_step. eapply wp_region_write32; [lia|]. intros s4 E4 L4 M4.
  wp_step. eapply wp_region_write32; [lia|]. intros s5 E5 L5 M5. wp_step. eapply wp_region_write32; [lia|]. intros s6 E6 L6 M6.
  wp_step. eapply wp_region_write32; [lia|]. intros s7 E7 L7 M7.
  apply HK; [|congruence]. rewrite E7, E6, E5, E4, E3, E2, E1. by apply request_buffer.
Qed.

Lemma wp_get_tag nTagId nParam pTag s : can_ask s → length pTag = 20%nat →
  Z.land nParam (not32 VALUE_LENGTH_RESPONSE) = nParam →
  wp (BcmPropertyTagsGetTag spin firmware BcmPropertyTags nTagId pTag 20 nParam) (λ '(ok, t) s', asked s s' ∧
    ∃ h, let d := firmware h (tag_request nTagId nParam (drop 12 pTag) ++ drop 32 (region_get s)) in
      ok = answered d ∧ t = (if answered d then map Some (answer_tag d) else pTag)) s.
Proof.
  intros [Hc Hn Hr] Ht Hp. unfold BcmPropertyTagsGetTag. rewrite Hp.
  wp_step. apply wp_assert; [done|]. cbv zeta. wp_step. apply wp_assert; [done|].
  apply wp_request; [done|done|]. intros s1 R1 M1.
  wp_step. eapply wp_mono.
  { eapply wp_mailbox; [by rewrite M1|by rewrite M1|exact Hanswer|exact Hothers|exact Hx|exact Hfew|reflexivity]. }
  cbv beta. intros y s2 (-> & R2 & _ & Hasked). rewrite M1 in Hasked.
  wp_step. wp_step. rewrite R2, R1. set (q := tag_request _ _ _ ++ _). set (d := firmware (mmio_get s2) q).
  assert (length d = length (region_get s)) as Ld.
  { assert (length q = length (region_get s)) as <-; [|apply Hlength; unfold q]; unfold q, tag_request, words;
      rewrite !length_app, !length_map, !length_drop, Ht; simpl; lia. }
  set (s3 := region_put _ s2). assert (region_get s3 = map Some d) as R3 by (unfold s3; apply region_get_put).
  assert (asked s s3) as A3 by (unfold asked, s3; by rewrite mmio_get_region).
  remember (answered d) as a eqn:Ha.
  assert (∀ ok t s', mmio_get s' = mmio_get s3 ∨ mmio_get s' = EvBarrier :: mmio_get s3 →
    ok = a ∧ t = (if a then map Some (answer_tag d) else pTag) →
    asked s s' ∧ ∃ h, let d := firmware h q in
      ok = answered d ∧ t = (if answered d then map Some (answer_tag d) else pTag)) as Hdone.
  { intros ok t s' Hm H2. split; [|exists (mmio_get s2); cbv zeta; fold d; by rewrite <- Ha]. destruct A3 as (b & c & E & Hb & Hc').
    unfold asked. destruct Hm as [Em|Em]; rewrite Em; [by exists b, c|]. exists b, (EvBarrier :: c). rewrite E. split; [done|]. split; [done|by apply Forall_cons]. }
  fold address. unfold answered in Ha. clearbody q. destruct (Z.eqb_spec (Z.land x (not32 0xF)) address) as [_|_]; cbn [negb andb] in *.
  2: { wp_step. apply Hdone; [by left|by rewrite Ha]. }
  wp_step. unfold DataMemBarrier. apply wp_emit. set (s4 := record EvBarrier s3).
  assert (mmio_get s4 = EvBarrier :: mmio_get s3) as M4 by (unfold s4, record; apply mmio_get_put).
  assert (region_get s4 = map Some d) as R4 by (unfold s4, record; by rewrite region_get_mmio).
  wp_step. eapply wp_region_read32; [exact R4|unfold off_nCode; lia|]. fold (word d 1).
  change (take 4 (drop off_nCode d)) with (take 4 (drop (4 * 1) d)). fold (word d 1).
  destruct (Z.eqb_spec (word d 1) CODE_RESPONSE_SUCCESS) as [_|_]; cbn [negb andb] in *.
  2: { wp_step. apply Hdone; [by right|by rewrite Ha]. }
  wp_step. eapply wp_region_read32; [exact R4|unfold off_Tags, off_nValueLength; lia|].
  change (take 4 (drop (off_Tags + off_nValueLength) d)) with (take 4 (drop (4 * 4) d)). fold (word d 4).
  unfold VALUE_LENGTH_RESPONSE at 1. rewrite truthy_bit by lia. destruct (Z.testbit (word d 4) 31) eqn:Et; cbn [negb andb] in *.
  2: { wp_step. apply Hdone; [by right|by rewrite Ha]. }
  rewrite low_bits. set (v := field 0 31 (word d 4)) in *.
  assert (0 <= v < 2 ^ 31) as Hv by (unfold v, field; rewrite Z.land_ones by lia; lia).
  wp_step. apply wp_region_write32; [rewrite R4, length_map; unfold off_Tags, off_nValueLength; lia|]. intros s5 R5 _ M5.
  change (off_Tags + off_nValueLength)%nat with 16%nat in R5. rewrite R4, overwrite_bytes in R5.
  destruct (answer_overwrite d v) as [Ea Eb]; [lia|].
  wp_step. eapply wp_region_read32; [exact R5|rewrite overwrite_length; unfold off_Tags, off_nValueLength; rewrite ?le_bytes_length; lia|].
  change (off_Tags + off_nValueLength)%nat with 16%nat. rewrite Eb, le_value_bytes by (simpl; lia).
  destruct (Z.eqb_spec v 0); cbn [negb andb] in *; wp_step.
  { apply Hdone; [right; congruence|by rewrite Ha]. }
  wp_step. wp_step. apply Hdone; [right; congruence|]. rewrite Ha. split; [done|]. rewrite R5.
  change (map Some) with (fmap (M := list) (A := Z) Some). rewrite <- fmap_drop, <- fmap_take. f_equal. exact Ea.
Qed.

Lemma answer_tag_word d : (32 <= length d)%nat →
  take 4 (drop 16 (answer_tag d)) = take 4 (drop 24 d) ∧ take 6 (drop 12 (answer_tag d)) = take 6 (drop 20 d) ∧
  length (answer_tag d) = 20%nat.
Proof. intros Hd. unfold answer_tag. do 32 (destruct d as [|? d]; [simpl in Hd; lia|]). done. Qed.

(** The buffers of the two requests, as the firmware finds them. *)
Definition power_request (nDeviceId : Z) : buffer :=
  map Some (words [32; CODE_REQUEST; PROPTAG_SET_POWER_STATE; 8; 8; nDeviceId; 3; PROPTAG_END]).
Definition mac_request : buffer := tag_request PROPTAG_GET_MAC_ADDRESS 0 (blank 8).

Lemma firmware_length h nTagId nParam value s : length value = 8%nat → (32 <= length (region_get s))%nat →
  (32 <= length (firmware h (tag_request nTagId nParam value ++ drop 32 (region_get s))))%nat.
Proof.
  intros Hv Hr. rewrite Hlength; unfold tag_request, words; rewrite !length_app, !length_map, length_drop, Hv; simpl; lia.
Qed.

(** C30. The two requests to the firmware. If no request is on its way, each
    sends one message, after what was left in the mailbox has been taken out, and
    takes the first message of its channel that then comes as the answer, however
    long it takes and whatever other channels are sent before it. The buffer that
    the firmware finds is the request of the property interface: its size, the
    request code, the tag, the sizes of value and parameters, the value, the end
    tag. [SetPowerStateOn] returns 1 exactly if the buffer was answered and says
    that the device exists and is on; [GetMACAddress] returns the six bytes of
    the answer, and 0 exactly if the request failed. *)
Theorem firmware_requests nDeviceId s : can_ask s →
  wp (SetPowerStateOn spin firmware nDeviceId) (λ r s', asked s s' ∧
    ∃ h, let d := firmware h (power_request nDeviceId ++ drop 32 (region_get s)) in
      r = if answered d && Z.testbit (word d 6) 0 && negb (Z.testbit (word d 6) 1) then 1 else 0) s ∧
  wp (GetMACAddress spin firmware) (λ a s', asked s s' ∧
    ∃ h, let d := firmware h (mac_request ++ drop 32 (region_get s)) in
      a = if answered d then Some (map Some (take 6 (drop 20 d))) else None) s.
Proof.
  intros Hs. split.
  - unfold SetPowerStateOn. wp_step. eapply wp_mono; [by apply wp_get_tag|]. cbv beta.
    intros [ok t] s' (Ha & h & -> & ->).
    lazymatch goal with |- context [answered (firmware h ?q)] => change q with (power_request nDeviceId ++ drop 32 (region_get s)) end.
    set (d := firmware h _). assert (32 <= length d)%nat as Hd by (apply (firmware_length h _ _ (map Some (words [nDeviceId; 3]))); [done|apply Hs]).
    destruct (answered d) eqn:Ea; cbn [negb]; [|wp_step; split; [done|exists h; cbv zeta; fold d; by rewrite Ea]].
    destruct (answer_tag_word d Hd) as (E1 & _ & E2).
    wp_step. apply wp_le32_at; [rewrite E2; unfold off_nState; lia|]. change off_nState with 16%nat. rewrite E1.
    change (le_value _) with (word d 6). wp_step. split; [done|]. exists h. cbv zeta. fold d. rewrite Ea.
    unfold POWER_STATE_NO_DEVICE, POWER_STATE_ON. rewrite !truthy_bit by lia.
    by destruct (Z.testbit (word d 6) 1), (Z.testbit (word d 6) 0).
  - unfold GetMACAddress. wp_step. eapply wp_mono; [by apply wp_get_tag|]. cbv beta.
    intros [ok t] s' (Ha & h & -> & ->). wp_step. split; [done|]. exists h. cbv zeta.
    lazymatch goal with |- context [answered (firmware h ?q)] => change q with (mac_request ++ drop 32 (region_get s)) end.
    set (d := firmware h _). assert (32 <= length d)%nat as Hd by (apply (firmware_length h _ _ (blank 8)); [done|apply Hs]).
    destruct (answered d); [|done]. destruct (answer_tag_word d Hd) as (_ & E & _). f_equal.
    change (map Some) with (fmap (M := list) (A := Z) Some). rewrite <- fmap_drop, <- fmap_take. change off_Address with 12%nat.
    by rewrite E.
Qed.
End MailboxLaws.

(** ** A mailbox and a firmware for the witnesses *)
Module TagDemo.
Definition World : Type := list event * buffer.
#[export] Instance w_mmio : HasMmio World := {| mmio_get := fst; mmio_put h w := (h, w.2) |}.
#[export] Instance w_region : HasRegion World := {| region_get := snd; region_put r w := (w.1, r) |}.
#[export] Instance w_mmio_laws : MmioLaws World.
Proof. split; intros; repeat match goal with s : World |- _ => destruct s end; done. Qed.
#[export] Instance w_region_laws : RegionLaws World.
Proof. split; intros; repeat match goal with s : World |- _ => destruct s end; done. Qed.

(** An old message of the channel is in the mailbox. A message is answered by one
    of another channel and by itself; one arrives with every look at the status. *)
Definition answer (_ : list event) (v : Z) : list Z := [0x12; u32 v].
Fixpoint mailbox (h : list event) : list Z * list Z :=
  match h with
  | [] => ([0x18], [])
  | e :: h' =>
      let '(s, c) := mailbox h' in
      match e with
      | EvRead a _ =>
          if a =? MAILBOX0_READ then (tail s, c)
          else if a =? MAILBOX0_STATUS then (s ++ take 1 c, drop 1 c) else (s, c)
      | EvWrite a v => if a =? MAILBOX1_WRITE then (s, c ++ answer h' v) else (s, c)
      | _ => (s, c)
      end
  end.
Definition seen (h : list event) : list Z := (mailbox h).1.
Definition coming (h : list event) : list Z := (mailbox h).2.
#[export] Instance board : Hardware := {|
  hw_read h a :=
    if a =? MAILBOX0_STATUS then (if bool_decide (seen h = []) then MAILBOX_STATUS_EMPTY else 0)
    else if a =? MAILBOX0_READ then hd 0 (seen h) else 0;
  hw_power_on _ _ := true |}.

Lemma messages_u32 h : Forall is_u32 (seen h) ∧ Forall is_u32 (coming h).
Proof.
  unfold seen, coming. induction h as [|e h [H1 H2]]; cbn [mailbox].
  { split; [apply Forall_cons; [unfold is_u32; lia|apply Forall_nil_2]|apply Forall_nil_2]. }
  destruct (mailbox h) as [s c]. cbn [fst snd] in *. destruct e; try done.
  - destruct (a =? MAILBOX0_READ); [split; [by destruct s; [|apply Forall_cons_1 in H1 as [_ H1]]|done]|].
    destruct (a =? MAILBOX0_STATUS); [|done]. split; [apply Forall_app; split; [done|by apply Forall_take]|by apply Forall_drop].
  - destruct (a =? MAILBOX1_WRITE); [|done]. split; [done|]. apply Forall_app. split; [done|]. unfold answer.
    apply Forall_cons; [unfold is_u32; lia|]. apply Forall_cons; [apply u32_range|apply Forall_nil_2].
Qed.

Lemma board_mailbox : mailbox_hw 3 seen coming answer.
Proof.
  split.
  - intros h. simpl. by case_bool_decide.
  - intros h x l E. simpl. rewrite E. simpl. apply u32_id. destruct (messages_u32 h) as [H _]. rewrite E in H. by apply Forall_cons_1 in H as [? _].
  - intros h x l v E. unfold seen, coming in *. cbn [mailbox]. destruct (mailbox h) as [s c]. simpl in *. by subst s.
  - intros h v. unfold seen, coming. cbn [mailbox]. destruct (mailbox h) as [s c]. simpl. done.
  - intros h e He Hw. unfold seen, coming. cbn [mailbox]. destruct (mailbox h) as [s c]. destruct e; try done.
    + destruct (Z.eqb_spec a MAILBOX0_READ) as [->|]; [by destruct (He v)|]. destruct (a =? MAILBOX0_STATUS); [|done].
      cbn [fst snd]. by rewrite <- app_assoc, take_drop.
    + destruct (Z.eqb_spec a MAILBOX1_WRITE) as [->|]; [by destruct (Hw v)|done].
  - intros h e Hw. unfold coming. cbn [mailbox]. destruct (mailbox h) as [s c]. intros E. simpl in E. subst c.
    destruct e; try done; [by destruct (a =? MAILBOX0_READ), (a =? MAILBOX0_STATUS)|].
    destruct (Z.eqb_spec a MAILBOX1_WRITE) as [->|]; [by destruct (Hw v)|done].
  - intros h e He. unfold seen. cbn [mailbox]. destruct (mailbox h) as [s c]. simpl. intros Hs. destruct e; try done.
    + destruct (Z.eqb_spec a MAILBOX0_READ) as [->|]; [by destruct (He v)|]. destruct (a =? MAILBOX0_STATUS); [|done].
      simpl. by destruct s.
    + by destruct (a =? MAILBOX1_WRITE).
  - intros h Hn. exists 1%nat. split; [lia|]. unfold seen, coming in *. cbn [reads mailbox]. destruct (mailbox h) as [s c].
    simpl in *. destruct s; [|done]. by destruct c.
  - intros h. exists 0%nat. split; [lia|]. vm_compute. reflexivity.
Qed.

(** Every device exists and is on; the board's address is 1.2.3.4.5.6. *)
Definition firmware (_ : list event) (r : buffer) : list Z :=
  let b := overwrite 4 (le_bytes 4 0x80000000) (overwrite 16 (le_bytes 4 0x80000008) (map (default 0) r)) in
  if word b 2 =? PROPTAG_GET_MAC_ADDRESS then overwrite 20 [1; 2; 3; 4; 5; 6; 0; 0] b else overwrite 24 (le_bytes 4 1) b.
Lemma firmware_keeps h r : (32 <= length r)%nat → length (firmware h r) = length r.
Proof.
  intros Hr. unfold firmware.
  set (b := overwrite 4 _ _). assert (length b = length r) as Hb.
  { unfold b. rewrite !overwrite_length; rewrite ?overwrite_length; rewrite ?length_map, ?le_bytes_length; lia. }
  destruct (_ =? _); rewrite overwrite_length; rewrite ?le_bytes_length; simpl; lia.
Qed.

Definition world : World := ([], blank 64).

Lemma firmware_requests_witness :
  wp (SetPowerStateOn 3 firmware 3) (λ r s', r = 1 ∧ asked world s') world ∧
  wp (GetMACAddress 3 firmware) (λ a s', a = Some (map Some [1; 2; 3; 4; 5; 6]) ∧ asked world s') world.
Proof.
  destruct (firmware_requests 3 seen coming answer board_mailbox firmware firmware_keeps [0x12]
    (u32 (Z.lor BCM_MAILBOX_PROP_OUT address)) []) with (nDeviceId := 3) (s := world) as [H1 H2].
  - reflexivity.
  - apply Forall_cons; [discriminate|apply Forall_nil_2].
  - reflexivity.
  - simpl; lia.
  - split; [reflexivity|simpl; lia|simpl; lia].
  - split; (eapply wp_mono; [apply wp_and; [|first [exact H1|exact H2]]|]).
    + instantiate (1 := λ r _, r = 1). vm_compute. reflexivity.
    + intros r s' [Hr [Ha _]]. by split.
    + instantiate (1 := λ r _, r = Some (map Some [1; 2; 3; 4; 5; 6])). vm_compute. reflexivity.
    + intros r s' [Hr [Ha _]]. by split.
Defined.
End TagDemo.
