(* ===== verification/CharGen.v ===== *)
(** * env/lib/chargenerator.c and font.h: the shapes of characters

    A character is eight pixels wide and sixteen high, with three rows below it
    that stay empty for the cursor. *)
From S2P Require Import Prelude.

(** ** env/lib/font.h *)

(** [width], [height] and [extraheight]. *)
Definition font_width : Z := 8.
Definition font_height : Z := 16.
Definition extraheight : Z := 3.

(** The rows of a character from the top, bit 7 on the left. *)
Definition font_data : list (list Z) := [
  [0; 0; 24; 60; 60; 60; 24; 24; 24; 0; 24; 24; 0; 0; 0; 0];
  [0; 102; 102; 102; 36; 0; 0; 0; 0; 0; 0; 0; 0; 0; 0; 0];
  [0; 0; 0; 108; 108; 254; 108; 108; 108; 254; 108; 108; 0; 0; 0; 0];
  [0; 16; 16; 124; 214; 208; 208; 124; 22; 22; 214; 124; 16; 16; 0; 0];
  [0; 0; 0; 0; 194; 198; 12; 24; 48; 96; 198; 134; 0; 0; 0; 0];
  [0; 0; 56; 108; 108; 56; 118; 220; 204; 204; 204; 118; 0; 0; 0; 0];
  [0; 24; 24; 24; 48; 0; 0; 0; 0; 0; 0; 0; 0; 0; 0; 0];
  [0; 0; 12; 24; 48; 48; 48; 48; 48; 48; 24; 12; 0; 0; 0; 0];
  [0; 0; 48; 24; 12; 12; 12; 12; 12; 12; 24; 48; 0; 0; 0; 0];
  [0; 0; 0; 0; 0; 102; 60; 255; 60; 102; 0; 0; 0; 0; 0; 0];
  [0; 0; 0; 0; 0; 24; 24; 126; 24; 24; 0; 0; 0; 0; 0; 0];
  [0; 0; 0; 0; 0; 0; 0; 0; 0; 24; 24; 24; 48; 0; 0; 0];
  [0; 0; 0; 0; 0; 0; 0; 254; 0; 0; 0; 0; 0; 0; 0; 0];
  [0; 0; 0; 0; 0; 0; 0; 0; 0; 0; 24; 24; 0; 0; 0; 0];
  [0; 0; 0; 0; 0; 6; 12; 24; 48; 96; 192; 0; 0; 0; 0; 0];
  [0; 0; 124; 198; 206; 206; 214; 214; 230; 230; 198; 124; 0; 0; 0; 0];
  [0; 0; 24; 56; 120; 24; 24; 24; 24; 24; 24; 126; 0; 0; 0; 0];
  [0; 0; 124; 198; 6; 12; 24; 48; 96; 192; 198; 254; 0; 0; 0; 0];
  [0; 0; 124; 198; 6; 6; 60; 6; 6; 6; 198; 124; 0; 0; 0; 0];
  [0; 0; 12; 28; 60; 108; 204; 254; 12; 12; 12; 30; 0; 0; 0; 0];
  [0; 0; 254; 192; 192; 192; 252; 6; 6; 6; 198; 124; 0; 0; 0; 0];
  [0; 0; 56; 96; 192; 192; 252; 198; 198; 198; 198; 124; 0; 0; 0; 0];
  [0; 0; 254; 198; 6; 6; 12; 24; 48; 48; 48; 48; 0; 0; 0; 0];
  [0; 0; 124; 198; 198; 198; 124; 198; 198; 198; 198; 124; 0; 0; 0; 0];
  [0; 0; 124; 198; 198; 198; 126; 6; 6; 6; 12; 120; 0; 0; 0; 0];
  [0; 0; 0; 0; 24; 24; 0; 0; 0; 24; 24; 0; 0; 0; 0; 0];
  [0; 0; 0; 0; 24; 24; 0; 0; 0; 24; 24; 48; 0; 0; 0; 0];
  [0; 0; 0; 6; 12; 24; 48; 96; 48; 24; 12; 6; 0; 0; 0; 0];
  [0; 0; 0; 0; 0; 254; 0; 0; 254; 0; 0; 0; 0; 0; 0; 0];
  [0; 0; 0; 96; 48; 24; 12; 6; 12; 24; 48; 96; 0; 0; 0; 0];
  [0; 0; 124; 198; 198; 12; 24; 24; 24; 0; 24; 24; 0; 0; 0; 0];
  [0; 0; 124; 198; 198; 198; 222; 222; 222; 220; 192; 124; 0; 0; 0; 0];
  [0; 0; 16; 56; 108; 198; 198; 254; 198; 198; 198; 198; 0; 0; 0; 0];
  [0; 0; 252; 102; 102; 102; 124; 102; 102; 102; 102; 252; 0; 0; 0; 0];
  [0; 0; 60; 102; 194; 192; 192; 192; 192; 194; 102; 60; 0; 0; 0; 0];
  [0; 0; 248; 108; 102; 102; 102; 102; 102; 102; 108; 248; 0; 0; 0; 0];
  [0; 0; 254; 102; 98; 104; 120; 104; 96; 98; 102; 254; 0; 0; 0; 0];
  [0; 0; 254; 102; 98; 104; 120; 104; 96; 96; 96; 240; 0; 0; 0; 0];
  [0; 0; 60; 102; 194; 192; 192; 222; 198; 198; 102; 58; 0; 0; 0; 0];
  [0; 0; 198; 198; 198; 198; 254; 198; 198; 198; 198; 198; 0; 0; 0; 0];
  [0; 0; 60; 24; 24; 24; 24; 24; 24; 24; 24; 60; 0; 0; 0; 0];
  [0; 0; 30; 12; 12; 12; 12; 12; 204; 204; 204; 120; 0; 0; 0; 0];
  [0; 0; 230; 102; 102; 108; 120; 120; 108; 102; 102; 230; 0; 0; 0; 0];
  [0; 0; 240; 96; 96; 96; 96; 96; 96; 98; 102; 254; 0; 0; 0; 0];
  [0; 0; 198; 238; 254; 254; 214; 198; 198; 198; 198; 198; 0; 0; 0; 0];
  [0; 0; 198; 230; 246; 254; 222; 206; 198; 198; 198; 198; 0; 0; 0; 0];
  [0; 0; 124; 198; 198; 198; 198; 198; 198; 198; 198; 124; 0; 0; 0; 0];
  [0; 0; 252; 102; 102; 102; 124; 96; 96; 96; 96; 240; 0; 0; 0; 0];
  [0; 0; 124; 198; 198; 198; 198; 198; 198; 214; 222; 124; 12; 14; 0; 0];
  [0; 0; 252; 102; 102; 102; 124; 108; 102; 102; 102; 230; 0; 0; 0; 0];
  [0; 0; 124; 198; 198; 100; 56; 12; 6; 198; 198; 124; 0; 0; 0; 0];
  [0; 0; 126; 126; 90; 24; 24; 24; 24; 24; 24; 60; 0; 0; 0; 0];
  [0; 0; 198; 198; 198; 198; 198; 198; 198; 198; 198; 124; 0; 0; 0; 0];
  [0; 0; 198; 198; 198; 198; 198; 198; 198; 108; 56; 16; 0; 0; 0; 0];
  [0; 0; 198; 198; 198; 198; 214; 214; 214; 254; 238; 108; 0; 0; 0; 0];
  [0; 0; 198; 198; 108; 124; 56; 56; 124; 108; 198; 198; 0; 0; 0; 0];
  [0; 0; 102; 102; 102; 102; 60; 24; 24; 24; 24; 60; 0; 0; 0; 0];
  [0; 0; 254; 198; 134; 12; 24; 48; 96; 194; 198; 254; 0; 0; 0; 0];
  [0; 0; 60; 48; 48; 48; 48; 48; 48; 48; 48; 60; 0; 0; 0; 0];
  [0; 0; 0; 0; 0; 192; 96; 48; 24; 12; 6; 0; 0; 0; 0; 0];
  [0; 0; 60; 12; 12; 12; 12; 12; 12; 12; 12; 60; 0; 0; 0; 0];
  [16; 56; 108; 198; 0; 0; 0; 0; 0; 0; 0; 0; 0; 0; 0; 0];
  [0; 0; 0; 0; 0; 0; 0; 0; 0; 0; 0; 0; 0; 0; 255; 0];
  [0; 48; 48; 48; 24; 0; 0; 0; 0; 0; 0; 0; 0; 0; 0; 0];
  [0; 0; 0; 0; 0; 120; 12; 124; 204; 204; 204; 118; 0; 0; 0; 0];
  [0; 0; 224; 96; 96; 120; 108; 102; 102; 102; 102; 124; 0; 0; 0; 0];
  [0; 0; 0; 0; 0; 124; 198; 192; 192; 192; 198; 124; 0; 0; 0; 0];
  [0; 0; 28; 12; 12; 60; 108; 204; 204; 204; 204; 118; 0; 0; 0; 0];
  [0; 0; 0; 0; 0; 124; 198; 254; 192; 192; 198; 124; 0; 0; 0; 0];
  [0; 0; 56; 108; 100; 96; 240; 96; 96; 96; 96; 240; 0; 0; 0; 0];
  [0; 0; 0; 0; 0; 118; 204; 204; 204; 204; 204; 124; 12; 204; 120; 0];
  [0; 0; 224; 96; 96; 108; 118; 102; 102; 102; 102; 230; 0; 0; 0; 0];
  [0; 0; 24; 24; 0; 56; 24; 24; 24; 24; 24; 60; 0; 0; 0; 0];
  [0; 0; 6; 6; 0; 14; 6; 6; 6; 6; 6; 6; 102; 102; 60; 0];
  [0; 0; 224; 96; 96; 102; 108; 120; 120; 108; 102; 230; 0; 0; 0; 0];
  [0; 0; 56; 24; 24; 24; 24; 24; 24; 24; 24; 60; 0; 0; 0; 0];
  [0; 0; 0; 0; 0; 236; 254; 214; 214; 214; 214; 198; 0; 0; 0; 0];
  [0; 0; 0; 0; 0; 220; 102; 102; 102; 102; 102; 102; 0; 0; 0; 0];
  [0; 0; 0; 0; 0; 124; 198; 198; 198; 198; 198; 124; 0; 0; 0; 0];
  [0; 0; 0; 0; 0; 220; 102; 102; 102; 102; 102; 124; 96; 96; 240; 0];
  [0; 0; 0; 0; 0; 118; 204; 204; 204; 204; 204; 124; 12; 12; 30; 0];
  [0; 0; 0; 0; 0; 220; 118; 102; 96; 96; 96; 240; 0; 0; 0; 0];
  [0; 0; 0; 0; 0; 124; 198; 96; 56; 12; 198; 124; 0; 0; 0; 0];
  [0; 0; 16; 48; 48; 252; 48; 48; 48; 48; 54; 28; 0; 0; 0; 0];
  [0; 0; 0; 0; 0; 204; 204; 204; 204; 204; 204; 118; 0; 0; 0; 0];
  [0; 0; 0; 0; 0; 102; 102; 102; 102; 102; 60; 24; 0; 0; 0; 0];
  [0; 0; 0; 0; 0; 198; 198; 214; 214; 214; 254; 108; 0; 0; 0; 0];
  [0; 0; 0; 0; 0; 198; 108; 56; 56; 56; 108; 198; 0; 0; 0; 0];
  [0; 0; 0; 0; 0; 198; 198; 198; 198; 198; 198; 126; 6; 12; 248; 0];
  [0; 0; 0; 0; 0; 254; 204; 24; 48; 96; 198; 254; 0; 0; 0; 0];
  [0; 0; 14; 24; 24; 24; 112; 24; 24; 24; 24; 14; 0; 0; 0; 0];
  [0; 0; 24; 24; 24; 24; 24; 24; 24; 24; 24; 24; 0; 0; 0; 0];
  [0; 0; 112; 24; 24; 24; 14; 24; 24; 24; 24; 112; 0; 0; 0; 0];
  [0; 0; 118; 220; 0; 0; 0; 0; 0; 0; 0; 0; 0; 0; 0; 0];
  [0; 0; 126; 195; 153; 153; 243; 231; 231; 255; 231; 231; 126; 0; 0; 0];
  [0; 0; 126; 195; 153; 153; 243; 231; 231; 255; 231; 231; 126; 0; 0; 0];
  [0; 0; 126; 195; 153; 153; 243; 231; 231; 255; 231; 231; 126; 0; 0; 0];
  [0; 0; 126; 195; 153; 153; 243; 231; 231; 255; 231; 231; 126; 0; 0; 0];
  [0; 0; 126; 195; 153; 153; 243; 231; 231; 255; 231; 231; 126; 0; 0; 0];
  [0; 0; 126; 195; 153; 153; 243; 231; 231; 255; 231; 231; 126; 0; 0; 0];
  [0; 0; 126; 195; 153; 153; 243; 231; 231; 255; 231; 231; 126; 0; 0; 0];
  [0; 0; 126; 195; 153; 153; 243; 231; 231; 255; 231; 231; 126; 0; 0; 0];
  [0; 0; 126; 195; 153; 153; 243; 231; 231; 255; 231; 231; 126; 0; 0; 0];
  [0; 0; 126; 195; 153; 153; 243; 231; 231; 255; 231; 231; 126; 0; 0; 0];
  [0; 0; 126; 195; 153; 153; 243; 231; 231; 255; 231; 231; 126; 0; 0; 0];
  [0; 0; 126; 195; 153; 153; 243; 231; 231; 255; 231; 231; 126; 0; 0; 0];
  [0; 0; 126; 195; 153; 153; 243; 231; 231; 255; 231; 231; 126; 0; 0; 0];
  [0; 0; 126; 195; 153; 153; 243; 231; 231; 255; 231; 231; 126; 0; 0; 0];
  [0; 0; 126; 195; 153; 153; 243; 231; 231; 255; 231; 231; 126; 0; 0; 0];
  [0; 0; 126; 195; 153; 153; 243; 231; 231; 255; 231; 231; 126; 0; 0; 0];
  [0; 0; 126; 195; 153; 153; 243; 231; 231; 255; 231; 231; 126; 0; 0; 0];
  [0; 0; 126; 195; 153; 153; 243; 231; 231; 255; 231; 231; 126; 0; 0; 0];
  [0; 0; 126; 195; 153; 153; 243; 231; 231; 255; 231; 231; 126; 0; 0; 0];
  [0; 0; 126; 195; 153; 153; 243; 231; 231; 255; 231; 231; 126; 0; 0; 0];
  [0; 0; 126; 195; 153; 153; 243; 231; 231; 255; 231; 231; 126; 0; 0; 0];
  [0; 0; 126; 195; 153; 153; 243; 231; 231; 255; 231; 231; 126; 0; 0; 0];
  [0; 0; 126; 195; 153; 153; 243; 231; 231; 255; 231; 231; 126; 0; 0; 0];
  [0; 0; 126; 195; 153; 153; 243; 231; 231; 255; 231; 231; 126; 0; 0; 0];
  [0; 0; 126; 195; 153; 153; 243; 231; 231; 255; 231; 231; 126; 0; 0; 0];
  [0; 0; 126; 195; 153; 153; 243; 231; 231; 255; 231; 231; 126; 0; 0; 0];
  [0; 0; 126; 195; 153; 153; 243; 231; 231; 255; 231; 231; 126; 0; 0; 0];
  [0; 0; 126; 195; 153; 153; 243; 231; 231; 255; 231; 231; 126; 0; 0; 0];
  [0; 0; 126; 195; 153; 153; 243; 231; 231; 255; 231; 231; 126; 0; 0; 0];
  [0; 0; 126; 195; 153; 153; 243; 231; 231; 255; 231; 231; 126; 0; 0; 0];
  [0; 0; 126; 195; 153; 153; 243; 231; 231; 255; 231; 231; 126; 0; 0; 0];
  [0; 0; 126; 195; 153; 153; 243; 231; 231; 255; 231; 231; 126; 0; 0; 0];
  [0; 0; 126; 195; 153; 153; 243; 231; 231; 255; 231; 231; 126; 0; 0; 0];
  [0; 0; 0; 0; 0; 0; 0; 0; 0; 0; 130; 254; 0; 0; 0; 0];
  [0; 0; 0; 0; 24; 24; 0; 24; 24; 24; 60; 60; 60; 24; 0; 0];
  [0; 0; 0; 0; 16; 124; 214; 208; 208; 208; 214; 124; 16; 0; 0; 0];
  [0; 0; 56; 108; 96; 96; 240; 96; 96; 102; 246; 108; 0; 0; 0; 0];
  [0; 0; 0; 0; 198; 124; 108; 108; 124; 198; 0; 0; 0; 0; 0; 0];
  [0; 0; 102; 102; 60; 24; 126; 24; 126; 24; 24; 24; 0; 0; 0; 0];
  [0; 0; 24; 24; 24; 24; 0; 24; 24; 24; 24; 24; 0; 0; 0; 0];
  [0; 124; 198; 96; 56; 108; 198; 198; 108; 56; 12; 198; 124; 0; 0; 0];
  [0; 108; 108; 0; 0; 0; 0; 0; 0; 0; 0; 0; 0; 0; 0; 0];
  [0; 0; 60; 66; 153; 165; 161; 165; 153; 66; 60; 0; 0; 0; 0; 0];
  [0; 0; 60; 108; 108; 62; 0; 126; 0; 0; 0; 0; 0; 0; 0; 0];
  [0; 0; 0; 0; 0; 54; 108; 216; 108; 54; 0; 0; 0; 0; 0; 0];
  [0; 0; 0; 0; 0; 0; 254; 6; 6; 6; 6; 0; 0; 0; 0; 0];
  [0; 0; 0; 0; 0; 0; 0; 126; 0; 0; 0; 0; 0; 0; 0; 0];
  [0; 0; 60; 66; 185; 165; 185; 165; 165; 66; 60; 0; 0; 0; 0; 0];
  [255; 0; 0; 0; 0; 0; 0; 0; 0; 0; 0; 0; 0; 0; 0; 0];
  [0; 56; 108; 108; 56; 0; 0; 0; 0; 0; 0; 0; 0; 0; 0; 0];
  [0; 0; 0; 0; 0; 24; 24; 126; 24; 24; 0; 126; 0; 0; 0; 0];
  [56; 108; 24; 48; 124; 0; 0; 0; 0; 0; 0; 0; 0; 0; 0; 0];
  [56; 108; 24; 108; 56; 0; 0; 0; 0; 0; 0; 0; 0; 0; 0; 0];
  [0; 24; 48; 96; 0; 0; 0; 0; 0; 0; 0; 0; 0; 0; 0; 0];
  [0; 0; 0; 0; 0; 204; 204; 204; 204; 204; 204; 246; 192; 192; 192; 0];
  [0; 0; 127; 214; 214; 118; 54; 54; 54; 54; 54; 54; 0; 0; 0; 0];
  [0; 0; 0; 0; 0; 0; 24; 24; 0; 0; 0; 0; 0; 0; 0; 0];
  [0; 0; 0; 0; 0; 0; 0; 0; 0; 0; 0; 0; 24; 108; 56; 0];
  [48; 112; 48; 48; 120; 0; 0; 0; 0; 0; 0; 0; 0; 0; 0; 0];
  [0; 0; 56; 108; 108; 56; 0; 124; 0; 0; 0; 0; 0; 0; 0; 0];
  [0; 0; 0; 0; 0; 216; 108; 54; 108; 216; 0; 0; 0; 0; 0; 0];
  [96; 224; 96; 96; 246; 12; 24; 48; 102; 206; 26; 63; 6; 6; 0; 0];
  [96; 224; 96; 96; 246; 12; 24; 48; 110; 219; 6; 12; 31; 0; 0; 0];
  [112; 216; 48; 216; 118; 12; 24; 48; 102; 206; 26; 63; 6; 6; 0; 0];
  [0; 0; 0; 0; 48; 48; 0; 48; 48; 48; 96; 198; 198; 124; 0; 0];
  [96; 48; 0; 56; 108; 198; 198; 254; 198; 198; 198; 198; 0; 0; 0; 0];
  [12; 24; 0; 56; 108; 198; 198; 254; 198; 198; 198; 198; 0; 0; 0; 0];
  [16; 56; 108; 0; 56; 108; 198; 198; 254; 198; 198; 198; 0; 0; 0; 0];
  [118; 220; 0; 56; 108; 198; 198; 254; 198; 198; 198; 198; 0; 0; 0; 0];
  [0; 108; 0; 56; 108; 198; 198; 254; 198; 198; 198; 198; 0; 0; 0; 0];
  [56; 108; 56; 0; 56; 108; 198; 198; 254; 198; 198; 198; 0; 0; 0; 0];
  [0; 0; 62; 120; 216; 216; 252; 216; 216; 216; 216; 222; 0; 0; 0; 0];
  [0; 0; 60; 102; 194; 192; 192; 192; 192; 194; 102; 60; 12; 102; 60; 0];
  [96; 48; 0; 254; 102; 96; 96; 124; 96; 96; 102; 254; 0; 0; 0; 0];
  [12; 24; 0; 254; 102; 96; 96; 124; 96; 96; 102; 254; 0; 0; 0; 0];
  [16; 56; 108; 0; 254; 102; 96; 124; 96; 96; 102; 254; 0; 0; 0; 0];
  [0; 108; 0; 254; 102; 96; 96; 124; 96; 96; 102; 254; 0; 0; 0; 0];
  [96; 48; 0; 60; 24; 24; 24; 24; 24; 24; 24; 60; 8; 0; 0; 0];
  [6; 12; 0; 60; 24; 24; 24; 24; 24; 24; 24; 60; 0; 0; 0; 0];
  [24; 60; 102; 0; 60; 24; 24; 24; 24; 24; 24; 60; 0; 0; 0; 0];
  [0; 102; 0; 60; 24; 24; 24; 24; 24; 24; 24; 60; 0; 0; 0; 0];
  [0; 0; 248; 108; 102; 102; 246; 102; 102; 102; 108; 248; 0; 0; 0; 0];
  [118; 220; 0; 198; 230; 246; 254; 222; 206; 198; 198; 198; 0; 0; 0; 0];
  [96; 48; 0; 124; 198; 198; 198; 198; 198; 198; 198; 124; 0; 0; 0; 0];
  [12; 24; 0; 124; 198; 198; 198; 198; 198; 198; 198; 124; 0; 0; 0; 0];
  [16; 56; 108; 0; 124; 198; 198; 198; 198; 198; 198; 124; 0; 0; 0; 0];
  [118; 220; 0; 124; 198; 198; 198; 198; 198; 198; 198; 124; 0; 0; 0; 0];
  [0; 108; 0; 124; 198; 198; 198; 198; 198; 198; 198; 124; 0; 0; 0; 0];
  [0; 0; 0; 0; 0; 102; 60; 24; 60; 102; 0; 0; 0; 0; 0; 0];
  [0; 0; 126; 198; 206; 206; 222; 246; 230; 230; 198; 252; 0; 0; 0; 0];
  [96; 48; 0; 198; 198; 198; 198; 198; 198; 198; 198; 124; 0; 0; 0; 0];
  [12; 24; 0; 198; 198; 198; 198; 198; 198; 198; 198; 124; 0; 0; 0; 0];
  [16; 56; 108; 0; 198; 198; 198; 198; 198; 198; 198; 124; 0; 0; 0; 0];
  [0; 108; 0; 198; 198; 198; 198; 198; 198; 198; 198; 124; 0; 0; 0; 0];
  [6; 12; 0; 102; 102; 102; 102; 60; 24; 24; 24; 60; 0; 0; 0; 0];
  [0; 0; 240; 96; 124; 102; 102; 102; 102; 124; 96; 240; 0; 0; 0; 0];
  [0; 0; 124; 198; 198; 198; 204; 198; 198; 198; 214; 220; 128; 0; 0; 0];
  [0; 96; 48; 24; 0; 120; 12; 124; 204; 204; 204; 118; 0; 0; 0; 0];
  [0; 24; 48; 96; 0; 120; 12; 124; 204; 204; 204; 118; 0; 0; 0; 0];
  [0; 16; 56; 108; 0; 120; 12; 124; 204; 204; 204; 118; 0; 0; 0; 0];
  [0; 0; 118; 220; 0; 120; 12; 124; 204; 204; 204; 118; 0; 0; 0; 0];
  [0; 0; 0; 108; 0; 120; 12; 124; 204; 204; 204; 118; 0; 0; 0; 0];
  [0; 56; 108; 56; 0; 120; 12; 124; 204; 204; 204; 118; 0; 0; 0; 0];
  [0; 0; 0; 0; 0; 126; 219; 27; 127; 216; 219; 126; 0; 0; 0; 0];
  [0; 0; 0; 0; 0; 124; 198; 192; 192; 192; 198; 124; 24; 108; 56; 0];
  [0; 96; 48; 24; 0; 124; 198; 254; 192; 192; 198; 124; 0; 0; 0; 0];
  [0; 12; 24; 48; 0; 124; 198; 254; 192; 192; 198; 124; 0; 0; 0; 0];
  [0; 16; 56; 108; 0; 124; 198; 254; 192; 192; 198; 124; 0; 0; 0; 0];
  [0; 0; 0; 108; 0; 124; 198; 254; 192; 192; 198; 124; 0; 0; 0; 0];
  [0; 96; 48; 24; 0; 56; 24; 24; 24; 24; 24; 60; 0; 0; 0; 0];
  [0; 12; 24; 48; 0; 56; 24; 24; 24; 24; 24; 60; 0; 0; 0; 0];
  [0; 24; 60; 102; 0; 56; 24; 24; 24; 24; 24; 60; 0; 0; 0; 0];
  [0; 0; 0; 108; 0; 56; 24; 24; 24; 24; 24; 60; 0; 0; 0; 0];
  [0; 120; 48; 120; 12; 126; 198; 198; 198; 198; 198; 124; 0; 0; 0; 0];
  [0; 0; 118; 220; 0; 220; 102; 102; 102; 102; 102; 102; 0; 0; 0; 0];
  [0; 96; 48; 24; 0; 124; 198; 198; 198; 198; 198; 124; 0; 0; 0; 0];
  [0; 12; 24; 48; 0; 124; 198; 198; 198; 198; 198; 124; 0; 0; 0; 0];
  [0; 16; 56; 108; 0; 124; 198; 198; 198; 198; 198; 124; 0; 0; 0; 0];
  [0; 0; 118; 220; 0; 124; 198; 198; 198; 198; 198; 124; 0; 0; 0; 0];
  [0; 0; 0; 108; 0; 124; 198; 198; 198; 198; 198; 124; 0; 0; 0; 0];
  [0; 0; 0; 0; 0; 24; 0; 126; 0; 24; 0; 0; 0; 0; 0; 0];
  [0; 0; 0; 0; 0; 126; 206; 222; 254; 246; 230; 252; 0; 0; 0; 0];
  [0; 96; 48; 24; 0; 204; 204; 204; 204; 204; 204; 118; 0; 0; 0; 0];
  [0; 24; 48; 96; 0; 204; 204; 204; 204; 204; 204; 118; 0; 0; 0; 0];
  [0; 48; 120; 204; 0; 204; 204; 204; 204; 204; 204; 118; 0; 0; 0; 0];
  [0; 0; 0; 204; 0; 204; 204; 204; 204; 204; 204; 118; 0; 0; 0; 0];
  [0; 12; 24; 48; 0; 198; 198; 198; 198; 198; 198; 126; 6; 12; 248; 0];
  [0; 0; 240; 96; 96; 124; 102; 102; 102; 102; 124; 96; 96; 240; 0; 0];
  [0; 0; 0; 108; 0; 198; 198; 198; 198; 198; 198; 126; 6; 12; 248; 0]].

(** ** env/lib/chargenerator.c *)

Definition FIRSTCHAR : Z := 0x21.
Definition LASTCHAR : Z := 0xFF.
Definition CHARCOUNT : Z := LASTCHAR - FIRSTCHAR + 1.

Record TCharGenerator := { m_nCharWidth : Z }.

Definition CharGenerator : TCharGenerator := {| m_nCharWidth := font_width |}.
Definition CharGeneratorGetCharWidth (pThis : TCharGenerator) : Z := m_nCharWidth pThis.
Definition CharGeneratorGetCharHeight (pThis : TCharGenerator) : Z := font_height + extraheight.
Definition CharGeneratorGetUnderline (pThis : TCharGenerator) : Z := font_height.

Definition CharGeneratorGetPixel {St} (pThis : TCharGenerator) (chAscii nPosX nPosY : Z) : M St bool :=
  let nAscii := u8 chAscii in
  if (nAscii <? FIRSTCHAR) || (LASTCHAR <? nAscii) then mret false
  else
    let nIndex := nAscii - FIRSTCHAR in
    c_assert (nIndex <? CHARCOUNT) ;;
    c_assert (nPosX <? m_nCharWidth pThis) ;;
    if font_height <=? nPosY then mret false
    else
      match font_data !! Z.to_nat nIndex ≫= (λ l, l !! Z.to_nat nPosY) with
      | Some row => mret (truthy (Z.land row (Z.shiftr 0x80 nPosX)))
      | None => fail MemFault
      end.

(** ** The shape of a character *)

(** Whether the pixel is set, and that the table has every character. *)
Definition glyph (ch x y : Z) : bool :=
  match font_data !! Z.to_nat (u8 ch - FIRSTCHAR) ≫= (λ l, l !! Z.to_nat y) with
  | Some row => (FIRSTCHAR <=? u8 ch) && (y <? font_height) && Z.testbit row (7 - x)
  | None => false
  end.

Lemma font_size : length font_data = Z.to_nat CHARCOUNT ∧ Forall (λ l, length l = Z.to_nat font_height) font_data.
Proof. split; [reflexivity|]. repeat constructor. Qed.

Lemma font_row ch y : FIRSTCHAR <= u8 ch → 0 <= y < font_height →
  is_Some (font_data !! Z.to_nat (u8 ch - FIRSTCHAR) ≫= (λ l, l !! Z.to_nat y)).
Proof.
  intros Hc Hy. destruct font_size as [Hl Hr]. pose proof (u8_range ch) as Hu. unfold is_u8 in Hu.
  destruct (lookup_lt_is_Some_2 font_data (Z.to_nat (u8 ch - FIRSTCHAR))) as [l El].
  { rewrite Hl. change CHARCOUNT with 223. unfold FIRSTCHAR in *. lia. }
  rewrite El. simpl. apply lookup_lt_is_Some_2. rewrite Forall_lookup in Hr. rewrite (Hr _ _ El). lia.
Qed.

Lemma wp_GetPixel {St} ch x y (Q : bool → St → Prop) s :
  0 <= x < 8 → 0 <= y → Q (glyph ch x y) s → wp (CharGeneratorGetPixel CharGenerator ch x y) Q s.
Proof.
  intros Hx Hy HQ. unfold CharGeneratorGetPixel. pose proof (u8_range ch) as Hu. unfold is_u8 in Hu.
  unfold glyph in HQ. destruct (Z.ltb_spec (u8 ch) FIRSTCHAR) as [Hlt|Hge]; cbn [orb].
  { rewrite (proj2 (Z.leb_gt _ _)) in HQ by lia. apply wp_ret. by destruct (_ ≫= _). }
  rewrite (proj2 (Z.ltb_ge LASTCHAR _)) by (unfold LASTCHAR; lia).
  cbv zeta. wp_step. apply wp_assert; [apply Z.ltb_lt; change CHARCOUNT with 223; unfold FIRSTCHAR in *; lia|].
  wp_step. apply wp_assert; [apply Z.ltb_lt; simpl; unfold font_width; lia|].
  destruct (Z.leb_spec font_height y) as [Hh|Hh].
  { apply wp_ret. destruct (_ ≫= _); [|done]. by rewrite (proj2 (Z.ltb_ge _ _)), andb_false_r in HQ by lia. }
  destruct (font_row ch y Hge) as [row Er]; [lia|]. rewrite Er in *. apply wp_ret.
  rewrite (proj2 (Z.leb_le _ _)), (proj2 (Z.ltb_lt y _)) in HQ by lia. cbn [andb] in HQ.
  replace (Z.shiftr 0x80 x) with (Z.shiftl 1 (7 - x)); [by rewrite truthy_bit by lia|].
  assert (x = 0 ∨ x = 1 ∨ x = 2 ∨ x = 3 ∨ x = 4 ∨ x = 5 ∨ x = 6 ∨ x = 7) as Hcases by lia.
  by destruct_or!; subst.
Qed.

(** The rows of the cursor are empty, and so is the space. *)
Lemma glyph_below ch x y : font_height <= y → glyph ch x y = false.
Proof.
  intros Hy. unfold glyph. destruct (_ ≫= _); [|done]. by rewrite (proj2 (Z.ltb_ge _ _)), andb_false_r by lia.
Qed.
Lemma glyph_space x y : glyph 32 x y = false.
Proof. unfold glyph. by destruct (_ ≫= _). Qed.
