(* ===== verification/Screen.v ===== *)
(** * env/lib/screen.c and bcmframebuffer.c: the text screen

    A terminal on the frame buffer: characters are painted pixel by pixel, and
    a small automaton understands escape sequences. [DEPTH] is 8, so a pixel is
    a byte. Memory barriers have no effect on this state.

    The firmware belongs to the hardware: [dimensions] is its answer to the
    request for the size of the display, [gpu] what it makes of the structure
    that describes the frame buffer. *)
From S2P Require Import Prelude CharGen PropertyTags.

(** ** env/include/uspienv: screen.h, bcmframebuffer.h *)
Definition DEPTH : Z := 8.
Definition COLOR16 (red green blue : Z) : Z :=
  Z.lor (Z.lor (Z.shiftl (Z.land red 0x1F) 11) (Z.shiftl (Z.land green 0x1F) 6)) (Z.land blue 0x1F).
Definition BLACK_COLOR : Z := 0.
Definition NORMAL_COLOR16 : Z := COLOR16 31 31 31.
Definition HIGH_COLOR16 : Z := COLOR16 31 0 0.
Definition HALF_COLOR16 : Z := COLOR16 0 0 31.
Definition NORMAL_COLOR : Z := 1.
Definition HIGH_COLOR : Z := 2.
Definition HALF_COLOR : Z := 3.
Definition PALETTE_ENTRIES : Z := 256.
Definition MAILBOX_CHANNEL_FB : Z := 1.

Record Bcm2835FrameBufferInfo := {
  Width : Z; Height : Z; VirtWidth : Z; VirtHeight : Z; Pitch : Z; Depth : Z;
  OffsetX : Z; OffsetY : Z; BufferPtr : Z; BufferSize : Z;
  Palette : list Z
}.
#[global] Instance Bcm2835FrameBufferInfo_eta : Eta Bcm2835FrameBufferInfo := λ r,
  {| Width := Width r; Height := Height r; VirtWidth := VirtWidth r; VirtHeight := VirtHeight r; Pitch := Pitch r;
     Depth := Depth r; OffsetX := OffsetX r; OffsetY := OffsetY r; BufferPtr := BufferPtr r;
     BufferSize := BufferSize r; Palette := Palette r |}.
Record TBcmFrameBuffer := { m_pInfo : Bcm2835FrameBufferInfo; fb_MailBox : TBcmMailBox }.
#[global] Instance TBcmFrameBuffer_eta : Eta TBcmFrameBuffer := λ r,
  {| m_pInfo := m_pInfo r; fb_MailBox := fb_MailBox r |}.

(** ** env/lib/bcmframebuffer.c *)

(** The size of the display, where the caller leaves it open. *)
Definition display_size (dimensions : option (Z * Z)) (nWidth nHeight : Z) : Z * Z :=
  if (nWidth =? 0) || (nHeight =? 0) then
    match dimensions with
    | Some (w, h) => if (w <? 640) || (1920 <? w) || (h <? 480) || (1080 <? h) then (640, 480) else (w, h)
    | None => (640, 480)
    end
  else (nWidth, nHeight).

Definition BcmFrameBuffer (dimensions : option (Z * Z)) (nWidth nHeight nDepth : Z) : TBcmFrameBuffer :=
  let '(w, h) := display_size dimensions nWidth nHeight in
  {| m_pInfo := {| Width := w; Height := h; VirtWidth := w; VirtHeight := h; Pitch := 0; Depth := nDepth;
                   OffsetX := 0; OffsetY := 0; BufferPtr := 0; BufferSize := 0;
                   Palette := if nDepth =? 8 then replicate (Z.to_nat PALETTE_ENTRIES) 0 else [] |};
     fb_MailBox := BcmMailBox MAILBOX_CHANNEL_FB |}.

Definition BcmFrameBufferSetPalette (pThis : TBcmFrameBuffer) (nIndex nColor : Z) : TBcmFrameBuffer :=
  if Depth (m_pInfo pThis) =? 8 then
    pThis <| m_pInfo := (m_pInfo pThis) <| Palette := <[Z.to_nat nIndex := nColor]> (Palette (m_pInfo pThis)) |> |>
  else pThis.

(** [gpu]: the word in the mailbox and the structure afterwards. *)
Definition BcmFrameBufferInitialize (gpu : Bcm2835FrameBufferInfo → Z * Bcm2835FrameBufferInfo)
    (pThis : TBcmFrameBuffer) : bool * TBcmFrameBuffer :=
  let '(nResult, info) := gpu (m_pInfo pThis) in
  let pThis := pThis <| m_pInfo := info |> in
  (if negb (nResult =? 0) then false else negb (BufferPtr info =? 0), pThis).

Definition BcmFrameBufferGetWidth (pThis : TBcmFrameBuffer) : Z := Width (m_pInfo pThis).
Definition BcmFrameBufferGetHeight (pThis : TBcmFrameBuffer) : Z := Height (m_pInfo pThis).
Definition BcmFrameBufferGetPitch (pThis : TBcmFrameBuffer) : Z := Pitch (m_pInfo pThis).
Definition BcmFrameBufferGetDepth (pThis : TBcmFrameBuffer) : Z := Depth (m_pInfo pThis).
Definition BcmFrameBufferGetBuffer (pThis : TBcmFrameBuffer) : Z := Z.land (BufferPtr (m_pInfo pThis)) 0x3FFFFFFF.
Definition BcmFrameBufferGetSize (pThis : TBcmFrameBuffer) : Z := BufferSize (m_pInfo pThis).

(** ** The screen *)

Definition ROTORS : Z := 4.

Inductive TScreenState :=
  | ScreenStateStart
  | ScreenStateEscape
  | ScreenStateBracket
  | ScreenStateNumber1
  | ScreenStateQuestionMark
  | ScreenStateSemicolon
  | ScreenStateNumber2
  | ScreenStateNumber3.

(** [m_pBuffer] is the memory behind the pointer, empty for the null pointer. *)
Record TScreenDevice := {
  m_nInitWidth : Z;
  m_nInitHeight : Z;
  m_pFrameBuffer : option TBcmFrameBuffer;
  m_CharGen : TCharGenerator;
  m_pBuffer : list Z;
  m_nSize : Z;
  m_nPitch : Z;
  m_nWidth : Z;
  m_nHeight : Z;
  m_nUsedHeight : Z;
  m_nState : TScreenState;
  m_nCursorX : Z;
  m_nCursorY : Z;
  m_bCursorOn : bool;
  m_Color : Z;
  m_bInsertOn : bool;
  m_nParam1 : Z;
  m_nParam2 : Z
}.
#[global] Instance TScreenDevice_eta : Eta TScreenDevice := λ r,
  {| m_nInitWidth := m_nInitWidth r; m_nInitHeight := m_nInitHeight r; m_pFrameBuffer := m_pFrameBuffer r;
     m_CharGen := m_CharGen r; m_pBuffer := m_pBuffer r; m_nSize := m_nSize r; m_nPitch := m_nPitch r;
     m_nWidth := m_nWidth r; m_nHeight := m_nHeight r; m_nUsedHeight := m_nUsedHeight r; m_nState := m_nState r;
     m_nCursorX := m_nCursorX r; m_nCursorY := m_nCursorY r; m_bCursorOn := m_bCursorOn r; m_Color := m_Color r;
     m_bInsertOn := m_bInsertOn r; m_nParam1 := m_nParam1 r; m_nParam2 := m_nParam2 r |}.
Abbreviation Scr := (M TScreenDevice).

Definition char_width : Scr Z := gets (λ s, CharGeneratorGetCharWidth (m_CharGen s)).
Definition char_height : Scr Z := gets (λ s, CharGeneratorGetCharHeight (m_CharGen s)).

(** *** Pixels *)

Definition ScreenDeviceSetPixel (nPosX nPosY Color : Z) : Scr unit :=
  s ← get;
  if (nPosX <? m_nWidth s) && (nPosY <? m_nHeight s) then
    let i := Z.to_nat (u32 (m_nPitch s * nPosY + nPosX)) in
    if (i <? length (m_pBuffer s))%nat then put (s <| m_pBuffer := <[i := Color]> (m_pBuffer s) |>)
    else fail MemFault
  else mret tt.

Definition ScreenDeviceGetPixel (nPosX nPosY : Z) : Scr Z :=
  s ← get;
  if (nPosX <? m_nWidth s) && (nPosY <? m_nHeight s) then
    match m_pBuffer s !! Z.to_nat (u32 (m_nPitch s * nPosY + nPosX)) with
    | Some c => mret c
    | None => fail MemFault
    end
  else mret BLACK_COLOR.

(** Every pixel of the character cell from row [from] on. *)
Definition for_cell (from : Z) (f : Z → Z → Scr unit) : Scr unit :=
  h ← char_height; w ← char_width;
  for_up (Z.to_nat (h - from)) from (λ y, for_up (Z.to_nat w) 0 (λ x, f x y)).

Definition ScreenDeviceDisplayChar2 (chChar nPosX nPosY Color : Z) : Scr unit :=
  for_cell 0 (λ x y,
    g ← gets m_CharGen;
    b ← CharGeneratorGetPixel g chChar x y;
    ScreenDeviceSetPixel (u32 (nPosX + x)) (u32 (nPosY + y)) (if b : bool then Color else BLACK_COLOR)).

Definition ScreenDeviceEraseChar (nPosX nPosY : Z) : Scr unit :=
  for_cell 0 (λ x y, ScreenDeviceSetPixel (u32 (nPosX + x)) (u32 (nPosY + y)) BLACK_COLOR).

Definition ScreenDeviceInvertCursor : Scr unit :=
  on ← gets m_bCursorOn;
  if negb on then mret tt
  else
    g ← gets m_CharGen;
    for_cell (CharGeneratorGetUnderline g) (λ x y,
      s ← get;
      c ← ScreenDeviceGetPixel (u32 (m_nCursorX s + x)) (u32 (m_nCursorY s + y));
      ScreenDeviceSetPixel (u32 (m_nCursorX s + x)) (u32 (m_nCursorY s + y))
        (if c =? BLACK_COLOR then m_Color s else BLACK_COLOR)).

(** *** Moving memory: [memset] with 0, and [memcpy] to a lower address *)

Definition fill_bytes (i n : Z) : Scr unit :=
  s ← get;
  if (0 <=? i) && (i + n <=? Z.of_nat (length (m_pBuffer s))) then
    put (s <| m_pBuffer := overwrite (Z.to_nat i) (replicate (Z.to_nat n) 0) (m_pBuffer s) |>)
  else fail MemFault.

Definition copy_bytes (to from n : Z) : Scr unit :=
  s ← get;
  if (0 <=? to) && (to <=? from) && (from + n <=? Z.of_nat (length (m_pBuffer s))) then
    put (s <| m_pBuffer := overwrite (Z.to_nat to) (take (Z.to_nat n) (drop (Z.to_nat from) (m_pBuffer s))) (m_pBuffer s) |>)
  else fail MemFault.

(** [u32] has four bytes, [TScreenColor] one. *)
Definition ScreenDeviceScroll : Scr unit :=
  nLines ← char_height;
  s ← get;
  let pTo := 0 in
  let pFrom := u32 (nLines * m_nPitch s) in
  let nSize := u32 (m_nPitch s * (m_nUsedHeight s - nLines)) in
  let nSizeBlk := Z.land nSize (not32 0xFF) in
  copy_bytes pTo pFrom nSizeBlk ;;
  copy_bytes (pTo + nSizeBlk) (pFrom + nSizeBlk) (Z.land nSize 0xFF) ;;
  let pTo := pTo + nSize / 4 * 4 in
  let nSize := u32 (m_nPitch s * nLines) / 4 in
  fill_bytes pTo (u32 (nSize * 4)).

(** *** The cursor *)

Definition ScreenDeviceCarriageReturn : Scr unit := modify (λ s, s <| m_nCursorX := 0 |>).

Definition ScreenDeviceCursorDown : Scr unit :=
  h ← char_height;
  modify (λ s, s <| m_nCursorY := u32 (m_nCursorY s + h) |>) ;;
  s ← get;
  when (m_nUsedHeight s <=? m_nCursorY s)
    (ScreenDeviceScroll ;; modify (λ s, s <| m_nCursorY := u32 (m_nCursorY s - h) |>)).

Definition ScreenDeviceCursorHome : Scr unit := modify (λ s, s <| m_nCursorX := 0 |> <| m_nCursorY := 0 |>).

Definition ScreenDeviceCursorLeft : Scr unit :=
  s ← get; w ← char_width; h ← char_height;
  if 0 <? m_nCursorX s then put (s <| m_nCursorX := u32 (m_nCursorX s - w) |>)
  else when (0 <? m_nCursorY s)
         (put (s <| m_nCursorX := u32 (m_nWidth s - w) |> <| m_nCursorY := u32 (m_nCursorY s - h) |>)).

Definition ScreenDeviceCursorMove (nRow nColumn : Z) : Scr unit :=
  w ← char_width; h ← char_height;
  let nPosX := u32 ((nColumn - 1) * w) in
  let nPosY := u32 ((nRow - 1) * h) in
  s ← get;
  when ((nPosX <? m_nWidth s) && (nPosY <? m_nUsedHeight s))
    (put (s <| m_nCursorX := nPosX |> <| m_nCursorY := nPosY |>)).

Definition ScreenDeviceNewLine : Scr unit := ScreenDeviceCarriageReturn ;; ScreenDeviceCursorDown.

Definition ScreenDeviceCursorRight : Scr unit :=
  w ← char_width;
  modify (λ s, s <| m_nCursorX := u32 (m_nCursorX s + w) |>) ;;
  s ← get;
  when (m_nWidth s <=? m_nCursorX s) ScreenDeviceNewLine.

Definition ScreenDeviceCursorUp : Scr unit :=
  h ← char_height;
  s ← get;
  when (h <=? m_nCursorY s) (put (s <| m_nCursorY := u32 (m_nCursorY s - h) |>)).

Definition ScreenDeviceTabulator : Scr unit :=
  w ← char_width;
  let nTabWidth := u32 (w * 8) in
  modify (λ s, s <| m_nCursorX := u32 (u32 (m_nCursorX s + nTabWidth) / nTabWidth * nTabWidth) |>) ;;
  s ← get;
  when (m_nWidth s <=? m_nCursorX s) ScreenDeviceNewLine.

(** *** Erasing *)

(** [for (nPosX = ...; nPosX < nEndX; nPosX += width)] of the cursor's line. *)
Fixpoint erase_loop (fuel : nat) (nPosX nEndX : Z) : Scr unit :=
  if nPosX <? nEndX then
    match fuel with
    | O => fail OutOfFuel
    | S fuel =>
        s ← get;
        ScreenDeviceEraseChar nPosX (m_nCursorY s) ;;
        w ← char_width;
        erase_loop fuel (u32 (nPosX + w)) nEndX
    end
  else mret tt.

Definition ScreenDeviceClearLineEnd : Scr unit :=
  s ← get; erase_loop (Z.to_nat (m_nWidth s)) (m_nCursorX s) (m_nWidth s).

Definition ScreenDeviceClearDisplayEnd : Scr unit :=
  ScreenDeviceClearLineEnd ;;
  s ← get; h ← char_height;
  let nPosY := u32 (m_nCursorY s + h) in
  let nOffset := u32 (nPosY * m_nPitch s) in
  let nSize := u32 (m_nSize s - nOffset) in
  fill_bytes nOffset nSize.

Definition ScreenDeviceEraseChars (nCount : Z) : Scr unit :=
  if nCount =? 0 then mret tt
  else
    s ← get; w ← char_width;
    let nEndX := u32 (m_nCursorX s + u32 (nCount * w)) in
    let nEndX := if m_nWidth s <? nEndX then m_nWidth s else nEndX in
    erase_loop (Z.to_nat (m_nWidth s)) (m_nCursorX s) nEndX.

(** *** Modes, and what is still to be done in the source *)

Definition ScreenDeviceDeleteChars (nCount : Z) : Scr unit := mret tt.
Definition ScreenDeviceDeleteLines (nCount : Z) : Scr unit := mret tt.
Definition ScreenDeviceInsertLines (nCount : Z) : Scr unit := mret tt.
Definition ScreenDeviceInsertMode (bBegin : bool) : Scr unit := modify (λ s, s <| m_bInsertOn := bBegin |>).
Definition ScreenDeviceReverseScroll : Scr unit :=
  s ← get; when ((m_nCursorX s =? 0) && (m_nCursorY s =? 0)) (ScreenDeviceInsertLines 1).
Definition ScreenDeviceSetCursorMode (bVisible : bool) : Scr unit := modify (λ s, s <| m_bCursorOn := bVisible |>).
Definition ScreenDeviceSetStandoutMode (nMode : Z) : Scr unit :=
  if (nMode =? 0) || (nMode =? 27) then modify (λ s, s <| m_Color := NORMAL_COLOR |>)
  else if nMode =? 1 then modify (λ s, s <| m_Color := HIGH_COLOR |>)
  else when (nMode =? 2) (modify (λ s, s <| m_Color := HALF_COLOR |>)).

Definition ScreenDeviceDisplayChar (chChar : Z) : Scr unit :=
  when (32 <=? u8 chChar)
    (s ← get; ScreenDeviceDisplayChar2 chChar (m_nCursorX s) (m_nCursorY s) (m_Color s) ;;
     ScreenDeviceCursorRight).

(** *** The automaton

    Characters: 8 to 13 and 27 are the controls BS, TAB, LF, CR and ESC, 48 to
    57 the digits. *)

Definition goto (st : TScreenState) : Scr unit := modify (λ s, s <| m_nState := st |>).
Definition is_digit (ch : Z) : bool := (48 <=? ch) && (ch <=? 57).

(** [nParam = nParam * 10 + digit], given up above [limit]. *)
Definition more_digits (param : TScreenDevice → Z) (set : Z → TScreenDevice → TScreenDevice) (limit ch : Z) : Scr unit :=
  if is_digit ch then
    modify (λ s, set (u32 (u32 (param s * 10) + (ch - 48))) s) ;;
    s ← get;
    when (limit <? param s) (goto ScreenStateStart)
  else goto ScreenStateStart.
Definition set_param1 (n : Z) (s : TScreenDevice) : TScreenDevice := s <| m_nParam1 := n |>.
Definition set_param2 (n : Z) (s : TScreenDevice) : TScreenDevice := s <| m_nParam2 := n |>.

Definition write_start (ch : Z) : Scr unit :=
  if ch =? 8 then ScreenDeviceCursorLeft
  else if ch =? 9 then ScreenDeviceTabulator
  else if ch =? 10 then ScreenDeviceNewLine
  else if ch =? 13 then ScreenDeviceCarriageReturn
  else if ch =? 27 then goto ScreenStateEscape
  else ScreenDeviceDisplayChar ch.

(** M, [ *)
Definition write_escape (ch : Z) : Scr unit :=
  if ch =? 77 then ScreenDeviceReverseScroll ;; goto ScreenStateStart
  else if ch =? 91 then goto ScreenStateBracket
  else goto ScreenStateStart.

(** ?, A, B, C, H, J, K, L, M, P *)
Definition write_bracket (ch : Z) : Scr unit :=
  if ch =? 63 then goto ScreenStateQuestionMark
  else if ch =? 65 then ScreenDeviceCursorUp ;; goto ScreenStateStart
  else if ch =? 66 then ScreenDeviceCursorDown ;; goto ScreenStateStart
  else if ch =? 67 then ScreenDeviceCursorRight ;; goto ScreenStateStart
  else if ch =? 72 then ScreenDeviceCursorHome ;; goto ScreenStateStart
  else if ch =? 74 then ScreenDeviceClearDisplayEnd ;; goto ScreenStateStart
  else if ch =? 75 then ScreenDeviceClearLineEnd ;; goto ScreenStateStart
  else if ch =? 76 then ScreenDeviceInsertLines 1 ;; goto ScreenStateStart
  else if ch =? 77 then ScreenDeviceDeleteLines 1 ;; goto ScreenStateStart
  else if ch =? 80 then ScreenDeviceDeleteChars 1 ;; goto ScreenStateStart
  else if is_digit ch then modify (set_param1 (ch - 48)) ;; goto ScreenStateNumber1
  else goto ScreenStateStart.

(** ;, L, M, P, X, h, l, m *)
Definition write_number1 (ch : Z) : Scr unit :=
  n ← gets m_nParam1;
  if ch =? 59 then goto ScreenStateSemicolon
  else if ch =? 76 then ScreenDeviceInsertLines n ;; goto ScreenStateStart
  else if ch =? 77 then ScreenDeviceDeleteLines n ;; goto ScreenStateStart
  else if ch =? 80 then ScreenDeviceDeleteChars n ;; goto ScreenStateStart
  else if ch =? 88 then ScreenDeviceEraseChars n ;; goto ScreenStateStart
  else if (ch =? 104) || (ch =? 108) then
    when (n =? 4) (ScreenDeviceInsertMode (ch =? 104)) ;; goto ScreenStateStart
  else if ch =? 109 then ScreenDeviceSetStandoutMode n ;; goto ScreenStateStart
  else more_digits m_nParam1 set_param1 99 ch.

Definition write_semicolon (ch : Z) : Scr unit :=
  if is_digit ch then modify (set_param2 (ch - 48)) ;; goto ScreenStateNumber2 else goto ScreenStateStart.

Definition write_question_mark (ch : Z) : Scr unit :=
  if is_digit ch then modify (set_param1 (ch - 48)) ;; goto ScreenStateNumber3 else goto ScreenStateStart.

Definition write_number2 (ch : Z) : Scr unit :=
  if ch =? 72 then
    s ← get; ScreenDeviceCursorMove (m_nParam1 s) (m_nParam2 s) ;; goto ScreenStateStart
  else more_digits m_nParam2 set_param2 199 ch.

Definition write_number3 (ch : Z) : Scr unit :=
  if (ch =? 104) || (ch =? 108) then
    n ← gets m_nParam1;
    when (n =? 25) (ScreenDeviceSetCursorMode (ch =? 104)) ;; goto ScreenStateStart
  else more_digits m_nParam1 set_param1 99 ch.

Definition ScreenDeviceWrite2 (chChar : Z) : Scr unit :=
  st ← gets m_nState;
  match st with
  | ScreenStateStart => write_start chChar
  | ScreenStateEscape => write_escape chChar
  | ScreenStateBracket => write_bracket chChar
  | ScreenStateNumber1 => write_number1 chChar
  | ScreenStateSemicolon => write_semicolon chChar
  | ScreenStateQuestionMark => write_question_mark chChar
  | ScreenStateNumber2 => write_number2 chChar
  | ScreenStateNumber3 => write_number3 chChar
  end.

Fixpoint write_all (pBuffer : list Z) : Scr unit :=
  match pBuffer with [] => mret tt | ch :: l => ScreenDeviceWrite2 ch ;; write_all l end.

Definition ScreenDeviceWrite (pBuffer : list Z) : Scr Z :=
  ScreenDeviceInvertCursor ;;
  write_all pBuffer ;;
  ScreenDeviceInvertCursor ;;
  mret (Z.of_nat (length pBuffer)).

(** The characters of "-\|/". *)
Definition ScreenDeviceRotor (nIndex nCount : Z) : Scr unit :=
  let nIndex := nIndex mod ROTORS in
  let nCount := Z.land nCount 3 in
  s ← get; w ← char_width;
  let nPosX := u32 (m_nWidth s - u32 ((nIndex + 1) * w)) in
  ScreenDeviceDisplayChar2 (nth (Z.to_nat nCount) [45; 92; 124; 47] 0) nPosX 0 HIGH_COLOR.

Definition ScreenDeviceGetWidth (pThis : TScreenDevice) : Z := m_nWidth pThis.
Definition ScreenDeviceGetHeight (pThis : TScreenDevice) : Z := m_nHeight pThis.

(** *** Construction *)

Definition ScreenDevice (pThis : TScreenDevice) (nWidth nHeight : Z) : TScreenDevice :=
  pThis <| m_CharGen := CharGenerator |> <| m_nInitWidth := nWidth |> <| m_nInitHeight := nHeight |>
        <| m_pFrameBuffer := None |> <| m_pBuffer := [] |> <| m_nState := ScreenStateStart |>
        <| m_nCursorX := 0 |> <| m_nCursorY := 0 |> <| m_bCursorOn := true |> <| m_Color := NORMAL_COLOR |>
        <| m_bInsertOn := false |>.

Definition _ScreenDevice (pThis : TScreenDevice) : TScreenDevice :=
  pThis <| m_pBuffer := [] |> <| m_pFrameBuffer := None |>.

(** The frame buffer at hand: its geometry is taken over and the screen cleared.
    [memory]: what the frame buffer at an address holds. *)
Definition take_frame_buffer (memory : Z → list Z) (fb : TBcmFrameBuffer) : Scr bool :=
  if negb (BcmFrameBufferGetDepth fb =? DEPTH) then mret false
  else
    modify (λ s, s <| m_pBuffer := memory (BcmFrameBufferGetBuffer fb) |> <| m_nSize := BcmFrameBufferGetSize fb |>
                   <| m_nWidth := BcmFrameBufferGetWidth fb |> <| m_nHeight := BcmFrameBufferGetHeight fb |>) ;;
    if negb (BcmFrameBufferGetPitch fb mod 4 =? 0) then mret false
    else
      h ← char_height;
      modify (λ s, s <| m_nPitch := BcmFrameBufferGetPitch fb |>
                     <| m_nUsedHeight := u32 (m_nHeight s / h * h) |>) ;;
      ScreenDeviceCursorHome ;;
      ScreenDeviceClearDisplayEnd ;;
      ScreenDeviceInvertCursor ;;
      mret true.

Definition ScreenDeviceInitialize (dimensions : option (Z * Z))
    (gpu : Bcm2835FrameBufferInfo → Z * Bcm2835FrameBufferInfo) (memory : Z → list Z) : Scr bool :=
  s ← get;
  let fb := BcmFrameBuffer dimensions (m_nInitWidth s) (m_nInitHeight s) DEPTH in
  let fb := BcmFrameBufferSetPalette fb NORMAL_COLOR NORMAL_COLOR16 in
  let fb := BcmFrameBufferSetPalette fb HIGH_COLOR HIGH_COLOR16 in
  let fb := BcmFrameBufferSetPalette fb HALF_COLOR HALF_COLOR16 in
  let '(ok, fb) := BcmFrameBufferInitialize gpu fb in
  put (s <| m_pFrameBuffer := Some fb |>) ;;
  if negb ok then mret false else take_frame_buffer memory fb.
