(* ===== verification/ScreenDraw.v ===== *)
(** * Drawing on the screen

    What the operations of [Screen] do to the pixels, and that they stay inside
    the frame buffer. *)
From S2P Require Import Prelude CharGen Screen.

(** ** Loops *)

Lemma wp_for_up {S} (I : Z → S → Prop) n i (f : Z → M S unit) (Q : unit → S → Prop) s :
  I i s → (∀ j s, i <= j < i + Z.of_nat n → I j s → wp (f j) (λ _ s', I (j + 1) s') s) →
  (∀ s', I (i + Z.of_nat n) s' → Q tt s') → wp (for_up n i f) Q s.
Proof.
  revert i s. induction n as [|n IH]; intros i s HI Hf HQ; cbn [for_up].
  { apply wp_ret, HQ. by replace (i + Z.of_nat 0) with i by lia. }
  wp_step. eapply wp_mono; [apply Hf; [lia|exact HI]|]. intros [] s1 H1. cbn beta in H1.
  apply IH; [exact H1|intros; apply Hf; [lia|done]|].
  intros s' H'. apply HQ. by replace (i + Z.of_nat (Datatypes.S n)) with (i + 1 + Z.of_nat n) by lia.
Qed.

(** ** Memory as bytes at indices *)

Definition byte (b : list Z) (i : Z) : Z := nth (Z.to_nat i) b 0.


Lemma byte_lookup b i : 0 <= i < Z.of_nat (length b) → b !! Z.to_nat i = Some (byte b i).
Proof.
  intros Hi. unfold byte. destruct (lookup_lt_is_Some_2 b (Z.to_nat i)) as [v Hv]; [lia|].
  by rewrite (nth_lookup_Some _ _ 0 _ Hv).
Qed.

Lemma byte_insert b i j v : 0 <= i < Z.of_nat (length b) → 0 <= j →
  byte (<[Z.to_nat i := v]> b) j = if j =? i then v else byte b j.
Proof.
  intros Hi Hj. unfold byte. rewrite !nth_lookup. destruct (Z.eqb_spec j i) as [->|Hne].
  - by rewrite list_lookup_insert_eq by lia.
  - by rewrite list_lookup_insert_ne by lia.
Qed.

Lemma byte_overwrite k new b j : 0 <= k → k + Z.of_nat (length new) <= Z.of_nat (length b) → 0 <= j →
  byte (overwrite (Z.to_nat k) new b) j =
    if (k <=? j) && (j <? k + Z.of_nat (length new)) then byte new (j - k) else byte b j.
Proof.
  intros Hk Hl Hj. unfold byte. rewrite !nth_lookup.
  destruct (Z.leb_spec k j); destruct (Z.ltb_spec j (k + Z.of_nat (length new))); cbn [andb];
    try (rewrite lookup_overwrite_ne by lia; done).
  unfold overwrite. rewrite lookup_app_r by (rewrite length_take; lia).
  rewrite length_take, lookup_app_l by lia. do 2 f_equal. lia.
Qed.

Lemma byte_zeros n j : byte (replicate n 0) j = 0.
Proof.
  unfold byte. rewrite nth_lookup. destruct (replicate n 0 !! Z.to_nat j) eqn:E; [|done].
  apply lookup_replicate in E as [-> _]. done.
Qed.

Lemma byte_slice b from n j : 0 <= from → 0 <= j < n →
  byte (take (Z.to_nat n) (drop (Z.to_nat from) b)) j = byte b (from + j).
Proof.
  intros Hf Hj. unfold byte. rewrite !nth_lookup. rewrite lookup_take_lt by lia. rewrite lookup_drop.
  do 2 f_equal. lia.
Qed.

(** ** The screen's geometry *)

Record screen_ok (s : TScreenDevice) : Prop := {
  so_gen : m_CharGen s = CharGenerator;
  so_buffer : Z.of_nat (length (m_pBuffer s)) = m_nSize s;
  so_size : m_nSize s < 2 ^ 31;
  so_width : 8 <= m_nWidth s <= m_nPitch s;
  so_height : 19 <= m_nHeight s;
  so_area : m_nPitch s * m_nHeight s <= m_nSize s;
  so_pitch : m_nPitch s mod 4 = 0;
  so_used : m_nUsedHeight s = m_nHeight s / 19 * 19;
  so_x : is_u32 (m_nCursorX s)
}.

(** The cursor is on a line of the screen. *)
Definition line_ok (s : TScreenDevice) : Prop :=
  0 <= m_nCursorY s ∧ m_nCursorY s + 19 <= m_nUsedHeight s ∧ m_nCursorY s mod 19 = 0.

(** The pixel at a position. *)
Definition px (s : TScreenDevice) (b : list Z) (x y : Z) : Z := byte b (m_nPitch s * y + x).

(** What [ScreenDeviceGetPixel] sees. *)
Definition look (s : TScreenDevice) (b : list Z) (x y : Z) : Z :=
  if (x <? m_nWidth s) && (y <? m_nHeight s) then px s b x y else BLACK_COLOR.

Definition with_buffer (b : list Z) (s : TScreenDevice) : TScreenDevice := s <| m_pBuffer := b |>.

Section Draw.
Context (s0 : TScreenDevice) (Hok : screen_ok s0).

Definition on_screen (x y : Z) : Prop := 0 <= x < m_nWidth s0 ∧ 0 <= y < m_nHeight s0.

Lemma offset_range x y : on_screen x y → 0 <= m_nPitch s0 * y + x < m_nSize s0.
Proof. destruct Hok. unfold on_screen. nia. Qed.

Lemma offset_inj x y x' y' : on_screen x y → on_screen x' y' →
  m_nPitch s0 * y + x = m_nPitch s0 * y' + x' → x = x' ∧ y = y'.
Proof.
  destruct Hok. unfold on_screen. intros Hx Hx' He.
  assert (y = y') by nia. split; nia.
Qed.

Lemma wp_SetPixel b x y c (Q : unit → TScreenDevice → Prop) :
  length b = length (m_pBuffer s0) → 0 <= x → 0 <= y →
  (∀ b', length b' = length (m_pBuffer s0) →
     (∀ x' y', on_screen x' y' → px s0 b' x' y' = if (x' =? x) && (y' =? y) then c else px s0 b x' y') →
     Q tt (with_buffer b' s0)) →
  wp (ScreenDeviceSetPixel x y c) Q (with_buffer b s0).
Proof.
  intros Hb Hx Hy HQ. destruct Hok. unfold ScreenDeviceSetPixel. wp_step. apply wp_get.
  cbn [m_nWidth m_nHeight m_nPitch with_buffer upd m_pBuffer].
  destruct (Z.ltb_spec x (m_nWidth s0)); destruct (Z.ltb_spec y (m_nHeight s0)); cbn [andb].
  1: { assert (on_screen x y) as Hon by (unfold on_screen; lia). pose proof (offset_range x y Hon) as Hr.
    rewrite u32_id by (unfold is_u32; lia). rewrite (proj2 (Nat.ltb_lt _ _)) by lia.
    apply wp_put. refine (HQ _ _ _); [by rewrite length_insert|].
    intros x' y' Hon'. pose proof (offset_range x' y' Hon'). unfold px. rewrite byte_insert by lia.
    destruct (Z.eqb_spec (m_nPitch s0 * y' + x') (m_nPitch s0 * y + x)) as [E|E].
    - apply offset_inj in E as [-> ->]; [by rewrite !Z.eqb_refl|done|done].
    - destruct (Z.eqb_spec x' x) as [->|]; [|done]. destruct (Z.eqb_spec y' y) as [->|]; [|done]. by destruct E. }
  all: apply wp_ret, HQ; [done|]; intros x' y' [? ?];
    destruct (Z.eqb_spec x' x); [|done]; destruct (Z.eqb_spec y' y); [|done]; lia.
Qed.

Lemma wp_GetPixel_at b x y (Q : Z → TScreenDevice → Prop) :
  length b = length (m_pBuffer s0) → 0 <= x → 0 <= y → Q (look s0 b x y) (with_buffer b s0) →
  wp (ScreenDeviceGetPixel x y) Q (with_buffer b s0).
Proof.
  intros Hb Hx Hy HQ. destruct Hok. unfold ScreenDeviceGetPixel, look in *. wp_step. apply wp_get.
  cbn [m_nWidth m_nHeight m_nPitch with_buffer upd m_pBuffer].
  destruct (Z.ltb_spec x (m_nWidth s0)); destruct (Z.ltb_spec y (m_nHeight s0)); cbn [andb] in *; try by apply wp_ret.
  pose proof (offset_range x y ltac:(unfold on_screen; lia)).
  rewrite u32_id by (unfold is_u32; lia). rewrite byte_lookup by lia. by apply wp_ret.
Qed.

(** *** One cell *)

Definition in_cell (X Y from x y : Z) : bool :=
  (X <=? x) && (x <? X + 8) && (Y + from <=? y) && (y <? Y + 19).

(** Painting a cell pixel by pixel, where the new colour may depend on the old
    one. Off the screen nothing is said of the pixels. *)
Lemma wp_for_cell X Y from (body : Z → Z → M TScreenDevice unit) (f : Z → Z → Z → Z)
    (Q : unit → TScreenDevice → Prop) b0 :
  is_u32 X → is_u32 Y → 0 <= from <= 19 → length b0 = length (m_pBuffer s0) →
  (∀ b x y Q, length b = length (m_pBuffer s0) → 0 <= x < 8 → from <= y < 19 →
     wp (ScreenDeviceSetPixel (u32 (X + x)) (u32 (Y + y)) (f x y (look s0 b (u32 (X + x)) (u32 (Y + y))))) Q (with_buffer b s0) →
     wp (body x y) Q (with_buffer b s0)) →
  (∀ b, length b = length (m_pBuffer s0) →
     (X < 2 ^ 31 → Y < 2 ^ 31 → ∀ x y, on_screen x y →
        px s0 b x y = if in_cell X Y from x y then f (x - X) (y - Y) (px s0 b0 x y) else px s0 b0 x y) →
     Q tt (with_buffer b s0)) →
  wp (for_cell from body) Q (with_buffer b0 s0).
Proof.
  intros HX HY Hfr Hb0 Hbody HQ. unfold for_cell, char_height, char_width.
  wp_step. apply wp_gets. cbn [with_buffer upd m_CharGen]. wp_step. apply wp_gets. cbn [with_buffer upd m_CharGen].
  rewrite (so_gen _ Hok). change (CharGeneratorGetCharHeight CharGenerator) with 19.
  change (CharGeneratorGetCharWidth CharGenerator) with 8. change (Z.to_nat 8) with 8%nat.
  pose (done := λ i j x y, in_cell X Y from x y && ((y - Y <? j) || ((y - Y =? j) && (x - X <? i)))).
  pose (I := λ i j s, ∃ b, s = with_buffer b s0 ∧ length b = length (m_pBuffer s0) ∧
    (X < 2 ^ 31 → Y < 2 ^ 31 → ∀ x y, on_screen x y →
       px s0 b x y = if done i j x y then f (x - X) (y - Y) (px s0 b0 x y) else px s0 b0 x y)).
  apply (wp_for_up (λ j, I 0 j)).
  - exists b0. split_and!; [done|done|]. intros HX' HY' x y Hon. subst done. cbn beta. unfold in_cell.
    replace (_ && _) with false; [done|]. destruct Hon. symmetry. lia.
  - intros j s Hj HI. apply (wp_for_up (λ i, I i j)); [exact HI| |].
    + intros i s1 Hi (b & -> & Hb & Hpx). apply (Hbody _ _ _ _ Hb); [lia|lia|].
      apply wp_SetPixel; [done|apply u32_range|apply u32_range|]. intros b' Hb' Hpx'.
      exists b'. split_and!; [done|done|]. intros HX' HY' x y Hon. unfold is_u32 in *.
      rewrite (Hpx' x y Hon), !u32_id by (unfold is_u32; lia). specialize (Hpx HX' HY').
      destruct (Z.eqb_spec x (X + i)) as [Ex|Ex]; destruct (Z.eqb_spec y (Y + j)) as [Ey|Ey]; cbn [andb].
      1: { unfold look. destruct Hon as [Hx Hy]. rewrite <- Ex, <- Ey.
        rewrite (proj2 (Z.ltb_lt x _)), (proj2 (Z.ltb_lt y _)) by lia. cbn [andb].
        rewrite (Hpx x y) by done. subst done. cbn beta. unfold in_cell.
        replace (_ && ((y - Y <? j) || ((y - Y =? j) && (x - X <? i)))) with false by lia.
        replace (_ && _) with true by lia. f_equal; lia. }
      all: rewrite (Hpx x y Hon); subst done; cbn beta; unfold in_cell;
        match goal with |- (if ?p then _ else _) = (if ?q then _ else _) => replace q with p; [done|] end; lia.
    + intros s' (b & -> & Hb & Hpx). exists b. split_and!; [done|done|]. intros HX' HY' x y Hon.
      rewrite (Hpx HX' HY' x y Hon). subst done. cbn beta. unfold in_cell. change (Z.of_nat 8) with 8.
      match goal with |- (if ?p then _ else _) = (if ?q then _ else _) => replace q with p; [done|] end. lia.
  - intros s' (b & -> & Hb & Hpx). apply HQ; [done|]. intros HX' HY' x y Hon. rewrite (Hpx HX' HY' x y Hon).
    subst done. cbn beta. unfold in_cell. replace (from + Z.of_nat (Z.to_nat (19 - from))) with 19 by lia.
    match goal with |- (if ?p then _ else _) = (if ?q then _ else _) => assert (p = q) as -> by lia end. done.
Qed.
End Draw.

Lemma with_own_buffer s : with_buffer (m_pBuffer s) s = s.
Proof. by destruct s. Qed.
Lemma wp_own_buffer {A} (m : M TScreenDevice A) (Q : A → TScreenDevice → Prop) s :
  wp m Q (with_buffer (m_pBuffer s) s) → wp m Q s.
Proof. by rewrite with_own_buffer. Qed.

(** The buffer may be changed. *)
Lemma ok_with_buffer b s : length b = length (m_pBuffer s) → screen_ok s → screen_ok (with_buffer b s).
Proof. intros Hb []. split; try done. simpl. by rewrite Hb. Qed.

Section Operations.
Context (s : TScreenDevice) (Hok : screen_ok s).
Implicit Types Q : unit → TScreenDevice → Prop.

Lemma screen_bounds : m_nUsedHeight s <= m_nHeight s ∧ 19 <= m_nUsedHeight s ∧ m_nHeight s < 2 ^ 31 ∧ m_nWidth s < 2 ^ 31.
Proof.
  destruct Hok. rewrite so_used0. assert (m_nHeight s / 19 * 19 <= m_nHeight s) by lia.
  assert (m_nHeight s < 2 ^ 31) by nia. assert (m_nWidth s < 2 ^ 31) by nia. lia.
Qed.

Lemma wp_char_height {A} (k : Z → M TScreenDevice A) (Q : A → TScreenDevice → Prop) :
  wp (k 19) Q s → wp (char_height ≫= k) Q s.
Proof. intros HQ. apply wp_bind, wp_gets. by rewrite (so_gen _ Hok). Qed.
Lemma wp_char_width {A} (k : Z → M TScreenDevice A) (Q : A → TScreenDevice → Prop) :
  wp (k 8) Q s → wp (char_width ≫= k) Q s.
Proof. intros HQ. apply wp_bind, wp_gets. by rewrite (so_gen _ Hok). Qed.

(** What a cell looks like after it was painted. *)
Definition painted (X Y from : Z) (f : Z → Z → Z → Z) (b b' : list Z) : Prop :=
  X < 2 ^ 31 → Y < 2 ^ 31 → ∀ x y, on_screen s x y →
    px s b' x y = if in_cell X Y from x y then f (x - X) (y - Y) (px s b x y) else px s b x y.

Lemma wp_EraseChar X Y b Q : is_u32 X → is_u32 Y → length b = length (m_pBuffer s) →
  (∀ b', length b' = length (m_pBuffer s) → painted X Y 0 (λ _ _ _, 0) b b' → Q tt (with_buffer b' s)) →
  wp (ScreenDeviceEraseChar X Y) Q (with_buffer b s).
Proof.
  intros HX HY Hb HQ. unfold ScreenDeviceEraseChar.
  by eapply (wp_for_cell s Hok X Y 0 _ (λ _ _ _, 0)); [| |lia|done|..].
Qed.

Definition ink (ch color x y : Z) : Z := if glyph ch x y then color else BLACK_COLOR.

Lemma wp_DisplayChar2 ch X Y c Q : is_u32 X → is_u32 Y →
  (∀ b', length b' = length (m_pBuffer s) → painted X Y 0 (λ x y _, ink ch c x y) (m_pBuffer s) b' → Q tt (with_buffer b' s)) →
  wp (ScreenDeviceDisplayChar2 ch X Y c) Q s.
Proof.
  intros HX HY HQ. apply wp_own_buffer. unfold ScreenDeviceDisplayChar2.
  eapply (wp_for_cell s Hok X Y 0 _ (λ x y _, ink ch c x y)); [done|done|lia|done| |exact HQ].
  intros b x y Q' Hb Hx Hy HQ'. wp_step. apply wp_gets. cbn [with_buffer upd m_CharGen]. rewrite (so_gen _ Hok).
  wp_step. apply wp_GetPixel; [lia|lia|exact HQ'].
Qed.

Lemma wp_InvertCursor Q : line_ok s →
  (∀ b', length b' = length (m_pBuffer s) →
     (if m_bCursorOn s then
        painted (m_nCursorX s) (m_nCursorY s) 16 (λ _ _ c, if c =? BLACK_COLOR then m_Color s else BLACK_COLOR) (m_pBuffer s) b'
      else b' = m_pBuffer s) → Q tt (with_buffer b' s)) →
  wp ScreenDeviceInvertCursor Q s.
Proof.
  intros HY HQ. unfold ScreenDeviceInvertCursor. wp_step. apply wp_gets. destruct (m_bCursorOn s); cbn [negb]; cycle 1.
  { apply wp_ret. rewrite <- (with_own_buffer s). by apply HQ. }
  wp_step. apply wp_gets. apply wp_own_buffer. unfold CharGeneratorGetUnderline, font_height.
  destruct Hok as [Hgen ? ? ? ? ? ? ? HX]. pose proof screen_bounds. unfold line_ok in HY.
  eapply (wp_for_cell s Hok (m_nCursorX s) (m_nCursorY s) 16 _ (λ _ _ c, if c =? BLACK_COLOR then m_Color s else BLACK_COLOR));
    [done|unfold is_u32; lia|lia|done| |exact HQ].
  intros b x y Q' Hb Hx Hy HQ'. wp_step. apply wp_get. cbn [with_buffer upd m_nCursorX m_nCursorY].
  wp_step. eapply wp_GetPixel_at; [done|done|apply u32_range|apply u32_range|]. exact HQ'.
Qed.

(** *** Scrolling *)

Definition scrolled (b b' : list Z) : Prop :=
  ∀ x y, on_screen s x y → px s b' x y =
    if y <? m_nUsedHeight s - 19 then px s b x (y + 19)
    else if y <? m_nUsedHeight s then 0 else px s b x y.

Lemma wp_fill_bytes i n Q : 0 <= i → 0 <= n → i + n <= m_nSize s →
  (∀ b', length b' = length (m_pBuffer s) →
     (∀ j, 0 <= j → byte b' j = if (i <=? j) && (j <? i + n) then 0 else byte (m_pBuffer s) j) → Q tt (with_buffer b' s)) →
  wp (fill_bytes i n) Q s.
Proof.
  intros Hi Hn Hl HQ. unfold fill_bytes. wp_step. apply wp_get. rewrite (so_buffer _ Hok).
  rewrite (proj2 (Z.leb_le _ _)), (proj2 (Z.leb_le _ _)) by lia. cbn [andb]. apply wp_put. pose proof (so_buffer _ Hok).
  refine (HQ _ _ _); [rewrite overwrite_length; [done|rewrite length_replicate; lia]|].
  intros j Hj. rewrite byte_overwrite by (rewrite ?length_replicate; lia).
  rewrite length_replicate, Z2Nat.id by done. destruct (_ && _); [apply byte_zeros|done].
Qed.

Lemma wp_copy_bytes to from n Q : 0 <= to <= from → 0 <= n → from + n <= m_nSize s →
  (∀ b', length b' = length (m_pBuffer s) →
     (∀ j, 0 <= j → byte b' j = if (to <=? j) && (j <? to + n) then byte (m_pBuffer s) (from + (j - to))
                                else byte (m_pBuffer s) j) → Q tt (with_buffer b' s)) →
  wp (copy_bytes to from n) Q s.
Proof.
  intros Ht Hn Hl HQ. unfold copy_bytes. wp_step. apply wp_get. rewrite (so_buffer _ Hok).
  rewrite !(proj2 (Z.leb_le _ _)) by lia. cbn [andb]. apply wp_put. pose proof (so_buffer _ Hok).
  assert (length (take (Z.to_nat n) (drop (Z.to_nat from) (m_pBuffer s))) = Z.to_nat n) as Hlen
    by (rewrite length_take, length_drop; lia).
  refine (HQ _ _ _); [rewrite overwrite_length; [done|rewrite Hlen; lia]|].
  intros j Hj. rewrite byte_overwrite by (rewrite ?Hlen; lia). rewrite Hlen, Z2Nat.id by done.
  destruct (Z.leb_spec to j); [|done]. destruct (Z.ltb_spec j (to + n)); [|done]. cbn [andb].
  apply byte_slice; lia.
Qed.
End Operations.

Lemma land_255 n : 0 <= n → Z.land n 255 = n mod 256.
Proof. intros Hn. change 255 with (Z.ones 8). by rewrite Z.land_ones by lia. Qed.
Lemma high_bytes n : is_u32 n → Z.land n (not32 255) = n - n mod 256.
Proof. exact (land_align 8 n ltac:(lia)). Qed.

Lemma painted_at s X Y from f b b' x y : painted s X Y from f b b' → X < 2 ^ 31 → Y < 2 ^ 31 → on_screen s x y →
  px s b' x y = if in_cell X Y from x y then f (x - X) (y - Y) (px s b x y) else px s b x y.
Proof. intros H HX HY. by apply H. Qed.

(** Rows follow one another in memory. *)
Lemma row_before p u x y : 0 <= x < p → y < u → p * y + x < p * u.
Proof. nia. Qed.
Lemma row_after p u x y : 0 <= x → 0 <= p → u <= y → p * u <= p * y + x.
Proof. nia. Qed.

Lemma wp_Scroll s (Q : unit → TScreenDevice → Prop) : screen_ok s →
  (∀ b', length b' = length (m_pBuffer s) → scrolled s (m_pBuffer s) b' → Q tt (with_buffer b' s)) →
  wp ScreenDeviceScroll Q s.
Proof.
  intros Hok HQ. pose proof Hok as []. destruct (screen_bounds s Hok) as (HU1 & HU2 & HH & HW).
  set (P := m_nPitch s) in *. set (U := m_nUsedHeight s) in *.
  assert (0 <= P * 19 /\ P * U <= m_nSize s /\ 0 <= P * (U - 19) /\ P * (U - 19) + P * 19 = P * U) as (H1 & H2 & H3 & H4) by nia.
  unfold ScreenDeviceScroll. apply wp_char_height; [done|]. wp_step. apply wp_get. cbv zeta. fold P U.
  rewrite (Z.mul_comm 19 P), !(u32_id (P * _)), land_255, high_bytes by (unfold is_u32; lia).
  set (n := P * (U - 19)) in *. set (r := n mod 256).
  assert (0 <= r /\ 0 <= n - r) as [Hr1 Hr2] by (subst r; lia).
  wp_step. apply (wp_copy_bytes s Hok); [lia|lia|lia|]. intros b1 Hb1 Hm1.
  pose proof (ok_with_buffer _ _ Hb1 Hok) as Hok1.
  wp_step. apply (wp_copy_bytes _ Hok1); [lia|lia|simpl; lia|]. cbn [with_buffer upd m_pBuffer]. intros b2 Hb2 Hm2.
  pose proof (ok_with_buffer b2 (with_buffer b1 s) Hb2 Hok1) as Hok2.
  assert (n mod 4 = 0 /\ (P * 19) mod 4 = 0) as [Hn4 Hp4].
  { subst n. split; rewrite <- Z.mul_mod_idemp_l, so_pitch0 by lia; reflexivity. }
  replace (0 + n / 4 * 4) with n by lia. replace (P * 19 / 4 * 4) with (P * 19) by lia. rewrite u32_id by (unfold is_u32; lia).
  apply (wp_fill_bytes _ Hok2); [lia|lia|simpl; lia|]. cbn [with_buffer upd m_pBuffer]. intros b3 Hb3 Hm3.
  eapply (HQ b3); [congruence|]. intros x y Hon. pose proof (offset_range s Hok x y Hon) as Ho.
  unfold px. fold P U. fold P in Ho. destruct Hon as [Hx Hy].
  assert (0 <= x < P) as Hx' by lia.
  assert (y < U - 19 → P * y + x < n) as G1 by (by apply row_before).
  assert (U - 19 <= y → n <= P * y + x) as G2 by (apply row_after; lia).
  assert (y < U → P * y + x < P * U) as G3 by (by apply row_before).
  assert (U <= y → P * U <= P * y + x) as G4 by (apply row_after; lia).
  assert (P * (y + 19) + x = P * 19 + (P * y + x)) as G5 by lia.
  set (o := P * y + x) in *. rewrite Hm3, Hm2 by lia.
  destruct (Z.ltb_spec y (U - 19)) as [Hlt|Hge].
  - specialize (G1 Hlt). rewrite (proj2 (Z.leb_gt n o)) by lia. cbn [andb].
    destruct (Z.leb_spec (0 + (n - r)) o) as [Hs|Hs]; destruct (Z.ltb_spec o (0 + (n - r) + r)); try lia; cbn [andb].
    + rewrite Hm1 by lia. rewrite (proj2 (Z.ltb_ge _ (0 + (n - r)))), andb_false_r by lia. f_equal. lia.
    + rewrite Hm1, (proj2 (Z.leb_le 0 o)), (proj2 (Z.ltb_lt o _)) by lia. cbn [andb]. f_equal. lia.
  - specialize (G2 Hge). rewrite (proj2 (Z.leb_le n o)) by lia. cbn [andb].
    destruct (Z.ltb_spec y U) as [Hlt'|Hge'].
    + specialize (G3 Hlt'). by rewrite (proj2 (Z.ltb_lt o _)) by lia.
    + specialize (G4 Hge'). rewrite !(proj2 (Z.ltb_ge o _)), !andb_false_r by lia.
      rewrite Hm1 by lia. by rewrite (proj2 (Z.ltb_ge o _)), andb_false_r by lia.
Qed.

(** ** Erasing *)

(** The cursor's line is blank from [X] to [endX]. *)
Definition erased (s : TScreenDevice) (X endX : Z) (b b' : list Z) : Prop :=
  (endX - X) mod 8 = 0 → X <= endX → ∀ x y, on_screen s x y →
    px s b' x y = if (X <=? x) && (x <? endX) && (m_nCursorY s <=? y) && (y <? m_nCursorY s + 19) then 0 else px s b x y.

Lemma wp_erase_loop s fuel X endX b (Q : unit → TScreenDevice → Prop) : screen_ok s → line_ok s →
  is_u32 X → endX <= m_nWidth s → endX - X <= 8 * Z.of_nat fuel → length b = length (m_pBuffer s) →
  (∀ b', length b' = length (m_pBuffer s) → erased s X endX b b' → Q tt (with_buffer b' s)) →
  wp (erase_loop fuel X endX) Q (with_buffer b s).
Proof.
  intros Hok HY. destruct (screen_bounds s Hok) as (HU1 & HU2 & HH & HW). pose proof Hok as [Hgen _ _ _ _ _ _ _ _]. unfold line_ok in HY.
  revert X b. induction fuel as [|fuel IH]; intros X b HX Hend Hfuel Hb HQ;
    cbn [erase_loop]; destruct (Z.ltb_spec X endX) as [Hlt|Hge]; try lia.
  1, 3: apply wp_ret, HQ; [done|]; intros _ Hle x y _; destruct (Z.leb_spec X x); destruct (Z.ltb_spec x endX); done || lia.
  unfold is_u32 in HX. wp_step. apply wp_get. wp_step. cbn [with_buffer upd m_nCursorY].
  apply (wp_EraseChar s Hok); [done|unfold is_u32; lia|done|]. intros b1 Hb1 Hp.
  wp_step. apply wp_gets. cbn [with_buffer upd m_CharGen]. rewrite Hgen. change (CharGeneratorGetCharWidth _) with 8.
  rewrite u32_id by (unfold is_u32; lia). apply (IH (X + 8) b1); [unfold is_u32; lia|done|lia|done|].
  intros b2 Hb2 He. apply HQ; [done|]. intros Hmod Hle x y Hon.
  rewrite (He ltac:(lia) ltac:(lia) x y Hon), (painted_at s _ _ _ _ b b1 x y Hp) by (done || lia). unfold in_cell.
  destruct (Z.leb_spec (X + 8) x); destruct (Z.leb_spec X x); destruct (Z.ltb_spec x endX);
    destruct (Z.ltb_spec x (X + 8)); try lia; cbn [andb]; rewrite ?Z.add_0_r; try done; by destruct (_ && _).
Qed.

Lemma wp_ClearLineEnd s (Q : unit → TScreenDevice → Prop) : screen_ok s → line_ok s →
  (∀ b', length b' = length (m_pBuffer s) → erased s (m_nCursorX s) (m_nWidth s) (m_pBuffer s) b' → Q tt (with_buffer b' s)) →
  wp ScreenDeviceClearLineEnd Q s.
Proof.
  intros Hok HY HQ. pose proof Hok as []. unfold ScreenDeviceClearLineEnd. wp_step. apply wp_get. apply wp_own_buffer.
  apply wp_erase_loop; [done|done|done|lia| |done|done]. unfold is_u32 in *. lia.
Qed.

Lemma wp_EraseChars s n (Q : unit → TScreenDevice → Prop) : screen_ok s → line_ok s → 0 <= n < 2 ^ 20 → m_nCursorX s < m_nWidth s →
  (∀ b', length b' = length (m_pBuffer s) →
     erased s (m_nCursorX s) (Z.min (m_nWidth s) (m_nCursorX s + n * 8)) (m_pBuffer s) b' → Q tt (with_buffer b' s)) →
  wp (ScreenDeviceEraseChars n) Q s.
Proof.
  intros Hok HY Hn Hx HQ. pose proof Hok as []. destruct (screen_bounds s Hok) as (_ & _ & _ & HW). unfold is_u32 in *.
  unfold ScreenDeviceEraseChars. destruct (Z.eqb_spec n 0) as [->|Hne].
  { apply wp_ret. rewrite <- (with_own_buffer s). apply HQ; [done|]. intros _ _ x y _.
    rewrite Z.mul_0_l, Z.add_0_r, Z.min_r by lia.
    destruct (Z.leb_spec (m_nCursorX s) x); destruct (Z.ltb_spec x (m_nCursorX s)); try lia; done. }
  wp_step. apply wp_get. apply wp_char_width; [done|]. rewrite (u32_id (n * 8)), u32_id by (unfold is_u32; lia).
  replace (if _ <? _ then _ else _) with (Z.min (m_nWidth s) (m_nCursorX s + n * 8))
    by (destruct (Z.ltb_spec (m_nWidth s) (m_nCursorX s + n * 8)); lia).
  apply wp_own_buffer. apply wp_erase_loop; [done|done|done|lia|lia|done|done].
Qed.

(** The rest of the screen from the cursor on. *)
Definition cleared_below (s : TScreenDevice) (b b' : list Z) : Prop :=
  (m_nWidth s - m_nCursorX s) mod 8 = 0 → m_nCursorX s <= m_nWidth s → ∀ x y, on_screen s x y →
    px s b' x y =
      if (m_nCursorY s + 19 <=? y) || ((m_nCursorX s <=? x) && (m_nCursorY s <=? y)) then 0 else px s b x y.

Lemma wp_ClearDisplayEnd s (Q : unit → TScreenDevice → Prop) : screen_ok s → line_ok s →
  (∀ b', length b' = length (m_pBuffer s) → cleared_below s (m_pBuffer s) b' → Q tt (with_buffer b' s)) →
  wp ScreenDeviceClearDisplayEnd Q s.
Proof.
  intros Hok HY HQ. pose proof Hok as []. destruct (screen_bounds s Hok) as (HU & _ & HH & HW).
  unfold ScreenDeviceClearDisplayEnd. wp_step. apply wp_ClearLineEnd; [done|done|]. unfold line_ok in HY. intros b1 Hb1 He.
  pose proof (ok_with_buffer _ _ Hb1 Hok) as Hok1. wp_step. apply wp_get. apply wp_char_height; [done|].
  cbn [with_buffer upd m_nCursorY m_nPitch m_nSize].
  assert (0 <= (m_nCursorY s + 19) * m_nPitch s <= m_nSize s) as Hoff.
  { split; [apply Z.mul_nonneg_nonneg; lia|]. transitivity (m_nPitch s * m_nHeight s); [|done]. rewrite Z.mul_comm. apply Z.mul_le_mono_nonneg_l; lia. }
  rewrite (u32_id (m_nCursorY s + 19)), (u32_id ((_ + _) * _)), u32_id by (unfold is_u32; lia).
  apply (wp_fill_bytes _ Hok1); [lia|lia|simpl; lia|]. intros b2 Hb2 Hf. cbn [with_buffer upd m_pBuffer] in Hf, Hb2.
  eapply (HQ b2); [congruence|]. intros Hm Hle x y Hon. pose proof (offset_range s Hok x y Hon) as Ho.
  unfold px in *. rewrite Hf by lia. destruct Hon as [Hx Hy].
  destruct (Z.leb_spec (m_nCursorY s + 19) y) as [Hlow|Hhigh]; cbn [orb].
  - pose proof (row_after (m_nPitch s) _ x y ltac:(lia) ltac:(lia) Hlow).
    rewrite (proj2 (Z.leb_le _ _)), (proj2 (Z.ltb_lt _ _)) by lia. done.
  - pose proof (row_before (m_nPitch s) _ x y ltac:(lia) Hhigh).
    rewrite (proj2 (Z.leb_gt _ _)) by lia. cbn [andb].
    pose proof (He Hm Hle x y ltac:(done)) as Hpx. unfold px in Hpx. rewrite Hpx.
    rewrite (proj2 (Z.ltb_lt x _)), (proj2 (Z.ltb_lt y _)) by lia. by rewrite !andb_true_r.
Qed.
