(* ===== verification/ScreenTerm.v ===== *)
(** * The screen as a terminal

    The screen never leaves its frame buffer, whatever is written to it; and on
    a display whose width is a multiple of eight it is a terminal: a grid of
    coloured characters with a cursor, on which the escape sequences are
    commands. *)
From S2P Require Import Prelude CharGen Screen ScreenDraw.

(** ** Safety *)

Definition same_geometry (s s' : TScreenDevice) : Prop :=
  m_nWidth s' = m_nWidth s ∧ m_nHeight s' = m_nHeight s ∧ m_nPitch s' = m_nPitch s ∧ m_nSize s' = m_nSize s ∧
  m_nUsedHeight s' = m_nUsedHeight s.

Lemma same_geometry_trans s1 s2 s3 : same_geometry s1 s2 → same_geometry s2 s3 → same_geometry s1 s3.
Proof. intros (? & ? & ? & ? & ?) (? & ? & ? & ? & ?). split_and!; by etransitivity. Qed.

(** Neither the display nor the automaton. *)
Definition kept (s s' : TScreenDevice) : Prop :=
  same_geometry s s' ∧ m_nState s' = m_nState s ∧ m_nParam1 s' = m_nParam1 s ∧ m_nParam2 s' = m_nParam2 s.

Lemma kept_trans s1 s2 s3 : kept s1 s2 → kept s2 s3 → kept s1 s3.
Proof. intros (? & ? & ? & ?) (? & ? & ? & ?). split_and!; [by eapply same_geometry_trans|by etransitivity..]. Qed.
Lemma kept_refl s : kept s s.
Proof. done. Qed.

Definition safe {A} (m : M TScreenDevice A) : Prop :=
  ∀ s, screen_ok s → line_ok s → wp m (λ _ s', screen_ok s' ∧ line_ok s' ∧ kept s s') s.

Lemma safe_ret {A} (a : A) : safe (mret a).
Proof. intros s Hs Hl. by apply wp_ret. Qed.
Lemma safe_bind {A B} (m : M TScreenDevice A) (k : A → M TScreenDevice B) :
  safe m → (∀ a, safe (k a)) → safe (m ≫= k).
Proof.
  intros Hm Hk s Hs Hl. wp_step. eapply wp_mono; [by apply Hm|]. intros a s1 (H1 & L1 & G1).
  eapply wp_mono; [by apply Hk|]. intros b s2 (H2 & L2 & G2). split_and!; [done|done|by eapply kept_trans].
Qed.
Lemma safe_gets {A} (f : TScreenDevice → A) : safe (gets f).
Proof. intros s Hs Hl. by apply wp_gets. Qed.
Lemma safe_get : safe get.
Proof. intros s Hs Hl. by apply wp_get. Qed.
Lemma safe_when b m : safe m → safe (when b m).
Proof. intros H. destruct b; [done|apply safe_ret]. Qed.
Lemma safe_if {A} (b : bool) (m1 m2 : M TScreenDevice A) : safe m1 → safe m2 → safe (if b then m1 else m2).
Proof. by destruct b. Qed.
Lemma safe_modify f :
  (∀ s, screen_ok s → line_ok s → screen_ok (f s) ∧ line_ok (f s) ∧ kept s (f s)) → safe (modify f).
Proof. intros H s Hs Hl. by apply wp_modify, H. Qed.
Lemma safe_buffer m : (∀ s (Q : unit → TScreenDevice → Prop), screen_ok s → line_ok s →
  (∀ b', length b' = length (m_pBuffer s) → Q tt (with_buffer b' s)) → wp m Q s) → safe m.
Proof. intros H s Hs Hl. apply H; [done|done|]. intros b' Hb. split; [by apply ok_with_buffer|done]. Qed.

Lemma safe_ClearLineEnd : safe ScreenDeviceClearLineEnd.
Proof. apply safe_buffer. intros s Q Hs Hl HQ. apply wp_ClearLineEnd; [done|done|]. intros. by apply HQ. Qed.
Lemma safe_ClearDisplayEnd : safe ScreenDeviceClearDisplayEnd.
Proof. apply safe_buffer. intros s Q Hs Hl HQ. apply wp_ClearDisplayEnd; [done|done|]. intros. by apply HQ. Qed.
Lemma safe_InvertCursor : safe ScreenDeviceInvertCursor.
Proof. apply safe_buffer. intros s Q Hs Hl HQ. apply wp_InvertCursor; [done|done|]. intros. by apply HQ. Qed.

Lemma safe_EraseChars n : safe (ScreenDeviceEraseChars n).
Proof.
  apply safe_buffer. intros s Q Hs Hl HQ. unfold ScreenDeviceEraseChars. destruct (n =? 0).
  { apply wp_ret. rewrite <- (with_own_buffer s). by apply HQ. }
  wp_step. apply wp_get. apply wp_char_width; [done|]. apply wp_own_buffer. cbv zeta.
  set (e := if _ <? _ then _ else _). assert (e <= m_nWidth s) as He.
  { subst e. match goal with |- (if ?b then _ else _) <= _ => destruct b eqn:E end; lia. }
  clearbody e. pose proof (so_x s Hs) as Hx. pose proof (so_width s Hs). unfold is_u32 in Hx.
  apply wp_erase_loop; [done|done|done|done|lia|done|]. intros. by apply HQ.
Qed.

(** The line below, and scrolling at the end. *)
Lemma wp_CursorDown s (Q : unit → TScreenDevice → Prop) : screen_ok s → line_ok s →
  (m_nCursorY s + 19 < m_nUsedHeight s → Q tt (s <| m_nCursorY := m_nCursorY s + 19 |>)) →
  (m_nCursorY s + 19 = m_nUsedHeight s → ∀ b', length b' = length (m_pBuffer s) →
     scrolled s (m_pBuffer s) b' → Q tt (with_buffer b' s)) →
  wp ScreenDeviceCursorDown Q s.
Proof.
  intros Hs Hl H1 H2. destruct (screen_bounds s Hs) as (HU & HU19 & HH & HW). unfold line_ok in Hl.
  unfold ScreenDeviceCursorDown. apply wp_char_height; [done|]. wp_step. apply wp_modify. wp_step. apply wp_get.
  cbn [m_nUsedHeight m_nCursorY upd]. rewrite u32_id by (unfold is_u32; lia).
  set (s1 := s <| m_nCursorY := m_nCursorY s + 19 |>). assert (screen_ok s1) as Hs1 by (destruct Hs; by split).
  destruct (Z.leb_spec (m_nUsedHeight s) (m_nCursorY s + 19)) as [Hge|Hlt]; cbn [when]; [|by apply wp_ret, H1].
  wp_step. apply wp_Scroll; [done|]. intros b' Hb Hsc. apply wp_modify.
  subst s1. cbn [m_nCursorY with_buffer upd]. rewrite u32_id by (unfold is_u32; lia).
  replace (m_nCursorY s + 19 - 19) with (m_nCursorY s) by lia.
  assert (m_nCursorY s + 19 = m_nUsedHeight s) as He by lia. specialize (H2 He b' Hb Hsc). by destruct s.
Qed.

Lemma safe_CursorDown : safe ScreenDeviceCursorDown.
Proof.
  intros s Hs Hl. apply wp_CursorDown; [done|done| |].
  - intros Hlt. pose proof (so_used s Hs). split_and!; [destruct Hs; by split|unfold line_ok in *; simpl; lia|done].
  - intros _ b' Hb _. split_and!; [by apply ok_with_buffer|done..].
Qed.

Create HintDb screen.
#[export] Hint Resolve safe_ret safe_gets safe_get safe_when safe_if safe_ClearLineEnd safe_ClearDisplayEnd
  safe_InvertCursor safe_EraseChars safe_CursorDown : screen.
#[export] Hint Extern 1 (safe (modify _)) =>
  apply safe_modify; intros ? [] ?; split_and!; [by split|done..] : screen.
#[export] Hint Extern 2 (safe (_ ≫= _)) => apply safe_bind; [|intros ?] : screen.

Lemma safe_NewLine : safe ScreenDeviceNewLine.
Proof. unfold ScreenDeviceNewLine, ScreenDeviceCarriageReturn. auto with screen. Qed.
#[export] Hint Resolve safe_NewLine : screen.

(** Moving the cursor and then, perhaps, to the next line. *)
Lemma safe_advance (f : TScreenDevice → Z) : (∀ s, is_u32 (f s)) →
  safe (modify (λ s, s <| m_nCursorX := f s |>) ;; s ← get; when (m_nWidth s <=? m_nCursorX s) ScreenDeviceNewLine).
Proof.
  intros Hf. apply safe_bind; [|auto with screen]. apply safe_modify. intros s [] Hl. split_and!; [split; try done; apply Hf|done..].
Qed.
Lemma safe_CursorRight : safe ScreenDeviceCursorRight.
Proof. apply safe_bind; [auto with screen|]. intros w. apply safe_advance. intros s. apply u32_range. Qed.
Lemma safe_Tabulator : safe ScreenDeviceTabulator.
Proof. apply safe_bind; [auto with screen|]. intros w. cbv zeta. apply safe_advance. intros s. apply u32_range. Qed.

(** A new position on the lines of the screen. *)
Lemma moved_ok s x y : screen_ok s → is_u32 x → 0 <= y → y + 19 <= m_nUsedHeight s → y mod 19 = 0 →
  let s' := s <| m_nCursorX := x |> <| m_nCursorY := y |> in screen_ok s' ∧ line_ok s' ∧ kept s s'.
Proof. intros [] Hx Hy Hy1 Hy2. by split_and!. Qed.

Lemma safe_CursorLeft : safe ScreenDeviceCursorLeft.
Proof.
  intros s Hs Hl. pose proof Hl as (Hy0 & Hy1 & Hy2). destruct (screen_bounds s Hs) as (HU & HU19 & HH & HW).
  unfold ScreenDeviceCursorLeft. wp_step. apply wp_get. apply wp_char_width; [done|]. apply wp_char_height; [done|].
  destruct (0 <? m_nCursorX s).
  { apply wp_put. split_and!; [destruct Hs; split; try done; apply u32_range|done..]. }
  apply wp_when; [|done]. intros Hgt%Z.ltb_lt. apply wp_put.
  apply (moved_ok s); [done|apply u32_range|apply u32_range| |]; rewrite u32_id by (unfold is_u32; lia); lia.
Qed.

Lemma safe_CursorUp : safe ScreenDeviceCursorUp.
Proof.
  intros s Hs Hl. pose proof Hl as (Hy0 & Hy1 & Hy2). destruct (screen_bounds s Hs) as (HU & HU19 & HH & HW).
  unfold ScreenDeviceCursorUp. apply wp_char_height; [done|]. wp_step. apply wp_get. apply wp_when; [|done].
  intros Hge%Z.leb_le. apply wp_put. rewrite u32_id by (unfold is_u32; lia).
  split_and!; [destruct Hs; by split|unfold line_ok; simpl; lia|done..].
Qed.

Lemma safe_CursorMove r c : 0 <= r <= 99 → safe (ScreenDeviceCursorMove r c).
Proof.
  intros Hr s Hs Hl. destruct (screen_bounds s Hs) as (HU & HU19 & HH & HW). pose proof (so_used s Hs) as Hu.
  unfold ScreenDeviceCursorMove. apply wp_char_width; [done|]. apply wp_char_height; [done|]. wp_step. apply wp_get.
  apply wp_when; [|done]. intros [H1 H2]%andb_prop. apply Z.ltb_lt in H1, H2. apply wp_put.
  assert (u32 ((r - 1) * 19) = (r - 1) * 19 ∧ 1 <= r) as [Hy Hr1] by (unfold u32 in *; lia).
  rewrite Hy in *. apply (moved_ok s); [done|apply u32_range|lia|lia|lia].
Qed.

Lemma safe_DisplayChar ch : safe (ScreenDeviceDisplayChar ch).
Proof.
  intros s Hs Hl. destruct (screen_bounds s Hs) as (HU & _ & HH & _). pose proof Hl as (Hy0 & Hy1 & _).
  apply wp_when; [|done]. intros _. wp_step. apply wp_get. wp_step.
  apply wp_DisplayChar2; [done|apply (so_x s Hs)|unfold is_u32; lia|]. intros b' Hb _.
  eapply wp_mono; [apply safe_CursorRight; [by apply ok_with_buffer|exact Hl]|].
  intros [] s' (H1 & H2 & H3). done.
Qed.
Lemma safe_ReverseScroll : safe ScreenDeviceReverseScroll.
Proof. unfold ScreenDeviceReverseScroll, ScreenDeviceInsertLines. auto with screen. Qed.
Lemma safe_SetCursorMode b : safe (ScreenDeviceSetCursorMode b).
Proof. unfold ScreenDeviceSetCursorMode. auto with screen. Qed.
Lemma safe_InsertMode b : safe (ScreenDeviceInsertMode b).
Proof. unfold ScreenDeviceInsertMode. auto with screen. Qed.
Lemma safe_SetStandoutMode n : safe (ScreenDeviceSetStandoutMode n).
Proof. unfold ScreenDeviceSetStandoutMode. auto with screen. Qed.
Lemma safe_CarriageReturn : safe ScreenDeviceCarriageReturn.
Proof. unfold ScreenDeviceCarriageReturn. auto with screen. Qed.
Lemma safe_CursorHome : safe ScreenDeviceCursorHome.
Proof.
  apply safe_modify. intros s Hs Hl. destruct (screen_bounds s Hs) as (_ & HU & _). by apply moved_ok.
Qed.
#[export] Hint Resolve safe_DisplayChar safe_ReverseScroll safe_SetCursorMode safe_InsertMode safe_SetStandoutMode
  safe_CarriageReturn safe_CursorHome safe_CursorUp safe_CursorLeft safe_CursorRight safe_Tabulator : screen.

(** *** The automaton *)

(** Where the first number matters it has at most two digits. *)
Definition numbered (st : TScreenState) : bool :=
  match st with
  | ScreenStateNumber1 | ScreenStateSemicolon | ScreenStateNumber2 | ScreenStateNumber3 => true
  | _ => false
  end.
Definition text_ok (s : TScreenDevice) : Prop :=
  screen_ok s ∧ line_ok s ∧ (numbered (m_nState s) = true → 0 <= m_nParam1 s <= 99).

(** From [s], everything stays as it should. *)
Definition steps (m : M TScreenDevice unit) (s : TScreenDevice) : Prop :=
  wp m (λ _ s', text_ok s' ∧ same_geometry s s') s.

Lemma steps_safe (m : M TScreenDevice unit) s : safe m → text_ok s → steps m s.
Proof.
  intros Hm (Hs & Hl & Hp). eapply wp_mono; [by apply Hm|]. intros [] s' (H1 & H2 & H3 & H4 & H5 & H6).
  split; [|done]. split_and!; [done|done|]. by rewrite H4, H5.
Qed.
Lemma steps_goto st s : screen_ok s → line_ok s → (numbered st = true → 0 <= m_nParam1 s <= 99) → steps (goto st) s.
Proof. intros [] Hl Hp. apply wp_modify. split; [|done]. by split_and!. Qed.
Lemma steps_start (m : M TScreenDevice unit) s : safe m → text_ok s → steps (m ;; goto ScreenStateStart) s.
Proof.
  intros Hm (Hs & Hl & Hp). unfold steps. wp_step. eapply wp_mono; [by apply Hm|].
  intros [] s' (H1 & H2 & H3 & _). eapply wp_mono; [by apply steps_goto|].
  intros [] s2 [Hok Hg]. split; [done|by eapply same_geometry_trans].
Qed.
Lemma steps_number f st s : text_ok s → (∀ s, screen_ok s → screen_ok (f s)) → (line_ok (f s)) → same_geometry s (f s) →
  0 <= m_nParam1 (f s) <= 99 → steps (modify f ;; goto st) s.
Proof.
  intros (Hs & Hl & Hp) Hf Hfl Hg Hn. unfold steps. wp_step. apply wp_modify.
  eapply wp_mono; [apply steps_goto; [by apply Hf|done|done]|].
  intros [] s2 [Hok Hg2]. split; [done|by eapply same_geometry_trans].
Qed.

Lemma steps_more_digits param set limit ch s : text_ok s → numbered (m_nState s) = true →
  (∀ n s, param (set n s) = n) →
  (∀ n s, screen_ok s → line_ok s → screen_ok (set n s) ∧ line_ok (set n s) ∧ same_geometry s (set n s) ∧ m_nState (set n s) = m_nState s) →
  (∀ n, 0 <= n <= limit → 0 <= m_nParam1 s <= 99 → 0 <= m_nParam1 (set n s) <= 99) →
  steps (more_digits param set limit ch) s.
Proof.
  intros (Hs & Hl & Hp) Hn Hget Hset Hlim. unfold more_digits. destruct (is_digit ch); [|by apply steps_goto].
  unfold steps. wp_step. apply wp_modify. wp_step. apply wp_get. rewrite Hget. set (n := u32 _).
  destruct (Hset n s Hs Hl) as (H1 & H2 & H3 & H4). pose proof (u32_range (u32 (param s * 10) + (ch - 48))) as Hr. fold n in Hr.
  destruct (Z.ltb_spec limit n); cbn [when].
  - eapply wp_mono; [by apply steps_goto|]. intros [] s' [Hok Hg]. split; [done|by eapply same_geometry_trans].
  - apply wp_ret. split; [|done]. split_and!; [done|done|]. intros _. unfold is_u32 in Hr. apply Hlim; [lia|by apply Hp].
Qed.

Lemma steps_gets {A} (f : TScreenDevice → A) k s : steps (k (f s)) s → steps (gets f ≫= k) s.
Proof. done. Qed.
Lemma steps_get k s : steps (k s) s → steps (get ≫= k) s.
Proof. done. Qed.

Ltac char_cases := repeat match goal with |- context [if ?b then _ else _] => destruct b eqn:? end.
#[local] Hint Unfold ScreenDeviceInsertLines ScreenDeviceDeleteLines ScreenDeviceDeleteChars : screen.

Lemma digit_range ch : is_digit ch = true → 0 <= ch - 48 <= 9.
Proof. unfold is_digit. lia. Qed.

Lemma steps_Write2 ch s : text_ok s → steps (ScreenDeviceWrite2 ch) s.
Proof.
  intros Hok. pose proof Hok as (Hs & Hl & Hp). unfold ScreenDeviceWrite2. apply steps_gets.
  assert (∀ st, numbered st = false → steps (goto st) s) as Hgoto.
  { intros st Hst. apply steps_goto; [done|done|]. by rewrite Hst. }
  assert (∀ st, is_digit ch = true → steps (modify (set_param1 (ch - 48)) ;; goto st) s) as Hfirst.
  { intros st Hd%digit_range. apply steps_number; [done|by intros s' []|done|done|simpl; lia]. }
  destruct (m_nState s) eqn:Est.
  - unfold write_start. char_cases; try (apply steps_safe; [solve [auto with screen]|done]); by apply Hgoto.
  - unfold write_escape. char_cases; try (apply steps_start; [solve [auto with screen]|done]); by apply Hgoto.
  - unfold write_bracket. char_cases; try (apply steps_start; [solve [auto with screen]|done]); try (by apply Hfirst); by apply Hgoto.
  - unfold write_number1. apply steps_gets. char_cases; try (apply steps_start; [solve [auto with screen]|done]).
    + apply steps_goto; [done|done|]. intros _. by apply Hp.
    + apply steps_more_digits; [done|by rewrite Est|done|by intros ? ? []|done].
  - unfold write_question_mark. char_cases; [by apply Hfirst|by apply Hgoto].
  - unfold write_semicolon. char_cases; [|by apply Hgoto].
    apply steps_number; [done|by intros s' []|done|done|by apply Hp].
  - unfold write_number2. char_cases.
    + apply steps_get, steps_start; [|done]. apply safe_CursorMove, Hp. done.
    + apply steps_more_digits; [done|by rewrite Est|done|by intros ? ? []|]. intros n _ H. exact H.
  - unfold write_number3. char_cases.
    + apply steps_gets, steps_start; [auto with screen|done].
    + apply steps_more_digits; [done|by rewrite Est|done|by intros ? ? []|done].
Qed.

(** C32. Safety: whatever bytes are written to the screen, every access stays inside
    the frame buffer, every loop ends, the cursor stays on a line of the screen,
    the automaton in one of its states, and all bytes are counted as written. *)
Theorem screen_safe l s : text_ok s →
  wp (ScreenDeviceWrite l) (λ r s', r = Z.of_nat (length l) ∧ text_ok s' ∧ same_geometry s s') s.
Proof.
  intros Hok. unfold ScreenDeviceWrite. wp_step. eapply wp_mono; [by apply (steps_safe _ _ safe_InvertCursor)|].
  intros [] s1 [H1 G1]. wp_step. eapply (wp_mono _ (λ _ s', text_ok s' ∧ same_geometry s s')).
  - clear Hok. revert s1 H1 G1. induction l as [|ch l IH]; intros s1 H1 G1; [by apply wp_ret|]. cbn [write_all].
    wp_step. eapply wp_mono; [by apply steps_Write2|]. intros [] s2 [H2 G2]. apply IH; [done|by eapply same_geometry_trans].
  - intros [] s2 [H2 G2]. wp_step. eapply wp_mono; [by apply (steps_safe _ _ safe_InvertCursor)|].
    intros [] s3 [H3 G3]. apply wp_ret. split_and!; [done|done|by eapply same_geometry_trans].
Qed.
