(* ===== verification/Terminal.v ===== *)
(** * The terminal that the screen implements

    A grid of coloured characters with a cursor, the commands on it, how they
    are written, and that the screen shows the terminal on which the commands
    were executed. The width of the display is a multiple of eight here; with
    another one, going back over the start of a line leaves the grid. *)
From S2P Require Import Prelude CharGen Screen ScreenDraw ScreenTerm.

(** ** The terminal *)

(** A character and its colour. *)
Definition cell : Type := Z * Z.
Definition blank : cell := (32, NORMAL_COLOR).

Record Term := {
  grid : Z → Z → cell;
  row : Z;
  col : Z;
  visible : bool;
  color : Z
}.
#[global] Instance Term_eta : Eta Term := λ t,
  {| grid := grid t; row := row t; col := col t; visible := visible t; color := color t |}.

Section Commands.
Context (R C : Z).

Definition scroll (g : Z → Z → cell) : Z → Z → cell := λ r c, if r <? R - 1 then g (r + 1) c else blank.
Definition down (t : Term) : Term :=
  if row t + 1 <? R then t <| row := row t + 1 |> else t <| grid := scroll (grid t) |>.
Definition newline (t : Term) : Term := down (t <| col := 0 |>).
(** To a column, or to the next line if there is no such column. *)
Definition advance (c : Z) (t : Term) : Term := if c <? C then t <| col := c |> else newline t.
Definition left (t : Term) : Term :=
  if 0 <? col t then t <| col := col t - 1 |>
  else if 0 <? row t then t <| col := C - 1 |> <| row := row t - 1 |> else t.
Definition put (v : cell) (t : Term) : Term :=
  t <| grid := λ r c, if (r =? row t) && (c =? col t) then v else grid t r c |>.
(** The line of the cursor from its column up to another. *)
Definition erase (e : Z) (t : Term) : Term :=
  t <| grid := λ r c, if (r =? row t) && (col t <=? c) && (c <? e) then blank else grid t r c |>.
Definition clear (t : Term) : Term :=
  t <| grid := λ r c, if (row t <? r) || ((r =? row t) && (col t <=? c)) then blank else grid t r c |>.

Inductive command :=
  | Print (ch : Z) | Backspace | Tab | NewLine | Return
  | Up | Down | Right | Home | ClearEnd | ClearLine
  | Move (r c : Z) | Erase (n : Z) | Colour (n : Z) | Cursor (b : bool).

Definition exec (k : command) (t : Term) : Term :=
  match k with
  | Print ch => let t := put (ch, color t) t in advance (col t + 1) t
  | Backspace => left t
  | Tab => advance ((col t / 8 + 1) * 8) t
  | NewLine => newline t
  | Return => t <| col := 0 |>
  | Up => if 0 <? row t then t <| row := row t - 1 |> else t
  | Down => down t
  | Right => advance (col t + 1) t
  | Home => t <| col := 0 |> <| row := 0 |>
  | ClearEnd => clear t
  | ClearLine => erase C t
  | Move r c => if (1 <=? r) && (r <=? R) && (1 <=? c) && (c <=? C) then t <| col := c - 1 |> <| row := r - 1 |> else t
  | Erase n => erase (Z.min C (col t + n)) t
  | Colour n => if (n =? 0) || (n =? 27) then t <| color := NORMAL_COLOR |>
                else if n =? 1 then t <| color := HIGH_COLOR |>
                else if n =? 2 then t <| color := HALF_COLOR |> else t
  | Cursor b => t <| visible := b |>
  end.

Definition execs (ks : list command) (t : Term) : Term := fold_left (λ t k, exec k t) ks t.
End Commands.

(** *** How commands are written *)

Definition digits (n : Z) : list Z :=
  if n <? 10 then [48 + n]
  else if n <? 100 then [48 + n / 10; 48 + n mod 10]
  else [48 + n / 100; 48 + n / 10 mod 10; 48 + n mod 10].

Definition encode (k : command) : list Z :=
  match k with
  | Print ch => [ch]
  | Backspace => [8] | Tab => [9] | NewLine => [10] | Return => [13]
  | Up => [27; 91; 65] | Down => [27; 91; 66] | Right => [27; 91; 67] | Home => [27; 91; 72]
  | ClearEnd => [27; 91; 74] | ClearLine => [27; 91; 75]
  | Move r c => [27; 91] ++ digits r ++ [59] ++ digits c ++ [72]
  | Erase n => [27; 91] ++ digits n ++ [88]
  | Colour n => [27; 91] ++ digits n ++ [109]
  | Cursor b => [27; 91; 63; 50; 53; if b then 104 else 108]
  end.

Definition writable (k : command) : Prop :=
  match k with
  | Print ch => 32 <= ch < 256
  | Move r c => 0 <= r <= 99 ∧ 0 <= c <= 199
  | Erase n | Colour n => 0 <= n <= 99
  | _ => True
  end.

(** ** What the screen shows of it *)

(** The pixel of a grid, and of a terminal with its cursor drawn if [cur]. *)
Definition grid_pixel (g : Z → Z → cell) (x y : Z) : Z :=
  ink (g (y / 19) (x / 8)).1 (g (y / 19) (x / 8)).2 (x mod 8) (y mod 19).
Definition pixel (t : Term) (cur : bool) (x y : Z) : Z :=
  if cur && visible t && (y / 19 =? row t) && (x / 8 =? col t) && (16 <=? y mod 19) then color t
  else grid_pixel (grid t) x y.

Definition columns (s : TScreenDevice) : Z := m_nWidth s / 8.
Definition lines (s : TScreenDevice) : Z := m_nHeight s / 19.

Record shows (s : TScreenDevice) (t : Term) (cur : bool) : Prop := {
  sh_ok : screen_ok s;
  sh_width : m_nWidth s mod 8 = 0;
  sh_row : m_nCursorY s = 19 * row t;
  sh_row_range : 0 <= row t < lines s;
  sh_col : m_nCursorX s = 8 * col t;
  sh_col_range : 0 <= col t < columns s;
  sh_visible : m_bCursorOn s = visible t;
  sh_color : m_Color s = color t;
  sh_ink : 0 < color t;
  sh_pixel x y : on_screen s x y → y < m_nUsedHeight s → px s (m_pBuffer s) x y = pixel t cur x y
}.

Lemma pixel_false t x y : pixel t false x y = grid_pixel (grid t) x y.
Proof. done. Qed.

Lemma shows_line s t cur : shows s t cur → line_ok s.
Proof. intros []. unfold line_ok, lines in *. rewrite (so_used s sh_ok0). lia. Qed.

(** Another grid in the buffer. *)
Lemma shows_grid s t cur b g : shows s t false → length b = length (m_pBuffer s) →
  (∀ x y, on_screen s x y → y < m_nUsedHeight s → px s b x y = pixel (t <| grid := g |>) cur x y) →
  shows (with_buffer b s) (t <| grid := g |>) cur.
Proof. intros [] Hb Hp. split; try done. by apply ok_with_buffer. Qed.

(** Another cursor. *)
Lemma shows_cursor s t r c : shows s t false → 0 <= r < lines s → 0 <= c < columns s →
  shows (s <| m_nCursorX := 8 * c |> <| m_nCursorY := 19 * r |>) (t <| col := c |> <| row := r |>) false.
Proof.
  intros [] Hr Hc. split; try done. destruct (screen_bounds s sh_ok0) as (_ & _ & _ & HW). destruct sh_ok0.
  split; try done. unfold is_u32, columns in *. simpl. lia.
Qed.

Lemma blank_pixel x y : ink blank.1 blank.2 x y = 0.
Proof. unfold ink. by rewrite glyph_space. Qed.

(** *** The operations show those of the terminal *)

Definition follows (m : M TScreenDevice unit) (f : Term → Term) (s : TScreenDevice) (t : Term) : Prop :=
  ∀ Q : unit → TScreenDevice → Prop, shows s t false →
    (∀ s', shows s' (f t) false → kept s s' → Q tt s') → wp m Q s.

Lemma follows_down s t : follows ScreenDeviceCursorDown (down (lines s)) s t.
Proof.
  intros Q Hsh HQ. pose proof (shows_line _ _ _ Hsh) as Hl. pose proof Hsh as []. pose proof (so_used s sh_ok0) as Hu.
  unfold lines in *. apply wp_CursorDown; [done|done| |].
  - intros Hlt. apply HQ; [|done]. unfold down. rewrite (proj2 (Z.ltb_lt _ _)) by lia.
    pose proof (shows_cursor s t (row t + 1) (col t) Hsh ltac:(unfold lines; lia) sh_col_range0) as H.
    rewrite <- sh_col0 in H. replace (19 * (row t + 1)) with (m_nCursorY s + 19) in H by lia. by destruct s, t.
  - intros Heq b Hb Hsc. apply HQ; [|done]. unfold down. rewrite (proj2 (Z.ltb_ge _ _)) by lia.
    apply shows_grid; [done|done|]. intros x y Hon Hy. pose proof Hon as [Hx Hy0]. rewrite Hsc by done.
    rewrite pixel_false. unfold grid_pixel, scroll. cbn [grid upd].
    destruct (Z.ltb_spec y (m_nUsedHeight s - 19)).
    + rewrite (proj2 (Z.ltb_lt _ _)) by lia. rewrite sh_pixel0, pixel_false by (unfold on_screen; lia). unfold grid_pixel.
      replace ((y + 19) / 19) with (y / 19 + 1) by lia. by replace ((y + 19) mod 19) with (y mod 19) by lia.
    + rewrite (proj2 (Z.ltb_lt y _)) by lia. rewrite (proj2 (Z.ltb_ge _ _)) by lia. by rewrite blank_pixel.
Qed.

Lemma follows_kept m f s s1 t1 : shows s1 t1 false → kept s s1 → follows m f s1 t1 → ∀ Q : unit → TScreenDevice → Prop,
  (∀ s', shows s' (f t1) false → kept s s' → Q tt s') → wp m Q s1.
Proof. intros H1 K1 Hf Q HQ. apply Hf; [done|]. intros s' H' K'. apply HQ; [done|by eapply kept_trans]. Qed.

Lemma follows_newline s t : follows ScreenDeviceNewLine (newline (lines s)) s t.
Proof.
  intros Q Hsh HQ. unfold ScreenDeviceNewLine, ScreenDeviceCarriageReturn. wp_step. apply wp_modify.
  pose proof Hsh as []. pose proof (shows_cursor s t (row t) 0 Hsh sh_row_range0 ltac:(lia)) as H.
  rewrite <- sh_row0 in H. assert (shows (s <| m_nCursorX := 0 |>) (t <| col := 0 |>) false) as H0 by (by destruct s, t).
  set (s1 := s <| m_nCursorX := 0 |>) in *. assert (kept s s1) as K by done.
  exact (follows_kept _ _ s s1 _ H0 K (follows_down s1 _) Q HQ).
Qed.

(** To the right, and to the next line from the last columns. *)
Lemma follows_advance s t c x (Q : unit → TScreenDevice → Prop) : shows s t false → is_u32 x → x = 8 * c → 0 <= c →
  (∀ s', shows s' (advance (lines s) (columns s) c t) false → kept s s' → Q tt s') →
  wp (s ← get; when (m_nWidth s <=? m_nCursorX s) ScreenDeviceNewLine) Q (s <| m_nCursorX := x |>).
Proof.
  intros Hsh Hx -> Hc HQ. wp_step. apply wp_get. cbn [m_nWidth m_nCursorX upd]. unfold advance in HQ.
  pose proof Hsh as []. unfold columns in *.
  destruct (Z.leb_spec (m_nWidth s) (8 * c)) as [Hge|Hlt]; cbn [when].
  - rewrite (proj2 (Z.ltb_ge _ _)) in HQ by lia. unfold ScreenDeviceNewLine, ScreenDeviceCarriageReturn.
    wp_step. apply wp_modify. pose proof (shows_cursor s t (row t) 0 Hsh sh_row_range0 ltac:(unfold columns; lia)) as H.
    rewrite <- sh_row0 in H.
    assert (shows (s <| m_nCursorX := 8 * c |> <| m_nCursorX := 0 |>) (t <| col := 0 |>) false) as H0 by (by destruct s, t).
    set (s1 := s <| m_nCursorX := 8 * c |> <| m_nCursorX := 0 |>) in *. assert (kept s s1) as K by done.
    exact (follows_kept _ _ s s1 _ H0 K (follows_down s1 _) Q HQ).
  - rewrite (proj2 (Z.ltb_lt _ _)) in HQ by lia. apply wp_ret, HQ; [|done].
    pose proof (shows_cursor s t (row t) c Hsh sh_row_range0 ltac:(unfold columns; lia)) as H. rewrite <- sh_row0 in H.
    by destruct s, t.
Qed.

Lemma follows_right s t : follows ScreenDeviceCursorRight (λ t, advance (lines s) (columns s) (col t + 1) t) s t.
Proof.
  intros Q Hsh HQ. pose proof Hsh as []. destruct (screen_bounds s sh_ok0) as (_ & _ & _ & HW). unfold columns in *.
  unfold ScreenDeviceCursorRight. apply wp_char_width; [done|]. wp_step. apply wp_modify.
  eapply (follows_advance s t (col t + 1)); [done|apply u32_range| |lia|done].
  rewrite u32_id by (unfold is_u32; lia). lia.
Qed.

Lemma follows_tab s t : follows ScreenDeviceTabulator (λ t, advance (lines s) (columns s) ((col t / 8 + 1) * 8) t) s t.
Proof.
  intros Q Hsh HQ. pose proof Hsh as []. destruct (screen_bounds s sh_ok0) as (_ & _ & _ & HW). unfold columns in *.
  unfold ScreenDeviceTabulator. apply wp_char_width; [done|]. cbv zeta. change (u32 (8 * 8)) with 64. wp_step. apply wp_modify.
  eapply (follows_advance s t ((col t / 8 + 1) * 8)); [done|apply u32_range| |lia|done].
  rewrite (u32_id (m_nCursorX s + 64)), u32_id by (unfold is_u32; lia). lia.
Qed.

Lemma follows_put ch s t : is_u32 ch →
  follows (ScreenDeviceDisplayChar2 ch (m_nCursorX s) (m_nCursorY s) (m_Color s)) (put (ch, color t)) s t.
Proof.
  intros Hch Q Hsh HQ. pose proof (shows_line _ _ _ Hsh) as (Hl1 & Hl2 & _). pose proof Hsh as [].
  destruct (screen_bounds s sh_ok0) as (HU & _ & HH & HW). unfold columns, lines in *.
  apply wp_DisplayChar2; [done|apply (so_x s sh_ok0)|unfold is_u32; lia|]. intros b Hb Hp. apply HQ; [|done].
  apply shows_grid; [done|done|]. intros x y Hon Hy. pose proof Hon as [Hx Hy0].
  rewrite (painted_at s _ _ _ _ _ b x y Hp) by (lia || done). rewrite sh_pixel0, !pixel_false by done.
  unfold grid_pixel. cbn [grid upd]. unfold in_cell.
  destruct (Z.eqb_spec (y / 19) (row t)) as [Er|Er]; destruct (Z.eqb_spec (x / 8) (col t)) as [Ec|Ec]; cbn [andb].
  1: { rewrite sh_col0, sh_row0, sh_color0. replace (_ && _) with true by lia. cbn [fst snd]. f_equal; lia. }
  all: match goal with |- (if ?b then _ else _) = _ => replace b with false by lia end; done.
Qed.

Lemma kept_grid s s' : kept s s' → lines s' = lines s ∧ columns s' = columns s.
Proof. intros ((E1 & E2 & _) & _). unfold lines, columns. by rewrite E1, E2. Qed.

Lemma follows_display ch s t : 32 <= ch < 256 →
  follows (ScreenDeviceDisplayChar ch) (exec (lines s) (columns s) (Print ch)) s t.
Proof.
  intros Hch Q Hsh HQ. unfold ScreenDeviceDisplayChar. rewrite (u8_id ch), (proj2 (Z.leb_le _ _)) by (unfold is_u8; lia).
  cbn [when]. wp_step. apply wp_get. wp_step.
  apply (follows_put ch s t ltac:(unfold is_u32; lia)); [done|]. intros s1 H1 K1.
  destruct (kept_grid _ _ K1) as [El Ec]. pose proof (follows_right s1 (put (ch, color t) t)) as Hr. rewrite El, Ec in Hr.
  apply (follows_kept _ _ s s1 _ H1 K1 Hr). exact HQ.
Qed.

(** A new position without scrolling. *)
Lemma follows_move s t r c x y (Q : unit → TScreenDevice → Prop) : shows s t false →
  x = 8 * c → y = 19 * r → 0 <= r < lines s → 0 <= c < columns s →
  (∀ s', shows s' (t <| col := c |> <| row := r |>) false → kept s s' → Q tt s') →
  Q tt (s <| m_nCursorX := x |> <| m_nCursorY := y |>).
Proof. intros Hsh -> -> Hr Hc HQ. apply HQ; [by apply shows_cursor|done]. Qed.

Lemma follows_home s t : follows ScreenDeviceCursorHome (exec (lines s) (columns s) Home) s t.
Proof.
  intros Q Hsh HQ. pose proof Hsh as []. apply wp_modify. by apply (follows_move s t 0 0); [|lia..|].
Qed.

Lemma follows_left s t : follows ScreenDeviceCursorLeft (left (columns s)) s t.
Proof.
  intros Q Hsh HQ. pose proof Hsh as []. destruct (screen_bounds s sh_ok0) as (HU & _ & HH & HW).
  pose proof (so_x s sh_ok0) as Hx. unfold is_u32 in Hx.
  unfold ScreenDeviceCursorLeft. wp_step. apply wp_get. apply wp_char_width; [done|]. apply wp_char_height; [done|].
  unfold left in HQ. destruct (Z.ltb_spec 0 (m_nCursorX s)); destruct (Z.ltb_spec 0 (col t)); try lia.
  - apply wp_put. pose proof (shows_cursor s t (row t) (col t - 1) Hsh sh_row_range0 ltac:(lia)) as H1.
    rewrite <- sh_row0 in H1. apply HQ; [|done].
    rewrite u32_id by (unfold is_u32; lia). replace (m_nCursorX s - 8) with (8 * (col t - 1)) by lia. by destruct s, t.
  - unfold columns, lines in *. destruct (Z.ltb_spec 0 (m_nCursorY s)); destruct (Z.ltb_spec 0 (row t)); try lia; cbn [when];
      [|by apply wp_ret, HQ].
    apply wp_put. apply (follows_move s t (row t - 1) (m_nWidth s / 8 - 1)); [done| | |unfold lines; lia|unfold columns; lia|exact HQ];
      rewrite u32_id by (unfold is_u32; lia); lia.
Qed.

Lemma follows_up s t : follows ScreenDeviceCursorUp (exec (lines s) (columns s) Up) s t.
Proof.
  intros Q Hsh HQ. pose proof Hsh as []. destruct (screen_bounds s sh_ok0) as (HU & _ & HH & HW).
  pose proof (so_used s sh_ok0). unfold ScreenDeviceCursorUp. apply wp_char_height; [done|]. wp_step. apply wp_get.
  cbn [exec] in HQ. unfold lines in *.
  destruct (Z.leb_spec 19 (m_nCursorY s)); destruct (Z.ltb_spec 0 (row t)); try lia; cbn [when]; [|by apply wp_ret, HQ].
  apply wp_put. pose proof (shows_cursor s t (row t - 1) (col t) Hsh ltac:(unfold lines; lia) sh_col_range0) as Hsh1.
  rewrite <- sh_col0 in Hsh1. apply HQ; [|done].
  rewrite u32_id by (unfold is_u32; lia). replace (m_nCursorY s - 19) with (19 * (row t - 1)) by lia. by destruct s, t.
Qed.

Lemma follows_Move s t r c : 0 <= r <= 99 → 0 <= c <= 199 →
  follows (ScreenDeviceCursorMove r c) (exec (lines s) (columns s) (Move r c)) s t.
Proof.
  intros Hr Hc Q Hsh HQ. pose proof Hsh as []. destruct (screen_bounds s sh_ok0) as (HU & _ & HH & HW).
  pose proof (so_used s sh_ok0) as Hu. unfold ScreenDeviceCursorMove. apply wp_char_width; [done|]. apply wp_char_height; [done|].
  wp_step. apply wp_get. cbn [exec] in HQ. unfold lines, columns in *.
  assert ((1 <= r → u32 ((r - 1) * 19) = (r - 1) * 19) ∧ (1 <= c → u32 ((c - 1) * 8) = (c - 1) * 8)) as [Er Ec]
    by (split; intros; apply u32_id; unfold is_u32; lia).
  assert ((r < 1 → 2 ^ 31 <= u32 ((r - 1) * 19)) ∧ (c < 1 → 2 ^ 31 <= u32 ((c - 1) * 8))) as [Er' Ec'] by (unfold u32; lia).
  destruct (Z.ltb_spec (u32 ((c - 1) * 8)) (m_nWidth s)); destruct (Z.ltb_spec (u32 ((r - 1) * 19)) (m_nUsedHeight s));
    cbn [andb when].
  1: { replace (_ && _) with true in HQ by lia.
    apply wp_put, (follows_move s t (r - 1) (c - 1)); [done|lia|lia|unfold lines; lia|unfold columns; lia|exact HQ]. }
  all: replace (_ && _) with false in HQ by lia; by apply wp_ret, HQ.
Qed.

(** A line erased from the cursor on. *)
Lemma shows_erased s t e b : shows s t false → length b = length (m_pBuffer s) → col t <= e <= columns s →
  erased s (m_nCursorX s) (8 * e) (m_pBuffer s) b → shows (with_buffer b s) (erase e t) false.
Proof.
  intros Hsh Hb He Her. pose proof Hsh as []. apply shows_grid; [done|done|]. intros x y Hon Hy.
  pose proof Hon as [Hx Hy0]. rewrite Her by (lia || done). rewrite sh_pixel0, !pixel_false by done.
  unfold grid_pixel. cbn [grid upd].
  destruct (Z.eqb_spec (y / 19) (row t)); cbn [andb];
    [destruct (Z.leb_spec (col t) (x / 8)); cbn [andb]; [destruct (Z.ltb_spec (x / 8) e)|]|].
  1: { replace (_ && _) with true by lia. by rewrite blank_pixel. }
  all: match goal with |- (if ?b then _ else _) = _ => replace b with false by lia end; done.
Qed.

Lemma follows_clear_line s t : follows ScreenDeviceClearLineEnd (exec (lines s) (columns s) ClearLine) s t.
Proof.
  intros Q Hsh HQ. pose proof (shows_line _ _ _ Hsh) as Hl. pose proof Hsh as []. apply wp_ClearLineEnd; [done|done|].
  intros b Hb He. apply HQ; [|done]. apply shows_erased; [done|done|lia|].
  by replace (8 * columns s) with (m_nWidth s) by (unfold columns; lia).
Qed.

Lemma follows_erase_chars n s t : 0 <= n <= 99 →
  follows (ScreenDeviceEraseChars n) (exec (lines s) (columns s) (Erase n)) s t.
Proof.
  intros Hn Q Hsh HQ. pose proof (shows_line _ _ _ Hsh) as Hl. pose proof Hsh as [].
  apply wp_EraseChars; [done|done|lia|unfold columns in *; lia|]. intros b Hb He. apply HQ; [|done].
  apply shows_erased; [done|done|lia|].
  by replace (8 * Z.min (columns s) (col t + n)) with (Z.min (m_nWidth s) (m_nCursorX s + n * 8)) by (unfold columns; lia).
Qed.

Lemma follows_clear s t : follows ScreenDeviceClearDisplayEnd (exec (lines s) (columns s) ClearEnd) s t.
Proof.
  intros Q Hsh HQ. pose proof (shows_line _ _ _ Hsh) as Hl. pose proof Hsh as []. apply wp_ClearDisplayEnd; [done|done|].
  intros b Hb Hcl. apply HQ; [|done]. apply shows_grid; [done|done|]. intros x y Hon Hy. pose proof Hon as [Hx Hy0].
  unfold columns in *. rewrite Hcl by (lia || done). rewrite sh_pixel0, !pixel_false by done.
  unfold grid_pixel. cbn [grid upd].
  destruct (Z.ltb_spec (row t) (y / 19)); cbn [orb].
  { replace (_ || _) with true by lia. by rewrite blank_pixel. }
  destruct (Z.eqb_spec (y / 19) (row t)); cbn [andb]; [destruct (Z.leb_spec (col t) (x / 8))|].
  1: { replace (_ || _) with true by lia. by rewrite blank_pixel. }
  all: match goal with |- (if ?b then _ else _) = _ => replace b with false by lia end; done.
Qed.

Lemma follows_return s t : follows ScreenDeviceCarriageReturn (exec (lines s) (columns s) Return) s t.
Proof.
  intros Q Hsh HQ. apply wp_modify, HQ; [|done]. pose proof Hsh as [].
  pose proof (shows_cursor s t (row t) 0 Hsh sh_row_range0 ltac:(lia)) as H. rewrite <- sh_row0 in H. by destruct s, t.
Qed.

Lemma follows_colour n s t : follows (ScreenDeviceSetStandoutMode n) (exec (lines s) (columns s) (Colour n)) s t.
Proof.
  intros Q Hsh HQ. unfold ScreenDeviceSetStandoutMode. cbn [exec] in HQ.
  destruct ((n =? 0) || (n =? 27)); [|destruct (n =? 1); [|destruct (n =? 2); cbn [when]; [|by apply wp_ret, HQ]]];
    apply wp_modify, HQ; try done; destruct Hsh; split; try done; by destruct sh_ok0.
Qed.

Lemma follows_visible v s t : follows (ScreenDeviceSetCursorMode v) (exec (lines s) (columns s) (Cursor v)) s t.
Proof. intros Q [] HQ. apply wp_modify, HQ; [|done]. split; try done. by destruct sh_ok0. Qed.

(** ** Reading the commands *)

(** The screen while it reads a command. *)
Definition reading (s : TScreenDevice) (st : TScreenState) (p1 p2 : Z) : TScreenDevice :=
  s <| m_nState := st |> <| m_nParam1 := p1 |> <| m_nParam2 := p2 |>.

Lemma reading_own s : reading s (m_nState s) (m_nParam1 s) (m_nParam2 s) = s.
Proof. by destruct s. Qed.
Lemma shows_reading s st p1 p2 t cur : shows s t cur → shows (reading s st p1 p2) t cur.
Proof. intros []. split; try done. by destruct sh_ok0. Qed.

Lemma wp_write_cons ch l (Q : unit → TScreenDevice → Prop) s :
  wp (ScreenDeviceWrite2 ch) (λ _ s', wp (write_all l) Q s') s → wp (write_all (ch :: l)) Q s.
Proof. intros H. cbn [write_all]. by wp_step. Qed.
Lemma wp_write_last ch (Q : unit → TScreenDevice → Prop) s :
  wp (ScreenDeviceWrite2 ch) Q s → wp (write_all [ch]) Q s.
Proof. intros H. apply wp_write_cons. eapply wp_mono; [exact H|]. by intros []. Qed.
Lemma wp_write_app l1 l2 (Q : unit → TScreenDevice → Prop) s :
  wp (write_all l1) (λ _ s', wp (write_all l2) Q s') s → wp (write_all (l1 ++ l2)) Q s.
Proof.
  revert s. induction l1 as [|ch l1 IH]; intros s; [done|]. cbn [app write_all]. intros H.
  apply wp_bind_inv in H. wp_step. eapply wp_mono; [exact H|]. intros [] s'. apply IH.
Qed.

Lemma wp_write_ok ch l s s' (Q : unit → TScreenDevice → Prop) :
  ScreenDeviceWrite2 ch s = Ok (tt, s') → wp (write_all l) Q s' → wp (write_all (ch :: l)) Q s.
Proof. intros E H. apply wp_write_cons. by eapply wp_Ok. Qed.

(** The start of a command, and the character in each state. *)
Lemma wp_bracket s p1 p2 l (Q : unit → TScreenDevice → Prop) :
  wp (write_all l) Q (reading s ScreenStateBracket p1 p2) → wp (write_all (27 :: 91 :: l)) Q (reading s ScreenStateStart p1 p2).
Proof.
  intros H. apply (wp_write_ok _ _ _ (reading s ScreenStateEscape p1 p2)); [reflexivity|].
  apply (wp_write_ok _ _ _ (reading s ScreenStateBracket p1 p2)); [reflexivity|exact H].
Qed.
Lemma wp_in_start ch s p1 p2 (Q : unit → TScreenDevice → Prop) :
  wp (write_start ch) Q (reading s ScreenStateStart p1 p2) → wp (write_all [ch]) Q (reading s ScreenStateStart p1 p2).
Proof. intros H. by apply wp_write_last. Qed.
Lemma wp_in_bracket ch s p1 p2 (Q : unit → TScreenDevice → Prop) :
  wp (write_bracket ch) Q (reading s ScreenStateBracket p1 p2) → wp (write_all [ch]) Q (reading s ScreenStateBracket p1 p2).
Proof. intros H. by apply wp_write_last. Qed.
Lemma wp_in_number1 ch s p1 p2 (Q : unit → TScreenDevice → Prop) :
  wp (write_number1 ch) Q (reading s ScreenStateNumber1 p1 p2) → wp (write_all [ch]) Q (reading s ScreenStateNumber1 p1 p2).
Proof. intros H. by apply wp_write_last. Qed.
Lemma wp_in_number2 ch s p1 p2 (Q : unit → TScreenDevice → Prop) :
  wp (write_number2 ch) Q (reading s ScreenStateNumber2 p1 p2) → wp (write_all [ch]) Q (reading s ScreenStateNumber2 p1 p2).
Proof. intros H. by apply wp_write_last. Qed.
Lemma wp_in_number3 ch s p1 p2 (Q : unit → TScreenDevice → Prop) :
  wp (write_number3 ch) Q (reading s ScreenStateNumber3 p1 p2) → wp (write_all [ch]) Q (reading s ScreenStateNumber3 p1 p2).
Proof. intros H. by apply wp_write_last. Qed.

Lemma ten_cases (P : Z → Prop) d : 0 <= d <= 9 →
  P 0 → P 1 → P 2 → P 3 → P 4 → P 5 → P 6 → P 7 → P 8 → P 9 → P d.
Proof.
  intros Hd. intros. assert (d = 0 ∨ d = 1 ∨ d = 2 ∨ d = 3 ∨ d = 4 ∨ d = 5 ∨ d = 6 ∨ d = 7 ∨ d = 8 ∨ d = 9) by lia.
  by destruct_or!; subst.
Qed.

Section Digits.
Context (s : TScreenDevice) (Q : unit → TScreenDevice → Prop).

Lemma wp_first1 d p1 p2 : 0 <= d <= 9 →
  Q tt (reading s ScreenStateNumber1 d p2) → wp (ScreenDeviceWrite2 (48 + d)) Q (reading s ScreenStateBracket p1 p2).
Proof. intros Hd. by apply (ten_cases (λ d, Q tt (reading s _ d p2) → wp (ScreenDeviceWrite2 (48 + d)) Q (reading s _ p1 p2))). Qed.
Lemma wp_first2 d p1 p2 : 0 <= d <= 9 →
  Q tt (reading s ScreenStateNumber2 p1 d) → wp (ScreenDeviceWrite2 (48 + d)) Q (reading s ScreenStateSemicolon p1 p2).
Proof. intros Hd. by apply (ten_cases (λ d, Q tt (reading s _ p1 d) → wp (ScreenDeviceWrite2 (48 + d)) Q (reading s _ p1 p2))). Qed.

(** One more digit, while the number is in range. *)
Lemma more_digit d p : 0 <= d <= 9 → 0 <= p <= 99 → u32 (u32 (p * 10) + (48 + d - 48)) = 10 * p + d.
Proof. intros. rewrite (u32_id (p * 10)), u32_id by (unfold is_u32; lia). lia. Qed.
Lemma digit_is d : 0 <= d <= 9 → is_digit (48 + d) = true.
Proof. intros. unfold is_digit. lia. Qed.

Lemma wp_more1 d p1 p2 : 0 <= d <= 9 → 0 <= p1 → 10 * p1 + d <= 99 →
  Q tt (reading s ScreenStateNumber1 (10 * p1 + d) p2) →
  wp (ScreenDeviceWrite2 (48 + d)) Q (reading s ScreenStateNumber1 p1 p2).
Proof.
  intros Hd Hp Hn HQ. assert (write_number1 (48 + d) = (_ ← gets m_nParam1; more_digits m_nParam1 set_param1 99 (48 + d))) as E
    by (by apply (ten_cases (λ d, write_number1 (48 + d) = (_ ← gets m_nParam1; more_digits m_nParam1 set_param1 99 (48 + d))))).
  change (wp (write_number1 (48 + d)) Q (reading s ScreenStateNumber1 p1 p2)). rewrite E. wp_step. apply wp_gets.
  unfold more_digits. rewrite digit_is by done. wp_step. apply wp_modify. cbn [m_nParam1 reading upd].
  rewrite more_digit by lia. wp_step. apply wp_get. cbn [m_nParam1 set_param1 upd].
  rewrite (proj2 (Z.ltb_ge 99 _)) by lia. exact HQ.
Qed.
Lemma wp_more2 d p1 p2 : 0 <= d <= 9 → 0 <= p2 <= 99 → 10 * p2 + d <= 199 →
  Q tt (reading s ScreenStateNumber2 p1 (10 * p2 + d)) →
  wp (ScreenDeviceWrite2 (48 + d)) Q (reading s ScreenStateNumber2 p1 p2).
Proof.
  intros Hd Hp Hn HQ. assert (write_number2 (48 + d) = more_digits m_nParam2 set_param2 199 (48 + d)) as E
    by (by apply (ten_cases (λ d, write_number2 (48 + d) = more_digits m_nParam2 set_param2 199 (48 + d)))).
  change (wp (write_number2 (48 + d)) Q (reading s ScreenStateNumber2 p1 p2)). rewrite E.
  unfold more_digits. rewrite digit_is by done. wp_step. apply wp_modify. cbn [m_nParam2 reading upd].
  rewrite more_digit by lia. wp_step. apply wp_get. cbn [m_nParam2 set_param2 upd].
  rewrite (proj2 (Z.ltb_ge 199 _)) by lia. exact HQ.
Qed.
End Digits.

Lemma wp_number1 s n l p1 p2 (Q : unit → TScreenDevice → Prop) : 0 <= n <= 99 →
  wp (write_all l) Q (reading s ScreenStateNumber1 n p2) →
  wp (write_all (digits n ++ l)) Q (reading s ScreenStateBracket p1 p2).
Proof.
  intros Hn HQ. unfold digits. destruct (Z.ltb_spec n 10); cbn [app].
  { by apply wp_write_cons, wp_first1; [lia|]. }
  rewrite (proj2 (Z.ltb_lt n 100)) by lia. cbn [app]. apply wp_write_cons, wp_first1; [lia|].
  apply wp_write_cons, wp_more1; [lia..|]. by replace (10 * (n / 10) + n mod 10) with n by lia.
Qed.

Lemma wp_number2 s n l p1 p2 (Q : unit → TScreenDevice → Prop) : 0 <= n <= 199 →
  wp (write_all l) Q (reading s ScreenStateNumber2 p1 n) →
  wp (write_all (digits n ++ l)) Q (reading s ScreenStateSemicolon p1 p2).
Proof.
  intros Hn HQ. unfold digits. destruct (Z.ltb_spec n 10); [|destruct (Z.ltb_spec n 100)]; cbn [app].
  - by apply wp_write_cons, wp_first2; [lia|].
  - apply wp_write_cons, wp_first2; [lia|]. apply wp_write_cons, wp_more2; [lia..|].
    by replace (10 * (n / 10) + n mod 10) with n by lia.
  - apply wp_write_cons, wp_first2; [lia|]. apply wp_write_cons, wp_more2; [lia..|]. apply wp_write_cons, wp_more2; [lia..|].
    by replace (10 * (10 * (n / 100) + n / 10 mod 10) + n mod 10) with n by lia.
Qed.

(** *** A command that was read is executed *)

Section Command.
Context (s : TScreenDevice) (t : Term) (p1 p2 : Z) (k : command) (Q : unit → TScreenDevice → Prop).
Context (Hsh : shows s t false).
Context (HQ : ∀ s', shows s' (exec (lines s) (columns s) k t) false → m_nState s' = ScreenStateStart →
                same_geometry s s' → Q tt s').

Lemma wp_finish (m : M TScreenDevice unit) st q1 q2 :
  follows m (exec (lines s) (columns s) k) (reading s st q1 q2) t →
  wp (m ;; goto ScreenStateStart) Q (reading s st q1 q2).
Proof.
  intros Hm. wp_step. apply Hm; [by apply shows_reading|]. intros s' Hsh' [Hg _]. apply wp_modify.
  apply HQ; [|done|exact Hg].
  pose proof (shows_reading s' ScreenStateStart (m_nParam1 s') (m_nParam2 s') _ _ Hsh') as H. by destruct s'.
Qed.

Lemma wp_at_start (m : M TScreenDevice unit) :
  follows m (exec (lines s) (columns s) k) (reading s ScreenStateStart p1 p2) t → wp m Q (reading s ScreenStateStart p1 p2).
Proof.
  intros Hm. apply Hm; [by apply shows_reading|]. intros s' Hsh' (Hg & Hst & _). by apply HQ.
Qed.

(** A command of one letter after the bracket, and of one number. *)
Lemma wp_letter (m : M TScreenDevice unit) ch :
  write_bracket ch = (m ;; goto ScreenStateStart) →
  follows m (exec (lines s) (columns s) k) (reading s ScreenStateBracket p1 p2) t →
  wp (write_all [27; 91; ch]) Q (reading s ScreenStateStart p1 p2).
Proof.
  intros E Hm. apply wp_bracket, wp_in_bracket. rewrite E. by apply wp_finish.
Qed.

Lemma wp_numbered n ch : 0 <= n <= 99 →
  wp (write_number1 ch) Q (reading s ScreenStateNumber1 n p2) →
  wp (write_all ([27; 91] ++ digits n ++ [ch])) Q (reading s ScreenStateStart p1 p2).
Proof.
  intros Hn Hm. apply wp_bracket, wp_number1; [done|]. by apply wp_in_number1.
Qed.

End Command.

Lemma wp_command s t p1 p2 k (Q : unit → TScreenDevice → Prop) : shows s t false → writable k →
  (∀ s', shows s' (exec (lines s) (columns s) k t) false → m_nState s' = ScreenStateStart → same_geometry s s' → Q tt s') →
  wp (write_all (encode k)) Q (reading s ScreenStateStart p1 p2).
Proof.
  intros Hsh Hk HQ. destruct k as [ch| | | | | | | | | | |r c|n|n|v]; cbn [encode writable] in *.
  - apply wp_in_start. unfold write_start. rewrite !(proj2 (Z.eqb_neq ch _)) by lia.
    eapply wp_at_start; [exact Hsh|exact HQ|]. exact (follows_display ch (reading s ScreenStateStart p1 p2) t Hk).
  - eapply wp_in_start, wp_at_start; [exact Hsh|exact HQ|]. exact (follows_left (reading s _ p1 p2) t).
  - eapply wp_in_start, wp_at_start; [exact Hsh|exact HQ|]. exact (follows_tab (reading s _ p1 p2) t).
  - eapply wp_in_start, wp_at_start; [exact Hsh|exact HQ|]. exact (follows_newline (reading s _ p1 p2) t).
  - eapply wp_in_start, wp_at_start; [exact Hsh|exact HQ|]. exact (follows_return (reading s _ p1 p2) t).
  - eapply wp_letter; [exact Hsh|exact HQ|reflexivity|]. exact (follows_up (reading s _ p1 p2) t).
  - eapply wp_letter; [exact Hsh|exact HQ|reflexivity|]. exact (follows_down (reading s _ p1 p2) t).
  - eapply wp_letter; [exact Hsh|exact HQ|reflexivity|]. exact (follows_right (reading s _ p1 p2) t).
  - eapply wp_letter; [exact Hsh|exact HQ|reflexivity|]. exact (follows_home (reading s _ p1 p2) t).
  - eapply wp_letter; [exact Hsh|exact HQ|reflexivity|]. exact (follows_clear (reading s _ p1 p2) t).
  - eapply wp_letter; [exact Hsh|exact HQ|reflexivity|]. exact (follows_clear_line (reading s _ p1 p2) t).
  - destruct Hk as [Hr Hc]. apply wp_bracket, wp_number1; [done|].
    apply (wp_write_ok _ _ _ (reading s ScreenStateSemicolon r p2)); [reflexivity|].
    apply wp_number2; [done|]. apply wp_in_number2.
    change (write_number2 72) with (s ← get; ScreenDeviceCursorMove (m_nParam1 s) (m_nParam2 s) ;; goto ScreenStateStart).
    wp_step. apply wp_get. eapply (wp_finish s t (Move r c) Q Hsh HQ (ScreenDeviceCursorMove r c)).
    exact (follows_Move (reading s ScreenStateNumber2 r c) t r c Hr Hc).
  - apply wp_numbered; [done|]. change (write_number1 88) with (n ← gets m_nParam1; ScreenDeviceEraseChars n ;; goto ScreenStateStart).
    wp_step. apply wp_gets. eapply (wp_finish s t (Erase n) Q Hsh HQ (ScreenDeviceEraseChars n)).
    exact (follows_erase_chars n (reading s ScreenStateNumber1 n p2) t Hk).
  - apply wp_numbered; [done|]. change (write_number1 109) with (n ← gets m_nParam1; ScreenDeviceSetStandoutMode n ;; goto ScreenStateStart).
    wp_step. apply wp_gets. eapply (wp_finish s t (Colour n) Q Hsh HQ (ScreenDeviceSetStandoutMode n)).
    exact (follows_colour n (reading s ScreenStateNumber1 n p2) t).
  - apply wp_bracket. apply (wp_write_ok _ _ _ (reading s ScreenStateQuestionMark p1 p2)); [reflexivity|].
    apply (wp_write_ok _ _ _ (reading s ScreenStateNumber3 2 p2)); [reflexivity|].
    apply (wp_write_ok _ _ _ (reading s ScreenStateNumber3 25 p2)); [reflexivity|]. apply wp_in_number3.
    assert (write_number3 (if v then 104 else 108) =
      (n ← gets m_nParam1; when (n =? 25) (ScreenDeviceSetCursorMode v) ;; goto ScreenStateStart)) as E by (by destruct v).
    rewrite E. wp_step. apply wp_gets. eapply (wp_finish s t (Cursor v) Q Hsh HQ (ScreenDeviceSetCursorMode v)).
    exact (follows_visible v (reading s ScreenStateNumber3 25 p2) t).
Qed.

Lemma execs_geometry s s' ks t : same_geometry s s' →
  execs (lines s') (columns s') ks t = execs (lines s) (columns s) ks t.
Proof. intros (E1 & E2 & _). unfold lines, columns. by rewrite E1, E2. Qed.

Lemma wp_commands ks : ∀ s t (Q : unit → TScreenDevice → Prop), shows s t false → m_nState s = ScreenStateStart →
  Forall writable ks →
  (∀ s', shows s' (execs (lines s) (columns s) ks t) false → m_nState s' = ScreenStateStart → same_geometry s s' → Q tt s') →
  wp (write_all (mjoin (map encode ks))) Q s.
Proof.
  induction ks as [|k ks IH]; intros s t Q Hsh Hst Hks HQ; [by apply wp_ret, HQ|].
  apply Forall_cons_1 in Hks as [Hk Hks]. cbn [map mjoin list_join]. apply wp_write_app.
  rewrite <- (reading_own s), Hst. eapply wp_command; [exact Hsh|exact Hk|]. intros s1 Hsh1 Hst1 G1.
  apply (IH s1 _ Q Hsh1 Hst1 Hks). intros s2 Hsh2 Hst2 G2. apply HQ; [|done|by eapply same_geometry_trans].
  by rewrite (execs_geometry s s1) in Hsh2.
Qed.

(** *** The cursor *)

(** Inverting the cursor's cell draws it, and takes it away again. *)
Lemma shows_invert s t cur (Q : unit → TScreenDevice → Prop) : shows s t cur →
  (∀ s', shows s' t (negb cur) → kept s s' → Q tt s') → wp ScreenDeviceInvertCursor Q s.
Proof.
  intros Hsh HQ. pose proof (shows_line _ _ _ Hsh) as Hl. pose proof Hsh as []. pose proof Hl as (Hl1 & Hl2 & _).
  destruct (screen_bounds s sh_ok0) as (HU & _ & HH & HW).
  unfold lines, columns in *. apply wp_InvertCursor; [done|done|]. intros b Hb Hinv. apply HQ; [|done].
  split; try done; [by apply ok_with_buffer|]. intros x y Hon Hy. pose proof Hon as [Hx Hy0]. unfold pixel.
  change (px (with_buffer b s) (m_pBuffer (with_buffer b s)) x y) with (px s b x y).
  specialize (sh_pixel0 x y Hon Hy). unfold pixel in sh_pixel0. rewrite <- sh_visible0 in *.
  destruct (m_bCursorOn s); cbn [andb] in *; rewrite ?andb_true_r, ?andb_false_r in *; cycle 1.
  { subst b. exact sh_pixel0. }
  rewrite (painted_at s _ _ _ _ _ b x y Hinv) by (lia || done). rewrite sh_pixel0. unfold in_cell.
  set (p := (y / 19 =? row t) && (x / 8 =? col t) && (16 <=? y mod 19)).
  assert ((m_nCursorX s <=? x) && (x <? m_nCursorX s + 8) && (m_nCursorY s + 16 <=? y) && (y <? m_nCursorY s + 19) = p) as ->
    by (subst p; lia).
  destruct p eqn:Ep; cycle 1.
  { replace (cur && _ && _ && _) with false by (subst p; lia). by replace (negb cur && _ && _ && _) with false by (subst p; lia). }
  assert (grid_pixel (grid t) x y = 0) as Hg.
  { unfold grid_pixel, ink. rewrite glyph_below; [done|]. change font_height with 16. subst p. lia. }
  destruct cur; cbn [negb andb]; subst p; rewrite ?Ep.
  - rewrite (proj2 (Z.eqb_neq (color t) _)) by (unfold BLACK_COLOR; lia). by rewrite Hg.
  - rewrite Hg. done.
Qed.

Lemma wp_Write_commands ks s t : shows s t true → m_nState s = ScreenStateStart → Forall writable ks →
  wp (ScreenDeviceWrite (mjoin (map encode ks)))
    (λ r s', r = Z.of_nat (length (mjoin (map encode ks))) ∧
       shows s' (execs (lines s) (columns s) ks t) true ∧ m_nState s' = ScreenStateStart ∧ same_geometry s s') s.
Proof.
  intros Hsh Hst Hks. unfold ScreenDeviceWrite. wp_step. apply (shows_invert s t true); [done|]. intros s1 Hsh1 (G1 & St1 & _).
  wp_step. apply (wp_commands ks s1 t); [exact Hsh1|by rewrite St1|done|]. intros s2 Hsh2 Hst2 G2.
  wp_step. eapply (shows_invert s2 _ false); [exact Hsh2|]. intros s3 Hsh3 (G3 & St3 & _). apply wp_ret.
  split_and!; [done|by rewrite (execs_geometry s s1) in Hsh3|by rewrite St3|].
  eapply same_geometry_trans; [exact G1|]. by eapply same_geometry_trans.
Qed.

(** C31. A terminal: a screen in its start state that shows a terminal, with the
    cursor drawn, shows after a write of any commands the terminal on which
    these commands were executed. Every pixel of the text area is as the grid
    and the cursor say; printing at the end of the last line scrolls; nothing
    faults, and all bytes are counted. *)
Theorem terminal ks s t : shows s t true → m_nState s = ScreenStateStart → Forall writable ks →
  wp (ScreenDeviceWrite (mjoin (map encode ks)))
    (λ r s', r = Z.of_nat (length (mjoin (map encode ks))) ∧
       shows s' (execs (lines s) (columns s) ks t) true ∧ m_nState s' = ScreenStateStart ∧ same_geometry s s') s.
Proof. exact (wp_Write_commands ks s t). Qed.

(** *** A new screen *)

Definition empty_term : Term := {| grid := λ _ _, blank; row := 0; col := 0; visible := true; color := NORMAL_COLOR |}.

(** The structure that a working frame buffer has. *)
Record framebuffer_ok (info : Bcm2835FrameBufferInfo) (memory : list Z) : Prop := {
  fo_depth : Depth info = 8;
  fo_pointer : BufferPtr info ≠ 0;
  fo_memory : Z.of_nat (length memory) = BufferSize info;
  fo_size : BufferSize info < 2 ^ 31;
  fo_width : 8 <= Width info <= Pitch info;
  fo_columns : Width info mod 8 = 0;
  fo_height : 19 <= Height info;
  fo_area : Pitch info * Height info <= BufferSize info;
  fo_pitch : Pitch info mod 4 = 0
}.

(** Clearing the screen from its first cell on. *)
Lemma wp_clear_screen s (Q : bool → TScreenDevice → Prop) : screen_ok s → m_nWidth s mod 8 = 0 →
  m_nCursorX s = 0 → m_nCursorY s = 0 → m_bCursorOn s = true → m_Color s = NORMAL_COLOR →
  (∀ s', shows s' empty_term true → kept s s' → Q true s') →
  wp (ScreenDeviceClearDisplayEnd ;; ScreenDeviceInvertCursor ;; mret true) Q s.
Proof.
  intros Hok Hw E3 E4 E5 E6 HQ. pose proof (so_used s Hok) as Hu. pose proof (so_height s Hok). pose proof (so_width s Hok).
  assert (line_ok s) as Hl by (unfold line_ok; rewrite E4; lia).
  wp_step. apply wp_ClearDisplayEnd; [done|done|]. intros b Hb Hcl.
  assert (shows (with_buffer b s) empty_term false) as Hsh.
  { split; try done; [by apply ok_with_buffer|unfold lines; simpl; lia|unfold columns; simpl; lia|].
    intros x y Hxy Hy. pose proof Hxy as [Hx Hy0].
    change (px s b x y = pixel empty_term false x y). rewrite Hcl by (rewrite ?E3; lia || done).
    rewrite pixel_false. unfold grid_pixel, empty_term. cbn [grid]. rewrite blank_pixel, E3, E4.
    replace (_ || _) with true by lia. done. }
  wp_step. eapply shows_invert; [exact Hsh|]. intros s2 Hsh2 Hk. apply wp_ret, HQ; [done|exact Hk].
Qed.

Lemma wp_take_frame_buffer memory fb s0 (Q : bool → TScreenDevice → Prop) :
  framebuffer_ok (m_pInfo fb) (memory (BcmFrameBufferGetBuffer fb)) →
  m_CharGen s0 = CharGenerator → m_bCursorOn s0 = true → m_Color s0 = NORMAL_COLOR → m_nState s0 = ScreenStateStart →
  (∀ s', shows s' empty_term true → m_nState s' = ScreenStateStart →
     m_nWidth s' = Width (m_pInfo fb) → m_nHeight s' = Height (m_pInfo fb) → Q true s') →
  wp (take_frame_buffer memory fb) Q s0.
Proof.
  intros [] Hgen Hon Hcol Hst0 HQ. unfold take_frame_buffer.
  unfold BcmFrameBufferGetDepth. rewrite fo_depth0. cbn [negb Z.eqb Pos.eqb DEPTH]. wp_step. apply wp_modify.
  unfold BcmFrameBufferGetPitch. rewrite fo_pitch0. cbn [negb Z.eqb]. unfold char_height. wp_step. apply wp_gets.
  wp_step. apply wp_modify. wp_step. apply wp_modify.
  unfold BcmFrameBufferGetSize, BcmFrameBufferGetWidth, BcmFrameBufferGetHeight.
  assert (0 <= Height (m_pInfo fb) < 2 ^ 31) as HH by nia.
  apply wp_clear_screen; [| |done..|].
  - split; try done. cbn [m_CharGen m_nUsedHeight m_nHeight upd]. rewrite Hgen.
    change (CharGeneratorGetCharHeight _) with 19. apply u32_id. unfold is_u32. lia.
  - done.
  - intros s' Hsh ((HW & HH2 & _) & Hst & _). apply HQ; [done|by rewrite Hst|by rewrite HW|by rewrite HH2].
Qed.

Lemma screen_starts dimensions gpu memory s0 w h :
  (∀ info, (gpu info).1 = 0 ∧ framebuffer_ok (gpu info).2 (memory (Z.land (BufferPtr (gpu info).2) 0x3FFFFFFF))) →
  wp (ScreenDeviceInitialize dimensions gpu memory)
    (λ ok s', ok = true ∧ shows s' empty_term true ∧ m_nState s' = ScreenStateStart ∧
       ∃ info, m_nWidth s' = Width (gpu info).2 ∧ m_nHeight s' = Height (gpu info).2) (ScreenDevice s0 w h).
Proof.
  intros Hgpu. unfold ScreenDeviceInitialize. wp_step. apply wp_get. cbv zeta.
  match goal with |- context [BcmFrameBufferInitialize gpu ?f] => generalize f end. intros fb0.
  unfold BcmFrameBufferInitialize. destruct (Hgpu (m_pInfo fb0)) as [H0 Hfb].
  destruct (gpu (m_pInfo fb0)) as [r info] eqn:Egpu. cbn [fst snd] in H0, Hfb. subst r.
  change (negb (0 =? 0)) with false. cbn iota. rewrite (proj2 (Z.eqb_neq _ _)) by apply Hfb. cbn [negb].
  wp_step. apply wp_put. apply wp_take_frame_buffer; [exact Hfb|done..|]. intros s' Hsh Hst HW HH.
  split_and!; [done|done|done|]. exists (m_pInfo fb0). by rewrite Egpu.
Qed.

(** ** A small display *)

Module TermDemo.

(** Four columns and two lines. *)
Definition small : Bcm2835FrameBufferInfo := {|
  Width := 32; Height := 40; VirtWidth := 32; VirtHeight := 40; Pitch := 32; Depth := 8; OffsetX := 0; OffsetY := 0;
  BufferPtr := 0xC0010000; BufferSize := 1280; Palette := [] |}.
Definition gpu (_ : Bcm2835FrameBufferInfo) : Z * Bcm2835FrameBufferInfo := (0, small).
(** The memory is not clear at the start. *)
Definition memory (_ : Z) : list Z := replicate 1280 7.
Definition garbage : TScreenDevice := {|
  m_nInitWidth := 9; m_nInitHeight := 9; m_pFrameBuffer := None; m_CharGen := {| m_nCharWidth := 0 |}; m_pBuffer := [];
  m_nSize := 9; m_nPitch := 9; m_nWidth := 9; m_nHeight := 9; m_nUsedHeight := 9; m_nState := ScreenStateNumber2;
  m_nCursorX := 9; m_nCursorY := 9; m_bCursorOn := false; m_Color := 9; m_bInsertOn := true; m_nParam1 := 9; m_nParam2 := 9 |}.

Lemma small_ok : framebuffer_ok small (memory 0).
Proof. by split. Qed.

(** A red A in the first line, a move to the second, a text that runs over the
    end of the screen: the A has gone up out of sight. *)
Definition text : list command :=
  [Colour 1; Print 65; Move 2 3; Print 66; Print 67; Print 68; Cursor false].

(** The first line holds what stood in the second, with the last letter below. *)
Lemma terminal_witness :
  wp (ScreenDeviceInitialize None gpu memory ;; ScreenDeviceWrite (mjoin (map encode text)))
    (λ r s', r = 20 ∧ m_nCursorX s' = 8 ∧ m_nCursorY s' = 19 ∧
       (∀ x y, 16 <= x < 24 → 0 <= y < 16 → px s' (m_pBuffer s') x y = if glyph 66 (x - 16) y then HIGH_COLOR else 0) ∧
       (∀ x y, 0 <= x < 8 → 19 <= y < 38 → px s' (m_pBuffer s') x y = if glyph 68 x (y - 19) then HIGH_COLOR else 0))
    (ScreenDevice garbage 0 0).
Proof.
  wp_step. eapply wp_mono; [apply (screen_starts None gpu memory garbage 0 0); intros info; split; [reflexivity|exact small_ok]|].
  intros ok s (_ & Hsh & Hst & info & HW & HH).
  eapply wp_mono; [apply (terminal text s empty_term Hsh Hst); by repeat constructor|].
  intros r s' (-> & Hsh' & _ & HW' & HH' & _).
  assert (lines s = 2 ∧ columns s = 4) as [El Ec] by (unfold lines, columns; by rewrite HW, HH).
  rewrite El, Ec in Hsh'. destruct Hsh' as [Hok _ Hr _ Hc _ _ _ _ Hpx]. rewrite HH in HH'. rewrite HW in HW'.
  pose proof (so_used s' Hok) as Hu. rewrite HH' in Hu.
  split_and!; [reflexivity|exact Hc|exact Hr| |]; intros x y Hx Hy;
    (rewrite Hpx by (unfold on_screen; rewrite ?HW', ?HH', ?Hu; cbn; lia)); unfold pixel;
    replace (true && visible _ && _ && _ && _) with false by reflexivity; unfold grid_pixel.
  - replace (y / 19) with 0 by lia. replace (x / 8) with 2 by lia. replace (x mod 8) with (x - 16) by lia.
    by replace (y mod 19) with y by lia.
  - replace (y / 19) with 1 by lia. replace (x / 8) with 0 by lia. replace (x mod 8) with x by lia.
    by replace (y mod 19) with (y - 19) by lia.
Defined.

(** A move to line 99, an insertion of 99 lines, an escape sequence cut short,
    backspaces over the start and bytes that are no letters. *)
Definition rubbish : list Z :=
  [27; 91; 57; 57; 59; 57; 57; 72; 27; 91; 57; 57; 76; 27; 91; 52; 65; 8; 8; 8; 255; 0; 27; 77; 27; 91; 63; 57; 9].

Lemma screen_safe_witness :
  wp (ScreenDeviceInitialize None gpu memory ;; ScreenDeviceWrite rubbish)
    (λ r s', r = 29 ∧ text_ok s' ∧ m_nWidth s' = 32 ∧ m_nHeight s' = 40) (ScreenDevice garbage 0 0).
Proof.
  wp_step. eapply wp_mono; [apply (screen_starts None gpu memory garbage 0 0); intros info; split; [reflexivity|exact small_ok]|].
  intros ok s (_ & Hsh & Hst & info & HW & HH).
  assert (text_ok s) as Hok.
  { pose proof Hsh as [Hok _ Hr Hl _ _ _ _ _ _]. split_and!; [exact Hok| |by rewrite Hst].
    unfold line_ok. pose proof (so_used s Hok). unfold lines in Hl. rewrite Hr. cbn. rewrite HH in *. cbn in *. lia. }
  eapply wp_mono; [exact (screen_safe rubbish s Hok)|]. intros r s' (-> & Hok' & Hg). split_and!; [reflexivity|exact Hok'|..].
  - destruct Hg as (-> & _). exact HW.
  - destruct Hg as (_ & -> & _). exact HH.
Defined.
End TermDemo.
