(* ===== verification/Alloc.v ===== *)
(** * env/lib/alloc.c: the memory allocator

    Blocks of six sizes, cut from the heap once and then kept in a list of free
    blocks per size; larger blocks are never used again. Pages of 4 KB are kept
    the same way. A pointer and an [unsigned long] have 32 bits, as in the
    builds that this file is for; [MEM_DEBUG] is off.

    [blocks] is the memory where headers of blocks were written, [pages] the
    memory where the links of free pages were. *)
From S2P Require Import Prelude Register Sync DwhciCore.

(** env/include/uspienv/sysconfig.h, alloc.c *)
Definition MEM_HEAP_START : Z := 0x500000.
Definition PAGE_SIZE : Z := 4096.
Definition PAGE_MASK : Z := PAGE_SIZE - 1.
Definition BLOCK_ALIGN : Z := 16.
Definition ALIGN_MASK : Z := BLOCK_ALIGN - 1.
Definition BLOCK_MAGIC : Z := 0x424C4D43.
Definition FREEPAGE_MAGIC : Z := 0x50474D43.
Definition sizeof_TBlockHeader : Z := 16.

Record TBlockHeader := { nMagic : Z; nSize : Z; pNext : Z }.
#[global] Instance TBlockHeader_eta : Eta TBlockHeader := λ r, {| nMagic := nMagic r; nSize := nSize r; pNext := pNext r |}.
Record TBlockBucket := { bucket_nSize : Z; pFreeList : Z }.
#[global] Instance TBlockBucket_eta : Eta TBlockBucket := λ r, {| bucket_nSize := bucket_nSize r; pFreeList := pFreeList r |}.
Record TFreePage := { page_nMagic : Z; page_pNext : Z }.
#[global] Instance TFreePage_eta : Eta TFreePage := λ r, {| page_nMagic := page_nMagic r; page_pNext := page_pNext r |}.

(** The static variables, the memory of the headers, and the processor. The
    sentinel at the end of [s_BlockBucket] is the end of the list. *)
Record Heap := {
  hp_trace : list event;
  hp_cpu : Cpu;
  s_pNextBlock : Z;
  s_pBlockLimit : Z;
  s_pNextPage : Z;
  s_pPageLimit : Z;
  s_BlockBucket : list TBlockBucket;
  s_PageBucket : Z;
  blocks : gmap Z TBlockHeader;
  pages : gmap Z TFreePage
}.
#[global] Instance Heap_eta : Eta Heap := λ r,
  {| hp_trace := hp_trace r; hp_cpu := hp_cpu r; s_pNextBlock := s_pNextBlock r; s_pBlockLimit := s_pBlockLimit r;
     s_pNextPage := s_pNextPage r; s_pPageLimit := s_pPageLimit r; s_BlockBucket := s_BlockBucket r;
     s_PageBucket := s_PageBucket r; blocks := blocks r; pages := pages r |}.
#[export] Instance heap_mmio : HasMmio Heap := {| mmio_get := hp_trace; mmio_put h s := s <| hp_trace := h |> |}.
#[export] Instance heap_mmio_laws : MmioLaws Heap.
Proof. by split; intros; repeat match goal with s : Heap |- _ => destruct s end. Qed.
#[export] Instance heap_cpu : HasCpu Heap := {| cpu_get := hp_cpu; cpu_put c s := s <| hp_cpu := c |> |}.
#[export] Instance heap_cpu_laws : CpuLaws Heap.
Proof. by split; intros; repeat match goal with s : Heap |- _ => destruct s end. Qed.

(** env/lib/synchronize.c has these two as the library has them. *)
Definition EnterCritical : M Heap unit := uspi_EnterCritical.
Definition LeaveCritical : M Heap unit := uspi_LeaveCritical.

Definition bucket_sizes : list Z := [0x40; 0x400; 0x1000; 0x4000; 0x40000; 0x80000].
Definition empty_buckets : list TBlockBucket := map (λ n, {| bucket_nSize := n; pFreeList := 0 |}) bucket_sizes.

Definition mem_init (ulBase ulSize : Z) : M Heap unit :=
  let ulLimit := u32 (ulBase + ulSize) in
  let ulBase := if ulBase <? MEM_HEAP_START then MEM_HEAP_START else ulBase in
  let ulSize := u32 (ulLimit - ulBase) in
  let ulQuarterSize := ulSize / 4 in
  modify (λ s, s <| s_pNextBlock := ulBase |> <| s_pBlockLimit := u32 (ulBase + ulQuarterSize) |>
                 <| s_pNextPage := Z.land (u32 (ulBase + ulQuarterSize + PAGE_SIZE)) (not32 PAGE_MASK) |>
                 <| s_pPageLimit := ulLimit |>).

Definition mem_get_size : M Heap Z :=
  gets (λ s, u32 ((s_pBlockLimit s - s_pNextBlock s) + (s_pPageLimit s - s_pNextPage s))).

(** ** Blocks *)

Definition header_at (p : Z) : M Heap TBlockHeader :=
  b ← gets blocks;
  match b !! p with Some h => mret h | None => fail MemFault end.
Definition header_set (p : Z) (h : TBlockHeader) : M Heap unit := modify (λ s, s <| blocks := <[p := h]> (blocks s) |>).

(** The first bucket whose blocks are large enough, and its index. *)
Fixpoint find_bucket (ulSize : Z) (i : nat) (l : list TBlockBucket) : option (nat * TBlockBucket) :=
  match l with
  | [] => None
  | b :: l => if ulSize <=? bucket_nSize b then Some (i, b) else find_bucket ulSize (S i) l
  end.
Definition set_free_list (i : nat) (p : Z) : M Heap unit :=
  modify (λ s, s <| s_BlockBucket := alter (λ b, b <| pFreeList := p |>) i (s_BlockBucket s) |>).

(** The size of a block with its header. *)
Definition block_bytes (ulSize : Z) : Z := Z.land (u32 (sizeof_TBlockHeader + ulSize + BLOCK_ALIGN - 1)) (not32 ALIGN_MASK).

(** A block from the rest of the heap; 0 when it is used up. *)
Definition cut_block (ulSize : Z) : M Heap Z :=
  p ← gets s_pNextBlock;
  modify (λ s, s <| s_pNextBlock := u32 (s_pNextBlock s + block_bytes ulSize) |>) ;;
  s ← get;
  if s_pBlockLimit s <? s_pNextBlock s then LeaveCritical ;; mret 0
  else
    header_set p {| nMagic := BLOCK_MAGIC; nSize := u32 ulSize; pNext := default 0 (pNext <$> blocks s !! p) |} ;;
    LeaveCritical ;; mret p.

(** A block that was freed. *)
Definition take_block (i : nat) (p : Z) : M Heap Z :=
  h ← header_at p;
  c_assert (nMagic h =? BLOCK_MAGIC) ;;
  set_free_list i (pNext h) ;;
  LeaveCritical ;; mret p.

Definition malloc (ulSize : Z) : M Heap Z :=
  s ← get;
  c_assert (negb (s_pNextBlock s =? 0)) ;;
  EnterCritical ;;
  s ← get;
  p ← match find_bucket ulSize 0 (s_BlockBucket s) with
      | Some (i, b) => if negb (pFreeList b =? 0) then take_block i (pFreeList b) else cut_block (bucket_nSize b)
      | None => cut_block ulSize
      end;
  if p =? 0 then mret 0
  else
    h ← header_at p;
    header_set p (h <| pNext := 0 |>) ;;
    let pResult := u32 (p + sizeof_TBlockHeader) in
    c_assert (Z.land pResult ALIGN_MASK =? 0) ;;
    mret pResult.

(** The bucket of exactly this size. *)
Fixpoint bucket_of (n : Z) (i : nat) (l : list TBlockBucket) : option (nat * TBlockBucket) :=
  match l with
  | [] => None
  | b :: l => if n =? bucket_nSize b then Some (i, b) else bucket_of n (S i) l
  end.

Definition free (pBlock : Z) : M Heap unit :=
  c_assert (negb (pBlock =? 0)) ;;
  let p := u32 (pBlock - sizeof_TBlockHeader) in
  h ← header_at p;
  c_assert (nMagic h =? BLOCK_MAGIC) ;;
  s ← get;
  match bucket_of (nSize h) 0 (s_BlockBucket s) with
  | Some (i, b) =>
      EnterCritical ;;
      header_set p (h <| pNext := pFreeList b |>) ;;
      set_free_list i p ;;
      LeaveCritical
  | None => mret tt
  end.

(** ** Pages *)

Definition page_at (p : Z) : M Heap TFreePage :=
  b ← gets pages;
  match b !! p with Some h => mret h | None => fail MemFault end.
Definition page_set (p : Z) (h : TFreePage) : M Heap unit := modify (λ s, s <| pages := <[p := h]> (pages s) |>).

Definition palloc : M Heap Z :=
  s ← get;
  c_assert (negb (s_pNextPage s =? 0)) ;;
  EnterCritical ;;
  s ← get;
  if negb (s_PageBucket s =? 0) then
    let p := s_PageBucket s in
    h ← page_at p;
    c_assert (page_nMagic h =? FREEPAGE_MAGIC) ;;
    modify (λ s, s <| s_PageBucket := page_pNext h |>) ;;
    page_set p (h <| page_nMagic := 0 |>) ;;
    LeaveCritical ;; mret p
  else
    let p := s_pNextPage s in
    modify (λ s, s <| s_pNextPage := u32 (s_pNextPage s + PAGE_SIZE) |>) ;;
    s ← get;
    if s_pPageLimit s <? s_pNextPage s then LeaveCritical ;; mret 0
    else LeaveCritical ;; mret p.

Definition pfree (pPage : Z) : M Heap unit :=
  c_assert (negb (pPage =? 0)) ;;
  EnterCritical ;;
  head ← gets s_PageBucket;
  page_set pPage {| page_nMagic := FREEPAGE_MAGIC; page_pNext := head |} ;;
  modify (λ s, s <| s_PageBucket := pPage |>) ;;
  LeaveCritical.
