(* ===== verification/AllocProofs.v ===== *)
(** * The allocator keeps blocks apart

    An invariant of the heap, with the set of the blocks in use and the lists of
    free ones as its logical state, and what allocating and freeing do to it. *)
From S2P Require Import Prelude Register Sync DwhciCore Alloc.

(** The bytes of a block with its header. *)
Definition extent (n : Z) : Z := (n + 31) / 16 * 16.

Lemma block_bytes_extent n : 0 <= n < 2 ^ 31 → block_bytes n = extent n.
Proof.
  intros Hn. unfold block_bytes, sizeof_TBlockHeader, BLOCK_ALIGN, extent. rewrite u32_id by (unfold is_u32; lia).
  change ALIGN_MASK with (Z.ones 4). rewrite land_align by (unfold is_u32; lia). change (2 ^ 4) with 16. lia.
Qed.

(** ** Lists of free blocks in memory *)

Fixpoint chain (m : gmap Z TBlockHeader) (p : Z) (l : list Z) : Prop :=
  match l with
  | [] => p = 0
  | x :: l => p = x ∧ x ≠ 0 ∧ ∃ h, m !! x = Some h ∧ nMagic h = BLOCK_MAGIC ∧ chain m (pNext h) l
  end.

Lemma chain_insert m p l q h : q ∉ l → chain m p l → chain (<[q := h]> m) p l.
Proof.
  revert p. induction l as [|x l IH]; intros p Hq; [done|]. rewrite not_elem_of_cons in Hq. destruct Hq as [Hne Hq].
  intros (-> & Hx & h0 & E & Hm & Hc). split_and!; [done|done|]. exists h0. rewrite lookup_insert_ne by done. auto.
Qed.

(** ** The invariant *)

Record heap_ok (base : Z) (live : gset Z) (free : list (list Z)) (s : Heap) : Prop := {
  hk_crit : crit_ok (hp_cpu s);
  hk_base : 0 < base ∧ base mod 16 = 0;
  hk_next : base <= s_pNextBlock s < 2 ^ 32 ∧ s_pNextBlock s mod 16 = 0;
  hk_limit : s_pBlockLimit s < 2 ^ 32;
  hk_sizes : map bucket_nSize (s_BlockBucket s) = bucket_sizes;
  hk_length : length free = length (s_BlockBucket s);
  hk_chain i b l : s_BlockBucket s !! i = Some b → free !! i = Some l → chain (blocks s) (pFreeList b) l;
  hk_free i b l p : s_BlockBucket s !! i = Some b → free !! i = Some l → p ∈ l →
    (p ∉ live) ∧ (∃ h, blocks s !! p = Some h ∧ nSize h = bucket_nSize b);
  hk_nodup i l : free !! i = Some l → NoDup l;
  hk_live p : p ∈ live → ∃ h, blocks s !! p = Some h ∧ nMagic h = BLOCK_MAGIC;
  hk_block p h : blocks s !! p = Some h →
    0 <= nSize h < 2 ^ 31 ∧ base <= p ∧ p mod 16 = 0 ∧ p + extent (nSize h) <= Z.min (s_pNextBlock s) (s_pBlockLimit s);
  hk_apart p q h : blocks s !! p = Some h → is_Some (blocks s !! q) → p < q → p + extent (nSize h) <= q
}.

(** A free block is in the list of one bucket. *)
Lemma hk_once base live free s i j l l' p : heap_ok base live free s →
  free !! i = Some l → free !! j = Some l' → p ∈ l → p ∈ l' → i = j.
Proof.
  intros Hk Hi Hj Hp Hp'. pose proof (hk_length _ _ _ _ Hk) as Hlen.
  destruct (lookup_lt_is_Some_2 (s_BlockBucket s) i) as [b Hb]; [rewrite <- Hlen; by eapply lookup_lt_Some|].
  destruct (lookup_lt_is_Some_2 (s_BlockBucket s) j) as [b' Hb']; [rewrite <- Hlen; by eapply lookup_lt_Some|].
  destruct (hk_free _ _ _ _ Hk i b l p Hb Hi Hp) as (_ & h & E & Hs).
  destruct (hk_free _ _ _ _ Hk j b' l' p Hb' Hj Hp') as (_ & h' & E' & Hs').
  assert (NoDup (map bucket_nSize (s_BlockBucket s))) as Hnd by (rewrite (hk_sizes _ _ _ _ Hk); by vm_compute; repeat constructor; set_solver).
  eapply (NoDup_lookup _ i j (bucket_nSize b) Hnd); rewrite list_lookup_fmap; [by rewrite Hb|]. rewrite Hb'. simpl. congruence.
Qed.

(** ** Critical sections on this state *)

Lemma wp_heap_enter (Q : unit → Heap → Prop) s :
  Q tt (s <| hp_trace := EvBarrier :: hp_trace s |> <| hp_cpu := crit_enter (hp_cpu s) |>) → wp EnterCritical Q s.
Proof. intros HQ. apply wp_EnterCritical. cbv zeta. exact HQ. Qed.

Lemma wp_heap_leave c (Q : unit → Heap → Prop) s : crit_ok c → hp_cpu s = crit_enter c →
  Q tt (s <| hp_trace := EvBarrier :: hp_trace s |> <| hp_cpu := crit_exit c |>) → wp LeaveCritical Q s.
Proof.
  intros Hok Hc HQ. pose proof Hok as [Hl Hm]. apply wp_LeaveCritical; change (cpu_get s) with (hp_cpu s); rewrite Hc.
  { simpl. rewrite u32_id by (unfold is_u32; lia). lia. }
  replace {| s_nCriticalLevel := _; s_bWereEnabled := _; irq_masked := _ |} with (crit_exit c); [exact HQ|].
  unfold crit_exit. simpl. rewrite u32_id by (unfold is_u32; lia).
  f_equal; [lia|]. destruct (Z.eqb_spec (s_nCriticalLevel c) 0) as [E|E].
  - rewrite E. simpl. by destruct (irq_masked c).
  - rewrite Hm by done. by rewrite (proj2 (Z.eqb_neq _ 1)) by lia.
Qed.

(** Only the memory and the lists matter. *)
Definition quiet (s s' : Heap) : Prop :=
  crit_ok (hp_cpu s') ∧ s_pNextBlock s' = s_pNextBlock s ∧ s_pBlockLimit s' = s_pBlockLimit s ∧
  s_BlockBucket s' = s_BlockBucket s ∧ blocks s' = blocks s.
Lemma heap_ok_quiet base live free s s' : heap_ok base live free s → quiet s s' → heap_ok base live free s'.
Proof. intros [] (Hc & E1 & E2 & E3 & E4). split; rewrite ?E1, ?E2, ?E3, ?E4; done. Qed.

(** ** Taking a block from its list *)

Definition reused (i : nat) (p : Z) (h : TBlockHeader) (s s' : Heap) : Prop :=
  crit_ok (hp_cpu s') ∧ s_pNextBlock s' = s_pNextBlock s ∧ s_pBlockLimit s' = s_pBlockLimit s ∧
  s_BlockBucket s' = alter (λ b, b <| pFreeList := pNext h |>) i (s_BlockBucket s) ∧
  blocks s' = <[p := h <| pNext := 0 |>]> (blocks s).

Lemma alter_sizes i f (l : list TBlockBucket) : (∀ b, bucket_nSize (f b) = bucket_nSize b) →
  map bucket_nSize (alter f i l) = map bucket_nSize l.
Proof.
  intros Hf. revert i. induction l as [|b l IH]; intros [|i]; simpl; [done|done|by rewrite Hf|]. f_equal. apply IH.
Qed.

Lemma heap_ok_reused base live free s s' i b p l h : heap_ok base live free s →
  s_BlockBucket s !! i = Some b → free !! i = Some (p :: l) → blocks s !! p = Some h → nMagic h = BLOCK_MAGIC →
  chain (blocks s) (pNext h) l → reused i p h s s' → heap_ok base ({[p]} ∪ live) (<[i := l]> free) s'.
Proof.
  intros Hk Hb Hf Hp Hm Hch (Hc & E1 & E2 & E3 & E4). pose proof Hk as [].
  assert (∀ q h', blocks s' !! q = Some h' → ∃ h0, blocks s !! q = Some h0 ∧ nSize h' = nSize h0 ∧ nMagic h' = nMagic h0) as Hback.
  { intros q h'. rewrite E4, lookup_insert_Some. intros [[<- <-]|[Hne Hq]]; [by exists h|by exists h']. }
  assert (∀ q h0, blocks s !! q = Some h0 → ∃ h', blocks s' !! q = Some h' ∧ nSize h' = nSize h0 ∧ nMagic h' = nMagic h0) as Hfwd.
  { intros q h0 Hq. rewrite E4. destruct (decide (q = p)) as [->|Hne].
    - exists (h <| pNext := 0 |>). rewrite lookup_insert_eq. split_and!; [done|simpl; congruence..].
    - exists h0. by rewrite lookup_insert_ne. }
  assert (∀ j l', <[i := l]> free !! j = Some l' → (p ∉ l') ∧ (∃ l0, free !! j = Some l0 ∧ ∀ q, q ∈ l' → q ∈ l0)) as Hlists.
  { intros j l' Hj. apply list_lookup_insert_Some in Hj as [(<- & <- & _)|[Hne Hj]].
    - pose proof (hk_nodup0 _ _ Hf) as Hnd. apply list.NoDup_cons in Hnd as [Hnp _]. split; [done|]. exists (p :: l).
      split; [done|]. intros q Hq. by right.
    - split; [|by exists l']. intros Hp'. by eapply Hne, (hk_once _ _ _ _ i j _ _ p Hk Hf Hj); [left|]. }
  assert (∀ j b', s_BlockBucket s' !! j = Some b' → ∃ b0, s_BlockBucket s !! j = Some b0 ∧ bucket_nSize b' = bucket_nSize b0 ∧
    pFreeList b' = if decide (j = i) then pNext h else pFreeList b0) as Hbuckets.
  { intros j b'. rewrite E3. destruct (decide (j = i)) as [->|Hne].
    - rewrite list_lookup_alter, decide_True by done. intros (b0 & E & ->)%fmap_Some. by exists b0.
    - rewrite list_lookup_alter_ne by done. intros E. by exists b'. }
  split.
  - done.
  - done.
  - by rewrite E1.
  - by rewrite E2.
  - by rewrite E3, alter_sizes.
  - by rewrite E3, length_insert, length_alter.
  - intros j b' l' Hj Hl. destruct (Hbuckets j b' Hj) as (b0 & Hb0 & _ & ->). destruct (Hlists j l' Hl) as [Hnp _]. rewrite E4.
    apply chain_insert; [done|]. apply list_lookup_insert_Some in Hl as [(<- & <- & _)|[Hne Hl]].
    + by rewrite decide_True by done.
    + rewrite decide_False by done. by eapply hk_chain0.
  - intros j b' l' q Hj Hl Hq. destruct (Hbuckets j b' Hj) as (b0 & Hb0 & -> & _). destruct (Hlists j l' Hl) as (Hnp & l0 & Hl0 & Hin).
    destruct (hk_free0 j b0 l0 q Hb0 Hl0 (Hin q Hq)) as (Hnl & h0 & Hq0 & Hs).
    split; [set_solver|]. destruct (Hfwd q h0 Hq0) as (h' & Hq' & Hs' & _). exists h'. split; [done|congruence].
  - intros j l' Hl. apply list_lookup_insert_Some in Hl as [(<- & <- & _)|[Hne Hl]]; [|by eapply hk_nodup0].
    pose proof (hk_nodup0 _ _ Hf) as Hnd. by apply list.NoDup_cons in Hnd as [_ Hnd].
  - intros q [->%elem_of_singleton|Hq]%elem_of_union.
    + destruct (Hfwd p h Hp) as (h' & Hq' & _ & Hm'). exists h'. split; [done|congruence].
    + destruct (hk_live0 q Hq) as (h0 & Hq0 & Hm0). destruct (Hfwd q h0 Hq0) as (h' & Hq' & _ & Hm'). exists h'. split; [done|congruence].
  - intros q h' Hq. destruct (Hback q h' Hq) as (h0 & Hq0 & -> & _). rewrite E1, E2. by apply hk_block0.
  - intros q r h' Hq [h1 Hr] Hlt. destruct (Hback q h' Hq) as (h0 & Hq0 & -> & _). destruct (Hback r h1 Hr) as (h2 & Hr2 & _).
    by apply (hk_apart0 q r h0).
Qed.

(** ** Cutting a block from the rest of the heap *)

Definition cut (n : Z) (s s' : Heap) : Prop :=
  crit_ok (hp_cpu s') ∧ s_pNextBlock s' = s_pNextBlock s + extent n ∧ s_pBlockLimit s' = s_pBlockLimit s ∧
  s_BlockBucket s' = s_BlockBucket s ∧
  blocks s' = <[s_pNextBlock s := {| nMagic := BLOCK_MAGIC; nSize := n; pNext := 0 |}]> (blocks s).

Lemma extent_bounds n : 0 <= n → n + 16 <= extent n ∧ extent n mod 16 = 0.
Proof. unfold extent. lia. Qed.

Lemma heap_ok_cut base live free s s' n : heap_ok base live free s → 0 <= n < 2 ^ 31 →
  s_pNextBlock s + extent n <= s_pBlockLimit s → cut n s s' → heap_ok base ({[s_pNextBlock s]} ∪ live) free s'.
Proof.
  intros Hk Hn Hfit (Hc & E1 & E2 & E3 & E4). pose proof Hk as []. destruct (extent_bounds n) as [He1 He2]; [lia|].
  assert (∀ p h, blocks s !! p = Some h → p < s_pNextBlock s) as Hbelow.
  { intros p h Hp. destruct (hk_block0 p h Hp) as (H1 & _ & _ & H2). destruct (extent_bounds (nSize h)); lia. }
  assert (blocks s !! s_pNextBlock s = None) as Hfresh.
  { destruct (blocks s !! s_pNextBlock s) as [h|] eqn:E; [|done]. specialize (Hbelow _ _ E). lia. }
  assert (∀ q, q ≠ s_pNextBlock s → blocks s' !! q = blocks s !! q) as Hother.
  { intros q Hq. by rewrite E4, lookup_insert_ne. }
  assert (∀ j l q, free !! j = Some l → q ∈ l → q ≠ s_pNextBlock s) as Hlist.
  { intros j l q Hl Hq ->. destruct (lookup_lt_is_Some_2 (s_BlockBucket s) j) as [b Hb];
      [rewrite <- hk_length0; by eapply lookup_lt_Some|].
    destruct (hk_free0 j b l _ Hb Hl Hq) as (_ & h & E & _). congruence. }
  split.
  - done.
  - done.
  - rewrite E1. lia.
  - by rewrite E2.
  - by rewrite E3.
  - by rewrite E3.
  - intros j b l Hb Hl. rewrite E3 in Hb. rewrite E4. apply chain_insert; [|by eapply hk_chain0].
    intros Hin. by destruct (Hlist j l _ Hl Hin).
  - intros j b l q Hb Hl Hq. rewrite E3 in Hb. pose proof (Hlist j l q Hl Hq) as Hne. rewrite Hother by done.
    destruct (hk_free0 j b l q Hb Hl Hq) as [Hnl Hh]. split; [set_solver|done].
  - done.
  - intros q [->%elem_of_singleton|Hq]%elem_of_union.
    + rewrite E4, lookup_insert_eq. by eexists.
    + destruct (hk_live0 q Hq) as (h & Hh & Hm). exists h. rewrite Hother; [done|]. intros ->. congruence.
  - intros q h. rewrite E1, E2, E4, lookup_insert_Some. intros [[<- <-]|[Hne Hq]]; simpl; [lia|].
    destruct (hk_block0 q h Hq) as (? & ? & ? & ?). lia.
  - intros q r h. rewrite E4, lookup_insert_Some. intros [[<- <-]|[Hne Hq]] Hr Hlt.
    + rewrite lookup_insert_is_Some in Hr. destruct Hr as [<-|[Hne [h Hr]]]; [lia|]. specialize (Hbelow r h Hr). lia.
    + rewrite lookup_insert_is_Some in Hr. destruct Hr as [<-|[Hne' Hr]].
      * destruct (hk_block0 q h Hq) as (_ & _ & _ & Hb). lia.
      * by apply (hk_apart0 q r h).
Qed.

(** Nothing is left: only the mark moves on. *)
Definition exhausted (n : Z) (s s' : Heap) : Prop :=
  crit_ok (hp_cpu s') ∧ s_pNextBlock s' = s_pNextBlock s + extent n ∧ s_pBlockLimit s' = s_pBlockLimit s ∧
  s_BlockBucket s' = s_BlockBucket s ∧ blocks s' = blocks s.

Lemma heap_ok_exhausted base live free s s' n : heap_ok base live free s → 0 <= n →
  s_pNextBlock s + extent n < 2 ^ 32 → exhausted n s s' → heap_ok base live free s'.
Proof.
  intros [] Hn Hlt (Hc & E1 & E2 & E3 & E4). destruct (extent_bounds n) as [He1 He2]; [lia|].
  split; rewrite ?E1, ?E2, ?E3, ?E4; try done; [lia|]. intros p h Hp. destruct (hk_block0 p h Hp) as (? & ? & ? & ?). lia.
Qed.

(** ** Giving a block back *)

Definition returned (i : nat) (p head : Z) (h : TBlockHeader) (s s' : Heap) : Prop :=
  crit_ok (hp_cpu s') ∧ s_pNextBlock s' = s_pNextBlock s ∧ s_pBlockLimit s' = s_pBlockLimit s ∧
  s_BlockBucket s' = alter (λ b, b <| pFreeList := p |>) i (s_BlockBucket s) ∧
  blocks s' = <[p := h <| pNext := head |>]> (blocks s).

Lemma heap_ok_less base live free s p : heap_ok base live free s → heap_ok base (live ∖ {[p]}) free s.
Proof.
  intros []. split; try done.
  - intros i b l q Hb Hl Hq. destruct (hk_free0 i b l q Hb Hl Hq) as [? ?]. split; [set_solver|done].
  - intros q Hq. apply hk_live0. set_solver.
Qed.

Lemma heap_ok_returned base live free s s' i b p l h : heap_ok base live free s → p ∈ live →
  s_BlockBucket s !! i = Some b → free !! i = Some l → blocks s !! p = Some h → nMagic h = BLOCK_MAGIC →
  nSize h = bucket_nSize b → returned i p (pFreeList b) h s s' → heap_ok base (live ∖ {[p]}) (<[i := p :: l]> free) s'.
Proof.
  intros Hk Hlive Hb Hf Hp Hm Hsz (Hc & E1 & E2 & E3 & E4). pose proof Hk as [].
  assert (p ≠ 0) as Hp0 by (destruct (hk_block0 p h Hp) as (_ & ? & _); lia).
  assert (∀ q h', blocks s' !! q = Some h' → ∃ h0, blocks s !! q = Some h0 ∧ nSize h' = nSize h0 ∧ nMagic h' = nMagic h0) as Hback.
  { intros q h'. rewrite E4, lookup_insert_Some. intros [[<- <-]|[Hne Hq]]; [by exists h|by exists h']. }
  assert (∀ q h0, blocks s !! q = Some h0 → ∃ h', blocks s' !! q = Some h' ∧ nSize h' = nSize h0 ∧ nMagic h' = nMagic h0) as Hfwd.
  { intros q h0 Hq. rewrite E4. destruct (decide (q = p)) as [->|Hne].
    - exists (h <| pNext := pFreeList b |>). rewrite lookup_insert_eq. split_and!; [done|simpl; congruence..].
    - exists h0. by rewrite lookup_insert_ne. }
  assert (∀ j l', free !! j = Some l' → p ∉ l') as Hnot.
  { intros j l' Hl Hin. destruct (lookup_lt_is_Some_2 (s_BlockBucket s) j) as [b' Hb'];
      [rewrite <- hk_length0; by eapply lookup_lt_Some|]. by destruct (hk_free0 j b' l' p Hb' Hl Hin). }
  split.
  - done.
  - done.
  - by rewrite E1.
  - by rewrite E2.
  - by rewrite E3, alter_sizes.
  - by rewrite E3, length_insert, length_alter.
  - intros j b' l' Hj Hl. rewrite E3 in Hj. rewrite E4. apply list_lookup_insert_Some in Hl as [(<- & <- & _)|[Hne Hl]].
    + rewrite list_lookup_alter, decide_True, Hb in Hj by done. injection Hj as <-. cbn [chain]. split_and!; [done|done|].
      exists (h <| pNext := pFreeList b |>). rewrite lookup_insert_eq. split_and!; [done|done|]. simpl.
      apply chain_insert; [by eapply Hnot|by eapply hk_chain0].
    + rewrite list_lookup_alter_ne in Hj by done. apply chain_insert; [by eapply Hnot|by eapply hk_chain0].
  - intros j b' l' q Hj Hl Hq. rewrite E3 in Hj.
    assert (∃ b0, s_BlockBucket s !! j = Some b0 ∧ bucket_nSize b' = bucket_nSize b0) as (b0 & Hb0 & ->).
    { destruct (decide (j = i)) as [->|Hne].
      - rewrite list_lookup_alter, decide_True in Hj by done. apply fmap_Some in Hj as (b0 & E & ->). by exists b0.
      - rewrite list_lookup_alter_ne in Hj by done. by exists b'. }
    assert (q = p ∧ j = i ∨ ∃ l0, free !! j = Some l0 ∧ q ∈ l0) as Hcase.
    { apply list_lookup_insert_Some in Hl as [(<- & <- & _)|[Hne Hl]]; [|by right; exists l'].
      apply elem_of_cons in Hq as [->|Hq]; [by left|right; by exists l]. }
    destruct Hcase as [[-> ->]|(l0 & Hl0 & Hq0)].
    + split; [set_solver|]. destruct (Hfwd p h Hp) as (h' & Hq' & Hs' & _). exists h'. split; [done|]. congruence.
    + destruct (hk_free0 j b0 l0 q Hb0 Hl0 Hq0) as (Hnl & h0 & Hh0 & Hs0).
      split; [set_solver|]. destruct (Hfwd q h0 Hh0) as (h' & Hq' & Hs' & _). exists h'. split; [done|congruence].
  - intros j l' Hl. apply list_lookup_insert_Some in Hl as [(<- & <- & _)|[Hne Hl]]; [|by eapply hk_nodup0].
    apply list.NoDup_cons. split; [by eapply Hnot|by eapply hk_nodup0].
  - intros q Hq. destruct (hk_live0 q ltac:(set_solver)) as (h0 & Hh0 & Hm0). destruct (Hfwd q h0 Hh0) as (h' & Hq' & _ & Hm').
    exists h'. split; [done|congruence].
  - intros q h' Hq. destruct (Hback q h' Hq) as (h0 & Hq0 & -> & _). rewrite E1, E2. by apply hk_block0.
  - intros q r h' Hq [h1 Hr] Hlt. destruct (Hback q h' Hq) as (h0 & Hq0 & -> & _). destruct (Hback r h1 Hr) as (h2 & Hr2 & _).
    by apply (hk_apart0 q r h0).
Qed.

(** ** The size that a request is rounded up to *)

Fixpoint round_in (n : Z) (l : list Z) : Z :=
  match l with [] => n | k :: l => if n <=? k then k else round_in n l end.
Definition rounded (n : Z) : Z := round_in n bucket_sizes.

Lemma round_in_bounds n c l : n < c → Forall (λ k, k < c) l → n <= round_in n l < c.
Proof. intros Hn. induction 1 as [|k l Hk _ IH]; simpl; [lia|]. destruct (Z.leb_spec n k); lia. Qed.
Lemma rounded_bounds n : n < 2 ^ 31 → n <= rounded n < 2 ^ 31.
Proof. intros Hn. apply round_in_bounds; [done|]. by repeat constructor. Qed.

Lemma find_bucket_round n i l : match find_bucket n i l with
  | Some (j, b) => ∃ k, j = (i + k)%nat ∧ l !! k = Some b ∧ bucket_nSize b = round_in n (map bucket_nSize l)
  | None => round_in n (map bucket_nSize l) = n end.
Proof.
  revert i. induction l as [|b l IH]; intros i; simpl; [done|]. destruct (n <=? bucket_nSize b).
  - exists 0%nat. split_and!; [lia|done|done].
  - specialize (IH (S i)). destruct (find_bucket n (S i) l) as [[j b']|]; [|done].
    destruct IH as (k & -> & Hk & E). exists (S k). split_and!; [lia|done|done].
Qed.

Lemma bucket_of_spec n i l : match bucket_of n i l with
  | Some (j, b) => ∃ k, j = (i + k)%nat ∧ l !! k = Some b ∧ n = bucket_nSize b
  | None => True end.
Proof.
  revert i. induction l as [|b l IH]; intros i; simpl; [done|]. destruct (Z.eqb_spec n (bucket_nSize b)).
  - exists 0%nat. split_and!; [lia|done|done].
  - specialize (IH (S i)). destruct (bucket_of n (S i) l) as [[j b']|]; [|done].
    destruct IH as (k & -> & Hk & E). exists (S k). split_and!; [lia|done|done].
Qed.

(** ** The parts of [malloc] *)

Definition inside (s : Heap) : Heap := s <| hp_trace := EvBarrier :: hp_trace s |> <| hp_cpu := crit_enter (hp_cpu s) |>.

Lemma wp_header_at p h s Q : blocks s !! p = Some h → Q h s → wp (header_at p) Q s.
Proof. intros E HQ. unfold header_at. wp_step. apply wp_gets. rewrite E. by apply wp_ret. Qed.

Lemma wp_leave s s0 (Q : unit → Heap → Prop) : crit_ok (hp_cpu s0) → hp_cpu s = crit_enter (hp_cpu s0) →
  (∀ s', crit_ok (hp_cpu s') → s_pNextBlock s' = s_pNextBlock s → s_pBlockLimit s' = s_pBlockLimit s →
     s_BlockBucket s' = s_BlockBucket s → blocks s' = blocks s → Q tt s') → wp LeaveCritical Q s.
Proof. intros Hc E HQ. apply (wp_heap_leave (hp_cpu s0)); [done|done|]. apply HQ; [by apply crit_exit_ok|done..]. Qed.

Lemma wp_take_block i p h s (Q : Z → Heap → Prop) : crit_ok (hp_cpu s) → blocks s !! p = Some h → nMagic h = BLOCK_MAGIC →
  (∀ s', crit_ok (hp_cpu s') → s_pNextBlock s' = s_pNextBlock s → s_pBlockLimit s' = s_pBlockLimit s →
     s_BlockBucket s' = alter (λ b, b <| pFreeList := pNext h |>) i (s_BlockBucket s) → blocks s' = blocks s → Q p s') →
  wp (take_block i p) Q (inside s).
Proof.
  intros Hc E Hm HQ. unfold take_block. wp_step. eapply wp_header_at; [exact E|]. wp_step.
  apply wp_assert; [by apply Z.eqb_eq|]. wp_step. apply wp_modify. wp_step. apply (wp_leave _ s); [done|done|].
  intros s' H1 H2 H3 H4 H5. apply wp_ret. by apply HQ.
Qed.

Lemma wp_cut_block n s (Q : Z → Heap → Prop) : crit_ok (hp_cpu s) → 0 <= n < 2 ^ 31 → 0 <= s_pNextBlock s →
  s_pNextBlock s + extent n < 2 ^ 32 →
  (s_pBlockLimit s < s_pNextBlock s + extent n → ∀ s', exhausted n s s' → Q 0 s') →
  (s_pNextBlock s + extent n <= s_pBlockLimit s → ∀ s' q, crit_ok (hp_cpu s') → s_pNextBlock s' = s_pNextBlock s + extent n →
     s_pBlockLimit s' = s_pBlockLimit s → s_BlockBucket s' = s_BlockBucket s →
     blocks s' = <[s_pNextBlock s := {| nMagic := BLOCK_MAGIC; nSize := n; pNext := q |}]> (blocks s) → Q (s_pNextBlock s) s') →
  wp (cut_block n) Q (inside s).
Proof.
  intros Hc Hn H0 Hlt Hout Hin. unfold cut_block. wp_step. apply wp_gets. wp_step. apply wp_modify. wp_step. apply wp_get.
  rewrite block_bytes_extent by done. destruct (extent_bounds n) as [He _]; [lia|]. cbn -[extent u32 Z.ltb].
  rewrite u32_id by (unfold is_u32; lia). destruct (Z.ltb_spec (s_pBlockLimit s) (s_pNextBlock s + extent n)).
  - wp_step. apply (wp_leave _ s); [done|done|]. intros s' H1 H2 H3 H4 H5. apply wp_ret. apply Hout; [done|]. by split_and!.
  - wp_step. apply wp_modify. wp_step. apply (wp_leave _ s); [done|done|]. intros s' H1 H2 H3 H4 H5. apply wp_ret.
    eapply Hin; [done|done|done|done|done|]. rewrite H5. cbn -[u32]. by rewrite u32_id by (unfold is_u32; lia).
Qed.

Lemma wp_hand_out p h s (Q : Z → Heap → Prop) : 0 < p → p mod 16 = 0 → p + 16 < 2 ^ 32 → blocks s !! p = Some h →
  Q (p + 16) (s <| blocks := <[p := h <| pNext := 0 |>]> (blocks s) |>) →
  wp (if p =? 0 then mret 0 else
      h ← header_at p;
      header_set p (h <| pNext := 0 |>) ;;
      let pResult := u32 (p + sizeof_TBlockHeader) in
      c_assert (Z.land pResult ALIGN_MASK =? 0) ;;
      mret pResult) Q s.
Proof.
  intros H0 Hal Hlt E HQ. rewrite (proj2 (Z.eqb_neq p 0)) by lia. wp_step. eapply wp_header_at; [exact E|].
  wp_step. apply wp_modify. cbv zeta. unfold sizeof_TBlockHeader. rewrite u32_id by (unfold is_u32; lia). wp_step.
  apply wp_assert; [|by apply wp_ret]. change ALIGN_MASK with (Z.ones 4). rewrite Z.land_ones by lia.
  apply Z.eqb_eq. change (2 ^ 4) with 16. lia.
Qed.

(** ** Allocating *)

(** The sizes of the blocks do not change. *)
Definition same_sizes (s s' : Heap) : Prop :=
  ∀ p h, blocks s !! p = Some h → ∃ h', blocks s' !! p = Some h' ∧ nSize h' = nSize h.
Lemma same_sizes_insert s s' p h : blocks s' = <[p := h]> (blocks s) →
  (∀ h0, blocks s !! p = Some h0 → nSize h = nSize h0) → same_sizes s s'.
Proof.
  intros E Hs q h0 Hq. rewrite E. destruct (decide (q = p)) as [->|Hne].
  - rewrite lookup_insert_eq. exists h. split; [done|by apply Hs].
  - rewrite lookup_insert_ne by done. by exists h0.
Qed.

(** What a request for [n] bytes does: it gets a block of its own, or there is
    no free one and the rest of the heap is too small. *)
Inductive allocated (base n : Z) (live : gset Z) (s : Heap) : Z → Heap → Prop :=
  | Refused s' free : s_pBlockLimit s < s_pNextBlock s + extent (rounded n) →
      heap_ok base live free s' → same_sizes s s' → allocated base n live s 0 s'
  | Granted p h s' free : p ∉ live → blocks s' !! p = Some h → n <= nSize h →
      heap_ok base ({[p]} ∪ live) free s' → same_sizes s s' → allocated base n live s (p + 16) s'.

Definition malloc_post (base n : Z) (live : gset Z) (s : Heap) (r : Z) (s' : Heap) : Prop :=
  allocated base n live s r s' ∧ s_pBlockLimit s' = s_pBlockLimit s ∧
  s_pNextBlock s' <= s_pNextBlock s + extent (rounded n).

Lemma heap_list base live free s i b : heap_ok base live free s → s_BlockBucket s !! i = Some b →
  ∃ l, free !! i = Some l ∧ chain (blocks s) (pFreeList b) l.
Proof.
  intros Hk Hb. destruct (lookup_lt_is_Some_2 free i) as [l Hl]; [rewrite (hk_length _ _ _ _ Hk); by eapply lookup_lt_Some|].
  exists l. split; [done|by eapply hk_chain].
Qed.

Lemma wp_malloc_cut base live free s n m (Q : Z → Heap → Prop) : heap_ok base live free s → 0 <= n <= m → m = rounded n → m < 2 ^ 31 →
  s_pNextBlock s + extent m < 2 ^ 32 → (∀ r s', malloc_post base n live s r s' → Q r s') →
  wp (p ← cut_block m;
      if p =? 0 then mret 0 else
      h ← header_at p;
      header_set p (h <| pNext := 0 |>) ;;
      let pResult := u32 (p + sizeof_TBlockHeader) in
      c_assert (Z.land pResult ALIGN_MASK =? 0) ;;
      mret pResult) Q (inside s).
Proof.
  intros Hk Hn -> Hm Hlt HQ. pose proof Hk as []. destruct (extent_bounds (rounded n)) as [He1 He2]; [lia|]. wp_step.
  apply wp_cut_block; [done|lia|lia|done| |].
  - intros Hout s' Hex. rewrite Z.eqb_refl. apply wp_ret. pose proof Hex as (_ & E1 & E2 & _ & E4). apply HQ. split_and!; [|done|lia].
    eapply Refused; [done|eapply heap_ok_exhausted; [done| |done|done]; lia|]. intros p h Hp. rewrite E4. by exists h.
  - intros Hin s' q Hc E1 E2 E3 E4. eapply wp_hand_out; [lia|lia|lia|rewrite E4; apply lookup_insert_eq|]. apply HQ.
    set (s2 := s' <| blocks := _ |>).
    assert (cut (rounded n) s s2) as Hcut.
    { split_and!; [done|done|done|done|]. unfold s2. cbn. by rewrite E4, insert_insert_eq. }
    pose proof Hcut as (_ & E0 & _ & _ & E5). split_and!; [|done|rewrite E0; lia].
    eapply (Granted _ _ _ _ (s_pNextBlock s)); [|rewrite E5; apply lookup_insert_eq|cbn -[rounded]; lia|eapply heap_ok_cut; [done| |done|done]; lia|].
    + intros Hl. destruct (hk_live0 _ Hl) as (h & Hh & _). destruct (hk_block0 _ _ Hh) as (? & _ & _ & ?).
      destruct (extent_bounds (nSize h)); lia.
    + eapply same_sizes_insert; [exact E5|]. intros h Hh. destruct (hk_block0 _ _ Hh) as (? & _ & _ & ?).
      destruct (extent_bounds (nSize h)); lia.
Qed.

Lemma wp_heap_malloc base live free s n : heap_ok base live free s → 0 <= n < 2 ^ 31 →
  s_pNextBlock s + extent (rounded n) < 2 ^ 32 → wp (malloc n) (malloc_post base n live s) s.
Proof.
  intros Hk Hn Hlt. pose proof Hk as []. pose proof (rounded_bounds n ltac:(lia)) as Hr. destruct (extent_bounds (rounded n)) as [He1 He2]; [lia|].
  unfold malloc. wp_step. apply wp_get. wp_step. apply wp_assert; [apply negb_true_iff, Z.eqb_neq; lia|]. wp_step.
  apply wp_heap_enter. fold (inside s). wp_step. apply wp_get. change (s_BlockBucket (inside s)) with (s_BlockBucket s).
  pose proof (find_bucket_round n 0 (s_BlockBucket s)) as Hf. rewrite hk_sizes0 in Hf. fold (rounded n) in Hf.
  destruct (find_bucket n 0 (s_BlockBucket s)) as [[i b]|]; [|eapply (wp_malloc_cut base live free s n); [done|lia|done|lia|by rewrite <- Hf|done]].
  destruct Hf as (k & -> & Hb & Hsz). destruct (heap_list _ _ _ _ _ _ Hk Hb) as ([|p l] & Hl & Hch).
  - rewrite Hch. cbn [negb]. rewrite Z.eqb_refl, Hsz. eapply (wp_malloc_cut base live free s n); [done|lia|done|lia|done|done].
  - destruct Hch as (Ep & Hp0 & h & Hh & Hm & Hch). rewrite Ep, (proj2 (Z.eqb_neq p 0)) by done. cbn [negb]. wp_step.
    apply (wp_take_block _ _ h); [done|done|done|]. intros s' Hc E1 E2 E3 E4.
    destruct (hk_block0 p h Hh) as (Hs & Hb1 & Hb2 & Hb3). destruct (extent_bounds (nSize h)) as [He3 _]; [lia|].
    destruct (hk_free0 _ _ _ p Hb Hl ltac:(by left)) as (Hnl & h' & Hh' & Hs').
    eapply wp_hand_out; [lia|lia|lia|rewrite E4; exact Hh|].
    set (s2 := s' <| blocks := _ |>).
    assert (reused k p h s s2) as Hre.
    { split_and!; [done|done|done|done|]. unfold s2. cbn. by rewrite E4. }
    pose proof Hre as (_ & E0 & _ & _ & E5). split_and!; [|done|rewrite E0; lia].
    eapply Granted; [done|rewrite E5; apply lookup_insert_eq|cbn -[rounded]; assert (h = h') as -> by congruence; lia|exact (heap_ok_reused base live free s s2 k b p l h Hk Hb Hl Hh Hm Hch Hre)|].
    eapply same_sizes_insert; [exact E5|]. intros h0 Hh0. cbn. congruence.
Qed.

(** ** Freeing *)

Lemma wp_heap_free base live free s r : heap_ok base live free s → r - 16 ∈ live →
  wp (Alloc.free r) (λ _ s', (∃ free', heap_ok base (live ∖ {[r - 16]}) free' s') ∧ same_sizes s s' ∧
    s_pBlockLimit s' = s_pBlockLimit s ∧ s_pNextBlock s' = s_pNextBlock s) s.
Proof.
  intros Hk Hlive. pose proof Hk as []. destruct (hk_live0 _ Hlive) as (h & Hh & Hm).
  destruct (hk_block0 _ _ Hh) as (Hs & Hb1 & Hb2 & Hb3). destruct (extent_bounds (nSize h)) as [He3 _]; [lia|].
  unfold Alloc.free. wp_step. apply wp_assert; [apply negb_true_iff, Z.eqb_neq; lia|]. cbv zeta. unfold sizeof_TBlockHeader.
  rewrite u32_id by (unfold is_u32; lia). wp_step. eapply wp_header_at; [exact Hh|]. wp_step.
  apply wp_assert; [by apply Z.eqb_eq|]. wp_step. apply wp_get.
  pose proof (bucket_of_spec (nSize h) 0 (s_BlockBucket s)) as Hf.
  destruct (bucket_of (nSize h) 0 (s_BlockBucket s)) as [[i b]|].
  - destruct Hf as (k & -> & Hb & Hsz). destruct (heap_list _ _ _ _ _ _ Hk Hb) as (l & Hl & _).
    wp_step. apply wp_heap_enter. wp_step. apply wp_modify. wp_step. apply wp_modify. eapply (wp_leave _ s); [done|done|].
    intros s' Hc E1 E2 E3 E4.
    assert (returned k (r - 16) (pFreeList b) h s s') as Hre by by split_and!.
    pose proof Hre as (_ & _ & _ & _ & E5). split_and!; [eexists; by eapply heap_ok_returned| |done|done].
    eapply same_sizes_insert; [exact E5|]. intros h0 Hh0. cbn. congruence.
  - apply wp_ret. split_and!; [|by intros p h0 Hp; exists h0|done|done]. exists free. by apply heap_ok_less.
Qed.

(** ** Programs that use the allocator *)

(** A request for a block of [n] bytes, and giving back the [i]th block held. *)
Inductive request := Malloc (n : Z) | Free (i : nat).

(** The blocks held, with the bytes asked for, and the requests refused. *)
Fixpoint client (l : list request) (held : list (Z * Z)) (refused : nat) : M Heap (list (Z * Z) * nat) :=
  match l with
  | [] => mret (held, refused)
  | Malloc n :: l => r ← malloc n; if r =? 0 then client l held (S refused) else client l ((r, n) :: held) refused
  | Free i :: l =>
      match held !! i with
      | Some (r, _) => Alloc.free r ;; client l (delete i held) refused
      | None => client l held refused
      end
  end.

Definition request_ok (r : request) : Prop := match r with Malloc n => 0 <= n < 2 ^ 31 | Free _ => True end.
(** What the requests take from the heap when nothing is given back. *)
Definition demand (r : request) : Z := match r with Malloc n => extent (rounded n) | Free _ => 0 end.
Definition total (l : list request) : Z := foldr (λ r t, demand r + t) 0 l.

Lemma demand_nonneg r : request_ok r → 0 <= demand r.
Proof.
  destruct r as [n|i]; cbn [request_ok demand]; [|done]. intros Hn. pose proof (rounded_bounds n ltac:(lia)).
  destruct (extent_bounds (rounded n)); lia.
Qed.
Lemma total_nonneg l : Forall request_ok l → 0 <= total l.
Proof. induction 1 as [|r l Hr _ IH]; [done|]. pose proof (demand_nonneg r Hr). cbn [total foldr]. fold (total l). lia. Qed.

(** Every block has its bytes to itself, inside the heap, aligned. *)
Definition separate (base limit : Z) (held : list (Z * Z)) : Prop :=
  (∀ r n, (r, n) ∈ held → base + 16 <= r ∧ r + n <= limit ∧ r mod 16 = 0) ∧
  ∀ i j r n r' n', i ≠ j → held !! i = Some (r, n) → held !! j = Some (r', n') → r + n <= r' ∨ r' + n' <= r.

Record serving (base limit : Z) (held : list (Z * Z)) (s : Heap) (live : gset Z) : Prop := {
  sv_heap : ∃ free, heap_ok base live free s;
  sv_limit : s_pBlockLimit s = limit;
  sv_nodup : NoDup held.*1;
  sv_held r n : (r, n) ∈ held → r - 16 ∈ live ∧ ∃ h, blocks s !! (r - 16) = Some h ∧ n <= nSize h
}.

Lemma sizes_kept s s' p n : same_sizes s s' → (∃ h, blocks s !! p = Some h ∧ n <= nSize h) → ∃ h, blocks s' !! p = Some h ∧ n <= nSize h.
Proof. intros Hs (h & Hh & Hn). destruct (Hs p h Hh) as (h' & Hh' & E). exists h'. split; [done|lia]. Qed.

Lemma serving_separate base limit held s live : serving base limit held s live → separate base limit held.
Proof.
  intros [[free Hk] Hl Hnd Hh]. pose proof Hk as []. split.
  - intros r n (_ & h & Eh & Hn)%Hh. destruct (hk_block0 _ _ Eh) as (? & ? & ? & ?). destruct (extent_bounds (nSize h)); lia.
  - intros i j r n r' n' Hij Hi Hj. destruct (Hh r n) as (_ & h & Eh & Hn); [by eapply list_elem_of_lookup_2|].
    destruct (Hh r' n') as (_ & h' & Eh' & Hn'); [by eapply list_elem_of_lookup_2|].
    destruct (hk_block0 _ _ Eh) as (? & _ & _ & ?). destruct (hk_block0 _ _ Eh') as (? & _ & _ & ?).
    destruct (extent_bounds (nSize h)) as [? _]; [lia|]. destruct (extent_bounds (nSize h')) as [? _]; [lia|].
    destruct (Z.lt_trichotomy r r') as [Hlt|[->|Hlt]].
    + left. pose proof (hk_apart0 (r - 16) (r' - 16) h Eh ltac:(by eexists) ltac:(lia)). lia.
    + destruct Hij. eapply (NoDup_lookup _ i j r' Hnd); by rewrite list_lookup_fmap, ?Hi, ?Hj.
    + right. pose proof (hk_apart0 (r' - 16) (r - 16) h' Eh' ltac:(by eexists) ltac:(lia)). lia.
Qed.

Lemma serving_refused base limit held s s' live free : serving base limit held s live → heap_ok base live free s' →
  same_sizes s s' → s_pBlockLimit s' = s_pBlockLimit s → serving base limit held s' live.
Proof.
  intros [_ Hl Hnd Hh] Hk Hs El. split; [by exists free|by rewrite El|done|]. intros r n [? ?]%Hh. split; [done|by eapply sizes_kept].
Qed.

Lemma serving_granted base limit held s s' live free p h n : serving base limit held s live → p ∉ live →
  blocks s' !! p = Some h → n <= nSize h → heap_ok base ({[p]} ∪ live) free s' →
  same_sizes s s' → s_pBlockLimit s' = s_pBlockLimit s → serving base limit ((p + 16, n) :: held) s' ({[p]} ∪ live).
Proof.
  intros [_ Hl Hnd Hh] Hp Eh Hn Hk Hs El. split; [by exists free|by rewrite El| |].
  - cbn. apply list.NoDup_cons. split; [|done]. intros ([r m] & Er & Hr)%list_elem_of_fmap. cbn in Er. subst r.
    apply Hh in Hr as [Hr _]. by replace (p + 16 - 16) with p in Hr by lia.
  - intros r m [[= -> ->]|Hr]%elem_of_cons.
    + replace (p + 16 - 16) with p by lia. split; [set_solver|by exists h].
    + apply Hh in Hr as [Hr Hr']. split; [set_solver|by eapply sizes_kept].
Qed.

Lemma serving_freed base limit held s s' live free i r n : serving base limit held s live → held !! i = Some (r, n) →
  heap_ok base (live ∖ {[r - 16]}) free s' → same_sizes s s' → s_pBlockLimit s' = s_pBlockLimit s →
  serving base limit (delete i held) s' (live ∖ {[r - 16]}).
Proof.
  intros [_ Hl Hnd Hh] Hi Hk Hs El. apply delete_Permutation in Hi. rewrite Hi in Hnd. cbn in Hnd.
  apply list.NoDup_cons in Hnd as [Hr Hnd]. split; [by exists free|by rewrite El|done|]. intros r' n' Hin.
  destruct (Hh r' n') as [Hlive Hb]; [rewrite Hi; by right|]. split; [|by eapply sizes_kept].
  apply elem_of_difference. split; [done|]. intros E%elem_of_singleton. assert (r' = r) as -> by lia.
  destruct Hr. change r with ((r, n').1). by apply list_elem_of_fmap_2.
Qed.

Lemma wp_client base limit l held refused s live : Forall request_ok l → serving base limit held s live →
  s_pNextBlock s + total l < 2 ^ 32 →
  wp (client l held refused) (λ '(held', refused') _, separate base limit held' ∧
    (s_pNextBlock s + total l <= limit → refused' = refused)) s.
Proof.
  intros Hl. revert held refused s live. induction Hl as [|q l Hq Hl IH]; intros held refused s live Hsv Hlt.
  { apply wp_ret. split; [by eapply serving_separate|done]. }
  pose proof (total_nonneg l Hl) as Ht. pose proof (sv_limit _ _ _ _ _ Hsv) as Elim. destruct (sv_heap _ _ _ _ _ Hsv) as [free Hk].
  cbn [total foldr] in *. fold (total l) in *. destruct q as [n|i]; cbn [client demand] in *.
  - wp_step. eapply wp_mono; [eapply wp_heap_malloc; [exact Hk|exact Hq|lia]|]. intros r s' (Ha & El & Em).
    destruct Ha as [s' free' Hfull Hk' Hs|p h s' free' Hp Eh Hn Hk' Hs].
    + cbn [Z.eqb]. eapply wp_mono; [apply (IH held (S refused) s' live); [by eapply serving_refused|lia]|].
      intros [held' refused'] _ [Hsep _]. split; [done|]. lia.
    + pose proof (hk_block _ _ _ _ Hk' p h Eh) as (_ & Hpb & _). pose proof (hk_base _ _ _ _ Hk') as [Hb0 _].
      rewrite (proj2 (Z.eqb_neq (p + 16) 0)) by lia.
      eapply wp_mono; [eapply (IH _ refused s'); [by eapply serving_granted|lia]|].
      intros [held' refused'] _ [Hsep Href]. split; [done|]. intros Hfit. apply Href. lia.
  - rewrite Z.add_0_l in *. destruct (held !! i) as [[r n]|] eqn:Ei; [|by eapply IH].
    wp_step. eapply wp_mono; [eapply wp_heap_free; [exact Hk|]|].
    { by apply (sv_held _ _ _ _ _ Hsv r n), list_elem_of_lookup_2 with i. }
    intros [] s' ((free' & Hk') & Hs & El & Em). rewrite <- Em in *.
    eapply IH; [by eapply serving_freed|done].
Qed.

(** The heap before [mem_init]: the static initializers, no block in memory. *)
Definition fresh (s : Heap) : Prop := crit_ok (hp_cpu s) ∧ s_BlockBucket s = empty_buckets ∧ blocks s = ∅.
Definition heap_start (ulBase : Z) : Z := Z.max ulBase MEM_HEAP_START.
(** A quarter of the memory is for blocks. *)
Definition heap_limit (ulBase ulSize : Z) : Z := heap_start ulBase + (ulBase + ulSize - heap_start ulBase) / 4.

Lemma wp_mem_init ulBase ulSize (Q : unit → Heap → Prop) s : fresh s → 0 <= ulBase → heap_start ulBase mod 16 = 0 →
  heap_start ulBase <= ulBase + ulSize < 2 ^ 32 →
  (∀ s', s_pNextBlock s' = heap_start ulBase → serving (heap_start ulBase) (heap_limit ulBase ulSize) [] s' ∅ → Q tt s') →
  wp (mem_init ulBase ulSize) Q s.
Proof.
  intros (Hc & Hb & Hm) H0 Hal Hlt HQ. unfold mem_init. cbv zeta.
  replace (if ulBase <? MEM_HEAP_START then MEM_HEAP_START else ulBase) with (heap_start ulBase)
    by (unfold heap_start; destruct (Z.ltb_spec ulBase MEM_HEAP_START); lia).
  assert (MEM_HEAP_START <= heap_start ulBase) as Hs by (unfold heap_start; lia). unfold MEM_HEAP_START in Hs.
  rewrite (u32_id (ulBase + ulSize)), (u32_id (_ - _)) by (unfold is_u32, heap_start in *; lia).
  unfold heap_limit in HQ. set (base := heap_start ulBase) in *.
  set (quarter := (ulBase + ulSize - base) / 4) in *. assert (0 <= quarter /\ base + quarter < 2 ^ 32) as Hq by lia.
  rewrite (u32_id (base + quarter)) by (unfold is_u32; lia). apply wp_modify. apply HQ; [done|].
  assert (length (replicate 6 ([] : list Z)) = length empty_buckets) as Hlen by done.
  split; cbn; [|done|constructor|by intros ? ? ?%elem_of_nil].
  exists (replicate 6 []). split; cbn -[empty_buckets replicate]; rewrite ?Hb, ?Hm; [done|lia|lia|lia|done|done|..].
  - intros i b l Hb' [-> _]%lookup_replicate. cbn. apply list_elem_of_lookup_2 in Hb'. unfold empty_buckets in Hb'.
    by apply list_elem_of_fmap in Hb' as (n & -> & _).
  - intros i b l p _ [-> _]%lookup_replicate Hp. by apply elem_of_nil in Hp.
  - intros i l [-> _]%lookup_replicate. constructor.
  - intros p Hp. set_solver.
  - done.
  - done.
Qed.

(** C33. Safety: whatever a program asks the allocator for and gives back, the blocks
    it holds at the end lie inside the part of the heap set up for blocks, on
    addresses that are multiples of 16, and no two of them share a byte; no
    header is read that was not written, no assertion fails, and no request is
    refused while the sum of all of them fits. The mark of the heap must not
    reach 2^32, since [malloc] moves it also when it refuses. *)
Theorem allocator ulBase ulSize l s : fresh s → 0 <= ulBase → heap_start ulBase mod 16 = 0 →
  heap_start ulBase <= ulBase + ulSize < 2 ^ 32 → Forall request_ok l → heap_start ulBase + total l < 2 ^ 32 →
  wp (mem_init ulBase ulSize ;; client l [] 0)
    (λ '(held, refused) _, separate (heap_start ulBase) (heap_limit ulBase ulSize) held ∧
      (heap_start ulBase + total l <= heap_limit ulBase ulSize → refused = 0%nat)) s.
Proof.
  intros Hf H0 Hal Hlt Hl Htot. wp_step. apply wp_mem_init; [done..|]. intros s' Em Hsv.
  eapply wp_mono; [apply (wp_client _ _ l [] 0 s' ∅ Hl Hsv); by rewrite Em|]. intros [held refused] s2. by rewrite Em.
Qed.

Module AllocDemo.
(** Two small blocks, the first given back and used again, and one large block. *)
Definition requests : list request := [Malloc 10; Malloc 100; Free 1; Malloc 60; Malloc 0x90000].
Definition start : Heap := {|
  hp_trace := []; hp_cpu := {| s_nCriticalLevel := 0; s_bWereEnabled := false; irq_masked := false |};
  s_pNextBlock := 0; s_pBlockLimit := 0; s_pNextPage := 0; s_pPageLimit := 0;
  s_BlockBucket := empty_buckets; s_PageBucket := 0; blocks := ∅; pages := ∅ |}.

Lemma allocator_witness :
  wp (mem_init 0 0x2000000 ;; client requests [] 0) (λ '(held, refused) _,
    separate 0x500000 0xBC0000 held ∧ refused = 0%nat ∧
    held = [(0x500470, 0x90000); (0x500010, 60); (0x500060, 100)]) start.
Proof.
  eapply wp_mono; [apply wp_and; [apply (allocator 0 0x2000000 requests start)|
    eapply (wp_Ok _ (λ r _, r = ([(0x500470, 0x90000); (0x500010, 60); (0x500060, 100)], 0%nat))); [vm_compute; reflexivity|done]]|].
  - done.
  - done.
  - done.
  - done.
  - by repeat constructor.
  - done.
  - intros [held refused] s' [[Hsep _] [= -> ->]]. done.
Defined.
End AllocDemo.
