(* ===== verification/Interrupt.v ===== *)
(** * env/lib/interrupt.c: interrupts and their handlers

    The handlers that are connected to the lines of the interrupt controller,
    and the routine that the processor enters when one of them is pending.

    The handlers belong to other files: [handler p a] is the code at [p] called
    with the parameter [a], on a state that has any component [X] besides the
    ones of this file. [IRQStub] is the address of the assembly routine that
    calls [InterruptHandler]. Cache maintenance has no effect on this state. *)
From S2P Require Import Prelude Register Sync KernelTimer.

(** env/include/uspienv: bcm2835int.h, bcm2835.h, exceptionstub.h *)
Definition ARM_IRQS_PER_REG : Z := 32.
Definition ARM_IRQ1_BASE : Z := 0.
Definition ARM_IRQ2_BASE : Z := ARM_IRQ1_BASE + ARM_IRQS_PER_REG.
Definition ARM_IRQBASIC_BASE : Z := ARM_IRQ2_BASE + ARM_IRQS_PER_REG.
Definition IRQ_LINES : Z := ARM_IRQS_PER_REG * 2 + 8.
Definition ARM_IC_BASE : Z := ARM_IO_BASE + 0xB000.
Definition ARM_IC_IRQ_BASIC_PENDING : Z := ARM_IC_BASE + 0x200.
Definition ARM_IC_IRQ_PENDING_1 : Z := ARM_IC_BASE + 0x204.
Definition ARM_IC_IRQ_PENDING_2 : Z := ARM_IC_BASE + 0x208.
Definition ARM_IC_FIQ_CONTROL : Z := ARM_IC_BASE + 0x20C.
Definition ARM_IC_ENABLE_IRQS_1 : Z := ARM_IC_BASE + 0x210.
Definition ARM_IC_ENABLE_IRQS_2 : Z := ARM_IC_BASE + 0x214.
Definition ARM_IC_ENABLE_BASIC_IRQS : Z := ARM_IC_BASE + 0x218.
Definition ARM_IC_DISABLE_IRQS_1 : Z := ARM_IC_BASE + 0x21C.
Definition ARM_IC_DISABLE_IRQS_2 : Z := ARM_IC_BASE + 0x220.
Definition ARM_IC_DISABLE_BASIC_IRQS : Z := ARM_IC_BASE + 0x224.
Definition ARM_OPCODE_BRANCH (distance : Z) : Z := u32 (Z.lor 0xEA000000 distance).
Definition ARM_DISTANCE (from to : Z) : Z := (to - from) / 4 - 2.
Definition ARM_EXCEPTION_TABLE_BASE : Z := 0x00000004.
Definition off_IRQ : Z := 20.

Definition ARM_IC_IRQ_PENDING (irq : Z) : Z :=
  if irq <? ARM_IRQ2_BASE then ARM_IC_IRQ_PENDING_1
  else if irq <? ARM_IRQBASIC_BASE then ARM_IC_IRQ_PENDING_2 else ARM_IC_IRQ_BASIC_PENDING.
Definition ARM_IC_IRQS_ENABLE (irq : Z) : Z :=
  if irq <? ARM_IRQ2_BASE then ARM_IC_ENABLE_IRQS_1
  else if irq <? ARM_IRQBASIC_BASE then ARM_IC_ENABLE_IRQS_2 else ARM_IC_ENABLE_BASIC_IRQS.
Definition ARM_IC_IRQS_DISABLE (irq : Z) : Z :=
  if irq <? ARM_IRQ2_BASE then ARM_IC_DISABLE_IRQS_1
  else if irq <? ARM_IRQBASIC_BASE then ARM_IC_DISABLE_IRQS_2 else ARM_IC_DISABLE_BASIC_IRQS.
Definition ARM_IRQ_MASK (irq : Z) : Z := Z.shiftl 1 (Z.land irq (ARM_IRQS_PER_REG - 1)).

Record TInterruptSystem := { m_apIRQHandler : list Z; m_pParam : list Z }.
#[global] Instance TInterruptSystem_eta : Eta TInterruptSystem := λ r,
  {| m_apIRQHandler := m_apIRQHandler r; m_pParam := m_pParam r |}.

(** [systems]: the objects at their addresses. *)
Record Irq (X : Type) := {
  iq_trace : list event;
  iq_cpu : Cpu;
  s_pThis : Z;
  systems : gmap Z TInterruptSystem;
  others : X
}.
Arguments iq_trace {X} _.
Arguments iq_cpu {X} _.
Arguments s_pThis {X} _.
Arguments systems {X} _.
Arguments others {X} _.
#[global] Instance Irq_eta {X} : Eta (Irq X) := λ r,
  {| iq_trace := iq_trace r; iq_cpu := iq_cpu r; s_pThis := s_pThis r; systems := systems r; others := others r |}.
#[export] Instance irq_mmio {X} : HasMmio (Irq X) := {| mmio_get := iq_trace; mmio_put h s := s <| iq_trace := h |> |}.
#[export] Instance irq_cpu {X} : HasCpu (Irq X) := {| cpu_get := iq_cpu; cpu_put c s := s <| iq_cpu := c |> |}.

Section Interrupt.
Context `{HW : Hardware} {X : Type} (handler : Z → Z → M (Irq X) unit) (IRQStub : Z).
Abbreviation IrqM := (M (Irq X)).

Definition system_at (p : Z) : IrqM TInterruptSystem :=
  m ← gets systems;
  match m !! p with Some y => mret y | None => fail MemFault end.
Definition system_set (p : Z) (y : TInterruptSystem) : IrqM unit := modify (λ s, s <| systems := <[p := y]> (systems s) |>).

Definition InterruptSystem (pThis : Z) : IrqM unit :=
  c_assert (negb (pThis =? 0)) ;;
  let none := replicate (Z.to_nat IRQ_LINES) 0 in
  system_set pThis {| m_apIRQHandler := none; m_pParam := none |} ;;
  modify (λ s, s <| s_pThis := pThis |>).
Definition _InterruptSystem (pThis : Z) : IrqM unit := modify (λ s, s <| s_pThis := 0 |>).

Definition InterruptSystemInitialize (pThis : Z) : IrqM Z :=
  c_assert (negb (pThis =? 0)) ;;
  let IRQ := ARM_EXCEPTION_TABLE_BASE + off_IRQ in
  write32 IRQ (ARM_OPCODE_BRANCH (ARM_DISTANCE IRQ IRQStub)) ;;
  DataMemBarrier ;;
  write32 ARM_IC_FIQ_CONTROL 0 ;;
  write32 ARM_IC_DISABLE_IRQS_1 (u32 (-1)) ;;
  write32 ARM_IC_DISABLE_IRQS_2 (u32 (-1)) ;;
  write32 ARM_IC_DISABLE_BASIC_IRQS (u32 (-1)) ;;
  v ← read32 ARM_IC_IRQ_BASIC_PENDING; write32 ARM_IC_IRQ_BASIC_PENDING v ;;
  v ← read32 ARM_IC_IRQ_PENDING_1; write32 ARM_IC_IRQ_PENDING_1 v ;;
  v ← read32 ARM_IC_IRQ_PENDING_2; write32 ARM_IC_IRQ_PENDING_2 v ;;
  DataMemBarrier ;;
  EnableInterrupts ;;
  mret 1.

Definition InterruptSystemEnableIRQ (nIRQ : Z) : IrqM unit :=
  DataMemBarrier ;; c_assert (nIRQ <? IRQ_LINES) ;;
  write32 (ARM_IC_IRQS_ENABLE nIRQ) (ARM_IRQ_MASK nIRQ) ;; DataMemBarrier.
Definition InterruptSystemDisableIRQ (nIRQ : Z) : IrqM unit :=
  DataMemBarrier ;; c_assert (nIRQ <? IRQ_LINES) ;;
  write32 (ARM_IC_IRQS_DISABLE nIRQ) (ARM_IRQ_MASK nIRQ) ;; DataMemBarrier.

(** The handler and the parameter of a line. *)
Definition line_of (y : TInterruptSystem) (nIRQ : Z) : IrqM (Z * Z) :=
  match m_apIRQHandler y !! Z.to_nat nIRQ, m_pParam y !! Z.to_nat nIRQ with
  | Some p, Some a => mret (p, a)
  | _, _ => fail MemFault
  end.
Definition line_set (nIRQ p a : Z) (y : TInterruptSystem) : TInterruptSystem :=
  y <| m_apIRQHandler := <[Z.to_nat nIRQ := p]> (m_apIRQHandler y) |> <| m_pParam := <[Z.to_nat nIRQ := a]> (m_pParam y) |>.

Definition InterruptSystemConnectIRQ (pThis nIRQ pHandler pParam : Z) : IrqM unit :=
  c_assert (negb (pThis =? 0)) ;;
  c_assert (nIRQ <? IRQ_LINES) ;;
  y ← system_at pThis;
  '(p, _) ← line_of y nIRQ;
  c_assert (p =? 0) ;;
  system_set pThis (line_set nIRQ pHandler pParam y) ;;
  InterruptSystemEnableIRQ nIRQ.

Definition InterruptSystemDisconnectIRQ (pThis nIRQ : Z) : IrqM unit :=
  c_assert (negb (pThis =? 0)) ;;
  c_assert (nIRQ <? IRQ_LINES) ;;
  y ← system_at pThis;
  '(p, _) ← line_of y nIRQ;
  c_assert (negb (p =? 0)) ;;
  InterruptSystemDisableIRQ nIRQ ;;
  system_set pThis (line_set nIRQ 0 0 y).

Definition InterruptSystemGet : IrqM Z :=
  p ← gets s_pThis; c_assert (negb (p =? 0)) ;; mret p.

Definition InterruptSystemCallIRQHandler (pThis nIRQ : Z) : IrqM Z :=
  c_assert (negb (pThis =? 0)) ;;
  c_assert (nIRQ <? IRQ_LINES) ;;
  y ← system_at pThis;
  '(p, a) ← line_of y nIRQ;
  if negb (p =? 0) then handler p a ;; mret 1
  else InterruptSystemDisableIRQ nIRQ ;; mret 0.

(** [n] lines from [nIRQ] on. *)
Fixpoint irq_loop (n : nat) (nIRQ : Z) : IrqM unit :=
  match n with
  | O => DataMemBarrier
  | S n =>
      let nPendReg := ARM_IC_IRQ_PENDING nIRQ in
      let nIRQMask := ARM_IRQ_MASK nIRQ in
      v ← read32 nPendReg;
      if truthy (Z.land v nIRQMask) then
        p ← gets s_pThis;
        r ← InterruptSystemCallIRQHandler p nIRQ;
        if truthy r then DataMemBarrier else irq_loop n (nIRQ + 1)
      else irq_loop n (nIRQ + 1)
  end.

Definition InterruptHandler : IrqM unit :=
  p ← gets s_pThis;
  c_assert (negb (p =? 0)) ;;
  DataMemBarrier ;;
  irq_loop (Z.to_nat IRQ_LINES) 0.

(** ** Which handler is called *)

(** What the code on the way to line [n] does to the controller. *)
Definition passes (P : Z → bool) (n : Z) (e : event) : Prop :=
  match e with
  | EvRead _ _ | EvBarrier => True
  | EvWrite a v => ∃ m, 0 <= m < n ∧ P m = true ∧ a = ARM_IC_IRQS_DISABLE m ∧ v = ARM_IRQ_MASK m
  | _ => False
  end.

(** [P]: the lines that are pending after the history [h]. Looking at a line and
    switching off others does not change that. *)
Definition pending_lines (h : list event) (P : Z → bool) : Prop :=
  ∀ t n, 0 <= n < IRQ_LINES → Forall (passes P n) t →
    Z.testbit (hw_read (t ++ h) (ARM_IC_IRQ_PENDING n)) (n mod 32) = P n.

Definition system_ok (y : TInterruptSystem) : Prop :=
  length (m_apIRQHandler y) = Z.to_nat IRQ_LINES ∧ length (m_pParam y) = Z.to_nat IRQ_LINES.
Definition line_handler (y : TInterruptSystem) (n : Z) : Z := nth (Z.to_nat n) (m_apIRQHandler y) 0.
Definition line_param (y : TInterruptSystem) (n : Z) : Z := nth (Z.to_nat n) (m_pParam y) 0.

(** The first of [k] lines from [n] on that is pending and has a handler, and
    the pending lines before it, which have none. *)
Fixpoint first_line (P : Z → bool) (y : TInterruptSystem) (k : nat) (n : Z) : list Z * option Z :=
  match k with
  | O => ([], None)
  | S k =>
      if P n then
        if line_handler y n =? 0 then let '(l, r) := first_line P y k (n + 1) in (n :: l, r) else ([], Some n)
      else first_line P y k (n + 1)
  end.

(** The writes of a history, the oldest first. *)
Definition write_of (e : event) : option (Z * Z) := match e with EvWrite a v => Some (a, v) | _ => None end.
Definition writes_of (t : list event) : list (Z * Z) := rev (omap write_of t).
Definition switch_off (n : Z) : Z * Z := (ARM_IC_IRQS_DISABLE n, ARM_IRQ_MASK n).

Lemma writes_of_app t t' : writes_of (t ++ t') = writes_of t' ++ writes_of t.
Proof. unfold writes_of. by rewrite omap_app, rev_app_distr. Qed.

Lemma mask_bit n : 0 <= n → ARM_IRQ_MASK n = Z.shiftl 1 (n mod 32).
Proof. intros Hn. unfold ARM_IRQ_MASK. change (ARM_IRQS_PER_REG - 1) with (Z.ones 5). by rewrite Z.land_ones by lia. Qed.

Lemma pending_seen P h t n : pending_lines h P → 0 <= n < IRQ_LINES → Forall (passes P n) t →
  truthy (Z.land (u32 (hw_read (t ++ h) (ARM_IC_IRQ_PENDING n))) (ARM_IRQ_MASK n)) = P n.
Proof.
  intros HP Hn Ht. rewrite mask_bit, truthy_bit, u32_testbit by lia. rewrite (HP t n Hn Ht).
  by rewrite (proj2 (Z.ltb_lt (n mod 32) 32)), andb_true_r by lia.
Qed.

Lemma passes_later P n n' t : n <= n' → Forall (passes P n) t → Forall (passes P n') t.
Proof.
  intros Hle. apply Forall_impl. intros [] He; try done. destruct He as (m & Hm & He). exists m. split; [lia|done].
Qed.

Lemma line_of_ok y n s : system_ok y → 0 <= n < IRQ_LINES → line_of y n s = Ok ((line_handler y n, line_param y n), s).
Proof.
  intros [H1 H2] Hn. unfold line_of, line_handler, line_param.
  destruct (nth_lookup_or_length (m_apIRQHandler y) (Z.to_nat n) 0) as [->|]; [|lia].
  by destruct (nth_lookup_or_length (m_pParam y) (Z.to_nat n) 0) as [->|]; [|lia].
Qed.

(** What the routine does after the search. *)
Definition served (y : TInterruptSystem) (r : option Z) : IrqM unit :=
  match r with Some n => handler (line_handler y n) (line_param y n) | None => mret tt end ;; DataMemBarrier.

Section Search.
Context (c : Cpu) (p : Z) (m : gmap Z TInterruptSystem) (x : X) (y : TInterruptSystem).
Context (Hp : p ≠ 0) (Hm : m !! p = Some y) (Hy : system_ok y).
Definition irq_state (t : list event) : Irq X := {| iq_trace := t; iq_cpu := c; s_pThis := p; systems := m; others := x |}.

Lemma call_irq n t : 0 <= n < IRQ_LINES → InterruptSystemCallIRQHandler p n (irq_state t) =
  (if negb (line_handler y n =? 0) then handler (line_handler y n) (line_param y n) ;; mret 1
   else InterruptSystemDisableIRQ n ;; mret 0) (irq_state t).
Proof.
  intros Hn. unfold InterruptSystemCallIRQHandler. rewrite (proj2 (Z.eqb_neq p 0)), (proj2 (Z.ltb_lt n IRQ_LINES)) by (done || lia).
  rewrite (bind_ok _ _ _ tt (irq_state t)), (bind_ok _ _ _ tt (irq_state t)) by done.
  rewrite (bind_ok _ _ _ y (irq_state t)) by (unfold system_at; rewrite (bind_ok _ _ _ m (irq_state t)) by done; by rewrite Hm).
  by rewrite (bind_ok _ _ _ _ _ (line_of_ok y n (irq_state t) Hy Hn)).
Qed.

Lemma disable_irq n t : n < IRQ_LINES → InterruptSystemDisableIRQ n (irq_state t) =
  Ok (tt, irq_state (EvBarrier :: EvWrite (ARM_IC_IRQS_DISABLE n) (ARM_IRQ_MASK n) :: EvBarrier :: t)).
Proof. intros Hn. unfold InterruptSystemDisableIRQ. by rewrite (proj2 (Z.ltb_lt n IRQ_LINES)) by done. Qed.

Lemma call_then n t (k : Z → IrqM unit) : 0 <= n < IRQ_LINES →
  (InterruptSystemCallIRQHandler p n ≫= k) (irq_state t) =
  if negb (line_handler y n =? 0) then (handler (line_handler y n) (line_param y n) ;; k 1) (irq_state t)
  else k 0 (irq_state (EvBarrier :: EvWrite (ARM_IC_IRQS_DISABLE n) (ARM_IRQ_MASK n) :: EvBarrier :: t)).
Proof.
  intros Hn. unfold mbind at 1, M_bind. rewrite call_irq by done. destruct (negb _).
  - unfold mbind, M_bind. by destruct (handler _ _ _) as [[[] s]|].
  - by rewrite (bind_ok _ _ _ _ _ (disable_irq n t ltac:(lia))).
Qed.

Lemma irq_loop_first P h : pending_lines h P → ∀ k n t, 0 <= n → n + Z.of_nat k = IRQ_LINES → Forall (passes P n) t →
  ∃ t', writes_of t' = map switch_off (first_line P y k n).1 ∧
    irq_loop k n (irq_state (t ++ h)) = served y (first_line P y k n).2 (irq_state (t' ++ t ++ h)).
Proof.
  intros HP k. induction k as [|k IH]; intros n t Hn Hk Ht; [by exists []|].
  set (a := ARM_IC_IRQ_PENDING n). set (v := u32 (hw_read (t ++ h) a)).
  assert (irq_loop (S k) n (irq_state (t ++ h)) =
    (if P n then
       r ← InterruptSystemCallIRQHandler p n; if truthy r then DataMemBarrier else irq_loop k (n + 1)
     else irq_loop k (n + 1)) (irq_state (EvRead a v :: t ++ h))) as ->.
  { cbn [irq_loop]. rewrite (bind_ok _ _ _ v (irq_state (EvRead a v :: t ++ h))) by done.
    rewrite <- (pending_seen P h t n HP ltac:(lia) Ht). fold a v. by destruct (truthy (Z.land v (ARM_IRQ_MASK n))). }
  assert (∀ u, Forall (passes P (n + 1)) u → ∃ t', writes_of t' = map switch_off (first_line P y k (n + 1)).1 ∧
    irq_loop k (n + 1) (irq_state (u ++ t ++ h)) = served y (first_line P y k (n + 1)).2 (irq_state (t' ++ u ++ t ++ h))) as Hnext.
  { intros u Hu. destruct (IH (n + 1) (u ++ t)) as (t' & Hw & E); [lia|lia| |].
    - apply Forall_app. split; [done|]. apply (passes_later P n); [lia|done].
    - exists t'. split; [done|]. by rewrite <- !app_assoc in E. }
  cbn [first_line]. destruct (P n) eqn:EP.
  - rewrite call_then by lia. destruct (Z.eqb_spec (line_handler y n) 0) as [E0|E0]; cbn [negb].
    + destruct (Hnext [EvBarrier; EvWrite (ARM_IC_IRQS_DISABLE n) (ARM_IRQ_MASK n); EvBarrier; EvRead a v]) as (t' & Hw & E).
      { repeat constructor. exists n. by split_and!; [lia|lia|..]. }
      destruct (first_line P y k (n + 1)) as [offs r]. eexists (t' ++ [_; _; _; _]). rewrite <- app_assoc.
      split; [|exact E]. rewrite writes_of_app, Hw. done.
    + exists [EvRead a v]. by split.
  - destruct (Hnext [EvRead a v]) as (t' & Hw & E); [by repeat constructor|].
    exists (t' ++ [EvRead a v]). rewrite <- app_assoc. split; [|exact E]. by rewrite writes_of_app, Hw.
Qed.
End Search.

(** C34. Dispatching an interrupt: the lines are looked at in order; pending ones
    without a handler are switched off, and nothing else is written; the first
    one with a handler has this handler called, with the parameter that it was
    connected with, once and with nothing before it, and the later lines are
    left for the next interrupt. *)
Theorem irq_dispatch P y (s : Irq X) : s_pThis s ≠ 0 → systems s !! s_pThis s = Some y → system_ok y →
  pending_lines (EvBarrier :: iq_trace s) P →
  let '(offs, r) := first_line P y (Z.to_nat IRQ_LINES) 0 in
  ∃ t, writes_of t = map switch_off offs ∧
    InterruptHandler s = served y r (s <| iq_trace := t ++ iq_trace s |>).
Proof.
  intros Hp Hm Hy HP. destruct s as [h c p m x]. cbn in Hp, Hm, HP.
  destruct (irq_loop_first c p m x y Hp Hm Hy P (EvBarrier :: h) HP (Z.to_nat IRQ_LINES) 0 []) as (t' & Hw & E); [lia|done|done|].
  destruct (first_line P y (Z.to_nat IRQ_LINES) 0) as [offs r]. exists (t' ++ [EvBarrier]).
  split; [by rewrite writes_of_app, Hw|]. cbn in E. rewrite <- app_assoc. cbn. etransitivity; [|exact E].
  unfold InterruptHandler. rewrite (bind_ok _ _ _ p {| iq_trace := h; iq_cpu := c; s_pThis := p; systems := m; others := x |}) by done.
  rewrite (proj2 (Z.eqb_neq p 0)) by done. done.
Qed.
End Interrupt.

Module IrqDemo.
(** Lines 2 and 9 are pending, whatever is written. *)
#[local] Instance hw : Hardware :=
  {| hw_read _ a := if a =? ARM_IC_IRQ_PENDING_1 then 0x204 else 0; hw_power_on _ _ := true |}.
(** The handlers called, with their parameters. *)
Definition note (p a : Z) : M (Irq (list (Z * Z))) unit := modify (λ s, s <| others := (p, a) :: others s |>).
Definition start : Irq (list (Z * Z)) := {|
  iq_trace := []; iq_cpu := {| s_nCriticalLevel := 0; s_bWereEnabled := false; irq_masked := true |};
  s_pThis := 0; systems := ∅; others := [] |}.
Definition connect : M (Irq (list (Z * Z))) unit :=
  InterruptSystem 0x1000 ;; InterruptSystemConnectIRQ 0x1000 9 0x9000 77 ;; InterruptSystemConnectIRQ 0x1000 3 0x9100 78.
Definition lines : TInterruptSystem :=
  line_set 3 0x9100 78 (line_set 9 0x9000 77 {| m_apIRQHandler := replicate 72 0; m_pParam := replicate 72 0 |}).
Definition enabled : list event :=
  [EvBarrier; EvWrite ARM_IC_ENABLE_IRQS_1 8; EvBarrier; EvBarrier; EvWrite ARM_IC_ENABLE_IRQS_1 512; EvBarrier].

(** The pending line without a handler is switched off, the other one served. *)
Lemma irq_dispatch_witness :
  wp (connect ;; InterruptHandler note) (λ _ s', others s' = [(0x9000, 77)] ∧
    writes_of (iq_trace s') = [(ARM_IC_ENABLE_IRQS_1, 512); (ARM_IC_ENABLE_IRQS_1, 8); (ARM_IC_DISABLE_IRQS_1, 4)]) start.
Proof.
  wp_step. apply (wp_Ok _ _ _ tt (start <| iq_trace := enabled |> <| s_pThis := 0x1000 |> <| systems := {[0x1000 := lines]} |>)).
  { vm_compute. reflexivity. }
  set (s := start <| iq_trace := enabled |> <| s_pThis := 0x1000 |> <| systems := {[0x1000 := lines]} |>).
  destruct (irq_dispatch note (λ n, Z.testbit (hw_read [] (ARM_IC_IRQ_PENDING n)) (n mod 32)) lines s) as (t & Hw & E);
    [done|done|done|by intros t n _ _|].
  unfold wp. rewrite E. split; [reflexivity|].
  change (writes_of ([EvBarrier] ++ t ++ enabled) =
    [(ARM_IC_ENABLE_IRQS_1, 512); (ARM_IC_ENABLE_IRQS_1, 8); (ARM_IC_DISABLE_IRQS_1, 4)]).
  rewrite !writes_of_app, Hw. reflexivity.
Defined.
End IrqDemo.
