(* ===== verification/Cache.v ===== *)
(** * env/lib/synchronize.c: maintenance of the data caches

    The caches are maintained by instructions that name a line by its level, set
    and way, or by an address. Here such an instruction is an event; the state is
    the list of them, newest first. The numbers are those of the Cortex-A53. *)
From S2P Require Import Prelude.

(** Registers of the processor that other files use. *)
Inductive cp15_register := ACTLR | TLBTR | TTBCR | TTBR0 | DACR | SCTLR | TLBIALL.

(** One instruction: invalidate or clean by set and way; invalidate, clean, or
    clean and invalidate by address; or write a register. *)
Inductive cp15 :=
  | DCISW (nSetWayLevel : Z)
  | DCCSW (nSetWayLevel : Z)
  | DCIMVAC (nAddress : Z)
  | DCCMVAC (nAddress : Z)
  | DCCIMVAC (nAddress : Z)
  | MCR (r : cp15_register) (nValue : Z).

Abbreviation CacheM := (M (list cp15)).
Definition mcr (e : cp15) : CacheM unit := modify (cons e).

Definition SETWAY_LEVEL_SHIFT : Z := 1.
Definition L1_DATA_CACHE_SETS : Z := 128.
Definition L1_DATA_CACHE_WAYS : Z := 4.
Definition L1_SETWAY_WAY_SHIFT : Z := 30.
Definition L1_DATA_CACHE_LINE_LENGTH : Z := 64.
Definition L1_SETWAY_SET_SHIFT : Z := 6.
Definition L2_CACHE_SETS : Z := 512.
Definition L2_CACHE_WAYS : Z := 16.
Definition L2_SETWAY_WAY_SHIFT : Z := 28.
Definition L2_CACHE_LINE_LENGTH : Z := 64.
Definition L2_SETWAY_SET_SHIFT : Z := 6.
Definition DATA_CACHE_LINE_LENGTH_MIN : Z := 64.

(** One of the two nests of loops. *)
Definition setway_loop (op : Z → cp15) (sets ways way_shift set_shift level : Z) : CacheM unit :=
  for_up (Z.to_nat sets) 0 (λ nSet,
    for_up (Z.to_nat ways) 0 (λ nWay,
      mcr (op (u32 (Z.lor (Z.lor (u32 (Z.shiftl nWay way_shift)) (u32 (Z.shiftl nSet set_shift)))
                          (Z.shiftl level SETWAY_LEVEL_SHIFT)))))).

Definition InvalidateDataCache : CacheM unit :=
  setway_loop DCISW L1_DATA_CACHE_SETS L1_DATA_CACHE_WAYS L1_SETWAY_WAY_SHIFT L1_SETWAY_SET_SHIFT 0 ;;
  setway_loop DCISW L2_CACHE_SETS L2_CACHE_WAYS L2_SETWAY_WAY_SHIFT L2_SETWAY_SET_SHIFT 1.
Definition CleanDataCache : CacheM unit :=
  setway_loop DCCSW L1_DATA_CACHE_SETS L1_DATA_CACHE_WAYS L1_SETWAY_WAY_SHIFT L1_SETWAY_SET_SHIFT 0 ;;
  setway_loop DCCSW L2_CACHE_SETS L2_CACHE_WAYS L2_SETWAY_WAY_SHIFT L2_SETWAY_SET_SHIFT 1.

(** [while (1)] over the lines; the length falls, so it is fuel enough. *)
Fixpoint range_loop (fuel : nat) (op : Z → cp15) (nAddress nLength : Z) : CacheM unit :=
  match fuel with
  | O => fail OutOfFuel
  | S fuel =>
      mcr (op nAddress) ;;
      if nLength <? DATA_CACHE_LINE_LENGTH_MIN then mret tt
      else range_loop fuel op (u32 (nAddress + DATA_CACHE_LINE_LENGTH_MIN)) (u32 (nLength - DATA_CACHE_LINE_LENGTH_MIN))
  end.
Definition range_op (op : Z → cp15) (nAddress nLength : Z) : CacheM unit :=
  let nLength := u32 (nLength + DATA_CACHE_LINE_LENGTH_MIN) in
  range_loop (S (Z.to_nat (nLength / DATA_CACHE_LINE_LENGTH_MIN))) op nAddress nLength.

Definition InvalidateDataCacheRange : Z → Z → CacheM unit := range_op DCIMVAC.
Definition CleanDataCacheRange : Z → Z → CacheM unit := range_op DCCMVAC.
Definition CleanAndInvalidateDataCacheRange : Z → Z → CacheM unit := range_op DCCIMVAC.

(** ** What the instructions reach *)

(** The line that the processor finds in an operand: level, set and way. *)
Definition cache_line (v : Z) : Z * Z * Z :=
  if field 1 3 v =? 0 then (0, field 6 7 v, Z.shiftr v 30) else (field 1 3 v, field 6 9 v, Z.shiftr v 28).
Definition level_lines (level sets ways : nat) : list (Z * Z * Z) :=
  s ← seq 0 sets; w ← seq 0 ways; [(Z.of_nat level, Z.of_nat s, Z.of_nat w)].
(** Every line of the two caches, once. *)
Definition all_lines : list (Z * Z * Z) := level_lines 0 128 4 ++ level_lines 1 512 16.

Lemma elem_of_level_lines l n k level s w :
  (l, s, w) ∈ level_lines level n k ↔ l = Z.of_nat level ∧ 0 <= s < Z.of_nat n ∧ 0 <= w < Z.of_nat k.
Proof.
  unfold level_lines. rewrite list_elem_of_bind. split.
  - intros (i & Hi & Hin). apply elem_of_seq in Hin. apply list_elem_of_bind in Hi as (j & Hj & Hjn). apply elem_of_seq in Hjn.
    apply list_elem_of_singleton in Hj as [= -> -> ->]. lia.
  - intros (-> & Hs & Hw). exists (Z.to_nat s). rewrite elem_of_seq. split; [|lia].
    apply list_elem_of_bind. exists (Z.to_nat w). rewrite elem_of_seq. split; [|lia]. apply list_elem_of_singleton.
    rewrite !Z2Nat.id by lia. done.
Qed.

(** A loop that writes one instruction after the other. *)
Definition ops (m : CacheM unit) : list cp15 := match m [] with Ok (_, l) => rev l | Err _ => [] end.

(** [m] writes [k], whatever was written before. *)
Definition emits (m : CacheM unit) (k : list cp15) : Prop := ∀ l, m l = Ok (tt, rev k ++ l).
Lemma emits_ops m k : emits m k → ops m = k.
Proof. intros Hm. unfold ops. by rewrite Hm, app_nil_r, rev_involutive. Qed.
Lemma emits_then m m' k k' : emits m k → emits m' k' → emits (m ;; m') (k ++ k').
Proof. intros Hm Hm' l. rewrite (bind_ok _ _ _ _ _ (Hm l)), Hm', rev_app_distr. by rewrite app_assoc. Qed.
Lemma emits_mcr e : emits (mcr e) [e].
Proof. done. Qed.
Lemma emits_for_up n i f : (∀ j, ∃ k, emits (f j) k) → ∃ k, emits (for_up n i f) k.
Proof.
  intros Hf. revert i. induction n as [|n IH]; intros i; [by exists []|].
  destruct (Hf i) as [k Hk]. destruct (IH (i + 1)) as [k' Hk']. exists (k ++ k'). by apply emits_then.
Qed.
Lemma emits_setway op sets ways way_shift set_shift level : ∃ k, emits (setway_loop op sets ways way_shift set_shift level) k.
Proof. apply emits_for_up. intros i. apply emits_for_up. intros j. eexists. apply emits_mcr. Qed.

Lemma clean_emits : emits CleanDataCache (ops CleanDataCache).
Proof.
  assert (∃ k, emits CleanDataCache k) as [k Hk]; [|by rewrite (emits_ops _ k Hk)].
  destruct (emits_setway DCCSW L1_DATA_CACHE_SETS L1_DATA_CACHE_WAYS L1_SETWAY_WAY_SHIFT L1_SETWAY_SET_SHIFT 0) as [k Hk].
  destruct (emits_setway DCCSW L2_CACHE_SETS L2_CACHE_WAYS L2_SETWAY_WAY_SHIFT L2_SETWAY_SET_SHIFT 1) as [k' Hk'].
  exists (k ++ k'). by apply emits_then.
Qed.
Lemma invalidate_emits : emits InvalidateDataCache (ops InvalidateDataCache).
Proof.
  assert (∃ k, emits InvalidateDataCache k) as [k Hk]; [|by rewrite (emits_ops _ k Hk)].
  destruct (emits_setway DCISW L1_DATA_CACHE_SETS L1_DATA_CACHE_WAYS L1_SETWAY_WAY_SHIFT L1_SETWAY_SET_SHIFT 0) as [k Hk].
  destruct (emits_setway DCISW L2_CACHE_SETS L2_CACHE_WAYS L2_SETWAY_WAY_SHIFT L2_SETWAY_SET_SHIFT 1) as [k' Hk'].
  exists (k ++ k'). by apply emits_then.
Qed.

(** The addresses that a range makes the loop write. *)
Definition range_addresses (a n : Z) : list Z := map (λ k, u32 (a + 64 * Z.of_nat k)) (seq 0 (S (Z.to_nat (n / 64)))).

Lemma range_addresses_less a n : is_u32 a → 0 <= n < 64 → range_addresses a n = [a].
Proof.
  intros Ha Hn. unfold range_addresses. replace (n / 64) with 0 by lia. cbn [seq map Z.to_nat].
  by rewrite Z.add_0_r, u32_id.
Qed.
Lemma range_addresses_more a n : is_u32 a → 64 <= n → range_addresses a n = a :: range_addresses (u32 (a + 64)) (n - 64).
Proof.
  intros Ha Hn. unfold range_addresses. replace (Z.to_nat (n / 64)) with (S (Z.to_nat ((n - 64) / 64))) by lia.
  cbn [seq map]. f_equal; [unfold is_u32, u32 in *; lia|]. f_equal; [unfold u32; lia|].
  rewrite <- (seq_shift _ 1), map_map. apply map_ext. intros k. unfold u32. lia.
Qed.

Lemma range_loop_ops op fuel a n l : is_u32 a → 0 <= n < 2 ^ 32 → n / 64 < Z.of_nat fuel →
  range_loop fuel op a n l = Ok (tt, rev (map op (range_addresses a n)) ++ l).
Proof.
  revert a n l. induction fuel as [|fuel IH]; intros a n l Ha Hn Hf; [lia|]. cbn [range_loop].
  rewrite (bind_ok _ _ _ tt (op a :: l)) by done. unfold DATA_CACHE_LINE_LENGTH_MIN. destruct (Z.ltb_spec n 64).
  - rewrite range_addresses_less by (done || lia). done.
  - rewrite (u32_id (n - 64)) by (unfold is_u32; lia). rewrite IH by (apply u32_range || lia).
    rewrite (range_addresses_more a n) by (done || lia). cbn [map rev]. by rewrite <- app_assoc.
Qed.

Lemma range_ops op a n : is_u32 a → 0 <= n → n + 64 < 2 ^ 32 →
  ops (range_op op a n) = map op (range_addresses a (n + 64)).
Proof.
  intros Ha Hn Hlt. unfold ops, range_op, DATA_CACHE_LINE_LENGTH_MIN. rewrite u32_id by (unfold is_u32; lia).
  rewrite range_loop_ops by (done || lia). by rewrite app_nil_r, rev_involutive.
Qed.

Lemma range_reaches a n b : is_u32 a → 0 <= n → a <= b < a + n → b < 2 ^ 32 →
  ∃ x, x ∈ range_addresses a (n + 64) ∧ x / 64 = b / 64.
Proof.
  intros Ha Hn Hb Hlt. exists (u32 (a + 64 * (b / 64 - a / 64))). unfold is_u32 in Ha. rewrite u32_id by (unfold is_u32; lia).
  split; [|lia]. apply list_elem_of_fmap. exists (Z.to_nat (b / 64 - a / 64)). rewrite elem_of_seq.
  split; [|lia]. rewrite Z2Nat.id, u32_id by (unfold is_u32; lia). done.
Qed.

Definition cleaned (e : cp15) : option (Z * Z * Z) := match e with DCCSW v => Some (cache_line v) | _ => None end.
Definition invalidated (e : cp15) : option (Z * Z * Z) := match e with DCISW v => Some (cache_line v) | _ => None end.

Lemma clean_lines : map cleaned (ops CleanDataCache) = map Some all_lines.
Proof. vm_compute. reflexivity. Qed.
Lemma invalidate_lines : map invalidated (ops InvalidateDataCache) = map Some all_lines.
Proof. vm_compute. reflexivity. Qed.

Lemma level_lines_nodup level n k : NoDup (level_lines level n k).
Proof.
  unfold level_lines. apply NoDup_bind; [| |apply NoDup_seq].
  - intros i j [[l s] w] _ _ (u & ->%list_elem_of_singleton & _)%list_elem_of_bind (v & E%list_elem_of_singleton & _)%list_elem_of_bind.
    simplify_eq. lia.
  - intros i _. apply NoDup_bind; [| |apply NoDup_seq].
    + intros u v [[l s] w] _ _ ->%list_elem_of_singleton E%list_elem_of_singleton. simplify_eq. lia.
    + intros u _. apply NoDup_singleton.
Qed.

(** C36. Cleaning and invalidating the data caches: each line of the first level
    (128 sets, 4 ways) and of the second (512 sets, 16 ways) is named exactly
    once, and no other operation happens; the range operations end, and every
    line that holds a byte of the range is named by one of the addresses. *)
Theorem cache_maintenance :
  map cleaned (ops CleanDataCache) = map Some all_lines ∧
  map invalidated (ops InvalidateDataCache) = map Some all_lines ∧
  NoDup all_lines ∧
  (∀ level set way, (level, set, way) ∈ all_lines ↔
     level = 0 ∧ 0 <= set < 128 ∧ 0 <= way < 4 ∨ level = 1 ∧ 0 <= set < 512 ∧ 0 <= way < 16) ∧
  ∀ op a n, is_u32 a → 0 <= n → n + 64 < 2 ^ 32 →
    ∃ l, ops (range_op op a n) = map op l ∧ ∀ b, a <= b < a + n → b < 2 ^ 32 → ∃ x, x ∈ l ∧ x / 64 = b / 64.
Proof.
  split_and!; [exact clean_lines|exact invalidate_lines| | |].
  - unfold all_lines. apply list.NoDup_app. split_and!; [apply level_lines_nodup| |apply level_lines_nodup].
    intros [[l s] w] H1%elem_of_level_lines H2%elem_of_level_lines. lia.
  - intros l s w. unfold all_lines. rewrite elem_of_app, !elem_of_level_lines. lia.
  - intros op a n Ha Hn Hlt. exists (range_addresses a (n + 64)). split; [by apply range_ops|].
    intros b Hb Hb32. by apply range_reaches.
Qed.

Module CacheDemo.
(** A range of 100 bytes that does not begin a line. *)
Lemma cache_maintenance_witness :
  ∃ l, ops (CleanDataCacheRange 0x1020 100) = map DCCMVAC l ∧ ∃ x, x ∈ l ∧ x / 64 = 0x1083 / 64.
Proof.
  destruct cache_maintenance as (_ & _ & _ & _ & Hrange).
  destruct (Hrange DCCMVAC 0x1020 100) as (l & Hl & Hb); [by split|done|done|].
  exists l. split; [exact Hl|]. apply (Hb 0x1083); lia.
Defined.
End CacheDemo.
