(* ===== verification/Memory.v ===== *)
(** * env/lib/pagetable.c and memory.c: the page table and the memory system

    Setting up the heap, a page table of sections of 1 MB, and the unit that
    uses it. The firmware belongs to the hardware: [memory] is its answer to the
    request for the memory of the processor. So do the registers of the
    processor: [mrc] is what one holds after the operations so far. [etext] is
    the end of the program's code. *)
From S2P Require Import Prelude Register Sync DwhciCore PropertyTags Cache Alloc AllocProofs.

(** env/include/uspienv: sysconfig.h, armv6mmu.h *)
Definition MEGABYTE : Z := 0x100000.
Definition MEM_SIZE : Z := 256 * MEGABYTE.
Definition GPU_MEM_SIZE : Z := 64 * MEGABYTE.
Definition ARM_MEM_SIZE : Z := MEM_SIZE - GPU_MEM_SIZE.
Definition KERNEL_MAX_SIZE : Z := 2 * MEGABYTE.
Definition KERNEL_STACK_SIZE : Z := 0x20000.
Definition EXCEPTION_STACK_SIZE : Z := 0x8000.
Definition MEM_KERNEL_START : Z := 0x8000.
Definition MEM_KERNEL_END : Z := MEM_KERNEL_START + KERNEL_MAX_SIZE.
Definition MEM_KERNEL_STACK : Z := MEM_KERNEL_END + KERNEL_STACK_SIZE.
Definition MEM_ABORT_STACK : Z := MEM_KERNEL_STACK + EXCEPTION_STACK_SIZE.
Definition MEM_IRQ_STACK : Z := MEM_ABORT_STACK + EXCEPTION_STACK_SIZE.
Definition MEM_PAGE_TABLE1 : Z := MEM_IRQ_STACK.
Definition DOMAIN_CLIENT : Z := 1.
Definition ARMV6MMUL1SECTION_NORMAL : Z := 0x0040E.
Definition ARMV6MMUL1SECTION_NORMAL_XN : Z := 0x0041E.
Definition ARMV6MMUL1SECTION_DEVICE : Z := 0x10416.
Definition ARMV6MMUL1SECTION_COHERENT : Z := 0x10412.
Definition ARM_TLB_TYPE_SEPARATE_TLBS : Z := Z.shiftl 1 0.
Definition ARM_CONTROL_MMU : Z := Z.shiftl 1 0.
Definition ARM_CONTROL_L1_CACHE : Z := Z.shiftl 1 2.
Definition ARM_CONTROL_BRANCH_PREDICTION : Z := Z.shiftl 1 11.
Definition ARM_CONTROL_L1_INSTRUCTION_CACHE : Z := Z.shiftl 1 12.
Definition ARM_TTBR_INNER_WRITE_BACK : Z := Z.lor (Z.shiftl 1 6) (Z.shiftl 1 0).
Definition ARM_TTBR_OUTER_WRITE_BACK : Z := Z.shiftl 3 3.
Definition ARM_AUX_CONTROL_SMP : Z := Z.shiftl 1 6.
Definition TTBR_MODE : Z := Z.lor ARM_TTBR_INNER_WRITE_BACK ARM_TTBR_OUTER_WRITE_BACK.
Definition MMU_MODE : Z :=
  Z.lor (Z.lor (Z.lor ARM_CONTROL_MMU ARM_CONTROL_L1_CACHE) ARM_CONTROL_L1_INSTRUCTION_CACHE) ARM_CONTROL_BRANCH_PREDICTION.
Definition TTBCR_SPLIT : Z := 0.
Definition sizeof_TPageTable : Z := 4.

Record TMemorySystem := { m_bEnableMMU : bool; m_nMemSize : Z; m_pPageTable : Z }.
#[global] Instance TMemorySystem_eta : Eta TMemorySystem := λ r,
  {| m_bEnableMMU := m_bEnableMMU r; m_nMemSize := m_nMemSize r; m_pPageTable := m_pPageTable r |}.

(** What the processor does that others see, in order: instructions for the
    caches and the system registers, barriers, and words written into the page
    table. *)
Inductive mem_op :=
  | Instr (i : cp15)
  | DataSync
  | InstructionSync
  | TableWord (nEntry nValue : Z).

(** The heap, the operations so far, newest first, the member [m_pTable] of
    each page table object, the words behind [MEM_PAGE_TABLE1], and the object
    of the memory system. *)
Record Mem := {
  mem_heap : Heap;
  mem_ops : list mem_op;
  m_pTable : gmap Z Z;
  table_words : list Z;
  system : TMemorySystem
}.
#[global] Instance Mem_eta : Eta Mem := λ r,
  {| mem_heap := mem_heap r; mem_ops := mem_ops r; m_pTable := m_pTable r; table_words := table_words r; system := system r |}.

Section Memory.
Context (mrc : list mem_op → cp15_register → Z) (etext : Z).

Definition on_heap {A} (m : M Heap A) : M Mem A := zoom (λ s, Some (mem_heap s)) (λ h s, s <| mem_heap := h |>) m.
Definition operation (o : mem_op) : M Mem unit := modify (λ s, s <| mem_ops := o :: mem_ops s |>).
(** The instructions a function gives. *)
Definition on_cp15 (m : M (list cp15) unit) : M Mem unit := λ s,
  match m [] with Ok (_, l) => Ok (tt, s <| mem_ops := map Instr l ++ mem_ops s |>) | Err e => Err e end.
Definition read_cp15 (r : cp15_register) : M Mem Z := gets (λ s, u32 (mrc (mem_ops s) r)).
Definition write_cp15 (r : cp15_register) (v : Z) : M Mem unit := operation (Instr (MCR r v)).

(** ** pagetable.c *)

(** The entry for a section. *)
Definition section_entry (nMemSize nEntry : Z) : Z :=
  let nBaseAddress := u32 (MEGABYTE * nEntry) in
  if nBaseAddress =? MEM_COHERENT_REGION then Z.lor ARMV6MMUL1SECTION_COHERENT nBaseAddress
  else if nBaseAddress <? nMemSize then
    if nBaseAddress <? etext then Z.lor ARMV6MMUL1SECTION_NORMAL nBaseAddress
    else Z.lor ARMV6MMUL1SECTION_NORMAL_XN nBaseAddress
  else Z.lor ARMV6MMUL1SECTION_DEVICE nBaseAddress.

Definition table_set (nEntry v : Z) : M Mem unit :=
  l ← gets table_words;
  if (Z.to_nat nEntry <? length l)%nat then
    modify (λ s, s <| table_words := <[Z.to_nat nEntry := v]> (table_words s) |>) ;;
    operation (TableWord nEntry v)
  else fail MemFault.

Definition PageTable (pThis nMemSize : Z) : M Mem unit :=
  c_assert (negb (pThis =? 0)) ;;
  modify (λ s, s <| m_pTable := <[pThis := MEM_PAGE_TABLE1]> (m_pTable s) |>) ;;
  c_assert (Z.land MEM_PAGE_TABLE1 0x3FFF =? 0) ;;
  for_up 4096 0 (λ nEntry, table_set nEntry (section_entry nMemSize nEntry)) ;;
  on_cp15 CleanDataCache ;;
  operation DataSync.

Definition _PageTable (pThis : Z) : M Mem unit := mret tt.

Definition PageTableGetBaseAddress (pThis : Z) : M Mem Z :=
  c_assert (negb (pThis =? 0)) ;;
  t ← gets m_pTable;
  match t !! pThis with Some p => mret (Z.lor p TTBR_MODE) | None => fail MemFault end.

(** ** memory.c *)

Definition MemorySystemEnableMMU : M Mem unit :=
  s ← gets system;
  c_assert (m_bEnableMMU s) ;;
  nAuxControl ← read_cp15 ACTLR;
  write_cp15 ACTLR (Z.lor nAuxControl ARM_AUX_CONTROL_SMP) ;;
  nTLBType ← read_cp15 TLBTR;
  c_assert (negb (truthy (Z.land nTLBType ARM_TLB_TYPE_SEPARATE_TLBS))) ;;
  write_cp15 TTBCR TTBCR_SPLIT ;;
  c_assert (negb (m_pPageTable s =? 0)) ;;
  b ← PageTableGetBaseAddress (m_pPageTable s);
  write_cp15 TTBR0 b ;;
  write_cp15 DACR (Z.shiftl DOMAIN_CLIENT 0) ;;
  on_cp15 InvalidateDataCache ;;
  operation InstructionSync ;;
  nControl ← read_cp15 SCTLR;
  write_cp15 SCTLR (Z.lor nControl MMU_MODE).

Definition MemorySystem (memory : option (Z * Z)) (bEnableMMU : bool) : M Mem unit :=
  modify (λ s, s <| system := {| m_bEnableMMU := bEnableMMU; m_nMemSize := 0; m_pPageTable := 0 |} |>) ;;
  let '(nBaseAddress, nSize) := default (0, ARM_MEM_SIZE) memory in
  c_assert (nBaseAddress =? 0) ;;
  modify (λ s, s <| system := (system s) <| m_nMemSize := nSize |> |>) ;;
  on_heap (mem_init nBaseAddress nSize) ;;
  when bEnableMMU (
    p ← on_heap (malloc sizeof_TPageTable);
    modify (λ s, s <| system := (system s) <| m_pPageTable := p |> |>) ;;
    c_assert (negb (p =? 0)) ;;
    PageTable p nSize ;;
    MemorySystemEnableMMU).

Definition _MemorySystem : M Mem unit :=
  s ← gets system;
  when (m_bEnableMMU s) (
    nControl ← read_cp15 SCTLR;
    write_cp15 SCTLR (Z.land nControl (not32 MMU_MODE)) ;;
    write_cp15 TLBIALL 0) ;;
  _PageTable (m_pPageTable s) ;;
  on_heap (Alloc.free (m_pPageTable s)) ;;
  modify (λ s, s <| system := (system s) <| m_pPageTable := 0 |> |>).

Definition MemorySystemGetMemSize : M Mem Z := gets (λ s, m_nMemSize (system s)).

(** ** What the page table says *)

(** The regions of the address space: the megabyte shared with the firmware,
    the sections that hold code, other memory, and what lies behind memory. *)
Inductive region := Shared | Code | Data | Peripherals.
Definition region_of (nMemSize a : Z) : region :=
  if (0x400000 <=? a) && (a <? 0x500000) then Shared
  else let start := a - a mod 2 ^ 20 in
       if nMemSize <=? start then Peripherals else if start <? etext then Code else Data.

(** The processor's reading of a section descriptor: the kind of memory from the
    bits TEX, C and B, whether it holds instructions, who has access and whether
    it is shared. *)
Inductive memory_kind := StronglyOrdered | Device | WriteBack.
Definition kind_of (d : Z) : option memory_kind :=
  match field 12 3 d, Z.testbit d 3, Z.testbit d 2 with
  | 0, false, false => Some StronglyOrdered
  | 0, false, true => Some Device
  | 0, true, true => Some WriteBack
  | _, _, _ => None
  end.
Definition executable (d : Z) : bool := negb (Z.testbit d 4).
Definition shareable (d : Z) : bool := Z.testbit d 16.

(** A section of the domain that has client rights, for privileged access only,
    of the kind its region asks for. *)
Definition describes (d : Z) (r : region) : Prop :=
  field 0 2 d = 2 ∧ field 5 4 d = 0 ∧ field 10 2 d = 1 ∧ field 17 3 d = 0 ∧ Z.testbit d 15 = false ∧
  match r with
  | Shared => kind_of d = Some StronglyOrdered ∧ executable d = false ∧ shareable d = true
  | Code => kind_of d = Some WriteBack ∧ executable d = true ∧ shareable d = false
  | Data => kind_of d = Some WriteBack ∧ executable d = false ∧ shareable d = false
  | Peripherals => kind_of d = Some Device ∧ executable d = false ∧ shareable d = true
  end.

(** Every address is translated to itself, by a descriptor for its region. *)
Definition maps_itself (nMemSize : Z) (words : list Z) : Prop :=
  ∀ a, 0 <= a < 2 ^ 32 → ∃ d, words !! Z.to_nat (a / 2 ^ 20) = Some d ∧
    field 20 12 d * 2 ^ 20 + a mod 2 ^ 20 = a ∧ describes d (region_of nMemSize a).

Lemma section_fields t k : 0 <= t < 2 ^ 20 → 0 <= k < 4096 →
  field 20 12 (Z.lor t (k * 2 ^ 20)) = k ∧ field 0 20 (Z.lor t (k * 2 ^ 20)) = t.
Proof.
  intros Ht Hk. rewrite <- Z.shiftl_mul_pow2, lor_disjoint, !field_mod by lia.
  change (2 ^ 12) with 4096. change (2 ^ 20) with 1048576 in *. change (2 ^ 0) with 1. lia.
Qed.

(** The attributes are in the low twenty bits. *)
Lemma low_field lo n d : 0 <= lo → 0 <= n → lo + n <= 20 → field lo n (field 0 20 d) = field lo n d.
Proof.
  intros Hlo Hn Hs. apply Z.bits_inj'. intros i Hi. unfold field.
  rewrite !Z.land_spec, !Z.shiftr_spec, !Z.testbit_ones_nonneg, Z.land_spec, Z.shiftr_spec, Z.testbit_ones_nonneg by lia.
  rewrite Z.add_0_r. destruct (Z.ltb_spec i n); rewrite ?andb_false_r, ?andb_true_r; [|done].
  rewrite (proj2 (Z.ltb_lt (i + lo) 20)) by lia. by rewrite andb_true_r.
Qed.
Lemma low_bit i d : 0 <= i < 20 → Z.testbit (field 0 20 d) i = Z.testbit d i.
Proof.
  intros Hi. unfold field. rewrite Z.land_spec, Z.shiftr_spec, Z.testbit_ones_nonneg, Z.add_0_r by lia.
  rewrite (proj2 (Z.ltb_lt i 20)) by lia. by rewrite andb_true_r.
Qed.
Lemma describes_low d r : describes (field 0 20 d) r → describes d r.
Proof. unfold describes, kind_of, executable, shareable. rewrite !low_field, !low_bit by lia. done. Qed.

Lemma section_entry_describes nMemSize a : 0 <= a < 2 ^ 32 →
  field 20 12 (section_entry nMemSize (a / 2 ^ 20)) = a / 2 ^ 20 ∧
  describes (section_entry nMemSize (a / 2 ^ 20)) (region_of nMemSize a).
Proof.
  intros Ha. assert (0 <= a / 2 ^ 20 < 4096) as Hk by lia. set (k := a / 2 ^ 20) in *.
  unfold section_entry, region_of, MEGABYTE, MEM_COHERENT_REGION. rewrite u32_id by (unfold is_u32; lia).
  replace (0x100000 * k) with (k * 2 ^ 20) by lia.
  replace (a - a mod 2 ^ 20) with (k * 2 ^ 20) by (unfold k; pose proof (Z.div_mod a (2 ^ 20)); lia).
  assert ((0x400000 <=? a) && (a <? 0x500000) = (k * 2 ^ 20 =? 0x400000)) as ->.
  { destruct (Z.leb_spec 0x400000 a), (Z.ltb_spec a 0x500000), (Z.eqb_spec (k * 2 ^ 20) 0x400000); simpl; unfold k in *; lia. }
  replace (nMemSize <=? k * 2 ^ 20) with (negb (k * 2 ^ 20 <? nMemSize)) by lia.
  assert (∀ t r, 0 <= t < 2 ^ 20 → describes t r → field 20 12 (Z.lor t (k * 2 ^ 20)) = k ∧ describes (Z.lor t (k * 2 ^ 20)) r) as Hd.
  { intros t r Ht Hr. destruct (section_fields t k Ht Hk) as [E1 E2]. split; [done|]. apply describes_low. by rewrite E2. }
  destruct (k * 2 ^ 20 =? 0x400000); [by apply Hd|].
  destruct (k * 2 ^ 20 <? nMemSize); cbn [negb]; [|by apply Hd].
  destruct (k * 2 ^ 20 <? etext); by apply Hd.
Qed.

(** The loop over the entries. *)
Definition entries (nMemSize : Z) (n : nat) : list Z := map (λ k, section_entry nMemSize (Z.of_nat k)) (seq 0 n).
Definition entry_ops (nMemSize : Z) (i n : nat) : list mem_op :=
  map (λ k, TableWord (Z.of_nat k) (section_entry nMemSize (Z.of_nat k))) (seq i n).

Lemma wp_table_loop nMemSize n i s (Q : unit → Mem → Prop) : (i + n <= length (table_words s))%nat →
  (let words := take i (table_words s) ++ map (λ k, section_entry nMemSize (Z.of_nat k)) (seq i n) ++ drop (i + n) (table_words s) in
   Q tt (s <| table_words := words |> <| mem_ops := rev (entry_ops nMemSize i n) ++ mem_ops s |>)) →
  wp (for_up n (Z.of_nat i) (λ k, table_set k (section_entry nMemSize k))) Q s.
Proof.
  revert i s. induction n as [|n IH]; intros i s Hn HQ.
  - apply wp_ret. cbn in HQ. rewrite Nat.add_0_r, take_drop in HQ. by destruct s.
  - cbn [for_up]. wp_step. unfold table_set. wp_step. apply wp_gets. rewrite Nat2Z.id.
    rewrite (proj2 (Nat.ltb_lt _ _)) by lia. wp_step. apply wp_modify. apply wp_modify.
    replace (Z.of_nat i + 1) with (Z.of_nat (S i)) by lia. set (e := section_entry nMemSize (Z.of_nat i)).
    apply IH; [cbn; rewrite length_insert; lia|]. cbv zeta in HQ |- *. cbn [seq map entry_ops] in HQ. fold e in HQ.
    match goal with |- Q tt (?s' <| table_words := ?w |> <| mem_ops := ?o |>) => replace w with
      (take i (table_words s) ++ e :: map (λ k, section_entry nMemSize (Z.of_nat k)) (seq (S i) n) ++ drop (i + S n) (table_words s));
      [replace o with (rev (TableWord (Z.of_nat i) e :: entry_ops nMemSize (S i) n) ++ mem_ops s)|] end.
    { exact HQ. }
    { cbn [rev mem_ops upd]. by rewrite <- app_assoc. }
    cbn [table_words upd]. change (table_words (s <| table_words := <[i:=e]> (table_words s) |>)) with (<[i:=e]> (table_words s)).
    rewrite drop_insert_lt by lia. rewrite (take_S_r _ i e) by (apply list_lookup_insert_eq; lia).
    rewrite take_insert_ge by lia. rewrite <- app_assoc. cbn [app]. do 3 f_equal. f_equal; lia.
Qed.

Lemma entries_map nMemSize : maps_itself nMemSize (entries nMemSize 4096).
Proof.
  intros a Ha. exists (section_entry nMemSize (a / 2 ^ 20)).
  destruct (section_entry_describes nMemSize a Ha) as [-> Hd]. split_and!; [|lia|done].
  unfold entries. rewrite list_lookup_fmap, lookup_seq_lt by lia. simpl. rewrite Z2Nat.id by lia. done.
Qed.

(** The words of the table, written one after another. *)
Definition table_ops (words : list Z) : list mem_op :=
  map (λ k, TableWord (Z.of_nat k) (words !!! k)) (seq 0 (length words)).
Lemma entry_table_ops nMemSize n : entry_ops nMemSize 0 n = table_ops (entries nMemSize n).
Proof.
  unfold entry_ops, table_ops, entries. rewrite length_map, length_seq. apply map_ext_in. intros k Hk. f_equal.
  apply in_seq in Hk. symmetry. apply list_lookup_total_correct.
  change (map ?f ?l) with (f <$> l). rewrite list_lookup_fmap, lookup_seq_lt by lia. done.
Qed.

(** ** The parts of the set-up *)

Lemma wp_on_heap {A} (m : M Heap A) (Q : A → Mem → Prop) s :
  wp m (λ a h, Q a (s <| mem_heap := h |>)) (mem_heap s) → wp (on_heap m) Q s.
Proof. intros Hm. by eapply wp_zoom. Qed.
Lemma wp_emits m k (Q : unit → Mem → Prop) s :
  emits m k → Q tt (s <| mem_ops := rev (map Instr k) ++ mem_ops s |>) → wp (on_cp15 m) Q s.
Proof. intros Hm HQ. unfold on_cp15, wp. rewrite (Hm []), app_nil_r, map_rev. exact HQ. Qed.

Lemma wp_PageTable p nMemSize s (Q : unit → Mem → Prop) : p ≠ 0 → length (table_words s) = 4096%nat →
  Q tt (s <| m_pTable := <[p := MEM_PAGE_TABLE1]> (m_pTable s) |> <| table_words := entries nMemSize 4096 |>
          <| mem_ops := DataSync :: rev (map Instr (ops CleanDataCache)) ++ rev (table_ops (entries nMemSize 4096)) ++ mem_ops s |>) →
  wp (PageTable p nMemSize) Q s.
Proof.
  intros Hp Hl. pose proof clean_emits as Hclean. revert Hclean. generalize (ops CleanDataCache) as k. intros k Hclean HQ.
  unfold PageTable. wp_step. apply wp_assert; [apply negb_true_iff, Z.eqb_neq; done|].
  wp_step. apply wp_modify. wp_step. apply wp_assert; [done|]. wp_step.
  apply (wp_table_loop nMemSize 4096 0); [cbn [table_words upd]; by rewrite Hl|]. cbv zeta. wp_step. apply (wp_emits _ _ _ _ Hclean).
  apply wp_modify. rewrite entry_table_ops.
  change (table_words (s <| m_pTable := <[p:=MEM_PAGE_TABLE1]> (m_pTable s) |>)) with (table_words s).
  rewrite drop_ge by (rewrite Hl; done). rewrite app_nil_r. exact HQ.
Qed.

(** Everything that enabling the unit writes, the last instruction first: the
    switch in the control register is behind all others. *)
Definition mmu_ops (nAuxControl nControl : Z) : list mem_op :=
  Instr (MCR SCTLR (Z.lor nControl MMU_MODE)) :: InstructionSync :: rev (map Instr (ops InvalidateDataCache)) ++
  [Instr (MCR DACR DOMAIN_CLIENT); Instr (MCR TTBR0 (Z.lor MEM_PAGE_TABLE1 TTBR_MODE)); Instr (MCR TTBCR 0);
   Instr (MCR ACTLR (Z.lor nAuxControl ARM_AUX_CONTROL_SMP))].

Lemma wp_EnableMMU s (Q : unit → Mem → Prop) : m_bEnableMMU (system s) = true → m_pPageTable (system s) ≠ 0 →
  m_pTable s !! m_pPageTable (system s) = Some MEM_PAGE_TABLE1 → (∀ l, Z.testbit (mrc l TLBTR) 0 = false) →
  (∀ nAuxControl nControl, Q tt (s <| mem_ops := mmu_ops nAuxControl nControl ++ mem_ops s |>)) →
  wp MemorySystemEnableMMU Q s.
Proof.
  intros Hen Hp Ht Htlb. unfold mmu_ops. pose proof invalidate_emits as Hinv. revert Hinv.
  generalize (ops InvalidateDataCache) as k. intros k Hinv HQ.
  unfold MemorySystemEnableMMU. wp_step. apply wp_gets. wp_step. apply wp_assert; [done|].
  wp_step. apply wp_gets. set (aux := u32 _). wp_step. apply wp_modify. wp_step. apply wp_gets.
  wp_step. apply wp_assert.
  { unfold ARM_TLB_TYPE_SEPARATE_TLBS. rewrite truthy_bit, u32_testbit, Htlb by lia. done. }
  wp_step. apply wp_modify. wp_step. apply wp_assert; [apply negb_true_iff, Z.eqb_neq; done|].
  wp_step. unfold PageTableGetBaseAddress. wp_step. apply wp_assert; [apply negb_true_iff, Z.eqb_neq; done|].
  wp_step. apply wp_gets. cbn [m_pTable upd]. rewrite Ht. apply wp_ret.
  wp_step. apply wp_modify. wp_step. apply wp_modify.
  wp_step. apply (wp_emits _ _ _ _ Hinv). wp_step. apply wp_modify. wp_step. apply wp_gets. set (ctl := u32 _).
  apply wp_modify. specialize (HQ aux ctl).
  match goal with |- Q tt ?x => replace x with (s <| mem_ops := (Instr (MCR SCTLR (Z.lor ctl MMU_MODE)) :: InstructionSync ::
    rev (map Instr k) ++
    [Instr (MCR DACR DOMAIN_CLIENT); Instr (MCR TTBR0 (Z.lor MEM_PAGE_TABLE1 TTBR_MODE)); Instr (MCR TTBCR 0);
     Instr (MCR ACTLR (Z.lor aux ARM_AUX_CONTROL_SMP))]) ++ mem_ops s |>); [exact HQ|] end.
  cbn [app]. rewrite <- app_assoc. reflexivity.
Qed.

(** C35. Setting up memory, with the unit enabled: the table of pages maps every
    address to itself, and what the processor reads in its descriptor is what
    the region asks for: the megabyte shared with the firmware is strongly
    ordered, memory is cached, only sections with code are executable, and what
    lies behind memory is a device. The operations are, in this order: the 4096
    words of the table, the cleaning of the data cache and its barrier, the
    registers that tell of the table, the invalidation of the cache, and as the
    last instruction the switch in the control register. The heap begins above what is shared with the firmware
    and serves requests, the page table object being its only block. *)
Theorem memory_system nSize s : fresh (mem_heap s) → length (table_words s) = 4096%nat →
  (∀ l, Z.testbit (mrc l TLBTR) 0 = false) → MEM_HEAP_START + 0x200 <= nSize < 2 ^ 32 →
  wp (MemorySystem (Some (0, nSize)) true)
    (λ _ s', maps_itself nSize (table_words s') ∧
       (∃ nAuxControl nControl, mem_ops s' = mmu_ops nAuxControl nControl ++
          DataSync :: rev (map Instr (ops CleanDataCache)) ++ rev (table_ops (table_words s')) ++ mem_ops s) ∧
       length (table_words s') = 4096%nat ∧
       (∃ live, serving MEM_HEAP_START (MEM_HEAP_START + (nSize - MEM_HEAP_START) / 4)
          [(m_pPageTable (system s'), sizeof_TPageTable)] (mem_heap s') live)) s.
Proof.
  intros Hf Hl Htlb Hsz. unfold MEM_HEAP_START in Hsz. unfold MemorySystem. wp_step. apply wp_modify. change (default (0, ARM_MEM_SIZE) (Some (0, nSize))) with (0, nSize). cbv beta iota.
  wp_step. apply wp_assert; [done|]. wp_step. apply wp_modify. wp_step. apply wp_on_heap.
  assert (heap_start 0 = MEM_HEAP_START) as Hs by done.
  apply wp_mem_init; [exact Hf|lia|done|rewrite Hs; unfold MEM_HEAP_START; lia|]. intros h Hn Hsv. rewrite Hs in *.
  cbn [when]. wp_step. apply wp_on_heap. destruct (sv_heap _ _ _ _ _ Hsv) as [free Hk].
  pose proof (sv_limit _ _ _ _ _ Hsv) as Elim. unfold heap_limit in Elim. rewrite Hs in Elim.
  eapply wp_mono; [apply (wp_heap_malloc _ _ _ h 4 Hk); [lia|rewrite Hn; done]|].
  intros r h' (Ha & El & _). destruct Ha as [h' free' Hfull _ _|p b h' free' Hp Eb Hb Hk' Hsame].
  { exfalso. rewrite Elim, Hn in Hfull. change (extent (rounded 4)) with 80 in Hfull. unfold MEM_HEAP_START in Hfull. lia. }
  assert (p + 16 ≠ 0) as Hp0.
  { pose proof (hk_block _ _ _ _ Hk' p b Eb) as (_ & Hpb & _). unfold MEM_HEAP_START in Hpb. lia. }
  wp_step. apply wp_modify. wp_step. apply wp_assert; [by apply negb_true_iff, Z.eqb_neq|].
  wp_step. apply wp_PageTable; [done|exact Hl|].
  apply wp_EnableMMU; [done|exact Hp0|apply lookup_insert_eq|exact Htlb|]. intros aux ctl.
  split_and!; [apply entries_map|by exists aux, ctl|done|]. exists ({[p]} ∪ ∅).
  replace (MEM_HEAP_START + (nSize - MEM_HEAP_START) / 4) with (heap_limit 0 nSize) by (unfold heap_limit; by rewrite Hs).
  exact (serving_granted _ _ _ _ _ _ _ _ _ _ Hsv Hp Eb Hb Hk' Hsame El).
Qed.

(** Without the unit there is no page table object, and the destructor frees the
    null pointer. *)
Lemma destructor_without_mmu s : m_bEnableMMU (system s) = false → m_pPageTable (system s) = 0 → _MemorySystem s = Err AssertFailed.
Proof. intros He Hp. unfold _MemorySystem, when, mbind, M_bind, gets. rewrite He. cbn. unfold on_heap, zoom. by rewrite Hp. Qed.
End Memory.

Module MemoryDemo.
(** 192 MB, of which the program takes the first; registers hold their reset value. *)
Definition mrc (l : list mem_op) (r : cp15_register) : Z := 0.
Definition start : Mem := {| mem_heap := AllocDemo.start; mem_ops := []; m_pTable := ∅; table_words := replicate 4096 0;
  system := {| m_bEnableMMU := false; m_nMemSize := 0; m_pPageTable := 0 |} |}.

(** The region shared with the firmware is strongly ordered and the registers of
    the interrupt controller are a device, each at its own address. *)
Lemma memory_system_witness :
  wp (MemorySystem mrc 0x8000 (Some (0, 0xC000000)) true)
    (λ _ s', (∃ d, table_words s' !! 4%nat = Some d ∧ field 20 12 d = 4 ∧ kind_of d = Some StronglyOrdered) ∧
       (∃ d, table_words s' !! 1008%nat = Some d ∧ field 20 12 d = 1008 ∧ kind_of d = Some Device) ∧
       ∃ live, serving 0x500000 0x33C0000 [(m_pPageTable (system s'), 4)] (mem_heap s') live) start.
Proof.
  eapply wp_mono; [apply (memory_system mrc 0x8000 0xC000000 start); [done|done|done|by split]|].
  intros [] s' (Hm & _ & _ & Hsv). split_and!; [| |exact Hsv].
  - destruct (Hm 0x400000) as (d & Hd & Hb & Ht); [lia|]. exists d. split_and!; [exact Hd|lia|apply Ht].
  - destruct (Hm 0x3F000000) as (d & Hd & Hb & Ht); [lia|]. exists d. split_and!; [exact Hd|lia|apply Ht].
Defined.
End MemoryDemo.
