(* ===== verification/EnvLib.v ===== *)
(** * env/lib/util.c and string.c

    The environment's memory and string functions are those of the library, text
    for text, without the prefix [uspi_]; so are their models, and all that is
    proved of them. *)
From S2P Require Import Prelude CMem Util CString.

Module Env.

(** ** util.c *)
Definition memset : ptr → Z → nat → M mem ptr := uspi_memset.
Definition memcpy : ptr → ptr → nat → M mem ptr := uspi_memcpy.
Definition memcmp : ptr → ptr → nat → M mem Z := uspi_memcmp.
Definition strlen : ptr → M mem Z := uspi_strlen.
Definition strcmp : ptr → ptr → M mem Z := uspi_strcmp.
Definition strcpy : ptr → ptr → M mem ptr := uspi_strcpy.
Definition strncpy : ptr → ptr → nat → M mem ptr := uspi_strncpy.
Definition strcat : ptr → ptr → M mem ptr := uspi_strcat.
Definition char2int : Z → Z := uspi_char2int.
Definition le2be16 : Z → Z := uspi_le2be16.
Definition le2be32 : Z → Z := uspi_le2be32.

(** ** string.c *)
Definition TString : Type := CString.TString.
Definition String : M SW unit := CString.String.
Definition String2 : ptr → M SW unit := CString.String2.
Definition _String : M SW unit := CString.String_dtor.
Definition StringGet : ptr → M SW ptr := CString.StringGet.
Definition StringSet : ptr → M SW ptr := CString.StringSet.
Definition StringGetLength : M SW Z := CString.StringGetLength.
Definition StringAppend : ptr → M SW unit := CString.StringAppend.
Definition StringCompare : ptr → M SW Z := CString.StringCompare.
Definition StringFind : Z → M SW Z := CString.StringFind.
Definition StringFormat : ptr → list varg → M SW unit := CString.StringFormat.
Definition StringFormatV : ptr → list varg → M SW unit := CString.StringFormatV.
Definition StringPutChar : Z → Z → M SW unit := CString.StringPutChar.
Definition StringPutString : ptr → M SW unit := CString.StringPutString.
Definition StringReserveSpace : Z → M SW unit := CString.StringReserveSpace.
Definition ntoa : ptr → Z → Z → bool → M mem ptr := CString.ntoa.

End Env.
