(* ===== verification/Logger.v ===== *)
(** * env/lib/logger.c: messages on the screen

    A message is the time, a source and a formatted text, written to the screen
    piece by piece. A literal of the source is its characters, except where its
    address is an argument of a call. The timer belongs to [KernelTimer]; here
    its call is an argument that yields the characters of the string it makes,
    which is freed at once. *)
From S2P Require Import Prelude CMem Util CString EnvLib CharGen Screen ScreenDraw ScreenTerm Terminal.

(** env/include/uspienv/logger.h *)
Definition LogPanic : Z := 0.
Definition LogError : Z := 1.
Definition LogWarning : Z := 2.
Definition LogNotice : Z := 3.
Definition LogDebug : Z := 4.

(** A timer and a screen are there or not. *)
Record TLogger := { m_nLogLevel : Z; m_pTimer : bool; m_pTarget : bool }.
#[global] Instance TLogger_eta : Eta TLogger := λ r,
  {| m_nLogLevel := m_nLogLevel r; m_pTimer := m_pTimer r; m_pTarget := m_pTarget r |}.

(** The static pointer, the object, the screen, memory, and whether interrupts
    are masked. *)
Record Log := {
  s_pThis : bool;
  logger : TLogger;
  log_screen : TScreenDevice;
  log_mem : mem;
  log_masked : bool
}.
#[global] Instance Log_eta : Eta Log := λ r,
  {| s_pThis := s_pThis r; logger := logger r; log_screen := log_screen r; log_mem := log_mem r; log_masked := log_masked r |}.

(** A panic never returns. *)
Inductive outcome := Returns | Waits.

Section Logger.
Context (TimerGetTimeString : M Log (option (list Z))) (empty_literal : ptr).

Definition Logger (nLogLevel : Z) (pTimer : bool) : M Log unit :=
  modify (λ s, s <| logger := {| m_nLogLevel := nLogLevel; m_pTimer := pTimer; m_pTarget := false |} |> <| s_pThis := true |>).
Definition _Logger : M Log unit :=
  modify (λ s, s <| s_pThis := false |> <| logger := (logger s) <| m_pTarget := false |> <| m_pTimer := false |> |>).
Definition LoggerGet : M Log bool := gets s_pThis.

Definition on_log_mem {A} (m : M mem A) : M Log A := zoom (λ s, Some (log_mem s)) (λ h s, s <| log_mem := h |>) m.
Definition on_target {A} (m : M TScreenDevice A) : M Log A :=
  zoom (λ s, if m_pTarget (logger s) then Some (log_screen s) else None) (λ h s, s <| log_screen := h |>) m.

(** [n] characters from [p] on. *)
Fixpoint read_chars (n : nat) (p : ptr) : M mem (list Z) :=
  match n with
  | O => mret []
  | S n => c ← load p; l ← read_chars n (padd p 1); mret (c :: l)
  end.

Definition write_literal (l : list Z) : M Log unit := on_target (ScreenDeviceWrite l) ;; mret tt.
Definition LoggerWrite2 (pString : ptr) : M Log unit :=
  nLength ← on_log_mem (Env.strlen pString);
  l ← on_log_mem (read_chars (Z.to_nat (u32 nLength)) pString);
  write_literal l.

(** A call on a string object that is a local variable. *)
Definition on_local {A} (m : M SW A) (t : Env.TString) : M Log (A * Env.TString) :=
  zoom (λ s, Some (Build_SW t (log_mem s))) (λ w s, s <| log_mem := sm w |>) (a ← m; t ← gets str; mret (a, t)).

(** What comes before the text, and after it. *)
Definition log_head (Severity : Z) (pSource : ptr) : M Log unit :=
  s ← gets logger;
  when (Severity =? LogPanic) (write_literal [27; 91; 49; 109]) ;;
  when (m_pTimer s) (
    t ← TimerGetTimeString;
    match t with Some l => write_literal l ;; write_literal [32] | None => mret tt end) ;;
  LoggerWrite2 pSource ;;
  write_literal [58; 32].
Definition log_tail (Severity : Z) : M Log unit :=
  when (Severity =? LogPanic) (write_literal [27; 91; 48; 109]) ;;
  write_literal [10].

Definition LoggerWriteV (pSource : ptr) (Severity : Z) (pMessage : ptr) (Args : list varg) : M Log outcome :=
  s ← gets logger;
  if m_nLogLevel s <? Severity then mret Returns
  else
    log_head Severity pSource ;;
    let Message := Build_TString None 0 None in
    '(_, Message) ← on_local (Env.String ;; Env.StringFormatV pMessage Args) Message;
    '(p, Message) ← on_local (Env.StringGet empty_literal) Message;
    LoggerWrite2 p ;;
    log_tail Severity ;;
    if Severity =? LogPanic then modify (λ s, s <| log_masked := true |>) ;; mret Waits
    else on_local Env._String Message ;; mret Returns.

(** [va_start] collects the arguments of the call. *)
Definition LoggerWrite (pSource : ptr) (Severity : Z) (pMessage : ptr) (Args : list varg) : M Log outcome :=
  LoggerWriteV pSource Severity pMessage Args.

(** The addresses of the literals ["logger"] and ["Logging started"]. *)
Definition LoggerInitialize (pTarget : bool) (pSource pMessage : ptr) : M Log Z :=
  modify (λ s, s <| logger := (logger s) <| m_pTarget := pTarget |> |>) ;;
  LoggerWrite pSource LogNotice pMessage [] ;;
  mret 1.

(** ** What a message looks like *)

Definition printable (l : list Z) : Prop := Forall (λ c, 32 <= c < 256) l.
(** The commands of a message: in a panic it is highlighted. *)
Definition message (Severity : Z) (time : option (list Z)) (source text : list Z) : list command :=
  (if Severity =? LogPanic then [Colour 1] else []) ++
  match time with Some l => map Print l ++ [Print 32] | None => [] end ++
  map Print source ++ [Print 58; Print 32] ++ map Print text ++
  (if Severity =? LogPanic then [Colour 0] else []) ++ [NewLine].

(** ** Writing *)

(** A screen of [R] lines and [C] columns that shows [t] and expects text. *)
Definition ready (R C : Z) (t : Term) (s : Log) : Prop :=
  m_pTarget (logger s) = true ∧ shows (log_screen s) t true ∧ m_nState (log_screen s) = ScreenStateStart ∧
  lines (log_screen s) = R ∧ columns (log_screen s) = C.

(** Only the screen changed. *)
Definition only_screen (s s' : Log) : Prop := s' = s <| log_screen := log_screen s' |>.
Lemma only_screen_trans s s' s'' : only_screen s s' → only_screen s' s'' → only_screen s s''.
Proof. destruct s, s', s''. unfold only_screen. cbn. intros [= -> -> -> ->] [= -> -> -> ->]. done. Qed.

(** [m] writes the commands [ks]. *)
Definition writes (m : M Log unit) (ks : list command) (s : Log) : Prop :=
  ∀ R C t, ready R C t s → wp m (λ _ s', ready R C (execs R C ks t) s' ∧ only_screen s s') s.

Lemma encode_text l : mjoin (map encode (map Print l)) = l.
Proof. induction l as [|c l IH]; [done|]. change (c :: mjoin (map encode (map Print l)) = c :: l). by rewrite IH. Qed.
Lemma writable_text l : printable l → Forall writable (map Print l).
Proof. intros Hl. apply Forall_fmap. exact Hl. Qed.
Lemma execs_app R C ks ks' t : execs R C (ks ++ ks') t = execs R C ks' (execs R C ks t).
Proof. apply fold_left_app. Qed.

Lemma writes_literal ks s : Forall writable ks → writes (write_literal (mjoin (map encode ks))) ks s.
Proof.
  intros Hks R C t (Ht & Hsh & Hst & <- & <-). unfold write_literal. wp_step. unfold on_target.
  eapply wp_zoom; [by rewrite Ht|]. eapply wp_mono; [by apply wp_Write_commands|].
  intros r scr (_ & Hsh' & Hst' & Hg). apply wp_ret. split; [|done]. unfold ready. cbn -[execs lines columns].
  destruct Hg as (E1 & E2 & _). split_and!; [done|done|done|unfold lines; by rewrite E2|unfold columns; by rewrite E1].
Qed.

Lemma writes_then m m' ks ks' s : writes m ks s → (∀ s', only_screen s s' → writes m' ks' s') → writes (m ;; m') (ks ++ ks') s.
Proof.
  intros Hm Hm' R C t Hr. wp_step. eapply wp_mono; [by apply Hm|]. intros [] s' [Hr' Ho].
  eapply wp_mono; [by apply (Hm' s' Ho)|]. intros [] s'' [Hr'' Ho']. rewrite execs_app. split; [done|by eapply only_screen_trans].
Qed.

Lemma writes_when b m ks s : writes m ks s → writes (when b m) (if b then ks else []) s.
Proof. destruct b; [done|]. intros _ R C t Hr. apply wp_ret. split; [done|]. by destruct s. Qed.

Lemma wp_read_chars l p m : cstr m p l → wp (read_chars (length l) p) (λ r m', r = l ∧ m' = m) m.
Proof.
  revert p. induction l as [|c l IH]; intros p Hc; [by apply wp_ret|]. destruct Hc as (Hc & _ & Hl). cbn [length read_chars].
  wp_step. eapply wp_load; [exact Hc|]. wp_step. eapply wp_mono; [by apply IH|]. intros r m' [-> ->]. by apply wp_ret.
Qed.

Lemma writes_string p l s : cstr (log_mem s) p l → Z.of_nat (length l) < 2 ^ 32 → printable l →
  writes (LoggerWrite2 p) (map Print l) s.
Proof.
  intros Hc Hl Hp R C t Hr. unfold LoggerWrite2. wp_step. eapply wp_zoom; [done|]. eapply uspi_strlen_wp; [exact Hc|lia|].
  wp_step. eapply wp_zoom; [done|]. rewrite u32_id, Nat2Z.id by (unfold is_u32; lia).
  eapply wp_mono; [by apply wp_read_chars|]. intros r m' [-> ->].
  replace (s <| log_mem := log_mem s |> <| log_mem := log_mem (s <| log_mem := log_mem s |>) |>) with s by (by destruct s).
  rewrite <- (encode_text l) at 1. apply writes_literal; [by apply writable_text|done].
Qed.

(** The object of the message is gone, and memory is as before it. *)
Lemma wp_dtor B l w (Q : unit → SW → Prop) : holds B l w → (∀ w', blocks (sm w') = B → mem_wf (sm w') → Q tt w') → wp CString.String_dtor Q w.
Proof.
  intros (Hm & Hl & [(E & Eb & ->)|(b & bs & E & Eb & Hn & Ht & Hs)]) HQ; unfold CString.String_dtor; wp_step; wp_step; rewrite E.
  - wp_step. by apply HQ.
  - wp_step. apply wp_on_mem. eapply wp_free; [rewrite Eb; simpl; apply lookup_insert_eq|done|].
    apply wp_set_str. apply HQ; simpl; [by rewrite Eb, delete_insert_fresh|by apply mem_wf_delete].
Qed.

Lemma writes_text l s : printable l → writes (write_literal l) (map Print l) s.
Proof. intros Hl. pose proof (writes_literal (map Print l) s (writable_text l Hl)) as Hw. by rewrite encode_text in Hw. Qed.

Lemma writes_head sev time src srcl s : (∀ s', TimerGetTimeString s' = Ok (time, s')) →
  cstr (log_mem s) src srcl → Z.of_nat (length srcl) < 2 ^ 32 → printable srcl → (∀ l, time = Some l → printable l) →
  writes (log_head sev src)
    ((if sev =? LogPanic then [Colour 1] else []) ++
     (if m_pTimer (logger s) then match time with Some l => map Print l ++ [Print 32] | None => [] end else []) ++
     map Print srcl ++ [Print 58; Print 32]) s.
Proof.
  intros Htime Hc Hl Hp Htp. unfold log_head. intros R C t Hr. wp_step. apply wp_gets. revert R C t Hr. apply writes_then.
  { apply writes_when. apply (writes_literal [Colour 1]). by repeat constructor. }
  intros s1 ->. apply writes_then.
  { apply writes_when. intros R C t Hr. wp_step. eapply wp_Ok; [apply Htime|].
    destruct time as [l|]; [|apply wp_ret; split; [done|by destruct s]].
    eapply writes_then; [apply writes_text, Htp; done|intros s2 _; apply (writes_literal [Print 32])|exact Hr].
    repeat constructor; lia. }
  intros s2 ->. apply writes_then; [by apply writes_string|]. intros s3 _. apply (writes_literal [Print 58; Print 32]).
  repeat constructor; lia.
Qed.
Lemma writes_tail sev s : writes (log_tail sev) ((if sev =? LogPanic then [Colour 0] else []) ++ [NewLine]) s.
Proof.
  apply writes_then; [|intros s1 _; apply (writes_literal [NewLine]); by repeat constructor].
  apply writes_when, (writes_literal [Colour 0]). by repeat constructor.
Qed.

Lemma only_screen_same s s' : only_screen s s' →
  log_mem s' = log_mem s ∧ logger s' = logger s ∧ log_masked s' = log_masked s.
Proof. intros ->. done. Qed.

(** The text as the object holds it. *)
Lemma wp_text B text w (Q : ptr → SW → Prop) : holds B text w → bstr B empty_literal [] →
  (∀ p, cstr (sm w) p text → Q p w) → wp (Env.StringGet empty_literal) Q w.
Proof.
  intros Hw He HQ. unfold Env.StringGet, CString.StringGet. wp_step. apply wp_gets.
  destruct (CString.m_pBuffer (str w)) as [p|] eqn:E; apply wp_ret, HQ; [by eapply holds_bstr|].
  pose proof Hw as (_ & _ & [(_ & _ & ->)|(b & bs & E' & _)]); [by eapply holds_other|congruence].
Qed.

(** The text from its formatting to its end of line. *)
Lemma wp_log_text sv B fmt fmtl args text sev s R C t (Q : outcome → Log → Prop) :
  mem_wf (log_mem s) → blocks (log_mem s) = B → bstr B fmt fmtl → bstr B empty_literal [] → args_ok sv B args →
  render sv (S (length fmtl)) fmtl args = Some text → Z.of_nat (length text) < 4294967000 → printable text → ready R C t s →
  (∀ w s', holds B text w → log_mem s' = sm w → log_masked s' = log_masked s →
     ready R C (execs R C (map Print text ++ (if sev =? LogPanic then [Colour 0] else []) ++ [NewLine]) t) s' →
     wp (if sev =? LogPanic then modify (λ s, s <| log_masked := true |>) ;; mret Waits
         else on_local Env._String (str w) ;; mret Returns) Q s') →
  wp ('(_, Message) ← on_local (Env.String ;; Env.StringFormatV fmt args) (Build_TString None 0 None);
      '(p, Message) ← on_local (Env.StringGet empty_literal) Message;
      LoggerWrite2 p ;;
      log_tail sev ;;
      if sev =? LogPanic then modify (λ s, s <| log_masked := true |>) ;; mret Waits
      else on_local Env._String Message ;; mret Returns) Q s.
Proof.
  intros Hm HB Hfmt Hemp Hargs Hren Htl Hxp Hr HQ.
  wp_step. unfold on_local at 1. eapply wp_zoom; [done|]. wp_step. wp_step. unfold Env.String, CString.String.
  apply wp_set_str. eapply wp_mono; [eapply (wp_StringFormatV sv B [] fmt fmtl args text)|]; [|done..|].
  { split_and!; [done|constructor|by left]. }
  intros [] w Hw. wp_step. apply wp_gets. apply wp_ret. cbv beta iota.
  wp_step. unfold on_local at 1. eapply wp_zoom; [done|]. wp_step.
  assert (Build_SW (str w) (log_mem (s <| log_mem := sm w |>)) = w) as -> by (by destruct w).
  eapply wp_text; [exact Hw|exact Hemp|]. intros p Hp. wp_step. apply wp_gets. apply wp_ret. cbv beta iota.
  set (s2 := s <| log_mem := sm w |> <| log_mem := sm w |>).
  assert (ready R C t s2) as Hr2 by exact Hr.
  wp_step. eapply wp_mono; [eapply (writes_string p text s2); [exact Hp|lia|exact Hxp|exact Hr2]|]. intros [] s3 [Hr3 Ho3].
  wp_step. eapply wp_mono; [apply (writes_tail sev s3 _ _ _ Hr3)|]. intros [] s4 [Hr4 Ho4].
  rewrite <- execs_app in Hr4. destruct (only_screen_same _ _ Ho3) as (E1 & _ & E2). destruct (only_screen_same _ _ Ho4) as (E3 & _ & E4).
  apply HQ; [exact Hw|by rewrite E3, E1|by rewrite E4, E2|exact Hr4].
Qed.

(** C39. A message that the level of the logger lets through: the time, the source
    and the formatted text appear on the screen, on a line of their own, in a
    panic highlighted; the memory of the message is given back and nothing else
    in memory changes. A panic never returns and masks the interrupts. What the
    level keeps out leaves no trace. *)
Theorem log_message sv src srcl sev fmt fmtl args text time s t :
  (∀ s', TimerGetTimeString s' = Ok (time, s')) → (∀ l, time = Some l → printable l) →
  mem_wf (log_mem s) → bstr (blocks (log_mem s)) src srcl → bstr (blocks (log_mem s)) fmt fmtl →
  bstr (blocks (log_mem s)) empty_literal [] → args_ok sv (blocks (log_mem s)) args →
  render sv (S (length fmtl)) fmtl args = Some text → Z.of_nat (length text) < 4294967000 →
  Z.of_nat (length srcl) < 2 ^ 32 → printable srcl → printable text →
  m_pTarget (logger s) = true → shows (log_screen s) t true → m_nState (log_screen s) = ScreenStateStart →
  if m_nLogLevel (logger s) <? sev then LoggerWriteV src sev fmt args s = Ok (Returns, s)
  else wp (LoggerWriteV src sev fmt args) (λ r s',
    shows (log_screen s') (execs (lines (log_screen s)) (columns (log_screen s))
      (message sev (if m_pTimer (logger s) then time else None) srcl text) t) true ∧
    m_nState (log_screen s') = ScreenStateStart ∧
    if sev =? LogPanic then r = Waits ∧ log_masked s' = true
    else r = Returns ∧ log_masked s' = log_masked s ∧ blocks (log_mem s') = blocks (log_mem s)) s.
Proof.
  intros Htime Htp Hm Hsrc Hfmt Hemp Hargs Hren Htl Hsl Hsp Hxp Htgt Hsh Hst.
  set (R := lines (log_screen s)). set (C := columns (log_screen s)). set (B := blocks (log_mem s)) in *.
  assert (ready R C t s) as Hr by done.
  unfold LoggerWriteV. destruct (Z.ltb_spec (m_nLogLevel (logger s)) sev); [by rewrite (bind_ok _ _ _ (logger s) s) by done; rewrite (proj2 (Z.ltb_lt _ _)) by done|].
  wp_step. apply wp_gets. rewrite (proj2 (Z.ltb_ge _ _)) by done. wp_step.
  eapply wp_mono; [eapply (writes_head sev time src srcl s); [done| |done|done|done|exact Hr]|].
  { by eapply bstr_cstr. }
  intros [] s1 [Hr1 Ho1]. destruct (only_screen_same _ _ Ho1) as (E1 & E2 & E3). cbv zeta.
  eapply (wp_log_text sv B fmt fmtl args text sev s1); [by rewrite E1|by rewrite E1|done..|].
  intros w s' Hw Ew Emask Hr'. rewrite <- execs_app in Hr'.
  assert (execs R C (message sev (if m_pTimer (logger s) then time else None) srcl text) t =
    execs R C ((((if sev =? LogPanic then [Colour 1] else []) ++
      (if m_pTimer (logger s) then match time with Some l => map Print l ++ [Print 32] | None => [] end else []) ++
      map Print srcl ++ [Print 58; Print 32])) ++
      map Print text ++ (if sev =? LogPanic then [Colour 0] else []) ++ [NewLine]) t) as ->.
  { unfold message. rewrite <- !app_assoc. by destruct (m_pTimer (logger s)). }
  destruct Hr' as (_ & Hsh' & Hst' & _). destruct (sev =? LogPanic).
  - wp_step. apply wp_modify. by apply wp_ret.
  - wp_step. unfold on_local. eapply wp_zoom; [done|]. wp_step. unfold Env._String.
    rewrite Ew. replace (Build_SW (str w) (sm w)) with w by (by destruct w).
    eapply wp_dtor; [exact Hw|]. intros w' HB _. wp_step. apply wp_gets. apply wp_ret. cbv beta iota. apply wp_ret.
    split_and!; [exact Hsh'|exact Hst'|done|by rewrite <- E3|exact HB].
Qed.

End Logger.

Module LogDemo.
(** The source k, the format %u and the empty literal in memory; no timer. *)
Definition words : mem := Mem
  (<[0%nat := map Some [107; 0]]> (<[1%nat := map Some [37; 117; 0]]> (<[2%nat := map Some [0]]> ∅))) 3.
Definition no_time : M Log (option (list Z)) := mret None.
Definition start : Log := {| s_pThis := true; logger := {| m_nLogLevel := LogDebug; m_pTimer := false; m_pTarget := true |};
  log_screen := ScreenDevice TermDemo.garbage 0 0; log_mem := words; log_masked := false |}.

(** The line is longer than the screen and ends at its end: what is left of it
    stands in the first line. *)
Lemma log_message_witness :
  wp (on_target (ScreenDeviceInitialize None TermDemo.gpu TermDemo.memory) ;;
      LoggerWriteV no_time (Ptr 2 0) (Ptr 0 0) LogError (Ptr 1 0) [Word32 42])
    (λ r s', r = Returns ∧ blocks (log_mem s') = blocks words ∧ m_nCursorX (log_screen s') = 0 ∧ m_nCursorY (log_screen s') = 19 ∧
       ∀ x y, 0 <= x < 8 → 0 <= y < 16 → px (log_screen s') (Screen.m_pBuffer (log_screen s')) x y = if glyph 50 x y then NORMAL_COLOR else 0) start.
Proof.
  wp_step. unfold on_target. eapply wp_zoom; [done|].
  eapply wp_mono; [apply (screen_starts None TermDemo.gpu TermDemo.memory TermDemo.garbage 0 0); intros info; split; [reflexivity|exact TermDemo.small_ok]|].
  intros ok scr (_ & Hsh & Hst & info & HW & HH).
  set (s := start <| log_screen := scr |>).
  assert (wp (LoggerWriteV no_time (Ptr 2 0) (Ptr 0 0) LogError (Ptr 1 0) [Word32 42]) (λ r s',
    shows (log_screen s') (execs (lines (log_screen s)) (columns (log_screen s)) (message LogError None [107] [52; 50]) empty_term) true ∧
    m_nState (log_screen s') = ScreenStateStart ∧
    r = Returns ∧ log_masked s' = log_masked s ∧ blocks (log_mem s') = blocks (log_mem s)) s) as Hlog.
  { apply (log_message no_time (Ptr 2 0) (λ _, []) (Ptr 0 0) [107] LogError (Ptr 1 0) [37; 117] [Word32 42] [52; 50] None s empty_term);
      [done|done| |by split|by repeat split|done|by repeat constructor|reflexivity|done|done| | |done|exact Hsh|exact Hst].
    - intros b Hb. cbn in Hb |- *. by rewrite !lookup_insert_ne by lia.
    - repeat constructor; lia.
    - repeat constructor; lia. }
  eapply wp_mono; [exact Hlog|]. intros r s' (Hsh' & _ & -> & _ & Hb).
  assert (lines scr = 2 ∧ columns scr = 4) as [El Ec] by (unfold lines, columns; by rewrite HW, HH).
  change (log_screen s) with scr in Hsh'. rewrite El, Ec in Hsh'. destruct Hsh' as [Hok _ Hr Hlr Hc _ _ _ _ Hpx].
  split_and!; [done|exact Hb|exact Hc|exact Hr|]. intros x y Hx Hy.
  pose proof (so_used _ Hok) as Hu. pose proof (so_width _ Hok) as Hwd. pose proof (so_height _ Hok) as Hht.
  rewrite Hpx by (unfold on_screen; lia). unfold pixel.
  replace (y / 19) with 0 by lia. replace (x / 8) with 0 by lia.
  replace (true && visible _ && _ && _ && _) with false by reflexivity. unfold grid_pixel.
  replace (y / 19) with 0 by lia. replace (x / 8) with 0 by lia. replace (x mod 8) with x by lia.
  by replace (y mod 19) with y by lia.
Defined.
End LogDemo.
